(* ===== verification/_CoqProject ===== *)
-Q . S2P
Prelude.v
CLib.v
Endian.v
Backoff.v
PeerPath.v
Routes.v
Blake2s.v
Replay.v
Crypto.v
WGPeer.v
NaClBox.v
Stun.v
Disco.v
MagicSock.v
Noise.v
Identity.v
Control.v
Tls.v
TlsClient.v
ControlConn.v
ControlClient.v
Hpack.v
RecordConn.v
Http2.v
MapStream.v
Json.v
Netmap.v
PeerSet.v
MagicDns.v
ControlSession.v
SessionState.v
Derp.v
TsPlane.v
TsPlaneProofs.v
TsDelivery.v
Message.v
Profiles.v
Centroids.v
Catalogue.v
MapWindow.v
TileCache.v
Configs.v
ConfigProofs.v
Tun.v
TsRouting.v
TsBackend.v
TsBackendProofs.v
OvpnMgmt.v
Daemon.v
OvpnBackend.v
OvpnBackendProofs.v
OvpnSession.v
WgBackend.v
WgBackendProofs.v
Server.v
ServerProofs.v
CatalogueProofs.v
Cli.v
Windows.v
MainWindow.v
MainWindowProofs.v
