(* ===== verification/Prelude.v ===== *)
(** * Sotoportego: a verification development

    Sotoportego is a VPN client for Haiku.  A daemon (src/server) owns the
    session; it drives one of three backends (src/backend): WireGuard and
    Tailscale, which speak their protocols themselves, and OpenVPN, which runs
    the openvpn program and talks to its management socket.  Clients (the
    window of src/gui, the tool of src/cli) reach the daemon only through
    BMessages.  This library translates that code into definitions and proves
    what makes each part, and the parts together, correct.

    ** Conventions

    Bytes and characters are [Z]; buffers and strings are [bytes] (a string has
    no terminating NUL in the model; where a C function stops at the first one,
    [cstr] says so).  A machine integer is a [Z] with the wrap-around written
    out ([u8] to [u64], [s32], [s64]).  C++ member functions keep their names
    and take the object last; functions that can fail return an option, a
    status or a sum, with the object as the failure leaves it.  Everything the
    code asks the outside for (clocks, random draws, sockets, files, child
    processes, the user's clicks) is an argument, one value per call in the
    order of the code, so a theorem quantifies over what the outside may do.
    Threads and loopers are steps on one state: a step runs from one blocking
    call to the next, and a run is a list of steps in any order; messages
    posted wait in an explicit queue.

    ** The parts

    Shared ground.  Prelude: scope, machine integers, list and status lemmas,
    the tactics [zcases], [len] and the hint databases [soto], [soto_len].
    CLib: the C and BString functions the source calls.  Endian: its load and
    store helpers.  Message: BMessage.

    The Tailscale protocol stack (src/backend/tailscale, one file per class or
    pair of classes):
    - Backoff (TSBackoff), PeerPath (PeerPath), Routes (TSRoutes and
      common/WireGuardRoutes): reconnect delays, the relay-then-direct path of
      a peer, route planning.
    - Blake2s and Crypto (WireGuardCrypto), NaClBox, Noise (TSNoise), Replay
      and WGPeer (WGPeer): the cryptographic code and the WireGuard peer.
      X25519 and ChaCha20-Poly1305 are OpenSSL's: class [OpenSSL], with its
      documented laws [OpenSSLLaws] and an instance [Toy] that has them.
    - Stun, Disco, MagicSock: path probing on the shared UDP socket.
    - Identity, Control, Tls, TlsClient, ControlConn, ControlClient, Hpack, RecordConn,
      Http2, MapStream, Json, ControlSession: from the node keys to the stream
      of network-map messages.  [RecordConn] and [BodySource] are the
      interfaces between the record layer, HTTP/2 and the map stream; each
      client is proved against the class and each layer discharges it.
    - Netmap, PeerSet, MagicDns, SessionState: what a network map means.
    - Derp: the relay client.
    - TsPlane, TsRouting, TsBackend (all TailscaleBackend.cpp): the data plane,
      the tun slot with its routes and exit node, the lifecycle with its
      control worker.  TsPlaneProofs, TsDelivery and TsBackendProofs hold their
      theorems.  [RouteTable] (Tun) is the host's route table as the route
      command changes it.

    The other backends.  Tun (TunDevice): the commands the helpers run.
    Configs (WireGuardConfigParser, OpenVPNConfigParser, TSConfig), with
    ConfigProofs.  WgBackend (WireGuardBackend), with WgBackendProofs.
    OvpnMgmt (OpenVPNManagement), OvpnBackend (OpenVPNBackend), with
    OvpnBackendProofs and OvpnSession.

    The daemon and its clients.  Profiles (VPNProtocol.h, VPNState, VPNProfile,
    VPNStats, ProfileStore), Centroids (CountryCentroids), Catalogue
    (VPNGateFetcher, GeoLookup), Daemon (the class [VPNBackend] and the
    daemon's helper functions), Server (SotoportegoServer: one function per
    handler, [MessageReceived] dispatches), with ServerProofs and
    CatalogueProofs; MapWindow (MapView, MetricPill, VPNMapWindow), TileCache,
    Cli (src/cli/main.cpp), Windows (the dialogs, PeersWindow, TopologyWindow,
    DeskbarIcon) and MainWindow, with MainWindowProofs.

    ** What the theorems show

    - Sessions end and leave nothing behind: [disconnect_is_final],
      [countdown_fires], [reconnect_budget] for the daemon;
      [session_restores_host], [down_holds_nothing], [disconnect_completes] for
      WireGuard; [session_or_crash_restores], [connecting_ends],
      [Connect_reports], [states_are_states] for OpenVPN;
      [tailnet_disconnect_completes], [tailnet_restores_routes],
      [tailnet_reports_truly], [exit_node_pins_underlay] for Tailscale.
    - Packets reach the other side: [handshake_agreement],
      [transport_roundtrip], [handshake_with_wgpeer], [tailnet_delivery],
      [relay_delivers]; and only the right one: [direct_only_after_pong],
      [FindByAllowedIP_longest_prefix], [replay_window_refines_spec].
    - Primitives compute what their documents define:
      [streaming_hash_refines_blake2s], [onetimeauth_refines_poly1305],
      [noise_IK_agreement].
    - Formats round-trip, whatever pieces the bytes arrive in:
      [headers_roundtrip], [Request_response], [deframing_exact],
      [Parse_complete], [config_roundtrip], [commands_are_lines].
    - State mirrors its source: [Parse_refines_map], [Update_mirrors],
      [session_shows_map], [store_survives_restart].
    - The clients: [catalogue_reaches_map], [picked_server_is_dialled],
      [click_badge_list_agree], [tiles_stay_bounded], [command_line_verdict],
      [rejected_password_is_dropped], [imported_profile_is_selected],
      [window_follows_daemon], [picked_exit_node_is_set].
    Besides these each file proves its component's own facts; where the code
    departs from what its comments or callers expect, an Example runs it.

    ** Fuel and bounds

    A loop that is not structural takes fuel, and the fuel is tied to what the
    loop consumes: the length of the text or buffer (Json's parser gets twice
    the length plus two, [parse_fuel_enough]; Hpack and MagicDns move on by at
    least a byte per turn; the fill loops of ControlConn and MapStream get the
    length they were asked for, each read delivering a byte), the number of
    entries (the pruning loops of TileCache), or the slices of a sleep
    (TsBackend, [sleep_loop_ends]).  Reading the upgrade response is bounded by
    the buffer's 8192 bytes and following a response by 100000 frames
    ([Http2.frame_budget]) in the code itself; Derp's fill loop gets the bytes
    it needs plus the reads that can come back without any.  [Request_response]
    and [relay_delivers] prove that the call returns its result.  The other
    bounds (message sizes, fifty management polls, five reconnect attempts, 63
    stray datagrams, 100 tiles) are the code's constants.

    ** Not modelled

    - Operating-system calls, openvpn, curl, ifconfig, route, OpenSSL, Haiku's
      kits: their answers are arguments, as said above.
    - Log lines and error texts that nothing reads, except where a client
      receives them.
    - Of src/gui: layout, drawing, the About box and the easter egg, hovering
      and animation, and the map's projection and camera, which are calls into
      the Interface Kit and floating-point geometry.  SotoportegoApp only opens
      the main window and forwards two scripting commands to it.
    - Generated data (coastlines, icons) and the repository's own tests. *)

From Stdlib Require Import Ascii String.
From Stdlib Require Export ZArith Lia Bool.
From stdpp Require Export base tactics list numbers option strings.

(** ** Scope and notations *)

Declare Scope soto_scope.
Delimit Scope soto_scope with soto.

Abbreviation bytes := (list Z).

Notation "x .& y" := (Z.land x y) (at level 40, left associativity) : soto_scope.
Notation "x .| y" := (Z.lor x y) (at level 50, left associativity) : soto_scope.
Notation "x .^ y" := (Z.lxor x y) (at level 50, left associativity) : soto_scope.

Open Scope Z_scope.
Open Scope soto_scope.

(** ** Machine integers

    An unsigned w-bit integer is a [Z] in [0, 2^w); the wrap-around of C++
    unsigned arithmetic is the modulus, written out where the source computes
    at that width.  [s32] and [s64] are the two's-complement conversions. *)

Definition u8 (x : Z) : Z := x mod 2 ^ 8.
Definition u16 (x : Z) : Z := x mod 2 ^ 16.
Definition u32 (x : Z) : Z := x mod 2 ^ 32.
Definition u64 (x : Z) : Z := x mod 2 ^ 64.
Definition s32 (x : Z) : Z := (x + 2 ^ 31) mod 2 ^ 32 - 2 ^ 31.
Definition s64 (x : Z) : Z := (x + 2 ^ 63) mod 2 ^ 64 - 2 ^ 63.

Definition is_byte (b : Z) : Prop := 0 <= b < 256.
Definition is_bytes (l : bytes) : Prop := Forall is_byte l.

(** ** Buffers

    A C array or a std::vector of bytes is the list of its bytes; a size_t or
    an offset is a [Z].  [rd] and [memcpy_from] are the accesses the source
    makes: [None] is an access outside the buffer (undefined behaviour), which
    the safety theorems exclude. *)

Definition zlen {A} (l : list A) : Z := Z.of_nat (length l).
Definition ztake {A} (n : Z) (l : list A) : list A := take (Z.to_nat n) l.
Definition zdrop {A} (n : Z) (l : list A) : list A := drop (Z.to_nat n) l.
Definition slice {A} (off n : Z) (l : list A) : list A := ztake n (zdrop off l).
Definition zeros (n : Z) : bytes := replicate (Z.to_nat n) 0.

Definition rd (buf : bytes) (i : Z) : option Z :=
  if 0 <=? i then buf !! Z.to_nat i else None.

Definition memcpy_from (buf : bytes) (off n : Z) : option bytes :=
  if (0 <=? off) && (0 <=? n) && (off + n <=? zlen buf)
  then Some (slice off n buf) else None.

(** [buf[i]] where the index is known to be in range. *)
Definition at_ (buf : bytes) (i : Z) : Z := nth (Z.to_nat i) buf 0.

(** Equality of two byte strings (memcmp, strcmp, BString and std::string ==). *)
Definition beq (a b : bytes) : bool := bool_decide (a = b).

(** A C string literal as its bytes. *)
Definition bs (s : string) : bytes := map (fun c => Z.of_nat (nat_of_ascii c)) (list_ascii_of_string s).

(** ** Haiku status codes returned by the modelled functions *)

Inductive status : Type :=
| B_OK | B_ERROR | B_BAD_VALUE | B_BAD_DATA | B_NO_INIT | B_IO_ERROR
| B_WOULD_BLOCK | B_ENTRY_NOT_FOUND | B_NOT_ALLOWED | B_NOT_SUPPORTED
| B_TIMED_OUT | B_CANCELED | B_NAME_NOT_FOUND | B_NO_MEMORY.

#[export] Instance status_eq_dec : EqDecision status.
Proof. solve_decision. Defined.

(** ** Machine-integer facts *)

Lemma u8_range x : is_byte (u8 x).
Proof. unfold is_byte, u8. apply Z.mod_pos_bound. lia. Qed.

Lemma u8_small x : is_byte x -> u8 x = x.
Proof. unfold is_byte, u8. intros. apply Z.mod_small. lia. Qed.

Lemma u16_range x : 0 <= u16 x < 2 ^ 16.
Proof. apply Z.mod_pos_bound. lia. Qed.

Lemma u32_range x : 0 <= u32 x < 2 ^ 32.
Proof. apply Z.mod_pos_bound. lia. Qed.

Lemma u64_range x : 0 <= u64 x < 2 ^ 64.
Proof. apply Z.mod_pos_bound. lia. Qed.

Lemma u16_small x : 0 <= x < 2 ^ 16 -> u16 x = x.
Proof. apply Z.mod_small. Qed.

Lemma u32_small x : 0 <= x < 2 ^ 32 -> u32 x = x.
Proof. apply Z.mod_small. Qed.

Lemma u64_small x : 0 <= x < 2 ^ 64 -> u64 x = x.
Proof. apply Z.mod_small. Qed.

Lemma s64_small x : - 2 ^ 63 <= x < 2 ^ 63 -> s64 x = x.
Proof. intros. unfold s64. rewrite Z.mod_small; lia. Qed.

Lemma s32_small x : - 2 ^ 31 <= x < 2 ^ 31 -> s32 x = x.
Proof. intros. unfold s32. rewrite Z.mod_small; lia. Qed.

Lemma s64_range x : - 2 ^ 63 <= s64 x < 2 ^ 63.
Proof. unfold s64. pose proof (Z.mod_pos_bound (x + 2 ^ 63) (2 ^ 64)). lia. Qed.

(** Bits above the width of [a] are free: [|] is then [+]. *)
Lemma lor_shiftl_add a b k :
  0 <= k -> 0 <= a < 2 ^ k -> Z.lor a (Z.shiftl b k) = a + b * 2 ^ k.
Proof.
  intros Hk Ha. rewrite <- Z.shiftl_mul_pow2 by lia.
  symmetry. apply Z.add_nocarry_lor.
  apply Z.bits_inj'. intros n Hn. rewrite Z.land_spec, Z.bits_0.
  destruct (Z.lt_ge_cases n k).
  - rewrite Z.shiftl_spec_low by lia. apply andb_false_r.
  - rewrite <- (Z.mod_small a (2 ^ k)) by lia.
    rewrite Z.mod_pow2_bits_high by lia. reflexivity.
Qed.

Lemma lor_shiftl_add_l a b k :
  0 <= k -> 0 <= a < 2 ^ k -> Z.lor (Z.shiftl b k) a = b * 2 ^ k + a.
Proof. intros. rewrite Z.lor_comm, lor_shiftl_add by lia. lia. Qed.

Lemma land_ones_mod x k : 0 <= k -> Z.land x (2 ^ k - 1) = x mod 2 ^ k.
Proof. intros. rewrite <- Z.land_ones, Z.ones_equiv by lia. do 2 f_equal. Qed.

(** The operands' width is the result's. *)
Lemma lxor_range k a b : 0 <= k -> 0 <= a < 2 ^ k -> 0 <= b < 2 ^ k -> 0 <= Z.lxor a b < 2 ^ k.
Proof.
  intros Hk Ha Hb. destruct (Z.eq_dec a 0) as [->|]; [by rewrite Z.lxor_0_l|].
  destruct (Z.eq_dec b 0) as [->|]; [by rewrite Z.lxor_0_r|].
  pose proof (proj2 (Z.lxor_nonneg a b) ltac:(lia)). split; [done|].
  destruct (Z.eq_dec (Z.lxor a b) 0) as [->|]; [lia|]. apply Z.log2_lt_pow2; [lia|].
  pose proof (Z.log2_lxor a b ltac:(lia) ltac:(lia)).
  pose proof (proj1 (Z.log2_lt_pow2 a k ltac:(lia))). pose proof (proj1 (Z.log2_lt_pow2 b k ltac:(lia))). lia.
Qed.

(** ** Buffer facts *)

Lemma zlen_nonneg {A} (l : list A) : 0 <= zlen l.
Proof. unfold zlen. lia. Qed.

Lemma zlen_nil {A} : zlen (@nil A) = 0.
Proof. reflexivity. Qed.

Lemma zlen_cons {A} (x : A) l : zlen (x :: l) = zlen l + 1.
Proof. unfold zlen. simpl. lia. Qed.

Lemma zlen_app {A} (l k : list A) : zlen (l ++ k) = zlen l + zlen k.
Proof. unfold zlen. rewrite length_app. lia. Qed.

Lemma zlen_map {A B} (f : A -> B) l : zlen (map f l) = zlen l.
Proof. unfold zlen. rewrite length_map. reflexivity. Qed.

Lemma zlen_zeros n : 0 <= n -> zlen (zeros n) = n.
Proof. unfold zlen, zeros. rewrite length_replicate. lia. Qed.

Lemma zlen_ztake {A} n (l : list A) : 0 <= n <= zlen l -> zlen (ztake n l) = n.
Proof. unfold zlen, ztake. rewrite length_take. lia. Qed.

Lemma zlen_zdrop {A} n (l : list A) : 0 <= n <= zlen l -> zlen (zdrop n l) = zlen l - n.
Proof. unfold zlen, zdrop. rewrite length_drop. lia. Qed.

Lemma zlen_slice {A} off n (l : list A) :
  0 <= off -> 0 <= n -> off + n <= zlen l -> zlen (slice off n l) = n.
Proof.
  intros. unfold slice. rewrite zlen_ztake; [done|].
  rewrite zlen_zdrop; lia.
Qed.

Lemma zlen_0_nil {A} (l : list A) : zlen l = 0 -> l = [].
Proof. destruct l; [done|]. rewrite zlen_cons. pose proof (zlen_nonneg l). lia. Qed.

Lemma ztake_app {A} n (l k : list A) : n = zlen l -> ztake n (l ++ k) = l.
Proof. intros ->. unfold ztake, zlen. rewrite Nat2Z.id. apply take_app_length. Qed.

Lemma zdrop_app {A} n (l k : list A) : n = zlen l -> zdrop n (l ++ k) = k.
Proof. intros ->. unfold zdrop, zlen. rewrite Nat2Z.id. apply drop_app_length. Qed.

Lemma ztake_all {A} n (l : list A) : n = zlen l -> ztake n l = l.
Proof. intros ->. unfold ztake, zlen. rewrite Nat2Z.id. apply firstn_all. Qed.

Lemma zdrop_all {A} n (l : list A) : n = zlen l -> zdrop n l = [].
Proof. intros ->. unfold zdrop, zlen. rewrite Nat2Z.id. apply drop_all. Qed.

Lemma zdrop_0 {A} (l : list A) : zdrop 0 l = l.
Proof. reflexivity. Qed.

Lemma ztake_zdrop {A} n (l : list A) : ztake n l ++ zdrop n l = l.
Proof. apply take_drop. Qed.

Lemma ztake_app_ge {A} n (l k : list A) : zlen l <= n -> ztake n (l ++ k) = l ++ ztake (n - zlen l) k.
Proof.
  intros. unfold ztake, zlen in *. rewrite take_app_ge by lia. do 2 f_equal. lia.
Qed.

Lemma zdrop_app_ge {A} n (l k : list A) : zlen l <= n -> zdrop n (l ++ k) = zdrop (n - zlen l) k.
Proof. intros. unfold zdrop, zlen in *. rewrite drop_app_ge by lia. f_equal. lia. Qed.

Lemma zdrop_app_le {A} n (l k : list A) : 0 <= n <= zlen l -> zdrop n (l ++ k) = zdrop n l ++ k.
Proof. intros. unfold zdrop, zlen in *. by rewrite drop_app_le by lia. Qed.

Lemma ztake_app_le {A} n (l k : list A) : 0 <= n <= zlen l -> ztake n (l ++ k) = ztake n l.
Proof. intros. unfold ztake, zlen in *. by rewrite take_app_le by lia. Qed.

Lemma zlen_replicate {A} k (x : A) : zlen (replicate k x) = Z.of_nat k.
Proof. unfold zlen. by rewrite length_replicate. Qed.

Lemma zdrop_zdrop {A} n m (l : list A) :
  0 <= n -> 0 <= m -> zdrop n (zdrop m l) = zdrop (m + n) l.
Proof. intros. unfold zdrop. rewrite drop_drop. f_equal. lia. Qed.

Lemma slice_app_r {A} off n (l k : list A) :
  zlen l <= off -> 0 <= n -> slice off n (l ++ k) = slice (off - zlen l) n k.
Proof.
  intros. unfold slice, ztake, zdrop, zlen in *. rewrite drop_app_ge by lia.
  do 2 f_equal. lia.
Qed.

Lemma slice_app_l {A} off n (l k : list A) :
  off = zlen l -> n = zlen k -> slice off n (l ++ k) = k.
Proof. intros -> ->. unfold slice. rewrite zdrop_app, ztake_all; done. Qed.

Lemma slice_app_mid {A} off n (l m k : list A) :
  off = zlen l -> n = zlen m -> slice off n (l ++ m ++ k) = m.
Proof. intros -> ->. unfold slice. rewrite zdrop_app, ztake_app; done. Qed.

Lemma slice_app_take {A} off n (l k : list A) :
  0 <= off -> 0 <= n -> off + n <= zlen l -> slice off n (l ++ k) = slice off n l.
Proof.
  intros. unfold slice, ztake, zdrop, zlen in *.
  rewrite drop_app_le, take_app_le; [done|rewrite length_drop; lia|lia].
Qed.

Lemma is_bytes_app l k : is_bytes (l ++ k) <-> is_bytes l /\ is_bytes k.
Proof. apply Forall_app. Qed.

Lemma is_bytes_take n l : is_bytes l -> is_bytes (ztake n l).
Proof. apply Forall_take. Qed.

Lemma is_bytes_drop n l : is_bytes l -> is_bytes (zdrop n l).
Proof. apply Forall_drop. Qed.

Lemma is_bytes_slice off n l : is_bytes l -> is_bytes (slice off n l).
Proof. intros. apply is_bytes_take, is_bytes_drop. done. Qed.

Lemma is_bytes_zeros n : is_bytes (zeros n).
Proof. apply Forall_replicate. unfold is_byte. lia. Qed.

Lemma bs_bytes s : is_bytes (bs s).
Proof.
  unfold bs. induction (list_ascii_of_string s) as [|c l IH]; simpl; constructor; [|done].
  pose proof (nat_ascii_bounded c). unfold is_byte. lia.
Qed.

Lemma rd_Some buf i : 0 <= i < zlen buf -> rd buf i = Some (at_ buf i).
Proof.
  intros. unfold rd, at_. destruct (Z.leb_spec 0 i); [|lia].
  rewrite nth_lookup. destruct (lookup_lt_is_Some_2 buf (Z.to_nat i)) as [x Hx].
  { unfold zlen in *. lia. }
  rewrite Hx. done.
Qed.

Lemma at_byte buf i : is_bytes buf -> is_byte (at_ buf i).
Proof.
  intros Hb. unfold at_. rewrite nth_lookup.
  destruct (buf !! Z.to_nat i) eqn:E; simpl.
  - eapply Forall_lookup_1 in Hb; eauto.
  - unfold is_byte. lia.
Qed.

Lemma zlen_seqZ a n : 0 <= n -> zlen (seqZ a n) = n.
Proof. intros. unfold zlen. rewrite length_seqZ. lia. Qed.

Lemma at_map_seqZ f n i : 0 <= i < n -> at_ (map f (seqZ 0 n)) i = f i.
Proof.
  intros. unfold at_. rewrite nth_lookup, list_lookup_fmap, lookup_seqZ_lt by lia.
  simpl. f_equal. lia.
Qed.

Lemma at_app_r i l k : zlen l <= i -> at_ (l ++ k) i = at_ k (i - zlen l).
Proof.
  intros. unfold at_, zlen in *. rewrite app_nth2 by lia. f_equal. lia.
Qed.

Lemma at_app_l i l k : 0 <= i < zlen l -> at_ (l ++ k) i = at_ l i.
Proof. intros. unfold at_, zlen in *. rewrite app_nth1 by lia. done. Qed.

Lemma at_zdrop n i l : 0 <= n -> 0 <= i -> at_ (zdrop n l) i = at_ l (n + i).
Proof.
  intros. unfold at_, zdrop. rewrite !nth_lookup, lookup_drop. do 2 f_equal. lia.
Qed.

Lemma at_ztake n i l : 0 <= i < n -> at_ (ztake n l) i = at_ l i.
Proof. intros. unfold at_, ztake. rewrite !nth_lookup, lookup_take_lt by lia. done. Qed.

Lemma at_zeros n i : at_ (zeros n) i = 0.
Proof.
  unfold at_, zeros. rewrite nth_lookup. destruct (replicate _ _ !! _) eqn:E; [|done].
  by apply lookup_replicate in E as [-> _].
Qed.

Lemma at_ext (l k : bytes) :
  zlen l = zlen k -> (forall i, 0 <= i < zlen l -> at_ l i = at_ k i) -> l = k.
Proof.
  unfold zlen. intros Hl He. apply (nth_ext l k 0 0); [lia|]. intros n Hn.
  specialize (He (Z.of_nat n) ltac:(lia)). unfold at_ in He. by rewrite Nat2Z.id in He.
Qed.

Lemma memcpy_from_Some buf off n :
  0 <= off -> 0 <= n -> off + n <= zlen buf ->
  memcpy_from buf off n = Some (slice off n buf).
Proof.
  intros. unfold memcpy_from.
  destruct (Z.leb_spec 0 off), (Z.leb_spec 0 n), (Z.leb_spec (off + n) (zlen buf));
    simpl; first [done | lia].
Qed.

Lemma beq_refl a : beq a a = true.
Proof. apply bool_decide_eq_true. done. Qed.

Lemma beq_true a b : beq a b = true <-> a = b.
Proof. apply bool_decide_eq_true. Qed.

Lemma beq_false a b : beq a b = false <-> a <> b.
Proof. apply bool_decide_eq_false. Qed.

(** A decidable fact about every byte is checked byte by byte. *)
Definition all_bytes : bytes := map Z.of_nat (seq 0 256).

Lemma byte_forall (P : Z -> bool) b : forallb P all_bytes = true -> is_byte b -> P b = true.
Proof.
  intros H Hb. rewrite forallb_forall in H. apply H. unfold all_bytes. apply in_map_iff.
  exists (Z.to_nat b). unfold is_byte in Hb. split; [lia|]. apply in_seq. lia.
Qed.

(** ** Automation *)

Create HintDb soto.
#[export] Hint Resolve u8_range zlen_nonneg is_bytes_take is_bytes_drop
  is_bytes_slice is_bytes_zeros at_byte : soto.
Create Rewrite HintDb soto_len.
#[export] Hint Rewrite @zlen_nil @zlen_cons @zlen_app @zlen_map : soto_len.
#[export] Hint Rewrite @zlen_zeros using lia : soto_len.

(** Lengths of concrete and concatenated buffers, then arithmetic. *)
Ltac len := autorewrite with soto_len in *; lia.

(** Case split on the boolean guards of a handler. *)
Ltac bdestruct_step :=
  match goal with
  | |- context [Z.leb ?a ?b] => destruct (Z.leb_spec a b)
  | |- context [Z.ltb ?a ?b] => destruct (Z.ltb_spec a b)
  | |- context [Z.eqb ?a ?b] => destruct (Z.eqb_spec a b)
  | |- context [Z.gtb ?a ?b] => rewrite (Z.gtb_ltb a b)
  | |- context [Z.geb ?a ?b] => rewrite (Z.geb_leb a b)
  end.
Ltac zcases := repeat (bdestruct_step; simpl in *; try lia).
