(* ===== verification/CLib.v ===== *)
(** * CLib: the C and C++ library text functions the source uses

    ctype, strtol/atoi, sscanf's [%u], snprintf's [%u], and the searching
    members of std::string and BString, on byte strings.  A string is the list
    of its bytes, without the terminating NUL. *)

From S2P Require Import Prelude.
Open Scope Z_scope.

(** ** Characters (the C locale) *)

Definition isspace (c : Z) : bool := (c =? 32) || ((9 <=? c) && (c <=? 13)).
Definition isdigit (c : Z) : bool := (48 <=? c) && (c <=? 57).
Definition isalpha (c : Z) : bool :=
  ((65 <=? c) && (c <=? 90)) || ((97 <=? c) && (c <=? 122)).
Definition isalnum (c : Z) : bool := isalpha c || isdigit c.
Definition tolower (c : Z) : Z := if (65 <=? c) && (c <=? 90) then c + 32 else c.

(** The bytes of a [const char*] built from a buffer: up to the first NUL. *)
Fixpoint cstr (l : bytes) : bytes :=
  match l with
  | [] => []
  | c :: l' => if c =? 0 then [] else c :: cstr l'
  end.

(** ** Trimming and searching *)

Fixpoint drop_while (p : Z -> bool) (l : bytes) : bytes :=
  match l with
  | [] => []
  | c :: l' => if p c then drop_while p l' else l
  end.

Definition trim_by (p q : Z -> bool) (l : bytes) : bytes :=
  rev (drop_while q (rev (drop_while p l))).

(** Index of the first [c], if any. *)
Fixpoint find_first (c : Z) (l : bytes) : option Z :=
  match l with
  | [] => None
  | d :: l' => if d =? c then Some 0 else (fun i => i + 1) <$> find_first c l'
  end.

(** Index of the last [c], if any. *)
Definition find_last (c : Z) (l : bytes) : option Z :=
  (fun i => zlen l - 1 - i) <$> find_first c (rev l).

Fixpoint is_prefix (p l : bytes) : bool :=
  match p, l with
  | [], _ => true
  | _, [] => false
  | a :: p', b :: l' => (a =? b) && is_prefix p' l'
  end.

Definition is_suffix (p l : bytes) : bool := is_prefix (rev p) (rev l).

(** Index of the first occurrence of the pattern, if any (strstr). *)
Fixpoint find_sub (p l : bytes) : option Z :=
  if is_prefix p l then Some 0
  else match l with
       | [] => None
       | _ :: l' => (fun i => i + 1) <$> find_sub p l'
       end.

(** ** Reading numbers *)

(** The value of the leading decimal digits, their count and what follows. *)
Fixpoint read_digits (l : bytes) (acc : Z) (n : nat) : Z * nat * bytes :=
  match l with
  | c :: l' => if isdigit c then read_digits l' (acc * 10 + (c - 48)) (S n) else (acc, n, l)
  | [] => (acc, n, [])
  end.

(** Optional sign of the strto* family. *)
Definition read_sign (l : bytes) : bool * bytes :=
  match l with
  | c :: l' => if c =? 45 then (true, l') else if c =? 43 then (false, l') else (false, l)
  | [] => (false, [])
  end.

(** Skip blanks, read a sign and digits: the signed value and the rest, [None]
    when there is no digit (strtol then leaves [end] at the start). *)
Definition read_int (l : bytes) : option (Z * bytes) :=
  let l := drop_while isspace l in
  let '(neg, l) := read_sign l in
  let '(v, n, rest) := read_digits l 0 0 in
  match n with
  | O => None
  | S _ => Some (if neg then - v else v, rest)
  end.

(** strtol, with a 64-bit long, saturating. *)
Definition strtol (l : bytes) : Z * option bytes :=
  match read_int l with
  | None => (0, None)
  | Some (v, rest) => (Z.max (- 2 ^ 63) (Z.min v (2 ^ 63 - 1)), Some rest)
  end.

(** atoi is [(int)strtol(...)]. *)
Definition atoi (l : bytes) : Z := s32 (fst (strtol l)).

(** strtoull: saturates, and negates modulo 2^64 after a minus sign. *)
Definition strtoull (l : bytes) : Z :=
  match read_int l with
  | None => 0
  | Some (v, _) => if Z.abs v <? 2 ^ 64 then u64 v else 2 ^ 64 - 1
  end.

(** One [%u] of sscanf: the conversion of strtoul stored in an unsigned int. *)
Definition scan_u (l : bytes) : option (Z * bytes) :=
  match read_int l with
  | None => None
  | Some (v, rest) => Some (u32 (if Z.abs v <? 2 ^ 64 then v else 2 ^ 64 - 1), rest)
  end.

Definition scan_char (c : Z) (l : bytes) : option bytes :=
  match l with
  | d :: l' => if d =? c then Some l' else None
  | [] => None
  end.

(** [sscanf(s, "%u.%u.%u.%u", ...) == 4]; trailing bytes are ignored. *)
Definition sscanf_ipv4 (l : bytes) : option (Z * Z * Z * Z) :=
  '(a, l) ← scan_u l; l ← scan_char 46 l;
  '(b, l) ← scan_u l; l ← scan_char 46 l;
  '(c, l) ← scan_u l; l ← scan_char 46 l;
  '(d, _) ← scan_u l; Some (a, b, c, d).

(** ** Printing numbers *)

Fixpoint fmt_digits (fuel : nat) (n : Z) (acc : bytes) : bytes :=
  match fuel with
  | O => acc
  | S fuel' =>
      let acc := (48 + n mod 10) :: acc in
      if n <? 10 then acc else fmt_digits fuel' (n / 10) acc
  end.

(** [%u]: one digit per step, and a number has at most [log2 n + 1] of them. *)
Definition fmt_u (n : Z) : bytes := fmt_digits (S (Z.to_nat (Z.log2 n))) n [].

Definition fmt_d (n : Z) : bytes := if n <? 0 then 45 :: fmt_u (- n) else fmt_u n.

Definition fmt_ipv4 (a b c d : Z) : bytes :=
  fmt_u a ++ 46 :: fmt_u b ++ 46 :: fmt_u c ++ 46 :: fmt_u d.

(** ** Facts *)

Definition is_digits (l : bytes) : Prop := Forall (fun c => isdigit c = true) l.

Definition stops (l : bytes) : Prop :=
  match l with [] => True | c :: _ => isdigit c = false end.

Lemma isdigit_spec c : isdigit c = true <-> 48 <= c <= 57.
Proof. unfold isdigit. rewrite andb_true_iff, !Z.leb_le. lia. Qed.

Lemma read_digits_app ds rest acc n :
  is_digits ds -> stops rest ->
  read_digits (ds ++ rest) acc n =
  (fold_left (fun a c => a * 10 + (c - 48)) ds acc, (n + length ds)%nat, rest).
Proof.
  revert acc n. induction ds as [|c ds IH]; intros acc n Hd Hs; simpl.
  - destruct rest as [|c rest]; simpl; [do 2 f_equal; lia|].
    simpl in Hs. rewrite Hs. do 2 f_equal; lia.
  - apply Forall_cons in Hd as [-> Hd]. rewrite IH by done. do 2 f_equal; lia.
Qed.

Lemma digit_char d : 0 <= d < 10 -> isdigit (48 + d) = true.
Proof. intros. apply isdigit_spec. lia. Qed.

Lemma fmt_digits_value fuel n acc v :
  0 <= n -> (n < 10 ^ Z.of_nat fuel) ->
  fold_left (fun a c => a * 10 + (c - 48)) (fmt_digits fuel n acc) v =
  fold_left (fun a c => a * 10 + (c - 48)) acc
    (v * 10 ^ (Z.of_nat (length (fmt_digits fuel n acc)) - Z.of_nat (length acc)) + n).
Proof.
  revert n acc. induction fuel as [|fuel IH]; intros n acc Hn Hf; simpl.
  - simpl in Hf. assert (n = 0) as -> by lia.
    rewrite Z.sub_diag. simpl. f_equal. lia.
  - rewrite Nat2Z.inj_succ, Z.pow_succ_r in Hf by lia.
    pose proof (Z.div_mod n 10). destruct (Z.ltb_spec n 10).
    + rewrite Z.mod_small by lia. simpl length.
      replace (Z.of_nat (S (length acc)) - Z.of_nat (length acc)) with 1 by lia.
      simpl. f_equal. lia.
    + assert (n / 10 < 10 ^ Z.of_nat fuel) by (apply Z.div_lt_upper_bound; lia).
      rewrite IH by (try apply Z.div_pos; lia). cbn [fold_left]. f_equal.
      assert (Hl : forall f m a, (length a <= length (fmt_digits f m a))%nat).
      { clear. induction f as [|f IH]; intros m a; simpl; [lia|].
        destruct (m <? 10); simpl; [lia|]. etransitivity; [|apply IH]. simpl. lia. }
      set (F := fmt_digits fuel (n / 10) (48 + n mod 10 :: acc)).
      pose proof (Hl fuel (n / 10) (48 + n mod 10 :: acc)) as Hlen. fold F in Hlen.
      simpl length in Hlen |- *.
      replace (Z.of_nat (length F) - Z.of_nat (length acc))
        with (Z.succ (Z.of_nat (length F) - Z.of_nat (S (length acc)))) by lia.
      rewrite Z.pow_succ_r by lia. lia.
Qed.

Lemma fmt_digits_is_digits fuel n acc :
  0 <= n -> is_digits acc -> is_digits (fmt_digits fuel n acc).
Proof.
  revert n acc. induction fuel as [|fuel IH]; intros n acc Hn Ha; simpl; [done|].
  assert (is_digits (48 + n mod 10 :: acc)).
  { constructor; [|done]. apply digit_char. apply Z.mod_pos_bound. lia. }
  destruct (n <? 10); [done|]. apply IH; [apply Z.div_pos; lia|done].
Qed.

Lemma fmt_fuel n : 0 <= n -> n < 10 ^ Z.of_nat (S (Z.to_nat (Z.log2 n))).
Proof.
  intros. assert (0 <= Z.log2 n) by apply Z.log2_nonneg.
  rewrite Nat2Z.inj_succ, Z2Nat.id by lia.
  destruct (Z.eq_dec n 0) as [->|]; [simpl; lia|].
  destruct (Z.log2_spec n); [lia|].
  assert (2 ^ Z.succ (Z.log2 n) <= 10 ^ Z.succ (Z.log2 n)) by (apply Z.pow_le_mono_l; lia). lia.
Qed.

Lemma fmt_u_is_digits n : 0 <= n -> is_digits (fmt_u n).
Proof. intros. apply fmt_digits_is_digits; [done|constructor]. Qed.

Lemma fmt_u_value n : 0 <= n -> fold_left (fun a c => a * 10 + (c - 48)) (fmt_u n) 0 = n.
Proof.
  intros. unfold fmt_u. rewrite fmt_digits_value; [simpl; lia|done|by apply fmt_fuel].
Qed.

Lemma fmt_u_cons n : 0 <= n -> exists c l, fmt_u n = c :: l /\ isdigit c = true.
Proof.
  intros. pose proof (fmt_u_is_digits n ltac:(done)) as Hd.
  assert (Hne : forall f m a, (length a < length (fmt_digits (S f) m a))%nat).
  { clear. induction f as [|f IH]; intros m a.
    - simpl. destruct (m <? 10); simpl; lia.
    - remember (S f) as k. simpl. destruct (m <? 10); simpl; [lia|]. subst k.
      specialize (IH (m / 10) (48 + m mod 10 :: a)). cbn [length] in IH. lia. }
  unfold fmt_u in *. specialize (Hne (Z.to_nat (Z.log2 n)) n []).
  destruct (fmt_digits _ n []) as [|c l]; simpl in *; [lia|].
  apply Forall_cons in Hd as [? ?]. eauto.
Qed.

Lemma digit_not_space c : isdigit c = true -> isspace c = false.
Proof. rewrite isdigit_spec. unfold isspace. intros. zcases. Qed.

(** Reading back a printed number. *)
Lemma read_int_fmt_u n rest :
  0 <= n -> stops rest -> read_int (fmt_u n ++ rest) = Some (n, rest).
Proof.
  intros Hn Hs. destruct (fmt_u_cons n Hn) as (c & l & E & Hc).
  pose proof (fmt_u_is_digits n Hn) as Hd. pose proof (fmt_u_value n Hn) as Hv.
  rewrite E in Hd, Hv. unfold read_int. rewrite E. simpl app.
  cbn [drop_while]. rewrite (digit_not_space c Hc).
  pose proof (proj1 (isdigit_spec c) Hc). unfold read_sign.
  destruct (Z.eqb_spec c 45); [lia|]. destruct (Z.eqb_spec c 43); [lia|].
  change (c :: l ++ rest) with ((c :: l) ++ rest).
  rewrite read_digits_app by done. rewrite Hv. done.
Qed.

Lemma scan_u_fmt_u n rest :
  0 <= n < 2 ^ 32 -> stops rest -> scan_u (fmt_u n ++ rest) = Some (n, rest).
Proof.
  intros. unfold scan_u. rewrite read_int_fmt_u by (done || lia).
  rewrite Z.abs_eq by lia. zcases. rewrite u32_small by lia. done.
Qed.

Lemma sscanf_fmt_ipv4 a b c d :
  is_byte a -> is_byte b -> is_byte c -> is_byte d ->
  sscanf_ipv4 (fmt_ipv4 a b c d) = Some (a, b, c, d).
Proof.
  unfold is_byte, sscanf_ipv4, fmt_ipv4. intros.
  rewrite <- (app_nil_r (fmt_u d)).
  repeat (rewrite scan_u_fmt_u by (done || lia); simpl). done.
Qed.

Lemma is_prefix_spec p l : is_prefix p l = true <-> exists k, l = p ++ k.
Proof.
  revert l. induction p as [|a p IH]; intros l; simpl; [split; eauto|].
  destruct l as [|b l]; [split; [done|intros [? ?]; done]|].
  rewrite andb_true_iff, Z.eqb_eq, IH. split.
  - intros [-> [k ->]]. eauto.
  - intros [k [= -> ->]]. eauto.
Qed.

Lemma is_prefix_app p k : is_prefix p (p ++ k) = true.
Proof. apply is_prefix_spec. eauto. Qed.

Lemma is_prefix_take p l n :
  is_prefix p (take n l) = is_prefix p l && bool_decide (length p <= n)%nat.
Proof.
  revert l n. induction p as [|a p IH]; intros l n.
  - cbn [is_prefix length]. by rewrite bool_decide_true by lia.
  - destruct n as [|n]; [cbn [take is_prefix length]; rewrite bool_decide_false by lia; by rewrite andb_false_r|].
    destruct l as [|b l]; [done|]. simpl. rewrite IH, <- andb_assoc. do 2 f_equal.
    apply bool_decide_ext. lia.
Qed.

Lemma is_prefix_length p l : is_prefix p l = true -> (length p <= length l)%nat.
Proof. intros [k ->]%is_prefix_spec. rewrite length_app. lia. Qed.

Lemma find_sub_short p l : (length l < length p)%nat -> find_sub p l = None.
Proof.
  induction l as [|x l IH]; intros Hl; cbn [find_sub].
  - destruct p; [simpl in Hl; lia|done].
  - destruct (is_prefix p (x :: l)) eqn:E; [apply is_prefix_length in E; lia|].
    rewrite IH; [done|]. simpl in Hl. lia.
Qed.

(** The first occurrence, seen from a prefix of the text. *)
Lemma find_sub_take p l i n :
  p <> [] -> find_sub p l = Some i ->
  0 <= i /\ i + zlen p <= zlen l /\
  find_sub p (take n l) = if bool_decide (i + zlen p <= Z.of_nat n) then Some i else None.
Proof.
  intros Hp. revert i n. induction l as [|x l IH]; intros i n; cbn [find_sub].
  - destruct p; [done|]. simpl. done.
  - destruct (is_prefix p (x :: l)) eqn:E.
    + intros [= <-]. assert (Hl : zlen p <= zlen (x :: l)).
      { apply is_prefix_spec in E as [k ->]. rewrite zlen_app. pose proof (zlen_nonneg k). lia. }
      split_and!; [lia|lia|].
      pose proof (is_prefix_take p (x :: l) n) as Et. rewrite E in Et. simpl andb in Et.
      destruct n as [|n].
      * rewrite bool_decide_false; [destruct p; done|]. unfold zlen. destruct p; [done|]. simpl. lia.
      * cbn [take] in *. cbn [find_sub]. rewrite Et. unfold zlen.
        destruct (decide (length p <= S n)%nat).
        -- rewrite !bool_decide_true by lia. done.
        -- rewrite !bool_decide_false by lia. rewrite find_sub_short; [done|].
           rewrite length_take. lia.
    + destruct (find_sub p l) as [j|] eqn:Ej; [|done]. intros [= <-].
      destruct (IH j (pred n) eq_refl) as (H1 & H2 & H3). rewrite zlen_cons. split_and!; [lia|lia|].
      destruct n as [|n]; [simpl; rewrite bool_decide_false; [by destruct p|pose proof (zlen_nonneg p); lia]|].
      cbn [take find_sub pred] in *.
      pose proof (is_prefix_take p (x :: l) (S n)) as Et. rewrite E in Et. cbn [take andb] in Et. rewrite Et, H3.
      destruct (decide (j + zlen p <= Z.of_nat n)).
      * rewrite !bool_decide_true by lia. done.
      * rewrite !bool_decide_false by lia. done.
Qed.

(** ** Strings without NULs *)

Lemma cstr_text s : Forall (fun c => c <> 0) s -> cstr s = s.
Proof.
  induction 1 as [|c s Hc _ IH]; [done|]. cbn [cstr]. destruct (Z.eqb_spec c 0); [done|]. by rewrite IH.
Qed.

Lemma cstr_no_nul s : Forall (fun c => c <> 0) (cstr s).
Proof. induction s as [|c s IH]; cbn [cstr]; [constructor|]. destruct (Z.eqb_spec c 0); [constructor|by constructor]. Qed.

(** ** The first separator *)

Lemma find_first_None c l : find_first c l = None <-> c ∉ l.
Proof.
  induction l as [|d l IH]; cbn [find_first]; [split; [intros _ H; by apply elem_of_nil in H|done]|].
  rewrite elem_of_cons. destruct (Z.eqb_spec d c) as [->|Hd].
  - split; [done|]. intros H. exfalso. apply H. by left.
  - destruct (find_first c l); cbn; split; try done.
    + intros H. exfalso. assert (E : Some z = None) by (apply IH; intros Hc; apply H; by right). done.
    + intros _ [->|Hc]; [done|]. by apply IH.
Qed.

Lemma find_first_app c l k : c ∉ l -> find_first c (l ++ c :: k) = Some (zlen l).
Proof.
  induction l as [|d l IH]; cbn [find_first app].
  - intros _. by rewrite Z.eqb_refl.
  - rewrite not_elem_of_cons. intros [Hd Hl]. destruct (Z.eqb_spec d c); [done|]. rewrite IH by done. cbn. by rewrite zlen_cons.
Qed.

Lemma is_suffix_spec p l : is_suffix p l = true <-> exists k, l = k ++ p.
Proof.
  unfold is_suffix. rewrite is_prefix_spec. split; intros [k E].
  - exists (rev k). rewrite <- (rev_involutive l), E, rev_app_distr, rev_involutive. done.
  - exists (rev k). by rewrite E, rev_app_distr.
Qed.

(** ** The last separator, and numbers read back *)

Lemma find_first_app_in c l k : c ∉ l -> find_first c (l ++ k) = (fun i => zlen l + i) <$> find_first c k.
Proof.
  induction l as [|d l IH]; intros Hn; cbn [app find_first].
  - destruct (find_first c k); cbn; [f_equal; lia|done].
  - apply not_elem_of_cons in Hn as [Hd Hl]. destruct (Z.eqb_spec d c); [by subst|]. rewrite IH by done.
    destruct (find_first c k); cbn; [rewrite zlen_cons; f_equal; lia|done].
Qed.

Lemma not_in_rev (c : Z) k : c ∉ k -> c ∉ rev k.
Proof. rewrite !list_elem_of_In. by rewrite <- in_rev. Qed.

Lemma find_last_app c l k : c ∉ k -> find_last c (l ++ c :: k) = Some (zlen l).
Proof.
  intros Hk. unfold find_last. rewrite rev_app_distr. cbn [rev]. rewrite <- app_assoc. cbn [app].
  rewrite find_first_app_in by (by apply not_in_rev). cbn [find_first]. rewrite Z.eqb_refl. cbn [fmap option_fmap option_map]. f_equal. rewrite zlen_app, zlen_cons.
  assert (zlen (rev k) = zlen k) by (unfold zlen; by rewrite length_rev). lia.
Qed.

Lemma atoi_fmt_u n : 0 <= n < 2 ^ 31 -> atoi (fmt_u n) = n.
Proof.
  intros Hn. unfold atoi, strtol. pose proof (read_int_fmt_u n [] ltac:(lia) ltac:(done)) as E. rewrite app_nil_r in E.
  rewrite E. cbn [fst]. rewrite s32_small by lia. lia.
Qed.

Lemma cstr_fmt_u n : 0 <= n -> cstr (fmt_u n) = fmt_u n.
Proof.
  intros Hn. apply cstr_text. apply (Forall_impl _ _ _ (fmt_u_is_digits n Hn)). intros c Hc%isdigit_spec. lia.
Qed.
