(* ===== verification/Endian.v ===== *)
(** * Endian: storing and loading integers as bytes

    The store/load helpers the source repeats (WireGuardCrypto.cpp, WGPeer.cpp,
    TSStun.cpp, the frame headers), written with their shifts and masks, and
    their meaning as little- and big-endian numerals ([le_split], [le_combine],
    [be_split], [be_combine]). *)

From S2P Require Import Prelude.
Open Scope Z_scope.
Open Scope soto_scope.

(** ** Numerals *)

Fixpoint le_split (n : nat) (v : Z) : bytes :=
  match n with
  | O => []
  | S n' => v mod 256 :: le_split n' (v / 256)
  end.

Fixpoint le_combine (l : bytes) : Z :=
  match l with
  | [] => 0
  | b :: l' => b + 256 * le_combine l'
  end.

Definition be_split (n : nat) (v : Z) : bytes := rev (le_split n v).
Definition be_combine (l : bytes) : Z := le_combine (rev l).

Lemma length_le_split n v : length (le_split n v) = n.
Proof. revert v. induction n; intros; simpl; auto. Qed.

Lemma length_be_split n v : length (be_split n v) = n.
Proof. unfold be_split. by rewrite length_rev, length_le_split. Qed.

Lemma le_split_bytes n v : is_bytes (le_split n v).
Proof.
  revert v. induction n; intros; simpl; constructor; [|apply IHn].
  apply Z.mod_pos_bound. lia.
Qed.

Lemma be_split_bytes n v : is_bytes (be_split n v).
Proof. apply Forall_rev, le_split_bytes. Qed.

Lemma le_combine_split n v : le_combine (le_split n v) = v mod 256 ^ Z.of_nat n.
Proof.
  revert v. induction n as [|n IH]; intros v; simpl le_combine.
  - simpl. by rewrite Z.mod_1_r.
  - rewrite IH, Nat2Z.inj_succ, Z.pow_succ_r by lia.
    rewrite Z.rem_mul_r by lia. lia.
Qed.

Lemma le_split_combine l : is_bytes l -> le_split (length l) (le_combine l) = l.
Proof.
  induction 1 as [|b l Hb Hl IH]; [done|]. simpl. unfold is_byte in Hb.
  rewrite (Z.mul_comm 256), Z.mod_add, Z.div_add by lia.
  rewrite Z.mod_small, Z.div_small by lia. by rewrite Z.add_0_l, IH.
Qed.

Lemma le_split_mod n v : le_split n v = le_split n (v mod 256 ^ Z.of_nat n).
Proof.
  pose proof (le_split_combine _ (le_split_bytes n v)) as H.
  by rewrite length_le_split, le_combine_split in H.
Qed.

Lemma be_combine_split n v : be_combine (be_split n v) = v mod 256 ^ Z.of_nat n.
Proof. unfold be_combine, be_split. by rewrite rev_involutive, le_combine_split. Qed.

Lemma be_split_combine l : is_bytes l -> be_split (length l) (be_combine l) = l.
Proof.
  intros Hl. unfold be_combine, be_split.
  assert (H : is_bytes (rev l)) by (by apply Forall_rev).
  apply le_split_combine in H. rewrite length_rev in H. rewrite H. apply rev_involutive.
Qed.

Lemma le_combine_bound l : is_bytes l -> 0 <= le_combine l < 256 ^ zlen l.
Proof.
  induction 1 as [|b l Hb Hl IH]; [unfold zlen; simpl; lia|]. rewrite zlen_cons. simpl.
  rewrite Z.pow_add_r, Z.pow_1_r by (pose proof (zlen_nonneg l); lia). unfold is_byte in Hb. lia.
Qed.

(** ** The source's helpers *)

Definition store32_le (v : Z) : bytes := [u8 v; u8 (v ≫ 8); u8 (v ≫ 16); u8 (v ≫ 24)].

Definition store64_le (v : Z) : bytes :=
  map (fun i => u8 (v ≫ (8 * i))) [0; 1; 2; 3; 4; 5; 6; 7].

(** Reads at an offset known to be in range. *)
Definition load32_le (p : bytes) (o : Z) : Z :=
  at_ p o .| (at_ p (o + 1) ≪ 8) .| (at_ p (o + 2) ≪ 16) .| (at_ p (o + 3) ≪ 24).

Definition load64_le (p : bytes) (o : Z) : Z :=
  fold_left (fun v i => v .| (at_ p (o + i) ≪ (8 * i))) [0; 1; 2; 3; 4; 5; 6; 7] 0.

Definition rd16_be (p : bytes) (o : Z) : Z := u16 ((at_ p o ≪ 8) .| at_ p (o + 1)).

Definition rd32_be (p : bytes) (o : Z) : Z :=
  (at_ p o ≪ 24) .| (at_ p (o + 1) ≪ 16) .| (at_ p (o + 2) ≪ 8) .| at_ p (o + 3).

Lemma u8_shiftr v k : 0 <= k -> u8 (v ≫ k) = v / 2 ^ k mod 256.
Proof. intros. unfold u8. rewrite Z.shiftr_div_pow2 by lia. done. Qed.

Lemma store32_le_split v : store32_le v = le_split 4 v.
Proof.
  unfold store32_le, le_split. rewrite !u8_shiftr, !Z.div_div by lia. done.
Qed.

Lemma store64_le_split v : store64_le v = le_split 8 v.
Proof.
  unfold store64_le, le_split. simpl map. rewrite !u8_shiftr, !Z.div_div by lia.
  rewrite Z.div_1_r. done.
Qed.

Lemma load32_le_combine a b c d l :
  is_byte a -> is_byte b -> is_byte c -> is_byte d ->
  load32_le (a :: b :: c :: d :: l) 0 = le_combine [a; b; c; d].
Proof.
  unfold is_byte. intros. unfold load32_le, at_. simpl nth.
  rewrite (lor_shiftl_add a b 8), (lor_shiftl_add (_ + _) c 16), (lor_shiftl_add (_ + _) d 24) by lia.
  unfold le_combine. lia.
Qed.

Lemma at_slice l o i n : 0 <= o -> 0 <= i < n -> at_ (slice o n l) i = at_ l (o + i).
Proof.
  intros. unfold at_, slice, ztake, zdrop. rewrite !nth_lookup.
  rewrite lookup_take_lt by lia. rewrite lookup_drop. do 2 f_equal. lia.
Qed.

Lemma load32_le_slice p o : 0 <= o -> load32_le p o = load32_le (slice o 4 p) 0.
Proof. intros. unfold load32_le. rewrite !at_slice by lia. simpl. by rewrite Z.add_0_r. Qed.

Lemma bytes4 (l : bytes) : zlen l = 4 -> exists a b c d, l = [a; b; c; d].
Proof.
  unfold zlen. intros. destruct l as [|a [|b [|c [|d [|? ?]]]]]; simpl in *; try lia. eauto.
Qed.

Lemma load32_le_spec p o :
  0 <= o -> o + 4 <= zlen p -> is_bytes p -> load32_le p o = le_combine (slice o 4 p).
Proof.
  intros Ho Hl Hb. rewrite load32_le_slice by done.
  assert (is_bytes (slice o 4 p)) as Hs by auto with soto.
  destruct (bytes4 (slice o 4 p)) as (a & b & c & d & E); [by apply zlen_slice; lia|].
  rewrite E in *. unfold is_bytes in Hs. rewrite !Forall_cons in Hs.
  destruct Hs as (? & ? & ? & ? & _). by apply load32_le_combine.
Qed.

Lemma load32_le_store32_le pre v post :
  0 <= v < 2 ^ 32 -> load32_le (pre ++ store32_le v ++ post) (zlen pre) = v.
Proof.
  intros. pose proof (zlen_nonneg pre). rewrite load32_le_slice by lia.
  rewrite slice_app_mid by (done || reflexivity).
  unfold store32_le. rewrite load32_le_combine by apply u8_range.
  fold (store32_le v). rewrite store32_le_split, le_combine_split.
  apply Z.mod_small. simpl. lia.
Qed.

Lemma bytes8 (l : bytes) : length l = 8%nat ->
  exists a b c d e f g h : Z, l = [a; b; c; d; e; f; g; h].
Proof. intros. do 9 (destruct l as [|? l]; try done). by do 8 eexists. Qed.

Lemma load64_le_combine a b c d e f g h l :
  is_bytes [a; b; c; d; e; f; g; h] ->
  load64_le (a :: b :: c :: d :: e :: f :: g :: h :: l) 0 = le_combine [a; b; c; d; e; f; g; h].
Proof.
  unfold is_bytes, is_byte. rewrite !Forall_cons. intros (? & ? & ? & ? & ? & ? & ? & ? & _).
  unfold load64_le, at_. cbn [fold_left]. simpl nth.
  rewrite Z.lor_0_l, Z.shiftl_0_r.
  change (8 * 1) with 8. change (8 * 2) with 16. change (8 * 3) with 24.
  change (8 * 4) with 32. change (8 * 5) with 40. change (8 * 6) with 48.
  change (8 * 7) with 56.
  rewrite (lor_shiftl_add a b 8), (lor_shiftl_add (_ + _) c 16),
    (lor_shiftl_add (_ + _) d 24), (lor_shiftl_add (_ + _) e 32), (lor_shiftl_add (_ + _) f 40),
    (lor_shiftl_add (_ + _) g 48), (lor_shiftl_add (_ + _) h 56) by lia.
  unfold le_combine. lia.
Qed.

Lemma load64_le_store64_le pre v post :
  0 <= v < 2 ^ 64 -> load64_le (pre ++ store64_le v ++ post) (zlen pre) = v.
Proof.
  intros. assert (Hs : forall p o, 0 <= o -> load64_le p o = load64_le (slice o 8 p) 0).
  { intros. unfold load64_le. cbn [fold_left].
    rewrite !at_slice by lia. simpl. by rewrite ?Z.add_0_r. }
  pose proof (zlen_nonneg pre). rewrite Hs by lia. rewrite slice_app_mid by (done || reflexivity).
  rewrite store64_le_split.
  destruct (bytes8 (le_split 8 v)) as (a & b & c & d & e & f & g & h & E);
    [apply length_le_split|].
  pose proof (le_split_bytes 8 v) as Hb. rewrite E in *. rewrite load64_le_combine by done.
  rewrite <- E, le_combine_split. apply Z.mod_small. simpl. lia.
Qed.

Lemma store32_le_bytes v : is_bytes (store32_le v).
Proof. rewrite store32_le_split. apply le_split_bytes. Qed.

Lemma store64_le_bytes v : is_bytes (store64_le v).
Proof. rewrite store64_le_split. apply le_split_bytes. Qed.

#[export] Hint Resolve store32_le_bytes store64_le_bytes le_split_bytes be_split_bytes : soto.

(** Two bytes, high first. *)
Definition store16_be (v : Z) : bytes := [u8 (v ≫ 8); u8 v].
Definition store32_be (v : Z) : bytes := [u8 (v ≫ 24); u8 (v ≫ 16); u8 (v ≫ 8); u8 v].

Lemma rd16_be_val p o :
  is_byte (at_ p o) -> is_byte (at_ p (o + 1)) ->
  rd16_be p o = 256 * at_ p o + at_ p (o + 1).
Proof.
  unfold is_byte, rd16_be. intros. rewrite lor_shiftl_add_l by lia.
  rewrite u16_small by lia. lia.
Qed.

Lemma store16_be_value v : 0 <= v < 2 ^ 16 -> 256 * u8 (v ≫ 8) + u8 v = v.
Proof.
  intros. rewrite u8_shiftr by lia. unfold u8. Z.div_mod_to_equations. lia.
Qed.

Lemma rd32_be_val p o :
  is_byte (at_ p o) -> is_byte (at_ p (o + 1)) -> is_byte (at_ p (o + 2)) ->
  is_byte (at_ p (o + 3)) ->
  rd32_be p o = 2 ^ 24 * at_ p o + 2 ^ 16 * at_ p (o + 1) + 2 ^ 8 * at_ p (o + 2) + at_ p (o + 3).
Proof.
  unfold is_byte, rd32_be. intros. rewrite <- !Z.lor_assoc.
  rewrite (lor_shiftl_add_l (at_ p (o + 3))) by lia.
  rewrite (lor_shiftl_add_l (_ + _)) by lia. rewrite (lor_shiftl_add_l (_ + _)) by lia. lia.
Qed.

Lemma store32_be_value v :
  0 <= v < 2 ^ 32 ->
  2 ^ 24 * u8 (v ≫ 24) + 2 ^ 16 * u8 (v ≫ 16) + 2 ^ 8 * u8 (v ≫ 8) + u8 v = v.
Proof.
  intros. rewrite !u8_shiftr by lia. unfold u8. Z.div_mod_to_equations. lia.
Qed.
