(* ===== verification/Backoff.v ===== *)
(** * Backoff: the reconnect policy of the control long-poll (TSBackoff)

    [ReconnectBackoff] is the class of src/backend/tailscale/TSBackoff.{h,cpp};
    [run] feeds it a sequence of attempt outcomes, [Spec] is what its header
    promises: the delay is [fMin * 2^n] capped at [fMax], [n] being the number
    of unhealthy attempts since the last healthy one. *)

From S2P Require Import Prelude.
Open Scope Z_scope.

Module ReconnectBackoff.

Record t := mk { fMin : Z; fMax : Z; fHealthy : Z; fCurrent : Z }.

(** The constructor. *)
Definition ReconnectBackoff (minDelay maxDelay healthyThreshold : Z) : t :=
  {| fMin := if minDelay >? 0 then minDelay else 1;
     fMax := if maxDelay >=? minDelay then maxDelay else minDelay;
     fHealthy := healthyThreshold;
     fCurrent := if minDelay >? 0 then minDelay else 1 |}.

(** bigtime_t is a signed 64-bit integer: the doubling is written at that width. *)
Definition NextDelay (b : t) (established : bool) (lasted : Z) : Z * t :=
  if established && (lasted >=? fHealthy b) then
    (fMin b, mk (fMin b) (fMax b) (fHealthy b) (fMin b))
  else
    let delay := fCurrent b in
    let next := s64 (fCurrent b * 2) in
    let next := if next >? fMax b then fMax b else next in
    (delay, mk (fMin b) (fMax b) (fHealthy b) next).

Definition BackoffReset (b : t) : t := mk (fMin b) (fMax b) (fHealthy b) (fMin b).

(** The delays of a sequence of (established, lasted) outcomes. *)
Fixpoint run (b : t) (outcomes : list (bool * Z)) : list Z * t :=
  match outcomes with
  | [] => ([], b)
  | (e, l) :: rest =>
      let '(d, b') := NextDelay b e l in
      let '(ds, b'') := run b' rest in (d :: ds, b'')
  end.

(** The header's policy, with no machine integers: a count of the unhealthy
    attempts since the last healthy one. *)
Module Spec.

Definition healthy (threshold : Z) (o : bool * Z) : bool := fst o && (snd o >=? threshold).

Definition capped (lo hi : Z) (n : nat) : Z := Z.min (lo * 2 ^ Z.of_nat n) hi.

Fixpoint run (lo hi threshold : Z) (n : nat) (outcomes : list (bool * Z)) : list Z :=
  match outcomes with
  | [] => []
  | o :: rest =>
      if healthy threshold o then lo :: run lo hi threshold 0 rest
      else capped lo hi n :: run lo hi threshold (S n) rest
  end.

End Spec.

(** The bounds a caller must respect: a positive minimum and a maximum whose
    double still fits in 64 bits. *)
Definition wf (b : t) : Prop :=
  1 <= fMin b <= fCurrent b /\ fCurrent b <= fMax b < 2 ^ 62.

Lemma NextDelay_wf b e l :
  wf b -> fMin b <= fst (NextDelay b e l) <= fMax b /\ wf (snd (NextDelay b e l)).
Proof.
  destruct b as [lo hi th cur]. unfold wf, NextDelay; simpl. intros H.
  destruct (e && (l >=? th)); simpl; [lia|].
  rewrite s64_small by lia. zcases.
Qed.

Lemma NextDelay_params b e l :
  fMin (snd (NextDelay b e l)) = fMin b /\ fMax (snd (NextDelay b e l)) = fMax b
  /\ fHealthy (snd (NextDelay b e l)) = fHealthy b.
Proof. unfold NextDelay. destruct (e && _); done. Qed.

(** The concrete state represents the abstract count [n]. *)
Definition abs (b : t) (n : nat) : Prop :=
  wf b /\ fCurrent b = Spec.capped (fMin b) (fMax b) n.

Lemma capped_S lo hi n :
  1 <= lo <= hi -> Z.min (Spec.capped lo hi n * 2) hi = Spec.capped lo hi (S n).
Proof. unfold Spec.capped. rewrite Nat2Z.inj_succ, Z.pow_succ_r by lia. lia. Qed.

Lemma NextDelay_abs b n e l :
  abs b n ->
  abs (snd (NextDelay b e l)) (if Spec.healthy (fHealthy b) (e, l) then 0%nat else S n)
  /\ fst (NextDelay b e l) = (if Spec.healthy (fHealthy b) (e, l) then fMin b
                             else Spec.capped (fMin b) (fMax b) n).
Proof.
  intros [Hwf Hc]. destruct (NextDelay_wf b e l Hwf) as [_ Hwf'].
  unfold abs. split; [split; [done|]|].
  - destruct (NextDelay_params b e l) as (-> & -> & _).
    destruct b as [lo hi th cur]. unfold wf in Hwf. simpl in *. unfold NextDelay, Spec.healthy.
    simpl. destruct (e && (l >=? th)); simpl.
    + unfold Spec.capped. simpl. lia.
    + rewrite s64_small by lia. rewrite <- capped_S by lia. rewrite <- Hc. zcases.
  - unfold NextDelay, Spec.healthy. simpl. destruct (e && _); simpl; done.
Qed.

Lemma run_abs b n os : abs b n ->
  fst (run b os) = Spec.run (fMin b) (fMax b) (fHealthy b) n os.
Proof.
  revert b n. induction os as [|[e l] os IH]; intros b n Ha; [done|].
  destruct (NextDelay_abs b n e l Ha) as [Ha' Hd].
  destruct (NextDelay_params b e l) as (E1 & E2 & E3). simpl.
  destruct (NextDelay b e l) as [d b']. simpl in *.
  specialize (IH _ _ Ha'). rewrite E1, E2, E3 in IH.
  destruct (run b' os) as [ds b'']. simpl in *. subst.
  destruct (Spec.healthy _ _); done.
Qed.

Lemma fresh_abs lo hi th :
  0 < lo -> lo <= hi < 2 ^ 62 -> abs (ReconnectBackoff lo hi th) 0.
Proof.
  intros. unfold abs, wf, ReconnectBackoff, Spec.capped. simpl. zcases.
Qed.

(** for any sequence of attempt outcomes the delays the policy returns are
    those of its specification -- [minDelay] after a healthy session, otherwise
    [minDelay * 2^n] capped at [maxDelay], [n] counting the unhealthy attempts
    since the last healthy one -- with no overflow of the 64-bit doubling. *)
Theorem run_refines_spec lo hi th os :
  0 < lo -> lo <= hi < 2 ^ 62 ->
  fst (run (ReconnectBackoff lo hi th) os) = Spec.run lo hi th 0 os.
Proof.
  intros Hlo Hhi. rewrite (run_abs _ 0 os (fresh_abs lo hi th Hlo Hhi)).
  unfold ReconnectBackoff; simpl. zcases; done.
Qed.

Lemma run_refines_spec_witness :
  0 < 2 /\ 2 <= 16 < 2 ^ 62 /\
  fst (run (ReconnectBackoff 2 16 60)
    [(false, 0); (false, 0); (true, 5); (false, 0); (false, 0); (true, 61); (false, 0)])
  = Spec.run 2 16 60 0
    [(false, 0); (false, 0); (true, 5); (false, 0); (false, 0); (true, 61); (false, 0)].
Proof. split; [lia|]. split; [lia|]. apply run_refines_spec; lia. Defined.

Lemma Spec_run_bounds lo hi th n os :
  1 <= lo <= hi -> Forall (fun d => lo <= d <= hi) (Spec.run lo hi th n os).
Proof.
  intros H. revert n. induction os as [|o os IH]; intros n; simpl; [constructor|].
  destruct (Spec.healthy th o); constructor; try apply IH; [lia|].
  unfold Spec.capped. assert (1 <= 2 ^ Z.of_nat n) by (apply (Z.pow_le_mono_r 2 0); lia). nia.
Qed.

(** With a minimum of 0 the constructor sets the minimum to 1 but may keep a
    maximum of 0: the second delay is then 0, below the advertised minimum. *)
Example zero_min_breaks_bound :
  fst (run (ReconnectBackoff 0 0 60) [(false, 0); (false, 0)]) = [1; 0].
Proof. reflexivity. Qed.

End ReconnectBackoff.
