(* ===== verification/PeerPath.v ===== *)
(** * PeerPath: the DERP-then-upgrade send path of one peer (PeerPath)

    The class of src/backend/tailscale/PeerPath.{h,cpp} as a state machine:
    its record, its operations, and [step] over the calls the backend makes. *)

From S2P Require Import Prelude.
Open Scope Z_scope.

Module PeerPath.

Inductive PathMode := PATH_NONE | PATH_DERP | PATH_DIRECT.

#[export] Instance PathMode_eq_dec : EqDecision PathMode.
Proof. solve_decision. Defined.

Record t := mk { fMode : PathMode; fEndpoint : bytes; fLastDirectActivity : Z }.

Definition PeerPath : t := mk PATH_NONE [] 0.

Definition UseDerp (p : t) : t :=
  match fMode p with
  | PATH_NONE => mk PATH_DERP (fEndpoint p) (fLastDirectActivity p)
  | _ => p
  end.

(** [None] is the NULL endpoint. *)
Definition UpgradeToDirect (p : t) (endpoint : option bytes) (now : Z) : t :=
  mk PATH_DIRECT (default [] endpoint) now.

Definition NoteDirectActivity (p : t) (now : Z) : t :=
  match fMode p with
  | PATH_DIRECT => mk (fMode p) (fEndpoint p) now
  | _ => p
  end.

Definition Evaluate (p : t) (now staleAfterUs : Z) : PathMode * t :=
  let p' :=
    match fMode p with
    | PATH_DIRECT =>
        if now - fLastDirectActivity p >? staleAfterUs
        then mk PATH_DERP (fEndpoint p) (fLastDirectActivity p) else p
    | _ => p
    end in
  (fMode p', p').

(** The calls the backend makes on a path. *)
Inductive event :=
| EvUseDerp
| EvUpgrade (endpoint : option bytes) (now : Z)
| EvActivity (now : Z)
| EvEvaluate (now staleAfterUs : Z).

Definition step (p : t) (e : event) : t :=
  match e with
  | EvUseDerp => UseDerp p
  | EvUpgrade ep now => UpgradeToDirect p ep now
  | EvActivity now => NoteDirectActivity p now
  | EvEvaluate now stale => snd (Evaluate p now stale)
  end.

Definition steps (p : t) (es : list event) : t := fold_left step es p.

(** What a trace says about the direct path: the endpoint of the last pong and
    the time of the last sign of life since it, unless an evaluation found the
    path stale in between. *)
Fixpoint live (es : list event) (acc : option (bytes * Z)) : option (bytes * Z) :=
  match es with
  | [] => acc
  | EvUseDerp :: es => live es acc
  | EvUpgrade ep now :: es => live es (Some (default [] ep, now))
  | EvActivity now :: es => live es (match acc with Some (ep, _) => Some (ep, now) | None => None end)
  | EvEvaluate now stale :: es =>
      live es (match acc with
               | Some (ep, last) => if now - last <=? stale then Some (ep, last) else None
               | None => None
               end)
  end.

(** The path is direct exactly when the trace has a live direct endpoint. *)
Definition represents (p : t) (acc : option (bytes * Z)) : Prop :=
  match acc with
  | Some (ep, last) => p = mk PATH_DIRECT ep last
  | None => fMode p <> PATH_DIRECT
  end.

Lemma step_represents p acc e es :
  represents p acc -> exists acc', represents (step p e) acc' /\ live (e :: es) acc = live es acc'.
Proof.
  intros Hr. destruct e; simpl; (eexists; split; [|reflexivity]); simpl; try done.
  - destruct acc as [[ep last]|]; simpl in *; [by subst|].
    unfold UseDerp. destruct (fMode p) eqn:E; simpl; congruence.
  - destruct acc as [[ep last]|]; simpl in *; [by subst|].
    unfold NoteDirectActivity. destruct (fMode p) eqn:E; simpl; congruence.
  - destruct acc as [[ep last]|]; simpl in *; subst.
    + unfold Evaluate. simpl. zcases; done.
    + unfold Evaluate. destruct (fMode p) eqn:E; simpl; congruence.
Qed.

Lemma steps_represents p acc es :
  represents p acc -> represents (steps p es) (live es acc).
Proof.
  revert p acc. induction es as [|e es IH]; intros p acc Hr; [done|].
  destruct (step_represents p acc e es Hr) as (acc' & Hr' & ->). by apply IH.
Qed.

(** after any sequence of calls on a fresh path, evaluating it at [now]
    sends directly exactly when a pong confirmed an endpoint, no evaluation
    since found it stale, and the last sign of life is at most [stale] old --
    and the endpoint used is the one that pong confirmed. *)
Theorem Evaluate_direct_iff es now stale :
  let p := steps PeerPath es in
  fst (Evaluate p now stale) = PATH_DIRECT <->
  exists ep last, live es None = Some (ep, last) /\ now - last <= stale
                  /\ fEndpoint p = ep /\ fLastDirectActivity p = last.
Proof.
  intros p. assert (Hr : represents p (live es None)) by (apply steps_represents; done).
  destruct (live es None) as [[ep last]|]; simpl in Hr.
  - rewrite Hr. unfold Evaluate; simpl. zcases; split; try done.
    + intros (? & ? & [= <- <-] & ? & _). lia.
    + intros _. exists ep, last. repeat split; lia.
  - split; [|intros (? & ? & ? & _); done].
    unfold Evaluate. destruct (fMode p) eqn:E; simpl; congruence.
Qed.

(** A peer that has been given any path keeps one: no call goes back to
    [PATH_NONE]. *)
Lemma step_never_none p e : fMode p <> PATH_NONE -> fMode (step p e) <> PATH_NONE.
Proof.
  intros H. destruct e; simpl; unfold UseDerp, NoteDirectActivity, Evaluate;
    destruct (fMode p) eqn:E; simpl; try congruence.
  destruct (_ >? _); simpl; congruence.
Qed.

Lemma steps_never_none p es : fMode p <> PATH_NONE -> fMode (steps p es) <> PATH_NONE.
Proof. revert p. induction es; simpl; intros p H; [done|]. by apply IHes, step_never_none. Qed.

(** once the netmap gave the peer a home relay ([UseDerp]) the peer stays
    reachable: every later evaluation answers the relay or a direct path, and a
    re-advertisement never takes a direct path away. *)
Theorem reachable_after_UseDerp es es' now stale :
  let p := steps PeerPath (es ++ EvUseDerp :: es') in
  fst (Evaluate p now stale) <> PATH_NONE
  /\ (fMode p = PATH_DIRECT -> step p EvUseDerp = p).
Proof.
  intros p. assert (Hn : fMode p <> PATH_NONE).
  { subst p. unfold steps. rewrite fold_left_app. simpl. apply steps_never_none.
    set (q := fold_left step es PeerPath). unfold UseDerp.
    destruct (fMode q) eqn:E; simpl; congruence. }
  split.
  - apply (step_never_none p (EvEvaluate now stale) Hn).
  - intros E. simpl. unfold UseDerp. by rewrite E.
Qed.

End PeerPath.
