(* ===== verification/Routes.v ===== *)
(** * Routes: AllowedIPs parsing and route planning

    [WireGuardRoutes] is src/common/WireGuardRoutes.{h,cpp}; [TSRoutes] is
    src/backend/tailscale/TSRoutes.{h,cpp}, which plans the system routes and
    the exit-node carve-outs and diffs them against what is installed. *)

From S2P Require Import Prelude CLib.
Open Scope Z_scope.
Open Scope soto_scope.

(** The fields of a separated list (always at least one). *)
Fixpoint split_on (sep : Z) (l : bytes) : list bytes :=
  match l with
  | [] => [[]]
  | c :: l' =>
      if c =? sep then [] :: split_on sep l'
      else match split_on sep l' with
           | [] => [[c]]
           | f :: fs => (c :: f) :: fs
           end
  end.

(** The text of separated fields. *)
Fixpoint join (sep : Z) (ls : list bytes) : bytes :=
  match ls with
  | [] => []
  | [l] => l
  | l :: ls => l ++ sep :: join sep ls
  end.

Lemma split_on_app sep l k : sep ∉ l ->
  split_on sep (l ++ k) = match split_on sep k with f :: fs => (l ++ f) :: fs | [] => [l] end.
Proof.
  induction l as [|c l IH]; intros Hn; cbn [app split_on].
  - destruct (split_on sep k) eqn:E; [|done]. destruct k as [|d k]; [done|]. cbn in E. destruct (d =? sep); [done|]. by destruct (split_on sep k).
  - apply not_elem_of_cons in Hn as [Hc Hl]. destruct (Z.eqb_spec c sep); [by subst|]. rewrite IH by done. by destruct (split_on sep k).
Qed.

Lemma split_on_join sep ls : ls <> [] -> Forall (fun l => sep ∉ l) ls -> split_on sep (join sep ls) = ls.
Proof.
  intros Hn H. induction H as [|l ls Hl Hls IH]; [done|]. destruct ls as [|l2 ls].
  - cbn [join]. rewrite <- (app_nil_r l) at 1. rewrite split_on_app by done. cbn. by rewrite app_nil_r.
  - change (join sep (l :: l2 :: ls)) with (l ++ sep :: join sep (l2 :: ls)). rewrite split_on_app by done.
    cbn [split_on]. rewrite Z.eqb_refl, IH by done. by rewrite app_nil_r.
Qed.

(** BString::Trim. *)
Definition Trim (l : bytes) : bytes := trim_by isspace isspace l.

Module WireGuardRoutes.

Record AllowedRoute := mkAllowed { net : bytes; mask : bytes; isDefault : bool }.

(** The dotted mask of a prefix length. *)
Definition prefix_mask (prefix : Z) : Z :=
  if prefix =? 0 then 0 else u32 (0xFFFFFFFF ≪ (32 - prefix)).

Definition dotted (m : Z) : bytes :=
  fmt_ipv4 ((m ≫ 24) .& 0xFF) ((m ≫ 16) .& 0xFF) ((m ≫ 8) .& 0xFF) (m .& 0xFF).

(** One token of the list: [None] is a dropped token, [inl] an IPv6 entry. *)
Definition parse_token (field : bytes) : option (bytes + AllowedRoute) :=
  let token := Trim field in
  if zlen token =? 0 then None
  else match find_first 58 token with
  | Some _ => Some (inl token)
  | None =>
      let '(net, prefix) :=
        match find_first 47 token with
        | Some slash => (ztake slash token, atoi (zdrop (slash + 1) token))
        | None => (token, 32)
        end in
      let net := Trim net in
      if (zlen net =? 0) || (prefix <? 0) || (prefix >? 32) then None
      else
        Some (inr (mkAllowed net (dotted (prefix_mask prefix))
                     (beq net (bs "0.0.0.0") && (prefix =? 0))))
  end.

(** The loop over the comma-separated tokens, filling [outV4] and [skippedV6]. *)
Definition ParseAllowedIPs (allowed : bytes) : list AllowedRoute * list bytes :=
  fold_left (fun '(v4, v6) field =>
    match parse_token field with
    | None => (v4, v6)
    | Some (inl token) => (v4, v6 ++ [token])
    | Some (inr c) => (v4 ++ [c], v6)
    end) (split_on 44 allowed) ([], []).

End WireGuardRoutes.

Module TSRoutes.

Import WireGuardRoutes.

Definition kTailnetNet : Z := 0x64400000.
Definition kTailnetMask : Z := 0xFFC00000.

Definition parse_ipv4 (s : bytes) : option Z :=
  match sscanf_ipv4 s with
  | None => None
  | Some (a, b, c, d) =>
      if (a >? 255) || (b >? 255) || (c >? 255) || (d >? 255) then None
      else Some ((a ≪ 24) .| (b ≪ 16) .| (c ≪ 8) .| d)
  end.

Record SubnetRoute := mkSubnet { route_net : bytes; route_mask : bytes }.

#[export] Instance SubnetRoute_eq_dec : EqDecision SubnetRoute.
Proof. solve_decision. Defined.

Definition contains (v : list SubnetRoute) (r : SubnetRoute) : bool :=
  existsb (fun x => bool_decide (x = r)) v.

(** One parsed CIDR: pushed unless it is the default route, unparsable, inside
    the tailnet block or already planned. *)
Definition plan_route (out : list SubnetRoute) (c : AllowedRoute) : list SubnetRoute :=
  if isDefault c then out
  else match parse_ipv4 (net c) with
  | None => out
  | Some n =>
      if n .& kTailnetMask =? kTailnetNet then out
      else
        let r := mkSubnet (net c) (mask c) in
        if contains out r then out else out ++ [r]
  end.

Definition ComputeSubnetRoutes (allowedIPs : list bytes) : list SubnetRoute :=
  fold_left (fun out s => fold_left plan_route (fst (ParseAllowedIPs s)) out) allowedIPs [].

Definition DiffRoutes (desired installed : list SubnetRoute)
    : list SubnetRoute * list SubnetRoute :=
  (List.filter (fun r => negb (contains installed r)) desired,
   List.filter (fun r => negb (contains desired r)) installed).

Definition contains_ip (v : list bytes) (ip : bytes) : bool := existsb (fun x => beq x ip) v.

Definition plan_carveout (out : list bytes) (ip : bytes) : list bytes :=
  if (zlen ip =? 0) || (match parse_ipv4 ip with None => true | Some _ => false end) then out
  else if contains_ip out ip then out else out ++ [ip].

Definition ComputeExitCarveouts (underlayIPs : list bytes) : list bytes :=
  fold_left plan_carveout underlayIPs [].

Definition DiffCarveouts (desired pinned : list bytes) : list bytes * list bytes :=
  (List.filter (fun r => negb (contains_ip pinned r)) desired,
   List.filter (fun r => negb (contains_ip desired r)) pinned).

(** ** Parsing *)

Lemma land_255 x : x .& 0xFF = x mod 2 ^ 8.
Proof. apply (land_ones_mod x 8). lia. Qed.

Lemma octet_byte x k : is_byte ((x ≫ k) .& 0xFF).
Proof. rewrite land_255. apply u8_range. Qed.

Lemma pack_octets m :
  0 <= m < 2 ^ 32 ->
  (((m ≫ 24) .& 0xFF) ≪ 24) .| (((m ≫ 16) .& 0xFF) ≪ 16)
    .| (((m ≫ 8) .& 0xFF) ≪ 8) .| (m .& 0xFF) = m.
Proof.
  intros. rewrite !land_255, !Z.shiftr_div_pow2, !Z.shiftl_mul_pow2 by lia.
  pose proof (Z.mod_pos_bound m (2 ^ 8)). pose proof (Z.mod_pos_bound (m / 2 ^ 8) (2 ^ 8)).
  pose proof (Z.mod_pos_bound (m / 2 ^ 16) (2 ^ 8)).
  pose proof (Z.mod_pos_bound (m / 2 ^ 24) (2 ^ 8)).
  rewrite <- (Z.shiftl_mul_pow2 (m / 2 ^ 24 mod 2 ^ 8)) by lia.
  rewrite <- (Z.shiftl_mul_pow2 (m / 2 ^ 16 mod 2 ^ 8)) by lia.
  rewrite <- (Z.shiftl_mul_pow2 (m / 2 ^ 8 mod 2 ^ 8)) by lia.
  rewrite <- !Z.lor_assoc.
  rewrite (lor_shiftl_add_l (m mod 2 ^ 8)) by lia.
  rewrite (lor_shiftl_add_l (_ + _)) by lia.
  rewrite lor_shiftl_add_l by lia.
  Z.div_mod_to_equations. lia.
Qed.

Lemma parse_ipv4_fmt a b c d :
  is_byte a -> is_byte b -> is_byte c -> is_byte d ->
  parse_ipv4 (fmt_ipv4 a b c d) = Some ((a ≪ 24) .| (b ≪ 16) .| (c ≪ 8) .| d).
Proof.
  intros. unfold parse_ipv4. rewrite sscanf_fmt_ipv4 by done.
  unfold is_byte in *. zcases. done.
Qed.

Lemma parse_dotted m : 0 <= m < 2 ^ 32 -> parse_ipv4 (dotted m) = Some m.
Proof.
  intros. unfold dotted. rewrite parse_ipv4_fmt.
  - rewrite pack_octets; done.
  - apply octet_byte.
  - apply octet_byte.
  - apply octet_byte.
  - rewrite land_255. apply u8_range.
Qed.

Lemma prefix_mask_val p : 0 <= p <= 32 -> prefix_mask p = 2 ^ 32 - 2 ^ (32 - p).
Proof.
  intros. unfold prefix_mask. destruct (Z.eqb_spec p 0) as [->|]; [reflexivity|].
  unfold u32. rewrite Z.shiftl_mul_pow2 by lia.
  replace (0xFFFFFFFF * 2 ^ (32 - p)) with ((2 ^ 32 - 2 ^ (32 - p)) + (2 ^ (32 - p) - 1) * 2 ^ 32) by lia.
  rewrite Z.mod_add by lia. apply Z.mod_small.
  assert (0 < 2 ^ (32 - p)) by lia.
  assert (2 ^ (32 - p) <= 2 ^ 32) by (apply Z.pow_le_mono_r; lia). lia.
Qed.

(** Membership in the parsed lists, token by token. *)
Lemma ParseAllowedIPs_spec allowed :
  ParseAllowedIPs allowed =
  (omap (fun f => match parse_token f with Some (inr c) => Some c | _ => None end)
     (split_on 44 allowed),
   omap (fun f => match parse_token f with Some (inl t) => Some t | _ => None end)
     (split_on 44 allowed)).
Proof.
  unfold ParseAllowedIPs. set (F := fun '(v4, v6) field => _).
  assert (Hg : forall fs v4 v6, fold_left F fs (v4, v6) =
    (v4 ++ omap (fun f => match parse_token f with Some (inr c) => Some c | _ => None end) fs,
     v6 ++ omap (fun f => match parse_token f with Some (inl t) => Some t | _ => None end) fs)).
  { induction fs as [|f fs IH]; intros v4 v6; simpl; [by rewrite !app_nil_r|].
    destruct (parse_token f) as [[tk|c]|]; rewrite IH; [by rewrite <- app_assoc| |done].
    by rewrite <- app_assoc. }
  apply Hg.
Qed.

Lemma parse_token_route f c :
  parse_token f = Some (inr c) ->
  exists p, 0 <= p <= 32 /\ mask c = dotted (prefix_mask p) /\ net c <> []
    /\ find_first 58 (Trim f) = None.
Proof.
  unfold parse_token. destruct (zlen (Trim f) =? 0); [done|].
  destruct (find_first 58 (Trim f)) eqn:Hc; [done|].
  destruct (match find_first 47 (Trim f) with Some _ => _ | None => _ end) as [nt p].
  destruct (Z.eqb_spec (zlen (Trim nt)) 0) as [|Hne]; [done|]. rewrite Z.gtb_ltb.
  destruct (Z.ltb_spec p 0), (Z.ltb_spec 32 p); simpl; try done.
  intros [= <-]. exists p. simpl. repeat split; try lia.
  intros E. apply Hne. rewrite E. reflexivity.
Qed.

(** every IPv4 route parsed out of an AllowedIPs list has a non-empty
    network and a dotted mask that denotes the [p]-bit netmask of some prefix
    length 0 <= p <= 32; no token containing ':' becomes a route. *)
Theorem ParseAllowedIPs_masks allowed c :
  c ∈ fst (ParseAllowedIPs allowed) ->
  net c <> [] /\
  exists field p, field ∈ split_on 44 allowed /\ find_first 58 (Trim field) = None
    /\ 0 <= p <= 32 /\ parse_ipv4 (mask c) = Some (2 ^ 32 - 2 ^ (32 - p)).
Proof.
  rewrite ParseAllowedIPs_spec. simpl. rewrite list_elem_of_omap.
  intros (f & Hf & Hp). destruct (parse_token f) as [[|c']|] eqn:E; try done.
  injection Hp as ->. destruct (parse_token_route f c E) as (p & Hp & Hm & Hn & Hc).
  split; [done|]. exists f, p. repeat split; try done; try lia.
  rewrite Hm, parse_dotted, prefix_mask_val by
    (rewrite ?prefix_mask_val; try lia;
     assert (0 < 2 ^ (32 - p)) by lia;
     assert (2 ^ (32 - p) <= 2 ^ 32) by (apply Z.pow_le_mono_r; lia); lia).
  done.
Qed.

Lemma ParseAllowedIPs_masks_witness :
  let c := mkAllowed (bs "10.0.0.0") (bs "255.255.255.0") false in
  c ∈ fst (ParseAllowedIPs (bs "::/0, 10.0.0.0/24")) /\ net c <> [].
Proof.
  assert (H : mkAllowed (bs "10.0.0.0") (bs "255.255.255.0") false
              ∈ fst (ParseAllowedIPs (bs "::/0, 10.0.0.0/24")))
    by (vm_compute; constructor).
  split; [exact H|]. exact (proj1 (ParseAllowedIPs_masks _ _ H)).
Defined.

(** ** Planning *)

Lemma contains_spec v r : contains v r = true <-> r ∈ v.
Proof.
  unfold contains. rewrite existsb_exists. setoid_rewrite bool_decide_eq_true.
  rewrite list_elem_of_In. split; [intros (x & ? & ->); done|eauto].
Qed.

Lemma contains_ip_spec v r : contains_ip v r = true <-> r ∈ v.
Proof.
  unfold contains_ip. rewrite existsb_exists. setoid_rewrite beq_true.
  rewrite list_elem_of_In. split; [intros (x & ? & ->); done|eauto].
Qed.

(** The filter of a parsed CIDR, as a relation. *)
Definition planned (c : AllowedRoute) (r : SubnetRoute) : Prop :=
  isDefault c = false /\ r = mkSubnet (net c) (mask c) /\
  exists n, parse_ipv4 (net c) = Some n /\ n .& kTailnetMask <> kTailnetNet.

(** Pushing unless present: a fold that collects each relevant image once. *)
Section Collect.
Context {A B : Type} (push : list B -> A -> list B) (rel : A -> B -> Prop).
Hypothesis push_ok : forall out a, NoDup out ->
  NoDup (push out a) /\ forall b, b ∈ push out a <-> b ∈ out \/ rel a b.

Lemma collect_fold l out : NoDup out ->
  NoDup (fold_left push l out) /\
  forall b, b ∈ fold_left push l out <-> b ∈ out \/ exists a, a ∈ l /\ rel a b.
Proof.
  revert out. induction l as [|a l IH]; intros out Ho; simpl.
  - split; [done|]. intros b. split; [auto|]. intros [|(a & Ha & _)]; [done|].
    by apply not_elem_of_nil in Ha.
  - destruct (push_ok out a Ho) as [Hn Hp]. destruct (IH _ Hn) as [Hn' Hm].
    split; [done|]. intros b. rewrite Hm, Hp. setoid_rewrite elem_of_cons.
    split; [|naive_solver]. intros [[?|?]|(a' & ? & ?)]; eauto.
Qed.
End Collect.

Lemma NoDup_snoc {A} (l : list A) x : NoDup l -> x ∉ l -> NoDup (l ++ [x]).
Proof.
  intros. apply NoDup_app. repeat split; [done| |apply NoDup_singleton].
  intros y Hy ->%list_elem_of_singleton. done.
Qed.

Lemma plan_route_ok out c : NoDup out ->
  NoDup (plan_route out c) /\ forall r, r ∈ plan_route out c <-> r ∈ out \/ planned c r.
Proof.
  intros Ho. unfold plan_route, planned.
  destruct (isDefault c); [naive_solver|].
  destruct (parse_ipv4 (net c)) as [n|]; [|naive_solver].
  destruct (Z.eqb_spec (n .& kTailnetMask) kTailnetNet); [naive_solver|].
  destruct (contains out _) eqn:E.
  - apply contains_spec in E. naive_solver.
  - assert (mkSubnet (net c) (mask c) ∉ out) by (intros ?%contains_spec; congruence).
    split; [by apply NoDup_snoc|]. intros r. rewrite elem_of_app, list_elem_of_singleton.
    naive_solver.
Qed.

Lemma compute_step_ok out s : NoDup out ->
  NoDup (fold_left plan_route (fst (ParseAllowedIPs s)) out) /\
  forall r, r ∈ fold_left plan_route (fst (ParseAllowedIPs s)) out <->
    r ∈ out \/ exists c, c ∈ fst (ParseAllowedIPs s) /\ planned c r.
Proof. apply (collect_fold plan_route planned plan_route_ok). Qed.

(** the planned subnet routes are exactly the non-default IPv4 CIDRs of the
    peers' AllowedIPs whose address lies outside the tailnet block
    100.64.0.0/10, each of them once. *)
Theorem ComputeSubnetRoutes_spec allowedIPs :
  NoDup (ComputeSubnetRoutes allowedIPs) /\
  forall r, r ∈ ComputeSubnetRoutes allowedIPs <->
    exists s c n, s ∈ allowedIPs /\ c ∈ fst (ParseAllowedIPs s)
      /\ isDefault c = false /\ r = mkSubnet (net c) (mask c)
      /\ parse_ipv4 (net c) = Some n /\ n .& kTailnetMask <> kTailnetNet.
Proof.
  unfold ComputeSubnetRoutes.
  destruct (collect_fold _ _ compute_step_ok allowedIPs [] (NoDup_nil_2)) as [H1 H2].
  split; [done|]. intros r. rewrite H2. unfold planned. split.
  - intros [H|H]; [by apply not_elem_of_nil in H|]. naive_solver.
  - intros (s & c & n & ?). right. exists s. naive_solver.
Qed.

(** A /0 entry whose address is not spelled 0.0.0.0 is not recognised as the
    default route and is planned as a route with mask 0.0.0.0. *)
Example odd_default_route_planned :
  ComputeSubnetRoutes [bs "0.0.0.1/0"] = [mkSubnet (bs "0.0.0.1") (bs "0.0.0.0")].
Proof. vm_compute. reflexivity. Qed.

Lemma plan_carveout_ok out ip : NoDup out ->
  NoDup (plan_carveout out ip) /\
  forall r, r ∈ plan_carveout out ip <->
    r ∈ out \/ (r = ip /\ ip <> [] /\ is_Some (parse_ipv4 ip)).
Proof.
  intros Ho. unfold plan_carveout.
  destruct (Z.eqb_spec (zlen ip) 0) as [E|E]; simpl.
  { apply zlen_0_nil in E. naive_solver. }
  assert (ip <> []) by (intros ->; done).
  destruct (parse_ipv4 ip); simpl.
  2: { split; [done|]. intros r. split; [auto|]. intros [|(_ & _ & [? ?])]; done. }
  destruct (contains_ip out ip) eqn:E'.
  - apply contains_ip_spec in E'. naive_solver eauto.
  - assert (ip ∉ out) by (intros ?%contains_ip_spec; congruence).
    split; [by apply NoDup_snoc|]. intros r. rewrite elem_of_app, list_elem_of_singleton.
    naive_solver eauto.
Qed.

(** the exit-node carve-outs are exactly the underlay addresses that parse
    as dotted IPv4, each of them once. *)
Theorem ComputeExitCarveouts_spec ips :
  NoDup (ComputeExitCarveouts ips) /\
  forall ip, ip ∈ ComputeExitCarveouts ips <-> ip ∈ ips /\ is_Some (parse_ipv4 ip).
Proof.
  unfold ComputeExitCarveouts.
  destruct (collect_fold plan_carveout _ plan_carveout_ok ips [] (NoDup_nil_2)) as [H1 H2].
  split; [done|]. intros ip. rewrite H2. split.
  - intros [H|(a & Ha & -> & _ & Hs)]; [by apply not_elem_of_nil in H|done].
  - intros [Ha Hs]. right. exists ip. repeat split; try done.
    intros ->. destruct Hs as [? Hs]. vm_compute in Hs. done.
Qed.

(** ** Reconciliation *)

Section Diff.
Context {A : Type} (has : list A -> A -> bool).
Hypothesis has_spec : forall v r, has v r = true <-> r ∈ v.

Lemma filter_not_has v w r :
  r ∈ List.filter (fun x => negb (has v x)) w <-> r ∈ w /\ r ∉ v.
Proof.
  rewrite list_elem_of_In, filter_In, <- list_elem_of_In, negb_true_iff.
  rewrite <- not_true_iff_false, has_spec. done.
Qed.

(** Removing then adding turns the installed set into the desired one. *)
Lemma diff_reconciles desired installed :
  let toAdd := List.filter (fun x => negb (has installed x)) desired in
  let toRemove := List.filter (fun x => negb (has desired x)) installed in
  let result := List.filter (fun x => negb (has toRemove x)) installed ++ toAdd in
  (forall r, r ∈ result <-> r ∈ desired)
  /\ (forall r, r ∈ toAdd -> r ∉ installed)
  /\ (forall r, r ∈ toRemove -> r ∈ installed /\ r ∉ desired).
Proof.
  intros toAdd toRemove result. split_and!.
  - intros r. unfold result. rewrite elem_of_app, filter_not_has.
    unfold toRemove, toAdd. rewrite !filter_not_has.
    assert (Hdec : forall v : list A, r ∈ v \/ r ∉ v).
    { intros v. rewrite <- has_spec. destruct (has v r); auto. }
    destruct (Hdec desired), (Hdec installed); tauto.
  - intros r. unfold toAdd. rewrite filter_not_has. tauto.
  - intros r. unfold toRemove. rewrite filter_not_has. tauto.
Qed.
End Diff.

(** executing the diff of the subnet routes (delete [toRemove], add
    [toAdd]) leaves exactly the desired routes installed, adds nothing that is
    already installed and removes only installed routes no longer desired. *)
Theorem DiffRoutes_reconciles desired installed :
  let '(toAdd, toRemove) := DiffRoutes desired installed in
  let result := List.filter (fun r => negb (contains toRemove r)) installed ++ toAdd in
  (forall r, r ∈ result <-> r ∈ desired)
  /\ (forall r, r ∈ toAdd -> r ∉ installed)
  /\ (forall r, r ∈ toRemove -> r ∈ installed /\ r ∉ desired).
Proof. apply (diff_reconciles contains contains_spec). Qed.

(** The same for the pinned carve-outs. *)
Lemma DiffCarveouts_reconciles desired pinned :
  let '(toAdd, toRemove) := DiffCarveouts desired pinned in
  let result := List.filter (fun r => negb (contains_ip toRemove r)) pinned ++ toAdd in
  (forall r, r ∈ result <-> r ∈ desired)
  /\ (forall r, r ∈ toAdd -> r ∉ pinned)
  /\ (forall r, r ∈ toRemove -> r ∈ pinned /\ r ∉ desired).
Proof. apply (diff_reconciles contains_ip contains_ip_spec). Qed.

End TSRoutes.
