(* ===== verification/Blake2s.v ===== *)
(** * Blake2s: BLAKE2s, HMAC-BLAKE2s and the WireGuard HKDF

    The hash part of src/backend/WireGuardCrypto.cpp: the streaming state with
    its 64-byte buffer, [HashInit]/[HashUpdate]/[HashFinal], [Hash], [Mac16],
    [Hmac] and [Kdf1]..[Kdf3].  [Spec] is the byte-at-a-time stream and the
    RFC 7693 block loop; the streaming code is proved to refine both, whatever
    the chunking. *)

From S2P Require Import Prelude CLib Endian.
Open Scope Z_scope.
Open Scope soto_scope.

Module wg.

(** ** The compression function *)

Definition rotr32 (x c : Z) : Z := u32 ((x ≫ c) .| (x ≪ (32 - c))).

Definition kIV : list Z :=
  [0x6A09E667; 0xBB67AE85; 0x3C6EF372; 0xA54FF53A;
   0x510E527F; 0x9B05688C; 0x1F83D9AB; 0x5BE0CD19].

Definition kSigma : list (list Z) :=
  [[0; 1; 2; 3; 4; 5; 6; 7; 8; 9; 10; 11; 12; 13; 14; 15];
   [14; 10; 4; 8; 9; 15; 13; 6; 1; 12; 0; 2; 11; 7; 5; 3];
   [11; 8; 12; 0; 5; 2; 15; 13; 10; 14; 3; 6; 7; 1; 9; 4];
   [7; 9; 3; 1; 13; 12; 11; 14; 2; 6; 5; 10; 4; 0; 15; 8];
   [9; 0; 5; 7; 2; 4; 10; 15; 14; 1; 11; 12; 6; 8; 3; 13];
   [2; 12; 6; 10; 0; 11; 8; 3; 4; 13; 7; 5; 15; 14; 1; 9];
   [12; 5; 1; 15; 14; 13; 4; 10; 0; 7; 6; 3; 9; 2; 8; 11];
   [13; 11; 7; 14; 12; 1; 3; 9; 5; 0; 15; 4; 8; 6; 2; 10];
   [6; 15; 14; 9; 11; 3; 0; 8; 12; 2; 13; 7; 1; 4; 10; 5];
   [10; 2; 8; 4; 7; 6; 1; 5; 15; 11; 9; 14; 3; 12; 13; 0]].

(** [v[i] = x]. *)
Definition set_ (v : list Z) (i x : Z) : list Z := <[Z.to_nat i := x]> v.

(** The macro G(r, i, a, b, c, d): the four arguments are indices into [v]. *)
Definition G (m : list Z) (r i a b c d : Z) (v : list Z) : list Z :=
  let sigma k := at_ (nth (Z.to_nat r) kSigma []) k in
  let v := set_ v a (u32 (at_ v a + at_ v b + at_ m (sigma (2 * i + 0)))) in
  let v := set_ v d (rotr32 (at_ v d .^ at_ v a) 16) in
  let v := set_ v c (u32 (at_ v c + at_ v d)) in
  let v := set_ v b (rotr32 (at_ v b .^ at_ v c) 12) in
  let v := set_ v a (u32 (at_ v a + at_ v b + at_ m (sigma (2 * i + 1)))) in
  let v := set_ v d (rotr32 (at_ v d .^ at_ v a) 8) in
  let v := set_ v c (u32 (at_ v c + at_ v d)) in
  set_ v b (rotr32 (at_ v b .^ at_ v c) 7).

Definition round_ (m : list Z) (v : list Z) (r : Z) : list Z :=
  let v := G m r 0 0 4 8 12 v in
  let v := G m r 1 1 5 9 13 v in
  let v := G m r 2 2 6 10 14 v in
  let v := G m r 3 3 7 11 15 v in
  let v := G m r 4 0 5 10 15 v in
  let v := G m r 5 1 6 11 12 v in
  let v := G m r 6 2 7 8 13 v in
  G m r 7 3 4 9 14 v.

(** The new chaining value for a block, the byte counter (t0, t1) and the
    finalization flags (f0, f1). *)
Definition compress_core (h : list Z) (t0 t1 f0 f1 : Z) (block : bytes) : list Z :=
  let m := map (fun i => load32_le block (4 * i)) (seqZ 0 16) in
  let v := h ++ kIV in
  let v := set_ v 12 (at_ v 12 .^ t0) in
  let v := set_ v 13 (at_ v 13 .^ t1) in
  let v := set_ v 14 (at_ v 14 .^ f0) in
  let v := set_ v 15 (at_ v 15 .^ f1) in
  let v := fold_left (round_ m) (seqZ 0 10) v in
  map (fun i => at_ h i .^ (at_ v i .^ at_ v (8 + i))) (seqZ 0 8).

(** ** The streaming state *)

Record Blake2s := mkBlake2s {
  h : list Z; t0 : Z; t1 : Z; f0 : Z; f1 : Z;
  buf : bytes; buflen : Z; outlen : Z }.

(** [memcpy(buf + off, src, ...)]. *)
Definition blit (dst : bytes) (off : Z) (src : bytes) : bytes :=
  ztake off dst ++ src ++ zdrop (off + zlen src) dst.

Definition blake2s_increment (s : Blake2s) (inc : Z) : Blake2s :=
  let t0' := u32 (t0 s + inc) in
  let t1' := u32 (t1 s + (if t0' <? inc then 1 else 0)) in
  mkBlake2s (h s) t0' t1' (f0 s) (f1 s) (buf s) (buflen s) (outlen s).

Definition blake2s_compress (s : Blake2s) (block : bytes) : Blake2s :=
  mkBlake2s (compress_core (h s) (t0 s) (t1 s) (f0 s) (f1 s) block)
    (t0 s) (t1 s) (f0 s) (f1 s) (buf s) (buflen s) (outlen s).

(** [while (inLen > 64)]: compress whole blocks straight from the input. *)
Fixpoint update_blocks (fuel : nat) (s : Blake2s) (p : bytes) : Blake2s * bytes :=
  match fuel with
  | O => (s, p)
  | S fuel' =>
      if zlen p >? 64 then
        update_blocks fuel' (blake2s_compress (blake2s_increment s 64) (ztake 64 p)) (zdrop 64 p)
      else (s, p)
  end.

Definition with_buf (s : Blake2s) (b : bytes) (n : Z) : Blake2s :=
  mkBlake2s (h s) (t0 s) (t1 s) (f0 s) (f1 s) b n (outlen s).

Definition HashUpdate (s : Blake2s) (inp : bytes) : Blake2s :=
  if zlen inp =? 0 then s
  else
    let left := buflen s in
    let fill := 64 - left in
    let '(s, p) :=
      if zlen inp >? fill then
        let s := with_buf s (blit (buf s) left (ztake fill inp)) 0 in
        let s := blake2s_increment s 64 in
        let s := blake2s_compress s (buf s) in
        update_blocks (length inp) s (zdrop fill inp)
      else (s, inp) in
    with_buf s (blit (buf s) (buflen s) p) (buflen s + zlen p).

Definition blake2s_init_key (outLen : Z) (key : bytes) : Blake2s :=
  let keyLen := zlen key in
  let h0 := at_ kIV 0 .^ (0x01010000 .^ (keyLen ≪ 8) .^ outLen) in
  let s := mkBlake2s (set_ kIV 0 h0) 0 0 0 0 (zeros 64) 0 outLen in
  if keyLen >? 0 then HashUpdate s (blit (zeros 64) 0 key) else s.

Definition HashInit : Blake2s := blake2s_init_key 32 [].

Definition HashFinal (s : Blake2s) : bytes :=
  let s := blake2s_increment s (buflen s) in
  let s := mkBlake2s (h s) (t0 s) (t1 s) 0xFFFFFFFF (f1 s)
             (blit (buf s) (buflen s) (zeros (64 - buflen s))) (buflen s) (outlen s) in
  let s := blake2s_compress s (buf s) in
  ztake (outlen s) (concat (map store32_le (h s))).

Definition Hash (inp : bytes) : bytes := HashFinal (HashUpdate HashInit inp).

Definition Mac16 (key inp : bytes) : bytes :=
  HashFinal (HashUpdate (blake2s_init_key 16 key) inp).

Definition Hmac (key inp : bytes) : bytes :=
  let block :=
    if zlen key >? 64 then blit (zeros 64) 0 (Hash key)
    else if zlen key >? 0 then blit (zeros 64) 0 key else zeros 64 in
  let ipad := map (fun x => x .^ 0x36) block in
  let opad := map (fun x => x .^ 0x5C) block in
  let inner := HashFinal (HashUpdate (HashUpdate HashInit ipad) inp) in
  HashFinal (HashUpdate (HashUpdate HashInit opad) inner).

Definition Kdf1 (ck input : bytes) : bytes :=
  let tau0 := Hmac ck input in
  Hmac tau0 [0x01].

Definition Kdf2 (ck input : bytes) : bytes * bytes :=
  let tau0 := Hmac ck input in
  let out1 := Hmac tau0 [0x01] in
  let out2 := Hmac tau0 (out1 ++ [0x02]) in
  (out1, out2).

Definition Kdf3 (ck input : bytes) : bytes * bytes * bytes :=
  let tau0 := Hmac ck input in
  let out1 := Hmac tau0 [0x01] in
  let out2 := Hmac tau0 (out1 ++ [0x02]) in
  let out3 := Hmac tau0 (out2 ++ [0x03]) in
  (out1, out2, out3).

(** ** Specification *)

(** BLAKE2s of RFC 7693.  Words are integers below 2^32, the work vector
    v[0..15] and the message block m[0..15] are functions of the index. *)
Module Spec.

Definition vector : Type := Z -> Z.
Definition upd (v : vector) (i x : Z) : vector := fun j => if j =? i then x else v j.

(** Section 2.3: rotation to the right by [n] bits. *)
Definition ror (n x : Z) : Z := x / 2 ^ n + (x mod 2 ^ n) * 2 ^ (32 - n).

(** Section 2.6: the first 32 bits of the fractional parts of the square roots
    of the first eight primes. *)
Definition primes : list Z := [2; 3; 5; 7; 11; 13; 17; 19].
Definition IV (i : Z) : Z := Z.sqrt (at_ primes i * 2 ^ 64) mod 2 ^ 32.

(** Section 2.7. *)
Definition SIGMA : list (list Z) :=
  [[ 0; 1; 2; 3; 4; 5; 6; 7; 8; 9;10;11;12;13;14;15];
   [14;10; 4; 8; 9;15;13; 6; 1;12; 0; 2;11; 7; 5; 3];
   [11; 8;12; 0; 5; 2;15;13;10;14; 3; 6; 7; 1; 9; 4];
   [ 7; 9; 3; 1;13;12;11;14; 2; 6; 5;10; 4; 0;15; 8];
   [ 9; 0; 5; 7; 2; 4;10;15;14; 1;11;12; 6; 8; 3;13];
   [ 2;12; 6;10; 0;11; 8; 3; 4;13; 7; 5;15;14; 1; 9];
   [12; 5; 1;15;14;13; 4;10; 0; 7; 6; 3; 9; 2; 8;11];
   [13;11; 7;14;12; 1; 3; 9; 5; 0;15; 4; 8; 6; 2;10];
   [ 6;15;14; 9;11; 3; 0; 8;12; 2;13; 7; 1; 4;10; 5];
   [10; 2; 8; 4; 7; 6; 1; 5;15;11; 9;14; 3;12;13; 0]].

(** Section 3.1: mixing two words into four entries, with the rotations
    (16, 12, 8, 7) of section 2.1. *)
Definition G (v : vector) (a b c d x y : Z) : vector :=
  let v := upd v a ((v a + v b + x) mod 2 ^ 32) in
  let v := upd v d (ror 16 (Z.lxor (v d) (v a))) in
  let v := upd v c ((v c + v d) mod 2 ^ 32) in
  let v := upd v b (ror 12 (Z.lxor (v b) (v c))) in
  let v := upd v a ((v a + v b + y) mod 2 ^ 32) in
  let v := upd v d (ror 8 (Z.lxor (v d) (v a))) in
  let v := upd v c ((v c + v d) mod 2 ^ 32) in
  upd v b (ror 7 (Z.lxor (v b) (v c))).

(** One of the ten rounds of section 3.2. *)
Definition round (m : vector) (v : vector) (i : Z) : vector :=
  let s j := at_ (nth (Z.to_nat (i mod 10)) SIGMA []) j in
  let v := G v 0 4 8 12 (m (s 0)) (m (s 1)) in
  let v := G v 1 5 9 13 (m (s 2)) (m (s 3)) in
  let v := G v 2 6 10 14 (m (s 4)) (m (s 5)) in
  let v := G v 3 7 11 15 (m (s 6)) (m (s 7)) in
  let v := G v 0 5 10 15 (m (s 8)) (m (s 9)) in
  let v := G v 1 6 11 12 (m (s 10)) (m (s 11)) in
  let v := G v 2 7 8 13 (m (s 12)) (m (s 13)) in
  G v 3 4 9 14 (m (s 14)) (m (s 15)).

(** Section 3.2: the compression function on the state, a block, the number of
    bytes so far and the final flag. *)
Definition F (h : list Z) (m : vector) (t : Z) (f : bool) : list Z :=
  let v := fun i => if i <? 8 then at_ h i else IV (i - 8) in
  let v := upd v 12 (Z.lxor (v 12) (t mod 2 ^ 32)) in
  let v := upd v 13 (Z.lxor (v 13) (t / 2 ^ 32 mod 2 ^ 32)) in
  let v := if f then upd v 14 (Z.lxor (v 14) (2 ^ 32 - 1)) else v in
  let v := fold_left (round m) (seqZ 0 10) v in
  map (fun i => Z.lxor (Z.lxor (at_ h i) (v i)) (v (i + 8))) (seqZ 0 8).

(** Section 2.4: words are little-endian. *)
Definition words (block : bytes) : vector := fun i => le_combine (slice (4 * i) 4 block).

(** Section 3.3: compress all blocks but the last, then the last one
    zero-padded, with the final flag and the total length. *)
Fixpoint blocks (fuel : nat) (h : list Z) (n : Z) (msg : bytes) : list Z :=
  match fuel with
  | O => h
  | S fuel' =>
      if zlen msg <=? 64 then F h (words (msg ++ zeros (64 - zlen msg))) (n + zlen msg) true
      else blocks fuel' (F h (words (ztake 64 msg)) (n + 64) false) (n + 64) (zdrop 64 msg)
  end.

Definition h_init (nn kk : Z) : list Z :=
  Z.lxor (Z.lxor (Z.lxor (IV 0) 0x01010000) (kk * 2 ^ 8)) nn :: map IV [1; 2; 3; 4; 5; 6; 7].

Definition digest (nn kk : Z) (msg : bytes) : bytes :=
  ztake nn (concat (map (le_split 4) (blocks (S (length msg)) (h_init nn kk) 0 msg))).

(** The keyed hash prepends the zero-padded key block. *)
Definition blake2s (nn : Z) (key msg : bytes) : bytes :=
  if zlen key =? 0 then digest nn 0 msg else digest nn (zlen key) (key ++ zeros (64 - zlen key) ++ msg).

Definition hash (msg : bytes) : bytes := blake2s 32 [] msg.

(** RFC 2104 over a 64-byte block, for keys of at most a block. *)
Definition hmac (key msg : bytes) : bytes :=
  let k := key ++ zeros (64 - zlen key) in
  hash (map (fun x => Z.lxor x 0x5C) k ++ hash (map (fun x => Z.lxor x 0x36) k ++ msg)).

End Spec.

(** The stream in between: the chaining value, the bytes compressed so far and
    the pending bytes. *)
Module Stream.

Definition stream : Type := list Z * Z * bytes.

Definition mid (hh : list Z) (n : Z) (block : bytes) : list Z :=
  compress_core hh (u32 n) (u32 (n / 2 ^ 32)) 0 0 block.
Definition final (hh : list Z) (n : Z) (block : bytes) : list Z :=
  compress_core hh (u32 n) (u32 (n / 2 ^ 32)) 0xFFFFFFFF 0 block.

(** One byte at a time: a full buffer is compressed only when more follows. *)
Definition absorb (s : stream) (x : Z) : stream :=
  let '(hh, n, pend) := s in
  if zlen pend =? 64 then (mid hh (n + 64) pend, n + 64, [x]) else (hh, n, pend ++ [x]).

Fixpoint blocks (fuel : nat) (hh : list Z) (n : Z) (msg : bytes) : list Z :=
  match fuel with
  | O => hh
  | S fuel' =>
      if zlen msg <=? 64 then final hh (n + zlen msg) (msg ++ zeros (64 - zlen msg))
      else blocks fuel' (mid hh (n + 64) (ztake 64 msg)) (n + 64) (zdrop 64 msg)
  end.

Definition h_init (outLen keyLen : Z) : list Z :=
  set_ kIV 0 (at_ kIV 0 .^ (0x01010000 .^ (keyLen ≪ 8) .^ outLen)).

End Stream.

(** RFC 7693 appendix B: BLAKE2s-256 of the three bytes "abc". *)
Example blake2s_abc :
  Hash (bs "abc") =
  [0x50; 0x8C; 0x5E; 0x8C; 0x32; 0x7C; 0x14; 0xE2; 0xE1; 0xA7; 0x2B; 0xA3; 0x4E; 0xEB; 0x45; 0x2F;
   0x37; 0x45; 0x8B; 0x20; 0x9E; 0xD6; 0x3A; 0x29; 0x4D; 0x99; 0x9B; 0x4C; 0x86; 0x67; 0x59; 0x82].
Proof. vm_compute. reflexivity. Qed.

(** The specification gives that digest too. *)
Example spec_abc : Spec.hash (bs "abc") = Hash (bs "abc").
Proof. vm_compute. reflexivity. Qed.

(** ** The compression function is the RFC's *)

Definition word (x : Z) : Prop := 0 <= x < 2 ^ 32.

Lemma word_u32 x : word (u32 x).
Proof. apply u32_range. Qed.

Lemma word_lxor x y : word x -> word y -> word (x .^ y).
Proof. by apply lxor_range. Qed.

Lemma rotr32_ror n x : 0 < n < 32 -> word x -> rotr32 x n = Spec.ror n x.
Proof.
  intros Hn Hx. unfold word in Hx. unfold rotr32, Spec.ror. rewrite Z.shiftr_div_pow2 by lia.
  assert (E : 2 ^ 32 = 2 ^ n * 2 ^ (32 - n)) by (rewrite <- Z.pow_add_r by lia; f_equal; lia).
  assert (0 < 2 ^ n) by (apply Z.pow_pos_nonneg; lia). assert (0 < 2 ^ (32 - n)) by (apply Z.pow_pos_nonneg; lia).
  assert (0 <= x / 2 ^ n < 2 ^ (32 - n)) by (split; [apply Z.div_pos; lia|apply Z.div_lt_upper_bound; lia]).
  rewrite lor_shiftl_add by lia. unfold u32. rewrite E.
  pose proof (Z.mod_pos_bound x (2 ^ n) ltac:(lia)) as B. rewrite (Z.div_mod x (2 ^ n)) at 2 by lia.
  replace (x / 2 ^ n + (2 ^ n * (x / 2 ^ n) + x mod 2 ^ n) * 2 ^ (32 - n))
    with (x / 2 ^ n + x mod 2 ^ n * 2 ^ (32 - n) + (x / 2 ^ n) * (2 ^ n * 2 ^ (32 - n))) by ring.
  rewrite Z.mod_add by lia. apply Z.mod_small. nia.
Qed.

Lemma word_ror n x : 0 < n < 32 -> word x -> word (Spec.ror n x).
Proof. intros. rewrite <- rotr32_ror by done. apply word_u32. Qed.

(** The code's array and the RFC's vector. *)
Definition agree (v : list Z) (w : Spec.vector) : Prop :=
  zlen v = 16 /\ forall i, 0 <= i < 16 -> at_ v i = w i /\ word (w i).

Lemma at_set v i j x : 0 <= i < zlen v -> 0 <= j -> at_ (set_ v i x) j = if j =? i then x else at_ v j.
Proof.
  intros Hi Hj. unfold at_, set_, zlen in *. rewrite !nth_lookup.
  destruct (Z.eqb_spec j i) as [->|N]; [rewrite list_lookup_insert_eq by lia|rewrite list_lookup_insert_ne by lia]; done.
Qed.

Lemma agree_upd v w i x y : agree v w -> 0 <= i < 16 -> x = y -> word y -> agree (set_ v i x) (Spec.upd w i y).
Proof.
  intros [Hl Ha] Hi -> Hy. split; [unfold set_, zlen in *; by rewrite length_insert|].
  intros j Hj. rewrite at_set by lia. unfold Spec.upd. destruct (Z.eqb_spec j i); [done|by apply Ha].
Qed.

(** Two updates of the code's array step the vector the same way. *)
Lemma agree_add v w i j k z : agree v w -> 0 <= i < 16 -> 0 <= j < 16 -> 0 <= k < 16 ->
  agree (set_ v i (u32 (at_ v j + at_ v k + z))) (Spec.upd w i ((w j + w k + z) mod 2 ^ 32)).
Proof.
  intros A Hi Hj Hk. apply agree_upd; [done..| |apply word_u32].
  rewrite (proj1 (proj2 A j Hj)), (proj1 (proj2 A k Hk)). done.
Qed.

Lemma agree_add2 v w i j k : agree v w -> 0 <= i < 16 -> 0 <= j < 16 -> 0 <= k < 16 ->
  agree (set_ v i (u32 (at_ v j + at_ v k))) (Spec.upd w i ((w j + w k) mod 2 ^ 32)).
Proof.
  intros A Hi Hj Hk. apply agree_upd; [done..| |apply word_u32].
  rewrite (proj1 (proj2 A j Hj)), (proj1 (proj2 A k Hk)). done.
Qed.

Lemma agree_rot v w i j k n : agree v w -> 0 <= i < 16 -> 0 <= j < 16 -> 0 <= k < 16 -> 0 < n < 32 ->
  agree (set_ v i (rotr32 (at_ v j .^ at_ v k) n)) (Spec.upd w i (Spec.ror n (Z.lxor (w j) (w k)))).
Proof.
  intros A Hi Hj Hk Hn. destruct (proj2 A j Hj) as [E1 W1], (proj2 A k Hk) as [E2 W2].
  assert (word (w j .^ w k)) by by apply word_lxor.
  apply agree_upd; [done..| |by apply word_ror]. rewrite E1, E2. by apply rotr32_ror.
Qed.

Lemma agree_xor v w i y : agree v w -> 0 <= i < 16 -> word y -> agree (set_ v i (at_ v i .^ y)) (Spec.upd w i (Z.lxor (w i) y)).
Proof.
  intros B Hi Hy. destruct (proj2 B i Hi) as [E W]. apply agree_upd; [done..|by rewrite E|by apply word_lxor].
Qed.

Lemma agree_same v w i : agree v w -> 0 <= i < 16 -> agree (set_ v i (at_ v i .^ 0)) w.
Proof.
  intros B Hi. rewrite Z.lxor_0_r. destruct B as [B1 B2]. split; [unfold set_, zlen in *; by rewrite length_insert|].
  intros j Hj. rewrite at_set by lia. destruct (Z.eqb_spec j i) as [->|]; by apply B2.
Qed.

Lemma G_spec m r i a b c d v w x y : agree v w ->
  (0 <= a < 16 /\ 0 <= b < 16 /\ 0 <= c < 16 /\ 0 <= d < 16) ->
  x = at_ m (at_ (nth (Z.to_nat r) kSigma []) (2 * i + 0)) -> y = at_ m (at_ (nth (Z.to_nat r) kSigma []) (2 * i + 1)) ->
  agree (G m r i a b c d v) (Spec.G w a b c d x y).
Proof.
  intros A (Ha & Hb & Hc & Hd) -> ->. unfold G, Spec.G. cbv zeta.
  repeat match goal with
  | |- agree (set_ _ _ (u32 (_ + _ + _))) _ => apply agree_add; try lia
  | |- agree (set_ _ _ (u32 (_ + _))) _ => apply agree_add2; try lia
  | |- agree (set_ _ _ (rotr32 _ _)) _ => apply agree_rot; try lia
  end. exact A.
Qed.

Lemma at_Forall (P : Z -> Prop) l k : P 0 -> Forall P l -> P (at_ l k).
Proof.
  intros P0 Hl. unfold at_. rewrite nth_lookup. destruct (l !! Z.to_nat k) eqn:E; [|done]. exact (Forall_lookup_1 _ _ _ _ Hl E).
Qed.

Lemma sigma_range r k : 0 <= at_ (nth r kSigma []) k < 16.
Proof.
  apply (at_Forall (fun x => 0 <= x < 16)); [lia|]. rewrite nth_lookup.
  destruct (kSigma !! r) eqn:E; [|constructor].
  assert (F : Forall (Forall (fun x => 0 <= x < 16)) kSigma) by (repeat constructor; lia).
  exact (Forall_lookup_1 _ _ _ _ F E).
Qed.

Lemma round_spec m wm v w r : agree v w -> 0 <= r < 10 -> (forall i, 0 <= i < 16 -> at_ m i = wm i) ->
  agree (round_ m v r) (Spec.round wm w r).
Proof.
  intros A Hr Hm. unfold round_, Spec.round. cbv zeta. rewrite Z.mod_small by lia.
  assert (M : forall j k, k = j -> wm (at_ (nth (Z.to_nat r) Spec.SIGMA []) k) = at_ m (at_ (nth (Z.to_nat r) kSigma []) j)).
  { intros j k ->. symmetry. apply Hm, sigma_range. }
  do 8 (apply G_spec; [|lia|by apply M..]). exact A.
Qed.

Lemma fold_left_rel {A B C} (R : A -> B -> Prop) (P : C -> Prop) f g l :
  (forall a b c, R a b -> P c -> R (f a c) (g b c)) -> Forall P l ->
  forall a b, R a b -> R (fold_left f l a) (fold_left g l b).
Proof. intros Hfg Hl. induction Hl as [|c l Hc _ IH]; intros a b Hab; cbn [fold_left]; auto. Qed.

Lemma rounds_spec m wm rs v w : agree v w -> Forall (fun r => 0 <= r < 10) rs -> (forall i, 0 <= i < 16 -> at_ m i = wm i) ->
  agree (fold_left (round_ m) rs v) (fold_left (Spec.round wm) rs w).
Proof.
  intros A Hr Hm. apply (fold_left_rel agree (fun r => 0 <= r < 10)); [|exact Hr|exact A].
  intros v1 w1 r A1 H1. apply round_spec; assumption.
Qed.

(** A chaining value: eight words. *)
Definition state_ok (hh : list Z) : Prop := zlen hh = 8 /\ Forall word hh.

Lemma initial_agree hh : state_ok hh -> agree (hh ++ kIV) (fun i => if i <? 8 then at_ hh i else Spec.IV (i - 8)).
Proof.
  intros [Hl Hw]. split; [by rewrite zlen_app, Hl|]. intros i Hi. destruct (Z.ltb_spec i 8).
  - rewrite at_app_l by lia. split; [done|]. apply at_Forall; [unfold word; lia|done].
  - rewrite at_app_r, Hl by lia.
    assert (F : Forall (fun j => at_ kIV j = Spec.IV j /\ word (Spec.IV j)) (seqZ 0 8)).
    { change (seqZ 0 8) with [0; 1; 2; 3; 4; 5; 6; 7]. repeat constructor; vm_compute; congruence. }
    apply (proj1 (Forall_forall _ _) F). apply elem_of_seqZ. lia.
Qed.

Lemma words_spec block i : zlen block = 64 -> is_bytes block -> 0 <= i < 16 ->
  at_ (map (fun i => load32_le block (4 * i)) (seqZ 0 16)) i = Spec.words block i.
Proof. intros Hl Hb Hi. rewrite at_map_seqZ by lia. by apply load32_le_spec; [lia..|]. Qed.

(** [compress_core] is the RFC's F. *)
Lemma compress_spec hh n (f : bool) block : state_ok hh -> zlen block = 64 -> is_bytes block ->
  compress_core hh (u32 n) (u32 (n / 2 ^ 32)) (if f then 0xFFFFFFFF else 0) 0 block = Spec.F hh (Spec.words block) n f
  /\ state_ok (Spec.F hh (Spec.words block) n f).
Proof.
  intros Hh Hl Hb. unfold compress_core, Spec.F. cbv zeta.
  set (v0 := hh ++ kIV). set (w0 := fun i => if i <? 8 then at_ hh i else Spec.IV (i - 8)).
  change (if 12 <? 8 then at_ hh 12 else Spec.IV (12 - 8)) with (w0 12).
  assert (A : agree v0 w0) by by apply initial_agree. clearbody v0 w0.
  pose proof (agree_xor _ _ 12 (u32 n) A ltac:(lia) (word_u32 _)) as A1.
  change (n mod 2 ^ 32) with (u32 n). change ((n / 2 ^ 32) mod 2 ^ 32) with (u32 (n / 2 ^ 32)). revert A1.
  generalize (set_ v0 12 (at_ v0 12 .^ u32 n)), (Spec.upd w0 12 (Z.lxor (w0 12) (u32 n))). clear v0 w0 A. intros v1 w1 A1.
  pose proof (agree_xor _ _ 13 (u32 (n / 2 ^ 32)) A1 ltac:(lia) (word_u32 _)) as A2. revert A2.
  generalize (set_ v1 13 (at_ v1 13 .^ u32 (n / 2 ^ 32))), (Spec.upd w1 13 (Z.lxor (w1 13) (u32 (n / 2 ^ 32)))). clear v1 w1 A1. intros v2 w2 A2.
  assert (A3 : agree (set_ v2 14 (at_ v2 14 .^ (if f then 0xFFFFFFFF else 0))) (if f then Spec.upd w2 14 (Z.lxor (w2 14) (2 ^ 32 - 1)) else w2)).
  { destruct f; [apply agree_xor|apply agree_same]; try done; unfold word; lia. }
  revert A3. generalize (set_ v2 14 (at_ v2 14 .^ (if f then 0xFFFFFFFF else 0))), (if f then Spec.upd w2 14 (Z.lxor (w2 14) (2 ^ 32 - 1)) else w2).
  clear v2 w2 A2. intros v3 w3 A3. apply (fun B => agree_same _ _ 15 B ltac:(lia)) in A3. revert A3.
  generalize (set_ v3 15 (at_ v3 15 .^ 0)). clear v3. intros v4 A4.
  apply (rounds_spec (map (fun i => load32_le block (4 * i)) (seqZ 0 16)) (Spec.words block) (seqZ 0 10)) in A4;
    [|apply Forall_forall; intros r Hr; apply elem_of_seqZ in Hr; lia|intros i Hi; by apply words_spec].
  revert A4. generalize (fold_left (round_ (map (fun i => load32_le block (4 * i)) (seqZ 0 16))) (seqZ 0 10) v4),
    (fold_left (Spec.round (Spec.words block)) (seqZ 0 10) w3). clear - Hh. intros v w [_ A]. split.
  - apply map_ext_in. intros i Hi%list_elem_of_In%elem_of_seqZ.
    rewrite (proj1 (A i ltac:(lia))), (proj1 (A (8 + i) ltac:(lia))), (Z.add_comm 8 i). by rewrite Z.lxor_assoc.
  - split; [by rewrite zlen_map, zlen_seqZ by lia|]. apply Forall_map, Forall_forall. intros i Hi%elem_of_seqZ. cbn.
    apply word_lxor; [apply word_lxor|]; [|apply A; lia..]. apply at_Forall; [unfold word; lia|apply Hh].
Qed.

(** ** The stream *)

Lemma absorb_pending hh n pend msg :
  zlen pend + zlen msg <= 64 ->
  fold_left Stream.absorb msg (hh, n, pend) = (hh, n, pend ++ msg).
Proof.
  revert pend. induction msg as [|x msg IH]; intros pend Hl; simpl; [by rewrite app_nil_r|].
  autorewrite with soto_len in Hl. pose proof (zlen_nonneg msg).
  destruct (Z.eqb_spec (zlen pend) 64); [lia|].
  rewrite IH by len. by rewrite <- app_assoc.
Qed.

Lemma absorb_full hh n pend msg :
  zlen pend = 64 -> msg <> [] ->
  fold_left Stream.absorb msg (hh, n, pend) =
  fold_left Stream.absorb msg (Stream.mid hh (n + 64) pend, n + 64, []).
Proof. intros Hp. destruct msg as [|x msg]; [done|]. intros _. simpl. by rewrite Hp. Qed.

Lemma absorb_block hh n blk rest :
  zlen blk = 64 -> rest <> [] ->
  fold_left Stream.absorb (blk ++ rest) (hh, n, []) =
  fold_left Stream.absorb rest (Stream.mid hh (n + 64) blk, n + 64, []).
Proof.
  intros Hb Hr. rewrite fold_left_app, absorb_pending by len. simpl.
  by apply absorb_full.
Qed.

Definition finalize (st : Stream.stream) : list Z :=
  let '(hh, n, pend) := st in
  Stream.final hh (n + zlen pend) (pend ++ zeros (64 - zlen pend)).

Lemma zdrop_nonnil {A} n (l : list A) : 0 <= n < zlen l -> zdrop n l <> [].
Proof. intros H E. apply (f_equal zlen) in E. rewrite zlen_zdrop, zlen_nil in E by lia. lia. Qed.

(** The block loop and the byte stream agree. *)
Lemma blocks_absorb fuel hh n msg :
  (length msg < fuel)%nat ->
  Stream.blocks fuel hh n msg = finalize (fold_left Stream.absorb msg (hh, n, [])).
Proof.
  revert hh n msg. induction fuel as [|fuel IH]; intros hh n msg Hf; [lia|]. simpl.
  destruct (Z.leb_spec (zlen msg) 64).
  - rewrite absorb_pending by len. done.
  - assert (Hne : zdrop 64 msg <> []) by (apply zdrop_nonnil; lia).
    rewrite IH by (unfold zdrop, zlen in *; rewrite length_drop; lia).
    rewrite <- absorb_block by (done || (rewrite zlen_ztake; lia)).
    by rewrite ztake_zdrop.
Qed.

(** ** Refinement *)

(** The concrete state represents a stream state; the bytes of the buffer past
    [buflen] are stale and mean nothing. *)
Definition rep (s : Blake2s) (st : Stream.stream) : Prop :=
  let '(hh, n, pend) := st in
  h s = hh /\ 0 <= n /\ t0 s = u32 n /\ t1 s = u32 (n / 2 ^ 32) /\ f0 s = 0 /\ f1 s = 0
  /\ zlen (buf s) = 64 /\ 0 <= buflen s <= 64 /\ ztake (buflen s) (buf s) = pend.

Lemma increment_carry n inc :
  0 <= n -> 0 <= inc < 2 ^ 32 ->
  u32 (u32 n + inc) = u32 (n + inc) /\
  u32 (u32 (n / 2 ^ 32) + (if u32 (u32 n + inc) <? inc then 1 else 0)) = u32 ((n + inc) / 2 ^ 32).
Proof.
  intros Hn Hi. assert (E : u32 (u32 n + inc) = u32 (n + inc)) by (apply Z.add_mod_idemp_l; lia).
  split; [done|]. rewrite E. unfold u32. rewrite Z.add_mod_idemp_l by lia. f_equal.
  destruct (Z.ltb_spec ((n + inc) mod 2 ^ 32) inc); Z.div_mod_to_equations; lia.
Qed.

Lemma zlen_blit dst off src :
  0 <= off -> off + zlen src <= zlen dst -> zlen (blit dst off src) = zlen dst.
Proof.
  intros. pose proof (zlen_nonneg src). unfold blit.
  rewrite !zlen_app, zlen_ztake, zlen_zdrop by lia. lia.
Qed.

Lemma ztake_blit dst off src :
  0 <= off <= zlen dst ->
  ztake (off + zlen src) (blit dst off src) = ztake off dst ++ src.
Proof.
  intros. unfold blit. rewrite app_assoc. apply ztake_app.
  rewrite zlen_app, zlen_ztake; lia.
Qed.

(** The side conditions of the counter and the flags after a compression. *)
Ltac inc_side E0 E1 :=
  cbn [t0 t1 f0 f1 blake2s_compress blake2s_increment with_buf];
  repeat match goal with H : ?f ?s = _ |- context [?f ?s] => rewrite H end;
  rewrite ?E1, ?E0; done.

(** What the whole-block loop leaves: fewer than a block and a bit, and the
    stream state it stands for. *)
Lemma update_blocks_spec fuel s n p :
  (length p <= fuel)%nat -> 0 <= n -> t0 s = u32 n -> t1 s = u32 (n / 2 ^ 32) ->
  f0 s = 0 -> f1 s = 0 ->
  let '(s', p') := update_blocks fuel s p in
  exists n', 0 <= n' /\ t0 s' = u32 n' /\ t1 s' = u32 (n' / 2 ^ 32) /\ f0 s' = 0 /\ f1 s' = 0
    /\ buf s' = buf s /\ buflen s' = buflen s /\ outlen s' = outlen s /\ zlen p' <= 64
    /\ fold_left Stream.absorb p (h s, n, []) = (h s', n', p').
Proof.
  revert s n p. induction fuel as [|fuel IH]; intros s n p Hf Hn H0 H1 Hf0 Hf1; simpl.
  - destruct p; simpl in Hf; [|lia]. exists n. repeat split; try done.
  - rewrite Z.gtb_ltb. destruct (Z.ltb_spec 64 (zlen p)).
    + destruct (increment_carry n 64) as [E0 E1]; [lia..|].
      specialize (IH (blake2s_compress (blake2s_increment s 64) (ztake 64 p)) (n + 64) (zdrop 64 p)).
      destruct (update_blocks fuel _ _) as [s' p'].
      destruct IH as (n' & ? & ? & ? & ? & ? & ? & ? & ? & ? & Hfold);
        [|lia|inc_side E0 E1..|].
      { unfold zdrop, zlen in *. rewrite length_drop. lia. }
      exists n'. repeat split; try done. rewrite <- Hfold.
      rewrite <- (ztake_zdrop 64 p) at 1.
      rewrite absorb_block; [|rewrite zlen_ztake; lia|apply zdrop_nonnil; lia].
      simpl. unfold Stream.mid. rewrite H0, H1, E1, E0, Hf0, Hf1. done.
    + exists n. repeat split; try done. rewrite absorb_pending by len. done.
Qed.

Lemma HashUpdate_rep s st inp :
  rep s st ->
  rep (HashUpdate s inp) (fold_left Stream.absorb inp st) /\ outlen (HashUpdate s inp) = outlen s.
Proof.
  destruct st as [[hh n] pend]. intros (Hh & Hn & H0 & H1 & Hf0 & Hf1 & Hb & Hl & Hp).
  pose proof (zlen_nonneg inp). unfold HashUpdate.
  destruct (Z.eqb_spec (zlen inp) 0) as [E|E].
  { apply zlen_0_nil in E as ->. simpl. split; [|done]. unfold rep. split_and!; first [done|lia]. }
  assert (zlen pend = buflen s) by (rewrite <- Hp, zlen_ztake; lia).
  rewrite Z.gtb_ltb. destruct (Z.ltb_spec (64 - buflen s) (zlen inp)).
  - set (s1 := with_buf s _ 0).
    assert (E1 : buf s1 = pend ++ ztake (64 - buflen s) inp).
    { simpl. unfold blit. rewrite Hp. f_equal. rewrite zlen_ztake by lia.
      unfold zdrop. rewrite drop_ge by (unfold zlen in *; lia). apply app_nil_r. }
    assert (Hs1 : zlen (buf s1) = 64) by (rewrite E1, zlen_app, zlen_ztake; lia).
    destruct (increment_carry n 64) as [C0 C1]; [lia..|].
    assert (Hne : zdrop (64 - buflen s) inp <> []) by (apply zdrop_nonnil; lia).
    pose proof (update_blocks_spec (length inp)
      (blake2s_compress (blake2s_increment s1 64) (buf (blake2s_increment s1 64))) (n + 64)
      (zdrop (64 - buflen s) inp)) as Hu.
    destruct (update_blocks _ _ _) as [s' p'].
    destruct Hu as (n' & ? & ? & ? & ? & ? & B1 & B2 & B3 & ? & Hfold);
      [|lia|subst s1; inc_side C0 C1..|].
    { unfold zdrop. rewrite length_drop. lia. }
    assert (Hinp : fold_left Stream.absorb inp (hh, n, pend) = (h s', n', p')).
    { rewrite <- (ztake_zdrop (64 - buflen s) inp) at 1. rewrite fold_left_app.
      rewrite absorb_pending by (rewrite zlen_ztake; lia).
      rewrite <- E1, absorb_full by done. rewrite <- Hfold. cbn [h blake2s_compress blake2s_increment].
      unfold Stream.mid. simpl. rewrite H0, H1, C1, C0, Hf0, Hf1, Hh. done. }
    rewrite Hinp. simpl in B1, B2, B3. pose proof (zlen_nonneg p').
    split; [|done]. unfold rep; simpl. rewrite B2, B1. simpl in Hs1.
    repeat split; try done; try lia.
    + rewrite zlen_blit; lia.
    + rewrite ztake_blit by lia. done.
  - split; [|done]. rewrite absorb_pending by lia. unfold rep; simpl.
    repeat split; try done; try lia.
    + rewrite zlen_blit; lia.
    + rewrite ztake_blit by lia. by rewrite Hp.
Qed.

Lemma HashUpdates_rep s st chunks :
  rep s st ->
  rep (fold_left HashUpdate chunks s) (fold_left Stream.absorb (concat chunks) st)
  /\ outlen (fold_left HashUpdate chunks s) = outlen s.
Proof.
  revert s st. induction chunks as [|c cs IH]; intros s st Hr; simpl; [done|].
  destruct (HashUpdate_rep s st c Hr) as [Hr' Ho].
  destruct (IH _ _ Hr') as [Hr'' Ho']. rewrite fold_left_app. split; [done|congruence].
Qed.

Lemma HashFinal_rep s st :
  rep s st -> HashFinal s = ztake (outlen s) (concat (map store32_le (finalize st))).
Proof.
  destruct st as [[hh n] pend]. intros (Hh & Hn & H0 & H1 & Hf0 & Hf1 & Hb & Hl & Hp).
  assert (Hpl : zlen pend = buflen s) by (rewrite <- Hp, zlen_ztake; lia).
  assert (E : blit (buf s) (buflen s) (zeros (64 - buflen s)) = pend ++ zeros (64 - buflen s)).
  { unfold blit. rewrite Hp, zlen_zeros by lia. unfold zdrop.
    rewrite drop_ge by (unfold zlen in *; lia). by rewrite app_nil_r. }
  destruct (increment_carry n (buflen s)) as [C0 C1]; [lia..|].
  unfold HashFinal, finalize, Stream.final, blake2s_compress, blake2s_increment.
  cbn [h t0 t1 f0 f1 buf buflen outlen].
  rewrite E, Hh, H0, H1, C1, C0, Hf1, Hpl. reflexivity.
Qed.

Lemma init_rep outLen hh :
  rep (mkBlake2s hh 0 0 0 0 (zeros 64) 0 outLen) (hh, 0, []).
Proof. unfold rep. cbn [h t0 t1 f0 f1 buf buflen outlen]. split_and!; first [reflexivity | lia]. Qed.

Lemma HashInit_eq : HashInit = mkBlake2s (Stream.h_init 32 0) 0 0 0 0 (zeros 64) 0 32.
Proof. reflexivity. Qed.

Lemma stream_digest hh outLen chunks :
  HashFinal (fold_left HashUpdate chunks (mkBlake2s hh 0 0 0 0 (zeros 64) 0 outLen)) =
  ztake outLen (concat (map store32_le
    (Stream.blocks (S (length (concat chunks))) hh 0 (concat chunks)))).
Proof.
  destruct (HashUpdates_rep _ _ chunks (init_rep outLen hh)) as [Hr Ho].
  rewrite (HashFinal_rep _ _ Hr), Ho, blocks_absorb by lia. done.
Qed.

(** ** The digest is the RFC's *)

Lemma blocks_spec fuel hh n msg : state_ok hh -> is_bytes msg ->
  Stream.blocks fuel hh n msg = Spec.blocks fuel hh n msg.
Proof.
  revert hh n msg. induction fuel as [|fuel IH]; intros hh n msg Hh Hm; [done|]. cbn [Stream.blocks Spec.blocks].
  destruct (Z.leb_spec (zlen msg) 64).
  - pose proof (zlen_nonneg msg). unfold Stream.final. refine (proj1 (compress_spec hh _ true _ Hh _ _)).
    + rewrite zlen_app, zlen_zeros; lia.
    + apply is_bytes_app. split; [done|apply is_bytes_zeros].
  - destruct (compress_spec hh (n + 64) false (ztake 64 msg) Hh) as [E S]; [rewrite zlen_ztake; lia|by apply is_bytes_take|].
    unfold Stream.mid. rewrite E. apply IH; [exact S|by apply is_bytes_drop].
Qed.

Lemma h_init_spec nn kk : 0 <= nn <= 32 -> 0 <= kk <= 64 ->
  Stream.h_init nn kk = Spec.h_init nn kk /\ state_ok (Spec.h_init nn kk).
Proof.
  intros Hn Hk. assert (E : Stream.h_init nn kk = Spec.h_init nn kk).
  { unfold Stream.h_init, Spec.h_init. rewrite Z.shiftl_mul_pow2, !Z.lxor_assoc by lia. reflexivity. }
  split; [done|]. split; [done|]. unfold Spec.h_init. constructor; [|repeat constructor; vm_compute; congruence].
  repeat apply word_lxor; unfold word; try lia. split; vm_compute; congruence.
Qed.

Lemma concat_bytes l : Forall is_bytes l -> is_bytes (concat l).
Proof. induction 1; cbn [concat]; [constructor|]. by apply is_bytes_app. Qed.

Lemma digest_spec nn kk chunks : 0 <= nn <= 32 -> 0 <= kk <= 64 -> Forall is_bytes chunks ->
  HashFinal (fold_left HashUpdate chunks (mkBlake2s (Stream.h_init nn kk) 0 0 0 0 (zeros 64) 0 nn)) = Spec.digest nn kk (concat chunks).
Proof.
  intros Hn Hk Hc. destruct (h_init_spec nn kk Hn Hk) as [E S]. rewrite E, stream_digest. unfold Spec.digest.
  rewrite blocks_spec by (done || by apply concat_bytes). do 2 f_equal. apply map_ext. exact store32_le_split.
Qed.

(** C35: The streaming hash is BLAKE2s-256 of RFC 7693. Absorbing any sequence of chunks of bytes and finalizing yields the digest of their concatenation, so the result does not depend on the chunking; and that digest is the one of the RFC written out on its own: initial words from the square roots of the first eight primes, additions modulo 2^32 and arithmetic rotations by 16, 12, 8 and 7 bits, ten rounds of columns and diagonals under the permutations, little-endian words, the byte counter and the final flag. *)
Theorem streaming_hash_refines_blake2s chunks :
  Forall is_bytes chunks -> HashFinal (fold_left HashUpdate chunks HashInit) = Spec.hash (concat chunks).
Proof. intros Hc. rewrite HashInit_eq. by apply (digest_spec 32 0). Qed.

Lemma streaming_hash_refines_blake2s_witness :
  HashFinal (HashUpdate (HashUpdate HashInit (bs "a")) (bs "bc")) = Spec.hash (bs "abc").
Proof. apply (streaming_hash_refines_blake2s [bs "a"; bs "bc"]). apply Forall_cons_2; [apply bs_bytes|]. apply Forall_cons_2; [apply bs_bytes|apply Forall_nil_2]. Defined.

Lemma hash_two_chunks a b : is_bytes a -> is_bytes b ->
  HashFinal (HashUpdate (HashUpdate HashInit a) b) = Spec.hash (a ++ b).
Proof.
  intros Ha Hb. rewrite HashInit_eq. pose proof (digest_spec 32 0 [a; b] ltac:(lia) ltac:(lia)) as H.
  cbn [concat fold_left] in H. rewrite app_nil_r in H. apply H. by repeat constructor.
Qed.

Lemma Hash_spec msg : is_bytes msg -> Hash msg = Spec.hash msg.
Proof.
  intros Hm. unfold Hash. rewrite HashInit_eq. pose proof (digest_spec 32 0 [msg] ltac:(lia) ltac:(lia)) as H.
  cbn [concat fold_left] in H. rewrite app_nil_r in H. apply H. by repeat constructor.
Qed.

Lemma blit_zero_key key :
  zlen key <= 64 -> blit (zeros 64) 0 key = key ++ zeros (64 - zlen key).
Proof.
  intros. pose proof (zlen_nonneg key). unfold blit, ztake, zdrop, zeros. simpl take.
  rewrite drop_replicate. simpl app. do 2 f_equal. lia.
Qed.

Lemma is_bytes_hash msg : is_bytes (Spec.hash msg).
Proof.
  apply is_bytes_take, concat_bytes, Forall_map, Forall_forall. intros x _. apply le_split_bytes.
Qed.

Lemma is_bytes_xor c l : is_byte c -> is_bytes l -> is_bytes (map (fun x => x .^ c) l).
Proof.
  intros Hc Hl. apply Forall_map. apply (Forall_impl _ _ _ Hl). intros x Hx. unfold is_byte in *. cbn.
  change 256 with (2 ^ 8) in *. by apply lxor_range.
Qed.

(** [Mac16] is keyed BLAKE2s with a 16-byte digest for every non-empty key
    of at most one block, and [Hmac] is the RFC 2104 HMAC over that hash. *)
Theorem Mac16_Hmac_spec key msg :
  0 < zlen key <= 64 -> is_bytes key -> is_bytes msg ->
  Mac16 key msg = Spec.blake2s 16 key msg /\ Hmac key msg = Spec.hmac key msg.
Proof.
  intros Hk Hb Hm. assert (Hp : is_bytes (key ++ zeros (64 - zlen key))) by (apply is_bytes_app; split; [done|apply is_bytes_zeros]). split.
  - unfold Mac16, blake2s_init_key, Spec.blake2s. destruct (Z.gtb_spec (zlen key) 0); [|lia].
    destruct (Z.eqb_spec (zlen key) 0); [lia|]. rewrite blit_zero_key by lia.
    pose proof (digest_spec 16 (zlen key) [key ++ zeros (64 - zlen key); msg] ltac:(lia) ltac:(lia)) as Hd. cbn [concat fold_left] in Hd.
    rewrite app_nil_r, <- app_assoc in Hd. apply Hd. by repeat constructor.
  - unfold Hmac. destruct (Z.gtb_spec (zlen key) 64); [lia|].
    destruct (Z.gtb_spec (zlen key) 0); [|lia]. rewrite blit_zero_key by lia.
    rewrite (hash_two_chunks _ msg) by (done || by apply is_bytes_xor).
    by rewrite hash_two_chunks by (apply is_bytes_hash || by apply is_bytes_xor).
Qed.

Lemma Mac16_Hmac_spec_witness :
  0 < zlen [11] <= 64 /\ Mac16 [11] [97; 98] = Spec.blake2s 16 [11] [97; 98].
Proof.
  assert (H : 0 < zlen [11] <= 64) by (unfold zlen; simpl; lia).
  split; [exact H|]. refine (proj1 (Mac16_Hmac_spec [11] [97; 98] H _ _)); repeat constructor; done.
Defined.

(** Digest lengths, used by the handshakes. *)
Lemma zlen_store32s l : zlen (concat (map store32_le l)) = 4 * zlen l.
Proof.
  induction l as [|x l IH]; cbn [map concat]; [done|]. rewrite zlen_app, zlen_cons, IH.
  change (zlen (store32_le x)) with 4. lia.
Qed.

Lemma zlen_compress_core hh a b c d blk : zlen (compress_core hh a b c d blk) = 8.
Proof. unfold compress_core. rewrite zlen_map. reflexivity. Qed.

Lemma zlen_Hash_final s : 0 <= outlen s <= 32 -> zlen (HashFinal s) = outlen s.
Proof.
  intros. unfold HashFinal. cbn [h blake2s_compress outlen blake2s_increment].
  apply zlen_ztake. rewrite zlen_store32s, zlen_compress_core. lia.
Qed.

Lemma outlen_update_blocks fuel s p : outlen (fst (update_blocks fuel s p)) = outlen s.
Proof.
  revert s p. induction fuel as [|fuel IH]; intros s p; simpl; [done|].
  destruct (zlen p >? 64); [|done]. by rewrite IH.
Qed.

Lemma outlen_HashUpdate s inp : outlen (HashUpdate s inp) = outlen s.
Proof.
  unfold HashUpdate. destruct (zlen inp =? 0); [done|]. destruct (zlen inp >? _); [|done].
  match goal with |- context [update_blocks ?f ?s ?p] =>
    pose proof (outlen_update_blocks f s p) as H; destruct (update_blocks f s p) end.
  exact H.
Qed.

Lemma outlen_init n key : outlen (blake2s_init_key n key) = n.
Proof. unfold blake2s_init_key. destruct (_ >? 0); [|done]. by rewrite outlen_HashUpdate. Qed.

Lemma zlen_Mac16 key msg : zlen (Mac16 key msg) = 16.
Proof.
  assert (E : outlen (HashUpdate (blake2s_init_key 16 key) msg) = 16)
    by (rewrite outlen_HashUpdate; apply outlen_init).
  unfold Mac16. rewrite zlen_Hash_final; lia.
Qed.

Lemma zlen_Hash msg : zlen (Hash msg) = 32.
Proof.
  assert (E : outlen (HashUpdate HashInit msg) = 32)
    by (rewrite outlen_HashUpdate; apply outlen_init).
  unfold Hash. rewrite zlen_Hash_final; lia.
Qed.

End wg.
