(* ===== verification/Replay.v ===== *)
(** * Replay: the RFC 6479 anti-replay window of a WireGuard session

    [_ReplayValidate] and [ResetReplay] of src/backend/tailscale/WGPeer.cpp: a
    ring of 128 64-bit words indexed by the counter.  [Spec] remembers the set
    of accepted counters; the ring is proved to implement it. *)

From S2P Require Import Prelude.
Open Scope Z_scope.
Open Scope soto_scope.

Module Replay.

Definition kReplayBits : Z := 64.
Definition kReplayBlocks : Z := 128.
Definition kReplayWindow : Z := kReplayBits * (kReplayBlocks - 1).
Definition kRejectAfterMessages : Z := 0xFFFFFFFFFFFFFFFF - 2 ^ 13 - 1.

Record replay := mkReplay { fReplayCounter : Z; fReplayBitmap : list Z }.

Definition ResetReplay : replay := mkReplay 0 (replicate 128 0).

Definition slot (bm : list Z) (i : Z) : Z := nth (Z.to_nat i) bm 0.
Definition set_slot (bm : list Z) (i x : Z) : list Z := <[Z.to_nat i := x]> bm.

(** [for (i = 1; i <= top; i++) fReplayBitmap[(i + indexCurrent) & 127] = 0;] *)
Fixpoint clear_blocks (bm : list Z) (indexCurrent : Z) (top : nat) : list Z :=
  match top with
  | O => bm
  | S k =>
      set_slot (clear_blocks bm indexCurrent k)
        ((Z.of_nat (S k) + indexCurrent) .& (kReplayBlocks - 1)) 0
  end.

Definition _ReplayValidate (r : replay) (counter : Z) : bool * replay :=
  if counter >=? kRejectAfterMessages then (false, r)
  else
    let counter := u64 (counter + 1) in
    if u64 (kReplayWindow + counter) <? fReplayCounter r then (false, r)
    else
      let index := counter ≫ 6 in
      let r :=
        if counter >? fReplayCounter r then
          let indexCurrent := fReplayCounter r ≫ 6 in
          let top := index - indexCurrent in
          let top := if top >? kReplayBlocks then kReplayBlocks else top in
          mkReplay counter (clear_blocks (fReplayBitmap r) indexCurrent (Z.to_nat top))
        else r in
      let index := index .& (kReplayBlocks - 1) in
      let bit := u64 (1 ≪ (counter .& (kReplayBits - 1))) in
      let word := slot (fReplayBitmap r) index in
      if negb (word .& bit =? 0) then (false, r)
      else (true, mkReplay (fReplayCounter r) (set_slot (fReplayBitmap r) index (word .| bit))).

(** The verdicts on a sequence of received counters. *)
Fixpoint validate_all (r : replay) (cs : list Z) : list bool * replay :=
  match cs with
  | [] => ([], r)
  | c :: cs =>
      let '(v, r) := _ReplayValidate r c in
      let '(vs, r) := validate_all r cs in (v :: vs, r)
  end.

(** ** Specification: the list of accepted counters *)

Module Spec.

Definition top (seen : list Z) : Z := foldr (fun c m => Z.max (c + 1) m) 0 seen.

(** Accept a counter that is not exhausted, was not accepted before, and is at
    most [kReplayWindow] behind the highest accepted one. *)
Definition accept (seen : list Z) (c : Z) : bool :=
  (c <? kRejectAfterMessages) && (top seen <=? kReplayWindow + (c + 1))
  && negb (existsb (Z.eqb c) seen).

Fixpoint run (seen : list Z) (cs : list Z) : list bool :=
  match cs with
  | [] => []
  | c :: cs => if accept seen c then true :: run (c :: seen) cs else false :: run seen cs
  end.

End Spec.

(** ** Ring arithmetic *)

Lemma land_127 x : x .& (kReplayBlocks - 1) = x mod 128.
Proof. apply (land_ones_mod x 7). lia. Qed.

Lemma land_63 x : x .& (kReplayBits - 1) = x mod 64.
Proof. apply (land_ones_mod x 6). lia. Qed.

Lemma shr6 x : x ≫ 6 = x / 64.
Proof. apply Z.shiftr_div_pow2. lia. Qed.

Lemma bit_word c : u64 (1 ≪ (c .& (kReplayBits - 1))) = 2 ^ (c mod 64).
Proof.
  rewrite land_63. pose proof (Z.mod_pos_bound c 64).
  rewrite Z.shiftl_mul_pow2, Z.mul_1_l by lia. apply u64_small.
  assert (2 ^ (c mod 64) < 2 ^ 64) by (apply Z.pow_lt_mono_r; lia). lia.
Qed.

Lemma land_pow2_0 w k : 0 <= k -> (w .& 2 ^ k =? 0) = negb (Z.testbit w k).
Proof.
  intros. destruct (Z.testbit w k) eqn:E; simpl.
  - apply Z.eqb_neq. intros H0. apply (f_equal (fun z => Z.testbit z k)) in H0.
    rewrite Z.land_spec, E, Z.pow2_bits_true, Z.bits_0 in H0 by lia. done.
  - apply Z.eqb_eq. apply Z.bits_inj'. intros n Hn. rewrite Z.land_spec, Z.bits_0.
    destruct (Z.eq_dec n k) as [->|]; [by rewrite E|].
    rewrite Z.pow2_bits_false by lia. apply andb_false_r.
Qed.

Lemma slot_set bm i j x :
  0 <= i < 128 -> 0 <= j < 128 -> length bm = 128%nat ->
  slot (set_slot bm i x) j = if i =? j then x else slot bm j.
Proof.
  intros. unfold slot, set_slot. rewrite !nth_lookup.
  destruct (Z.eqb_spec i j) as [->|].
  - rewrite list_lookup_insert_eq by lia. done.
  - rewrite list_lookup_insert_ne by lia. done.
Qed.

Lemma length_clear bm cur k : length (clear_blocks bm cur k) = length bm.
Proof. induction k; simpl; [done|]. unfold set_slot. by rewrite length_insert. Qed.

(** A slot is cleared exactly when some cleared block falls on it. *)
Lemma slot_clear bm cur k j :
  length bm = 128%nat -> 0 <= j < 128 ->
  slot (clear_blocks bm cur k) j =
  if bool_decide (1 <= (j - cur) mod 128 <= Z.of_nat k \/ 128 <= Z.of_nat k) then 0 else slot bm j.
Proof.
  intros Hl Hj. induction k as [|k IH]; cbn [clear_blocks].
  - rewrite bool_decide_eq_false_2; [done|]. lia.
  - rewrite slot_set by (rewrite ?length_clear, ?land_127; try done; apply Z.mod_pos_bound; lia).
    rewrite land_127, Nat2Z.inj_succ, IH. clear IH.
    assert (E : (Z.succ (Z.of_nat k) + cur) mod 128 = j <->
                (j - cur) mod 128 = Z.succ (Z.of_nat k) mod 128).
    { split; intros; Z.div_mod_to_equations; lia. }
    destruct (Z.eqb_spec ((Z.succ (Z.of_nat k) + cur) mod 128) j) as [He|He].
    + apply E in He. rewrite bool_decide_eq_true_2; [done|].
      destruct (Z.lt_ge_cases (Z.succ (Z.of_nat k)) 128); [left|right; lia].
      rewrite He, (Z.mod_small (Z.succ _)) by lia. lia.
    + assert (He' : (j - cur) mod 128 <> Z.succ (Z.of_nat k) mod 128) by (rewrite <- E; done).
      pose proof (Z.mod_pos_bound (j - cur) 128).
      assert (Hd : (1 <= (j - cur) mod 128 <= Z.of_nat k \/ 128 <= Z.of_nat k) <->
                   (1 <= (j - cur) mod 128 <= Z.succ (Z.of_nat k) \/ 128 <= Z.succ (Z.of_nat k))).
      { destruct (Z.lt_ge_cases (Z.succ (Z.of_nat k)) 128) as [Hk|Hk].
        - rewrite (Z.mod_small (Z.succ _)) in He' by lia. lia.
        - destruct (Z.eq_dec (Z.succ (Z.of_nat k)) 128) as [Ek|Ek]; [|lia].
          rewrite Ek, Z.mod_same in He' by lia. lia. }
      erewrite bool_decide_ext by exact Hd. done.
Qed.

(** ** The refinement *)

(** Bit of the (1-based) counter [n] in the ring. *)
Definition ring_bit (bm : list Z) (n : Z) : bool :=
  Z.testbit (slot bm ((n / 64) mod 128)) (n mod 64).

(** The ring represents the list of accepted counters: its head is the highest
    one, and inside the window of 128 blocks a bit is set exactly for the
    accepted counters. *)
Definition rep (r : replay) (seen : list Z) : Prop :=
  length (fReplayBitmap r) = 128%nat
  /\ fReplayCounter r = Spec.top seen
  /\ Forall (fun c => 0 <= c < kRejectAfterMessages) seen
  /\ forall n, 0 <= n -> fReplayCounter r / 64 - 128 < n / 64 <= fReplayCounter r / 64 ->
       ring_bit (fReplayBitmap r) n = existsb (Z.eqb (n - 1)) seen.

Lemma top_nonneg seen : 0 <= Spec.top seen.
Proof. induction seen; simpl; lia. Qed.

Lemma seen_le_top seen c : existsb (Z.eqb c) seen = true -> c + 1 <= Spec.top seen.
Proof.
  rewrite existsb_exists. intros (x & Hx & ->%Z.eqb_eq). induction seen as [|y seen IH]; simpl in *.
  - done.
  - destruct Hx as [->|Hx]; [lia|]. specialize (IH Hx). lia.
Qed.

Lemma top_bound seen :
  Forall (fun c => 0 <= c < kRejectAfterMessages) seen -> Spec.top seen <= kRejectAfterMessages.
Proof. induction 1; simpl; [unfold kRejectAfterMessages; lia|]. lia. Qed.

Lemma ring_bit_set bm n m :
  length bm = 128%nat -> 0 <= n -> 0 <= m -> -128 < n / 64 - m / 64 < 128 ->
  ring_bit (set_slot bm ((n / 64) mod 128) (slot bm ((n / 64) mod 128) .| 2 ^ (n mod 64))) m =
  (m =? n) || ring_bit bm m.
Proof.
  intros Hl Hn Hm Hd. unfold ring_bit.
  pose proof (Z.mod_pos_bound (n / 64) 128). pose proof (Z.mod_pos_bound (m / 64) 128).
  rewrite slot_set by (lia || done).
  pose proof (Z.mod_pos_bound n 64). pose proof (Z.mod_pos_bound m 64).
  destruct (Z.eqb_spec ((n / 64) mod 128) ((m / 64) mod 128)) as [E|E].
  - assert (Hq : n / 64 = m / 64).
    { clear -E Hd. Z.div_mod_to_equations. lia. }
    rewrite Z.lor_spec, E. destruct (Z.eqb_spec m n) as [->|Hne].
    + rewrite Z.pow2_bits_true by lia. simpl. apply orb_true_r.
    + rewrite Z.pow2_bits_false; [apply orb_false_r|].
      intros Hr. apply Hne. rewrite (Z.div_mod m 64), (Z.div_mod n 64) by lia. lia.
  - destruct (Z.eqb_spec m n) as [->|]; done.
Qed.

(** Moving the head forward clears the words of the blocks it passes. *)
Lemma ring_bit_advance bm cur new m :
  length bm = 128%nat -> 0 <= cur -> cur <= new / 64 ->
  0 <= m -> new / 64 - 128 < m / 64 <= new / 64 ->
  ring_bit (clear_blocks bm cur
    (Z.to_nat (if new / 64 - cur >? kReplayBlocks then kReplayBlocks else new / 64 - cur))) m =
  if m / 64 <=? cur then ring_bit bm m else false.
Proof.
  intros Hl Hc Hcn Hm Hw. unfold ring_bit, kReplayBlocks.
  rewrite slot_clear by (done || (apply Z.mod_pos_bound; lia)).
  assert (Hk : Z.of_nat (Z.to_nat (if new / 64 - cur >? 128 then 128 else new / 64 - cur)) =
               Z.min 128 (new / 64 - cur)) by (rewrite Z.gtb_ltb; zcases).
  rewrite Hk. assert (E : ((m / 64) mod 128 - cur) mod 128 = (m / 64 - cur) mod 128)
    by (apply Zminus_mod_idemp_l).
  rewrite E. destruct (Z.leb_spec (m / 64) cur).
  - rewrite bool_decide_eq_false_2; [done|]. intros [H1|H1]; [|lia].
    destruct (Z.eq_dec (m / 64) cur) as [Ec|Ec].
    + replace (m / 64 - cur) with 0 in H1 by lia. rewrite Z.mod_0_l in H1 by lia. lia.
    + assert (Hmod : (m / 64 - cur) mod 128 = m / 64 - cur + 128).
      { rewrite <- (Z.mod_add _ 1) by lia. apply Z.mod_small. lia. }
      lia.
  - rewrite bool_decide_eq_true_2; [apply Z.bits_0|].
    destruct (Z.lt_ge_cases (m / 64 - cur) 128); [left; rewrite Z.mod_small; lia|right; lia].
Qed.

Lemma existsb_above seen n :
  Spec.top seen < n -> existsb (Z.eqb (n - 1)) seen = false.
Proof.
  intros. destruct (existsb _ seen) eqn:E; [|done]. apply seen_le_top in E. lia.
Qed.

Lemma div64_mono a b : a <= b -> a / 64 <= b / 64.
Proof. intros. apply Z.div_le_mono; lia. Qed.

(** After the optional advance the head is the highest of both, and the ring
    still represents the same accepted counters. *)
Definition advance (r : replay) (n : Z) : replay :=
  if n >? fReplayCounter r then
    mkReplay n (clear_blocks (fReplayBitmap r) (fReplayCounter r ≫ 6)
      (Z.to_nat (if n ≫ 6 - fReplayCounter r ≫ 6 >? kReplayBlocks then kReplayBlocks
                 else n ≫ 6 - fReplayCounter r ≫ 6)))
  else r.

Lemma advance_rep r seen n :
  rep r seen -> 0 <= n ->
  let r' := advance r n in
  length (fReplayBitmap r') = 128%nat /\ fReplayCounter r' = Z.max n (Spec.top seen)
  /\ forall m, 0 <= m -> fReplayCounter r' / 64 - 128 < m / 64 <= fReplayCounter r' / 64 ->
       ring_bit (fReplayBitmap r') m = existsb (Z.eqb (m - 1)) seen.
Proof.
  intros (Hl & Ht & _ & Hb) Hn r'. unfold r', advance. rewrite Z.gtb_ltb.
  destruct (Z.ltb_spec (fReplayCounter r) n); simpl.
  - rewrite length_clear. split; [done|]. split; [lia|].
    intros m Hm Hw. pose proof (top_nonneg seen). rewrite !shr6.
    rewrite ring_bit_advance; [|done|apply Z.div_pos; lia|apply div64_mono; lia|done|lia].
    destruct (Z.leb_spec (m / 64) (fReplayCounter r / 64)).
    + apply Hb; [done|]. pose proof (div64_mono (fReplayCounter r) n). lia.
    + symmetry. apply existsb_above. rewrite <- Ht.
      destruct (Z.lt_ge_cases (fReplayCounter r) m); [done|].
      pose proof (div64_mono m (fReplayCounter r)). lia.
  - split; [done|]. split; [lia|]. exact Hb.
Qed.

Lemma constants : kRejectAfterMessages = 18446744073709543422 /\ kReplayWindow = 8128.
Proof. split; reflexivity. Qed.

Lemma _ReplayValidate_unfold r c :
  0 <= c -> c < kRejectAfterMessages -> fReplayCounter r <= kReplayWindow + (c + 1) ->
  let n := c + 1 in
  _ReplayValidate r c =
  (let r' := advance r n in
   let word := slot (fReplayBitmap r') ((n / 64) mod 128) in
   if Z.testbit word (n mod 64) then (false, r')
   else (true, mkReplay (fReplayCounter r')
                 (set_slot (fReplayBitmap r') ((n / 64) mod 128) (word .| 2 ^ (n mod 64))))).
Proof.
  intros Hc Hr Hw. pose proof constants as [E1 E2]. cbv zeta. set (n := c + 1).
  unfold _ReplayValidate. destruct (Z.geb_spec c kRejectAfterMessages); [lia|]. cbv zeta.
  rewrite (u64_small (c + 1)) by lia. fold n.
  rewrite (u64_small (kReplayWindow + n)) by lia.
  destruct (Z.ltb_spec (kReplayWindow + n) (fReplayCounter r)); [lia|].
  fold (advance r n). pose proof (Z.mod_pos_bound n 64).
  rewrite bit_word, land_127, shr6, land_pow2_0, negb_involutive by lia. done.
Qed.

(** One received counter: the verdict is the specification's, a rejected
    counter leaves the window untouched, and the window represents the new
    list of accepted counters. *)
Lemma validate_step r seen c :
  rep r seen -> 0 <= c ->
  let '(v, r') := _ReplayValidate r c in
  v = Spec.accept seen c /\ rep r' (if v then c :: seen else seen) /\ (v = false -> r' = r).
Proof.
  intros Hrep Hc. pose proof Hrep as (Hl & Ht & Hs & Hb). pose proof (top_bound _ Hs) as Htb.
  pose proof (top_nonneg seen). pose proof constants as [E1 E2].
  unfold Spec.accept. destruct (Z.ltb_spec c kRejectAfterMessages) as [Hr|Hr].
  2: { unfold _ReplayValidate. destruct (Z.geb_spec c kRejectAfterMessages); [done|lia]. }
  destruct (Z.leb_spec (Spec.top seen) (kReplayWindow + (c + 1))) as [Hw|Hw].
  2: { unfold _ReplayValidate. destruct (Z.geb_spec c kRejectAfterMessages); [lia|].
       rewrite (u64_small (c + 1)), u64_small by lia.
       destruct (Z.ltb_spec (kReplayWindow + (c + 1)) (fReplayCounter r)); [done|lia]. }
  rewrite _ReplayValidate_unfold by (done || lia).
  destruct (advance_rep r seen (c + 1) Hrep) as (Hl' & Hc' & Hb'); [lia|].
  cbv zeta. set (r' := advance r (c + 1)) in *.
  assert (Hin : fReplayCounter r' / 64 - 128 < (c + 1) / 64 <= fReplayCounter r' / 64).
  { rewrite Hc'. split; [|apply div64_mono; lia].
    rewrite E2 in Hw. Z.div_mod_to_equations. lia. }
  pose proof (Hb' (c + 1) ltac:(lia) Hin) as Hbit. unfold ring_bit in Hbit.
  rewrite Hbit. replace (c + 1 - 1) with c by lia.
  destruct (existsb (Z.eqb c) seen) eqn:Ese; simpl.
  - assert (r' = r) as ->; [|done]. unfold r', advance. apply seen_le_top in Ese.
    rewrite Z.gtb_ltb. destruct (Z.ltb_spec (fReplayCounter r) (c + 1)); [lia|done].
  - split; [done|]. split; [|done]. unfold rep; simpl. split_and!.
    + unfold set_slot. by rewrite length_insert.
    + rewrite Hc'. done.
    + constructor; [lia|done].
    + intros n Hn Hnw. rewrite ring_bit_set by (done || lia). rewrite Hb' by done.
      f_equal. destruct (Z.eqb_spec n (c + 1)), (Z.eqb_spec (n - 1) c); done || lia.
Qed.

Lemma rep_reset : rep ResetReplay [].
Proof.
  unfold rep. split_and!; [done..|]. intros n Hn _. unfold ring_bit.
  change (fReplayBitmap ResetReplay) with (replicate 128 0). unfold slot. rewrite nth_lookup.
  assert (Hz : replicate 128 0 !! Z.to_nat ((n / 64) mod 128) = Some 0).
  { apply lookup_replicate_2. pose proof (Z.mod_pos_bound (n / 64) 128). lia. }
  rewrite Hz. apply Z.bits_0.
Qed.

Lemma top_le seen n : 0 <= n -> Forall (fun c => c < n) seen -> Spec.top seen <= n.
Proof. intros Hn. intros Hs. induction seen as [|c seen IH]; [done|]. apply Forall_cons in Hs as [Hc Hs]. unfold Spec.top in *. cbn [fold_right] in *. specialize (IH Hs). lia. Qed.

Lemma accept_next seen n : 0 <= n < kRejectAfterMessages -> Forall (fun c => c < n) seen -> Spec.accept seen n = true.
Proof.
  intros Hn Hs. unfold Spec.accept. pose proof (top_le seen n ltac:(lia) Hs). destruct constants as [_ Hw].
  destruct (Z.ltb_spec n kRejectAfterMessages); [|lia]. destruct (Z.leb_spec (Spec.top seen) (kReplayWindow + (n + 1))); [|lia].
  cbn [andb]. apply negb_true_iff, not_true_is_false. intros E. apply existsb_exists in E as (x & Hx & Ex).
  apply Z.eqb_eq in Ex. subst x. rewrite Forall_forall in Hs. apply list_elem_of_In in Hx. specialize (Hs n Hx). lia.
Qed.

Lemma validate_all_rep r seen cs :
  rep r seen -> Forall (fun c => 0 <= c) cs -> fst (validate_all r cs) = Spec.run seen cs.
Proof.
  intros Hr Hcs. revert r seen Hr. induction Hcs as [|c cs Hc Hcs IH]; intros r seen Hr; [done|].
  simpl. pose proof (validate_step r seen c Hr Hc) as Hstep.
  destruct (_ReplayValidate r c) as [v r']. destruct Hstep as (-> & Hr' & _).
  specialize (IH r' _ Hr'). destruct (validate_all r' cs) as [vs r'']. simpl in *. rewrite IH.
  by destruct (Spec.accept seen c).
Qed.

(** C12: on every sequence of received 64-bit counters the ring buffer gives
    the verdicts of the specification that remembers all accepted counters: a
    counter is accepted iff it is below REJECT_AFTER_MESSAGES, was not accepted
    before, and is at most 8128 behind the highest accepted one. *)
Theorem replay_window_refines_spec cs :
  Forall (fun c => 0 <= c < 2 ^ 64) cs ->
  fst (validate_all ResetReplay cs) = Spec.run [] cs.
Proof.
  intros H. apply validate_all_rep; [apply rep_reset|].
  eapply Forall_impl; [exact H|]. simpl. lia.
Qed.

Lemma replay_window_refines_spec_witness :
  Forall (fun c => 0 <= c < 2 ^ 64) [5; 0; 5; 9000; 872; 871; 2 ^ 64 - 1] /\
  fst (validate_all ResetReplay [5; 0; 5; 9000; 872; 871; 2 ^ 64 - 1])
  = [true; true; false; true; true; false; false].
Proof.
  assert (H : Forall (fun c => 0 <= c < 2 ^ 64) [5; 0; 5; 9000; 872; 871; 2 ^ 64 - 1])
    by (repeat constructor; lia).
  split; [exact H|]. rewrite (replay_window_refines_spec _ H). vm_compute. reflexivity.
Defined.

End Replay.
