(* ===== verification/Crypto.v ===== *)
(** * Crypto: the OpenSSL interface and the source's wrappers over it

    X25519 and ChaCha20-Poly1305 are OpenSSL's (not part of the repository):
    they are the operations of the class [OpenSSL], their documented laws the
    class [OpenSSLLaws].  [wg::AeadEncrypt], [wg::AeadDecrypt] and
    [wg::Tai64n] of src/backend/WireGuardCrypto.cpp and the big-endian-nonce
    seal/open of src/backend/tailscale/TSControlConn.cpp are translated on top.
    Random numbers and fresh keypairs are arguments of the code that draws
    them.  [Toy] is an instance that shows the laws can hold. *)

From S2P Require Import Prelude Endian.
Open Scope Z_scope.
Open Scope soto_scope.

Module Crypto.

(** [None] is the failure the EVP calls report. Sealing returns the ciphertext
    followed by the 16-byte tag, opening takes them in that form. *)
Class OpenSSL := {
  evp_seal : bytes -> bytes -> bytes -> bytes -> option bytes;  (* key nonce aad plain *)
  evp_open : bytes -> bytes -> bytes -> bytes -> option bytes;  (* key nonce aad cipher *)
  x25519_pub : bytes -> option bytes;
  x25519 : bytes -> bytes -> option bytes
}.

Class OpenSSLLaws `{OpenSSL} : Prop := {
  seal_length : forall k n a p c, evp_seal k n a p = Some c -> zlen c = zlen p + 16;
  seal_bytes : forall k n a p c, is_bytes p -> evp_seal k n a p = Some c -> is_bytes c;
  open_seal : forall k n a p c, evp_seal k n a p = Some c -> evp_open k n a c = Some p;
  open_length : forall k n a p c, evp_open k n a c = Some p -> zlen c = zlen p + 16;
  pub_length : forall s p, x25519_pub s = Some p -> zlen p = 32 /\ is_bytes p;
  dh_comm : forall a b pa pb, x25519_pub a = Some pa -> x25519_pub b = Some pb ->
    x25519 a pb = x25519 b pa
}.

Section Wrappers.
Context `{OpenSSL}.

Definition DhPublic (priv : bytes) : option bytes := x25519_pub priv.
Definition Dh (priv peerPub : bytes) : option bytes := x25519 priv peerPub.

(** WireGuard's nonce: four zero bytes and the counter, little-endian. *)
Definition AeadEncrypt (key : bytes) (counter : Z) (plain aad : bytes) : option bytes :=
  evp_seal key (zeros 4 ++ store64_le counter) aad plain.

Definition AeadDecrypt (key : bytes) (counter : Z) (cipher aad : bytes) : option bytes :=
  if zlen cipher <? 16 then None
  else evp_open key (zeros 4 ++ store64_le counter) aad cipher.

(** The control records' nonce: four zero bytes and the counter, big-endian. *)
Definition build_nonce (counter : Z) : bytes :=
  zeros 4 ++ map (fun i => u8 (counter ≫ (8 * (7 - i)))) (seqZ 0 8).

Definition aead_seal (key : bytes) (counter : Z) (plain : bytes) : option bytes :=
  evp_seal key (build_nonce counter) [] plain.

Definition aead_open (key : bytes) (counter : Z) (cipher : bytes) : option bytes :=
  if zlen cipher <? 16 then None else evp_open key (build_nonce counter) [] cipher.

Context `{!OpenSSLLaws}.

Lemma AeadEncrypt_length k n p a c : AeadEncrypt k n p a = Some c -> zlen c = zlen p + 16.
Proof. apply seal_length. Qed.

Lemma AeadDecrypt_Encrypt k n p a c :
  AeadEncrypt k n p a = Some c -> AeadDecrypt k n c a = Some p.
Proof.
  intros E. pose proof (seal_length _ _ _ _ _ E). pose proof (zlen_nonneg p).
  unfold AeadDecrypt. destruct (Z.ltb_spec (zlen c) 16); [lia|]. by apply open_seal.
Qed.

Lemma aead_open_seal k n p c : aead_seal k n p = Some c -> aead_open k n c = Some p.
Proof.
  intros E. pose proof (seal_length _ _ _ _ _ E). pose proof (zlen_nonneg p).
  unfold aead_open. destruct (Z.ltb_spec (zlen c) 16); [lia|]. by apply open_seal.
Qed.
End Wrappers.

(** TAI64N: 2^62 + 10 + seconds big-endian, then four zero bytes of nanoseconds. *)
Definition Tai64n (time : Z) : bytes :=
  let seconds := u64 (0x400000000000000A + u64 time) in
  map (fun i => u8 (seconds ≫ (8 * (7 - i)))) (seqZ 0 8) ++ [0; 0; 0; 0].

Lemma zlen_Tai64n time : zlen (Tai64n time) = 12.
Proof. reflexivity. Qed.

(** ** An instance satisfying the laws

    Sealing appends a sixteen-byte checksum of the key, nonce and associated
    data, a public key is the private one as a 32-byte number, and the shared
    secret is their sum. *)
Module Toy.

Definition num (l : bytes) : Z := le_combine (map u8 l).

Definition tag (k n a : bytes) : bytes := le_split 16 (num k + 3 * num n + 5 * num a).

#[export] Instance toy : OpenSSL := {
  evp_seal k n a p := Some (p ++ tag k n a);
  evp_open k n a c :=
    if (16 <=? zlen c) && beq (zdrop (zlen c - 16) c) (tag k n a)
    then Some (ztake (zlen c - 16) c) else None;
  x25519_pub s := Some (le_split 32 (num s));
  x25519 s p := Some (le_split 32 (num s mod 256 ^ 32 + num p))
}.

Lemma map_u8_bytes l : is_bytes l -> map u8 l = l.
Proof. induction 1; simpl; [done|]. rewrite u8_small by done. congruence. Qed.

Lemma num_split v : num (le_split 32 v) = v mod 256 ^ 32.
Proof.
  unfold num. rewrite map_u8_bytes by apply le_split_bytes. apply (le_combine_split 32).
Qed.

Lemma zlen_tag k n a : zlen (tag k n a) = 16.
Proof. unfold tag, zlen. by rewrite length_le_split. Qed.

#[export] Instance toy_laws : OpenSSLLaws.
Proof.
  constructor; cbn [toy evp_seal evp_open x25519_pub x25519].
  - intros k n a p c Hc. injection Hc as <-. by rewrite zlen_app, zlen_tag.
  - intros k n a p c Hp Hc. injection Hc as <-. apply is_bytes_app. split; [done|apply le_split_bytes].
  - intros k n a p c Hc. injection Hc as <-. pose proof (zlen_nonneg p).
    rewrite zlen_app, zlen_tag. replace (zlen p + 16 - 16) with (zlen p) by lia.
    rewrite zdrop_app, ztake_app, beq_refl by done.
    by destruct (Z.leb_spec 16 (zlen p + 16)); [|lia].
  - intros k n a p c Hc. destruct (Z.leb_spec 16 (zlen c)); simpl in Hc; [|done].
    destruct (beq _ _) in Hc; [|done]. injection Hc as <-. rewrite zlen_ztake; lia.
  - intros s p E. assert (p = le_split 32 (num s)) as -> by congruence. split; [|apply le_split_bytes].
    unfold zlen. by rewrite length_le_split.
  - intros a b pa pb Ea Eb. assert (pa = le_split 32 (num a)) as -> by congruence.
    assert (pb = le_split 32 (num b)) as -> by congruence. rewrite !num_split. do 2 f_equal. lia.
Qed.

(** The toy sealing never fails. *)
Lemma toy_seals k n p a : is_Some (AeadEncrypt k n p a).
Proof. unfold AeadEncrypt. by eexists. Qed.

End Toy.

End Crypto.
