(* ===== verification/WGPeer.v ===== *)
(** * WGPeer: one WireGuard peer of the Tailscale data plane

    src/backend/tailscale/WGPeer.{h,cpp}: the transport keys and counters, the
    Noise IKpsk2 handshake on both sides, the type-4 framing and the session
    timers.  The class's fields are grouped in three records (handshake
    scratch, live session, the rest).  Random draws, the wall clock
    ([time(NULL)]) and [system_time()] are arguments. *)

From S2P Require Import Prelude CLib Endian Blake2s Replay Crypto.
Import Crypto.
Open Scope Z_scope.
Open Scope soto_scope.

Module WGPeer.

Definition kRekeyAfterTime : Z := 120 * 1000000.
Definition kRejectAfterTime : Z := 180 * 1000000.
Definition kRekeyTimeout : Z := 5 * 1000000.
Definition kKeepaliveTimeout : Z := 25 * 1000000.

Definition kConstruction : bytes := bs "Noise_IKpsk2_25519_ChaChaPoly_BLAKE2s".
Definition kIdentifier : bytes := bs "WireGuard v1 zx2c4 Jason@zx2c4.com".
Definition kLabelMac1 : bytes := bs "mac1----".

(** h = HASH(h || data) *)
Definition mix_hash (hh data : bytes) : bytes :=
  let s := wg.HashUpdate wg.HashInit hh in
  wg.HashFinal (if zlen data >? 0 then wg.HashUpdate s data else s).

(** HASH(a || b), absorbed in two updates. *)
Definition hash2 (a b : bytes) : bytes := wg.HashFinal (wg.HashUpdate (wg.HashUpdate wg.HashInit a) b).

Definition ip_packet_length (p : bytes) (maxLen : Z) : Z :=
  if maxLen =? 0 then 0
  else
    let version := at_ p 0 ≫ 4 in
    if (version =? 4) && (maxLen >=? 20) then Z.min ((at_ p 2 ≪ 8) .| at_ p 3) maxLen
    else if (version =? 6) && (maxLen >=? 40) then
      Z.min (40 + ((at_ p 4 ≪ 8) .| at_ p 5)) maxLen
    else 0.

(** The handshake scratch state. *)
Record handshake := mkHs {
  fOurPriv : bytes; fPeerStatic : bytes; fEphemeralPriv : bytes; fEphemeralPub : bytes;
  fPeerEphemeral : bytes; fChainingKey : bytes; fHash : bytes; fPendingReceiverIndex : Z }.

(** The live session. *)
Record session := mkSession {
  fSendKey : bytes; fRecvKey : bytes; fHasKeys : bool; fReceiverIndex : Z; fSendCounter : Z;
  fReplay : Replay.replay; fEstablished : Z; fLastSend : Z; fTxBytes : Z; fRxBytes : Z }.

Record peer := mkPeer {
  fNodeKey : bytes; hs : handshake; ss : session;
  fSenderIndex : Z; fLastInitiation : Z; fTestClock : Z }.

Definition WGPeer : peer :=
  mkPeer (zeros 32)
    (mkHs (zeros 32) (zeros 32) (zeros 32) (zeros 32) (zeros 32) (zeros 32) (zeros 32) 0)
    (mkSession (zeros 32) (zeros 32) false 0 0 Replay.ResetReplay 0 0 0 0)
    0 0 0.

Definition with_hs (p : peer) (x : handshake) : peer :=
  mkPeer (fNodeKey p) x (ss p) (fSenderIndex p) (fLastInitiation p) (fTestClock p).
Definition with_ss (p : peer) (x : session) : peer :=
  mkPeer (fNodeKey p) (hs p) x (fSenderIndex p) (fLastInitiation p) (fTestClock p).
Definition with_index (p : peer) (i : Z) : peer :=
  mkPeer (fNodeKey p) (hs p) (ss p) i (fLastInitiation p) (fTestClock p).

(** [fChainingKey] and [fHash] change at every handshake token. *)
Definition with_ck (x : handshake) (ck hh : bytes) : handshake :=
  mkHs (fOurPriv x) (fPeerStatic x) (fEphemeralPriv x) (fEphemeralPub x) (fPeerEphemeral x)
    ck hh (fPendingReceiverIndex x).

Definition with_eph (x : handshake) (e : bytes * bytes) : handshake :=
  mkHs (fOurPriv x) (fPeerStatic x) (fst e) (snd e) (fPeerEphemeral x)
    (fChainingKey x) (fHash x) (fPendingReceiverIndex x).

Definition SetNodeKey (p : peer) (nodeKey : bytes) : peer :=
  mkPeer nodeKey (hs p) (ss p) (fSenderIndex p) (fLastInitiation p) (fTestClock p).

Definition _Now (p : peer) (system_time : Z) : Z :=
  if negb (fTestClock p =? 0) then fTestClock p else system_time.

Definition SetTransport (p : peer) (sendKey recvKey : bytes) (receiverIndex sys : Z) : peer :=
  with_ss p (mkSession sendKey recvKey true receiverIndex 0 Replay.ResetReplay
    (_Now p sys) (_Now p sys) (fTxBytes (ss p)) (fRxBytes (ss p))).

(** ** Session lifetime *)

Definition ShouldInitiateRekey (p : peer) (now : Z) : bool :=
  fHasKeys (ss p) && (now - fEstablished (ss p) >=? kRekeyAfterTime)
  && (now - fLastInitiation p >=? kRekeyTimeout).

Definition ShouldKeepalive (p : peer) (now : Z) : bool :=
  fHasKeys (ss p) && (now - fLastSend (ss p) >=? kKeepaliveTimeout).

Definition ExpireIfStale (p : peer) (now : Z) : bool * peer :=
  if fHasKeys (ss p) && (now - fEstablished (ss p) >? kRejectAfterTime) then
    (true, with_ss p (mkSession (fSendKey (ss p)) (fRecvKey (ss p)) false (fReceiverIndex (ss p))
       (fSendCounter (ss p)) (fReplay (ss p)) (fEstablished (ss p)) (fLastSend (ss p))
       (fTxBytes (ss p)) (fRxBytes (ss p))))
  else (false, p).

Definition SessionAgeSeconds (p : peer) (now : Z) : Z :=
  if negb (fHasKeys (ss p)) then -1
  else s32 (Z.quot (now - fEstablished (ss p)) 1000000).

Section WithOpenSSL.
Context `{OpenSSL}.

(** ** Transport packets *)

(** The total message, or [None] for the returned 0. *)
Definition Encapsulate (p : peer) (plain : bytes) (sys : Z) : option bytes * peer :=
  let s := ss p in
  if negb (fHasKeys s) then (None, p)
  else
    let plainLen := zlen plain in
    let padded := (plainLen + 15) .& Z.lnot 15 in
    if padded >? 2048 then (None, p)
    else
      let scratch := plain ++ zeros (padded - plainLen) in
      let header := [4; 0; 0; 0] ++ store32_le (fReceiverIndex s) ++ store64_le (fSendCounter s) in
      match AeadEncrypt (fSendKey s) (fSendCounter s) scratch [] with
      | None => (None, p)
      | Some c =>
          (Some (header ++ c),
           with_ss p (mkSession (fSendKey s) (fRecvKey s) (fHasKeys s) (fReceiverIndex s)
             (u64 (fSendCounter s + 1)) (fReplay s) (fEstablished s) (_Now p sys)
             (u64 (fTxBytes s + plainLen)) (fRxBytes s)))
      end.

(** The returned length with the buffer [out], or [None] for the returned -1. *)
Definition Decapsulate (p : peer) (packet : bytes) : option (Z * bytes) * peer :=
  let s := ss p in
  if negb (fHasKeys s) || (zlen packet <? 32) || negb (at_ packet 0 =? 4) then (None, p)
  else
    let counter := load64_le packet 8 in
    match AeadDecrypt (fRecvKey s) counter (zdrop 16 packet) [] with
    | None => (None, p)
    | Some out =>
        let '(ok, replay) := Replay._ReplayValidate (fReplay s) counter in
        let s' rx := mkSession (fSendKey s) (fRecvKey s) (fHasKeys s) (fReceiverIndex s)
                    (fSendCounter s) replay (fEstablished s) (fLastSend s) (fTxBytes s) rx in
        if negb ok then (None, with_ss p (s' (fRxBytes s)))
        else
          let plainLen := zlen packet - 16 - 16 in
          let appLen := ip_packet_length out plainLen in
          (Some (appLen, out),
           with_ss p (s' (if appLen >? 0 then u64 (fRxBytes s + appLen) else fRxBytes s)))
    end.

(** ** Handshake, initiator *)

(** mac1 = MAC(HASH(LABEL_MAC1 || static), msg) *)
Definition mac1 (static msg : bytes) : bytes := wg.Mac16 (hash2 kLabelMac1 static) msg.

(** [eph] is the drawn keypair, [idx] the drawn sender index; [None] is the
    draw's failure. *)
Definition BuildInitiation (p : peer) (ourPriv peerPub : bytes) (eph : option (bytes * bytes))
    (idx : option Z) (time sys : Z) : option bytes * peer :=
  let x := hs p in
  let x := mkHs ourPriv peerPub (fEphemeralPriv x) (fEphemeralPub x) (fPeerEphemeral x)
             (fChainingKey x) (fHash x) (fPendingReceiverIndex x) in
  match DhPublic (fOurPriv x) with
  | None => (None, with_hs p x)
  | Some staticPub =>
      let ck := wg.Hash kConstruction in
      let x := with_ck x ck (mix_hash (hash2 ck kIdentifier) (fPeerStatic x)) in
      match eph with
      | None => (None, with_hs p x)
      | Some e =>
          let x := with_eph x e in
          let x := with_ck x (wg.Kdf1 (fChainingKey x) (fEphemeralPub x))
                     (mix_hash (fHash x) (fEphemeralPub x)) in
          match Dh (fEphemeralPriv x) (fPeerStatic x) with
          | None => (None, with_hs p x)
          | Some dh =>
              let '(ck, key) := wg.Kdf2 (fChainingKey x) dh in
              let x := with_ck x ck (fHash x) in
              match AeadEncrypt key 0 staticPub (fHash x) with
              | None => (None, with_hs p x)
              | Some encStatic =>
                  let x := with_ck x (fChainingKey x) (mix_hash (fHash x) encStatic) in
                  match Dh (fOurPriv x) (fPeerStatic x) with
                  | None => (None, with_hs p x)
                  | Some dh =>
                      let '(ck, key) := wg.Kdf2 (fChainingKey x) dh in
                      let x := with_ck x ck (fHash x) in
                      match AeadEncrypt key 0 (Tai64n time) (fHash x) with
                      | None => (None, with_hs p x)
                      | Some encTs =>
                          let x := with_ck x (fChainingKey x) (mix_hash (fHash x) encTs) in
                          match idx with
                          | None => (None, with_hs p x)
                          | Some i =>
                              let body := [1; 0; 0; 0] ++ store32_le i ++ fEphemeralPub x
                                            ++ encStatic ++ encTs in
                              (Some (body ++ mac1 (fPeerStatic x) body ++ zeros 16),
                               mkPeer (fNodeKey p) x (ss p) i (_Now p sys) (fTestClock p))
                          end
                      end
                  end
              end
          end
      end
  end.

Definition ConsumeResponse (p : peer) (resp : bytes) (sys : Z) : bool * peer :=
  if negb (zlen resp =? 92) || negb (at_ resp 0 =? 2) then (false, p)
  else if negb (load32_le resp 8 =? fSenderIndex p) then (false, p)
  else
    let receiverIndex := load32_le resp 4 in
    let peerEphemeral := slice 12 32 resp in
    let encNothing := slice 44 16 resp in
    let x := hs p in
    let x := with_ck x (wg.Kdf1 (fChainingKey x) peerEphemeral) (mix_hash (fHash x) peerEphemeral) in
    match Dh (fEphemeralPriv x) peerEphemeral with
    | None => (false, with_hs p x)
    | Some dh =>
        let x := with_ck x (wg.Kdf1 (fChainingKey x) dh) (fHash x) in
        match Dh (fOurPriv x) peerEphemeral with
        | None => (false, with_hs p x)
        | Some dh =>
            let x := with_ck x (wg.Kdf1 (fChainingKey x) dh) (fHash x) in
            let '(ck, tau, key) := wg.Kdf3 (fChainingKey x) (zeros 32) in
            let x := with_ck x ck (mix_hash (fHash x) tau) in
            match AeadDecrypt key 0 encNothing (fHash x) with
            | None => (false, with_hs p x)
            | Some _ =>
                let x := with_ck x (fChainingKey x) (mix_hash (fHash x) encNothing) in
                let '(sendKey, recvKey) := wg.Kdf2 (fChainingKey x) [] in
                (true, SetTransport (with_hs p x) sendKey recvKey receiverIndex sys)
            end
        end
    end.

(** ** Handshake, responder *)

(** (ck, hash, peer ephemeral, initiator static, sender index of the message) *)
Definition _ResponderConsume (ourPriv msg : bytes)
    : option (bytes * bytes * bytes * bytes * Z) :=
  if negb (zlen msg =? 148) || negb (at_ msg 0 =? 1) then None
  else
    let peerEphemeral := slice 8 32 msg in
    let encStatic := slice 40 48 msg in
    let encTs := slice 88 28 msg in
    ourPub ← DhPublic ourPriv;
    let ck := wg.Hash kConstruction in
    let hh := mix_hash (hash2 ck kIdentifier) ourPub in
    let ck := wg.Kdf1 ck peerEphemeral in
    let hh := mix_hash hh peerEphemeral in
    dh ← Dh ourPriv peerEphemeral;
    let '(ck, key) := wg.Kdf2 ck dh in
    outStatic ← AeadDecrypt key 0 encStatic hh;
    let hh := mix_hash hh encStatic in
    dh ← Dh ourPriv outStatic;
    let '(ck, key) := wg.Kdf2 ck dh in
    _ ← AeadDecrypt key 0 encTs hh;
    let hh := mix_hash hh encTs in
    Some (ck, hh, peerEphemeral, outStatic, load32_le msg 4).

Definition RecoverInitiatorStatic (ourPriv msg : bytes) : option bytes :=
  '(_, _, _, outStatic, _) ← _ResponderConsume ourPriv msg; Some outStatic.

Definition ConsumeInitiation (p : peer) (ourPriv msg : bytes) : bool * peer :=
  match _ResponderConsume ourPriv msg with
  | None => (false, p)
  | Some (ck, hh, peerEph, peerStatic, idx) =>
      let x := hs p in
      (true, with_hs p (mkHs ourPriv peerStatic (fEphemeralPriv x) (fEphemeralPub x)
                          peerEph ck hh idx))
  end.

Definition BuildResponse (p : peer) (eph : option (bytes * bytes)) (idx : option Z) (sys : Z)
    : option bytes * peer :=
  let x := hs p in
  match eph with
  | None => (None, p)
  | Some e =>
      let x := with_eph x e in
      let x := with_ck x (wg.Kdf1 (fChainingKey x) (fEphemeralPub x))
                 (mix_hash (fHash x) (fEphemeralPub x)) in
      match Dh (fEphemeralPriv x) (fPeerEphemeral x) with
      | None => (None, with_hs p x)
      | Some dh =>
          let x := with_ck x (wg.Kdf1 (fChainingKey x) dh) (fHash x) in
          match Dh (fEphemeralPriv x) (fPeerStatic x) with
          | None => (None, with_hs p x)
          | Some dh =>
              let x := with_ck x (wg.Kdf1 (fChainingKey x) dh) (fHash x) in
              let '(ck, tau, key) := wg.Kdf3 (fChainingKey x) (zeros 32) in
              let x := with_ck x ck (mix_hash (fHash x) tau) in
              match AeadEncrypt key 0 [] (fHash x) with
              | None => (None, with_hs p x)
              | Some encNothing =>
                  let x := with_ck x (fChainingKey x) (mix_hash (fHash x) encNothing) in
                  match idx with
                  | None => (None, with_hs p x)
                  | Some i =>
                      let body := [2; 0; 0; 0] ++ store32_le i
                                    ++ store32_le (fPendingReceiverIndex x)
                                    ++ fEphemeralPub x ++ encNothing in
                      let out := body ++ mac1 (fPeerStatic x) body ++ zeros 16 in
                      let '(recvKey, sendKey) := wg.Kdf2 (fChainingKey x) [] in
                      let p := SetTransport (with_hs p x) sendKey recvKey
                                 (fPendingReceiverIndex x) sys in
                      (Some out, with_index p i)
                  end
              end
          end
      end
  end.
End WithOpenSSL.

(** ** Lengths and framing *)

Lemma pad16 n : 0 <= n -> n <= (n + 15) .& Z.lnot 15 < n + 16 /\ ((n + 15) .& Z.lnot 15) mod 16 = 0.
Proof.
  intros. assert (E : (n + 15) .& Z.lnot 15 = (n + 15) / 16 * 16).
  { rewrite <- Z.ldiff_land. change 15 with (Z.ones 4) at 2.
    by rewrite Z.ldiff_ones_r, Z.shiftr_div_pow2, Z.shiftl_mul_pow2 by lia. }
  rewrite E, Z.mod_mul by lia. Z.div_mod_to_equations. lia.
Qed.

Lemma store64_length v : zlen (store64_le v) = 8.
Proof. reflexivity. Qed.

(** [ip_packet_length] never exceeds the buffer it looks at. *)
Lemma ip_packet_length_bound p n : 0 <= n -> ip_packet_length p n <= n.
Proof. intros. unfold ip_packet_length. repeat case_match; lia. Qed.

(** An IP packet: its length field is its length. *)
Definition is_ip_packet (p : bytes) : bool :=
  ((at_ p 0 ≫ 4 =? 4) && (zlen p >=? 20) && (((at_ p 2 ≪ 8) .| at_ p 3) =? zlen p))
  || ((at_ p 0 ≫ 4 =? 6) && (zlen p >=? 40) && (40 + ((at_ p 4 ≪ 8) .| at_ p 5) =? zlen p)).

Lemma ip_packet_length_padded p k :
  is_ip_packet p = true -> 0 <= k -> ip_packet_length (p ++ zeros k) (zlen p + k) = zlen p.
Proof.
  intros Hp Hk. pose proof (zlen_nonneg p). unfold ip_packet_length, is_ip_packet in *.
  rewrite orb_true_iff, !andb_true_iff, !Z.geb_leb, !Z.eqb_eq, !Z.leb_le in Hp.
  assert (20 <= zlen p) by lia. destruct (Z.eqb_spec (zlen p + k) 0); [lia|].
  rewrite !at_app_l by lia. rewrite !Z.geb_leb.
  destruct Hp as [[[E ?] ?]|[[E ?] ?]]; rewrite E; simpl.
  - destruct (Z.leb_spec 20 (zlen p + k)); lia.
  - destruct (Z.leb_spec 40 (zlen p + k)); lia.
Qed.

Section Transport.
Context `{OpenSSLLaws}.

(** The receiver's view of a packet framed by [Encapsulate]. *)
Lemma framed_packet idx n c :
  0 <= n < 2 ^ 64 ->
  let pkt := ([4; 0; 0; 0] ++ store32_le idx ++ store64_le n) ++ c in
  at_ pkt 0 = 4 /\ load64_le pkt 8 = n /\ zdrop 16 pkt = c /\ zlen pkt = 16 + zlen c.
Proof.
  intros Hn pkt. unfold pkt. split_and!.
  - reflexivity.
  - rewrite <- !app_assoc.
    change ([4; 0; 0; 0] ++ store32_le idx ++ store64_le n ++ c)
      with (([4; 0; 0; 0] ++ store32_le idx) ++ store64_le n ++ c).
    exact (load64_le_store64_le ([4; 0; 0; 0] ++ store32_le idx) n c Hn).
  - by apply zdrop_app.
  - rewrite zlen_app. done.
Qed.

(** The session of [q] receives what the session of [p] sends. *)
Definition linked (p q : session) : Prop :=
  fHasKeys p = true /\ fHasKeys q = true /\ fSendKey p = fRecvKey q.

(** What [Encapsulate] frames, [Decapsulate] of the peer with the matching key
    returns, once. *)
Lemma seal_open (p p' q : peer) (plain pkt : bytes) (sys : Z) seen :
  linked (ss p) (ss q) -> 0 <= fSendCounter (ss p) < 2 ^ 64 ->
  Replay.rep (fReplay (ss q)) seen -> Replay.Spec.accept seen (fSendCounter (ss p)) = true ->
  plain = [] \/ is_ip_packet plain = true ->
  Encapsulate p plain sys = (Some pkt, p') ->
  exists q' out,
    Decapsulate q pkt = (Some (zlen plain, out), q') /\ ztake (zlen plain) out = plain
    /\ Replay.rep (fReplay (ss q')) (fSendCounter (ss p) :: seen)
    /\ fRxBytes (ss q') = (if zlen plain >? 0 then u64 (fRxBytes (ss q) + zlen plain)
                           else fRxBytes (ss q))
    /\ Decapsulate q' pkt = (None, q')
    /\ zlen pkt = 32 + zlen out /\ zlen plain <= zlen out < zlen plain + 16
    /\ fSendCounter (ss p') = u64 (fSendCounter (ss p) + 1) /\ linked (ss p') (ss q').
Proof.
  intros (Hp & Hq & Hk) Hn Hr Ha Hip He. pose proof (zlen_nonneg plain).
  pose proof (pad16 (zlen plain) ltac:(lia)) as [Hpad _].
  unfold Encapsulate in He. rewrite Hp in He. cbn [negb] in He.
  destruct (_ >? 2048); [done|]. set (k := _ .& _ - zlen plain) in *.
  destruct (AeadEncrypt _ _ (plain ++ zeros k) _) as [c|] eqn:Ec; [|done].
  assert (pkt = ([4; 0; 0; 0] ++ store32_le (fReceiverIndex (ss p)) ++ store64_le (fSendCounter (ss p))) ++ c) as ->
    by congruence.
  assert (Hc : zlen c = zlen plain + k + 16).
  { apply AeadEncrypt_length in Ec. rewrite Ec, zlen_app, zlen_zeros by lia. lia. }
  destruct (framed_packet (fReceiverIndex (ss p)) (fSendCounter (ss p)) c Hn) as (F0 & F1 & F2 & F3).
  apply AeadDecrypt_Encrypt in Ec. rewrite Hk in Ec.
  assert (Happ : ip_packet_length (plain ++ zeros k) (16 + zlen c - 16 - 16) = zlen plain).
  { destruct Hip as [->|Hip].
    - change (ip_packet_length [] 0) with 0. rewrite Hc. change (zlen []) with 0 in *.
      assert (k = 0) as -> by (subst k; reflexivity). reflexivity.
    - replace (16 + zlen c - 16 - 16) with (zlen plain + k) by lia.
      apply ip_packet_length_padded; [done|lia]. }
  pose proof (Replay.validate_step _ _ (fSendCounter (ss p)) Hr ltac:(lia)) as Hv.
  destruct (Replay._ReplayValidate (fReplay (ss q)) (fSendCounter (ss p))) as [ok r] eqn:Ev.
  destruct Hv as (-> & Hr' & _). rewrite Ha in Hr'.
  pose proof (Replay.validate_step _ _ (fSendCounter (ss p)) Hr' ltac:(lia)) as Hv2.
  destruct (Replay._ReplayValidate r (fSendCounter (ss p))) as [ok2 r2] eqn:Ev2.
  destruct Hv2 as (Hok2 & _ & Hsame).
  assert (ok2 = false) as ->.
  { rewrite Hok2. unfold Replay.Spec.accept. cbn [existsb]. rewrite Z.eqb_refl. apply andb_false_r. }
  specialize (Hsame eq_refl) as ->. injection He as Hp'. subst p'.
  eexists _, (plain ++ zeros k). split_and!.
  - unfold Decapsulate. rewrite Hq, F0, F3. destruct (Z.ltb_spec (16 + zlen c) 32); [lia|].
    cbn [negb orb]. change (4 =? 4) with true. cbn [negb]. rewrite F1, F2, Ec, Ev, Ha. cbn [negb].
    rewrite Happ. reflexivity.
  - apply ztake_app. done.
  - done.
  - done.
  - unfold Decapsulate. cbn [ss with_ss fHasKeys fRecvKey fReplay]. rewrite F0, F3.
    destruct (Z.ltb_spec (16 + zlen c) 32); [lia|].
    cbn [negb orb]. change (4 =? 4) with true. cbn [negb]. rewrite F1, F2, Ec, Ev2. done.
  - rewrite F3, zlen_app, zlen_zeros by lia. lia.
  - rewrite zlen_app, zlen_zeros by lia. lia.
  - rewrite zlen_app, zlen_zeros by lia. lia.
  - done.
  - done.
Qed.

(** C11: A packet sealed by Encapsulate is accepted once by the peer that holds the matching key, provided the anti-replay window admits its counter: Decapsulate returns the application length and the bytes of the IP packet (0 for a keepalive), counts it, and the same datagram delivered again is dropped and changes nothing. The datagram is the 16-byte header, the payload padded to a multiple of 16, and the tag. *)
Theorem transport_roundtrip (p p' q : peer) (plain pkt : bytes) (sys : Z) seen :
  linked (ss p) (ss q) -> 0 <= fSendCounter (ss p) < 2 ^ 64 ->
  Replay.rep (fReplay (ss q)) seen -> Replay.Spec.accept seen (fSendCounter (ss p)) = true ->
  plain = [] \/ is_ip_packet plain = true ->
  Encapsulate p plain sys = (Some pkt, p') ->
  exists q' out,
    Decapsulate q pkt = (Some (zlen plain, out), q') /\ ztake (zlen plain) out = plain
    /\ Replay.rep (fReplay (ss q')) (fSendCounter (ss p) :: seen)
    /\ fRxBytes (ss q') = (if zlen plain >? 0 then u64 (fRxBytes (ss q) + zlen plain)
                           else fRxBytes (ss q))
    /\ Decapsulate q' pkt = (None, q')
    /\ zlen pkt = 32 + zlen out /\ zlen plain <= zlen out < zlen plain + 16
    /\ fSendCounter (ss p') = u64 (fSendCounter (ss p) + 1) /\ linked (ss p') (ss q').
Proof. apply seal_open. Qed.
End Transport.

Definition demo_packet : bytes := [0x45; 0; 0; 20] ++ zeros 16.
Definition demo_peer : peer := SetTransport WGPeer [1; 2] [1; 2] 7 1000.

Lemma transport_roundtrip_witness :
  exists pkt p' q' out, Encapsulate (H:=Toy.toy) demo_peer demo_packet 2000 = (Some pkt, p')
    /\ Decapsulate (H:=Toy.toy) demo_peer pkt = (Some (20, out), q')
    /\ ztake 20 out = demo_packet /\ Decapsulate (H:=Toy.toy) q' pkt = (None, q').
Proof.
  destruct (Encapsulate (H:=Toy.toy) demo_peer demo_packet 2000) as [[pkt|] p'] eqn:E;
    [|vm_compute in E; discriminate].
  destruct (transport_roundtrip (H:=Toy.toy) (H0:=Toy.toy_laws) demo_peer p' demo_peer demo_packet pkt 2000 [])
    as (q' & out & ? & ? & _ & _ & ? & _).
  - done.
  - vm_compute. split; congruence.
  - apply Replay.rep_reset.
  - reflexivity.
  - right. reflexivity.
  - exact E.
  - exists pkt, p', q', out. done.
Defined.

(** ** The handshake *)


Lemma zlen_mac1 st (msg : bytes) : zlen (mac1 st msg) = 16.
Proof. unfold mac1. rewrite wg.zlen_Mac16. reflexivity. Qed.

Section Handshake.
Context `{OpenSSLLaws}.

Lemma slice_prefix_mid (a b : bytes) n (l : bytes) :
  zlen a = n -> slice n (zlen b) (a ++ b ++ l) = b.
Proof. intros <-. by apply slice_app_mid. Qed.

(** The initiation's fields, read back at the offsets the responder uses. *)
Lemma initiation_fields i (e s ts m : bytes) :
  0 <= i < 2 ^ 32 -> zlen e = 32 -> zlen s = 48 -> zlen ts = 28 -> zlen m = 32 ->
  let msg := ([1; 0; 0; 0] ++ store32_le i ++ e ++ s ++ ts) ++ m in
  zlen msg = 148 /\ at_ msg 0 = 1 /\ load32_le msg 4 = i /\ slice 8 32 msg = e
  /\ slice 40 48 msg = s /\ slice 88 28 msg = ts.
Proof.
  intros Hi He Hs Ht Hm msg. unfold msg. rewrite <- !app_assoc.
  assert (H4 : forall v, zlen (store32_le v) = 4) by reflexivity.
  split_and!.
  - autorewrite with soto_len. rewrite H4. lia.
  - reflexivity.
  - exact (load32_le_store32_le [1; 0; 0; 0] i _ Hi).
  - rewrite app_assoc, <- He. by apply slice_prefix_mid.
  - rewrite !app_assoc, <- Hs, <- app_assoc, <- app_assoc. apply slice_prefix_mid.
    autorewrite with soto_len. rewrite H4. lia.
  - rewrite !app_assoc, <- Ht, <- app_assoc. apply slice_prefix_mid.
    autorewrite with soto_len. rewrite H4. lia.
Qed.

Lemma response_fields j i (e n m : bytes) :
  0 <= i < 2 ^ 32 -> 0 <= j < 2 ^ 32 -> zlen e = 32 -> zlen n = 16 -> zlen m = 32 ->
  let msg := ([2; 0; 0; 0] ++ store32_le j ++ store32_le i ++ e ++ n) ++ m in
  zlen msg = 92 /\ at_ msg 0 = 2 /\ load32_le msg 4 = j /\ load32_le msg 8 = i
  /\ slice 12 32 msg = e /\ slice 44 16 msg = n.
Proof.
  intros Hi Hj He Hn Hm msg. unfold msg. rewrite <- !app_assoc.
  assert (H4 : forall v, zlen (store32_le v) = 4) by reflexivity.
  split_and!.
  - autorewrite with soto_len. rewrite !H4. lia.
  - reflexivity.
  - exact (load32_le_store32_le [2; 0; 0; 0] j _ Hj).
  - rewrite app_assoc. exact (load32_le_store32_le ([2; 0; 0; 0] ++ store32_le j) i _ Hi).
  - rewrite !app_assoc, <- He, <- !app_assoc, (app_assoc (store32_le j)), (app_assoc [2; 0; 0; 0]).
    by apply slice_prefix_mid.
  - rewrite !app_assoc, <- Hn, <- app_assoc. apply slice_prefix_mid.
    autorewrite with soto_len. rewrite !H4. lia.
Qed.


End Handshake.

#[local] Opaque wg.Kdf1 wg.Kdf2 wg.Kdf3 mix_hash hash2 wg.Hash mac1 store32_le Tai64n zeros.

Section Agreement.
Context `{OpenSSLLaws}.

Lemma AeadEncrypt_len key n plain aad c :
  AeadEncrypt key n plain aad = Some c -> forall k, zlen plain = k - 16 -> zlen c = k.
Proof. intros E k Hk. apply AeadEncrypt_length in E. lia. Qed.

(** The responder recomputes the initiator's transcript from the message. *)
Lemma initiation_transcript p p1 ipriv rpriv rpub ek ep i time sys msg :
  x25519_pub rpriv = Some rpub -> x25519_pub ek = Some ep -> 0 <= i < 2 ^ 32 ->
  BuildInitiation p ipriv rpub (Some (ek, ep)) (Some i) time sys = (Some msg, p1) ->
  exists ipub, x25519_pub ipriv = Some ipub
    /\ _ResponderConsume rpriv msg = Some (fChainingKey (hs p1), fHash (hs p1), ep, ipub, i)
    /\ fOurPriv (hs p1) = ipriv /\ fEphemeralPriv (hs p1) = ek /\ fSenderIndex p1 = i
    /\ zlen msg = 148.
Proof.
  intros Hr He Hi Hb. unfold BuildInitiation in Hb. cbn -[AeadEncrypt Dh DhPublic] in Hb.
  destruct (DhPublic ipriv) as [ipub|] eqn:Ei; [|done]. exists ipub. split; [done|].
  destruct (Dh ek rpub) as [d1|] eqn:E1; [|done].
  set (ck0 := wg.Kdf1 _ ep) in *. set (h0 := mix_hash _ ep) in *.
  destruct (wg.Kdf2 ck0 d1) as [ck1 k1] eqn:EK1.
  destruct (AeadEncrypt k1 0 ipub h0) as [es|] eqn:Es; [|done].
  destruct (Dh ipriv rpub) as [d2|] eqn:E2; [|done].
  destruct (wg.Kdf2 ck1 d2) as [ck2 k2] eqn:EK2.
  destruct (AeadEncrypt k2 0 (Tai64n time) (mix_hash h0 es)) as [ts|] eqn:Ets; [|done].
  assert (Hes : zlen es = 48) by (eapply AeadEncrypt_len; [exact Es|]; apply pub_length in Ei; lia).
  assert (Hts : zlen ts = 28) by (eapply AeadEncrypt_len; [exact Ets|]; by rewrite zlen_Tai64n).
  apply pair_equal_spec in Hb as [Hmsg Hp1]. apply (inj Some) in Hmsg. subst p1.
  destruct (initiation_fields i ep es ts (mac1 rpub ([1; 0; 0; 0] ++ store32_le i ++ ep ++ es ++ ts) ++ zeros 16))
    as (F1 & F2 & F3 & F4 & F5 & F6); [done|by destruct (pub_length _ _ He)|done|done|..].
  { rewrite zlen_app, zlen_mac1, zlen_zeros; lia. }
  cbn [app] in *. rewrite <- ?app_assoc in *. rewrite Hmsg in *. rewrite F1.
  split_and!; [|done..]. unfold _ResponderConsume. rewrite F1, F2, F3, F4, F5, F6.
  change (negb (148 =? 148) || negb (1 =? 1)) with false. cbv iota.
  unfold DhPublic. rewrite Hr. cbn -[AeadDecrypt Dh].
  assert (Dh rpriv ep = Some d1) as -> by (rewrite <- E1; symmetry; by apply dh_comm).
  cbn -[AeadDecrypt Dh]. fold ck0 h0. rewrite EK1.
  rewrite (AeadDecrypt_Encrypt _ _ _ _ _ Es). cbn -[AeadDecrypt Dh].
  assert (Dh rpriv ipub = Some d2) as -> by (rewrite <- E2; symmetry; by apply dh_comm).
  cbn -[AeadDecrypt Dh]. rewrite EK2, (AeadDecrypt_Encrypt _ _ _ _ _ Ets). done.
Qed.

(** The initiator recomputes the responder's transcript from the response. *)
Lemma response_transcript p q q' rpriv ipriv ipub ek ep rk rp i j sys sys' msg :
  x25519_pub rk = Some rp -> x25519_pub ek = Some ep -> x25519_pub ipriv = Some ipub ->
  0 <= i < 2 ^ 32 -> 0 <= j < 2 ^ 32 ->
  fOurPriv (hs p) = ipriv -> fEphemeralPriv (hs p) = ek -> fSenderIndex p = i ->
  hs q = mkHs rpriv ipub (fEphemeralPriv (hs q)) (fEphemeralPub (hs q)) ep (fChainingKey (hs p)) (fHash (hs p)) i ->
  BuildResponse q (Some (rk, rp)) (Some j) sys = (Some msg, q') ->
  exists p', ConsumeResponse p msg sys' = (true, p')
    /\ fSendKey (ss p') = fRecvKey (ss q') /\ fRecvKey (ss p') = fSendKey (ss q')
    /\ ss p' = mkSession (fSendKey (ss p')) (fRecvKey (ss p')) true j 0 Replay.ResetReplay
                (_Now p sys') (_Now p sys') (fTxBytes (ss p)) (fRxBytes (ss p))
    /\ ss q' = mkSession (fSendKey (ss q')) (fRecvKey (ss q')) true i 0 Replay.ResetReplay
                (_Now q sys) (_Now q sys) (fTxBytes (ss q)) (fRxBytes (ss q))
    /\ fSenderIndex p' = i /\ fSenderIndex q' = j.
Proof.
  intros Hr He Hs Hi Hj Hp1 Hp2 Hp3 Hq Hb. unfold BuildResponse in Hb. rewrite Hq in Hb.
  cbn -[AeadEncrypt Dh DhPublic] in Hb.
  destruct (Dh rk ep) as [d1|] eqn:E1; [|done].
  destruct (Dh rk ipub) as [d2|] eqn:E2; [|done].
  set (ck := wg.Kdf1 (wg.Kdf1 _ d1) d2) in *.
  destruct (wg.Kdf3 ck (zeros 32)) as [[ck1 tau] key] eqn:EK.
  destruct (AeadEncrypt key 0 [] _) as [en|] eqn:En; [|done].
  destruct (wg.Kdf2 ck1 []) as [rkey skey] eqn:EK2.
  assert (Hen : zlen en = 16) by (eapply AeadEncrypt_len; [exact En|done]).
  apply pair_equal_spec in Hb as [Hmsg Hq1]. apply (inj Some) in Hmsg. subst q'.
  destruct (response_fields j i rp en (mac1 ipub ([2; 0; 0; 0] ++ store32_le j ++ store32_le i ++ rp ++ en) ++ zeros 16))
    as (F1 & F2 & F3 & F4 & F5 & F6); [done|done|by destruct (pub_length _ _ Hr)|done|..].
  { rewrite zlen_app, zlen_mac1, zlen_zeros; lia. }
  cbn [app] in *. rewrite <- ?app_assoc in *. rewrite Hmsg in *.
  unfold ConsumeResponse. rewrite F1, F2, F3, F4, F5, F6, Hp3, (Z.eqb_refl i).
  change (negb (92 =? 92) || negb (2 =? 2)) with false. cbn -[AeadDecrypt Dh]. rewrite ?Hp1, ?Hp2.
  assert (Dh ek rp = Some d1) as -> by (rewrite <- E1; by apply dh_comm).
  cbn -[AeadDecrypt Dh]. rewrite ?Hp1.
  assert (Dh ipriv rp = Some d2) as -> by (rewrite <- E2; by apply dh_comm).
  cbn -[AeadDecrypt Dh]. fold ck. rewrite EK. cbn -[AeadDecrypt Dh].
  rewrite (AeadDecrypt_Encrypt _ _ _ _ _ En). rewrite EK2.
  eexists. split_and!; [reflexivity|done..].
Qed.

(** C10: The two sides of the IKpsk2 handshake agree. If the initiator builds an initiation to the responder's key, the responder accepts it and recovers the initiator's static public key; and if the responder then builds its response, the initiator accepts it. Both end with a fresh session (counters at 0, empty replay window), each side's sending key the other's receiving key, and each side's receiver index the index the other drew. *)
Theorem handshake_agreement p p1 q q2 ipriv rpriv rpub ek ep rk rp i j time sys sys' msg1 msg2 :
  x25519_pub rpriv = Some rpub -> x25519_pub ek = Some ep -> x25519_pub rk = Some rp ->
  0 <= i < 2 ^ 32 -> 0 <= j < 2 ^ 32 ->
  BuildInitiation p ipriv rpub (Some (ek, ep)) (Some i) time sys = (Some msg1, p1) ->
  let q1 := snd (ConsumeInitiation q rpriv msg1) in
  BuildResponse q1 (Some (rk, rp)) (Some j) sys = (Some msg2, q2) ->
  fst (ConsumeInitiation q rpriv msg1) = true
  /\ RecoverInitiatorStatic rpriv msg1 = x25519_pub ipriv
  /\ Some (fPeerStatic (hs q1)) = x25519_pub ipriv
  /\ exists p2, ConsumeResponse p1 msg2 sys' = (true, p2)
      /\ linked (ss p2) (ss q2) /\ linked (ss q2) (ss p2)
      /\ fSendCounter (ss p2) = 0 /\ fSendCounter (ss q2) = 0
      /\ fReplay (ss p2) = Replay.ResetReplay /\ fReplay (ss q2) = Replay.ResetReplay
      /\ fReceiverIndex (ss p2) = fSenderIndex q2 /\ fReceiverIndex (ss q2) = fSenderIndex p2
      /\ fSenderIndex q2 = j /\ fSenderIndex p2 = i.
Proof.
  intros Hr He Hk Hi Hj Hb q1 Hb2.
  destruct (initiation_transcript _ _ _ _ _ _ _ _ _ _ _ Hr He Hi Hb)
    as (ipub & Hip & Hc & P1 & P2 & P3 & _).
  unfold RecoverInitiatorStatic. rewrite Hc, Hip. subst q1. unfold ConsumeInitiation in *.
  rewrite Hc in *. cbn [snd] in *. split_and!; [done..|].
  eapply response_transcript in Hb2 as (p2 & R & K1 & K2 & S1 & S2 & I1 & I2);
    [|exact Hk|exact He|exact Hip|exact Hi|exact Hj|exact P1|exact P2|exact P3|reflexivity].
  exists p2. unfold linked. rewrite S1, S2 in *. cbn in *. split_and!; eauto.
Qed.
End Agreement.

(** With primitives that do not fail, neither builder fails. *)
Lemma builders_total `{OpenSSL} p ipriv rpub e i time sys :
  is_Some (x25519_pub ipriv) -> (forall a b, is_Some (x25519 a b)) ->
  (forall k n p a, is_Some (AeadEncrypt k n p a)) ->
  is_Some (fst (BuildInitiation p ipriv rpub (Some e) (Some i) time sys))
  /\ is_Some (fst (BuildResponse p (Some e) (Some i) sys)).
Proof.
  intros [ipub Ei] Hd Ha.
  split; unfold BuildInitiation, BuildResponse; cbn -[AeadEncrypt Dh DhPublic].
  - unfold DhPublic at 1. rewrite Ei. cbn -[AeadEncrypt Dh].
    repeat (match goal with
    | |- context [Dh ?a ?b] => destruct (Hd a b : is_Some (Dh a b)) as [? ->]
    | |- context [AeadEncrypt ?k ?n ?p ?a] => destruct (Ha k n p a) as [? ->]
    | |- context [wg.Kdf2 ?a ?b] => destruct (wg.Kdf2 a b)
    end; cbn -[AeadEncrypt Dh]). done.
  - repeat (match goal with
    | |- context [Dh ?a ?b] => destruct (Hd a b : is_Some (Dh a b)) as [? ->]
    | |- context [AeadEncrypt ?k ?n ?p ?a] => destruct (Ha k n p a) as [? ->]
    | |- context [wg.Kdf3 ?a ?b] => destruct (wg.Kdf3 a b) as [[? ?] ?]
    | |- context [wg.Kdf2 ?a ?b] => destruct (wg.Kdf2 a b)
    end; cbn -[AeadEncrypt Dh]). done.
Qed.

Lemma handshake_agreement_witness :
  let n k := le_split 32 k in
  exists msg1 msg2 p1 p2 q2,
    BuildInitiation (H:=Toy.toy) WGPeer (n 11) (n 22) (Some (n 33, n 33)) (Some 5) 1700000000 10
      = (Some msg1, p1)
    /\ BuildResponse (H:=Toy.toy) (snd (ConsumeInitiation (H:=Toy.toy) WGPeer (n 22) msg1))
         (Some (n 44, n 44)) (Some 6) 10 = (Some msg2, q2)
    /\ ConsumeResponse (H:=Toy.toy) p1 msg2 20 = (true, p2) /\ linked (ss p2) (ss q2).
Proof.
  intros n.
  assert (T1 : is_Some (x25519_pub (OpenSSL:=Toy.toy) (n 11))) by (eexists; reflexivity).
  assert (T2 : forall a b, is_Some (x25519 (OpenSSL:=Toy.toy) a b)) by (eexists; reflexivity).
  destruct (BuildInitiation (H:=Toy.toy) WGPeer (n 11) (n 22) (Some (n 33, n 33)) (Some 5) 1700000000 10)
    as [o1 p1] eqn:E1.
  pose proof (proj1 (builders_total (H:=Toy.toy) WGPeer (n 11) (n 22) (n 33, n 33) 5 1700000000 10
    T1 T2 Toy.toy_seals)) as [msg1 S1].
  rewrite E1 in S1. cbn [fst] in S1. subst o1.
  destruct (BuildResponse (H:=Toy.toy) (snd (ConsumeInitiation (H:=Toy.toy) WGPeer (n 22) msg1))
         (Some (n 44, n 44)) (Some 6) 10) as [o2 q2] eqn:E2.
  pose proof (proj2 (builders_total (H:=Toy.toy) (snd (ConsumeInitiation (H:=Toy.toy) WGPeer (n 22) msg1))
    (n 11) (n 22) (n 44, n 44) 6 1700000000 10 T1 T2 Toy.toy_seals)) as [msg2 S2].
  rewrite E2 in S2. cbn [fst] in S2. subst o2.
  destruct (handshake_agreement (H:=Toy.toy) (H0:=Toy.toy_laws) WGPeer p1 WGPeer q2
     (n 11) (n 22) (n 22) (n 33) (n 33) (n 44) (n 44) 5 6
     1700000000 10 20 msg1 msg2) as (_ & _ & _ & p2 & R & L & _).
  1-3: reflexivity.
  1-2: lia.
  - exact E1.
  - exact E2.
  - exists msg1, msg2, p1, p2, q2. split_and!; [reflexivity|exact E2|exact R|exact L].
Defined.

(** A response with the right header whose tag does not verify leaves the
    handshake transcript advanced past the state the genuine response needs. *)
Lemma forged_response_advances_transcript `{OpenSSL} p resp sys p' d1 d2 :
  zlen resp = 92 -> at_ resp 0 = 2 -> load32_le resp 8 = fSenderIndex p ->
  Dh (fEphemeralPriv (hs p)) (slice 12 32 resp) = Some d1 ->
  Dh (fOurPriv (hs p)) (slice 12 32 resp) = Some d2 ->
  ConsumeResponse p resp sys = (false, p') ->
  let ck := wg.Kdf1 (wg.Kdf1 (wg.Kdf1 (fChainingKey (hs p)) (slice 12 32 resp)) d1) d2 in
  let '(ck', tau, _) := wg.Kdf3 ck (zeros 32) in
  fChainingKey (hs p') = ck'
  /\ fHash (hs p') = mix_hash (mix_hash (fHash (hs p)) (slice 12 32 resp)) tau
  /\ ss p' = ss p.
Proof.
  intros Hl H0 Hi E1 E2 Hc ck. unfold ConsumeResponse in Hc. rewrite Hl, H0, Hi, Z.eqb_refl in Hc.
  change (negb (92 =? 92) || negb (2 =? 2)) with false in Hc. cbn -[AeadDecrypt Dh] in Hc.
  rewrite Z.eqb_refl in Hc. cbn -[AeadDecrypt Dh] in Hc. rewrite E1 in Hc. cbn -[AeadDecrypt Dh] in Hc.
  rewrite E2 in Hc. cbn -[AeadDecrypt Dh] in Hc. fold ck in Hc.
  destruct (wg.Kdf3 ck (zeros 32)) as [[ck' tau] key]. cbn -[AeadDecrypt Dh] in Hc.
  destruct (AeadDecrypt _ _ _ _); [by destruct (wg.Kdf2 _ _)|].
  apply pair_equal_spec in Hc as [_ <-]. done.
Qed.
End WGPeer.
