(* ===== verification/NaClBox.v ===== *)
(** * NaClBox: XSalsa20-Poly1305 boxes

    src/backend/tailscale/NaClBox.cpp: the Salsa20 core (and HSalsa20), the
    XSalsa20 stream, Poly1305 in radix 2^8, secretbox in the zero-byte
    convention and the Box functions over it; X25519 is the [OpenSSL]
    parameter.  [Spec] holds the textbook forms: Salsa20's column and row
    rounds, and Poly1305 as arithmetic modulo 2^130-5.  Loops over the
    remaining length take it as fuel. *)

From S2P Require Import Prelude Endian Crypto.
Import Crypto.
Open Scope Z_scope.
Open Scope soto_scope.

Module NaClBox.

Definition kSigma : bytes := bs "expand 32-byte k".

Definition L32 (x c : Z) : Z := u32 ((x ≪ c) .| (u32 x ≫ (32 - c))).

Definition ld32 (x : bytes) (o : Z) : Z :=
  let u := at_ x (o + 3) in
  let u := u32 (u ≪ 8) .| at_ x (o + 2) in
  let u := u32 (u ≪ 8) .| at_ x (o + 1) in
  u32 (u ≪ 8) .| at_ x o.

Definition st32 (u : Z) : bytes := [u8 u; u8 (u ≫ 8); u8 (u ≫ 16); u8 (u ≫ 24)].

(** 0 when the [n] bytes agree, -1 otherwise. *)
Definition vn (x y : bytes) (n : Z) : Z :=
  let d := fold_left (fun d i => d .| (at_ x i .^ at_ y i)) (seqZ 0 n) 0 in
  s32 (u32 (1 .& (u32 (d - 1) ≫ 8) - 1)).

Definition set_ (v : list Z) (i x : Z) : list Z := <[Z.to_nat i := x]> v.

(** ** Salsa20 *)

Definition core_init (inp k c : bytes) : list Z :=
  fold_left (fun x i =>
    set_ (set_ (set_ (set_ x (5 * i) (ld32 c (4 * i))) (1 + i) (ld32 k (4 * i)))
      (6 + i) (ld32 inp (4 * i))) (11 + i) (ld32 k (16 + 4 * i)))
    [0; 1; 2; 3] (zeros 16).

(** One pass of the [i] loop: four quarter rounds written transposed. *)
Definition core_quarter (x : list Z) (w : list Z) (j : Z) : list Z :=
  let t m := at_ x ((5 * j + 4 * m) mod 16) in
  let t1 := t 1 .^ L32 (u32 (t 0 + t 3)) 7 in
  let t2 := t 2 .^ L32 (u32 (t1 + t 0)) 9 in
  let t3 := t 3 .^ L32 (u32 (t2 + t1)) 13 in
  let t0 := t 0 .^ L32 (u32 (t3 + t2)) 18 in
  set_ (set_ (set_ (set_ w (4 * j + (j + 0) mod 4) t0) (4 * j + (j + 1) mod 4) t1)
    (4 * j + (j + 2) mod 4) t2) (4 * j + (j + 3) mod 4) t3.

Definition core_round (x : list Z) : list Z :=
  fold_left (core_quarter x) [0; 1; 2; 3] (zeros 16).

Definition core (inp k c : bytes) (h : bool) : bytes :=
  let y := core_init inp k c in
  let x := Nat.iter 20 core_round y in
  if h then
    let x := map (fun i => u32 (at_ x i + at_ y i)) (seqZ 0 16) in
    let x := fold_left (fun x i =>
               let x := set_ x (5 * i) (u32 (at_ x (5 * i) - ld32 c (4 * i))) in
               set_ x (6 + i) (u32 (at_ x (6 + i) - ld32 inp (4 * i)))) [0; 1; 2; 3] x in
    concat (map (fun i => st32 (at_ x (5 * i))) [0; 1; 2; 3])
      ++ concat (map (fun i => st32 (at_ x (6 + i))) [0; 1; 2; 3])
  else concat (map (fun i => st32 (u32 (at_ x i + at_ y i))) (seqZ 0 16)).

Definition salsa20 (inp k c : bytes) : bytes := core inp k c false.
Definition hsalsa20 (inp k c : bytes) : bytes := core inp k c true.

(** The 64-bit little-endian block counter in z[8..15]. *)
Definition next_block (z : bytes) : bytes :=
  fst (fold_left (fun zu i =>
    let '(z, u) := zu in
    let u := u32 (u + at_ z i) in (set_ z i (u8 u), u ≫ 8)) [8; 9; 10; 11; 12; 13; 14; 15] (z, 1)).

Definition xor_block (m : option bytes) (n : Z) (x : bytes) : bytes :=
  map (fun i => (match m with Some m => at_ m i | None => 0 end) .^ at_ x i) (seqZ 0 n).

Fixpoint stream_blocks (fuel : nat) (z : bytes) (m : option bytes) (b : Z) (k : bytes) : bytes :=
  match fuel with
  | O => []
  | S fuel =>
      if b >=? 64 then
        xor_block m 64 (salsa20 z k kSigma)
          ++ stream_blocks fuel (next_block z) (option_map (zdrop 64) m) (b - 64) k
      else if b =? 0 then [] else xor_block m b (salsa20 z k kSigma)
  end.

(** [m = None] is the source's NULL message; [n] is the 8-byte nonce. *)
Definition stream_salsa20_xor (m : option bytes) (b : Z) (n k : bytes) : bytes :=
  stream_blocks (S (Z.to_nat b)) (slice 0 8 n ++ zeros 8) m b k.

Definition stream_xsalsa20_xor (m : option bytes) (d : Z) (n k : bytes) : bytes :=
  stream_salsa20_xor m d (zdrop 16 n) (hsalsa20 n k kSigma).

(** ** Poly1305 *)

Definition kMinusP : list Z := [5; 0; 0; 0; 0; 0; 0; 0; 0; 0; 0; 0; 0; 0; 0; 0; 252].

(** [u += h[j]; h[j] = u & 255; u >>= 8;] along a list. *)
Fixpoint carry (l : list Z) (u : Z) : list Z * Z :=
  match l with
  | [] => ([], u)
  | x :: l =>
      let u := u32 (u + x) in
      let '(o, u') := carry l (u ≫ 8) in (u .& 255 :: o, u')
  end.

Definition add1305 (h c : list Z) : list Z :=
  fst (carry (zip_with (fun a b => u32 (a + b)) h c) 0).

Definition clamp (k : bytes) : list Z :=
  let r := ztake 16 k ++ [0] in
  fold_left (fun r '(i, mask) => set_ r i (at_ r i .& mask))
    [(3, 15); (4, 252); (7, 15); (8, 252); (11, 15); (12, 252); (15, 15)] r.

(** x[i] = sum over j of h[j] * (j <= i ? r[i - j] : 320 * r[i + 17 - j]) *)
Definition mul1305 (h r : list Z) : list Z :=
  map (fun i => fold_left (fun x j =>
    u32 (x + u32 (at_ h j * (if j <=? i then at_ r (i - j) else u32 (320 * at_ r (i + 17 - j))))))
    (seqZ 0 17) 0) (seqZ 0 17).

Definition reduce1305 (x : list Z) : list Z :=
  let '(lo, u) := carry (ztake 16 x) 0 in
  let u := u32 (u + at_ x 16) in
  let top := u .& 3 in
  let '(lo, u) := carry lo (u32 (5 * (u ≫ 2))) in
  lo ++ [u32 (u + top)].

(** The 17-limb form of a block: its bytes, a one, zeros. *)
Definition block1305 (m : bytes) : list Z := m ++ [1] ++ zeros (16 - zlen m).

Fixpoint poly_blocks (fuel : nat) (h r : list Z) (m : bytes) : list Z :=
  match fuel with
  | O => h
  | S fuel =>
      if zlen m =? 0 then h
      else
        let j := Z.min 16 (zlen m) in
        poly_blocks fuel (reduce1305 (mul1305 (add1305 h (block1305 (ztake j m))) r)) r (zdrop j m)
  end.

Definition onetimeauth (m k : bytes) : bytes :=
  let g := poly_blocks (S (length m)) (zeros 17) (clamp k) m in
  let h := add1305 g kMinusP in
  let s := u32 (- (at_ h 16 ≫ 7)) in
  let h := zip_with (fun h g => h .^ (s .& (g .^ h))) h g in
  let h := add1305 h (slice 16 16 k ++ [0]) in
  map u8 (ztake 16 h).

Definition onetimeauth_verify (h m k : bytes) : Z := vn h (onetimeauth m k) 16.

(** ** secretbox and Box *)

Definition secretbox (m n k : bytes) : option bytes :=
  if zlen m <? 32 then None
  else
    let c := stream_xsalsa20_xor (Some m) (zlen m) n k in
    Some (zeros 16 ++ onetimeauth (zdrop 32 c) c ++ zdrop 32 c).

Definition secretbox_open (c n k : bytes) : option bytes :=
  if zlen c <? 32 then None
  else
    let x := stream_xsalsa20_xor None 32 n k in
    if negb (onetimeauth_verify (zdrop 16 c) (zdrop 32 c) x =? 0) then None
    else Some (zeros 32 ++ zdrop 32 (stream_xsalsa20_xor (Some c) (zlen c) n k)).

Definition BoxSealWithKey (msg nonce key : bytes) : bytes :=
  match secretbox (zeros 32 ++ msg) nonce key with
  | Some c2 => zdrop 16 c2
  | None => []
  end.

Definition BoxOpenWithKey (cipher nonce key : bytes) : option bytes :=
  if zlen cipher <? 16 then None
  else m2 ← secretbox_open (zeros 16 ++ cipher) nonce key; Some (zdrop 32 m2).

Section Box.
Context `{OpenSSL}.

Definition BoxBeforeNm (peerPublic secret : bytes) : option bytes :=
  s ← Dh secret peerPublic; Some (hsalsa20 (zeros 16) s kSigma).

Definition BoxSeal (msg nonce peerPublic secret : bytes) : option bytes :=
  key ← BoxBeforeNm peerPublic secret; Some (BoxSealWithKey msg nonce key).

Definition BoxOpen (cipher nonce peerPublic secret : bytes) : option bytes :=
  key ← BoxBeforeNm peerPublic secret; BoxOpenWithKey cipher nonce key.
End Box.

(** ** Specifications *)

Module Spec.

(** Salsa20's quarterround on (y0, y1, y2, y3). *)
Definition quarterround (y0 y1 y2 y3 : Z) : Z * Z * Z * Z :=
  let z1 := y1 .^ L32 (u32 (y0 + y3)) 7 in
  let z2 := y2 .^ L32 (u32 (z1 + y0)) 9 in
  let z3 := y3 .^ L32 (u32 (z2 + z1)) 13 in
  let z0 := y0 .^ L32 (u32 (z3 + z2)) 18 in
  (z0, z1, z2, z3).

Definition columnround (x : list Z) : list Z :=
  match x with
  | [x0; x1; x2; x3; x4; x5; x6; x7; x8; x9; x10; x11; x12; x13; x14; x15] =>
      let '(y0, y4, y8, y12) := quarterround x0 x4 x8 x12 in
      let '(y5, y9, y13, y1) := quarterround x5 x9 x13 x1 in
      let '(y10, y14, y2, y6) := quarterround x10 x14 x2 x6 in
      let '(y15, y3, y7, y11) := quarterround x15 x3 x7 x11 in
      [y0; y1; y2; y3; y4; y5; y6; y7; y8; y9; y10; y11; y12; y13; y14; y15]
  | _ => x
  end.

Definition rowround (y : list Z) : list Z :=
  match y with
  | [y0; y1; y2; y3; y4; y5; y6; y7; y8; y9; y10; y11; y12; y13; y14; y15] =>
      let '(z0, z1, z2, z3) := quarterround y0 y1 y2 y3 in
      let '(z5, z6, z7, z4) := quarterround y5 y6 y7 y4 in
      let '(z10, z11, z8, z9) := quarterround y10 y11 y8 y9 in
      let '(z15, z12, z13, z14) := quarterround y15 y12 y13 y14 in
      [z0; z1; z2; z3; z4; z5; z6; z7; z8; z9; z10; z11; z12; z13; z14; z15]
  | _ => y
  end.

Definition doubleround (x : list Z) : list Z := rowround (columnround x).

(** Poly1305 over integers. *)
Definition p1305 : Z := 2 ^ 130 - 5.

Fixpoint poly (fuel : nat) (acc r : Z) (m : bytes) : Z :=
  match fuel with
  | O => acc
  | S fuel =>
      if zlen m =? 0 then acc
      else
        let j := Z.min 16 (zlen m) in
        poly fuel ((acc + le_combine (ztake j m ++ [1])) * r mod p1305) r (zdrop j m)
  end.

Definition poly1305 (m k : bytes) : bytes :=
  let r := le_combine (ztake 16 k) .& 0x0ffffffc0ffffffc0ffffffc0fffffff in
  le_split 16 (poly (S (length m)) 0 r m + le_combine (slice 16 16 k)).

End Spec.

(** ** Salsa20's rounds *)

Lemma length16 (x : list Z) : length x = 16%nat ->
  exists x0 x1 x2 x3 x4 x5 x6 x7 x8 x9 x10 x11 x12 x13 x14 x15,
    x = [x0; x1; x2; x3; x4; x5; x6; x7; x8; x9; x10; x11; x12; x13; x14; x15].
Proof. intros. do 17 (destruct x as [|? x]; try done). by do 16 eexists. Qed.

#[local] Opaque L32 u32 Z.lxor.

Lemma two_rounds x : length x = 16%nat -> core_round (core_round x) = Spec.doubleround x.
Proof.
  intros Hx. destruct (length16 x Hx) as
    (x0 & x1 & x2 & x3 & x4 & x5 & x6 & x7 & x8 & x9 & x10 & x11 & x12 & x13 & x14 & x15 & ->).
  reflexivity.
Qed.

Lemma length_doubleround x : length x = 16%nat -> length (Spec.doubleround x) = 16%nat.
Proof.
  intros Hx. destruct (length16 x Hx) as
    (x0 & x1 & x2 & x3 & x4 & x5 & x6 & x7 & x8 & x9 & x10 & x11 & x12 & x13 & x14 & x15 & ->).
  reflexivity.
Qed.
#[local] Transparent L32 u32 Z.lxor.

Lemma length_core_init inp k c : length (core_init inp k c) = 16%nat.
Proof. unfold core_init, set_. cbn [fold_left]. by rewrite !length_insert. Qed.

(** The transposed loop of the source is the ten double rounds of Salsa20. *)
Lemma core_rounds n x :
  length x = 16%nat ->
  Nat.iter (2 * n) core_round x = Nat.iter n Spec.doubleround x
  /\ length (Nat.iter n Spec.doubleround x) = 16%nat.
Proof.
  intros Hx. induction n as [|n [IH IHl]]; [done|].
  replace (2 * S n)%nat with (S (S (2 * n))) by lia. simpl Nat.iter in *. rewrite IH.
  split; [by apply two_rounds|by apply length_doubleround].
Qed.

(** Salsa20 as written (20 transposed passes) is the Salsa20 specification: the state after the rounds is ten doublerounds (columnround then rowround) of the initial state, and the 64-byte output adds the initial state word by word. *)
Theorem salsa20_refines_spec inp k c :
  let y := core_init inp k c in
  salsa20 inp k c =
  concat (map st32 (zip_with (fun a b => u32 (a + b)) (Nat.iter 10 Spec.doubleround y) y)).
Proof.
  intros y. unfold salsa20, core.
  destruct (core_rounds 10 y (length_core_init inp k c)) as [E El]. cbv zeta. fold y.
  change 20%nat with (2 * 10)%nat. rewrite E.
  generalize dependent (Nat.iter 10 Spec.doubleround y). intros x _ Hx.
  destruct (length16 x Hx) as
    (x0 & x1 & x2 & x3 & x4 & x5 & x6 & x7 & x8 & x9 & x10 & x11 & x12 & x13 & x14 & x15 & ->).
  destruct (length16 y (length_core_init inp k c)) as
    (y0 & y1 & y2 & y3 & y4 & y5 & y6 & y7 & y8 & y9 & y10 & y11 & y12 & y13 & y14 & y15 & ->).
  reflexivity.
Qed.

(** ** The stream *)

Lemma zlen_xor_block m n x : 0 <= n -> zlen (xor_block m n x) = n.
Proof. intros. unfold xor_block. rewrite zlen_map. by apply zlen_seqZ. Qed.

(** The keystream of [n] blocks. *)
Fixpoint keystream (n : nat) (z k : bytes) : bytes :=
  match n with
  | O => []
  | S n => salsa20 z k kSigma ++ keystream n (next_block z) k
  end.

Definition xor_bytes (m : option bytes) (b : Z) (ks : bytes) : bytes := xor_block m b ks.

Lemma zlen_st32s l : zlen (concat (map st32 l)) = 4 * zlen l.
Proof.
  induction l as [|x l IH]; cbn [map concat]; [done|]. rewrite zlen_app, zlen_cons, IH.
  change (zlen (st32 x)) with 4. lia.
Qed.

Lemma salsa20_words z k c : exists l, salsa20 z k c = concat (map st32 l) /\ zlen l = 16.
Proof.
  unfold salsa20, core. cbv zeta.
  exists (map (fun i => u32 (at_ (Nat.iter 20 core_round (core_init z k c)) i
                             + at_ (core_init z k c) i)) (seqZ 0 16)).
  split; [by rewrite map_map|]. rewrite zlen_map. by apply zlen_seqZ.
Qed.

Lemma zlen_salsa20 z k c : zlen (salsa20 z k c) = 64.
Proof. destruct (salsa20_words z k c) as (l & -> & Hl). rewrite zlen_st32s. lia. Qed.

Lemma st32s_bytes l : is_bytes (concat (map st32 l)).
Proof.
  induction l; simpl; [constructor|]. repeat (constructor; [apply u8_range|]). done.
Qed.

Lemma keystream_bytes n z k : is_bytes (keystream n z k).
Proof.
  revert z. induction n as [|n IH]; intros z; cbn [keystream]; [constructor|].
  apply is_bytes_app. split; [|apply IH].
  destruct (salsa20_words z k kSigma) as (l & -> & _). apply st32s_bytes.
Qed.

Definition mi (m : option bytes) (i : Z) : Z := match m with Some m => at_ m i | None => 0 end.

Lemma at_xor_block m n x i : 0 <= i < n -> at_ (xor_block m n x) i = mi m i .^ at_ x i.
Proof. intros. unfold xor_block. by rewrite at_map_seqZ. Qed.

Lemma mi_zdrop m i : 0 <= i -> mi (option_map (zdrop 64) m) i = mi m (64 + i).
Proof. intros. destruct m; simpl; [|done]. by rewrite at_zdrop by lia. Qed.

Lemma stream_blocks_spec fuel z m b k :
  0 <= b <= 64 * Z.of_nat fuel ->
  zlen (stream_blocks fuel z m b k) = b
  /\ forall i, 0 <= i < b -> at_ (stream_blocks fuel z m b k) i = mi m i .^ at_ (keystream fuel z k) i.
Proof.
  revert z m b. induction fuel as [|fuel IH]; intros z m b Hb.
  { simpl. rewrite zlen_nil. split; [lia|]. intros. lia. }
  cbn [stream_blocks keystream]. destruct (Z.geb_spec b 64).
  - destruct (IH (next_block z) (option_map (zdrop 64) m) (b - 64) ltac:(lia)) as [Hl Ha].
    split; [rewrite zlen_app, zlen_xor_block; lia|]. intros i Hi.
    destruct (Z.lt_ge_cases i 64).
    + rewrite !at_app_l by (rewrite ?zlen_xor_block, ?zlen_salsa20; lia).
      by rewrite at_xor_block by lia.
    + rewrite !at_app_r, zlen_xor_block, zlen_salsa20 by (rewrite ?zlen_xor_block, ?zlen_salsa20; lia).
      rewrite Ha, mi_zdrop by lia. do 2 f_equal. lia.
  - destruct (Z.eqb_spec b 0) as [->|]; [split; [done|lia]|].
    split; [apply zlen_xor_block; lia|]. intros i Hi. rewrite at_xor_block by lia.
    by rewrite at_app_l by (rewrite zlen_salsa20; lia).
Qed.

Lemma keystream_prefix n n' z k i :
  (n <= n')%nat -> 0 <= i < 64 * Z.of_nat n -> at_ (keystream n z k) i = at_ (keystream n' z k) i.
Proof.
  revert n' z i. induction n as [|n IH]; intros n' z i Hn Hi; [lia|].
  destruct n' as [|n']; [lia|]. cbn [keystream].
  destruct (Z.lt_ge_cases i 64).
  - by rewrite !at_app_l by (rewrite zlen_salsa20; lia).
  - rewrite !at_app_r by (rewrite zlen_salsa20; lia). rewrite zlen_salsa20. apply IH; lia.
Qed.

(** Byte [i] of the XSalsa20 keystream. *)
Definition ks (n k : bytes) (i : Z) : Z :=
  at_ (keystream (S (Z.to_nat i)) (slice 0 8 (zdrop 16 n) ++ zeros 8) (hsalsa20 n k kSigma)) i.

Lemma xsalsa20_spec m d n k :
  0 <= d ->
  zlen (stream_xsalsa20_xor m d n k) = d
  /\ forall i, 0 <= i < d -> at_ (stream_xsalsa20_xor m d n k) i = mi m i .^ ks n k i.
Proof.
  intros Hd. unfold stream_xsalsa20_xor, stream_salsa20_xor.
  edestruct (stream_blocks_spec (S (Z.to_nat d))) as [Hl Ha]; [|split; [exact Hl|]]; [lia|].
  intros i Hi. rewrite Ha by lia. f_equal. unfold ks. symmetry. apply keystream_prefix; lia.
Qed.

(** ** secretbox *)

Lemma fold_lor_zero (f : Z -> Z) l d :
  0 <= d -> (forall i, In i l -> 0 <= f i) ->
  fold_left (fun d i => d .| f i) l d = 0 <-> d = 0 /\ forall i, In i l -> f i = 0.
Proof.
  revert d. induction l as [|x l IH]; intros d Hd Hf; simpl; [naive_solver|].
  rewrite IH.
  - rewrite Z.lor_eq_0_iff. naive_solver.
  - apply Z.lor_nonneg. split; [done|]. apply Hf. by left.
  - intros. apply Hf. by right.
Qed.

Lemma fold_lor_byte (f : Z -> Z) l d :
  is_byte d -> (forall i, In i l -> is_byte (f i)) ->
  is_byte (fold_left (fun d i => d .| f i) l d).
Proof.
  revert d. induction l as [|x l IH]; intros d Hd Hf; simpl; [done|].
  apply IH; [|intros; apply Hf; by right].
  assert (is_byte (f x)) as Hx by (apply Hf; by left). unfold is_byte in *.
  split; [apply Z.lor_nonneg; lia|]. apply Z.log2_lt_cancel. change (Z.log2 256) with 8.
  rewrite Z.log2_lor by lia.
  pose proof (Z.log2_le_mono d 255 ltac:(lia)). pose proof (Z.log2_le_mono (f x) 255 ltac:(lia)).
  change (Z.log2 255) with 7 in *. lia.
Qed.

Lemma lxor_byte a b : is_byte a -> is_byte b -> is_byte (a .^ b).
Proof. unfold is_byte. change 256 with (2 ^ 8). by apply lxor_range. Qed.

(** The constant-time comparison decides equality of the first [n] bytes. *)
Lemma vn_spec x y n :
  (forall i, 0 <= i < n -> is_byte (at_ x i)) -> is_bytes y ->
  vn x y n = 0 <-> forall i, 0 <= i < n -> at_ x i = at_ y i.
Proof.
  intros Hx Hy. unfold vn.
  assert (Hf : forall i, In i (seqZ 0 n) -> is_byte (at_ x i .^ at_ y i))
    by (intros i Hi%list_elem_of_In%elem_of_seqZ; apply lxor_byte; [apply Hx; lia|by apply at_byte]).
  pose proof (fold_lor_zero (fun i => at_ x i .^ at_ y i) (seqZ 0 n) 0 ltac:(lia)
    (fun i Hi => proj1 (Hf i Hi))) as Hz.
  assert (H0 : is_byte 0) by (unfold is_byte; lia).
  pose proof (fold_lor_byte _ _ 0 H0 Hf) as Hb.
  set (d := fold_left _ _ 0) in *.
  assert (Hd : s32 (u32 (1 .& (u32 (d - 1) ≫ 8) - 1)) = 0 <-> d = 0).
  { destruct (Z.eq_dec d 0) as [->|Hd]; [done|]. unfold is_byte in Hb.
    rewrite (u32_small (d - 1)) by lia. rewrite Z.shiftr_div_pow2, Z.div_small by lia.
    split; [vm_compute; discriminate|done]. }
  rewrite Hd, Hz. setoid_rewrite Z.lxor_eq_0_iff. setoid_rewrite <- list_elem_of_In.
  setoid_rewrite elem_of_seqZ. split; [intros [_ H] i Hi; apply H; lia|].
  intros H. split; [done|]. intros i Hi. apply H. lia.
Qed.

Lemma is_bytes_map_u8 l : is_bytes (map u8 l).
Proof. induction l; simpl; constructor; auto with soto. Qed.

Lemma zlen_carry l u : zlen (fst (carry l u)) = zlen l.
Proof.
  revert u. induction l as [|x l IH]; intros u; simpl; [done|].
  specialize (IH (u32 (u + x) ≫ 8)). destruct (carry l _). simpl in *. rewrite !zlen_cons. lia.
Qed.

Lemma zlen_zip {A} (f : Z -> Z -> A) (l k : list Z) : zlen l = zlen k -> zlen (zip_with f l k) = zlen l.
Proof. unfold zlen. intros. rewrite length_zip_with. lia. Qed.

Lemma zlen_add1305 h c : zlen h = zlen c -> zlen (add1305 h c) = zlen h.
Proof. intros. unfold add1305. rewrite zlen_carry. by apply zlen_zip. Qed.

Lemma zlen_reduce1305 x : zlen x = 17 -> zlen (reduce1305 x) = 17.
Proof.
  intros Hx. unfold reduce1305. pose proof (zlen_carry (ztake 16 x) 0) as H1.
  destruct (carry (ztake 16 x) 0) as [lo u]. simpl in H1. rewrite zlen_ztake in H1 by lia.
  cbv zeta. match goal with |- context [carry lo ?u] =>
    pose proof (zlen_carry lo u) as H2; destruct (carry lo u) end.
  simpl in H2. rewrite zlen_app, H2, H1. reflexivity.
Qed.

Lemma zlen_poly_blocks fuel h r m : zlen h = 17 -> zlen (poly_blocks fuel h r m) = 17.
Proof.
  revert h m. induction fuel as [|fuel IH]; intros h m Hh; simpl; [done|].
  destruct (_ =? 0); [done|]. apply IH, zlen_reduce1305. unfold mul1305. rewrite zlen_map.
  by rewrite zlen_seqZ.
Qed.

Lemma zlen_onetimeauth m k : zlen k >= 32 -> zlen (onetimeauth m k) = 16.
Proof.
  intros Hk. unfold onetimeauth. rewrite zlen_map. apply zlen_ztake.
  pose proof (zlen_poly_blocks (S (length m)) (zeros 17) (clamp k) m eq_refl) as Hg.
  set (g := poly_blocks _ _ _ _) in *.
  assert (Ha : zlen (add1305 g kMinusP) = 17) by (by rewrite zlen_add1305).
  rewrite zlen_add1305; rewrite zlen_zip; rewrite ?Ha; [lia|done|..|done].
  rewrite zlen_app, zlen_slice by lia. done.
Qed.

(** The bytes secretbox puts after the tag, and what opening recovers. *)
Lemma xor_tail (m : bytes) n k :
  zlen m >= 32 -> let c := stream_xsalsa20_xor (Some m) (zlen m) n k in
  zlen c = zlen m /\ (forall m', zlen m' = zlen m -> zdrop 32 m' = zdrop 32 c ->
    zdrop 32 (stream_xsalsa20_xor (Some m') (zlen m') n k) = zdrop 32 m).
Proof.
  intros Hm c. destruct (xsalsa20_spec (Some m) (zlen m) n k ltac:(lia)) as [Hl Ha].
  split; [done|]. intros m' Hm' He.
  destruct (xsalsa20_spec (Some m') (zlen m') n k ltac:(lia)) as [Hl' Ha'].
  apply at_ext; rewrite !zlen_zdrop by lia; [lia|]. intros i Hi.
  assert (E : at_ m' (32 + i) = at_ c (32 + i)).
  { rewrite <- !at_zdrop by lia. by rewrite He. }
  rewrite !at_zdrop, Ha' by lia. simpl. rewrite E. unfold c. rewrite Ha by lia. simpl.
  by rewrite Z.lxor_assoc, Z.lxor_nilpotent, Z.lxor_0_r.
Qed.

(** Both sides authenticate under the same first 32 keystream bytes. *)
Lemma auth_key (m : bytes) n k :
  zlen m >= 32 -> ztake 32 m = zeros 32 ->
  ztake 32 (stream_xsalsa20_xor (Some m) (zlen m) n k) = stream_xsalsa20_xor None 32 n k.
Proof.
  intros Hm Hz. destruct (xsalsa20_spec (Some m) (zlen m) n k ltac:(lia)) as [Hl Ha].
  destruct (xsalsa20_spec None 32 n k ltac:(lia)) as [Hl' Ha'].
  apply at_ext; rewrite zlen_ztake by lia; [lia|]. intros i Hi.
  rewrite at_ztake, Ha, Ha' by lia. simpl. f_equal.
  rewrite <- (at_ztake 32) by lia. by rewrite Hz, at_zeros.
Qed.

Lemma slice_ztake {A} o n m (l : list A) : 0 <= o -> 0 <= n -> o + n <= m -> slice o n (ztake m l) = slice o n l.
Proof.
  intros. unfold slice, ztake, zdrop. rewrite skipn_firstn_comm, take_take. f_equal. lia.
Qed.

Lemma onetimeauth_key m k : onetimeauth m k = onetimeauth m (ztake 32 k).
Proof.
  unfold onetimeauth, clamp. rewrite slice_ztake by lia.
  replace (ztake 16 (ztake 32 k)) with (ztake 16 k); [done|]. unfold ztake. by rewrite take_take.
Qed.

Lemma onetimeauth_bytes m k : is_bytes (onetimeauth m k).
Proof. apply is_bytes_map_u8. Qed.

Lemma ks_byte n k i : is_byte (ks n k i).
Proof. apply at_byte, keystream_bytes. Qed.

#[local] Opaque stream_xsalsa20_xor onetimeauth zeros vn ks.

(** The sealed form: tag, then the message under the rest of the keystream. *)
Lemma seal_form m n k :
  let c := stream_xsalsa20_xor (Some (zeros 32 ++ m)) (32 + zlen m) n k in
  zlen c = 32 + zlen m
  /\ BoxSealWithKey m n k = onetimeauth (zdrop 32 c) c ++ zdrop 32 c
  /\ zlen (onetimeauth (zdrop 32 c) c) = 16
  /\ ztake 32 c = stream_xsalsa20_xor None 32 n k
  /\ forall m', zlen m' = 32 + zlen m -> zdrop 32 m' = zdrop 32 c ->
       zdrop 32 (stream_xsalsa20_xor (Some m') (32 + zlen m) n k) = m.
Proof.
  intros c. pose proof (zlen_nonneg m). set (M := zeros 32 ++ m) in *.
  assert (Hm : zlen M = 32 + zlen m) by (unfold M; rewrite zlen_app, zlen_zeros; lia).
  destruct (xor_tail M n k ltac:(lia)) as [Hl Ht]. rewrite Hm in Hl, Ht. fold c in Hl, Ht.
  assert (Ho : zlen (onetimeauth (zdrop 32 c) c) = 16) by (apply zlen_onetimeauth; lia).
  pose proof (auth_key M n k ltac:(lia) ltac:(by apply ztake_app)) as Hk. rewrite Hm in Hk.
  split_and!; [done| |done|done|].
  - unfold BoxSealWithKey, secretbox. fold M. rewrite Hm. destruct (Z.ltb_spec (32 + zlen m) 32); [lia|].
    fold c. by apply zdrop_app.
  - intros m' Hl' He. rewrite <- Hl', (Ht m') by (done || lia). by apply zdrop_app.
Qed.

Lemma BoxOpen_Seal m n k : BoxOpenWithKey (BoxSealWithKey m n k) n k = Some m.
Proof.
  pose proof (zlen_nonneg m). destruct (seal_form m n k) as (Hl & -> & Ho & Hk & Ht).
  set (c := stream_xsalsa20_xor _ _ _ _) in *. set (t := onetimeauth (zdrop 32 c) c) in *.
  assert (Hd : zlen (zdrop 32 c) = zlen m) by (rewrite zlen_zdrop; lia).
  assert (Hz : zlen (zeros 16 ++ t ++ zdrop 32 c) = 32 + zlen m)
    by (rewrite !zlen_app, Hd, Ho, zlen_zeros; lia).
  assert (H16 : zdrop 16 (zeros 16 ++ t ++ zdrop 32 c) = t ++ zdrop 32 c) by by apply zdrop_app.
  assert (H32 : zdrop 32 (zeros 16 ++ t ++ zdrop 32 c) = zdrop 32 c).
  { rewrite app_assoc. apply zdrop_app. rewrite zlen_app, Ho. done. }
  unfold BoxOpenWithKey. rewrite zlen_app, Ho, Hd. destruct (Z.ltb_spec (16 + zlen m) 16); [lia|].
  unfold secretbox_open. rewrite Hz, H16, H32. destruct (Z.ltb_spec (32 + zlen m) 32); [lia|].
  assert (E : onetimeauth_verify (t ++ zdrop 32 c) (zdrop 32 c) (stream_xsalsa20_xor None 32 n k) = 0).
  { unfold onetimeauth_verify. rewrite <- Hk, <- onetimeauth_key. fold t.
    assert (Hb : is_bytes t) by apply onetimeauth_bytes.
    apply vn_spec; [intros; rewrite at_app_l by lia; by apply at_byte|done|].
    intros i Hi. by rewrite at_app_l by lia. }
  rewrite E. change (negb (0 =? 0)) with false. cbn [mbind option_bind]. f_equal.
  rewrite zdrop_app by done. by apply Ht.
Qed.

(** Opening inverts sealing, and only sealing: a sealed message opens to itself under the same nonce and key, and every ciphertext that opens to m is byte for byte the one sealing m produces, so no other tag or ciphertext is accepted for m. *)
Theorem box_open_iff_seal c m n k :
  is_bytes c -> BoxOpenWithKey c n k = Some m <-> BoxSealWithKey m n k = c.
Proof.
  intros Hc. split; [|intros <-; apply BoxOpen_Seal].
  unfold BoxOpenWithKey, secretbox_open. destruct (Z.ltb_spec (zlen c) 16); [done|].
  assert (Hz : zlen (zeros 16 ++ c) = 32 + (zlen c - 16)) by (rewrite zlen_app, zlen_zeros; lia).
  rewrite Hz. destruct (Z.ltb_spec (32 + (zlen c - 16)) 32); [lia|].
  rewrite (zdrop_app 16 (zeros 16) c) by done.
  replace (zdrop 32 (zeros 16 ++ c)) with (zdrop 16 c)
    by (rewrite <- (zdrop_app 16 (zeros 16) c) at 1 by done; by rewrite zdrop_zdrop by lia).
  destruct (Z.eqb_spec (onetimeauth_verify c (zdrop 16 c) (stream_xsalsa20_xor None 32 n k)) 0)
    as [Hv|]; [|done]. cbn [negb mbind option_bind]. intros Hm. apply (inj Some) in Hm. rewrite zdrop_app in Hm by done.
  pose proof (zlen_nonneg c).
  destruct (xsalsa20_spec (Some (zeros 16 ++ c)) (32 + (zlen c - 16)) n k ltac:(lia)) as [Hl Ha].
  assert (Hlm : zlen m = zlen c - 16) by (rewrite <- Hm, zlen_zdrop; lia).
  destruct (seal_form m n k) as (Hsl & -> & Ho & Hk & _).
  set (sc := stream_xsalsa20_xor (Some (zeros 32 ++ m)) _ n k) in *.
  assert (Hd : zdrop 32 sc = zdrop 16 c).
  { destruct (xsalsa20_spec (Some (zeros 32 ++ m)) (32 + zlen m) n k ltac:(lia)) as [_ Hsa].
    apply at_ext; rewrite !zlen_zdrop by lia; [lia|]. intros i Hi. rewrite !at_zdrop by lia.
    unfold sc. rewrite Hsa by lia. cbn [mi]. rewrite at_app_r by (rewrite zlen_zeros; lia).
    rewrite zlen_zeros, <- Hm, at_zdrop, Ha by lia. cbn [mi].
    rewrite at_app_r by (rewrite zlen_zeros; lia). rewrite zlen_zeros by lia.
    replace (32 + (32 + i - 32)) with (32 + i) by lia.
    rewrite Z.lxor_assoc, Z.lxor_nilpotent, Z.lxor_0_r. f_equal. lia. }
  unfold onetimeauth_verify in Hv. rewrite <- Hk, <- onetimeauth_key, <- Hd in Hv.
  rewrite vn_spec in Hv; [|intros; by apply at_byte|apply onetimeauth_bytes].
  assert (Htag : onetimeauth (zdrop 32 sc) sc = ztake 16 c).
  { apply at_ext; rewrite ?zlen_ztake by lia; [lia|]. intros i Hi. rewrite Ho in Hi.
    rewrite at_ztake by lia. symmetry. by apply Hv. }
  rewrite Htag, Hd. apply ztake_zdrop.
Qed.

Lemma is_bytes_at l : (forall i, 0 <= i < zlen l -> is_byte (at_ l i)) -> is_bytes l.
Proof.
  intros H. apply Forall_lookup. intros i x Hx. pose proof (lookup_lt_Some _ _ _ Hx).
  specialize (H (Z.of_nat i)). unfold at_, zlen in H. rewrite Nat2Z.id, nth_lookup, Hx in H.
  apply H. lia.
Qed.

Lemma BoxSeal_bytes m n k : is_bytes m -> is_bytes (BoxSealWithKey m n k).
Proof.
  intros Hm. pose proof (zlen_nonneg m). destruct (seal_form m n k) as (Hl & -> & _).
  apply is_bytes_app. split; [apply onetimeauth_bytes|]. apply is_bytes_drop, is_bytes_at.
  intros i Hi. rewrite Hl in Hi.
  destruct (xsalsa20_spec (Some (zeros 32 ++ m)) (32 + zlen m) n k ltac:(lia)) as [_ Ha].
  rewrite Ha by lia. apply lxor_byte.
  - apply at_byte, is_bytes_app. split; [apply is_bytes_zeros|done].
  - apply ks_byte.
Qed.

Lemma box_open_iff_seal_witness :
  let c := BoxSealWithKey (bs "ping") (zeros 24) (zeros 32) in
  is_bytes c /\ BoxOpenWithKey c (zeros 24) (zeros 32) = Some (bs "ping").
Proof.
  intros c. assert (Hc : is_bytes c).
  { apply BoxSeal_bytes, bs_bytes. }
  split; [exact Hc|]. apply (box_open_iff_seal c (bs "ping") (zeros 24) (zeros 32) Hc). reflexivity.
Defined.

(** Boxes between two key pairs. *)
Lemma box_roundtrip `{OpenSSLLaws} msg nonce a b pa pb c :
  x25519_pub a = Some pa -> x25519_pub b = Some pb ->
  BoxSeal msg nonce pb a = Some c ->
  BoxOpen c nonce pa b = Some msg /\ zlen c = zlen msg + 16.
Proof.
  intros Ha Hb Hs. unfold BoxSeal, BoxOpen, BoxBeforeNm, Dh in *.
  rewrite <- (dh_comm a b pa pb Ha Hb). destruct (x25519 a pb) as [s|]; [|done].
  simpl in *. apply (inj Some) in Hs. subst c. split; [apply BoxOpen_Seal|].
  destruct (seal_form msg nonce (hsalsa20 (zeros 16) s kSigma)) as (Hl & -> & Ho & _).
  rewrite zlen_app, Ho, zlen_zdrop; pose proof (zlen_nonneg msg); lia.
Qed.

#[local] Transparent zeros onetimeauth.

(** ** Poly1305 in limbs is Poly1305 modulo 2^130 - 5 *)

Abbreviation lv := le_combine.

Lemma lv_app l k : lv (l ++ k) = lv l + 256 ^ zlen l * lv k.
Proof.
  induction l as [|x l IH]; cbn [app le_combine]; [change (256 ^ zlen []) with 1; lia|].
  rewrite IH, zlen_cons, Z.pow_add_r by (pose proof (zlen_nonneg l); lia). lia.
Qed.

Lemma lv_zeros n : lv (zeros n) = 0.
Proof. unfold zeros. induction (Z.to_nat n); simpl; lia. Qed.

(** The carry chain keeps the value. *)
Lemma carry_spec l u B :
  0 <= u -> 0 <= B -> 2 * B + 256 <= 2 ^ 32 -> u <= B -> Forall (fun x => 0 <= x <= B) l ->
  let '(o, u') := carry l u in
  is_bytes o /\ length o = length l /\ 0 <= u' <= B /\ lv l + u = lv o + 256 ^ zlen l * u'.
Proof.
  intros Hu HB HB2 HuB Hl. revert u Hu HuB. induction Hl as [|x l Hx Hl IH]; intros u Hu HuB.
  - simpl. change (256 ^ zlen []) with 1. split_and!; [constructor|done|lia..].
  - cbn [carry]. rewrite u32_small by lia.
    rewrite Z.shiftr_div_pow2 by lia. change (2 ^ 8) with 256.
    assert (Hd : 0 <= (u + x) / 256 <= B).
    { split; [apply Z.div_pos; lia|]. apply Z.div_le_upper_bound; lia. }
    specialize (IH ((u + x) / 256) (proj1 Hd) (proj2 Hd)).
    destruct (carry l _) as [o u']. destruct IH as (Ho & Hlen & Hu' & Hv).
    change 255 with (2 ^ 8 - 1). rewrite land_ones_mod by lia. change (2 ^ 8) with 256.
    split_and!; [|simpl; lia|lia|lia|].
    + constructor; [|done]. apply Z.mod_pos_bound. lia.
    + rewrite zlen_cons, Z.pow_add_r by (pose proof (zlen_nonneg l); lia).
      cbn [le_combine]. pose proof (Z.div_mod (u + x) 256). lia.
Qed.

Definition limbs (B : Z) (h : list Z) : Prop := length h = 17%nat /\ Forall (fun x => 0 <= x <= B) h.

Lemma limbs_bytes h : length h = 17%nat -> is_bytes h -> limbs 255 h.
Proof.
  intros Hl Hb. split; [done|]. eapply Forall_impl; [exact Hb|]. intros x. unfold is_byte. lia.
Qed.

Lemma lv_zip h c : length h = length c ->
  Forall (fun x => 0 <= x <= 255) h -> Forall (fun x => 0 <= x <= 255) c ->
  lv (zip_with (fun a b => u32 (a + b)) h c) = lv h + lv c
  /\ Forall (fun x => 0 <= x <= 510) (zip_with (fun a b => u32 (a + b)) h c).
Proof.
  revert c. induction h as [|x h IH]; intros [|y c] Hl Hh Hc; try done.
  inversion Hh; inversion Hc; subst. destruct (IH c) as [E F]; [simpl in Hl; lia|done|done|].
  cbn [zip_with le_combine]. rewrite E, u32_small by lia. split; [lia|]. constructor; [lia|done].
Qed.

Lemma add1305_spec h c :
  limbs 255 h -> limbs 255 c ->
  limbs 255 (add1305 h c) /\ lv (add1305 h c) = (lv h + lv c) mod 256 ^ 17.
Proof.
  intros [Hl Hh] [Hl' Hc]. destruct (lv_zip h c) as [E F]; [lia|done|done|].
  unfold add1305. pose proof (carry_spec (zip_with (fun a b => u32 (a + b)) h c) 0 510) as Hs.
  assert (Hzl : length (zip_with (fun a b => u32 (a + b)) h c) = 17%nat)
    by (rewrite length_zip_with; lia).
  destruct (carry _ 0) as [o u]. destruct Hs as (Ho & Hlo & Hu & Hv); [lia..|done|].
  assert (length o = 17%nat) by lia. split; [by apply limbs_bytes|]. simpl.
  rewrite <- E. apply (Z.mod_unique _ _ u); [left|].
  - pose proof (le_combine_bound o Ho). unfold zlen in *. replace (length o) with 17%nat in * by lia. done.
  - unfold zlen in Hv. rewrite Hzl in Hv. change (Z.of_nat 17) with 17 in Hv. lia.
Qed.

Lemma length17 (x : list Z) : length x = 17%nat ->
  exists x0 x1 x2 x3 x4 x5 x6 x7 x8 x9 x10 x11 x12 x13 x14 x15 x16,
    x = [x0; x1; x2; x3; x4; x5; x6; x7; x8; x9; x10; x11; x12; x13; x14; x15; x16].
Proof. intros. do 18 (destruct x as [|? x]; try done). by do 17 eexists. Qed.

(** One output limb, without the 32-bit wrap-around; and the part of the
    schoolbook product's column i + 17 that wraps onto it.  The value operations
    are arguments so that the index arithmetic computes on its own. *)
Definition dot_ (add mul : Z -> Z -> Z) (h r : list Z) (i : Z) : Z :=
  fold_left (fun x j => add x (mul (at_ h j)
      (if j <=? i then at_ r (i - j) else mul 320 (at_ r (i + 17 - j))))) (seqZ 0 17) 0.

Definition wrapped_ (add mul : Z -> Z -> Z) (h r : list Z) (i : Z) : Z :=
  fold_left (fun x j => add x (mul (at_ h j) (if j <=? i then 0 else at_ r (i + 17 - j))))
    (seqZ 0 17) 0.

Abbreviation dot := (dot_ Z.add Z.mul).

Lemma limb_bound B h i : 0 <= B -> limbs B h -> 0 <= at_ h i <= B.
Proof.
  intros HB [_ Hh]. unfold at_. rewrite nth_lookup. destruct (h !! _) eqn:E; simpl; [|lia].
  by eapply Forall_lookup_1 in Hh; [|exact E].
Qed.

Lemma dot_wrap h r i :
  limbs 255 h -> limbs 255 r ->
  fold_left (fun x j =>
    u32 (x + u32 (at_ h j * (if j <=? i then at_ r (i - j) else u32 (320 * at_ r (i + 17 - j))))))
    (seqZ 0 17) 0 = dot h r i /\ 0 <= dot h r i <= 353736000.
Proof.
  intros Hh Hr. unfold dot_.
  assert (Hstep : forall l x, 0 <= x -> x + 20808000 * zlen l <= 353736000 ->
    fold_left (fun x j =>
      u32 (x + u32 (at_ h j * (if j <=? i then at_ r (i - j) else u32 (320 * at_ r (i + 17 - j)))))) l x
    = fold_left (fun x j => x + at_ h j * (if j <=? i then at_ r (i - j) else 320 * at_ r (i + 17 - j))) l x
    /\ 0 <= fold_left (fun x j => x + at_ h j * (if j <=? i then at_ r (i - j) else 320 * at_ r (i + 17 - j))) l x
       <= x + 20808000 * zlen l).
  { induction l as [|j l IH]; intros x Hx Hb; cbn [fold_left]; [unfold zlen in *; simpl in *; lia|].
    rewrite zlen_cons in *. pose proof (zlen_nonneg l).
    pose proof (limb_bound 255 h j ltac:(lia) Hh).
    pose proof (limb_bound 255 r (i - j) ltac:(lia) Hr).
    pose proof (limb_bound 255 r (i + 17 - j) ltac:(lia) Hr).
    set (f := if j <=? i then at_ r (i - j) else 320 * at_ r (i + 17 - j)) in *.
    assert (Hf : 0 <= f <= 81600) by (unfold f; destruct (j <=? i); lia).
    replace (if j <=? i then at_ r (i - j) else u32 (320 * at_ r (i + 17 - j))) with f
      by (unfold f; destruct (j <=? i); [done|by rewrite u32_small by lia]).
    assert (Hp : 0 <= at_ h j * f <= 20808000) by nia.
    rewrite (u32_small (at_ h j * f)), (u32_small (x + _)) by lia.
    destruct (IH (x + at_ h j * f)) as [E Hb']; [lia..|]. split; [exact E|lia]. }
  destruct (Hstep (seqZ 0 17) 0) as [E Hb]; [lia|done|]. split; [exact E|].
  change (zlen (seqZ 0 17)) with 17 in Hb. lia.
Qed.

(** The value of the product limbs is the product modulo 2^130 - 5. *)
Lemma dot_value h r :
  length h = 17%nat -> length r = 17%nat ->
  exists q, lv (map (dot h r) (seqZ 0 17)) = lv h * lv r - (256 ^ 17 - 320) * q.
Proof.
  intros Hh Hr.
  destruct (length17 h Hh) as (h0 & h1 & h2 & h3 & h4 & h5 & h6 & h7 & h8 & h9 & h10 & h11 & h12 & h13 & h14 & h15 & h16 & ->).
  destruct (length17 r Hr) as (r0 & r1 & r2 & r3 & r4 & r5 & r6 & r7 & r8 & r9 & r10 & r11 & r12 & r13 & r14 & r15 & r16 & ->).
  exists (lv (map (wrapped_ Z.add Z.mul
    [h0; h1; h2; h3; h4; h5; h6; h7; h8; h9; h10; h11; h12; h13; h14; h15; h16]
    [r0; r1; r2; r3; r4; r5; r6; r7; r8; r9; r10; r11; r12; r13; r14; r15; r16]) (seqZ 0 17))).
  let go f :=
    match goal with |- context [map (f Z.add Z.mul ?h ?r) ?s] =>
      let t := eval vm_compute in (fun add mul : Z -> Z -> Z => map (f add mul h r) s) in
      change (map (f Z.add Z.mul h r) s) with (t Z.add Z.mul) end in
  go dot_; go wrapped_.
  cbv beta. cbn [le_combine]. ring.
Qed.

Lemma lv_take_drop n l : 0 <= n <= zlen l -> lv l = lv (ztake n l) + 256 ^ n * lv (zdrop n l).
Proof.
  intros Hn. rewrite <- (ztake_zdrop n l) at 1. rewrite lv_app, zlen_ztake by lia. done.
Qed.

(** A reduced accumulator: bytes below 2^128 and a small top limb. *)
Definition good (h : list Z) : Prop :=
  length h = 17%nat /\ is_bytes h /\ lv h < 5 * 2 ^ 128.

Lemma reduce1305_spec x :
  limbs 353736000 x ->
  good (reduce1305 x) /\ exists q, lv (reduce1305 x) = lv x - Spec.p1305 * q.
Proof.
  intros [Hl Hx]. pose proof (limb_bound 353736000 x 16 ltac:(lia) (conj Hl Hx)) as H16.
  unfold reduce1305.
  pose proof (carry_spec (ztake 16 x) 0 353736000 ltac:(lia) ltac:(lia) ltac:(lia) ltac:(lia)
    (Forall_take _ _ _ Hx)) as H1.
  destruct (carry (ztake 16 x) 0) as [lo u]. destruct H1 as (Hlo & Hll & Hu & Hv).
  assert (Ht : zlen (ztake 16 x) = 16) by (apply zlen_ztake; unfold zlen; lia).
  assert (Hll' : length lo = 16%nat) by (unfold zlen in Ht; lia).
  rewrite Ht in Hv. rewrite (u32_small (u + _)) by lia. set (U := u + at_ x 16) in *.
  change 3 with (2 ^ 2 - 1). rewrite land_ones_mod by lia. change (2 ^ 2) with 4.
  rewrite Z.shiftr_div_pow2 by lia. change (2 ^ 2) with 4.
  assert (HU : 0 <= 5 * (U / 4) <= 884340000) by (pose proof (Z.div_mod U 4 ltac:(lia)); pose proof (Z.mod_pos_bound U 4 ltac:(lia)); lia).
  rewrite (u32_small (5 * _)) by lia.
  pose proof (carry_spec lo (5 * (U / 4)) 884340000 ltac:(lia) ltac:(lia) ltac:(lia) ltac:(lia)) as H2.
  destruct (carry lo _) as [lo' u'].
  destruct H2 as (Hlo' & Hll2 & Hu' & Hv').
  { eapply Forall_impl; [exact Hlo|]. intros y. unfold is_byte. lia. }
  pose proof (le_combine_bound lo Hlo) as B1. pose proof (le_combine_bound lo' Hlo') as B2.
  unfold zlen in B1, B2, Hv'. rewrite Hll2, Hll' in *.
  change (256 ^ Z.of_nat 16) with (2 ^ 128) in *. change (256 ^ 16) with (2 ^ 128) in *.
  assert (Hu1 : u' <= 1) by lia. pose proof (Z.mod_pos_bound U 4 ltac:(lia)).
  rewrite u32_small by lia.
  assert (Hval : lv (lo' ++ [u' + U mod 4]) = lv lo' + 2 ^ 128 * (u' + U mod 4)).
  { rewrite lv_app. unfold zlen. rewrite Hll2. change (256 ^ Z.of_nat 16) with (2 ^ 128). simpl lv. lia. }
  split; [split_and!|].
  - rewrite length_app, Hll2. done.
  - apply is_bytes_app. split; [done|]. constructor; [unfold is_byte; lia|constructor].
  - rewrite Hval. lia.
  - exists (U / 4). rewrite Hval. unfold Spec.p1305.
    rewrite (lv_take_drop 16 x) by (unfold zlen; lia).
    assert (Hd : lv (zdrop 16 x) = at_ x 16).
    { destruct (length17 x Hl) as (?&?&?&?&?&?&?&?&?&?&?&?&?&?&?&?&?&->).
      unfold zdrop, at_. change (Z.to_nat 16) with 16%nat. cbn [drop nth le_combine]. lia. }
    rewrite Hd. change (256 ^ 16) with (2 ^ 128). pose proof (Z.div_mod U 4 ltac:(lia)). lia.
Qed.

Lemma good_limbs h : good h -> limbs 255 h.
Proof. intros (? & ? & _). by apply limbs_bytes. Qed.

Lemma lv_block m : lv (block1305 m) = lv (m ++ [1]).
Proof. unfold block1305. rewrite app_assoc, lv_app, lv_zeros. lia. Qed.

Lemma block_limbs m : is_bytes m -> zlen m <= 16 -> limbs 255 (block1305 m) /\ lv (block1305 m) < 2 ^ 129.
Proof.
  intros Hb Hm. pose proof (zlen_nonneg m). split.
  - apply limbs_bytes.
    + assert (zlen (block1305 m) = 17) as E; [|unfold zlen in E; lia].
      unfold block1305. rewrite !zlen_app, zlen_zeros by lia. change (zlen [1]) with 1. lia.
    + unfold block1305. rewrite !is_bytes_app. split_and!; [done| |apply is_bytes_zeros].
      constructor; [unfold is_byte; lia|constructor].
  - rewrite lv_block, lv_app. simpl lv. pose proof (le_combine_bound m Hb).
    assert (256 ^ zlen m <= 256 ^ 16) by (apply Z.pow_le_mono_r; lia).
    change (256 ^ 16) with (2 ^ 128) in *. lia.
Qed.

(** One block: accumulate and multiply modulo p. *)
Lemma block_step h r m :
  good h -> limbs 255 r -> is_bytes m -> zlen m <= 16 ->
  let h' := reduce1305 (mul1305 (add1305 h (block1305 m)) r) in
  good h' /\ lv h' mod Spec.p1305 = (lv h mod Spec.p1305 + lv (m ++ [1])) * lv r mod Spec.p1305.
Proof.
  intros Hh Hr Hb Hm h'. destruct (block_limbs m Hb Hm) as [Hc Hcb].
  destruct (add1305_spec h (block1305 m) (good_limbs h Hh) Hc) as [Ha Hav].
  pose proof (le_combine_bound _ (proj1 (proj2 Hh))) as Hpos.
  assert (Hbb : is_bytes (block1305 m)).
  { eapply Forall_impl; [exact (proj2 Hc)|]. intros y. unfold is_byte. simpl. lia. }
  pose proof (le_combine_bound _ Hbb).
  rewrite Z.mod_small in Hav by (destruct Hh as (_ & _ & ?); change (256 ^ 17) with (2 ^ 136); lia).
  set (a := add1305 h (block1305 m)) in *.
  assert (Hmul : mul1305 a r = map (dot a r) (seqZ 0 17)).
  { apply map_ext. intros i. apply (proj1 (dot_wrap a r i Ha Hr)). }
  assert (Hlim : limbs 353736000 (mul1305 a r)).
  { rewrite Hmul. split; [by rewrite length_map|]. apply Forall_map, Forall_true.
    intros i. apply (dot_wrap a r i Ha Hr). }
  destruct (reduce1305_spec _ Hlim) as [Hg (q & Hq)]. split; [done|].
  destruct (dot_value a r (proj1 Ha) (proj1 Hr)) as [q' Hq']. unfold h'. rewrite Hq, Hmul, Hq', Hav, lv_block.
  change (256 ^ 17 - 320) with (Spec.p1305 * 64).
  replace ((lv h + lv (m ++ [1])) * lv r - Spec.p1305 * 64 * q' - Spec.p1305 * q)
    with ((lv h + lv (m ++ [1])) * lv r + (- 64 * q' - q) * Spec.p1305) by lia.
  rewrite Z.mod_add by done. rewrite Z.mul_mod, <- Z.add_mod_idemp_l, <- Z.mul_mod by done. done.
Qed.

Lemma poly_blocks_spec fuel h r m :
  good h -> limbs 255 r -> is_bytes m ->
  good (poly_blocks fuel h r m)
  /\ lv (poly_blocks fuel h r m) mod Spec.p1305
     = Spec.poly fuel (lv h mod Spec.p1305) (lv r) m mod Spec.p1305.
Proof.
  intros Hh Hr. revert h Hh m. induction fuel as [|fuel IH]; intros h Hh m Hb.
  { simpl. by rewrite Z.mod_mod. }
  cbn [poly_blocks Spec.poly]. destruct (zlen m =? 0); [by rewrite Z.mod_mod|].
  pose proof (zlen_nonneg m).
  assert (zlen (ztake (Z.min 16 (zlen m)) m) <= 16) by (rewrite zlen_ztake; lia).
  destruct (block_step h r (ztake (Z.min 16 (zlen m)) m) Hh Hr (is_bytes_take _ _ Hb)) as [Hg Hv]; [done|].
  destruct (IH _ Hg (zdrop (Z.min 16 (zlen m)) m) (is_bytes_drop _ _ Hb)) as [Hg' Hv'].
  split; [done|]. by rewrite Hv', Hv.
Qed.

Lemma land_cons a b x y :
  is_byte a -> is_byte b -> (a + 256 * x) .& (b + 256 * y) = (a .& b) + 256 * (x .& y).
Proof.
  intros Ha Hb. unfold is_byte in *.
  assert (Hab : 0 <= a .& b < 2 ^ 8).
  { split; [apply Z.land_nonneg; lia|]. destruct (Z.eq_dec (a .& b) 0) as [->|]; [lia|].
    apply Z.log2_lt_cancel. rewrite Z.log2_pow2 by lia.
    pose proof (Z.log2_land a b ltac:(lia) ltac:(lia)).
    pose proof (Z.log2_le_mono a 255 ltac:(lia)). change (Z.log2 255) with 7 in *. lia. }
  replace ((a .& b) + 256 * (x .& y)) with ((a .& b) + (x .& y) * 2 ^ 8) by lia.
  rewrite <- lor_shiftl_add by lia.
  replace (a + 256 * x) with (a + x * 2 ^ 8) by lia. rewrite <- lor_shiftl_add by lia.
  replace (b + 256 * y) with (b + y * 2 ^ 8) by lia. rewrite <- lor_shiftl_add by lia.
  apply Z.bits_inj'. intros n Hn. rewrite !Z.land_spec, !Z.lor_spec, !Z.land_spec.
  destruct (Z.lt_ge_cases n 8).
  - rewrite !Z.shiftl_spec_low by lia. by rewrite !orb_false_r.
  - assert (Hhi : forall z, 0 <= z < 256 -> Z.testbit z n = false).
    { intros z Hz. rewrite <- (Z.mod_small z (2 ^ 8)) by lia. by rewrite Z.mod_pow2_bits_high by lia. }
    rewrite !(Z.shiftl_spec_high _ 8 n), Z.land_spec, (Hhi a), (Hhi b) by lia. done.
Qed.

Lemma lv_zip_land l k : is_bytes l -> is_bytes k -> length l = length k ->
  lv (zip_with Z.land l k) = lv l .& lv k.
Proof.
  intros Hl. revert k. induction Hl as [|x l Hx Hl IH]; intros [|y k] Hk Hlen; try done.
  inversion Hk; subst. cbn [zip_with le_combine]. rewrite land_cons, IH by (done || (simpl in Hlen; lia)).
  done.
Qed.

Definition clamp_mask : list Z :=
  [255; 255; 255; 15; 252; 255; 255; 15; 252; 255; 255; 15; 252; 255; 255; 15; 0].

Lemma clamp_spec k :
  is_bytes k -> 16 <= zlen k ->
  limbs 255 (clamp k) /\ lv (clamp k) = lv (ztake 16 k) .& 0x0ffffffc0ffffffc0ffffffc0fffffff.
Proof.
  intros Hb Hk. assert (H17 : length (ztake 16 k ++ [0]) = 17%nat).
  { pose proof (zlen_ztake 16 k ltac:(lia)) as E. unfold zlen in E. rewrite length_app. simpl. lia. }
  assert (Hb17 : is_bytes (ztake 16 k ++ [0])).
  { apply is_bytes_app. split; [auto with soto|]. constructor; [unfold is_byte; lia|constructor]. }
  assert (Hc : clamp k = zip_with Z.land (ztake 16 k ++ [0]) clamp_mask).
  { unfold clamp. destruct (length17 _ H17) as
      (x0&x1&x2&x3&x4&x5&x6&x7&x8&x9&x10&x11&x12&x13&x14&x15&x16&E).
    assert (x16 = 0) as ->.
    { pose proof (f_equal (fun l => at_ l 16) E) as E16. cbn beta in E16.
      pose proof (zlen_ztake 16 k ltac:(lia)) as Hz.
      rewrite at_app_r, Hz in E16 by lia. exact (eq_sym E16). }
    rewrite E in *.
    unfold is_bytes in Hb17. rewrite !Forall_cons in Hb17.
    assert (H255 : forall x, is_byte x -> x .& 255 = x).
    { intros x Hx. change 255 with (2 ^ 8 - 1). rewrite land_ones_mod by lia.
      unfold is_byte in Hx. apply Z.mod_small. lia. }
    unfold clamp_mask, set_, at_. cbn [fold_left zip_with].
    rewrite !H255 by tauto. reflexivity. }
  assert (Hmb : is_bytes clamp_mask).
  { unfold clamp_mask. repeat (constructor; [unfold is_byte; lia|]). constructor. }
  rewrite Hc. split.
  - split; [rewrite length_zip_with, H17; done|]. apply Forall_lookup. intros i z Hz.
    apply lookup_zip_with_Some in Hz as (x & y & -> & Hx & Hy).
    eapply Forall_lookup_1 in Hx; [|exact Hb17]. eapply Forall_lookup_1 in Hy; [|exact Hmb].
    unfold is_byte in *. split; [apply Z.land_nonneg; lia|].
    destruct (Z.le_gt_cases (x .& y) 255); [done|].
    pose proof (Z.log2_land x y ltac:(lia) ltac:(lia)).
    pose proof (Z.log2_le_mono x 255 ltac:(lia)).
    pose proof (Z.log2_le_mono 256 (x .& y) ltac:(lia)).
    change (Z.log2 255) with 7 in *. change (Z.log2 256) with 8 in *. lia.
  - rewrite lv_zip_land by done. rewrite lv_app. f_equal. change (lv [0]) with 0. lia.
Qed.

(** The low sixteen bytes of a 17-limb value. *)
Lemma low_bytes h : limbs 255 h -> map u8 (ztake 16 h) = le_split 16 (lv h).
Proof.
  intros [Hl Hh].
  assert (Hb : is_bytes h) by (eapply Forall_impl; [exact Hh|]; intros x; unfold is_byte; simpl; lia).
  assert (Ht : length (ztake 16 h) = 16%nat)
    by (pose proof (zlen_ztake 16 h) as E; unfold zlen in E; lia).
  rewrite Toy.map_u8_bytes by auto with soto.
  rewrite le_split_mod, (lv_take_drop 16 h) by (unfold zlen; lia).
  rewrite (Z.mul_comm (256 ^ 16)), Z.mod_add by done.
  rewrite Z.mod_small.
  - rewrite <- Ht at 1. symmetry. apply le_split_combine. auto with soto.
  - pose proof (le_combine_bound (ztake 16 h) ltac:(auto with soto)) as B.
    unfold zlen in B. by rewrite Ht in B.
Qed.

Lemma mask_ones h g : is_bytes h -> is_bytes g -> length h = length g ->
  zip_with (fun h g => h .^ ((2 ^ 32 - 1) .& (g .^ h))) h g = g.
Proof.
  intros Hh. revert g. induction Hh as [|x h Hx Hh IH]; intros [|y g] Hb Hlen; try done.
  inversion Hb; subst. cbn [zip_with]. rewrite IH by (done || (simpl in Hlen; lia)). f_equal.
  rewrite Z.land_comm, land_ones_mod by lia.
  pose proof (lxor_byte y x ltac:(done) Hx) as Hxy. unfold is_byte in Hxy.
  rewrite Z.mod_small by lia. rewrite (Z.lxor_comm y x), <- Z.lxor_assoc, Z.lxor_nilpotent.
  apply Z.lxor_0_l.
Qed.

Lemma mask_zero (h g : bytes) : length h = length g ->
  zip_with (fun h g => h .^ (0 .& (g .^ h))) h g = h.
Proof.
  revert g. induction h as [|x h IH]; intros [|y g] Hlen; try done.
  cbn [zip_with]. rewrite IH by (simpl in Hlen; lia). rewrite Z.land_0_l. by rewrite Z.lxor_0_r.
Qed.

(** The conditional subtraction of p by mask. *)
Lemma freeze g :
  good g ->
  let h := add1305 g kMinusP in
  let s := u32 (- (at_ h 16 ≫ 7)) in
  let f := zip_with (fun h g => h .^ (s .& (g .^ h))) h g in
  limbs 255 f /\ lv f = lv g mod Spec.p1305.
Proof.
  intros (Hl & Hb & Hv) h s f.
  assert (Hm : limbs 255 kMinusP) by (split; [done|]; repeat (constructor; [lia|]); constructor).
  destruct (add1305_spec g kMinusP (limbs_bytes _ Hl Hb) Hm) as [Hh Hhv]. fold h in Hh, Hhv.
  change (lv kMinusP) with (2 ^ 136 - Spec.p1305) in Hhv. change (256 ^ 17) with (2 ^ 136) in Hhv.
  assert (Hbh : is_bytes h) by (eapply Forall_impl; [exact (proj2 Hh)|]; intros x; unfold is_byte; simpl; lia).
  assert (H16 : at_ h 16 = lv h / 2 ^ 128).
  { rewrite (lv_take_drop 16 h) by (unfold zlen; rewrite (proj1 Hh); lia).
    pose proof (le_combine_bound (ztake 16 h) ltac:(auto with soto)) as B.
    pose proof (zlen_ztake 16 h ltac:(unfold zlen; rewrite (proj1 Hh); lia)) as E. rewrite E in B.
    change (256 ^ 16) with (2 ^ 128) in *. rewrite (Z.mul_comm (2 ^ 128)), Z.div_add, Z.div_small by lia.
    destruct (length17 h (proj1 Hh)) as (?&?&?&?&?&?&?&?&?&?&?&?&?&?&?&?&?&->).
    unfold zdrop, at_. change (Z.to_nat 16) with 16%nat. cbn [drop nth le_combine]. lia. }
  pose proof (le_combine_bound g Hb) as Bg. unfold Spec.p1305 in *.
  assert (Hlen : length h = length g) by (rewrite (proj1 Hh); done).
  destruct (Z.lt_ge_cases (lv g) (2 ^ 130 - 5)) as [Hlt|Hge].
  - rewrite Z.mod_small in Hhv by lia.
    assert (Hs : s = 2 ^ 32 - 1).
    { unfold s. rewrite H16, Hhv, Z.shiftr_div_pow2, Z.div_div by lia.
      replace ((lv g + (2 ^ 136 - (2 ^ 130 - 5))) / (2 ^ 128 * 2 ^ 7)) with 1; [done|].
      apply (Z.div_unique _ _ _ (lv g + (2 ^ 136 - (2 ^ 130 - 5)) - 2 ^ 135)); lia. }
    assert (Hf : f = g).
    { unfold f. rewrite Hs. by apply mask_ones. }
    rewrite Hf. split; [by apply limbs_bytes|]. symmetry. apply Z.mod_small. lia.
  - replace (lv g + (2 ^ 136 - (2 ^ 130 - 5))) with (lv g - (2 ^ 130 - 5) + 1 * 2 ^ 136) in Hhv by lia.
    rewrite Z.mod_add, Z.mod_small in Hhv by lia.
    assert (Hs : s = 0).
    { unfold s. rewrite H16, Hhv, Z.shiftr_div_pow2, Z.div_div by lia.
      rewrite Z.div_small by lia. done. }
    assert (Hf : f = h).
    { unfold f. rewrite Hs. by apply mask_zero. }
    rewrite Hf. split; [done|]. rewrite Hhv. apply (Z.mod_unique _ _ 1); [left|]; lia.
Qed.

Lemma poly_range fuel acc r m :
  0 <= acc < Spec.p1305 -> 0 <= Spec.poly fuel acc r m < Spec.p1305.
Proof.
  revert acc m. induction fuel as [|fuel IH]; intros acc m Ha; cbn [Spec.poly]; [done|].
  destruct (_ =? 0); [done|]. apply IH, Z.mod_pos_bound. done.
Qed.

(** C34: onetimeauth is Poly1305: for a 32-byte key and any message, the radix-2^8 code in 32-bit words (its carries, its lazy reduction and the masked final subtraction) computes the tag ((c1*r^q + ... + cq*r) mod 2^130-5 + s) mod 2^128 with the clamped r. *)
Theorem onetimeauth_refines_poly1305 m k :
  is_bytes m -> is_bytes k -> zlen k >= 32 ->
  onetimeauth m k = Spec.poly1305 m k.
Proof.
  intros Hm Hk Hl. destruct (clamp_spec k Hk ltac:(lia)) as [Hr Hrv].
  assert (H0 : good (zeros 17)) by (split_and!; [done|apply is_bytes_zeros|done]).
  destruct (poly_blocks_spec (S (length m)) (zeros 17) (clamp k) m H0 Hr Hm) as [Hg Hv].
  unfold onetimeauth, Spec.poly1305. rewrite Hrv in Hv. change (lv (zeros 17) mod Spec.p1305) with 0 in Hv.
  set (g := poly_blocks _ _ _ _) in *. destruct (freeze g Hg) as [Hf Hfv].
  set (f := zip_with _ _ g) in *. fold f.
  assert (Hs : limbs 255 (slice 16 16 k ++ [0])).
  { apply limbs_bytes.
    - pose proof (zlen_slice 16 16 k) as E. rewrite length_app. unfold zlen in *. simpl. lia.
    - apply is_bytes_app. split; [auto with soto|]. constructor; [unfold is_byte; lia|constructor]. }
  destruct (add1305_spec f _ Hf Hs) as [Ha Hav].
  rewrite low_bytes by done. rewrite Hav, Hfv, Hv, lv_app.
  change (lv [0]) with 0. rewrite Z.mul_0_r, Z.add_0_r.
  assert (Hp : 0 <= Spec.poly (S (length m)) 0 (lv (ztake 16 k) .& 0x0ffffffc0ffffffc0ffffffc0fffffff) m
               < Spec.p1305) by (apply poly_range; done).
  rewrite (Z.mod_small _ _ Hp). set (v := _ + lv (slice 16 16 k)).
  rewrite le_split_mod, (le_split_mod 16 v). f_equal.
  change (256 ^ 17) with (256 ^ Z.of_nat 16 * 256). rewrite Z.rem_mul_r by done.
  rewrite Z.mul_comm, Z.mod_add by done. by rewrite Z.mod_mod.
Qed.

Lemma onetimeauth_refines_poly1305_witness :
  is_bytes (bs "abc") /\ zlen (zeros 32) >= 32
  /\ onetimeauth (bs "abc") (zeros 32) = Spec.poly1305 (bs "abc") (zeros 32).
Proof.
  split; [apply bs_bytes|]. split; [rewrite zlen_zeros; lia|].
  apply (onetimeauth_refines_poly1305 (bs "abc") (zeros 32)).
  - apply bs_bytes.
  - apply is_bytes_zeros.
  - rewrite zlen_zeros; lia.
Defined.
End NaClBox.
