(* ===== verification/Stun.v ===== *)
(** * Stun: the STUN client codec

    src/backend/tailscale/TSStun.cpp: [StunBuildRequest] (the drawn transaction
    id is an argument) and [StunParseResponse].  Reads of the datagram go
    through [rd]: an outer [None] is an access outside the buffer.  The inner
    option is the function's boolean with its two output arguments.
    [StunQuery], the socket I/O around the two, is in TlsClient.v. *)

From S2P Require Import Prelude CLib Endian.
Open Scope Z_scope.
Open Scope soto_scope.

Module Stun.

Definition kBindingRequest : Z := 0x0001.
Definition kBindingSuccess : Z := 0x0101.
Definition kAttrMappedAddr : Z := 0x0001.
Definition kAttrXorMappedAddr : Z := 0x0020.
Definition kStunHeaderLen : Z := 20.
Definition kStunMagicCookie : Z := 0x2112a442.

Definition rd16 (p : bytes) (o : Z) : option Z :=
  a ← rd p o; b ← rd p (o + 1); Some (u16 ((a ≪ 8) .| b)).

Definition StunBuildRequest (txId : bytes) : bytes :=
  [u8 (kBindingRequest ≫ 8); u8 (kBindingRequest .& 0xff); 0; 0;
   u8 (kStunMagicCookie ≫ 24); u8 (kStunMagicCookie ≫ 16);
   u8 (kStunMagicCookie ≫ 8); u8 (kStunMagicCookie .& 0xff)] ++ txId.

(** One address attribute: [None] when its family is not IPv4. *)
Definition parse_address (buf : bytes) (attrType val : Z) : option (option (bytes * Z)) :=
  family ← rd buf (val + 1);
  if family =? 0x01 then
    port ← rd16 buf (val + 2);
    addr ← memcpy_from buf (val + 4) 4;
    let x := attrType =? kAttrXorMappedAddr in
    let port := if x then port .^ u16 (kStunMagicCookie ≫ 16) else port in
    let byte i s := if x then at_ addr i .^ u8 (kStunMagicCookie ≫ s) else at_ addr i in
    Some (Some (fmt_ipv4 (byte 0 24) (byte 1 16) (byte 2 8) (byte 3 0), port))
  else Some None.

Fixpoint parse_attrs (fuel : nat) (buf : bytes) (off end_ : Z) : option (option (bytes * Z)) :=
  match fuel with
  | O => Some None
  | S fuel =>
      if negb (off + 4 <=? end_) then Some None
      else
        attrType ← rd16 buf off;
        attrLen ← rd16 buf (off + 2);
        let val := off + 4 in
        if val + attrLen >? end_ then Some None
        else
          found ← (if ((attrType =? kAttrXorMappedAddr) || (attrType =? kAttrMappedAddr))
                      && (attrLen >=? 8)
                   then parse_address buf attrType val else Some None);
          match found with
          | Some r => Some (Some r)
          | None =>
              let off := val + attrLen in
              let off := if negb (attrLen .& 3 =? 0) then off + (4 - (attrLen .& 3)) else off in
              parse_attrs fuel buf off end_
          end
  end.

Definition StunParseResponse (buf txId : bytes) : option (option (bytes * Z)) :=
  let len := zlen buf in
  if len <? kStunHeaderLen then Some None
  else
    t ← rd16 buf 0;
    if negb (t =? kBindingSuccess) then Some None
    else
      c0 ← rd buf 4; c1 ← rd buf 5; c2 ← rd buf 6; c3 ← rd buf 7;
      if negb (c0 =? u8 (kStunMagicCookie ≫ 24)) || negb (c1 =? u8 (kStunMagicCookie ≫ 16))
         || negb (c2 =? u8 (kStunMagicCookie ≫ 8)) || negb (c3 =? u8 (kStunMagicCookie .& 0xff))
      then Some None
      else
        tx ← memcpy_from buf 8 12;
        if negb (beq tx txId) then Some None
        else
          msgLen ← rd16 buf 2;
          let msgLen := if kStunHeaderLen + msgLen >? len then u16 (len - kStunHeaderLen) else msgLen in
          parse_attrs (length buf) buf kStunHeaderLen (kStunHeaderLen + msgLen).

(** ** Reads stay inside the datagram *)

Lemma rd16_Some buf o :
  is_bytes buf -> 0 <= o -> o + 2 <= zlen buf ->
  rd16 buf o = Some (rd16_be buf o) /\ 0 <= rd16_be buf o < 2 ^ 16.
Proof.
  intros Hb Ho Hl. unfold rd16. rewrite !rd_Some by lia. simpl.
  split; [done|unfold rd16_be; apply u16_range].
Qed.

Lemma parse_address_safe buf t val :
  is_bytes buf -> 0 <= val -> val + 8 <= zlen buf -> is_Some (parse_address buf t val).
Proof.
  intros Hb Hv Hl. unfold parse_address. rewrite rd_Some by lia. simpl.
  destruct (_ =? 1); [|done]. destruct (rd16_Some buf (val + 2)) as [-> _]; [done|lia..|].
  rewrite memcpy_from_Some by lia. done.
Qed.

Lemma parse_attrs_safe fuel buf off end_ :
  is_bytes buf -> 0 <= off -> end_ <= zlen buf -> is_Some (parse_attrs fuel buf off end_).
Proof.
  intros Hb. revert off. induction fuel as [|fuel IH]; intros off Ho He; [done|].
  cbn [parse_attrs]. destruct (Z.leb_spec (off + 4) end_); [|done].
  destruct (rd16_Some buf off) as [E1 H1]; [done|lia..|].
  destruct (rd16_Some buf (off + 2)) as [E2 H2]; [done|lia..|].
  cbn [negb]. rewrite E1, E2. cbn [mbind option_bind].
  destruct (Z.gtb_spec (off + 4 + rd16_be buf (off + 2)) end_); [done|].
  assert (Hrec : forall k, 0 <= k -> is_Some (parse_attrs fuel buf (off + 4 + k) end_))
    by (intros; apply IH; lia).
  assert (0 <= rd16_be buf (off + 2) .& 3 <= 3).
  { split; [apply Z.land_nonneg; lia|].
    change 3 with (2 ^ 2 - 1) at 1. rewrite land_ones_mod by lia.
    pose proof (Z.mod_pos_bound (rd16_be buf (off + 2)) (2 ^ 2)). lia. }
  assert (Hnext : is_Some (parse_attrs fuel buf
    (if negb (rd16_be buf (off + 2) .& 3 =? 0)
     then off + 4 + rd16_be buf (off + 2) + (4 - (rd16_be buf (off + 2) .& 3))
     else off + 4 + rd16_be buf (off + 2)) end_)).
  { destruct (negb _); [rewrite <- Z.add_assoc|]; apply Hrec; lia. }
  destruct (_ && _) eqn:Eg; [|exact Hnext].
  apply andb_true_iff in Eg as [_ Hg]. rewrite Z.geb_leb, Z.leb_le in Hg.
  destruct (parse_address_safe buf (rd16_be buf off) (off + 4) Hb ltac:(lia) ltac:(lia)) as [[r|] ->];
    [done|exact Hnext].
Qed.

(** Parsing a STUN response never reads outside the datagram, whatever its bytes and length: every access of StunParseResponse, including those of attributes whose declared length overruns the message or whose message length overruns the datagram, is in bounds. *)
Theorem StunParseResponse_safe buf txId :
  is_bytes buf -> is_Some (StunParseResponse buf txId).
Proof.
  intros Hb. unfold StunParseResponse, kStunHeaderLen. pose proof (zlen_nonneg buf).
  destruct (Z.ltb_spec (zlen buf) 20); [done|].
  destruct (rd16_Some buf 0) as [-> _]; [done|lia..|]. cbn [mbind option_bind].
  destruct (negb _); [done|]. rewrite !rd_Some by lia. cbn [mbind option_bind].
  destruct (_ || _); [done|]. rewrite memcpy_from_Some by lia. cbn [mbind option_bind].
  destruct (negb _); [done|].
  destruct (rd16_Some buf 2) as [-> Hm]; [done|lia..|]. cbn [mbind option_bind].
  apply parse_attrs_safe; [done|lia|]. destruct (Z.gtb_spec (20 + rd16_be buf 2) (zlen buf)).
  - rewrite u16_small; lia.
  - lia.
Qed.

Lemma StunParseResponse_safe_witness :
  is_bytes (bs "not a stun message, but a long one") /\
  is_Some (StunParseResponse (bs "not a stun message, but a long one") (zeros 12)).
Proof. split; [apply bs_bytes|]. apply StunParseResponse_safe, bs_bytes. Defined.

(** ** Responses *)

(** An attribute: type, length, value, zero padding to a 4-byte boundary. *)
Definition enc_attr (a : Z * bytes) : bytes :=
  let '(t, v) := a in
  store16_be t ++ store16_be (zlen v) ++ v ++ zeros ((- zlen v) mod 4).

Definition stun_success (txId attrs : bytes) : bytes :=
  store16_be kBindingSuccess ++ store16_be (zlen attrs)
    ++ store32_be kStunMagicCookie ++ txId ++ attrs.

(** XOR-MAPPED-ADDRESS of RFC 5389 for an IPv4 endpoint. *)
Definition xor_mapped (a b c d port : Z) : Z * bytes :=
  (kAttrXorMappedAddr,
   [0; 1] ++ store16_be (port .^ 0x2112) ++ [a .^ 0x21; b .^ 0x12; c .^ 0xa4; d .^ 0x42]).

Definition other_attr (a : Z * bytes) : Prop :=
  0 <= fst a < 2 ^ 16 /\ fst a <> kAttrMappedAddr /\ fst a <> kAttrXorMappedAddr
  /\ zlen (snd a) < 2 ^ 16.

Lemma rd16_app p v q o : o = zlen p -> 0 <= v < 2 ^ 16 -> rd16 (p ++ store16_be v ++ q) o = Some v.
Proof.
  intros -> Hv. pose proof (zlen_nonneg p). pose proof (zlen_nonneg q).
  unfold rd16. rewrite !rd_Some by (unfold store16_be; len). cbn [mbind option_bind].
  rewrite (at_app_r (zlen p) p), (at_app_r (zlen p + 1) p) by lia. rewrite Z.sub_diag. replace (zlen p + 1 - zlen p) with 1 by lia.
  pose proof (rd16_be_val (store16_be v ++ q) 0 (u8_range _) (u8_range _)) as E.
  unfold rd16_be in E. change (0 + 1) with 1 in E. f_equal. etransitivity; [exact E|].
  by apply store16_be_value.
Qed.

Lemma pad4 n : 0 <= n ->
  (if negb (n .& 3 =? 0) then 4 - (n .& 3) else 0) = (- n) mod 4.
Proof.
  intros. change (n .& 3) with (n .& (2 ^ 2 - 1)). rewrite land_ones_mod by lia.
  change (2 ^ 2) with 4. destruct (Z.eqb_spec (n mod 4) 0); simpl; Z.div_mod_to_equations; lia.
Qed.

Lemma zlen_enc_attr t v : zlen (enc_attr (t, v)) = 4 + zlen v + (- zlen v) mod 4.
Proof.
  unfold enc_attr. pose proof (Z.mod_pos_bound (- zlen v) 4 ltac:(lia)).
  rewrite !zlen_app, zlen_zeros by lia. change (zlen (store16_be _)) with 2. lia.
Qed.

(** Attributes of other types are skipped. *)
Lemma parse_attrs_skip fuel p t v q end_ :
  other_attr (t, v) -> zlen p + zlen (enc_attr (t, v)) <= end_ ->
  parse_attrs (S fuel) (p ++ enc_attr (t, v) ++ q) (zlen p) end_ =
  parse_attrs fuel (p ++ enc_attr (t, v) ++ q) (zlen p + zlen (enc_attr (t, v))) end_.
Proof.
  intros (Ht & H1 & H2 & Hv) He. simpl fst in *. simpl snd in *.
  rewrite zlen_enc_attr in *. pose proof (zlen_nonneg v). pose proof (zlen_nonneg p).
  pose proof (Z.mod_pos_bound (- zlen v) 4 ltac:(lia)).
  cbn [parse_attrs]. destruct (Z.leb_spec (zlen p + 4) end_); [|lia]. cbn [negb].
  assert (E1 : rd16 (p ++ enc_attr (t, v) ++ q) (zlen p) = Some t).
  { unfold enc_attr. rewrite <- !app_assoc. by apply rd16_app. }
  assert (E2 : rd16 (p ++ enc_attr (t, v) ++ q) (zlen p + 2) = Some (zlen v)).
  { unfold enc_attr. rewrite <- !app_assoc, app_assoc. apply rd16_app; [|lia].
    rewrite zlen_app. done. }
  rewrite E1, E2. cbn [mbind option_bind].
  destruct (Z.gtb_spec (zlen p + 4 + zlen v) end_); [lia|].
  destruct (Z.eqb_spec t kAttrXorMappedAddr); [done|].
  destruct (Z.eqb_spec t kAttrMappedAddr); [done|]. cbn [orb andb mbind option_bind].
  f_equal. rewrite <- pad4 by lia. destruct (negb _); lia.
Qed.

Lemma parse_attrs_skips pre fuel p q end_ :
  Forall other_attr pre -> zlen p + zlen (concat (map enc_attr pre)) <= end_ ->
  parse_attrs (length pre + fuel) (p ++ concat (map enc_attr pre) ++ q) (zlen p) end_ =
  parse_attrs fuel (p ++ concat (map enc_attr pre) ++ q) (zlen p + zlen (concat (map enc_attr pre))) end_.
Proof.
  intros Hp. revert p. induction Hp as [|[t v] pre Ha Hp IH]; intros p He.
  - cbn [map concat app length Nat.add]. change (zlen []) with 0. by rewrite Z.add_0_r.
  - cbn [map concat length Nat.add] in *. rewrite zlen_app in *.
    pose proof (zlen_nonneg (concat (map enc_attr pre))).
    rewrite <- app_assoc, parse_attrs_skip by (done || lia).
    rewrite (app_assoc p (enc_attr (t, v))), <- zlen_app.
    rewrite IH by (rewrite zlen_app; lia). f_equal. rewrite zlen_app. lia.
Qed.

Lemma parse_attrs_hit fuel p a b c d port q end_ :
  is_byte a -> is_byte b -> is_byte c -> is_byte d -> 0 <= port < 2 ^ 16 ->
  zlen p + 12 <= end_ ->
  parse_attrs (S fuel) (p ++ enc_attr (xor_mapped a b c d port) ++ q) (zlen p) end_ =
  Some (Some (fmt_ipv4 a b c d, port)).
Proof.
  intros Ha Hb Hc Hd Hp He. pose proof (zlen_nonneg p). pose proof (zlen_nonneg q).
  set (w := port .^ 0x2112).
  assert (Hw : 0 <= w < 2 ^ 16).
  { split; [apply Z.lxor_nonneg; lia|]. destruct (Z.eq_dec w 0) as [->|]; [lia|].
    apply Z.log2_lt_cancel. rewrite Z.log2_pow2 by lia.
    assert (0 < w) by (assert (0 <= w) by (apply Z.lxor_nonneg; lia); lia).
    pose proof (Z.log2_lxor port 0x2112 ltac:(lia) ltac:(lia)) as Hlog. fold w in Hlog.
    pose proof (Z.log2_le_mono port (2 ^ 16 - 1) ltac:(lia)).
    change (Z.log2 (2 ^ 16 - 1)) with 15 in *. change (Z.log2 0x2112) with 13 in *. lia. }
  set (ip := [a .^ 0x21; b .^ 0x12; c .^ 0xa4; d .^ 0x42]).
  set (buf := p ++ enc_attr (xor_mapped a b c d port) ++ q).
  assert (Eb : buf = p ++ store16_be kAttrXorMappedAddr ++ store16_be 8 ++ [0; 1] ++ store16_be w ++ ip ++ q)
    by (unfold buf, enc_attr, xor_mapped; fold w ip; rewrite <- !app_assoc; done).
  assert (E1 : rd16 buf (zlen p) = Some kAttrXorMappedAddr) by (rewrite Eb; by apply rd16_app).
  assert (E2 : rd16 buf (zlen p + 2) = Some 8).
  { rewrite Eb, app_assoc. apply rd16_app; [rewrite zlen_app; done|lia]. }
  assert (E3 : rd buf (zlen p + 4 + 1) = Some 1).
  { rewrite rd_Some by (rewrite Eb; unfold store16_be, ip; len).
    rewrite Eb, at_app_r by lia. replace (zlen p + 4 + 1 - zlen p) with 5 by lia. done. }
  assert (E4 : rd16 buf (zlen p + 4 + 2) = Some w).
  { rewrite Eb.
    replace (p ++ store16_be kAttrXorMappedAddr ++ store16_be 8 ++ [0; 1] ++ store16_be w ++ ip ++ q)
      with ((p ++ store16_be kAttrXorMappedAddr ++ store16_be 8 ++ [0; 1]) ++ store16_be w ++ ip ++ q)
      by (by rewrite <- !app_assoc).
    apply rd16_app; [|done]. rewrite !zlen_app. change (zlen (store16_be _)) with 2. change (zlen [0; 1]) with 2. lia. }
  assert (E5 : memcpy_from buf (zlen p + 4 + 4) 4 = Some ip).
  { rewrite memcpy_from_Some by (rewrite ?Eb; unfold store16_be, ip; len). f_equal. rewrite Eb.
    replace (p ++ store16_be kAttrXorMappedAddr ++ store16_be 8 ++ [0; 1] ++ store16_be w ++ ip ++ q)
      with ((p ++ store16_be kAttrXorMappedAddr ++ store16_be 8 ++ [0; 1] ++ store16_be w) ++ ip ++ q)
      by (by rewrite <- !app_assoc).
    apply slice_app_mid; [|done]. rewrite !zlen_app. change (zlen (store16_be _)) with 2. change (zlen [0; 1]) with 2. lia. }
  cbn [parse_attrs]. destruct (Z.leb_spec (zlen p + 4) end_); [|lia]. cbn [negb].
  rewrite E1, E2. cbn [mbind option_bind]. destruct (Z.gtb_spec (zlen p + 4 + 8) end_); [lia|].
  change ((kAttrXorMappedAddr =? kAttrXorMappedAddr) || (kAttrXorMappedAddr =? kAttrMappedAddr)) with true.
  change (8 >=? 8) with true. cbn [andb]. unfold parse_address. rewrite E3, E4, E5.
  cbn [mbind option_bind]. change (1 =? 1) with true. cbn [mbind option_bind].
  change (kAttrXorMappedAddr =? kAttrXorMappedAddr) with true. cbv beta iota zeta.
  do 3 f_equal.
  - unfold ip, at_. change (u8 (kStunMagicCookie ≫ 24)) with 0x21. change (u8 (kStunMagicCookie ≫ 16)) with 0x12.
    change (u8 (kStunMagicCookie ≫ 8)) with 0xa4. change (u8 (kStunMagicCookie ≫ 0)) with 0x42.
    simpl nth. by rewrite !Z.lxor_assoc, !Z.lxor_nilpotent, !Z.lxor_0_r.
  - change (u16 (kStunMagicCookie ≫ 16)) with 0x2112. unfold w.
    by rewrite Z.lxor_assoc, Z.lxor_nilpotent, Z.lxor_0_r.
Qed.

(** A binding-success response for our transaction whose first address attribute is an IPv4 XOR-MAPPED-ADDRESS, preceded by any number of other padded attributes and followed by anything, is parsed to exactly the endpoint it encodes. *)
Theorem StunParseResponse_xor_mapped txId pre a b c d port post :
  zlen txId = 12 -> Forall other_attr pre ->
  is_byte a -> is_byte b -> is_byte c -> is_byte d -> 0 <= port < 2 ^ 16 ->
  let attrs := concat (map enc_attr pre) ++ enc_attr (xor_mapped a b c d port) ++ post in
  zlen attrs < 2 ^ 16 ->
  StunParseResponse (stun_success txId attrs) txId = Some (Some (fmt_ipv4 a b c d, port)).
Proof.
  intros Ht Hpre Ha Hb Hc Hd Hp attrs Hl. pose proof (zlen_nonneg attrs).
  set (hd := store16_be kBindingSuccess ++ store16_be (zlen attrs) ++ store32_be kStunMagicCookie ++ txId).
  assert (Hhd : zlen hd = 20) by (unfold hd; rewrite !zlen_app, Ht; done).
  assert (Eb : stun_success txId attrs = hd ++ attrs) by (unfold stun_success, hd; by rewrite <- !app_assoc).
  assert (Hlen : zlen (stun_success txId attrs) = 20 + zlen attrs) by (rewrite Eb, zlen_app; lia).
  unfold StunParseResponse, kStunHeaderLen. rewrite Hlen.
  destruct (Z.ltb_spec (20 + zlen attrs) 20); [lia|].
  replace (rd16 (stun_success txId attrs) 0) with (Some kBindingSuccess)
    by (symmetry; by apply (rd16_app [] kBindingSuccess)).
  cbn [mbind option_bind]. change (negb (kBindingSuccess =? kBindingSuccess)) with false. cbv iota.
  rewrite !rd_Some by lia. cbn [mbind option_bind].
  change (at_ (stun_success txId attrs) 4) with 0x21. change (at_ (stun_success txId attrs) 5) with 0x12.
  change (at_ (stun_success txId attrs) 6) with 0xa4. change (at_ (stun_success txId attrs) 7) with 0x42.
  match goal with |- context [if ?c then Some None else _] => change c with false end. cbv iota.
  rewrite memcpy_from_Some by lia. cbn [mbind option_bind].
  replace (slice 8 12 (stun_success txId attrs)) with txId.
  2: { symmetry. unfold stun_success. rewrite !app_assoc, <- app_assoc. by apply slice_app_mid. }
  rewrite beq_refl. cbn [negb].
  replace (rd16 (stun_success txId attrs) 2) with (Some (zlen attrs))
    by (symmetry; apply (rd16_app (store16_be kBindingSuccess)); [done|lia]).
  cbn [mbind option_bind]. destruct (Z.gtb_spec (20 + zlen attrs) (20 + zlen attrs)); [lia|].
  assert (Hf : exists f, length (stun_success txId attrs) = (length pre + S f)%nat).
  { exists (length (stun_success txId attrs) - length pre - 1)%nat.
    assert (length pre <= length (concat (map enc_attr pre)))%nat.
    { clear. induction pre as [|[t v] pre IH]; cbn [map concat length]; [lia|].
      rewrite length_app. assert (1 <= length (enc_attr (t, v)))%nat by (unfold enc_attr; simpl; lia). lia. }
    assert (E : length (stun_success txId attrs) = (20 + length attrs)%nat) by (unfold zlen in Hlen; lia).
    assert (length (concat (map enc_attr pre)) <= length attrs)%nat by (unfold attrs; rewrite length_app; lia).
    lia. }
  destruct Hf as [f ->]. rewrite Eb. unfold attrs at 1. rewrite <- Hhd.
  rewrite parse_attrs_skips; [|done|unfold attrs; rewrite zlen_app;
    pose proof (zlen_nonneg (enc_attr (xor_mapped a b c d port) ++ post)); lia].
  rewrite app_assoc, <- zlen_app. apply parse_attrs_hit; try done.
  unfold attrs. rewrite !zlen_app. unfold xor_mapped. rewrite zlen_enc_attr.
  match goal with |- context [zlen ([0; 1] ++ ?x)] => change (zlen ([0; 1] ++ x)) with 8 end.
  change (- (8) `mod` 4) with 0. pose proof (zlen_nonneg post). pose proof (Z.mod_pos_bound (- (8)) 4). lia.
Qed.

Lemma StunParseResponse_xor_mapped_witness :
  StunParseResponse (stun_success (zeros 12)
    (enc_attr (0x8022, bs "software") ++ enc_attr (xor_mapped 203 0 113 7 41641) ++ [])) (zeros 12)
  = Some (Some (bs "203.0.113.7", 41641)).
Proof.
  apply (StunParseResponse_xor_mapped (zeros 12) [(0x8022, bs "software")] 203 0 113 7 41641 []).
  - reflexivity.
  - constructor; [|constructor]. split_and!; try done; unfold kAttrMappedAddr, kAttrXorMappedAddr; simpl; lia.
  - unfold is_byte; lia.
  - unfold is_byte; lia.
  - unfold is_byte; lia.
  - unfold is_byte; lia.
  - lia.
  - vm_compute. reflexivity.
Defined.
End Stun.
