(* ===== verification/Disco.v ===== *)
(** * Disco: the path-probing messages

    src/backend/tailscale/TSDisco.cpp: the ping and pong payload codecs and the
    packet framing around a NaCl box.  The random nonce is an argument. *)

From S2P Require Import Prelude CLib Endian Crypto NaClBox.
Import Crypto NaClBox.
Open Scope Z_scope.
Open Scope soto_scope.

Module Disco.

Definition kDiscoMagic : bytes := [0x54; 0x53; 0xf0; 0x9f; 0x92; 0xac].
Definition kDiscoMagicLen : Z := 6.
Definition kDiscoNonceLen : Z := 24.
Definition kDiscoHeaderOff : Z := kDiscoMagicLen + 32 + kDiscoNonceLen.
Definition kDiscoMsgHeaderLen : Z := 2.
Definition kDiscoTxIDLen : Z := 12.

Definition DISCO_PING : Z := 1.
Definition DISCO_PONG : Z := 2.

Record DiscoPing := mkPing { ping_txid : bytes; nodeKey : option bytes }.
Record DiscoPong := mkPong { pong_txid : bytes; srcIP : bytes; srcPort : Z }.

Definition encode_ipv4_mapped (ip : bytes) : option bytes :=
  '(a, b, c, d) ← sscanf_ipv4 ip;
  if (a >? 255) || (b >? 255) || (c >? 255) || (d >? 255) then None
  else Some (zeros 10 ++ [0xff; 0xff; u8 a; u8 b; u8 c; u8 d]).

Definition decode_ipv4_mapped (inp : bytes) : bytes :=
  fmt_ipv4 (at_ inp 12) (at_ inp 13) (at_ inp 14) (at_ inp 15).

(** [nodeKey = None] is the source's NULL. *)
Definition EncodePing (txid : bytes) (nodeKey : option bytes) : bytes :=
  [DISCO_PING; 0] ++ txid ++ match nodeKey with Some k => k | None => [] end.

Definition EncodePong (txid srcIP : bytes) (srcPort : Z) : bytes :=
  [DISCO_PONG; 0] ++ txid ++ default (zeros 16) (encode_ipv4_mapped srcIP)
    ++ [u8 (srcPort ≫ 8); u8 (srcPort .& 0xff)].

Definition DiscoMessageType (msg : bytes) : Z :=
  if zlen msg <? kDiscoMsgHeaderLen then 0 else at_ msg 0.

Definition DecodePing (msg : bytes) : option DiscoPing :=
  let len := zlen msg in
  if (len <? kDiscoMsgHeaderLen + kDiscoTxIDLen) || negb (at_ msg 0 =? DISCO_PING) then None
  else Some (mkPing (slice 2 12 msg) (if len >=? 46 then Some (slice 14 32 msg) else None)).

Definition DecodePong (msg : bytes) : option DiscoPong :=
  let len := zlen msg in
  if (len <? kDiscoMsgHeaderLen + kDiscoTxIDLen + 16 + 2) || negb (at_ msg 0 =? DISCO_PONG) then None
  else Some (mkPong (slice 2 12 msg) (decode_ipv4_mapped (slice 14 16 msg))
               (u16 ((at_ msg 30 ≪ 8) .| at_ msg 31))).

Section Framing.
Context `{OpenSSL}.

Definition DiscoSeal (outCap : Z) (senderDiscoPub senderDiscoPriv peerDiscoPub payload nonce : bytes)
    : option bytes :=
  let total := kDiscoHeaderOff + zlen payload + 16 in
  if outCap <? total then None
  else
    box ← BoxSeal payload nonce peerDiscoPub senderDiscoPriv;
    Some (kDiscoMagic ++ senderDiscoPub ++ nonce ++ box).

(** The sender's disco key and the payload. *)
Definition DiscoOpen (packet myDiscoPriv : bytes) (outCap : Z) : option (bytes * bytes) :=
  let len := zlen packet in
  if len <? kDiscoHeaderOff + 16 then None
  else if negb (beq (slice 0 6 packet) kDiscoMagic) then None
  else
    let outSenderPub := slice kDiscoMagicLen 32 packet in
    let nonce := slice (kDiscoMagicLen + 32) 24 packet in
    let cipher := zdrop kDiscoHeaderOff packet in
    let plainLen := zlen cipher - 16 in
    if plainLen >? outCap then None
    else
      plain ← BoxOpen cipher nonce outSenderPub myDiscoPriv;
      Some (outSenderPub, plain).
End Framing.

(** ** Payload round trips *)

Lemma DecodePing_Encode txid k :
  zlen txid = 12 -> match k with Some k => zlen k = 32 | None => True end ->
  DecodePing (EncodePing txid k) = Some (mkPing txid k).
Proof.
  intros Ht Hk. unfold DecodePing, EncodePing, kDiscoMsgHeaderLen, kDiscoTxIDLen.
  assert (Hl : zlen ([DISCO_PING; 0] ++ txid ++ match k with Some k => k | None => [] end)
               = match k with Some _ => 46 | None => 14 end).
  { rewrite !zlen_app, Ht. destruct k; [rewrite Hk|]; done. }
  rewrite Hl. replace (slice 2 12 _) with txid by (symmetry; by apply slice_app_mid).
  destruct k as [k|]; [|done]. cbn -[app slice]. do 2 f_equal.
  rewrite app_assoc. f_equal. apply slice_app_l; [rewrite zlen_app, Ht; done|done].
Qed.

Lemma encode_ipv4_mapped_fmt a b c d :
  is_byte a -> is_byte b -> is_byte c -> is_byte d ->
  encode_ipv4_mapped (fmt_ipv4 a b c d) = Some (zeros 10 ++ [0xff; 0xff; a; b; c; d]).
Proof.
  intros Ha Hb Hc Hd. unfold encode_ipv4_mapped. rewrite sscanf_fmt_ipv4 by done.
  cbn [mbind option_bind]. rewrite !u8_small by done. unfold is_byte in *.
  rewrite !Z.gtb_ltb. zcases; done.
Qed.

Lemma DecodePong_Encode txid a b c d port :
  zlen txid = 12 -> is_byte a -> is_byte b -> is_byte c -> is_byte d -> 0 <= port < 2 ^ 16 ->
  DecodePong (EncodePong txid (fmt_ipv4 a b c d) port) = Some (mkPong txid (fmt_ipv4 a b c d) port).
Proof.
  intros Ht Ha Hb Hc Hd Hp. unfold EncodePong. rewrite encode_ipv4_mapped_fmt by done.
  set (ip := zeros 10 ++ [0xff; 0xff; a; b; c; d]).
  change (default (zeros 16) (Some ip)) with ip.
  set (m := [DISCO_PONG; 0] ++ txid ++ ip ++ [u8 (port ≫ 8); u8 (port .& 0xff)]).
  assert (Hi : zlen ip = 16) by done.
  assert (Hl : zlen m = 32) by (unfold m; rewrite !zlen_app, Ht, Hi; done).
  assert (E1 : slice 2 12 m = txid) by (by apply slice_app_mid).
  assert (E2 : slice 14 16 m = ip).
  { unfold m. rewrite app_assoc. apply slice_app_mid; [rewrite zlen_app, Ht; done|done]. }
  assert (E3 : forall i, 0 <= i -> at_ m (30 + i) = at_ [u8 (port ≫ 8); u8 (port .& 0xff)] i).
  { intros i Hi0. unfold m. rewrite !app_assoc, at_app_r; rewrite !zlen_app, Ht, Hi; change (zlen [DISCO_PONG; 0]) with 2; [|lia].
    f_equal. lia. }
  unfold DecodePong. rewrite Hl, E1, E2.
  change (at_ m 0) with DISCO_PONG.
  match goal with |- context [if ?c then None else _] => change c with false end. cbv iota.
  pose proof (E3 0 ltac:(lia)) as E30. pose proof (E3 1 ltac:(lia)) as E31.
  change (30 + 0) with 30 in E30. change (30 + 1) with 31 in E31. rewrite E30, E31.
  change (at_ [u8 (port ≫ 8); u8 (port .& 255)] 0) with (u8 (port ≫ 8)).
  change (at_ [u8 (port ≫ 8); u8 (port .& 255)] 1) with (u8 (port .& 255)).
  do 2 f_equal.
  change 255 with (2 ^ 8 - 1). rewrite land_ones_mod by lia. change (port mod 2 ^ 8) with (u8 port).
  rewrite (u8_small (u8 port)) by apply u8_range.
  pose proof (u8_range (port ≫ 8)). pose proof (u8_range port). unfold is_byte in *.
  rewrite lor_shiftl_add_l by lia. rewrite u16_small by lia.
  pose proof (store16_be_value port Hp). lia.
Qed.

(** ** Packet round trip *)

Lemma DiscoOpen_Seal `{OpenSSLLaws} a b pa pb cap cap' payload nonce pkt :
  x25519_pub a = Some pa -> x25519_pub b = Some pb -> zlen nonce = 24 ->
  zlen payload <= cap' ->
  DiscoSeal cap pa a pb payload nonce = Some pkt ->
  DiscoOpen pkt b cap' = Some (pa, payload) /\ zlen pkt = 78 + zlen payload
  /\ exists rest, pkt = kDiscoMagic ++ rest.
Proof.
  intros Ha Hb Hn Hc Hs. unfold DiscoSeal in Hs. destruct (cap <? _); [done|].
  destruct (BoxSeal payload nonce pb a) as [box|] eqn:Eb; [|done].
  cbn [mbind option_bind] in Hs. apply (inj Some) in Hs. subst pkt.
  destruct (box_roundtrip _ _ _ _ _ _ _ Ha Hb Eb) as [Ho Hl].
  pose proof (pub_length a pa Ha) as [Hpa _]. pose proof (zlen_nonneg payload).
  assert (Hlen : zlen (kDiscoMagic ++ pa ++ nonce ++ box) = 78 + zlen payload)
    by (rewrite !zlen_app, Hpa, Hn, Hl; change (zlen kDiscoMagic) with 6; lia).
  split_and!; [|done|by eexists]. unfold DiscoOpen. rewrite Hlen.
  change kDiscoHeaderOff with 62. change kDiscoMagicLen with 6. change (6 + 32) with 38.
  destruct (Z.ltb_spec (78 + zlen payload) (62 + 16)); [lia|].
  replace (slice 0 6 (kDiscoMagic ++ pa ++ nonce ++ box)) with kDiscoMagic
    by (symmetry; by apply (slice_app_mid 0 6 [])). rewrite beq_refl. cbn [negb].
  replace (slice 6 32 (kDiscoMagic ++ pa ++ nonce ++ box)) with pa
    by (symmetry; apply slice_app_mid; done).
  replace (slice 38 24 (kDiscoMagic ++ pa ++ nonce ++ box)) with nonce.
  2: { symmetry. rewrite app_assoc. apply slice_app_mid; [rewrite zlen_app, Hpa; done|done]. }
  replace (zdrop 62 (kDiscoMagic ++ pa ++ nonce ++ box)) with box.
  2: { symmetry. rewrite !app_assoc. apply zdrop_app. rewrite !zlen_app, Hpa, Hn. done. }
  rewrite Hl. destruct (Z.gtb_spec (zlen payload + 16 - 16) cap'); [lia|]. by rewrite Ho.
Qed.

(** A disco probe and its answer arrive: whatever key pairs and nonces, a sealed ping is opened by its recipient to the sender's disco key, the transaction id and the node key, and the sealed pong is opened by the prober to the responder's disco key, the same transaction id and the observed IPv4 endpoint. *)
Theorem disco_probe_roundtrip `{OpenSSLLaws} a b pa pb n1 n2 cap txid key ia ib ic id port pkt1 pkt2 :
  x25519_pub a = Some pa -> x25519_pub b = Some pb -> zlen n1 = 24 -> zlen n2 = 24 ->
  zlen txid = 12 -> zlen key = 32 -> 46 <= cap ->
  is_byte ia -> is_byte ib -> is_byte ic -> is_byte id -> 0 <= port < 2 ^ 16 ->
  DiscoSeal 512 pa a pb (EncodePing txid (Some key)) n1 = Some pkt1 ->
  DiscoSeal 512 pb b pa (EncodePong txid (fmt_ipv4 ia ib ic id) port) n2 = Some pkt2 ->
  (exists m1, DiscoOpen pkt1 b cap = Some (pa, m1)
     /\ DiscoMessageType m1 = DISCO_PING /\ DecodePing m1 = Some (mkPing txid (Some key)))
  /\ (exists m2, DiscoOpen pkt2 a cap = Some (pb, m2)
     /\ DiscoMessageType m2 = DISCO_PONG
     /\ DecodePong m2 = Some (mkPong txid (fmt_ipv4 ia ib ic id) port)).
Proof.
  intros Ha Hb Hn1 Hn2 Ht Hk Hcap Hia Hib Hic Hid Hp H1 H2. split.
  - eapply DiscoOpen_Seal in H1 as (Ho & _ & _); [|done..|].
    + eexists. split; [exact Ho|]. split; [|by apply DecodePing_Encode].
      unfold DiscoMessageType, EncodePing. rewrite zlen_app. change (zlen [DISCO_PING; 0]) with 2.
      pose proof (zlen_nonneg (txid ++ key)). destruct (Z.ltb_spec (2 + zlen (txid ++ key)) kDiscoMsgHeaderLen); [|done].
      unfold kDiscoMsgHeaderLen in *. lia.
    + unfold EncodePing. rewrite !zlen_app, Ht, Hk. done.
  - eapply DiscoOpen_Seal in H2 as (Ho & _ & _); [|done..|].
    + eexists. split; [exact Ho|]. split; [|by apply DecodePong_Encode].
      unfold DiscoMessageType. destruct (Z.ltb_spec (zlen (EncodePong txid (fmt_ipv4 ia ib ic id) port)) kDiscoMsgHeaderLen); [|done].
      exfalso. unfold EncodePong, kDiscoMsgHeaderLen in *. rewrite zlen_app in *. change (zlen [DISCO_PONG; 0]) with 2 in *.
      pose proof (zlen_nonneg (txid ++ default (zeros 16) (encode_ipv4_mapped (fmt_ipv4 ia ib ic id)) ++ [u8 (port ≫ 8); u8 (port .& 255)])). lia.
    + unfold EncodePong. rewrite encode_ipv4_mapped_fmt by done.
      match goal with |- context [default ?x (Some ?y)] => change (default x (Some y)) with y end.
      rewrite !zlen_app, Ht. change (zlen (zeros 10)) with 10. unfold zlen. simpl. lia.
Qed.

Lemma disco_probe_roundtrip_witness :
  let key k := le_split 32 k in let n := zeros 24 in
  exists pkt1 m1, DiscoSeal (H:=Toy.toy) 512 (key 5) (key 5) (key 6) (EncodePing (zeros 12) (Some (key 7))) n
      = Some pkt1
    /\ DiscoOpen (H:=Toy.toy) pkt1 (key 6) 64 = Some (key 5, m1)
    /\ DecodePing m1 = Some (mkPing (zeros 12) (Some (key 7))).
Proof.
  intros key n. eexists.
  edestruct (disco_probe_roundtrip (H:=Toy.toy) (H0:=Toy.toy_laws) (key 5) (key 6) (key 5) (key 6) n n 64
    (zeros 12) (key 7) 203 0 113 7 41641) as [(m1 & Ho & _ & Hd) _].
  13: reflexivity.
  13: reflexivity.
  all: try reflexivity; try (unfold is_byte; lia); try lia.
  exists m1. split; [reflexivity|]. split; [exact Ho|exact Hd].
Defined.

End Disco.
