(* ===== verification/MagicSock.v ===== *)
(** * MagicSock: the shared UDP socket

    src/backend/tailscale/MagicSock.cpp: the socket's state ([Open], [Close]),
    the classification of inbound datagrams and the STUN sweep
    [DiscoverEndpoint].  Results of system calls (socket, bind, getsockname,
    getaddrinfo, sendto, recvfrom) are arguments: a sequence of outcomes the
    code consumes in its own order. *)

From S2P Require Import Prelude CLib Endian Crypto NaClBox WGPeer Stun Disco.
Import Crypto.
Open Scope Z_scope.
Open Scope soto_scope.

Module MagicSock.

Inductive SockPacketKind := PKT_WIREGUARD | PKT_STUN | PKT_DISCO.

Definition kDiscoMagic : bytes := [0x54; 0x53; 0xf0; 0x9f; 0x92; 0xac].
Definition kStunCookie : bytes := [0x21; 0x12; 0xa4; 0x42].

Record MagicSock := mkSock { fSocket : Z; fPort : Z }.
Definition closed : MagicSock := mkSock (-1) 0.

(** [sock] is socket()'s result, [bound] whether bind() succeeded, [name] the
    port getsockname() reports. *)
Definition Open (s : MagicSock) (port sock : Z) (bound : bool) (name : option Z) : status * MagicSock :=
  if fSocket s >=? 0 then (B_NOT_ALLOWED, s)
  else if sock <? 0 then (B_ERROR, s)
  else if negb bound then (B_ERROR, s)
  else (B_OK, mkSock sock (match name with Some p => p | None => port end)).

Definition Close (s : MagicSock) : MagicSock := mkSock (if fSocket s >=? 0 then -1 else fSocket s) 0.

Definition Classify (buf : bytes) : SockPacketKind :=
  let len := zlen buf in
  if (len >=? 6) && beq (slice 0 6 buf) kDiscoMagic then PKT_DISCO
  else if (len >=? 20) && (at_ buf 0 .& 0xc0 =? 0) && beq (slice 4 4 buf) kStunCookie then PKT_STUN
  else PKT_WIREGUARD.

(** The inner loop: at most [i] datagrams; [rs] are the outcomes of the coming
    recvfrom calls ([None]: timeout or error), cut to the 512-byte buffer. *)
Fixpoint recv_loop (i : nat) (rs : list (option bytes)) (txId : bytes)
    : option (bytes * Z) * list (option bytes) :=
  match i, rs with
  | O, _ => (None, rs)
  | S _, [] => (None, [])
  | S _, None :: rs => (None, rs)
  | S i, Some dgram :: rs =>
      let buf := ztake 512 dgram in
      if zlen buf =? 0 then (None, rs)
      else
        match Classify buf with
        | PKT_STUN =>
            match Stun.StunParseResponse buf txId with
            | Some (Some r) => (Some r, rs)
            | _ => recv_loop i rs txId
            end
        | _ => recv_loop i rs txId
        end
  end.

(** The attempts; each element of [sends] says whether that sendto succeeded. *)
Fixpoint attempts (sends : list bool) (rs : list (option bytes)) (txId : bytes) : option (bytes * Z) :=
  match sends with
  | [] => None
  | false :: sends => attempts sends rs txId
  | true :: sends =>
      let '(r, rs) := recv_loop 8 rs txId in
      match r with
      | Some r => Some r
      | None => attempts sends rs txId
      end
  end.

Definition DiscoverEndpoint (s : MagicSock) (resolved : bool) (sends : list bool)
    (rs : list (option bytes)) (txId : bytes) : status * option (bytes * Z) :=
  if fSocket s <? 0 then (B_NO_INIT, None)
  else if negb resolved then (B_NAME_NOT_FOUND, None)
  else
    match attempts (take 3 sends) rs txId with
    | Some r => (B_OK, Some r)
    | None => (B_TIMED_OUT, None)
    end.

(** ** Classification *)

Lemma slice_0 (p l : bytes) n : n = zlen p -> slice 0 n (p ++ l) = p.
Proof. intros ->. unfold slice. rewrite zdrop_0. by apply ztake_app. Qed.

Lemma Classify_disco rest : Classify (kDiscoMagic ++ rest) = PKT_DISCO.
Proof.
  unfold Classify. rewrite (slice_0 kDiscoMagic) by done. rewrite beq_refl, zlen_app.
  change (zlen kDiscoMagic) with 6. pose proof (zlen_nonneg rest).
  destruct (Z.geb_spec (6 + zlen rest) 6); [done|lia].
Qed.

Lemma Classify_stun txId attrs :
  zlen txId = 12 -> Classify (Stun.stun_success txId attrs) = PKT_STUN
  /\ Classify (Stun.StunBuildRequest txId) = PKT_STUN.
Proof.
  intros Ht.
  assert (E : zlen (Stun.stun_success txId attrs) = 20 + zlen attrs
              /\ zlen (Stun.StunBuildRequest txId) = 20).
  { unfold Stun.stun_success, Stun.StunBuildRequest. rewrite !zlen_app, Ht.
    unfold store16_be, store32_be. rewrite !zlen_cons, !zlen_nil. split; lia. }
  pose proof (zlen_nonneg attrs). unfold Classify. destruct E as [-> ->].
  destruct (Z.geb_spec (20 + zlen attrs) 20). 2: lia. rewrite andb_comm. split; reflexivity.
Qed.

(** A datagram that starts with a WireGuard message type. *)
Lemma Classify_wireguard t rest :
  1 <= t <= 4 -> 
  Classify ([t; 0; 0; 0] ++ rest) =
  if (16 <=? zlen rest) && beq (ztake 4 rest) kStunCookie then PKT_STUN else PKT_WIREGUARD.
Proof.
  intros Ht. unfold Classify. pose proof (zlen_nonneg rest). rewrite zlen_app.
  change (zlen [t; 0; 0; 0]) with 4.
  assert (E : beq (slice 0 6 ([t; 0; 0; 0] ++ rest)) kDiscoMagic = false).
  { apply beq_false. intros E. apply (f_equal (fun l => at_ l 0)) in E. unfold kDiscoMagic in E.
    rewrite at_slice in E by lia. change (t = 0x54) in E. lia. }
  rewrite E, andb_false_r. change (at_ ([t; 0; 0; 0] ++ rest) 0) with t.
  replace (t .& 0xc0) with 0.
  2: { symmetry. assert (Hc : t = 1 \/ t = 2 \/ t = 3 \/ t = 4) by lia.
       destruct Hc as [-> | [-> | [-> | ->]]]; reflexivity. }
  replace (slice 4 4 ([t; 0; 0; 0] ++ rest)) with (ztake 4 rest) by reflexivity.
  replace (4 + zlen rest >=? 20) with (16 <=? zlen rest).
  { change (0 =? 0) with true. by rewrite andb_true_r. }
  destruct (Z.geb_spec (4 + zlen rest) 20), (Z.leb_spec 16 (zlen rest)); lia || done.
Qed.

(** By its type and its first index. *)
Definition kCookieIndex : Z := 0x42a41221.

Lemma Classify_indexed buf : 1 <= at_ buf 0 <= 4 -> load32_le buf 4 <> kCookieIndex -> Classify buf = PKT_WIREGUARD.
Proof.
  intros Ht Hi. unfold Classify. assert (E : beq (slice 0 6 buf) kDiscoMagic = false).
  { apply beq_false. intros E. apply (f_equal (fun l => at_ l 0)) in E. rewrite at_slice in E by lia. change (at_ buf 0 = 0x54) in E. lia. }
  assert (E2 : beq (slice 4 4 buf) kStunCookie = false).
  { apply beq_false. intros E2. apply Hi. rewrite load32_le_slice by lia. by rewrite E2. }
  by rewrite E, E2, !andb_false_r.
Qed.

(** Datagrams on the shared socket are told apart: every sealed disco packet is classified as disco, every STUN success response and request as STUN, and a WireGuard transport packet built by Encapsulate as WireGuard, except exactly when the peer's 32-bit receiver index is 0x42a41221, whose little-endian bytes are the STUN cookie. *)
Theorem Classify_demultiplexes `{OpenSSLLaws} cap pa a pb payload nonce pkt txId attrs p plain sys wgpkt p' :
  Disco.DiscoSeal cap pa a pb payload nonce = Some pkt ->
  zlen txId = 12 ->
  0 <= WGPeer.fReceiverIndex (WGPeer.ss p) < 2 ^ 32 ->
  WGPeer.Encapsulate p plain sys = (Some wgpkt, p') ->
  Classify pkt = PKT_DISCO
  /\ Classify (Stun.stun_success txId attrs) = PKT_STUN
  /\ Classify (Stun.StunBuildRequest txId) = PKT_STUN
  /\ (Classify wgpkt = PKT_WIREGUARD <-> WGPeer.fReceiverIndex (WGPeer.ss p) <> 0x42a41221)
  /\ Classify wgpkt <> PKT_DISCO.
Proof.
  intros Hd Ht Hi He. split.
  { unfold Disco.DiscoSeal in Hd. destruct (_ <? _); [done|].
    destruct (NaClBox.BoxSeal _ _ _ _); [|done]. apply (inj Some) in Hd. subst pkt. apply Classify_disco. }
  destruct (Classify_stun txId attrs Ht) as [-> ->]. split; [done|]. split; [done|].
  unfold WGPeer.Encapsulate in He. destruct (negb _); [done|]. destruct (_ >? 2048); [done|].
  destruct (AeadEncrypt _ _ _ _) as [c|] eqn:Ec; [|done].
  apply pair_equal_spec in He as [He _]. apply (inj Some) in He. subst wgpkt.
  apply AeadEncrypt_length in Ec. rewrite <- !app_assoc, Classify_wireguard by lia.
  pose proof (zlen_nonneg c). set (idx := WGPeer.fReceiverIndex _) in *.
  rewrite (ztake_app 4) by reflexivity. rewrite !zlen_app. change (zlen (store64_le _)) with 8.
  change (zlen (store32_le _)) with 4.
  assert (Hc : 16 <= zlen c) by (rewrite Ec; match goal with |- 16 <= zlen ?x + 16 => pose proof (zlen_nonneg x) end; lia).
  destruct (Z.leb_spec 16 (4 + (8 + zlen c))); [|lia]. cbn [andb].
  assert (Hb : beq (store32_le idx) kStunCookie = true <-> idx = 0x42a41221).
  { rewrite beq_true. split; [|intros ->; reflexivity]. intros E.
    rewrite <- (load32_le_store32_le [] idx [] Hi). rewrite app_nil_r, app_nil_l, E. reflexivity. }
  destruct (beq (store32_le idx) kStunCookie).
  - split; [|done]. split; [done|]. intros Hne. exfalso. by apply Hne, Hb.
  - split; [|done]. split; [|done]. intros _ E. by apply Hb in E.
Qed.

Lemma Classify_demultiplexes_witness :
  let key k := le_split 32 k in
  exists pkt wgpkt,
    Disco.DiscoSeal (H:=Toy.toy) 512 (key 5) (key 5) (key 6) [] (zeros 24) = Some pkt
    /\ fst (WGPeer.Encapsulate (H:=Toy.toy) WGPeer.demo_peer WGPeer.demo_packet 2000) = Some wgpkt
    /\ Classify pkt = PKT_DISCO /\ Classify wgpkt = PKT_WIREGUARD.
Proof.
  intros key.
  assert (exists pkt, Disco.DiscoSeal (H:=Toy.toy) 512 (key 5) (key 5) (key 6) [] (zeros 24) = Some pkt)
    as [pkt E1] by (eexists; reflexivity).
  assert (exists w p', WGPeer.Encapsulate (H:=Toy.toy) WGPeer.demo_peer WGPeer.demo_packet 2000 = (Some w, p'))
    as (w & p' & E2) by (do 2 eexists; reflexivity).
  exists pkt, w. rewrite E2. split; [exact E1|]. split; [reflexivity|].
  assert (Hi : 0 <= WGPeer.fReceiverIndex (WGPeer.ss WGPeer.demo_peer) < 2 ^ 32)
    by (vm_compute; split; congruence).
  destruct (Classify_demultiplexes (H:=Toy.toy) (H0:=Toy.toy_laws) 512 (key 5) (key 5) (key 6) [] (zeros 24) pkt
    (zeros 12) [] WGPeer.demo_peer WGPeer.demo_packet 2000 w p' E1 eq_refl Hi E2) as (Hd & _ & _ & Hw & _).
  split; [exact Hd|]. apply Hw. vm_compute. discriminate.
Defined.

(** ** The STUN sweep *)

(** Only an answer to our own transaction is ever reported, whatever else
    arrives on the socket. *)
Lemma recv_loop_answer i rs txId r rs' :
  recv_loop i rs txId = (Some r, rs') ->
  exists d, Some d ∈ rs /\ Classify (ztake 512 d) = PKT_STUN
    /\ Stun.StunParseResponse (ztake 512 d) txId = Some (Some r).
Proof.
  revert rs. induction i as [|i IH]; intros rs Hr; [done|].
  destruct rs as [|[d|] rs]; cbn [recv_loop] in Hr; [done| |done].
  destruct (zlen (ztake 512 d) =? 0); [done|].
  assert (Hnext : recv_loop i rs txId = (Some r, rs') -> exists d, Some d ∈ rs
    /\ Classify (ztake 512 d) = PKT_STUN
    /\ Stun.StunParseResponse (ztake 512 d) txId = Some (Some r)) by apply IH.
  setoid_rewrite elem_of_cons.
  destruct (Classify (ztake 512 d)) eqn:Ec; [naive_solver| |naive_solver].
  destruct (Stun.StunParseResponse (ztake 512 d) txId) as [[r'|]|] eqn:Ep; [|naive_solver..].
  apply pair_equal_spec in Hr as [[= ->] _]. exists d. auto.
Qed.

Lemma recv_loop_suffix i rs txId r rs' d :
  recv_loop i rs txId = (r, rs') -> d ∈ rs' -> d ∈ rs.
Proof.
  revert rs. induction i as [|i IH]; intros rs Hr Hd; [by injection Hr as _ ->|].
  destruct rs as [|[x|] rs]; cbn [recv_loop] in Hr.
  - by injection Hr as _ ->.
  - apply elem_of_cons. right. destruct (zlen _ =? 0); [by injection Hr as _ ->|].
    destruct (Classify _); [by eapply IH| |by eapply IH].
    destruct (Stun.StunParseResponse _ _) as [[?|]|]; [by injection Hr as _ ->|by eapply IH..].
  - apply elem_of_cons. right. by injection Hr as _ ->.
Qed.

Lemma attempts_answer sends rs txId r :
  attempts sends rs txId = Some r ->
  exists d, Some d ∈ rs /\ Stun.StunParseResponse (ztake 512 d) txId = Some (Some r).
Proof.
  revert rs. induction sends as [|[|] sends IH]; intros rs Hr; [done| |by apply IH].
  cbn [attempts] in Hr. destruct (recv_loop 8 rs txId) as [[r'|] rs'] eqn:E.
  - injection Hr as ->. apply recv_loop_answer in E as (d & ? & _ & ?). eauto.
  - apply IH in Hr as (d & Hin & Hd). exists d. split; [|done]. by eapply recv_loop_suffix.
Qed.

(** DiscoverEndpoint on an open socket reports B_OK with an endpoint only if some received datagram parses as the success response of this very transaction with that endpoint; conversely a genuine answer that arrives among the first eight datagrams of the first attempt, after any other traffic, is found. *)
Theorem DiscoverEndpoint_sound_complete s sends rs txId :
  0 <= fSocket s ->
  (forall st r, DiscoverEndpoint s true sends rs txId = (st, Some r) ->
     st = B_OK /\ exists d, Some d ∈ rs /\ Stun.StunParseResponse (ztake 512 d) txId = Some (Some r))
  /\ (forall noise d r rest, sends = true :: rest -> rs = map Some noise ++ [Some d] ->
       (length noise < 8)%nat ->
       Forall (fun x => zlen x <> 0 /\ (Classify (ztake 512 x) <> PKT_STUN
                 \/ Stun.StunParseResponse (ztake 512 x) txId = Some None)) noise ->
       Classify (ztake 512 d) = PKT_STUN -> Stun.StunParseResponse (ztake 512 d) txId = Some (Some r) ->
       DiscoverEndpoint s true sends rs txId = (B_OK, Some r)).
Proof.
  intros Hs. unfold DiscoverEndpoint. destruct (Z.ltb_spec (fSocket s) 0); [lia|]. cbn [negb]. split.
  - intros st r. destruct (attempts _ _ _) as [r'|] eqn:E; [|done]. intros [= <- <-].
    split; [done|]. by eapply attempts_answer.
  - intros noise d r rest -> -> Hn Hf Hc Hp. cbn [take attempts].
    assert (Hl : forall i, (length noise < i)%nat ->
      recv_loop i (map Some noise ++ [Some d]) txId = (Some r, [])).
    { clear Hn. induction Hf as [|x noise [Hx Hx'] Hf IH]; intros i Hi; destruct i as [|i]; try (simpl in Hi; lia).
      - cbn [map app recv_loop]. destruct (Z.eqb_spec (zlen (ztake 512 d)) 0) as [Hz|_].
        { apply zlen_0_nil in Hz. rewrite Hz in Hc. done. }
        by rewrite Hc, Hp.
      - cbn [map app recv_loop]. destruct (Z.eqb_spec (zlen (ztake 512 x)) 0) as [Hz|_].
        { exfalso. apply Hx. apply zlen_0_nil in Hz. destruct x; [done|]. done. }
        specialize (IH i ltac:(simpl in Hi; lia)).
        destruct (Classify (ztake 512 x)); [done| |done]. destruct Hx' as [?|Hx']; [done|]. by rewrite Hx'. }
    by rewrite (Hl 8%nat Hn).
Qed.

Definition demo_answer : bytes := Stun.stun_success (zeros 12) (Stun.enc_attr (Stun.xor_mapped 203 0 113 7 41641)).

Lemma DiscoverEndpoint_sound_complete_witness :
  DiscoverEndpoint (mkSock 3 0) true [true] [Some [4; 0; 0; 0; 1]; Some demo_answer] (zeros 12)
  = (B_OK, Some (bs "203.0.113.7", 41641)).
Proof.
  apply (proj2 (DiscoverEndpoint_sound_complete (mkSock 3 0) [true]
    [Some [4; 0; 0; 0; 1]; Some demo_answer] (zeros 12) ltac:(simpl; lia))
    [[4; 0; 0; 0; 1]] demo_answer (bs "203.0.113.7", 41641) []).
  - reflexivity.
  - reflexivity.
  - simpl. lia.
  - constructor; [|constructor]. split; [unfold zlen; simpl; lia|]. left. vm_compute. discriminate.
  - vm_compute. reflexivity.
  - vm_compute. reflexivity.
Defined.

End MagicSock.
