(* ===== verification/Noise.v ===== *)
(** * Noise: the Noise_IK handshake of the control channel

    src/backend/tailscale/TSNoise.cpp, class [NoiseIK].  Every method changes
    the object before it may fail, so the methods are in the monad [M] of a
    state that survives failure.  A drawn ephemeral keypair is an argument
    ([None]: the draw fails).  [out0] is what the output buffer held before: the
    code ignores a failure of the sealing call and then sends those bytes. *)

From S2P Require Import Prelude Endian Blake2s Crypto.
Import Crypto.
Open Scope Z_scope.
Open Scope soto_scope.

Module Noise.

Definition kProtocolName : bytes := bs "Noise_IK_25519_ChaChaPoly_BLAKE2s".
Definition kNoiseTagLen : Z := 16.
Definition kNoiseMsg1Overhead : Z := 96.
Definition kNoiseMsg2Overhead : Z := 48.

Record noise := mkNoise {
  fCK : bytes; fH : bytes; fK : bytes; fHasKey : bool; fN : Z;
  fStaticPriv : bytes; fStaticPub : bytes; fEphemeralPriv : bytes; fEphemeralPub : bytes;
  fRemoteStatic : bytes; fRemoteEphemeral : bytes; fInitiator : bool }.

Definition NoiseIK : noise :=
  mkNoise (zeros 32) (zeros 32) (zeros 32) false 0 (zeros 32) (zeros 32) (zeros 32) (zeros 32)
    (zeros 32) (zeros 32) false.

(** ** Failing computations that keep their state *)

Definition M (A : Type) : Type := noise -> option A * noise.
Definition ret {A} (x : A) : M A := fun s => (Some x, s).
Definition fail {A} : M A := fun s => (None, s).
Definition bind {A B} (m : M A) (f : A -> M B) : M B :=
  fun s => match m s with (Some x, s') => f x s' | (None, s') => (None, s') end.
Definition gets {A} (f : noise -> A) : M A := fun s => (Some (f s), s).
Definition modify (f : noise -> noise) : M unit := fun s => (Some tt, f s).
Definition lift {A} (o : option A) : M A := fun s => (o, s).
Definition guard (b : bool) : M unit := if b then ret tt else fail.

Notation "'let!' x ':=' m 'in' k" := (bind m (fun x => k))
  (at level 10, x pattern, k at level 200).
Notation "m ';;;' k" := (bind m (fun _ => k)) (at level 199, right associativity).

Definition set_sym (ck h k : bytes) (hk : bool) (n : Z) (s : noise) : noise :=
  mkNoise ck h k hk n (fStaticPriv s) (fStaticPub s) (fEphemeralPriv s) (fEphemeralPub s)
    (fRemoteStatic s) (fRemoteEphemeral s) (fInitiator s).
Definition set_eph (e : bytes * bytes) (s : noise) : noise :=
  mkNoise (fCK s) (fH s) (fK s) (fHasKey s) (fN s) (fStaticPriv s) (fStaticPub s) (fst e) (snd e)
    (fRemoteStatic s) (fRemoteEphemeral s) (fInitiator s).
Definition set_rs (rs : bytes) (s : noise) : noise :=
  mkNoise (fCK s) (fH s) (fK s) (fHasKey s) (fN s) (fStaticPriv s) (fStaticPub s) (fEphemeralPriv s)
    (fEphemeralPub s) rs (fRemoteEphemeral s) (fInitiator s).
Definition set_re (re : bytes) (s : noise) : noise :=
  mkNoise (fCK s) (fH s) (fK s) (fHasKey s) (fN s) (fStaticPriv s) (fStaticPub s) (fEphemeralPriv s)
    (fEphemeralPub s) (fRemoteStatic s) re (fInitiator s).

Definition set_statics (init : bool) (priv pub rs : bytes) (s : noise) : noise :=
  mkNoise (fCK s) (fH s) (fK s) (fHasKey s) (fN s) priv pub (fEphemeralPriv s) (fEphemeralPub s)
    rs (fRemoteEphemeral s) init.

(** ** SymmetricState *)

Definition mixed (h data : bytes) : bytes :=
  let s := wg.HashUpdate wg.HashInit h in
  wg.HashFinal (if zlen data >? 0 then wg.HashUpdate s data else s).

Definition _MixHash (data : bytes) : M unit :=
  modify (fun s => set_sym (fCK s) (mixed (fH s) data) (fK s) (fHasKey s) (fN s) s).

Definition _InitSymmetric (prologue : bytes) : M unit :=
  modify (fun s => set_sym (wg.Hash kProtocolName) (wg.Hash kProtocolName) (fK s) false 0 s);;;
  _MixHash prologue.

Definition _MixKey (input : bytes) : M unit :=
  modify (fun s => let '(ck, k) := wg.Kdf2 (fCK s) input in set_sym ck (fH s) k true 0 s).

Definition incr_n : M unit :=
  modify (fun s => set_sym (fCK s) (fH s) (fK s) (fHasKey s) (u64 (fN s + 1)) s).

Section WithOpenSSL.
Context `{OpenSSL}.

Definition _EncryptAndHash (plain out0 : bytes) : M bytes :=
  let! s := gets id in
  if negb (fHasKey s) then _MixHash plain;;; ret plain
  else
    let out := default (ztake (zlen plain + kNoiseTagLen) out0)
                 (AeadEncrypt (fK s) (fN s) plain (fH s)) in
    incr_n;;; _MixHash out;;; ret out.

Definition _DecryptAndHash (cipher : bytes) : M bytes :=
  let! s := gets id in
  if negb (fHasKey s) then _MixHash cipher;;; ret cipher
  else
    guard (negb (zlen cipher <? kNoiseTagLen));;;
    let! out := lift (AeadDecrypt (fK s) (fN s) cipher (fH s)) in
    incr_n;;; _MixHash cipher;;; ret out.

(** ** HandshakeState *)

Definition InitInitiator (staticPriv staticPub remoteStaticPub prologue : bytes) : M unit :=
  modify (set_statics true staticPriv staticPub remoteStaticPub);;;
  _InitSymmetric prologue;;;
  _MixHash remoteStaticPub.

Definition InitResponder (staticPriv staticPub prologue : bytes) : M unit :=
  modify (fun s => set_statics false staticPriv staticPub (fRemoteStatic s) s);;;
  _InitSymmetric prologue;;;
  _MixHash staticPub.

(** A DH of two fields of the object, mixed into the key. *)
Definition mix_dh (priv pub : noise -> bytes) : M unit :=
  let! s := gets id in
  let! dh := lift (Dh (priv s) (pub s)) in _MixKey dh.

Definition WriteMessage1 (eph : option (bytes * bytes)) (payload out0 : bytes) (outCap : Z) : M bytes :=
  let! init := gets fInitiator in
  guard init;;;
  guard (negb (outCap <? kNoiseMsg1Overhead + zlen payload));;;
  let! e := lift eph in
  modify (set_eph e);;;
  _MixHash (snd e);;;
  mix_dh fEphemeralPriv fRemoteStatic;;;
  let! pub := gets fStaticPub in
  let! encStatic := _EncryptAndHash pub (zdrop 32 out0) in
  mix_dh fStaticPriv fRemoteStatic;;;
  let! encPayload := _EncryptAndHash payload (zdrop (32 + zlen encStatic) out0) in
  ret (snd e ++ encStatic ++ encPayload).

Definition ReadMessage1 (inp : bytes) (payloadCap : Z) : M bytes :=
  let! init := gets fInitiator in
  guard (negb init);;;
  guard (negb (zlen inp <? 32 + 48 + kNoiseTagLen));;;
  modify (set_re (ztake 32 inp));;;
  _MixHash (ztake 32 inp);;;
  mix_dh fStaticPriv fRemoteEphemeral;;;
  let! rs := _DecryptAndHash (slice 32 48 inp) in
  modify (set_rs rs);;;
  guard (zlen rs =? 32);;;
  mix_dh fStaticPriv fRemoteStatic;;;
  let! plain := _DecryptAndHash (zdrop 80 inp) in
  guard (negb (zlen plain >? payloadCap));;;
  ret plain.

Definition WriteMessage2 (eph : option (bytes * bytes)) (payload out0 : bytes) (outCap : Z) : M bytes :=
  let! init := gets fInitiator in
  guard (negb init);;;
  guard (negb (outCap <? kNoiseMsg2Overhead + zlen payload));;;
  let! e := lift eph in
  modify (set_eph e);;;
  _MixHash (snd e);;;
  mix_dh fEphemeralPriv fRemoteEphemeral;;;
  mix_dh fEphemeralPriv fRemoteStatic;;;
  let! encPayload := _EncryptAndHash payload (zdrop 32 out0) in
  ret (snd e ++ encPayload).

Definition ReadMessage2 (inp : bytes) (payloadCap : Z) : M bytes :=
  let! init := gets fInitiator in
  guard init;;;
  guard (negb (zlen inp <? 32 + kNoiseTagLen));;;
  modify (set_re (ztake 32 inp));;;
  _MixHash (ztake 32 inp);;;
  mix_dh fEphemeralPriv fRemoteEphemeral;;;
  mix_dh fStaticPriv fRemoteEphemeral;;;
  let! plain := _DecryptAndHash (zdrop 32 inp) in
  guard (negb (zlen plain >? payloadCap));;;
  ret plain.

(** The initiator's view: (send, receive). *)
Definition Split (s : noise) : bytes * bytes := wg.Kdf2 (fCK s) [].

End WithOpenSSL.

(** ** Agreement *)

(** Run the monad on a concrete state, stopping at the primitives. *)
Ltac run := cbn -[AeadEncrypt AeadDecrypt Dh Z.ltb Z.gtb].
Ltac run_in H := cbn -[AeadEncrypt AeadDecrypt Dh Z.ltb Z.gtb] in H.
Ltac open_monad :=
  unfold WriteMessage1, ReadMessage1, WriteMessage2, ReadMessage2, mix_dh, _MixHash, _MixKey,
    _EncryptAndHash, _DecryptAndHash, incr_n, bind, gets, guard, modify, lift, ret, fail in *.

#[local] Opaque wg.Kdf2 mixed wg.Hash.

Section Agreement.
Context `{OpenSSLLaws}.

Lemma ztake_app' {A} (l k : list A) n : zlen l = n -> ztake n (l ++ k) = l.
Proof. intros <-. by apply ztake_app. Qed.

Lemma zdrop_app' {A} (l k : list A) n : zlen l = n -> zdrop n (l ++ k) = k.
Proof. intros <-. by apply zdrop_app. Qed.

(** The responder follows the initiator's first message. *)
Lemma message1_transcript si sr ipub ek ep payload out0 cap cap' msg si' :
  x25519_pub (fStaticPriv sr) = Some (fRemoteStatic si) ->
  x25519_pub (fStaticPriv si) = Some ipub -> fStaticPub si = ipub ->
  x25519_pub ek = Some ep ->
  fInitiator si = true -> fInitiator sr = false -> fCK si = fCK sr -> fH si = fH sr ->
  (forall k n a p, is_Some (AeadEncrypt k n a p)) -> zlen payload <= cap' ->
  WriteMessage1 (Some (ek, ep)) payload out0 cap si = (Some msg, si') ->
  exists sr', ReadMessage1 msg cap' sr = (Some payload, sr')
    /\ fRemoteStatic sr' = ipub /\ fRemoteEphemeral sr' = ep /\ fInitiator sr' = false
    /\ fCK si' = fCK sr' /\ fH si' = fH sr' /\ fStaticPriv si' = fStaticPriv si
    /\ fEphemeralPriv si' = ek /\ fInitiator si' = true /\ zlen msg = 96 + zlen payload.
Proof.
  intros Hrs Hip Hsp Hek Hi Hr Hck Hh Hs Hcap Hw.
  destruct si as [ck h k hk n sp spub e1 e2 rs re ini], sr as [ck2 h2 k2 hk2 n2 sp2 spub2 e12 e22 rs2 re2 ini2].
  cbn in Hrs, Hip, Hsp, Hi, Hr, Hck, Hh. subst ini ini2 ck2 h2 spub.
  open_monad. run_in Hw. run.
  destruct (Z.ltb_spec cap (kNoiseMsg1Overhead + zlen payload)); [done|]. run_in Hw.
  destruct (Dh ek rs) as [d1|] eqn:E1; [|done]. run_in Hw.
  destruct (wg.Kdf2 ck d1) as [ck1 k1] eqn:K1. run_in Hw.
  destruct (Hs k1 0 ipub (mixed h ep)) as [es Ees]. rewrite Ees in Hw. run_in Hw.
  destruct (Dh sp rs) as [d2|] eqn:E2; [|done]. run_in Hw.
  destruct (wg.Kdf2 ck1 d2) as [ck3 k3] eqn:K2. run_in Hw.
  destruct (Hs k3 0 payload (mixed (mixed h ep) es)) as [ep' Eep]. rewrite Eep in Hw. run_in Hw.
  apply pair_equal_spec in Hw as [Hm Hsi]. apply (inj Some) in Hm. subst msg si'.
  destruct (pub_length _ _ Hip) as [Hlp _]. destruct (pub_length _ _ Hek) as [Hle _].
  assert (Hes : zlen es = 48) by (apply AeadEncrypt_length in Ees; lia).
  assert (Hep : zlen ep' = zlen payload + 16) by (by apply AeadEncrypt_length in Eep).
  pose proof (zlen_nonneg payload).
  assert (Hlen : zlen (ep ++ es ++ ep') = 96 + zlen payload) by (rewrite !zlen_app; lia).
  rewrite Hlen. unfold kNoiseTagLen.
  destruct (Z.ltb_spec (96 + zlen payload) (32 + 48 + 16)); [lia|].
  run.
  rewrite (ztake_app' ep) by done.
  assert (Dh sp2 ep = Some d1) as -> by (rewrite <- E1; symmetry; by apply dh_comm).
  run. rewrite K1. run.
  replace (slice 32 48 (ep ++ es ++ ep')) with es by (symmetry; by apply slice_app_mid).
  rewrite Hes. destruct (Z.ltb_spec 48 16); [lia|]. run.
  rewrite (AeadDecrypt_Encrypt _ _ _ _ _ Ees). run.
  rewrite Hlp. run.
  assert (Dh sp2 ipub = Some d2) as -> by (rewrite <- E2; symmetry; by apply dh_comm).
  run. rewrite K2. run.
  replace (zdrop 80 (ep ++ es ++ ep')) with ep'.
  2: { symmetry. rewrite app_assoc. apply zdrop_app'. rewrite zlen_app. lia. }
  rewrite Hep. destruct (Z.ltb_spec (zlen payload + 16) 16); [lia|].
  run.
  rewrite (AeadDecrypt_Encrypt _ _ _ _ _ Eep). run.
  destruct (Z.gtb_spec (zlen payload) cap'); [lia|].
  eexists. split; [reflexivity|]. done.
Qed.

(** The initiator follows the responder's message. *)
Lemma message2_transcript si sr ipub rk rp payload out0 cap cap' msg sr' :
  x25519_pub (fStaticPriv si) = Some ipub -> fRemoteStatic sr = ipub ->
  x25519_pub (fEphemeralPriv si) = Some (fRemoteEphemeral sr) ->
  x25519_pub rk = Some rp ->
  fInitiator si = true -> fInitiator sr = false -> fCK si = fCK sr -> fH si = fH sr ->
  (forall k n a p, is_Some (AeadEncrypt k n a p)) -> zlen payload <= cap' ->
  WriteMessage2 (Some (rk, rp)) payload out0 cap sr = (Some msg, sr') ->
  exists si', ReadMessage2 msg cap' si = (Some payload, si')
    /\ fCK si' = fCK sr' /\ fH si' = fH sr' /\ zlen msg = 48 + zlen payload.
Proof.
  intros Hip Hrs Hek Hrk Hi Hr Hck Hh Hs Hcap Hw.
  destruct si as [ck h k hk n sp spub e1 e2 rs re ini], sr as [ck2 h2 k2 hk2 n2 sp2 spub2 e12 e22 rs2 re2 ini2].
  cbn in Hrs, Hip, Hek, Hi, Hr, Hck, Hh. subst ini ini2 ck2 h2 rs2.
  open_monad. run_in Hw. run.
  destruct (Z.ltb_spec cap (kNoiseMsg2Overhead + zlen payload)); [done|]. run_in Hw.
  destruct (Dh rk re2) as [d1|] eqn:E1; [|done]. run_in Hw.
  destruct (wg.Kdf2 ck d1) as [ck1 k1] eqn:K1. run_in Hw.
  destruct (Dh rk ipub) as [d2|] eqn:E2; [|done]. run_in Hw.
  destruct (wg.Kdf2 ck1 d2) as [ck3 k3] eqn:K2. run_in Hw.
  destruct (Hs k3 0 payload (mixed h rp)) as [ep' Eep]. rewrite Eep in Hw. run_in Hw.
  apply pair_equal_spec in Hw as [Hm Hsr]. apply (inj Some) in Hm. subst msg sr'.
  destruct (pub_length _ _ Hrk) as [Hlr _]. pose proof (zlen_nonneg payload).
  assert (Hep : zlen ep' = zlen payload + 16) by (by apply AeadEncrypt_length in Eep).
  assert (Hlen : zlen (rp ++ ep') = 48 + zlen payload) by (rewrite zlen_app; lia).
  rewrite Hlen. unfold kNoiseTagLen. destruct (Z.ltb_spec (48 + zlen payload) (32 + 16)); [lia|].
  run. rewrite (ztake_app' rp), (zdrop_app' rp) by done.
  assert (Dh e1 rp = Some d1) as -> by (rewrite <- E1; by apply dh_comm).
  run. rewrite K1. run.
  assert (Dh sp rp = Some d2) as -> by (rewrite <- E2; by apply dh_comm).
  run. rewrite K2. run. rewrite Hep. destruct (Z.ltb_spec (zlen payload + 16) 16); [lia|].
  run. rewrite (AeadDecrypt_Encrypt _ _ _ _ _ Eep). run.
  destruct (Z.gtb_spec (zlen payload) cap'); [lia|]. eexists. split; [reflexivity|]. done.
Qed.

(** C13: The two ends of the control handshake agree. When the initiator knows the responder's static key and both mix the same prologue, the responder reads the first message to the initiator's payload and learns its static key, the initiator reads the response to the responder's payload, and both finish with the same handshake hash and the same split transport keys. *)
Theorem noise_IK_agreement si0 sr0 ipriv ipub rpriv rpub prologue ek ep rk rp
    pay1 pay2 o1 o2 c1 c1' c2 c2' msg1 msg2 si1 sr2 :
  x25519_pub ipriv = Some ipub -> x25519_pub rpriv = Some rpub ->
  x25519_pub ek = Some ep -> x25519_pub rk = Some rp ->
  (forall k n a p, is_Some (AeadEncrypt k n a p)) ->
  zlen pay1 <= c1' -> zlen pay2 <= c2' ->
  WriteMessage1 (Some (ek, ep)) pay1 o1 c1 (snd (InitInitiator ipriv ipub rpub prologue si0))
    = (Some msg1, si1) ->
  let '(got1, sr1) := ReadMessage1 msg1 c1' (snd (InitResponder rpriv rpub prologue sr0)) in
  WriteMessage2 (Some (rk, rp)) pay2 o2 c2 sr1 = (Some msg2, sr2) ->
  let '(got2, si2) := ReadMessage2 msg2 c2' si1 in
  got1 = Some pay1 /\ got2 = Some pay2 /\ fRemoteStatic sr1 = ipub
  /\ fH si2 = fH sr2 /\ Split si2 = Split sr2.
Proof.
  intros Hip Hrp Hek Hrk Hs H1 H2 Hw1.
  eapply message1_transcript with (sr := snd (InitResponder rpriv rpub prologue sr0)) (cap' := c1')
    in Hw1 as (sr1 & -> & R1 & R2 & R3 & R4 & R5 & R6 & R7 & R8 & _); try done.
  intros Hw2.
  eapply message2_transcript with (si := si1) (cap' := c2') in Hw2 as (si2 & -> & Q1 & Q2 & _); try done.
  - split_and!; [done..|]. unfold Split. by rewrite Q1.
  - rewrite R6. exact Hip.
  - congruence.
Qed.
End Agreement.

(** With primitives that do not fail, neither message builder fails. *)
Lemma writes_total `{OpenSSL} s e payload out0 cap :
  (forall a b, is_Some (Dh a b)) -> (forall k n a p, is_Some (AeadEncrypt k n a p)) ->
  kNoiseMsg1Overhead + zlen payload <= cap ->
  (fInitiator s = true -> is_Some (fst (WriteMessage1 (Some e) payload out0 cap s)))
  /\ (fInitiator s = false -> is_Some (fst (WriteMessage2 (Some e) payload out0 cap s))).
Proof.
  intros Hd Hs Hc. destruct s as [ck h k hk n sp spub e1 e2 rs re ini].
  split; intros Hi; cbn in Hi; subst ini; open_monad; run.
  - destruct (Z.ltb_spec cap (kNoiseMsg1Overhead + zlen payload)); [lia|]. run.
    destruct (Hd (fst e) rs) as [d1 ->]. run. destruct (wg.Kdf2 ck d1) as [ck1 k1]. run.
    destruct (Hd sp rs) as [d2 ->]. run. destruct (wg.Kdf2 ck1 d2) as [ck2 k2]. run. done.
  - destruct (Z.ltb_spec cap (kNoiseMsg2Overhead + zlen payload)).
    { unfold kNoiseMsg1Overhead, kNoiseMsg2Overhead in *. lia. }
    run. destruct (Hd (fst e) re) as [d1 ->]. run. destruct (wg.Kdf2 ck d1) as [ck1 k1]. run.
    destruct (Hd (fst e) rs) as [d2 ->]. run. destruct (wg.Kdf2 ck1 d2) as [ck2 k2]. run. done.
Qed.

Lemma noise_IK_agreement_witness :
  let n k := le_split 32 k in
  let init := snd (InitInitiator (n 11) (n 11) (n 22) (bs "v1") NoiseIK) in
  let resp := snd (InitResponder (n 22) (n 22) (bs "v1") NoiseIK) in
  exists msg1 si1 msg2 sr2 si2,
    WriteMessage1 (H:=Toy.toy) (Some (n 33, n 33)) (bs "hello") [] 200 init = (Some msg1, si1)
    /\ WriteMessage2 (H:=Toy.toy) (Some (n 44, n 44)) [] [] 200
         (snd (ReadMessage1 (H:=Toy.toy) msg1 100 resp)) = (Some msg2, sr2)
    /\ fst (ReadMessage1 (H:=Toy.toy) msg1 100 resp) = Some (bs "hello")
    /\ ReadMessage2 (H:=Toy.toy) msg2 100 si1 = (Some [], si2) /\ Split si2 = Split sr2.
Proof.
  intros n init resp.
  assert (T : forall a b, is_Some (Dh (H:=Toy.toy) a b)) by (eexists; reflexivity).
  destruct (WriteMessage1 (H:=Toy.toy) (Some (n 33, n 33)) (bs "hello") [] 200 init) as [o1 si1] eqn:E1.
  destruct (proj1 (writes_total (H:=Toy.toy) init (n 33, n 33) (bs "hello") [] 200 T Toy.toy_seals
    ltac:(vm_compute; congruence)) eq_refl) as [msg1 S1]. rewrite E1 in S1. cbn [fst] in S1. subst o1.
  pose proof (noise_IK_agreement (H:=Toy.toy) (H0:=Toy.toy_laws) NoiseIK NoiseIK (n 11) (n 11) (n 22) (n 22)
    (bs "v1") (n 33) (n 33) (n 44) (n 44) (bs "hello") [] [] [] 200 100 200 100) as A.
  fold init resp in A.
  destruct (ReadMessage1 (H:=Toy.toy) msg1 100 resp) as [got1 sr1] eqn:R1.
  assert (Hr : fInitiator sr1 = false).
  { pose proof (message1_transcript (H:=Toy.toy) (H0:=Toy.toy_laws) init resp (n 11) (n 33) (n 33) (bs "hello")
      [] 200 100 msg1 si1 eq_refl eq_refl eq_refl eq_refl eq_refl eq_refl eq_refl eq_refl Toy.toy_seals
      ltac:(vm_compute; congruence) E1) as (sr & R & _ & _ & F & _). rewrite R1 in R. congruence. }
  destruct (WriteMessage2 (H:=Toy.toy) (Some (n 44, n 44)) [] [] 200 sr1) as [o2 sr2] eqn:E2.
  destruct (proj2 (writes_total (H:=Toy.toy) sr1 (n 44, n 44) [] [] 200 T Toy.toy_seals
    ltac:(vm_compute; congruence)) Hr) as [msg2 S2]. rewrite E2 in S2. cbn [fst] in S2. subst o2.
  specialize (A msg1 msg2 si1 sr2 eq_refl eq_refl eq_refl eq_refl Toy.toy_seals
    ltac:(vm_compute; congruence) ltac:(vm_compute; congruence) E1).
  rewrite R1 in A. specialize (A E2).
  destruct (ReadMessage2 (H:=Toy.toy) msg2 100 si1) as [got2 si2] eqn:R2.
  destruct A as (-> & -> & _ & _ & A).
  exists msg1, si1, msg2, sr2, si2. rewrite R1. split_and!; [reflexivity|exact E2|reflexivity|exact R2|exact A].
Defined.

End Noise.
