(* ===== verification/Identity.v ===== *)
(** * Identity: the node's three key pairs

    src/backend/tailscale/TSIdentity.cpp: the hex codec and [LoadOrCreate] over
    the system keystore.  The keystore is a finite map from identifiers to
    passwords; whether an insertion succeeds and the freshly drawn key pairs
    are arguments.  The cached public-key file (an inspection aid whose failure
    is ignored) is not modelled. *)

From stdpp Require Import gmap.
From S2P Require Import Prelude CLib Endian Crypto.
Import Crypto.
Open Scope Z_scope.
Open Scope soto_scope.

Module Identity.

(** ** Hex *)

Definition _HexNibble (c : Z) : Z :=
  if (48 <=? c) && (c <=? 57) then c - 48
  else if (97 <=? c) && (c <=? 102) then c - 97 + 10
  else if (65 <=? c) && (c <=? 70) then c - 65 + 10
  else -1.

Definition kHex : bytes := bs "0123456789abcdef".

Definition ToHex (l : bytes) : bytes :=
  flat_map (fun b => [at_ kHex ((b ≫ 4) .& 0x0f); at_ kHex (b .& 0x0f)]) l.

(** [hex] is a C string without its terminator. *)
Fixpoint hex_pairs (hex : bytes) (n : nat) : option bytes :=
  match n, hex with
  | O, _ => Some []
  | S n, h :: l :: hex =>
      let hi := _HexNibble h in
      let lo := _HexNibble l in
      if (hi <? 0) || (lo <? 0) then None
      else rest ← hex_pairs hex n; Some (u8 ((hi ≪ 4) .| lo) :: rest)
  | S _, _ => None
  end.

Definition FromHex (hex : bytes) (outLen : Z) : option bytes :=
  if negb (zlen hex =? outLen * 2) then None else hex_pairs hex (Z.to_nat outLen).

(** ** Key pairs *)

Inductive KeyRole := KEY_MACHINE | KEY_NODE | KEY_DISCO.

Record Key25519 := mkKey { priv : bytes; pub : bytes }.
Definition zero_key : Key25519 := mkKey (zeros 32) (zeros 32).

Record TSIdentity := mkIdentity {
  fProfileName : bytes; fMachine : Key25519; fNode : Key25519; fDisco : Key25519; fValid : bool }.

Definition fresh : TSIdentity := mkIdentity [] zero_key zero_key zero_key false.

Definition _RoleName (role : KeyRole) : bytes :=
  match role with
  | KEY_MACHINE => bs "machine"
  | KEY_NODE => bs "node"
  | KEY_DISCO => bs "disco"
  end.

Definition _KeystoreId (profileName : bytes) (role : KeyRole) : bytes :=
  bs "sotoportego.tailscale." ++ profileName ++ bs "." ++ _RoleName role.

Abbreviation keystore := (gmap bytes bytes).

Section WithOpenSSL.
Context `{OpenSSL}.

(** [gen] is DhGenerate's result, [add] AddKey's status. *)
Definition _LoadOrCreateRole (ks : keystore) (profile : bytes) (role : KeyRole) (old : Key25519)
    (gen : option Key25519) (add : status) : status * Key25519 * bool * keystore :=
  let id := _KeystoreId profile role in
  match ks !! id with
  | Some hex =>
      match FromHex hex 32 with
      | None => (B_BAD_DATA, old, false, ks)
      | Some p =>
          match DhPublic p with
          | None => (B_ERROR, mkKey p (pub old), false, ks)
          | Some q => (B_OK, mkKey p q, false, ks)
          end
      end
  | None =>
      match gen with
      | None => (B_ERROR, old, false, ks)
      | Some k =>
          match add with
          | B_OK => (B_OK, k, true, <[id := ToHex (priv k)]> ks)
          | _ => (add, zero_key, false, ks)
          end
      end
  end.

Definition draws : Type := KeyRole -> option Key25519 * status.

(** The status, the object, whether a key was created, and the keystore. *)
Definition LoadOrCreate (s : TSIdentity) (profileName : bytes) (d : draws) (ks : keystore)
    : status * TSIdentity * bool * keystore :=
  if bool_decide (profileName = []) then (B_BAD_VALUE, s, false, ks)
  else
    let s := mkIdentity profileName (fMachine s) (fNode s) (fDisco s) false in
    let '(result, k, created, ks) :=
      _LoadOrCreateRole ks profileName KEY_MACHINE (fMachine s) (fst (d KEY_MACHINE)) (snd (d KEY_MACHINE)) in
    let any := created in
    let s := mkIdentity profileName k (fNode s) (fDisco s) false in
    match result with
    | B_OK =>
        let '(result, k, created, ks) :=
          _LoadOrCreateRole ks profileName KEY_NODE (fNode s) (fst (d KEY_NODE)) (snd (d KEY_NODE)) in
        let any := any || created in
        let s := mkIdentity profileName (fMachine s) k (fDisco s) false in
        match result with
        | B_OK =>
            let '(result, k, created, ks) :=
              _LoadOrCreateRole ks profileName KEY_DISCO (fDisco s) (fst (d KEY_DISCO)) (snd (d KEY_DISCO)) in
            let any := any || created in
            match result with
            | B_OK => (B_OK, mkIdentity profileName (fMachine s) (fNode s) k true, any, ks)
            | e => (e, mkIdentity profileName (fMachine s) (fNode s) k false, any, ks)
            end
        | e => (e, s, any, ks)
        end
    | e => (e, s, any, ks)
    end.
End WithOpenSSL.

(** ** Hex round trip *)

Lemma hex_digit n : 0 <= n < 16 -> _HexNibble (at_ kHex n) = n.
Proof.
  intros. assert (Hall : forallb (fun n => _HexNibble (at_ kHex n) =? n) (seqZ 0 16) = true) by reflexivity.
  rewrite forallb_forall in Hall. apply Z.eqb_eq, Hall, list_elem_of_In, elem_of_seqZ. lia.
Qed.

Lemma nibbles b : is_byte b -> (b ≫ 4) .& 0x0f = b / 16 /\ b .& 0x0f = b mod 16.
Proof.
  unfold is_byte. intros. change 0x0f with (2 ^ 4 - 1). rewrite !land_ones_mod by lia.
  rewrite Z.shiftr_div_pow2 by lia. change (2 ^ 4) with 16. split; [|done].
  apply Z.mod_small. split; [apply Z.div_pos; lia|apply Z.div_lt_upper_bound; lia].
Qed.

Lemma zlen_ToHex l : zlen (ToHex l) = 2 * zlen l.
Proof.
  induction l as [|b l IH]; [done|]. cbn [ToHex flat_map app]. fold (ToHex l).
  rewrite !zlen_cons, IH. lia.
Qed.

Lemma ToHex_text l : Forall (fun c => c <> 0) (ToHex l).
Proof.
  assert (N : forall x, at_ kHex (x .& 0x0f) <> 0).
  { intros x. change 0x0f with (Z.ones 4). rewrite Z.land_ones by lia. pose proof (Z.mod_pos_bound x (2 ^ 4)) as B.
    assert (E : x mod 2 ^ 4 ∈ seqZ 0 16) by (apply elem_of_seqZ; lia). revert E. generalize (x mod 2 ^ 4). intros y Hy.
    assert (F : Forall (fun y => at_ kHex y <> 0) (seqZ 0 16)) by (repeat (apply Forall_cons_2; [done|]); apply Forall_nil_2).
    by apply (proj1 (Forall_forall _ _) F). }
  induction l as [|b l IH]; [constructor|]. cbn [ToHex flat_map app]. by repeat (apply Forall_cons_2; [apply N|]).
Qed.

Lemma hex_pairs_ToHex l : is_bytes l -> hex_pairs (ToHex l) (length l) = Some l.
Proof.
  induction 1 as [|b l Hb Hl IH]; [done|]. cbn [ToHex flat_map length hex_pairs app].
  fold (ToHex l). destruct (nibbles b Hb) as [-> ->].
  pose proof (Z.mod_pos_bound b 16 ltac:(lia)). unfold is_byte in Hb.
  assert (0 <= b / 16 < 16).
  { split; [apply Z.div_pos; lia|apply Z.div_lt_upper_bound; lia]. }
  rewrite !hex_digit by lia. zcases. rewrite IH. simpl. do 2 f_equal.
  rewrite (lor_shiftl_add_l (b mod 16) (b / 16) 4) by lia. change (2 ^ 4) with 16.
  pose proof (Z.div_mod b 16). rewrite u8_small; unfold is_byte; lia.
Qed.

Lemma FromHex_ToHex l : is_bytes l -> FromHex (ToHex l) (zlen l) = Some l.
Proof.
  intros Hl. unfold FromHex. rewrite zlen_ToHex.
  destruct (Z.eqb_spec (2 * zlen l) (zlen l * 2)); [|lia]. cbn [negb].
  unfold zlen. rewrite Nat2Z.id. by apply hex_pairs_ToHex.
Qed.

(** ** Keystore identifiers *)

Definition no_dot (l : bytes) : Prop := 46 ∉ l.

Lemma role_suffix p q r1 r2 :
  no_dot r1 -> no_dot r2 -> p ++ 46 :: r1 = q ++ 46 :: r2 -> p = q /\ r1 = r2.
Proof.
  intros H1 H2 E. revert q E. induction p as [|x p IH]; intros [|y q] E; simpl in E.
  - by injection E as ->.
  - injection E as _ E. exfalso. apply H1. rewrite E. apply elem_of_app. right. by left.
  - injection E as _ E. exfalso. apply H2. rewrite <- E. apply elem_of_app. right. by left.
  - injection E as -> E. destruct (IH q E) as [-> ->]. done.
Qed.

Lemma role_no_dot r : no_dot (_RoleName r).
Proof. destruct r; apply (bool_decide_eq_true_1 _); reflexivity. Qed.

Lemma KeystoreId_injective p q r1 r2 :
  _KeystoreId p r1 = _KeystoreId q r2 -> p = q /\ r1 = r2.
Proof.
  unfold _KeystoreId. intros E. apply app_inv_head in E.
  change (bs "." ++ _RoleName r1) with (46 :: _RoleName r1) in E.
  change (bs "." ++ _RoleName r2) with (46 :: _RoleName r2) in E.
  apply role_suffix in E as [-> E]; [|apply role_no_dot..]. split; [done|].
  destruct r1, r2; try done; vm_compute in E; discriminate.
Qed.

(** ** Persistence *)

Section Persistence.
Context `{OpenSSL}.

(** What DhGenerate draws: 32 bytes and their public key. *)
Definition valid_draws (d : draws) : Prop :=
  forall r k, fst (d r) = Some k -> zlen (priv k) = 32 /\ is_bytes (priv k) /\ DhPublic (priv k) = Some (pub k).

Lemma LoadOrCreateRole_stable ks p r old gen add k c ks1 :
  (forall k, gen = Some k -> zlen (priv k) = 32 /\ is_bytes (priv k) /\ DhPublic (priv k) = Some (pub k)) ->
  _LoadOrCreateRole ks p r old gen add = (B_OK, k, c, ks1) ->
  (forall ks' old' gen' add', ks' !! _KeystoreId p r = ks1 !! _KeystoreId p r ->
     _LoadOrCreateRole ks' p r old' gen' add' = (B_OK, k, false, ks'))
  /\ (forall id, id <> _KeystoreId p r -> ks1 !! id = ks !! id).
Proof.
  intros Hg Hl. unfold _LoadOrCreateRole in Hl.
  destruct (ks !! _KeystoreId p r) as [hex|] eqn:Ek.
  - destruct (FromHex hex 32) as [pv|] eqn:Ef; [|done]. destruct (DhPublic pv) as [pb|] eqn:Ed; [|done].
    injection Hl as <- <- <-. split; [|done]. intros ks' old' gen' add' Hks.
    unfold _LoadOrCreateRole. by rewrite Hks, Ek, Ef, Ed.
  - destruct gen as [k0|]; [|done]. destruct add; try done.
    injection Hl as <- <- <-. destruct (Hg k0 eq_refl) as (H32 & Hb & Hpub). split.
    + intros ks' old' gen' add' Hks. unfold _LoadOrCreateRole. rewrite Hks, lookup_insert_eq.
      rewrite <- H32 at 1. rewrite FromHex_ToHex by done. rewrite Hpub. by destruct k0.
    + intros id Hid. by rewrite lookup_insert_ne.
Qed.

(** A node keeps its identity: once LoadOrCreate has succeeded for a profile, every later LoadOrCreate of it on the resulting keystore, from whatever object and with whatever keys a fresh draw would give, returns the same three key pairs and creates nothing; and it never touches an entry of another profile. *)
Theorem LoadOrCreate_stable s0 p d ks s1 any ks1 :
  valid_draws d ->
  LoadOrCreate s0 p d ks = (B_OK, s1, any, ks1) ->
  (forall s d', LoadOrCreate s p d' ks1 = (B_OK, s1, false, ks1))
  /\ (forall q r, q <> p -> ks1 !! _KeystoreId q r = ks !! _KeystoreId q r).
Proof.
  intros Hv Hl. unfold LoadOrCreate in Hl. destruct (bool_decide_reflect (p = [])) as [|Hp]; [done|].
  destruct (_LoadOrCreateRole ks p KEY_MACHINE _ _ _) as [[[r1 k1] c1] ks2] eqn:E1.
  destruct r1; try done.
  destruct (_LoadOrCreateRole ks2 p KEY_NODE _ _ _) as [[[r2 k2] c2] ks3] eqn:E2.
  destruct r2; try done.
  destruct (_LoadOrCreateRole ks3 p KEY_DISCO _ _ _) as [[[r3 k3] c3] ks4] eqn:E3.
  destruct r3; try done. injection Hl as <- <- <-.
  assert (Hne : forall r r', r <> r' -> _KeystoreId p r <> _KeystoreId p r')
    by (intros r r' Hr [_ E]%KeystoreId_injective; done).
  apply LoadOrCreateRole_stable in E1 as [S1 N1]; [|apply Hv].
  apply LoadOrCreateRole_stable in E2 as [S2 N2]; [|apply Hv].
  apply LoadOrCreateRole_stable in E3 as [S3 N3]; [|apply Hv].
  split.
  - intros s d'. unfold LoadOrCreate. rewrite bool_decide_false by done.
    rewrite S1 by (rewrite N3, N2 by (by apply Hne); done).
    rewrite S2 by (rewrite N3 by (by apply Hne); done).
    rewrite S3 by done. done.
  - intros q r Hq. rewrite N3, N2, N1; [done|..]; intros [E _]%KeystoreId_injective; done.
Qed.
End Persistence.

Definition demo_key (n : Z) : Key25519 := mkKey (le_split 32 n) (le_split 32 n).
Definition demo_draws (seed : Z) : draws := fun r =>
  (Some match r with
        | KEY_MACHINE => demo_key (seed + 1)
        | KEY_NODE => demo_key (seed + 2)
        | KEY_DISCO => demo_key (seed + 3)
        end, B_OK).

Lemma demo_draws_valid seed : valid_draws (H:=Toy.toy) (demo_draws seed).
Proof.
  assert (Hv : forall n, zlen (priv (demo_key n)) = 32 /\ is_bytes (priv (demo_key n))
    /\ DhPublic (H:=Toy.toy) (priv (demo_key n)) = Some (pub (demo_key n))).
  { intros n. cbn [demo_key priv pub].
    split_and!; [unfold zlen; by rewrite length_le_split|apply le_split_bytes|].
    unfold DhPublic. cbn [Toy.toy x25519_pub]. rewrite Toy.num_split.
    f_equal. symmetry. apply (le_split_mod 32). }
  intros r k Hk. unfold demo_draws in Hk. cbn [fst] in Hk. apply (inj Some) in Hk. subst k.
  destruct r; apply Hv.
Qed.

Lemma LoadOrCreate_empty `{OpenSSL} s0 p km kn kd :
  p <> [] ->
  let d r := (Some match r with KEY_MACHINE => km | KEY_NODE => kn | KEY_DISCO => kd end, B_OK) in
  exists ks1, LoadOrCreate s0 p d ∅ = (B_OK, mkIdentity p km kn kd true, true, ks1).
Proof.
  intros Hp d. unfold LoadOrCreate. rewrite bool_decide_false by done.
  assert (Hne : forall r r', r <> r' -> _KeystoreId p r <> _KeystoreId p r')
    by (intros r r' Hr [_ E]%KeystoreId_injective; done).
  unfold _LoadOrCreateRole at 1. rewrite lookup_empty. cbn [d fst snd].
  unfold _LoadOrCreateRole at 1. rewrite lookup_insert_ne, lookup_empty by (by apply Hne).
  unfold _LoadOrCreateRole at 1. rewrite !lookup_insert_ne, lookup_empty by (by apply Hne).
  eexists. reflexivity.
Qed.

Lemma LoadOrCreate_stable_witness :
  exists s1 ks1, LoadOrCreate (H:=Toy.toy) fresh (bs "home") (demo_draws 100) ∅ = (B_OK, s1, true, ks1)
    /\ LoadOrCreate (H:=Toy.toy) fresh (bs "home") (demo_draws 900) ks1 = (B_OK, s1, false, ks1).
Proof.
  destruct (LoadOrCreate_empty (H:=Toy.toy) fresh (bs "home") (demo_key 101) (demo_key 102) (demo_key 103)
    ltac:(discriminate)) as [ks1 E].
  eexists _, ks1. split; [exact E|].
  apply (proj1 (LoadOrCreate_stable (H:=Toy.toy) fresh (bs "home") (demo_draws 100) ∅ _ true ks1
    (demo_draws_valid 100) E)).
Defined.

End Identity.
