(* ===== verification/Control.v ===== *)
(** * Control: framing of the control-server handshake

    src/backend/tailscale/TSControl.cpp (prologue, initiation frame, record
    header, the control key document) and [base64_encode] of
    TSControlClient.cpp. *)

From S2P Require Import Prelude CLib Endian Identity.
Open Scope Z_scope.
Open Scope soto_scope.

Module Control.

Definition CONTROL_MSG_INITIATION : Z := 1.
Definition CONTROL_MSG_RESPONSE : Z := 2.
Definition CONTROL_MSG_ERROR : Z := 3.
Definition CONTROL_MSG_RECORD : Z := 4.
Definition kInitiationHeaderLen : Z := 5.
Definition kRecordHeaderLen : Z := 3.
Definition kInitiationPayloadLen : Z := 96.
Definition kResponsePayloadLen : Z := 48.
Definition kInitiationMsgLen : Z := kInitiationHeaderLen + kInitiationPayloadLen.

Definition ControlPrologue (version : Z) : bytes := bs "Tailscale Control Protocol v" ++ fmt_u version.

Definition EncodeInitiation (noiseMsg1 : bytes) (version outCap : Z) : option bytes :=
  if negb (zlen noiseMsg1 =? kInitiationPayloadLen) then None
  else if outCap <? kInitiationMsgLen then None
  else Some ([u8 (version ≫ 8); u8 (version .& 0xff); CONTROL_MSG_INITIATION;
              u8 (kInitiationPayloadLen ≫ 8); u8 (kInitiationPayloadLen .& 0xff)] ++ noiseMsg1).

(** The type and the payload length; the caller compares the returned 3. *)
Definition DecodeRecordHeader (inp : bytes) : option (Z * Z) :=
  if zlen inp <? kRecordHeaderLen then None
  else Some (at_ inp 0, u16 ((at_ inp 1 ≪ 8) .| at_ inp 2)).

(** BString::FindFirst with an offset. *)
Definition FindFirst (doc pat : bytes) (from : Z) : option Z :=
  (fun i => from + i) <$> find_sub pat (zdrop from doc).

Definition kControlKeyPrefix : bytes := bs "mkey:".
Definition kControlKeyField : bytes := 34 :: bs "publicKey" ++ [34].

Definition ParseControlKey (doc : bytes) : option bytes :=
  let searchFrom := default 0 (FindFirst doc kControlKeyField 0) in
  keyPos ← FindFirst doc kControlKeyPrefix searchFrom;
  let keyPos := keyPos + zlen kControlKeyPrefix in
  if zlen doc - keyPos <? 64 then None
  else Identity.FromHex (slice keyPos 64 doc) 32.

(** ** Base 64 *)

Definition kAlphabet : bytes := bs "ABCDEFGHIJKLMNOPQRSTUVWXYZabcdefghijklmnopqrstuvwxyz0123456789+/".

Definition sextet (n k : Z) : Z := at_ kAlphabet ((n ≫ k) .& 0x3f).

Fixpoint base64_encode (data : bytes) : bytes :=
  match data with
  | a :: b :: c :: rest =>
      let n := (a ≪ 16) .| (b ≪ 8) .| c in
      [sextet n 18; sextet n 12; sextet n 6; sextet n 0] ++ base64_encode rest
  | [a; b] =>
      let n := (a ≪ 16) .| (b ≪ 8) in [sextet n 18; sextet n 12; sextet n 6; 61]
  | [a] => let n := a ≪ 16 in [sextet n 18; sextet n 12; 61; 61]
  | [] => []
  end.

(** The RFC 4648 decoder, as reference. *)
Definition value (c : Z) : option Z :=
  if (65 <=? c) && (c <=? 90) then Some (c - 65)
  else if (97 <=? c) && (c <=? 122) then Some (c - 71)
  else if (48 <=? c) && (c <=? 57) then Some (c + 4)
  else if c =? 43 then Some 62 else if c =? 47 then Some 63 else None.

Fixpoint base64_decode (l : bytes) : option bytes :=
  match l with
  | [] => Some []
  | w :: x :: y :: z :: rest =>
      vw ← value w; vx ← value x;
      match value y, value z with
      | Some vy, Some vz =>
          let n := vw * 2 ^ 18 + vx * 2 ^ 12 + vy * 2 ^ 6 + vz in
          d ← base64_decode rest; Some (n / 2 ^ 16 :: n / 2 ^ 8 mod 256 :: n mod 256 :: d)
      | Some vy, None =>
          let n := vw * 2 ^ 18 + vx * 2 ^ 12 + vy * 2 ^ 6 in
          if bool_decide (z = 61 /\ rest = []) then Some [n / 2 ^ 16; n / 2 ^ 8 mod 256] else None
      | _, _ =>
          let n := vw * 2 ^ 18 + vx * 2 ^ 12 in
          if bool_decide (y = 61 /\ z = 61 /\ rest = []) then Some [n / 2 ^ 16] else None
      end
  | _ => None
  end.

Lemma value_alphabet n : 0 <= n < 64 -> value (at_ kAlphabet n) = Some n.
Proof.
  intros. assert (Hall : forallb (fun n => bool_decide (value (at_ kAlphabet n) = Some n)) (seqZ 0 64) = true)
    by reflexivity.
  rewrite forallb_forall in Hall. apply (bool_decide_eq_true_1 _), Hall, list_elem_of_In, elem_of_seqZ. lia.
Qed.

Lemma value_sextet n k : 0 <= n -> 0 <= k -> value (sextet n k) = Some ((n / 2 ^ k) mod 64).
Proof.
  intros. unfold sextet. change 0x3f with (2 ^ 6 - 1).
  rewrite land_ones_mod, Z.shiftr_div_pow2 by lia. change (2 ^ 6) with 64.
  apply value_alphabet. apply Z.mod_pos_bound. lia.
Qed.

Lemma group_value a b c :
  is_byte a -> is_byte b -> is_byte c -> (a ≪ 16) .| (b ≪ 8) .| c = a * 2 ^ 16 + b * 2 ^ 8 + c.
Proof.
  unfold is_byte. intros. rewrite <- Z.lor_assoc, (lor_shiftl_add_l c), (lor_shiftl_add_l (_ + _)) by lia. lia.
Qed.

(** base64_encode is RFC 4648 base 64: the reference decoder recovers the data, and the text has four characters per started group of three bytes. *)
Theorem base64_roundtrip data :
  is_bytes data ->
  base64_decode (base64_encode data) = Some data /\ zlen (base64_encode data) = 4 * ((zlen data + 2) / 3).
Proof.
  intros Hb. remember (length data) as n eqn:Hn. revert data Hb Hn.
  induction (lt_wf n) as [n _ IH]. intros data Hb ->.
  assert (Hsx : forall m, 0 <= m < 2 ^ 24 ->
    (m / 2 ^ 18) mod 64 * 2 ^ 18 + (m / 2 ^ 12) mod 64 * 2 ^ 12 + (m / 2 ^ 6) mod 64 * 2 ^ 6
      + (m / 2 ^ 0) mod 64 = m).
  { intros m Hm. change (2 ^ 0) with 1. Z.div_mod_to_equations. lia. }
  destruct data as [|a [|b [|c rest]]]; [done| | |].
  - inversion Hb as [|? ? Ha _]. subst. unfold is_byte in Ha.
    cbn [base64_encode base64_decode]. rewrite Z.shiftl_mul_pow2, !value_sextet by lia.
    cbn [mbind option_bind]. change (value 61) with (@None Z). rewrite bool_decide_true by done.
    split; [|done]. specialize (Hsx (a * 2 ^ 16) ltac:(lia)). do 2 f_equal.
    Z.div_mod_to_equations. lia.
  - inversion Hb as [|? ? Ha Hb']. inversion Hb' as [|? ? Hbb _]. subst. unfold is_byte in *.
    cbn [base64_encode base64_decode].
    assert (E : (a ≪ 16) .| (b ≪ 8) = a * 2 ^ 16 + b * 2 ^ 8).
    { pose proof (group_value a b 0) as G. unfold is_byte in G. rewrite Z.lor_0_r in G. rewrite G by lia. lia. }
    rewrite E, !value_sextet by lia. cbn [mbind option_bind]. change (value 61) with (@None Z).
    rewrite bool_decide_true by done. split; [|done].
    set (n := a * 2 ^ 16 + b * 2 ^ 8) in *. specialize (Hsx n ltac:(subst n; lia)).
    assert (Hn0 : (n / 2 ^ 0) mod 64 = 0) by (subst n; change (2 ^ 0) with 1; Z.div_mod_to_equations; lia).
    assert (En : (n / 2 ^ 18) mod 64 * 2 ^ 18 + (n / 2 ^ 12) mod 64 * 2 ^ 12 + (n / 2 ^ 6) mod 64 * 2 ^ 6 = n) by lia.
    rewrite En. subst n. do 2 f_equal; [|f_equal]; Z.div_mod_to_equations; lia.
  - inversion Hb as [|? ? Ha Hb']. inversion Hb' as [|? ? Hbb Hb'']. inversion Hb'' as [|? ? Hc Hr]. subst.
    pose proof (group_value a b c Ha Hbb Hc) as E. unfold is_byte in *.
    destruct (IH (length rest) ltac:(simpl; lia) rest Hr eq_refl) as [Hd Hl].
    cbn [base64_encode app base64_decode]. rewrite E, !value_sextet by lia. cbn [mbind option_bind].
    rewrite Hsx by lia. rewrite Hd. cbn [mbind option_bind].
    split; [do 2 f_equal; [|f_equal; [|f_equal]]; Z.div_mod_to_equations; lia|].
    rewrite !zlen_cons, Hl. pose proof (zlen_nonneg rest). Z.div_mod_to_equations. lia.
Qed.

Lemma base64_roundtrip_witness :
  is_bytes (bs "ts2021!") /\ base64_decode (base64_encode (bs "ts2021!")) = Some (bs "ts2021!").
Proof. split; [apply bs_bytes|]. apply (base64_roundtrip (bs "ts2021!")), bs_bytes. Defined.

(** ** The control key document *)

Lemma ParseControlKey_document k rest :
  zlen k = 32 -> is_bytes k ->
  ParseControlKey (bs "{" ++ kControlKeyField ++ bs ":" ++ 34 :: kControlKeyPrefix ++ Identity.ToHex k ++ rest)
  = Some k.
Proof.
  intros Hk Hb. unfold ParseControlKey.
  set (doc := bs "{" ++ kControlKeyField ++ bs ":" ++ 34 :: kControlKeyPrefix ++ Identity.ToHex k ++ rest).
  change (FindFirst doc kControlKeyField 0) with (Some 1).
  change (default 0 (Some 1)) with 1. cbv zeta.
  change (FindFirst doc kControlKeyPrefix 1) with (Some 14). cbn [mbind option_bind].
  change (14 + zlen kControlKeyPrefix) with 19.
  assert (Hd : doc = (bs "{" ++ kControlKeyField ++ bs ":" ++ 34 :: kControlKeyPrefix) ++ Identity.ToHex k ++ rest)
    by reflexivity.
  pose proof (Identity.zlen_ToHex k) as Hh.
  assert (zlen doc = 19 + 64 + zlen rest) as ->.
  { rewrite Hd. match goal with |- zlen (?a ++ ?b) = _ => rewrite (zlen_app a b); change (zlen a) with 19 end.
    rewrite zlen_app, Hh, Hk. lia. }
  pose proof (zlen_nonneg rest). destruct (Z.ltb_spec (19 + 64 + zlen rest - 19) 64); [lia|].
  replace (slice 19 64 doc) with (Identity.ToHex k) by (symmetry; rewrite Hd; apply slice_app_mid; [done|lia]).
  rewrite <- Hk. by apply Identity.FromHex_ToHex.
Qed.

Lemma DecodeRecordHeader_app t n rest :
  0 <= n < 2 ^ 16 -> DecodeRecordHeader ([t; u8 (n ≫ 8); u8 n] ++ rest) = Some (t, n).
Proof.
  intros Hn. unfold DecodeRecordHeader. rewrite zlen_app. change (zlen [t; u8 (n ≫ 8); u8 n]) with 3.
  pose proof (zlen_nonneg rest). destruct (Z.ltb_spec (3 + zlen rest) kRecordHeaderLen).
  { unfold kRecordHeaderLen in *. lia. }
  change (at_ ([t; u8 (n ≫ 8); u8 n] ++ rest) 0) with t.
  change (at_ ([t; u8 (n ≫ 8); u8 n] ++ rest) 1) with (u8 (n ≫ 8)).
  change (at_ ([t; u8 (n ≫ 8); u8 n] ++ rest) 2) with (u8 n). do 2 f_equal.
  pose proof (u8_range (n ≫ 8)). pose proof (u8_range n). unfold is_byte in *.
  rewrite lor_shiftl_add_l by lia. pose proof (store16_be_value n Hn). rewrite u16_small; lia.
Qed.

End Control.
