(* ===== verification/Tls.v ===== *)
(** * Tls: the byte streams the protocol code reads and writes

    src/backend/tailscale/TSTls.cpp wraps OpenSSL over a socket (TlsClient.v).
    What its callers see is: [Read] returns some available bytes (at
    most what was asked for), 0 at the end of the stream, -2 on a receive
    timeout, -1 on an error; [Write] returns how many bytes it took or -1.  A
    stream is therefore the list of what the coming reads will find.  The
    response parser of [HttpsGet] is translated in full. *)

From S2P Require Import Prelude CLib.
Open Scope Z_scope.
Open Scope soto_scope.

Module Tls.

Inductive event := Data (c : bytes) | Timeout | Failed.
Abbreviation stream := (list event).

Inductive rd_result := Got (c : bytes) | Eof | TimedOut | Err.

(** A read of at most [n] bytes. *)
Definition Read (s : stream) (n : Z) : rd_result * stream :=
  match s with
  | [] => (Eof, [])
  | Data c :: s' =>
      if zlen c =? 0 then (Eof, s')
      else if zlen c <=? n then (Got c, s')
      else (Got (ztake n c), Data (zdrop n c) :: s')
  | Timeout :: s' => (TimedOut, s')
  | Failed :: s' => (Err, s')
  end.

(** A stream that only ever delivers bytes, and the bytes it holds. *)
Definition live (s : stream) : Prop := Forall (fun e => exists c, e = Data c /\ zlen c <> 0) s.
Fixpoint content (s : stream) : bytes :=
  match s with
  | Data c :: s => c ++ content s
  | _ :: s => content s
  | [] => []
  end.

(** [for (written = 0; written < len; written += n) { n = Write(...); if (n <= 0) fail; }]:
    [ws] are the results of the coming calls; the bytes that went out. *)
Fixpoint write_all (frame : bytes) (ws : list Z) : bool * bytes * list Z :=
  if zlen frame =? 0 then (true, [], ws)
  else
    match ws with
    | [] => (false, [], [])
    | n :: ws =>
        if n <=? 0 then (false, [], ws)
        else
          let n := Z.min n (zlen frame) in
          let '(ok, out, ws) := write_all (zdrop n frame) ws in
          (ok, ztake n frame ++ out, ws)
    end.

(** Status line and body of an HTTP/1 response, as HttpsGet splits them. *)
Definition HttpsGet_parse (raw : bytes) : option (Z * bytes) :=
  if zlen raw =? 0 then None
  else
    let status := match find_first 32 raw with Some sp => atoi (zdrop (sp + 1) raw) | None => 0 end in
    let body := match find_sub [13; 10; 13; 10] raw with Some sep => cstr (zdrop (sep + 4) raw) | None => raw end in
    Some (status, body).

Lemma Read_live s n :
  live s -> s <> [] -> 0 < n ->
  exists c s', Read s n = (Got c, s') /\ live s' /\ 0 < zlen c <= n /\ content s = c ++ content s'.
Proof.
  intros Hl Hs Hn. destruct s as [|e s]; [done|]. inversion Hl as [|? ? (c & -> & Hc) Hl']. subst.
  pose proof (zlen_nonneg c). cbn [Read]. destruct (Z.eqb_spec (zlen c) 0); [done|].
  destruct (Z.leb_spec (zlen c) n).
  - exists c, s. split_and!; [done|done|lia|lia|done].
  - exists (ztake n c), (Data (zdrop n c) :: s). split_and!; [done| | | |].
    + constructor; [|done]. eexists. split; [done|]. rewrite zlen_zdrop; lia.
    + rewrite zlen_ztake; lia.
    + rewrite zlen_ztake; lia.
    + cbn [content]. by rewrite app_assoc, ztake_zdrop.
Qed.

Lemma write_all_ok frame ws out ws' : write_all frame ws = (true, out, ws') -> out = frame.
Proof.
  revert frame out. induction ws as [|n ws IH]; intros frame out; cbn [write_all].
  - destruct (Z.eqb_spec (zlen frame) 0) as [Hz|]; [|done]. intros [= <- _]. symmetry. by apply zlen_0_nil.
  - destruct (Z.eqb_spec (zlen frame) 0) as [Hz|]; [intros [= <- _]; symmetry; by apply zlen_0_nil|].
    destruct (n <=? 0); [done|]. destruct (write_all (zdrop _ frame) ws) as [[ok o] w] eqn:E.
    intros [= -> <- <-]. rewrite (IH _ _ E). apply ztake_zdrop.
Qed.

End Tls.
