(* ===== verification/TlsClient.v ===== *)
(** * TlsClient: the sockets under the protocol code

    [TlsClient] and [HttpsGet] of src/backend/tailscale/TSTls.{h,cpp} and
    [StunQuery] of TSStun.cpp: what they ask of the socket and OpenSSL calls, in
    order ([log]), and what they make of the answers.  The answers are arguments.
    Error texts and the lock that serialises Read and Write are left out.  A
    read of this client is one event of the streams of Tls.v ([Read_is_event]). *)

From S2P Require Import Prelude CLib Endian Tls Stun.
Open Scope Z_scope.
Open Scope soto_scope.

Module TlsClient.

(** ** The calls *)

Inductive call :=
| CSocket (fd : Z) | CConnect (fd : Z) | CClose (fd : Z) | CShutdown (fd : Z) | CTimeout (fd seconds : Z)
| CCtxNew | CCtxFree | CMinTls12 | CVerifyNone | CVerifyPeer | CDefaultPaths
| CSslNew | CSslShutdown | CSslFree | CServerName (host : bytes) | CNoPartialWildcards | CVerifyHost (host : bytes)
| CSetFd (fd : Z) | CHandshake
| CSend (data : bytes).

(** What the calls of one Connect answer: the addresses of the host, [None] when
    it does not resolve, each with what socket returns and whether connect
    succeeds; then whether the OpenSSL calls do. *)
Record answers := mkAnswers { a_addrs : option (list (Z * bool)); a_ctx : bool; a_ssl : bool; a_handshake : bool }.

Record client := mkClient { fSocket : Z; fCtx : bool; fSsl : bool; fInsecure : bool; log : list call }.

Definition TlsClient : client := mkClient (-1) false false false [].

Definition calls (l : list call) (c : client) : client := mkClient (fSocket c) (fCtx c) (fSsl c) (fInsecure c) (log c ++ l).
Definition with_socket (fd : Z) (c : client) : client := mkClient fd (fCtx c) (fSsl c) (fInsecure c) (log c).
Definition with_ctx (b : bool) (c : client) : client := mkClient (fSocket c) b (fSsl c) (fInsecure c) (log c).
Definition with_ssl (b : bool) (c : client) : client := mkClient (fSocket c) (fCtx c) b (fInsecure c) (log c).

Definition SetInsecure (b : bool) (c : client) : client := mkClient (fSocket c) (fCtx c) (fSsl c) b (log c).

Definition Close (c : client) : client :=
  let c := if fSsl c then with_ssl false (calls [CSslShutdown; CSslFree] c) else c in
  let c := if fCtx c then with_ctx false (calls [CCtxFree] c) else c in
  if 0 <=? fSocket c then with_socket (-1) (calls [CClose (fSocket c)] c) else c.

(** The addresses in turn, until one connects. *)
Fixpoint try_addresses (addrs : list (Z * bool)) : Z * list call :=
  match addrs with
  | [] => (-1, [])
  | (fd, ok) :: rest =>
      if fd <? 0 then try_addresses rest
      else if ok then (fd, [CSocket fd; CConnect fd])
      else let '(r, l) := try_addresses rest in (r, [CSocket fd; CConnect fd; CClose fd] ++ l)
  end.

Definition Connect (host : bytes) (a : answers) (c : client) : status * client :=
  if zlen host =? 0 then (B_BAD_VALUE, c)
  else if fSsl c then (B_NOT_ALLOWED, c)
  else
    match a_addrs a with
    | None | Some [] => (B_NAME_NOT_FOUND, c)
    | Some addrs =>
        let '(fd, l) := try_addresses addrs in
        let c := calls l c in
        if fd <? 0 then (B_ERROR, c)
        else
          let c := calls [CTimeout fd 30] (with_socket fd c) in
          if negb (a_ctx a) then (B_ERROR, Close c)
          else
            let c := calls [CCtxNew; CMinTls12] (with_ctx true c) in
            let c := calls (if fInsecure c then [CVerifyNone] else [CVerifyPeer; CDefaultPaths]) c in
            if negb (a_ssl a) then (B_ERROR, Close c)
            else
              let c := calls [CSslNew; CServerName host] (with_ssl true c) in
              let c := calls (if fInsecure c then [] else [CNoPartialWildcards; CVerifyHost host]) c in
              let c := calls [CSetFd (fSocket c); CHandshake] c in
              if negb (a_handshake a) then (B_ERROR, Close c) else (B_OK, c)
    end.

Definition SetReadTimeout (seconds : Z) (c : client) : client :=
  if fSocket c <? 0 then c else calls [CTimeout (fSocket c) seconds] c.

Definition Shutdown (c : client) : client := if 0 <=? fSocket c then calls [CShutdown (fSocket c)] c else c.

(** [n] is what SSL_write returns. *)
Definition Write (data : bytes) (n : Z) (c : client) : Z * client :=
  if negb (fSsl c) then (-1, c) else let c := calls [CSend data] c in (if n <=? 0 then -1 else n, c).

(** What SSL_read answers: bytes, or the error with the errno it left. *)
Inductive ssl_error := SSL_ERROR_ZERO_RETURN | SSL_ERROR_WANT_READ | SSL_ERROR_WANT_WRITE | SSL_ERROR_SYSCALL | SSL_ERROR_OTHER.
Inductive errno := ENONE | EAGAIN | EWOULDBLOCK | ETIMEDOUT | EOTHER.
Inductive ssl_read := Bytes (b : bytes) | SslError (e : ssl_error) (n : errno).

Definition Read (r : ssl_read) (c : client) : Tls.rd_result :=
  if negb (fSsl c) then Tls.Err
  else
    match r with
    | Bytes b => Tls.Got b
    | SslError SSL_ERROR_ZERO_RETURN _ => Tls.Eof
    | SslError (SSL_ERROR_WANT_READ | SSL_ERROR_WANT_WRITE) _ => Tls.TimedOut
    | SslError SSL_ERROR_SYSCALL ENONE => Tls.Eof
    | SslError SSL_ERROR_SYSCALL (EAGAIN | EWOULDBLOCK | ETIMEDOUT) => Tls.TimedOut
    | SslError _ _ => Tls.Err
    end.

(** ** HttpsGet *)

Definition crlf : bytes := [13; 10].
Definition https_request (host path : bytes) : bytes :=
  bs "GET " ++ path ++ bs " HTTP/1.1" ++ crlf ++ bs "Host: " ++ host ++ crlf ++ bs "User-Agent: Sotoportego/0.1" ++ crlf
  ++ bs "Accept: */*" ++ crlf ++ bs "Connection: close" ++ crlf ++ crlf.

(** Reading up to the first call that brings no bytes; each call has an answer. *)
Fixpoint read_all (rs : list ssl_read) (c : client) : bytes :=
  match rs with
  | [] => []
  | r :: rs => match Read r c with Tls.Got b => b ++ read_all rs c | _ => [] end
  end.

(** [n] is what SSL_write returns; the client's destructor closes it. *)
Definition HttpsGet (host path : bytes) (insecure : bool) (a : answers) (n : Z) (rs : list ssl_read)
    : status * option (Z * bytes) * client :=
  let c := SetInsecure insecure TlsClient in
  match Connect host a c with
  | (B_OK, c) =>
      let '(w, c) := Write (https_request host path) n c in
      if w <? 0 then (B_IO_ERROR, None, Close c)
      else
        let raw := read_all rs c in
        let c := Close (Close c) in
        match Tls.HttpsGet_parse raw with
        | None => (B_IO_ERROR, None, c)
        | Some r => (B_OK, Some r, c)
        end
  | (e, c) => (e, None, Close c)
  end.

(** ** StunQuery *)

(** [sock] is what socket returns, [sent] what sendto does, [got] the datagram
    recvfrom brings, if it brings one; the calls on the socket are listed. *)
Definition StunQuery (resolves : bool) (sock : Z) (txId : bytes) (sent : Z) (got : option bytes)
    : option (status * option (bytes * Z) * list call) :=
  if negb resolves then Some (B_NAME_NOT_FOUND, None, [])
  else if sock <? 0 then Some (B_ERROR, None, [])
  else
    let opened := [CSocket sock; CTimeout sock 5; CSend (Stun.StunBuildRequest txId)] in
    let close result out := Some (result, out, opened ++ [CClose sock]) in
    if negb (sent =? 20) then close B_ERROR None
    else
      match got with
      | None | Some [] => close B_TIMED_OUT None
      | Some buf =>
          r ← Stun.StunParseResponse (ztake 512 buf) txId;
          match r with Some out => close B_OK (Some out) | None => close B_ERROR None end
      end.

(** ** Reads are the events of Tls.v *)

Definition event_of (r : ssl_read) : Tls.event :=
  match r with
  | Bytes b => Tls.Data b
  | SslError SSL_ERROR_ZERO_RETURN _ | SslError SSL_ERROR_SYSCALL ENONE => Tls.Data []
  | SslError (SSL_ERROR_WANT_READ | SSL_ERROR_WANT_WRITE) _ | SslError SSL_ERROR_SYSCALL (EAGAIN | EWOULDBLOCK | ETIMEDOUT) => Tls.Timeout
  | SslError _ _ => Tls.Failed
  end.

Lemma Read_is_event r c n s :
  fSsl c = true -> (forall b, r = Bytes b -> 0 < zlen b <= n) -> Tls.Read (event_of r :: s) n = (Read r c, s).
Proof.
  intros Hc Hb. unfold Read. rewrite Hc. cbn [negb]. destruct r as [b|e m]; cbn [event_of Tls.Read].
  - specialize (Hb b eq_refl). destruct (Z.eqb_spec (zlen b) 0); [lia|]. destruct (Z.leb_spec (zlen b) n); [done|lia].
  - by destruct e, m.
Qed.

(** ** Nothing leaks *)

(** What a list of calls leaves held, a call of each pair counting +1 and the other -1. *)
Definition net (f : call -> Z) (l : list call) : Z := fold_right (fun x n => f x + n) 0 l.
Definition on_fd (fd : Z) (x : call) : Z :=
  match x with CSocket f => Z.b2z (f =? fd) | CClose f => - Z.b2z (f =? fd) | _ => 0 end.
Definition on_ctx (x : call) : Z := match x with CCtxNew => 1 | CCtxFree => -1 | _ => 0 end.
Definition on_ssl (x : call) : Z := match x with CSslNew => 1 | CSslFree => -1 | _ => 0 end.

Lemma net_app f l k : net f (l ++ k) = net f l + net f k.
Proof. unfold net. induction l as [|x l IH]; [done|]. cbn. rewrite IH. lia. Qed.

Lemma net_cons f x l : net f (x :: l) = f x + net f l.
Proof. done. Qed.

(** The fields say what is held. *)
Record held (c : client) : Prop := {
  h_fd : forall fd, 0 <= fd -> net (on_fd fd) (log c) = Z.b2z (fSocket c =? fd);
  h_ctx : net on_ctx (log c) = Z.b2z (fCtx c);
  h_ssl : net on_ssl (log c) = Z.b2z (fSsl c) }.

(** Calls that neither open nor close. *)
Definition neutral (x : call) : bool :=
  match x with CSocket _ | CClose _ | CCtxNew | CCtxFree | CSslNew | CSslFree => false | _ => true end.

Lemma net_neutral f l : (forall x, neutral x = true -> f x = 0) -> forallb neutral l = true -> net f l = 0.
Proof. intros Hf. induction l as [|x l IH]; [done|]. intros [Hx Hl]%andb_true_iff. change (f x + net f l = 0). by rewrite Hf, IH. Qed.

Lemma held_neutral l c : forallb neutral l = true -> held c -> held (calls l c).
Proof.
  intros Hl [H1 H2 H3]. constructor; cbn [calls log fSocket fCtx fSsl]; intros; rewrite net_app.
  - rewrite H1, (net_neutral (on_fd fd)) by (done || by intros []). lia.
  - rewrite H2, (net_neutral on_ctx) by (done || by intros []). lia.
  - rewrite H3, (net_neutral on_ssl) by (done || by intros []). lia.
Qed.

Lemma held_Close c : held c -> held (Close c) /\ fSocket (Close c) < 0 /\ fCtx (Close c) = false /\ fSsl (Close c) = false.
Proof.
  intros [H1 H2 H3]. unfold Close. destruct (fSsl c) eqn:Es, (fCtx c) eqn:Ec; cbn [calls with_ssl with_ctx fSsl fCtx fSocket];
    rewrite ?Ec; cbn [calls with_ssl with_ctx fSsl fCtx fSocket]; destruct (Z.leb_spec 0 (fSocket c)) as [Hs|Hs];
    (split; [constructor; cbn [calls with_ssl with_ctx with_socket fSsl fCtx fSocket log]; intros; rewrite ?net_app, ?H2, ?H3, ?H1 by done;
             cbn [net fold_right on_fd on_ctx on_ssl Z.b2z]; rewrite ?Es, ?Ec; cbn [Z.b2z]; try lia|cbn; rewrite ?Es, ?Ec; split_and!; (done || lia)]).
  all: destruct (Z.eqb_spec (-1) fd); cbn [Z.b2z]; lia.
Qed.

Lemma try_addresses_net addrs fd l :
  try_addresses addrs = (fd, l) ->
  (forall f, 0 <= f -> net (on_fd f) l = if fd <? 0 then 0 else Z.b2z (fd =? f)) /\ net on_ctx l = 0 /\ net on_ssl l = 0.
Proof.
  revert fd l. induction addrs as [|[a ok] addrs IH]; intros fd l; cbn [try_addresses]; [intros [= <- <-]; done|].
  destruct (Z.ltb_spec a 0) as [Ha|Ha]; [apply IH|]. destruct ok.
  - intros [= <- <-]. split_and!; [|done|done]. intros f Hf. destruct (Z.ltb_spec a 0); [lia|]. cbn. destruct (a =? f); done.
  - destruct (try_addresses addrs) as [r k]. intros [= -> <-]. destruct (IH fd k eq_refl) as (I1 & I2 & I3). cbn [app]. split_and!; rewrite ?net_cons; [|by rewrite I2|by rewrite I3].
    intros f Hf. rewrite !net_cons, I1 by done. cbn [on_fd]. destruct (a =? f); cbn [Z.b2z]; lia.
Qed.

(** A client that is not connected holds nothing. *)
Definition closed (c : client) : Prop := fSocket c < 0 /\ fCtx c = false /\ fSsl c = false.

(** A failed Connect leaves a closed client behind. *)
Lemma Connect_holds host a c :
  held c -> closed c -> held (snd (Connect host a c)) /\ (fst (Connect host a c) = B_OK \/ closed (snd (Connect host a c))).
Proof.
  intros Hh (Hs & Hc & Hl). unfold Connect. rewrite Hl.
  assert (Same : forall st, held (snd (st, c)) /\ (fst (st, c) = B_OK \/ closed (snd (st, c)))) by (intros st; split; [exact Hh|right; by split_and!]).
  destruct (_ =? 0); [apply Same|]. destruct (a_addrs a) as [[|x xs]|]; [apply Same| |apply Same].
  destruct (try_addresses (x :: xs)) as [fd l] eqn:E. destruct (try_addresses_net _ _ _ E) as (N1 & N2 & N3). cbv zeta.
  assert (H1 : fd < 0 -> held (calls l c)).
  { intros Hfd. destruct Hh as [A1 A2 A3]. constructor; cbn [calls log fSocket fCtx fSsl]; intros; rewrite net_app; [rewrite A1, N1 by done|lia..].
    destruct (Z.ltb_spec fd 0); lia. }
  destruct (Z.ltb_spec fd 0) as [Hfd|Hfd]; [cbn [fst snd]; split; [by apply H1|right; by split_and!]|].
  set (c1 := calls [CTimeout fd 30] (with_socket fd (calls l c))).
  assert (K1 : held c1 /\ fCtx c1 = false /\ fSsl c1 = false).
  { split; [|done]. apply held_neutral; [done|]. destruct Hh as [A1 A2 A3]. constructor; cbn [calls with_socket log fSocket fCtx fSsl]; intros; rewrite net_app.
    - rewrite A1, N1 by done. destruct (Z.eqb_spec (fSocket c) fd0), (Z.ltb_spec fd 0); cbn [Z.b2z]; lia.
    - lia.
    - lia. }
  clearbody c1. clear -K1. destruct K1 as ([A1 A2 A3] & E1 & E2).
  assert (Fail : forall c, held c -> held (snd (B_ERROR, Close c)) /\ (fst (B_ERROR, Close c) = B_OK \/ closed (snd (B_ERROR, Close c)))).
  { intros c Hc. cbn [fst snd]. destruct (held_Close c Hc) as (? & ? & ? & ?). split; [done|right; by split_and!]. }
  destruct (negb (a_ctx a)); [by apply Fail|]. set (c2 := calls [CCtxNew; CMinTls12] (with_ctx true c1)).
  assert (K2 : held c2).
  { constructor; unfold c2; cbn [calls with_ctx log fSocket fCtx fSsl]; intros; rewrite net_app, ?A1, ?A2, ?A3, ?E1 by done; cbn; lia. }
  assert (E3 : fSsl c2 = false) by exact E2. clearbody c2. set (c3 := calls _ c2).
  assert (K3 : held c3) by (apply held_neutral; [by destruct (fInsecure c2)|done]). assert (E4 : fSsl c3 = false) by exact E3. clearbody c3.
  destruct (negb (a_ssl a)); [by apply Fail|]. set (c4 := calls [CSslNew; CServerName host] (with_ssl true c3)).
  assert (K4 : held c4).
  { destruct K3 as [B1 B2 B3]. constructor; unfold c4; cbn [calls with_ssl log fSocket fCtx fSsl]; intros; rewrite net_app, ?B1, ?B2, ?B3, ?E4 by done; cbn; lia. }
  clearbody c4. set (c5 := calls _ (calls _ c4)).
  assert (K5 : held c5) by (apply held_neutral; [done|]; apply held_neutral; [by destruct (fInsecure c4)|done]). clearbody c5.
  destruct (negb (a_handshake a)); [by apply Fail|]. split; [done|by left].
Qed.

(** A one-shot fetch gives everything back: whatever the network, OpenSSL and
    the server do, each descriptor, context and session it opened is closed or
    freed exactly once when it returns. *)
Theorem HttpsGet_leaks_nothing host path insecure a n rs :
  let '(_, _, c) := HttpsGet host path insecure a n rs in
  (forall fd, 0 <= fd -> net (on_fd fd) (log c) = 0) /\ net on_ctx (log c) = 0 /\ net on_ssl (log c) = 0.
Proof.
  assert (D : forall c, held c -> (forall fd, 0 <= fd -> net (on_fd fd) (log (Close c)) = 0) /\ net on_ctx (log (Close c)) = 0 /\ net on_ssl (log (Close c)) = 0).
  { intros c Hc. destruct (held_Close c Hc) as ([D1 D2 D3] & E1 & E2 & E3). rewrite E2 in D2. rewrite E3 in D3. split_and!; [|done|done].
    intros fd Hfd. rewrite D1 by done. destruct (Z.eqb_spec (fSocket (Close c)) fd); [lia|done]. }
  unfold HttpsGet. set (c0 := SetInsecure insecure TlsClient).
  assert (H0 : held c0) by (constructor; [intros fd Hfd; change (0 = Z.b2z (-1 =? fd)); destruct (Z.eqb_spec (-1) fd); [lia|done]|done|done]).
  destruct (Connect_holds host a c0 H0 ltac:(by split_and!)) as [H1 _]. destruct (Connect host a c0) as [st c]. cbn [fst snd] in H1.
  destruct st; try by apply D. unfold Write.
  assert (H2 : held (snd (if negb (fSsl c) then (-1, c) else (if n <=? 0 then -1 else n, calls [CSend (https_request host path)] c))))
    by (destruct (negb (fSsl c)); [done|by apply held_neutral]).
  destruct (if negb (fSsl c) then (-1, c) else _) as [w c2]. cbn [snd] in H2. destruct (w <? 0); [by apply D|].
  destruct (Tls.HttpsGet_parse _); apply D; by apply held_Close.
Qed.

(** ** What is verified before anything is sent *)

Definition is_send (x : call) : bool := match x with CSend _ => true | _ => false end.
Definition sends (l : list call) : bool := existsb is_send l.

Lemma sends_app l k : sends (l ++ k) = sends l || sends k.
Proof. apply existsb_app. Qed.

Lemma Close_trace c : exists k, log (Close c) = log c ++ k /\ sends k = false.
Proof.
  unfold Close. destruct (fSsl c); cbn [calls with_ssl fCtx]; destruct (fCtx c); cbn [calls with_ctx with_ssl fSocket];
    destruct (_ <=? _); cbn [calls with_ctx with_ssl with_socket log]; rewrite <- ?app_assoc; eexists; (split; [try reflexivity; by rewrite app_nil_r|done]).
Qed.

Lemma try_addresses_trace addrs : sends (snd (try_addresses addrs)) = false.
Proof.
  induction addrs as [|[a ok] addrs IH]; [done|]. cbn [try_addresses]. destruct (a <? 0); [done|]. destruct ok; [done|].
  by destruct (try_addresses addrs).
Qed.

(** The calls that switch verification on for a host, then the handshake. *)
Definition verified (host : bytes) (fd : Z) : list call :=
  [CVerifyPeer; CDefaultPaths; CSslNew; CServerName host; CNoPartialWildcards; CVerifyHost host; CSetFd fd; CHandshake].

Lemma Connect_trace host a c :
  let '(st, c') := Connect host a c in
  exists l, log c' = log c ++ l /\ sends l = false /\
    (st = B_OK -> a_handshake a = true /\ (fInsecure c = false -> exists l1 fd, l = l1 ++ verified host fd)).
Proof.
  assert (Same : forall st, st <> B_OK -> exists l, log c = log c ++ l /\ sends l = false /\
    (st = B_OK -> a_handshake a = true /\ (fInsecure c = false -> exists l1 fd, l = l1 ++ verified host fd)))
    by (intros st Hst; exists []; by rewrite app_nil_r).
  assert (Fail : forall c1 l, log c1 = log c ++ l -> sends l = false -> exists l, log (Close c1) = log c ++ l /\ sends l = false /\
    (B_ERROR = B_OK -> a_handshake a = true /\ (fInsecure c = false -> exists l1 fd, l = l1 ++ verified host fd))).
  { intros c1 l E Hl. destruct (Close_trace c1) as (k & Ek & Hk). exists (l ++ k). rewrite Ek, E, sends_app, Hl, Hk, <- app_assoc. done. }
  unfold Connect. destruct (_ =? 0); [by apply Same|]. destruct (fSsl c); [by apply Same|].
  destruct (a_addrs a) as [[|x xs]|]; [by apply Same| |by apply Same].
  pose proof (try_addresses_trace (x :: xs)) as T. destruct (try_addresses (x :: xs)) as [fd l]. cbn [snd] in T. cbv zeta.
  destruct (fd <? 0); [exists l; by split_and!|].
  destruct (negb (a_ctx a)).
  { apply (Fail _ (l ++ [CTimeout fd 30])); [cbn [calls with_socket log]; by rewrite <- app_assoc|by rewrite sends_app, T]. }
  cbn [calls with_socket with_ctx with_ssl log fInsecure fSocket]. destruct (negb (a_ssl a)).
  { eapply Fail; [cbn [calls with_socket with_ctx with_ssl log]; rewrite <- !app_assoc; reflexivity|].
    rewrite !sends_app, T. by destruct (fInsecure c). }
  destruct (a_handshake a); cbn [negb].
  - eexists. split; [cbn [calls with_socket with_ctx with_ssl log]; rewrite <- !app_assoc; reflexivity|]. split.
    + rewrite !sends_app, T. by destruct (fInsecure c).
    + intros _. split; [done|]. intros ->. exists (l ++ [CTimeout fd 30; CCtxNew; CMinTls12]), fd. rewrite <- app_assoc. reflexivity.
  - eapply Fail; [cbn [calls with_socket with_ctx with_ssl log]; rewrite <- !app_assoc; reflexivity|].
    rewrite !sends_app, T. by destruct (fInsecure c).
Qed.

(** The request leaves only through a session whose handshake succeeded and,
    unless the caller asked for an insecure one, only after the peer's
    verification against the host name was switched on for that session. *)
Theorem HttpsGet_verifies host path insecure a n rs :
  let '(_, _, c) := HttpsGet host path insecure a n rs in
  sends (log c) = true ->
  a_handshake a = true /\ (insecure = false -> exists l fd k, log c = l ++ verified host fd ++ k /\ sends l = false).
Proof.
  unfold HttpsGet. set (c0 := SetInsecure insecure TlsClient). pose proof (Connect_trace host a c0) as T. destruct (Connect host a c0) as [st c].
  destruct T as (l & El & Hl & Hok). change (log c0) with (@nil call) in El. cbn [app] in El.
  assert (Failed : st <> B_OK -> sends (log (Close c)) = false).
  { intros _. destruct (Close_trace c) as (k & -> & Hk). by rewrite sends_app, El, Hl, Hk. }
  assert (Sent : forall c', st = B_OK -> (exists k, log c' = l ++ k) ->
    a_handshake a = true /\ (insecure = false -> exists l fd k, log c' = l ++ verified host fd ++ k /\ sends l = false)).
  { intros c' Hst (k & E). destruct (Hok Hst) as [Hh Hv]. split; [exact Hh|]. intros Hi. destruct (Hv Hi) as (l1 & fd & ->).
    exists l1, fd, k. rewrite E, <- app_assoc. split; [done|]. rewrite sends_app in Hl. by apply orb_false_iff in Hl as [Hl _]. }
  assert (More : forall c1, (exists k, log c1 = l ++ k) -> exists k, log (Close c1) = l ++ k).
  { intros c1 (k & E). destruct (Close_trace c1) as (k' & -> & _). exists (k ++ k'). by rewrite E, <- app_assoc. }
  destruct st; try (intros Hs; by rewrite Failed in Hs). unfold Write. clear Failed Hok.
  assert (W : exists k, log (snd (if negb (fSsl c) then (-1, c) else (if n <=? 0 then -1 else n, calls [CSend (https_request host path)] c))) = l ++ k)
    by (destruct (negb (fSsl c)); [exists []; cbn [snd]; by rewrite El, app_nil_r|eexists; cbn [snd calls log]; by rewrite El]).
  destruct (if negb (fSsl c) then (-1, c) else _) as [w c2]. cbn [snd] in W.
  destruct (w <? 0); [|destruct (Tls.HttpsGet_parse _)]; intros _; apply Sent; auto.
Qed.

(** A response cut off by an error or a timeout is taken for a whole one. *)
Example cut_off_is_ok :
  fst (HttpsGet (bs "h") (bs "/key") false (mkAnswers (Some [(3, true)]) true true true) 80
    [Bytes (bs "HTTP/1.1 200 OK" ++ crlf ++ crlf ++ bs "half"); SslError SSL_ERROR_WANT_READ EAGAIN]) = (B_OK, Some (200, bs "half")).
Proof. vm_compute. reflexivity. Qed.

(** The socket of a STUN query is closed whatever happens. *)
Theorem StunQuery_closes resolves sock txId sent got :
  0 <= sock -> (forall buf, got = Some buf -> is_bytes buf) ->
  exists r out l, StunQuery resolves sock txId sent got = Some (r, out, l) /\ forall fd, net (on_fd fd) l = 0.
Proof.
  intros Hs Hb. unfold StunQuery. destruct resolves; cbn [negb]; [|by eexists _, _, _; split; [reflexivity|]].
  destruct (Z.ltb_spec sock 0); [lia|]. cbv zeta.
  assert (N : forall fd, net (on_fd fd) ([CSocket sock; CTimeout sock 5; CSend (Stun.StunBuildRequest txId)] ++ [CClose sock]) = 0)
    by (intros fd; cbn; destruct (sock =? fd); done).
  destruct (negb _); [by eexists _, _, _; split; [reflexivity|]|]. destruct got as [[|x buf]|]; try by eexists _, _, _; split; [reflexivity|].
  destruct (Stun.StunParseResponse_safe (ztake 512 (x :: buf)) txId) as [r ->].
  { specialize (Hb _ eq_refl). rewrite <- (ztake_zdrop 512 (x :: buf)) in Hb. by apply Forall_app in Hb as [Hb _]. }
  cbn [mbind option_bind]. destruct r; by eexists _, _, _; split; [reflexivity|].
Qed.

End TlsClient.
