(* ===== verification/ControlConn.v ===== *)
(** * ControlConn: the encrypted record stream of the control channel

    src/backend/tailscale/TSControlConn.cpp, class [ControlConn], over the
    streams of Tls.v.  The object is passed explicitly.  [_ReadFull]'s loop is
    given the requested length as fuel: each pass reads at least one byte. *)

From S2P Require Import Prelude Endian Crypto Control Tls.
Import Crypto Control.
Open Scope Z_scope.
Open Scope soto_scope.

Module ControlConn.

Definition kTagLen : Z := 16.
Definition kMaxPlaintextPerRecord : Z := 4077.

Record conn := mkConn {
  fTls : bool; fTxKey : bytes; fRxKey : bytes; fTxCounter : Z; fRxCounter : Z;
  fPending : bytes; fPendingOff : Z }.

Definition ControlConn : conn := mkConn false (zeros 32) (zeros 32) 0 0 [] 0.

(** [pending] longer than the 8192-byte buffer is ignored. *)
Definition Init (sendKey recvKey pending : bytes) : conn :=
  mkConn true sendKey recvKey 0 0
    (if (zlen pending >? 0) && (zlen pending <=? 8192) then pending else []) 0.

Definition with_tx (c : conn) (n : Z) : conn :=
  mkConn (fTls c) (fTxKey c) (fRxKey c) n (fRxCounter c) (fPending c) (fPendingOff c).
Definition with_rx (c : conn) (n : Z) : conn :=
  mkConn (fTls c) (fTxKey c) (fRxKey c) (fTxCounter c) n (fPending c) (fPendingOff c).
Definition with_off (c : conn) (off : Z) : conn :=
  mkConn (fTls c) (fTxKey c) (fRxKey c) (fTxCounter c) (fRxCounter c) (fPending c) off.

Fixpoint read_loop (fuel : nat) (len : Z) (got : bytes) (s : Tls.stream) : status * bytes * Tls.stream :=
  match fuel with
  | O => (B_OK, got, s)
  | S fuel =>
      if negb (zlen got <? len) then (B_OK, got, s)
      else
        match Tls.Read s (len - zlen got) with
        | (Tls.TimedOut, s) => ((if zlen got =? 0 then B_WOULD_BLOCK else B_IO_ERROR), got, s)
        | (Tls.Eof, s) => ((if zlen got =? 0 then B_ENTRY_NOT_FOUND else B_IO_ERROR), got, s)
        | (Tls.Err, s) => (B_IO_ERROR, got, s)
        | (Tls.Got c, s) => read_loop fuel len (got ++ c) s
        end
  end.

Definition _ReadFull (c : conn) (s : Tls.stream) (len : Z) : status * bytes * conn * Tls.stream :=
  let avail := zlen (fPending c) - fPendingOff c in
  let take := if fPendingOff c <? zlen (fPending c) then Z.min avail len else 0 in
  let got := slice (fPendingOff c) take (fPending c) in
  let '(st, buf, s) := read_loop (S (Z.to_nat len)) len got s in
  (st, buf, with_off c (fPendingOff c + take), s).

Section WithOpenSSL.
Context `{OpenSSL}.

(** One pass of WriteMessage's loop: the frame of the next chunk. *)
Definition seal_frame (c : conn) (chunk : bytes) : option bytes :=
  let cipherLen := zlen chunk + kTagLen in
  cipher ← aead_seal (fTxKey c) (fTxCounter c) chunk;
  Some ([CONTROL_MSG_RECORD; u8 (cipherLen ≫ 8); u8 (cipherLen .& 0xff)] ++ cipher).

(** [out] is what reached the stream. *)
Fixpoint write_loop (fuel : nat) (c : conn) (p : bytes) (ws : list Z) : status * bytes * conn :=
  match fuel with
  | O => (B_OK, [], c)
  | S fuel =>
      let chunk := Z.min (zlen p) kMaxPlaintextPerRecord in
      match seal_frame c (ztake chunk p) with
      | None => (B_ERROR, [], c)
      | Some frame =>
          let c := with_tx c (u64 (fTxCounter c + 1)) in
          let '(ok, out, ws) := Tls.write_all frame ws in
          if negb ok then (B_IO_ERROR, out, c)
          else
            let p := zdrop chunk p in
            if zlen p >? 0 then
              let '(st, out', c) := write_loop fuel c p ws in (st, out ++ out', c)
            else (B_OK, out, c)
      end
  end.

Definition WriteMessage (c : conn) (data : bytes) (ws : list Z) : status * bytes * conn :=
  if negb (fTls c) then (B_NO_INIT, [], c) else write_loop (S (length data)) c data ws.

(** What ReadRecord returns: a plaintext, 0 at a clean end, -2, or -1. *)
Inductive record_result := Record_ (plain : bytes) | RecordEof | RecordTimeout | RecordError.

Definition ReadRecord (c : conn) (s : Tls.stream) (cap : Z) : record_result * conn * Tls.stream :=
  if negb (fTls c) then (RecordError, c, s)
  else
    let '(st, header, c, s) := _ReadFull c s kRecordHeaderLen in
    match st with
    | B_ENTRY_NOT_FOUND => (RecordEof, c, s)
    | B_WOULD_BLOCK => (RecordTimeout, c, s)
    | B_OK =>
        let type := at_ header 0 in
        let cipherLen := (at_ header 1 ≪ 8) .| at_ header 2 in
        if negb (type =? CONTROL_MSG_RECORD) || (cipherLen <? kTagLen) then (RecordError, c, s)
        else if cipherLen - kTagLen >? cap then (RecordError, c, s)
        else if cipherLen >? kMaxPlaintextPerRecord + kTagLen then (RecordError, c, s)
        else
          let '(st, cipher, c, s) := _ReadFull c s cipherLen in
          match st with
          | B_OK =>
              match aead_open (fRxKey c) (fRxCounter c) cipher with
              | None => (RecordError, c, s)
              | Some plain => (Record_ plain, with_rx c (u64 (fRxCounter c + 1)), s)
              end
          | _ => (RecordError, c, s)
          end
    | _ => (RecordError, c, s)
    end.

(** Reading [n] records one after the other. *)
Fixpoint read_records (n : nat) (c : conn) (s : Tls.stream) (cap : Z)
    : option (list bytes) * conn * Tls.stream :=
  match n with
  | O => (Some [], c, s)
  | S n =>
      match ReadRecord c s cap with
      | (Record_ p, c, s) =>
          let '(r, c, s) := read_records n c s cap in ((fun l => p :: l) <$> r, c, s)
      | (_, c, s) => (None, c, s)
      end
  end.
End WithOpenSSL.

(** ** Reading exactly *)

(** The bytes the connection will read next, and its well-formedness. *)
Definition avail (c : conn) (s : Tls.stream) : bytes := zdrop (fPendingOff c) (fPending c) ++ Tls.content s.
Definition wf (c : conn) (s : Tls.stream) : Prop :=
  fTls c = true /\ 0 <= fPendingOff c <= zlen (fPending c) /\ Tls.live s.

Lemma read_loop_spec fuel len got s :
  Tls.live s -> zlen got <= len -> len - zlen got <= zlen (Tls.content s) ->
  len - zlen got < Z.of_nat fuel ->
  exists s', read_loop fuel len got s = (B_OK, got ++ ztake (len - zlen got) (Tls.content s), s')
    /\ Tls.live s' /\ Tls.content s' = zdrop (len - zlen got) (Tls.content s).
Proof.
  revert got s. induction fuel as [|fuel IH]; intros got s Hl Hg Hc Hf; [lia|].
  cbn [read_loop]. destruct (Z.ltb_spec (zlen got) len).
  - cbn [negb]. assert (s <> []) by (intros ->; change (zlen (Tls.content [])) with 0 in Hc; lia).
    destruct (Tls.Read_live s (len - zlen got) Hl) as (c & s1 & -> & Hl1 & Hn & E); [done|lia|].
    rewrite E in *. rewrite zlen_app in Hc.
    destruct (IH (got ++ c) s1) as (s' & -> & Hl' & E'); [done|rewrite zlen_app; lia..|].
    exists s'. rewrite E', <- app_assoc, zlen_app.
    rewrite ztake_app_ge, zdrop_app_ge by lia.
    by replace (len - (zlen got + zlen c)) with (len - zlen got - zlen c) by lia.
  - assert (len - zlen got = 0) as -> by lia. exists s. cbn [negb]. rewrite app_nil_r. done.
Qed.

Lemma ReadFull_spec c s len :
  wf c s -> 0 < len <= zlen (avail c s) ->
  exists off s', _ReadFull c s len = (B_OK, ztake len (avail c s), with_off c off, s')
    /\ wf (with_off c off) s' /\ avail (with_off c off) s' = zdrop len (avail c s).
Proof.
  intros (Ht & Ho & Hl) Hn. unfold _ReadFull, avail in *.
  set (rest := zdrop (fPendingOff c) (fPending c)) in *.
  assert (Hr : zlen rest = zlen (fPending c) - fPendingOff c) by (by apply zlen_zdrop).
  rewrite zlen_app in Hn.
  set (take := if fPendingOff c <? zlen (fPending c) then _ else 0).
  assert (Htk : take = Z.min (zlen rest) len).
  { unfold take. rewrite <- Hr. destruct (Z.ltb_spec (fPendingOff c) (zlen (fPending c))); lia. }
  assert (Hs : slice (fPendingOff c) take (fPending c) = ztake take rest) by done.
  rewrite Hs. pose proof (zlen_nonneg rest). pose proof (zlen_nonneg (Tls.content s)).
  assert (Hg : zlen (ztake take rest) = take) by (apply zlen_ztake; lia).
  destruct (read_loop_spec (S (Z.to_nat len)) len (ztake take rest) s) as (s' & -> & Hl' & E');
    [done|lia..|].
  exists (fPendingOff c + take), s'.
  assert (Hd : zdrop (fPendingOff c + take) (fPending c) = zdrop take rest)
    by (unfold rest; rewrite zdrop_zdrop by lia; done).
  split_and!; [| |cbn; rewrite Hd, E', Hg].
  - do 3 f_equal. rewrite Hg, Htk. destruct (Z.le_ge_cases (zlen rest) len).
    + rewrite Z.min_l by lia. rewrite (ztake_all _ rest) by done. by rewrite ztake_app_ge by lia.
    + rewrite Z.min_r by lia. rewrite Z.sub_diag, ztake_app_le by lia. apply app_nil_r.
  - split_and!; [done|cbn; lia|cbn; lia|done].
  - rewrite Htk. destruct (Z.le_ge_cases (zlen rest) len).
    + rewrite Z.min_l by lia. rewrite zdrop_app_ge by lia.
      assert (zdrop (zlen rest) rest = []) as -> by (apply zlen_0_nil; rewrite zlen_zdrop; lia). done.
    + rewrite Z.min_r by lia. rewrite Z.sub_diag. by rewrite zdrop_app_le by lia.
Qed.

Section Records.
Context `{OpenSSLLaws}.

Lemma seal_frame_form c chunk frame :
  seal_frame c chunk = Some frame -> zlen chunk <= kMaxPlaintextPerRecord ->
  exists cipher, aead_seal (fTxKey c) (fTxCounter c) chunk = Some cipher
    /\ zlen cipher = zlen chunk + 16
    /\ frame = [CONTROL_MSG_RECORD; u8 (zlen cipher ≫ 8); u8 (zlen cipher)] ++ cipher.
Proof.
  intros Hf Hc. unfold seal_frame in Hf.
  destruct (aead_seal (fTxKey c) (fTxCounter c) chunk) as [cipher|] eqn:E; [|done].
  cbn [mbind option_bind] in Hf. apply (inj Some) in Hf. exists cipher.
  assert (Hl : zlen cipher = zlen chunk + 16) by (unfold aead_seal in E; by apply seal_length in E).
  split_and!; [done|done|]. rewrite <- Hf, Hl. unfold kTagLen. do 4 f_equal.
  change 255 with (2 ^ 8 - 1). rewrite land_ones_mod by lia. change (_ mod 2 ^ 8) with (u8 (zlen chunk + 16)).
  apply u8_small, u8_range.
Qed.

(** A sealed frame at the head of the stream is read back as its chunk. *)
Lemma ReadRecord_frame (c r : conn) s cap chunk frame rest :
  wf r s -> fRxKey r = fTxKey c -> fRxCounter r = fTxCounter c ->
  zlen chunk <= kMaxPlaintextPerRecord -> zlen chunk <= cap ->
  seal_frame c chunk = Some frame -> avail r s = frame ++ rest ->
  exists r' s', ReadRecord r s cap = (Record_ chunk, r', s') /\ wf r' s' /\ avail r' s' = rest
    /\ fRxKey r' = fRxKey r /\ fRxCounter r' = u64 (fRxCounter r + 1).
Proof.
  intros Hw Hk Hn Hc Hcap Hf Ha. destruct (seal_frame_form _ _ _ Hf Hc) as (cipher & Es & Hl & ->).
  pose proof (zlen_nonneg chunk). pose proof (zlen_nonneg rest). unfold ReadRecord. rewrite (proj1 Hw).
  cbn [negb]. set (hd := [CONTROL_MSG_RECORD; u8 (zlen cipher ≫ 8); u8 (zlen cipher)]) in *.
  rewrite <- app_assoc in Ha. assert (Hhd : zlen hd = 3) by done.
  destruct (ReadFull_spec r s kRecordHeaderLen Hw) as (o1 & s1 & -> & Hw1 & Ha1).
  { rewrite Ha, !zlen_app. unfold kRecordHeaderLen. lia. }
  rewrite Ha in *. rewrite (ztake_app kRecordHeaderLen) by done. rewrite zdrop_app in Ha1 by done.
  change (at_ hd 0) with CONTROL_MSG_RECORD.
  assert (Hlen : (at_ hd 1 ≪ 8) .| at_ hd 2 = zlen cipher).
  { change (at_ hd 1) with (u8 (zlen cipher ≫ 8)). change (at_ hd 2) with (u8 (zlen cipher)).
    pose proof (u8_range (zlen cipher ≫ 8)). pose proof (u8_range (zlen cipher)). unfold is_byte in *.
    rewrite lor_shiftl_add_l by lia. unfold kMaxPlaintextPerRecord in *.
    pose proof (store16_be_value (zlen cipher)). lia. }
  rewrite Hlen, Z.eqb_refl. unfold kTagLen, kMaxPlaintextPerRecord in *.
  destruct (Z.ltb_spec (zlen cipher) 16); [lia|]. cbn [negb orb].
  destruct (Z.gtb_spec (zlen cipher - 16) cap); [lia|].
  destruct (Z.gtb_spec (zlen cipher) (4077 + 16)); [lia|].
  destruct (ReadFull_spec (with_off r o1) s1 (zlen cipher) Hw1) as (o2 & s2 & -> & Hw2 & Ha2).
  { rewrite Ha1, zlen_app. lia. }
  rewrite Ha1 in *. rewrite (ztake_app (zlen cipher)) by done. rewrite zdrop_app in Ha2 by done.
  apply aead_open_seal in Es. cbn [with_off fRxKey fRxCounter]. rewrite Hk, Hn, Es.
  do 2 eexists. split; [reflexivity|]. split_and!; [exact Hw2|exact Ha2|done|done].
Qed.

Lemma write_loop_roundtrip fuel (c c' : conn) data ws out (r : conn) s cap rest :
  (length data < fuel)%nat -> kMaxPlaintextPerRecord <= cap ->
  write_loop fuel c data ws = (B_OK, out, c') ->
  wf r s -> fRxKey r = fTxKey c -> fRxCounter r = fTxCounter c -> avail r s = out ++ rest ->
  exists n l r' s', read_records n r s cap = (Some l, r', s') /\ concat l = data
    /\ Forall (fun p => zlen p <= kMaxPlaintextPerRecord) l
    /\ wf r' s' /\ avail r' s' = rest /\ fRxKey r' = fTxKey c' /\ fRxCounter r' = fTxCounter c'.
Proof.
  intros Hf Hcap. revert c data ws out r s Hf. induction fuel as [|fuel IH]; intros c data ws out r s Hf Hw Hwf Hk Hn Ha;
    [lia|].
  cbn [write_loop] in Hw. pose proof (zlen_nonneg data).
  set (k := Z.min (zlen data) kMaxPlaintextPerRecord) in *.
  assert (Hk1 : 0 <= k <= zlen data /\ k <= kMaxPlaintextPerRecord) by (unfold kMaxPlaintextPerRecord in *; lia).
  assert (Hch : zlen (ztake k data) = k) by (apply zlen_ztake; lia).
  destruct (seal_frame c (ztake k data)) as [frame|] eqn:Ef; [|done].
  destruct (Tls.write_all frame ws) as [[ok o] ws1] eqn:Ew. destruct ok; [|done]. cbn [negb] in Hw.
  apply Tls.write_all_ok in Ew as ->.
  destruct (Z.gtb_spec (zlen (zdrop k data)) 0).
  - destruct (write_loop fuel _ _ ws1) as [[st o'] c1] eqn:El.
    apply pair_equal_spec in Hw as [Hw <-]. apply pair_equal_spec in Hw as [-> <-].
    rewrite <- app_assoc in Ha.
    destruct (ReadRecord_frame c r s cap (ztake k data) frame (o' ++ rest)) as (r1 & s1 & Hr & Hwf1 & Ha1 & Hk1' & Hn1);
      [done|done|done|lia|lia|done|done|].
    rewrite zlen_zdrop in * by lia. unfold kMaxPlaintextPerRecord in *.
    destruct (IH (with_tx c (u64 (fTxCounter c + 1))) (zdrop k data) ws1 o' r1 s1)
      as (n & l & r' & s' & Hrr & Hcc & Hall & Hwf' & Ha' & Hkk & Hnn); try done.
    { unfold zdrop. rewrite length_drop. unfold zlen in *. lia. }
    { by rewrite Hk1', Hk. }
    { by rewrite Hn1, Hn. }
    exists (S n), (ztake k data :: l), r', s'. cbn [read_records]. rewrite Hr, Hrr. cbn [concat].
    rewrite Hcc, ztake_zdrop. split_and!; try done. constructor; [lia|done].
  - apply pair_equal_spec in Hw as [Hw <-]. apply pair_equal_spec in Hw as [_ <-].
    destruct (ReadRecord_frame c r s cap (ztake k data) frame rest) as (r1 & s1 & Hr & Hwf1 & Ha1 & Hk1' & Hn1);
      [done|done|done|lia|lia|done|done|].
    rewrite zlen_zdrop in * by lia.
    exists 1%nat, [ztake k data], r1, s1. cbn [read_records]. rewrite Hr. cbn [concat].
    rewrite app_nil_r, ztake_all by lia.
    split_and!; try done; [constructor; [lia|constructor]|by rewrite Hk1'|by rewrite Hn1, Hn].
Qed.

(** What one side of the control channel writes, the other reads: if WriteMessage reports success on a connection, a peer whose receive key and counter match reads, from any fragmentation of the bytes between its pending buffer and the TLS stream, records of at most 4077 bytes whose concatenation is the message, is left exactly at what follows, and has the same counter. *)
Theorem control_records_roundtrip (c c' r : conn) data ws out s cap rest :
  WriteMessage c data ws = (B_OK, out, c') ->
  kMaxPlaintextPerRecord <= cap -> wf r s ->
  fRxKey r = fTxKey c -> fRxCounter r = fTxCounter c -> avail r s = out ++ rest ->
  exists n l r' s', read_records n r s cap = (Some l, r', s') /\ concat l = data
    /\ Forall (fun p => zlen p <= kMaxPlaintextPerRecord) l
    /\ wf r' s' /\ avail r' s' = rest /\ fRxKey r' = fTxKey c' /\ fRxCounter r' = fTxCounter c'.
Proof.
  unfold WriteMessage. intros Hw Hcap Hwf Hk Hn Ha. destruct (fTls c); [|done]. cbn [negb] in Hw.
  eapply write_loop_roundtrip; [|done..]. lia.
Qed.
End Records.

Lemma control_records_roundtrip_witness :
  let c := Init (bs "key a") (bs "key b") [] in
  exists out c' n l r' s', WriteMessage (H:=Toy.toy) c (bs "GET") [100] = (B_OK, out, c')
    /\ read_records (H:=Toy.toy) n (Init (bs "key b") (bs "key a") (ztake 2 out))
         [Tls.Data (zdrop 2 out)] 8192 = (Some l, r', s') /\ concat l = bs "GET".
Proof.
  intros c.
  assert (exists out c', WriteMessage (H:=Toy.toy) c (bs "GET") [100] = (B_OK, out, c') /\ zlen out = 22)
    as (out & c' & E & Hl) by (do 2 eexists; vm_compute; split; reflexivity).
  assert (H2 : zlen (ztake 2 out) = 2) by (apply zlen_ztake; lia).
  assert (H20 : zlen (zdrop 2 out) = 20) by (rewrite zlen_zdrop; lia).
  assert (Hp : fPending (Init (bs "key b") (bs "key a") (ztake 2 out)) = ztake 2 out)
    by (unfold Init; rewrite H2; reflexivity).
  destruct (control_records_roundtrip (H:=Toy.toy) (H0:=Toy.toy_laws) c c'
    (Init (bs "key b") (bs "key a") (ztake 2 out)) (bs "GET") [100] out [Tls.Data (zdrop 2 out)] 8192 [])
    as (n & l & r' & s' & Hr & Hc & _).
  - exact E.
  - unfold kMaxPlaintextPerRecord. lia.
  - split_and!; [reflexivity|reflexivity|rewrite Hp, H2; cbn; lia|].
    constructor; [|constructor]. eexists. split; [reflexivity|]. lia.
  - reflexivity.
  - vm_compute in E. injection E as _ <-. reflexivity.
  - unfold avail. rewrite Hp. cbn [fPendingOff Init Tls.content]. rewrite !app_nil_r. apply ztake_zdrop.
  - exists out, c', n, l, r', s'. done.
Defined.

End ControlConn.
