(* ===== verification/ControlClient.v ===== *)
(** * ControlClient: opening the control channel

    src/backend/tailscale/TSControlClient.cpp: the key fetch, the HTTP upgrade
    and the Noise handshake over it.  The HTTPS fetch's result, the outcome of
    Connect and of the request's Write, the ephemeral key pair and the TLS
    stream are arguments; the error texts ([fLastError]) are not modelled.
    Reading the upgrade response has the buffer's 8192 bytes as fuel. *)

From S2P Require Import Prelude CLib Endian Blake2s Crypto Identity Noise Control Tls.
Import Crypto Control.
Open Scope Z_scope.
Open Scope soto_scope.

Module ControlClient.

Definition kUpgradePath : bytes := bs "/ts2021".
Definition kUpgradeHeaderValue : bytes := bs "tailscale-control-protocol".
Definition kHandshakeHeader : bytes := bs "X-Tailscale-Handshake".
Definition crlf : bytes := [13; 10].

Record client := mkClient { fControlKey : bytes; fPending : bytes }.
Definition ControlClient : client := mkClient (zeros 32) [].

(** [fetched] is HttpsGet's outcome: an error, or the status and the body. *)
Definition _FetchControlKey (c : client) (fetched : status + (Z * bytes)) : status * client :=
  match fetched with
  | inl e => (e, c)
  | inr (st, body) =>
      if negb (st =? 200) then (B_ERROR, c)
      else match ParseControlKey body with
           | None => (B_ERROR, c)
           | Some k => (B_OK, mkClient k (fPending c))
           end
  end.

(** The read loop: the bytes gathered and the end of the headers, if seen. *)
Fixpoint upgrade_loop (fuel : nat) (buf : bytes) (headerEnd : option Z) (s : Tls.stream)
    : bytes * option Z * Tls.stream :=
  match fuel with
  | O => (buf, headerEnd, s)
  | S fuel =>
      if negb (zlen buf <? 8192) then (buf, headerEnd, s)
      else
        match Tls.Read s (8192 - zlen buf) with
        | (Tls.Got c, s) =>
            let buf := buf ++ c in
            let headerEnd :=
              match headerEnd with
              | None => (fun i => i + 4) <$> find_sub [13; 10; 13; 10] buf
              | Some _ => headerEnd
              end in
            match headerEnd with
            | Some e =>
                if zlen buf - e >=? kRecordHeaderLen + kResponsePayloadLen then (buf, headerEnd, s)
                else upgrade_loop fuel buf headerEnd s
            | None => upgrade_loop fuel buf headerEnd s
            end
        | (_, s) => (buf, headerEnd, s)
        end
  end.

Definition _ReadUpgradeResponse (s : Tls.stream) (bodyCap : Z) : option bytes * Tls.stream :=
  let '(buf, headerEnd, s) := upgrade_loop 8193 [] None s in
  match headerEnd with
  | None => (None, s)
  | Some e =>
      match find_sub (bs " 101 ") (ztake e buf) with
      | None => (None, s)
      | Some _ => (Some (slice e (Z.min (zlen buf - e) bodyCap) buf), s)
      end
  end.

Definition upgrade_request (host initB64 : bytes) : bytes :=
  bs "POST " ++ kUpgradePath ++ bs " HTTP/1.1" ++ crlf
    ++ bs "Host: " ++ host ++ crlf ++ bs "Upgrade: " ++ kUpgradeHeaderValue ++ crlf
    ++ bs "Connection: upgrade" ++ crlf ++ kHandshakeHeader ++ bs ": " ++ initB64 ++ crlf
    ++ bs "User-Agent: Sotoportego/0.1" ++ crlf ++ bs "Content-Length: 0" ++ crlf ++ crlf.

Section WithOpenSSL.
Context `{OpenSSL}.

(** The status, the object, the split keys and the rest of the stream; the
    initiation frame sent is also returned. *)
Definition Handshake (c : client) (fetched : status + (Z * bytes)) (machinePriv machinePub : bytes)
    (version : Z) (eph : option (bytes * bytes)) (msg1buf : bytes) (connected : status)
    (sent : bool) (s : Tls.stream)
    : status * client * option (bytes * bytes) * option bytes * Tls.stream :=
  let '(result, c) := _FetchControlKey c fetched in
  match result with
  | B_OK =>
      let prologue := ControlPrologue version in
      let noise := snd (Noise.InitInitiator machinePriv machinePub (fControlKey c) prologue Noise.NoiseIK) in
      match Noise.WriteMessage1 eph [] msg1buf 128 noise with
      | (None, _) => (B_ERROR, c, None, None, s)
      | (Some msg1, noise) =>
          if negb (zlen msg1 =? kInitiationPayloadLen) then (B_ERROR, c, None, None, s)
          else
            match EncodeInitiation msg1 version kInitiationMsgLen with
            | None => (B_ERROR, c, None, None, s)
            | Some initFrame =>
                match connected with
                | B_OK =>
                    if negb sent then (B_IO_ERROR, c, None, None, s)
                    else
                      match _ReadUpgradeResponse s 256 with
                      | (None, s) => (B_ERROR, c, None, Some initFrame, s)
                      | (Some body, s) =>
                          match DecodeRecordHeader body with
                          | None => (B_ERROR, c, None, Some initFrame, s)
                          | Some (type, payloadLen) =>
                              if type =? CONTROL_MSG_ERROR then (B_ERROR, c, None, Some initFrame, s)
                              else if negb (type =? CONTROL_MSG_RESPONSE) then (B_ERROR, c, None, Some initFrame, s)
                              else if zlen body <? kRecordHeaderLen + payloadLen then (B_ERROR, c, None, Some initFrame, s)
                              else
                                match Noise.ReadMessage2 (slice kRecordHeaderLen payloadLen body) 64 noise with
                                | (None, _) => (B_ERROR, c, None, Some initFrame, s)
                                | (Some _, noise) =>
                                    let consumed := kRecordHeaderLen + payloadLen in
                                    let c := if zlen body >? consumed
                                             then mkClient (fControlKey c) (zdrop consumed body) else c in
                                    (B_OK, c, Some (Noise.Split noise), Some initFrame, s)
                                end
                          end
                      end
                | e => (e, c, None, None, s)
                end
            end
      end
  | e => (e, c, None, None, s)
  end.
End WithOpenSSL.

(** ** The upgrade response *)

Abbreviation crlf2 := [13; 10; 13; 10].

(** An HTTP head that ends at the first blank line of the stream. *)
Definition is_head (hdr rest : bytes) : Prop :=
  find_sub crlf2 (hdr ++ rest) = Some (zlen hdr - 4)
  /\ is_Some (find_sub (bs " 101 ") hdr) /\ zlen hdr + 51 <= 8192.

Lemma zlen_content_nil s : Tls.live s -> zlen (Tls.content s) > 0 -> s <> [].
Proof. intros _ H ->. unfold zlen in H. simpl in H. lia. Qed.

Lemma upgrade_loop_spec fuel buf he s hdr rest :
  Tls.live s -> is_head hdr rest -> 51 <= zlen rest ->
  buf ++ Tls.content s = hdr ++ rest -> zlen buf < zlen hdr + 51 ->
  he = (if bool_decide (zlen hdr <= zlen buf) then Some (zlen hdr) else None) ->
  8192 - zlen buf < Z.of_nat fuel ->
  exists got s', upgrade_loop fuel buf he s = (hdr ++ got, Some (zlen hdr), s')
    /\ Tls.live s' /\ got ++ Tls.content s' = rest /\ 51 <= zlen got.
Proof.
  intros Hl (Hf & H101 & Hm) Hr. revert buf he s Hl.
  induction fuel as [|fuel IH]; intros buf he s Hl Hc Hb Hhe Hfu; [lia|].
  pose proof (f_equal zlen Hc) as Hlen. rewrite !zlen_app in Hlen.
  cbn [upgrade_loop]. destruct (Z.ltb_spec (zlen buf) 8192); [|lia]. cbn [negb].
  destruct (Tls.Read_live s (8192 - zlen buf) Hl) as (c & s1 & -> & Hl1 & Hn & E);
    [apply zlen_content_nil; [done|lia]|lia|].
  rewrite E, app_assoc in Hc. assert (Hbc : buf ++ c = take (length (buf ++ c)) (hdr ++ rest)).
  { rewrite <- Hc. by rewrite take_app_length. }
  destruct (find_sub_take crlf2 (hdr ++ rest) (zlen hdr - 4) (length (buf ++ c)) ltac:(done) Hf)
    as (H0 & _ & Hft). rewrite <- Hbc in Hft. change (zlen crlf2) with 4 in Hft.
  assert (Hhe' : (match he with
      | Some _ => he | None => (fun i => i + 4) <$> find_sub crlf2 (buf ++ c) end)
      = if bool_decide (zlen hdr <= zlen (buf ++ c)) then Some (zlen hdr) else None).
  { rewrite Hhe. rewrite zlen_app in *. pose proof (zlen_nonneg c).
    destruct (decide (zlen hdr <= zlen buf)).
    - rewrite !bool_decide_true by lia. done.
    - rewrite (bool_decide_false (zlen hdr <= zlen buf)) by done. rewrite Hft. unfold zlen in *.
      rewrite length_app. destruct (decide (Z.of_nat (length hdr) <= Z.of_nat (length buf) + Z.of_nat (length c))).
      + rewrite !bool_decide_true by lia. simpl. f_equal. lia.
      + rewrite !bool_decide_false by lia. done. }
  cbv zeta. rewrite Hhe'. clear Hhe'.
  assert (Hrec : zlen (buf ++ c) < zlen hdr + 51 ->
    exists got s', upgrade_loop fuel (buf ++ c)
        (if bool_decide (zlen hdr <= zlen (buf ++ c)) then Some (zlen hdr) else None) s1
      = (hdr ++ got, Some (zlen hdr), s') /\ Tls.live s' /\ got ++ Tls.content s' = rest /\ 51 <= zlen got).
  { intros Hlt. apply IH; try done. rewrite zlen_app. lia. }
  destruct (decide (zlen hdr <= zlen (buf ++ c))) as [Hge|Hlt].
  - rewrite bool_decide_true in * by done. unfold kRecordHeaderLen, kResponsePayloadLen.
    destruct (Z.geb_spec (zlen (buf ++ c) - zlen hdr) (3 + 48)); [|apply Hrec; lia].
    assert (Hp : exists got, buf ++ c = hdr ++ got).
    { exists (zdrop (zlen hdr) (buf ++ c)). rewrite <- (ztake_zdrop (zlen hdr) (buf ++ c)) at 1.
      f_equal. rewrite Hbc. unfold ztake, zlen. rewrite Nat2Z.id, take_take.
      rewrite Nat.min_l by (unfold zlen in Hge; lia). by rewrite take_app_length. }
    destruct Hp as [got Hg]. exists got, s1. rewrite Hg in *. rewrite zlen_app in *.
    split_and!; [done|done| |lia]. rewrite <- app_assoc in Hc. by apply app_inv_head in Hc.
  - rewrite bool_decide_false in * by done. apply Hrec. lia.
Qed.

Lemma ReadUpgradeResponse_spec s hdr rest cap :
  Tls.live s -> is_head hdr rest -> 51 <= zlen rest -> 0 <= cap -> Tls.content s = hdr ++ rest ->
  exists got s', _ReadUpgradeResponse s cap = (Some (ztake (Z.min (zlen got) cap) got), s')
    /\ Tls.live s' /\ got ++ Tls.content s' = rest /\ 51 <= zlen got.
Proof.
  intros Hl Hh Hr Hcap Hc. pose proof Hh as (Hf & [k H101] & Hm). pose proof (zlen_nonneg hdr).
  destruct (upgrade_loop_spec 8193 [] None s hdr rest) as (got & s' & E & Hl' & Hg & H51); try done.
  - change (zlen []) with 0. lia.
  - change (zlen []) with 0. rewrite bool_decide_false; [done|].
    assert (zlen hdr <> 0); [|lia]. intros Hz. apply zlen_0_nil in Hz. by rewrite Hz in H101.
  - exists got, s'. split; [|done]. unfold _ReadUpgradeResponse. rewrite E.
    rewrite ztake_app by done. rewrite H101. do 2 f_equal. rewrite zlen_app.
    unfold slice. rewrite zdrop_app by done. do 2 f_equal. lia.
Qed.

(** ** The whole handshake against a server *)

#[local] Opaque Noise.mixed wg.Hash wg.Kdf2 ControlPrologue.

Section WithServer.
Context `{OpenSSLLaws}.

Lemma Noise_init_facts ipriv ipub rpriv rpub prologue :
  let si := snd (Noise.InitInitiator ipriv ipub rpub prologue Noise.NoiseIK) in
  let sr := snd (Noise.InitResponder rpriv rpub prologue Noise.NoiseIK) in
  Noise.fStaticPriv si = ipriv /\ Noise.fStaticPub si = ipub /\ Noise.fRemoteStatic si = rpub
  /\ Noise.fInitiator si = true /\ Noise.fInitiator sr = false /\ Noise.fStaticPriv sr = rpriv
  /\ Noise.fCK si = Noise.fCK sr /\ Noise.fH si = Noise.fH sr.
Proof. split_and!; reflexivity. Qed.

(** The control handshake succeeds against a server that runs the responder of the same protocol: for every version, key pairs and fragmentation of the reply, when the key document carries the server's key and the server answers the initiation with an HTTP 101 head, its framed Noise response and further bytes, Handshake returns B_OK with the transport keys the server splits; and it hands on exactly the server's further bytes, between its pending buffer and the stream, as long as at most 205 of them were read together with the response. *)
Theorem handshake_with_server mpriv mpub version ek ep rpriv rpub rk rp doc o1 o2 c2 cap s hdr extra
    msg1 si1 msg2 sr2 :
  x25519_pub mpriv = Some mpub -> x25519_pub rpriv = Some rpub ->
  x25519_pub ek = Some ep -> x25519_pub rk = Some rp ->
  (forall k n a p, is_Some (AeadEncrypt k n a p)) -> 0 <= cap ->
  ParseControlKey doc = Some rpub ->
  Noise.WriteMessage1 (Some (ek, ep)) [] o1 128
    (snd (Noise.InitInitiator mpriv mpub rpub (ControlPrologue version) Noise.NoiseIK)) = (Some msg1, si1) ->
  Noise.WriteMessage2 (Some (rk, rp)) [] o2 c2
    (snd (Noise.ReadMessage1 msg1 cap
       (snd (Noise.InitResponder rpriv rpub (ControlPrologue version) Noise.NoiseIK)))) = (Some msg2, sr2) ->
  let reply := [CONTROL_MSG_RESPONSE; 0; 48] ++ msg2 in
  Tls.live s -> is_head hdr (reply ++ extra) -> Tls.content s = hdr ++ reply ++ extra ->
  exists c' frame s',
    Handshake ControlClient (inr (200, doc)) mpriv mpub version (Some (ek, ep)) o1 B_OK true s
      = (B_OK, c', Some (Noise.Split sr2), Some frame, s')
    /\ EncodeInitiation msg1 version kInitiationMsgLen = Some frame
    /\ Tls.live s'
    /\ (zlen extra - zlen (Tls.content s') <= 205 -> fPending c' ++ Tls.content s' = extra).
Proof.
  intros Hm Hr He Hk Hs Hcap Hdoc Hw1 Hw2 reply Hl Hh Hc.
  unfold Handshake, _FetchControlKey. change (negb (200 =? 200)) with false. cbv iota. rewrite Hdoc.
  cbn [fControlKey fPending ControlClient]. cbv zeta.
  destruct (Noise_init_facts mpriv mpub rpriv rpub (ControlPrologue version))
    as (I1 & I2 & I3 & I4 & I5 & I6 & I7 & I8).
  set (si0 := snd (Noise.InitInitiator _ _ _ _ _)) in *.
  set (sr0 := snd (Noise.InitResponder _ _ _ _)) in *. clearbody si0 sr0.
  destruct (Noise.message1_transcript si0 sr0 mpub ek ep [] o1 128 cap msg1 si1)
    as (sr1 & R1 & A1 & A2 & A3 & A4 & A5 & A6 & A7 & A8 & L1); [congruence..|done|done|done|].
  rewrite R1 in Hw2. cbn [snd] in Hw2.
  destruct (Noise.message2_transcript si1 sr1 mpub rk rp [] o2 c2 64 msg2 sr2) as (si2 & R2 & B1 & B2 & L2);
    [congruence..|done|done|done|].
  change (zlen []) with 0 in *.
  destruct (ReadUpgradeResponse_spec s hdr (reply ++ extra) 256 Hl Hh) as (got & s' & Eu & Hl' & Hg & H51);
    [unfold reply; rewrite !zlen_app, L2; pose proof (zlen_nonneg extra);
     change (zlen [CONTROL_MSG_RESPONSE; 0; 48]) with 3; lia|lia|exact Hc |].
  rewrite Hw1, L1.
  change (negb (96 + 0 =? kInitiationPayloadLen)) with false. cbv iota.
  assert (exists frame, EncodeInitiation msg1 version kInitiationMsgLen = Some frame) as [frame Hfr].
  { unfold EncodeInitiation. rewrite L1. by eexists. }
  rewrite Hfr. cbn [negb]. rewrite Eu.
  assert (Hrep : zlen reply = 51) by (unfold reply; rewrite zlen_app, L2; done).
  assert (Hgot : got = reply ++ ztake (zlen got - 51) extra).
  { pose proof (f_equal (ztake (zlen got)) Hg) as E. rewrite ztake_app in E by done. rewrite E at 1.
    unfold ztake, zlen in *. rewrite take_app_ge by lia. do 2 f_equal. lia. }
  set (tail := ztake (zlen got - 51) extra) in *.
  assert (Htl : zlen got = 51 + zlen tail) by (rewrite Hgot at 1; rewrite zlen_app; lia).
  pose proof (zlen_nonneg tail).
  set (kept := ztake (Z.min (zlen got) 256 - 51) tail).
  assert (Hbody : ztake (Z.min (zlen got) 256) got = reply ++ kept).
  { rewrite Hgot at 2. unfold kept, ztake, zlen in *. rewrite take_app_ge by lia. do 2 f_equal. lia. }
  assert (Hkl : zlen kept = Z.min (zlen got) 256 - 51) by (unfold kept; apply zlen_ztake; lia).
  rewrite Hbody. replace (DecodeRecordHeader (reply ++ kept)) with (Some (CONTROL_MSG_RESPONSE, 48))
    by (symmetry; unfold reply; rewrite <- app_assoc; exact (DecodeRecordHeader_app _ 48 _ ltac:(lia))).
  change (CONTROL_MSG_RESPONSE =? CONTROL_MSG_ERROR) with false.
  change (negb (CONTROL_MSG_RESPONSE =? CONTROL_MSG_RESPONSE)) with false. cbv iota.
  rewrite zlen_app, Hrep. unfold kRecordHeaderLen. destruct (Z.ltb_spec (51 + zlen kept) (3 + 48)); [lia|].
  replace (slice 3 48 (reply ++ kept)) with msg2
    by (symmetry; unfold reply; rewrite <- app_assoc; by apply slice_app_mid).
  rewrite R2. change (3 + 48) with 51.
  assert (Hfin : zlen extra - zlen (Tls.content s') <= 205 -> kept ++ Tls.content s' = extra).
  { intros Hsm. pose proof (f_equal zlen Hg) as Hgl. rewrite !zlen_app, Hrep in Hgl.
    assert (kept = tail) as -> by (unfold kept; apply ztake_all; lia).
    rewrite Hgot, <- app_assoc in Hg. by apply app_inv_head in Hg. }
  assert (Hsp : Noise.Split si2 = Noise.Split sr2) by (unfold Noise.Split; by rewrite B1).
  rewrite Hsp. destruct (Z.gtb_spec (51 + zlen kept) 51).
  - do 3 eexists. split; [reflexivity|]. split; [done|]. split; [done|]. cbn [fPending].
    by rewrite zdrop_app by done.
  - do 3 eexists. split; [reflexivity|]. split; [done|]. split; [done|]. cbn [fPending app].
    intros Hsm. rewrite <- (Hfin Hsm). assert (kept = []) as -> by (apply zlen_0_nil; lia). done.
Qed.
End WithServer.

Lemma handshake_with_server_witness :
  let n k := le_split 32 k in
  let doc := bs "{" ++ kControlKeyField ++ bs ":" ++ 34 :: kControlKeyPrefix ++ Identity.ToHex (n 22) ++ [34; 125] in
  let hdr := bs "HTTP/1.1 101 Switching Protocols" ++ crlf2 in
  exists msg2 c' keys frame s',
    Handshake (H:=Toy.toy) ControlClient (inr (200, doc)) (n 11) (n 11) 1 (Some (n 33, n 33)) [] B_OK true
      [Tls.Data (hdr ++ [2; 0]); Tls.Data ([48] ++ msg2 ++ [4; 0])]
    = (B_OK, c', Some keys, Some frame, s').
Proof.
  intros n doc hdr.
  set (pro := ControlPrologue 1).
  set (init := snd (Noise.InitInitiator (n 11) (n 11) (n 22) pro Noise.NoiseIK)).
  set (resp := snd (Noise.InitResponder (n 22) (n 22) pro Noise.NoiseIK)).
  destruct (Noise_init_facts (n 11) (n 11) (n 22) (n 22) pro) as (I1 & I2 & I3 & I4 & I5 & I6 & I7 & I8).
  fold init resp in I1, I2, I3, I4, I5, I6, I7, I8.
  assert (T : forall a b, is_Some (Dh (H:=Toy.toy) a b)) by (eexists; reflexivity).
  assert (Z1 : Noise.kNoiseMsg1Overhead + zlen (A:=Z) [] <= 128) by (vm_compute; congruence).
  destruct (proj1 (Noise.writes_total (H:=Toy.toy) init (n 33, n 33) [] [] 128 T Toy.toy_seals Z1) I4) as [msg1 S1].
  destruct (Noise.WriteMessage1 (H:=Toy.toy) (Some (n 33, n 33)) [] [] 128 init) as [o1 si1] eqn:E1.
  cbn [fst] in S1. subst o1.
  destruct (Noise.message1_transcript (H:=Toy.toy) (H0:=Toy.toy_laws) init resp (n 11) (n 33) (n 33) [] [] 128 100
    msg1 si1) as (sr1 & R1 & _ & _ & F1 & _ & _ & _ & _ & _ & L1);
    [rewrite I6, I3; reflexivity|rewrite I1; reflexivity|exact I2|reflexivity|exact I4|exact I5|exact I7|exact I8
    |exact Toy.toy_seals|vm_compute; congruence|exact E1|].
  destruct (proj2 (Noise.writes_total (H:=Toy.toy) sr1 (n 44, n 44) [] [] 128 T Toy.toy_seals Z1) F1) as [msg2 S2].
  destruct (Noise.WriteMessage2 (H:=Toy.toy) (Some (n 44, n 44)) [] [] 128 sr1) as [o2 sr2] eqn:E2.
  cbn [fst] in S2. subst o2.
  exists msg2.
  destruct (handshake_with_server (H:=Toy.toy) (H0:=Toy.toy_laws) (n 11) (n 11) 1 (n 33) (n 33) (n 22) (n 22)
    (n 44) (n 44) doc [] [] 128 100 [Tls.Data (hdr ++ [2; 0]); Tls.Data ([48] ++ msg2 ++ [4; 0])] hdr [4; 0]
    msg1 si1 msg2 sr2) as (c' & frame & s' & HS & _).
  - reflexivity.
  - reflexivity.
  - reflexivity.
  - reflexivity.
  - exact Toy.toy_seals.
  - lia.
  - apply ParseControlKey_document; [reflexivity|]. apply le_split_bytes.
  - exact E1.
  - fold pro resp. rewrite R1. exact E2.
  - pose proof (zlen_nonneg msg2). constructor.
    { eexists. split; [reflexivity|]. vm_compute. congruence. }
    constructor; [|constructor]. eexists. split; [reflexivity|]. rewrite !zlen_app.
    change (zlen [48]) with 1. change (zlen [4; 0]) with 2. lia.
  - split_and!; [reflexivity|eexists; reflexivity|vm_compute; congruence].
  - cbn [Tls.content]. rewrite app_nil_r, <- !app_assoc. reflexivity.
  - exists c', (Noise.Split sr2), frame, s'. exact HS.
Defined.

(** The 256-byte body buffer loses what the server sent beyond it in the same
    read: here 300 bytes follow the Noise response and 95 of them vanish. *)
Example upgrade_burst_truncated :
  let hdr := bs "HTTP/1.1 101 Switching Protocols" ++ crlf2 in
  let reply := [2; 0; 48] ++ replicate 48 7 in
  let extra := replicate 300 9 in
  let '(body, s) := _ReadUpgradeResponse [Tls.Data (hdr ++ reply ++ extra)] 256 in
  body = Some (reply ++ replicate 205 9) /\ s = [].
Proof. vm_compute. done. Qed.

End ControlClient.
