(* ===== verification/Hpack.v ===== *)
(** * Hpack: HTTP/2 header compression (src/backend/tailscale/TSHpack.cpp)

    The static table, the Huffman code, the decoder with its dynamic table and
    the encoder.  The read position in the block is the list of the bytes from
    it on; [None] is B_BAD_DATA, the only error the decoder returns.  A BString
    set from a buffer stops at the first NUL ([cstr]); one built character by
    character, as the Huffman decoder does, keeps it. *)

From S2P Require Import Prelude CLib.
Open Scope Z_scope.
Open Scope soto_scope.

Module Hpack.

Record HpackHeader := mkHeader { name : bytes; value : bytes }.

Definition kStatic : list (bytes * bytes) :=
  [ ([], []);
    (bs ":authority", []);
    (bs ":method", bs "GET");
    (bs ":method", bs "POST");
    (bs ":path", bs "/");
    (bs ":path", bs "/index.html");
    (bs ":scheme", bs "http");
    (bs ":scheme", bs "https");
    (bs ":status", bs "200");
    (bs ":status", bs "204");
    (bs ":status", bs "206");
    (bs ":status", bs "304");
    (bs ":status", bs "400");
    (bs ":status", bs "404");
    (bs ":status", bs "500");
    (bs "accept-charset", []);
    (bs "accept-encoding", bs "gzip, deflate");
    (bs "accept-language", []);
    (bs "accept-ranges", []);
    (bs "accept", []);
    (bs "access-control-allow-origin", []);
    (bs "age", []);
    (bs "allow", []);
    (bs "authorization", []);
    (bs "cache-control", []);
    (bs "content-disposition", []);
    (bs "content-encoding", []);
    (bs "content-language", []);
    (bs "content-length", []);
    (bs "content-location", []);
    (bs "content-range", []);
    (bs "content-type", []);
    (bs "cookie", []);
    (bs "date", []);
    (bs "etag", []);
    (bs "expect", []);
    (bs "expires", []);
    (bs "from", []);
    (bs "host", []);
    (bs "if-match", []);
    (bs "if-modified-since", []);
    (bs "if-none-match", []);
    (bs "if-range", []);
    (bs "if-unmodified-since", []);
    (bs "last-modified", []);
    (bs "link", []);
    (bs "location", []);
    (bs "max-forwards", []);
    (bs "proxy-authenticate", []);
    (bs "proxy-authorization", []);
    (bs "range", []);
    (bs "referer", []);
    (bs "refresh", []);
    (bs "retry-after", []);
    (bs "server", []);
    (bs "set-cookie", []);
    (bs "strict-transport-security", []);
    (bs "transfer-encoding", []);
    (bs "user-agent", []);
    (bs "vary", []);
    (bs "via", []);
    (bs "www-authenticate", []) ].
Definition kStaticCount : Z := 61.

Definition kHuffCode : list Z :=
  [ 0x1ff8; 0x7fffd8; 0xfffffe2; 0xfffffe3; 0xfffffe4; 0xfffffe5; 0xfffffe6; 0xfffffe7;
    0xfffffe8; 0xffffea; 0x3ffffffc; 0xfffffe9; 0xfffffea; 0x3ffffffd; 0xfffffeb;
    0xfffffec; 0xfffffed; 0xfffffee; 0xfffffef; 0xffffff0; 0xffffff1; 0xffffff2;
    0x3ffffffe; 0xffffff3; 0xffffff4; 0xffffff5; 0xffffff6; 0xffffff7; 0xffffff8;
    0xffffff9; 0xffffffa; 0xffffffb; 0x14; 0x3f8; 0x3f9; 0xffa; 0x1ff9; 0x15; 0xf8; 0x7fa;
    0x3fa; 0x3fb; 0xf9; 0x7fb; 0xfa; 0x16; 0x17; 0x18; 0x0; 0x1; 0x2; 0x19; 0x1a; 0x1b;
    0x1c; 0x1d; 0x1e; 0x1f; 0x5c; 0xfb; 0x7ffc; 0x20; 0xffb; 0x3fc; 0x1ffa; 0x21; 0x5d;
    0x5e; 0x5f; 0x60; 0x61; 0x62; 0x63; 0x64; 0x65; 0x66; 0x67; 0x68; 0x69; 0x6a; 0x6b;
    0x6c; 0x6d; 0x6e; 0x6f; 0x70; 0x71; 0x72; 0xfc; 0x73; 0xfd; 0x1ffb; 0x7fff0; 0x1ffc;
    0x3ffc; 0x22; 0x7ffd; 0x3; 0x23; 0x4; 0x24; 0x5; 0x25; 0x26; 0x27; 0x6; 0x74; 0x75;
    0x28; 0x29; 0x2a; 0x7; 0x2b; 0x76; 0x2c; 0x8; 0x9; 0x2d; 0x77; 0x78; 0x79; 0x7a; 0x7b;
    0x7ffe; 0x7fc; 0x3ffd; 0x1ffd; 0xffffffc; 0xfffe6; 0x3fffd2; 0xfffe7; 0xfffe8;
    0x3fffd3; 0x3fffd4; 0x3fffd5; 0x7fffd9; 0x3fffd6; 0x7fffda; 0x7fffdb; 0x7fffdc;
    0x7fffdd; 0x7fffde; 0xffffeb; 0x7fffdf; 0xffffec; 0xffffed; 0x3fffd7; 0x7fffe0;
    0xffffee; 0x7fffe1; 0x7fffe2; 0x7fffe3; 0x7fffe4; 0x1fffdc; 0x3fffd8; 0x7fffe5;
    0x3fffd9; 0x7fffe6; 0x7fffe7; 0xffffef; 0x3fffda; 0x1fffdd; 0xfffe9; 0x3fffdb;
    0x3fffdc; 0x7fffe8; 0x7fffe9; 0x1fffde; 0x7fffea; 0x3fffdd; 0x3fffde; 0xfffff0;
    0x1fffdf; 0x3fffdf; 0x7fffeb; 0x7fffec; 0x1fffe0; 0x1fffe1; 0x3fffe0; 0x1fffe2;
    0x7fffed; 0x3fffe1; 0x7fffee; 0x7fffef; 0xfffea; 0x3fffe2; 0x3fffe3; 0x3fffe4;
    0x7ffff0; 0x3fffe5; 0x3fffe6; 0x7ffff1; 0x3ffffe0; 0x3ffffe1; 0xfffeb; 0x7fff1;
    0x3fffe7; 0x7ffff2; 0x3fffe8; 0x1ffffec; 0x3ffffe2; 0x3ffffe3; 0x3ffffe4; 0x7ffffde;
    0x7ffffdf; 0x3ffffe5; 0xfffff1; 0x1ffffed; 0x7fff2; 0x1fffe3; 0x3ffffe6; 0x7ffffe0;
    0x7ffffe1; 0x3ffffe7; 0x7ffffe2; 0xfffff2; 0x1fffe4; 0x1fffe5; 0x3ffffe8; 0x3ffffe9;
    0xffffffd; 0x7ffffe3; 0x7ffffe4; 0x7ffffe5; 0xfffec; 0xfffff3; 0xfffed; 0x1fffe6;
    0x3fffe9; 0x1fffe7; 0x1fffe8; 0x7ffff3; 0x3fffea; 0x3fffeb; 0x1ffffee; 0x1ffffef;
    0xfffff4; 0xfffff5; 0x3ffffea; 0x7ffff4; 0x3ffffeb; 0x7ffffe6; 0x3ffffec; 0x3ffffed;
    0x7ffffe7; 0x7ffffe8; 0x7ffffe9; 0x7ffffea; 0x7ffffeb; 0xffffffe; 0x7ffffec; 0x7ffffed;
    0x7ffffee; 0x7ffffef; 0x7fffff0; 0x3ffffee ].

Definition kHuffLen : list Z :=
  [ 13; 23; 28; 28; 28; 28; 28; 28; 28; 24; 30; 28; 28; 30; 28; 28; 28; 28; 28; 28; 28; 28;
    30; 28; 28; 28; 28; 28; 28; 28; 28; 28; 6; 10; 10; 12; 13; 6; 8; 11; 10; 10; 8; 11; 8;
    6; 6; 6; 5; 5; 5; 6; 6; 6; 6; 6; 6; 6; 7; 8; 15; 6; 12; 10; 13; 6; 7; 7; 7; 7; 7; 7; 7;
    7; 7; 7; 7; 7; 7; 7; 7; 7; 7; 7; 7; 7; 7; 7; 8; 7; 8; 13; 19; 13; 14; 6; 15; 5; 6; 5;
    6; 5; 6; 6; 6; 5; 7; 7; 6; 6; 6; 5; 6; 7; 6; 5; 5; 6; 7; 7; 7; 7; 7; 15; 11; 14; 13;
    28; 20; 22; 20; 20; 22; 22; 22; 23; 22; 23; 23; 23; 23; 23; 24; 23; 24; 24; 22; 23; 24;
    23; 23; 23; 23; 21; 22; 23; 22; 23; 23; 24; 22; 21; 20; 22; 22; 23; 23; 21; 23; 22; 22;
    24; 21; 22; 23; 23; 21; 21; 22; 21; 23; 22; 23; 23; 20; 22; 22; 22; 23; 22; 22; 23; 26;
    26; 20; 19; 22; 23; 22; 25; 26; 26; 26; 27; 27; 26; 24; 25; 19; 21; 26; 27; 27; 26; 27;
    24; 21; 21; 26; 26; 28; 27; 27; 27; 20; 24; 20; 21; 22; 21; 21; 23; 22; 22; 25; 25; 24;
    24; 26; 23; 26; 27; 26; 26; 27; 27; 27; 27; 27; 28; 27; 27; 27; 27; 27; 26 ].

(** ** Huffman strings *)

(** The symbol search: the first index whose length and code match. *)
Fixpoint find_sym (lens codes : list Z) (s accLen acc : Z) : option Z :=
  match lens, codes with
  | l :: lens, c :: codes =>
      if (l =? accLen) && (c =? acc) then Some s else find_sym lens codes (s + 1) accLen acc
  | _, _ => None
  end.

(** One bit: the accumulator, its length and the text decoded so far. *)
Definition huffman_bit (st : Z * Z * bytes) (b : Z) : option (Z * Z * bytes) :=
  let '(acc, accLen, out) := st in
  let acc := u32 ((acc ≪ 1) .| b) in
  let accLen := accLen + 1 in
  if accLen >? 30 then None
  else match find_sym kHuffLen kHuffCode 0 accLen acc with
       | Some s => Some (0, 0, out ++ [s])
       | None => Some (acc, accLen, out)
       end.

Definition byte_bits (c : Z) : list Z := map (fun k => (c ≫ k) .& 1) [7; 6; 5; 4; 3; 2; 1; 0].

Fixpoint huffman_bits (st : Z * Z * bytes) (bits : list Z) : option (Z * Z * bytes) :=
  match bits with
  | [] => Some st
  | b :: bits => match huffman_bit st b with
                 | None => None
                 | Some st => huffman_bits st bits
                 end
  end.

Definition huffman_decode (inp : bytes) : option bytes :=
  match huffman_bits (0, 0, []) (flat_map byte_bits inp) with
  | None => None
  | Some (acc, accLen, out) =>
      if accLen >=? 8 then None
      else if accLen >? 0 then
        let padMask := (1 ≪ accLen) - 1 in
        if negb (acc .& padMask =? padMask) then None else Some out
      else Some out
  end.

(** ** The decoder *)

Record decoder := mkDecoder { fDynamic : list HpackHeader; fDynamicSize : Z; fMaxDynamicSize : Z }.

Definition HpackDecoder : decoder := mkDecoder [] 0 4096.

Definition entry_size (h : HpackHeader) : Z := zlen (name h) + zlen (value h) + 32.

Fixpoint evict (fuel : nat) (d : decoder) : decoder :=
  match fuel with
  | O => d
  | S fuel =>
      if (fDynamicSize d >? fMaxDynamicSize d) then
        match last (fDynamic d) with
        | None => d
        | Some oldest =>
            evict fuel (mkDecoder (removelast (fDynamic d)) (fDynamicSize d - entry_size oldest)
                          (fMaxDynamicSize d))
        end
      else d
  end.

Definition _Evict (d : decoder) : decoder := evict (length (fDynamic d)) d.

Definition SetMaxDynamicSize (maxSize : Z) (d : decoder) : decoder :=
  _Evict (mkDecoder (fDynamic d) (fDynamicSize d) maxSize).

Definition _AddDynamic (header : HpackHeader) (d : decoder) : decoder :=
  _Evict (mkDecoder (header :: fDynamic d) (fDynamicSize d + entry_size header) (fMaxDynamicSize d)).

Definition _Lookup (d : decoder) (index : Z) : option HpackHeader :=
  if index =? 0 then None
  else if index <=? kStaticCount then
    (fun e => mkHeader (fst e) (snd e)) <$> kStatic !! Z.to_nat index
  else fDynamic d !! Z.to_nat (index - kStaticCount - 1).

(** The continuation bytes of an integer. *)
Fixpoint decode_rest (buf : bytes) (v shift : Z) : option (Z * bytes) :=
  match buf with
  | [] => None
  | b :: buf =>
      let v := u32 (v + u32 ((b .& 0x7f) ≪ shift)) in
      if b .& 0x80 =? 0 then Some (v, buf)
      else
        let shift := shift + 7 in
        if shift >? 28 then None else decode_rest buf v shift
  end.

Definition _DecodeInteger (buf : bytes) (prefixBits : Z) : option (Z * bytes) :=
  match buf with
  | [] => None
  | b :: buf =>
      let mask := (1 ≪ prefixBits) - 1 in
      let v := b .& mask in
      if v <? mask then Some (v, buf) else decode_rest buf v 0
  end.

Definition _DecodeString (buf : bytes) : option (bytes * bytes) :=
  match buf with
  | [] => None
  | b :: _ =>
      let huffman := negb (b .& 0x80 =? 0) in
      match _DecodeInteger buf 7 with
      | None => None
      | Some (strLen, buf) =>
          if strLen >? zlen buf then None
          else if huffman then
            match huffman_decode (ztake strLen buf) with
            | None => None
            | Some s => Some (s, zdrop strLen buf)
            end
          else Some (cstr (ztake strLen buf), zdrop strLen buf)
      end
  end.

(** The name (by index, or literal when the index is 0) and the value. *)
Definition decode_literal (d : decoder) (buf : bytes) (prefixBits : Z) : option (HpackHeader * bytes) :=
  match _DecodeInteger buf prefixBits with
  | None => None
  | Some (nameIndex, buf) =>
      let named :=
        if negb (nameIndex =? 0) then (fun h => (name h, buf)) <$> _Lookup d nameIndex
        else _DecodeString buf in
      match named with
      | None => None
      | Some (n, buf) =>
          match _DecodeString buf with
          | None => None
          | Some (v, buf) => Some (mkHeader n v, buf)
          end
      end
  end.

(** One representation at the head of the block. *)
Definition decode_field (d : decoder) (b : Z) (buf : bytes)
    : option (list HpackHeader * decoder * bytes) :=
  if negb (b .& 0x80 =? 0) then
    match _DecodeInteger buf 7 with
    | None => None
    | Some (index, buf) => (fun h => ([h], d, buf)) <$> _Lookup d index
    end
  else if negb (b .& 0x40 =? 0) then
    (fun r => ([fst r], _AddDynamic (fst r) d, snd r)) <$> decode_literal d buf 6
  else if negb (b .& 0x20 =? 0) then
    (fun r => ([], SetMaxDynamicSize (fst r) d, snd r)) <$> _DecodeInteger buf 5
  else (fun r => ([fst r], d, snd r)) <$> decode_literal d buf 4.

(** The status, the decoder after it and the headers appended to [out]; a
    failing block keeps what its earlier representations did. *)
Fixpoint decode_fields (fuel : nat) (d : decoder) (buf : bytes) (out : list HpackHeader)
    : status * decoder * list HpackHeader :=
  match fuel, buf with
  | _, [] => (B_OK, d, out)
  | O, _ => (B_OK, d, out)
  | S fuel, b :: _ =>
      match decode_field d b buf with
      | None => (B_BAD_DATA, d, out)
      | Some (hs, d, buf) => decode_fields fuel d buf (out ++ hs)
      end
  end.

Definition Decode (d : decoder) (buf : bytes) (out : list HpackHeader) : status * decoder * list HpackHeader :=
  decode_fields (length buf) d buf out.

(** ** The encoder *)

Fixpoint encode_rest (fuel : nat) (v : Z) : bytes :=
  match fuel with
  | O => []
  | S fuel => if v >=? 128 then u8 ((v .& 0x7f) .| 0x80) :: encode_rest fuel (v ≫ 7) else [u8 v]
  end.

(** A uint32 has at most five groups of seven bits. *)
Definition _EncodeInteger (prefixBits prefixMask v : Z) : bytes :=
  let max := (1 ≪ prefixBits) - 1 in
  if v <? max then [prefixMask .| u8 v]
  else (prefixMask .| u8 max) :: encode_rest 5 (v - max).

Definition _EncodeRawString (str : bytes) : bytes := _EncodeInteger 7 0 (u32 (zlen str)) ++ str.

(** The first name match and the first full match, from index [i] on. *)
Fixpoint find_static (tbl : list (bytes * bytes)) (i : Z) (nameMatch : option Z) (n v : bytes)
    : option Z * option Z :=
  match tbl with
  | [] => (None, nameMatch)
  | (sn, sv) :: tbl =>
      if negb (beq sn n) then find_static tbl (i + 1) nameMatch n v
      else
        let nameMatch := match nameMatch with None => Some i | _ => nameMatch end in
        if beq sv v then (Some i, nameMatch) else find_static tbl (i + 1) nameMatch n v
  end.

Definition AddHeader (n v : bytes) : bytes :=
  let '(fullMatch, nameMatch) := find_static (tail kStatic) 1 None n v in
  match fullMatch with
  | Some i => _EncodeInteger 7 0x80 i
  | None =>
      match nameMatch with
      | Some i => _EncodeInteger 4 0 i
      | None => 0 :: _EncodeRawString n
      end ++ _EncodeRawString v
  end.

(** RFC 7541 C.4: the three Huffman-coded requests on one connection. *)
Example rfc7541_C4 :
  let r1 := [0x82; 0x86; 0x84; 0x41; 0x8c; 0xf1; 0xe3; 0xc2; 0xe5; 0xf2; 0x3a; 0x6b; 0xa0; 0xab; 0x90;
             0xf4; 0xff] in
  let r2 := [0x82; 0x86; 0x84; 0xbe; 0x58; 0x86; 0xa8; 0xeb; 0x10; 0x64; 0x9c; 0xbf] in
  let '(s1, d, h1) := Decode HpackDecoder r1 [] in
  let '(s2, d, h2) := Decode d r2 [] in
  s1 = B_OK /\ s2 = B_OK
  /\ h1 = [mkHeader (bs ":method") (bs "GET"); mkHeader (bs ":scheme") (bs "http");
           mkHeader (bs ":path") (bs "/"); mkHeader (bs ":authority") (bs "www.example.com")]
  /\ h2 = h1 ++ [mkHeader (bs "cache-control") (bs "no-cache")]
  /\ fDynamicSize d = 110.
Proof. vm_compute. done. Qed.

(** ** Integers and strings *)

Lemma decode_rest_encode fuel v acc shift rest :
  fuel <> 0%nat -> 0 <= v < 2 ^ (7 * Z.of_nat fuel) -> 0 <= acc -> 0 <= shift -> shift = 7 * (5 - Z.of_nat fuel) ->
  acc + v * 2 ^ shift < 2 ^ 32 ->
  decode_rest (encode_rest fuel v ++ rest) acc shift = Some (acc + v * 2 ^ shift, rest).
Proof.
  revert v acc shift. induction fuel as [|fuel IH]; intros v acc shift Hf Hv Ha Hs Hsh Hb; [done|].
  cbn [encode_rest]. rewrite Z.geb_leb. pose proof (Z.pow_pos_nonneg 2 shift ltac:(lia) Hs) as Hp.
  destruct (Z.leb_spec 128 v).
  - assert (Hm : 0 <= v mod 128 < 128) by (apply Z.mod_pos_bound; lia).
    assert (Hd : v = 128 * (v / 128) + v mod 128) by (apply Z.div_mod; lia).
    assert (Hlor : (v .& 127) .| 128 = v mod 128 + 128).
    { change 127 with (2 ^ 7 - 1). rewrite land_ones_mod by lia.
      exact (lor_shiftl_add (v mod 2 ^ 7) 1 7 ltac:(lia) Hm). }
    rewrite Hlor, u8_small by (unfold is_byte; lia). cbn [app decode_rest].
    assert (((v mod 128 + 128) .& 127) = v mod 128) as ->.
    { change 127 with (2 ^ 7 - 1). rewrite land_ones_mod by lia. change (2 ^ 7) with 128.
      rewrite <- (Z.mul_1_l 128) at 2. rewrite Z.mod_add by lia. by rewrite Z.mod_mod by lia. }
    assert ((((v mod 128 + 128) .& 128) =? 0) = false) as ->.
    { pose proof (byte_forall (fun b => implb (128 <=? b) (negb (b .& 128 =? 0))) (v mod 128 + 128)
        ltac:(vm_compute; reflexivity) ltac:(unfold is_byte; lia)) as E. cbn beta in E.
      destruct (Z.leb_spec 128 (v mod 128 + 128)); [|lia]. by apply negb_true_iff in E. }
    assert (Hsh7 : shift + 7 <= 28).
    { destruct (decide (shift <= 21)); [lia|].
      assert (2 ^ 28 <= 2 ^ shift) by (apply Z.pow_le_mono_r; lia). nia. }
    rewrite Z.gtb_ltb. destruct (Z.ltb_spec 28 (shift + 7)); [lia|].
    rewrite Z.shiftl_mul_pow2 by lia.
    rewrite (u32_small (v mod 128 * 2 ^ shift)) by nia. rewrite (u32_small (acc + _)) by nia.
    rewrite Z.shiftr_div_pow2 by lia. change (2 ^ 7) with 128.
    assert (Hpow : 2 ^ (shift + 7) = 2 ^ shift * 128) by (rewrite Z.pow_add_r by lia; done).
    rewrite (IH (v / 128)); [| | |try lia..].
    + do 2 f_equal. nia.
    + intros ->. change (2 ^ (7 * Z.of_nat 1)) with 128 in Hv. lia.
    + split; [apply Z.div_pos; lia|]. apply Z.div_lt_upper_bound; [lia|].
      replace (7 * Z.of_nat (S fuel)) with (7 + 7 * Z.of_nat fuel) in Hv by lia.
      rewrite Z.pow_add_r in Hv by lia. exact (proj2 Hv).
  - rewrite u8_small by (unfold is_byte; lia). cbn [app decode_rest].
    assert ((v .& 127) = v) as ->.
    { change 127 with (2 ^ 7 - 1). rewrite land_ones_mod by lia. apply Z.mod_small. lia. }
    assert ((v .& 128) = 0) as ->.
    { pose proof (byte_forall (fun b => implb (b <? 128) (b .& 128 =? 0)) v
        ltac:(vm_compute; reflexivity) ltac:(unfold is_byte; lia)) as E. cbn beta in E.
      destruct (Z.ltb_spec v 128); [|lia]. by apply Z.eqb_eq in E. }
    rewrite Z.eqb_refl, Z.shiftl_mul_pow2 by lia. rewrite (u32_small (v * _)) by nia.
    by rewrite u32_small by nia.
Qed.

(** The first byte carries the flags of the mask; the value is read back. *)
Lemma EncodeInteger_spec p mask v rest :
  1 <= p <= 7 -> mask .& (2 ^ p - 1) = 0 -> 0 <= v < 2 ^ 32 ->
  _DecodeInteger (_EncodeInteger p mask v ++ rest) p = Some (v, rest)
  /\ exists low tl, _EncodeInteger p mask v = (mask .| low) :: tl /\ 0 <= low < 2 ^ p.
Proof.
  intros Hp Hm Hv. unfold _EncodeInteger, _DecodeInteger. rewrite Z.shiftl_1_l.
  assert (Hp2 : 2 <= 2 ^ p <= 128).
  { split; [apply (Z.pow_le_mono_r 2 1 p)|apply (Z.pow_le_mono_r 2 p 7)]; lia. }
  assert (Hl : forall low, 0 <= low < 2 ^ p -> (mask .| low) .& (2 ^ p - 1) = low).
  { intros low Hlow. rewrite Z.land_lor_distr_l, Hm, Z.lor_0_l, land_ones_mod by lia. by apply Z.mod_small. }
  destruct (Z.ltb_spec v (2 ^ p - 1)).
  - rewrite u8_small by (unfold is_byte; lia). cbn [app]. rewrite Hl by lia.
    destruct (Z.ltb_spec v (2 ^ p - 1)); [|lia]. split; [done|]. do 2 eexists. split; [done|lia].
  - rewrite u8_small by (unfold is_byte; lia). cbn [app]. rewrite Hl by lia. rewrite Z.ltb_irrefl.
    split; [|do 2 eexists; split; [done|lia]].
    rewrite (decode_rest_encode 5); [do 2 f_equal; lia|done|change (2 ^ (7 * Z.of_nat 5)) with (2 ^ 35); lia|lia..].
Qed.

Definition text (s : bytes) : Prop := Forall (fun c => c <> 0) s /\ zlen s < 2 ^ 31.

Definition is_text (s : bytes) : bool := forallb (fun c => negb (c =? 0)) s && (zlen s <? 2 ^ 31).

Lemma is_text_spec s : is_text s = true -> text s.
Proof.
  intros [H1 H2]%andb_true_iff. split; [|lia]. rewrite forallb_forall in H1. apply Forall_forall.
  intros c Hc%list_elem_of_In%H1. by apply negb_true_iff, Z.eqb_neq in Hc.
Qed.

Lemma DecodeString_raw s rest : text s -> _DecodeString (_EncodeRawString s ++ rest) = Some (s, rest).
Proof.
  intros [Hz Hl]. pose proof (zlen_nonneg s). unfold _EncodeRawString. rewrite u32_small by lia.
  rewrite <- app_assoc.
  destruct (EncodeInteger_spec 7 0 (zlen s) (s ++ rest)) as (Hd & low & tl & He & Hlow); try done; [lia|].
  rewrite He in *. cbn [app] in *. unfold _DecodeString. rewrite Hd.
  assert (((0 .| low) .& 128) = 0) as ->.
  { rewrite Z.lor_0_l. pose proof (byte_forall (fun b => implb (b <? 128) (b .& 128 =? 0)) low
        ltac:(vm_compute; reflexivity) ltac:(unfold is_byte; lia)) as E. cbn beta in E.
    destruct (Z.ltb_spec low 128); [|lia]. by apply Z.eqb_eq in E. }
  rewrite zlen_app, Z.gtb_ltb. pose proof (zlen_nonneg rest).
  destruct (Z.ltb_spec (zlen s + zlen rest) (zlen s)); [lia|]. cbn [Z.eqb negb].
  rewrite ztake_app, zdrop_app by done. by rewrite cstr_text.
Qed.

(** ** Headers *)

Lemma find_static_spec tbl i nm n v full nm' :
  find_static tbl i nm n v = (full, nm') ->
  (forall j, full = Some j -> i <= j < i + zlen tbl /\ tbl !! Z.to_nat (j - i) = Some (n, v))
  /\ (forall j, nm' = Some j -> nm = Some j
      \/ (i <= j < i + zlen tbl /\ exists sv, tbl !! Z.to_nat (j - i) = Some (n, sv))).
Proof.
  revert i nm. induction tbl as [|[sn sv] tbl IH]; intros i nm; cbn [find_static].
  { intros [= <- <-]. split; [done|]. intros j ->. by left. }
  assert (Hstep : forall j (P : bytes * bytes -> Prop),
    i + 1 <= j < i + 1 + zlen tbl /\ (exists e, tbl !! Z.to_nat (j - (i + 1)) = Some e /\ P e) ->
    i <= j < i + zlen ((sn, sv) :: tbl) /\ exists e, ((sn, sv) :: tbl) !! Z.to_nat (j - i) = Some e /\ P e).
  { intros j P [Hj He]. rewrite zlen_cons. split; [lia|].
    replace (Z.to_nat (j - i)) with (S (Z.to_nat (j - (i + 1)))) by lia. done. }
  assert (Hrec : forall nm0, find_static tbl (i + 1) nm0 n v = (full, nm') ->
    (forall j, full = Some j -> i <= j < i + zlen ((sn, sv) :: tbl)
       /\ ((sn, sv) :: tbl) !! Z.to_nat (j - i) = Some (n, v))
    /\ (forall j, nm' = Some j -> nm0 = Some j \/ (i <= j < i + zlen ((sn, sv) :: tbl)
       /\ exists sv', ((sn, sv) :: tbl) !! Z.to_nat (j - i) = Some (n, sv')))).
  { intros nm0 H. destruct (IH _ _ H) as [A B]. split.
    - intros j Hj. destruct (A j Hj) as [? ?].
      destruct (Hstep j (fun e => e = (n, v))) as (? & e & He & ->); [|done]. split; [done|]. by eexists.
    - intros j Hj. destruct (B j Hj) as [|(? & sv' & ?)]; [by left|]. right.
      destruct (Hstep j (fun e => e.1 = n)) as (? & [? ?] & He & Hn); [split; [done|]; by eexists|].
      simpl in Hn. subst. split; [done|]. by eexists. }
  destruct (beq sn n) eqn:En; cbn [negb]; [|apply Hrec].
  apply beq_true in En. subst sn.
  assert (Hhere : forall w, i <= i < i + zlen ((n, sv) :: tbl)
    /\ (sv = w -> ((n, sv) :: tbl) !! Z.to_nat (i - i) = Some (n, w))).
  { intros w. rewrite zlen_cons. pose proof (zlen_nonneg tbl). split; [lia|]. rewrite Z.sub_diag. by intros ->. }
  destruct (beq sv v) eqn:Ev.
  - apply beq_true in Ev. subst sv. intros [= <- <-]. split.
    + intros j [= <-]. destruct (Hhere v). eauto.
    + intros j. destruct nm; [by left|]. intros [= <-]. right. destruct (Hhere v). eauto.
  - intros H. destruct (Hrec _ H) as [A B]. split; [done|]. intros j Hj.
    destruct (B j Hj) as [Hnm|]; [|by right]. destruct nm; [by left|]. injection Hnm as <-.
    right. destruct (Hhere sv). eauto.
Qed.

Lemma Lookup_static d j n v :
  1 <= j < 1 + zlen (tail kStatic) -> tail kStatic !! Z.to_nat (j - 1) = Some (n, v) ->
  1 <= j <= kStaticCount /\ _Lookup d j = Some (mkHeader n v).
Proof.
  intros Hj Hl. change (zlen (tail kStatic)) with 61 in Hj. unfold _Lookup, kStaticCount.
  split; [lia|]. destruct (Z.eqb_spec j 0); [lia|]. destruct (Z.leb_spec j 61); [|lia].
  replace (kStatic !! Z.to_nat j) with (tail kStatic !! Z.to_nat (j - 1)); [by rewrite Hl|].
  rewrite lookup_tail. f_equal. lia.
Qed.

Lemma flags p mask low : (p, mask) ∈ [(7, 128); (7, 0); (4, 0)] -> 0 <= low < 2 ^ p ->
  ((mask .| low) .& 128 =? 0) = (mask =? 0)
  /\ (p = 4 -> ((mask .| low) .& 64) = 0 /\ ((mask .| low) .& 32) = 0).
Proof.
  intros Hin Hl. assert (Hb : is_byte low).
  { unfold is_byte. assert (2 ^ p <= 128); [|lia]. by repeat (apply elem_of_cons in Hin as [[= -> ->]|Hin]); [..|inversion Hin]. }
  pose proof (byte_forall (fun b => implb (b <? 128) ((128 .| b) .& 128 =? 128)
      && implb (b <? 128) (b .& 128 =? 0) && implb (b <? 16) ((b .& 64 =? 0) && (b .& 32 =? 0))) low
    ltac:(vm_compute; reflexivity) Hb) as E. cbn beta in E.
  repeat (apply elem_of_cons in Hin as [[= -> ->]|Hin]); [..|inversion Hin].
  - change (2 ^ 7) with 128 in Hl. destruct (Z.ltb_spec low 128); [|lia].
    apply andb_true_iff in E as [[E1 _]%andb_true_iff _]. cbn [implb] in E1. apply Z.eqb_eq in E1. by rewrite E1.
  - change (2 ^ 7) with 128 in Hl. destruct (Z.ltb_spec low 128); [|lia].
    apply andb_true_iff in E as [[_ E1]%andb_true_iff _]. cbn [implb] in E1. rewrite Z.lor_0_l. by rewrite E1.
  - change (2 ^ 4) with 16 in Hl. destruct (Z.ltb_spec low 128); [|lia]. destruct (Z.ltb_spec low 16); [|lia].
    apply andb_true_iff in E as [[_ E1]%andb_true_iff [E2 E3]%andb_true_iff]. cbn [implb] in E1.
    apply Z.eqb_eq in E2, E3. rewrite Z.lor_0_l, E1. done.
Qed.

Lemma AddHeader_nonempty n v : AddHeader n v <> [].
Proof.
  unfold AddHeader. destruct (find_static _ _ _ _ _) as [[i|] nm].
  - unfold _EncodeInteger. by destruct (_ <? _).
  - destruct nm; [|done]. unfold _EncodeInteger. by destruct (_ <? _).
Qed.

#[local] Opaque kStatic find_static _DecodeString _EncodeRawString _EncodeInteger.

Lemma decode_field_header d n v rest :
  text n -> text v ->
  exists b tl, AddHeader n v ++ rest = b :: tl
    /\ decode_field d b (b :: tl) = Some ([mkHeader n v], d, rest).
Proof.
  intros Hn Hv. unfold AddHeader. destruct (find_static (tail kStatic) 1 None n v) as [full nm] eqn:E.
  destruct (find_static_spec _ _ _ _ _ _ _ E) as [Hfull Hnm]. clear E. destruct full as [j|].
  - destruct (Hfull j eq_refl) as [Hj Hl]. destruct (Lookup_static d j n v Hj Hl) as [Hr Hlk].
    unfold kStaticCount in Hr.
    destruct (EncodeInteger_spec 7 128 j rest) as (Hd & low & tl & He & Hlow); [lia|done|lia|].
    rewrite He in *. cbn [app] in *. do 2 eexists. split; [reflexivity|]. unfold decode_field.
    destruct (flags 7 128 low) as [-> _]; [rewrite !elem_of_cons; tauto|done|]. cbn [Z.eqb negb]. rewrite Hd.
    by rewrite Hlk.
  - clear Hfull. destruct nm as [j|].
    + destruct (Hnm j eq_refl) as [|(Hj & sv & Hl)]; [done|].
      destruct (Lookup_static d j n sv Hj Hl) as [Hr Hlk]. unfold kStaticCount in Hr.
      rewrite <- app_assoc.
      destruct (EncodeInteger_spec 4 0 j (_EncodeRawString v ++ rest)) as (Hd & low & tl & He & Hlow);
        [lia|done|lia|]. rewrite He in *. cbn [app] in *.
      do 2 eexists. split; [reflexivity|]. unfold decode_field.
      destruct (flags 4 0 low) as [-> F]; [rewrite !elem_of_cons; tauto|done|]. destruct F as [F1 F2]; [done|].
      rewrite F1, F2. cbn [Z.eqb negb]. unfold decode_literal. rewrite Hd.
      destruct (Z.eqb_spec j 0); [lia|]. cbn [negb]. rewrite Hlk. cbn [fmap option_fmap option_map name].
      by rewrite DecodeString_raw.
    + cbn [app]. do 2 eexists. split; [reflexivity|]. unfold decode_field. cbn [Z.land Z.eqb negb].
      unfold decode_literal.
      assert (forall l, _DecodeInteger (0 :: l) 4 = Some (0, l)) as -> by reflexivity.
      cbn [Z.eqb negb]. rewrite <- app_assoc, DecodeString_raw by done. by rewrite DecodeString_raw.
Qed.

(** C37: What AddHeader emits is decoded back. For every list of headers whose names and values are C strings, the concatenation of their encodings decodes, in any state of the decoder, to exactly those headers, in order, after whatever was collected before, and leaves the decoder's dynamic table untouched. *)
Theorem headers_roundtrip hs d out :
  Forall (fun h => text (name h) /\ text (value h)) hs ->
  Decode d (flat_map (fun h => AddHeader (name h) (value h)) hs) out = (B_OK, d, out ++ hs).
Proof.
  intros Hhs. unfold Decode.
  enough (forall fuel, (length (flat_map (fun h => AddHeader (name h) (value h)) hs) <= fuel)%nat ->
    decode_fields fuel d (flat_map (fun h => AddHeader (name h) (value h)) hs) out = (B_OK, d, out ++ hs)) by eauto.
  revert out. induction Hhs as [|[n v] hs [Hn Hv] _ IH]; intros out fuel Hf.
  { rewrite app_nil_r. by destruct fuel. }
  cbn [flat_map name value] in *.
  destruct (decode_field_header d n v (flat_map (fun h => AddHeader (name h) (value h)) hs) Hn Hv)
    as (b & tl & E & Hd).
  pose proof (AddHeader_nonempty n v) as Hnz.
  rewrite length_app in Hf. rewrite E. destruct fuel as [|fuel]; [destruct (AddHeader n v); [done|cbn in Hf; lia]|].
  cbn [decode_fields]. rewrite Hd. rewrite IH.
  - by rewrite <- app_assoc.
  - destruct (AddHeader n v); [done|]. cbn in Hf. lia.
Qed.

Lemma headers_roundtrip_witness :
  Decode HpackDecoder (AddHeader (bs ":method") (bs "POST") ++ AddHeader (bs ":path") (bs "/machine/map")
    ++ AddHeader (bs "x-long") (replicate 200 97)) []
  = (B_OK, HpackDecoder, [mkHeader (bs ":method") (bs "POST"); mkHeader (bs ":path") (bs "/machine/map");
                          mkHeader (bs "x-long") (replicate 200 97)]).
Proof.
  pose proof (headers_roundtrip [mkHeader (bs ":method") (bs "POST"); mkHeader (bs ":path") (bs "/machine/map");
    mkHeader (bs "x-long") (replicate 200 97)] HpackDecoder []) as A.
  cbn [flat_map name value app] in A. rewrite app_nil_r in A. apply A.
  repeat (constructor; [split; apply is_text_spec; vm_compute; reflexivity|]). constructor.
Defined.

(** ** The dynamic table *)

Definition table_size (l : list HpackHeader) : Z := foldr (fun h n => entry_size h + n) 0 l.

(** RFC 7541, 4: the newest entries whose sizes add up to at most [m]. *)
Fixpoint keep (m : Z) (l : list HpackHeader) : list HpackHeader :=
  match l with
  | [] => []
  | h :: l => if entry_size h <=? m then h :: keep (m - entry_size h) l else []
  end.

Definition table (m : Z) (l : list HpackHeader) : decoder := mkDecoder (keep m l) (table_size (keep m l)) m.

Definition wf_table (d : decoder) : Prop :=
  fDynamicSize d = table_size (fDynamic d) /\ 0 <= fDynamicSize d <= fMaxDynamicSize d.

Lemma entry_size_pos h : 0 < entry_size h.
Proof. unfold entry_size. pose proof (zlen_nonneg (name h)). pose proof (zlen_nonneg (value h)). lia. Qed.

Lemma table_size_cons h l : table_size (h :: l) = entry_size h + table_size l.
Proof. reflexivity. Qed.

Lemma table_size_nonneg l : 0 <= table_size l.
Proof. induction l as [|h l IH]; [done|]. rewrite table_size_cons. pose proof (entry_size_pos h). lia. Qed.

Lemma table_size_snoc l h : table_size (l ++ [h]) = table_size l + entry_size h.
Proof. induction l as [|k l IH]; cbn [app]; rewrite !table_size_cons; [change (table_size []) with 0|]; lia. Qed.

Lemma keep_all m l : table_size l <= m -> keep m l = l.
Proof.
  revert m. induction l as [|h l IH]; intros m Hm; [done|]. rewrite table_size_cons in Hm.
  cbn [keep]. pose proof (table_size_nonneg l). destruct (Z.leb_spec (entry_size h) m); [|lia].
  by rewrite IH by lia.
Qed.

Lemma keep_snoc m l h : m < table_size (l ++ [h]) -> keep m (l ++ [h]) = keep m l.
Proof.
  revert m. induction l as [|k l IH]; intros m Hm; cbn [app keep] in *.
  - rewrite table_size_cons in Hm. change (table_size []) with 0 in Hm.
    destruct (Z.leb_spec (entry_size h) m); [lia|done].
  - rewrite table_size_cons in Hm. destruct (entry_size k <=? m); [|done].
    by rewrite IH by lia.
Qed.

Lemma keep_fits m l : 0 <= m -> 0 <= table_size (keep m l) <= m.
Proof.
  revert m. induction l as [|h l IH]; intros m Hm; cbn [keep]; [change (table_size []) with 0; lia|].
  destruct (Z.leb_spec (entry_size h) m); [|change (table_size []) with 0; lia]. rewrite table_size_cons.
  specialize (IH (m - entry_size h)). pose proof (entry_size_pos h). lia.
Qed.

Lemma Evict_spec m l : 0 <= m -> _Evict (mkDecoder l (table_size l) m) = table m l.
Proof.
  intros Hm. unfold _Evict. cbn [fDynamic]. induction l as [|h l IH] using rev_ind.
  { unfold table. cbn. done. }
  rewrite length_app. cbn [length]. rewrite Nat.add_1_r. cbn [evict fDynamicSize fMaxDynamicSize fDynamic].
  rewrite Z.gtb_ltb. destruct (Z.ltb_spec m (table_size (l ++ [h]))).
  - rewrite last_snoc, removelast_last, table_size_snoc.
    replace (table_size l + entry_size h - entry_size h) with (table_size l) by lia.
    rewrite IH. unfold table. by rewrite keep_snoc.
  - unfold table. by rewrite keep_all by lia.
Qed.

Lemma table_wf m l : 0 <= m -> wf_table (table m l).
Proof. intros Hm. split; [done|]. by apply keep_fits. Qed.

Lemma AddDynamic_spec h d : wf_table d -> _AddDynamic h d = table (fMaxDynamicSize d) (h :: fDynamic d).
Proof.
  intros [Hs Hb]. unfold _AddDynamic. rewrite Hs, <- Evict_spec by lia. do 2 f_equal.
  rewrite table_size_cons. lia.
Qed.

Lemma SetMaxDynamicSize_spec m d : wf_table d -> 0 <= m -> SetMaxDynamicSize m d = table m (fDynamic d).
Proof. intros [Hs _] Hm. unfold SetMaxDynamicSize. by rewrite Hs, Evict_spec. Qed.

Lemma decode_rest_range buf w s v rest : decode_rest buf w s = Some (v, rest) -> 0 <= v < 2 ^ 32.
Proof.
  revert w s. induction buf as [|c buf IH]; intros w s; cbn [decode_rest]; [done|].
  destruct (_ =? 0); [intros [= <- <-]; apply u32_range|]. destruct (_ >? 28); [done|]. apply IH.
Qed.

Lemma DecodeInteger_nonneg buf p v rest : 0 <= p -> _DecodeInteger buf p = Some (v, rest) -> 0 <= v.
Proof.
  intros Hp. destruct buf as [|b buf]; cbn [_DecodeInteger]; [done|]. rewrite Z.shiftl_1_l.
  rewrite land_ones_mod by done. pose proof (Z.mod_pos_bound b (2 ^ p) ltac:(lia)).
  destruct (_ <? _); [intros [= <- <-]; lia|]. intros E%decode_rest_range. lia.
Qed.

Lemma decode_field_table d b buf hs d' rest :
  wf_table d -> decode_field d b buf = Some (hs, d', rest) -> wf_table d'.
Proof.
  intros Hd. unfold decode_field. destruct (negb _).
  { destruct (_DecodeInteger buf 7) as [[i ?]|]; [|done]. destruct (_Lookup d i); by intros [= <- <- <-]. }
  destruct (negb _).
  { destruct (decode_literal d buf 6) as [[h ?]|]; [|done]. intros [= <- <- <-]. cbn [fst].
    rewrite AddDynamic_spec by done. apply table_wf. destruct Hd. lia. }
  destruct (negb _).
  { destruct (_DecodeInteger buf 5) as [[m ?]|] eqn:E; [|done]. intros [= <- <- <-]. cbn [fst].
    apply DecodeInteger_nonneg in E; [|lia]. rewrite SetMaxDynamicSize_spec by (done || lia).
    apply table_wf. lia. }
  destruct (decode_literal d buf 4) as [[h ?]|]; [|done]. by intros [= <- <- <-].
Qed.

(** The dynamic table is the FIFO of RFC 7541, section 4. Starting from a fresh decoder and after any header blocks, well-formed or not, the recorded size is the sum of the entry sizes and at most the maximum; inserting a header keeps exactly the newest entries that fit, a size update exactly the newest that fit the new maximum, and so a header larger than the maximum empties the table. *)
Theorem dynamic_table_fifo blocks :
  let d := fold_left (fun d buf => snd (fst (Decode d buf []))) blocks HpackDecoder in
  fDynamicSize d = table_size (fDynamic d) /\ 0 <= fDynamicSize d <= fMaxDynamicSize d
  /\ (forall h, _AddDynamic h d = table (fMaxDynamicSize d) (h :: fDynamic d))
  /\ (forall m, 0 <= m -> SetMaxDynamicSize m d = table m (fDynamic d))
  /\ (forall h, fMaxDynamicSize d < entry_size h -> fDynamic (_AddDynamic h d) = []).
Proof.
  intros d. assert (Hd : wf_table d).
  { subst d. assert (H0 : wf_table HpackDecoder) by done. revert H0. generalize HpackDecoder.
    induction blocks as [|buf blocks IH]; intros d Hd; [done|]. cbn [fold_left]. apply IH.
    unfold Decode. clear IH. generalize (length buf) (@nil HpackHeader). intros fuel. revert d buf Hd.
    induction fuel as [|fuel IH]; intros d [|b buf] Hd out; cbn [decode_fields]; try done.
    destruct (decode_field d b (b :: buf)) as [[[hs d'] rest]|] eqn:E; [|done].
    apply IH. by eapply decode_field_table. }
  destruct (Hd) as [Hs Hb]. split; [done|]. split; [done|]. split; [|split].
  - intros h. by apply AddDynamic_spec.
  - intros m. by apply SetMaxDynamicSize_spec.
  - intros h Hh. rewrite AddDynamic_spec by done. cbn [table fDynamic keep].
    destruct (Z.leb_spec (entry_size h) (fMaxDynamicSize d)); [lia|done].
Qed.

(** Every representation consumes at least a byte, so the block's length is
    fuel enough. *)
Lemma decode_rest_shorter buf w s v rest : decode_rest buf w s = Some (v, rest) -> (length rest < length buf)%nat.
Proof.
  revert w s. induction buf as [|c buf IH]; intros w s; cbn [decode_rest length]; [done|].
  destruct (_ =? 0); [intros [= <- <-]; lia|]. destruct (_ >? 28); [done|]. intros E%IH. lia.
Qed.

Lemma DecodeInteger_shorter buf p v rest : _DecodeInteger buf p = Some (v, rest) -> (length rest < length buf)%nat.
Proof.
  destruct buf as [|c buf]; cbn [_DecodeInteger length]; [done|].
  destruct (_ <? _); [intros [= <- <-]; lia|]. intros E%decode_rest_shorter. lia.
Qed.

#[local] Transparent _DecodeString.
Lemma DecodeString_shorter buf s rest : _DecodeString buf = Some (s, rest) -> (length rest <= length buf)%nat.
Proof.
  unfold _DecodeString. destruct buf as [|c buf]; [done|].
  destruct (_DecodeInteger _ _) as [[n l]|] eqn:E; [|done]. apply DecodeInteger_shorter in E.
  destruct (_ >? _); [done|]. assert (length (zdrop n l) <= length l)%nat by (unfold zdrop; rewrite length_drop; lia).
  destruct (negb _); [destruct (huffman_decode _); [|done]|]; intros [= <- <-]; lia.
Qed.
#[local] Opaque _DecodeString.

Lemma decode_literal_shorter d buf p h rest :
  decode_literal d buf p = Some (h, rest) -> (length rest < length buf)%nat.
Proof.
  unfold decode_literal. destruct (_DecodeInteger buf p) as [[i l]|] eqn:E; [|done].
  apply DecodeInteger_shorter in E.
  destruct (negb (i =? 0)).
  - destruct (_Lookup d i) as [n|]; [|done]. cbn [fmap option_fmap option_map].
    destruct (_DecodeString l) as [[v l2]|] eqn:E2; [|done]. apply DecodeString_shorter in E2.
    intros [= <- <-]. lia.
  - destruct (_DecodeString l) as [[n l1]|] eqn:E1; [|done]. apply DecodeString_shorter in E1.
    destruct (_DecodeString l1) as [[v l2]|] eqn:E2; [|done]. apply DecodeString_shorter in E2.
    intros [= <- <-]. lia.
Qed.

Lemma decode_field_shorter d b buf hs d' rest :
  decode_field d b buf = Some (hs, d', rest) -> (length rest < length buf)%nat.
Proof.
  unfold decode_field. destruct (negb _).
  { destruct (_DecodeInteger buf 7) as [[i l]|] eqn:E; [|done]. apply DecodeInteger_shorter in E.
    destruct (_Lookup d i); intros [= <- <- <-]. lia. }
  destruct (negb _).
  { destruct (decode_literal d buf 6) as [[h l]|] eqn:E; [|done]. apply decode_literal_shorter in E.
    intros [= <- <- <-]. cbn [snd]. lia. }
  destruct (negb _).
  { destruct (_DecodeInteger buf 5) as [[m l]|] eqn:E; [|done]. apply DecodeInteger_shorter in E.
    intros [= <- <- <-]. cbn [snd]. lia. }
  destruct (decode_literal d buf 4) as [[h l]|] eqn:E; [|done]. apply decode_literal_shorter in E.
  intros [= <- <- <-]. cbn [snd]. lia.
Qed.

Lemma decode_fields_fuel f1 f2 d buf out :
  (length buf <= f1)%nat -> (length buf <= f2)%nat -> decode_fields f1 d buf out = decode_fields f2 d buf out.
Proof.
  revert f2 d buf out. induction f1 as [|f1 IH]; intros [|f2] d [|b buf] out H1 H2; cbn in H1, H2; try lia; try done.
  cbn [decode_fields]. destruct (decode_field d b (b :: buf)) as [[[hs d'] rest]|] eqn:E; [|done].
  apply decode_field_shorter in E. cbn in E. apply IH; lia.
Qed.

(** ** The Huffman code

    Bits are 0 or 1, most significant first; [bval] is the number they spell. *)

Definition is_bits (q : list Z) : Prop := Forall (fun b => b = 0 \/ b = 1) q.
Definition bval (q : list Z) : Z := fold_left (fun a b => 2 * a + b) q 0.

Fixpoint msb (n : nat) (v : Z) : list Z :=
  match n with
  | O => []
  | S n => (v ≫ Z.of_nat n) .& 1 :: msb n v
  end.

Definition hlen (s : Z) : Z := at_ kHuffLen s.
Definition hcode (s : Z) : Z := at_ kHuffCode s.
(** The code of a byte, as RFC 7541 Appendix B lists it. *)
Definition code_bits (s : Z) : list Z := msb (Z.to_nat (hlen s)) (hcode s).

Lemma bval_snoc q b : bval (q ++ [b]) = 2 * bval q + b.
Proof. unfold bval. by rewrite fold_left_app. Qed.

Lemma bval_app q r : bval (q ++ r) = bval q * 2 ^ zlen r + bval r.
Proof.
  induction r as [|b r IH] using rev_ind; [rewrite app_nil_r; change (zlen []) with 0; change (bval []) with 0; lia|].
  rewrite app_assoc, !bval_snoc, IH, zlen_app. change (zlen [b]) with 1. rewrite Z.pow_add_r by (pose proof (zlen_nonneg r); lia).
  change (2 ^ 1) with 2. ring.
Qed.

Lemma bval_range q : is_bits q -> 0 <= bval q < 2 ^ zlen q.
Proof.
  induction q as [|b q IH] using rev_ind; [done|]. intros [Hq Hb]%Forall_app.
  apply Forall_inv in Hb. specialize (IH Hq). rewrite bval_snoc, zlen_app. change (zlen [b]) with 1.
  rewrite Z.pow_add_r by (pose proof (zlen_nonneg q); lia).
  change (2 ^ 1) with 2. lia.
Qed.

Lemma bval_inj q r : is_bits q -> is_bits r -> length q = length r -> bval q = bval r -> q = r.
Proof.
  revert r. induction q as [|b q IH] using rev_ind; intros r Hq Hr Hl Hv.
  { by destruct r. }
  destruct r as [|c r _] using rev_ind; [rewrite length_app in Hl; cbn in Hl; lia|].
  rewrite !length_app in Hl. cbn in Hl. rewrite !bval_snoc in Hv.
  apply Forall_app in Hq as [Hq Hb%Forall_inv], Hr as [Hr Hc%Forall_inv].
  cbn beta in Hb, Hc. assert (b = c) as -> by lia. f_equal. apply IH; [done|done|lia|lia].
Qed.

Lemma bit_cases x : x .& 1 = 0 \/ x .& 1 = 1.
Proof. change 1 with (2 ^ 1 - 1). rewrite land_ones_mod by lia. pose proof (Z.mod_pos_bound x (2 ^ 1)). lia. Qed.

Lemma msb_bits n v : is_bits (msb n v).
Proof. induction n as [|n IH]; constructor; [apply bit_cases|done]. Qed.

Lemma length_msb n v : length (msb n v) = n.
Proof. induction n; simpl; auto. Qed.

Lemma bval_msb n v : bval (msb n v) = v mod 2 ^ Z.of_nat n.
Proof.
  induction n as [|n IH]; [by rewrite Z.mod_1_r|]. cbn [msb].
  change (_ :: msb n v) with ([(v ≫ Z.of_nat n) .& 1] ++ msb n v). rewrite bval_app, IH.
  unfold zlen. rewrite length_msb. unfold bval. cbn [fold_left].
  rewrite Z.shiftr_div_pow2 by lia. change 1 with (2 ^ 1 - 1). rewrite land_ones_mod by lia. change (2 ^ 1) with 2.
  replace (Z.of_nat (S n)) with (Z.of_nat n + 1) by lia. rewrite Z.pow_add_r by lia. change (2 ^ 1) with 2.
  rewrite Z.rem_mul_r by lia. lia.
Qed.

(** Each code owns the 30-bit strings it is a prefix of: an interval. *)
Definition interval (s : Z) : Z * Z :=
  (hcode s * 2 ^ (30 - hlen s), (hcode s + 1) * 2 ^ (30 - hlen s)).

Definition apart (a b : Z * Z) : bool := (snd a <=? fst b) || (snd b <=? fst a).

Fixpoint all_apart (l : list (Z * Z)) : bool :=
  match l with
  | [] => true
  | a :: l => forallb (apart a) l && all_apart l
  end.

Definition code_ok (s : Z) : bool :=
  (5 <=? hlen s) && (hlen s <=? 30) && (0 <=? hcode s) && (hcode s <? 2 ^ hlen s)
  && ((8 <=? hlen s) || negb (hcode s =? 2 ^ hlen s - 1)).

Lemma codes_ok s : is_byte s ->
  5 <= hlen s <= 30 /\ 0 <= hcode s < 2 ^ hlen s /\ (hlen s < 8 -> hcode s <> 2 ^ hlen s - 1).
Proof.
  intros Hs. assert (E : code_ok s = true) by (apply byte_forall; [vm_compute; reflexivity|done]).
  unfold code_ok in E. lia.
Qed.

Lemma all_apart_lookup l i j a b :
  all_apart l = true -> (i < j)%nat -> l !! i = Some a -> l !! j = Some b -> apart a b = true.
Proof.
  revert i j. induction l as [|x l IH]; intros i j H Hij Ha Hb; [done|].
  cbn [all_apart] in H. apply andb_true_iff in H as [Hx Hl]. destruct i as [|i].
  - injection Ha as ->. destruct j as [|j]; [lia|]. rewrite forallb_forall in Hx. apply Hx.
    apply list_elem_of_In. by eapply list_elem_of_lookup_2.
  - destruct j as [|j]; [lia|]. eapply IH; [done| |done|done]. lia.
Qed.

Lemma intervals_apart s t : is_byte s -> is_byte t -> s <> t ->
  apart (interval s) (interval t) = true.
Proof.
  assert (H : all_apart (map interval all_bytes) = true) by (vm_compute; reflexivity).
  assert (Hlk : forall u, is_byte u -> map interval all_bytes !! Z.to_nat u = Some (interval u)).
  { intros u [H0 H1]. rewrite list_lookup_fmap. unfold all_bytes. rewrite list_lookup_fmap.
    rewrite lookup_seq_lt by lia. cbn. f_equal. f_equal. lia. }
  intros Hs Ht Hn. unfold is_byte in *. destruct (decide (s < t)).
  - eapply all_apart_lookup; [exact H| |apply Hlk; done|apply Hlk; done]. lia.
  - assert (E : apart (interval t) (interval s) = true).
    { eapply all_apart_lookup; [exact H| |apply Hlk; done|apply Hlk; done]. lia. }
    unfold apart in *. by rewrite orb_comm.
Qed.

#[local] Opaque kHuffLen kHuffCode hlen hcode.

Lemma code_bits_length s : is_byte s -> zlen (code_bits s) = hlen s.
Proof. intros Hs. pose proof (codes_ok s Hs). unfold zlen, code_bits. rewrite length_msb. lia. Qed.

Lemma bval_code s : is_byte s -> bval (code_bits s) = hcode s.
Proof.
  intros Hs. pose proof (codes_ok s Hs) as (? & ? & _). unfold code_bits. rewrite bval_msb, Z2Nat.id by lia.
  by apply Z.mod_small.
Qed.

(** No code is a prefix of another. *)
Lemma prefix_free s t r : is_byte s -> is_byte t -> is_bits r -> code_bits t = code_bits s ++ r -> s = t /\ r = [].
Proof.
  intros Hs Ht Hr E. pose proof (codes_ok s Hs) as (Hls & Hcs & _). pose proof (codes_ok t Ht) as (Hlt & Hct & _).
  assert (Hlen : hlen t = hlen s + zlen r) by (rewrite <- !code_bits_length, E by done; by rewrite zlen_app).
  assert (Hval : hcode t = hcode s * 2 ^ zlen r + bval r)
    by (rewrite <- !bval_code, E by done; by rewrite bval_app).
  assert (Heq : s = t).
  { destruct (decide (s = t)) as [|Hn]; [done|exfalso].
    pose proof (intervals_apart s t Hs Ht Hn) as A. unfold apart, interval in A. cbn [fst snd] in A.
    pose proof (bval_range r Hr). pose proof (zlen_nonneg r).
    assert (Hp : 2 ^ (30 - hlen s) = 2 ^ zlen r * 2 ^ (30 - hlen t)) by (rewrite <- Z.pow_add_r by lia; f_equal; lia).
    assert (0 < 2 ^ (30 - hlen t)) by (apply Z.pow_pos_nonneg; lia). rewrite Hp, Hval in A. nia. }
  subst t. split; [done|]. apply zlen_0_nil. lia.
Qed.

Lemma find_sym_Some lens codes s n acc r :
  find_sym lens codes s n acc = Some r ->
  exists i, (i < length lens)%nat /\ r = s + Z.of_nat i /\ nth i lens 0 = n /\ nth i codes 0 = acc.
Proof.
  revert codes s. induction lens as [|l lens IH]; intros [|c codes] s; cbn [find_sym]; try done.
  destruct ((l =? n) && (c =? acc)) eqn:E.
  - intros [= <-]. exists 0%nat. cbn. lia.
  - intros (i & Hi & -> & Hl & Hc)%IH. exists (S i). cbn. lia.
Qed.

Lemma find_sym_None lens codes s n acc i :
  find_sym lens codes s n acc = None -> length lens = length codes -> (i < length lens)%nat ->
  ~ (nth i lens 0 = n /\ nth i codes 0 = acc).
Proof.
  revert codes s i. induction lens as [|l lens IH]; intros [|c codes] s i; cbn [find_sym length]; try (intros; lia).
  destruct ((l =? n) && (c =? acc)) eqn:E; [done|]. intros H Hl Hi.
  destruct i as [|i]; cbn [nth]; [lia|]. eapply IH; [exact H|lia|lia].
Qed.

(** What the table search answers for the bits read so far. *)
Lemma find_sym_bits q : is_bits q ->
  match find_sym kHuffLen kHuffCode 0 (zlen q) (bval q) with
  | Some s => is_byte s /\ q = code_bits s
  | None => forall s, is_byte s -> q <> code_bits s
  end.
Proof.
  intros Hq. assert (L1 : length kHuffLen = 256%nat) by (vm_compute; reflexivity).
  assert (L2 : length kHuffCode = 256%nat) by (vm_compute; reflexivity).
  destruct (find_sym _ _ _ _ _) as [s|] eqn:E.
  - apply find_sym_Some in E as (i & Hi & Hs & Hl & Hc). rewrite L1 in Hi.
    assert (Hb : is_byte s) by (unfold is_byte; lia). split; [done|].
    assert (Hsi : Z.to_nat s = i) by lia.
    assert (El : hlen s = zlen q) by (rewrite <- Hl, <- Hsi; reflexivity).
    assert (Ec : hcode s = bval q) by (rewrite <- Hc, <- Hsi; reflexivity).
    apply bval_inj; [done|apply msb_bits| |by rewrite bval_code].
    apply Nat2Z.inj. fold (zlen q) (zlen (code_bits s)). by rewrite code_bits_length.
  - intros s Hs ->. rewrite code_bits_length, bval_code in E by done.
    apply (find_sym_None _ _ _ _ _ (Z.to_nat s)) in E; [|congruence|unfold is_byte in Hs; lia].
    apply E. split; reflexivity.
Qed.

(** One bit of the decoder, on the bits [q] pending since the last symbol. *)
Lemma huffman_bit_spec q out b :
  is_bits (q ++ [b]) -> zlen q <= 30 ->
  huffman_bit (bval q, zlen q, out) b =
    if zlen q =? 30 then None
    else match find_sym kHuffLen kHuffCode 0 (zlen (q ++ [b])) (bval (q ++ [b])) with
         | Some s => Some (0, 0, out ++ [s])
         | None => Some (bval (q ++ [b]), zlen (q ++ [b]), out)
         end.
Proof.
  intros Hb Hq. pose proof (bval_range _ Hb) as Hr. rewrite bval_snoc, zlen_app in *.
  change (zlen [b]) with 1 in *. pose proof (zlen_nonneg q).
  apply Forall_app in Hb as [Hbq Hb%Forall_inv]. pose proof (bval_range q Hbq).
  assert (2 ^ (zlen q + 1) <= 2 ^ 31) by (apply Z.pow_le_mono_r; lia).
  assert (Hu : u32 ((bval q ≪ 1) .| b) = 2 * bval q + b).
  { rewrite lor_shiftl_add_l by lia. rewrite u32_small; lia. }
  unfold huffman_bit. rewrite Hu. destruct (Z.eqb_spec (zlen q) 30) as [->|]; [done|].
  rewrite Z.gtb_ltb. destruct (Z.ltb_spec 30 (zlen q + 1)); [lia|done].
Qed.

Lemma huffman_bits_code s q r out rest :
  is_byte s -> q ++ r = code_bits s -> r <> [] ->
  huffman_bits (bval q, zlen q, out) (r ++ rest) = huffman_bits (0, 0, out ++ [s]) rest.
Proof.
  intros Hs. revert q. induction r as [|b r IH]; intros q E Hr; [done|clear Hr].
  assert (Hqb : (q ++ [b]) ++ r = code_bits s) by (by rewrite <- app_assoc).
  pose proof (msb_bits (Z.to_nat (hlen s)) (hcode s)) as Hb. fold (code_bits s) in Hb.
  rewrite <- Hqb in Hb. apply Forall_app in Hb as [Hb Hbr].
  pose proof (codes_ok s Hs) as (Hl & _ & _). rewrite <- code_bits_length, <- Hqb, !zlen_app in Hl by done.
  change (zlen [b]) with 1 in Hl. pose proof (zlen_nonneg r). pose proof (zlen_nonneg q).
  cbn [app huffman_bits]. rewrite huffman_bit_spec by (done || lia).
  destruct (Z.eqb_spec (zlen q) 30); [lia|].
  pose proof (find_sym_bits (q ++ [b]) Hb) as F.
  destruct (find_sym _ _ _ _ _) as [s'|].
  - destruct F as [Hs' F]. rewrite F in Hqb. symmetry in Hqb.
    destruct (prefix_free s' s r Hs' Hs Hbr Hqb) as [-> ->]. done.
  - apply IH; [done|]. intros ->. rewrite app_nil_r in Hqb. by apply (F s).
Qed.

Lemma huffman_bits_encode syms out rest :
  is_bytes syms ->
  huffman_bits (0, 0, out) (flat_map code_bits syms ++ rest) = huffman_bits (0, 0, out ++ syms) rest.
Proof.
  intros H. revert out. induction H as [|s syms Hs _ IH]; intros out; cbn [flat_map app].
  { by rewrite app_nil_r. }
  rewrite <- app_assoc. change (0, 0, out) with (bval [], zlen (@nil Z), out).
  rewrite (huffman_bits_code s []) by (try done; intros E; pose proof (codes_ok s Hs);
    pose proof (code_bits_length s Hs) as L; rewrite E in L; change (zlen []) with 0 in L; lia).
  rewrite IH. by rewrite <- app_assoc.
Qed.

Lemma ones_bits k : is_bits (replicate k 1).
Proof. apply Forall_replicate. by right. Qed.

Lemma bval_ones k : bval (replicate k 1) = 2 ^ Z.of_nat k - 1.
Proof.
  induction k as [|k IH]; [done|]. rewrite replicate_S_end, bval_snoc, IH.
  replace (Z.of_nat (S k)) with (Z.of_nat k + 1) by lia. rewrite Z.pow_add_r by lia. lia.
Qed.

Lemma huffman_bits_pad j k out :
  (j + k < 8)%nat ->
  huffman_bits (bval (replicate j 1), zlen (replicate j 1), out) (replicate k 1)
  = Some (bval (replicate (j + k) 1), zlen (replicate (j + k) 1), out).
Proof.
  revert j. induction k as [|k IH]; intros j Hk; cbn [replicate huffman_bits]; [by rewrite Nat.add_0_r|].
  pose proof (ones_bits (S j)) as Hb. rewrite replicate_S_end in Hb.
  rewrite huffman_bit_spec by (try done; rewrite zlen_replicate; lia).
  rewrite (zlen_replicate j). destruct (Z.eqb_spec (Z.of_nat j) 30); [lia|].
  pose proof (find_sym_bits _ Hb) as F. rewrite <- replicate_S_end in *.
  destruct (find_sym _ _ _ _ _) as [s|].
  - exfalso. destruct F as [Hs F]. pose proof (codes_ok s Hs) as (_ & _ & Hno).
    pose proof (code_bits_length s Hs) as L. pose proof (bval_code s Hs) as V.
    rewrite <- F in L, V. rewrite zlen_replicate in L. rewrite bval_ones in V. rewrite <- L, <- V in Hno. lia.
  - rewrite IH by lia. by replace (S j + k)%nat with (j + S k)%nat by lia.
Qed.

Lemma huffman_bits_sound bits q out acc n out' :
  is_bits bits -> is_bits q -> zlen q <= 30 ->
  huffman_bits (bval q, zlen q, out) bits = Some (acc, n, out') ->
  exists syms q', is_bytes syms /\ is_bits q' /\ out' = out ++ syms
    /\ q ++ bits = flat_map code_bits syms ++ q' /\ acc = bval q' /\ n = zlen q'.
Proof.
  intros Hbits. revert q out. induction Hbits as [|b bits Hb Hbits IH]; intros q out Hq Hl.
  { cbn [huffman_bits]. intros [= <- <- <-]. exists [], q. rewrite !app_nil_r.
    split_and!; [constructor|done..]. }
  assert (Hqb : is_bits (q ++ [b])) by (apply Forall_app; split; [done|by constructor]).
  cbn [huffman_bits]. rewrite huffman_bit_spec by done.
  destruct (Z.eqb_spec (zlen q) 30); [done|].
  pose proof (find_sym_bits _ Hqb) as F. destruct (find_sym _ _ _ _ _) as [s|].
  - destruct F as [Hs F]. change (0, 0, out ++ [s]) with (bval [], zlen (@nil Z), out ++ [s]). intros E.
    apply IH in E as (syms & q' & H1 & H2 & -> & H4 & H5 & H6); [|by constructor|done].
    exists (s :: syms), q'. rewrite <- app_assoc. split_and!; try done.
    + by constructor.
    + cbn [flat_map]. rewrite <- app_assoc, <- H4, <- F. by rewrite <- app_assoc.
  - intros E. apply IH in E as (syms & q' & H1 & H2 & -> & H4 & H5 & H6); [|done|].
    + exists syms, q'. split_and!; try done. by rewrite <- H4, <- app_assoc.
    + rewrite zlen_app. change (zlen [b]) with 1. lia.
Qed.

Lemma byte_bits_bits inp : is_bits (flat_map byte_bits inp).
Proof.
  induction inp as [|c inp IH]; [constructor|]. cbn [flat_map]. apply Forall_app. split; [|done].
  repeat (constructor; [apply bit_cases|]). constructor.
Qed.

(** Huffman decoding is exact. A byte string decodes to a text if and only if its bits are the codes of the text's bytes, one after the other, followed by fewer than eight one bits: every encoded text is decoded, and every malformed string (a wrong or too long padding, an EOS code, an unfinished code) is rejected. *)
Theorem huffman_decode_iff inp out :
  huffman_decode inp = Some out <->
  is_bytes out /\ exists k, (k < 8)%nat /\ flat_map byte_bits inp = flat_map code_bits out ++ replicate k 1.
Proof.
  unfold huffman_decode. split.
  - destruct (huffman_bits _ _) as [[[acc n] out']|] eqn:E; [|done].
    change (0, 0, []) with (bval [], zlen (@nil Z), @nil Z) in E.
    apply huffman_bits_sound in E as (syms & q & Hs & Hq & -> & Hb & -> & ->);
      [|apply byte_bits_bits|by constructor|done].
    rewrite Z.geb_leb, Z.gtb_ltb. cbn [app] in *. destruct (Z.leb_spec 8 (zlen q)); [done|].
    assert (Hq1 : 0 < zlen q -> bval q .& ((1 ≪ zlen q) - 1) = (1 ≪ zlen q) - 1 -> q = replicate (length q) 1).
    { intros _. rewrite Z.shiftl_1_l, land_ones_mod by apply zlen_nonneg.
      rewrite Z.mod_small by (by apply bval_range). intros Hv.
      apply bval_inj; [done|apply ones_bits|by rewrite length_replicate|]. rewrite bval_ones. exact Hv. }
    destruct (Z.ltb_spec 0 (zlen q)).
    + destruct (Z.eqb_spec (bval q .& ((1 ≪ zlen q) - 1)) ((1 ≪ zlen q) - 1)); [|done].
      cbn [negb]. intros [= <-]. split; [done|]. exists (length q). rewrite <- Hq1 by done.
      split; [unfold zlen in *; lia|done].
    + intros [= <-]. split; [done|]. exists 0%nat. pose proof (zlen_nonneg q).
      assert (q = []) as -> by (apply zlen_0_nil; lia). split; [lia|done].
  - intros (Ho & k & Hk & ->). rewrite huffman_bits_encode by done. cbn [app].
    change (0, 0, out) with (bval (replicate 0 1), zlen (replicate 0 1), out).
    rewrite (huffman_bits_pad 0 k out) by lia. cbn [Nat.add]. rewrite zlen_replicate, bval_ones.
    rewrite Z.geb_leb, Z.gtb_ltb. destruct (Z.leb_spec 8 (Z.of_nat k)); [lia|].
    destruct (Z.ltb_spec 0 (Z.of_nat k)); [|done].
    rewrite Z.shiftl_1_l, land_ones_mod by lia. rewrite Z.mod_small by lia.
    by rewrite Z.eqb_refl.
Qed.

End Hpack.
