(* ===== verification/RecordConn.v ===== *)
(** * RecordConn: the record stream HTTP/2 runs on

    The interface between Http2Conn (the client) and ControlConn (the
    implementation): reading a record into a buffer of a given size and writing
    a message.  [delivers c rs]: the reads to come on [c] return the records
    [rs], whatever is written meanwhile.  The second half discharges the laws
    for ControlConn over a TLS stream. *)

From S2P Require Import Prelude Endian Crypto Control Tls ControlConn.
Import Crypto Control ControlConn.
Open Scope Z_scope.

Class RecordConn (C : Type) := {
  read_record : C -> Z -> record_result * C;
  write_message : C -> bytes -> status * C;
  delivers : C -> list bytes -> Prop }.

Class RecordConnLaws (C : Type) `{RecordConn C} := {
  delivers_read c r rs cap : delivers c (r :: rs) -> zlen r <= cap ->
    exists c', read_record c cap = (Record_ r, c') /\ delivers c' rs;
  delivers_size c r rs : delivers c (r :: rs) -> zlen r <= kMaxPlaintextPerRecord;
  delivers_write c rs m : delivers c rs -> delivers (snd (write_message c m)) rs }.

(** ** ControlConn as a record stream *)

Module RecordStream.

(** The object, the TLS stream it reads, the outcomes of the socket writes of
    each message to come, and what was written. *)
Record chan := mkChan { c_conn : conn; c_stream : Tls.stream; c_writes : list (list Z); c_out : bytes }.

Section WithOpenSSL.
Context `{OpenSSL}.

Definition chan_read (ch : chan) (cap : Z) : record_result * chan :=
  let '(r, c, s) := ReadRecord (c_conn ch) (c_stream ch) cap in
  (r, mkChan c s (c_writes ch) (c_out ch)).

Definition chan_write (ch : chan) (m : bytes) : status * chan :=
  let '(st, out, c) := WriteMessage (c_conn ch) m (hd [] (c_writes ch)) in
  (st, mkChan c (c_stream ch) (tl (c_writes ch)) (c_out ch ++ out)).

(** The bytes of the frames a sender puts the records in. *)
Fixpoint sealed (c : conn) (rs : list bytes) : option bytes :=
  match rs with
  | [] => Some []
  | r :: rs => frame ← seal_frame c r; out ← sealed (with_tx c (u64 (fTxCounter c + 1))) rs; Some (frame ++ out)
  end.

Definition chan_delivers (ch : chan) (rs : list bytes) : Prop :=
  wf (c_conn ch) (c_stream ch) /\ Forall (fun r => zlen r <= kMaxPlaintextPerRecord) rs
  /\ exists c out rest, fTxKey c = fRxKey (c_conn ch) /\ fTxCounter c = fRxCounter (c_conn ch)
     /\ sealed c rs = Some out /\ avail (c_conn ch) (c_stream ch) = out ++ rest.

#[export] Instance chan_records : RecordConn chan := {
  read_record := chan_read; write_message := chan_write; delivers := chan_delivers }.
End WithOpenSSL.

(** Writing touches the send side of the connection only. *)
Lemma write_loop_recv `{OpenSSL} fuel c p ws :
  let c' := snd (write_loop fuel c p ws) in
  fTls c' = fTls c /\ fRxKey c' = fRxKey c /\ fRxCounter c' = fRxCounter c
  /\ fPending c' = fPending c /\ fPendingOff c' = fPendingOff c.
Proof.
  revert c p ws. induction fuel as [|fuel IH]; intros c p ws; [done|]. cbn [write_loop].
  destruct (seal_frame _ _) as [frame|]; [|done].
  destruct (Tls.write_all frame ws) as [[ok o] ws1]. destruct ok; [|done]. cbn [negb].
  destruct (_ >? 0); [|done].
  match goal with |- context [write_loop fuel ?c1 ?p1 ?w1] => specialize (IH c1 p1 w1) end.
  destruct (write_loop fuel _ _ _) as [[st o'] c']. exact IH.
Qed.

#[export] Instance chan_laws `{OpenSSLLaws} : RecordConnLaws chan.
Proof.
  split.
  - intros ch r rs cap (Hw & Hm & c & out & rest & Hk & Hn & Hs & Ha) Hcap.
    apply Forall_cons in Hm as [Hr Hm]. cbn [sealed] in Hs.
    destruct (seal_frame c r) as [frame|] eqn:Ef; [|done]. cbn [mbind option_bind] in Hs.
    destruct (sealed _ rs) as [out'|] eqn:Es; [|done]. apply (inj Some) in Hs. subst out.
    rewrite <- app_assoc in Ha.
    destruct (ReadRecord_frame c (c_conn ch) (c_stream ch) cap r frame (out' ++ rest))
      as (r' & s' & E & Hw' & Ha' & Hk' & Hn'); [done..|].
    eexists. cbn [read_record chan_records]. unfold chan_read. rewrite E. split; [reflexivity|].
    split; [done|]. split; [done|]. cbn [c_conn c_stream].
    exists (with_tx c (u64 (fTxCounter c + 1))), out', rest. cbn [with_tx fTxKey fTxCounter].
    split_and!; [congruence|congruence|done|done].
  - intros ch r rs (_ & Hm & _). by apply Forall_cons in Hm as [? _].
  - intros ch rs m (Hw & Hm & c & out & rest & Hk & Hn & Hs & Ha).
    cbn [write_message chan_records]. unfold chan_write, WriteMessage.
    destruct (fTls (c_conn ch)) eqn:Et; cbn [negb].
    + pose proof (write_loop_recv (S (length m)) (c_conn ch) m (hd [] (c_writes ch))) as W.
      destruct (write_loop _ _ _ _) as [[st o] c']. cbn [snd] in *. destruct W as (W1 & W2 & W3 & W4 & W5).
      cbn. unfold chan_delivers. cbn [c_conn c_stream].
      split; [|split; [done|]].
      * unfold wf in *. by rewrite W1, W4, W5.
      * exists c, out, rest. unfold avail in *. rewrite W2, W3, W4, W5. done.
    + cbn. by split_and!; [..|exists c, out, rest].
Qed.

End RecordStream.
