(* ===== verification/Http2.v ===== *)
(** * Http2: the HTTP/2 client of the control channel (src/backend/tailscale/TSHttp2.cpp)

    The whole class [Http2Conn], against the RecordConn interface.  The
    reassembly buffer is the list of its first fBufLen bytes and the offset
    fBufOff into it.  The error texts are not modelled.  [None] as a result of
    ReadBody is a memcpy that leaves the frame's payload buffer, which a padded
    DATA frame can cause.  The fill loop has the requested length as fuel (each
    record read adds a byte), the frame loops the source's own budget of 100000
    frames; Request's unbounded loop takes its fuel as an argument. *)

From S2P Require Import Prelude CLib Endian Crypto Tls Hpack ControlConn RecordConn.
Import ControlConn Hpack.
Open Scope Z_scope.
Open Scope soto_scope.

Module Http2.

Definition H2_DATA : Z := 0.
Definition H2_HEADERS : Z := 1.
Definition H2_PRIORITY : Z := 2.
Definition H2_RST_STREAM : Z := 3.
Definition H2_SETTINGS : Z := 4.
Definition H2_PUSH_PROMISE : Z := 5.
Definition H2_PING : Z := 6.
Definition H2_GOAWAY : Z := 7.
Definition H2_WINDOW_UPDATE : Z := 8.
Definition H2_CONTINUATION : Z := 9.
Definition H2_FLAG_ACK : Z := 1.
Definition H2_FLAG_END_STREAM : Z := 1.
Definition H2_FLAG_END_HEADERS : Z := 4.
Definition kH2FrameHeaderLen : Z := 9.
Definition kH2MaxFramePayload : Z := 16384.
Definition kBufSize : Z := 65536.

Definition kH2Preface : bytes :=
  bs "PRI * HTTP/2.0" ++ [13; 10; 13; 10] ++ bs "SM" ++ [13; 10; 13; 10].
Definition kEarlyMagic : bytes := [0xff; 0xff; 0xff; 84; 83].

Record frame := mkFrame { f_type : Z; f_flags : Z; f_stream : Z; f_payload : bytes }.

(** The bytes of a frame on the wire. *)
Definition frame_bytes (f : frame) : bytes :=
  let len := zlen (f_payload f) in
  [u8 (len ≫ 16); u8 (len ≫ 8); u8 (len .& 0xff); f_type f; f_flags f;
   u8 ((f_stream f ≫ 24) .& 0x7f); u8 (f_stream f ≫ 16); u8 (f_stream f ≫ 8); u8 (f_stream f .& 0xff)]
  ++ f_payload f.

Section WithConn.
Context {C : Type} `{RecordConn C}.

Record http2 := mkHttp2 {
  fConn : option C; fNextStreamId : Z; fReqStream : Z; fReqEnded : bool;
  fDecoder : decoder; fBuf : bytes; fBufOff : Z }.

Definition Http2Conn : http2 := mkHttp2 None 1 0 true HpackDecoder [] 0.

(** The decoder is not reset. *)
Definition Init (conn : C) (h : http2) : http2 := mkHttp2 (Some conn) 1 0 true (fDecoder h) [] 0.

Definition with_conn (c : C) (h : http2) : http2 :=
  mkHttp2 (Some c) (fNextStreamId h) (fReqStream h) (fReqEnded h) (fDecoder h) (fBuf h) (fBufOff h).
Definition with_buf (buf : bytes) (off : Z) (h : http2) : http2 :=
  mkHttp2 (fConn h) (fNextStreamId h) (fReqStream h) (fReqEnded h) (fDecoder h) buf off.
Definition with_ended (e : bool) (h : http2) : http2 :=
  mkHttp2 (fConn h) (fNextStreamId h) (fReqStream h) e (fDecoder h) (fBuf h) (fBufOff h).
Definition with_decoder (d : decoder) (h : http2) : http2 :=
  mkHttp2 (fConn h) (fNextStreamId h) (fReqStream h) (fReqEnded h) d (fBuf h) (fBufOff h).
Definition with_request (next req : Z) (h : http2) : http2 :=
  mkHttp2 (fConn h) next req false (fDecoder h) (fBuf h) (fBufOff h).

(** Compact to the front if the tail cannot hold another maximal record. *)
Definition compact (h : http2) : http2 :=
  if (fBufOff h >? 0) && (zlen (fBuf h) + kH2MaxFramePayload >? kBufSize)
  then with_buf (zdrop (fBufOff h) (fBuf h)) 0 h else h.

(** Before Init the code dereferences a null pointer here. *)
Fixpoint fill_loop (fuel : nat) (need : Z) (h : http2) : status * http2 :=
  match fuel with
  | O => (B_OK, h)
  | S fuel =>
      if negb (zlen (fBuf h) - fBufOff h <? need) then (B_OK, h)
      else
        let h := compact h in
        match fConn h with
        | None => (B_NO_INIT, h)
        | Some c =>
            match read_record c (kBufSize - zlen (fBuf h)) with
            | (RecordTimeout, c) => (B_WOULD_BLOCK, with_conn c h)
            | (Record_ p, c) =>
                let h := with_conn c h in
                if zlen p <=? 0 then (B_IO_ERROR, h)
                else fill_loop fuel need (with_buf (fBuf h ++ p) (fBufOff h) h)
            | (_, c) => (B_IO_ERROR, with_conn c h)
            end
        end
  end.

Definition _Fill (need : Z) (h : http2) : status * http2 :=
  if need >? kBufSize then (B_BAD_VALUE, h) else fill_loop (S (Z.to_nat need)) need h.

Definition _ReadRaw (n : Z) (h : http2) : (status + bytes) * http2 :=
  match _Fill n h with
  | (B_OK, h) => (inr (slice (fBufOff h) n (fBuf h)), with_buf (fBuf h) (fBufOff h + n) h)
  | (e, h) => (inl e, h)
  end.

Definition WriteFrame (type flags streamId : Z) (payload : bytes) (h : http2) : status * http2 :=
  match fConn h with
  | None => (B_NO_INIT, h)
  | Some c =>
      if zlen payload >? 0xffffff then (B_BAD_VALUE, h)
      else if zlen payload >? kH2MaxFramePayload then (B_BAD_VALUE, h)
      else
        let '(st, c) := write_message c (frame_bytes (mkFrame type flags streamId payload)) in
        (st, with_conn c h)
  end.

Definition ReadFrame (payloadCap : Z) (h : http2) : (status + frame) * http2 :=
  match _ReadRaw kH2FrameHeaderLen h with
  | (inl e, h) => (inl e, h)
  | (inr hdr, h) =>
      let len := ((at_ hdr 0 ≪ 16) .| (at_ hdr 1 ≪ 8)) .| at_ hdr 2 in
      let type := at_ hdr 3 in
      let flags := at_ hdr 4 in
      let streamId := ((((at_ hdr 5 ≪ 24) .| (at_ hdr 6 ≪ 16)) .| (at_ hdr 7 ≪ 8)) .| at_ hdr 8) .& 0x7fffffff in
      if len >? payloadCap then (inl B_ERROR, h)
      else if len >? 0 then
        match _ReadRaw len h with
        | (inl B_WOULD_BLOCK, h) => (inl B_IO_ERROR, h)
        | (inl e, h) => (inl e, h)
        | (inr payload, h) => (inr (mkFrame type flags streamId payload), h)
        end
      else (inr (mkFrame type flags streamId []), h)
  end.

(** The frames both response loops treat alike: [inr h] to go on with the next
    frame, [inl] an error, [None] for the loop's own cases. *)
Definition on_control (f : frame) (streamId : Z) (h : http2) : option (status + http2) :=
  if f_type f =? H2_SETTINGS then
    if f_flags f .& H2_FLAG_ACK =? 0 then Some (inr (snd (WriteFrame H2_SETTINGS H2_FLAG_ACK 0 [] h)))
    else Some (inr h)
  else if f_type f =? H2_PING then
    if f_flags f .& H2_FLAG_ACK =? 0 then Some (inr (snd (WriteFrame H2_PING H2_FLAG_ACK 0 (f_payload f) h)))
    else Some (inr h)
  else if f_type f =? H2_GOAWAY then Some (inl B_ERROR)
  else if (f_type f =? H2_RST_STREAM) && (f_stream f =? streamId) then Some (inl B_ERROR)
  else None.

(** The header block fragment of a HEADERS or CONTINUATION frame; a size_t
    that wraps fails the range test. *)
Definition header_fragment (f : frame) : bytes :=
  let len := zlen (f_payload f) in
  let '(off, end_) :=
    if f_type f =? H2_HEADERS then
      let '(off, end_) :=
        if negb (f_flags f .& 0x08 =? 0) && (0 <? len) then (1, u64 (len - at_ (f_payload f) 0)) else (0, len) in
      (if negb (f_flags f .& 0x20 =? 0) then off + 5 else off, end_)
    else (0, len) in
  if (off <=? end_) && (end_ <=? len) then slice off (end_ - off) (f_payload f) else [].

Definition status_of (hdrs : list HpackHeader) (init : Z) : Z :=
  fold_left (fun st h => if beq (cstr (name h)) (bs ":status") then atoi (value h) else st) hdrs init.

Fixpoint response_loop (fuel : nat) (headerBlock : bytes) (streamId : Z) (h : http2) : (status + Z) * http2 :=
  match fuel with
  | O => (inl B_ERROR, h)
  | S fuel =>
      match ReadFrame kH2MaxFramePayload h with
      | (inl e, h) => (inl e, h)
      | (inr f, h) =>
          match on_control f streamId h with
          | Some (inl e) => (inl e, h)
          | Some (inr h) => response_loop fuel headerBlock streamId h
          | None =>
              if ((f_type f =? H2_HEADERS) || (f_type f =? H2_CONTINUATION)) && (f_stream f =? streamId) then
                let headerBlock := headerBlock ++ header_fragment f in
                let h := if negb (f_flags f .& H2_FLAG_END_STREAM =? 0) then with_ended true h else h in
                if negb (f_flags f .& H2_FLAG_END_HEADERS =? 0) then
                  let '(st, d, hdrs) := Decode (fDecoder h) headerBlock [] in
                  (inr (match st with B_OK => status_of hdrs 0 | _ => 0 end), with_decoder d h)
                else response_loop fuel headerBlock streamId h
              else response_loop fuel headerBlock streamId h
          end
      end
  end.

Definition frame_budget : nat := Z.to_nat 100000.

Definition request_headers (method scheme authority path : bytes) (contentType : option bytes) (body : bytes) : bytes :=
  AddHeader (bs ":method") method ++ AddHeader (bs ":scheme") scheme ++ AddHeader (bs ":path") path
  ++ AddHeader (bs ":authority") authority
  ++ (if zlen body >? 0 then
        match contentType with Some t => AddHeader (bs "content-type") t | None => [] end
        ++ AddHeader (bs "content-length") (fmt_u (zlen body))
      else []).

(** The first half of BeginRequest: a fresh stream, HEADERS and DATA sent. *)
Definition send_request (method scheme authority path : bytes) (contentType : option bytes) (body : bytes)
    (h : http2) : status * http2 :=
  let streamId := fNextStreamId h in
  let h := with_request (u32 (streamId + 2)) streamId h in
  let headersFlags := H2_FLAG_END_HEADERS .| (if zlen body >? 0 then 0 else H2_FLAG_END_STREAM) in
  match WriteFrame H2_HEADERS headersFlags streamId
          (request_headers method scheme authority path contentType body) h with
  | (B_OK, h) => if zlen body >? 0 then WriteFrame H2_DATA H2_FLAG_END_STREAM streamId body h else (B_OK, h)
  | (e, h) => (e, h)
  end.

Definition BeginRequest (method scheme authority path : bytes) (contentType : option bytes) (body : bytes)
    (h : http2) : (status + Z) * http2 :=
  match fConn h with
  | None => (inl B_NO_INIT, h)
  | Some _ =>
      match send_request method scheme authority path contentType body h with
      | (B_OK, h') => response_loop frame_budget [] (fNextStreamId h) h'
      | (e, h) => (inl e, h)
      end
  end.

(** The bytes of a DATA frame the caller gets; the subtraction wraps in size_t. *)
Definition data_chunk (f : frame) : option bytes :=
  let len := zlen (f_payload f) in
  let '(off, end_) :=
    if negb (f_flags f .& 0x08 =? 0) && (0 <? len) then (1, u64 (len - at_ (f_payload f) 0)) else (0, len) in
  let n := if end_ >? off then end_ - off else 0 in
  if n >? 0 then memcpy_from (f_payload f) off n else Some [].

(** Replenish the stream and the connection flow-control windows. *)
Definition replenish (len : Z) (h : http2) : http2 :=
  if len >? 0 then
    let inc := [u8 (len ≫ 24); u8 (len ≫ 16); u8 (len ≫ 8); u8 len] in
    let h := snd (WriteFrame H2_WINDOW_UPDATE 0 (fReqStream h) inc h) in
    snd (WriteFrame H2_WINDOW_UPDATE 0 0 inc h)
  else h.

Fixpoint body_loop (fuel : nat) (h : http2) : option ((status + bytes) * http2) :=
  match fuel with
  | O => Some (inl B_ERROR, h)
  | S fuel =>
      match ReadFrame kH2MaxFramePayload h with
      | (inl e, h) => Some (inl e, h)
      | (inr f, h) =>
          match on_control f (fReqStream h) h with
          | Some (inl e) => Some (inl e, h)
          | Some (inr h) => body_loop fuel h
          | None =>
              if (f_type f =? H2_DATA) && (f_stream f =? fReqStream h) then
                chunk ← data_chunk f;
                let h := replenish (zlen (f_payload f)) h in
                let h := if negb (f_flags f .& H2_FLAG_END_STREAM =? 0) then with_ended true h else h in
                Some (inr chunk, h)
              else if (f_type f =? H2_HEADERS) && (f_stream f =? fReqStream h)
                      && negb (f_flags f .& H2_FLAG_END_STREAM =? 0) then Some (inr [], with_ended true h)
              else body_loop fuel h
          end
      end
  end.

Definition ReadBody (cap : Z) (h : http2) : option ((status + bytes) * http2) :=
  if fReqEnded h then Some (inr [], h)
  else if cap <? kH2MaxFramePayload then Some (inl B_BAD_VALUE, h)
  else body_loop frame_budget h.

(** [BString::Append] of a pointer and a length stops at a NUL.  [None]: out of
    fuel, or ReadBody's stray memcpy. *)
Fixpoint collect (fuel : nat) (respBody : bytes) (h : http2) : option ((status + bytes) * http2) :=
  match fuel with
  | O => None
  | S fuel =>
      match ReadBody kH2MaxFramePayload h with
      | None => None
      | Some (inl e, h) => Some (inl e, h)
      | Some (inr chunk, h) =>
          let respBody := respBody ++ cstr chunk in
          if fReqEnded h then Some (inr respBody, h) else collect fuel respBody h
      end
  end.

Definition Request (fuel : nat) (method scheme authority path : bytes) (contentType : option bytes)
    (body : bytes) (h : http2) : option ((status + Z * bytes) * http2) :=
  match BeginRequest method scheme authority path contentType body h with
  | (inl e, h) => Some (inl e, h)
  | (inr st, h) =>
      match collect fuel [] h with
      | None => None
      | Some (inl e, h) => Some (inl e, h)
      | Some (inr resp, h) => Some (inr (st, resp), h)
      end
  end.

(** The SETTINGS exchange: at most 32 frames. *)
Fixpoint settings_loop (fuel : nat) (ours theirs : bool) (h : http2) : status * http2 :=
  if ours && theirs then (B_OK, h)
  else
    match fuel with
    | O => (B_ERROR, h)
    | S fuel =>
        match ReadFrame kH2MaxFramePayload h with
        | (inl e, h) => (e, h)
        | (inr f, h) =>
            if f_type f =? H2_SETTINGS then
              if negb (f_flags f .& H2_FLAG_ACK =? 0) then settings_loop fuel true theirs h
              else match WriteFrame H2_SETTINGS H2_FLAG_ACK 0 [] h with
                   | (B_OK, h) => settings_loop fuel ours true h
                   | (e, h) => (e, h)
                   end
            else if f_type f =? H2_GOAWAY then (B_ERROR, h)
            else settings_loop fuel ours theirs h
        end
    end.

(** On success the early JSON; a later failure leaves it in the out-parameter,
    which is not modelled. *)
Definition Bootstrap (h : http2) : (status + bytes) * http2 :=
  match fConn h with
  | None => (inl B_NO_INIT, h)
  | Some _ =>
      match _ReadRaw 5 h with
      | (inl e, h) => (inl e, h)
      | (inr magic, h) =>
          if negb (beq magic kEarlyMagic) then (inl B_ERROR, h)
          else
            match _ReadRaw 4 h with
            | (inl e, h) => (inl e, h)
            | (inr lenBuf, h) =>
                let jsonLen := rd32_be lenBuf 0 in
                if jsonLen >? 8192 then (inl B_ERROR, h)
                else
                  match _ReadRaw jsonLen h with
                  | (inl e, h) => (inl e, h)
                  | (inr json, h) =>
                      match fConn h with
                      | None => (inl B_NO_INIT, h)
                      | Some c =>
                          let '(st, c) := write_message c kH2Preface in
                          let h := with_conn c h in
                          match st with
                          | B_OK =>
                              match WriteFrame H2_SETTINGS 0 0 [] h with
                              | (B_OK, h) =>
                                  match settings_loop 32 false false h with
                                  | (B_OK, h) => (inr (cstr json), h)
                                  | (e, h) => (inl e, h)
                                  end
                              | (e, h) => (inl e, h)
                              end
                          | e => (inl e, h)
                          end
                      end
                  end
            end
      end
  end.
End WithConn.
Arguments http2 C : clear implicits.

(** ** Frames on the wire *)

Definition frame_ok (f : frame) : Prop :=
  is_byte (f_type f) /\ is_byte (f_flags f) /\ 0 <= f_stream f < 2 ^ 31
  /\ zlen (f_payload f) <= kH2MaxFramePayload.

Definition is_frame_ok (f : frame) : bool :=
  (0 <=? f_type f) && (f_type f <? 256) && (0 <=? f_flags f) && (f_flags f <? 256)
  && (0 <=? f_stream f) && (f_stream f <? 2 ^ 31) && (zlen (f_payload f) <=? kH2MaxFramePayload).

Lemma is_frame_ok_spec f : is_frame_ok f = true -> frame_ok f.
Proof. unfold is_frame_ok, frame_ok, is_byte. intros. lia. Qed.

Lemma land255 v : u8 (v .& 0xff) = v mod 256.
Proof. change 255 with (2 ^ 8 - 1). rewrite land_ones_mod by lia. apply u8_small, u8_range. Qed.

Lemma be_join b c d : 0 <= b < 256 -> 0 <= c < 256 -> 0 <= d < 256 ->
  ((b ≪ 16) .| (c ≪ 8)) .| d = b * 2 ^ 16 + c * 2 ^ 8 + d
  /\ forall a, (((a ≪ 24) .| (b ≪ 16)) .| (c ≪ 8)) .| d = a * 2 ^ 24 + b * 2 ^ 16 + c * 2 ^ 8 + d.
Proof.
  intros. rewrite <- !Z.lor_assoc. rewrite (lor_shiftl_add_l d) by lia. rewrite lor_shiftl_add_l by lia.
  split; [lia|]. intros a. rewrite <- !Z.lor_assoc. rewrite (lor_shiftl_add_l d) by lia.
  rewrite (lor_shiftl_add_l (c * 2 ^ 8 + d)) by lia. rewrite lor_shiftl_add_l by lia. lia.
Qed.

Lemma be24 v : 0 <= v < 2 ^ 24 ->
  ((u8 (v ≫ 16) ≪ 16) .| (u8 (v ≫ 8) ≪ 8)) .| u8 (v .& 0xff) = v.
Proof.
  intros Hv. rewrite land255, !u8_shiftr by lia.
  rewrite (proj1 (be_join _ _ (v mod 256) ltac:(apply Z.mod_pos_bound; lia)
    ltac:(apply Z.mod_pos_bound; lia) ltac:(apply Z.mod_pos_bound; lia))).
  Z.div_mod_to_equations. lia.
Qed.

Lemma be31 v : 0 <= v < 2 ^ 31 ->
  ((((u8 ((v ≫ 24) .& 0x7f) ≪ 24) .| (u8 (v ≫ 16) ≪ 16)) .| (u8 (v ≫ 8) ≪ 8)) .| u8 (v .& 0xff)) .& 0x7fffffff = v.
Proof.
  intros Hv. rewrite land255, !u8_shiftr by lia. change 127 with (2 ^ 7 - 1).
  rewrite land_ones_mod by lia. rewrite Z.shiftr_div_pow2 by lia.
  assert (v / 2 ^ 24 < 128) by (apply Z.div_lt_upper_bound; lia).
  assert (0 <= v / 2 ^ 24) by (apply Z.div_pos; lia).
  rewrite (Z.mod_small (v / 2 ^ 24)) by lia. rewrite u8_small by (unfold is_byte; lia).
  rewrite (proj2 (be_join _ _ (v mod 256) ltac:(apply Z.mod_pos_bound; lia)
    ltac:(apply Z.mod_pos_bound; lia) ltac:(apply Z.mod_pos_bound; lia))).
  change 2147483647 with (2 ^ 31 - 1). rewrite land_ones_mod by lia.
  rewrite Z.mod_small; Z.div_mod_to_equations; lia.
Qed.

Section WithLaws.
Context {C : Type} `{RecordConnLaws C}.
Implicit Types h : http2 C.

(** The bytes still to come: what is buffered, then the records. *)
Definition room h : Prop := 0 <= fBufOff h <= zlen (fBuf h) /\ zlen (fBuf h) <= kBufSize.
Definition live h (rest : bytes) : Prop :=
  exists c rs, fConn h = Some c /\ delivers c rs /\ Forall (fun r => r <> []) rs /\ room h
    /\ zdrop (fBufOff h) (fBuf h) ++ concat rs = rest.
Definition same h h' : Prop :=
  fNextStreamId h' = fNextStreamId h /\ fReqStream h' = fReqStream h /\ fReqEnded h' = fReqEnded h
  /\ fDecoder h' = fDecoder h.

Lemma same_trans h1 h2 h3 : same h1 h2 -> same h2 h3 -> same h1 h3.
Proof. unfold same. intuition congruence. Qed.

Lemma compact_spec h :
  room h -> zlen (fBuf h) - fBufOff h < kH2MaxFramePayload ->
  let h' := compact h in
  fConn h' = fConn h /\ same h h' /\ room h' /\ zdrop (fBufOff h') (fBuf h') = zdrop (fBufOff h) (fBuf h)
  /\ zlen (fBuf h') - fBufOff h' = zlen (fBuf h) - fBufOff h
  /\ kMaxPlaintextPerRecord <= kBufSize - zlen (fBuf h').
Proof.
  intros Hr Hs. unfold compact, room, kBufSize, kH2MaxFramePayload, kMaxPlaintextPerRecord in *.
  rewrite !Z.gtb_ltb. destruct (Z.ltb_spec 0 (fBufOff h)); cbn [andb].
  - destruct (Z.ltb_spec 65536 (zlen (fBuf h) + 16384)); [|split_and!; done || lia].
    cbn [with_buf fConn fBuf fBufOff]. rewrite zlen_zdrop by lia. split_and!; first [done|lia].
  - split_and!; first [done|lia].
Qed.

Lemma fill_loop_spec fuel need h rest :
  live h rest -> 0 <= need <= kH2MaxFramePayload -> need <= zlen rest ->
  need - (zlen (fBuf h) - fBufOff h) < Z.of_nat fuel -> fuel <> 0%nat ->
  exists h', fill_loop fuel need h = (B_OK, h') /\ live h' rest /\ same h h'
    /\ need <= zlen (fBuf h') - fBufOff h'.
Proof.
  revert h. induction fuel as [|fuel IH]; intros h Hl Hn Hr Hf Hf0; [done|clear Hf0].
  cbn [fill_loop]. destruct (Z.ltb_spec (zlen (fBuf h) - fBufOff h) need); cbn [negb].
  2: { exists h. split_and!; try done. }
  destruct Hl as (c & rs & Hc & Hd & Hne & Hro & Hrest).
  destruct (compact_spec h Hro ltac:(lia)) as (C1 & C2 & C3 & C4 & C5 & C6).
  destruct rs as [|r rs].
  { exfalso. rewrite app_nil_r in Hrest. rewrite <- Hrest, zlen_zdrop in Hr by (unfold room in Hro; lia). lia. }
  rewrite C1, Hc. pose proof (delivers_size c r rs Hd) as Hsz.
  destruct (delivers_read c r rs (kBufSize - zlen (fBuf (compact h))) Hd ltac:(lia)) as (c' & -> & Hd').
  apply Forall_cons in Hne as [Hr0 Hne].
  assert (0 < zlen r) by (pose proof (zlen_nonneg r); destruct (decide (zlen r = 0)) as [E|]; [apply zlen_0_nil in E; done|lia]).
  destruct (Z.leb_spec (zlen r) 0); [lia|]. cbn [with_conn fBuf fBufOff].
  set (h1 := with_buf _ _ _).
  assert (Hlen1 : zlen (fBuf h1) - fBufOff h1 = zlen (fBuf h) - fBufOff h + zlen r).
  { unfold h1. cbn. rewrite zlen_app. lia. }
  destruct (IH h1) as (h' & E & Hl' & Hs' & Hn'); try done.
  - exists c', rs. unfold room in *. unfold h1. cbn. rewrite zlen_app. split_and!; try done; try lia.
    unfold zdrop in *. rewrite drop_app_le by (unfold zlen in *; lia). rewrite C4.
    rewrite <- app_assoc. exact Hrest.
  - lia.
  - lia.
  - exists h'. split; [exact E|]. split; [done|]. split; [|done].
    eapply same_trans; [exact C2|]. eapply same_trans; [|exact Hs']. done.
Qed.

Lemma ReadRaw_spec n h rest :
  live h rest -> 0 <= n <= kH2MaxFramePayload -> n <= zlen rest ->
  exists h', _ReadRaw n h = (inr (ztake n rest), h') /\ live h' (zdrop n rest) /\ same h h'.
Proof.
  intros Hl Hn Hr. unfold _ReadRaw, _Fill. rewrite Z.gtb_ltb.
  destruct (Z.ltb_spec kBufSize n); [unfold kBufSize, kH2MaxFramePayload in *; lia|].
  destruct (fill_loop_spec (S (Z.to_nat n)) n h rest) as (h1 & -> & (c & rs & Hc & Hd & Hne & Hro & Hrest) & Hs & Hav);
    try done.
  { destruct Hl as (? & ? & _ & _ & _ & Hro & _). unfold room in Hro. lia. }
  unfold room in Hro. exists (with_buf (fBuf h1) (fBufOff h1 + n) h1). split; [|split; [|exact Hs]].
  - rewrite <- Hrest. unfold slice, ztake, zdrop, zlen in *. rewrite take_app_le; [reflexivity|].
    rewrite length_drop. lia.
  - exists c, rs. cbn. unfold room. cbn. split_and!; try done; try lia.
    rewrite <- Hrest. unfold zdrop, zlen in *. rewrite drop_app_le by (rewrite length_drop; lia).
    rewrite drop_drop. f_equal. f_equal. lia.
Qed.

(** A frame at the head of the stream is read back, whatever the records. *)
Lemma ReadFrame_spec f h rest :
  frame_ok f -> live h (frame_bytes f ++ rest) ->
  exists h', ReadFrame kH2MaxFramePayload h = (inr f, h') /\ live h' rest /\ same h h'.
Proof.
  intros (Ht & Hfl & Hs & Hp) Hl. unfold ReadFrame. destruct f as [ty fl st p]. cbn [f_type f_flags f_stream f_payload] in *.
  unfold frame_bytes in Hl. cbn [f_type f_flags f_stream f_payload] in Hl.
  set (hd := [_; _; _; _; _; _; _; _; _]) in Hl. rewrite <- app_assoc in Hl.
  assert (Hh : zlen hd = 9) by done. pose proof (zlen_nonneg p). pose proof (zlen_nonneg rest).
  destruct (ReadRaw_spec kH2FrameHeaderLen h (hd ++ p ++ rest) Hl) as (h1 & -> & Hl1 & Hs1).
  { unfold kH2FrameHeaderLen, kH2MaxFramePayload. lia. }
  { rewrite !zlen_app, Hh. unfold kH2FrameHeaderLen. lia. }
  rewrite ztake_app by done. rewrite zdrop_app in Hl1 by done.
  change (at_ hd 0) with (u8 (zlen p ≫ 16)). change (at_ hd 1) with (u8 (zlen p ≫ 8)).
  change (at_ hd 2) with (u8 (zlen p .& 0xff)). change (at_ hd 3) with ty. change (at_ hd 4) with fl.
  change (at_ hd 5) with (u8 ((st ≫ 24) .& 0x7f)). change (at_ hd 6) with (u8 (st ≫ 16)).
  change (at_ hd 7) with (u8 (st ≫ 8)). change (at_ hd 8) with (u8 (st .& 0xff)).
  rewrite be24, be31 by (unfold kH2MaxFramePayload in *; lia). cbv zeta. rewrite !Z.gtb_ltb.
  destruct (Z.ltb_spec kH2MaxFramePayload (zlen p)); [lia|].
  destruct (Z.ltb_spec 0 (zlen p)).
  - destruct (ReadRaw_spec (zlen p) h1 (p ++ rest) Hl1) as (h2 & -> & Hl2 & Hs2); [lia|rewrite zlen_app; lia|].
    rewrite ztake_app by done. rewrite zdrop_app in Hl2 by done.
    eexists. split; [reflexivity|]. split; [done|]. by eapply same_trans.
  - assert (p = []) as -> by (apply zlen_0_nil; lia).
    eexists. split; [reflexivity|]. done.
Qed.

Lemma WriteFrame_live ty fl st p h rest : live h rest ->
  live (snd (WriteFrame ty fl st p h)) rest /\ same h (snd (WriteFrame ty fl st p h)).
Proof.
  intros (c & rs & Hc & Hd & Hne & Hro & Hrest). unfold WriteFrame. rewrite Hc.
  assert (Hsame : live h rest /\ same h h) by (split; [by exists c, rs|done]).
  destruct (_ >? 0xffffff); [exact Hsame|]. destruct (_ >? _); [exact Hsame|].
  pose proof (delivers_write c rs (frame_bytes (mkFrame ty fl st p)) Hd) as Hd'.
  destruct (write_message _ _) as [s c']. cbn [snd] in *. split; [|done].
  exists c', rs. done.
Qed.

(** ** A response on the wire

    The frames of a response come as items: a frame the request waits for,
    after frames it only answers or passes over. *)

Definition wire (fs : list frame) : bytes := flat_map frame_bytes fs.
Definition item : Type := list frame * frame.
Definition item_bytes (it : item) : bytes := wire (fst it) ++ frame_bytes (snd it).

Definition ignorable (sid : Z) (f : frame) : Prop :=
  frame_ok f /\ f_type f <> H2_GOAWAY
  /\ (f_stream f = sid -> f_type f <> H2_RST_STREAM /\ f_type f <> H2_HEADERS
      /\ f_type f <> H2_CONTINUATION /\ f_type f <> H2_DATA).

Definition flag (f : frame) (b : Z) : bool := negb (f_flags f .& b =? 0).

(** The layout of RFC 9113 6.1 and 6.2: with the PADDED flag the payload starts
    with the number of bytes of padding that end it; with the PRIORITY flag five
    bytes come before the fragment. *)
Definition padded_payload (pad : option bytes) (body : bytes) : bytes :=
  match pad with Some p => zlen p :: body ++ p | None => body end.
Definition present {A} (o : option A) : bool := match o with Some _ => true | None => false end.
Definition pad_ok (f : frame) (pad : option bytes) : Prop :=
  flag f 0x08 = present pad /\ match pad with Some p => zlen p < 256 | None => True end.
Definition priority_ok (f : frame) (prio : option bytes) : Prop :=
  flag f 0x20 = present prio /\ match prio with Some q => zlen q = 5 | None => True end.

(** A frame that carries the fragment [frag] of the response's header block:
    the HEADERS frame that starts it, with END_STREAM if [eos], or a
    CONTINUATION; [last] closes the block. *)
Definition header_item (sid : Z) (eos first last : bool) (it : item) (frag : bytes) : Prop :=
  let f := snd it in
  Forall (ignorable sid) (fst it) /\ frame_ok f /\ f_stream f = sid /\ flag f H2_FLAG_END_HEADERS = last
  /\ flag f H2_FLAG_END_STREAM = first && eos
  /\ if first then f_type f = H2_HEADERS /\ exists pad prio,
         pad_ok f pad /\ priority_ok f prio /\ f_payload f = padded_payload pad (default [] prio ++ frag)
     else f_type f = H2_CONTINUATION /\ f_payload f = frag.

Inductive header_block (sid : Z) (eos : bool) : bool -> list item -> bytes -> Prop :=
| block_last first it frag : header_item sid eos first true it frag -> header_block sid eos first [it] frag
| block_more first it frag its frags : header_item sid eos first false it frag ->
    header_block sid eos false its frags -> header_block sid eos first (it :: its) (frag ++ frags).

(** A DATA frame carrying [chunk]; [last] ends the stream. *)
Definition data_item (sid : Z) (last : bool) (it : item) (chunk : bytes) : Prop :=
  let f := snd it in
  Forall (ignorable sid) (fst it) /\ (length (fst it) < frame_budget)%nat /\ frame_ok f
  /\ f_stream f = sid /\ f_type f = H2_DATA /\ flag f H2_FLAG_END_STREAM = last
  /\ exists pad, pad_ok f pad /\ f_payload f = padded_payload pad chunk.

(** The HEADERS frame of the trailers, which ends the stream. *)
Definition trailer_item (sid : Z) (it : item) : Prop :=
  let f := snd it in
  Forall (ignorable sid) (fst it) /\ (length (fst it) < frame_budget)%nat /\ frame_ok f
  /\ f_stream f = sid /\ f_type f = H2_HEADERS /\ flag f H2_FLAG_END_STREAM = true.

(** The frames after the header block, and the chunks their DATA carries. *)
Inductive body_items (sid : Z) : list item -> list bytes -> Prop :=
| body_end it c : data_item sid true it c -> body_items sid [it] [c]
| body_trailers it : trailer_item sid it -> body_items sid [it] []
| body_more it c its cs : data_item sid false it c -> body_items sid its cs -> body_items sid (it :: its) (c :: cs).

Lemma data_chunk_item f pad chunk :
  pad_ok f pad -> frame_ok f -> f_payload f = padded_payload pad chunk -> data_chunk f = Some chunk.
Proof.
  intros [Hf Hp] (_ & _ & _ & Hl) E. unfold data_chunk. rewrite E in Hl |- *. unfold flag in Hf. rewrite Hf.
  pose proof (zlen_nonneg chunk). destruct pad as [p|]; cbn [present padded_payload andb] in *.
  - pose proof (zlen_nonneg p). rewrite zlen_cons, zlen_app, Z.add_comm in *. unfold kH2MaxFramePayload in Hl.
    destruct (Z.ltb_spec 0 (1 + (zlen chunk + zlen p))); [|lia]. cbv beta iota zeta. change (at_ (zlen p :: chunk ++ p) 0) with (zlen p).
    rewrite u64_small by lia. replace (1 + (zlen chunk + zlen p) - zlen p) with (1 + zlen chunk) by lia. rewrite !Z.gtb_ltb.
    destruct (Z.ltb_spec 1 (1 + zlen chunk)).
    + replace (1 + zlen chunk - 1) with (zlen chunk) by lia. destruct (Z.ltb_spec 0 (zlen chunk)); [|lia].
      rewrite memcpy_from_Some by (rewrite ?zlen_cons, ?zlen_app; lia). f_equal.
      by apply (slice_app_mid 1 _ [zlen p]).
    + cbn [Z.ltb Z.compare]. f_equal. symmetry. apply zlen_0_nil. lia.
  - cbv beta iota zeta. rewrite !Z.gtb_ltb. destruct (Z.ltb_spec 0 (zlen chunk)).
    + rewrite Z.sub_0_r. destruct (Z.ltb_spec 0 (zlen chunk)); [|lia]. rewrite memcpy_from_Some by lia. f_equal.
      unfold slice. rewrite zdrop_0. apply ztake_all. lia.
    + cbn [Z.ltb Z.compare]. f_equal. symmetry. apply zlen_0_nil. lia.
Qed.

Lemma header_fragment_item sid eos first last it frag :
  header_item sid eos first last it frag -> header_fragment (snd it) = frag.
Proof.
  intros (_ & Hok & _ & _ & _ & Hf). unfold header_fragment. destruct Hok as (_ & _ & _ & Hl). pose proof (zlen_nonneg frag).
  destruct first.
  - destruct Hf as (-> & pad & prio & [Hp Hpl] & [Hq Hql] & E). rewrite E in Hl |- *. unfold flag in Hp, Hq. rewrite Hp, Hq.
    cbn [Z.eqb H2_HEADERS Pos.eqb].
    assert (Q : zlen (default [] prio) = (if present prio then 5 else 0)) by (destruct prio; [exact Hql|done]).
    set (q := default [] prio) in *. pose proof (zlen_nonneg q). destruct pad as [p|]; cbn [present padded_payload andb] in *.
    + pose proof (zlen_nonneg p). rewrite zlen_cons, !zlen_app, Z.add_comm in *. unfold kH2MaxFramePayload in Hl.
      destruct (Z.ltb_spec 0 (1 + (zlen q + zlen frag + zlen p))); [|lia]. cbv beta iota zeta.
      change (at_ (zlen p :: (q ++ frag) ++ p) 0) with (zlen p). rewrite u64_small by lia.
      assert (S : (if present prio then 1 + 5 else 1) = 1 + zlen q) by (rewrite Q; by destruct prio). rewrite S.
      destruct (Z.leb_spec (1 + zlen q) (1 + (zlen q + zlen frag + zlen p) - zlen p)); [|lia].
      destruct (Z.leb_spec (1 + (zlen q + zlen frag + zlen p) - zlen p) (1 + (zlen q + zlen frag + zlen p))); [|lia]. cbn [andb].
      replace (1 + (zlen q + zlen frag + zlen p) - zlen p - (1 + zlen q)) with (zlen frag) by lia.
      change (zlen p :: (q ++ frag) ++ p) with (([zlen p] ++ q ++ frag) ++ p). rewrite app_assoc, <- app_assoc.
      apply slice_app_mid; [by rewrite zlen_app|done].
    + cbv beta iota zeta. rewrite !zlen_app in *. assert (S : (if present prio then 0 + 5 else 0) = zlen q) by (rewrite Q; by destruct prio). rewrite S.
      destruct (Z.leb_spec (zlen q) (zlen q + zlen frag)); [|lia]. rewrite Z.leb_refl. cbn [andb].
      replace (zlen q + zlen frag - zlen q) with (zlen frag) by lia. unfold slice. rewrite zdrop_app by done. apply ztake_all. lia.
  - destruct Hf as [-> ->]. cbn [Z.eqb H2_HEADERS H2_CONTINUATION Pos.eqb].
    destruct (Z.leb_spec 0 (zlen frag)); [|lia]. rewrite Z.leb_refl. cbn [andb]. unfold slice. rewrite zdrop_0. apply ztake_all. lia.
Qed.

Lemma on_control_ignorable sid f h rest :
  ignorable sid f -> live h rest ->
  on_control f sid h = None
  \/ exists h', on_control f sid h = Some (inr h') /\ live h' rest /\ same h h'.
Proof.
  intros (Hok & Hg & Hs) Hl. unfold on_control.
  destruct (_ =? H2_SETTINGS).
  { right. destruct (_ =? 0); [|by exists h]. eexists. split; [reflexivity|]. by apply WriteFrame_live. }
  destruct (_ =? H2_PING).
  { right. destruct (_ =? 0); [|by exists h]. eexists. split; [reflexivity|]. by apply WriteFrame_live. }
  destruct (Z.eqb_spec (f_type f) H2_GOAWAY); [done|]. left.
  destruct (Z.eqb_spec (f_type f) H2_RST_STREAM); [|done]. destruct (Z.eqb_spec (f_stream f) sid); [|done].
  by destruct Hs.
Qed.

Lemma response_skip sk fuel hb sid h rest :
  Forall (ignorable sid) sk -> live h (wire sk ++ rest) -> (length sk <= fuel)%nat ->
  exists h', response_loop fuel hb sid h = response_loop (fuel - length sk) hb sid h' /\ live h' rest /\ same h h'.
Proof.
  intros Hsk. revert fuel h. induction Hsk as [|f sk Hf _ IH]; intros fuel h Hl Hlen.
  { exists h. by rewrite Nat.sub_0_r. }
  cbn [length] in *. destruct fuel as [|fuel]; [lia|]. cbn [wire flat_map] in Hl.
  rewrite <- app_assoc in Hl. destruct (ReadFrame_spec f h _ (proj1 Hf) Hl) as (h1 & E1 & Hl1 & Hs1).
  assert (Hgo : exists h2, live h2 (wire sk ++ rest) /\ same h h2
    /\ response_loop (S fuel) hb sid h = response_loop fuel hb sid h2).
  { cbn [response_loop]. rewrite E1.
    destruct (on_control_ignorable sid f h1 _ Hf Hl1) as [->|(h2 & -> & Hl2 & Hs2)].
    - exists h1. split; [done|]. split; [done|]. destruct Hf as (_ & _ & Hf).
      destruct (Z.eqb_spec (f_stream f) sid) as [E|]; [|by rewrite andb_false_r].
      destruct (Hf E) as (_ & H1' & H2' & _).
      destruct (Z.eqb_spec (f_type f) H2_HEADERS); [done|]. by destruct (Z.eqb_spec (f_type f) H2_CONTINUATION).
    - exists h2. split; [done|]. split; [|done]. by eapply same_trans. }
  destruct Hgo as (h2 & Hl2 & Hs2 & ->). cbn [Nat.sub].
  destruct (IH fuel h2 Hl2 ltac:(lia)) as (h3 & -> & Hl3 & Hs3).
  exists h3. split; [done|]. split; [done|]. by eapply same_trans.
Qed.

(** One frame of the header block. *)
Lemma response_loop_item sid eos first last it frag fuel hb h rest :
  header_item sid eos first last it frag -> live h (item_bytes it ++ rest) -> (length (fst it) < fuel)%nat ->
  exists h', live h' rest /\ same (with_ended (first && eos || fReqEnded h) h) h' /\
    response_loop fuel hb sid h =
      if last then let '(st, d, hdrs) := Decode (fDecoder h) (hb ++ frag) [] in
                   (inr (match st with B_OK => status_of hdrs 0 | _ => 0 end), with_decoder d h')
      else response_loop (fuel - length (fst it) - 1) (hb ++ frag) sid h'.
Proof.
  intros Hi Hl Hf. pose proof (header_fragment_item _ _ _ _ _ _ Hi) as Ef.
  destruct it as [sk f]. destruct Hi as (Hsk & Hok & Hst & Hh & He & Hty). cbn [fst snd] in *.
  assert (T : f_type f = H2_HEADERS \/ f_type f = H2_CONTINUATION) by (destruct first; [left|right]; apply Hty). clear Hty.
  unfold item_bytes in Hl. cbn [fst snd] in Hl. rewrite <- app_assoc in Hl.
  destruct (response_skip sk fuel hb sid h _ Hsk Hl ltac:(lia)) as (h1 & -> & Hl1 & Hs1).
  destruct (fuel - length sk)%nat as [|fu] eqn:Eu; [lia|]. cbn [response_loop].
  destruct (ReadFrame_spec f h1 _ Hok Hl1) as (h2 & -> & Hl2 & Hs2).
  assert (on_control f sid h2 = None) as -> by (unfold on_control; by destruct T as [-> | ->]).
  assert (((f_type f =? H2_HEADERS) || (f_type f =? H2_CONTINUATION)) && (f_stream f =? sid) = true) as ->.
  { rewrite Hst, Z.eqb_refl. by destruct T as [-> | ->]. }
  unfold flag in He, Hh. rewrite He, Hh, Ef. replace (S fu - 1)%nat with fu by lia.
  destruct (same_trans _ _ _ Hs1 Hs2) as (S1 & S2 & S3 & S4).
  set (h3 := if first && eos then with_ended true h2 else h2).
  assert (L3 : live h3 rest) by (unfold h3; destruct (first && eos); [|done]; destruct Hl2 as (c & rs & L); by exists c, rs).
  assert (D3 : fDecoder h3 = fDecoder h) by (unfold h3; by destruct (first && eos)).
  exists h3. split; [done|]. split; [|rewrite D3; by destruct last].
  unfold h3. destruct (first && eos); unfold same; cbn; by split_and!.
Qed.

(** The loop over a whole header block. *)
Lemma response_loop_block sid eos first its frags : header_block sid eos first its frags ->
  forall fuel hb h rest, live h (flat_map item_bytes its ++ rest) ->
  (length (flat_map fst its) + length its <= fuel)%nat ->
  exists h', response_loop fuel hb sid h =
    (let '(st, d, hdrs) := Decode (fDecoder h) (hb ++ frags) [] in
     (inr (match st with B_OK => status_of hdrs 0 | _ => 0 end), with_decoder d h'))
    /\ live h' rest /\ same (with_ended (first && eos || fReqEnded h) h) h'.
Proof.
  induction 1 as [first it frag Hi|first it frag its frags Hi _ IH]; intros fuel hb h rest Hl Hf;
    cbn [flat_map length] in Hl, Hf; rewrite <- ?app_assoc in Hl; rewrite length_app in Hf.
  - cbn [app] in Hl. destruct (response_loop_item _ _ _ _ _ _ fuel hb h rest Hi Hl ltac:(lia)) as (h' & Hl' & Hs' & ->). by exists h'.
  - destruct (response_loop_item _ _ _ _ _ _ fuel hb h _ Hi Hl ltac:(lia)) as (h1 & Hl1 & (A1 & A2 & A3 & A4) & ->).
    destruct (IH (fuel - length (fst it) - 1)%nat (hb ++ frag) h1 rest Hl1 ltac:(lia)) as (h2 & -> & Hl2 & (B1 & B2 & B3 & B4)).
    exists h2. cbn in A4. rewrite A4, <- app_assoc. split; [done|]. split; [done|]. cbn in A1, A2, A3, B1, B2, B3, B4.
    unfold same. cbn. split_and!; congruence.
Qed.

Lemma body_skip sk fuel h rest :
  Forall (ignorable (fReqStream h)) sk -> live h (wire sk ++ rest) -> (length sk <= fuel)%nat ->
  exists h', body_loop fuel h = body_loop (fuel - length sk) h' /\ live h' rest /\ same h h'.
Proof.
  intros Hsk. remember (fReqStream h) as sid eqn:Hsid. revert fuel h Hsid.
  induction Hsk as [|g sk Hg _ IH]; intros fuel h Hsid Hl Hf.
  { exists h. by rewrite Nat.sub_0_r. }
  cbn [length] in *. destruct fuel as [|fuel]; [lia|]. cbn [wire flat_map] in Hl. rewrite <- app_assoc in Hl.
  destruct (ReadFrame_spec g h _ (proj1 Hg) Hl) as (h1 & E1 & Hl1 & S1 & S2 & S3 & S4).
  assert (Hgo : exists h2, live h2 (wire sk ++ rest) /\ same h1 h2 /\ body_loop (S fuel) h = body_loop fuel h2).
  { cbn [body_loop]. rewrite E1, S2, <- Hsid.
    destruct (on_control_ignorable sid g h1 _ Hg Hl1) as [->|(h2 & -> & Hl2 & Hs2)]; [|by exists h2].
    exists h1. split; [done|]. split; [done|]. destruct Hg as (_ & _ & Hg).
    destruct (Z.eqb_spec (f_stream g) sid) as [E|]; [|by rewrite !andb_false_r].
    destruct (Hg E) as (_ & H1' & _ & H2').
    destruct (Z.eqb_spec (f_type g) H2_DATA); [done|]. by destruct (Z.eqb_spec (f_type g) H2_HEADERS). }
  destruct Hgo as (h2 & Hl2 & (T1 & T2 & T3 & T4) & ->). cbn [Nat.sub].
  destruct (IH fuel h2) as (h3 & -> & Hl3 & Hs3); [congruence|done|lia|].
  exists h3. split; [done|]. split; [done|]. eapply same_trans; [|exact Hs3]. unfold same. split_and!; congruence.
Qed.

Lemma replenish_live n h rest : live h rest -> live (replenish n h) rest /\ same h (replenish n h).
Proof.
  intros Hl. unfold replenish. destruct (_ >? 0); [|done].
  match goal with |- context [WriteFrame ?a ?b ?c ?d h] =>
    destruct (WriteFrame_live a b c d h rest Hl) as [La Sa]; set (h2 := snd (WriteFrame a b c d h)) in * end.
  match goal with |- context [WriteFrame ?a ?b ?c ?d h2] =>
    destruct (WriteFrame_live a b c d h2 rest La) as [Lb Sb] end.
  split; [exact Lb|]. by eapply same_trans.
Qed.

(** What one call of ReadBody leaves behind. *)
Definition after (ended : bool) (h h' : http2 C) : Prop :=
  fReqEnded h' = ended /\ fReqStream h' = fReqStream h /\ fNextStreamId h' = fNextStreamId h /\ fDecoder h' = fDecoder h.

Lemma body_loop_data it last chunk fuel h rest :
  data_item (fReqStream h) last it chunk -> fReqEnded h = false -> live h (item_bytes it ++ rest) ->
  (length (fst it) < fuel)%nat ->
  exists h', body_loop fuel h = Some (inr chunk, h') /\ live h' rest /\ after last h h'.
Proof.
  destruct it as [sk f]. intros (Hsk & _ & Hok & Hst & Hty & He & pad & Hp & Epl) Hend. unfold item_bytes. cbn [fst snd] in *.
  rewrite <- app_assoc. intros Hl Hf. destruct (body_skip sk fuel h _ Hsk Hl ltac:(lia)) as (h1 & -> & Hl1 & Hs1).
  destruct (fuel - length sk)%nat as [|fu] eqn:Eu; [lia|]. cbn [body_loop].
  destruct (ReadFrame_spec f h1 _ Hok Hl1) as (h2 & -> & Hl2 & Hs2). destruct (same_trans _ _ _ Hs1 Hs2) as (S1 & S2 & S3 & S4).
  rewrite S2. assert (on_control f (fReqStream h) h2 = None) as -> by (unfold on_control; by rewrite Hty).
  rewrite Hty, Hst, !Z.eqb_refl. cbn [andb]. rewrite (data_chunk_item f pad chunk) by done. cbn [mbind option_bind].
  eexists. split; [reflexivity|]. unfold flag in He. rewrite He.
  destruct (replenish_live (zlen (f_payload f)) h2 rest Hl2) as [Hlr (R1 & R2 & R3 & R4)].
  unfold after. destruct last; [|split_and!; [done|congruence..]].
  cbn. split_and!; [|congruence..]. destruct Hlr as (c & rs & L). by exists c, rs.
Qed.

Lemma body_loop_trailers it fuel h rest :
  trailer_item (fReqStream h) it -> live h (item_bytes it ++ rest) -> (length (fst it) < fuel)%nat ->
  exists h', body_loop fuel h = Some (inr [], h') /\ live h' rest /\ after true h h'.
Proof.
  destruct it as [sk f]. intros (Hsk & _ & Hok & Hst & Hty & He). unfold item_bytes. cbn [fst snd] in *.
  rewrite <- app_assoc. intros Hl Hf. destruct (body_skip sk fuel h _ Hsk Hl ltac:(lia)) as (h1 & -> & Hl1 & Hs1).
  destruct (fuel - length sk)%nat as [|fu] eqn:Eu; [lia|]. cbn [body_loop].
  destruct (ReadFrame_spec f h1 _ Hok Hl1) as (h2 & -> & Hl2 & Hs2). destruct (same_trans _ _ _ Hs1 Hs2) as (S1 & S2 & S3 & S4).
  rewrite S2. assert (on_control f (fReqStream h) h2 = None) as -> by (unfold on_control; by rewrite Hty).
  unfold flag in He. rewrite Hty, Hst, !Z.eqb_refl, He. cbn [andb Z.eqb H2_HEADERS H2_DATA Pos.eqb].
  eexists. split; [reflexivity|]. unfold after. cbn. split_and!; [|done..]. destruct Hl2 as (c & rs & L). by exists c, rs.
Qed.

(** One call of ReadBody on a stream with [its] to come. *)
Lemma ReadBody_items its cs h rest :
  body_items (fReqStream h) its cs -> fReqEnded h = false -> live h (flat_map item_bytes its ++ rest) ->
  exists h', ReadBody kH2MaxFramePayload h = Some (inr (hd [] cs), h')
    /\ ((live h' rest /\ after true h h' /\ tail cs = [])
        \/ exists its', live h' (flat_map item_bytes its' ++ rest) /\ after false h h'
             /\ body_items (fReqStream h) its' (tail cs) /\ length its = S (length its') /\ cs <> []).
Proof.
  intros Hb Hend Hl. unfold ReadBody. rewrite Hend, Z.ltb_irrefl. destruct Hb as [it c Hd|it Ht|it c its cs Hd Hb];
    cbn [flat_map hd tail app] in *; rewrite <- ?app_assoc in Hl.
  - destruct (body_loop_data it true c frame_budget h rest Hd Hend Hl) as (h' & -> & L & A); [apply Hd|]. exists h'. split; [done|]. by left.
  - destruct (body_loop_trailers it frame_budget h rest Ht Hl) as (h' & -> & L & A); [apply Ht|]. exists h'. split; [done|]. by left.
  - destruct (body_loop_data it false c frame_budget h _ Hd Hend Hl) as (h' & -> & L & A); [apply Hd|]. exists h'. split; [done|]. right. by exists its.
Qed.

Lemma collect_items its cs fuel acc h rest :
  body_items (fReqStream h) its cs -> (length its <= fuel)%nat -> fReqEnded h = false ->
  live h (flat_map item_bytes its ++ rest) ->
  exists h', collect fuel acc h = Some (inr (acc ++ concat (map cstr cs)), h') /\ live h' rest
    /\ fReqEnded h' = true /\ fNextStreamId h' = fNextStreamId h /\ fDecoder h' = fDecoder h.
Proof.
  revert its cs acc h. induction fuel as [|fuel IH]; intros its cs acc h Hb Hf Hend Hl.
  { destruct Hb; cbn in Hf; lia. }
  cbn [collect]. destruct (ReadBody_items its cs h rest Hb Hend Hl) as (h1 & -> & [(L & (A1 & _ & A3 & A4) & Ec)|(its' & L & (A1 & A2 & A3 & A4) & Hb' & El & Nc)]).
  - rewrite A1. exists h1. split; [|by split_and!]. do 3 f_equal. f_equal.
    destruct cs as [|c [|]]; [done|cbn; by rewrite app_nil_r|done].
  - rewrite A1. rewrite <- A2 in Hb'. destruct (IH its' (tail cs) (acc ++ cstr (hd [] cs)) h1 Hb' ltac:(lia) A1 L) as (h2 & -> & L2 & E2 & N2 & D2).
    exists h2. split; [|split_and!; [done..|congruence|congruence]]. destruct cs as [|c cs]; [done|]. cbn [hd tail map concat]. by rewrite <- app_assoc.
Qed.

Lemma send_request_live m s a p ct body h rest st h' :
  live h rest -> send_request m s a p ct body h = (st, h') -> live h' rest
  /\ fNextStreamId h' = u32 (fNextStreamId h + 2) /\ fReqStream h' = fNextStreamId h
  /\ fReqEnded h' = false /\ fDecoder h' = fDecoder h.
Proof.
  intros Hl. unfold send_request. set (h0 := with_request _ _ h).
  assert (Hl0 : live h0 rest) by (destruct Hl as (c & rs & L); by exists c, rs).
  match goal with |- context [WriteFrame ?ty ?fl ?sid ?pl h0] =>
    destruct (WriteFrame_live ty fl sid pl h0 rest Hl0) as [La (A1 & A2 & A3 & A4)];
    destruct (WriteFrame ty fl sid pl h0) as [st1 h1] end. cbn [snd] in *.
  assert (Hh1 : live h1 rest /\ fNextStreamId h1 = u32 (fNextStreamId h + 2) /\ fReqStream h1 = fNextStreamId h
    /\ fReqEnded h1 = false /\ fDecoder h1 = fDecoder h) by (split_and!; done).
  destruct st1; try (by intros [= <- <-]). destruct (zlen body >? 0); [|by intros [= <- <-]].
  match goal with |- context [WriteFrame ?ty ?fl ?sid ?pl h1] =>
    destruct (WriteFrame_live ty fl sid pl h1 rest La) as [Lb (B1 & B2 & B3 & B4)];
    destruct (WriteFrame ty fl sid pl h1) as [st2 h2] end. cbn [snd] in *.
  destruct Hh1 as (_ & C1 & C2 & C3 & C4). clear A1 A2 A3 A4. intros [= <- <-]. split_and!; [done|congruence..].
Qed.

(** What the application makes of a header list: the last :status. *)
Lemma status_of_last pre v post init : Forall (fun x => cstr (name x) <> bs ":status") post ->
  status_of (pre ++ mkHeader (bs ":status") v :: post) init = atoi v.
Proof.
  intros Hp. unfold status_of. rewrite fold_left_app. cbn [fold_left name value].
  change (beq (cstr (bs ":status")) (bs ":status")) with true. cbv iota.
  generalize (fold_left (fun st x => if beq (cstr (name x)) (bs ":status") then atoi (value x) else st) pre init). intros _.
  generalize (atoi v). induction Hp as [|x post Hx _ IH]; intros n; [done|]. cbn [fold_left].
  destruct (beq (cstr (name x)) (bs ":status")) eqn:E; [by apply beq_true in E|]. apply IH.
Qed.

(** C36: One request and its response. When the request could be sent and the server answers on its stream, with the frames of the response cut into records in any way and interleaved with any SETTINGS, PING, WINDOW_UPDATE or other frames that are not an error, Request returns B_OK with the number of the last :status of the header block (a HEADERS frame, padded and prioritised or not, and its CONTINUATION frames) and the contents of the DATA frames in order, laid out as RFC 9113 says with or without padding, each up to its first NUL; a header block that ends the stream gives an empty body, and trailers may end it too. Exactly the response is consumed, and the HPACK decoder has advanced over the block. *)
Theorem Request_response m s a p ct body fuel h h1 hs block eos ds cs rest d pre code post :
  let sid := fNextStreamId h in
  send_request m s a p ct body h = (B_OK, h1) ->
  header_block sid eos true hs block ->
  (length (flat_map fst hs) + length hs <= frame_budget)%nat ->
  Decode (fDecoder h) block [] = (B_OK, d, pre ++ mkHeader (bs ":status") (fmt_u code) :: post) ->
  0 <= code <= 999 -> Forall (fun x => cstr (name x) <> bs ":status") post ->
  (if eos then ds = [] /\ cs = [] else body_items sid ds cs) ->
  (length ds <= fuel)%nat -> (0 < fuel)%nat ->
  live h (flat_map item_bytes hs ++ flat_map item_bytes ds ++ rest) ->
  exists h', Request fuel m s a p ct body h = Some (inr (code, concat (map cstr cs)), h')
    /\ live h' rest /\ fDecoder h' = d /\ fReqEnded h' = true /\ fNextStreamId h' = u32 (sid + 2).
Proof.
  intros sid Hsend Hblk Hbud Hdec Hcode Hpost Hds Hfuel Hf0 Hl.
  destruct (send_request_live _ _ _ _ _ _ _ _ _ _ Hl Hsend) as (Hl1 & N1 & R1 & E1 & D1).
  unfold Request, BeginRequest. assert (exists c, fConn h = Some c) as [c ->] by (destruct Hl as (c & ? & ? & _); eauto).
  rewrite Hsend.
  destruct (response_loop_block _ _ _ _ _ Hblk frame_budget [] h1 _ Hl1 Hbud) as (h2 & E & Hl2 & S1 & S2 & S3 & S4).
  fold sid. rewrite E, D1. cbn [app]. rewrite Hdec, (status_of_last pre _ post) by done. rewrite atoi_fmt_u by lia.
  cbn [with_ended andb orb fReqEnded fNextStreamId fReqStream fDecoder] in S1, S2, S3, S4. rewrite E1, orb_false_r in S3.
  assert (Hl2' : live (with_decoder d h2) (flat_map item_bytes ds ++ rest))
    by (destruct Hl2 as (c2 & rs & L); by exists c2, rs).
  destruct eos.
  - destruct Hds as [-> ->]. cbn [flat_map app] in Hl2'. exists (with_decoder d h2).
    destruct fuel as [|fuel]; [lia|]. cbn [collect]. unfold ReadBody. change (fReqEnded (with_decoder d h2)) with (fReqEnded h2).
    rewrite S3. cbv beta iota zeta. change (fReqEnded (with_decoder d h2)) with (fReqEnded h2). rewrite S3.
    split; [done|]. split; [done|]. split; [done|]. split; [done|]. cbn. by rewrite S1, N1.
  - destruct (collect_items ds cs fuel [] (with_decoder d h2) rest) as (h3 & -> & Hl3 & E3 & N3 & D3); try done.
    + cbn. rewrite S2, R1. exact Hds.
    + exists h3. split; [done|]. split; [done|]. split; [done|]. split; [done|].
      rewrite N3. cbn. rewrite S1, N1. done.
Qed.
End WithLaws.

(** A connection whose peer sealed the records [rs]. *)
Definition demo_chan (rs : list bytes) : RecordStream.chan :=
  RecordStream.mkChan (ControlConn.Init (bs "key b") (bs "key a") [])
    [Tls.Data (default [] (RecordStream.sealed (H:=Crypto.Toy.toy) (ControlConn.Init (bs "key a") (bs "key b") []) rs))]
    [[100]; [100]] [].

Lemma Request_response_witness :
  let block := AddHeader (bs ":status") (bs "200") in
  let f1 := mkFrame H2_SETTINGS 0 0 [] in
  let f2 := mkFrame H2_HEADERS H2_FLAG_END_HEADERS 1 block in
  let f3 := mkFrame H2_DATA 9 1 ([1] ++ bs "hi" ++ [0]) in
  let bytes_ := wire [f1; f2; f3] in
  let h := Init (demo_chan [ztake 11 bytes_; zdrop 11 bytes_]) Http2Conn in
  exists h', Request (H:=RecordStream.chan_records (H:=Crypto.Toy.toy)) 1 (bs "GET") (bs "https") (bs "/x") (bs "h")
    None [] h = Some (inr (200, bs "hi"), h').
Proof.
  intros block f1 f2 f3 bytes_ h.
  destruct (send_request (H:=RecordStream.chan_records (H:=Crypto.Toy.toy)) (bs "GET") (bs "https") (bs "/x") (bs "h")
    None [] h) as [st h1] eqn:Es.
  assert (st = B_OK) as ->.
  { change st with (fst (st, h1)). rewrite <- Es. vm_compute. reflexivity. }
  destruct (Request_response (H:=RecordStream.chan_records (H:=Crypto.Toy.toy))
    (H0:=RecordStream.chan_laws (H:=Crypto.Toy.toy) (H0:=Crypto.Toy.toy_laws))
    (bs "GET") (bs "https") (bs "/x") (bs "h") None [] 1 h h1 [([f1], f2)] block false
    [([], f3)] [bs "hi"] [] HpackDecoder [] 200 []) as (h' & HR & _).
  - exact Es.
  - apply block_last. unfold header_item. cbn [fst snd].
    split; [constructor; [|constructor]; split; [apply is_frame_ok_spec; vm_compute; reflexivity|by split]|].
    split; [apply is_frame_ok_spec; vm_compute; reflexivity|]. do 4 (split; [reflexivity|]).
    exists None, None. split; [by split|]. split; [by split|]. reflexivity.
  - unfold frame_budget. cbn. lia.
  - vm_compute. reflexivity.
  - lia.
  - constructor.
  - apply body_end. unfold data_item. cbn [fst snd].
    split; [constructor|]. split; [unfold frame_budget; cbn; lia|]. split; [apply is_frame_ok_spec; vm_compute; reflexivity|].
    do 3 (split; [reflexivity|]). exists (Some [0]). split; [by split|]. reflexivity.
  - done.
  - lia.
  - assert (exists out, RecordStream.sealed (H:=Crypto.Toy.toy) (ControlConn.Init (bs "key a") (bs "key b") [])
      [ztake 11 bytes_; zdrop 11 bytes_] = Some out /\ zlen out <> 0) as (out & Eo & Ho)
      by (eexists; split; vm_compute; [reflexivity|congruence]).
    exists (demo_chan [ztake 11 bytes_; zdrop 11 bytes_]), [ztake 11 bytes_; zdrop 11 bytes_].
    split; [reflexivity|]. split; [|split; [|split]].
    + unfold demo_chan. rewrite Eo. cbn [default]. split; [|split].
      * split_and!; [reflexivity|vm_compute; congruence|vm_compute; congruence|]. constructor; [|constructor]. exists out. split; [reflexivity|exact Ho].
      * constructor; [vm_compute; congruence|]. constructor; [vm_compute; congruence|]. constructor.
      * exists (ControlConn.Init (bs "key a") (bs "key b") []), out, [].
        split; [reflexivity|]. split; [reflexivity|]. split; [exact Eo|].
        unfold avail. cbn. by rewrite !app_nil_r.
    + constructor; [vm_compute; congruence|]. constructor; [vm_compute; congruence|]. constructor.
    + split; [split|]; vm_compute; congruence.
    + vm_compute. reflexivity.
  - exists h'. exact HR.
Defined.

(** What Request returns of a body with a NUL ends each chunk there. *)
Example nul_in_the_body :
  let block := AddHeader (bs ":status") (bs "200") in
  let bytes_ := wire [mkFrame H2_HEADERS H2_FLAG_END_HEADERS 1 block; mkFrame H2_DATA 0 1 (bs "ab" ++ 0 :: bs "cd"); mkFrame H2_DATA 1 1 (bs "ef")] in
  fst <$> Request (H:=RecordStream.chan_records (H:=Crypto.Toy.toy)) 5 (bs "GET") (bs "https") (bs "/x") (bs "h")
    None [] (Init (demo_chan [bytes_]) Http2Conn) = Some (inr (200, bs "abef")).
Proof. vm_compute. reflexivity. Qed.

(** A DATA frame whose pad length exceeds the payload makes the copy leave the
    buffer: here a one-byte payload that announces 5 bytes of padding. *)
Example padded_data_overruns : data_chunk (mkFrame H2_DATA 8 1 [5]) = None.
Proof. vm_compute. done. Qed.

(** Init keeps the previous connection's decoder: after a response that set the
    table size to 0, a reconnected client cannot read a block that a server
    with its fresh 4096-byte table sends. *)
Example stale_decoder_after_Init :
  let d := snd (fst (Decode HpackDecoder [0x20] [])) in
  let block := [0x40; 1; 97; 1; 98; 0xbe] in
  fst (fst (Decode HpackDecoder block [])) = B_OK
  /\ fst (fst (Decode (fDecoder (Init (C:=unit) tt (mkHttp2 None 1 0 true d [] 0))) block [])) = B_BAD_DATA.
Proof. vm_compute. done. Qed.

End Http2.
