(* ===== verification/MapStream.v ===== *)
(** * MapStream: the network-map exchange (src/backend/tailscale/TSMap.cpp)

    The MapRequest and the de-framer of the response stream, against an
    interface of the two Http2Conn operations it uses; the second part
    discharges that interface for Http2.  [None] stands for ReadBody's stray
    memcpy (see Http2).  The fill loop has the requested length as fuel: every
    read that does not end it adds a byte. *)

From S2P Require Import Prelude CLib Endian Identity ControlConn RecordConn Http2.
Open Scope Z_scope.
Open Scope soto_scope.

(** [feeds s cs]: the body reads to come on [s] return the chunks [cs] and
    then nothing. *)
Class BodySource (S : Type) := {
  begin_request : bytes -> bytes -> bytes -> bytes -> bytes -> bytes -> S -> (status + Z) * S;
  read_body : S -> option ((status + bytes) * S);
  feeds : S -> list bytes -> Prop }.

Class BodySourceLaws (S : Type) `{BodySource S} := {
  feeds_chunk s c cs : feeds s (c :: cs) -> exists s', read_body s = Some (inr c, s') /\ feeds s' cs;
  feeds_end s : feeds s [] -> exists s', read_body s = Some (inr [], s') /\ feeds s' [] }.

Module MapStream.

Definition kMaxMapMessage : Z := 32 * 1024 * 1024.

Section WithSource.
Context {S : Type} `{BodySource S}.

Record map_stream := mkMap { fHttp2 : option S; fAcc : bytes; fAccOff : Z }.
Definition MapStream : map_stream := mkMap None [] 0.

Definition q (s : bytes) : bytes := 34 :: s ++ [34].

Definition map_request (version : Z) (nodePub discoPub : bytes) (hostname endpointsJson : option bytes)
    (stream : bool) : bytes :=
  bs "{" ++ q (bs "Version") ++ bs ":" ++ fmt_d version ++ bs ","
  ++ q (bs "NodeKey") ++ bs ":" ++ 34 :: bs "nodekey:" ++ Identity.ToHex nodePub ++ 34 :: bs ","
  ++ q (bs "DiscoKey") ++ bs ":" ++ 34 :: bs "discokey:" ++ Identity.ToHex discoPub ++ 34 :: bs ","
  ++ q (bs "Stream") ++ bs ":" ++ (if stream then bs "true" else bs "false") ++ bs ","
  ++ q (bs "OmitPeers") ++ bs ":" ++ (if stream then bs "false" else bs "true") ++ bs ","
  ++ q (bs "Endpoints") ++ bs ":[" ++ default [] endpointsJson ++ bs "],"
  ++ q (bs "Hostinfo") ++ bs ":{" ++ q (bs "IPNVersion") ++ bs ":" ++ q (bs "0.1.0") ++ bs ","
  ++ q (bs "Hostname") ++ bs ":" ++ q (default (bs "haiku") hostname) ++ bs ","
  ++ q (bs "OS") ++ bs ":" ++ q (bs "haiku") ++ bs "}" ++ bs "}".

Definition Begin (h2 : S) (host : bytes) (version : Z) (nodePub discoPub : bytes)
    (hostname endpointsJson : option bytes) (stream : bool) : (status + Z) * map_stream :=
  let '(r, h2) := begin_request (bs "POST") (bs "https") host (bs "/machine/map") (bs "application/json")
                    (map_request version nodePub discoPub hostname endpointsJson stream) h2 in
  (r, mkMap (Some h2) [] 0).

(** The status, whether the stream ended, and the object. *)
Fixpoint fill_loop (fuel : nat) (need : Z) (h2 : S) (acc : bytes) (off : Z)
    : option (status * bool * (S * bytes * Z)) :=
  match fuel with
  | O => Some (B_OK, false, (h2, acc, off))
  | Datatypes.S fuel =>
      if negb (zlen acc - off <? need) then Some (B_OK, false, (h2, acc, off))
      else
        match read_body h2 with
        | None => None
        | Some (inl e, h2) => Some (e, false, (h2, acc, off))
        | Some (inr chunk, h2) =>
            if zlen chunk =? 0 then Some (B_OK, true, (h2, acc, off))
            else
              let '(acc, off) := if (off >? 0) && (off =? zlen acc) then ([], 0) else (acc, off) in
              fill_loop fuel need h2 (acc ++ chunk) off
        end
  end.

Definition _FillAtLeast (need : Z) (h2 : S) (acc : bytes) (off : Z) : option (status * bool * (S * bytes * Z)) :=
  fill_loop (Datatypes.S (Z.to_nat need)) need h2 acc off.

Definition ReadMessage (m : map_stream) : option ((status + bytes) * map_stream) :=
  match fHttp2 m with
  | None => Some (inl B_NO_INIT, m)
  | Some h2 =>
      match _FillAtLeast 4 h2 (fAcc m) (fAccOff m) with
      | None => None
      | Some (B_OK, eof, (h2, acc, off)) =>
          let m := mkMap (Some h2) acc off in
          if eof && (zlen acc - off <? 4) then Some (inl B_ENTRY_NOT_FOUND, m)
          else
            let msgLen := load32_le acc off in
            if msgLen >? kMaxMapMessage then Some (inl B_BAD_DATA, m)
            else
              match _FillAtLeast (4 + msgLen) h2 acc off with
              | None => None
              | Some (B_OK, _, (h2, acc, off)) =>
                  if zlen acc - off <? 4 + msgLen then Some (inl B_IO_ERROR, mkMap (Some h2) acc off)
                  else
                    let outJson := cstr (slice (off + 4) msgLen acc) in
                    let off := off + (4 + msgLen) in
                    let '(acc, off) := if off =? zlen acc then ([], 0) else (acc, off) in
                    Some (inr outJson, mkMap (Some h2) acc off)
              | Some (e, _, (h2, acc, off)) => Some (inl e, mkMap (Some h2) acc off)
              end
      | Some (e, _, (h2, acc, off)) => Some (inl e, mkMap (Some h2) acc off)
      end
  end.
End WithSource.
Arguments map_stream S : clear implicits.

(** ** De-framing *)

Definition message_bytes (m : bytes) : bytes := store32_le (zlen m) ++ m.

Section WithLaws.
Context {S : Type} `{BodySourceLaws S}.
Implicit Types m : map_stream S.

(** The chunks up to the first empty one, which ReadMessage takes for the end
    of the stream. *)
Fixpoint before_empty (cs : list bytes) : list bytes :=
  match cs with [] | [] :: _ => [] | c :: cs => c :: before_empty cs end.

(** What the stream will still deliver; [cs] are the chunks the source has. *)
Definition holds (h2 : S) (acc : bytes) (off : Z) (cs : list bytes) (rest : bytes) : Prop :=
  feeds h2 cs /\ 0 <= off <= zlen acc /\ zdrop off acc ++ concat (before_empty cs) = rest.

(** Filling stops when enough is there or the stream has ended. *)
Lemma fill_more_spec fuel need h2 acc off cs rest :
  holds h2 acc off cs rest -> 0 <= need -> need - (zlen acc - off) < Z.of_nat fuel -> fuel <> 0%nat ->
  exists eof h2' acc' off', fill_loop fuel need h2 acc off = Some (B_OK, eof, (h2', acc', off'))
    /\ if eof then zlen acc' - off' = zlen rest /\ zlen rest < need
       else need <= zlen acc' - off' /\ exists cs', holds h2' acc' off' cs' rest.
Proof.
  revert h2 acc off cs. induction fuel as [|fuel IH]; intros h2 acc off cs Hh Hn Hf Hf0; [done|clear Hf0].
  cbn [fill_loop]. destruct (Z.ltb_spec (zlen acc - off) need); cbn [negb].
  2: { exists false, h2, acc, off. split; [done|]. split; [done|]. by exists cs. }
  destruct Hh as (Hd & Hoff & Hr).
  assert (Hend : forall h2', before_empty cs = [] -> exists eof h2'' acc' off',
    Some (B_OK, true, (h2', acc, off)) = Some (B_OK, eof, (h2'', acc', off'))
    /\ if eof then zlen acc' - off' = zlen rest /\ zlen rest < need
       else need <= zlen acc' - off' /\ exists cs', holds h2'' acc' off' cs' rest).
  { intros h2' E. exists true, h2', acc, off. split; [done|]. rewrite <- Hr, E, app_nil_r, zlen_zdrop by lia. lia. }
  destruct cs as [|[|x c] cs].
  - destruct (feeds_end h2 Hd) as (h2' & -> & _). by apply Hend.
  - destruct (feeds_chunk h2 [] cs Hd) as (h2' & -> & _). by apply Hend.
  - clear Hend. destruct (feeds_chunk h2 (x :: c) cs Hd) as (h2' & -> & Hd').
    set (c' := x :: c) in *. assert (Hc : 0 < zlen c') by (unfold c'; rewrite zlen_cons; pose proof (zlen_nonneg c); lia).
    change (before_empty (c' :: cs)) with (c' :: before_empty cs) in Hr. clearbody c'.
    destruct (Z.eqb_spec (zlen c') 0); [lia|].
    destruct ((off >? 0) && (off =? zlen acc)) eqn:Ecomp.
    + apply andb_true_iff in Ecomp as [_ E]. apply Z.eqb_eq in E. subst off.
      apply (IH h2' ([] ++ c') 0 cs); [|done|cbn [app]; lia|].
      * cbn [app]. split; [done|]. split; [lia|]. rewrite zdrop_0. rewrite <- Hr. by rewrite zdrop_all.
      * intros ->. cbn in Hf. lia.
    + apply (IH h2' (acc ++ c') off cs); [|done|rewrite zlen_app; lia|intros ->; lia].
      split_and!; try done; rewrite ?zlen_app; try lia.
      rewrite <- Hr. cbn [concat]. rewrite zdrop_app_le by lia. by rewrite <- app_assoc.
Qed.

(** What is buffered is a prefix of what the stream delivers. *)
Lemma holds_slice h2 acc off cs rest k :
  holds h2 acc off cs rest -> 0 <= k <= zlen acc - off ->
  slice off k acc = ztake k rest /\ zdrop (off + k) acc ++ concat (before_empty cs) = zdrop k rest /\ k <= zlen rest.
Proof.
  intros (_ & Hoff & <-) Hk. rewrite zlen_app, zlen_zdrop by lia. pose proof (zlen_nonneg (concat (before_empty cs))).
  split_and!; [| |lia].
  - unfold slice, ztake, zdrop, zlen in *. rewrite take_app_le by (rewrite length_drop; lia). done.
  - rewrite <- zdrop_zdrop by lia. unfold zdrop, zlen in *. rewrite drop_app_le by (rewrite length_drop; lia). done.
Qed.

Lemma holds_length h2 acc off cs rest : holds h2 acc off cs rest -> 0 <= off /\ zlen acc - off <= zlen rest.
Proof.
  intros (_ & Hoff & <-). rewrite zlen_app, zlen_zdrop by lia. pose proof (zlen_nonneg (concat (before_empty cs))). lia.
Qed.

Lemma holds_load h2 acc off cs rest n :
  holds h2 acc off cs rest -> 4 <= zlen acc - off -> 0 <= n < 2 ^ 32 -> ztake 4 rest = store32_le n ->
  load32_le acc off = n.
Proof.
  intros Hh Hk Hn Hr. destruct (holds_slice _ _ _ _ _ 4 Hh ltac:(lia)) as [Hs _].
  rewrite load32_le_slice by (destruct (holds_length _ _ _ _ _ Hh); lia). rewrite Hs, Hr.
  pose proof (load32_le_store32_le [] n []) as L. rewrite app_nil_r in L. by apply L.
Qed.

(** Filling from a state that holds [rest]: enough is buffered, or the stream
    is over and all of [rest] is. *)
Lemma FillAtLeast_spec need h2 acc off cs rest :
  holds h2 acc off cs rest -> 0 <= need ->
  exists eof h2' acc' off', _FillAtLeast need h2 acc off = Some (B_OK, eof, (h2', acc', off'))
    /\ (need <= zlen rest -> eof = false /\ need <= zlen acc' - off' /\ exists cs', holds h2' acc' off' cs' rest)
    /\ (zlen rest < need -> eof = true /\ zlen acc' - off' = zlen rest).
Proof.
  intros Hh Hn. unfold _FillAtLeast. pose proof Hh as (_ & Hoff & _).
  destruct (fill_more_spec (Datatypes.S (Z.to_nat need)) need h2 acc off cs rest Hh)
    as (eof & h2' & acc' & off' & E & Hr); [lia|lia|done|].
  exists eof, h2', acc', off'. split; [done|]. destruct eof.
  - split; [lia|]. intros _. split; [done|lia].
  - destruct Hr as [Hl (cs' & Hh')]. destruct (holds_length _ _ _ _ _ Hh'). split; [|lia]. intros _. split; [done|]. split; [done|]. by exists cs'.
Qed.

Lemma zlen_store32 n : zlen (store32_le n) = 4.
Proof. reflexivity. Qed.

Lemma ReadMessage_message m h2 cs x tl :
  fHttp2 m = Some h2 -> holds h2 (fAcc m) (fAccOff m) cs (message_bytes x ++ tl) -> zlen x <= kMaxMapMessage ->
  exists m' h2' cs', ReadMessage m = Some (inr (cstr x), m') /\ fHttp2 m' = Some h2'
    /\ holds h2' (fAcc m') (fAccOff m') cs' tl.
Proof.
  intros Hm Hh Hx. pose proof (zlen_nonneg x). pose proof (zlen_nonneg tl).
  assert (Hrl : zlen (message_bytes x ++ tl) = 4 + zlen x + zlen tl)
    by (unfold message_bytes; rewrite !zlen_app, zlen_store32; lia).
  unfold ReadMessage. rewrite Hm.
  destruct (FillAtLeast_spec 4 _ _ _ _ _ Hh) as (e1 & h2a & acca & offa & -> & A1 & _); [lia|].
  destruct A1 as (-> & A1 & csa & Hha); [lia|]. cbn [andb].
  rewrite (holds_load _ _ _ _ _ (zlen x) Hha) by
    (unfold kMaxMapMessage in *; try lia; unfold message_bytes; rewrite <- app_assoc; by apply ztake_app).
  rewrite Z.gtb_ltb. destruct (Z.ltb_spec kMaxMapMessage (zlen x)); [lia|].
  destruct (FillAtLeast_spec (4 + zlen x) _ _ _ _ _ Hha) as (e2 & h2b & accb & offb & -> & B1 & _); [lia|].
  destruct B1 as (_ & B1 & csb & Hhb); [lia|]. destruct (Z.ltb_spec (zlen accb - offb) (4 + zlen x)); [lia|].
  destruct (holds_slice _ _ _ _ _ (4 + zlen x) Hhb ltac:(lia)) as (S1 & S2 & _).
  pose proof Hhb as (Hdb & Hoffb & _).
  assert (Hmb : zlen (message_bytes x) = 4 + zlen x) by (unfold message_bytes; by rewrite zlen_app).
  rewrite ztake_app in S1 by lia. rewrite zdrop_app in S2 by lia.
  assert (slice (offb + 4) (zlen x) accb = x) as ->.
  { unfold slice in *. rewrite <- zdrop_zdrop by lia.
    rewrite <- (ztake_zdrop (4 + zlen x) (zdrop offb accb)), S1. unfold message_bytes.
    rewrite <- app_assoc, (zdrop_app 4) by done. by apply ztake_app. }
  destruct (Z.eqb_spec (offb + (4 + zlen x)) (zlen accb)) as [E0|].
  - eexists _, h2b, csb. split; [reflexivity|]. split; [done|]. cbn [fAcc fAccOff]. split_and!; try done.
    rewrite <- S2, E0. unfold zdrop, zlen. by rewrite Nat2Z.id, drop_all.
  - eexists _, h2b, csb. split; [reflexivity|]. split; [done|]. cbn [fAcc fAccOff]. split_and!; try done; lia.
Qed.

(** At the end of the stream: fewer than four bytes are taken for a clean end,
    a cut message is an error, and so is a length that is too large. *)
Lemma ReadMessage_end m h2 cs rest :
  fHttp2 m = Some h2 -> holds h2 (fAcc m) (fAccOff m) cs rest -> zlen rest < 4 ->
  exists m', ReadMessage m = Some (inl B_ENTRY_NOT_FOUND, m').
Proof.
  intros Hm Hh Hlt. unfold ReadMessage. rewrite Hm.
  destruct (FillAtLeast_spec 4 _ _ _ _ _ Hh) as (e1 & h2a & acca & offa & -> & _ & A1); [lia|].
  destruct A1 as [-> A1]; [lia|]. destruct (Z.ltb_spec (zlen acca - offa) 4); [|lia]. by eexists.
Qed.

Lemma ReadMessage_cut m h2 cs rest n :
  fHttp2 m = Some h2 -> holds h2 (fAcc m) (fAccOff m) cs rest ->
  4 <= zlen rest -> ztake 4 rest = store32_le n -> 0 <= n < 2 ^ 32 -> zlen rest < 4 + n ->
  exists m', ReadMessage m = Some (inl (if n <=? kMaxMapMessage then B_IO_ERROR else B_BAD_DATA), m').
Proof.
  intros Hm Hh Hr H4 Hn Hc. unfold ReadMessage. rewrite Hm.
  destruct (FillAtLeast_spec 4 _ _ _ _ _ Hh) as (e1 & h2a & acca & offa & -> & A1 & _); [lia|].
  destruct A1 as (-> & A1 & csa & Hha); [lia|]. cbn [andb].
  rewrite (holds_load _ _ _ _ _ n Hha) by done.
  rewrite Z.gtb_ltb, Z.leb_antisym. destruct (Z.ltb_spec kMaxMapMessage n); cbn [negb]; [by eexists|].
  destruct (FillAtLeast_spec (4 + n) _ _ _ _ _ Hha) as (e2 & h2b & accb & offb & -> & _ & B1); [lia|].
  destruct B1 as [_ B1]; [lia|]. destruct (Z.ltb_spec (zlen accb - offb) (4 + n)); [by eexists|lia].
Qed.

(** Reading until something else than a message comes. *)
Fixpoint read_messages (n : nat) (m : map_stream S) : list bytes * option (status + bytes) :=
  match n with
  | O => ([], None)
  | Datatypes.S n =>
      match ReadMessage m with
      | Some (inr x, m) => let '(l, e) := read_messages n m in (x :: l, e)
      | Some (r, _) => ([], Some r)
      | None => ([], None)
      end
  end.

(** C38: De-framing is exact. Let the chunks of the response's body up to the first empty one (which ReadMessage takes for the end of the stream) hold a sequence of messages, each a 4-byte little-endian length of at most 32 MiB followed by that many bytes. Then whatever the sizes of the chunks, repeated ReadMessage calls return those messages in order, each up to its first NUL, and then: B_ENTRY_NOT_FOUND when fewer than four bytes follow, be they none or a part of a length, B_IO_ERROR when a message is cut after its length, B_BAD_DATA when that length is more than 32 MiB. *)
Theorem deframing_exact m h2 cs msgs rest n :
  fHttp2 m = Some h2 -> fAccOff m = zlen (fAcc m) -> feeds h2 cs ->
  concat (before_empty cs) = flat_map message_bytes msgs ++ rest ->
  Forall (fun x => zlen x <= kMaxMapMessage) msgs -> (length msgs < n)%nat ->
  (zlen rest < 4 -> read_messages n m = (map cstr msgs, Some (inl B_ENTRY_NOT_FOUND)))
  /\ (forall len part, rest = store32_le len ++ part -> 0 <= len < 2 ^ 32 -> zlen part < len ->
       read_messages n m = (map cstr msgs, Some (inl (if len <=? 32 * 1024 * 1024 then B_IO_ERROR else B_BAD_DATA)))).
Proof.
  intros Hm Hoff Hf Hc Hmsgs Hn.
  assert (Hh : holds h2 (fAcc m) (fAccOff m) cs (flat_map message_bytes msgs ++ rest)).
  { split; [done|]. split; [pose proof (zlen_nonneg (fAcc m)); lia|]. rewrite Hoff, <- Hc. by rewrite zdrop_all. }
  clear Hoff Hf Hc. revert m h2 cs n Hm Hn Hh.
  induction Hmsgs as [|x msgs Hx _ IH]; intros m h2 cs n Hm Hn Hh; (destruct n as [|n]; [lia|]);
    cbn [length map flat_map read_messages app] in *.
  - split.
    + intros Hlt. by destruct (ReadMessage_end m h2 cs rest Hm Hh Hlt) as (m' & ->).
    + intros len part -> Hl Hp. pose proof (zlen_nonneg part). destruct (ReadMessage_cut m h2 cs _ len Hm Hh) as (m' & ->); try done.
      all: by rewrite ?zlen_app, ?zlen_store32; first [lia|apply ztake_app].
  - rewrite <- app_assoc in Hh.
    destruct (ReadMessage_message m h2 cs x _ Hm Hh Hx) as (m' & h2' & cs' & -> & Hm' & Hh').
    destruct (IH m' h2' cs' n Hm' ltac:(lia) Hh') as [I1 I2]. split.
    + intros Hlt. by rewrite I1.
    + intros len part Hr Hl Hp. by rewrite (I2 len part Hr Hl Hp).
Qed.
End WithLaws.

(** ** Http2Conn as the source of the body *)

Module Http2Source.
Section WithConn.
Context {C : Type} `{RecordConn C}.

(** The frames of the in-flight stream's body still to come, or its end. *)
Definition http2_feeds (h : Http2.http2 C) (cs : list bytes) : Prop :=
  (Http2.fReqEnded h = true /\ cs = [])
  \/ (Http2.fReqEnded h = false /\ exists its rest, Http2.body_items (Http2.fReqStream h) its cs
      /\ Http2.live h (flat_map Http2.item_bytes its ++ rest)).

#[export] Instance http2_source : BodySource (Http2.http2 C) := {
  begin_request method scheme host path contentType body h :=
    Http2.BeginRequest method scheme host path (Some contentType) body h;
  read_body := Http2.ReadBody Http2.kH2MaxFramePayload;
  feeds := http2_feeds }.
End WithConn.

Lemma http2_read {C} `{RecordConnLaws C} (h : Http2.http2 C) cs : http2_feeds h cs ->
  exists h', Http2.ReadBody Http2.kH2MaxFramePayload h = Some (inr (hd [] cs), h') /\ http2_feeds h' (tail cs).
Proof.
  intros [[He ->]|(He & its & rest & Hb & Hl)].
  - exists h. unfold Http2.ReadBody. rewrite He. split; [done|]. by left.
  - destruct (Http2.ReadBody_items its cs h rest Hb He Hl) as (h' & -> & [(L & (A1 & _) & E)|(its' & L & (A1 & A2 & _) & Hb' & _)]);
      exists h'; (split; [done|]).
    + rewrite E. by left.
    + right. split; [done|]. exists its', rest. by rewrite A2.
Qed.

#[export] Instance http2_source_laws {C} `{RecordConnLaws C} : BodySourceLaws (Http2.http2 C).
Proof.
  split; intros h.
  - intros c cs Hf. exact (http2_read h _ Hf).
  - intros Hf. exact (http2_read h _ Hf).
Qed.
End Http2Source.

(** ** A source that is just the list of its chunks *)

Module ListSource.
#[export] Instance list_source : BodySource (list bytes) := {
  begin_request _ _ _ _ _ _ s := (inr 200, s);
  read_body s := match s with [] => Some (inr [], []) | c :: s => Some (inr c, s) end;
  feeds s cs := s = cs }.

#[export] Instance list_source_laws : BodySourceLaws (list bytes).
Proof. split; [intros s c cs ->; by exists cs|intros s ->; by exists []]. Qed.
End ListSource.

Lemma deframing_exact_witness :
  let m := mkMap (S:=list bytes) (Some [[2]; [0; 0; 0; 104]; [105; 0]; [0; 0; 0; 7; 0]]) [] 0 in
  read_messages (H:=ListSource.list_source) 3 m = ([bs "hi"; []], Some (inl B_ENTRY_NOT_FOUND)).
Proof.
  intros m.
  apply (deframing_exact (H:=ListSource.list_source) (H0:=ListSource.list_source_laws) m
    [[2]; [0; 0; 0; 104]; [105; 0]; [0; 0; 0; 7; 0]] [[2]; [0; 0; 0; 104]; [105; 0]; [0; 0; 0; 7; 0]]
    [bs "hi"; []] [7; 0] 3); try reflexivity.
  - repeat constructor; vm_compute; congruence.
  - cbn. lia.
Defined.

(** A DATA frame without payload is taken for the end of the stream. *)
Example empty_chunk_ends_stream :
  let m := mkMap (S:=list bytes) (Some [[]; message_bytes (bs "hi")]) [] 0 in
  fst <$> ReadMessage (H:=ListSource.list_source) m = Some (inl B_ENTRY_NOT_FOUND).
Proof. vm_compute. done. Qed.

End MapStream.
