(* ===== verification/Json.v ===== *)
(** * Json: the JSON parser of the control channel (src/backend/tailscale/TSJson.cpp)

    A Cursor is the list of the bytes between [p] and [end].  The three mutually
    recursive parsers share one fuel, which [Parse] sets to twice the length of
    the text plus two: an array's element parser passes to the value parser
    without consuming a byte, every other call follows a consumed byte
    (Theorem parse_fuel_enough).  A number is the binary64 value strtod gives:
    the digits as a rational, rounded to nearest even. *)

From S2P Require Import Prelude CLib.
Open Scope Z_scope.
Open Scope soto_scope.

Module Json.

(** ** Doubles

    A finite double is [m * 2 ^ e]. *)

Inductive double := Finite (m e : Z) | Inf (neg : bool).

(** [n / d] rounded to nearest, ties to even. *)
Definition div_even (n d : Z) : Z :=
  let q := n / d in
  let r := n mod d in
  if 2 * r <? d then q else if d <? 2 * r then q + 1 else if Z.even q then q else q + 1.

(** [n / d / 2 ^ k] as numerator and denominator. *)
Definition scaled (n d k : Z) : Z * Z := if k <? 0 then (n * 2 ^ (- k), d) else (n, d * 2 ^ k).

(** The binary64 value nearest to the positive rational [n / d]. *)
Definition nearest (neg : bool) (n d : Z) : double :=
  if n =? 0 then Finite 0 0
  else
    let e0 := Z.log2 n - Z.log2 d in
    let '(a, b) := scaled n d (e0 - 52) in
    let k := Z.max (if a / b <? 2 ^ 52 then e0 - 53 else e0 - 52) (-1074) in
    let '(a, b) := scaled n d k in
    let q := div_even a b in
    if (0 <=? k) && (2 ^ 1024 <=? q * 2 ^ k) then Inf neg else Finite (if neg then - q else q) k.

(** strtod: sign, digits, an optional fraction, an optional exponent. *)
Definition strtod (t : bytes) : double :=
  let '(neg, t) := read_sign t in
  let '(m, ni, t) := read_digits t 0 0 in
  let '(m, nf, t) := match t with
                     | 46 :: t' => let '(m', n', t'') := read_digits t' m 0 in
                                   if (ni + n' =? 0)%nat then (m, 0%nat, t) else (m', n', t'')
                     | _ => (m, 0%nat, t)
                     end in
  if (ni + nf =? 0)%nat then Finite 0 0
  else
    let x := match t with
             | c :: t' =>
                 if (c =? 101) || (c =? 69) then
                   let '(eneg, t') := read_sign t' in
                   let '(x, _, _) := read_digits t' 0 0 in if eneg then - x else x
                 else 0
             | [] => 0
             end - Z.of_nat nf in
    if x <? 0 then nearest neg m (10 ^ (- x)) else nearest neg (m * 10 ^ x) 1.

(** Conversions to integers truncate; out of range C++ leaves them undefined,
    the x86-64 instruction gives the least integer. *)
Definition truncate (d : double) : option Z :=
  match d with
  | Finite m e => Some (if e <? 0 then Z.quot m (2 ^ (- e)) else m * 2 ^ e)
  | Inf _ => None
  end.

Definition to_int (w : Z) (d : double) : Z :=
  match truncate d with
  | Some z => if (- 2 ^ (w - 1) <=? z) && (z <? 2 ^ (w - 1)) then z else - 2 ^ (w - 1)
  | None => - 2 ^ (w - 1)
  end.

(** ** Values *)

Unset Elimination Schemes.
Inductive JsonValue :=
| JSON_NULL
| JSON_BOOL (b : bool)
| JSON_NUMBER (n : double)
| JSON_STRING (s : bytes)
| JSON_ARRAY (l : list JsonValue)
| JSON_OBJECT (l : list (bytes * JsonValue)).
Set Elimination Schemes.

(** BString's == compares C strings. *)
Definition str_eq (a b : bytes) : bool := beq (cstr a) (cstr b).

Fixpoint assoc (key : bytes) (l : list (bytes * JsonValue)) : option JsonValue :=
  match l with
  | [] => None
  | (k, v) :: l => if str_eq k key then Some v else assoc key l
  end.

Definition Find (key : bytes) (v : JsonValue) : option JsonValue :=
  match v with JSON_OBJECT l => assoc key l | _ => None end.

Definition AsString (fallback : bytes) (v : JsonValue) : bytes :=
  match v with JSON_STRING s => s | _ => fallback end.
Definition AsBool (fallback : bool) (v : JsonValue) : bool :=
  match v with JSON_BOOL b => b | _ => fallback end.
Definition AsNumber (fallback : double) (v : JsonValue) : double :=
  match v with JSON_NUMBER n => n | _ => fallback end.

(** ** The parser *)

Definition is_ws (c : Z) : bool := (c =? 32) || (c =? 9) || (c =? 10) || (c =? 13).
Definition skip_ws (c : bytes) : bytes := drop_while is_ws c.

Definition append_utf8 (s : bytes) (cp : Z) : bytes :=
  if cp <? 0x80 then s ++ [u8 cp]
  else if cp <? 0x800 then s ++ [u8 (0xc0 .| (cp ≫ 6)); u8 (0x80 .| (cp .& 0x3f))]
  else s ++ [u8 (0xe0 .| (cp ≫ 12)); u8 (0x80 .| ((cp ≫ 6) .& 0x3f)); u8 (0x80 .| (cp .& 0x3f))].

Definition hex_digit (ch : Z) : option Z :=
  if (48 <=? ch) && (ch <=? 57) then Some (ch - 48)
  else if (97 <=? ch) && (ch <=? 102) then Some (ch - 97 + 10)
  else if (65 <=? ch) && (ch <=? 70) then Some (ch - 65 + 10)
  else None.

Fixpoint hex_digits (l : bytes) (v : Z) : option Z :=
  match l with
  | [] => Some v
  | ch :: l => match hex_digit ch with None => None | Some d => hex_digits l ((v ≪ 4) .| d) end
  end.

(** The four characters at [p]; -1 is [None]. *)
Definition hex4 (p : bytes) : option Z := hex_digits (ztake 4 p) 0.

(** The [\u] case: the text so far with the code point, and the cursor. *)
Definition unicode_escape (c out : bytes) : option (bytes * bytes) :=
  if zlen c <? 4 then None
  else
    match hex4 c with
    | None => None
    | Some cp =>
        let c := zdrop 4 c in
        let pair :=
          if (0xd800 <=? cp) && (cp <=? 0xdbff) && (6 <=? zlen c) && (at_ c 0 =? 92) && (at_ c 1 =? 117) then
            match hex4 (zdrop 2 c) with
            | Some lo => if (0xdc00 <=? lo) && (lo <=? 0xdfff) then Some lo else None
            | None => None
            end
          else None in
        match pair with
        | Some lo =>
            let full := u32 (0x10000 + ((cp - 0xd800) ≪ 10) + (lo - 0xdc00)) in
            let out :=
              if full <? 0x80 then out ++ [u8 full]
              else if full <? 0x800 then out ++ [u8 (0xc0 .| (full ≫ 6)); u8 (0x80 .| (full .& 0x3f))]
              else if full <? 0x10000 then append_utf8 out full
              else out ++ [u8 (0xf0 .| (full ≫ 18)); u8 (0x80 .| ((full ≫ 12) .& 0x3f));
                           u8 (0x80 .| ((full ≫ 6) .& 0x3f)); u8 (0x80 .| (full .& 0x3f))] in
            Some (out, zdrop 6 c)
        | None => Some (append_utf8 out cp, c)
        end
    end.

Definition simple_escape (esc : Z) : option Z :=
  if esc =? 34 then Some 34 else if esc =? 92 then Some 92 else if esc =? 47 then Some 47
  else if esc =? 98 then Some 8 else if esc =? 102 then Some 12 else if esc =? 110 then Some 10
  else if esc =? 114 then Some 13 else if esc =? 116 then Some 9 else None.

(** The cursor after the character [k], if it is there. *)
Definition expect (k : Z) (c : bytes) : option bytes :=
  match c with
  | ch :: c => if ch =? k then Some c else None
  | [] => None
  end.

(** The characters after the opening quote. *)
Fixpoint string_chars (fuel : nat) (c out : bytes) : option (bytes * bytes) :=
  match fuel, c with
  | O, _ | _, [] => None
  | S fuel, ch :: c =>
      if ch =? 34 then Some (out, c)
      else if ch =? 92 then
        match c with
        | [] => None
        | esc :: c =>
            if esc =? 117 then
              match unicode_escape c out with
              | None => None
              | Some (out, c) => string_chars fuel c out
              end
            else match simple_escape esc with
                 | None => None
                 | Some d => string_chars fuel c (out ++ [d])
                 end
        end
      else string_chars fuel c (out ++ [ch])
  end.

Definition parse_string (c : bytes) : option (bytes * bytes) :=
  match expect 34 c with
  | Some c => string_chars (length c) c []
  | None => None
  end.

Definition is_num (ch : Z) : bool :=
  isdigit ch || (ch =? 45) || (ch =? 43) || (ch =? 46) || (ch =? 101) || (ch =? 69).

Fixpoint take_while (p : Z -> bool) (l : bytes) : bytes :=
  match l with
  | [] => []
  | c :: l => if p c then c :: take_while p l else []
  end.

Definition parse_number (c : bytes) : option (JsonValue * bytes) :=
  match take_while is_num c with
  | [] => None
  | tmp => Some (JSON_NUMBER (strtod tmp), drop_while is_num c)
  end.

Fixpoint parse_value (fuel : nat) (c : bytes) {struct fuel} : option (JsonValue * bytes) :=
  match fuel with
  | O => None
  | S fuel =>
      match skip_ws c with
      | [] => None
      | ch :: c' =>
          if ch =? 123 then
            match expect 125 (skip_ws c') with
            | Some c => Some (JSON_OBJECT [], c)
            | None => (fun r => (JSON_OBJECT (fst r), snd r)) <$> parse_members fuel c' []
            end
          else if ch =? 91 then
            match expect 93 (skip_ws c') with
            | Some c => Some (JSON_ARRAY [], c)
            | None => (fun r => (JSON_ARRAY (fst r), snd r)) <$> parse_elements fuel c' []
            end
          else if ch =? 34 then (fun r => (JSON_STRING (fst r), snd r)) <$> parse_string (ch :: c')
          else if ch =? 116 then
            if is_prefix (bs "true") (ch :: c') then Some (JSON_BOOL true, zdrop 4 (ch :: c')) else None
          else if ch =? 102 then
            if is_prefix (bs "false") (ch :: c') then Some (JSON_BOOL false, zdrop 5 (ch :: c')) else None
          else if ch =? 110 then
            if is_prefix (bs "null") (ch :: c') then Some (JSON_NULL, zdrop 4 (ch :: c')) else None
          else parse_number (ch :: c')
      end
  end

(** The loop of parse_object: the members so far, the first of a key kept. *)
with parse_members (fuel : nat) (c : bytes) (acc : list (bytes * JsonValue)) {struct fuel}
    : option (list (bytes * JsonValue) * bytes) :=
  match fuel with
  | O => None
  | S fuel =>
      match parse_string (skip_ws c) with
      | None => None
      | Some (key, c) =>
          match expect 58 (skip_ws c) with
          | None => None
          | Some c =>
              match parse_value fuel (skip_ws c) with
              | None => None
              | Some (val, c) =>
                  let dup := existsb (fun m => str_eq (fst m) key) acc in
                  let acc := if dup then acc else acc ++ [(key, val)] in
                  match expect 44 (skip_ws c) with
                  | Some c => parse_members fuel c acc
                  | None => (fun c => (acc, c)) <$> expect 125 (skip_ws c)
                  end
              end
          end
      end
  end

with parse_elements (fuel : nat) (c : bytes) (acc : list JsonValue) {struct fuel}
    : option (list JsonValue * bytes) :=
  match fuel with
  | O => None
  | S fuel =>
      match parse_value fuel (skip_ws c) with
      | None => None
      | Some (val, c) =>
          match expect 44 (skip_ws c) with
          | Some c => parse_elements fuel c (acc ++ [val])
          | None => (fun c => (acc ++ [val], c)) <$> expect 93 (skip_ws c)
          end
      end
  end.

(** Trailing bytes are tolerated. *)
Definition Parse (text : bytes) : option JsonValue := fst <$> parse_value (2 * length text + 2) text.

Example parse_example :
  Parse (bs "{ 'ID':12,'a':[true,-1.5e1, null], 'ID':3 } x" ≫= fun c => if c =? 39 then [34] else [c])
  = Some (JSON_OBJECT [(bs "ID", JSON_NUMBER (strtod (bs "12")));
                       (bs "a", JSON_ARRAY [JSON_BOOL true; JSON_NUMBER (strtod (bs "-15")); JSON_NULL])]).
Proof. vm_compute. done. Qed.

(** NodeIDs are 64-bit integers read through a double: beyond 2^53 they change. *)
Example large_id_rounded : to_int 64 (strtod (bs "9007199254740993")) = 9007199254740992.
Proof. vm_compute. done. Qed.

(** ** Termination

    Every parser leaves a shorter text, so twice the length is fuel enough. *)

Lemma drop_while_length p l : (length (drop_while p l) <= length l)%nat.
Proof. induction l as [|c l IH]; cbn; [lia|]. destruct (p c); cbn; lia. Qed.

Lemma skip_ws_length c : (length (skip_ws c) <= length c)%nat.
Proof. apply drop_while_length. Qed.

Lemma unicode_escape_length c out out' c' :
  unicode_escape c out = Some (out', c') -> (length c' <= length c)%nat.
Proof.
  unfold unicode_escape. destruct (_ <? _); [done|]. destruct (hex4 c) as [cp|]; [|done].
  match goal with |- context [match ?p with Some lo => _ | None => _ end] => destruct p end;
    intros [= <- <-]; unfold zdrop; rewrite ?length_drop; lia.
Qed.

Lemma string_chars_length fuel c out s c' :
  string_chars fuel c out = Some (s, c') -> (length c' < length c)%nat.
Proof.
  revert c out. induction fuel as [|fuel IH]; intros [|ch c] out; cbn [string_chars length]; try done.
  destruct (ch =? 34); [intros [= <- <-]; lia|]. destruct (ch =? 92); [|intros H%IH; lia].
  destruct c as [|esc c]; [done|]. cbn [length]. destruct (esc =? 117).
  - destruct (unicode_escape c out) as [[o d]|] eqn:E; [|done]. apply unicode_escape_length in E.
    intros H%IH. lia.
  - destruct (simple_escape esc); [|done]. intros H%IH. lia.
Qed.

Lemma expect_length k c c' : expect k c = Some c' -> (length c' < length c)%nat.
Proof. destruct c as [|ch c]; cbn; [done|]. destruct (ch =? k); [|done]. intros [= <-]. lia. Qed.

Lemma parse_string_length c s c' : parse_string c = Some (s, c') -> (length c' + 2 <= length c)%nat.
Proof.
  unfold parse_string. destruct (expect 34 c) as [d|] eqn:E; [|done]. apply expect_length in E.
  intros H%string_chars_length. lia.
Qed.

Lemma parse_number_length c v c' : parse_number c = Some (v, c') -> (length c' < length c)%nat.
Proof.
  unfold parse_number. destruct c as [|ch c]; [done|]. cbn [take_while drop_while].
  destruct (is_num ch); [|done]. intros [= <- <-]. pose proof (drop_while_length is_num c). cbn. lia.
Qed.

(** Parsed forms are shorter: the facts of the sub-parsers, combined. *)
Ltac shorter :=
  repeat match goal with
  | H : parse_string _ = Some _ |- _ => apply parse_string_length in H
  | H : parse_number _ = Some _ |- _ => apply parse_number_length in H
  | H : expect _ (skip_ws ?c) = Some _ |- _ => apply expect_length in H; pose proof (skip_ws_length c)
  end; cbn [length] in *; lia.

Lemma parse_shorter fuel :
  (forall c v c', parse_value fuel c = Some (v, c') -> (length c' < length c)%nat)
  /\ (forall c acc l c', parse_members fuel c acc = Some (l, c') -> (length c' < length c)%nat)
  /\ (forall c acc l c', parse_elements fuel c acc = Some (l, c') -> (length c' < length c)%nat).
Proof.
  induction fuel as [|fuel (IHv & IHm & IHe)]; [done|]. split_and!.
  - intros c v c'. cbn [parse_value]. pose proof (skip_ws_length c) as Hw. destruct (skip_ws c) as [|ch d]; [done|].
    destruct (ch =? 123).
    { destruct (expect 125 _) eqn:E; [intros [= <- <-]; shorter|].
      destruct (parse_members fuel d []) as [[l c2]|] eqn:Em; [|done]. apply IHm in Em. intros [= <- <-]. shorter. }
    destruct (ch =? 91).
    { destruct (expect 93 _) eqn:E; [intros [= <- <-]; shorter|].
      destruct (parse_elements fuel d []) as [[l c2]|] eqn:Em; [|done]. apply IHe in Em. intros [= <- <-]. shorter. }
    destruct (ch =? 34).
    { destruct (parse_string (ch :: d)) as [[s c2]|] eqn:E; [|done]. intros [= <- <-]. shorter. }
    assert (Hkw : forall n, 0 < n -> (length (zdrop n (ch :: d)) < length c)%nat).
    { intros n Hn. unfold zdrop. rewrite length_drop. cbn in *. lia. }
    destruct (ch =? 116); [case_match; [|done]; intros [= <- <-]; by apply Hkw|].
    destruct (ch =? 102); [case_match; [|done]; intros [= <- <-]; by apply Hkw|].
    destruct (ch =? 110); [case_match; [|done]; intros [= <- <-]; by apply Hkw|].
    intros E. shorter.
  - intros c acc l c'. cbn [parse_members]. pose proof (skip_ws_length c).
    destruct (parse_string (skip_ws c)) as [[key c1]|] eqn:Ek; [|done].
    destruct (expect 58 _) as [c2|] eqn:E; [|done]. pose proof (skip_ws_length c2).
    destruct (parse_value fuel (skip_ws c2)) as [[val c3]|] eqn:Ev; [|done]. apply IHv in Ev.
    destruct (expect 44 _) as [c4|] eqn:E4; [intros Hm%IHm; shorter|].
    destruct (expect 125 _) as [c4|] eqn:E5; [intros [= <- <-]; shorter|done].
  - intros c acc l c'. cbn [parse_elements]. pose proof (skip_ws_length c).
    destruct (parse_value fuel (skip_ws c)) as [[val c3]|] eqn:Ev; [|done]. apply IHv in Ev.
    destruct (expect 44 _) as [c4|] eqn:E4; [intros Hm%IHe; shorter|].
    destruct (expect 93 _) as [c4|] eqn:E5; [intros [= <- <-]; shorter|done].
Qed.

(** With enough fuel the amount does not matter. *)
Lemma parse_fuel f1 :
  (forall f2 c, (2 * length c + 2 <= f1)%nat -> (2 * length c + 2 <= f2)%nat -> parse_value f1 c = parse_value f2 c)
  /\ (forall f2 c acc, (2 * length c + 3 <= f1)%nat -> (2 * length c + 3 <= f2)%nat ->
      parse_members f1 c acc = parse_members f2 c acc)
  /\ (forall f2 c acc, (2 * length c + 3 <= f1)%nat -> (2 * length c + 3 <= f2)%nat ->
      parse_elements f1 c acc = parse_elements f2 c acc).
Proof.
  induction f1 as [|f1 (IHv & IHm & IHe)]; [split_and!; intros; lia|].
  split_and!; intros [|f2] c; intros; [lia| |lia| |lia|].
  - cbn [parse_value]. pose proof (skip_ws_length c). destruct (skip_ws c) as [|ch d]; [done|]. cbn in *.
    rewrite (IHm f2 d) by lia. by rewrite (IHe f2 d) by lia.
  - cbn [parse_members]. pose proof (skip_ws_length c).
    destruct (parse_string (skip_ws c)) as [[key c1]|] eqn:Ek; [|done]. apply parse_string_length in Ek.
    destruct (expect 58 _) as [c2|] eqn:E; [|done]. pose proof (skip_ws_length c2).
    apply expect_length in E. pose proof (skip_ws_length c1). rewrite (IHv f2 (skip_ws c2)) by lia.
    destruct (parse_value f2 (skip_ws c2)) as [[val c3]|] eqn:Ev; [|done]. apply parse_shorter in Ev.
    destruct (expect 44 _) as [c4|] eqn:E4; [|done]. apply expect_length in E4. pose proof (skip_ws_length c3).
    by rewrite (IHm f2 c4) by lia.
  - cbn [parse_elements]. pose proof (skip_ws_length c). rewrite (IHv f2 (skip_ws c)) by lia.
    destruct (parse_value f2 (skip_ws c)) as [[val c3]|] eqn:Ev; [|done]. apply parse_shorter in Ev.
    destruct (expect 44 _) as [c4|] eqn:E4; [|done]. apply expect_length in E4. pose proof (skip_ws_length c3).
    by rewrite (IHe f2 c4) by lia.
Qed.

(** The parser terminates: on any text, however deeply nested or malformed, the fuel Parse uses is enough. Whatever larger amount of fuel the recursion is given, the result is the one Parse reports; when a value is found, the cursor moved forward within the text. *)
Theorem parse_fuel_enough text fuel :
  (2 * length text + 2 <= fuel)%nat ->
  fst <$> parse_value fuel text = Parse text
  /\ (forall v rest, parse_value fuel text = Some (v, rest) -> (length rest < length text)%nat).
Proof.
  intros Hf. split.
  - unfold Parse. by rewrite (proj1 (parse_fuel fuel) (2 * length text + 2)%nat text) by lia.
  - intros v rest. apply parse_shorter.
Qed.

Lemma parse_fuel_enough_witness :
  (2 * length (bs "[[1]") + 2 <= 100)%nat /\ fst <$> parse_value 100 (bs "[[1]") = None.
Proof.
  split; [cbn; lia|]. rewrite (proj1 (parse_fuel_enough (bs "[[1]") 100 ltac:(cbn; lia))). vm_compute. reflexivity.
Defined.

(** ** RFC 8259 texts and the values they denote *)

(** UTF-8, as RFC 3629 lists it. *)
Definition utf8 (cp : Z) : bytes :=
  if cp <? 128 then [cp]
  else if cp <? 2048 then [192 + cp / 64; 128 + cp mod 64]
  else if cp <? 65536 then [224 + cp / 4096; 128 + cp / 64 mod 64; 128 + cp mod 64]
  else [240 + cp / 262144; 128 + cp / 4096 mod 64; 128 + cp / 64 mod 64; 128 + cp mod 64].

Definition surrogate (cp : Z) : bool := (0xd800 <=? cp) && (cp <=? 0xdfff).

(** The characters of a string literal and the text they spell. *)
Inductive chars : bytes -> bytes -> Prop :=
| chars_nil : chars [] []
| chars_raw c t s : c <> 34 -> c <> 92 -> chars t s -> chars (c :: t) (c :: s)
| chars_simple e d t s : simple_escape e = Some d -> chars t s -> chars (92 :: e :: t) (d :: s)
| chars_bmp h cp t s : zlen h = 4 -> hex4 h = Some cp -> surrogate cp = false -> chars t s ->
    chars (92 :: 117 :: h ++ t) (utf8 cp ++ s)
| chars_pair h hi l lo t s : zlen h = 4 -> hex4 h = Some hi -> 0xd800 <= hi <= 0xdbff ->
    zlen l = 4 -> hex4 l = Some lo -> 0xdc00 <= lo <= 0xdfff -> chars t s ->
    chars (92 :: 117 :: h ++ 92 :: 117 :: l ++ t) (utf8 (0x10000 + (hi - 0xd800) * 0x400 + (lo - 0xdc00)) ++ s).

Definition ws (w : bytes) : Prop := Forall (fun c => is_ws c = true) w.

(** Of several members with one key the first counts. *)
Definition add_member (acc : list (bytes * JsonValue)) (m : bytes * JsonValue) : list (bytes * JsonValue) :=
  if existsb (fun m' => str_eq (fst m') (fst m)) acc then acc else acc ++ [m].
Definition add_members (acc l : list (bytes * JsonValue)) : list (bytes * JsonValue) := fold_left add_member l acc.

(** [denotes t v]: the text [t] is a JSON text of the value [v]. *)
Inductive denotes : bytes -> JsonValue -> Prop :=
| den_null : denotes (bs "null") JSON_NULL
| den_true : denotes (bs "true") (JSON_BOOL true)
| den_false : denotes (bs "false") (JSON_BOOL false)
| den_number t : t <> [] -> Forall (fun c => is_num c = true) t -> denotes t (JSON_NUMBER (strtod t))
| den_string t s : chars t s -> denotes (34 :: t ++ [34]) (JSON_STRING s)
| den_no_elements w : ws w -> denotes (91 :: w ++ [93]) (JSON_ARRAY [])
| den_array t l : denotes_elements t l -> denotes (91 :: t ++ [93]) (JSON_ARRAY l)
| den_no_members w : ws w -> denotes (123 :: w ++ [125]) (JSON_OBJECT [])
| den_object t l : denotes_members t l -> denotes (123 :: t ++ [125]) (JSON_OBJECT (add_members [] l))
with denotes_elements : bytes -> list JsonValue -> Prop :=
| den_last_element w1 t w2 v : ws w1 -> denotes t v -> ws w2 -> denotes_elements (w1 ++ t ++ w2) [v]
| den_element w1 t w2 v u l : ws w1 -> denotes t v -> ws w2 -> denotes_elements u l ->
    denotes_elements (w1 ++ t ++ w2 ++ 44 :: u) (v :: l)
with denotes_members : bytes -> list (bytes * JsonValue) -> Prop :=
| den_last_member w1 k key w2 w3 t w4 v : ws w1 -> chars k key -> ws w2 -> ws w3 -> denotes t v -> ws w4 ->
    denotes_members (w1 ++ (34 :: k ++ [34]) ++ w2 ++ 58 :: w3 ++ t ++ w4) [(key, v)]
| den_member w1 k key w2 w3 t w4 v u l : ws w1 -> chars k key -> ws w2 -> ws w3 -> denotes t v -> ws w4 ->
    denotes_members u l ->
    denotes_members (w1 ++ (34 :: k ++ [34]) ++ w2 ++ 58 :: w3 ++ t ++ w4 ++ 44 :: u) ((key, v) :: l).

Scheme denotes_mind := Induction for denotes Sort Prop
with denotes_elements_mind := Induction for denotes_elements Sort Prop
with denotes_members_mind := Induction for denotes_members Sort Prop.
Combined Scheme denotes_all from denotes_mind, denotes_elements_mind, denotes_members_mind.

(** *** Characters *)

Lemma low_bits x : x .& 0x3f = x mod 64.
Proof. change 63 with (2 ^ 6 - 1). by rewrite land_ones_mod. Qed.

Lemma lead k x : 0 <= x < 2 ^ k -> 0 <= k -> forall c, (c * 2 ^ k) .| x = c * 2 ^ k + x.
Proof. intros. rewrite <- Z.shiftl_mul_pow2 by lia. rewrite lor_shiftl_add_l by lia. by rewrite Z.shiftl_mul_pow2 by lia. Qed.

Lemma cont x : u8 (0x80 .| (x .& 0x3f)) = 128 + x mod 64.
Proof.
  rewrite low_bits. pose proof (Z.mod_pos_bound x 64).
  rewrite (lead 6 (x mod 64) ltac:(lia) ltac:(lia) 2 : 0x80 .| _ = _). apply u8_small. unfold is_byte. lia.
Qed.

Lemma append_utf8_spec s cp : 0 <= cp < 65536 -> append_utf8 s cp = s ++ utf8 cp.
Proof.
  intros Hc. unfold append_utf8, utf8. destruct (Z.ltb_spec cp 128).
  { rewrite u8_small; [done|unfold is_byte; lia]. }
  rewrite !cont, !Z.shiftr_div_pow2 by lia. destruct (Z.ltb_spec cp 2048).
  - change (2 ^ 6) with 64. assert (0 <= cp / 64 < 32) by (Z.div_mod_to_equations; lia).
    rewrite (lead 5 (cp / 64) ltac:(lia) ltac:(lia) 6 : 0xc0 .| _ = _). rewrite u8_small; [done|unfold is_byte; lia].
  - destruct (Z.ltb_spec cp 65536); [|lia]. change (2 ^ 12) with 4096. change (2 ^ 6) with 64.
    assert (0 <= cp / 4096 < 16) by (Z.div_mod_to_equations; lia).
    rewrite (lead 4 (cp / 4096) ltac:(lia) ltac:(lia) 14 : 0xe0 .| _ = _). rewrite u8_small; [done|unfold is_byte; lia].
Qed.

Lemma hex_digits_range l v r : hex_digits l v = Some r -> 0 <= v -> 0 <= r < (v + 1) * 16 ^ zlen l.
Proof.
  revert v. induction l as [|ch l IH]; intros v; cbn [hex_digits].
  { intros [= <-] Hv. change (zlen []) with 0. lia. }
  destruct (hex_digit ch) as [d|] eqn:E; [|done]. intros H Hv.
  assert (Hd : 0 <= d < 16) by (unfold hex_digit in E; repeat case_match; simplify_eq; lia).
  rewrite (lor_shiftl_add_l d v 4) in H by lia. apply IH in H; [|lia].
  rewrite zlen_cons, Z.pow_add_r by (pose proof (zlen_nonneg l); lia). nia.
Qed.

Lemma hex4_range h cp : zlen h = 4 -> hex4 h = Some cp -> 0 <= cp < 65536.
Proof.
  intros Hl H. unfold hex4 in H. rewrite ztake_all in H by done. apply hex_digits_range in H; [|lia].
  by rewrite Hl in H.
Qed.

Lemma hex4_app h t : zlen h = 4 -> hex4 (h ++ t) = hex4 h.
Proof. intros H. unfold hex4. by rewrite ztake_app, ztake_all. Qed.

Lemma unicode_escape_bmp h cp c out :
  zlen h = 4 -> hex4 h = Some cp -> surrogate cp = false -> unicode_escape (h ++ c) out = Some (out ++ utf8 cp, c).
Proof.
  intros Hl Hh Hs. unfold unicode_escape. rewrite zlen_app. pose proof (zlen_nonneg c).
  destruct (Z.ltb_spec (zlen h + zlen c) 4); [lia|]. rewrite hex4_app, Hh by done.
  rewrite zdrop_app by done. unfold surrogate in Hs.
  assert ((0xd800 <=? cp) && (cp <=? 0xdbff) = false) as -> by lia. cbn [andb].
  by rewrite append_utf8_spec by (by eapply hex4_range).
Qed.

Lemma unicode_escape_pair h hi l lo c out :
  zlen h = 4 -> hex4 h = Some hi -> 0xd800 <= hi <= 0xdbff ->
  zlen l = 4 -> hex4 l = Some lo -> 0xdc00 <= lo <= 0xdfff ->
  unicode_escape (h ++ 92 :: 117 :: l ++ c) out
  = Some (out ++ utf8 (0x10000 + (hi - 0xd800) * 0x400 + (lo - 0xdc00)), c).
Proof.
  intros Hl Hh Hhi Hl2 Hlo Hlo2. unfold unicode_escape. rewrite zlen_app, !zlen_cons, zlen_app.
  pose proof (zlen_nonneg c). destruct (Z.ltb_spec (zlen h + (zlen l + zlen c + 1 + 1)) 4); [lia|].
  rewrite hex4_app, Hh by done. rewrite zdrop_app by done. rewrite !zlen_cons, zlen_app.
  change (at_ (92 :: 117 :: l ++ c) 0) with 92. change (at_ (92 :: 117 :: l ++ c) 1) with 117.
  assert ((0xd800 <=? hi) && (hi <=? 0xdbff) && (6 <=? zlen l + zlen c + 1 + 1) && (92 =? 92) && (117 =? 117) = true) as -> by lia.
  change (zdrop 2 (92 :: 117 :: l ++ c)) with (l ++ c). rewrite hex4_app, Hlo by done.
  assert ((0xdc00 <=? lo) && (lo <=? 0xdfff) = true) as -> by lia.
  rewrite Z.shiftl_mul_pow2 by lia. change (2 ^ 10) with 1024.
  set (full := 65536 + (hi - 55296) * 1024 + (lo - 56320)).
  assert (Hf : 65536 <= full < 1114112) by lia. rewrite (u32_small full) by lia.
  destruct (Z.ltb_spec full 128); [lia|]. destruct (Z.ltb_spec full 2048); [lia|].
  destruct (Z.ltb_spec full 65536); [lia|]. do 2 f_equal.
  - rewrite !cont, !Z.shiftr_div_pow2 by lia. unfold utf8.
    destruct (Z.ltb_spec full 128); [lia|]. destruct (Z.ltb_spec full 2048); [lia|].
    destruct (Z.ltb_spec full 65536); [lia|]. change (2 ^ 18) with 262144. change (2 ^ 12) with 4096.
    change (2 ^ 6) with 64. assert (0 <= full / 262144 < 8) by (Z.div_mod_to_equations; lia).
    rewrite (lead 3 (full / 262144) ltac:(lia) ltac:(lia) 30 : 0xf0 .| _ = _). rewrite u8_small; [done|unfold is_byte; lia].
  - change (zdrop 6 (92 :: 117 :: l ++ c)) with (zdrop 4 (l ++ c)). by apply zdrop_app.
Qed.

Lemma string_chars_spec t s fuel rest out :
  chars t s -> (length (t ++ 34%Z :: rest) <= fuel)%nat ->
  string_chars fuel (t ++ 34 :: rest) out = Some (out ++ s, rest).
Proof.
  intros H. revert fuel out. induction H as [|c t s Hc1 Hc2 H IH|e d t s He H IH|h cp t s Hl Hh Hs H IH
    |h hi l lo t s Hl Hh Hhi Hl2 Hlo Hlo2 H IH]; intros fuel out Hf;
    (destruct fuel as [|fuel]; [cbn in Hf; rewrite ?length_app in Hf; cbn in Hf; lia|]);
    cbn [app string_chars length] in *.
  - by rewrite app_nil_r.
  - destruct (Z.eqb_spec c 34); [done|]. destruct (Z.eqb_spec c 92); [done|]. rewrite IH by lia.
    by rewrite <- app_assoc.
  - cbn [Z.eqb]. assert (e <> 117) by (intros ->; vm_compute in He; done).
    change (92 =? 34) with false. change (92 =? 92) with true. cbv iota. destruct (Z.eqb_spec e 117); [done|].
    rewrite He, IH by lia. by rewrite <- app_assoc.
  - change (92 =? 34) with false. change (92 =? 92) with true. change (117 =? 117) with true. cbv iota.
    rewrite <- app_assoc in *. rewrite (unicode_escape_bmp h cp) by done. rewrite length_app in Hf.
    rewrite IH by lia. by rewrite <- app_assoc.
  - change (92 =? 34) with false. change (92 =? 92) with true. change (117 =? 117) with true. cbv iota.
    rewrite <- app_assoc in *. cbn [app] in *. rewrite <- app_assoc in *.
    rewrite (unicode_escape_pair h hi l lo) by done. rewrite !length_app in Hf. cbn [length] in Hf.
    rewrite length_app in Hf. rewrite IH by lia. by rewrite <- app_assoc.
Qed.

Lemma parse_string_spec t s rest : chars t s -> parse_string ((34 :: t ++ [34]) ++ rest) = Some (s, rest).
Proof.
  intros H. unfold parse_string.
  change (expect 34 ((34 :: t ++ [34]) ++ rest)) with (Some ((t ++ [34]) ++ rest)). cbv iota beta.
  rewrite <- app_assoc. change ([34] ++ rest) with (34 :: rest). by rewrite (string_chars_spec t s).
Qed.

(** *** Values *)

(** Concatenations, associated to the right. *)
Ltac flat := repeat progress (rewrite <- ?app_comm_cons in *; rewrite <- ?app_assoc in *).

(** Fuel enough for a cursor. *)
Definition enough (extra : nat) (c : bytes) (fuel : nat) : Prop := (2 * length c + extra <= fuel)%nat.

Ltac fuel_lia := unfold enough in *; repeat progress (rewrite ?length_app in *; cbn [app length] in *); lia.

Definition stop (rest : bytes) : Prop := match rest with c :: _ => is_num c = false | [] => True end.

Lemma drop_while_all p w x : Forall (fun c => p c = true) w -> drop_while p (w ++ x) = drop_while p x.
Proof. induction 1 as [|c w Hc _ IH]; [done|]. cbn [app drop_while]. by rewrite Hc. Qed.

Lemma take_while_all p w x : Forall (fun c => p c = true) w -> take_while p (w ++ x) = w ++ take_while p x.
Proof. induction 1 as [|c w Hc _ IH]; [done|]. cbn [app take_while]. by rewrite Hc, IH. Qed.

Lemma skip_ws_app w x : ws w -> skip_ws (w ++ x) = skip_ws x.
Proof. apply drop_while_all. Qed.

Lemma skip_ws_head c x : is_ws c = false -> skip_ws (c :: x) = c :: x.
Proof. intros H. unfold skip_ws. cbn [drop_while]. by rewrite H. Qed.

Lemma ws_stop w c x : ws w -> is_num c = false -> stop (w ++ c :: x).
Proof.
  intros [|d w' Hd _] Hc; [done|]. cbn. unfold is_ws, is_num, isdigit in *. lia.
Qed.

Lemma denotes_head t v : denotes t v -> exists c t', t = c :: t' /\ is_ws c = false /\ c <> 93.
Proof.
  intros H. destruct H as [| | |t Hne Hn|? ? ?|? ?|? ? ?|? ?|? ? ?]; try (by do 2 eexists).
  destruct t as [|c t]; [done|]. exists c, t. apply Forall_cons in Hn as [Hc _]. split; [done|].
  unfold is_ws, is_num, isdigit in *. lia.
Qed.

Lemma parse_value_number fuel t rest :
  t <> [] -> Forall (fun c => is_num c = true) t -> stop rest ->
  parse_value (S fuel) (t ++ rest) = Some (JSON_NUMBER (strtod t), rest).
Proof.
  intros Hne Hn Hs. destruct t as [|c t]; [done|]. pose proof Hn as Hn'. apply Forall_cons in Hn as [Hc _].
  assert (is_ws c = false /\ (c =? 123) = false /\ (c =? 91) = false /\ (c =? 34) = false /\ (c =? 116) = false
    /\ (c =? 102) = false /\ (c =? 110) = false) as (E0 & E1 & E2 & E3 & E4 & E5 & E6).
  { unfold is_ws, is_num, isdigit in *. lia. }
  cbn [app parse_value]. rewrite skip_ws_head, E1, E2, E3, E4, E5, E6 by done.
  unfold parse_number. change (c :: t ++ rest) with ((c :: t) ++ rest).
  rewrite take_while_all, drop_while_all by done.
  destruct rest as [|d rest]; cbn [take_while drop_while]; [by rewrite app_nil_r|]. cbn in Hs. rewrite Hs.
  by rewrite app_nil_r.
Qed.

(** The loops on one item: what follows it decides. *)
Lemma parse_elements_item fuel w1 t w2 v c x acc :
  (forall rest, stop rest -> enough 2 (t ++ rest) fuel -> parse_value fuel (t ++ rest) = Some (v, rest)) ->
  ws w1 -> denotes t v -> ws w2 -> c = 44 \/ c = 93 ->
  enough 3 (w1 ++ t ++ w2 ++ c :: x) (S fuel) ->
  parse_elements (S fuel) (w1 ++ t ++ w2 ++ c :: x) acc
  = if c =? 44 then parse_elements fuel x (acc ++ [v]) else Some (acc ++ [v], x).
Proof.
  intros Hv H1 Ht H2 Hc Hf. cbn [parse_elements]. rewrite skip_ws_app by done.
  destruct (denotes_head t v Ht) as (h & t' & -> & Hh & _). cbn [app] in *. rewrite skip_ws_head by done.
  rewrite Hv; [|apply ws_stop; [done|by destruct Hc as [-> | ->]]|fuel_lia].
  rewrite skip_ws_app by done. by destruct Hc as [-> | ->].
Qed.

Lemma parse_members_item fuel w1 k key w2 w3 t w4 v c x acc :
  (forall rest, stop rest -> enough 2 (t ++ rest) fuel -> parse_value fuel (t ++ rest) = Some (v, rest)) ->
  ws w1 -> chars k key -> ws w2 -> ws w3 -> denotes t v -> ws w4 -> c = 44 \/ c = 125 ->
  enough 3 (w1 ++ (34 :: k ++ [34]) ++ w2 ++ 58 :: w3 ++ t ++ w4 ++ c :: x) (S fuel) ->
  parse_members (S fuel) (w1 ++ (34 :: k ++ [34]) ++ w2 ++ 58 :: w3 ++ t ++ w4 ++ c :: x) acc
  = if c =? 44 then parse_members fuel x (add_member acc (key, v)) else Some (add_member acc (key, v), x).
Proof.
  intros Hv H1 Hk H2 H3 Ht H4 Hc Hf. cbn [parse_members]. rewrite skip_ws_app by done.
  rewrite <- app_comm_cons, skip_ws_head by done. rewrite app_comm_cons, (parse_string_spec k key) by done.
  rewrite skip_ws_app, skip_ws_head by done. cbn [expect]. change (58 =? 58) with true. cbv iota.
  rewrite skip_ws_app by done. destruct (denotes_head t v Ht) as (h & t' & -> & Hh & _). cbn [app] in *.
  rewrite skip_ws_head by done.
  rewrite Hv; [|apply ws_stop; [done|by destruct Hc as [-> | ->]]|].
  - rewrite skip_ws_app by done. by destruct Hc as [-> | ->].
  - fuel_lia.
Qed.

Lemma elements_start u l x : denotes_elements u l -> expect 93 (skip_ws (u ++ x)) = None.
Proof.
  intros H. destruct H as [w1 t w2 v H1 Ht _|w1 t w2 v u l H1 Ht _ _];
    destruct (denotes_head t v Ht) as (h & t' & -> & Hh & H93); rewrite <- app_assoc, skip_ws_app by done;
    cbn [app]; rewrite skip_ws_head by done; cbn [expect]; by destruct (Z.eqb_spec h 93).
Qed.

Lemma members_start u l x : denotes_members u l -> expect 125 (skip_ws (u ++ x)) = None.
Proof.
  intros H. by destruct H; rewrite <- app_assoc, skip_ws_app by done.
Qed.

(** A text up to here, in a cursor that goes on with [rest]. *)
Definition parses_value (t : bytes) (v : JsonValue) : Prop := forall fuel rest, stop rest ->
  enough 2 (t ++ rest) fuel -> parse_value fuel (t ++ rest) = Some (v, rest).
Definition parses_elements (u : bytes) (l : list JsonValue) : Prop := forall fuel rest acc,
  enough 3 (u ++ 93 :: rest) fuel -> parse_elements fuel (u ++ 93 :: rest) acc = Some (acc ++ l, rest).
Definition parses_members (u : bytes) (l : list (bytes * JsonValue)) : Prop := forall fuel rest acc,
  enough 3 (u ++ 125 :: rest) fuel ->
  parse_members fuel (u ++ 125 :: rest) acc = Some (add_members acc l, rest).

Lemma parses_container fuel c u rest (b : bool) :
  enough 2 ((c :: u ++ [if b then 93 else 125]) ++ rest) (S fuel) ->
  enough 3 (u ++ (if b then 93 else 125) :: rest) fuel.
Proof. destruct b; intros; fuel_lia. Qed.

Lemma parse_denotes :
  (forall t v, denotes t v -> parses_value t v)
  /\ (forall u l, denotes_elements u l -> parses_elements u l)
  /\ (forall u l, denotes_members u l -> parses_members u l).
Proof.
  apply denotes_all.
  1-9: intros; intros fuel rest Hs Hf; (destruct fuel as [|fuel]; [unfold enough in Hf; lia|]).
  - done.
  - done.
  - done.
  - by apply parse_value_number.
  - cbn [app parse_value]. rewrite skip_ws_head by done. change (34 =? 123) with false.
    change (34 =? 91) with false. change (34 =? 34) with true. cbv iota.
    pose proof (parse_string_spec t s rest c) as E. cbn [app] in E. by rewrite E.
  - cbn [app parse_value]. rewrite skip_ws_head by done. change (91 =? 123) with false. change (91 =? 91) with true.
    cbv iota. rewrite <- app_assoc, skip_ws_app by done. done.
  - apply (parses_container fuel 91 t rest true) in Hf. cbn [app parse_value]. rewrite skip_ws_head by done.
    change (91 =? 123) with false. change (91 =? 91) with true. cbv iota. rewrite <- app_assoc.
    rewrite (elements_start t l) by done. cbn [app]. by rewrite (H fuel rest []) by done.
  - cbn [app parse_value]. rewrite skip_ws_head by done. change (123 =? 123) with true.
    cbv iota. rewrite <- app_assoc, skip_ws_app by done. done.
  - apply (parses_container fuel 123 t rest false) in Hf. cbn [app parse_value]. rewrite skip_ws_head by done.
    change (123 =? 123) with true. cbv iota. rewrite <- app_assoc.
    rewrite (members_start t l) by done. cbn [app]. by rewrite (H fuel rest []) by done.
  - intros w1 t w2 v H1 Ht IHt H2 fuel rest acc Hf. destruct fuel as [|fuel]; [unfold enough in Hf; lia|]. rewrite <- !app_assoc in *.
    rewrite (parse_elements_item fuel w1 t w2 v 93) by (auto; fuel_lia). done.
  - intros w1 t w2 v u l H1 Ht IHt H2 Hu IHu fuel rest acc Hf. destruct fuel as [|fuel]; [unfold enough in Hf; lia|].
    flat.
    rewrite (parse_elements_item fuel w1 t w2 v 44) by (auto; fuel_lia). change (44 =? 44) with true. cbv iota.
    rewrite IHu; [by rewrite <- app_assoc|]. fuel_lia.
  - intros w1 k key w2 w3 t w4 v H1 Hk H2 H3 Ht IHt H4 fuel rest acc Hf. destruct fuel as [|fuel]; [unfold enough in Hf; lia|].
    flat.
    pose proof (parse_members_item fuel w1 k key w2 w3 t w4 v 125 rest acc) as E.
    flat. rewrite E by (auto; fuel_lia). change (125 =? 44) with false. reflexivity.
  - intros w1 k key w2 w3 t w4 v u l H1 Hk H2 H3 Ht IHt H4 Hu IHu fuel rest acc Hf. destruct fuel as [|fuel]; [unfold enough in Hf; lia|].
    flat.
    pose proof (parse_members_item fuel w1 k key w2 w3 t w4 v 44 (u ++ 125 :: rest) acc) as E.
    flat.
    rewrite E by (auto; fuel_lia). change (44 =? 44) with true. cbv iota.
    rewrite IHu; [done|]. fuel_lia.
Qed.

(** Of two members with the same key, Find sees the first. *)
Lemma assoc_add_members key l acc :
  assoc key (add_members acc l) = match assoc key acc with Some v => Some v | None => assoc key l end.
Proof.
  revert acc. induction l as [|[k v] l IH]; intros acc; cbn [add_members fold_left assoc].
  { by destruct (assoc key acc). }
  change (fold_left add_member l ?a) with (add_members a l). rewrite IH. unfold add_member. cbn [fst].
  assert (Happ : assoc key (acc ++ [(k, v)]) = match assoc key acc with
      | Some v => Some v | None => if str_eq k key then Some v else None end).
  { clear. induction acc as [|[k' v'] acc IH]; [done|]. cbn [app assoc]. by destruct (str_eq k' key). }
  assert (Hdup : existsb (fun m' => str_eq (fst m') k) acc = true -> str_eq k key = true -> is_Some (assoc key acc)).
  { clear. intros He Hk. induction acc as [|[k' v'] acc IH]; [done|]. cbn [existsb fst assoc] in *.
    destruct (str_eq k' key) eqn:E; [by eexists|]. destruct (str_eq k' k) eqn:E2; [|auto].
    unfold str_eq in *. apply beq_true in Hk, E2. apply beq_false in E. congruence. }
  destruct (existsb _ acc).
  - destruct (assoc key acc); [done|]. destruct (str_eq k key); [|done]. by destruct Hdup.
  - rewrite Happ. destruct (assoc key acc); [done|]. by destruct (str_eq k key).
Qed.

Lemma Parse_denotes w t v rest : ws w -> denotes t v -> stop rest -> Parse (w ++ t ++ rest) = Some v.
Proof.
  intros Hw Ht Hs. unfold Parse. set (f := (2 * length (w ++ t ++ rest) + 2)%nat).
  assert (E : parse_value f (w ++ t ++ rest) = parse_value f (t ++ rest)).
  { unfold f. rewrite Nat.add_comm. cbn [Nat.add parse_value]. by rewrite skip_ws_app. }
  rewrite E, (proj1 parse_denotes t v Ht f rest Hs); [done|]. unfold f. fuel_lia.
Qed.

(** C39: Every JSON text is parsed to its value. For each text that RFC 8259 derives, with whitespace anywhere, any escapes (surrogate pairs included, decoded to UTF-8) and any nesting, Parse returns the value it denotes, whatever follows the text; of an object's members with the same key, Find returns the first. *)
Theorem Parse_complete w t v rest :
  ws w -> denotes t v -> stop rest ->
  Parse (w ++ t ++ rest) = Some v
  /\ (forall u l key, t = 123 :: u ++ [125] -> denotes_members u l -> v = JSON_OBJECT (add_members [] l) ->
       Find key v = assoc key l).
Proof.
  intros Hw Ht Hs. split; [by apply Parse_denotes|].
  intros u l key _ _ ->. cbn [Find]. by rewrite assoc_add_members.
Qed.

Lemma Parse_complete_witness :
  let t := 123 :: ([32] ++ (34 :: (97 :: 92 :: 117 :: bs "d83d" ++ 92 :: 117 :: bs "de00" ++ []) ++ [34]) ++ [] ++ 58 :: [] ++ bs "1e2" ++ [10]) ++ [125] in
  Parse ([9] ++ t ++ bs " trailing")
  = Some (JSON_OBJECT [([97; 240; 159; 152; 128], JSON_NUMBER (strtod (bs "100")))]).
Proof.
  intros t.
  apply (Parse_complete [9] t (JSON_OBJECT (add_members []
    [([97] ++ utf8 (0x10000 + (0xd83d - 0xd800) * 0x400 + (0xde00 - 0xdc00)) ++ [], JSON_NUMBER (strtod (bs "1e2")))]))
    (bs " trailing")).
  - by repeat constructor.
  - apply den_object. apply den_last_member; try (by repeat constructor).
  - reflexivity.
Defined.

(** ** Integers through doubles *)

Lemma nearest_exact n : 0 <= n < 2 ^ 53 -> truncate (nearest false n 1) = Some n.
Proof.
  intros Hn. unfold nearest. destruct (Z.eqb_spec n 0) as [->|Hn0]; [done|].
  change (Z.log2 1) with 0. rewrite Z.sub_0_r.
  assert (Hl : 0 <= Z.log2 n <= 52) by (split; [apply Z.log2_nonneg|apply Z.lt_succ_r, Z.log2_lt_pow2; lia]).
  pose proof (Z.log2_spec n ltac:(lia)) as [L1 _].
  assert (Hs : scaled n 1 (Z.log2 n - 52) = (n * 2 ^ (52 - Z.log2 n), 1)).
  { unfold scaled. destruct (Z.ltb_spec (Z.log2 n - 52) 0).
    - do 3 f_equal. lia.
    - assert (Z.log2 n = 52) as -> by lia. change (52 - 52) with 0. f_equal; lia. }
  rewrite Hs, Z.div_1_r.
  assert (Hge : 2 ^ 52 <= n * 2 ^ (52 - Z.log2 n)).
  { replace 52 with (Z.log2 n + (52 - Z.log2 n)) at 1 by lia. rewrite Z.pow_add_r by lia.
    apply Z.mul_le_mono_nonneg_r; lia. }
  destruct (Z.ltb_spec (n * 2 ^ (52 - Z.log2 n)) (2 ^ 52)); [lia|].
  rewrite Z.max_l by lia. rewrite Hs.
  assert (Hq : div_even (n * 2 ^ (52 - Z.log2 n)) 1 = n * 2 ^ (52 - Z.log2 n)).
  { unfold div_even. rewrite Z.mod_1_r, Z.div_1_r. done. }
  rewrite Hq. unfold truncate.
  destruct (Z.leb_spec 0 (Z.log2 n - 52)); cbn [andb].
  - assert (Z.log2 n = 52) as -> by lia. change (52 - 52) with 0. change (2 ^ 0) with 1. rewrite !Z.mul_1_r.
    assert (2 ^ 53 <= 2 ^ 1024) by (apply Z.pow_le_mono_r; lia).
    destruct (Z.leb_spec (2 ^ 1024) n); [lia|]. change (0 <? 0) with false. cbv iota. f_equal. lia.
  - destruct (Z.ltb_spec (Z.log2 n - 52) 0); [|lia]. f_equal.
    replace (- (Z.log2 n - 52)) with (52 - Z.log2 n) by lia. apply Z.quot_mul. lia.
Qed.

(** Decimal integers below 2^53 survive the detour through a double. *)
Lemma to_int_exact n : 0 <= n < 2 ^ 53 -> to_int 64 (strtod (fmt_u n)) = n.
Proof.
  intros Hn. unfold strtod. destruct (fmt_u_cons n ltac:(lia)) as (c & l & E & Hc).
  assert (Hsg : read_sign (fmt_u n) = (false, fmt_u n)).
  { rewrite E. cbn. unfold isdigit in Hc. destruct (Z.eqb_spec c 45); [lia|]. by destruct (Z.eqb_spec c 43); [lia|]. }
  rewrite Hsg. pose proof (read_digits_app (fmt_u n) [] 0 0 (fmt_u_is_digits n ltac:(lia)) I) as R.
  rewrite app_nil_r in R. rewrite R, fmt_u_value by lia. cbn [Nat.add].
  assert (length (fmt_u n) <> 0%nat) by (by rewrite E). rewrite Nat.add_0_r.
  destruct (Nat.eqb_spec (length (fmt_u n)) 0); [done|].
  change (0 - Z.of_nat 0 <? 0) with false. cbv iota.
  change (0 - Z.of_nat 0) with 0. rewrite Z.mul_1_r. unfold to_int. rewrite nearest_exact by done.
  change (64 - 1) with 63.
  destruct (Z.leb_spec (- 2 ^ 63) n); [|lia]. destruct (Z.ltb_spec n (2 ^ 63)); [done|lia].
Qed.

End Json.
