(* ===== verification/Netmap.v ===== *)
(** * Netmap: the network map built from MapResponses (src/backend/tailscale/TSNetmap.cpp)

    The whole class [TSNetmap] over the values of Json.v.  Parse's sections are
    one definition each, in the order of the code.  The abstract map of the
    second half sends a node id to its peer; snapshots, changes, patches and
    removals are its assignment, insertion, alteration and deletion. *)

From stdpp Require Import gmap.
From S2P Require Import Prelude CLib Json.
Import Json.
Open Scope Z_scope.

Module Netmap.

Record NetmapPeer := mkPeer {
  nodeID : Z; nodeKey : bytes; discoKey : bytes; hostname : bytes; online : bool; derpRegion : Z;
  allowedIPs : list bytes; endpoints : list bytes }.
Definition no_peer : NetmapPeer := mkPeer 0 [] [] [] false (-1) [] [].

Record DerpNode := mkNode { hostName : bytes; ipv4 : bytes; ipv6 : bytes; derpPort : Z }.
Record DerpRegion := mkRegion { regionID : Z; regionCode : bytes; nodes : list DerpNode }.
Record DnsConfig := mkDns { resolvers : list bytes; domains : list bytes }.

Record netmap := mkNetmap {
  fSelfAddresses : list bytes; fPeers : list NetmapPeer; fDerpRegions : list DerpRegion; fDns : DnsConfig }.
Definition TSNetmap : netmap := mkNetmap [] [] [] (mkDns [] []).

(** [key] is a const char*. *)
Definition _StripKeyPrefix (key : bytes) : bytes :=
  match find_first 58 key with Some colon => zdrop (colon + 1) key | None => key end.

Definition _ParseDerp (derp : bytes) : Z :=
  match derp with
  | [] => -1
  | _ => match find_last 58 derp with Some colon => atoi (zdrop (colon + 1) derp) | None => atoi derp end
  end.

Definition strings_of (l : list JsonValue) : list bytes :=
  flat_map (fun v => match v with JSON_STRING s => [s] | _ => [] end) l.

(** The argument is null, or any value. *)
Definition _CollectStrings (jsonArray : option JsonValue) (out : list bytes) : list bytes :=
  match jsonArray with
  | Some (JSON_ARRAY l) => out ++ strings_of l
  | _ => out
  end.

Definition int64_of (v : JsonValue) (fallback : Z) : Z :=
  match v with JSON_NUMBER n => to_int 64 n | _ => fallback end.
Definition int_of (v : JsonValue) (fallback : Z) : Z :=
  match v with JSON_NUMBER n => to_int 32 n | _ => fallback end.
Definition string_or (v : option JsonValue) (old : bytes) : bytes :=
  match v with Some (JSON_STRING s) => s | _ => old end.
Definition key_or (v : option JsonValue) (old : bytes) : bytes :=
  match v with Some (JSON_STRING s) => _StripKeyPrefix (cstr s) | _ => old end.
Definition items (v : option JsonValue) : list JsonValue :=
  match v with Some (JSON_ARRAY l) => l | _ => [] end.
Definition is_object (v : JsonValue) : bool := match v with JSON_OBJECT _ => true | _ => false end.

Definition peer_of (pj : JsonValue) : NetmapPeer :=
  let allowed := _CollectStrings (Find (bs "AllowedIPs") pj) [] in
  let allowed := match allowed with [] => _CollectStrings (Find (bs "Addresses") pj) [] | _ => allowed end in
  let hi := Find (bs "Hostinfo") pj in
  mkPeer (match Find (bs "ID") pj with Some id => int64_of id 0 | None => 0 end)
    (key_or (Find (bs "Key") pj) []) (key_or (Find (bs "DiscoKey") pj) [])
    (string_or (hi ≫= Find (bs "Hostname")) [])
    (match Find (bs "Online") pj with Some o => AsBool false o | None => false end)
    (match Find (bs "DERP") pj with Some (JSON_STRING s) => _ParseDerp (cstr s) | _ => -1 end)
    allowed (_CollectStrings (Find (bs "Endpoints") pj) []).

(** [None]: not an object, or no key. *)
Definition _ParsePeer (pj : JsonValue) : option NetmapPeer :=
  if is_object pj then
    let peer := peer_of pj in
    if zlen (nodeKey peer) >? 0 then Some peer else None
  else None.

Definition same_peer (peer old : NetmapPeer) : bool :=
  (negb (nodeID peer =? 0) && (nodeID old =? nodeID peer)) || str_eq (nodeKey old) (nodeKey peer).

Fixpoint _UpsertPeer (peer : NetmapPeer) (l : list NetmapPeer) : list NetmapPeer :=
  match l with
  | [] => [peer]
  | old :: l => if same_peer peer old then peer :: l else old :: _UpsertPeer peer l
  end.

(** The partial update of one peer. *)
Definition patch_peer (pp : JsonValue) (p : NetmapPeer) : NetmapPeer :=
  mkPeer (nodeID p) (key_or (Find (bs "Key") pp) (nodeKey p)) (key_or (Find (bs "DiscoKey") pp) (discoKey p))
    (hostname p)
    (match Find (bs "Online") pp with Some o => AsBool (online p) o | None => online p end)
    (match Find (bs "DERPRegion") pp with Some d => int_of d (derpRegion p) | None => derpRegion p end)
    (allowedIPs p)
    (match Find (bs "Endpoints") pp with Some e => _CollectStrings (Some e) [] | None => endpoints p end).

(** The first peer with the id. *)
Fixpoint patch_first (f : NetmapPeer -> NetmapPeer) (targetId : Z) (l : list NetmapPeer) : list NetmapPeer :=
  match l with
  | [] => []
  | p :: l => if nodeID p =? targetId then f p :: l else p :: patch_first f targetId l
  end.

Definition patch_of (pp : JsonValue) : option (Z * (NetmapPeer -> NetmapPeer)) :=
  if is_object pp then (fun nid => (int64_of nid 0, patch_peer pp)) <$> Find (bs "NodeID") pp else None.

Definition apply_patch (l : list NetmapPeer) (pp : JsonValue) : list NetmapPeer :=
  match patch_of pp with Some (id, f) => patch_first f id l | None => l end.

Fixpoint erase_first (gone : Z) (l : list NetmapPeer) : list NetmapPeer :=
  match l with
  | [] => []
  | p :: l => if nodeID p =? gone then l else p :: erase_first gone l
  end.

Definition self_addresses (root : JsonValue) (old : list bytes) : list bytes :=
  match Find (bs "Node") root ≫= Find (bs "Addresses") with
  | Some addrs => _CollectStrings (Some addrs) []
  | None => old
  end.

Definition snapshot_peers (root : JsonValue) (old : list NetmapPeer) : list NetmapPeer :=
  match Find (bs "Peers") root with
  | Some (JSON_ARRAY l) => omap _ParsePeer l
  | _ => old
  end.

(** Snapshot, changes, patches and removals, in this order. *)
Definition peers_after (root : JsonValue) (old : list NetmapPeer) : list NetmapPeer :=
  let l := snapshot_peers root old in
  let l := fold_left (fun l v => match _ParsePeer v with Some p => _UpsertPeer p l | None => l end)
             (items (Find (bs "PeersChanged") root)) l in
  let l := fold_left apply_patch (items (Find (bs "PeersChangedPatch") root)) l in
  fold_left (fun l v => erase_first (int64_of v 0) l) (items (Find (bs "PeersRemoved") root)) l.

Definition derp_node (nj : JsonValue) : list DerpNode :=
  if is_object nj then
    [mkNode (string_or (Find (bs "HostName") nj) []) (string_or (Find (bs "IPv4") nj) [])
       (string_or (Find (bs "IPv6") nj) [])
       (match Find (bs "DERPPort") nj with Some p => int_of p 0 | None => 0 end)]
  else [].

Definition derp_region (m : bytes * JsonValue) : list DerpRegion :=
  let '(key, rj) := m in
  if is_object rj then
    let keyId := atoi (cstr key) in
    [mkRegion (match Find (bs "RegionID") rj with Some rid => int_of rid keyId | None => keyId end)
       (string_or (Find (bs "RegionCode") rj) [])
       (flat_map derp_node (items (Find (bs "Nodes") rj)))]
  else [].

Definition derp_regions (root : JsonValue) (old : list DerpRegion) : list DerpRegion :=
  match Find (bs "DERPMap") root ≫= Find (bs "Regions") with
  | Some (JSON_OBJECT l) => flat_map derp_region l
  | _ => old
  end.

Definition dns_config (root : JsonValue) (old : DnsConfig) : DnsConfig :=
  match Find (bs "DNSConfig") root with
  | Some (JSON_OBJECT l) =>
      let dns := JSON_OBJECT l in
      let rs := flat_map (fun r => match Find (bs "Addr") r with Some (JSON_STRING s) => [s] | _ => [] end)
                  (items (Find (bs "Resolvers") dns)) in
      mkDns (_CollectStrings (Find (bs "Nameservers") dns) rs) (_CollectStrings (Find (bs "Domains") dns) [])
  | _ => old
  end.

Definition Parse (json : bytes) (n : netmap) : bool * netmap :=
  match Json.Parse json with
  | Some (JSON_OBJECT l) =>
      let root := JSON_OBJECT l in
      (true, mkNetmap (self_addresses root (fSelfAddresses n)) (peers_after root (fPeers n))
               (derp_regions root (fDerpRegions n)) (dns_config root (fDns n)))
  | _ => (false, n)
  end.

Fixpoint DerpRegionById (id : Z) (l : list DerpRegion) : option DerpRegion :=
  match l with
  | [] => None
  | r :: l => if regionID r =? id then Some r else DerpRegionById id l
  end.

Fixpoint SelfIPv4 (l : list bytes) : bytes :=
  match l with
  | [] => []
  | cidr :: l =>
      match find_first 58 cidr with
      | Some _ => SelfIPv4 l
      | None => match find_first 47 cidr with Some slash => ztake slash cidr | None => cidr end
      end
  end.

(** ** Refinement of a finite map

    [abs l] sends each node id to its peer. *)

Abbreviation peer_map := (gmap Z NetmapPeer).

Definition ids (l : list NetmapPeer) : list Z := map nodeID l.
Definition abs (l : list NetmapPeer) : peer_map := list_to_map (map (fun p => (nodeID p, p)) l).

Definition map_change (m : peer_map) (p : NetmapPeer) : peer_map := <[nodeID p := p]> m.
Definition map_patch (m : peer_map) (pp : JsonValue) : peer_map :=
  match patch_of pp with Some (id, f) => alter f id m | None => m end.
Definition map_remove (m : peer_map) (v : JsonValue) : peer_map := delete (int64_of v 0) m.

(** What a MapResponse means. *)
Definition map_after (root : JsonValue) (m : peer_map) : peer_map :=
  let m := match Find (bs "Peers") root with Some (JSON_ARRAY l) => abs (omap _ParsePeer l) | _ => m end in
  let m := fold_left map_change (omap _ParsePeer (items (Find (bs "PeersChanged") root))) m in
  let m := fold_left map_patch (items (Find (bs "PeersChangedPatch") root)) m in
  fold_left map_remove (items (Find (bs "PeersRemoved") root)) m.

(** Among [l], the same key means the same id. *)
Definition keyed (l : list NetmapPeer) : Prop :=
  forall p q, p ∈ l -> q ∈ l -> str_eq (nodeKey p) (nodeKey q) = true -> nodeID p = nodeID q.

Lemma abs_cons p l : abs (p :: l) = <[nodeID p := p]> (abs l).
Proof. done. Qed.

Lemma abs_None l id : id ∉ ids l -> abs l !! id = None.
Proof.
  intros H. apply not_elem_of_list_to_map_1. unfold ids in H.
  intros ([i q] & Hi & Hq)%list_elem_of_fmap. apply H. cbn in Hi. subst i.
  apply list_elem_of_fmap in Hq as (p & [= -> ->] & Hp). by apply list_elem_of_fmap_2.
Qed.

Lemma ids_Upsert p l :
  (forall q, q ∈ l -> same_peer p q = true <-> nodeID q = nodeID p) ->
  ids (_UpsertPeer p l) = if bool_decide (nodeID p ∈ ids l) then ids l else ids l ++ [nodeID p].
Proof.
  induction l as [|old l IH]; intros Hs; [done|]. cbn [_UpsertPeer].
  pose proof (Hs old ltac:(apply list_elem_of_here)) as Ho.
  destruct (same_peer p old).
  - destruct Ho as [Ho _]. specialize (Ho eq_refl). cbn. rewrite bool_decide_true; [by rewrite Ho|].
    rewrite Ho. apply list_elem_of_here.
  - cbn [ids map]. fold (ids (_UpsertPeer p l)). rewrite IH by (intros q Hq; apply Hs; by apply list_elem_of_further).
    fold (ids l).
    assert (Hne : nodeID p <> nodeID old) by (intros E; by destruct Ho as [_ Ho]; discriminate Ho).
    destruct (decide (nodeID p ∈ ids l)).
    + rewrite !bool_decide_true; [done|by apply list_elem_of_further|done].
    + rewrite !bool_decide_false; [done| |done]. intros [|]%elem_of_cons; done.
Qed.

Lemma abs_Upsert p l :
  NoDup (ids l) -> (forall q, q ∈ l -> same_peer p q = true <-> nodeID q = nodeID p) ->
  NoDup (ids (_UpsertPeer p l)) /\ abs (_UpsertPeer p l) = map_change (abs l) p.
Proof.
  intros Hn Hs. split.
  - rewrite ids_Upsert by done. case_bool_decide; [done|]. apply NoDup_app. split_and!; [done| |apply NoDup_singleton].
    intros i Hi ->%list_elem_of_singleton. done.
  - clear Hn. induction l as [|old l IH]; [done|]. cbn [_UpsertPeer]. unfold map_change in *.
    pose proof (Hs old ltac:(apply list_elem_of_here)) as Ho. destruct (same_peer p old).
    + destruct Ho as [Ho _]. specialize (Ho eq_refl). rewrite !abs_cons, Ho. by rewrite insert_insert_eq.
    + rewrite !abs_cons, IH by (intros q Hq; apply Hs; by apply list_elem_of_further).
      apply insert_insert_ne. intros E. destruct Ho as [_ Ho]. by discriminate Ho.
Qed.

Lemma abs_patch f id l : (forall p, nodeID (f p) = nodeID p) -> NoDup (ids l) ->
  NoDup (ids (patch_first f id l)) /\ abs (patch_first f id l) = alter f id (abs l).
Proof.
  intros Hf. assert (Hids : ids (patch_first f id l) = ids l).
  { induction l as [|p l IH]; [done|]. cbn [patch_first]. destruct (_ =? _); cbn; [by rewrite Hf|].
    unfold ids in IH. by rewrite IH. }
  intros Hn. split; [by rewrite Hids|]. clear Hids. induction l as [|p l IH].
  { symmetry. apply map_eq. intros i. change (abs []) with (∅ : peer_map).
    destruct (decide (id = i)) as [->|]; [by rewrite lookup_alter_eq, lookup_empty|by rewrite lookup_alter_ne]. }
  cbn [ids map] in Hn. apply NoDup_cons in Hn as [Hp Hn]. cbn [patch_first].
  destruct (Z.eqb_spec (nodeID p) id) as [<-|Hne].
  - rewrite !abs_cons, Hf. by rewrite alter_insert_eq.
  - rewrite !abs_cons, IH by done. by rewrite alter_insert_ne.
Qed.

Lemma abs_erase gone l : NoDup (ids l) ->
  NoDup (ids (erase_first gone l)) /\ abs (erase_first gone l) = delete gone (abs l).
Proof.
  induction l as [|p l IH]; intros Hn.
  { split; [done|]. change (abs (erase_first gone [])) with (∅ : peer_map). change (abs []) with (∅ : peer_map).
    by rewrite delete_empty. }
  cbn [ids map] in Hn. apply NoDup_cons in Hn as [Hp Hn]. cbn [erase_first].
  destruct (Z.eqb_spec (nodeID p) gone) as [<-|Hne].
  - split; [done|]. rewrite abs_cons, delete_insert_id; [done|by apply abs_None].
  - destruct (IH Hn) as [IHn IHa]. split.
    + cbn [ids map]. apply NoDup_cons. split; [|done]. intros Hin. apply Hp.
      clear -Hin. induction l as [|q l IH]; [done|]. cbn [erase_first] in Hin.
      destruct (_ =? _); [by apply list_elem_of_further|]. cbn [ids map] in Hin.
      apply elem_of_cons in Hin as [->|Hin]; [apply list_elem_of_here|]. apply list_elem_of_further. auto.
    + rewrite !abs_cons, IHa, delete_insert_ne; done.
Qed.

Lemma Upsert_elem p q l : q ∈ _UpsertPeer p l -> q = p \/ q ∈ l.
Proof.
  induction l as [|old l IH]; cbn [_UpsertPeer].
  - intros ->%list_elem_of_singleton. by left.
  - destruct (same_peer p old); intros [->|Hq]%elem_of_cons.
    + by left.
    + right. by apply list_elem_of_further.
    + right. apply list_elem_of_here.
    + destruct (IH Hq); [by left|right; by apply list_elem_of_further].
Qed.

Lemma same_peer_id p q l :
  keyed l -> p ∈ l -> q ∈ l -> nodeID p <> 0 -> same_peer p q = true <-> nodeID q = nodeID p.
Proof.
  intros Hk Hp Hq H0. unfold same_peer. destruct (Z.eqb_spec (nodeID p) 0); [done|]. cbn [negb andb].
  destruct (Z.eqb_spec (nodeID q) (nodeID p)); [done|]. cbn [orb]. split; [|done]. intros E. by apply (Hk q p).
Qed.

Lemma changes_refine changed l :
  NoDup (ids l) -> keyed (l ++ changed) -> Forall (fun p => nodeID p <> 0) changed ->
  NoDup (ids (fold_left (fun l p => _UpsertPeer p l) changed l))
  /\ abs (fold_left (fun l p => _UpsertPeer p l) changed l) = fold_left map_change changed (abs l).
Proof.
  revert l. induction changed as [|p changed IH]; intros l Hn Hk H0; [done|].
  apply Forall_cons in H0 as [Hp H0]. cbn [fold_left].
  destruct (abs_Upsert p l Hn) as [Hn' <-].
  { intros q Hq. apply (same_peer_id p q (l ++ p :: changed)); [done| |by apply elem_of_app; left|done].
    apply elem_of_app. right. apply list_elem_of_here. }
  apply IH; [done| |done]. intros a b Ha Hb.
  assert (Hin : forall c, c ∈ _UpsertPeer p l ++ changed -> c ∈ l ++ p :: changed).
  { intros c [[->|?]%Upsert_elem|?]%elem_of_app; apply elem_of_app;
      [right; apply list_elem_of_here|by left|right; by apply list_elem_of_further]. }
  apply Hk; auto.
Qed.

Lemma fold_parse (vs : list JsonValue) l :
  fold_left (fun l v => match _ParsePeer v with Some p => _UpsertPeer p l | None => l end) vs l
  = fold_left (fun l p => _UpsertPeer p l) (omap _ParsePeer vs) l.
Proof. revert l. induction vs as [|v vs IH]; intros l; [done|]. cbn. rewrite IH. by destruct (_ParsePeer v). Qed.

Lemma patches_refine pps l : NoDup (ids l) ->
  NoDup (ids (fold_left apply_patch pps l)) /\ abs (fold_left apply_patch pps l) = fold_left map_patch pps (abs l).
Proof.
  revert l. induction pps as [|pp pps IH]; intros l Hn; [done|]. cbn [fold_left].
  assert (Hs : NoDup (ids (apply_patch l pp)) /\ abs (apply_patch l pp) = map_patch (abs l) pp).
  { unfold apply_patch, map_patch, patch_of. destruct (is_object pp); [|done].
    destruct (Find (bs "NodeID") pp); [|done]. by apply abs_patch. }
  destruct Hs as [Hn' <-]. by apply IH.
Qed.

Lemma removals_refine vs l : NoDup (ids l) ->
  NoDup (ids (fold_left (fun l v => erase_first (int64_of v 0) l) vs l))
  /\ abs (fold_left (fun l v => erase_first (int64_of v 0) l) vs l) = fold_left map_remove vs (abs l).
Proof.
  revert l. induction vs as [|v vs IH]; intros l Hn; [done|]. cbn [fold_left].
  destruct (abs_erase (int64_of v 0) l Hn) as [Hn' E]. unfold map_remove at 2. rewrite <- E. by apply IH.
Qed.

(** C26: The peer list refines a map from node ids to peers. For a well-formed MapResponse, when the list it starts from (the old one, or the snapshot it carries) has one entry per id, the changed peers have ids, and equal keys mean equal ids, Parse turns the list into the one whose map is: the snapshot if there is one, the changed peers inserted, the patches applied to their peers, the removed ids deleted, and there is still one entry per id; sections that are absent change nothing, and a malformed document changes nothing at all. *)
Theorem Parse_refines_map json n :
  let root := Json.Parse json in
  match root with
  | Some (JSON_OBJECT l) =>
      let root := JSON_OBJECT l in
      let base := snapshot_peers root (fPeers n) in
      let changed := omap _ParsePeer (items (Find (bs "PeersChanged") root)) in
      NoDup (ids base) -> keyed (base ++ changed) -> Forall (fun p => nodeID p <> 0) changed ->
      fst (Parse json n) = true /\ NoDup (ids (fPeers (snd (Parse json n))))
      /\ abs (fPeers (snd (Parse json n))) = map_after root (abs (fPeers n))
      /\ (Find (bs "Node") root = None -> fSelfAddresses (snd (Parse json n)) = fSelfAddresses n)
      /\ (Find (bs "DERPMap") root = None -> fDerpRegions (snd (Parse json n)) = fDerpRegions n)
      /\ (Find (bs "DNSConfig") root = None -> fDns (snd (Parse json n)) = fDns n)
  | _ => Parse json n = (false, n)
  end.
Proof.
  unfold Parse. destruct (Json.Parse json) as [[| | | | |l]|]; try done.
  cbv zeta. set (r := JSON_OBJECT l). set (changed := omap _ParsePeer _). set (base := snapshot_peers r _).
  intros Hn Hk H0. cbn [fst snd fPeers fSelfAddresses fDerpRegions fDns].
  split; [done|]. unfold peers_after. fold base. rewrite fold_parse. fold changed.
  destruct (changes_refine changed base Hn Hk H0) as [N1 E1].
  destruct (patches_refine (items (Find (bs "PeersChangedPatch") r)) _ N1) as [N2 E2].
  destruct (removals_refine (items (Find (bs "PeersRemoved") r)) _ N2) as [N3 E3].
  split; [done|]. split.
  - rewrite E3, E2, E1. unfold map_after. fold changed. unfold base, snapshot_peers.
    destruct (Find (bs "Peers") r) as [[]|]; done.
  - unfold self_addresses, derp_regions, dns_config. split_and!; by intros ->.
Qed.

(** A MapResponse written with single quotes for double ones. *)
Definition quoted (s : string) : bytes := map (fun c => if c =? 39 then 34 else c) (bs s).

Definition demo_map : bytes :=
  quoted "{'Peers':[{'ID':1,'Key':'nodekey:aa','Online':true},{'ID':2,'Key':'nodekey:bb'}],'PeersChanged':[{'ID':3,'Key':'nodekey:cc','DERP':'127.3.3.40:7'}],'PeersChangedPatch':[{'NodeID':2,'Online':true}],'PeersRemoved':[1]}".

Lemma Parse_refines_map_witness :
  let n := snd (Parse demo_map TSNetmap) in
  map (fun p => (nodeID p, nodeKey p, online p, derpRegion p)) (fPeers n)
    = [(2, bs "bb", true, -1); (3, bs "cc", false, 7)]
  /\ NoDup (ids (fPeers n)).
Proof.
  pose proof (Parse_refines_map demo_map TSNetmap) as A. cbv zeta in A.
  assert (E : match Json.Parse demo_map with
    | Some (JSON_OBJECT l) =>
        ids (snapshot_peers (JSON_OBJECT l) []) = [1; 2]
        /\ map (fun p => (nodeID p, nodeKey p)) (snapshot_peers (JSON_OBJECT l) []
             ++ omap _ParsePeer (items (Find (bs "PeersChanged") (JSON_OBJECT l)))) = [(1, bs "aa"); (2, bs "bb"); (3, bs "cc")]
        /\ map nodeID (omap _ParsePeer (items (Find (bs "PeersChanged") (JSON_OBJECT l)))) = [3]
    | _ => False end) by (vm_compute; repeat split; reflexivity).
  destruct (Json.Parse demo_map) as [[| | | | |l]|]; try done. destruct E as (E1 & E2 & E3).
  destruct A as (_ & A & _).
  - change (fPeers TSNetmap) with (@nil NetmapPeer). rewrite E1. repeat constructor; rewrite ?elem_of_cons, ?elem_of_nil; lia.
  - change (fPeers TSNetmap) with (@nil NetmapPeer). intros p q Hp Hq.
    apply (list_elem_of_fmap_2 (fun p => (nodeID p, nodeKey p))) in Hp.
    apply (list_elem_of_fmap_2 (fun p => (nodeID p, nodeKey p))) in Hq.
    change (fmap (M:=list) ?f) with (map f) in *. rewrite E2 in Hp, Hq.
    rewrite !elem_of_cons in Hp, Hq.
    destruct Hp as [[= -> ->]|[[= -> ->]|[[= -> ->]|Hp]]]; [..|by apply elem_of_nil in Hp];
    destruct Hq as [[= -> ->]|[[= -> ->]|[[= -> ->]|Hq]]]; try (by apply elem_of_nil in Hq); try done;
    intros H; vm_compute in H; discriminate H.
  - apply Forall_forall. intros p Hp. apply (list_elem_of_fmap_2 nodeID) in Hp.
    change (fmap (M:=list) ?f) with (map f) in *. rewrite E3 in Hp. apply list_elem_of_singleton in Hp. lia.
  - split; [|exact A]. vm_compute. reflexivity.
Defined.

(** A changed peer is matched by key before a later entry with its id: the list
    then holds two entries of one id, and a removal leaves one behind. *)
Example upsert_by_key_duplicates_id :
  let n := snd (Parse (quoted "{'Peers':[{'ID':1,'Key':'k:aa'},{'ID':2,'Key':'k:bb'}],'PeersChanged':[{'ID':2,'Key':'k:aa'}],'PeersRemoved':[2]}") TSNetmap) in
  ids (fPeers n) = [2].
Proof. vm_compute. reflexivity. Qed.

(** A removal that is not a number removes the peer that came without an id. *)
Example removal_without_number :
  fPeers (snd (Parse (quoted "{'Peers':[{'Key':'k:aa'}],'PeersRemoved':[null]}") TSNetmap)) = [].
Proof. vm_compute. reflexivity. Qed.

End Netmap.
