(* ===== verification/PeerSet.v ===== *)
(** * PeerSet: the live peers of the data plane (src/backend/tailscale/TSPeerSet.{h,cpp})

    [fPeers] is the list of the vector's elements; a [ManagedPeer*] is the
    index of the element it points to.  [Update] writes the vector of flags
    [seen] at an index the standard library does not check: [None] is a write
    outside it. *)

From S2P Require Import Prelude CLib Identity PeerPath WGPeer Routes Json Netmap.
Open Scope Z_scope.
Open Scope soto_scope.

Module PeerSet.

Import Netmap.

Record ManagedPeer := mkManaged {
  nodeKeyHex : bytes; m_discoKey : bytes; m_hostname : bytes; m_online : bool; m_derpRegion : Z;
  m_allowedIPs : list bytes; m_endpoints : list bytes;
  wg : WGPeer.peer; path : PeerPath.t; lastHandshake : Z; lastDiscoPing : Z }.

Abbreviation peers := (list ManagedPeer).

Definition TSPeerSet : peers := [].

(** ** Lookups *)

(** The index of the first element that satisfies the test. *)
Fixpoint index_of {A} (p : A -> bool) (l : list A) : option nat :=
  match l with
  | [] => None
  | x :: l => if p x then Some O else S <$> index_of p l
  end.

Definition _IndexOf (ps : peers) (hex : bytes) : option nat :=
  index_of (fun p => Json.str_eq (nodeKeyHex p) hex) ps.

(** [None] is the NULL key. *)
Definition Find (ps : peers) (hex : option bytes) : option nat :=
  hex ← hex; _IndexOf ps hex.

Definition parse_cidr (cidr : bytes) : option (Z * Z) :=
  let '(ipPart, prefix) :=
    match find_first 47 cidr with
    | Some slash => (ztake slash cidr, atoi (cstr (zdrop (slash + 1) cidr)))
    | None => (cidr, 32)
    end in
  match find_first 58 ipPart with
  | Some _ => None
  | None =>
      if (prefix <? 0) || (prefix >? 32) then None
      else network ← TSRoutes.parse_ipv4 (cstr ipPart); Some (prefix, network)
  end.

Definition FindBySenderIndex (ps : peers) (index : Z) : option nat :=
  if index =? 0 then None else index_of (fun p => WGPeer.fSenderIndex (wg p) =? index) ps.

Definition FindByDiscoKey (ps : peers) (discoKeyHex : option bytes) : option nat :=
  hex ← discoKeyHex; index_of (fun p => Json.str_eq (m_discoKey p) hex && (zlen (m_discoKey p) >? 0)) ps.

(** The top [prefix] bits. *)
Definition cidr_mask (prefix : Z) : Z := if prefix =? 0 then 0 else u32 (0xffffffff ≪ (32 - prefix)).

(** One CIDR of peer [i] against the best route so far (its peer and length). *)
Definition try_cidr (dst : Z) (i : nat) (best : option nat * Z) (cidr : bytes) : option nat * Z :=
  match parse_cidr cidr with
  | None => best
  | Some (prefix, net) =>
      if ((dst .^ net) .& cidr_mask prefix =? 0) && (prefix >? snd best) then (Some i, prefix) else best
  end.

Fixpoint scan_peers (dst : Z) (i : nat) (ps : peers) (best : option nat * Z) : option nat * Z :=
  match ps with
  | [] => best
  | p :: ps => scan_peers dst (S i) ps (fold_left (try_cidr dst i) (m_allowedIPs p) best)
  end.

Definition FindByAllowedIP (ps : peers) (ipv4 : bytes) : option nat :=
  dst ← TSRoutes.parse_ipv4 ipv4; fst (scan_peers dst 0 ps (None, -1)).

(** ** Reconciliation with a network map *)

Definition use_derp (np : NetmapPeer) (p : PeerPath.t) : PeerPath.t :=
  if derpRegion np >=? 0 then PeerPath.UseDerp p else p.

Definition refresh (np : NetmapPeer) (mp : ManagedPeer) : ManagedPeer :=
  mkManaged (nodeKeyHex mp) (discoKey np) (hostname np) (online np) (derpRegion np)
    (allowedIPs np) (endpoints np) (wg mp) (use_derp np (path mp)) (lastHandshake mp) (lastDiscoPing mp).

Definition new_peer (np : NetmapPeer) : ManagedPeer :=
  mkManaged (nodeKey np) (discoKey np) (hostname np) (online np) (derpRegion np)
    (allowedIPs np) (endpoints np)
    (match Identity.FromHex (cstr (nodeKey np)) 32 with
     | Some raw => WGPeer.SetNodeKey WGPeer.WGPeer raw
     | None => WGPeer.WGPeer
     end)
    (use_derp np PeerPath.PeerPath) 0 0.

Record round := mkRound { r_peers : peers; r_seen : list bool; r_added : Z; r_updated : Z }.

(** One peer of the map; [None]: [seen\[idx\] = true] outside [seen]. *)
Definition update_peer (r : round) (np : NetmapPeer) : option round :=
  if zlen (nodeKey np) =? 0 then Some r
  else
    match _IndexOf (r_peers r) (nodeKey np) with
    | Some idx =>
        if decide (idx < length (r_seen r))%nat then
          Some (mkRound (alter (refresh np) idx (r_peers r)) (<[idx := true]> (r_seen r))
                  (r_added r) (r_updated r + 1))
        else None
    | None => Some (mkRound (r_peers r ++ [new_peer np]) (r_seen r) (r_added r + 1) (r_updated r))
    end.

Fixpoint update_peers (r : round) (nps : list NetmapPeer) : option round :=
  match nps with
  | [] => Some r
  | np :: nps => r ← update_peer r np; update_peers r nps
  end.

(** The backward erase loop: [i] elements are still to be looked at. *)
Fixpoint drop_unseen (i : nat) (ps : peers) (seen : list bool) (removed : Z) : peers * Z :=
  match i with
  | O => (ps, removed)
  | S i =>
      match seen !! i with
      | Some false => drop_unseen i (delete i ps) seen (removed + 1)
      | _ => drop_unseen i ps seen removed
      end
  end.

Record counts := mkCounts { outAdded : Z; outRemoved : Z; outUpdated : Z }.

Definition Update (ps : peers) (nm : netmap) : option (peers * counts) :=
  r ← update_peers (mkRound ps (replicate (length ps) false) 0 0) (fPeers nm);
  let '(ps, removed) := drop_unseen (length (r_peers r)) (r_peers r) (r_seen r) 0 in
  Some (ps, mkCounts (r_added r) removed (r_updated r)).

(** ** Routing by longest prefix *)

Lemma cidr_mask_spec prefix dst net :
  0 <= prefix <= 32 -> 0 <= dst < 2 ^ 32 -> 0 <= net < 2 ^ 32 ->
  (dst .^ net) .& cidr_mask prefix = 0 <-> dst / 2 ^ (32 - prefix) = net / 2 ^ (32 - prefix).
Proof.
  intros Hp Hd Hn. set (k := 32 - prefix).
  assert (Hm : forall i, 0 <= i -> Z.testbit (cidr_mask prefix) i = (k <=? i) && (i <? 32)).
  { intros i Hi. unfold cidr_mask. destruct (Z.eqb_spec prefix 0).
    - rewrite Z.bits_0. subst k. destruct (Z.leb_spec (32 - prefix) i), (Z.ltb_spec i 32); try done; lia.
    - unfold u32. destruct (Z.ltb_spec i 32).
      + rewrite Z.mod_pow2_bits_low, Z.shiftl_spec by lia. fold k. change 0xffffffff with (Z.ones 32).
        destruct (Z.leb_spec k i); [rewrite Z.ones_spec_low by lia; done|].
        apply Z.testbit_neg_r. lia.
      + rewrite Z.mod_pow2_bits_high by lia. by rewrite andb_false_r. }
  rewrite <- !Z.shiftr_div_pow2 by lia. split; intros H.
  - apply Z.bits_inj'. intros i Hi. rewrite !Z.shiftr_spec by lia.
    destruct (Z.ltb_spec (i + k) 32).
    + assert (E : Z.testbit ((dst .^ net) .& cidr_mask prefix) (i + k) = false) by (rewrite H; apply Z.bits_0).
      rewrite Z.land_spec, Z.lxor_spec, Hm in E by lia.
      destruct (Z.leb_spec k (i + k)); [|lia]. destruct (Z.ltb_spec (i + k) 32); [|lia].
      rewrite andb_true_r in E. by apply xorb_eq in E.
    + rewrite <- (Z.mod_small dst (2 ^ 32)), <- (Z.mod_small net (2 ^ 32)) by lia.
      by rewrite !Z.mod_pow2_bits_high by lia.
  - apply Z.bits_inj'. intros i Hi. rewrite Z.land_spec, Z.lxor_spec, Z.bits_0, Hm by lia.
    destruct (Z.leb_spec k i); [|apply andb_false_r]. destruct (Z.ltb_spec i 32); [|apply andb_false_r].
    rewrite andb_true_r.
    assert (E : Z.testbit (Z.shiftr dst k) (i - k) = Z.testbit (Z.shiftr net k) (i - k)) by by rewrite H.
    rewrite !Z.shiftr_spec in E by lia. replace (i - k + k) with i in E by lia. rewrite E. apply xorb_nilpotent.
Qed.

Lemma parse_ipv4_range s n : TSRoutes.parse_ipv4 s = Some n -> 0 <= n < 2 ^ 32.
Proof.
  unfold TSRoutes.parse_ipv4. destruct (sscanf_ipv4 s) as [[[[a b] c] d]|] eqn:E; [|done].
  assert (Hu : forall l v r, scan_u l = Some (v, r) -> 0 <= v).
  { intros l v r. unfold scan_u. destruct (read_int l) as [[? ?]|]; [|done]. intros [= <- _]. apply u32_range. }
  unfold sscanf_ipv4 in E. cbn [mbind option_bind] in E.
  destruct (scan_u s) as [[? ?]|] eqn:E1; [|done]. cbn in E. destruct (scan_char 46 _); [|done]. cbn in E.
  destruct (scan_u l0) as [[? ?]|] eqn:E2; [|done]. cbn in E. destruct (scan_char 46 _); [|done]. cbn in E.
  destruct (scan_u l2) as [[? ?]|] eqn:E3; [|done]. cbn in E. destruct (scan_char 46 _); [|done]. cbn in E.
  destruct (scan_u l4) as [[? ?]|] eqn:E4; [|done]. cbn in E. injection E as <- <- <- <-.
  apply Hu in E1, E2, E3, E4. destruct (_ || _ || _ || _) eqn:Eg; [done|]. intros [= <-].
  rewrite !orb_false_iff, !Z.gtb_ltb, !Z.ltb_ge in Eg.
  rewrite !Z.shiftl_mul_pow2 by lia.
  assert (Hl : forall x y, 0 <= x < 2 ^ 32 -> 0 <= y < 2 ^ 32 -> 0 <= x .| y < 2 ^ 32).
  { intros x y Hx Hy. split; [apply Z.lor_nonneg; lia|]. destruct (Z.eq_dec (x .| y) 0) as [->|]; [lia|].
    apply Z.log2_lt_pow2; [pose proof (Z.lor_nonneg x y); lia|]. rewrite Z.log2_lor by lia.
    apply Z.max_lub_lt.
    - destruct (Z.eq_dec x 0) as [->|]; [done|]. apply Z.log2_lt_pow2; lia.
    - destruct (Z.eq_dec y 0) as [->|]; [done|]. apply Z.log2_lt_pow2; lia. }
  repeat apply Hl; lia.
Qed.

Lemma parse_cidr_range cidr p net : parse_cidr cidr = Some (p, net) -> 0 <= p <= 32 /\ 0 <= net < 2 ^ 32.
Proof.
  unfold parse_cidr. destruct (match find_first 47 cidr with Some _ => _ | None => _ end) as [ip pr].
  destruct (find_first 58 ip); [done|]. destruct (Z.ltb_spec pr 0), (Z.gtb_spec pr 32); try done. cbn [orb].
  destruct (TSRoutes.parse_ipv4 (cstr ip)) as [n|] eqn:E; [|done]. cbn. intros [= <- <-].
  apply parse_ipv4_range in E. lia.
Qed.

(** Peer [i] lists a CIDR of length [p] that contains [dst]. *)
Definition claims (ps : peers) (dst : Z) (i : nat) (p : Z) : Prop :=
  exists mp cidr net, ps !! i = Some mp /\ cidr ∈ m_allowedIPs mp /\ parse_cidr cidr = Some (p, net)
    /\ dst / 2 ^ (32 - p) = net / 2 ^ (32 - p).

(** [best] is the longest of the routes in [P], the first of its peers. *)
Definition longest (P : nat -> Z -> Prop) (best : option nat * Z) : Prop :=
  match fst best with
  | None => snd best = -1 /\ forall j q, ~ P j q
  | Some i => P i (snd best) /\ forall j q, P j q -> q < snd best \/ q = snd best /\ (i <= j)%nat
  end.

Lemma try_cidr_longest (P : nat -> Z -> Prop) dst i best cidr :
  0 <= dst < 2 ^ 32 -> (forall j q, P j q -> (j <= i)%nat /\ 0 <= q) -> longest P best ->
  longest (fun j q => P j q \/ j = i /\ exists net, parse_cidr cidr = Some (q, net)
                                                /\ dst / 2 ^ (32 - q) = net / 2 ^ (32 - q)) (try_cidr dst i best cidr).
Proof.
  intros Hd HP Hb. unfold try_cidr. destruct (parse_cidr cidr) as [[p net]|] eqn:E.
  - pose proof (parse_cidr_range _ _ _ E) as [Hp Hn]. pose proof (cidr_mask_spec p dst net Hp Hd Hn) as Hm.
    destruct (Z.eqb_spec ((dst .^ net) .& cidr_mask p) 0) as [H0|H0]; cbn [andb].
    + apply Hm in H0. destruct (Z.gtb_spec p (snd best)) as [Hg|Hg].
      * split; cbn [snd].
        -- right. split; [done|]. eauto.
        -- intros j q [Hj|(-> & n & [= <- <-] & _)]; [|lia]. unfold longest in Hb.
           destruct (fst best); [|by apply Hb in Hj]. apply Hb in Hj. lia.
      * unfold longest in *. destruct (fst best) as [b|].
        -- destruct Hb as [Hb1 Hb2]. split; [by left|].
           intros j q [Hj|(-> & n & [= <- <-] & _)]; [by apply Hb2|]. apply HP in Hb1. lia.
        -- lia.
    + unfold longest in *. destruct (fst best) as [b|].
      * destruct Hb as [Hb1 Hb2]. split; [by left|].
        intros j q [Hj|(-> & n & [= <- <-] & He)]; [by apply Hb2|]. by apply Hm in He.
      * destruct Hb as [Hb1 Hb2]. split; [done|].
        intros j q [Hj|(-> & n & [= <- <-] & He)]; [by eapply Hb2|]. by apply Hm in He.
  - unfold longest in *. destruct (fst best) as [b|]; destruct Hb as [Hb1 Hb2]; (split; [by try left|]);
      intros j q [Hj|(-> & n & ? & _)]; try done; by eapply Hb2.
Qed.

Lemma longest_iff P Q best : (forall j q, P j q <-> Q j q) -> longest P best -> longest Q best.
Proof.
  intros He. unfold longest. destruct (fst best); intros [H1 H2]; (split; [by try apply He|]);
    intros j q Hq; apply He in Hq; by apply H2 in Hq.
Qed.

Lemma try_cidrs_longest cidrs (P : nat -> Z -> Prop) dst i best :
  0 <= dst < 2 ^ 32 -> (forall j q, P j q -> (j <= i)%nat /\ 0 <= q) -> longest P best ->
  longest (fun j q => P j q \/ j = i /\ exists cidr net, cidr ∈ cidrs /\ parse_cidr cidr = Some (q, net)
                                  /\ dst / 2 ^ (32 - q) = net / 2 ^ (32 - q)) (fold_left (try_cidr dst i) cidrs best).
Proof.
  intros Hd. revert P best. induction cidrs as [|c cidrs IH]; intros P best HP Hb; cbn [fold_left].
  - eapply longest_iff; [|exact Hb]. intros j q. split; [by left|]. intros [H|(_ & c & n & Hc & _)]; [done|].
    by apply elem_of_nil in Hc.
  - eapply longest_iff; [|apply IH; [|apply (try_cidr_longest P); done]].
    + intros j q. cbn beta. split.
      * intros [[H|(-> & n & H1 & H2)]|(-> & c' & n & H1 & H2)]; [by left| |]; right; (split; [done|]).
        -- exists c, n. split; [apply list_elem_of_here|done].
        -- exists c', n. split; [by apply list_elem_of_further|done].
      * intros [H|(-> & c' & n & H1 & H2)]; [by left; left|]. apply elem_of_cons in H1 as [->|H1].
        -- left. right. split; [done|]. by exists n.
        -- right. split; [done|]. by exists c', n.
    + intros j q [H|(-> & n & H & _)]; [by apply HP|]. apply parse_cidr_range in H. lia.
Qed.

Lemma scan_peers_longest pre ps dst best :
  0 <= dst < 2 ^ 32 -> longest (claims pre dst) best ->
  longest (claims (pre ++ ps) dst) (scan_peers dst (length pre) ps best).
Proof.
  intros Hd. revert pre best. induction ps as [|mp ps IH]; intros pre best Hb; cbn [scan_peers].
  - by rewrite app_nil_r.
  - replace (S (length pre)) with (length (pre ++ [mp])) by (rewrite length_app; cbn; lia).
    replace (pre ++ mp :: ps) with ((pre ++ [mp]) ++ ps) by by rewrite <- app_assoc.
    apply IH. eapply longest_iff; [|apply (try_cidrs_longest _ (claims pre dst)); [done| |done]].
    + intros j q. split.
      * intros [(m & c & n & H1 & H2)|(-> & c & n & H1 & H2)].
        -- exists m, c, n. split; [by apply lookup_app_l_Some|done].
        -- exists mp, c, n. split; [|done]. by apply list_lookup_middle.
      * intros (m & c & n & H1 & H2 & H3). apply lookup_app_Some in H1 as [H1|[Hl H1]].
        -- left. exists m, c, n. done.
        -- right. apply list_lookup_singleton_Some in H1 as [Hj <-]. split; [lia|]. by exists c, n.
    + intros j q (m & c & n & H1 & _ & H3 & _). apply lookup_lt_Some in H1. apply parse_cidr_range in H3. lia.
Qed.

(** C28: An outbound packet is routed by longest prefix: FindByAllowedIP of a dotted address points to the first peer that lists a CIDR containing it at the greatest prefix length listed by any peer, and to no peer exactly when no peer lists one (IPv6 entries, prefixes outside 0..32 and malformed entries never match). *)
Theorem FindByAllowedIP_longest_prefix ps ipv4 dst :
  TSRoutes.parse_ipv4 ipv4 = Some dst ->
  match FindByAllowedIP ps ipv4 with
  | Some i => exists p, claims ps dst i p
      /\ forall j q, claims ps dst j q -> q < p \/ q = p /\ (i <= j)%nat
  | None => forall j q, ~ claims ps dst j q
  end.
Proof.
  intros E. unfold FindByAllowedIP. rewrite E. cbn [mbind option_bind].
  assert (H : longest (claims ps dst) (scan_peers dst 0 ps (None, -1))).
  { apply (scan_peers_longest [] ps); [by eapply parse_ipv4_range|].
    split; [done|]. intros j q (m & c & n & H & _). by rewrite lookup_nil in H. }
  unfold longest in H. destruct (fst _); [|apply H]. eexists. exact H.
Qed.

Definition demo_peer (key host : string) (allowed : list string) : NetmapPeer :=
  mkPeer 1 (bs key) [] (bs host) true 3 (map bs allowed) [].

Lemma FindByAllowedIP_longest_prefix_witness :
  let ps := map new_peer [demo_peer "aa" "exit" ["0.0.0.0/0"; "fd7a::1/128"];
                          demo_peer "bb" "nas" ["100.64.1.6/32"; "10.1.0.0/16"]] in
  FindByAllowedIP ps (bs "10.1.2.3") = Some 1%nat /\ FindByAllowedIP ps (bs "8.8.8.8") = Some 0%nat
  /\ forall q, claims ps 0x08080808 1 q -> False.
Proof.
  cbv zeta. set (ps := map new_peer _).
  assert (A := FindByAllowedIP_longest_prefix ps (bs "8.8.8.8") 0x08080808 ltac:(vm_compute; reflexivity)).
  assert (E : FindByAllowedIP ps (bs "8.8.8.8") = Some 0%nat) by (vm_compute; reflexivity).
  split; [vm_compute; reflexivity|]. split; [exact E|]. rewrite E in A.
  destruct A as (p & Hp & A). intros q (m & c & n & H1 & H2 & H3 & H4). vm_compute in H1. injection H1 as <-.
  change (c ∈ [bs "100.64.1.6/32"; bs "10.1.0.0/16"]) in H2.
  rewrite !elem_of_cons in H2. destruct H2 as [->|[->|H2]]; [| |by apply elem_of_nil in H2];
    vm_compute in H3; injection H3 as <- <-; vm_compute in H4; discriminate H4.
Defined.

(** ** Update mirrors the map *)

Definition usable (np : NetmapPeer) : bool := negb (zlen (nodeKey np) =? 0).
Definition key (mp : ManagedPeer) : bytes := cstr (nodeKeyHex mp).
Definition nkey (np : NetmapPeer) : bytes := cstr (nodeKey np).
Definition found (nps : list NetmapPeer) (mp : ManagedPeer) : option NetmapPeer :=
  List.find (fun np => Json.str_eq (nodeKeyHex mp) (nodeKey np)) nps.
Definition unknown (ps : peers) (np : NetmapPeer) : bool :=
  match _IndexOf ps (nodeKey np) with Some _ => false | None => true end.

(** The peers of the map: the known ones refreshed, in their old order, then
    the new ones in the map's order. *)
Definition kept (nps : list NetmapPeer) (ps : peers) : peers :=
  omap (fun mp => (fun np => refresh np mp) <$> found nps mp) ps.
Definition news (ps : peers) (nps : list NetmapPeer) : list NetmapPeer := List.filter (unknown ps) nps.
Definition mirror (ps : peers) (nps : list NetmapPeer) : peers := kept nps ps ++ map new_peer (news ps nps).

Definition touch (nps : list NetmapPeer) (mp : ManagedPeer) : ManagedPeer :=
  match found nps mp with Some np => refresh np mp | None => mp end.
Definition is_found (nps : list NetmapPeer) (mp : ManagedPeer) : bool :=
  match found nps mp with Some _ => true | None => false end.

Lemma index_of_app {A} (p : A -> bool) l k :
  index_of p (l ++ k) =
  match index_of p l with Some i => Some i | None => (fun i => (length l + i)%nat) <$> index_of p k end.
Proof.
  induction l as [|x l IH]; cbn [index_of app].
  - by destruct (index_of p k).
  - destruct (p x); [done|]. rewrite IH. destruct (index_of p l); [done|]. by destruct (index_of p k).
Qed.

Lemma index_of_None {A} (p : A -> bool) l : index_of p l = None <-> forall x, x ∈ l -> p x = false.
Proof.
  induction l as [|x l IH]; cbn [index_of].
  - split; [|done]. intros _ x Hx. by apply elem_of_nil in Hx.
  - destruct (p x) eqn:E.
    + split; [done|]. intros H. rewrite (H x) in E by apply list_elem_of_here. done.
    + destruct (index_of p l); split; try done.
      * intros H. exfalso. assert (Hn : Some n = None) by (apply IH; intros y Hy; apply H; by apply list_elem_of_further). done.
      * intros _ y [->|Hy]%elem_of_cons; [done|]. by apply IH.
Qed.

Lemma index_of_Some {A} (p : A -> bool) l i : index_of p l = Some i -> exists x, l !! i = Some x /\ p x = true.
Proof.
  revert i. induction l as [|x l IH]; intros i; cbn [index_of]; [done|].
  destruct (p x) eqn:E; [intros [= <-]; by exists x|].
  destruct (index_of p l) as [j|] eqn:Ej; [|done]. intros [= <-]. by apply IH.
Qed.

Lemma index_of_map {A B} (p : B -> bool) (f : A -> B) l : index_of p (map f l) = index_of (fun x => p (f x)) l.
Proof. induction l as [|x l IH]; cbn [index_of map]; [done|]. by rewrite IH. Qed.

Lemma str_eq_keys a b : Json.str_eq a b = true <-> cstr a = cstr b.
Proof. apply beq_true. Qed.

Lemma found_app pre np mp :
  found (pre ++ [np]) mp =
  match found pre mp with
  | Some n => Some n
  | None => if Json.str_eq (nodeKeyHex mp) (nodeKey np) then Some np else None
  end.
Proof.
  unfold found. induction pre as [|x pre IH]; cbn [List.find app]; [done|]. destruct (Json.str_eq (nodeKeyHex mp) (nodeKey x)); [done|exact IH].
Qed.

Lemma found_key nps mp np : found nps mp = Some np -> nkey np = key mp /\ np ∈ nps.
Proof.
  unfold found. intros [H1 H2]%List.find_some. split; [|by apply list_elem_of_In].
  symmetry. by apply str_eq_keys.
Qed.

Lemma touch_hex nps mp : nodeKeyHex (touch nps mp) = nodeKeyHex mp.
Proof. unfold touch. by destruct (found nps mp). Qed.

(** The state of the loop after the peers [pre] of the map. *)
Definition round_after (ps : peers) (pre : list NetmapPeer) : round :=
  mkRound (map (touch pre) ps ++ map new_peer (news ps pre)) (map (is_found pre) ps)
    (zlen (news ps pre)) (zlen pre - zlen (news ps pre)).

Lemma touch_snoc_other pre np mp : key mp <> nkey np -> touch (pre ++ [np]) mp = touch pre mp /\ is_found (pre ++ [np]) mp = is_found pre mp.
Proof.
  intros H. unfold touch, is_found. rewrite found_app. destruct (found pre mp); [done|].
  destruct (Json.str_eq _ _) eqn:E; [|done]. by apply str_eq_keys in E.
Qed.

Lemma touch_snoc_same pre np mp : key mp = nkey np -> nkey np ∉ map nkey pre ->
  touch pre mp = mp /\ touch (pre ++ [np]) mp = refresh np mp /\ is_found (pre ++ [np]) mp = true.
Proof.
  intros H Hn. unfold touch, is_found. rewrite found_app. destruct (found pre mp) as [n|] eqn:E.
  - exfalso. apply found_key in E as [E1 E2]. apply Hn. rewrite <- H, <- E1.
    apply (list_elem_of_fmap_2 nkey). done.
  - assert (Es : Json.str_eq (nodeKeyHex mp) (nodeKey np) = true) by by apply str_eq_keys. by rewrite Es.
Qed.

Lemma IndexOf_round ps pre np : nkey np ∉ map nkey pre ->
  _IndexOf (r_peers (round_after ps pre)) (nodeKey np) = _IndexOf ps (nodeKey np).
Proof.
  intros Hn. unfold _IndexOf, round_after. cbn [r_peers]. rewrite index_of_app, !index_of_map.
  assert (E : forall l, index_of (fun x => Json.str_eq (nodeKeyHex (touch pre x)) (nodeKey np)) l
              = index_of (fun x => Json.str_eq (nodeKeyHex x) (nodeKey np)) l).
  { induction l as [|x l IH]; [done|]. cbn [index_of]. by rewrite touch_hex, IH. }
  rewrite E. destruct (index_of _ ps); [done|].
  rewrite (proj2 (index_of_None _ (news ps pre))); [done|]. intros x Hx. apply not_true_iff_false.
  intros Ex. apply str_eq_keys in Ex. apply Hn. change (nkey x = nkey np) in Ex. rewrite <- Ex. apply (list_elem_of_fmap_2 nkey).
  apply list_elem_of_In in Hx. apply List.filter_In in Hx as [Hx _]. by apply list_elem_of_In.
Qed.

Lemma news_snoc ps pre np : news ps (pre ++ [np]) = news ps pre ++ (if unknown ps np then [np] else []).
Proof. unfold news. rewrite List.filter_app. cbn [List.filter]. by destruct (unknown ps np). Qed.

(** A list whose element [idx] alone changes. *)
Lemma map_alter {A B} (f g : A -> B) (k : B -> B) l idx :
  (forall x, l !! idx = Some x -> g x = k (f x)) ->
  (forall j x, l !! j = Some x -> j <> idx -> g x = f x) -> alter k idx (map f l) = map g l.
Proof.
  intros H1 H2. apply list_eq. intros j. change (map ?f l) with (f <$> l). destruct (decide (j = idx)) as [->|Hj].
  - rewrite list_lookup_alter_eq, !list_lookup_fmap. destruct (l !! idx) as [x|] eqn:E; [|done]. cbn. by rewrite H1.
  - rewrite list_lookup_alter_ne, !list_lookup_fmap by done. destruct (l !! j) as [x|] eqn:E; [|done]. cbn.
    by rewrite (H2 _ _ E Hj).
Qed.

Lemma insert_alter {A} (l : list A) i x : <[i := x]> l = alter (fun _ => x) i l.
Proof.
  apply list_eq. intros j. destruct (decide (j = i)) as [->|].
  - rewrite list_lookup_alter_eq. destruct (l !! i) eqn:E.
    + rewrite list_lookup_insert_eq by by eapply lookup_lt_Some. done.
    + rewrite list_insert_ge by by apply lookup_ge_None. by rewrite E.
  - by rewrite list_lookup_alter_ne, list_lookup_insert_ne.
Qed.

Lemma update_known ps pre np idx :
  NoDup (map key ps) -> nkey np ∉ map nkey pre -> _IndexOf ps (nodeKey np) = Some idx ->
  alter (refresh np) idx (map (touch pre) ps) = map (touch (pre ++ [np])) ps
  /\ <[idx := true]> (map (is_found pre) ps) = map (is_found (pre ++ [np])) ps.
Proof.
  intros Hps Hn Hi. apply index_of_Some in Hi as (mp & Hl & Hk). apply str_eq_keys in Hk.
  assert (Hother : forall j m, ps !! j = Some m -> j <> idx -> key m <> nkey np).
  { intros j m Hj Hne He. apply Hne. eapply (NoDup_lookup (map key ps)); [done| |];
      (change (map key ps) with (key <$> ps); rewrite list_lookup_fmap).
    - by rewrite Hj.
    - rewrite Hl. cbn. f_equal. by rewrite He. }
  destruct (touch_snoc_same pre np mp Hk Hn) as (E1 & E2 & E3). rewrite insert_alter.
  split; apply map_alter.
  - intros m Hm. assert (m = mp) as -> by congruence. congruence.
  - intros j m Hj Hne. by apply touch_snoc_other, (Hother j).
  - intros m Hm. assert (m = mp) as -> by congruence. congruence.
  - intros j m Hj Hne. by apply touch_snoc_other, (Hother j).
Qed.

Lemma update_peer_spec ps pre np :
  NoDup (map key ps) -> nkey np ∉ map nkey pre -> usable np = true ->
  update_peer (round_after ps pre) np = Some (round_after ps (pre ++ [np])).
Proof.
  intros Hps Hn Hu. unfold update_peer. unfold usable in Hu.
  destruct (zlen (nodeKey np) =? 0); [done|]. rewrite IndexOf_round by done.
  unfold round_after. rewrite news_snoc. unfold unknown. destruct (_IndexOf ps (nodeKey np)) as [idx|] eqn:Ei.
  - destruct (update_known ps pre np idx Hps Hn Ei) as [E1 E2].
    pose proof (index_of_Some _ _ _ Ei) as (mp & Hl%lookup_lt_Some & _). cbn [r_seen r_added r_updated r_peers].
    rewrite length_map. destruct (decide _) as [_|]; [|done].
    rewrite alter_app_l, E1, E2, app_nil_r, zlen_app by by rewrite length_map.
    unfold news. rewrite (zlen_cons np []), zlen_nil. do 2 f_equal. lia.
  - cbn [r_seen r_added r_updated r_peers].
    assert (Hall : forall m, m ∈ ps -> key m <> nkey np).
    { intros m Hm He. pose proof (proj1 (index_of_None _ ps) Ei m Hm) as Hf. cbn beta in Hf.
      apply not_true_iff_false in Hf. apply Hf. by apply str_eq_keys. }
    rewrite map_app, app_assoc, !zlen_app, zlen_cons, zlen_nil. cbn [map]. do 2 f_equal; [| |lia].
    + do 2 f_equal. apply map_ext_in. intros m Hm%list_elem_of_In. symmetry. by apply touch_snoc_other, Hall.
    + apply map_ext_in. intros m Hm%list_elem_of_In. symmetry. by apply touch_snoc_other, Hall.
Qed.

Lemma update_peers_spec ps nps pre :
  NoDup (map key ps) -> NoDup (map nkey (pre ++ List.filter usable nps)) ->
  update_peers (round_after ps pre) nps = Some (round_after ps (pre ++ List.filter usable nps)).
Proof.
  intros Hps. revert pre. induction nps as [|np nps IH]; intros pre Hd; cbn [update_peers List.filter] in *.
  - by rewrite app_nil_r.
  - destruct (usable np) eqn:Hu.
    + rewrite update_peer_spec; [|done| |done].
      * cbn [mbind option_bind]. replace (pre ++ np :: List.filter usable nps) with ((pre ++ [np]) ++ List.filter usable nps) in * by by rewrite <- app_assoc.
        by apply IH.
      * rewrite map_app in Hd. apply NoDup_app in Hd as (_ & Hd & _). intros H. apply (Hd _ H).
        cbn [map]. apply list_elem_of_here.
    + unfold update_peer at 1. unfold usable in Hu. destruct (zlen (nodeKey np) =? 0); [|done]. cbn [mbind option_bind].
      by apply IH.
Qed.

Lemma drop_unseen_beyond n ps seen rm : (length seen <= n)%nat ->
  drop_unseen n ps seen rm = drop_unseen (length seen) ps seen rm.
Proof.
  induction 1 as [|n Hn IH]; [done|]. cbn [drop_unseen]. by rewrite lookup_ge_None_2.
Qed.

Lemma drop_unseen_filter (f : ManagedPeer -> ManagedPeer) (g : ManagedPeer -> bool) base tail rest rm :
  drop_unseen (length base) (map f base ++ tail) (map g base ++ rest) rm
  = (map f (List.filter g base) ++ tail, rm + (zlen base - zlen (List.filter g base))).
Proof.
  revert tail rest rm. induction base as [|x base IH] using rev_ind; intros tail rest rm; [cbn; by rewrite Z.add_0_r|].
  rewrite length_app, Nat.add_1_r. cbn [drop_unseen]. rewrite !map_app, List.filter_app, <- !app_assoc. cbn [map app List.filter].
  rewrite list_lookup_middle by by rewrite length_map. destruct (g x).
  - rewrite IH, !map_app, <- app_assoc, !zlen_app. cbn [map app]. rewrite !zlen_cons. f_equal. lia.
  - pose proof (delete_middle (map f base) tail (f x)) as D. rewrite length_map in D. rewrite D, IH, !zlen_app, app_nil_r, !zlen_cons, !zlen_nil. f_equal. lia.
Qed.

Lemma kept_filter nps ps : map (touch nps) (List.filter (is_found nps) ps) = kept nps ps.
Proof.
  unfold kept. induction ps as [|p ps IH]; [done|]. cbn [List.filter omap list_omap].
  unfold is_found at 1. destruct (found nps p) as [np|] eqn:E; cbn [fmap option_fmap option_map]; [|exact IH].
  cbn [map]. unfold touch at 1. by rewrite E, IH.
Qed.

Lemma Update_mirror ps nm :
  let nps := List.filter usable (fPeers nm) in
  NoDup (map key ps) -> NoDup (map nkey nps) ->
  Update ps nm = Some (mirror ps nps,
    mkCounts (zlen (news ps nps)) (zlen ps - zlen (kept nps ps)) (zlen nps - zlen (news ps nps))).
Proof.
  intros nps Hps Hd. unfold Update.
  assert (E0 : mkRound ps (replicate (length ps) false) 0 0 = round_after ps []).
  { unfold round_after. cbn. rewrite app_nil_r. f_equal.
    - symmetry. apply map_id.
    - clear. induction ps as [|p ps IH]; cbn; [done|]. by f_equal. }
  rewrite E0, update_peers_spec by done. cbn [mbind option_bind app]. fold nps.
  unfold round_after. cbn [r_peers r_seen r_added r_updated].
  rewrite drop_unseen_beyond by (rewrite length_app, !length_map; lia). rewrite length_map.
  pose proof (drop_unseen_filter (touch nps) (is_found nps) ps (map new_peer (news ps nps)) [] 0) as D.
  rewrite app_nil_r in D. rewrite D. unfold mirror. rewrite kept_filter, <- kept_filter, zlen_map. done.
Qed.

Lemma kept_keys nps ps : map key (kept nps ps) = List.filter (fun k => bool_decide (k ∈ map nkey nps)) (map key ps).
Proof.
  unfold kept. induction ps as [|p ps IH]; [done|]. cbn [omap list_omap map List.filter].
  destruct (found nps p) as [np|] eqn:E; cbn [fmap option_fmap option_map].
  - rewrite bool_decide_true; [cbn [map]; by f_equal|]. apply found_key in E as [<- Hn]. by apply (list_elem_of_fmap_2 nkey).
  - rewrite bool_decide_false; [exact IH|]. intros (np & Ek & Hn)%list_elem_of_fmap. unfold found in E.
    apply list_elem_of_In in Hn. apply (List.find_none _ _ E) in Hn. cbn beta in Hn.
    apply not_true_iff_false in Hn. apply Hn. by apply str_eq_keys.
Qed.

Lemma unknown_spec ps np : unknown ps np = true <-> nkey np ∉ map key ps.
Proof.
  unfold unknown, _IndexOf. destruct (index_of _ ps) as [i|] eqn:E; split; try done.
  - intros H. exfalso. apply index_of_Some in E as (mp & Hl & Hk). apply H. apply str_eq_keys in Hk.
    change (key mp = nkey np) in Hk. rewrite <- Hk. apply (list_elem_of_fmap_2 key). by eapply list_elem_of_lookup_2.
  - intros _ (mp & Ek & Hm)%list_elem_of_fmap. pose proof (proj1 (index_of_None _ _) E mp Hm) as H. cbn beta in H.
    apply not_true_iff_false in H. apply H. by apply str_eq_keys.
Qed.

Lemma elem_kept mp nps ps : mp ∈ kept nps ps <-> exists old np, old ∈ ps /\ found nps old = Some np /\ mp = refresh np old.
Proof.
  unfold kept. rewrite list_elem_of_omap. split.
  - intros (old & Ho & E). destruct (found nps old) as [np|] eqn:Ef; [|done]. injection E as <-. by exists old, np.
  - intros (old & np & Ho & Ef & ->). exists old. split; [done|]. by rewrite Ef.
Qed.

Lemma elem_news np ps nps : np ∈ news ps nps <-> np ∈ nps /\ nkey np ∉ map key ps.
Proof. unfold news. rewrite list_elem_of_In, List.filter_In, unknown_spec, <- list_elem_of_In. done. Qed.

Lemma news_keys ps nps : NoDup (map nkey nps) -> NoDup (map nkey (news ps nps)).
Proof.
  unfold news. induction nps as [|np nps IH]; [done|]. cbn [map List.filter]. intros [Hn Hd]%NoDup_cons.
  destruct (unknown ps np); [|by apply IH]. cbn [map]. apply NoDup_cons. split; [|by apply IH].
  intros (x & E & Hx)%list_elem_of_fmap. apply Hn. rewrite E. apply (list_elem_of_fmap_2 nkey).
  apply list_elem_of_In in Hx. apply List.filter_In in Hx as [Hx _]. by apply list_elem_of_In.
Qed.

Lemma mirror_keys ps nps : NoDup (map key ps) -> NoDup (map nkey nps) ->
  NoDup (map key (mirror ps nps)) /\ forall k, k ∈ map key (mirror ps nps) <-> k ∈ map nkey nps.
Proof.
  intros Hp Hn. unfold mirror. rewrite map_app, map_map, kept_keys. change (fun x => key (new_peer x)) with nkey. split.
  - apply NoDup_app. split_and!.
    + apply NoDup_ListNoDup, List.NoDup_filter, NoDup_ListNoDup. done.
    + intros k Hk (np & -> & [_ Hx]%elem_news)%list_elem_of_fmap. apply list_elem_of_In, List.filter_In in Hk as [Hk _].
      apply Hx. by apply list_elem_of_In.
    + by apply news_keys.
  - intros k. rewrite elem_of_app, (list_elem_of_In (List.filter _ _)), List.filter_In, <- list_elem_of_In, bool_decide_eq_true. split.
    + intros [[_ H]|(np & -> & [H _]%elem_news)%list_elem_of_fmap]; [done|]. by apply (list_elem_of_fmap_2 nkey).
    + intros Hk. destruct (decide (k ∈ map key ps)) as [|Hu]; [by left|]. right.
      apply list_elem_of_fmap in Hk as (np & -> & Hnp). apply (list_elem_of_fmap_2 nkey). by apply elem_news.
Qed.

Lemma nkey_inj nps a b : NoDup (map nkey nps) -> a ∈ nps -> b ∈ nps -> nkey a = nkey b -> a = b.
Proof.
  intros Hd [i Hi]%list_elem_of_lookup_1 [j Hj]%list_elem_of_lookup_1 E.
  assert (i = j) as -> by (eapply (NoDup_lookup (map nkey nps)); [done| |];
    change (map nkey nps) with (nkey <$> nps); rewrite list_lookup_fmap; [by rewrite Hi|rewrite Hj; cbn; by rewrite E]).
  congruence.
Qed.

(** What the map says about a peer. *)
Definition describes (np : NetmapPeer) (mp : ManagedPeer) : Prop :=
  m_discoKey mp = discoKey np /\ m_hostname mp = hostname np /\ m_online mp = online np
  /\ m_derpRegion mp = derpRegion np /\ m_allowedIPs mp = allowedIPs np /\ m_endpoints mp = endpoints np
  /\ (0 <= derpRegion np -> PeerPath.fMode (path mp) <> PeerPath.PATH_NONE).

Lemma use_derp_mode np p : 0 <= derpRegion np -> PeerPath.fMode (use_derp np p) <> PeerPath.PATH_NONE.
Proof.
  intros H. unfold use_derp. destruct (Z.geb_spec (derpRegion np) 0); [|lia].
  unfold PeerPath.UseDerp. destruct (PeerPath.fMode p) eqn:E; cbn; rewrite ?E; done.
Qed.

Lemma mirror_describes ps nps mp np :
  NoDup (map nkey nps) -> mp ∈ mirror ps nps -> np ∈ nps -> key mp = nkey np -> describes np mp.
Proof.
  intros Hd [(old & n & Ho & [Ek Hn]%found_key & ->)%elem_kept|(n & -> & [Hn _]%elem_news)%list_elem_of_fmap]%elem_of_app Hnp E.
  - assert (n = np) as -> by (eapply nkey_inj; [done..|]; by rewrite Ek). split_and!; try done. apply use_derp_mode.
  - assert (n = np) as -> by (by eapply nkey_inj). split_and!; try done. apply use_derp_mode.
Qed.

(** Update makes the peer set mirror the network map: with one entry per key on both sides it writes inside its flag vector, leaves exactly the map's keys, once each, every peer carrying the map's data, keeps the WireGuard state and timers of every peer the map still lists, and counts the added, removed and updated peers. *)
Theorem Update_mirrors ps nm :
  let nps := List.filter usable (fPeers nm) in
  NoDup (map key ps) -> NoDup (map nkey nps) ->
  exists ps' c, Update ps nm = Some (ps', c)
    /\ NoDup (map key ps') /\ (forall k, k ∈ map key ps' <-> k ∈ map nkey nps)
    /\ (forall mp np, mp ∈ ps' -> np ∈ nps -> key mp = nkey np -> describes np mp)
    /\ (forall old, old ∈ ps -> key old ∈ map nkey nps ->
          exists mp, mp ∈ ps' /\ key mp = key old /\ wg mp = wg old
            /\ lastHandshake mp = lastHandshake old /\ lastDiscoPing mp = lastDiscoPing old)
    /\ outAdded c = zlen ps' - (zlen ps - outRemoved c) /\ outUpdated c = zlen ps - outRemoved c
    /\ outAdded c = zlen (List.filter (fun np => bool_decide (nkey np ∉ map key ps)) nps).
Proof.
  intros nps Hp Hn. eexists _, _. split; [by apply Update_mirror|]. fold nps.
  destruct (mirror_keys ps nps Hp Hn) as [H1 H2]. cbn [outAdded outRemoved outUpdated].
  split_and!; [done|done| | | | |].
  - intros mp np Hm Hnp E. by eapply mirror_describes.
  - intros old Ho Hk. assert (exists np, found nps old = Some np) as [np E].
    { destruct (found nps old) as [np|] eqn:E; [by exists np|]. exfalso.
      apply list_elem_of_fmap in Hk as (np & Ek & Hnp). apply list_elem_of_In in Hnp. unfold found in E.
      apply (List.find_none _ _ E) in Hnp. apply not_true_iff_false in Hnp. apply Hnp. by apply str_eq_keys. }
    exists (refresh np old). split_and!; try done. apply elem_of_app. left. apply elem_kept. by exists old, np.
  - unfold mirror. rewrite zlen_app, zlen_map. lia.
  - assert (Hl : zlen (mirror ps nps) = zlen nps).
    { unfold zlen. f_equal. rewrite <- (length_map key), <- (length_map nkey).
      apply Permutation_length, NoDup_Permutation; done. }
    unfold mirror in Hl. rewrite zlen_app, zlen_map in Hl. lia.
  - unfold news. f_equal. apply List.filter_ext. intros np. apply eq_true_iff_eq. by rewrite unknown_spec, bool_decide_eq_true.
Qed.

Definition demo_set : peers := map new_peer [demo_peer "aa" "a" []; demo_peer "bb" "b" []].

Lemma Update_mirrors_witness :
  exists ps' c, Update demo_set (mkNetmap [] [demo_peer "cc" "c" []; demo_peer "bb" "beta" []] [] (mkDns [] [])) = Some (ps', c)
  /\ NoDup (map key ps').
Proof.
  destruct (Update_mirrors demo_set (mkNetmap [] [demo_peer "cc" "c" []; demo_peer "bb" "beta" []] [] (mkDns [] [])))
    as (ps' & c & A & B & _).
  - apply (bool_decide_unpack (NoDup _)). vm_compute. exact I.
  - apply (bool_decide_unpack (NoDup _)). vm_compute. exact I.
  - exists ps', c. split; [exact A|exact B].
Defined.

Example Update_example :
  match Update demo_set (mkNetmap [] [demo_peer "cc" "c" []; demo_peer "bb" "beta" []] [] (mkDns [] [])) with
  | Some (ps, c) => (map (fun p => (key p, m_hostname p)) ps, c)
                    = ([(bs "bb", bs "beta"); (bs "cc", bs "c")], mkCounts 1 1 1)
  | None => False
  end.
Proof. vm_compute. reflexivity. Qed.

(** A map that lists a new key twice writes outside the flag vector. *)
Example duplicate_new_key_overruns :
  Update [] (mkNetmap [] [demo_peer "aa" "a" []; demo_peer "aa" "b" []] [] (mkDns [] [])) = None.
Proof. vm_compute. reflexivity. Qed.

End PeerSet.
