(* ===== verification/MagicDns.v ===== *)
(** * MagicDns: the tailnet's stub resolver (src/backend/tailscale/TSMagicDns.{h,cpp})

    DNS messages are byte lists; an [ssize_t] result with its out-buffer is an
    [option bytes]: [None] is -1 and the length of the list is the value
    returned otherwise, so [Some \[\]] is the 0 that tells the caller to
    forward.  Offsets are read under the source's own length checks. *)

From S2P Require Import Prelude CLib Routes Json Netmap.
Open Scope Z_scope.
Open Scope soto_scope.

Module MagicDns.

Import Netmap.

Definition kDnsHeaderLen : Z := 12.
Definition kTypeA : Z := 1.
Definition kClassIN : Z := 1.

Definition to_lower (s : bytes) : bytes := map tolower s.

(** ** Messages *)

(** The offset past the terminating zero and the name; every label consumes a
    byte, so the length of the buffer is fuel enough. *)
Fixpoint decode_labels (fuel : nat) (buf : bytes) (off : Z) (outName : bytes) : option (Z * bytes) :=
  match fuel with
  | O => None
  | S fuel =>
      if off <? zlen buf then
        let labelLen := at_ buf off in
        let off := off + 1 in
        if labelLen =? 0 then Some (off, outName)
        else if negb (labelLen .& 0xc0 =? 0) then None
        else if off + labelLen >? zlen buf then None
        else
          let outName := if zlen outName >? 0 then outName ++ [46] else outName in
          decode_labels fuel buf (off + labelLen) (outName ++ to_lower (slice off labelLen buf))
      else None
  end.

Definition decode_qname (buf : bytes) (off : Z) : option (Z * bytes) :=
  decode_labels (S (length buf)) buf off [].

(** The name, the type and the id. *)
Definition DnsParseQuestion (buf : bytes) : option (bytes * Z * Z) :=
  if zlen buf <? kDnsHeaderLen then None
  else
    let qdcount := u16 ((at_ buf 4 ≪ 8) .| at_ buf 5) in
    if qdcount <? 1 then None
    else
      let id := u16 ((at_ buf 0 ≪ 8) .| at_ buf 1) in
      match decode_qname buf kDnsHeaderLen with
      | None => None
      | Some (off, outName) =>
          if off + 4 >? zlen buf then None
          else Some (outName, u16 ((at_ buf off ≪ 8) .| at_ buf (off + 1)), id)
      end.

(** [p] is what remains of the name, [w] the bytes written so far. *)
Fixpoint encode_labels (fuel : nat) (p : bytes) (w cap : Z) : option bytes :=
  match fuel with
  | O => None
  | S fuel =>
      match p with
      | [] => Some [0]
      | _ =>
          let '(label, rest) :=
            match find_first 46 p with
            | Some dot => (ztake dot p, zdrop (dot + 1) p)
            | None => (p, [])
            end in
          let labelLen := zlen label in
          if (labelLen =? 0) || (labelLen >? 63) then None
          else if w + 1 + labelLen + 1 >? cap then None
          else tail ← encode_labels fuel rest (w + 1 + labelLen) cap; Some (labelLen :: label ++ tail)
      end
  end.

Definition encode_qname (name : bytes) (cap : Z) : option bytes := encode_labels (S (length name)) name 0 cap.

Definition be16 (x : Z) : bytes := [u8 (x ≫ 8); x .& 0xff].

Definition DnsBuildQuery (name : bytes) (id cap : Z) : option bytes :=
  if cap <? kDnsHeaderLen + 5 then None
  else
    match encode_qname name (cap - kDnsHeaderLen - 4) with
    | None => None
    | Some qname => Some (be16 id ++ [1; 0; 0; 1; 0; 0; 0; 0; 0; 0] ++ qname ++ be16 kTypeA ++ be16 kClassIN)
    end.

(** ** The host table *)

Record dns := mkMagic { fDomain : bytes; fHosts : list (bytes * bytes) }.
Definition MagicDns : dns := mkMagic [] [].

(** [None] is NULL. *)
Definition SetTailnetDomain (domain : option bytes) (d : dns) : dns :=
  mkMagic (match domain with Some s => to_lower s | None => [] end) (fHosts d).

Definition AddHost (hostname ipv4 : option bytes) (d : dns) : dns :=
  match hostname, ipv4 with
  | Some h, Some ip => mkMagic (fDomain d) (fHosts d ++ [(to_lower h, ip)])
  | _, _ => d
  end.

Definition Clear (d : dns) : dns := mkMagic (fDomain d) [].

Fixpoint first_ipv4 (cidrs : list bytes) : bytes :=
  match cidrs with
  | [] => []
  | c :: cidrs =>
      match find_first 58 c with
      | Some _ => first_ipv4 cidrs
      | None =>
          let ip := match find_first 47 c with Some slash => ztake slash c | None => c end in
          if zlen ip >? 0 then ip else first_ipv4 cidrs
      end
  end.

Definition add_peer (d : dns) (p : NetmapPeer) : dns :=
  if zlen (hostname p) =? 0 then d
  else
    let ip := first_ipv4 (allowedIPs p) in
    if zlen ip >? 0 then AddHost (Some (cstr (hostname p))) (Some (cstr ip)) d else d.

Definition LoadFromNetmap (nm : netmap) (d : dns) : dns :=
  let d := Clear d in
  let d := match domains (fDns nm) with
           | domain :: _ => SetTailnetDomain (Some (cstr domain)) d
           | [] => d
           end in
  fold_left add_peer (fPeers nm) d.

Definition _LocalName (d : dns) (queried : bytes) : bytes :=
  let suffix := 46 :: fDomain d in
  if (zlen (fDomain d) >? 0) && is_suffix suffix queried then ztake (zlen queried - zlen suffix) queried
  else match find_first 46 queried with
       | None => queried
       | Some _ => []
       end.

Fixpoint find_host (host : bytes) (l : list (bytes * bytes)) : option bytes :=
  match l with
  | [] => None
  | (name, ip) :: l => if Json.str_eq name host then Some ip else find_host host l
  end.

Definition response (query question : bytes) (a b c d : Z) : bytes :=
  [at_ query 0; at_ query 1; u8 (0x84 .| (at_ query 2 .& 1)); 0; 0; 1; 0; 1; 0; 0; 0; 0] ++ question ++
  [0xc0; 0x0c] ++ be16 kTypeA ++ be16 kClassIN ++ [0; 0; 1; 0x2c; 0; 4; u8 a; u8 b; u8 c; u8 d].

Definition Resolve (d : dns) (query : bytes) (cap : Z) : option bytes :=
  match DnsParseQuestion query with
  | None => None
  | Some (name, type, id) =>
      if negb (type =? kTypeA) then Some []
      else
        let host := _LocalName d name in
        if zlen host =? 0 then Some []
        else
          match find_host host (fHosts d) with
          | None => Some []
          | Some ip =>
              match sscanf_ipv4 ip with
              | None => Some []
              | Some (a, b, c, e) =>
                  match decode_qname query kDnsHeaderLen with
                  | None => None
                  | Some (qEnd, _) =>
                      let questionLen := qEnd + 4 - kDnsHeaderLen in
                      if cap <? kDnsHeaderLen + questionLen + 16 then None
                      else Some (response query (slice kDnsHeaderLen questionLen query) a b c e)
                  end
              end
          end
  end.

Example resolve_example :
  let d := LoadFromNetmap (mkNetmap [] [mkPeer 1 [] [] (bs "NAS") true (-1) [bs "fd7a::6/128"; bs "100.64.1.6/32"] []] [] (mkDns [] [bs "tail1.ts.net"])) MagicDns in
  (q ← DnsBuildQuery (bs "nas.Tail1.ts.net") 0x1234 512; r ← Resolve d q 512; Some (ztake 4 r, zdrop (zlen r - 4) r))
  = Some ([0x12; 0x34; 0x85; 0], [100; 64; 1; 6]).
Proof. vm_compute. reflexivity. Qed.

(** ** Names on the wire *)

Definition label_ok (l : bytes) : Prop := 0 < zlen l <= 63 /\ Forall (fun c => is_byte c /\ c <> 0 /\ c <> 46) l.

Fixpoint join (ls : list bytes) : bytes :=
  match ls with
  | [] => []
  | [l] => l
  | l :: ls => l ++ 46 :: join ls
  end.

Definition wire (ls : list bytes) : bytes := flat_map (fun l => zlen l :: l) ls ++ [0].

Lemma wire_cons l ls : wire (l :: ls) = (zlen l :: l) ++ wire ls.
Proof. unfold wire. cbn [flat_map]. by rewrite <- app_assoc. Qed.

Lemma label_no_dot l : label_ok l -> 46 ∉ l.
Proof. intros [_ H] Hi. rewrite Forall_forall in H. by apply H in Hi as (_ & _ & ?). Qed.

Lemma join_cons l ls : join (l :: ls) = l ++ match ls with [] => [] | _ => 46 :: join ls end.
Proof. destruct ls; [cbn; by rewrite app_nil_r|done]. Qed.

Lemma encode_labels_wire fuel ls w cap out :
  Forall label_ok ls -> encode_labels fuel (join ls) w cap = Some out ->
  out = wire ls /\ (ls <> [] -> w + zlen (wire ls) <= cap).
Proof.
  intros Hl. revert fuel w out. induction Hl as [|l ls Hok Hl IH]; intros [|fuel] w out; try done.
  - cbn. by intros [= <-].
  - pose proof (label_no_dot _ Hok) as Hd. cbn [encode_labels].
    destruct (join (l :: ls)) as [|c p] eqn:Ej.
    { exfalso. rewrite join_cons in Ej. destruct Hok as [Hz _]. destruct l; [change (zlen (@nil Z)) with 0 in Hz; lia|discriminate Ej]. }
    rewrite <- Ej, join_cons. clear c p Ej.
    assert (E : match find_first 46 (l ++ match ls with [] => [] | _ => 46 :: join ls end) with
                | Some dot => (ztake dot (l ++ match ls with [] => [] | _ => 46 :: join ls end),
                               zdrop (dot + 1) (l ++ match ls with [] => [] | _ => 46 :: join ls end))
                | None => (l ++ match ls with [] => [] | _ => 46 :: join ls end, [])
                end = (l, join ls)).
    { destruct ls as [|l' ls'].
      - rewrite app_nil_r. by rewrite (proj2 (find_first_None 46 l) Hd).
      - rewrite find_first_app, ztake_app by done. f_equal.
        replace (l ++ 46 :: join (l' :: ls')) with ((l ++ [46]) ++ join (l' :: ls')) by by rewrite <- app_assoc.
        apply zdrop_app. rewrite zlen_app, zlen_cons, zlen_nil. lia. }
    rewrite E. destruct (_ || _); [done|]. destruct (Z.gtb_spec (w + 1 + zlen l + 1) cap); [done|].
    destruct (encode_labels fuel (join ls) (w + 1 + zlen l) cap) as [tail|] eqn:Et; [|done]. cbn [mbind option_bind]. intros [= <-].
    apply IH in Et as [-> Hw]. rewrite wire_cons. split; [done|]. intros _.
    rewrite zlen_app, zlen_cons. destruct ls as [|l' ls']; [change (zlen (wire [])) with 1; lia|].
    specialize (Hw ltac:(done)). lia.
Qed.

Definition add_label (o l : bytes) : bytes := (if zlen o >? 0 then o ++ [46] else o) ++ to_lower l.

Lemma land_c0 n : 0 <= n <= 63 -> n .& 0xc0 = 0.
Proof.
  intros H. assert (E : forallb (fun n => (63 <? n) || (n .& 0xc0 =? 0)) all_bytes = true) by (vm_compute; reflexivity).
  apply (byte_forall _ n) in E; [|unfold is_byte; lia]. cbn beta in E. destruct (Z.ltb_spec 63 n); [lia|]. by apply Z.eqb_eq.
Qed.

Lemma decode_labels_wire fuel pre ls post o :
  Forall label_ok ls -> (length ls < fuel)%nat ->
  decode_labels fuel (pre ++ wire ls ++ post) (zlen pre) o
  = Some (zlen pre + zlen (wire ls), fold_left add_label ls o).
Proof.
  intros Hl. revert fuel pre o. induction Hl as [|l ls [Hz Hb] Hl IH]; intros [|fuel] pre o Hf; try (cbn in Hf; lia);
    cbn [decode_labels]; pose proof (zlen_nonneg pre); pose proof (zlen_nonneg post).
  - rewrite !zlen_app. unfold wire. cbn [flat_map app]. rewrite zlen_cons, zlen_nil.
    destruct (Z.ltb_spec (zlen pre) (zlen pre + (0 + 1 + zlen post))); [|lia].
    rewrite at_app_r, Z.sub_diag by lia. cbn. done.
  - pose proof (zlen_nonneg (wire ls)).
    rewrite wire_cons, !zlen_app, !zlen_cons. destruct (Z.ltb_spec (zlen pre) (zlen pre + (zlen l + 1 + zlen (wire ls) + zlen post))); [|lia].
    rewrite <- app_assoc, at_app_r, Z.sub_diag by lia. change (at_ ((zlen l :: l) ++ _) 0) with (zlen l).
    destruct (Z.eqb_spec (zlen l) 0); [lia|]. rewrite land_c0 by lia. cbn [Z.eqb negb].
    destruct (Z.gtb_spec (zlen pre + 1 + zlen l) (zlen pre + (zlen l + 1 + zlen (wire ls) + zlen post))); [lia|].
    replace (pre ++ (zlen l :: l) ++ wire ls ++ post) with ((pre ++ [zlen l]) ++ l ++ wire ls ++ post) at 2 by by rewrite <- app_assoc.
    rewrite slice_app_mid by (rewrite ?zlen_app, ?zlen_cons, ?zlen_nil; lia).
    replace (pre ++ (zlen l :: l) ++ wire ls ++ post) with ((pre ++ zlen l :: l) ++ wire ls ++ post) by by rewrite <- app_assoc.
    replace (zlen pre + 1 + zlen l) with (zlen (pre ++ zlen l :: l)) by (rewrite zlen_app, zlen_cons; lia).
    rewrite IH by (cbn in Hf; lia). rewrite zlen_app, zlen_cons. cbn [fold_left]. do 2 f_equal. lia.
Qed.

Lemma fold_labels_app ls o : zlen o > 0 -> fold_left add_label ls o = o ++ flat_map (fun l => 46 :: to_lower l) ls.
Proof.
  revert o. induction ls as [|l ls IH]; intros o Ho; cbn [fold_left flat_map]; [by rewrite app_nil_r|].
  unfold add_label at 2. destruct (Z.gtb_spec (zlen o) 0); [|lia]. pose proof (zlen_nonneg (to_lower l)).
  rewrite IH by (rewrite !zlen_app, zlen_cons, zlen_nil; lia). by rewrite <- !app_assoc.
Qed.

Lemma fold_labels ls : Forall label_ok ls -> fold_left add_label ls [] = to_lower (join ls).
Proof.
  destruct 1 as [|l ls [Hz _] Hl]; [done|]. cbn [fold_left].
  change (add_label [] l) with (to_lower l). rewrite fold_labels_app by (unfold to_lower; rewrite zlen_map; lia).
  unfold to_lower at 3. rewrite join_cons, map_app. f_equal. clear Hz. induction Hl as [|l' ls' _ _ IH]; [done|].
  cbn [flat_map]. rewrite IH. destruct ls'; cbn; unfold to_lower; by rewrite ?app_nil_r, ?map_app.
Qed.

Lemma wire_fuel ls : (length ls < length (wire ls))%nat.
Proof.
  induction ls as [|l ls IH]; [cbn; lia|]. rewrite wire_cons, length_app. cbn [length]. lia.
Qed.

(** The query of a well-formed name and how it reads back. *)
Lemma BuildQuery_parses ls id cap q :
  Forall label_ok ls -> DnsBuildQuery (join ls) id cap = Some q ->
  q = be16 id ++ [1; 0; 0; 1; 0; 0; 0; 0; 0; 0] ++ wire ls ++ [0; 1; 0; 1]
  /\ decode_qname q kDnsHeaderLen = Some (kDnsHeaderLen + zlen (wire ls), to_lower (join ls))
  /\ DnsParseQuestion q = Some (to_lower (join ls), kTypeA, u16 ((u8 (id ≫ 8) ≪ 8) .| (id .& 0xff))).
Proof.
  intros Hl. unfold DnsBuildQuery. destruct (cap <? _); [done|]. unfold encode_qname.
  destruct (encode_labels _ _ 0 _) as [qn|] eqn:Ee; [|done]. intros [= Hq].
  apply encode_labels_wire in Ee as [-> _]; [|done]. change (be16 kTypeA ++ be16 kClassIN) with [0; 1; 0; 1] in Hq.
  set (hdr := be16 id ++ [1; 0; 0; 1; 0; 0; 0; 0; 0; 0]) in *.
  assert (Hh : q = hdr ++ wire ls ++ [0; 1; 0; 1]) by (rewrite <- Hq; unfold hdr; by rewrite <- app_assoc).
  assert (Hd : decode_qname q kDnsHeaderLen = Some (kDnsHeaderLen + zlen (wire ls), to_lower (join ls))).
  { rewrite Hh. unfold decode_qname. change kDnsHeaderLen with (zlen hdr). rewrite decode_labels_wire, fold_labels; [done|done|done|].
    rewrite !length_app. pose proof (wire_fuel ls). lia. }
  pose proof (zlen_nonneg (wire ls)). assert (Hz : zlen q = 12 + zlen (wire ls) + 4) by (rewrite Hh, !zlen_app; change (zlen hdr) with 12; change (zlen [0; 1; 0; 1]) with 4; lia).
  split; [by rewrite <- Hq|]. split; [done|]. unfold DnsParseQuestion. rewrite Hd, Hz. unfold kDnsHeaderLen.
  destruct (Z.ltb_spec (12 + zlen (wire ls) + 4) 12); [lia|].
  replace (u16 ((at_ q 4 ≪ 8) .| at_ q 5)) with 1 by by rewrite <- Hq. cbn [Z.ltb Z.compare].
  destruct (Z.gtb_spec (12 + zlen (wire ls) + 4) (12 + zlen (wire ls) + 4)); [lia|].
  assert (Hat : at_ q (12 + zlen (wire ls)) = 0 /\ at_ q (12 + zlen (wire ls) + 1) = 1).
  { rewrite Hh, app_assoc. change 12 with (zlen hdr). rewrite <- zlen_app. split.
    - by rewrite at_app_r, Z.sub_diag by lia.
    - rewrite at_app_r by lia. by replace (zlen (hdr ++ wire ls) + 1 - zlen (hdr ++ wire ls)) with 1 by lia. }
  destruct Hat as [-> ->]. rewrite <- Hq. done.
Qed.

(** ** The host table of a map *)

(** [p] gets an entry: it has a name and an IPv4 address. *)
Definition listed (p : NetmapPeer) : bool := (zlen (hostname p) >? 0) && (zlen (first_ipv4 (allowedIPs p)) >? 0).
Definition table_name (p : NetmapPeer) : bytes := to_lower (cstr (hostname p)).
Definition address (p : NetmapPeer) : bytes := cstr (first_ipv4 (allowedIPs p)).

(** The first listed peer of the map with the name, whatever its case. *)
Definition owner (ps : list NetmapPeer) (host : bytes) : option NetmapPeer :=
  List.find (fun p => listed p && beq (table_name p) (to_lower host)) ps.

Lemma Load_hosts nm d :
  fHosts (LoadFromNetmap nm d) = map (fun p => (table_name p, address p)) (List.filter listed (fPeers nm)).
Proof.
  unfold LoadFromNetmap.
  assert (E : forall ps d, fHosts (fold_left add_peer ps d) = fHosts d ++ map (fun p => (table_name p, address p)) (List.filter listed ps)).
  { induction ps as [|p ps IH]; intros d'; cbn [fold_left]; [by rewrite app_nil_r|]. rewrite IH. unfold add_peer. cbn [List.filter].
    unfold listed at 2. pose proof (zlen_nonneg (hostname p)).
    destruct (Z.eqb_spec (zlen (hostname p)) 0), (Z.gtb_spec (zlen (hostname p)) 0); try lia; [done|]. cbn [andb].
    destruct (zlen (first_ipv4 (allowedIPs p)) >? 0); [|done]. cbn. by rewrite <- app_assoc. }
  rewrite E. by destruct (domains (fDns nm)).
Qed.

Lemma tolower_nul c : tolower c = 0 -> c = 0.
Proof. unfold tolower. destruct (Z.leb_spec 65 c), (Z.leb_spec c 90); cbn; lia. Qed.

Lemma tolower_dot c : tolower c = 46 -> c = 46.
Proof. unfold tolower. destruct (Z.leb_spec 65 c), (Z.leb_spec c 90); cbn; lia. Qed.

Lemma to_lower_no_nul s : Forall (fun c => c <> 0) s -> Forall (fun c => c <> 0) (to_lower s).
Proof. intros H. apply Forall_map. eapply Forall_impl; [exact H|]. intros c Hc E. by apply tolower_nul in E. Qed.

Lemma find_host_owner ps host : Forall (fun c => c <> 0) host ->
  find_host (to_lower host) (map (fun p => (table_name p, address p)) (List.filter listed ps)) = address <$> owner ps host.
Proof.
  intros Hh. induction ps as [|p ps IH]; [done|]. cbn [List.filter]. unfold owner. cbn [List.find].
  destruct (listed p); cbn [andb]; [|exact IH]. cbn [map find_host]. unfold Json.str_eq.
  rewrite (cstr_text (table_name p)) by apply to_lower_no_nul, cstr_no_nul.
  rewrite cstr_text by by apply to_lower_no_nul. destruct (beq _ _); [done|exact IH].
Qed.

(** [name] asks for [host]: bare, or qualified with the tailnet's domain. *)
Definition names (d : dns) (name host : bytes) : Prop :=
  name = host /\ 46 ∉ host \/ exists dom, dom <> [] /\ to_lower dom = fDomain d /\ name = host ++ 46 :: dom.

Lemma dot_lower s : 46 ∈ to_lower s <-> 46 ∈ s.
Proof.
  unfold to_lower. rewrite list_elem_of_fmap. split.
  - intros (c & E & Hc). by rewrite <- (tolower_dot c) by done.
  - intros H. by exists 46.
Qed.

Lemma LocalName_names d name host : names d name host -> _LocalName d (to_lower name) = to_lower host.
Proof.
  intros [[-> Hd]|(dom & Hne & Hdom & ->)]; unfold _LocalName.
  - destruct (is_suffix _ _) eqn:E.
    { exfalso. apply is_suffix_spec in E as [k E]. apply Hd, dot_lower. rewrite E.
      apply elem_of_app. right. apply list_elem_of_here. }
    rewrite andb_false_r, (proj2 (find_first_None 46 (to_lower host))); [done|]. by rewrite dot_lower.
  - assert (E : to_lower (host ++ 46 :: dom) = to_lower host ++ 46 :: fDomain d) by (unfold to_lower in *; by rewrite map_app, <- Hdom).
    rewrite E, (proj2 (is_suffix_spec (46 :: fDomain d) _)) by by exists (to_lower host).
    destruct (Z.gtb_spec (zlen (fDomain d)) 0) as [_|Hz].
    + cbn [andb]. apply ztake_app. rewrite zlen_app. lia.
    + exfalso. pose proof (zlen_nonneg (fDomain d)). apply Hne, zlen_0_nil. rewrite <- Hdom in *.
      unfold to_lower in *. rewrite zlen_map in *. lia.
Qed.

Lemma LocalName_foreign d name : (forall host, ~ names d name host) -> _LocalName d (to_lower name) = [].
Proof.
  intros Hn. unfold _LocalName. destruct (Z.gtb_spec (zlen (fDomain d)) 0) as [Hz|_]; cbn [andb].
  - destruct (is_suffix _ _) eqn:E.
    { exfalso. apply is_suffix_spec in E as [k E]. unfold to_lower in E.
      apply map_eq_app in E as (h & r & -> & <- & E). destruct r as [|c r]; [done|].
      injection E as Ec Er. apply (Hn h). right. exists r. split_and!; [|done|by rewrite (tolower_dot c)].
      intros ->. rewrite <- Er in Hz. change (zlen (map tolower [])) with 0 in Hz. lia. }
    destruct (find_first 46 (to_lower name)) eqn:Ef; [done|]. exfalso. apply (Hn name). left. split; [done|].
    apply find_first_None in Ef. by rewrite dot_lower in Ef.
  - destruct (find_first 46 (to_lower name)) eqn:Ef; [done|]. exfalso. apply (Hn name). left. split; [done|].
    apply find_first_None in Ef. by rewrite dot_lower in Ef.
Qed.

(** An authoritative A response to the query [q] with id [id]. *)
Definition answer (id : Z) (q : bytes) (a b c e : Z) : bytes :=
  be16 id ++ [0x85; 0; 0; 1; 0; 1; 0; 0; 0; 0] ++ zdrop kDnsHeaderLen q ++
  [0xc0; 0x0c; 0; 1; 0; 1; 0; 0; 1; 0x2c; 0; 4; u8 a; u8 b; u8 c; u8 e].

Lemma Resolve_query d ls id q cap :
  Forall label_ok ls -> DnsBuildQuery (join ls) id 512 = Some q -> zlen q + 16 <= cap ->
  Resolve d q cap =
  let host := _LocalName d (to_lower (join ls)) in
  if zlen host =? 0 then Some []
  else match find_host host (fHosts d) with
       | None => Some []
       | Some ip => match sscanf_ipv4 ip with
                    | None => Some []
                    | Some (a, b, c, e) => Some (answer id q a b c e)
                    end
       end.
Proof.
  intros Hl Hq Hcap. destruct (BuildQuery_parses ls id 512 q Hl Hq) as (Eq & Hd & Hp).
  unfold Resolve. rewrite Hp, Hd. change (negb (kTypeA =? kTypeA)) with false. cbv zeta.
  destruct (zlen _ =? 0); [done|]. destruct (find_host _ _) as [ip|]; [|done].
  destruct (sscanf_ipv4 ip) as [[[[a b] c] e]|]; [|done].
  assert (Hz : zlen q = kDnsHeaderLen + (kDnsHeaderLen + zlen (wire ls) + 4 - kDnsHeaderLen))
    by (rewrite Eq, !zlen_app; unfold be16, kDnsHeaderLen; rewrite !zlen_cons, !zlen_nil; lia).
  rewrite <- Hz. destruct (Z.ltb_spec cap (zlen q + 16)); [lia|]. unfold response, answer, slice.
  rewrite ztake_all by (pose proof (zlen_nonneg (wire ls)); unfold kDnsHeaderLen in *; rewrite zlen_zdrop; lia).
  assert (Hh : at_ q 0 :: at_ q 1 :: [u8 (0x84 .| (at_ q 2 .& 1))] = be16 id ++ [0x85]) by by rewrite Eq.
  cbn [app]. injection Hh as -> -> ->. done.
Qed.

(** The resolver answers for the peers of the network map: after LoadFromNetmap, the query for a peer's host name, bare or qualified with the tailnet's domain and in any letter case, gets an authoritative answer that echoes its id and question with the first IPv4 address of the first peer of that name; a host that no peer has and a name outside the tailnet get the 0 that forwards them upstream. *)
Theorem Resolve_finds_peer nm d0 ls id q cap :
  let d := LoadFromNetmap nm d0 in
  Forall label_ok ls -> DnsBuildQuery (join ls) id 512 = Some q -> zlen q + 16 <= cap ->
  (forall host, host <> [] -> names d (join ls) host ->
     Resolve d q cap =
     match owner (fPeers nm) host with
     | None => Some []
     | Some p => match sscanf_ipv4 (address p) with
                 | None => Some []
                 | Some (a, b, c, e) => Some (answer id q a b c e)
                 end
     end)
  /\ ((forall host, ~ names d (join ls) host) -> Resolve d q cap = Some []).
Proof.
  intros d Hl Hq Hcap. rewrite (Resolve_query d ls id q cap Hl Hq Hcap). cbv zeta. split.
  - intros host Hne Hn. rewrite (LocalName_names d _ host Hn). unfold d at 1. rewrite Load_hosts, find_host_owner.
    + destruct (Z.eqb_spec (zlen (to_lower host)) 0) as [Hz|]; [|by destruct (owner _ _)].
      exfalso. unfold to_lower in Hz. rewrite zlen_map in Hz. by apply Hne, zlen_0_nil.
    + assert (Hj : Forall (fun c => c <> 0) (join ls)).
      { clear -Hl. induction Hl as [|l ls [_ Hb] Hl IH]; [constructor|]. rewrite join_cons. apply Forall_app. split.
        - eapply Forall_impl; [exact Hb|]. by intros c (_ & ? & _).
        - destruct ls; constructor; [lia|done]. }
      destruct Hn as [[E _]|(dom & _ & _ & E)]; rewrite E in Hj; [done|]. by apply Forall_app in Hj as [? _].
  - intros Hn. by rewrite (LocalName_foreign d _ Hn).
Qed.

Definition demo_netmap : netmap :=
  mkNetmap [] [mkPeer 1 [] [] (bs "NAS") true (-1) [bs "fd7a::6/128"; bs "100.64.1.6/32"] []] [] (mkDns [] [bs "tail1.ts.net"]).

Lemma label_ok_bs s : (0 <? zlen (bs s)) && (zlen (bs s) <=? 63) && forallb (fun c => negb (c =? 0) && negb (c =? 46)) (bs s) = true -> label_ok (bs s).
Proof.
  intros [[H1%Z.ltb_lt H2%Z.leb_le]%andb_true_iff H]%andb_true_iff. split; [lia|].
  rewrite forallb_forall in H. apply Forall_forall. intros c Hc. pose proof (bs_bytes s) as Hb. unfold is_bytes in Hb.
  rewrite Forall_forall in Hb. specialize (Hb c Hc). apply list_elem_of_In, H, andb_true_iff in Hc as [H3 H4].
  apply negb_true_iff, Z.eqb_neq in H3, H4. done.
Qed.

Lemma Resolve_finds_peer_witness :
  exists q, DnsBuildQuery (bs "nas.Tail1.ts.net") 0x1234 512 = Some q
  /\ Resolve (LoadFromNetmap demo_netmap MagicDns) q 512 = Some (answer 0x1234 q 100 64 1 6).
Proof.
  destruct (DnsBuildQuery (bs "nas.Tail1.ts.net") 0x1234 512) as [q|] eqn:Eq; [|vm_compute in Eq; discriminate Eq].
  exists q. split; [reflexivity|].
  destruct (Resolve_finds_peer demo_netmap MagicDns [bs "nas"; bs "Tail1"; bs "ts"; bs "net"] 0x1234 q 512) as [A _].
  - repeat (apply Forall_cons_2; [apply label_ok_bs; reflexivity|]). apply Forall_nil_2.
  - exact Eq.
  - vm_compute in Eq. injection Eq as <-. vm_compute. discriminate.
  - rewrite (A (bs "nas")); [vm_compute; reflexivity|discriminate|]. right. exists (bs "Tail1.ts.net").
    split_and!; [discriminate|reflexivity|reflexivity].
Defined.

End MagicDns.
