(* ===== verification/ControlSession.v ===== *)
(** * ControlSession: registering the node and the session that reconnects per request

    src/backend/tailscale/TSRegister.cpp and TSControlSession.{h,cpp}.  The
    register request runs on any record stream; the session rebuilds handshake,
    records and HTTP/2 for every request, from what one dial of the network
    gives it.  The text of a failing layer's error is part of that. *)

From S2P Require Import Prelude CLib Crypto Identity Control Tls ControlConn ControlClient Hpack RecordConn Http2 Json MapStream Netmap.
Import Crypto.
Open Scope Z_scope.
Open Scope soto_scope.

(** ** Registration *)

Module Register.

Record RegisterResult := mkResult {
  httpStatus : Z; machineAuthorized : bool; nodeKeyExpired : bool; authURL : bytes; error : bytes }.

Definition no_result : RegisterResult := mkResult 0 false false [] [].

Definition quote (s : bytes) : bytes := 34 :: s ++ [34].

(** What follows the first occurrence of the key, blanks and colons skipped. *)
Definition field (doc key : bytes) : option bytes :=
  k ← find_sub (quote key) doc;
  Some (drop_while (fun c => (c =? 32) || (c =? 58)) (zdrop (k + zlen (quote key)) doc)).

(** The characters up to the next quote, a backslash dropped before each one it
    precedes. *)
Fixpoint unescape (l : bytes) : bytes :=
  match l with
  | [] => []
  | c :: l' =>
      if c =? 34 then []
      else if c =? 92 then match l' with [] => [c] | d :: l' => d :: unescape l' end
      else c :: unescape l'
  end.

Definition json_string (doc key : bytes) : option bytes :=
  match field doc key with
  | Some (34 :: rest) => Some (unescape rest)
  | _ => None
  end.

Definition json_bool (doc key : bytes) : bool :=
  match field doc key with Some rest => is_prefix (bs "true") rest | None => false end.

Definition given (s : option bytes) : option bytes :=
  match s with Some x => if zlen x =? 0 then None else Some x | None => None end.

Definition register_body (version : Z) (nodePub : bytes) (hostname authKey followup : option bytes) : bytes :=
  bs "{" ++ quote (bs "Version") ++ bs ":" ++ fmt_d (s32 version) ++ bs ","
  ++ quote (bs "NodeKey") ++ bs ":" ++ quote (bs "nodekey:" ++ Identity.ToHex nodePub) ++ bs ","
  ++ match given authKey with
     | Some k => quote (bs "Auth") ++ bs ":{" ++ quote (bs "AuthKey") ++ bs ":" ++ quote k ++ bs "},"
     | None => []
     end
  ++ match given followup with
     | Some u => quote (bs "Followup") ++ bs ":" ++ quote u ++ bs ","
     | None => []
     end
  ++ quote (bs "Hostinfo") ++ bs ":{" ++ quote (bs "IPNVersion") ++ bs ":" ++ quote (bs "0.1.0") ++ bs ","
  ++ quote (bs "Hostname") ++ bs ":" ++ quote (default (bs "haiku") hostname) ++ bs ","
  ++ quote (bs "OS") ++ bs ":" ++ quote (bs "haiku") ++ bs "}" ++ bs "}".

(** [r]: the result before the call, whose fields are cleared first. *)
Definition read_result (status : Z) (resp : bytes) : RegisterResult :=
  mkResult status (json_bool resp (bs "MachineAuthorized")) (json_bool resp (bs "NodeKeyExpired"))
    (default [] (json_string resp (bs "AuthURL"))) (default [] (json_string resp (bs "Error"))).

Section WithConn.
Context {C : Type} `{RecordConn C}.

(** [None]: the fuel for the chunks of the reply ran out, or the stray memcpy
    of ReadBody. *)
Definition Register (fuel : nat) (h2 : Http2.http2 C) (host : bytes) (version : Z) (nodePub : bytes)
    (hostname authKey followup : option bytes) : option (status * RegisterResult * Http2.http2 C) :=
  let body := register_body version nodePub hostname authKey followup in
  match Http2.Request fuel (bs "POST") (bs "https") host (bs "/machine/register") (Some (bs "application/json")) body h2 with
  | None => None
  | Some (inl e, h2) => Some (e, no_result, h2)
  | Some (inr (st, resp), h2) => Some (B_OK, read_result st resp, h2)
  end.
End WithConn.

(** ** The request is the document it means *)

(** Text a JSON string can hold as it is. *)
Definition plain (s : bytes) : Prop := Forall (fun c => c <> 34 /\ c <> 92) s.

Lemma plain_chars s : plain s -> Json.chars s s.
Proof. induction 1 as [|c s [H1 H2] _ IH]; by constructor. Qed.

Lemma den_quote s : plain s -> Json.denotes (quote s) (Json.JSON_STRING s).
Proof. intros. by apply Json.den_string, plain_chars. Qed.

(** The members of an object, printed without blanks. *)
Definition member (m : bytes * bytes) : bytes := quote (fst m) ++ 58 :: snd m.
Fixpoint members (l : list (bytes * bytes)) : bytes :=
  match l with
  | [] => []
  | [m] => member m
  | m :: l => member m ++ 44 :: members l
  end.

Lemma den_members l vs : l <> [] ->
  Forall2 (fun m v => plain (fst m) /\ fst v = fst m /\ Json.denotes (snd m) (snd v)) l vs ->
  Json.denotes_members (members l) vs.
Proof.
  assert (W : Json.ws []) by constructor. intros Hne Hall. induction Hall as [|[k t] [k' v] l vs (Hp & E & Hd) Hall IH]; [done|]. cbn [fst snd] in *. subst k'.
  destruct l as [|m l].
  - inversion Hall. subst. cbn [members]. unfold member, quote. cbn [fst snd].
    pose proof (Json.den_last_member [] k k [] [] t [] v) as G. rewrite app_nil_r in G. exact (G W (plain_chars k Hp) W W Hd W).
  - change (members ((k, t) :: m :: l)) with (member (k, t) ++ 44 :: members (m :: l)). unfold member, quote. cbn [fst snd].
    pose proof (Json.den_member [] k k [] [] t [] v (members (m :: l)) vs) as G. cbn [app] in G.
    rewrite <- app_assoc. cbn [app] in *. exact (G W (plain_chars k Hp) W W Hd W (IH ltac:(done))).
Qed.

Lemma plain_ToHex l : is_bytes l -> plain (Identity.ToHex l).
Proof.
  induction 1 as [|b l Hb _ IH]; [constructor|]. change (Identity.ToHex (b :: l)) with
    ([at_ Identity.kHex ((b ≫ 4) .& 0x0f); at_ Identity.kHex (b .& 0x0f)] ++ Identity.ToHex l).
  destruct (Identity.nibbles b Hb) as [-> ->]. apply Forall_app. split; [|exact IH].
  assert (G : forall n, 0 <= n < 16 -> at_ Identity.kHex n <> 34 /\ at_ Identity.kHex n <> 92).
  { intros n Hn. pose proof (Identity.hex_digit n Hn) as E. split; intros Ec; rewrite Ec in E; vm_compute in E; lia. }
  unfold is_byte in Hb. pose proof (Z.mod_pos_bound b 16).
  assert (0 <= b / 16 < 16) by (split; [apply Z.div_pos; lia|apply Z.div_lt_upper_bound; lia]). apply Forall_cons_2; [apply G; lia|]. apply Forall_cons_2; [apply G; lia|constructor].
Qed.

Lemma plain_app a b : plain (a ++ b) <-> plain a /\ plain b.
Proof. apply Forall_app. Qed.

Lemma plain_num n : plain (fmt_d n) /\ fmt_d n <> [] /\ Forall (fun c => Json.is_num c = true) (fmt_d n).
Proof.
  assert (G : forall m, 0 <= m -> plain (fmt_u m) /\ fmt_u m <> [] /\ Forall (fun c => Json.is_num c = true) (fmt_u m)).
  { intros m Hm. destruct (fmt_u_cons m Hm) as (c & l & E & _). pose proof (fmt_u_is_digits m Hm) as Hd. split_and!; [|by rewrite E|];
      apply (Forall_impl _ _ _ Hd); intros d Hx%isdigit_spec; [lia|]. unfold Json.is_num.
    by rewrite (proj2 (isdigit_spec d) Hx). }
  unfold fmt_d. destruct (Z.ltb_spec n 0); [|by apply G]. destruct (G (- n) ltac:(lia)) as (? & ? & ?).
  split_and!; [by constructor|done|by constructor].
Qed.

Definition opt_member (k : string) (v : option bytes) : list (bytes * bytes) :=
  match v with Some t => [(bs k, t)] | None => [] end.

Definition hostinfo (hostname : option bytes) : list (bytes * bytes) :=
  [(bs "IPNVersion", quote (bs "0.1.0")); (bs "Hostname", quote (default (bs "haiku") hostname)); (bs "OS", quote (bs "haiku"))].
Definition object (l : list (bytes * bytes)) : bytes := 123 :: members l ++ [125].
Definition request_members version nodePub hostname authKey followup : list (bytes * bytes) :=
  [(bs "Version", fmt_d (s32 version)); (bs "NodeKey", quote (bs "nodekey:" ++ Identity.ToHex nodePub))]
  ++ opt_member "Auth" ((fun k => object [(bs "AuthKey", quote k)]) <$> given authKey)
  ++ opt_member "Followup" (quote <$> given followup)
  ++ [(bs "Hostinfo", object (hostinfo hostname))].

Lemma register_body_members v n h a f : register_body v n h a f = object (request_members v n h a f).
Proof.
  unfold register_body, object, request_members, hostinfo. generalize (fmt_d (s32 v)) (Identity.ToHex n) (default (bs "haiku") h). intros d x g.
  destruct (given a) as [k|], (given f) as [u|]; cbn [opt_member fmap option_fmap option_map app members]; unfold member, quote, object;
    cbn [fst snd members]; unfold member; cbn [fst snd bs app]; repeat (rewrite <- ?app_assoc; cbn [bs app]); reflexivity.
Qed.

(** The value of the request. *)
Definition text_of (s : bytes) : Json.JsonValue := Json.JSON_STRING s.
Definition request_value version nodePub hostname authKey followup : Json.JsonValue :=
  Json.JSON_OBJECT (
    [(bs "Version", Json.JSON_NUMBER (Json.strtod (fmt_d (s32 version)))); (bs "NodeKey", text_of (bs "nodekey:" ++ Identity.ToHex nodePub))]
    ++ match given authKey with Some k => [(bs "Auth", Json.JSON_OBJECT [(bs "AuthKey", text_of k)])] | None => [] end
    ++ match given followup with Some u => [(bs "Followup", text_of u)] | None => [] end
    ++ [(bs "Hostinfo", Json.JSON_OBJECT [(bs "IPNVersion", text_of (bs "0.1.0")); (bs "Hostname", text_of (default (bs "haiku") hostname)); (bs "OS", text_of (bs "haiku"))])]).

Definition plain_opt (s : option bytes) : Prop := match s with Some x => plain x | None => True end.

Lemma den_object_of l vs : l <> [] ->
  Forall2 (fun m v => plain (fst m) /\ fst v = fst m /\ Json.denotes (snd m) (snd v)) l vs ->
  Json.add_members [] vs = vs -> Json.denotes (object l) (Json.JSON_OBJECT vs).
Proof. intros Hne Hall E. rewrite <- E. apply Json.den_object. by apply den_members. Qed.

Lemma plain_bs (s : string) : forallb (fun c => negb (c =? 34) && negb (c =? 92)) (bs s) = true -> plain (bs s).
Proof.
  intros Hb. apply Forall_forall. intros c Hc. rewrite forallb_forall in Hb. specialize (Hb c ltac:(by apply list_elem_of_In)).
  split; intros ->; done.
Qed.

Lemma register_request_means version nodePub hostname authKey followup :
  is_bytes nodePub -> plain_opt hostname -> plain_opt authKey -> plain_opt followup ->
  Json.Parse (register_body version nodePub hostname authKey followup) = Some (request_value version nodePub hostname authKey followup).
Proof.
  intros Hn Hh Ha Hf. rewrite register_body_members.
  assert (P : forall (k : string) t v, forallb (fun c => negb (c =? 34) && negb (c =? 92)) (bs k) = true -> Json.denotes t v ->
    plain (fst (bs k, t)) /\ fst (bs k, v) = fst (bs k, t) /\ Json.denotes (snd (bs k, t)) (snd (bs k, v)))
    by (intros; split_and!; [by apply plain_bs|done|done]).
  assert (Q : forall s : string, forallb (fun c => negb (c =? 34) && negb (c =? 92)) (bs s) = true -> Json.denotes (quote (bs s)) (text_of (bs s)))
    by (intros; by apply den_quote, plain_bs).
  assert (D : Json.denotes (object (request_members version nodePub hostname authKey followup)) (request_value version nodePub hostname authKey followup)).
  { apply den_object_of; [done| |].
    - unfold request_members. apply Forall2_app; [|apply Forall2_app; [|apply Forall2_app]].
      + constructor; [|constructor; [|constructor]]; apply P; try done; [apply Json.den_number; apply plain_num|].
        apply den_quote, plain_app. split; [by apply plain_bs|by apply plain_ToHex].
      + destruct authKey as [k|]; [|constructor]. cbn [given]. destruct (zlen k =? 0); [constructor|]. constructor; [|constructor]. apply P; [done|].
        apply den_object_of; [done| |done]. constructor; [|constructor]. apply P; [done|]. by apply den_quote.
      + destruct followup as [u|]; [|constructor]. cbn [given]. destruct (zlen u =? 0); [constructor|]. constructor; [|constructor]. apply P; [done|]. by apply den_quote.
      + constructor; [|constructor]. apply P; [done|]. apply den_object_of; [done| |done].
        constructor; [|constructor; [|constructor; [|constructor]]]; apply P; try done; [by apply Q| |by apply Q].
        apply den_quote. destruct hostname; [done|by apply plain_bs].
    - destruct (given authKey), (given followup); reflexivity. }
  assert (W : Json.ws []) by constructor. pose proof (Json.Parse_denotes [] _ _ [] W D I) as E. by rewrite app_nil_r in E.
Qed.

(** A host name with a quote makes the request no JSON document at all. *)
Example quoted_hostname :
  Json.Parse (register_body 115 (zeros 32) (Some (bs "my " ++ [34] ++ bs "haiku" ++ [34])) None None) = None.
Proof. vm_compute. reflexivity. Qed.

(** ** The fields of a reply *)

(** Characters of a literal whose escapes stand for the character escaped. *)
Inductive verbatim : bytes -> bytes -> Prop :=
| verbatim_nil : verbatim [] []
| verbatim_raw c t s : c <> 34 -> c <> 92 -> verbatim t s -> verbatim (c :: t) (c :: s)
| verbatim_escaped c t s : verbatim t s -> verbatim (92 :: c :: t) (c :: s).

Lemma unescape_verbatim t s rest : verbatim t s -> unescape (t ++ 34 :: rest) = s.
Proof.
  induction 1 as [|c t s H1 H2 _ IH|c t s _ IH]; [done| |].
  - cbn [app unescape]. apply Z.eqb_neq in H1, H2. by rewrite H1, H2, IH.
  - cbn [app unescape]. change (92 =? 34) with false. change (92 =? 92) with true. cbv iota. by rewrite IH.
Qed.

Lemma drop_separators w rest : Forall (fun c => c = 32 \/ c = 58) w ->
  match rest with c :: _ => c <> 32 /\ c <> 58 | [] => True end ->
  drop_while (fun c => (c =? 32) || (c =? 58)) (w ++ rest) = rest.
Proof.
  intros Hw Hr. induction Hw as [|c w [->| ->] _ IH]; [|exact IH..]. destruct rest as [|c rest]; [done|]. cbn [app drop_while].
  destruct Hr as [H1 H2]. apply Z.eqb_neq in H1, H2. by rewrite H1, H2.
Qed.

(** The member whose key is the first occurrence of the quoted name. *)
Definition first_member (key pre sep value rest doc : bytes) : Prop :=
  doc = pre ++ quote key ++ sep ++ value ++ rest /\ find_sub (quote key) doc = Some (zlen pre)
  /\ Forall (fun c => c = 32 \/ c = 58) sep.

Lemma field_first key pre sep value rest doc :
  first_member key pre sep value rest doc -> match value with c :: _ => c <> 32 /\ c <> 58 | [] => False end ->
  field doc key = Some (value ++ rest).
Proof.
  intros (E & Ef & Hs) Hv. unfold field. rewrite Ef. cbn [mbind option_bind]. f_equal.
  rewrite E, app_assoc, <- zlen_app, zdrop_app by done. apply drop_separators; [done|]. by destruct value.
Qed.

Lemma json_string_first key pre sep t s rest doc :
  first_member key pre sep (34 :: t ++ [34]) rest doc -> verbatim t s -> json_string doc key = Some s.
Proof.
  intros Hf Hv. unfold json_string. rewrite (field_first _ _ _ _ _ _ Hf) by done. cbn [app]. rewrite <- app_assoc. f_equal.
  by apply unescape_verbatim.
Qed.

Lemma json_bool_first key pre sep (b : bool) rest doc :
  first_member key pre sep (bs (if b then "true" else "false")) rest doc -> json_bool doc key = b.
Proof. intros Hf. unfold json_bool. rewrite (field_first _ _ _ _ _ _ Hf) by (by destruct b). by destruct b. Qed.

Example reply_example :
  read_result 200 (Netmap.quoted "{'MachineAuthorized':false,'AuthURL':'https://login/a','Error':''}")
  = mkResult 200 false false (bs "https://login/a") [].
Proof. vm_compute. reflexivity. Qed.

End Register.

(** ** The session *)

Module ControlSession.
Import Register RecordStream.

(** What one dial meets: the key document, the ephemeral key, the buffer the
    first message is built in, the outcomes of the connection and of the
    upgrade request, the TLS stream, how its writes go, and the error text. *)
Record dial := mkDial {
  d_fetched : status + (Z * bytes); d_eph : option (bytes * bytes); d_msg1 : bytes; d_connected : status;
  d_sent : bool; d_stream : Tls.stream; d_writes : list (list Z); d_error : bytes }.

(** [fConn]: the object exists.  Its state is the connection [fHttp2] holds. *)
Record session := mkSession {
  fHost : bytes; fPort : Z; fInsecure : bool; fVersion : Z; fMachinePriv : bytes; fMachinePub : bytes;
  fHaveParams : bool; fConn : bool; fHttp2 : Http2.http2 RecordStream.chan; fEarlyJson : bytes; fLastError : bytes }.

Definition ControlSession : session :=
  mkSession [] 443 false 0 (zeros 32) (zeros 32) false false Http2.Http2Conn [] [].

Definition SetParams (host : bytes) (port : Z) (insecure : bool) (version : Z) (priv pub : bytes) (s : session) : session :=
  mkSession host port insecure version priv pub true (fConn s) (fHttp2 s) (fEarlyJson s) (fLastError s).
Definition with_connection (h : Http2.http2 RecordStream.chan) (early : bytes) (s : session) : session :=
  mkSession (fHost s) (fPort s) (fInsecure s) (fVersion s) (fMachinePriv s) (fMachinePub s) (fHaveParams s) true h early (fLastError s).
Definition with_error (e : bytes) (s : session) : session :=
  mkSession (fHost s) (fPort s) (fInsecure s) (fVersion s) (fMachinePriv s) (fMachinePub s) (fHaveParams s) (fConn s) (fHttp2 s) (fEarlyJson s) e.

(** The HTTP/2 object of a connection that was deleted; the source leaves its
    pointer dangling until the next Init. *)
Definition detached (h : Http2.http2 RecordStream.chan) : Http2.http2 RecordStream.chan :=
  Http2.mkHttp2 None (Http2.fNextStreamId h) (Http2.fReqStream h) (Http2.fReqEnded h) (Http2.fDecoder h) (Http2.fBuf h) (Http2.fBufOff h).

Section WithOpenSSL.
Context `{OpenSSL}.

Definition _Establish (x : dial) (s : session) : status * session :=
  if negb (fHaveParams s) then (B_NO_INIT, with_error (bs "control session not configured") s)
  else
    let '(st, c, keys, _, stream) :=
      ControlClient.Handshake ControlClient.ControlClient (d_fetched x) (fMachinePriv s) (fMachinePub s) (fVersion s)
        (d_eph x) (d_msg1 x) (d_connected x) (d_sent x) (d_stream x) in
    match st, keys with
    | B_OK, Some (sendKey, recvKey) =>
        let conn := ControlConn.Init sendKey recvKey (ControlClient.fPending c) in
        match Http2.Bootstrap (Http2.Init (RecordStream.mkChan conn stream (d_writes x) []) (fHttp2 s)) with
        | (inr early, h) => (B_OK, with_connection h early s)
        | (inl e, h) => (e, with_error (bs "HTTP/2 bootstrap failed: " ++ d_error x) (with_connection h (fEarlyJson s) s))
        end
    | _, _ => (st, with_error (bs "control handshake failed: " ++ d_error x) (with_connection (detached (fHttp2 s)) (fEarlyJson s) s))
    end.

(** A register request on the connection; [what] names it in the error. *)
Definition register_on (fuel : nat) (host : bytes) (version : Z) (nodePub : bytes) (hostname authKey followup : option bytes)
    (what : string) (text : bytes) (s : session) : option (status * RegisterResult * session) :=
  match Register fuel (fHttp2 s) host version nodePub hostname authKey followup with
  | None => None
  | Some (B_OK, r, h) => Some (B_OK, r, with_connection h (fEarlyJson s) s)
  | Some (e, r, h) => Some (e, r, with_error (bs what ++ text) (with_connection h (fEarlyJson s) s))
  end.

Definition Connect (fuel : nat) (x : dial) (host : bytes) (port : Z) (insecure : bool) (version : Z) (priv pub nodePub : bytes)
    (hostname authKey : option bytes) (s : session) : option (status * RegisterResult * session) :=
  match _Establish x (SetParams host port insecure version priv pub s) with
  | (B_OK, s) => register_on fuel host version nodePub hostname authKey None "register failed: " (d_error x) s
  | (e, s) => Some (e, no_result, s)
  end.

Definition PollAuthorized (fuel : nat) (x : dial) (host : bytes) (version : Z) (nodePub : bytes) (hostname authURL : option bytes)
    (s : session) : option (status * RegisterResult * session) :=
  match _Establish x s with
  | (B_OK, s) => register_on fuel host version nodePub hostname None authURL "followup register failed: " (d_error x) s
  | (e, s) => Some (e, no_result, s)
  end.

Definition Establish (x : dial) (s : session) : status * session := _Establish x s.
End WithOpenSSL.

End ControlSession.
