(* ===== verification/SessionState.v ===== *)
(** * SessionState: the data-plane view of a tailnet session (src/backend/tailscale/TSSessionState.{h,cpp})

    Composes the parsed network map, the live peer set and the MagicDNS table.
    [None] is the out-of-range write of TSPeerSet::Update. *)

From S2P Require Import Prelude CLib Json Netmap PeerSet MagicDns.
Open Scope Z_scope.
Open Scope soto_scope.

Module SessionState.

Record session := mkState {
  fNetmap : Netmap.netmap; fPeers : PeerSet.peers; fDns : MagicDns.dns; fSelfIP : bytes }.

Definition SessionState : session := mkState Netmap.TSNetmap PeerSet.TSPeerSet MagicDns.MagicDns [].

(** The verdict, the peer counts of a well-formed document, and the state. *)
Definition ApplyMapResponse (json : bytes) (s : session) : option (bool * option PeerSet.counts * session) :=
  match Netmap.Parse json (fNetmap s) with
  | (false, nm) => Some (false, None, mkState nm (fPeers s) (fDns s) (fSelfIP s))
  | (true, nm) =>
      '(ps, c) ← PeerSet.Update (fPeers s) nm;
      Some (true, Some c,
        mkState nm ps (MagicDns.LoadFromNetmap nm (fDns s)) (Netmap.SelfIPv4 (Netmap.fSelfAddresses nm)))
  end.

Definition PeerCount (s : session) : Z := zlen (fPeers s).

(** The map long-poll: the messages of a stream, one after the other. *)
Fixpoint apply_all (docs : list bytes) (s : session) : option session :=
  match docs with
  | [] => Some s
  | doc :: docs => '(_, _, s) ← ApplyMapResponse doc s; apply_all docs s
  end.

(** The network map after the messages. *)
Definition netmap_after (docs : list bytes) : Netmap.netmap :=
  fold_left (fun n doc => snd (Netmap.Parse doc n)) docs Netmap.TSNetmap.

Definition map_peers (n : Netmap.netmap) : list Netmap.NetmapPeer := List.filter PeerSet.usable (Netmap.fPeers n).
Definition distinct_keys (n : Netmap.netmap) : Prop := NoDup (map PeerSet.nkey (map_peers n)).

(** The session shows the map [n]. *)
Definition shows (s : session) (n : Netmap.netmap) : Prop :=
  fNetmap s = n
  /\ NoDup (map PeerSet.key (fPeers s))
  /\ (forall k, k ∈ map PeerSet.key (fPeers s) <-> k ∈ map PeerSet.nkey (map_peers n))
  /\ (forall mp np, mp ∈ fPeers s -> np ∈ map_peers n -> PeerSet.key mp = PeerSet.nkey np -> PeerSet.describes np mp)
  /\ MagicDns.fHosts (fDns s)
     = map (fun p => (MagicDns.table_name p, MagicDns.address p)) (List.filter MagicDns.listed (Netmap.fPeers n))
  /\ fSelfIP s = Netmap.SelfIPv4 (Netmap.fSelfAddresses n).

Lemma SessionState_shows : shows SessionState Netmap.TSNetmap.
Proof.
  split_and!; try done; [constructor|]. intros mp np H. by apply elem_of_nil in H.
Qed.

Lemma Parse_refused json n : fst (Netmap.Parse json n) = false -> snd (Netmap.Parse json n) = n.
Proof. unfold Netmap.Parse. by destruct (Json.Parse json) as [[]|]. Qed.

Lemma ApplyMapResponse_shows json s n :
  shows s n -> distinct_keys (snd (Netmap.Parse json n)) ->
  exists ok c s', ApplyMapResponse json s = Some (ok, c, s') /\ ok = fst (Netmap.Parse json n)
    /\ shows s' (snd (Netmap.Parse json n)).
Proof.
  intros (Hn & Hk & Hkeys & Hdesc & Hdns & Hip) Hd. unfold ApplyMapResponse. rewrite Hn.
  pose proof (Parse_refused json n) as Hf. destruct (Netmap.Parse json n) as [[] nm]; cbn [fst snd] in *.
  - rewrite (PeerSet.Update_mirror (fPeers s) nm Hk Hd). cbn [mbind option_bind].
    eexists true, _, _. split; [reflexivity|]. split; [reflexivity|].
    destruct (PeerSet.mirror_keys (fPeers s) (map_peers nm) Hk Hd) as [H1 H2].
    split_and!; try done; cbn [fPeers fDns].
    + intros mp np Hm Hnp E. by eapply PeerSet.mirror_describes.
    + apply MagicDns.Load_hosts.
  - rewrite Hf by done. eexists false, _, _. split_and!; done.
Qed.

Lemma apply_all_shows docs s n :
  shows s n -> (forall pre post, docs = pre ++ post -> pre <> [] ->
    distinct_keys (fold_left (fun n doc => snd (Netmap.Parse doc n)) pre n)) ->
  exists s', apply_all docs s = Some s' /\ shows s' (fold_left (fun n doc => snd (Netmap.Parse doc n)) docs n).
Proof.
  revert s n. induction docs as [|doc docs IH]; intros s n Hs Hd; cbn [apply_all fold_left]; [by exists s|].
  destruct (ApplyMapResponse_shows doc s n Hs (Hd [doc] docs eq_refl ltac:(done))) as (ok & c & s1 & E & _ & H1).
  rewrite E. cbn [mbind option_bind]. apply IH; [done|]. intros pre post -> _.
  apply (Hd (doc :: pre) post eq_refl). done.
Qed.

(** C27: After any sequence of map messages, malformed ones included, whose maps list every key once, the session shows the resulting network map: the peer set holds exactly the map's keys, once each and with the map's data, the MagicDNS table lists exactly the map's named peers with an IPv4 address, and our own address is the map's first IPv4 one. *)
Theorem session_shows_map docs :
  (forall pre post, docs = pre ++ post -> distinct_keys (netmap_after pre)) ->
  exists s, apply_all docs SessionState = Some s /\ shows s (netmap_after docs).
Proof.
  intros H. apply apply_all_shows; [apply SessionState_shows|]. intros pre post E _. by apply (H pre post).
Qed.

Definition demo_delta : bytes := Netmap.quoted "{'PeersChanged':[{'ID':2,'Key':'nodekey:dd'}]}".

Lemma session_shows_map_witness :
  exists s, apply_all [Netmap.demo_map; bs "{"; demo_delta] SessionState = Some s
  /\ shows s (netmap_after [Netmap.demo_map; bs "{"; demo_delta]).
Proof.
  apply (session_shows_map [Netmap.demo_map; bs "{"; demo_delta]).
  intros pre post E. unfold distinct_keys.
  destruct pre as [|a [|b [|c [|d pre]]]]; try discriminate E; inversion E; subst;
    apply (bool_decide_unpack (NoDup _)); vm_compute; exact I.
Defined.

End SessionState.
