(* ===== verification/Derp.v ===== *)
(** * Derp: the DERP relay client (src/backend/tailscale/TSDerp.{h,cpp})

    [fBuf] is the list of the [fBufLen] bytes in use of the 65536-byte buffer.
    The TLS session is the stream of what its reads will find, the results of
    its writes to come (the bytes taken, negative on an error) and what was
    sent.  The stop flag belongs to another thread: [fStopFlag] gives its value
    at each poll and [fPolls] counts them. *)

From S2P Require Import Prelude CLib Endian Crypto Tls NaClBox.
Import Crypto NaClBox.
Open Scope Z_scope.
Open Scope soto_scope.

Module Derp.

Definition DERP_SERVER_KEY : Z := 0x01.
Definition DERP_CLIENT_INFO : Z := 0x02.
Definition DERP_SERVER_INFO : Z := 0x03.
Definition DERP_SEND_PACKET : Z := 0x04.
Definition DERP_RECV_PACKET : Z := 0x05.
Definition DERP_KEEP_ALIVE : Z := 0x06.
Definition DERP_NOTE_PREFERRED : Z := 0x07.
Definition DERP_PEER_GONE : Z := 0x08.
Definition DERP_PEER_PRESENT : Z := 0x09.
Definition DERP_PING : Z := 0x12.
Definition DERP_PONG : Z := 0x13.
Definition DERP_HEALTH : Z := 0x14.
Definition DERP_RESTARTING : Z := 0x15.

Definition kDerpMagicLen : Z := 8.
Definition kDerpKeyLen : Z := 32.
Definition kDerpMagic : bytes := [0x44; 0x45; 0x52; 0x50; 0xf0; 0x9f; 0x94; 0x91].
Definition kDerpMaxFrame : Z := 65535.
Definition kBufSize : Z := 65536.

(** The TLS session. *)
Record link := mkLink { rx : Tls.stream; txs : list Z; sent : bytes }.

Record derp := mkDerp {
  fTls : link; fServerKey : bytes; fNodePriv : bytes; fNodePub : bytes;
  fBuf : bytes; fBufOff : Z; fStopFlag : option (nat -> bool); fPolls : nat }.

Definition DerpClient : derp := mkDerp (mkLink [] [] []) (zeros 32) (zeros 32) (zeros 32) [] 0 None 0.

Definition with_tls (l : link) (d : derp) : derp :=
  mkDerp l (fServerKey d) (fNodePriv d) (fNodePub d) (fBuf d) (fBufOff d) (fStopFlag d) (fPolls d).
Definition with_rx (s : Tls.stream) (d : derp) : derp := with_tls (mkLink s (txs (fTls d)) (sent (fTls d))) d.
Definition with_buf (buf : bytes) (off : Z) (d : derp) : derp :=
  mkDerp (fTls d) (fServerKey d) (fNodePriv d) (fNodePub d) buf off (fStopFlag d) (fPolls d).
Definition polled (d : derp) : derp :=
  mkDerp (fTls d) (fServerKey d) (fNodePriv d) (fNodePub d) (fBuf d) (fBufOff d) (fStopFlag d) (S (fPolls d)).
Definition with_key (k : bytes) (d : derp) : derp :=
  mkDerp (fTls d) k (fNodePriv d) (fNodePub d) (fBuf d) (fBufOff d) (fStopFlag d) (fPolls d).

Definition SetStopFlag (flag : option (nat -> bool)) (d : derp) : derp :=
  mkDerp (fTls d) (fServerKey d) (fNodePriv d) (fNodePub d) (fBuf d) (fBufOff d) flag (fPolls d).

(** [fStopFlag != NULL && *fStopFlag] *)
Definition stop_requested (d : derp) : bool :=
  match fStopFlag d with Some f => f (fPolls d) | None => false end.

(** ** The receive buffer *)

Definition compact (d : derp) : derp :=
  if (fBufOff d >? 0) && (zlen (fBuf d) + 4096 >? kBufSize) then with_buf (zdrop (fBufOff d) (fBuf d)) 0 d else d.

(** Every turn uses up a timeout or adds a byte (Lemma fill_loop_returns);
    B_NO_MEMORY, which the source never returns, stands for spent fuel. *)
Fixpoint fill_loop (fuel : nat) (need : Z) (d : derp) : status * derp :=
  match fuel with
  | O => (B_NO_MEMORY, d)
  | S fuel =>
      if negb (zlen (fBuf d) - fBufOff d <? need) then (B_OK, d)
      else
        let d := compact d in
        match Tls.Read (rx (fTls d)) (kBufSize - zlen (fBuf d)) with
        | (Tls.TimedOut, s) =>
            let d := with_rx s d in
            if stop_requested d then (B_CANCELED, polled d) else fill_loop fuel need (polled d)
        | (Tls.Got c, s) => fill_loop fuel need (with_buf (fBuf d ++ c) (fBufOff d) (with_rx s d))
        | (_, s) => (B_IO_ERROR, with_rx s d)
        end
  end.

Definition _Fill (need : Z) (d : derp) : status * derp :=
  if need >? kBufSize then (B_BAD_VALUE, d)
  else fill_loop (S (Z.to_nat need + length (rx (fTls d)))) need d.

Definition _ReadRaw (n : Z) (d : derp) : (status + bytes) * derp :=
  match _Fill n d with
  | (B_OK, d) => (inr (slice (fBufOff d) n (fBuf d)), with_buf (fBuf d) (fBufOff d + n) d)
  | (e, d) => (inl e, d)
  end.

(** ** Frames *)

Definition frame_bytes (type : Z) (payload : bytes) : bytes := u8 type :: store32_be (zlen payload) ++ payload.

(** One write of the five header bytes, then the loop over the payload. *)
Definition WriteFrame (type : Z) (payload : bytes) (d : derp) : status * derp :=
  let hdr := u8 type :: store32_be (zlen payload) in
  let '(mkLink s ws out) := fTls d in
  let n := Z.min (hd (-1) ws) 5 in
  let out := out ++ ztake n hdr in
  let ws := tl ws in
  if negb (n =? 5) then (B_IO_ERROR, with_tls (mkLink s ws out) d)
  else
    let '(ok, o, ws) := Tls.write_all payload ws in
    (if ok then B_OK else B_IO_ERROR, with_tls (mkLink s ws (out ++ o)) d).

(** The type and the payload. *)
Definition ReadFrame (cap : Z) (d : derp) : (status + Z * bytes) * derp :=
  match _ReadRaw 5 d with
  | (inl e, d) => (inl e, d)
  | (inr hdr, d) =>
      let type := at_ hdr 0 in
      let len := rd32_be hdr 1 in
      if len >? kDerpMaxFrame then (inl B_ERROR, d)
      else if len >? cap then (inl B_BAD_VALUE, d)
      else if len >? 0 then
        match _ReadRaw len d with
        | (inl e, d) => (inl e, d)
        | (inr buf, d) => (inr (type, buf), d)
        end
      else (inr (type, []), d)
  end.

Definition SendPacket (dstKey pkt : bytes) (d : derp) : status * derp :=
  if zlen pkt >? 4096 then (B_BAD_VALUE, d) else WriteFrame DERP_SEND_PACKET (dstKey ++ pkt) d.

(** The returned length is the packet's, 0 or -1. *)
Inductive received := Packet (srcKey pkt : bytes) | NoPacket | RecvError.

Definition RecvPacket (cap : Z) (d : derp) : received * derp :=
  match ReadFrame kDerpMaxFrame d with
  | (inl _, d) => (RecvError, d)
  | (inr (type, payload), d) =>
      if type =? DERP_RECV_PACKET then
        if zlen payload <? 32 then (RecvError, d)
        else if zlen payload - 32 >? cap then (RecvError, d)
        else (Packet (ztake 32 payload) (zdrop 32 payload), d)
      else if type =? DERP_PING then (NoPacket, snd (WriteFrame DERP_PONG payload d))
      else (NoPacket, d)
  end.

(** ** Connecting *)

Fixpoint upgrade_loop (fuel : nat) (tmp : bytes) (s : Tls.stream) : option (bytes * Z) * Tls.stream :=
  match fuel with
  | O => (None, s)
  | S fuel =>
      if zlen tmp <? 4096 then
        match Tls.Read s (4096 - zlen tmp) with
        | (Tls.Got c, s) =>
            let tmp := tmp ++ c in
            match find_sub [13; 10; 13; 10] tmp with
            | Some i => (Some (tmp, i + 4), s)
            | None => upgrade_loop fuel tmp s
            end
        | (_, s) => (None, s)
        end
      else (None, s)
  end.

Definition _ReadUpgrade (d : derp) : status * derp :=
  match upgrade_loop 4097 [] (rx (fTls d)) with
  | (None, s) => (B_ERROR, with_rx s d)
  | (Some (tmp, headerEnd), s) =>
      let d := with_rx s d in
      match find_sub (bs " 101 ") (ztake headerEnd tmp) with
      | None => (B_ERROR, d)
      | Some _ =>
          let leftover := zlen tmp - headerEnd in
          (B_OK, if leftover >? 0 then with_buf (zdrop headerEnd tmp) (fBufOff d) d else d)
      end
  end.

Definition upgrade_request (host : bytes) : bytes :=
  bs "GET /derp HTTP/1.1" ++ [13; 10] ++ bs "Host: " ++ host ++ [13; 10] ++ bs "Upgrade: DERP" ++ [13; 10] ++
  bs "Connection: Upgrade" ++ [13; 10] ++ bs "User-Agent: Sotoportego/0.1" ++ [13; 10; 13; 10].

Definition infoJson : bytes := [123; 34] ++ bs "version" ++ [34; 58; 50; 125].

Section WithOpenSSL.
Context `{OpenSSL}.

(** [connected] is what fTls.Connect returns, [l] the session it opens and
    [nonce] what RandomBytes draws. *)
Definition Connect (host : bytes) (connected : status) (l : link) (nodePriv nodePub nonce : bytes) (d : derp)
    : status * derp :=
  let d := mkDerp (fTls d) (fServerKey d) nodePriv nodePub [] 0 (fStopFlag d) (fPolls d) in
  match connected with
  | B_OK =>
      let req := upgrade_request host in
      let n := Z.min (hd (-1) (txs l)) (zlen req) in
      let d := with_tls (mkLink (rx l) (tl (txs l)) (sent l ++ ztake n req)) d in
      if n <? 0 then (B_IO_ERROR, d)
      else
        match _ReadUpgrade d with
        | (B_OK, d) =>
            match ReadFrame kDerpMaxFrame d with
            | (inl e, d) => (e, d)
            | (inr (type, payload), d) =>
                if negb (type =? DERP_SERVER_KEY) || (zlen payload <? kDerpMagicLen + kDerpKeyLen)
                   || negb (beq (ztake kDerpMagicLen payload) kDerpMagic) then (B_ERROR, d)
                else
                  let d := with_key (slice kDerpMagicLen 32 payload) d in
                  match BoxSeal infoJson nonce (fServerKey d) (fNodePriv d) with
                  | None => (B_ERROR, d)
                  | Some box => WriteFrame DERP_CLIENT_INFO (fNodePub d ++ nonce ++ box) d
                  end
            end
        | (e, d) => (e, d)
        end
  | e => (e, d)
  end.
End WithOpenSSL.

(** ** The buffer *)

(** The used part of the buffer fits it. *)
Definition room (d : derp) : Prop := 0 <= fBufOff d <= zlen (fBuf d) /\ zlen (fBuf d) <= kBufSize.

(** The bytes the client will read next. *)
Definition avail (d : derp) : bytes := zdrop (fBufOff d) (fBuf d) ++ Tls.content (rx (fTls d)).

(** The fields the reads leave alone. *)
Definition same (d d' : derp) : Prop :=
  txs (fTls d') = txs (fTls d) /\ sent (fTls d') = sent (fTls d) /\ fServerKey d' = fServerKey d
  /\ fNodePriv d' = fNodePriv d /\ fNodePub d' = fNodePub d /\ fStopFlag d' = fStopFlag d.

Lemma derp_same_trans d1 d2 d3 : same d1 d2 -> same d2 d3 -> same d1 d3.
Proof. unfold same. intuition congruence. Qed.

(** A stream that delivers bytes and pauses, and a client nobody stops. *)
Definition patient (s : Tls.stream) : Prop :=
  Forall (fun e => e = Tls.Timeout \/ exists c, e = Tls.Data c /\ zlen c <> 0) s.
Definition unstopped (d : derp) : Prop := forall k, match fStopFlag d with Some f => f k = false | None => True end.

(** Every read has room for a byte: the buffer is compacted in time. *)
Lemma derp_compact_spec need d :
  room d -> 0 <= need <= kBufSize -> zlen (fBuf d) - fBufOff d < need ->
  room (compact d) /\ same d (compact d) /\ fPolls (compact d) = fPolls d /\ rx (fTls (compact d)) = rx (fTls d)
  /\ zdrop (fBufOff (compact d)) (fBuf (compact d)) = zdrop (fBufOff d) (fBuf d)
  /\ zlen (fBuf (compact d)) - fBufOff (compact d) = zlen (fBuf d) - fBufOff d
  /\ 0 < kBufSize - zlen (fBuf (compact d)).
Proof.
  intros [Ho Hb] Hn Hs. unfold compact, room, kBufSize in *. rewrite !Z.gtb_ltb.
  destruct (Z.ltb_spec 0 (fBufOff d)); cbn [andb].
  - destruct (Z.ltb_spec 65536 (zlen (fBuf d) + 4096)); [|split_and!; done || lia].
    cbn [with_buf with_tls fBuf fBufOff fTls]. rewrite zlen_zdrop by lia. split_and!; first [done|lia].
  - split_and!; first [done|lia].
Qed.

Lemma Read_Got s n c s' : Tls.Read s n = (Tls.Got c, s') -> 0 < n ->
  0 < zlen c <= n /\ Tls.content s = c ++ Tls.content s' /\ (length s' <= length s)%nat /\ (patient s -> patient s').
Proof.
  destruct s as [|[x| |] s]; cbn [Tls.Read]; try done. intros E Hn. pose proof (zlen_nonneg x).
  destruct (Z.eqb_spec (zlen x) 0); [done|]. destruct (Z.leb_spec (zlen x) n); injection E as <- <-.
  - split_and!; [lia|lia|done|cbn; lia|]. by intros [_ Hp]%Forall_cons.
  - rewrite zlen_ztake by lia. split_and!; [lia|lia| |cbn; lia|].
    + cbn [Tls.content]. by rewrite app_assoc, ztake_zdrop.
    + intros [_ Hp]%Forall_cons. constructor; [|done]. right. eexists. split; [done|]. rewrite zlen_zdrop; lia.
Qed.

Lemma Read_other s n r s' : Tls.Read s n = (r, s') -> (forall c, r <> Tls.Got c) ->
  Tls.content s' = Tls.content s /\ (r = Tls.TimedOut -> length s = S (length s'))
  /\ (patient s -> patient s' /\ (r = Tls.TimedOut \/ s = [])).
Proof.
  destruct s as [|[x| |] s]; cbn [Tls.Read]; intros E Hr.
  - injection E as <- <-. split_and!; [done|done|]. by split; [|right].
  - destruct (Z.eqb_spec (zlen x) 0) as [Hx|]; [|destruct (zlen x <=? n); injection E as <- _; by edestruct Hr].
    injection E as <- <-. split_and!; [by apply zlen_0_nil in Hx as ->|done|].
    intros [[?|(c & [= ->] & ?)] _]%Forall_cons; done.
  - injection E as <- <-. split_and!; [done|done|]. intros [_ Hp]%Forall_cons. by split; [|left].
  - injection E as <- <-. split_and!; [done|done|]. by intros [[?|(c & ? & ?)] _]%Forall_cons.
Qed.

(** What a fill does on any stream: it returns, stays inside the buffer and
    loses no byte, and it succeeds when the bytes come. *)
Record filled (need : Z) (d d' : derp) (st : status) : Prop := {
  filled_status : st = B_OK \/ st = B_CANCELED \/ st = B_IO_ERROR;
  filled_room : room d';
  filled_same : same d d';
  filled_avail : avail d' = avail d;
  filled_need : st = B_OK -> need <= zlen (fBuf d') - fBufOff d';
  filled_ok : patient (rx (fTls d)) -> unstopped d -> need <= zlen (avail d) -> st = B_OK /\ patient (rx (fTls d')) }.

Lemma unstopped_same d d' : same d d' -> unstopped d -> unstopped d'.
Proof. intros (_ & _ & _ & _ & _ & E) H. unfold unstopped. by rewrite E. Qed.

Lemma filled_step need d d1 d' st :
  filled need d1 d' st -> same d d1 -> avail d1 = avail d ->
  (patient (rx (fTls d)) -> patient (rx (fTls d1))) -> filled need d d' st.
Proof.
  intros [F1 F2 F3 F4 F5 F6] Hs Ha Hp. split; [done|done|by eapply derp_same_trans|congruence|done|].
  intros H1 H2 H3. apply F6; [by apply Hp|by eapply unstopped_same|by rewrite Ha].
Qed.

Lemma fill_loop_returns fuel need d :
  room d -> 0 <= need <= kBufSize ->
  (Z.to_nat (need - (zlen (fBuf d) - fBufOff d)) + length (rx (fTls d)) < fuel)%nat ->
  filled need d (snd (fill_loop fuel need d)) (fst (fill_loop fuel need d)).
Proof.
  revert d. induction fuel as [|fuel IH]; intros d Hr Hn Hf; [lia|]. cbn [fill_loop].
  destruct (Z.ltb_spec (zlen (fBuf d) - fBufOff d) need) as [Hl|Hl]; cbn [negb].
  2: { split; [by left|done|by split_and!|done|done|]. by intros Hp _ _. }
  destruct (derp_compact_spec need d Hr Hn Hl) as (C1 & C2 & C3 & C4 & C5 & C6 & C7).
  assert (Ca : avail (compact d) = avail d) by (unfold avail; by rewrite C4, C5).
  set (d1 := compact d) in *. rewrite C4. destruct (Tls.Read _ _) as [r s] eqn:E.
  assert (Hgo : forall d2, room d2 -> same d1 d2 -> avail d2 = avail d1 ->
    (patient (rx (fTls d)) -> patient (rx (fTls d2))) ->
    (Z.to_nat (need - (zlen (fBuf d2) - fBufOff d2)) + length (rx (fTls d2)) < fuel)%nat ->
    filled need d (snd (fill_loop fuel need d2)) (fst (fill_loop fuel need d2))).
  { intros d2 G1 G2 G3 G4 G5. eapply filled_step; [by apply IH|by eapply derp_same_trans|congruence|done]. }
  assert (Hstop : (forall c, r <> Tls.Got c) -> r <> Tls.TimedOut -> filled need d (with_rx s d1) B_IO_ERROR).
  { intros N1 N2. destruct (Read_other _ _ _ _ E N1) as (R1 & R2 & R3).
    split; [by right; right|done|by eapply derp_same_trans| |done|].
    - unfold avail. cbn. by rewrite R1, C5.
    - intros Hp _ Ha. destruct (R3 Hp) as [_ [?|R4]]; [done|]. exfalso. unfold avail in Ha.
      rewrite R4 in Ha. cbn [Tls.content] in Ha. rewrite app_nil_r, zlen_zdrop in Ha by apply Hr. lia. }
  destruct r as [c| | |]; cbn [fst snd]; try by apply Hstop.
  - destruct (Read_Got _ _ _ _ E C7) as (R1 & R2 & R3 & R4).
    unfold room, kBufSize in *. apply Hgo; cbn; rewrite ?zlen_app; try done; try lia.
    unfold avail. cbn. rewrite zdrop_app_le by lia. by rewrite <- app_assoc, <- R2, C4.
  - destruct (Read_other _ _ _ _ E ltac:(done)) as (R1 & R2 & R3). specialize (R2 eq_refl).
    destruct (stop_requested (with_rx s d1)) eqn:Es.
    + cbn [fst snd]. split; [by right; left|done|by eapply derp_same_trans| |done|].
      * unfold avail. cbn. by rewrite R1, C5.
      * intros _ Hu. exfalso. apply (unstopped_same _ _ C2) in Hu. specialize (Hu (fPolls d1)).
        unfold stop_requested in Es. cbn in Es. destruct (fStopFlag d1); [|done]. congruence.
    + apply Hgo; cbn; try done.
      * unfold avail. cbn. by rewrite R1, <- C4.
      * intros Hp. by apply R3.
      * rewrite R2 in Hf. rewrite C6. lia.
Qed.

(** ** Raw reads and frames on any stream *)

Definition read_error (e : status) : Prop := e = B_CANCELED \/ e = B_IO_ERROR.

Lemma ReadRaw_any n d :
  room d -> 0 <= n <= kBufSize ->
  let d' := snd (_ReadRaw n d) in
  room d' /\ same d d' /\
  match fst (_ReadRaw n d) with
  | inr b => b = ztake n (avail d) /\ n <= zlen (avail d) /\ avail d' = zdrop n (avail d)
  | inl e => read_error e /\ avail d' = avail d
  end
  /\ (patient (rx (fTls d)) -> unstopped d -> n <= zlen (avail d) ->
      fst (_ReadRaw n d) = inr (ztake n (avail d)) /\ patient (rx (fTls d'))).
Proof.
  intros Hr Hn. unfold _ReadRaw, _Fill. rewrite Z.gtb_ltb. destruct (Z.ltb_spec kBufSize n); [lia|].
  pose proof (fill_loop_returns (S (Z.to_nat n + length (rx (fTls d)))) n d Hr Hn ltac:(unfold room in Hr; lia)) as F.
  destruct (fill_loop _ n d) as [st d1]. cbn [fst snd] in F. destruct F as [F1 F2 F3 F4 F5 F6].
  assert (Hok : st = B_OK -> slice (fBufOff d1) n (fBuf d1) = ztake n (avail d) /\ n <= zlen (avail d)
                /\ avail (with_buf (fBuf d1) (fBufOff d1 + n) d1) = zdrop n (avail d)).
  { intros Hst. specialize (F5 Hst). unfold room in F2. rewrite <- F4. unfold avail, slice. cbn [with_buf fBuf fBufOff fTls rx].
    assert (Hz : zlen (zdrop (fBufOff d1) (fBuf d1)) = zlen (fBuf d1) - fBufOff d1) by (rewrite zlen_zdrop; lia).
    pose proof (zlen_nonneg (Tls.content (rx (fTls d1)))).
    rewrite ztake_app_le, zdrop_app_le, zdrop_zdrop, zlen_app by lia. split_and!; [done|lia|done]. }
  destruct F1 as [-> | [-> | ->]]; cbn [fst snd].
  - destruct (Hok eq_refl) as (H1 & H2 & H3). specialize (F5 eq_refl). rewrite H1.
    split; [unfold room in *; cbn [with_buf fBuf fBufOff]; lia|]. split; [done|]. split; [done|].
    intros Hp Hu Ha. by destruct (F6 Hp Hu Ha) as [_ ?].
  - split_and!; try done; [by left|]. intros Hp Hu Ha. by destruct (F6 Hp Hu Ha).
  - split_and!; try done; [by right|]. intros Hp Hu Ha. by destruct (F6 Hp Hu Ha).
Qed.

Lemma rd32_be_range p o : is_byte (at_ p o) -> is_byte (at_ p (o + 1)) -> is_byte (at_ p (o + 2)) -> is_byte (at_ p (o + 3)) ->
  0 <= rd32_be p o < 2 ^ 32.
Proof. intros H1 H2 H3 H4. rewrite rd32_be_val by done. unfold is_byte in *. lia. Qed.

Lemma ReadFrame_any cap d :
  room d -> is_bytes (avail d) ->
  let d' := snd (ReadFrame cap d) in
  room d' /\ same d d' /\
  match fst (ReadFrame cap d) with
  | inr (t, p) => zlen p <= cap /\ zlen p <= kDerpMaxFrame /\ exists hdr, avail d = hdr ++ p ++ avail d' /\ zlen hdr = 5
  | inl e => e <> B_OK /\ e <> B_NO_MEMORY
  end.
Proof.
  intros Hr Hb. unfold ReadFrame. pose proof (ReadRaw_any 5 d Hr ltac:(unfold kBufSize; lia)) as R. cbv zeta in R.
  destruct (_ReadRaw 5 d) as [[e|hdr] d1]; cbn [fst snd] in R.
  - destruct R as (R1 & R2 & [R3 _] & _). cbn [fst snd]. split_and!; [done|done|..]; by destruct R3 as [-> | ->].
  - destruct R as (R1 & R2 & (R3 & R4 & R5) & _).
    assert (Hh : is_bytes hdr) by (rewrite R3; by apply is_bytes_take).
    assert (Hz : zlen hdr = 5) by (rewrite R3, zlen_ztake; lia).
    pose proof (rd32_be_range hdr 1 (at_byte _ _ Hh) (at_byte _ _ Hh) (at_byte _ _ Hh) (at_byte _ _ Hh)) as Hlen.
    destruct (Z.gtb_spec (rd32_be hdr 1) kDerpMaxFrame); [cbn; done|].
    destruct (Z.gtb_spec (rd32_be hdr 1) cap); [cbn; done|].
    destruct (Z.gtb_spec (rd32_be hdr 1) 0).
    + pose proof (ReadRaw_any (rd32_be hdr 1) d1 R1 ltac:(unfold kBufSize, kDerpMaxFrame in *; lia)) as R. cbv zeta in R.
      destruct (_ReadRaw _ d1) as [[e|buf] d2]; cbn [fst snd] in R |- *.
      * destruct R as (Q1 & Q2 & [Q3 _] & _). split_and!; [done|by eapply derp_same_trans|..]; by destruct Q3 as [-> | ->].
      * destruct R as (Q1 & Q2 & (Q3 & Q4 & Q5) & _).
        assert (zlen buf = rd32_be hdr 1) by (rewrite Q3, zlen_ztake; lia).
        split_and!; [done|by eapply derp_same_trans|lia|lia|]. exists hdr. split; [|done].
        rewrite Q3, Q5, R5, R3. by rewrite !ztake_zdrop.
    + cbn [fst snd]. split_and!; try done; [change (zlen (@nil Z)) with 0; lia|]. exists hdr. split; [|done].
      cbn [app]. by rewrite R5, R3, ztake_zdrop.
Qed.

(** Writing touches the send side only. *)
Lemma WriteFrame_recv t p d :
  let d' := snd (WriteFrame t p d) in
  fBuf d' = fBuf d /\ fBufOff d' = fBufOff d /\ fServerKey d' = fServerKey d /\ fNodePriv d' = fNodePriv d
  /\ fStopFlag d' = fStopFlag d /\ fNodePub d' = fNodePub d /\ rx (fTls d') = rx (fTls d).
Proof.
  unfold WriteFrame. destruct (fTls d) as [s ws out] eqn:E. cbv zeta. destruct (negb _); [by cbn|].
  by destruct (Tls.write_all p (tl ws)) as [[? ?] ?].
Qed.

(** Whatever the relay sends, receiving stays in bounds: from a state whose used bytes lie in the 64 KB buffer, RecvPacket returns (the waiting loop ends with the stream), every socket read has room for at least one byte and never writes past the buffer, the state stays in bounds, a delivered packet fits the caller's buffer, and it together with its source key is exactly what follows a five-byte header in the unread bytes; keys and the stop flag never change. *)
Theorem RecvPacket_bounds cap d :
  room d -> is_bytes (avail d) ->
  let '(r, d') := RecvPacket cap d in
  room d' /\ fServerKey d' = fServerKey d /\ fNodePriv d' = fNodePriv d /\ fStopFlag d' = fStopFlag d
  /\ (forall need, zlen (fBuf d') - fBufOff d' < need <= kBufSize -> 0 < kBufSize - zlen (fBuf (compact d')) <= kBufSize)
  /\ fst (ReadFrame kDerpMaxFrame d) <> inl B_NO_MEMORY
  /\ match r with
     | Packet src pkt => zlen src = 32 /\ zlen pkt <= cap /\ exists hdr, avail d = hdr ++ src ++ pkt ++ avail d' /\ zlen hdr = 5
     | _ => True
     end.
Proof.
  intros Hr Hb. unfold RecvPacket. pose proof (ReadFrame_any kDerpMaxFrame d Hr Hb) as R. cbv zeta in R.
  assert (Hspace : forall x, room x -> forall need, zlen (fBuf x) - fBufOff x < need <= kBufSize ->
    0 < kBufSize - zlen (fBuf (compact x)) <= kBufSize).
  { intros x Hx need Hneed. destruct (derp_compact_spec need x Hx ltac:(unfold room in Hx; lia) ltac:(lia)) as (_ & _ & _ & _ & _ & _ & C7).
    pose proof (zlen_nonneg (fBuf (compact x))). lia. }
  destruct (ReadFrame kDerpMaxFrame d) as [[e|[t p]] d1]; cbn [fst snd] in *.
  - destruct R as (R1 & (_ & _ & S1 & S2 & _ & S3) & R3 & R4).
    do 4 (split; [done|]). split; [by apply Hspace|]. split; [congruence|done].
  - destruct R as (R1 & (_ & _ & S1 & S2 & _ & S3) & R3 & R4 & hdr & R5 & R6).
    assert (Hno : inr (t, p) <> @inl status (Z * bytes) B_NO_MEMORY) by done.
    destruct (t =? DERP_RECV_PACKET).
    + destruct (Z.ltb_spec (zlen p) 32); [do 4 (split; [done|]); split; [by apply Hspace|done]|].
      destruct (Z.gtb_spec (zlen p - 32) cap); do 4 (split; [done|]); (split; [by apply Hspace|]); split; try done.
      split; [rewrite zlen_ztake; lia|]. split; [rewrite zlen_zdrop; lia|].
      exists hdr. split; [|done]. by rewrite (app_assoc (ztake 32 p)), ztake_zdrop.
    + destruct (t =? DERP_PING); [|do 4 (split; [done|]); split; [by apply Hspace|done]].
      destruct (WriteFrame_recv DERP_PONG p d1) as (Q1 & Q2 & Q3 & Q4 & Q5 & _).
      assert (Hroom : room (snd (WriteFrame DERP_PONG p d1))) by (unfold room; by rewrite Q1, Q2).
      split; [done|]. do 3 (split; [congruence|]). split; [by apply Hspace|done].
Qed.

(** ** Stopping the reader *)

Definition unpaused (s : Tls.stream) : Prop := Forall (fun e => e <> Tls.Timeout) s.
Definition before_pause (s2 : Tls.stream) (s : Tls.stream) : Prop := exists s1, s = s1 ++ Tls.Timeout :: s2 /\ unpaused s1.

(** The flag is up from now on. *)
Definition raised (d : derp) : Prop := exists f, fStopFlag d = Some f /\ forall k, (fPolls d <= k)%nat -> f k = true.

Lemma Read_pause s2 s n r s' : before_pause s2 s -> Tls.Read s n = (r, s') ->
  r = Tls.TimedOut /\ s' = s2 \/ r <> Tls.TimedOut /\ before_pause s2 s'.
Proof.
  intros (s1 & -> & Hu) E. destruct s1 as [|e s1].
  - injection E as <- <-. by left.
  - apply Forall_cons in Hu as [He Hu]. right. destruct e as [x| |]; [|done|].
    + cbn [app Tls.Read] in E. destruct (zlen x =? 0); [|destruct (zlen x <=? n)]; injection E as <- <-; (split; [done|]).
      * by exists s1.
      * by exists s1.
      * exists (Tls.Data (zdrop n x) :: s1). split; [done|]. by constructor.
    + injection E as <- <-. split; [done|]. by exists s1.
Qed.

Lemma compact_recv d : rx (fTls (compact d)) = rx (fTls d) /\ fStopFlag (compact d) = fStopFlag d /\ fPolls (compact d) = fPolls d.
Proof. unfold compact. by destruct (_ && _). Qed.

Lemma fill_loop_stop s2 fuel need d :
  before_pause s2 (rx (fTls d)) -> raised d ->
  let '(st, d') := fill_loop fuel need d in
  before_pause s2 (rx (fTls d')) /\ raised d' \/ st = B_CANCELED /\ rx (fTls d') = s2.
Proof.
  revert d. induction fuel as [|fuel IH]; intros d Hp Hr; [by left|]. cbn [fill_loop].
  destruct (negb _); [by left|]. destruct (compact_recv d) as (C1 & C2 & C3).
  assert (Hr1 : raised (compact d)) by (unfold raised; by rewrite C2, C3). set (d1 := compact d) in *. rewrite C1.
  destruct (Tls.Read _ _) as [r s] eqn:E.
  destruct (Read_pause s2 _ _ _ _ Hp E) as [(-> & ->)|(Hne & Hp')].
  - assert (Es : stop_requested (with_rx s2 d1) = true).
    { destruct Hr1 as (f & Hf & Hk). unfold stop_requested. cbn. rewrite Hf. apply Hk. lia. }
    rewrite Es. by right.
  - destruct r; [by apply IH|by left|done|by left].
Qed.

Lemma ReadRaw_stop s2 n d :
  before_pause s2 (rx (fTls d)) -> raised d ->
  let '(r, d') := _ReadRaw n d in
  before_pause s2 (rx (fTls d')) /\ raised d' \/ r = inl B_CANCELED /\ rx (fTls d') = s2.
Proof.
  intros Hp Hr. unfold _ReadRaw, _Fill. destruct (n >? kBufSize); [by left|].
  pose proof (fill_loop_stop s2 (S (Z.to_nat n + length (rx (fTls d)))) n d Hp Hr) as F.
  destruct (fill_loop _ n d) as [st d1]. destruct F as [(F1 & F2)|(-> & F2)]; cbv iota beta; [|by right].
  destruct st; by left.
Qed.

(** Raising the stop flag unblocks the reader: with the flag up from now on, RecvPacket returns at the latest at the next receive timeout of the socket, whatever bytes come before it; if it got as far as the timeout it reports an error and has read nothing past it. *)
Theorem stop_unblocks_reader cap d s1 s2 :
  room d -> is_bytes (avail d) -> rx (fTls d) = s1 ++ Tls.Timeout :: s2 -> unpaused s1 -> raised d ->
  let '(r, d') := RecvPacket cap d in
  fst (ReadFrame kDerpMaxFrame d) <> inl B_NO_MEMORY
  /\ ((exists s1', rx (fTls d') = s1' ++ Tls.Timeout :: s2 /\ unpaused s1')
      \/ (r = RecvError /\ fst (ReadFrame kDerpMaxFrame d) = inl B_CANCELED /\ rx (fTls d') = s2)).
Proof.
  intros Hro Hb Hs Hu Hr. pose proof (ReadFrame_any kDerpMaxFrame d Hro Hb) as R. cbv zeta in R.
  assert (F : let '(r, d') := ReadFrame kDerpMaxFrame d in
              before_pause s2 (rx (fTls d')) \/ r = inl B_CANCELED /\ rx (fTls d') = s2).
  { unfold ReadFrame. pose proof (ReadRaw_stop s2 5 d ltac:(by exists s1) Hr) as F.
    destruct (_ReadRaw 5 d) as [[e|hdr] d1]; destruct F as [(F1 & F2)|([= ->] & F2)]; try (by left); try (by right).
    destruct (_ >? kDerpMaxFrame); [by left|]. destruct (_ >? 0); [|by left].
    pose proof (ReadRaw_stop s2 (rd32_be hdr 1) d1 F1 F2) as F.
    destruct (_ReadRaw _ d1) as [[e|buf] d2]; destruct F as [(F3 & F4)|([= ->] & F4)]; try (by left); try (by right). }
  unfold RecvPacket. destruct (ReadFrame kDerpMaxFrame d) as [[e|[t p]] d1]; cbn [fst snd] in *.
  - split; [destruct R as (_ & _ & _ & R); congruence|]. destruct F as [F|([= ->] & F)]; [by left|by right].
  - destruct F as [F|(? & _)]; [|done].
    destruct (t =? DERP_RECV_PACKET); [destruct (_ <? 32); [|destruct (_ >? cap)]; by split; [|left]|].
    destruct (t =? DERP_PING); [|by split; [|left]]. split; [done|left].
    by destruct (WriteFrame_recv DERP_PONG p d1) as (_ & _ & _ & _ & _ & _ & ->).
Qed.

(** ** Relaying *)

Lemma header_len (p : bytes) : zlen p <= kDerpMaxFrame -> forall t, rd32_be (u8 t :: store32_be (zlen p)) 1 = zlen p.
Proof.
  intros Hp t. pose proof (zlen_nonneg p). unfold kDerpMaxFrame in Hp. rewrite rd32_be_val by apply u8_range.
  apply store32_be_value. lia.
Qed.

Lemma ReadFrame_frame t p rest d :
  room d -> patient (rx (fTls d)) -> unstopped d -> is_byte t -> zlen p <= kDerpMaxFrame ->
  avail d = frame_bytes t p ++ rest ->
  exists d', ReadFrame kDerpMaxFrame d = (inr (t, p), d') /\ avail d' = rest /\ room d' /\ same d d'
    /\ patient (rx (fTls d')).
Proof.
  intros Hr Hp Hu Ht Hlen Ha. pose proof (zlen_nonneg p). pose proof (zlen_nonneg rest). unfold ReadFrame.
  assert (Ha' : avail d = (u8 t :: store32_be (zlen p)) ++ p ++ rest) by (by rewrite Ha; unfold frame_bytes; cbn [app]; rewrite <- app_assoc).
  assert (H5 : zlen (u8 t :: store32_be (zlen p)) = 5) by done.
  pose proof (ReadRaw_any 5 d Hr ltac:(unfold kBufSize; lia)) as (R1 & R2 & R3 & R4).
  destruct R4 as [R4 R5]; [done|done|rewrite Ha', zlen_app, zlen_app; lia|].
  destruct (_ReadRaw 5 d) as [x d1]. cbn [fst snd] in *. subst x. destruct R3 as (_ & _ & R6).
  rewrite Ha', ztake_app, header_len by done. rewrite Ha', zdrop_app in R6 by done.
  change (at_ (u8 t :: store32_be (zlen p)) 0) with (u8 t). rewrite u8_small by done.
  destruct (Z.gtb_spec (zlen p) kDerpMaxFrame); [lia|].
  destruct (Z.gtb_spec (zlen p) 0).
  - pose proof (ReadRaw_any (zlen p) d1 R1 ltac:(unfold kBufSize, kDerpMaxFrame in *; lia)) as (Q1 & Q2 & Q3 & Q4).
    destruct Q4 as [Q4 Q5]; [done|by eapply unstopped_same|rewrite R6, zlen_app; lia|].
    destruct (_ReadRaw _ d1) as [x d2]. cbn [fst snd] in *. subst x. destruct Q3 as (_ & _ & Q6).
    exists d2. rewrite R6, ztake_app, ?zdrop_app by done. rewrite R6, zdrop_app in Q6 by done.
    split; [done|]. split; [done|]. split; [done|]. split; [by eapply derp_same_trans|done].
  - assert (p = []) as -> by (apply zlen_0_nil; lia). exists d1. split; [done|]. split; [done|]. split; [done|]. by split.
Qed.

(** Writes that take all they are given. *)
Definition ample (n : nat) (d : derp) : Prop := (n <= length (txs (fTls d)))%nat /\ Forall (fun k => kBufSize <= k) (txs (fTls d)).

Lemma WriteFrame_ample t p d n :
  ample (2 + n) d -> zlen p <= kBufSize ->
  exists d', WriteFrame t p d = (B_OK, d') /\ sent (fTls d') = sent (fTls d) ++ frame_bytes t p /\ ample n d'.
Proof.
  intros [Hl Hw] Hp. unfold WriteFrame. destruct (fTls d) as [s ws out] eqn:E. cbn [txs sent] in *.
  destruct ws as [|w1 [|w2 ws]]; cbn in Hl; try lia.
  apply Forall_cons in Hw as [H1 Hw]. pose proof Hw as Hw'. apply Forall_cons in Hw as [H2 Hw]. cbn [hd tl].
  unfold kBufSize in *. rewrite Z.min_r by lia. change (negb (5 =? 5)) with false. cbv iota.
  rewrite (ztake_all 5) by done. pose proof (zlen_nonneg p).
  cbn [Tls.write_all]. destruct (Z.eqb_spec (zlen p) 0) as [Hz|].
  - eexists. split; [done|]. cbn [with_tls fTls sent txs]. apply zlen_0_nil in Hz as ->. unfold frame_bytes.
    rewrite !app_nil_r. split; [done|]. split; [cbn; lia|done].
  - destruct (Z.leb_spec w2 0); [lia|]. rewrite Z.min_r by lia. rewrite zdrop_all by done.
    assert (Ew : Tls.write_all [] ws = (true, [], ws)) by by destruct ws. rewrite Ew.
    eexists. split; [done|]. cbn [with_tls fTls sent txs]. rewrite app_nil_r, ztake_all by done. unfold frame_bytes.
    rewrite <- app_assoc. split; [done|]. split; [cbn; lia|done].
Qed.

Definition frame : Type := Z * bytes.
Definition frame_ok (f : frame) : Prop := is_byte (fst f) /\ zlen (snd f) <= kDerpMaxFrame.
Definition wire (fs : list frame) : bytes := flat_map (fun f => frame_bytes (fst f) (snd f)) fs.

(** What one frame gives the caller, and the reply it provokes. *)
Definition relayed (cap : Z) (f : frame) : received :=
  if fst f =? DERP_RECV_PACKET then
    if (zlen (snd f) <? 32) || (zlen (snd f) - 32 >? cap) then RecvError
    else Packet (ztake 32 (snd f)) (zdrop 32 (snd f))
  else NoPacket.
Definition pongs (fs : list frame) : bytes :=
  flat_map (fun f => if fst f =? DERP_PING then frame_bytes DERP_PONG (snd f) else []) fs.

Fixpoint receive (n : nat) (cap : Z) (d : derp) : list received * derp :=
  match n with
  | O => ([], d)
  | S n => let '(r, d) := RecvPacket cap d in let '(rs, d) := receive n cap d in (r :: rs, d)
  end.

Lemma ample_same n d d' : same d d' -> ample n d -> ample n d'.
Proof. intros (E & _) H. unfold ample. by rewrite E. Qed.

Lemma ample_le n m d : (n <= m)%nat -> ample m d -> ample n d.
Proof. intros Hn [H1 H2]. split; [lia|done]. Qed.

Lemma RecvPacket_frame cap f rest d n :
  room d -> patient (rx (fTls d)) -> unstopped d -> frame_ok f -> ample (2 + n) d ->
  avail d = frame_bytes (fst f) (snd f) ++ rest ->
  exists d', RecvPacket cap d = (relayed cap f, d') /\ avail d' = rest /\ room d' /\ patient (rx (fTls d')) /\ unstopped d'
    /\ ample n d' /\ sent (fTls d') = sent (fTls d) ++ pongs [f].
Proof.
  destruct f as [t p]. intros Hr Hp Hu [Ht Hl] Hamp Ha. cbn [fst snd] in *.
  destruct (ReadFrame_frame t p rest d Hr Hp Hu Ht Hl Ha) as (d1 & E & A1 & R1 & S1 & P1).
  assert (Hu1 : unstopped d1) by by eapply unstopped_same. pose proof (ample_same _ _ _ S1 Hamp) as Hamp1.
  destruct S1 as (_ & Hs & _). unfold RecvPacket. rewrite E. unfold relayed, pongs. cbn [fst snd flat_map].
  destruct (Z.eqb_spec t DERP_RECV_PACKET) as [->|].
  - assert (Hg : room d1 /\ patient (rx (fTls d1)) /\ unstopped d1 /\ ample n d1 /\ sent (fTls d1) = sent (fTls d) ++ [])
      by (rewrite app_nil_r; split; [done|]; split; [done|]; split; [done|]; split; [|done]; eapply ample_le; [|done]; lia).
    destruct (zlen p <? 32); [by exists d1|]. destruct (zlen p - 32 >? cap); by exists d1.
  - destruct (t =? DERP_PING).
    + destruct (WriteFrame_ample DERP_PONG p d1 n Hamp1) as (d2 & E2 & S2 & A2);
        [unfold kBufSize, kDerpMaxFrame in *; lia|]. pose proof (WriteFrame_recv DERP_PONG p d1) as W. rewrite E2 in *. cbn [snd] in *.
      destruct W as (W1 & W2 & _ & _ & W3 & _ & W4). exists d2. split; [done|]. unfold avail, room, unstopped in *.
      rewrite W1, W2, W3, W4. split; [done|]. split; [done|]. split; [done|]. split; [done|]. split; [done|].
      by rewrite app_nil_r, S2, Hs.
    + exists d1. rewrite !app_nil_r. split; [done|]. split; [done|]. split; [done|]. split; [done|]. split; [done|].
      split; [|done]. eapply ample_le; [|done]. lia.
Qed.

(** C25: The relay connection carries packets: SendPacket puts one SEND frame with the destination key and the packet on the wire, and however the socket cuts up and delays the frames of the relay, successive RecvPacket calls return exactly the relayed packets with their source keys, in order, return 0 for every other frame, and answer every ping, and nothing else, with a pong that echoes it. *)
Theorem relay_delivers cap fs rest a dst pkt b :
  ample 2 a -> zlen dst = 32 -> zlen pkt <= 4096 ->
  room b -> patient (rx (fTls b)) -> unstopped b -> ample (2 * length fs) b ->
  Forall frame_ok fs -> avail b = wire fs ++ rest ->
  (exists a', SendPacket dst pkt a = (B_OK, a')
     /\ sent (fTls a') = sent (fTls a) ++ frame_bytes DERP_SEND_PACKET (dst ++ pkt))
  /\ (exists b', receive (length fs) cap b = (map (relayed cap) fs, b') /\ avail b' = rest
     /\ sent (fTls b') = sent (fTls b) ++ pongs fs).
Proof.
  intros Ha Hd Hpk Hr Hp Hu Hamp Hok Hav. split.
  - unfold SendPacket. destruct (Z.gtb_spec (zlen pkt) 4096); [lia|].
    destruct (WriteFrame_ample DERP_SEND_PACKET (dst ++ pkt) a 0 Ha) as (a' & E & S & _); [|by exists a'].
    rewrite zlen_app. unfold kBufSize. lia.
  - revert b Hr Hp Hu Hamp Hav. induction Hok as [|f fs Hf Hok IH]; intros b Hr Hp Hu Hamp Hav.
    + exists b. cbn. by rewrite app_nil_r.
    + cbn [length] in Hamp. replace (2 * S (length fs))%nat with (2 + 2 * length fs)%nat in Hamp by lia.
      unfold wire in Hav. cbn [flat_map] in Hav. rewrite <- app_assoc in Hav.
      destruct (RecvPacket_frame cap f _ b _ Hr Hp Hu Hf Hamp Hav) as (b1 & E1 & A1 & R1 & P1 & U1 & M1 & S1).
      destruct (IH b1 R1 P1 U1 M1 A1) as (b2 & E2 & A2 & S2). exists b2. cbn [length receive map].
      rewrite E1, E2, S2, S1. split; [done|]. split; [done|]. unfold pongs. cbn [flat_map]. by rewrite app_nil_r, <- app_assoc.
Qed.

(** ** Connecting to a relay *)

Abbreviation crlf2 := [13; 10; 13; 10].

Lemma live_patient s : Tls.live s -> patient s.
Proof. intros H. eapply Forall_impl; [exact H|]. intros e He. by right. Qed.

Lemma derp_upgrade_loop_spec fuel tmp s hdr rest :
  Tls.live s -> find_sub crlf2 (hdr ++ rest) = Some (zlen hdr - 4) -> zlen hdr <= 4096 ->
  tmp ++ Tls.content s = hdr ++ rest -> zlen tmp < zlen hdr -> 4096 - zlen tmp < Z.of_nat fuel ->
  exists got s', upgrade_loop fuel tmp s = (Some (hdr ++ got, zlen hdr), s') /\ Tls.live s'
    /\ got ++ Tls.content s' = rest /\ zlen got <= 4096.
Proof.
  intros Hl Hf Hm. revert tmp s Hl. induction fuel as [|fuel IH]; intros tmp s Hl Hc Hb Hfu; [lia|].
  pose proof (f_equal zlen Hc) as Hlen. rewrite !zlen_app in Hlen. pose proof (zlen_nonneg rest).
  cbn [upgrade_loop]. destruct (Z.ltb_spec (zlen tmp) 4096); [|lia].
  destruct (Tls.Read_live s (4096 - zlen tmp) Hl) as (c & s1 & -> & Hl1 & Hn & E); [|lia|].
  { intros ->. change (zlen (Tls.content [])) with 0 in Hlen. lia. }
  rewrite E, app_assoc in Hc. assert (Hbc : tmp ++ c = take (length (tmp ++ c)) (hdr ++ rest)).
  { rewrite <- Hc. by rewrite take_app_length. }
  destruct (find_sub_take crlf2 (hdr ++ rest) (zlen hdr - 4) (length (tmp ++ c)) ltac:(done) Hf) as (_ & _ & Hft).
  rewrite <- Hbc in Hft. change (zlen crlf2) with 4 in Hft. rewrite Hft.
  fold (zlen (tmp ++ c)) in *. change (Z.of_nat (length (tmp ++ c))) with (zlen (tmp ++ c)).
  destruct (decide (zlen hdr <= zlen (tmp ++ c))) as [Hge|Hlt].
  - rewrite bool_decide_true by lia. replace (zlen hdr - 4 + 4) with (zlen hdr) by lia.
    exists (zdrop (zlen hdr) (tmp ++ c)), s1.
    assert (Hp : tmp ++ c = hdr ++ zdrop (zlen hdr) (tmp ++ c)).
    { rewrite <- (ztake_zdrop (zlen hdr) (tmp ++ c)) at 1. f_equal. rewrite Hbc. unfold ztake, zlen. rewrite Nat2Z.id, take_take.
      rewrite Nat.min_l by (unfold zlen in Hge; lia). by rewrite take_app_length. }
    rewrite <- Hp. split; [done|]. split; [done|]. rewrite zlen_app in *. split.
    + rewrite Hp, <- app_assoc in Hc. by apply app_inv_head in Hc.
    + rewrite zlen_zdrop, zlen_app by (rewrite ?zlen_app; pose proof (zlen_nonneg hdr); lia). pose proof (zlen_nonneg hdr). lia.
  - rewrite bool_decide_false by lia. apply IH; try done; [lia|]. rewrite zlen_app. lia.
Qed.

Lemma ReadUpgrade_spec d hdr rest :
  Tls.live (rx (fTls d)) -> fBuf d = [] -> fBufOff d = 0 ->
  find_sub crlf2 (hdr ++ rest) = Some (zlen hdr - 4) -> is_Some (find_sub (bs " 101 ") hdr) -> zlen hdr <= 4096 ->
  Tls.content (rx (fTls d)) = hdr ++ rest ->
  exists d', _ReadUpgrade d = (B_OK, d') /\ room d' /\ same d d' /\ avail d' = rest /\ patient (rx (fTls d')).
Proof.
  intros Hl Hb Ho Hf [k H101] Hm Hc. pose proof (zlen_nonneg hdr).
  destruct (derp_upgrade_loop_spec 4097 [] (rx (fTls d)) hdr rest) as (got & s' & E & Hl' & Hg & Hz); try done.
  - change (zlen []) with 0. assert (zlen hdr <> 0); [|lia]. intros Hz. apply zlen_0_nil in Hz. by rewrite Hz in H101.
  - unfold _ReadUpgrade. rewrite E, ztake_app, H101 by done. eexists. split; [reflexivity|].
    rewrite zlen_app, zdrop_app by done. pose proof (zlen_nonneg got).
    destruct (Z.gtb_spec (zlen hdr + zlen got - zlen hdr) 0) as [|Hle].
    + split; [unfold room, kBufSize; cbn [with_buf with_rx with_tls fBuf fBufOff]; lia|]. split; [done|]. split.
      * unfold avail. cbn. by rewrite Ho.
      * by apply live_patient.
    + assert (got = []) as -> by (apply zlen_0_nil; lia). split; [unfold room, kBufSize; cbn [with_rx with_tls fBuf fBufOff]; rewrite Hb, Ho; change (zlen (@nil Z)) with 0; lia|].
      split; [done|]. split; [unfold avail; cbn; by rewrite Hb, Ho|by apply live_patient].
Qed.

Lemma upgrade_request_len host : zlen host <= 4096 -> 0 <= zlen (upgrade_request host) <= kBufSize.
Proof.
  unfold upgrade_request. rewrite !zlen_app. pose proof (zlen_nonneg host).
  repeat match goal with |- context [zlen (bs ?x)] => let n := eval vm_compute in (zlen (bs x)) in change (zlen (bs x)) with n end.
  change (zlen [13; 10]) with 2. change (zlen [13; 10; 13; 10]) with 4. unfold kBufSize. lia.
Qed.

Section WithServer.
Context `{OpenSSLLaws}.

(** Connect performs the relay handshake: against a server that accepts the upgrade and presents its key, however the stream is cut up, it returns B_OK with that key, keeps exactly the bytes that follow the key frame for the coming reads, and has sent the upgrade request and one CLIENT_INFO frame with the node's public key, the nonce and a box that the server, with its own private key, opens to the client's JSON. *)
Theorem Connect_handshake host l nodePriv nodePub nonce d hdr spriv spub extra rest :
  zlen host <= 4096 -> ample 3 (with_tls l d) -> Tls.live (rx l) ->
  Tls.content (rx l) = hdr ++ frame_bytes DERP_SERVER_KEY (kDerpMagic ++ spub ++ extra) ++ rest ->
  find_sub crlf2 (hdr ++ frame_bytes DERP_SERVER_KEY (kDerpMagic ++ spub ++ extra) ++ rest) = Some (zlen hdr - 4) ->
  is_Some (find_sub (bs " 101 ") hdr) -> zlen hdr <= 4096 -> zlen extra <= 4096 ->
  x25519_pub spriv = Some spub -> x25519_pub nodePriv = Some nodePub -> is_Some (Dh nodePriv spub) ->
  zlen nonce = 24 -> unstopped d ->
  exists d' box, Connect host B_OK l nodePriv nodePub nonce d = (B_OK, d')
    /\ fServerKey d' = spub /\ room d' /\ avail d' = rest
    /\ sent (fTls d') = sent l ++ upgrade_request host ++ frame_bytes DERP_CLIENT_INFO (nodePub ++ nonce ++ box)
    /\ BoxOpen box nonce nodePub spriv = Some infoJson.
Proof.
  intros Hh [Htx Hw] Hl Hc Hf H101 Hm He Hsp Hnp [k Hdh] Hno Hu.
  pose proof (zlen_nonneg extra). destruct (pub_length spriv spub Hsp) as [Hs32 _]. destruct (pub_length nodePriv nodePub Hnp) as [Hn32 _].
  unfold Connect. destruct l as [s ws out]. cbn [with_tls fTls rx txs sent] in *.
  destruct ws as [|w ws]; [cbn in Htx; lia|]. apply Forall_cons in Hw as [Hw1 Hw]. cbn [hd tl].
  pose proof (upgrade_request_len host Hh) as Hreq.
  rewrite Z.min_r by lia. destruct (Z.ltb_spec (zlen (upgrade_request host)) 0); [lia|].
  rewrite (ztake_all (zlen (upgrade_request host))) by done.
  match goal with |- context [_ReadUpgrade ?x] => set (d0 := x) in * end.
  destruct (ReadUpgrade_spec d0 hdr (frame_bytes DERP_SERVER_KEY (kDerpMagic ++ spub ++ extra) ++ rest) Hl eq_refl eq_refl Hf H101 Hm Hc)
    as (d1 & -> & R1 & S1 & A1 & P1).
  assert (Hp : zlen (kDerpMagic ++ spub ++ extra) = 40 + zlen extra) by (rewrite !zlen_app, Hs32; change (zlen kDerpMagic) with 8; lia).
  assert (Hu1 : unstopped d1) by (eapply unstopped_same; [exact S1|exact Hu]).
  destruct (ReadFrame_frame DERP_SERVER_KEY (kDerpMagic ++ spub ++ extra) rest d1 R1 P1 Hu1 ltac:(done)
    ltac:(unfold kDerpMaxFrame; lia) A1) as (d2 & -> & A2 & R2 & S2 & P2).
  change (negb (DERP_SERVER_KEY =? DERP_SERVER_KEY)) with false. unfold kDerpMagicLen, kDerpKeyLen.
  destruct (Z.ltb_spec (zlen (kDerpMagic ++ spub ++ extra)) (8 + 32)); [lia|].
  rewrite (ztake_app 8), beq_refl, (slice_app_mid 8 32) by done. cbn [orb negb].
  pose proof (derp_same_trans _ _ _ S1 S2) as (T1 & T2 & T3 & T4 & T5 & T6). cbn [with_key fServerKey fNodePriv fNodePub]. rewrite T4, T5.
  change (fNodePriv d0) with nodePriv. change (fNodePub d0) with nodePub.
  assert (Eb : exists box, BoxSeal infoJson nonce spub nodePriv = Some box)
    by (unfold BoxSeal, BoxBeforeNm; rewrite Hdh; by eexists). destruct Eb as [box Eb]. rewrite Eb.
  destruct (box_roundtrip _ _ _ _ _ _ _ Hnp Hsp Eb) as [Ho Hbl]. change (zlen infoJson) with 13 in Hbl.
  assert (Hamp : ample (2 + 0) (with_key spub d2)).
  { unfold ample. cbn [with_key fTls]. rewrite T1. cbn. split; [cbn in Htx; lia|done]. }
  destruct (WriteFrame_ample DERP_CLIENT_INFO (nodePub ++ nonce ++ box) _ 0 Hamp) as (d3 & E3 & S3 & _);
    [rewrite !zlen_app; unfold kBufSize; lia|].
  pose proof (WriteFrame_recv DERP_CLIENT_INFO (nodePub ++ nonce ++ box) (with_key spub d2)) as W. rewrite E3 in *. cbn [snd] in W.
  destruct W as (W1 & W2 & W3 & _ & _ & _ & W4). exists d3, box. split; [done|]. split; [exact W3|].
  split; [unfold room; rewrite W1, W2; exact R2|]. split; [unfold avail; rewrite W1, W2, W4; exact A2|]. split; [|exact Ho].
  rewrite S3. cbn [with_key fTls]. rewrite T2. cbn. by rewrite <- app_assoc.
Qed.
End WithServer.

(** ** Instances *)

Definition demo_events : Tls.stream :=
  [Tls.Data (frame_bytes DERP_PING (bs "ping")); Tls.Timeout; Tls.Data (frame_bytes DERP_RECV_PACKET (zeros 32 ++ bs "hi"))].
Definition demo_client : derp := with_tls (mkLink demo_events (replicate 8 65536) []) DerpClient.

Lemma relay_delivers_witness :
  exists b', receive 2 2048 demo_client = ([NoPacket; Packet (zeros 32) (bs "hi")], b')
  /\ sent (fTls b') = frame_bytes DERP_PONG (bs "ping").
Proof.
  destruct (relay_delivers 2048 [(DERP_PING, bs "ping"); (DERP_RECV_PACKET, zeros 32 ++ bs "hi")] []
    demo_client (zeros 32) (bs "x") demo_client) as (_ & b' & A & _ & B).
  - split; [cbn; lia|]. repeat constructor; done.
  - reflexivity.
  - vm_compute. discriminate.
  - unfold room. cbn. unfold zlen, kBufSize. cbn. lia.
  - repeat (apply Forall_cons_2; [first [left; reflexivity|right; eexists; split; [reflexivity|vm_compute; discriminate]]|]). apply Forall_nil_2.
  - intros k. exact I.
  - split; [cbn; lia|]. repeat constructor; done.
  - repeat constructor; vm_compute; try split; discriminate.
  - reflexivity.
  - exists b'. split; [exact A|exact B].
Defined.

Lemma RecvPacket_bounds_witness : room (snd (RecvPacket 2048 demo_client)).
Proof.
  pose proof (RecvPacket_bounds 2048 demo_client) as A. destruct (RecvPacket 2048 demo_client) as [r d'].
  apply A.
  - unfold room. cbn. unfold zlen, kBufSize. cbn. lia.
  - vm_compute. repeat constructor; discriminate.
Defined.

Lemma stop_unblocks_reader_witness :
  let d := SetStopFlag (Some (fun _ => true)) (with_tls (mkLink [Tls.Data [5; 0]; Tls.Timeout; Tls.Data (zeros 40)] [] []) DerpClient) in
  fst (ReadFrame kDerpMaxFrame d) <> inl B_NO_MEMORY.
Proof.
  cbv zeta. set (d := SetStopFlag _ _).
  pose proof (stop_unblocks_reader 2048 d [Tls.Data [5; 0]] [Tls.Data (zeros 40)]) as A.
  destruct (RecvPacket 2048 d) as [r d']. apply A.
  - unfold room. cbn. unfold zlen, kBufSize. cbn. lia.
  - vm_compute. repeat constructor; discriminate.
  - reflexivity.
  - repeat constructor. discriminate.
  - exists (fun _ => true). split; reflexivity.
Defined.

Definition demo_upgrade : bytes := bs "HTTP/1.1 101 Switching Protocols" ++ crlf2.
Definition demo_spub : bytes := le_split 32 7.

Lemma Connect_handshake_witness :
  let l := mkLink [Tls.Data (demo_upgrade ++ frame_bytes DERP_SERVER_KEY (kDerpMagic ++ demo_spub))] [65536; 65536; 65536] [] in
  exists d' box, Connect (H := Toy.toy) (bs "derp1") B_OK l (zeros 32) (zeros 32) (zeros 24) DerpClient = (B_OK, d')
  /\ fServerKey d' = demo_spub /\ BoxOpen (H := Toy.toy) box (zeros 24) (zeros 32) demo_spub = Some infoJson.
Proof.
  cbv zeta.
  destruct (Connect_handshake (H := Toy.toy) (H0 := Toy.toy_laws) (bs "derp1")
    (mkLink [Tls.Data (demo_upgrade ++ frame_bytes DERP_SERVER_KEY (kDerpMagic ++ demo_spub))] [65536; 65536; 65536] [])
    (zeros 32) (zeros 32) (zeros 24) DerpClient demo_upgrade demo_spub demo_spub [] [])
    as (d' & box & A & B & _ & _ & _ & C).
  - vm_compute. discriminate.
  - split; [cbn; lia|]. repeat constructor; done.
  - apply Forall_cons_2; [eexists; split; [reflexivity|vm_compute; discriminate]|apply Forall_nil_2].
  - vm_compute. reflexivity.
  - vm_compute. reflexivity.
  - vm_compute. eexists. reflexivity.
  - vm_compute. discriminate.
  - vm_compute. discriminate.
  - vm_compute. reflexivity.
  - vm_compute. reflexivity.
  - vm_compute. eexists. reflexivity.
  - reflexivity.
  - intros k. exact I.
  - exists d', box. split; [exact A|]. split; [exact B|exact C].
Defined.

(** A relay that answers the upgrade later than the one-second receive timeout
    is given up. *)
Example slow_upgrade_fails :
  fst (_ReadUpgrade (with_tls (mkLink [Tls.Timeout; Tls.Data demo_upgrade] [] []) DerpClient)) = B_ERROR.
Proof. reflexivity. Qed.

End Derp.
