(* ===== verification/TsPlane.v ===== *)
(** * TsPlane: the packet data plane of a tailnet session (src/backend/tailscale/TailscaleBackend.cpp)

    What the tun reader, the socket reader and the relay reader do with the
    peers: choosing the path of a packet, the handshake and its upkeep, disco
    probes, and the demultiplexing of what arrives.  [ManagedPeer*] is an index
    into the peer set; what leaves goes to [outs], what is delivered to [tun].
    The clock, the random draws and the datagrams are arguments.  The session
    lock makes every function here one step. *)

From S2P Require Import Prelude CLib Endian Routes PeerPath Crypto WGPeer Disco MagicSock Identity Derp Netmap PeerSet SessionState.
Open Scope Z_scope.
Open Scope soto_scope.

Module TsPlane.

Import Crypto.

(** ** Addresses *)

(** One decimal field of inet_pton: no sign, no blank, no leading zero. *)
Definition octet (f : bytes) : option Z :=
  if (1 <=? zlen f) && (zlen f <=? 3) && forallb isdigit f && ((zlen f =? 1) || negb (at_ f 0 =? 48)) then
    let v := fold_left (fun a c => a * 10 + (c - 48)) f 0 in
    if v <=? 255 then Some v else None
  else None.

Definition ip_of (a b c d : Z) : Z := (a ≪ 24) .| (b ≪ 16) .| (c ≪ 8) .| d.

(** inet_pton(AF_INET, ...) *)
Definition inet_pton (s : bytes) : option Z :=
  match mapM octet (split_on 46 s) with
  | Some [a; b; c; d] => Some (ip_of a b c d)
  | _ => None
  end.

(** inet_ntop(AF_INET, ...) *)
Definition inet_ntop (ip : Z) : bytes :=
  fmt_ipv4 ((ip ≫ 24) .& 255) ((ip ≫ 16) .& 255) ((ip ≫ 8) .& 255) (ip .& 255).

(** A sockaddr_in: the address and the port. *)
Abbreviation addr := (Z * Z)%type.

Definition show_addr (a : addr) : bytes := inet_ntop (fst a) ++ [58] ++ fmt_u (snd a).

(** [BString::Truncate] at the last colon, and the number after it. *)
Definition host_port (ep : bytes) : option (bytes * Z) :=
  colon ← find_last 58 ep; Some (ztake colon ep, atoi (cstr (zdrop (colon + 1) ep))).

Definition is_direct (path : PeerPath.t) : bool :=
  match PeerPath.fMode path with PeerPath.PATH_DIRECT => true | _ => false end.

Definition peer_sockaddr (peer : PeerSet.ManagedPeer) : option addr :=
  let path := PeerSet.path peer in
  if negb (is_direct path) || (zlen (PeerPath.fEndpoint path) =? 0) then None
  else
    '(host, port) ← host_port (PeerPath.fEndpoint path);
    if port <=? 0 then None
    else ip ← inet_pton (cstr host); Some (ip, u16 port).

(** ** State *)

(** What left: a datagram of the UDP socket, or a packet the relay took. *)
Inductive sent := Datagram (to : addr) (buf : bytes) | Relayed (key buf : bytes).

Definition payload (s : sent) : bytes := match s with Datagram _ b | Relayed _ b => b end.

Record plane := mkPlane {
  fIdentity : Identity.TSIdentity;
  fSession : SessionState.session;
  fMagicSock : MagicSock.MagicSock;
  fDerp : Derp.derp;
  fDerpUp : bool;
  fTunFd : bool;                   (* a descriptor, or -1 *)
  outs : list sent;
  tun : list bytes }.

Definition with_session (x : SessionState.session) (p : plane) : plane :=
  mkPlane (fIdentity p) x (fMagicSock p) (fDerp p) (fDerpUp p) (fTunFd p) (outs p) (tun p).
Definition with_sock (x : MagicSock.MagicSock) (p : plane) : plane :=
  mkPlane (fIdentity p) (fSession p) x (fDerp p) (fDerpUp p) (fTunFd p) (outs p) (tun p).
Definition with_derp (x : Derp.derp) (up : bool) (p : plane) : plane :=
  mkPlane (fIdentity p) (fSession p) (fMagicSock p) x up (fTunFd p) (outs p) (tun p).
Definition with_tunfd (x : bool) (p : plane) : plane :=
  mkPlane (fIdentity p) (fSession p) (fMagicSock p) (fDerp p) (fDerpUp p) x (outs p) (tun p).
Definition with_out (x : sent) (p : plane) : plane :=
  mkPlane (fIdentity p) (fSession p) (fMagicSock p) (fDerp p) (fDerpUp p) (fTunFd p) (outs p ++ [x]) (tun p).
Definition with_tun (x : bytes) (p : plane) : plane :=
  mkPlane (fIdentity p) (fSession p) (fMagicSock p) (fDerp p) (fDerpUp p) (fTunFd p) (outs p) (tun p ++ [x]).

Definition peers_of (p : plane) : PeerSet.peers := SessionState.fPeers (fSession p).
Definition peer_at (i : nat) (p : plane) : option PeerSet.ManagedPeer := peers_of p !! i.

Definition with_peers (x : PeerSet.peers) (p : plane) : plane :=
  let s := fSession p in
  with_session (SessionState.mkState (SessionState.fNetmap s) x (SessionState.fDns s) (SessionState.fSelfIP s)) p.
Definition set_peer (i : nat) (f : PeerSet.ManagedPeer -> PeerSet.ManagedPeer) (p : plane) : plane :=
  with_peers (alter f i (peers_of p)) p.

Definition with_wg (w : WGPeer.peer) (m : PeerSet.ManagedPeer) : PeerSet.ManagedPeer :=
  PeerSet.mkManaged (PeerSet.nodeKeyHex m) (PeerSet.m_discoKey m) (PeerSet.m_hostname m) (PeerSet.m_online m)
    (PeerSet.m_derpRegion m) (PeerSet.m_allowedIPs m) (PeerSet.m_endpoints m) w (PeerSet.path m)
    (PeerSet.lastHandshake m) (PeerSet.lastDiscoPing m).
Definition with_path (x : PeerPath.t) (m : PeerSet.ManagedPeer) : PeerSet.ManagedPeer :=
  PeerSet.mkManaged (PeerSet.nodeKeyHex m) (PeerSet.m_discoKey m) (PeerSet.m_hostname m) (PeerSet.m_online m)
    (PeerSet.m_derpRegion m) (PeerSet.m_allowedIPs m) (PeerSet.m_endpoints m) (PeerSet.wg m) x
    (PeerSet.lastHandshake m) (PeerSet.lastDiscoPing m).
Definition with_times (hs ping : Z) (m : PeerSet.ManagedPeer) : PeerSet.ManagedPeer :=
  PeerSet.mkManaged (PeerSet.nodeKeyHex m) (PeerSet.m_discoKey m) (PeerSet.m_hostname m) (PeerSet.m_online m)
    (PeerSet.m_derpRegion m) (PeerSet.m_allowedIPs m) (PeerSet.m_endpoints m) (PeerSet.wg m) (PeerSet.path m) hs ping.

(** What one step draws and reads off the clocks. *)
Record draw := mkDraw {
  d_eph : option (bytes * bytes);   (* the ephemeral keypair *)
  d_idx : option Z;                 (* the sender index *)
  d_time : Z;                       (* time(NULL) *)
  d_now : Z;                        (* system_time() of the function *)
  d_sys : Z;                        (* system_time() inside WGPeer *)
  d_txid : bytes;                   (* the transaction id of a probe *)
  d_nonce : bytes }.                (* the nonce of a disco box *)

(** ** Sending *)

Definition SendTo (to : addr) (buf : bytes) (p : plane) : plane :=
  if MagicSock.fSocket (fMagicSock p) <? 0 then p else with_out (Datagram to buf) p.

Definition _SendPeerBytes (i : nat) (buf : bytes) (p : plane) : plane :=
  match peer_at i p with
  | None => p
  | Some peer =>
      match peer_sockaddr peer with
      | Some to => SendTo to buf p
      | None =>
          if fDerpUp p then
            let key := WGPeer.fNodeKey (PeerSet.wg peer) in
            let '(st, d) := Derp.SendPacket key buf (fDerp p) in
            let p := with_derp d (fDerpUp p) p in
            if bool_decide (st = B_OK) then with_out (Relayed key buf) p else p
          else p
      end
  end.

Section WithOpenSSL.
Context `{OpenSSL}.

Definition NodePrivate (p : plane) : bytes := Identity.priv (Identity.fNode (fIdentity p)).

(** A handshake initiation, sent if it could be built. *)
Definition initiate (i : nat) (d : draw) (now : Z) (p : plane) : plane :=
  match peer_at i p with
  | None => p
  | Some peer =>
      let w := PeerSet.wg peer in
      let '(init, w) := WGPeer.BuildInitiation w (NodePrivate p) (WGPeer.fNodeKey w) (d_eph d) (d_idx d) (d_time d) (d_sys d) in
      let p := set_peer i (with_wg w) p in
      match init with
      | None => p
      | Some init => _SendPeerBytes i init (set_peer i (fun m => with_times now (PeerSet.lastDiscoPing m) m) p)
      end
  end.

(** The probe goes to every candidate that parses; the port is not looked at. *)
Definition probe_endpoint (pkt : bytes) (p : plane) (ep : bytes) : plane :=
  match host_port ep with
  | None => p
  | Some (host, port) =>
      match inet_pton (cstr host) with
      | None => p
      | Some ip => SendTo (ip, u16 port) pkt p
      end
  end.

Definition _SendDiscoPing (i : nat) (d : draw) (p : plane) : plane :=
  match peer_at i p with
  | None => p
  | Some peer =>
      if (zlen (PeerSet.m_discoKey peer) =? 0) || (zlen (PeerSet.m_endpoints peer) =? 0) then p
      else if d_now d - PeerSet.lastDiscoPing peer <? 2000000 then p
      else
        let p := set_peer i (fun m => with_times (PeerSet.lastHandshake m) (d_now d) m) p in
        match Identity.FromHex (cstr (PeerSet.m_discoKey peer)) 32 with
        | None => p
        | Some peerDisco =>
            let id := fIdentity p in
            let ping := Disco.EncodePing (d_txid d) (Some (Identity.pub (Identity.fNode id))) in
            match Disco.DiscoSeal 256 (Identity.pub (Identity.fDisco id)) (Identity.priv (Identity.fDisco id)) peerDisco ping (d_nonce d) with
            | None => p
            | Some pkt => fold_left (probe_endpoint pkt) (PeerSet.m_endpoints peer) p
            end
        end
  end.

(** A data packet for a peer with a live session. *)
Definition send_data (i : nat) (packet : bytes) (d : draw) (p : plane) : plane :=
  match peer_at i p with
  | None => p
  | Some peer =>
      let '(out, w) := WGPeer.Encapsulate (PeerSet.wg peer) packet (d_sys d) in
      let p := set_peer i (with_wg w) p in
      match out with
      | None => p
      | Some out => _SendPeerBytes i out p
      end
  end.

Definition expire (i : nat) (now : Z) (p : plane) : plane :=
  set_peer i (fun m => with_wg (snd (WGPeer.ExpireIfStale (PeerSet.wg m) now)) m) p.

Definition _SendToPeer (i : nat) (packet : bytes) (d : draw) (p : plane) : plane :=
  match peer_at i p with
  | None => p
  | Some peer =>
      let p := if is_direct (PeerSet.path peer) then p else _SendDiscoPing i d p in
      let now := d_now d in
      let p := expire i now p in
      let w := snd (WGPeer.ExpireIfStale (PeerSet.wg peer) now) in
      if negb (WGPeer.fHasKeys (WGPeer.ss w)) then
        if now - PeerSet.lastHandshake peer >? 5000000 then initiate i d now p else p
      else
        let p := if WGPeer.ShouldInitiateRekey w now then initiate i d now p else p in
        send_data i packet d p
  end.

Definition maintain_peer (i : nat) (d : draw) (now : Z) (p : plane) : plane :=
  match peer_at i p with
  | None => p
  | Some peer =>
      let w := PeerSet.wg peer in
      if negb (WGPeer.fHasKeys (WGPeer.ss w)) then p
      else if fst (WGPeer.ExpireIfStale w now) then expire i now p
      else if WGPeer.ShouldInitiateRekey w now then initiate i d now p
      else if WGPeer.ShouldKeepalive w now then send_data i [] d p
      else p
  end.

(** Every peer in turn; each has its own draws. *)
Definition _MaintainPeers (now : Z) (ds : nat -> draw) (p : plane) : plane :=
  fold_left (fun p i => maintain_peer i (ds i) now p) (seq 0 (length (peers_of p))) p.

(** ** Receiving *)

Definition _HandleDiscoPacket (buf : bytes) (from : addr) (d : draw) (p : plane) : plane :=
  let id := fIdentity p in
  match Disco.DiscoOpen buf (Identity.priv (Identity.fDisco id)) 128 with
  | None => p
  | Some (sender, payload) =>
      let type := Disco.DiscoMessageType payload in
      if type =? Disco.DISCO_PING then
        match Disco.DecodePing payload with
        | None => p
        | Some dp =>
            let pong := Disco.EncodePong (Disco.ping_txid dp) (inet_ntop (fst from)) (snd from) in
            match Disco.DiscoSeal 256 (Identity.pub (Identity.fDisco id)) (Identity.priv (Identity.fDisco id)) sender pong (d_nonce d) with
            | None => p
            | Some pkt => SendTo from pkt p
            end
        end
      else if type =? Disco.DISCO_PONG then
        match PeerSet.FindByDiscoKey (peers_of p) (Some (Identity.ToHex sender)) with
        | None => p
        | Some i => set_peer i (fun m => with_path (PeerPath.UpgradeToDirect (PeerSet.path m) (Some (show_addr from)) (d_now d)) m) p
        end
      else p
  end.

Definition handle_initiation (buf : bytes) (d : draw) (p : plane) : plane :=
  match WGPeer.RecoverInitiatorStatic (NodePrivate p) buf with
  | None => p
  | Some peerStatic =>
      match PeerSet.Find (peers_of p) (Some (Identity.ToHex peerStatic)) with
      | None => p
      | Some i =>
          match peer_at i p with
          | None => p
          | Some peer =>
              let '(ok, w) := WGPeer.ConsumeInitiation (PeerSet.wg peer) (NodePrivate p) buf in
              if negb ok then set_peer i (with_wg w) p
              else
                let '(resp, w) := WGPeer.BuildResponse w (d_eph d) (d_idx d) (d_sys d) in
                let p := set_peer i (with_wg w) p in
                match resp with
                | None => p
                | Some resp => _SendPeerBytes i resp p
                end
          end
      end
  end.

Definition handle_response (buf : bytes) (d : draw) (p : plane) : plane :=
  match PeerSet.FindBySenderIndex (peers_of p) (load32_le buf 8) with
  | None => p
  | Some i => set_peer i (fun m => with_wg (snd (WGPeer.ConsumeResponse (PeerSet.wg m) buf (d_sys d))) m) p
  end.

Definition handle_data (buf : bytes) (p : plane) : plane :=
  match PeerSet.FindBySenderIndex (peers_of p) (load32_le buf 4) with
  | None => p
  | Some i =>
      match peer_at i p with
      | None => p
      | Some peer =>
          let '(out, w) := WGPeer.Decapsulate (PeerSet.wg peer) buf in
          let p := set_peer i (with_wg w) p in
          match out with
          | Some (plen, out) => if (plen >? 0) && fTunFd p then with_tun (ztake plen out) p else p
          | None => p
          end
      end
  end.

Definition _HandleWireGuardPacket (buf : bytes) (d : draw) (p : plane) : plane :=
  if zlen buf <? 4 then p
  else if (at_ buf 0 =? 1) && (zlen buf =? 148) then handle_initiation buf d p
  else if (at_ buf 0 =? 2) && (zlen buf =? 92) then handle_response buf d p
  else if (at_ buf 0 =? 4) && (zlen buf >=? 32) then handle_data buf p
  else p.

(** ** The readers' turns *)

(** One packet read off the tun. *)
Definition tun_packet (buf : bytes) (d : draw) (p : plane) : plane :=
  if (zlen buf <? 20) || negb (at_ buf 0 ≫ 4 =? 4) then p
  else
    match PeerSet.FindByAllowedIP (peers_of p) (fmt_ipv4 (at_ buf 16) (at_ buf 17) (at_ buf 18) (at_ buf 19)) with
    | None => p
    | Some i => _SendToPeer i buf d p
    end.

(** One datagram of the socket; [None]: not from an IPv4 address. *)
Definition sock_packet (buf : bytes) (from : option addr) (d : draw) (p : plane) : plane :=
  if zlen buf =? 0 then p
  else
    match MagicSock.Classify buf, from with
    | MagicSock.PKT_WIREGUARD, _ => _HandleWireGuardPacket buf d p
    | MagicSock.PKT_DISCO, Some from => _HandleDiscoPacket buf from d p
    | _, _ => p
    end.

(** What can happen to the plane: the readers' turns, the upkeep, a message of
    the network map, and the underlay coming and going. *)
Inductive event :=
| EvTun (buf : bytes) (d : draw)
| EvSock (buf : bytes) (from : option addr) (d : draw)
| EvRelay (buf : bytes) (d : draw)
| EvMaintain (now : Z) (ds : nat -> draw)
| EvMap (json : bytes)
| EvSocket (s : MagicSock.MagicSock)
| EvDerp (x : Derp.derp) (up : bool)
| EvTunFd (open : bool).

(** A map whose peers would be written out of range changes nothing here. *)
Definition step (p : plane) (e : event) : plane :=
  match e with
  | EvTun buf d => tun_packet buf d p
  | EvSock buf from d => sock_packet buf from d p
  | EvRelay buf d => _HandleWireGuardPacket buf d p
  | EvMaintain now ds => _MaintainPeers now ds p
  | EvMap json => match SessionState.ApplyMapResponse json (fSession p) with Some (_, _, s) => with_session s p | None => p end
  | EvSocket s => with_sock s p
  | EvDerp x up => with_derp x up p
  | EvTunFd b => with_tunfd b p
  end.
End WithOpenSSL.
End TsPlane.
