(* ===== verification/TsPlaneProofs.v ===== *)
(** * TsPlaneProofs: where the packets of a tailnet session go (proofs about TsPlane.v)

    A direct address is used only after a pong from it, and two backends carry
    an IP packet from one tun to the other. *)

From S2P Require Import Prelude CLib Endian Routes PeerPath Crypto WGPeer Replay NaClBox Disco MagicSock Identity Derp Json Netmap PeerSet SessionState TsPlane.
Open Scope Z_scope.
Open Scope soto_scope.

Module TsPlaneProofs.

Import Crypto TsPlane.

(** ** Addresses, printed and read back *)

Definition addr_ok (a : addr) : Prop := 0 <= fst a < 2 ^ 32 /\ 0 <= snd a < 2 ^ 16.

Lemma octet_fmt n : is_byte n -> octet (fmt_u n) = Some n.
Proof.
  intros Hn.
  pose proof (byte_forall (fun n => match octet (fmt_u n) with Some m => m =? n | None => false end) n) as E.
  specialize (E ltac:(vm_compute; reflexivity) Hn). cbv beta in E.
  destruct (octet (fmt_u n)); [|done]. apply Z.eqb_eq in E. by subst.
Qed.

Lemma fmt_u_no c n : 0 <= n -> isdigit c = false -> c ∉ fmt_u n.
Proof.
  intros Hn Hc Hin. pose proof (fmt_u_is_digits n Hn) as Hd. unfold is_digits in Hd. rewrite Forall_forall in Hd.
  by rewrite (Hd c Hin) in Hc.
Qed.

Lemma octets ip : 0 <= ip < 2 ^ 32 ->
  is_byte ((ip ≫ 24) .& 255) /\ is_byte ((ip ≫ 16) .& 255) /\ is_byte ((ip ≫ 8) .& 255) /\ is_byte (ip .& 255)
  /\ ip_of ((ip ≫ 24) .& 255) ((ip ≫ 16) .& 255) ((ip ≫ 8) .& 255) (ip .& 255) = ip.
Proof.
  intros Hip. unfold ip_of. rewrite !(land_ones_mod _ 8) by lia. rewrite !Z.shiftr_div_pow2 by lia. unfold is_byte.
  pose proof (Z.mod_pos_bound ip (2 ^ 8)). pose proof (Z.mod_pos_bound (ip / 2 ^ 8) (2 ^ 8)).
  pose proof (Z.mod_pos_bound (ip / 2 ^ 16) (2 ^ 8)). pose proof (Z.mod_pos_bound (ip / 2 ^ 24) (2 ^ 8)).
  split_and!; try lia.
  rewrite <- !Z.lor_assoc, (Z.lor_comm (_ ≪ 8)), (lor_shiftl_add _ _ 8) by lia.
  rewrite (Z.lor_comm (_ ≪ 16)), (lor_shiftl_add _ _ 16) by lia.
  rewrite (Z.lor_comm (_ ≪ 24)), (lor_shiftl_add _ _ 24) by lia.
  Z.div_mod_to_equations. lia.
Qed.

Lemma inet_pton_ntop ip : 0 <= ip < 2 ^ 32 -> inet_pton (inet_ntop ip) = Some ip.
Proof.
  intros Hip. destruct (octets ip Hip) as (Ha & Hb & Hc & Hd & E). unfold inet_pton, inet_ntop.
  set (a := (ip ≫ 24) .& 255) in *. set (b := (ip ≫ 16) .& 255) in *. set (c := (ip ≫ 8) .& 255) in *. set (d := ip .& 255) in *.
  change (fmt_ipv4 a b c d) with (join 46 [fmt_u a; fmt_u b; fmt_u c; fmt_u d]).
  rewrite split_on_join; [|done|by unfold is_byte in *; repeat constructor; apply fmt_u_no; try lia].
  cbn [mapM]. rewrite !octet_fmt by done. cbn. by rewrite E.
Qed.

Lemma fmt_ipv4_text a b c d : 0 <= a -> 0 <= b -> 0 <= c -> 0 <= d ->
  Forall (fun x => x <> 0) (fmt_ipv4 a b c d).
Proof.
  intros. assert (F : forall n, 0 <= n -> Forall (fun x => x <> 0) (fmt_u n)).
  { intros n Hn. apply (Forall_impl _ _ _ (fmt_u_is_digits n Hn)). intros x Hx%isdigit_spec. lia. }
  unfold fmt_ipv4. repeat (apply Forall_app; split; [by apply F|constructor; [lia|]]). by apply F.
Qed.

Lemma host_port_show a : addr_ok a -> host_port (show_addr a) = Some (inet_ntop (fst a), snd a).
Proof.
  intros [Ha Hp]. unfold host_port, show_addr. cbn [app].
  rewrite find_last_app by (apply fmt_u_no; [lia|done]). cbn [mbind option_bind].
  rewrite ztake_app by done. change (inet_ntop (fst a) ++ 58 :: fmt_u (snd a)) with (inet_ntop (fst a) ++ [58] ++ fmt_u (snd a)).
  rewrite app_assoc, zdrop_app by (rewrite zlen_app; done). by rewrite cstr_fmt_u, atoi_fmt_u by lia.
Qed.

(** The address a path sends to. *)
Definition path_addr (x : PeerPath.t) : option addr :=
  if negb (is_direct x) || (zlen (PeerPath.fEndpoint x) =? 0) then None
  else '(host, port) ← host_port (PeerPath.fEndpoint x);
       if port <=? 0 then None else ip ← inet_pton (cstr host); Some (ip, u16 port).

Lemma path_addr_shown a x : addr_ok a -> PeerPath.fEndpoint x = show_addr a ->
  path_addr x = None \/ path_addr x = Some a.
Proof.
  intros Ha E. unfold path_addr. destruct (_ || _); [by left|]. rewrite E, host_port_show by done. cbn [mbind option_bind].
  destruct (Z.leb_spec (snd a) 0); [by left|]. right. destruct Ha as [Hi Hp].
  assert (cstr (inet_ntop (fst a)) = inet_ntop (fst a)) as ->.
  { destruct (octets _ Hi) as (A & B & C & D & _). unfold is_byte in *. apply cstr_text, fmt_ipv4_text; lia. }
  rewrite inet_pton_ntop by done. cbn. rewrite u16_small by done. by destruct a.
Qed.

(** ** What a step of the plane may send *)

Definition paths (p : plane) : list PeerPath.t := map PeerSet.path (peers_of p).

Definition disco (buf : bytes) : Prop := ztake 6 buf = Disco.kDiscoMagic.

(** To the address of a direct path, over the relay, or a disco message. *)
Definition allowed (xs : list PeerPath.t) (s : sent) : Prop :=
  match s with
  | Datagram to buf => disco buf \/ exists x, x ∈ xs /\ path_addr x = Some to
  | Relayed _ _ => True
  end.

Record sends (p q : plane) : Prop := {
  sends_id : fIdentity q = fIdentity p;
  sends_sock : fMagicSock q = fMagicSock p;
  sends_fd : fTunFd q = fTunFd p;
  sends_up : fDerpUp q = fDerpUp p;
  sends_paths : paths q = paths p;
  sends_out : exists l, outs q = outs p ++ l /\ Forall (allowed (paths p)) l }.

#[export] Instance sends_preorder : PreOrder sends.
Proof.
  split.
  - intros p. split; try done. exists []. by rewrite app_nil_r.
  - intros p q r [A K F U B (l & C & D)] [A2 K2 F2 U2 B2 (l2 & C2 & D2)]. split; [congruence..|].
    exists (l ++ l2). rewrite C2, C, <- app_assoc. split; [done|]. apply Forall_app. by rewrite B in D2.
Qed.

Lemma sends_set_peer i f p : (forall m, PeerSet.path (f m) = PeerSet.path m) -> sends p (set_peer i f p).
Proof.
  intros Hf. split; [done..| |by exists []; rewrite app_nil_r].
  unfold paths, set_peer, with_peers, peers_of. cbn. apply list_eq. intros j. rewrite !list_lookup_fmap.
  rewrite list_lookup_alter. destruct (decide (i = j)) as [->|]; [|done].
  destruct (SessionState.fPeers (fSession p) !! j) as [m|]; cbn; rewrite ?Hf; done.
Qed.

Lemma sends_SendTo to buf p : allowed (paths p) (Datagram to buf) -> sends p (SendTo to buf p).
Proof.
  intros Ha. unfold SendTo. destruct (_ <? 0); [reflexivity|]. split; [done..|]. exists [Datagram to buf].
  split; [done|]. by constructor.
Qed.

Lemma sends_PeerBytes i buf p : sends p (_SendPeerBytes i buf p).
Proof.
  unfold _SendPeerBytes. destruct (peer_at i p) as [m|] eqn:Em; [|reflexivity].
  destruct (peer_sockaddr m) as [to|] eqn:Ea.
  - apply sends_SendTo. right. exists (PeerSet.path m). split; [|exact Ea].
    apply list_elem_of_In, in_map, list_elem_of_In. by eapply list_elem_of_lookup_2.
  - destruct (fDerpUp p) eqn:Eu; [|reflexivity]. destruct (Derp.SendPacket _ _ _) as [st d].
    destruct (bool_decide _); (split; [done..|]).
    + exists [Relayed (WGPeer.fNodeKey (PeerSet.wg m)) buf]. split; [done|]. by constructor.
    + exists []. by rewrite app_nil_r.
Qed.

Section WithOpenSSL.
Context `{OpenSSL}.

Lemma sends_initiate i d now p : sends p (initiate i d now p).
Proof.
  unfold initiate. destruct (peer_at i p) as [m|]; [|reflexivity].
  destruct (WGPeer.BuildInitiation _ _ _ _ _ _ _) as [[init|] w]; [|by apply sends_set_peer].
  etransitivity; [|apply sends_PeerBytes]. etransitivity; by apply sends_set_peer.
Qed.

Lemma sends_probe pkt p ep : disco pkt -> sends p (probe_endpoint pkt p ep).
Proof.
  intros Hd. unfold probe_endpoint. destruct (host_port ep) as [[h port]|]; [|reflexivity].
  destruct (inet_pton _); [|reflexivity]. apply sends_SendTo. by left.
Qed.

Lemma DiscoSeal_disco cap a b c pl n pkt : Disco.DiscoSeal cap a b c pl n = Some pkt -> disco pkt.
Proof.
  unfold Disco.DiscoSeal. destruct (_ <? _); [done|]. destruct (NaClBox.BoxSeal _ _ _ _); [|done]. cbn [mbind option_bind].
  intros E. apply (inj Some) in E. subst pkt. unfold disco. by apply ztake_app.
Qed.

Lemma sends_fold {A} (f : plane -> A -> plane) l p : (forall p x, sends p (f p x)) -> sends p (fold_left f l p).
Proof.
  intros Hf. revert p. induction l as [|x l IH]; intros p; cbn [fold_left]; [reflexivity|]. etransitivity; [apply Hf|apply IH].
Qed.

Lemma sends_DiscoPing i d p : sends p (_SendDiscoPing i d p).
Proof.
  unfold _SendDiscoPing. destruct (peer_at i p) as [m|]; [|reflexivity]. destruct (_ || _); [reflexivity|].
  destruct (_ <? _); [reflexivity|]. etransitivity; [by apply (sends_set_peer i (fun m => with_times (PeerSet.lastHandshake m) (d_now d) m))|].
  destruct (Identity.FromHex _ _); [|reflexivity]. destruct (Disco.DiscoSeal _ _ _ _ _ _) eqn:E; [|reflexivity].
  apply sends_fold. intros q x. by eapply sends_probe, DiscoSeal_disco.
Qed.

Lemma sends_data i packet d p : sends p (send_data i packet d p).
Proof.
  unfold send_data. destruct (peer_at i p) as [m|]; [|reflexivity]. destruct (WGPeer.Encapsulate _ _ _) as [[o|] w]; [|by apply sends_set_peer].
  etransitivity; [|apply sends_PeerBytes]. by apply sends_set_peer.
Qed.

Lemma sends_expire i now p : sends p (expire i now p).
Proof. by apply sends_set_peer. Qed.

Lemma sends_ToPeer i packet d p : sends p (_SendToPeer i packet d p).
Proof.
  unfold _SendToPeer. destruct (peer_at i p) as [m|]; [|reflexivity].
  transitivity (if is_direct (PeerSet.path m) then p else _SendDiscoPing i d p).
  { destruct (is_direct _); [reflexivity|apply sends_DiscoPing]. }
  etransitivity; [apply (sends_expire i (d_now d))|].
  destruct (negb _); [destruct (_ >? _); [apply sends_initiate|reflexivity]|].
  etransitivity; [|apply sends_data]. destruct (WGPeer.ShouldInitiateRekey _ _); [apply sends_initiate|reflexivity].
Qed.

Lemma sends_maintain i d now p : sends p (maintain_peer i d now p).
Proof.
  unfold maintain_peer. destruct (peer_at i p) as [m|]; [|reflexivity]. destruct (negb _); [reflexivity|].
  destruct (fst _); [apply sends_expire|]. destruct (WGPeer.ShouldInitiateRekey _ _); [apply sends_initiate|].
  destruct (WGPeer.ShouldKeepalive _ _); [apply sends_data|reflexivity].
Qed.

Lemma sends_WireGuard buf d p : sends p (_HandleWireGuardPacket buf d p).
Proof.
  unfold _HandleWireGuardPacket, handle_initiation, handle_response, handle_data.
  destruct (_ <? _); [reflexivity|]. destruct (_ && _); [|destruct (_ && _); [|destruct (_ && _); [|reflexivity]]].
  - destruct (WGPeer.RecoverInitiatorStatic _ _); [|reflexivity]. destruct (PeerSet.Find _ _) as [i|]; [|reflexivity].
    destruct (peer_at i p) as [m|]; [|reflexivity]. destruct (WGPeer.ConsumeInitiation _ _ _) as [[] w]; [|by apply sends_set_peer].
    cbn [negb]. destruct (WGPeer.BuildResponse _ _ _ _) as [[o|] w2]; [|by apply sends_set_peer].
    etransitivity; [|apply sends_PeerBytes]. by apply sends_set_peer.
  - destruct (PeerSet.FindBySenderIndex _ _); [|reflexivity]. by apply sends_set_peer.
  - destruct (PeerSet.FindBySenderIndex _ _) as [i|]; [|reflexivity]. destruct (peer_at i p) as [m|]; [|reflexivity].
    destruct (WGPeer.Decapsulate _ _) as [[[n o]|] w]; [|by apply sends_set_peer].
    etransitivity; [by apply (sends_set_peer i (with_wg w))|]. destruct (_ && _); [|reflexivity].
    split; [done..|]. exists []. by rewrite app_nil_r.
Qed.

Lemma sends_tun_packet buf d p : sends p (tun_packet buf d p).
Proof. unfold tun_packet. destruct (_ || _); [reflexivity|]. destruct (PeerSet.FindByAllowedIP _ _); [apply sends_ToPeer|reflexivity]. Qed.

Lemma sends_upkeep now ds p : sends p (_MaintainPeers now ds p).
Proof. apply sends_fold. intros q i. apply sends_maintain. Qed.

(** ** Direct paths are confirmed *)

Lemma Update_paths (P : PeerPath.t -> Prop) ps nm ps' c :
  P PeerPath.PeerPath -> (forall x, P x -> P (PeerPath.UseDerp x)) ->
  Forall P (map PeerSet.path ps) -> PeerSet.Update ps nm = Some (ps', c) -> Forall P (map PeerSet.path ps').
Proof.
  intros P0 PU. rewrite !Forall_map. unfold PeerSet.Update.
  assert (PD : forall np x, P x -> P (PeerSet.use_derp np x)) by (intros np x; unfold PeerSet.use_derp; destruct (_ >=? 0); auto).
  assert (A : forall nps r r', Forall (P ∘ PeerSet.path) (PeerSet.r_peers r) -> PeerSet.update_peers r nps = Some r' ->
      Forall (P ∘ PeerSet.path) (PeerSet.r_peers r')).
  { induction nps as [|np nps IH]; intros r r' Hr; cbn [PeerSet.update_peers]; [by intros [= <-]|].
    unfold PeerSet.update_peer. destruct (_ =? 0); [cbn; by apply IH|].
    destruct (PeerSet._IndexOf _ _) as [idx|]; [destruct (decide _); [|done]|]; cbn [mbind option_bind]; apply IH; cbn [PeerSet.r_peers].
    - apply Forall_lookup. intros j m. rewrite list_lookup_alter. destruct (decide _) as [->|]; [|by apply Forall_lookup_1].
      destruct (PeerSet.r_peers r !! j) as [m0|] eqn:E; [|done]. intros [= <-]. cbn. apply PD. by apply (Forall_lookup_1 _ _ _ _ Hr E).
    - apply Forall_app. split; [done|]. constructor; [|constructor]. cbn. by apply PD. }
  assert (B : forall n ps seen rm, Forall (P ∘ PeerSet.path) ps -> Forall (P ∘ PeerSet.path) (fst (PeerSet.drop_unseen n ps seen rm))).
  { induction n as [|n IH]; intros qs seen rm Hq; cbn [PeerSet.drop_unseen]; [done|].
    destruct (seen !! n) as [[]|]; apply IH; [done| |done]. by apply Forall_delete. }
  intros Hp. destruct (PeerSet.update_peers _ _) as [r|] eqn:E; [|done]. cbn [mbind option_bind].
  apply A in E; [|exact Hp]. specialize (B (length (PeerSet.r_peers r)) (PeerSet.r_peers r) (PeerSet.r_seen r) 0 E).
  destruct (PeerSet.drop_unseen _ _ _ _) as [qs n]. by intros [= <- _].
Qed.

(** Among [es], from [p0] on, there is a datagram from [a] that opens as a pong
    under the disco key of a peer the plane knew when it arrived. *)
Definition pong_from (p0 : plane) (es : list event) (a : addr) : Prop :=
  exists es1 buf d es2 sender payload m,
    es = es1 ++ EvSock buf (Some a) d :: es2
    /\ Disco.DiscoOpen buf (Identity.priv (Identity.fDisco (fIdentity p0))) 128 = Some (sender, payload)
    /\ Disco.DiscoMessageType payload = Disco.DISCO_PONG
    /\ m ∈ peers_of (fold_left step es1 p0) /\ PeerSet.m_discoKey m <> []
    /\ cstr (PeerSet.m_discoKey m) = Identity.ToHex sender.

(** The addresses events carry are sockaddr_in's. *)
Definition event_ok (e : event) : Prop :=
  match e with EvSock _ (Some a) _ => addr_ok a | _ => True end.

Definition confirmed (p0 : plane) (es : list event) (x : PeerPath.t) : Prop :=
  is_direct x = true -> exists a, pong_from p0 es a /\ addr_ok a /\ PeerPath.fEndpoint x = show_addr a.

Definition sent_ok (p0 : plane) (es : list event) (s : sent) : Prop :=
  match s with Datagram to buf => disco buf \/ pong_from p0 es to | Relayed _ _ => True end.

Record confirms (p0 : plane) (es : list event) (p : plane) : Prop := {
  c_id : fIdentity p = fIdentity p0;
  c_paths : Forall (confirmed p0 es) (paths p);
  c_outs : Forall (sent_ok p0 es) (outs p) }.

Lemma pong_from_mono p0 es e a : pong_from p0 es a -> pong_from p0 (es ++ [e]) a.
Proof. intros (e1 & b & d & e2 & k & pl & m & -> & R). exists e1, b, d, (e2 ++ [e]), k, pl, m. split; [by rewrite <- app_assoc|done]. Qed.

Lemma confirmed_mono p0 es e x : confirmed p0 es x -> confirmed p0 (es ++ [e]) x.
Proof. intros Hc Hd. destruct (Hc Hd) as (a & Ha & R). exists a. split; [by apply pong_from_mono|done]. Qed.

Lemma confirms_mono p0 es e p : confirms p0 es p -> confirms p0 (es ++ [e]) p.
Proof.
  intros [A B C]. split; [done| |].
  - apply (Forall_impl _ _ _ B). intros x. apply confirmed_mono.
  - apply (Forall_impl _ _ _ C). intros [to b|]; [|done]. intros [D|D]; [by left|right; by apply pong_from_mono].
Qed.

Lemma sends_confirms p0 es p q : sends p q -> confirms p0 es p -> confirms p0 es q.
Proof.
  intros [S1 _ _ _ S2 (l & S3 & S4)] [A B C]. split; [congruence|by rewrite S2|].
  rewrite S3. apply Forall_app. split; [done|]. apply (Forall_impl _ _ _ S4). intros [to b|]; [|done].
  intros [D|(x & Hx & Ex)]; [by left|]. right. rewrite Forall_forall in B.
  assert (Hd : is_direct x = true) by (unfold path_addr in Ex; by destruct (is_direct x)).
  destruct (B x Hx Hd) as (a & Ha & Hok & Es). destruct (path_addr_shown a x Hok Es) as [E|E]; congruence.
Qed.

Lemma confirms_frame p0 es p q : fIdentity q = fIdentity p -> paths q = paths p -> outs q = outs p -> confirms p0 es p -> confirms p0 es q.
Proof. intros A B C [D E F]. split; congruence. Qed.

(** The sender looked up is a peer with that disco key. *)
Lemma known_sender ps sender i : PeerSet.FindByDiscoKey ps (Some (Identity.ToHex sender)) = Some i ->
  exists m, m ∈ ps /\ PeerSet.m_discoKey m <> [] /\ cstr (PeerSet.m_discoKey m) = Identity.ToHex sender.
Proof.
  unfold PeerSet.FindByDiscoKey. cbn [mbind option_bind]. intros (m & Hm & Hk)%PeerSet.index_of_Some.
  apply andb_true_iff in Hk as [Hk Hl]. exists m. split; [by eapply list_elem_of_lookup_2|].
  split; [by intros E; rewrite E in Hl|]. unfold Json.str_eq in Hk. apply beq_true in Hk. rewrite Hk.
  apply cstr_text, Identity.ToHex_text.
Qed.

(** The pong is the one message that changes a path. *)
Lemma Disco_confirms p0 es buf from d p : p = fold_left step es p0 ->
  addr_ok from -> confirms p0 es p -> confirms p0 (es ++ [EvSock buf (Some from) d]) (_HandleDiscoPacket buf from d p).
Proof.
  intros Hp Hok Hc. pose proof (confirms_mono p0 es (EvSock buf (Some from) d) p Hc) as Hm. unfold _HandleDiscoPacket.
  destruct (Disco.DiscoOpen _ _ _) as [[key pl]|] eqn:Eo; [|done]. cbv zeta.
  destruct (_ =? Disco.DISCO_PING).
  { destruct (Disco.DecodePing pl); [|done]. destruct (Disco.DiscoSeal _ _ _ _ _ _) eqn:Es; [|done].
    apply (sends_confirms _ _ p); [|done]. apply sends_SendTo. left. by eapply DiscoSeal_disco. }
  destruct (Z.eqb_spec (Disco.DiscoMessageType pl) Disco.DISCO_PONG) as [Et|]; [|done].
  destruct (PeerSet.FindByDiscoKey _ _) as [i|] eqn:Ef; [|done]. destruct Hm as [A B C]. split; [done| |done].
  unfold paths, set_peer, with_peers, peers_of. cbn. apply Forall_map, Forall_lookup. intros j m.
  unfold paths in B. rewrite Forall_map in B.
  rewrite list_lookup_alter. destruct (decide (i = j)) as [->|]; [|by apply (Forall_lookup_1 _ _ j m B)].
  destruct (SessionState.fPeers (fSession p) !! j) as [m0|]; [|done]. intros E. apply (inj Some) in E. subst m. intros _. exists from. split; [|by split].
  destruct (known_sender _ _ _ Ef) as (mk & Hk & Nk & Ek). rewrite (c_id _ _ _ Hc) in Eo. rewrite Hp in Hk.
  by exists es, buf, d, [], key, pl, mk.
Qed.

Lemma step_confirms p0 es e p : p = fold_left step es p0 -> event_ok e -> confirms p0 es p -> confirms p0 (es ++ [e]) (step p e).
Proof.
  intros Hp Hok Hc. pose proof (confirms_mono p0 es e p Hc) as Hm.
  destruct e as [buf d|buf from d|buf d|now ds|json|s|x up|b]; cbn [step].
  - eapply sends_confirms; [|exact Hm]. apply sends_tun_packet.
  - unfold sock_packet. destruct (zlen buf =? 0); [done|]. destruct (MagicSock.Classify buf).
    + eapply sends_confirms; [apply sends_WireGuard|exact Hm].
    + done.
    + destruct from as [from|]; [|done]. by apply Disco_confirms.
  - eapply sends_confirms; [apply sends_WireGuard|exact Hm].
  - eapply sends_confirms; [apply sends_upkeep|exact Hm].
  - destruct (SessionState.ApplyMapResponse json (fSession p)) as [[[ok c] s]|] eqn:E; [|done]. destruct Hm as [A B C]. split; [done| |done].
    unfold SessionState.ApplyMapResponse in E. destruct (Netmap.Parse json _) as [[] nm]; [|by injection E as <- <- <-].
    destruct (PeerSet.Update _ _) as [[ps cs]|] eqn:Eu; [|done]. injection E as <- <- <-.
    refine (Update_paths (confirmed p0 (es ++ [EvMap json])) _ _ _ _ _ _ B Eu); [done|].
    intros x. unfold confirmed, PeerPath.UseDerp, is_direct. by destruct (PeerPath.fMode x) eqn:Em; rewrite ?Em.
  - by apply (confirms_frame _ _ p).
  - by apply (confirms_frame _ _ p).
  - by apply (confirms_frame _ _ p).
Qed.

(** C9: A WireGuard packet leaves the UDP socket only towards an address that has answered: from a plane without direct paths, over every interleaving of tun packets, datagrams, relayed packets, upkeep, network maps and underlay changes, each datagram sent is a disco message or goes to the source address of a pong received before, sealed to this node under the disco key of a peer that was in its network map when the pong arrived. Everything else travels over the relay. *)
Theorem direct_only_after_pong (p0 : plane) (es : list event) (to : addr) (buf : bytes) :
  Forall (fun x => is_direct x = false) (paths p0) -> outs p0 = [] -> Forall event_ok es ->
  Datagram to buf ∈ outs (fold_left step es p0) ->
  ztake 6 buf = Disco.kDiscoMagic \/ pong_from p0 es to.
Proof.
  intros Hp Ho Hok Hin. assert (Hc : confirms p0 es (fold_left step es p0)).
  { clear Hin. induction es as [|e es IH] using rev_ind; cbn.
    - split; [done| |rewrite Ho; constructor]. apply (Forall_impl _ _ _ Hp). intros x Hx. unfold confirmed. by rewrite Hx.
    - apply Forall_app in Hok as [H1 H2]. rewrite fold_left_app. cbn [fold_left]. apply Forall_cons in H2 as [H2 _]. apply step_confirms; [done..|by apply IH]. }
  exact (proj1 (Forall_forall _ _) (c_outs _ _ _ Hc) _ Hin).
Qed.

(** Nothing but a network map that drops the peer ends a direct path:
    [PeerPath.Evaluate], which would fall back to the relay, is never called. *)
Lemma direct_never_falls_back (p : plane) (e : event) i m :
  (forall json, e <> EvMap json) -> peer_at i p = Some m -> is_direct (PeerSet.path m) = true ->
  exists m', peer_at i (step p e) = Some m' /\ is_direct (PeerSet.path m') = true.
Proof.
  intros He Hm Hd.
  assert (S : forall q, sends p q -> exists m', peer_at i q = Some m' /\ is_direct (PeerSet.path m') = true).
  { intros q [_ _ _ _ Sp _]. unfold paths in Sp. assert (E : map PeerSet.path (peers_of q) !! i = map PeerSet.path (peers_of p) !! i) by (by rewrite Sp).
    rewrite !list_lookup_fmap in E. unfold peer_at in *. rewrite Hm in E. cbn in E.
    destruct (peers_of q !! i) as [m'|]; [|done]. injection E as E. exists m'. by rewrite E. }
  destruct e as [buf d|buf from d|buf d|now ds|json|s|x up|b]; cbn [step].
  - apply S, sends_tun_packet.
  - unfold sock_packet. destruct (zlen buf =? 0); [by apply S|]. destruct (MagicSock.Classify buf).
    + apply S, sends_WireGuard.
    + by apply S.
    + destruct from as [from|]; [|by apply S]. unfold _HandleDiscoPacket.
      destruct (Disco.DiscoOpen _ _ _) as [[key pl]|]; [|by apply S]. cbv zeta. destruct (_ =? Disco.DISCO_PING).
      { apply S. destruct (Disco.DecodePing pl); [|reflexivity]. destruct (Disco.DiscoSeal _ _ _ _ _ _) eqn:Es; [|reflexivity].
        apply sends_SendTo. left. by eapply DiscoSeal_disco. }
      destruct (_ =? Disco.DISCO_PONG); [|by apply S]. destruct (PeerSet.FindByDiscoKey _ _) as [j|]; [|by apply S].
      unfold set_peer, peer_at, peers_of, with_peers. cbn. rewrite list_lookup_alter. unfold peer_at, peers_of in Hm. rewrite Hm.
      destruct (decide (j = i)) as [->|]; [|by exists m]. rewrite Hm. by eexists.
  - apply S, sends_WireGuard.
  - apply S, sends_upkeep.
  - by destruct (He json).
  - by exists m.
  - by exists m.
  - by exists m.
Qed.
End WithOpenSSL.
End TsPlaneProofs.
