(* ===== verification/TsDelivery.v ===== *)
(** * TsDelivery: two backends carry a packet between their tuns (proofs about TsPlane.v)

    The initiation of one plane, handled by the other, brings the response
    that connects them; from then on what one reads off its tun the other
    writes to its own. *)

From S2P Require Import Prelude CLib Endian Routes PeerPath Blake2s Crypto WGPeer Replay NaClBox Disco MagicSock Identity Derp Json Netmap PeerSet MagicDns SessionState TsPlane TsPlaneProofs.
Open Scope Z_scope.
Open Scope soto_scope.

Module TsDelivery.

Import Crypto TsPlane TsPlaneProofs.

(** ** What a step leaves alone *)

(** Only peer [i] changes, and neither its name nor its routes. *)
Record touches (i : nat) (p q : plane) : Prop := {
  t_id : fIdentity q = fIdentity p;
  t_fd : fTunFd q = fTunFd p;
  t_tun : tun q = tun p;
  t_other : forall j, j <> i -> peer_at j q = peer_at j p;
  t_name : (fun m => (PeerSet.nodeKeyHex m, PeerSet.m_allowedIPs m)) <$> peer_at i q
         = (fun m => (PeerSet.nodeKeyHex m, PeerSet.m_allowedIPs m)) <$> peer_at i p }.

#[export] Instance touches_preorder i : PreOrder (touches i).
Proof.
  split; [intros p; by split|]. intros p q r [A B C D E] [A2 B2 C2 D2 E2]. split; try congruence.
  intros j Hj. by rewrite D2, D.
Qed.

Lemma peer_at_set i f p j : peer_at j (set_peer i f p) = (if decide (i = j) then f <$> peer_at j p else peer_at j p).
Proof. unfold peer_at, set_peer, with_peers, peers_of. cbn. rewrite list_lookup_alter. by destruct (decide (i = j)) as [->|]. Qed.

Lemma touches_set i f p :
  (forall m, PeerSet.nodeKeyHex (f m) = PeerSet.nodeKeyHex m /\ PeerSet.m_allowedIPs (f m) = PeerSet.m_allowedIPs m) ->
  touches i p (set_peer i f p).
Proof.
  intros Hf. split; try done.
  - intros j Hj. rewrite peer_at_set. by destruct (decide (i = j)).
  - rewrite peer_at_set, decide_True by done. destruct (peer_at i p) as [m|]; [|done]. cbn. by destruct (Hf m) as [-> ->].
Qed.

(** The same, and the peers themselves are the same. *)
Record still (p q : plane) : Prop := {
  s_id : fIdentity q = fIdentity p;
  s_fd : fTunFd q = fTunFd p;
  s_tun : tun q = tun p;
  s_peers : peers_of q = peers_of p }.

Lemma still_touches i p q : still p q -> touches i p q.
Proof. intros [A B C D]. split; try done; unfold peer_at; by rewrite D. Qed.

Lemma still_peer_at p q i : still p q -> peer_at i q = peer_at i p.
Proof. intros [_ _ _ D]. unfold peer_at. by rewrite D. Qed.

Lemma SendTo_still to buf p : still p (SendTo to buf p).
Proof. unfold SendTo. by destruct (_ <? 0). Qed.

Lemma SendTo_outs to buf p : outs (SendTo to buf p) = outs p \/ outs (SendTo to buf p) = outs p ++ [Datagram to buf].
Proof. unfold SendTo. destruct (_ <? 0); [by left|by right]. Qed.

Lemma PeerBytes_still i buf p :
  still p (_SendPeerBytes i buf p)
  /\ (outs (_SendPeerBytes i buf p) = outs p \/ exists s, outs (_SendPeerBytes i buf p) = outs p ++ [s] /\ payload s = buf).
Proof.
  unfold _SendPeerBytes. destruct (peer_at i p) as [m|]; [|by split; [|left]].
  destruct (peer_sockaddr m) as [to|].
  - split; [apply SendTo_still|]. destruct (SendTo_outs to buf p) as [E|E]; [by left|right]. by exists (Datagram to buf).
  - destruct (fDerpUp p); [|by split; [|left]]. destruct (Derp.SendPacket _ _ _) as [st d]. destruct (bool_decide _); [|by split; [|left]].
    split; [done|right]. by exists (Relayed (WGPeer.fNodeKey (PeerSet.wg m)) buf).
Qed.

(** ** The message a step ends with *)

(** The last thing sent is a WireGuard message of type [t]. *)
Definition emits (p q : plane) (t : Z) (s : sent) : Prop :=
  exists l, outs q = outs p ++ l ++ [s] /\ at_ (payload s) 0 = t.

Lemma emits_last p q t s l s2 : emits p q t s -> outs q = outs p ++ l ++ [s2] -> s = s2.
Proof.
  intros (k & E & _) E2. rewrite E in E2. apply app_inv_head in E2. by apply app_inj_tail in E2 as [_ ->].
Qed.

(** Disco messages are not WireGuard messages. *)
Lemma emits_not_disco p q t s l : emits p q t s -> t <> 84 -> outs q = outs p ++ l -> Forall (fun x => disco (payload x)) l -> False.
Proof.
  intros (k & E & Ht) Hn E2 Hd. rewrite E in E2. apply app_inv_head in E2. subst l. apply Forall_app in Hd as [_ Hd].
  apply Forall_cons in Hd as [Hd _]. unfold disco in Hd.
  apply Hn. rewrite <- Ht. rewrite <- (at_ztake 6 0) by lia. by rewrite Hd.
Qed.

Section WithOpenSSL.
Context `{OpenSSL}.

Lemma probe_fold_still pkt eps p : still p (fold_left (probe_endpoint pkt) eps p)
  /\ exists l, outs (fold_left (probe_endpoint pkt) eps p) = outs p ++ l /\ Forall (fun x => payload x = pkt) l.
Proof.
  revert p. induction eps as [|ep eps IH]; intros p; cbn [fold_left].
  - split; [done|]. exists []. by rewrite app_nil_r.
  - destruct (IH (probe_endpoint pkt p ep)) as ([A B C D] & l & E & F).
    assert (P : still p (probe_endpoint pkt p ep)
      /\ exists l, outs (probe_endpoint pkt p ep) = outs p ++ l /\ Forall (fun x => payload x = pkt) l).
    { assert (N : exists l, outs p = outs p ++ l /\ Forall (fun x => payload x = pkt) l) by (exists []; by rewrite app_nil_r).
      unfold probe_endpoint. destruct (host_port ep) as [[h po]|]; [|done]. destruct (inet_pton _) as [ip|]; [|done].
      split; [apply SendTo_still|]. destruct (SendTo_outs (ip, u16 po) pkt p) as [->| ->]; [done|]. eexists. split; [reflexivity|]. by constructor. }
    destruct P as ([A2 B2 C2 D2] & l2 & E2 & F2). split; [split; congruence|].
    exists (l2 ++ l). rewrite E, E2, <- app_assoc. split; [done|]. by apply Forall_app.
Qed.

(** The probe of a path changes no key. *)
Lemma DiscoPing_touches i d p :
  touches i p (_SendDiscoPing i d p)
  /\ (fun m => (PeerSet.wg m, PeerSet.lastHandshake m)) <$> peer_at i (_SendDiscoPing i d p)
     = (fun m => (PeerSet.wg m, PeerSet.lastHandshake m)) <$> peer_at i p
  /\ exists l, outs (_SendDiscoPing i d p) = outs p ++ l /\ Forall (fun x => disco (payload x)) l.
Proof.
  assert (N : exists l, outs p = outs p ++ l /\ Forall (fun x => disco (payload x)) l) by (exists []; by rewrite app_nil_r).
  unfold _SendDiscoPing. destruct (peer_at i p) as [m|] eqn:Em; [|by rewrite Em].
  destruct (_ || _); [by rewrite Em|]. destruct (_ <? _); [by rewrite Em|].
  set (q := set_peer i _ p).
  assert (Hq : touches i p q /\ (fun m => (PeerSet.wg m, PeerSet.lastHandshake m)) <$> peer_at i q = Some (PeerSet.wg m, PeerSet.lastHandshake m)).
  { split; [by apply touches_set|]. unfold q. by rewrite peer_at_set, decide_True, Em by done. }
  assert (Nq : outs q = outs p) by done. clearbody q. destruct Hq as [Hq1 Hq2]. rewrite <- Nq in N. cbn [fmap option_fmap option_map].
  destruct (Identity.FromHex _ _) as [dk|]; [|by rewrite <- Nq]. destruct (Disco.DiscoSeal _ _ _ _ _ _) as [pkt|] eqn:Es; [|by rewrite <- Nq].
  destruct (probe_fold_still pkt (PeerSet.m_endpoints m) q) as (S & l & E & F). split_and!.
  - etransitivity; [exact Hq1|]. by apply still_touches.
  - by rewrite (still_peer_at _ _ i S).
  - exists l. rewrite E, Nq. split; [done|]. apply (Forall_impl _ _ _ F). intros x ->. by eapply DiscoSeal_disco.
Qed.

(** ** The two messages of the sender *)

Lemma initiate_spec i d now p m o w :
  peer_at i p = Some m ->
  WGPeer.BuildInitiation (PeerSet.wg m) (NodePrivate p) (WGPeer.fNodeKey (PeerSet.wg m)) (d_eph d) (d_idx d) (d_time d) (d_sys d) = (o, w) ->
  touches i p (initiate i d now p)
  /\ PeerSet.wg <$> peer_at i (initiate i d now p) = Some w
  /\ (outs (initiate i d now p) = outs p \/ exists s, o = Some (payload s) /\ outs (initiate i d now p) = outs p ++ [s]).
Proof.
  intros Em Eb. unfold initiate. rewrite Em, Eb.
  set (q := set_peer i (with_wg w) p).
  assert (Q : touches i p q /\ PeerSet.wg <$> peer_at i q = Some w) by (split; [by apply touches_set|unfold q; by rewrite peer_at_set, decide_True, Em by done]).
  assert (Nq : outs q = outs p) by done. clearbody q. destruct Q as [Q1 Q2]. destruct o as [buf|]; [|by split_and!; [| |left]].
  set (r := set_peer i _ q).
  assert (R : touches i q r /\ PeerSet.wg <$> peer_at i r = Some w).
  { split; [by apply touches_set|]. unfold r. rewrite peer_at_set, decide_True by done. by destruct (peer_at i q). }
  assert (Nr : outs r = outs p) by done. clearbody r. destruct R as [R1 R2].
  destruct (PeerBytes_still i buf r) as [S O]. split_and!.
  - etransitivity; [exact Q1|]. etransitivity; [exact R1|]. by apply still_touches.
  - by rewrite (still_peer_at _ _ i S).
  - rewrite Nr in O. destruct O as [O|(s & O & <-)]; [by left|right]. by exists s.
Qed.

Lemma data_spec i packet d p m o w :
  peer_at i p = Some m -> WGPeer.Encapsulate (PeerSet.wg m) packet (d_sys d) = (o, w) ->
  touches i p (send_data i packet d p)
  /\ PeerSet.wg <$> peer_at i (send_data i packet d p) = Some w
  /\ (outs (send_data i packet d p) = outs p \/ exists s, o = Some (payload s) /\ outs (send_data i packet d p) = outs p ++ [s]).
Proof.
  intros Em Eb. unfold send_data. rewrite Em, Eb.
  set (q := set_peer i (with_wg w) p).
  assert (Q : touches i p q /\ PeerSet.wg <$> peer_at i q = Some w) by (split; [by apply touches_set|unfold q; by rewrite peer_at_set, decide_True, Em by done]).
  assert (Nq : outs q = outs p) by done. clearbody q. destruct Q as [Q1 Q2]. destruct o as [buf|]; [|by split_and!; [| |left]].
  destruct (PeerBytes_still i buf q) as [S O]. split_and!.
  - etransitivity; [exact Q1|]. by apply still_touches.
  - by rewrite (still_peer_at _ _ i S).
  - rewrite Nq in O. destruct O as [O|(s & O & <-)]; [by left|right]. by exists s.
Qed.

(** What [_SendToPeer] does before it looks at the keys. *)
Definition prepared (i : nat) (d : draw) (m : PeerSet.ManagedPeer) (p : plane) : plane :=
  expire i (d_now d) (if is_direct (PeerSet.path m) then p else _SendDiscoPing i d p).

Lemma prepared_spec i d p m :
  peer_at i p = Some m ->
  touches i p (prepared i d m p)
  /\ PeerSet.wg <$> peer_at i (prepared i d m p) = Some (snd (WGPeer.ExpireIfStale (PeerSet.wg m) (d_now d)))
  /\ exists l, outs (prepared i d m p) = outs p ++ l /\ Forall (fun x => disco (payload x)) l.
Proof.
  intros Em. unfold prepared. set (q := if is_direct _ then p else _).
  assert (Q : touches i p q /\ PeerSet.wg <$> peer_at i q = Some (PeerSet.wg m)
    /\ exists l, outs q = outs p ++ l /\ Forall (fun x => disco (payload x)) l).
  { unfold q. destruct (is_direct _).
    - split_and!; [reflexivity|by rewrite Em|]. exists []. by rewrite app_nil_r.
    - destruct (DiscoPing_touches i d p) as (A & B & C). split_and!; [done| |done]. rewrite Em in B.
      destruct (peer_at i (_SendDiscoPing i d p)); [|done]. cbn in *. by injection B as -> _. }
  clearbody q. destruct Q as (A & B & C). split_and!.
  - etransitivity; [exact A|]. by apply touches_set.
  - unfold expire. rewrite peer_at_set, decide_True by done. destruct (peer_at i q) as [m2|]; [|done]. cbn in *. by injection B as ->.
  - exact C.
Qed.

Lemma prepared_emits i d p m r t s :
  peer_at i p = Some m -> t <> 84 -> emits p r t s ->
  outs r = outs (prepared i d m p) \/ (exists s', outs r = outs (prepared i d m p) ++ [s']) ->
  outs r = outs (prepared i d m p) ++ [s].
Proof.
  intros Em Ht He Hr. destruct (prepared_spec i d p m Em) as (_ & _ & l & El & Hl). destruct Hr as [Er|[s' Er]].
  - destruct (emits_not_disco p r t s l He Ht); [congruence|done].
  - rewrite Er. f_equal. f_equal. symmetry. apply (emits_last p r t s l s' He). by rewrite Er, El, <- app_assoc.
Qed.

(** Without keys the packet gives way to an initiation. *)
Lemma ToPeer_fresh i packet d p m s :
  peer_at i p = Some m -> WGPeer.fHasKeys (WGPeer.ss (PeerSet.wg m)) = false ->
  emits p (_SendToPeer i packet d p) 1 s ->
  exists w, WGPeer.BuildInitiation (PeerSet.wg m) (NodePrivate p) (WGPeer.fNodeKey (PeerSet.wg m)) (d_eph d) (d_idx d) (d_time d) (d_sys d) = (Some (payload s), w)
    /\ touches i p (_SendToPeer i packet d p) /\ PeerSet.wg <$> peer_at i (_SendToPeer i packet d p) = Some w.
Proof.
  intros Em Hk He. destruct (prepared_spec i d p m Em) as (A & B & C).
  assert (Ex : snd (WGPeer.ExpireIfStale (PeerSet.wg m) (d_now d)) = PeerSet.wg m) by (unfold WGPeer.ExpireIfStale; by rewrite Hk).
  pose proof (prepared_emits i d p m _ 1 s Em ltac:(lia) He) as Hp. revert He Hp. unfold _SendToPeer. rewrite Em. cbv zeta.
  fold (prepared i d m p). rewrite Ex, Hk in *. cbn [negb]. set (q := prepared i d m p) in *. clearbody q.
  destruct (peer_at i q) as [m2|] eqn:E2; [|done]. cbn in B. apply (inj Some) in B.
  assert (Hid : NodePrivate q = NodePrivate p) by (unfold NodePrivate; by rewrite (t_id _ _ _ A)).
  destruct (_ >? 5000000).
  - destruct (WGPeer.BuildInitiation (PeerSet.wg m) (NodePrivate p) (WGPeer.fNodeKey (PeerSet.wg m)) (d_eph d) (d_idx d) (d_time d) (d_sys d)) as [o w] eqn:Eb.
    destruct (initiate_spec i d (d_now d) q m2 o w E2) as (X & Y & Z); [by rewrite B, Hid|]. intros _ Hp.
    assert (Hs : outs (initiate i d (d_now d) q) = outs q ++ [s]) by (apply Hp; destruct Z as [Z|(s' & _ & Z)]; [by left|right; by exists s']).
    exists w. split_and!; [|by etransitivity|done]. destruct Z as [Z|(s' & -> & Z)].
    + rewrite Z in Hs. rewrite <- (app_nil_r (outs q)) in Hs at 1. by apply app_inv_head in Hs.
    + rewrite Z in Hs. apply app_inv_head in Hs. by injection Hs as ->.
  - intros _ Hp. specialize (Hp ltac:(by left)). rewrite <- (app_nil_r (outs q)) in Hp at 1. by apply app_inv_head in Hp.
Qed.

(** A young session: neither stale nor due for a new handshake. *)
Definition young (w : WGPeer.peer) (now : Z) : Prop :=
  WGPeer.fHasKeys (WGPeer.ss w) = true /\ now - WGPeer.fEstablished (WGPeer.ss w) < WGPeer.kRekeyAfterTime.

Lemma young_keeps w now : young w now -> WGPeer.ExpireIfStale w now = (false, w) /\ WGPeer.ShouldInitiateRekey w now = false.
Proof.
  intros [Hk Hn]. unfold WGPeer.ExpireIfStale, WGPeer.ShouldInitiateRekey, WGPeer.kRejectAfterTime, WGPeer.kRekeyAfterTime in *. rewrite Hk. cbn [andb].
  rewrite Z.gtb_ltb, Z.geb_leb. destruct (Z.ltb_spec (180 * 1000000) (now - WGPeer.fEstablished (WGPeer.ss w))); [lia|].
  destruct (Z.leb_spec (120 * 1000000) (now - WGPeer.fEstablished (WGPeer.ss w))); [lia|]. done.
Qed.

(** With a young session the packet goes out sealed. *)
Lemma ToPeer_live i packet d p m s :
  peer_at i p = Some m -> young (PeerSet.wg m) (d_now d) ->
  emits p (_SendToPeer i packet d p) 4 s ->
  exists w, WGPeer.Encapsulate (PeerSet.wg m) packet (d_sys d) = (Some (payload s), w)
    /\ touches i p (_SendToPeer i packet d p) /\ PeerSet.wg <$> peer_at i (_SendToPeer i packet d p) = Some w.
Proof.
  intros Em Hy He. destruct (prepared_spec i d p m Em) as (A & B & C). destruct (young_keeps _ _ Hy) as [Ex Er].
  pose proof (prepared_emits i d p m _ 4 s Em ltac:(lia) He) as Hp. revert He Hp. unfold _SendToPeer. rewrite Em. cbv zeta.
  fold (prepared i d m p). rewrite Ex in B. cbn [snd] in B. rewrite !Ex. cbn [snd]. rewrite !Er. rewrite (proj1 Hy). cbn [negb]. set (q := prepared i d m p) in *. clearbody q.
  destruct (peer_at i q) as [m2|] eqn:E2; [|done]. cbn in B. apply (inj Some) in B.
  destruct (WGPeer.Encapsulate (PeerSet.wg m) packet (d_sys d)) as [o w] eqn:Eb.
  destruct (data_spec i packet d q m2 o w E2) as (X & Y & Z); [by rewrite B|]. intros _ Hp.
  assert (Hs : outs (send_data i packet d q) = outs q ++ [s]) by (apply Hp; destruct Z as [Z|(s' & _ & Z)]; [by left|right; by exists s']).
  exists w. split_and!; [|by etransitivity|done]. destruct Z as [Z|(s' & -> & Z)].
  - rewrite Z in Hs. rewrite <- (app_nil_r (outs q)) in Hs at 1. by apply app_inv_head in Hs.
  - rewrite Z in Hs. apply app_inv_head in Hs. by injection Hs as ->.
Qed.
End WithOpenSSL.

(** ** A live pair of sessions *)

(** [wb] reads what [wa] seals. *)
Definition pipe (wa wb : WGPeer.peer) : Prop :=
  WGPeer.linked (WGPeer.ss wa) (WGPeer.ss wb)
  /\ WGPeer.fReceiverIndex (WGPeer.ss wa) = WGPeer.fSenderIndex wb /\ 0 <= WGPeer.fSenderIndex wb < 2 ^ 32
  /\ 0 <= WGPeer.fSendCounter (WGPeer.ss wa) <= Replay.kRejectAfterMessages
  /\ exists seen, Replay.rep (WGPeer.fReplay (WGPeer.ss wb)) seen /\ Forall (fun c => c < WGPeer.fSendCounter (WGPeer.ss wa)) seen.

Section Pipes.
Context `{OpenSSLLaws}.

Lemma Encapsulate_frame p plain sys pkt p' :
  WGPeer.Encapsulate p plain sys = (Some pkt, p') ->
  0 <= WGPeer.fReceiverIndex (WGPeer.ss p) < 2 ^ 32 ->
  at_ pkt 0 = 4 /\ load32_le pkt 4 = WGPeer.fReceiverIndex (WGPeer.ss p)
  /\ WGPeer.fSenderIndex p' = WGPeer.fSenderIndex p /\ WGPeer.fReceiverIndex (WGPeer.ss p') = WGPeer.fReceiverIndex (WGPeer.ss p)
  /\ WGPeer.fRecvKey (WGPeer.ss p') = WGPeer.fRecvKey (WGPeer.ss p) /\ WGPeer.fReplay (WGPeer.ss p') = WGPeer.fReplay (WGPeer.ss p)
  /\ WGPeer.fSendCounter (WGPeer.ss p') = u64 (WGPeer.fSendCounter (WGPeer.ss p) + 1).
Proof.
  unfold WGPeer.Encapsulate. destruct (negb _); [done|]. destruct (_ >? 2048); [done|]. destruct (AeadEncrypt _ _ _ _) as [c|]; [|done].
  intros E Hi. apply pair_equal_spec in E as [E <-]. apply (inj Some) in E. subst pkt. split_and!; try done.
  rewrite <- !app_assoc. exact (load32_le_store32_le [4; 0; 0; 0] _ _ Hi).
Qed.

Lemma Decapsulate_frame q pkt r q' :
  WGPeer.Decapsulate q pkt = (r, q') ->
  WGPeer.fSenderIndex q' = WGPeer.fSenderIndex q /\ WGPeer.fReceiverIndex (WGPeer.ss q') = WGPeer.fReceiverIndex (WGPeer.ss q)
  /\ WGPeer.fSendKey (WGPeer.ss q') = WGPeer.fSendKey (WGPeer.ss q) /\ WGPeer.fSendCounter (WGPeer.ss q') = WGPeer.fSendCounter (WGPeer.ss q).
Proof.
  unfold WGPeer.Decapsulate. destruct (_ || _); [by intros [= _ <-]|]. destruct (AeadDecrypt _ _ _ _) as [o|]; [|by intros [= _ <-]].
  destruct (Replay._ReplayValidate _ _) as [[] rp]; cbn [negb]; intros E; apply pair_equal_spec in E as [_ <-]; done.
Qed.

(** Sealing and opening keep the session's keys and its age. *)
Definition same_session (p q : WGPeer.peer) : Prop :=
  WGPeer.fHasKeys (WGPeer.ss q) = WGPeer.fHasKeys (WGPeer.ss p) /\ WGPeer.fEstablished (WGPeer.ss q) = WGPeer.fEstablished (WGPeer.ss p)
  /\ WGPeer.fSenderIndex q = WGPeer.fSenderIndex p.

Lemma Encapsulate_keeps p plain sys o p' : WGPeer.Encapsulate p plain sys = (o, p') -> same_session p p'.
Proof.
  unfold WGPeer.Encapsulate. destruct (negb _); [by intros [= _ <-]|]. destruct (_ >? 2048); [by intros [= _ <-]|].
  destruct (AeadEncrypt _ _ _ _); intros E; apply pair_equal_spec in E as [_ <-]; done.
Qed.

Lemma Encapsulate_counts p plain sys o p' : WGPeer.Encapsulate p plain sys = (o, p') -> 0 <= WGPeer.fSendCounter (WGPeer.ss p) ->
  WGPeer.fSendCounter (WGPeer.ss p') <= WGPeer.fSendCounter (WGPeer.ss p) + 1.
Proof.
  unfold WGPeer.Encapsulate. destruct (negb _); [by intros [= _ <-]; lia|]. destruct (_ >? 2048); [by intros [= _ <-]; lia|].
  destruct (AeadEncrypt _ _ _ _); intros E Hc; apply pair_equal_spec in E as [_ <-]; [|lia]. cbn. unfold u64. apply Z.mod_le; lia.
Qed.

Lemma Decapsulate_keeps q pkt r q' : WGPeer.Decapsulate q pkt = (r, q') -> same_session q q'.
Proof.
  unfold WGPeer.Decapsulate. destruct (_ || _); [by intros [= _ <-]|]. destruct (AeadDecrypt _ _ _ _); [|by intros [= _ <-]].
  destruct (Replay._ReplayValidate _ _) as [[] rp]; cbn [negb]; intros E; apply pair_equal_spec in E as [_ <-]; done.
Qed.

Lemma pipe_carries wa wb plain sys pkt wa' :
  pipe wa wb -> pipe wb wa -> WGPeer.fSendCounter (WGPeer.ss wa) < Replay.kRejectAfterMessages -> WGPeer.is_ip_packet plain = true ->
  WGPeer.Encapsulate wa plain sys = (Some pkt, wa') ->
  exists out wb', WGPeer.Decapsulate wb pkt = (Some (zlen plain, out), wb') /\ ztake (zlen plain) out = plain
    /\ pipe wa' wb' /\ pipe wb' wa' /\ at_ pkt 0 = 4 /\ load32_le pkt 4 = WGPeer.fSenderIndex wb /\ 32 <= zlen pkt
    /\ WGPeer.fSenderIndex wb' = WGPeer.fSenderIndex wb /\ WGPeer.fSenderIndex wa' = WGPeer.fSenderIndex wa.
Proof.
  intros (L & I & R & C & seen & Rep & Seen) (L2 & I2 & R2 & C2 & seen2 & Rep2 & Seen2) Hlt Hip He.
  pose proof (zlen_nonneg plain). destruct Replay.constants as [Hk _].
  destruct (Encapsulate_frame _ _ _ _ _ He ltac:(by rewrite I)) as (F1 & F2 & F3 & F4 & F5 & F6 & F7).
  destruct (WGPeer.seal_open wa wa' wb plain pkt sys seen L ltac:(lia) Rep (Replay.accept_next seen (WGPeer.fSendCounter (WGPeer.ss wa)) ltac:(lia) Seen) (or_intror Hip) He)
    as (wb' & out & D & Ht & Rep' & _ & _ & Hl & Hb & Hc & L').
  destruct (Decapsulate_frame _ _ _ _ D) as (G1 & G2 & G3 & G4).
  exists out, wb'. rewrite u64_small in Hc by lia. split_and!; try done; try congruence; [| |lia].
  - unfold pipe. rewrite F4, G1, Hc. split_and!; try done; try lia. exists (WGPeer.fSendCounter (WGPeer.ss wa) :: seen). split; [done|].
    constructor; [lia|]. apply (Forall_impl _ _ _ Seen). intros c ?. cbv beta in *. lia.
  - unfold pipe. rewrite G2, G4, F3, F6. split_and!; try done; try lia; [|by exists seen2].
    destruct L as (A1 & A2 & A3), L' as (B1 & B2 & B3), L2 as (_ & _ & C3). unfold WGPeer.linked. rewrite G3, F5. done.
Qed.
End Pipes.

(** Nobody else of the set uses the index. *)
Definition free_index (p : plane) (i : nat) (x : Z) : Prop :=
  x <> 0 /\ forall j m, j <> i -> peer_at j p = Some m -> WGPeer.fSenderIndex (PeerSet.wg m) <> x.

Lemma index_of_at {A} (f : A -> bool) l i x : l !! i = Some x -> f x = true ->
  (forall j y, j <> i -> l !! j = Some y -> f y = false) -> PeerSet.index_of f l = Some i.
Proof.
  revert i. induction l as [|z l IH]; intros i Hi Hx Ho; [done|]. cbn [PeerSet.index_of]. destruct i as [|i].
  - cbn in Hi. injection Hi as ->. by rewrite Hx.
  - rewrite (Ho O z) by done. rewrite (IH i) by (try done; intros j y Hj; apply (Ho (S j)); congruence). done.
Qed.

Lemma index_found p i m x : peer_at i p = Some m -> WGPeer.fSenderIndex (PeerSet.wg m) = x -> free_index p i x ->
  PeerSet.FindBySenderIndex (peers_of p) x = Some i.
Proof.
  intros Hm Hx [Hn Ho]. unfold PeerSet.FindBySenderIndex. destruct (Z.eqb_spec x 0); [done|].
  apply (index_of_at _ _ i m Hm); [by apply Z.eqb_eq|]. intros j y Hj Hy. apply Z.eqb_neq. by apply (Ho j).
Qed.

Lemma free_touches p q i x : touches i p q -> free_index p i x -> free_index q i x.
Proof. intros T [Hn Ho]. split; [done|]. intros j m Hj. rewrite (t_other _ _ _ T j Hj). by apply Ho. Qed.

Lemma FindByAllowedIP_ext ps qs ip : map PeerSet.m_allowedIPs ps = map PeerSet.m_allowedIPs qs ->
  PeerSet.FindByAllowedIP ps ip = PeerSet.FindByAllowedIP qs ip.
Proof.
  intros E. unfold PeerSet.FindByAllowedIP. destruct (TSRoutes.parse_ipv4 ip) as [dst|]; [|done]. cbn [mbind option_bind]. f_equal.
  generalize (@None nat, -1) as best. generalize 0%nat as k. revert qs E.
  induction ps as [|a ps IH]; intros [|b qs] E k best; try done. injection E as E1 E2. cbn [PeerSet.scan_peers]. rewrite E1. by apply IH.
Qed.

Lemma allowed_touches p q i : touches i p q -> map PeerSet.m_allowedIPs (peers_of q) = map PeerSet.m_allowedIPs (peers_of p).
Proof.
  intros T. apply list_eq. intros j. rewrite !list_lookup_fmap. destruct (decide (j = i)) as [->|Hj].
  - pose proof (t_name _ _ _ T) as E. unfold peer_at in E. destruct (peers_of q !! i), (peers_of p !! i); cbn in *; try done. by injection E as _ ->.
  - pose proof (t_other _ _ _ T j Hj) as E. unfold peer_at in E. by rewrite E.
Qed.

(** The two sessions and the indices that find them. *)
Definition connected (A : plane) (ia : nat) (B : plane) (ib : nat) : Prop :=
  exists ma mb, peer_at ia A = Some ma /\ peer_at ib B = Some mb
    /\ pipe (PeerSet.wg ma) (PeerSet.wg mb) /\ pipe (PeerSet.wg mb) (PeerSet.wg ma)
    /\ free_index A ia (WGPeer.fSenderIndex (PeerSet.wg ma)) /\ free_index B ib (WGPeer.fSenderIndex (PeerSet.wg mb)).

(** The packet is for peer [i]. *)
Definition routed (p : plane) (packet : bytes) (i : nat) : Prop :=
  PeerSet.FindByAllowedIP (peers_of p) (fmt_ipv4 (at_ packet 16) (at_ packet 17) (at_ packet 18) (at_ packet 19)) = Some i.

(** The step leaves the routing and the tun's descriptor alone. *)
Definition same_routing (p q : plane) : Prop :=
  (forall packet i, routed p packet i -> routed q packet i) /\ fTunFd q = fTunFd p.

Lemma touches_routing i p q : touches i p q -> same_routing p q.
Proof.
  intros T. split; [|by rewrite (t_fd _ _ _ T)]. intros packet j Hr. unfold routed in *. rewrite <- Hr.
  apply FindByAllowedIP_ext. by eapply allowed_touches.
Qed.

Lemma same_routing_trans p q r : same_routing p q -> same_routing q r -> same_routing p r.
Proof. intros [A B] [C D]. split; [by intros packet i R; apply C, A|congruence]. Qed.

Lemma emits_irrefl p t s : ~ emits p p t s.
Proof. intros (l & E & _). rewrite <- (app_nil_r (outs p)) in E at 1. apply app_inv_head in E. by destruct l. Qed.

Section Delivery.
Context `{OpenSSLLaws}.

Lemma tun_packet_routed p packet i d t s : routed p packet i -> emits p (tun_packet packet d p) t s ->
  tun_packet packet d p = _SendToPeer i packet d p.
Proof.
  unfold routed, tun_packet. destruct (_ || _); [by intros _ He; apply emits_irrefl in He|]. by intros ->.
Qed.

Lemma handle_data_delivers ib B mb buf d n out w :
  peer_at ib B = Some mb -> WGPeer.Decapsulate (PeerSet.wg mb) buf = (Some (n, out), w) ->
  at_ buf 0 = 4 -> 32 <= zlen buf -> PeerSet.FindBySenderIndex (peers_of B) (load32_le buf 4) = Some ib -> 0 < n -> fTunFd B = true ->
  _HandleWireGuardPacket buf d B = with_tun (ztake n out) (set_peer ib (with_wg w) B).
Proof.
  intros Hm Hd H4 Hl Hf Hn Ht. unfold _HandleWireGuardPacket, handle_data. rewrite H4, Hf, Hm, Hd.
  destruct (Z.ltb_spec (zlen buf) 4); [lia|]. rewrite Z.geb_leb. destruct (Z.leb_spec 32 (zlen buf)); [|lia].
  cbn [andb Z.eqb Pos.eqb]. rewrite Z.gtb_ltb. destruct (Z.ltb_spec 0 n); [|lia]. cbn [fTunFd set_peer with_peers with_session]. by rewrite Ht.
Qed.

(** A packet over a live pair. *)
Lemma live_delivers A ia B ib packet d d' s :
  connected A ia B ib -> routed A packet ia -> WGPeer.is_ip_packet packet = true -> fTunFd B = true ->
  (forall ma, peer_at ia A = Some ma -> young (PeerSet.wg ma) (d_now d)
     /\ WGPeer.fSendCounter (WGPeer.ss (PeerSet.wg ma)) < Replay.kRejectAfterMessages) ->
  let A' := tun_packet packet d A in
  emits A A' 4 s ->
  let B' := _HandleWireGuardPacket (payload s) d' B in
  connected A' ia B' ib /\ touches ia A A'
  /\ (exists ma wa o, peer_at ia A = Some ma /\ WGPeer.Encapsulate (PeerSet.wg ma) packet (d_sys d) = (o, wa) /\ PeerSet.wg <$> peer_at ia A' = Some wa)
  /\ exists mb wb r, peer_at ib B = Some mb /\ WGPeer.Decapsulate (PeerSet.wg mb) (payload s) = (r, wb)
       /\ B' = with_tun packet (set_peer ib (with_wg wb) B).
Proof.
  intros (ma & mb & Ha & Hb & P1 & P2 & F1 & F2) Hr Hip Ht Hy A' He B'.
  destruct (Hy ma Ha) as [Hyo Hlt]. pose proof (tun_packet_routed _ _ _ _ _ _ Hr He) as EA. subst A'. rewrite EA in *.
  destruct (ToPeer_live ia packet d A ma s Ha Hyo He) as (wa & Ee & Ta & Wa).
  destruct (pipe_carries _ _ _ _ _ _ P1 P2 Hlt Hip Ee) as (out & wb & D & To & P1' & P2' & X0 & X4 & Xl & Ib & Ia).
  assert (Hn : 0 < zlen packet).
  { unfold WGPeer.is_ip_packet in Hip. destruct packet; [done|]. rewrite zlen_cons. pose proof (zlen_nonneg packet). lia. }
  assert (EB : B' = with_tun packet (set_peer ib (with_wg wb) B)).
  { unfold B'. rewrite <- To at 1. eapply handle_data_delivers; try done. rewrite X4. by apply (index_found B ib mb). }
  split; [|split; [exact Ta|split; [by exists ma, wa, (Some (payload s))|by exists mb, wb, (Some (zlen packet, out))]]]. rewrite EB.
  destruct (peer_at ia (_SendToPeer ia packet d A)) as [ma'|] eqn:Ha'; [|done]. cbn in Wa. apply (inj Some) in Wa.
  exists ma', (with_wg wb mb). rewrite Wa, Ia. cbn [PeerSet.wg with_wg]. rewrite Ib. split_and!; try done.
  - change (peer_at ib (set_peer ib (with_wg wb) B) = Some (with_wg wb mb)). by rewrite peer_at_set, decide_True, Hb by done.
  - by apply (free_touches A).
  - change (free_index (set_peer ib (with_wg wb) B) ib (WGPeer.fSenderIndex (PeerSet.wg mb))).
    apply (free_touches B); [by apply touches_set|done].
Qed.

(** ** The handshake *)

Lemma BuildInitiation_inv p a b eph idx time sys msg w :
  WGPeer.BuildInitiation p a b eph idx time sys = (Some msg, w) ->
  (exists e i, eph = Some e /\ idx = Some i) /\ WGPeer.fTestClock w = WGPeer.fTestClock p /\ at_ msg 0 = 1.
Proof.
  unfold WGPeer.BuildInitiation. cbv zeta. destruct (DhPublic _); [|done]. destruct eph as [e|]; [|done].
  destruct (Dh _ _); [|done]. destruct (wg.Kdf2 _ _). destruct (AeadEncrypt _ _ _ _); [|done]. destruct (Dh _ _); [|done].
  destruct (wg.Kdf2 _ _). destruct (AeadEncrypt _ _ _ _); [|done]. destruct idx as [i|]; [|done]. intros E.
  apply pair_equal_spec in E as [E <-]. apply (inj Some) in E. subst msg. split; [by exists e, i|done].
Qed.

Lemma BuildResponse_inv p eph idx sys msg w :
  WGPeer.BuildResponse p eph idx sys = (Some msg, w) -> (exists e i, eph = Some e /\ idx = Some i) /\ at_ msg 0 = 2.
Proof.
  unfold WGPeer.BuildResponse. cbv zeta. destruct eph as [e|]; [|done]. destruct (Dh _ _); [|done]. destruct (Dh _ _); [|done].
  destruct (wg.Kdf3 _ _) as [[? ?] ?]. destruct (AeadEncrypt _ _ _ _); [|done]. destruct idx as [i|]; [|done].
  destruct (wg.Kdf2 _ _). intros E. apply pair_equal_spec in E as [E _]. apply (inj Some) in E. subst msg. split; [by exists e, i|done].
Qed.

Lemma BuildInitiation_index p a b e i time sys msg w : 0 <= i < 2 ^ 32 ->
  WGPeer.BuildInitiation p a b (Some e) (Some i) time sys = (Some msg, w) -> load32_le msg 4 = i.
Proof.
  intros Hi. unfold WGPeer.BuildInitiation. cbv zeta. destruct (DhPublic _); [|done].
  destruct (Dh _ _); [|done]. destruct (wg.Kdf2 _ _). destruct (AeadEncrypt _ _ _ _); [|done]. destruct (Dh _ _); [|done].
  destruct (wg.Kdf2 _ _). destruct (AeadEncrypt _ _ _ _); [|done]. intros E.
  apply pair_equal_spec in E as [E _]. apply (inj Some) in E. subst msg. rewrite <- !app_assoc. exact (load32_le_store32_le [1; 0; 0; 0] _ _ Hi).
Qed.

Lemma BuildResponse_index p e j sys msg w : 0 <= j < 2 ^ 32 ->
  WGPeer.BuildResponse p (Some e) (Some j) sys = (Some msg, w) -> load32_le msg 4 = j.
Proof.
  intros Hj. unfold WGPeer.BuildResponse. cbv zeta. destruct (Dh _ _); [|done]. destruct (Dh _ _); [|done].
  destruct (wg.Kdf3 _ _) as [[? ?] ?]. destruct (AeadEncrypt _ _ _ _); [|done].
  destruct (wg.Kdf2 _ _). intros E. apply pair_equal_spec in E as [E _]. apply (inj Some) in E. subst msg. rewrite <- !app_assoc.
  exact (load32_le_store32_le [2; 0; 0; 0] _ _ Hj).
Qed.

Lemma ConsumeResponse_head p msg sys p' : WGPeer.ConsumeResponse p msg sys = (true, p') ->
  zlen msg = 92 /\ at_ msg 0 = 2 /\ load32_le msg 8 = WGPeer.fSenderIndex p.
Proof.
  unfold WGPeer.ConsumeResponse. destruct (Z.eqb_spec (zlen msg) 92); [|done]. destruct (Z.eqb_spec (at_ msg 0) 2); [|done]. cbn [negb orb].
  destruct (Z.eqb_spec (load32_le msg 8) (WGPeer.fSenderIndex p)); [|done]. done.
Qed.

Lemma handle_initiation_spec ib B mb buf d st w1 o w2 s :
  zlen buf = 148 -> at_ buf 0 = 1 -> WGPeer.RecoverInitiatorStatic (NodePrivate B) buf = Some st ->
  PeerSet.Find (peers_of B) (Some (Identity.ToHex st)) = Some ib -> peer_at ib B = Some mb ->
  WGPeer.ConsumeInitiation (PeerSet.wg mb) (NodePrivate B) buf = (true, w1) ->
  WGPeer.BuildResponse w1 (d_eph d) (d_idx d) (d_sys d) = (o, w2) ->
  emits B (_HandleWireGuardPacket buf d B) 2 s ->
  o = Some (payload s) /\ touches ib B (_HandleWireGuardPacket buf d B)
  /\ PeerSet.wg <$> peer_at ib (_HandleWireGuardPacket buf d B) = Some w2.
Proof.
  intros Hl Ht0 Hr Hf Hm Hc Hb. unfold _HandleWireGuardPacket, handle_initiation. rewrite Hl, Ht0, Hr, Hf, Hm, Hc, Hb.
  change (148 <? 4) with false. change ((1 =? 1) && (148 =? 148)) with true. cbn iota. cbn [negb].
  set (q := set_peer ib (with_wg w2) B).
  assert (Q : touches ib B q /\ PeerSet.wg <$> peer_at ib q = Some w2) by (split; [by apply touches_set|unfold q; by rewrite peer_at_set, decide_True, Hm by done]).
  assert (Nq : outs q = outs B) by done. clearbody q. destruct Q as [Q1 Q2].
  destruct o as [resp|]; intros He.
  - destruct (PeerBytes_still ib resp q) as [S O]. split_and!.
    + destruct O as [O|(s' & O & <-)].
      * destruct He as (l & E & _). rewrite O, Nq in E. rewrite <- (app_nil_r (outs B)) in E at 1. apply app_inv_head in E. by destruct l.
      * f_equal. f_equal. symmetry. apply (emits_last _ _ _ _ [] s' He). by rewrite O, Nq.
    + etransitivity; [exact Q1|]. by apply still_touches.
    + by rewrite (still_peer_at _ _ ib S).
  - destruct He as (l & E & _). rewrite Nq in E. rewrite <- (app_nil_r (outs B)) in E at 1. apply app_inv_head in E. by destruct l.
Qed.

(** A and B know each other's node keys and read the system's clock; A has no
    session yet. *)
Record acquainted (A B : plane) (ia ib : nat) (apub bpub : bytes) : Prop := {
  q_a : x25519_pub (NodePrivate A) = Some apub;
  q_b : x25519_pub (NodePrivate B) = Some bpub;
  q_ab : exists ma, peer_at ia A = Some ma /\ WGPeer.fNodeKey (PeerSet.wg ma) = bpub /\ WGPeer.fHasKeys (WGPeer.ss (PeerSet.wg ma)) = false
    /\ WGPeer.fTestClock (PeerSet.wg ma) = 0;
  q_ba : PeerSet.Find (peers_of B) (Some (Identity.ToHex apub)) = Some ib;
  q_b_clock : forall mb, peer_at ib B = Some mb -> WGPeer.fTestClock (PeerSet.wg mb) = 0 }.

(** A drawn keypair is a keypair, a drawn index is free and not the STUN cookie
    (whose datagrams the socket takes for STUN). *)
Definition sound_draw (p : plane) (i : nat) (d : draw) : Prop :=
  (exists e, d_eph d = Some e /\ x25519_pub (fst e) = Some (snd e))
  /\ (exists x, d_idx d = Some x /\ 0 <= x < 2 ^ 32 /\ free_index p i x /\ x <> MagicSock.kCookieIndex).

Lemma Find_peer_at p k i : PeerSet.Find (peers_of p) k = Some i -> exists m, peer_at i p = Some m.
Proof.
  unfold PeerSet.Find, PeerSet._IndexOf. destruct k as [k|]; [|done]. cbn [mbind option_bind]. intros E.
  apply PeerSet.index_of_Some in E as (m & Hm & _). by exists m.
Qed.

(** Fresh sessions with crossed keys and indices are pipes. *)
Lemma fresh_pipe wa wb i j ka kb na nb ta tb ra rb :
  WGPeer.ss wa = WGPeer.mkSession ka kb true j 0 Replay.ResetReplay na na ta ra ->
  WGPeer.ss wb = WGPeer.mkSession kb ka true i 0 Replay.ResetReplay nb nb tb rb ->
  WGPeer.fSenderIndex wb = j -> 0 <= j < 2 ^ 32 -> pipe wa wb.
Proof.
  intros Ea Eb Ij Hj. unfold pipe, WGPeer.linked. rewrite Ea, Eb, Ij. cbn. destruct Replay.constants as [-> _].
  split_and!; try done; try lia. exists []. split; [apply Replay.rep_reset|done].
Qed.

(** The session of peer [i] starts at [now] with its first counter. *)
Definition starts (p : plane) (i : nat) (now : Z) : Prop :=
  forall m, peer_at i p = Some m ->
    WGPeer.fHasKeys (WGPeer.ss (PeerSet.wg m)) = true
    /\ WGPeer.fEstablished (WGPeer.ss (PeerSet.wg m)) = now /\ WGPeer.fSendCounter (WGPeer.ss (PeerSet.wg m)) = 0
    /\ WGPeer.fSenderIndex (PeerSet.wg m) <> MagicSock.kCookieIndex.

Lemma handshake_connects A B ia ib apub bpub p1 d1 d2 d3 s1 s2 :
  acquainted A B ia ib apub bpub -> routed A p1 ia -> sound_draw A ia d1 -> sound_draw B ib d2 ->
  let A1 := tun_packet p1 d1 A in
  emits A A1 1 s1 ->
  let B1 := _HandleWireGuardPacket (payload s1) d2 B in
  emits B B1 2 s2 ->
  let A2 := _HandleWireGuardPacket (payload s2) d3 A1 in
  connected A2 ia B1 ib /\ starts A2 ia (d_sys d3) /\ starts B1 ib (d_sys d2) /\ same_routing A A2 /\ same_routing B B1
  /\ tun A2 = tun A /\ tun B1 = tun B.
Proof.
  intros [Ka Kb (ma & Ha & Kab & Hk & Hclk) Kba Kbc] Hr [([ek ep] & Ee & De1) (i & Ei & Ri & Fi & Ni)]
    [([rk rp] & Fe & De2) (j & Fj & Rj & Gj & Nj)] A1 He1 B1 He2 A2.
  destruct (Find_peer_at _ _ _ Kba) as (mb & Hb).
  pose proof (tun_packet_routed _ _ _ _ _ _ Hr He1) as EA. unfold A2. subst A1. rewrite EA in *. clear EA A2.
  destruct (ToPeer_fresh ia p1 d1 A ma s1 Ha Hk He1) as (w & Eb & Ta & Wa). set (A1 := _SendToPeer ia p1 d1 A) in *. clearbody A1.
  destruct (BuildInitiation_inv _ _ _ _ _ _ _ _ _ Eb) as (_ & Hc0 & _). rewrite Ee, Ei, Kab in Eb. cbn [fst snd] in De1, De2.
  destruct (WGPeer.initiation_transcript _ _ _ _ _ _ _ _ _ _ _ Kb De1 Ri Eb) as (ipub & Ki & Rc & P1 & P2 & P3 & Pl).
  rewrite Ka in Ki. apply (inj Some) in Ki. subst ipub.
  assert (Hrec : WGPeer.RecoverInitiatorStatic (NodePrivate B) (payload s1) = Some apub) by (unfold WGPeer.RecoverInitiatorStatic; by rewrite Rc).
  destruct (WGPeer.ConsumeInitiation (PeerSet.wg mb) (NodePrivate B) (payload s1)) as [ok w1] eqn:Ec.
  assert (ok = true /\ WGPeer.hs w1 = WGPeer.mkHs (NodePrivate B) apub (WGPeer.fEphemeralPriv (WGPeer.hs w1)) (WGPeer.fEphemeralPub (WGPeer.hs w1)) ep (WGPeer.fChainingKey (WGPeer.hs w)) (WGPeer.fHash (WGPeer.hs w)) i
    /\ WGPeer.fTestClock w1 = WGPeer.fTestClock (PeerSet.wg mb)) as (-> & Hw1 & Hw0).
  { unfold WGPeer.ConsumeInitiation in Ec. rewrite Rc in Ec. apply pair_equal_spec in Ec as [<- <-]. by split. }
  destruct (WGPeer.BuildResponse w1 (d_eph d2) (d_idx d2) (d_sys d2)) as [o w2] eqn:Er.
  destruct He1 as (l1 & _ & T1).
  destruct (handle_initiation_spec ib B mb (payload s1) d2 apub w1 o w2 s2 Pl T1 Hrec Kba Hb Ec Er He2) as (-> & Tb & Wb).
  fold B1 in Tb, Wb. clearbody B1. rewrite Fe, Fj in Er.
  destruct (WGPeer.response_transcript w w1 w2 (NodePrivate B) (NodePrivate A) apub ek ep rk rp i j (d_sys d2) (d_sys d3) (payload s2) De2 De1 Ka Ri Rj P1 P2 P3 Hw1 Er)
    as (w3 & Rs & X1 & X2 & S1 & S2 & I1 & I2).
  destruct (peer_at ia A1) as [ma1|] eqn:Ha1; [|done]. cbn in Wa. apply (inj Some) in Wa.
  destruct (peer_at ib B1) as [mb1|] eqn:Hb1; [|done]. cbn in Wb. apply (inj Some) in Wb.
  destruct (ConsumeResponse_head _ _ _ _ Rs) as (L2 & T2 & I8). rewrite P3 in I8.
  assert (E2 : _HandleWireGuardPacket (payload s2) d3 A1 = set_peer ia (fun m => with_wg (snd (WGPeer.ConsumeResponse (PeerSet.wg m) (payload s2) (d_sys d3))) m) A1).
  { unfold _HandleWireGuardPacket, handle_response. rewrite L2, T2, I8. cbn [Z.ltb Z.compare Z.eqb Pos.compare Pos.compare_cont Pos.eqb andb].
    rewrite (index_found A1 ia ma1 i); [done|done|by rewrite Wa|by apply (free_touches A)]. }
  rewrite E2.
  assert (Hp2 : peer_at ia (set_peer ia (fun m => with_wg (snd (WGPeer.ConsumeResponse (PeerSet.wg m) (payload s2) (d_sys d3))) m) A1) = Some (with_wg w3 ma1)).
  { rewrite peer_at_set, decide_True, Ha1 by done. cbn [fmap option_fmap option_map]. by rewrite Wa, Rs. }
  split; [|split; [|split; [|split; [|split; [by eapply touches_routing|split; [exact (t_tun _ _ _ Ta)|exact (t_tun _ _ _ Tb)]]]]]].
  4: { apply (same_routing_trans _ A1); apply (touches_routing ia); [done|by apply touches_set]. }
  2: { intros m Hm. rewrite Hp2 in Hm. apply (inj Some) in Hm. subst m. cbn [PeerSet.wg with_wg]. rewrite S1. cbn.
       split_and!; [done| |done|by rewrite I1]. unfold WGPeer._Now. by rewrite Hc0, Hclk. }
  2: { intros m Hm. rewrite Hb1 in Hm. apply (inj Some) in Hm. subst m. rewrite Wb, S2. cbn.
       split_and!; [done| |done|by rewrite I2]. unfold WGPeer._Now. by rewrite Hw0, (Kbc mb Hb). }
  exists (with_wg w3 ma1), mb1. rewrite X1 in S1. rewrite X2 in S1. cbn [PeerSet.wg with_wg]. rewrite Wb, I1, I2. split_and!; [exact Hp2|done| | | |].
  - by eapply fresh_pipe.
  - by eapply fresh_pipe.
  - apply (free_touches A); [|done]. etransitivity; [exact Ta|]. by apply touches_set.
  - by apply (free_touches B).
Qed.

Lemma connected_sym A ia B ib : connected A ia B ib -> connected B ib A ia.
Proof. intros (ma & mb & R). exists mb, ma. tauto. Qed.

End Delivery.

(** ** Over a direct path *)

(** Peer [i] is reached directly at [to], through an open socket. *)
Definition direct_to (p : plane) (i : nat) (to : addr) : Prop :=
  exists m, peer_at i p = Some m /\ path_addr (PeerSet.path m) = Some to /\ 0 <= MagicSock.fSocket (fMagicSock p).

Lemma path_addr_direct x to : path_addr x = Some to -> is_direct x = true.
Proof. unfold path_addr. by destruct (is_direct x). Qed.

Lemma PeerBytes_direct i to buf p : direct_to p i to -> _SendPeerBytes i buf p = with_out (Datagram to buf) p.
Proof.
  intros (m & Hm & Ha & Hs). unfold _SendPeerBytes. rewrite Hm. change (peer_sockaddr m) with (path_addr (PeerSet.path m)). rewrite Ha.
  unfold SendTo. destruct (Z.ltb_spec (MagicSock.fSocket (fMagicSock p)) 0); [lia|done].
Qed.

Lemma direct_set i j f p to : (forall m, PeerSet.path (f m) = PeerSet.path m) -> direct_to p i to -> direct_to (set_peer j f p) i to.
Proof.
  intros Hf (m & Hm & Ha & Hs). unfold direct_to. rewrite peer_at_set. destruct (decide (j = i)); rewrite Hm; cbn; [|by exists m].
  exists (f m). by rewrite Hf.
Qed.

Lemma emits_direct p q to buf t : outs q = outs p ++ [Datagram to buf] -> at_ buf 0 = t -> emits p q t (Datagram to buf).
Proof. intros E Ht. exists []. by rewrite E. Qed.

Section Direct.
Context `{OpenSSL}.

Lemma direct_initiation i packet d p m to msg w :
  direct_to p i to -> peer_at i p = Some m -> WGPeer.fHasKeys (WGPeer.ss (PeerSet.wg m)) = false ->
  5000000 < d_now d - PeerSet.lastHandshake m ->
  WGPeer.BuildInitiation (PeerSet.wg m) (NodePrivate p) (WGPeer.fNodeKey (PeerSet.wg m)) (d_eph d) (d_idx d) (d_time d) (d_sys d) = (Some msg, w) ->
  outs (_SendToPeer i packet d p) = outs p ++ [Datagram to msg].
Proof.
  intros Hd Hm Hk Ht Hb.
  assert (Hdir : is_direct (PeerSet.path m) = true) by (destruct Hd as (m' & Hm' & Ha & _); rewrite Hm in Hm'; apply (inj Some) in Hm' as ->; by eapply path_addr_direct).
  unfold _SendToPeer. rewrite Hm, Hdir. cbv zeta. unfold WGPeer.ExpireIfStale at 1. rewrite Hk. cbn [andb snd]. rewrite Hk. cbn [negb].
  rewrite Z.gtb_ltb. destruct (Z.ltb_spec 5000000 (d_now d - PeerSet.lastHandshake m)); [|lia].
  assert (Hx : peer_at i (expire i (d_now d) p) = Some (with_wg (PeerSet.wg m) m)).
  { unfold expire. rewrite peer_at_set, decide_True, Hm by done. cbn. unfold WGPeer.ExpireIfStale. by rewrite Hk. }
  unfold initiate. rewrite Hx. cbn [PeerSet.wg with_wg]. change (NodePrivate (expire i (d_now d) p)) with (NodePrivate p). rewrite Hb.
  rewrite (PeerBytes_direct i to); [done|]. apply direct_set; [done|]. apply direct_set; [done|]. by apply direct_set.
Qed.

Lemma direct_data i packet d p m to out w :
  direct_to p i to -> peer_at i p = Some m -> young (PeerSet.wg m) (d_now d) ->
  WGPeer.Encapsulate (PeerSet.wg m) packet (d_sys d) = (Some out, w) ->
  outs (_SendToPeer i packet d p) = outs p ++ [Datagram to out].
Proof.
  intros Hd Hm Hy He. destruct (young_keeps _ _ Hy) as [Ex Er].
  assert (Hdir : is_direct (PeerSet.path m) = true) by (destruct Hd as (m' & Hm' & Ha & _); rewrite Hm in Hm'; apply (inj Some) in Hm' as ->; by eapply path_addr_direct).
  unfold _SendToPeer. rewrite Hm, Hdir. cbv zeta. rewrite Ex. cbn [snd]. rewrite (proj1 Hy), Er. cbn [negb].
  assert (Hx : peer_at i (expire i (d_now d) p) = Some (with_wg (PeerSet.wg m) m)).
  { unfold expire. rewrite peer_at_set, decide_True, Hm by done. cbn. by rewrite Ex. }
  unfold send_data. rewrite Hx. cbn [PeerSet.wg with_wg]. rewrite He. rewrite (PeerBytes_direct i to); [done|].
  apply direct_set; [done|]. by apply direct_set.
Qed.

Lemma direct_response ib B mb buf d st w1 resp w2 to :
  zlen buf = 148 -> at_ buf 0 = 1 -> WGPeer.RecoverInitiatorStatic (NodePrivate B) buf = Some st ->
  PeerSet.Find (peers_of B) (Some (Identity.ToHex st)) = Some ib -> peer_at ib B = Some mb ->
  WGPeer.ConsumeInitiation (PeerSet.wg mb) (NodePrivate B) buf = (true, w1) ->
  WGPeer.BuildResponse w1 (d_eph d) (d_idx d) (d_sys d) = (Some resp, w2) -> direct_to B ib to ->
  outs (_HandleWireGuardPacket buf d B) = outs B ++ [Datagram to resp].
Proof.
  intros Hl Ht0 Hr Hf Hm Hc Hb Hd. unfold _HandleWireGuardPacket, handle_initiation. rewrite Hl, Ht0, Hr, Hf, Hm, Hc, Hb.
  change (148 <? 4) with false. change ((1 =? 1) && (148 =? 148)) with true. cbn iota. cbn [negb].
  rewrite (PeerBytes_direct ib to); [done|]. by apply direct_set.
Qed.
End Direct.

(** ** Two machines on one network *)

Lemma direct_sends p q i to : sends p q -> direct_to p i to -> direct_to q i to.
Proof.
  intros S (m & Hm & Ha & Hs). pose proof (sends_paths _ _ S) as Sp. unfold paths in Sp.
  assert (E : map PeerSet.path (peers_of q) !! i = map PeerSet.path (peers_of p) !! i) by (by rewrite Sp).
  rewrite !list_lookup_fmap in E. unfold direct_to, peer_at in *. rewrite Hm in E. cbn in E.
  destruct (peers_of q !! i) as [m'|]; [|done]. injection E as E. exists m'. by rewrite E, (sends_sock _ _ S).
Qed.

Lemma tun_packet_ready `{OpenSSL} p packet i d : routed p packet i -> 20 <= zlen packet -> at_ packet 0 ≫ 4 = 4 ->
  tun_packet packet d p = _SendToPeer i packet d p.
Proof.
  intros Hr Hl Hv. unfold tun_packet. rewrite Hv. destruct (Z.ltb_spec (zlen packet) 20); [lia|]. cbn [negb orb Z.eqb Pos.eqb].
  unfold routed in Hr. by rewrite Hr.
Qed.

Lemma Encapsulate_total `{OpenSSLLaws} p plain sys :
  (forall k n x a, is_Some (AeadEncrypt k n x a)) -> WGPeer.fHasKeys (WGPeer.ss p) = true -> zlen plain <= 2016 ->
  exists out w, WGPeer.Encapsulate p plain sys = (Some out, w) /\ at_ out 0 = 4 /\ zlen out <= 2048.
Proof.
  intros Ha Hk Hl. pose proof (zlen_nonneg plain). unfold WGPeer.Encapsulate. rewrite Hk. cbn [negb].
  pose proof (WGPeer.pad16 (zlen plain) ltac:(lia)) as [Hp Hm]. set (pd := _ .& _) in *. clearbody pd.
  rewrite Z.gtb_ltb. destruct (Z.ltb_spec 2048 pd); [Z.div_mod_to_equations; lia|].
  destruct (Ha (WGPeer.fSendKey (WGPeer.ss p)) (WGPeer.fSendCounter (WGPeer.ss p)) (plain ++ zeros (pd - zlen plain)) []) as [c Hc].
  rewrite Hc. eexists _, _. split; [done|]. split; [done|]. apply AeadEncrypt_length in Hc. rewrite zlen_app, zlen_zeros in Hc by lia.
  rewrite !zlen_app, Hc. change (zlen (store64_le _)) with 8. change (zlen (store32_le _)) with 4. change (zlen [4; 0; 0; 0]) with 4.
  Z.div_mod_to_equations; lia.
Qed.

(** An IPv4 packet. *)
Definition ipv4 (packet : bytes) : Prop := WGPeer.is_ip_packet packet = true /\ at_ packet 0 ≫ 4 = 4.

Lemma ipv4_long packet : ipv4 packet -> 20 <= zlen packet.
Proof.
  intros [Hp _]. unfold WGPeer.is_ip_packet in Hp. rewrite orb_true_iff, !andb_true_iff, !Z.geb_leb, !Z.leb_le in Hp. lia.
Qed.

(** What [q] has sent that [p] had not. *)
Definition sent_since (p q : plane) : list sent := drop (length (outs p)) (outs q).

Lemma sent_since_app p q l : outs q = outs p ++ l -> sent_since p q = l.
Proof. intros E. unfold sent_since. by rewrite E, drop_app_length. Qed.

Section Network.
Context `{OpenSSLLaws}.

(** The datagrams sent to [to] arrive, in order, from [from], and are read into
    the socket reader's buffer of 2048 bytes. *)
Definition carry (to from : addr) (d : draw) (l : list sent) (p : plane) : plane :=
  fold_left (fun p s => match s with
    | Datagram t buf => if decide (t = to) then sock_packet (ztake 2048 buf) (Some from) d p else p
    | Relayed _ _ => p
    end) l p.

(** X, reached at [ax], reads a packet off its tun; what it sends to [ay]
    arrives at Y, and what Y sends to [ax] then arrives at X. *)
Definition crossing (ax ay : addr) (packet : bytes) (d dy dx : draw) (X Y : plane) : plane * plane :=
  let X1 := tun_packet packet d X in
  let Y1 := carry ay ax dy (sent_since X X1) Y in
  (carry ax ay dx (sent_since Y Y1) X1, Y1).

Lemma carry_one to from d buf p : zlen buf <= 2048 -> carry to from d [Datagram to buf] p = sock_packet buf (Some from) d p.
Proof. intros Hl. unfold carry. cbn [fold_left]. rewrite decide_True by done. f_equal. unfold ztake. apply take_ge. unfold zlen in Hl. lia. Qed.

(** A WireGuard message with an index that is not the cookie gets through. *)
Lemma sock_packet_wireguard buf from d p : 1 <= at_ buf 0 <= 4 -> load32_le buf 4 <> MagicSock.kCookieIndex ->
  sock_packet buf from d p = _HandleWireGuardPacket buf d p.
Proof.
  intros Ht Hi. unfold sock_packet. destruct (Z.eqb_spec (zlen buf) 0) as [E|_].
  - apply zlen_0_nil in E. subst buf. change (at_ [] 0) with 0 in Ht. lia.
  - by rewrite MagicSock.Classify_indexed.
Qed.

(** The library does not fail on what it is given: sealing, and the exchange
    of two genuine keypairs. *)
Context (seals : forall k n p a, is_Some (AeadEncrypt k n p a)).
Context (exchanges : forall a b pa pb, x25519_pub a = Some pa -> x25519_pub b = Some pb -> is_Some (x25519 a pb)).

(** Runs a builder whose exchanges are known to succeed. *)
Ltac build := repeat (match goal with
  | E : Dh ?a ?b = Some _ |- context [Dh ?a ?b] => rewrite E
  | |- context [AeadEncrypt ?k ?n ?p ?a] => destruct (seals k n p a) as [? ->]
  | |- context [wg.Kdf3 ?a ?b] => destruct (wg.Kdf3 a b) as [[? ?] ?]
  | |- context [wg.Kdf2 ?a ?b] => destruct (wg.Kdf2 a b)
  end; cbn -[AeadEncrypt Dh]).

Lemma BuildInitiation_total p a apub b bpub ek ep i time sys :
  x25519_pub a = Some apub -> x25519_pub b = Some bpub -> x25519_pub ek = Some ep ->
  exists msg w, WGPeer.BuildInitiation p a bpub (Some (ek, ep)) (Some i) time sys = (Some msg, w).
Proof.
  intros Ha Hb He. destruct (exchanges ek b ep bpub He Hb : is_Some (Dh ek bpub)) as [x1 E1].
  destruct (exchanges a b apub bpub Ha Hb : is_Some (Dh a bpub)) as [x2 E2].
  unfold WGPeer.BuildInitiation. cbn -[AeadEncrypt Dh DhPublic]. unfold DhPublic at 1. rewrite Ha. cbn -[AeadEncrypt Dh]. build. by eexists _, _.
Qed.

Lemma BuildResponse_total q a apub ek ep rk rp j sys :
  x25519_pub a = Some apub -> x25519_pub ek = Some ep -> x25519_pub rk = Some rp ->
  WGPeer.fPeerEphemeral (WGPeer.hs q) = ep -> WGPeer.fPeerStatic (WGPeer.hs q) = apub ->
  exists msg w, WGPeer.BuildResponse q (Some (rk, rp)) (Some j) sys = (Some msg, w).
Proof.
  intros Ha He Hr F1 F2. destruct (exchanges rk ek rp ep Hr He : is_Some (Dh rk ep)) as [x1 E1].
  destruct (exchanges rk a rp apub Hr Ha : is_Some (Dh rk apub)) as [x2 E2].
  unfold WGPeer.BuildResponse. cbn -[AeadEncrypt Dh]. rewrite F1, F2. build. by eexists _, _.
Qed.

(** The first packet brings the handshake about. *)
Lemma handshake_crossing A B ia ib apub bpub aA aB p1 d1 d2 d3 :
  acquainted A B ia ib apub bpub -> direct_to A ia aB -> direct_to B ib aA -> routed A p1 ia -> ipv4 p1 ->
  sound_draw A ia d1 -> sound_draw B ib d2 ->
  (forall m, peer_at ia A = Some m -> 5000000 < d_now d1 - PeerSet.lastHandshake m) ->
  exists s1 s2,
    let A1 := tun_packet p1 d1 A in
    let B1 := _HandleWireGuardPacket (payload s1) d2 B in
    emits A A1 1 s1 /\ emits B B1 2 s2
    /\ crossing aA aB p1 d1 d2 d3 A B = (_HandleWireGuardPacket (payload s2) d3 A1, B1).
Proof.
  intros Hq Da Db Hr Hip Hd1 Hd2 Hlast. pose proof Hq as [Ka Kb (ma & Ha & Kab & Hk & Hclk) Kba Kbc].
  pose proof Hd1 as [([ek ep] & Ee & De1) (i & Ei & Ri & Fi & Ni)]. pose proof Hd2 as [([rk rp] & Fe & De2) (j & Fj & Rj & Gj & Nj)].
  cbn [fst snd] in De1, De2. pose proof Hip as [_ Hv]. destruct (Find_peer_at _ _ _ Kba) as (mb & Hb).
  destruct (BuildInitiation_total (PeerSet.wg ma) (NodePrivate A) apub (NodePrivate B) bpub ek ep i (d_time d1) (d_sys d1) Ka Kb De1) as (msg1 & w & E1).
  pose proof E1 as Eb. rewrite <- Ee, <- Ei, <- Kab in Eb. destruct (BuildInitiation_inv _ _ _ _ _ _ _ _ _ E1) as (_ & _ & T1).
  assert (O1 : outs (tun_packet p1 d1 A) = outs A ++ [Datagram aB msg1]).
  { rewrite (tun_packet_ready A p1 ia d1 Hr (ipv4_long _ Hip) Hv). by eapply (direct_initiation ia p1 d1 A ma); [..|exact Eb]; auto. }
  destruct (WGPeer.initiation_transcript _ _ _ _ _ _ _ _ _ _ _ Kb De1 Ri E1) as (ipub & Ki & Rc & P1 & P2 & P3 & Pl).
  rewrite Ka in Ki. apply (inj Some) in Ki. subst ipub.
  destruct (WGPeer.ConsumeInitiation (PeerSet.wg mb) (NodePrivate B) msg1) as [ok w1] eqn:Ec.
  assert (ok = true /\ WGPeer.hs w1 = WGPeer.mkHs (NodePrivate B) apub (WGPeer.fEphemeralPriv (WGPeer.hs w1)) (WGPeer.fEphemeralPub (WGPeer.hs w1)) ep
    (WGPeer.fChainingKey (WGPeer.hs w)) (WGPeer.fHash (WGPeer.hs w)) i) as (-> & Q).
  { unfold WGPeer.ConsumeInitiation in Ec. rewrite Rc in Ec. apply pair_equal_spec in Ec as [<- <-]. by split. }
  assert (Q1 : WGPeer.fPeerEphemeral (WGPeer.hs w1) = ep) by (by rewrite Q). assert (Q2 : WGPeer.fPeerStatic (WGPeer.hs w1) = apub) by (by rewrite Q).
  destruct (BuildResponse_total w1 (NodePrivate A) apub ek ep rk rp j (d_sys d2) Ka De1 De2 Q1 Q2) as (msg2 & w2 & E2).
  destruct (WGPeer.response_transcript w w1 w2 (NodePrivate B) (NodePrivate A) apub ek ep rk rp i j (d_sys d2) 0 msg2 De2 De1 Ka Ri Rj P1 P2 P3 Q E2) as (w3 & Rs & _).
  apply ConsumeResponse_head in Rs as (Pl2 & _ & _). destruct (BuildResponse_inv _ _ _ _ _ _ E2) as (_ & T2). pose proof E2 as Er. rewrite <- Fe, <- Fj in Er.
  assert (O2 : outs (_HandleWireGuardPacket msg1 d2 B) = outs B ++ [Datagram aA msg2]).
  { eapply (direct_response ib B mb msg1 d2 apub); try done.
    unfold WGPeer.RecoverInitiatorStatic. by rewrite Rc. }
  exists (Datagram aB msg1), (Datagram aA msg2). cbv zeta. cbn [payload]. split; [by apply emits_direct|]. split; [by apply emits_direct|].
  unfold crossing. cbv zeta. rewrite (sent_since_app _ _ _ O1), carry_one, sock_packet_wireguard;
    [|lia|rewrite (BuildInitiation_index _ _ _ _ _ _ _ _ _ Ri E1); exact Ni|lia].
  rewrite (sent_since_app _ _ _ O2), carry_one, sock_packet_wireguard; [done|lia| |lia].
  rewrite (BuildResponse_index _ _ _ _ _ _ Rj E2). exact Nj.
Qed.

(** *** A live pair on the network *)

(** Peer [i]'s session began at [t0] and has sent at most [n] packets. *)
Definition session_at (p : plane) (i : nat) (t0 n : Z) : Prop :=
  forall m, peer_at i p = Some m ->
    WGPeer.fHasKeys (WGPeer.ss (PeerSet.wg m)) = true /\ WGPeer.fEstablished (WGPeer.ss (PeerSet.wg m)) = t0
    /\ WGPeer.fSendCounter (WGPeer.ss (PeerSet.wg m)) <= n /\ WGPeer.fSenderIndex (PeerSet.wg m) <> MagicSock.kCookieIndex.

Record live (X : plane) (ix : nat) (ax : addr) (tx : Z) (Y : plane) (iy : nat) (ay : addr) (ty n : Z) : Prop := {
  l_conn : connected X ix Y iy;
  l_xy : direct_to X ix ay;
  l_yx : direct_to Y iy ax;
  l_x : session_at X ix tx n;
  l_y : session_at Y iy ty n }.

Lemma live_sym X ix ax tx Y iy ay ty n : live X ix ax tx Y iy ay ty n -> live Y iy ay ty X ix ax tx n.
Proof. intros [A B C D E]. split; try done. by apply connected_sym. Qed.

Lemma session_frame p q i t0 n :
  (forall m, peer_at i q = Some m -> exists m0, peer_at i p = Some m0 /\ same_session (PeerSet.wg m0) (PeerSet.wg m)
     /\ WGPeer.fSendCounter (WGPeer.ss (PeerSet.wg m)) <= WGPeer.fSendCounter (WGPeer.ss (PeerSet.wg m0)) + 1) ->
  session_at p i t0 n -> session_at q i t0 (n + 1).
Proof.
  intros Hf Hs m Hm. destruct (Hf m Hm) as (m0 & Hm0 & (S1 & S2 & S3) & S4). destruct (Hs m0 Hm0) as (A & B & C & D).
  rewrite S1, S2, S3. split_and!; try done. lia.
Qed.

(** One packet over a live pair. *)
Lemma live_crossing X ix ax tx Y iy ay ty n packet d dy dx :
  live X ix ax tx Y iy ay ty n -> n < 2 ^ 60 -> routed X packet ix -> ipv4 packet -> zlen packet <= 2016 ->
  d_now d - tx < WGPeer.kRekeyAfterTime -> fTunFd Y = true ->
  exists X2 Y2, crossing ax ay packet d dy dx X Y = (X2, Y2)
    /\ live X2 ix ax tx Y2 iy ay ty (n + 1) /\ tun X2 = tun X /\ tun Y2 = tun Y ++ [packet]
    /\ same_routing X X2 /\ same_routing Y Y2.
Proof.
  intros [C Dx Dy Sx Sy] Hn Hr Hip Hl Ht Hfd. pose proof Hip as [Hi Hv]. pose proof C as (mx & my & Hmx & Hmy & P1 & P2 & F1 & F2).
  destruct (Sx mx Hmx) as (Hk & He & Hc & _). destruct (Sy my Hmy) as (_ & _ & _ & Hix).
  assert (Hy : young (PeerSet.wg mx) (d_now d)) by (split; [done|by rewrite He]).
  destruct (Encapsulate_total (PeerSet.wg mx) packet (d_sys d) seals Hk Hl) as (out & w & Ee & T4 & Lo).
  pose proof (tun_packet_ready X packet ix d Hr (ipv4_long _ Hip) Hv) as EX.
  assert (O1 : outs (tun_packet packet d X) = outs X ++ [Datagram ay out]) by (rewrite EX; by eapply direct_data).
  assert (Hi4 : load32_le out 4 <> MagicSock.kCookieIndex).
  { destruct P1 as (_ & I1 & R1 & _). destruct (Encapsulate_frame _ _ _ _ _ Ee ltac:(by rewrite I1)) as (_ & -> & _). by rewrite I1. }
  destruct (live_delivers X ix Y iy packet d dy (Datagram ay out) C Hr Hi Hfd) as (D1 & D2 & D3 & D4).
  { intros m Hm. rewrite Hmx in Hm. apply (inj Some) in Hm. subst m. split; [done|]. destruct Replay.constants as [-> _]. lia. }
  { by apply emits_direct. }
  cbn [payload] in D1, D4. eexists _, _. unfold crossing. cbv zeta. rewrite (sent_since_app _ _ _ O1), carry_one, sock_packet_wireguard by (done || lia).
  destruct D4 as (my' & wy & o & Hmy' & Hd & EY0).
  assert (EY : _HandleWireGuardPacket out dy Y = with_tun packet (set_peer iy (with_wg wy) Y)) by exact EY0. clear EY0. destruct D3 as (mx' & wx & o' & Hmx' & Ex & Wx).
  assert (O2 : outs (_HandleWireGuardPacket out dy Y) = outs Y ++ []) by (rewrite EY; cbn; by rewrite app_nil_r).
  rewrite (sent_since_app _ _ _ O2). split; [reflexivity|]. cbn [carry fold_left]. split; [split|].
  - done.
  - apply (direct_sends X); [|done]. rewrite EX. apply sends_ToPeer.
  - apply (direct_sends Y); [|done]. apply sends_WireGuard.
  - apply (session_frame X); [|done]. intros m Hm. rewrite Hm in Wx. apply (inj Some) in Wx. exists mx'. rewrite Wx.
    split; [done|]. split; [by eapply Encapsulate_keeps|]. apply (Encapsulate_counts _ _ _ _ _ Ex).
    rewrite Hmx in Hmx'. apply (inj Some) in Hmx' as <-. by destruct P1 as (_ & _ & _ & [? _] & _).
  - apply (session_frame Y); [|done]. intros m Hm. assert (Em : PeerSet.wg m = wy).
    { rewrite EY in Hm. change (peer_at iy (set_peer iy (with_wg wy) Y) = Some m) in Hm. rewrite peer_at_set, decide_True, Hmy' in Hm by done.
      by injection Hm as <-. }
    exists my'. rewrite Em. split; [done|]. split; [by eapply Decapsulate_keeps|]. destruct (Decapsulate_frame _ _ _ _ Hd) as (_ & _ & _ & ->). lia.
  - split; [exact (t_tun _ _ _ D2)|]. split; [by rewrite EY|]. split; [by eapply touches_routing|]. rewrite EY.
    change (same_routing Y (set_peer iy (with_wg wy) Y)). apply (touches_routing iy). by apply touches_set.
Qed.

(** *** Traffic *)

(** A packet read off a tun, with the draws of the step that sends it, of the
    one that receives it and of the answer's. *)
Inductive traffic := FromA (packet : bytes) (d dB dA : draw) | FromB (packet : bytes) (d dA dB : draw).

Fixpoint exchange (aA aB : addr) (l : list traffic) (A B : plane) : plane * plane :=
  match l with
  | [] => (A, B)
  | FromA packet d dB dA :: l => let '(A, B) := crossing aA aB packet d dB dA A B in exchange aA aB l A B
  | FromB packet d dA dB :: l => let '(B, A) := crossing aB aA packet d dA dB B A in exchange aA aB l A B
  end.

Definition from_A (e : traffic) : option bytes := match e with FromA p _ _ _ => Some p | FromB _ _ _ _ => None end.
Definition from_B (e : traffic) : option bytes := match e with FromB p _ _ _ => Some p | FromA _ _ _ _ => None end.

(** An IPv4 packet for the other side, read before the session is due for a new
    handshake. *)
Definition sendable (A : plane) (ia : nat) (tA : Z) (B : plane) (ib : nat) (tB : Z) (e : traffic) : Prop :=
  let ok p i t packet d := routed p packet i /\ ipv4 packet /\ zlen packet <= 2016 /\ d_now d - t < WGPeer.kRekeyAfterTime in
  match e with
  | FromA packet d _ _ => ok A ia tA packet d
  | FromB packet d _ _ => ok B ib tB packet d
  end.

Lemma sendable_routing A ia tA B ib tB A' B' e : same_routing A A' -> same_routing B B' ->
  sendable A ia tA B ib tB e -> sendable A' ia tA B' ib tB e.
Proof. intros [Ra _] [Rb _]. destruct e; cbn; intros (R & S); split; auto. Qed.

Lemma exchange_delivers aA aB ia ib tA tB l A B n :
  live A ia aA tA B ib aB tB n -> n + zlen l < 2 ^ 60 -> fTunFd A = true -> fTunFd B = true ->
  Forall (sendable A ia tA B ib tB) l ->
  let '(A3, B3) := exchange aA aB l A B in
  tun B3 = tun B ++ omap from_A l /\ tun A3 = tun A ++ omap from_B l.
Proof.
  revert A B n. induction l as [|e l IH]; intros A B n L Hn Fa Fb Hl; [cbn; by rewrite !app_nil_r|].
  apply Forall_cons in Hl as [He Hl]. rewrite zlen_cons in Hn. pose proof (zlen_nonneg l).
  destruct e as [packet d dB dA|packet d dA dB]; destruct He as (R & I & Z & T); cbn [exchange omap from_A from_B].
  - destruct (live_crossing _ _ _ _ _ _ _ _ _ packet d dB dA L ltac:(lia) R I Z T Fb) as (A2 & B2 & -> & L2 & TA & TB & RA & RB).
    specialize (IH A2 B2 (n + 1) L2 ltac:(lia) ltac:(by destruct RA as [_ ->]) ltac:(by destruct RB as [_ ->])
      (Forall_impl _ _ _ Hl (fun e => sendable_routing A ia tA B ib tB A2 B2 e RA RB))).
    destruct (exchange aA aB l A2 B2) as [A3 B3]. destruct IH as [-> ->]. rewrite TA, TB. split; [by rewrite <- app_assoc|done].
  - destruct (live_crossing _ _ _ _ _ _ _ _ _ packet d dA dB (live_sym _ _ _ _ _ _ _ _ _ L) ltac:(lia) R I Z T Fa)
      as (B2 & A2 & -> & L2 & TB & TA & RB & RA).
    specialize (IH A2 B2 (n + 1) (live_sym _ _ _ _ _ _ _ _ _ L2) ltac:(lia) ltac:(by destruct RA as [_ ->]) ltac:(by destruct RB as [_ ->])
      (Forall_impl _ _ _ Hl (fun e => sendable_routing A ia tA B ib tB A2 B2 e RA RB))).
    destruct (exchange aA aB l A2 B2) as [A3 B3]. destruct IH as [-> ->]. rewrite TA, TB. split; [done|by rewrite <- app_assoc].
Qed.

(** C5: Two tailnet backends connect and deliver over their sockets. Let A and B know each other's node keys, each have a confirmed direct address at which the other is reached and open tuns, and let the library seal and exchange genuine keypairs without failing; let the drawn indices be free and different from the STUN cookie, for which the socket would take the datagram, and A have sent no initiation in the last five seconds. When A reads an IPv4 packet for B off its tun (the packet itself is given up), A sends an initiation, B classifies it on its socket and answers, and A takes the answer, which leaves matching sessions found by their indices and nothing on either tun. From then on, for any sequence of IPv4 packets of at most 2016 bytes read off either tun for the other side before the session is 120 seconds old, every packet is sealed and sent to the confirmed address, told apart on the other socket, and written to the other tun byte for byte: each tun gets exactly the other side's packets, in order. *)
Theorem tailnet_delivery A B ia ib apub bpub aA aB p1 d1 d2 d3 :
  acquainted A B ia ib apub bpub -> direct_to A ia aB -> direct_to B ib aA -> fTunFd A = true -> fTunFd B = true ->
  routed A p1 ia -> ipv4 p1 -> sound_draw A ia d1 -> sound_draw B ib d2 ->
  (forall m, peer_at ia A = Some m -> 5000000 < d_now d1 - PeerSet.lastHandshake m) ->
  let '(A2, B2) := crossing aA aB p1 d1 d2 d3 A B in
  connected A2 ia B2 ib /\ tun A2 = tun A /\ tun B2 = tun B
  /\ forall l, Forall (sendable A ia (d_sys d3) B ib (d_sys d2)) l -> zlen l < 2 ^ 60 ->
       let '(A3, B3) := exchange aA aB l A2 B2 in
       tun B3 = tun B ++ omap from_A l /\ tun A3 = tun A ++ omap from_B l.
Proof.
  intros Hq Da Db Fa Fb Hr Hip Hd1 Hd2 Hlast.
  destruct (handshake_crossing A B ia ib apub bpub aA aB p1 d1 d2 d3 Hq Da Db Hr Hip Hd1 Hd2 Hlast) as (s1 & s2 & He1 & He2 & ->).
  destruct (handshake_connects A B ia ib apub bpub p1 d1 d2 d3 s1 s2 Hq Hr Hd1 Hd2 He1 He2) as (C & Sa & Sb & RA & RB & TA & TB).
  assert (Da2 : direct_to (_HandleWireGuardPacket (payload s2) d3 (tun_packet p1 d1 A)) ia aB).
  { apply (direct_sends A); [|done]. etransitivity; [|apply sends_WireGuard]. pose proof Hip as [_ Hv].
    rewrite (tun_packet_ready A p1 ia d1 Hr (ipv4_long _ Hip) Hv). apply sends_ToPeer. }
  assert (Db2 : direct_to (_HandleWireGuardPacket (payload s1) d2 B) ib aA) by (apply (direct_sends B); [apply sends_WireGuard|done]).
  set (A2 := _HandleWireGuardPacket (payload s2) d3 _) in *. set (B2 := _HandleWireGuardPacket (payload s1) d2 B) in *. clearbody A2 B2.
  split; [done|]. split; [done|]. split; [done|]. intros l Hl Hn. rewrite <- TA, <- TB.
  apply (exchange_delivers aA aB ia ib (d_sys d3) (d_sys d2) l A2 B2 0); [|done|by destruct RA as [_ ->]|by destruct RB as [_ ->]|].
  - split; try done; intros m Hm; [destruct (Sa m Hm) as (? & ? & E & ?)|destruct (Sb m Hm) as (? & ? & E & ?)]; rewrite E; done.
  - apply (Forall_impl _ _ _ Hl). intros e. by apply sendable_routing.
Qed.
End Network.

Definition demo_key (k : Z) : bytes := le_split 32 k.
Definition demo_managed (key : Z) (where_ cidr : string) : PeerSet.ManagedPeer :=
  PeerSet.mkManaged (Identity.ToHex (demo_key key)) [] (bs "peer") true 1 [bs cidr] [] (WGPeer.SetNodeKey WGPeer.WGPeer (demo_key key))
    (PeerPath.UpgradeToDirect PeerPath.PeerPath (Some (bs where_)) 0) 0 0.
Definition demo_plane (key : Z) (peer : PeerSet.ManagedPeer) : plane :=
  mkPlane (Identity.mkIdentity [] Identity.zero_key (Identity.mkKey (demo_key key) (demo_key key)) Identity.zero_key true)
    (SessionState.mkState Netmap.TSNetmap [peer] MagicDns.MagicDns []) (MagicSock.mkSock 5 41641) Derp.DerpClient false true [] [].
Definition demo_A : plane := demo_plane 11 (demo_managed 22 "10.0.0.2:41641" "100.64.0.2/32").
Definition demo_B : plane := demo_plane 22 (demo_managed 11 "10.0.0.1:41641" "100.64.0.1/32").
Definition demo_draw (key idx now : Z) : draw := mkDraw (Some (demo_key key, demo_key key)) (Some idx) 1700000000 now now [] [].
Definition demo_ip : bytes := [0x45; 0; 0; 20] ++ zeros 8 ++ [100; 64; 0; 1] ++ [100; 64; 0; 2].

Lemma demo_free key m idx : idx <> 0 -> free_index (demo_plane key m) 0 idx.
Proof. intros Hi. split; [done|]. intros j m2 Hj Hm. destruct j; [done|by destruct j]. Qed.

Definition demo_at_A : addr := (167772161, 41641).
Definition demo_at_B : addr := (167772162, 41641).
Definition demo_back : bytes := [0x45; 0; 0; 24] ++ zeros 8 ++ [100; 64; 0; 2] ++ [100; 64; 0; 1] ++ [1; 2; 3; 4].
Definition demo_exchange : list traffic :=
  let d n := demo_draw 66 8 n in
  [FromA demo_ip (d 10000300) (d 10000400) (d 10000500); FromB demo_back (d 10000600) (d 10000700) (d 10000800);
   FromA demo_ip (d 10000900) (d 10001000) (d 10001100)].

Lemma tailnet_delivery_witness :
  let '(A2, B2) := crossing (H := Toy.toy) demo_at_A demo_at_B demo_ip (demo_draw 33 5 10000000) (demo_draw 44 6 10000100) (demo_draw 55 7 10000200) demo_A demo_B in
  let '(A3, B3) := exchange (H := Toy.toy) demo_at_A demo_at_B demo_exchange A2 B2 in
  tun B3 = [demo_ip; demo_ip] /\ tun A3 = [demo_back].
Proof.
  pose proof (tailnet_delivery (H := Toy.toy) (H0 := Toy.toy_laws) Toy.toy_seals (fun a b pa pb _ _ => ltac:(eexists; reflexivity))
    demo_A demo_B 0 0 (demo_key 11) (demo_key 22) demo_at_A demo_at_B demo_ip
    (demo_draw 33 5 10000000) (demo_draw 44 6 10000100) (demo_draw 55 7 10000200)) as D.
  set (ma := demo_managed 22 "10.0.0.2:41641" "100.64.0.2/32") in *. set (mb := demo_managed 11 "10.0.0.1:41641" "100.64.0.1/32").
  destruct (crossing _ _ _ _ _ _ _ _) as [A2 B2]. destruct D as (_ & _ & _ & D).
  - split; [done|done|by exists ma|done|]. intros m Hm. change (Some mb = Some m) in Hm. by injection Hm as <-.
  - exists ma. split_and!; [done|vm_compute; reflexivity|done].
  - exists mb. split_and!; [done|vm_compute; reflexivity|done].
  - done.
  - done.
  - done.
  - done.
  - split; [eexists; by split|]. exists 5. split_and!; [done|lia|lia|by apply demo_free|done].
  - split; [eexists; by split|]. exists 6. split_and!; [done|lia|lia|by apply demo_free|done].
  - intros m Hm. change (Some ma = Some m) in Hm. injection Hm as <-. by vm_compute.
  - specialize (D demo_exchange). destruct (exchange _ _ _ _ _) as [A3 B3]. apply D; [|by vm_compute].
    repeat (apply Forall_cons_2; [split_and!; [reflexivity|split; reflexivity|by vm_compute|by vm_compute]|]). apply Forall_nil_2.
Defined.

(** A peer not reached yet; the disco keys are 7 (its) and 9 (ours). *)
Definition demo_C : plane :=
  let m := demo_managed 22 "10.0.0.2:41641" "100.64.0.2/32" in
  let m := PeerSet.mkManaged (PeerSet.nodeKeyHex m) (Identity.ToHex (demo_key 7)) (bs "peer") true 1 (PeerSet.m_allowedIPs m) []
             (PeerSet.wg m) PeerPath.PeerPath 0 0 in
  let p := demo_plane 11 m in
  mkPlane (Identity.mkIdentity [] Identity.zero_key (Identity.mkKey (demo_key 11) (demo_key 11)) (Identity.mkKey (demo_key 9) (demo_key 9)) true)
    (fSession p) (fMagicSock p) (fDerp p) false true [] [].
Definition demo_from : addr := (167772162, 41641).

Lemma direct_only_after_pong_witness :
  exists pkt msg, let es := [EvSock pkt (Some demo_from) (demo_draw 0 0 5); EvTun demo_ip (demo_draw 33 5 10000000)] in
    Datagram demo_from msg ∈ outs (fold_left (step (H:=Toy.toy)) es demo_C)
    /\ (ztake 6 msg = Disco.kDiscoMagic \/ pong_from (H:=Toy.toy) demo_C es demo_from).
Proof.
  set (pong := Disco.EncodePong (zeros 12) (bs "10.0.0.1") 41641).
  destruct (Disco.DiscoSeal (H:=Toy.toy) 256 (demo_key 7) (demo_key 7) (demo_key 9) pong (zeros 24)) as [pkt|] eqn:Es; [|by unfold Disco.DiscoSeal in Es].
  destruct (Disco.DiscoOpen_Seal (H:=Toy.toy) (H0:=Toy.toy_laws) (demo_key 7) (demo_key 9) (demo_key 7) (demo_key 9) 256 128 pong (zeros 24) pkt
    eq_refl eq_refl eq_refl ltac:(by vm_compute) Es) as (Ho & Hl & rest & Hr).
  set (m := demo_managed 22 "10.0.0.2:41641" "100.64.0.2/32").
  destruct (WGPeer.BuildInitiation (H:=Toy.toy) (PeerSet.wg m) (demo_key 11) (demo_key 22) (Some (demo_key 33, demo_key 33)) (Some 5) 1700000000 10000000)
    as [o1 w1] eqn:E1.
  pose proof (proj1 (WGPeer.builders_total (H:=Toy.toy) (PeerSet.wg m) (demo_key 11) (demo_key 22) (demo_key 33, demo_key 33) 5 1700000000 10000000
    ltac:(eexists; reflexivity) (fun a b => ltac:(eexists; reflexivity)) Toy.toy_seals)) as [msg S1].
  rewrite E1 in S1. cbn [fst] in S1. subst o1. exists pkt, msg. cbv zeta.
  set (p1 := set_peer 0 (fun m => with_path (PeerPath.UpgradeToDirect (PeerSet.path m) (Some (show_addr demo_from)) 5) m) demo_C).
  assert (St : sock_packet (H:=Toy.toy) pkt (Some demo_from) (demo_draw 0 0 5) demo_C = p1).
  { unfold sock_packet. rewrite Hl. rewrite Hr at 1. rewrite MagicSock.Classify_disco. unfold _HandleDiscoPacket.
    change (Identity.priv (Identity.fDisco (fIdentity demo_C))) with (demo_key 9). rewrite Ho. reflexivity. }
  assert (Hin : Datagram demo_from msg ∈ outs (fold_left (step (H:=Toy.toy))
    [EvSock pkt (Some demo_from) (demo_draw 0 0 5); EvTun demo_ip (demo_draw 33 5 10000000)] demo_C)).
  { cbn [fold_left step]. rewrite St, (tun_packet_ready p1 demo_ip 0) by done.
    rewrite (direct_initiation (H:=Toy.toy) 0 demo_ip (demo_draw 33 5 10000000) p1
      (with_path (PeerPath.UpgradeToDirect PeerPath.PeerPath (Some (show_addr demo_from)) 5) (PeerSet.mkManaged (PeerSet.nodeKeyHex m) (Identity.ToHex (demo_key 7)) (bs "peer") true 1 (PeerSet.m_allowedIPs m) []
             (PeerSet.wg m) PeerPath.PeerPath 0 0)) demo_from msg w1); [| |done|done|done|exact E1].
    - apply elem_of_app. right. by apply list_elem_of_singleton.
    - eexists. split_and!; [reflexivity|vm_compute; reflexivity|done]. }
  split; [exact Hin|]. refine (direct_only_after_pong (H:=Toy.toy) demo_C _ demo_from msg _ eq_refl _ Hin).
  - repeat constructor.
  - repeat constructor; done.
Defined.

End TsDelivery.
