(* ===== verification/Message.v ===== *)
(** * Message: Haiku's BMessage as the daemon uses it

    The messages of src/common/VPNProtocol.h are BMessages: a what code and
    named fields of typed values.  A field name holds values of one type; Add
    of another type fails with B_BAD_VALUE and changes nothing, Find returns
    the first value of the name if it has the type asked for, Replace needs the
    field to be there.  A string read back ends at its first NUL. *)

From S2P Require Import Prelude CLib Json.
Open Scope Z_scope.

Module Message.

(** A float is a binary value; [==] compares numbers, so the two zeros are one. *)
Abbreviation float := Json.double.
Definition feq (a b : float) : bool :=
  match a, b with
  | Json.Finite m e, Json.Finite n f => (m * 2 ^ Z.max 0 (e - f) =? n * 2 ^ Z.max 0 (f - e))
  | Json.Inf x, Json.Inf y => Bool.eqb x y
  | _, _ => false
  end.
Definition fzero : float := Json.Finite 0 0.

(** A BMessenger is the number of its target; 0 is an invalid one. *)
Abbreviation messenger := Z.
Definition IsValid (m : messenger) : bool := negb (m =? 0).

Inductive value :=
| VInt32 (n : Z) | VInt64 (n : Z) | VString (s : bytes) | VBool (b : bool) | VFloat (x : float)
| VMessenger (m : messenger) | VMessage (what : Z) (fields : list (string * value)).

Record message := mkMessage { what : Z; fields : list (string * value) }.

Definition BMessage (w : Z) : message := mkMessage w [].
Definition nested (m : message) : value := VMessage (what m) (fields m).

Definition same_type (a b : value) : bool :=
  match a, b with
  | VInt32 _, VInt32 _ | VInt64 _, VInt64 _ | VString _, VString _ | VBool _, VBool _
  | VFloat _, VFloat _ | VMessenger _, VMessenger _ | VMessage _ _, VMessage _ _ => true
  | _, _ => false
  end.

(** The values of a name, in order. *)
Definition values (name : string) (m : message) : list value :=
  map snd (List.filter (fun f => String.eqb (fst f) name) (fields m)).

Definition Add (name : string) (v : value) (m : message) : status * message :=
  match values name m with
  | v' :: _ => if same_type v v' then (B_OK, mkMessage (what m) (fields m ++ [(name, v)])) else (B_BAD_VALUE, m)
  | [] => (B_OK, mkMessage (what m) (fields m ++ [(name, v)]))
  end.

(** Add where the source ignores the status. *)
Definition add (name : string) (v : value) (m : message) : message := snd (Add name v m).

(** Add in sequence until one fails. *)
Fixpoint AddAll (l : list (string * value)) (m : message) : status * message :=
  match l with
  | [] => (B_OK, m)
  | (name, v) :: l =>
      match Add name v m with
      | (B_OK, m) => AddAll l m
      | r => r
      end
  end.

Definition FindInt32 (name : string) (m : message) : option Z :=
  match values name m with VInt32 n :: _ => Some n | _ => None end.
Definition FindInt64 (name : string) (m : message) : option Z :=
  match values name m with VInt64 n :: _ => Some n | _ => None end.
Definition FindString (name : string) (m : message) : option bytes :=
  match values name m with VString s :: _ => Some (cstr s) | _ => None end.
Definition FindBool (name : string) (m : message) : option bool :=
  match values name m with VBool b :: _ => Some b | _ => None end.
Definition FindFloat (name : string) (m : message) : option float :=
  match values name m with VFloat x :: _ => Some x | _ => None end.
Definition FindMessenger (name : string) (m : message) : option messenger :=
  match values name m with VMessenger x :: _ => Some x | _ => None end.

(** FindMessage with an index; 0 is the first. *)
Definition FindMessageAt (name : string) (i : nat) (m : message) : option message :=
  match values name m !! i with Some (VMessage w fs) => Some (mkMessage w fs) | _ => None end.
Definition FindMessage (name : string) (m : message) : option message := FindMessageAt name 0 m.

(** All nested messages of a name: the loop [for (i = 0; FindMessage(name, i, &x) == B_OK; i++)]. *)
Fixpoint messages_of (vs : list value) : list message :=
  match vs with
  | VMessage w fs :: vs => mkMessage w fs :: messages_of vs
  | _ => []
  end.
Definition FindMessages (name : string) (m : message) : list message := messages_of (values name m).

Definition HasString (name : string) (m : message) : bool :=
  match values name m with VString _ :: _ => true | _ => false end.
Definition HasFloat (name : string) (m : message) : bool :=
  match values name m with VFloat _ :: _ => true | _ => false end.
Definition HasMessage (name : string) (m : message) : bool :=
  match values name m with VMessage _ _ :: _ => true | _ => false end.

Fixpoint replace_first (name : string) (v : value) (l : list (string * value)) : list (string * value) :=
  match l with
  | [] => []
  | f :: l => if String.eqb (fst f) name then (name, v) :: l else f :: replace_first name v l
  end.

Definition Replace (name : string) (v : value) (m : message) : status * message :=
  match values name m with
  | v' :: _ => if same_type v v' then (B_OK, mkMessage (what m) (replace_first name v (fields m))) else (B_BAD_VALUE, m)
  | [] => (B_ENTRY_NOT_FOUND, m)
  end.

Definition IsEmpty (m : message) : bool := match fields m with [] => true | _ => false end.

(** ** Facts *)

Lemma values_app name w l k : values name (mkMessage w (l ++ k)) = values name (mkMessage w l) ++ values name (mkMessage w k).
Proof. unfold values. cbn [fields]. by rewrite List.filter_app, map_app. Qed.

(** Adding one value to every name of a list without repetition succeeds. *)
Lemma AddAll_fresh l m :
  NoDup (map fst l) -> (forall name, name ∈ map fst l -> values name m = []) ->
  AddAll l m = (B_OK, mkMessage (what m) (fields m ++ l)).
Proof.
  revert m. induction l as [|[name v] l IH]; intros m Hd Hf; cbn [AddAll].
  - rewrite app_nil_r. by destruct m.
  - cbn [map fst] in Hd. apply NoDup_cons in Hd as [Hn Hd]. unfold Add. rewrite Hf by apply list_elem_of_here.
    rewrite IH; [cbn; by rewrite <- app_assoc|done|]. cbn [fields what]. intros x Hx.
    rewrite values_app. destruct m as [w fs]. cbn [fields what].
    rewrite (Hf x) by by apply list_elem_of_further. unfold values. cbn.
    destruct (String.eqb_spec name x) as [->|]; [|done]. by exfalso.
Qed.

End Message.
