(* ===== verification/Profiles.v ===== *)
(** * Profiles: the values the daemon and its clients exchange, and the profile store

    src/common/VPNProtocol.h, VPNState.{h,cpp}, VPNProfile.{h,cpp},
    VPNStats.{h,cpp} and src/server/ProfileStore.{h,cpp}.  Enumerators are
    their integer values, as the protocol carries them.  The store writes two
    files, the profile file and its temporary sibling; what the system calls
    return is an argument, and a write is the list of the disk states it goes
    through, so that a crash can stop it at any of them. *)

From S2P Require Import Prelude CLib Json Message.
Open Scope Z_scope.

(** ** The protocol *)

Module VPNProtocol.

(** A multi-character constant. *)
Definition fourcc (s : string) : Z := fold_left (fun a c => a * 256 + c) (bs s) 0.

Definition kMsgConnect : Z := fourcc "sCon".
Definition kMsgDisconnect : Z := fourcc "sDis".
Definition kMsgGetStatus : Z := fourcc "sGst".
Definition kMsgSubscribe : Z := fourcc "sSub".
Definition kMsgUnsubscribe : Z := fourcc "sUns".
Definition kMsgStatusUpdate : Z := fourcc "sUpd".
Definition kMsgStatsUpdate : Z := fourcc "sStt".
Definition kMsgSaveProfile : Z := fourcc "sSav".
Definition kMsgDeleteProfile : Z := fourcc "sDel".
Definition kMsgListProfiles : Z := fourcc "sLst".
Definition kMsgRequestVPNGate : Z := fourcc "sRVG".
Definition kMsgVPNGateList : Z := fourcc "sLVG".
Definition kMsgConnectVPNGate : Z := fourcc "sCVG".
Definition kMsgSetExitNode : Z := fourcc "sExN".

#[local] Open Scope string_scope.
Definition kFieldState : string := "soto:state".
Definition kFieldDetail : string := "soto:detail".
Definition kFieldProfile : string := "soto:profile".
Definition kFieldConnectedProfile : string := "soto:connectedProfile".
Definition kFieldClient : string := "soto:client".
Definition kFieldBackend : string := "soto:backend".
Definition kFieldBytesIn : string := "soto:bytesIn".
Definition kFieldBytesOut : string := "soto:bytesOut".
Definition kFieldConnectedSince : string := "soto:connectedSince".
Definition kFieldLocalIP : string := "soto:localIP".
Definition kFieldRemoteIP : string := "soto:remoteIP".
Definition kFieldCountry : string := "soto:country".
Definition kFieldExternalIP : string := "soto:externalIP".
Definition kFieldHomeIP : string := "soto:home:ip".
Definition kFieldHomeCountry : string := "soto:home:country".
Definition kFieldHomeLat : string := "soto:home:lat".
Definition kFieldHomeLon : string := "soto:home:lon".
Definition kFieldConnectedHost : string := "soto:connected:host".
Definition kFieldUsername : string := "soto:auth:username".
Definition kFieldPassword : string := "soto:auth:password".
Definition kFieldAuthKey : string := "soto:auth:authkey".
Definition kFieldProfileName : string := "soto:profile:name".
Definition kFieldProfileServer : string := "soto:profile:server".
Definition kFieldProfilePort : string := "soto:profile:port".
Definition kFieldProfileBackend : string := "soto:profile:backendType".
Definition kFieldProfileUsername : string := "soto:profile:username".
Definition kFieldProfileConfigPath : string := "soto:profile:configPath".
Definition kFieldProfileProtocol : string := "soto:profile:protocol".
Definition kFieldPeer : string := "soto:peer".
Definition kFieldExitNodeKey : string := "soto:exitNodeKey".
Definition kFieldProfileAuthKey : string := "soto:profile:authKey".
Definition kFieldVPNGateServer : string := "soto:vg:server".
Definition kFieldVPNGateHost : string := "soto:vg:host".
Definition kFieldVPNGateCountryLong : string := "soto:vg:country".
Definition kFieldVPNGateIP : string := "soto:vg:ip".
Definition kFieldVPNGateCountryShort : string := "soto:vg:cc".
Definition kFieldVPNGateScore : string := "soto:vg:score".
Definition kFieldVPNGatePing : string := "soto:vg:ping".
Definition kFieldVPNGateSpeedMbps : string := "soto:vg:speed".
Definition kFieldVPNGateSessions : string := "soto:vg:sessions".
Definition kFieldVPNGateLogPolicy : string := "soto:vg:logtype".
Definition kFieldVPNGateLatitude : string := "soto:vg:lat".
Definition kFieldVPNGateLongitude : string := "soto:vg:lon".
Definition kFieldVPNGateConfigBase64 : string := "soto:vg:ovpn".
Definition kFieldError : string := "soto:error".

End VPNProtocol.

Module VPNState.
Definition VPN_STATE_DISCONNECTED : Z := 0.
Definition VPN_STATE_CONNECTING : Z := 1.
Definition VPN_STATE_AUTHENTICATING : Z := 2.
Definition VPN_STATE_CONNECTED : Z := 3.
Definition VPN_STATE_RECONNECTING : Z := 4.
Definition VPN_STATE_ERROR : Z := 5.

Definition vpn_state_name (state : Z) : bytes :=
  if state =? VPN_STATE_DISCONNECTED then bs "Disconnected"
  else if state =? VPN_STATE_CONNECTING then bs "Connecting"
  else if state =? VPN_STATE_AUTHENTICATING then bs "Authenticating"
  else if state =? VPN_STATE_CONNECTED then bs "Connected"
  else if state =? VPN_STATE_RECONNECTING then bs "Reconnecting"
  else if state =? VPN_STATE_ERROR then bs "Error"
  else bs "Unknown".
End VPNState.

(** ** Profiles and counters *)

Module VPNProfile.
Import VPNProtocol Message.

Definition VPN_BACKEND_OPENVPN : Z := 0.
Definition VPN_BACKEND_WIREGUARD : Z := 1.
Definition VPN_BACKEND_IPSEC : Z := 2.
Definition VPN_BACKEND_TAILSCALE : Z := 3.

Record profile := mkProfile {
  fBackendType : Z; fName : bytes; fServer : bytes; fPort : Z; fUsername : bytes;
  fProtocol : bytes; fConfigPath : bytes; fAuthKey : bytes }.

Definition VPNProfile : profile := mkProfile VPN_BACKEND_OPENVPN [] [] 1194 [] (bs "udp") [] [].

Definition Archive (p : profile) (into : message) : status * message :=
  AddAll [(kFieldProfileBackend, VInt32 (fBackendType p)); (kFieldProfileName, VString (fName p));
          (kFieldProfileServer, VString (fServer p)); (kFieldProfilePort, VInt32 (fPort p));
          (kFieldProfileUsername, VString (fUsername p)); (kFieldProfileProtocol, VString (fProtocol p));
          (kFieldProfileConfigPath, VString (fConfigPath p))] into.

Definition Unarchive (from : message) (p : profile) : profile :=
  mkProfile
    (default (fBackendType p) (FindInt32 kFieldProfileBackend from))
    (default (fName p) (FindString kFieldProfileName from))
    (default (fServer p) (FindString kFieldProfileServer from))
    (match FindInt32 kFieldProfilePort from with Some v => u16 v | None => fPort p end)
    (default (fUsername p) (FindString kFieldProfileUsername from))
    (default (fProtocol p) (FindString kFieldProfileProtocol from))
    (default (fConfigPath p) (FindString kFieldProfileConfigPath from))
    (default (fAuthKey p) (FindString kFieldProfileAuthKey from)).

Definition with_authKey (k : bytes) (p : profile) : profile :=
  mkProfile (fBackendType p) (fName p) (fServer p) (fPort p) (fUsername p) (fProtocol p) (fConfigPath p) k.
Definition with_configPath (c : bytes) (p : profile) : profile :=
  mkProfile (fBackendType p) (fName p) (fServer p) (fPort p) (fUsername p) (fProtocol p) c (fAuthKey p).

(** The archive of a profile in a message of its own. *)
Definition archived (p : profile) : message := snd (Archive p (BMessage 0)).

Lemma Archive_fresh p w :
  Archive p (BMessage w) = (B_OK, mkMessage w
    [(kFieldProfileBackend, VInt32 (fBackendType p)); (kFieldProfileName, VString (fName p));
     (kFieldProfileServer, VString (fServer p)); (kFieldProfilePort, VInt32 (fPort p));
     (kFieldProfileUsername, VString (fUsername p)); (kFieldProfileProtocol, VString (fProtocol p));
     (kFieldProfileConfigPath, VString (fConfigPath p))]).
Proof.
  unfold Archive. rewrite AddAll_fresh; [done| |done].
  apply (bool_decide_unpack (NoDup _)). vm_compute. exact I.
Qed.

(** A profile of the types of its fields. *)
Definition profile_ok (p : profile) : Prop :=
  0 <= fPort p < 2 ^ 16 /\ Forall (Forall (fun c => c <> 0)) [fName p; fServer p; fUsername p; fProtocol p; fConfigPath p].

(** The archive carries everything but the pre-auth key. *)
Lemma Unarchive_Archive p :
  profile_ok p -> Unarchive (archived p) VPNProfile = with_authKey [] p.
Proof.
  intros [Hp Hs]. unfold archived. rewrite Archive_fresh. cbn [snd].
  repeat apply Forall_cons in Hs as [? Hs]. unfold Unarchive, with_authKey, FindString, FindInt32, values. cbn.
  by rewrite !cstr_text, u16_small by done.
Qed.
End VPNProfile.

Module VPNStats.
Import VPNProtocol Message.

Record stats := mkStats { fBytesIn : Z; fBytesOut : Z; fConnectedSince : Z }.
Definition Reset : stats := mkStats 0 0 0.
Definition VPNStats : stats := Reset.

Definition Archive (s : stats) (into : message) : status * message :=
  AddAll [(kFieldBytesIn, VInt64 (fBytesIn s)); (kFieldBytesOut, VInt64 (fBytesOut s));
          (kFieldConnectedSince, VInt64 (fConnectedSince s))] into.

Definition Unarchive (from : message) (s : stats) : stats :=
  mkStats (default (fBytesIn s) (FindInt64 kFieldBytesIn from)) (default (fBytesOut s) (FindInt64 kFieldBytesOut from))
    (default (fConnectedSince s) (FindInt64 kFieldConnectedSince from)).
End VPNStats.

(** ** The store *)

Module ProfileStore.
Import VPNProtocol Message VPNProfile.

Definition kSettingsDir : bytes := bs "Sotoportego".
Definition kSettingsFile : bytes := bs "profiles".

(** A file of the store: a whole flattened message, or part of one. *)
Inductive content := Whole (m : message) | Partial.
Record disk := mkDisk { d_profiles : option content; d_temp : option content }.

(** What the calls return: _SettingsPath, the open of the temporary file,
    Flatten and rename. *)
Record io := mkIo { io_path : status; io_open : status; io_flatten : status; io_rename : status }.

Abbreviation store := (list profile).
Definition ProfileStore : store := [].

(** [opened] is what opening the file returns. *)
Definition Load (path opened : status) (d : disk) (s : store) : status * store :=
  match path with
  | B_OK =>
      match opened with
      | B_ENTRY_NOT_FOUND => (B_OK, s)
      | B_OK =>
          match d_profiles d with
          | Some (Whole stored) =>
              (B_OK, List.filter (fun p => negb (zlen (fName p) =? 0))
                       (map (fun archive => Unarchive archive VPNProfile) (FindMessages kFieldProfile stored)))
          | _ => (B_BAD_DATA, s)
          end
      | e => (e, s)
      end
  | e => (e, s)
  end.

(** One archive per profile. *)
Fixpoint ArchiveAll (s : store) (into : message) : status * message :=
  match s with
  | [] => (B_OK, into)
  | p :: s =>
      match Archive p (BMessage 0) with
      | (B_OK, archive) =>
          match Add kFieldProfile (nested archive) into with
          | (B_OK, into) => ArchiveAll s into
          | r => r
          end
      | (e, _) => (e, into)
      end
  end.

(** The status, and the disk after each system call that changed it. *)
Definition _WriteToDisk (s : store) (o : io) (d : disk) : status * list disk :=
  match io_path o with
  | B_OK =>
      match ArchiveAll s (BMessage 0) with
      | (B_OK, stored) =>
          match io_open o with
          | B_OK =>
              let d1 := mkDisk (d_profiles d) (Some Partial) in
              match io_flatten o with
              | B_OK =>
                  let d2 := mkDisk (d_profiles d) (Some (Whole stored)) in
                  match io_rename o with
                  | B_OK => (B_OK, [d1; d2; mkDisk (Some (Whole stored)) None])
                  | e => (e, [d1; d2; mkDisk (d_profiles d) None])
                  end
              | e => (e, [d1; mkDisk (d_profiles d) None])
              end
          | e => (e, [])
          end
      | (e, _) => (e, [])
      end
  | e => (e, [])
  end.

Fixpoint upsert (p : profile) (s : store) : store :=
  match s with
  | [] => [p]
  | q :: s => if Json.str_eq (fName q) (fName p) then p :: s else q :: upsert p s
  end.

Definition Save (p : profile) (o : io) (s : store) (d : disk) : status * store * list disk :=
  if zlen (fName p) =? 0 then (B_BAD_VALUE, s, [])
  else let s := upsert p s in let '(st, ds) := _WriteToDisk s o d in (st, s, ds).

Fixpoint remove (name : bytes) (s : store) : option store :=
  match s with
  | [] => None
  | q :: s => if Json.str_eq (fName q) name then Some s else cons q <$> remove name s
  end.

(** [None] is the NULL name. *)
Definition Delete (name : option bytes) (o : io) (s : store) (d : disk) : status * store * list disk :=
  match name with
  | None => (B_BAD_VALUE, s, [])
  | Some name =>
      match remove name s with
      | Some s => let '(st, ds) := _WriteToDisk s o d in (st, s, ds)
      | None => (B_OK, s, [])
      end
  end.

(** ** What a restart finds *)

Definition store_ok (s : store) : Prop :=
  Forall (fun p => profile_ok p /\ zlen (fName p) <> 0) s /\ NoDup (map fName s).

(** What is persisted of a store: everything but the pre-auth keys. *)
Definition persisted (s : store) : store := map (with_authKey []) s.

(** The message ArchiveAll makes of a store. *)
Definition list_message (w : Z) (s : store) : message := mkMessage w (map (fun p => (kFieldProfile, nested (archived p))) s).
Definition image : store -> message := list_message 0.

(** What a fresh daemon loads. *)
Definition reload (d : disk) : status * store :=
  Load B_OK (match d_profiles d with None => B_ENTRY_NOT_FOUND | Some _ => B_OK end) d ProfileStore.

(** The disk holds the store. *)
Definition holds (d : disk) (s : store) : Prop :=
  d_profiles d = Some (Whole (image s)) \/ d_profiles d = None /\ s = [].

Lemma profile_values w s : values kFieldProfile (list_message w s) = map (fun p => nested (archived p)) s.
Proof. unfold values, list_message. cbn [fields]. induction s as [|p s IH]; [done|]. cbn. f_equal. exact IH. Qed.

Lemma ArchiveAll_app w pre s :
  ArchiveAll s (list_message w pre) = (B_OK, list_message w (pre ++ s)).
Proof.
  revert pre. induction s as [|p s IH]; intros pre; cbn [ArchiveAll]; [by rewrite app_nil_r|].
  rewrite Archive_fresh. unfold Add. rewrite profile_values.
  assert (E : mkMessage (what (list_message w pre)) (fields (list_message w pre) ++ [(kFieldProfile, nested (archived p))]) = list_message w (pre ++ [p]))
    by (unfold list_message; cbn [what fields]; by rewrite map_app).
  unfold archived in E. rewrite Archive_fresh in E. cbn [snd] in E. rewrite E.
  replace (pre ++ p :: s) with ((pre ++ [p]) ++ s) by by rewrite <- app_assoc.
  destruct pre as [|q pre]; [apply IH|]. cbn [map]. unfold nested at 1 2, same_type. apply IH.
Qed.

Lemma ArchiveAll_list w s : ArchiveAll s (BMessage w) = (B_OK, list_message w s).
Proof. exact (ArchiveAll_app w [] s). Qed.

Lemma ArchiveAll_image s : ArchiveAll s (BMessage 0) = (B_OK, image s).
Proof. exact (ArchiveAll_list 0 s). Qed.

Lemma FindMessages_list w s : FindMessages kFieldProfile (list_message w s) = map archived s.
Proof.
  unfold FindMessages. rewrite profile_values. induction s as [|p s IH]; [done|]. cbn [map messages_of].
  unfold nested at 1. rewrite IH. by destruct (archived p).
Qed.

Lemma reload_holds d s : holds d s -> store_ok s -> reload d = (B_OK, persisted s).
Proof.
  intros [H|[H ->]] [Hs _]; unfold reload, Load; rewrite H; [|done].
  unfold image. rewrite FindMessages_list, map_map. f_equal. unfold persisted. clear H.
  induction Hs as [|p s [Hp Hz] Hs IH]; [done|]. cbn [map]. rewrite Unarchive_Archive by done. cbn [List.filter with_authKey fName].
  destruct (Z.eqb_spec (zlen (fName p)) 0); [done|]. cbn [negb]. by f_equal.
Qed.

Lemma str_eq_text a b : Forall (fun c => c <> 0) a -> Forall (fun c => c <> 0) b -> Json.str_eq a b = true <-> a = b.
Proof. intros Ha Hb. unfold Json.str_eq. rewrite !cstr_text by done. apply beq_true. Qed.

Definition text (s : bytes) : Prop := Forall (fun c => c <> 0) s.

Lemma profile_ok_name p : profile_ok p -> text (fName p).
Proof. intros [_ H]. by apply Forall_inv in H. Qed.

(** The stored profile of a name. *)
Definition lookup (name : bytes) (s : store) : option profile := List.find (fun p => beq (fName p) name) s.

Lemma upsert_spec p s :
  store_ok s -> profile_ok p -> zlen (fName p) <> 0 ->
  store_ok (upsert p s) /\ (forall x, x ∈ map fName (upsert p s) <-> x = fName p \/ x ∈ map fName s)
  /\ forall name, lookup name (upsert p s) = if beq (fName p) name then Some p else lookup name s.
Proof.
  intros [Hs Hd] Hp Hz. induction Hs as [|q s [Hq Hqz] Hs IH]; cbn [upsert].
  - split; [split; [by apply Forall_cons_2; [|apply Forall_nil_2]|apply NoDup_singleton]|]. split; [|done].
    intros x. cbn [map]. rewrite list_elem_of_singleton, elem_of_nil. naive_solver.
  - cbn [map] in Hd. apply NoDup_cons in Hd as [Hn Hd]. destruct (IH Hd) as ([I1 I2] & I3 & I4).
    pose proof (str_eq_text (fName q) (fName p) (profile_ok_name _ Hq) (profile_ok_name _ Hp)) as He.
    destruct (Json.str_eq (fName q) (fName p)).
    + pose proof (proj1 He eq_refl) as Eq. split; [split|split].
      * by constructor.
      * cbn [map]. rewrite <- Eq. by apply NoDup_cons.
      * intros x. cbn [map]. rewrite !elem_of_cons, Eq. naive_solver.
      * intros name. cbn [lookup List.find]. unfold lookup. cbn [List.find]. rewrite Eq. by destruct (beq _ _).
    + assert (Hne : fName q <> fName p) by (intros E; by apply He in E). split; [split|split].
      * by constructor.
      * cbn [map]. apply NoDup_cons. split; [|done]. rewrite I3. intros [?|?]; by subst.
      * intros x. cbn [map]. rewrite !elem_of_cons, I3. naive_solver.
      * intros name. unfold lookup in *. cbn [List.find]. rewrite I4. destruct (beq (fName q) name) eqn:E1; [|done].
        apply beq_true in E1 as <-. destruct (beq (fName p) (fName q)) eqn:E2; [|done]. apply beq_true in E2. by symmetry in E2.
Qed.

Lemma lookup_None name s : lookup name s = None <-> name ∉ map fName s.
Proof.
  unfold lookup. induction s as [|q s IH]; cbn [List.find map]; [split; [intros _ H; by apply elem_of_nil in H|done]|].
  rewrite not_elem_of_cons. destruct (beq (fName q) name) eqn:E.
  - apply beq_true in E as ->. split; [done|]. by intros [? _].
  - apply beq_false in E. rewrite IH. split; [intros H; split; [congruence|done]|by intros [_ ?]].
Qed.

Lemma remove_spec name s :
  store_ok s -> text name ->
  match remove name s with
  | Some s' => store_ok s' /\ (forall x, x ∈ map fName s' <-> x <> name /\ x ∈ map fName s)
     /\ forall n, lookup n s' = if beq name n then None else lookup n s
  | None => lookup name s = None
  end.
Proof.
  intros [Hs Hd] Ht. induction Hs as [|q s [Hq Hqz] Hs IH]; cbn [remove]; [done|].
  cbn [map] in Hd. apply NoDup_cons in Hd as [Hn Hd]. specialize (IH Hd).
  pose proof (str_eq_text (fName q) name (profile_ok_name _ Hq) Ht) as He. destruct (Json.str_eq (fName q) name).
  - pose proof (proj1 He eq_refl) as <-. split; [by split|]. split.
    + intros x. cbn [map]. rewrite elem_of_cons. split; [intros Hx; split; [congruence|by right]|by intros [? [?|?]]].
    + intros n. unfold lookup. cbn [List.find]. destruct (beq (fName q) n) eqn:E; [|done].
      apply beq_true in E as <-. by apply lookup_None.
  - assert (Hne : fName q <> name) by (intros E; by apply He in E). destruct (remove name s) as [s'|]; cbn [fmap option_fmap option_map].
    + destruct IH as ([I1 I2] & I3 & I4). split; [split|split].
      * by constructor.
      * cbn [map]. apply NoDup_cons. split; [|done]. rewrite I3. by intros [_ ?].
      * intros x. cbn [map]. rewrite !elem_of_cons, I3. split; [intros [->|?]; naive_solver|naive_solver].
      * intros n. unfold lookup in *. cbn [List.find]. rewrite I4. destruct (beq (fName q) n) eqn:E1; [|done].
        apply beq_true in E1 as <-. destruct (beq name (fName q)) eqn:E2; [|done]. apply beq_true in E2. by symmetry in E2.
    + unfold lookup in *. cbn [List.find]. apply beq_false in Hne. by rewrite Hne.
Qed.

(** The daemon's mutations, with what their system calls return. *)
Inductive op := OSave (p : profile) (o : io) | ODelete (name : bytes) (o : io).

Definition op_ok (x : op) : Prop := match x with OSave p _ => profile_ok p | ODelete name _ => text name end.
Definition exec (x : op) (s : store) (d : disk) : status * store * list disk :=
  match x with OSave p o => Save p o s d | ODelete name o => Delete (Some name) o s d end.
Definition smooth (x : op) : Prop := match x with OSave _ o | ODelete _ o => o = mkIo B_OK B_OK B_OK B_OK end.

Lemma exec_store_ok x s d : store_ok s -> op_ok x -> store_ok (snd (fst (exec x s d))).
Proof.
  intros Hs Hx. destruct x as [p o|name o]; cbn [exec op_ok] in *.
  - unfold Save. destruct (Z.eqb_spec (zlen (fName p)) 0); [done|].
    destruct (_WriteToDisk _ o d). by destruct (upsert_spec p s Hs Hx).
  - unfold Delete. pose proof (remove_spec name s Hs Hx) as R. destruct (remove name s); [|done].
    destruct (_WriteToDisk _ o d). by destruct R.
Qed.

Ltac written_trace :=
  cbn [fst snd List.last d_profiles];
  split; [repeat (apply Forall_cons_2; [first [by left|by right; left|cbn [d_profiles]; tauto]|]); apply Forall_nil_2
         |intros E; first [discriminate E|by left]].

(** Every disk a write goes through holds the old list or the new one. *)
Lemma WriteToDisk_holds s s' o d :
  holds d s -> Forall (fun d' => holds d' s \/ holds d' s') (d :: snd (_WriteToDisk s' o d))
  /\ (fst (_WriteToDisk s' o d) = B_OK -> holds (List.last (snd (_WriteToDisk s' o d)) d) s').
Proof.
  intros H. unfold _WriteToDisk. rewrite ArchiveAll_image. unfold holds in *.
  destruct (io_path o); try (by written_trace). destruct (io_open o); try (by written_trace).
  destruct (io_flatten o); try (by written_trace). destruct (io_rename o); by written_trace.
Qed.

Lemma exec_holds x s d :
  holds d s -> Forall (fun d' => holds d' s \/ holds d' (snd (fst (exec x s d)))) (d :: snd (exec x s d))
  /\ (fst (fst (exec x s d)) = B_OK -> holds (List.last (snd (exec x s d)) d) (snd (fst (exec x s d)))).
Proof.
  intros H. assert (H0 : Forall (fun d' => holds d' s \/ holds d' s) [d]) by (apply Forall_cons_2; [tauto|apply Forall_nil_2]).
  destruct x as [p o|name o]; cbn [exec]; unfold Save, Delete.
  - destruct (zlen (fName p) =? 0); [by split|]. pose proof (WriteToDisk_holds s (upsert p s) o d H) as W.
    by destruct (_WriteToDisk _ o d).
  - destruct (remove name s) as [s'|]; [|by split]. pose proof (WriteToDisk_holds s s' o d H) as W.
    by destruct (_WriteToDisk _ o d).
Qed.

(** Saving and deleting profiles is atomic on disk: whatever the system calls return and wherever a crash stops the write, a restart loads either the whole old list or the whole new one, and the new one once the call has returned B_OK. *)
Theorem crash_keeps_a_whole_list x s d d' :
  holds d s -> store_ok s -> op_ok x ->
  let '(st, s', ds) := exec x s d in
  (d' ∈ d :: ds -> reload d' = (B_OK, persisted s) \/ reload d' = (B_OK, persisted s'))
  /\ (st = B_OK -> reload (List.last ds d) = (B_OK, persisted s')).
Proof.
  intros Hh Hs Hx. pose proof (exec_store_ok x s d Hs Hx) as Hs'. pose proof (exec_holds x s d Hh) as [W1 W2].
  destruct (exec x s d) as [[st s'] ds]. cbn [fst snd] in *. split.
  - intros Hin. rewrite Forall_forall in W1. destruct (W1 d' Hin); [left|right]; by apply reload_holds.
  - intros Hst. apply reload_holds; [by apply W2|done].
Qed.

Fixpoint run (xs : list op) (s : store) (d : disk) : store * disk :=
  match xs with
  | [] => (s, d)
  | x :: xs => let '(_, s, ds) := exec x s d in run xs s (List.last ds d)
  end.

(** The profile last saved under a name and not deleted since. *)
Definition written (name : bytes) (acc : option profile) (x : op) : option profile :=
  match x with
  | OSave p _ => if (zlen (fName p) =? 0) || negb (beq (fName p) name) then acc else Some p
  | ODelete n _ => if beq n name then None else acc
  end.

Lemma exec_lookup x s d name : store_ok s -> op_ok x ->
  lookup name (snd (fst (exec x s d))) = written name (lookup name s) x.
Proof.
  intros Hs Hx. destruct x as [p o|n o]; cbn [exec op_ok written] in *.
  - unfold Save. destruct (Z.eqb_spec (zlen (fName p)) 0); [done|]. cbn [orb].
    destruct (_WriteToDisk _ o d). destruct (upsert_spec p s Hs Hx) as (_ & _ & E); [done|]. cbn [fst snd]. rewrite E. by destruct (beq _ _).
  - unfold Delete. pose proof (remove_spec n s Hs Hx) as R. destruct (remove n s) as [s'|].
    + destruct (_WriteToDisk _ o d). cbn [fst snd]. by destruct R as (_ & _ & ->).
    + cbn [fst snd]. destruct (beq n name) eqn:E; [|done]. by apply beq_true in E as <-.
Qed.

Lemma smooth_ok x s d : smooth x -> fst (fst (exec x s d)) = B_OK \/ snd (exec x s d) = [] /\ snd (fst (exec x s d)) = s.
Proof.
  destruct x as [p o|n o]; cbn [exec smooth]; intros ->; unfold Save, Delete.
  - destruct (_ =? 0); [by right|]. unfold _WriteToDisk. rewrite ArchiveAll_image. by left.
  - destruct (remove n s); [|by left]. unfold _WriteToDisk. rewrite ArchiveAll_image. by left.
Qed.

(** C29: The store is a persistent map from names to profiles: after any sequence of Save and Delete whose writes succeed, the names are distinct and not empty, every name maps to the profile last saved under it and not deleted since, and a restart loads exactly the stored list, without the pre-auth keys, which are never written. *)
Theorem store_survives_restart xs :
  Forall op_ok xs -> Forall smooth xs ->
  let '(s, d) := run xs ProfileStore (mkDisk None None) in
  NoDup (map fName s) /\ Forall (fun p => zlen (fName p) <> 0) s
  /\ (forall name, lookup name s = fold_left (written name) xs None)
  /\ reload d = (B_OK, persisted s).
Proof.
  intros Hx Hsm.
  assert (G : forall s d, store_ok s -> holds d s ->
    let '(s', d') := run xs s d in
    store_ok s' /\ holds d' s' /\ forall name, lookup name s' = fold_left (written name) xs (lookup name s)).
  { induction Hx as [|x xs Hx Hxs IH]; intros s d Hs Hh; cbn [run fold_left]; [done|].
    apply Forall_cons in Hsm as [Hsx Hsm]. pose proof (exec_store_ok x s d Hs Hx) as S1.
    pose proof (exec_holds x s d Hh) as [_ W]. pose proof (smooth_ok x s d Hsx) as Ho.
    pose proof (fun name => exec_lookup x s d name Hs Hx) as L. destruct (exec x s d) as [[st s1] ds]. cbn [fst snd] in *.
    assert (H1 : holds (List.last ds d) s1) by (destruct Ho as [Ho|[-> ->]]; [by apply W|done]).
    specialize (IH Hsm s1 _ S1 H1). destruct (run xs s1 _) as [s' d']. destruct IH as (I1 & I2 & I3).
    split; [done|]. split; [done|]. intros name. by rewrite I3, L. }
  specialize (G ProfileStore (mkDisk None None) ltac:(by split; constructor) ltac:(by right)).
  destruct (run xs _ _) as [s d]. destruct G as (G1 & G2 & G3). split; [by apply G1|]. split.
  - destruct G1 as [G1 _]. eapply Forall_impl; [exact G1|]. by intros p [_ ?].
  - split; [exact G3|]. by apply reload_holds.
Qed.

Definition all_ok : io := mkIo B_OK B_OK B_OK B_OK.
Definition demo_profile (name : string) : profile := with_authKey (bs "secret") (mkProfile 3 (bs name) [] 443 [] (bs "udp") [] []).

Lemma textb l : forallb (fun c => negb (c =? 0)) l = true -> text l.
Proof. rewrite forallb_forall. intros H. apply Forall_forall. intros c Hc%list_elem_of_In%H. by apply negb_true_iff, Z.eqb_neq in Hc. Qed.

Lemma demo_profile_ok name : text (bs name) -> profile_ok (demo_profile name).
Proof.
  intros H. split; [cbn; lia|]. repeat (apply Forall_cons_2; [first [exact H|by apply textb]|]). apply Forall_nil_2.
Qed.

Lemma store_survives_restart_witness :
  let '(s, d) := run [OSave (demo_profile "a") all_ok; OSave (demo_profile "b") all_ok; ODelete (bs "a") all_ok] ProfileStore (mkDisk None None) in
  reload d = (B_OK, [with_authKey [] (demo_profile "b")]).
Proof.
  pose proof (store_survives_restart [OSave (demo_profile "a") all_ok; OSave (demo_profile "b") all_ok; ODelete (bs "a") all_ok]) as A.
  assert (E : persisted (fst (run [OSave (demo_profile "a") all_ok; OSave (demo_profile "b") all_ok; ODelete (bs "a") all_ok] ProfileStore (mkDisk None None)))
              = [with_authKey [] (demo_profile "b")]) by (vm_compute; reflexivity).
  destruct (run _ _ _) as [s d]. cbn [fst] in E. rewrite <- E. apply A.
  - repeat (apply Forall_cons_2; [first [apply demo_profile_ok|idtac]; apply textb; reflexivity|]). apply Forall_nil_2.
  - repeat (apply Forall_cons_2; [reflexivity|]). apply Forall_nil_2.
Defined.

Lemma crash_keeps_a_whole_list_witness :
  let d := mkDisk (Some (Whole (image []))) None in
  let r := exec (OSave (demo_profile "a") (mkIo B_OK B_OK B_IO_ERROR B_OK)) [] d in
  fst (fst r) = B_IO_ERROR
  /\ (mkDisk (Some (Whole (image []))) (Some Partial) ∈ d :: snd r ->
      reload (mkDisk (Some (Whole (image []))) (Some Partial)) = (B_OK, [])
      \/ reload (mkDisk (Some (Whole (image []))) (Some Partial)) = (B_OK, persisted (snd (fst r)))).
Proof.
  cbv zeta. split; [reflexivity|]. set (d := mkDisk _ None). set (d' := mkDisk _ (Some Partial)).
  pose proof (crash_keeps_a_whole_list (OSave (demo_profile "a") (mkIo B_OK B_OK B_IO_ERROR B_OK)) [] d d') as A.
  destruct (exec _ [] d) as [[st s'] ds]. apply A.
  - left. reflexivity.
  - split; constructor.
  - apply demo_profile_ok, textb. reflexivity.
Defined.

End ProfileStore.
