(* ===== verification/Centroids.v ===== *)
(** * Centroids: the country table of src/common/CountryCentroids.cpp

    Every coordinate of the table has one decimal; the rows keep it in tenths
    of a degree, and [Lookup] gives the binary32 value the compiler makes of
    the literal. *)

From S2P Require Import Prelude CLib Json Message.
Open Scope Z_scope.

(** ** Single precision *)

Module Single.

(** The binary32 value nearest to the positive rational [n / d], as
    [Json.nearest] for binary64. *)
Definition nearest32 (neg : bool) (n d : Z) : Message.float :=
  if n =? 0 then Json.Finite 0 0
  else
    let e0 := Z.log2 n - Z.log2 d in
    let '(a, b) := Json.scaled n d (e0 - 23) in
    let k := Z.max (if a / b <? 2 ^ 23 then e0 - 24 else e0 - 23) (-149) in
    let '(a, b) := Json.scaled n d k in
    let q := Json.div_even a b in
    if (0 <=? k) && (2 ^ 128 <=? q * 2 ^ k) then Json.Inf neg else Json.Finite (if neg then - q else q) k.

(** [(float)x]. *)
Definition to_float (x : Json.double) : Message.float :=
  match x with
  | Json.Finite m e => nearest32 (m <? 0) (Z.abs m * 2 ^ Z.max 0 e) (2 ^ Z.max 0 (- e))
  | Json.Inf s => Json.Inf s
  end.

(** A literal with one decimal, [t] tenths. *)
Definition tenths (t : Z) : Message.float := nearest32 (t <? 0) (Z.abs t) 10.

End Single.

(** ** The table *)

Module CountryCentroids.

Record Centroid := mkCentroid { iso2 : bytes; lat : Z; lon : Z }.

#[export] Instance Centroid_eq_dec : EqDecision Centroid.
Proof. solve_decision. Defined.

Definition row (c : string) (la lo : Z) : Centroid := mkCentroid (bs c) la lo.

Definition kCentroids : list Centroid := [
  row "AD" 425 15; row "AE" 252 553; row "AF" 339 677; row "AG" 171 (-618); row "AI" 182 (-631);
  row "AL" 411 201; row "AM" 400 450; row "AO" (-112) 179; row "AQ" (-829) 1350; row "AR" (-346) (-584);
  row "AS" (-143) (-1707); row "AT" 482 164; row "AU" (-339) 1512; row "AW" 125 (-699); row "AX" 602 200;
  row "AZ" 404 499; row "BA" 439 177; row "BB" 132 (-595); row "BD" 237 904; row "BE" 508 44;
  row "BF" 122 (-16); row "BG" 427 233; row "BH" 260 506; row "BI" (-34) 299; row "BJ" 64 24;
  row "BL" 179 (-628); row "BM" 323 (-648); row "BN" 45 1149; row "BO" (-165) (-681); row "BQ" 122 (-683);
  row "BR" (-235) (-466); row "BS" 251 (-774); row "BT" 275 896; row "BV" (-544) 34; row "BW" (-247) 259;
  row "BY" 539 276; row "BZ" 175 (-882); row "CA" 437 (-794); row "CC" (-122) 968; row "CD" (-43) 153;
  row "CF" 44 186; row "CG" (-43) 153; row "CH" 474 85; row "CI" 53 (-40); row "CK" (-212) (-1598);
  row "CL" (-334) (-707); row "CM" 39 115; row "CN" 399 1164; row "CO" 47 (-741); row "CR" 99 (-841);
  row "CU" 231 (-824); row "CV" 149 (-235); row "CW" 122 (-690); row "CX" (-105) 1057; row "CY" 352 334;
  row "CZ" 501 144; row "DE" 501 87; row "DJ" 116 431; row "DK" 557 126; row "DM" 154 (-614);
  row "DO" 185 (-699); row "DZ" 368 31; row "EC" (-2) (-785); row "EE" 594 248; row "EG" 300 312;
  row "EH" 242 (-129); row "ER" 153 389; row "ES" 404 (-37); row "ET" 90 387; row "FI" 602 249;
  row "FJ" (-177) 1781; row "FK" (-517) (-595); row "FM" 69 1582; row "FO" 620 (-68); row "FR" 489 24;
  row "GA" 4 95; row "GB" 515 (-1); row "GD" 121 (-617); row "GE" 417 448; row "GF" 40 (-529);
  row "GG" 495 (-26); row "GH" 56 (-2); row "GI" 361 (-54); row "GL" 642 (-517); row "GM" 135 (-166);
  row "GN" 96 (-136); row "GP" 163 (-615); row "GQ" 37 88; row "GR" 380 237; row "GS" (-544) (-366);
  row "GT" 146 (-905); row "GU" 134 1447; row "GW" 120 (-156); row "GY" 68 (-582); row "HK" 223 1142;
  row "HM" (-531) 735; row "HN" 141 (-872); row "HR" 458 160; row "HT" 185 (-723); row "HU" 475 191;
  row "ID" (-62) 1068; row "IE" 533 (-63); row "IL" 318 352; row "IM" 542 (-45); row "IN" 286 772;
  row "IO" (-73) 724; row "IQ" 333 444; row "IR" 357 514; row "IS" 641 (-219); row "IT" 419 125;
  row "JE" 492 (-21); row "JM" 180 (-768); row "JO" 319 359; row "JP" 357 1397; row "KE" (-13) 368;
  row "KG" 429 746; row "KH" 116 1049; row "KI" 14 1730; row "KM" (-117) 433; row "KN" 173 (-627);
  row "KP" 390 1258; row "KR" 376 1270; row "KW" 294 480; row "KY" 193 (-814); row "KZ" 512 714;
  row "LA" 179 1026; row "LB" 339 355; row "LC" 140 (-610); row "LI" 471 95; row "LK" 69 799;
  row "LR" 63 (-108); row "LS" (-296) 275; row "LT" 547 253; row "LU" 496 61; row "LV" 569 241;
  row "LY" 329 132; row "MA" 336 (-76); row "MC" 437 74; row "MD" 470 289; row "ME" 424 193;
  row "MF" 181 (-631); row "MG" (-189) 475; row "MH" 71 1714; row "MK" 420 214; row "ML" 127 (-80);
  row "MM" 168 962; row "MN" 479 1069; row "MO" 222 1135; row "MP" 152 1457; row "MQ" 146 (-610);
  row "MR" 181 (-160); row "MS" 167 (-622); row "MT" 359 144; row "MU" (-203) 575; row "MV" 42 735;
  row "MW" (-139) 338; row "MX" 194 (-991); row "MY" 31 1017; row "MZ" (-259) 326; row "NA" (-226) 171;
  row "NC" (-223) 1665; row "NE" 135 21; row "NF" (-290) 1679; row "NG" 91 75; row "NI" 121 (-863);
  row "NL" 524 49; row "NO" 599 107; row "NP" 277 853; row "NR" (-5) 1669; row "NU" (-191) (-1699);
  row "NZ" (-368) 1748; row "OM" 236 585; row "PA" 90 (-795); row "PE" (-120) (-770); row "PF" (-175) (-1496);
  row "PG" (-95) 1472; row "PH" 146 1210; row "PK" 337 731; row "PL" 522 210; row "PM" 468 (-562);
  row "PN" (-251) (-1301); row "PR" 185 (-661); row "PS" 319 352; row "PT" 387 (-91); row "PW" 75 1346;
  row "PY" (-253) (-576); row "QA" 253 515; row "RE" (-209) 555; row "RO" 444 261; row "RS" 448 205;
  row "RU" 558 376; row "RW" (-19) 301; row "SA" 247 467; row "SB" (-96) 1602; row "SC" (-47) 555;
  row "SD" 156 325; row "SE" 593 181; row "SG" 14 1038; row "SH" (-159) (-57); row "SI" 461 145;
  row "SJ" 782 156; row "SK" 482 171; row "SL" 85 (-132); row "SM" 439 125; row "SN" 147 (-175);
  row "SO" 20 453; row "SR" 58 (-552); row "SS" 49 316; row "ST" 3 67; row "SV" 137 (-892); row "SX" 180 (-631);
  row "SY" 335 363; row "SZ" (-263) 311; row "TC" 217 (-718); row "TD" 121 150; row "TF" (-493) 693;
  row "TG" 61 12; row "TH" 138 1005; row "TJ" 386 688; row "TK" (-92) (-1718); row "TL" (-86) 1256;
  row "TM" 379 584; row "TN" 368 102; row "TO" (-211) (-1752); row "TR" 410 289; row "TT" 107 (-615);
  row "TV" (-85) 1792; row "TW" 250 1216; row "TZ" (-68) 393; row "UA" 505 305; row "UG" 3 326;
  row "UM" 193 1666; row "US" 389 (-770); row "UY" (-349) (-562); row "UZ" 413 693; row "VA" 419 125;
  row "VC" 132 (-612); row "VE" 105 (-669); row "VG" 184 (-646); row "VI" 183 (-649); row "VN" 210 1059;
  row "VU" (-177) 1683; row "WF" (-133) (-1762); row "WS" (-138) (-1721); row "XK" 427 212; row "YE" 154 442;
  row "YT" (-128) 452; row "ZA" (-262) 280; row "ZM" (-154) 283; row "ZW" (-178) 311].

Definition toupper (c : Z) : Z := if (97 <=? c) && (c <=? 122) then c - 32 else c.

(** The first row with both letters of the key. *)
Fixpoint scan (k0 k1 : Z) (l : list Centroid) : option Centroid :=
  match l with
  | [] => None
  | r :: l => if (at_ (iso2 r) 0 =? k0) && (at_ (iso2 r) 1 =? k1) then Some r else scan k0 k1 l
  end.

Definition find_row (code : bytes) : option Centroid :=
  let code := trim_by isspace isspace code in
  if zlen code <? 2 then None else scan (toupper (at_ code 0)) (toupper (at_ code 1)) kCentroids.

Definition Lookup (code : bytes) : option (Message.float * Message.float) :=
  (fun r => (Single.tenths (lat r), Single.tenths (lon r))) <$> find_row code.

(** ** Facts *)

(** A row is the first of its code: no row is shadowed. *)
Lemma codes_distinct : NoDup (map iso2 kCentroids).
Proof. apply (bool_decide_unpack _). vm_compute. exact I. Qed.

(** Every coordinate is a point of the globe. *)
Lemma on_the_globe : Forall (fun r => -900 <= lat r <= 900 /\ -1800 <= lon r <= 1800) kCentroids.
Proof. apply (bool_decide_unpack _). vm_compute. exact I. Qed.

(** Every row of the table is found by its code, in upper or lower case. *)
Lemma Lookup_row :
  Forall (fun r => find_row (iso2 r) = Some r /\ find_row (map tolower (iso2 r)) = Some r) kCentroids.
Proof. apply (bool_decide_unpack _). vm_compute. exact I. Qed.

Lemma toupper_inv x k : toupper x = k -> x = k \/ x = k + 32.
Proof. unfold toupper. destruct (_ && _); lia. Qed.

(** Every way to write the two letters of a row finds that row. *)
Lemma find_row_letters c x y : c ∈ kCentroids ->
  iso2 c = map toupper [x; y] -> find_row [x; y] = Some c.
Proof.
  intros Hc E. assert (F : Forall (fun c => Forall (fun d => find_row
      [at_ (iso2 c) 0 + fst d; at_ (iso2 c) 1 + snd d] = Some c)
    [(0, 0); (32, 0); (0, 32); (32, 32)]) kCentroids) by (apply (bool_decide_unpack _); vm_compute; exact I).
  rewrite Forall_forall in F. specialize (F c Hc). rewrite E in F. cbn [map fst snd] in F.
  change (at_ [toupper x; toupper y] 0) with (toupper x) in F.
  change (at_ [toupper x; toupper y] 1) with (toupper y) in F.
  destruct (toupper_inv x _ eq_refl) as [Ex|Ex], (toupper_inv y _ eq_refl) as [Ey|Ey].
  all: apply Forall_cons in F as [F1 F]; apply Forall_cons in F as [F2 F]; apply Forall_cons in F as [F3 F]; apply Forall_cons in F as [F4 _]; cbn [fst snd] in F1, F2, F3, F4; rewrite ?Z.add_0_r in *.
  - by rewrite <- Ex, <- Ey in F1.
  - by rewrite <- Ex, <- Ey in F3.
  - by rewrite <- Ex, <- Ey in F2.
  - by rewrite <- Ex, <- Ey in F4.
Qed.

Lemma scan_None k l rows : Forall (fun c => length (iso2 c) = 2%nat) rows ->
  (forall c, c ∈ rows -> iso2 c <> [k; l]) -> scan k l rows = None.
Proof.
  intros Hl Hn. induction Hl as [|c rows Hc _ IH]; [done|]. cbn [scan].
  destruct (_ && _) eqn:E; [|apply IH; intros d Hd; by apply Hn, list_elem_of_further].
  apply andb_true_iff in E as [E1%Z.eqb_eq E2%Z.eqb_eq]. destruct (Hn c ltac:(apply list_elem_of_here)).
  destruct (iso2 c) as [|a [|b [|]]]; try done. cbn in E1, E2. by subst.
Qed.

Lemma find_row_nowhere x y : isspace x = false -> isspace y = false ->
  (forall c, c ∈ kCentroids -> iso2 c <> map toupper [x; y]) ->
  find_row [x; y] = None.
Proof.
  intros Hx Hy Hn. unfold find_row, trim_by. cbn [drop_while]. rewrite Hx. cbn [rev app drop_while]. rewrite Hy. cbn [rev app].
  apply scan_None; [apply (bool_decide_unpack _); vm_compute; exact I|exact Hn].
Qed.

End CountryCentroids.
