(* ===== verification/Catalogue.v ===== *)
(** * Catalogue: the daemon's two plain-HTTP fetchers

    src/server/VPNGateFetcher.cpp (module [VPNGateFetcher]) and
    src/server/GeoLookup.cpp (module [GeoLookup]).  Both run on a thread of
    their own, do one HTTP/1.0 request and post one message.  What the socket
    calls answer is an argument; the calls the two files share are in module
    [Http].  A read or a write that nothing answers any more is the socket's
    own timeout. *)

From S2P Require Import Prelude CLib Json Message Profiles Centroids.
Import Message VPNProtocol.
Open Scope Z_scope.

(** ** The socket calls *)

Module Http.

(** What one recv answers; [Got b] has at least one byte. *)
Inductive recv := Got (b : bytes) | Closed | Interrupted | WouldBlock | Broken.

Record net := mkNet {
  n_ipv4 : bool;          (* gethostbyname finds an IPv4 record *)
  n_socket : bool; n_connect : bool;
  n_sends : list Z;       (* what the sends answer *)
  n_recvs : list recv }.

(** The send loop: what it leaves on the wire, and whether all of it went. *)
Fixpoint send_all (answers : list Z) (req : bytes) : bool * bytes :=
  if zlen req =? 0 then (true, [])
  else
    match answers with
    | [] => (false, [])
    | sent :: answers =>
        if sent <=? 0 then (false, [])
        else let '(ok, wire) := send_all answers (zdrop sent req) in (ok, ztake sent req ++ wire)
    end.

(** The recv loop: the response when the peer closes, or how it failed.
    BString::Append stops at a NUL of the chunk. *)
Fixpoint recv_all (answers : list recv) (response : bytes) : recv + bytes :=
  match answers with
  | [] | WouldBlock :: _ => inl WouldBlock
  | Got b :: answers => recv_all answers (response ++ cstr b)
  | Closed :: _ => inr response
  | Interrupted :: answers => recv_all answers response
  | Broken :: _ => inl Broken
  end.

Definition crlf : bytes := [13; 10].
Definition blank_line : bytes := crlf ++ crlf.

Definition request (path host accept : bytes) : bytes :=
  bs "GET " ++ path ++ bs " HTTP/1.0" ++ crlf ++ bs "Host: " ++ host ++ crlf
  ++ bs "User-Agent: Sotoportego" ++ crlf ++ bs "Accept: " ++ accept ++ crlf ++ bs "Connection: close" ++ blank_line.

(** What follows the header. *)
Definition body_of (response : bytes) : option bytes :=
  (fun i => zdrop (i + 4) response) <$> find_sub blank_line response.

(** *** Facts *)

(** Data that arrives in any number of pieces, with interruptions between them. *)
Definition pieces (answers : list recv) : bytes :=
  concat (map (fun r => match r with Got b => b | _ => [] end) answers).

Definition flowing (answers : list recv) : Prop :=
  Forall (fun r => match r with Got _ | Interrupted => True | _ => False end) answers.

Definition text (l : bytes) : Prop := Forall (fun c => c <> 0) l.

Lemma recv_all_pieces answers response :
  flowing answers -> text (pieces answers) -> recv_all (answers ++ [Closed]) response = inr (response ++ pieces answers).
Proof.
  unfold pieces, text, flowing. revert response. induction answers as [|a answers IH]; intros response Hf Ht.
  - cbn. by rewrite app_nil_r.
  - apply Forall_cons in Hf as [Ha Hf]. destruct a; try done; cbn [app recv_all map concat] in *.
    + apply Forall_app in Ht as [Hb Ht]. rewrite IH by done. by rewrite cstr_text, <- app_assoc by done.
    + by rewrite IH.
Qed.

(** A response is taken only when the peer closed the connection. *)
Lemma recv_all_closed answers response r : recv_all answers response = inr r -> Closed ∈ answers.
Proof.
  revert response. induction answers as [|a answers IH]; intros response; cbn [recv_all]; [done|].
  destruct a; try done; intros E; (apply list_elem_of_here || (apply list_elem_of_further; by eapply IH)).
Qed.

Lemma send_all_wire answers req wire : send_all answers req = (true, wire) -> wire = req.
Proof.
  revert req wire. induction answers as [|n answers IH]; intros req wire; cbn [send_all];
    (destruct (Z.eqb_spec (zlen req) 0) as [E|]; [intros [= <-]; by rewrite (zlen_0_nil req)|]); [done|].
  destruct (n <=? 0); [done|]. destruct (send_all answers (zdrop n req)) as [ok w] eqn:Ew.
  intros [= -> <-]. by rewrite (IH _ _ Ew), ztake_zdrop.
Qed.

Lemma is_prefix_extend p l k :
  (length p <= length l)%nat -> is_prefix p (l ++ k) = is_prefix p l.
Proof.
  intros Hl. rewrite <- (take_app_length l k) at 2. rewrite is_prefix_take, bool_decide_true by done.
  by rewrite andb_true_r.
Qed.

(** Text after the first occurrence does not move it. *)
Lemma find_sub_extend p l k i : p <> [] -> find_sub p l = Some i -> find_sub p (l ++ k) = Some i.
Proof.
  intros Hp. revert i. induction l as [|x l IH]; intros i Hi.
  - destruct p; done.
  - destruct (find_sub_take p (x :: l) i (length (x :: l)) Hp Hi) as (? & Hle & _).
    cbn [app find_sub] in *. change (x :: l ++ k) with ((x :: l) ++ k).
    rewrite is_prefix_extend by (unfold zlen in Hle; lia).
    destruct (is_prefix p (x :: l)); [done|]. destruct (find_sub p l) as [j|]; [|done]. by rewrite (IH j).
Qed.

(** [header] ends before the first blank line of the response. *)
Definition header_ok (header : bytes) : Prop := find_sub blank_line (header ++ blank_line) = Some (zlen header).

Lemma body_of_text header body : header_ok header -> body_of (header ++ blank_line ++ body) = Some body.
Proof.
  intros Hh. unfold body_of. rewrite app_assoc, (find_sub_extend blank_line _ body _ ltac:(discriminate) Hh). cbn. f_equal.
  apply zdrop_app. by rewrite zlen_app.
Qed.

End Http.

(** ** The VPNGate catalogue *)

Module VPNGateFetcher.
Import Http.

Definition kHost : bytes := bs "www.vpngate.net".
Definition kPath : bytes := bs "/api/iphone/".

Definition kColHostName : nat := 0.
Definition kColIP : nat := 1.
Definition kColScore : nat := 2.
Definition kColPing : nat := 3.
Definition kColSpeed : nat := 4.
Definition kColCountryLong : nat := 5.
Definition kColCountryShort : nat := 6.
Definition kColSessions : nat := 7.
Definition kColLogType : nat := 11.
Definition kColConfigData : nat := 14.
Definition kColExpected : nat := 15.

(** The body, or the error text. *)
Definition http_get (n : net) : bytes + bytes :=
  if negb (n_ipv4 n) then inl (bs "DNS lookup failed for " ++ kHost)
  else if negb (n_socket n) then inl (bs "Could not create socket")
  else if negb (n_connect n) then inl (bs "Connect to vpngate.net failed")
  else if negb (fst (send_all (n_sends n) (request kPath kHost (bs "text/csv, */*")))) then inl (bs "Send failed")
  else
    match recv_all (n_recvs n) [] with
    | inl WouldBlock => inl (bs "Timed out reading response from vpngate.net")
    | inl _ => inl (bs "Read error while fetching from vpngate.net")
    | inr response =>
        match body_of response with
        | None => inl (bs "Malformed HTTP response")
        | Some body => inr body
        end
    end.

(** The loop of split_csv_line: [piece] is the text from [start] to [i]. *)
Fixpoint split_from (sep : Z) (piece l : bytes) : list bytes :=
  match l with
  | [] => [piece]
  | c :: l => if c =? sep then piece :: split_from sep [] l else split_from sep (piece ++ [c]) l
  end.

Definition split_csv_line (line : bytes) : list bytes := split_from 44 [] line.

Definition trailing (c : Z) : bool := (c =? 13) || (c =? 32) || (c =? 9).
Definition strip (line : bytes) : bytes := rev (drop_while trailing (rev line)).

Definition visited (line : bytes) : bool :=
  negb (zlen line =? 0) && negb ((at_ line 0 =? 42) || (at_ line 0 =? 35)).

(** The lines for_each_csv_line visits, in order. *)
Definition csv_lines (body : bytes) : list bytes :=
  List.filter visited (map strip (split_from 10 [] body)).

Definition field_or_empty (fields : list bytes) (index : nat) : bytes := default [] (fields !! index).

Definition int_field (fields : list bytes) (index : nat) : Z := fst (strtol (field_or_empty fields index)).

(** The fields of an entry, in the order they are added. *)
Definition entry_message (host ip ccShort ccLong : bytes) (score ping speedMbps sessions : Z) (logPolicy : bytes)
    (lat lon : float) (config : bytes) : message :=
  let entry := add kFieldVPNGateHost (VString host) (BMessage 0) in
  let entry := if zlen ip >? 0 then add kFieldVPNGateIP (VString ip) entry else entry in
  let entry := add kFieldVPNGateCountryShort (VString ccShort) entry in
  let entry := add kFieldVPNGateCountryLong (VString ccLong) entry in
  let entry := add kFieldVPNGateScore (VInt32 score) entry in
  let entry := add kFieldVPNGatePing (VInt32 ping) entry in
  let entry := add kFieldVPNGateSpeedMbps (VInt32 speedMbps) entry in
  let entry := add kFieldVPNGateSessions (VInt32 sessions) entry in
  let entry := add kFieldVPNGateLogPolicy (VString logPolicy) entry in
  let entry := add kFieldVPNGateLatitude (VFloat lat) entry in
  let entry := add kFieldVPNGateLongitude (VFloat lon) entry in
  add kFieldVPNGateConfigBase64 (VString config) entry.

(** The entry of one row, the speed from bits to megabits per second; [None] is a row that is left out. *)
Definition entry_of (fields : list bytes) : option message :=
  if (length fields <? kColExpected)%nat then None
  else
    let host := field_or_empty fields kColHostName in
    let ip := field_or_empty fields kColIP in
    let ccLong := field_or_empty fields kColCountryLong in
    let ccShort := field_or_empty fields kColCountryShort in
    let config := field_or_empty fields kColConfigData in
    if (zlen host =? 0) || (zlen config =? 0) then None
    else
      match CountryCentroids.Lookup ccShort with
      | None => None
      | Some (lat, lon) =>
          Some (entry_message host ip ccShort ccLong (s32 (int_field fields kColScore)) (s32 (int_field fields kColPing))
                  (s32 (Z.quot (int_field fields kColSpeed) (1000 * 1000))) (s32 (int_field fields kColSessions))
                  (field_or_empty fields kColLogType) lat lon config)
      end.

Record visit_state := mkVisit { result : message; servers : Z; skippedHeader : bool }.

(** The visitor of fetch_thread. *)
Definition visit (s : visit_state) (line : bytes) : visit_state :=
  let fields := split_csv_line line in
  if negb (skippedHeader s) && (0 <? length fields)%nat && beq (field_or_empty fields 0) (bs "HostName")
  then mkVisit (result s) (servers s) true
  else
    match entry_of fields with
    | None => s
    | Some entry => mkVisit (add kFieldVPNGateServer (nested entry) (result s)) (servers s + 1) (skippedHeader s)
    end.

(** The one message the thread posts. *)
Definition fetch_thread (what : Z) (n : net) : message :=
  let empty := bs "Empty response from vpngate.net" in
  match http_get n with
  | inl error => add kFieldError (VString (if zlen error =? 0 then empty else error)) (BMessage what)
  | inr body =>
      if zlen body =? 0 then add kFieldError (VString empty) (BMessage what)
      else
        let s := fold_left visit (csv_lines body) (mkVisit (BMessage what) 0 false) in
        if servers s =? 0
        then add kFieldError (VString (bs "vpngate.net response had no usable servers")) (result s)
        else result s
  end.

(** What the call leads to: the message, if the target is valid and the thread starts. *)
Definition BackgroundFetch (target : messenger) (what : Z) (spawned : bool) (n : net) : option message :=
  if negb (IsValid target) then None else if negb spawned then None else Some (fetch_thread what n).

End VPNGateFetcher.

(** ** Where the session appears to be *)

Module GeoLookup.
Import Http.

Definition kFieldCountry : string := "soto:geo:country".
Definition kFieldQueryIP : string := "soto:geo:queryIP".
Definition kFieldLatitude : string := "soto:geo:lat".
Definition kFieldLongitude : string := "soto:geo:lon".
Definition kHost : bytes := bs "ip-api.com".
Definition kPath : bytes := bs "/json?fields=country,query,lat,lon".

Definition Trim (l : bytes) : bytes := trim_by isspace isspace l.

(** The body, empty on every failure. *)
Definition http_get (n : net) : bytes :=
  if negb (n_ipv4 n) then []
  else if negb (n_socket n) then []
  else if negb (n_connect n) then []
  else if negb (fst (send_all (n_sends n) (request kPath kHost (bs "text/plain")))) then []
  else
    match recv_all (n_recvs n) [] with
    | inl _ => []
    | inr response =>
        match body_of response with
        | None => []
        | Some body =>
            let body := Trim body in
            if (zlen body =? 0) || (at_ body 0 =? 60) then [] else body
        end
    end.

(** The first position from [from] holding one of [stops]. *)
Fixpoint find_stop (stops l : bytes) : option Z :=
  match l with
  | [] => None
  | c :: l => if existsb (Z.eqb c) stops then Some 0 else (fun i => i + 1) <$> find_stop stops l
  end.

Definition find_value_end (body : bytes) (from : Z) (stops : bytes) : option Z :=
  (fun i => from + i) <$> find_stop stops (zdrop from body).

(** A value that starts after [needle] and ends before one of [stops]. *)
Definition value_after (body needle stops : bytes) : option bytes :=
  start ← find_sub needle body;
  let start := start + zlen needle in
  end_ ← find_value_end body start stops;
  Some (slice start (end_ - start) body).

Definition json_string (body key : bytes) : bytes :=
  default [] (value_after body (34 :: key ++ [34; 58; 34]) [34]).

(** atof of a decimal number (JSON has no other spelling). *)
Definition json_number (body key : bytes) : option float :=
  v ← value_after body (34 :: key ++ [34; 58]) (bs ",}");
  Some (Single.to_float (Json.strtod (Trim v))).

Definition lookup_thread (what : Z) (n : net) : message :=
  let body := http_get n in
  let result := BMessage what in
  if zlen body >? 0 then
    let country := json_string body (bs "country") in
    let result := if zlen country >? 0 then add kFieldCountry (VString country) result else result in
    let query := json_string body (bs "query") in
    let result := if zlen query >? 0 then add kFieldQueryIP (VString query) result else result in
    match json_number body (bs "lat"), json_number body (bs "lon") with
    | Some lat, Some lon =>
        if negb (feq lat fzero && feq lon fzero)
        then add kFieldLongitude (VFloat lon) (add kFieldLatitude (VFloat lat) result) else result
    | _, _ => result
    end
  else result.

Definition BackgroundLookup (target : messenger) (what : Z) (spawned : bool) (n : net) : option message :=
  if negb (IsValid target) then None else if negb spawned then None else Some (lookup_thread what n).

Definition reply (body : bytes) : net :=
  mkNet true true true [1000] [Got (bs "HTTP/1.0 200 OK" ++ blank_line ++ firstn 20 body); Interrupted; Got (skipn 20 body); Closed].

Definition q (s : string) : bytes := 34 :: bs s ++ [34].

Example located :
  lookup_thread 7 (reply (bs "{" ++ q "query" ++ bs ":" ++ q "203.0.113.9" ++ bs "," ++ q "country" ++ bs ":" ++ q "Italy"
                          ++ bs "," ++ q "lat" ++ bs ":45.5," ++ q "lon" ++ bs ":0}"))
  = mkMessage 7 [(kFieldCountry, VString (bs "Italy")); (kFieldQueryIP, VString (bs "203.0.113.9"));
                 (kFieldLatitude, VFloat (Json.Finite 11927552 (-18))); (kFieldLongitude, VFloat (Json.Finite 0 0))].
Proof. vm_compute. reflexivity. Qed.

Example null_island :
  fields (lookup_thread 7 (reply (bs "{" ++ q "lat" ++ bs ":0," ++ q "lon" ++ bs ":0.0}"))) = [].
Proof. vm_compute. reflexivity. Qed.

End GeoLookup.
