(* ===== verification/MapWindow.v ===== *)
(** * MapWindow: the server map

    The parts of src/gui/MapView.{h,cpp}, MetricPill.{h,cpp} and
    VPNMapWindow.{h,cpp} that keep or pick data: the pins, their clusters, the
    selection, the catalogue of configurations and the messages sent to the
    daemon.  A ServerPin pointer is an index of [fPins], which only
    ClearServers shortens.  Where a pin falls on the screen is floating-point
    code and left abstract: [pixel] is its rounded position, [near] its
    distance from the mouse.  Drawing and layout are left out. *)

From stdpp Require Import gmap.
From S2P Require Import Prelude CLib Json Message Profiles Centroids.
Import Message VPNProtocol VPNState.
Open Scope Z_scope.

(** ** The pins *)

Module MapView.

Record ServerPin := mkPin {
  host : bytes; countryShort : bytes; countryLong : bytes; logPolicy : bytes;
  latitude : float; longitude : float;
  score : Z; pingMs : Z; speedMbps : Z; sessions : Z; selected : bool }.

Definition ServerPin0 : ServerPin := mkPin [] [] [] [] fzero fzero 0 0 0 0 false.

Definition with_selected (b : bool) (p : ServerPin) : ServerPin :=
  mkPin (host p) (countryShort p) (countryLong p) (logPolicy p) (latitude p) (longitude p)
    (score p) (pingMs p) (speedMbps p) (sessions p) b.

Record view := mkView {
  fPins : list ServerPin; fSelectedPin : option nat; fHoverPin : option nat;
  fHasSelfPosition : bool; fSelfLat : float; fSelfLon : float; fSelfLabel : bytes;
  fActiveHost : bytes; fCenterLat : float; fCenterLon : float }.

Definition with_pins (ps : list ServerPin) (sel hov : option nat) (v : view) : view :=
  mkView ps sel hov (fHasSelfPosition v) (fSelfLat v) (fSelfLon v) (fSelfLabel v) (fActiveHost v) (fCenterLat v) (fCenterLon v).

Definition with_center (lat lon : float) (v : view) : view :=
  mkView (fPins v) (fSelectedPin v) (fHoverPin v) (fHasSelfPosition v) (fSelfLat v) (fSelfLon v) (fSelfLabel v)
    (fActiveHost v) lat lon.

(** The pin replaced, if its host is known. *)
Fixpoint replace_pin (pin : ServerPin) (l : list ServerPin) : option (list ServerPin) :=
  match l with
  | [] => None
  | p :: l =>
      if beq (host p) (host pin) then Some (with_selected (selected p) pin :: l)
      else (fun l => p :: l) <$> replace_pin pin l
  end.

Definition AddServer (pin : ServerPin) (v : view) : view :=
  match replace_pin pin (fPins v) with
  | Some ps => with_pins ps (fSelectedPin v) (fHoverPin v) v
  | None => with_pins (fPins v ++ [with_selected false pin]) (fSelectedPin v) (fHoverPin v) v
  end.

Definition ClearServers (v : view) : view := with_pins [] None None v.

(** The loop of SetSelectedHost from index [i]: the pins and fSelectedPin after it. *)
Fixpoint select_host (h : bytes) (i : nat) (sel : option nat) (l : list ServerPin) : list ServerPin * option nat :=
  match l with
  | [] => ([], sel)
  | p :: l =>
      let p := if bool_decide (sel = Some i) then with_selected false p else p in
      let '(p, sel) := if beq (host p) h then (with_selected true p, Some i) else (p, sel) in
      let '(l, sel) := select_host h (S i) sel l in (p :: l, sel)
  end.

Definition SetSelectedHost (h : bytes) (v : view) : view :=
  let '(ps, sel) := select_host h 0 (fSelectedPin v) (fPins v) in with_pins ps sel (fHoverPin v) v.

Definition SelectedServer (v : view) : option ServerPin := i ← fSelectedPin v; fPins v !! i.

Definition _FindPinByHost (h : bytes) (v : view) : option ServerPin :=
  if zlen h =? 0 then None else List.find (fun p => beq (host p) h) (fPins v).

Definition SetSelfPosition (lat lon : float) (label : bytes) (v : view) : view :=
  let firstTime := negb (fHasSelfPosition v) in
  mkView (fPins v) (fSelectedPin v) (fHoverPin v) true lat lon label (fActiveHost v)
    (if firstTime then lat else fCenterLat v) (if firstTime then lon else fCenterLon v).

Definition ClearSelf (v : view) : view :=
  mkView (fPins v) (fSelectedPin v) (fHoverPin v) false (fSelfLat v) (fSelfLon v) [] (fActiveHost v) (fCenterLat v) (fCenterLon v).

Definition SetActiveHost (h : bytes) (v : view) : view :=
  mkView (fPins v) (fSelectedPin v) (fHoverPin v) (fHasSelfPosition v) (fSelfLat v) (fSelfLon v) (fSelfLabel v) h
    (fCenterLat v) (fCenterLon v).

Definition CenterOnSelf (v : view) : view :=
  if fHasSelfPosition v then with_center (fSelfLat v) (fSelfLon v) v else v.

(** *** Clusters *)

Definition kMsgServerSelected : Z := fourcc "mvSs".
Definition kMsgClusterSelected : Z := fourcc "mvSc".
Definition kFieldHost : string := "soto:map:host".
Definition kClusterHost : string := "soto:map:cluster:host".
Definition kClusterCountryShort : string := "soto:map:cluster:countryShort".
Definition kClusterCountryLong : string := "soto:map:cluster:countryLong".
Definition kClusterLogPolicy : string := "soto:map:cluster:logPolicy".
Definition kClusterPing : string := "soto:map:cluster:pingMs".
Definition kClusterScore : string := "soto:map:cluster:score".
Definition kClusterSessions : string := "soto:map:cluster:sessions".

Section OnScreen.
Context (pixel : ServerPin -> Z * Z).

Definition same_pixel (p q : ServerPin) : bool := bool_decide (pixel p = pixel q).

Definition pin_at (ps : list ServerPin) (i : nat) : ServerPin := default ServerPin0 (ps !! i).

Record Cluster := mkCluster { pos : Z * Z; repIndex : nat; count : Z; c_selected : bool; c_hover : bool }.

(** One pin joins the first cluster of its pixel, or starts one. *)
Fixpoint join_cluster (ps : list ServerPin) (hov : option nat) (i : nat) (pin : ServerPin) (l : list Cluster) : list Cluster :=
  match l with
  | [] => [mkCluster (pixel pin) i 1 (selected pin) (bool_decide (hov = Some i))]
  | c :: l =>
      if bool_decide (pos c = pixel pin) then
        mkCluster (pos c) (if score pin >? score (pin_at ps (repIndex c)) then i else repIndex c) (count c + 1)
          (c_selected c || selected pin) (c_hover c || bool_decide (hov = Some i)) :: l
      else c :: join_cluster ps hov i pin l
  end.

(** The clusters _DrawPins draws, each at its representative. *)
Definition _DrawPins (v : view) : list Cluster :=
  fold_left (fun l i => join_cluster (fPins v) (fHoverPin v) i (pin_at (fPins v) i) l) (seq 0 (length (fPins v))) [].

(** The pin nearest to the mouse within the radius, from the last to the first:
    [near i] is its distance when it is within the radius. *)
Definition nearest (near : ServerPin -> option Z) (ps : list ServerPin) : option nat :=
  fst (fold_left (fun acc i =>
    match near (pin_at ps i), snd acc with
    | Some d, Some m => if d <=? m then (Some i, Some d) else acc
    | Some d, None => (Some i, Some d)
    | None, _ => acc
    end) (rev (seq 0 (length ps))) (None, None)).

(** The pin of a pixel with the highest score, the first among equals. *)
Definition representative (at_pixel : Z * Z) (ps : list ServerPin) : option nat :=
  fold_left (fun rep i =>
    if bool_decide (pixel (pin_at ps i) = at_pixel) then
      match rep with
      | None => Some i
      | Some r => if score (pin_at ps i) >? score (pin_at ps r) then Some i else rep
      end
    else rep) (seq 0 (length ps)) None.

Definition _FindPinAt (near : ServerPin -> option Z) (v : view) : option nat :=
  match nearest near (fPins v) with
  | None => None
  | Some n => representative (pixel (pin_at (fPins v) n)) (fPins v)
  end.

Definition _CollectClusterMembers (rep : nat) (v : view) : list ServerPin :=
  List.filter (fun p => bool_decide (pixel p = pixel (pin_at (fPins v) rep))) (fPins v).

Definition set_selected (b : bool) (i : nat) (ps : list ServerPin) : list ServerPin :=
  match ps !! i with Some p => <[i := with_selected b p]> ps | None => ps end.

Definition cluster_message (rep : ServerPin) (members : list ServerPin) : message :=
  fold_left (fun out m =>
    add kClusterSessions (VInt32 (sessions m))
      (add kClusterScore (VInt32 (score m))
        (add kClusterPing (VInt32 (pingMs m))
          (add kClusterLogPolicy (VString (logPolicy m))
            (add kClusterCountryLong (VString (countryLong m))
              (add kClusterCountryShort (VString (countryShort m))
                (add kClusterHost (VString (host m)) out)))))))
    members (add kFieldHost (VString (host rep)) (BMessage kMsgClusterSelected)).

(** A click of the primary button, and what is posted to the window. *)
Definition MouseDown (near : ServerPin -> option Z) (clicks : Z) (v : view) : view * list message :=
  match _FindPinAt near v with
  | None => (v, [])
  | Some i =>
      let pin := pin_at (fPins v) i in
      if clicks =? 2 then (with_center (latitude pin) (longitude pin) v, [])
      else
        let ps := match fSelectedPin v with Some s => set_selected false s (fPins v) | None => fPins v end in
        let v := with_pins (set_selected true i ps) (Some i) (fHoverPin v) v in
        let out := add kFieldHost (VString (host pin)) (BMessage kMsgServerSelected) in
        let members := _CollectClusterMembers i v in
        (v, out :: (if zlen members >? 1 then [cluster_message pin members] else []))
  end.

End OnScreen.
End MapView.

(** ** The coloured values of the side panel *)

Module MetricPill.

Inductive Tier := kTierGood | kTierOkay | kTierBad | kTierUnknown.

Definition dash : bytes := [226; 128; 148].

(** SetMetric: the text and the tier shown. *)
Definition SetMetric (text : bytes) (tier : Tier) : bytes * Tier :=
  if zlen text =? 0 then (dash, kTierUnknown) else (text, tier).

Definition TierForPing (ms : Z) : Tier :=
  if ms <=? 0 then kTierUnknown else if ms <? 50 then kTierGood else if ms <? 150 then kTierOkay else kTierBad.
Definition TierForScore (score : Z) : Tier :=
  if score <=? 0 then kTierUnknown else if score >=? 100000 then kTierGood else if score >=? 30000 then kTierOkay else kTierBad.
Definition TierForSessions (sessions : Z) : Tier :=
  if sessions <? 0 then kTierUnknown else if sessions <=? 30 then kTierGood else if sessions <=? 100 then kTierOkay else kTierBad.

End MetricPill.

(** ** The window *)

Module VPNMapWindow.
Import MapView MetricPill.

Record panel := mkPanel {
  fHostValue : bytes; fCountryValue : bytes; fPingValue : bytes * Tier; fScoreValue : bytes * Tier;
  fSessionsValue : bytes * Tier; fLogPolicyValue : bytes; fConnectButton : bool }.

Record window := mkWindow {
  fMap : view; fOvpnByHost : gmap bytes bytes; fServer : bool;
  fStatusBar : bytes; side : panel; fClusterList : list (bytes * Z * Z); clusterShown : bool }.

Definition with_map (v : view) (w : window) : window :=
  mkWindow v (fOvpnByHost w) (fServer w) (fStatusBar w) (side w) (fClusterList w) (clusterShown w).
Definition with_status (t : bytes) (w : window) : window :=
  mkWindow (fMap w) (fOvpnByHost w) (fServer w) t (side w) (fClusterList w) (clusterShown w).

Definition B_UTF8_ELLIPSIS : bytes := [226; 128; 166].

Definition _HideCluster (w : window) : window :=
  mkWindow (fMap w) (fOvpnByHost w) (fServer w) (fStatusBar w) (side w) [] false.

(** What the panel shows of the selection. *)
Definition panel_of (picked : option ServerPin) : panel :=
  match picked with
  | None => mkPanel dash dash (SetMetric [] kTierUnknown) (SetMetric [] kTierUnknown) (SetMetric [] kTierUnknown) dash false
  | Some p =>
      mkPanel (host p)
        (countryLong p ++ if zlen (countryShort p) >? 0 then bs " (" ++ countryShort p ++ bs ")" else [])
        (SetMetric (fmt_d (pingMs p) ++ bs " ms") (TierForPing (pingMs p)))
        (SetMetric (fmt_d (score p)) (TierForScore (score p)))
        (SetMetric (fmt_d (sessions p)) (TierForSessions (sessions p)))
        (if zlen (logPolicy p) >? 0 then logPolicy p else dash) true
  end.

Definition _RefreshSidePanel (w : window) : window :=
  mkWindow (fMap w) (fOvpnByHost w) (fServer w) (fStatusBar w) (panel_of (SelectedServer (fMap w))) (fClusterList w) (clusterShown w).

(** [launched] is what _EnsureDaemon finds after its attempts; the result is the request sent. *)
Definition _RequestCatalogue (self : messenger) (launched force : bool) (w : window) : window * option message :=
  let valid := fServer w || launched in
  let w := mkWindow (fMap w) (fOvpnByHost w) valid (fStatusBar w) (side w) (fClusterList w) (clusterShown w) in
  if negb valid then (with_status (bs "Daemon not reachable. Start sotoportego_server.") w, None)
  else
    let req := add kFieldClient (VMessenger self) (BMessage kMsgRequestVPNGate) in
    let req := if force then add "force" (VBool true) req else req in
    (with_status ((if force then bs "Refreshing server catalogue" else bs "Fetching server catalogue from vpngate.net")
                  ++ B_UTF8_ELLIPSIS) w, Some req).

(** The pin of one entry; [None] is an entry without a host. *)
Definition pin_of (entry : message) : option ServerPin :=
  match FindString kFieldVPNGateHost entry with
  | None | Some [] => None
  | Some h =>
      Some (mkPin h (default [] (FindString kFieldVPNGateCountryShort entry))
        (default [] (FindString kFieldVPNGateCountryLong entry)) (default [] (FindString kFieldVPNGateLogPolicy entry))
        (default fzero (FindFloat kFieldVPNGateLatitude entry)) (default fzero (FindFloat kFieldVPNGateLongitude entry))
        (default 0 (FindInt32 kFieldVPNGateScore entry)) (default 0 (FindInt32 kFieldVPNGatePing entry))
        (default 0 (FindInt32 kFieldVPNGateSpeedMbps entry)) (default 0 (FindInt32 kFieldVPNGateSessions entry)) false)
  end.

(** One entry of the catalogue: the map, the configurations and the count. *)
Definition apply_entry (acc : view * gmap bytes bytes * Z) (entry : message) : view * gmap bytes bytes * Z :=
  let '(v, ovpns, count) := acc in
  match pin_of entry with
  | None => acc
  | Some pin =>
      (AddServer pin v,
       match FindString kFieldVPNGateConfigBase64 entry with Some ovpn => <[host pin := ovpn]> ovpns | None => ovpns end,
       count + 1)
  end.

Definition _ApplyCatalogue (m : message) (w : window) : window :=
  let error := FindString kFieldError m in
  let anyServer := match FindMessage kFieldVPNGateServer m with Some _ => true | None => false end in
  match error, anyServer with
  | Some e, false => with_status (bs "Catalogue fetch failed: " ++ e) w
  | _, _ =>
      let w := _HideCluster w in
      let '(v, ovpns, count) := fold_left apply_entry (FindMessages kFieldVPNGateServer m) (ClearServers (fMap w), ∅, 0) in
      let w := mkWindow v ovpns (fServer w) (fStatusBar w) (side w) (fClusterList w) (clusterShown w) in
      let w := _RefreshSidePanel w in
      with_status (fmt_d count ++ bs " server" ++ (if count =? 1 then [] else bs "s") ++ bs " loaded"
        ++ match error with Some (c :: e) => bs " (partial: " ++ (c :: e) ++ bs ")" | _ => [] end) w
  end.

(** The connect request; [None] when nothing is sent. *)
Definition _SendConnectWith (self : messenger) (user pass : bytes) (w : window) : window * option message :=
  if negb (fServer w) then (w, None)
  else
    match SelectedServer (fMap w) with
    | None => (w, None)
    | Some picked =>
        match fOvpnByHost w !! host picked with
        | None => (w, None)
        | Some ovpn =>
            let connect := add kFieldClient (VMessenger self) (BMessage kMsgConnectVPNGate) in
            let connect := add kFieldVPNGateHost (VString (host picked)) connect in
            let connect := add kFieldVPNGateCountryLong (VString (countryLong picked)) connect in
            let connect := add kFieldVPNGateConfigBase64 (VString ovpn) connect in
            let connect := if zlen user >? 0 then add kFieldUsername (VString user) connect else connect in
            let connect := if zlen pass >? 0 then add kFieldPassword (VString pass) connect else connect in
            (with_status (bs "Connecting to " ++ host picked ++ B_UTF8_ELLIPSIS) w, Some connect)
        end
    end.

(** A status broadcast: where we are, and the host the arc points to. *)
Definition status_update (m : message) (v : view) : view :=
  let v := match FindFloat kFieldHomeLat m, FindFloat kFieldHomeLon m with
           | Some lat, Some lon => SetSelfPosition lat lon (default (bs "You are here") (FindString kFieldHomeCountry m)) v
           | _, _ => v
           end in
  let state := default VPN_STATE_DISCONNECTED (FindInt32 kFieldState m) in
  let isLive := negb (state =? VPN_STATE_DISCONNECTED) && negb (state =? VPN_STATE_ERROR) in
  match FindString kFieldConnectedHost m with
  | Some h => if isLive && negb (zlen h =? 0) then SetActiveHost h v else SetActiveHost [] v
  | None => SetActiveHost [] v
  end.

(** The rows of a cluster: until the first missing or empty host. *)
Fixpoint cluster_rows (hosts : list value) (i : nat) (m : message) : list (bytes * Z * Z) :=
  match hosts with
  | VString h :: hosts =>
      if zlen (cstr h) =? 0 then []
      else
        let at_index name := match values name m !! i with Some (VInt32 n) => n | _ => 0 end in
        (cstr h, at_index kClusterPing, at_index kClusterScore) :: cluster_rows hosts (S i) m
  | _ => []
  end.

Definition _ApplyCluster (m : message) (w : window) : window :=
  match cluster_rows (values kClusterHost m) 0 m with
  | [] => _HideCluster w
  | rows => mkWindow (fMap w) (fOvpnByHost w) (fServer w) (fStatusBar w) (side w) rows true
  end.

(** The row picked in the list, if any. *)
Definition _PickClusterRow (row : option bytes) (w : window) : window :=
  match row with
  | None => w
  | Some h => _RefreshSidePanel (with_map (SetSelectedHost h (fMap w)) w)
  end.

Definition kMsgRefresh : Z := fourcc "mwRf".
Definition kMsgCredentialsOK : Z := fourcc "mwCO".
Definition kMsgClusterRowInvoked : Z := fourcc "mwCR".

(** The looper: the window after a message, and the request it sends.  The
    camera messages only move the map; [row] is the row selected in the list. *)
Definition MessageReceived (self : messenger) (launched : bool) (row : option bytes) (m : message) (w : window)
    : window * option message :=
  let c := what m in
  if c =? kMsgServerSelected then (_HideCluster (_RefreshSidePanel w), None)
  else if c =? kMsgClusterSelected then (_ApplyCluster m w, None)
  else if c =? kMsgClusterRowInvoked then (_PickClusterRow row w, None)
  else if c =? kMsgRefresh then _RequestCatalogue self launched true w
  else if c =? kMsgVPNGateList then (_ApplyCatalogue m w, None)
  else if c =? kMsgStatusUpdate then (with_map (status_update m (fMap w)) w, None)
  else if c =? kMsgCredentialsOK then
    _SendConnectWith self (default [] (FindString kFieldUsername m)) (default [] (FindString kFieldPassword m)) w
  else (w, None).

End VPNMapWindow.

(** ** Facts *)

Module MapProofs.
Import MapView VPNMapWindow.

Section OnScreen.
Context (pixel : ServerPin -> Z * Z).

Abbreviation members := (fun ps px => List.filter (fun p => bool_decide (pixel p = px)) ps).

Definition draw_upto (ps : list ServerPin) (hov : option nat) (k : nat) : list Cluster :=
  fold_left (fun l i => join_cluster pixel ps hov i (pin_at ps i) l) (seq 0 k) [].

Definition rep_step (ps : list ServerPin) (px : Z * Z) (rep : option nat) (i : nat) : option nat :=
  if bool_decide (pixel (pin_at ps i) = px) then
    match rep with
    | None => Some i
    | Some r => if score (pin_at ps i) >? score (pin_at ps r) then Some i else rep
    end
  else rep.

Definition rep_upto (ps : list ServerPin) (px : Z * Z) (k : nat) : option nat := fold_left (rep_step ps px) (seq 0 k) None.

Lemma draw_S ps hov k : draw_upto ps hov (S k) = join_cluster pixel ps hov k (pin_at ps k) (draw_upto ps hov k).
Proof. unfold draw_upto. by rewrite seq_S, fold_left_app. Qed.

Lemma rep_S ps px k : rep_upto ps px (S k) = rep_step ps px (rep_upto ps px k) k.
Proof. unfold rep_upto. by rewrite seq_S, fold_left_app. Qed.

Lemma pin_at_lookup ps k p : ps !! k = Some p -> pin_at ps k = p.
Proof. unfold pin_at. by intros ->. Qed.

Lemma members_S ps px k p :
  ps !! k = Some p -> members (take (S k) ps) px = members (take k ps) px ++ (if bool_decide (pixel p = px) then [p] else []).
Proof. intros E. rewrite (take_S_r _ _ _ E), List.filter_app. cbn [List.filter]. by destruct (bool_decide _). Qed.

(** The representative of a pixel among the first [k] pins. *)
Definition best (ps : list ServerPin) (px : Z * Z) (k r : nat) : Prop :=
  (r < k)%nat /\ pixel (pin_at ps r) = px /\
  forall j, (j < k)%nat -> pixel (pin_at ps j) = px -> score (pin_at ps j) <= score (pin_at ps r).

Lemma rep_upto_spec ps px k :
  match rep_upto ps px k with
  | Some r => best ps px k r
  | None => forall j, (j < k)%nat -> pixel (pin_at ps j) <> px
  end.
Proof.
  induction k as [|k IH]; [intros j Hj; lia|]. rewrite rep_S. unfold rep_step. destruct (bool_decide_reflect (pixel (pin_at ps k) = px)) as [Hp|Hp].
  - destruct (rep_upto ps px k) as [r|].
    + destruct IH as (Hr & Hpr & Hb). rewrite Z.gtb_ltb. destruct (Z.ltb_spec (score (pin_at ps r)) (score (pin_at ps k))) as [Hs|Hs].
      * split_and!; [lia|done|]. intros j Hj Hpj. destruct (decide (j = k)) as [->|]; [lia|]. specialize (Hb j ltac:(lia) Hpj). lia.
      * split_and!; [lia|done|]. intros j Hj Hpj. destruct (decide (j = k)) as [->|]; [lia|]. by apply Hb; [lia|].
    + split_and!; [lia|done|]. intros j Hj Hpj. destruct (decide (j = k)) as [->|]; [lia|]. by destruct (IH j ltac:(lia)).
  - destruct (rep_upto ps px k) as [r|].
    + destruct IH as (Hr & Hpr & Hb). split_and!; [lia|done|]. intros j Hj Hpj.
      destruct (decide (j = k)) as [->|]; [done|]. by apply Hb; [lia|].
    + intros j Hj. destruct (decide (j = k)) as [->|]; [done|]. apply IH. lia.
Qed.

(** A cluster of the first [k] pins, as drawn. *)
Record drawn (ps : list ServerPin) (k : nat) (c : Cluster) : Prop := {
  dr_rep : rep_upto ps (pos c) k = Some (repIndex c);
  dr_count : count c = zlen (members (take k ps) (pos c));
  dr_sel : c_selected c = existsb selected (members (take k ps) (pos c)) }.

Definition joined (ps : list ServerPin) (hov : option nat) (i : nat) (pin : ServerPin) (c : Cluster) : Cluster :=
  mkCluster (pos c) (if score pin >? score (pin_at ps (repIndex c)) then i else repIndex c) (count c + 1)
    (c_selected c || selected pin) (c_hover c || bool_decide (hov = Some i)).

Lemma join_known ps hov i pin l1 c l2 :
  pos c = pixel pin -> pixel pin ∉ map pos l1 ->
  join_cluster pixel ps hov i pin (l1 ++ c :: l2) = l1 ++ joined ps hov i pin c :: l2.
Proof.
  intros Hc. induction l1 as [|d l1 IH]; cbn [app join_cluster map]; intros Hn.
  - by rewrite bool_decide_true.
  - apply not_elem_of_cons in Hn as [Hd Hn]. rewrite bool_decide_false by congruence. by rewrite IH.
Qed.

Lemma join_new ps hov i pin l :
  pixel pin ∉ map pos l ->
  join_cluster pixel ps hov i pin l = l ++ [mkCluster (pixel pin) i 1 (selected pin) (bool_decide (hov = Some i))].
Proof.
  induction l as [|d l IH]; cbn [app join_cluster map]; intros Hn; [done|].
  apply not_elem_of_cons in Hn as [Hd Hn]. rewrite bool_decide_false by congruence. by rewrite IH.
Qed.

(** A pin of another pixel leaves a cluster as it is. *)
Lemma drawn_other ps k p c : ps !! k = Some p -> pixel p <> pos c -> drawn ps k c -> drawn ps (S k) c.
Proof.
  intros E Hn [H1 H2 H3]. split.
  - rewrite rep_S. unfold rep_step. rewrite (pin_at_lookup _ _ _ E), bool_decide_false by done. done.
  - rewrite (members_S _ _ _ _ E), bool_decide_false by done. by rewrite app_nil_r.
  - rewrite (members_S _ _ _ _ E), bool_decide_false by done. by rewrite app_nil_r.
Qed.

Lemma drawn_joined ps hov k p c :
  ps !! k = Some p -> pixel p = pos c -> drawn ps k c -> drawn ps (S k) (joined ps hov k p c).
Proof.
  intros E Hp [H1 H2 H3]. split; cbn [pos repIndex count c_selected joined].
  - rewrite rep_S. unfold rep_step. rewrite (pin_at_lookup _ _ _ E), bool_decide_true, H1 by done. by destruct (_ >? _).
  - rewrite (members_S _ _ _ _ E), bool_decide_true by done. rewrite zlen_app. by rewrite <- H2.
  - rewrite (members_S _ _ _ _ E), bool_decide_true by done. rewrite existsb_app. cbn. by rewrite <- H3, orb_false_r.
Qed.

Lemma no_member ps px k :
  (k <= length ps)%nat -> (forall j, (j < k)%nat -> pixel (pin_at ps j) <> px) -> members (take k ps) px = [].
Proof.
  induction k as [|k IH]; intros Hk Hn; [done|].
  destruct (lookup_lt_is_Some_2 ps k ltac:(lia)) as [p E]. rewrite (members_S _ _ _ _ E), IH by (lia || (intros; apply Hn; lia)).
  rewrite bool_decide_false; [done|]. rewrite <- (pin_at_lookup _ _ _ E). apply Hn. lia.
Qed.

Lemma draw_upto_spec ps hov k :
  (k <= length ps)%nat ->
  NoDup (map pos (draw_upto ps hov k)) /\ Forall (drawn ps k) (draw_upto ps hov k)
  /\ (forall j, (j < k)%nat -> pixel (pin_at ps j) ∈ map pos (draw_upto ps hov k)).
Proof.
  induction k as [|k IH]; intros Hk; [split_and!; [constructor|constructor|intros; lia]|].
  destruct (IH ltac:(lia)) as (Hd & Hf & Hc). destruct (lookup_lt_is_Some_2 ps k ltac:(lia)) as [p E].
  rewrite draw_S, (pin_at_lookup _ _ _ E). destruct (decide (pixel p ∈ map pos (draw_upto ps hov k))) as [Hi|Hi].
  - apply list_elem_of_fmap in Hi as (c & Hp & Hin). apply list_elem_of_split in Hin as (l1 & l2 & El).
    rewrite El in *. rewrite map_app in Hd. cbn [map] in Hd. apply NoDup_app in Hd as (Hd1 & Hd12 & Hd2).
    apply NoDup_cons in Hd2 as [Hn2 Hd2].
    assert (Hn1 : pixel p ∉ map pos l1) by (intros H; apply (Hd12 _ H); rewrite Hp; apply list_elem_of_here).
    rewrite join_known by done. apply Forall_app in Hf as [Hf1 Hf2]. apply Forall_cons in Hf2 as [Hfc Hf2].
    assert (Ho : forall l, pixel p ∉ map pos l -> Forall (drawn ps k) l -> Forall (drawn ps (S k)) l).
    { intros l Hl. rewrite !Forall_forall. intros H d Hdl. apply (drawn_other _ _ _ _ E); [|by apply H].
      intros Hx. apply Hl. rewrite Hx. by apply list_elem_of_fmap_2. }
    split_and!.
    + rewrite map_app. cbn [map joined pos]. apply NoDup_app. split_and!; [done|done|by apply NoDup_cons].
    + apply Forall_app. split; [by apply Ho|]. apply Forall_cons. split; [by apply drawn_joined|]. apply Ho; [by rewrite Hp|done].
    + intros j Hj. rewrite map_app in *. cbn [map joined pos] in *. destruct (decide (j = k)) as [->|]; [|apply Hc; lia].
      rewrite (pin_at_lookup _ _ _ E), Hp. apply elem_of_app. right. apply list_elem_of_here.
  - rewrite join_new by done. split_and!.
    + rewrite map_app. cbn [map pos]. apply NoDup_app. split_and!; [done| |apply NoDup_singleton].
      intros x Hx ->%list_elem_of_singleton. done.
    + apply Forall_app. split.
      * rewrite !Forall_forall in *. intros d Hdl. apply (drawn_other _ _ _ _ E); [|by apply Hf].
        intros Hx. apply Hi. rewrite Hx. by apply list_elem_of_fmap_2.
      * apply Forall_singleton. assert (Hnj : forall j, (j < k)%nat -> pixel (pin_at ps j) <> pixel p).
        { intros j Hj Hx. apply Hi. rewrite <- Hx. by apply Hc. }
        assert (Em : members (take (S k) ps) (pixel p) = [p]).
        { rewrite (members_S _ _ _ _ E), no_member, bool_decide_true by (done || lia). done. }
        split; cbn [pos repIndex count c_selected]; [|by rewrite Em|rewrite Em; cbn; by rewrite orb_false_r].
        rewrite rep_S. unfold rep_step. rewrite (pin_at_lookup _ _ _ E), bool_decide_true by done.
        pose proof (rep_upto_spec ps (pixel p) k) as Hr. destruct (rep_upto ps (pixel p) k) as [r|]; [|done].
        destruct Hr as (Hr & Hpr & _). by destruct (Hnj r Hr).
    + intros j Hj. rewrite map_app. apply elem_of_app. destruct (decide (j = k)) as [->|]; [right|left; apply Hc; lia].
      rewrite (pin_at_lookup _ _ _ E). apply list_elem_of_here.
Qed.

(** C30: a click, the badge it lands on and the drill-down list agree.  The pins of the map are drawn as one badge per screen position; the pin a click selects is the one that carries the badge drawn there, no pin of that position has a higher score, the number on the badge is the length of the list the cluster opens, and the badge is highlighted when any of them is selected. *)
Theorem click_badge_list_agree near v i :
  _FindPinAt pixel near v = Some i ->
  let badges := _DrawPins pixel v in
  let list := _CollectClusterMembers pixel i v in
  NoDup (map pos badges) /\ (forall p, p ∈ fPins v -> pixel p ∈ map pos badges) /\
  exists c, c ∈ badges /\ repIndex c = i /\ count c = zlen list /\ c_selected c = existsb selected list
    /\ pin_at (fPins v) i ∈ list
    /\ (forall p, p ∈ list -> pixel p = pos c /\ score p <= score (pin_at (fPins v) i)).
Proof.
  intros Hi. cbv zeta. set (ps := fPins v) in *. set (n := length ps).
  destruct (draw_upto_spec ps (fHoverPin v) n ltac:(lia)) as (Hd & Hf & Hc). change (_DrawPins pixel v) with (draw_upto ps (fHoverPin v) n).
  split_and!; [done|intros p [j Hj]%list_elem_of_lookup; rewrite <- (pin_at_lookup _ _ _ Hj); apply Hc; by eapply lookup_lt_Some|].
  unfold _FindPinAt in Hi. destruct (nearest near (fPins v)) as [m|]; [|done]. fold ps in Hi. change (representative pixel ?px ps) with (rep_upto ps px n) in Hi.
  set (px := pixel (pin_at ps m)) in *. pose proof (rep_upto_spec ps px n) as Hr. rewrite Hi in Hr. destruct Hr as (Hin & Hpx & Hb).
  pose proof (Hc i Hin) as Hpos. rewrite Hpx in Hpos. apply list_elem_of_fmap in Hpos as (c & Hpc & Hcin).
  rewrite Forall_forall in Hf. destruct (Hf c Hcin) as [H1 H2 H3]. rewrite <- Hpc, Hi in H1. injection H1 as H1.
  unfold _CollectClusterMembers. fold ps. rewrite Hpx, Hpc. unfold n in H2, H3. rewrite take_ge in H2, H3 by done.
  exists c. split_and!; [done..| |].
  - apply list_elem_of_In, filter_In. split; [|apply bool_decide_eq_true; congruence].
    destruct (lookup_lt_is_Some_2 ps i Hin) as [q E]. rewrite (pin_at_lookup _ _ _ E). by apply list_elem_of_In, (list_elem_of_lookup_2 _ i).
  - intros p Hpl. apply list_elem_of_In, filter_In in Hpl as [Hpl Hp%bool_decide_eq_true].
    apply list_elem_of_In, list_elem_of_lookup in Hpl as [j Hj]. split; [done|].
    rewrite <- (pin_at_lookup _ _ _ Hj). apply Hb; [by eapply lookup_lt_Some|]. rewrite (pin_at_lookup _ _ _ Hj). congruence.
Qed.

End OnScreen.

(** *** Three servers of one country, and one elsewhere *)

Definition demo_pin (h : string) (lat s : Z) : ServerPin :=
  mkPin (bs h) [] [] [] (Json.Finite lat 0) fzero s 0 0 0 false.

Definition demo_view : view :=
  SetSelectedHost (bs "c") (fold_left (fun v p => AddServer p v)
    [demo_pin "a" 35 10; demo_pin "b" 38 7; demo_pin "c" 35 30; demo_pin "d" 35 30]
    (mkView [] None None false fzero fzero [] [] fzero fzero)).

Definition demo_pixel (p : ServerPin) : Z * Z := match latitude p with Json.Finite m _ => (m, 0) | _ => (0, 0) end.
Definition demo_near (p : ServerPin) : option Z := if beq (host p) (bs "a") then Some 3 else None.

Lemma click_badge_list_agree_witness :
  _FindPinAt demo_pixel demo_near demo_view = Some 2%nat /\
  exists c, c ∈ _DrawPins demo_pixel demo_view /\ repIndex c = 2%nat /\ count c = 3.
Proof.
  split; [vm_compute; reflexivity|].
  destruct (click_badge_list_agree demo_pixel demo_near demo_view 2 ltac:(vm_compute; reflexivity)) as (_ & _ & c & H1 & H2 & H3 & _).
  exists c. split; [exact H1|]. split; [exact H2|]. rewrite H3. vm_compute. reflexivity.
Defined.

(** SetSelectedHost clears the flag of the old selection only when the loop
    meets it before the new one: an earlier pin leaves two pins highlighted. *)
Example two_highlighted :
  map selected (fPins demo_view) = [false; false; true; false] /\
  map selected (fPins (SetSelectedHost (bs "a") demo_view)) = [true; false; true; false] /\
  map selected (fPins (SetSelectedHost (bs "d") demo_view)) = [false; false; false; true].
Proof. vm_compute. auto. Qed.

(** *** The catalogue on the map *)

Lemma replace_pin_None pin l : (forall p, p ∈ l -> host p <> host pin) -> replace_pin pin l = None.
Proof.
  induction l as [|p l IH]; intros Hn; cbn [replace_pin]; [done|].
  destruct (beq (host p) (host pin)) eqn:E.
  - apply beq_true in E. destruct (Hn p); [apply list_elem_of_here|done].
  - rewrite IH; [done|]. intros q Hq. apply Hn. by apply list_elem_of_further.
Qed.

(** Every entry has a host and a configuration, and no host comes twice. *)
Definition entry_host (e : message) : bytes := default [] (FindString kFieldVPNGateHost e).

Lemma pin_of_host e pin : pin_of e = Some pin -> host pin = entry_host e /\ selected pin = false.
Proof. unfold pin_of, entry_host. destruct (FindString _ e) as [[|c h]|]; [done| |done]. by intros [= <-]. Qed.

Lemma apply_entries es v ovpns n :
  NoDup (map entry_host es) -> Forall (fun e => entry_host e <> []) es ->
  Forall (fun e => is_Some (FindString kFieldVPNGateConfigBase64 e)) es ->
  (forall p e, p ∈ fPins v -> e ∈ es -> host p <> entry_host e) ->
  exists v' ovpns',
    fold_left apply_entry es (v, ovpns, n) = (v', ovpns', n + zlen es) /\
    fPins v' = fPins v ++ omap pin_of es /\
    (forall e, e ∈ es -> ovpns' !! entry_host e = FindString kFieldVPNGateConfigBase64 e) /\
    (forall h, h ∉ map entry_host es -> ovpns' !! h = ovpns !! h).
Proof.
  revert v ovpns n. induction es as [|e es IH]; intros v ovpns n Hd Hh Hc Hf.
  - exists v, ovpns. cbn. rewrite app_nil_r, Z.add_0_r. split_and!; [done..|intros e He; by apply elem_of_nil in He|done].
  - cbn [map] in Hd. apply NoDup_cons in Hd as [Hn Hd]. apply Forall_cons in Hh as [He Hh]. apply Forall_cons in Hc as [[c Ec] Hc].
    cbn [fold_left apply_entry omap list_omap]. destruct (pin_of e) as [pin|] eqn:Ep.
    2:{ exfalso. unfold pin_of in Ep. unfold entry_host in He. destruct (FindString kFieldVPNGateHost e) as [[|]|]; done. }
    destruct (pin_of_host e pin Ep) as [Hp Hs]. rewrite Ec.
    assert (Ea : fPins (AddServer pin v) = fPins v ++ [pin]).
    { unfold AddServer. rewrite replace_pin_None.
      - cbn. destruct pin. cbn in *. by subst.
      - intros p Hpin. rewrite Hp. apply Hf; [done|apply list_elem_of_here]. }
    destruct (IH (AddServer pin v) (<[host pin := c]> ovpns) (n + 1) Hd Hh Hc) as (v' & o' & E & Ef & Eo & Ex).
    { intros p x Hpin Hx. rewrite Ea in Hpin. apply elem_of_app in Hpin as [Hpin|Hpin%list_elem_of_singleton].
      - apply Hf; [done|by apply list_elem_of_further].
      - subst p. rewrite Hp. intros Hy. apply Hn. rewrite Hy. by apply list_elem_of_fmap_2. }
    exists v', o'. rewrite E, Ef, Ea, <- app_assoc, zlen_cons. split_and!; [f_equal; lia|done| |].
    + intros x Hx. apply elem_of_cons in Hx as [->|Hx]; [|by apply Eo].
      rewrite Ex by done. by rewrite Hp, lookup_insert_eq, Ec.
    + intros h Hx. apply not_elem_of_cons in Hx as [Hx1 Hx2]. rewrite Ex by done. rewrite lookup_insert_ne by congruence. done.
Qed.

End MapProofs.
