(* ===== verification/TileCache.v ===== *)
(** * TileCache: the map's tiles in memory and on disk (src/gui/TileCache.{h,cpp})

    The disk is a map from a tile (zoom, column, row) to its file; what curl,
    the file calls and the clock answer while one message is handled is the
    record [world], a function of the tile because a request meets a tile once.
    Decoding an image (BTranslationUtils) and the order BObjectList::SortItems
    leaves equal files in are arguments.  The lock is left out: every operation
    holds it around each access of the state. *)

From stdpp Require Import gmap sorting.
From S2P Require Import Prelude CLib.
Open Scope Z_scope.

Module TileCache.

Definition kMaxMemoryTiles : Z := 100.
Definition kMaxDiskCacheBytes : Z := 50 * 1024 * 1024.

Definition tile : Type := Z * Z * Z.

Record file := mkFile { content : bytes; mtime : Z }.
Definition st_size (f : file) : Z := zlen (content f).

Definition kPngMagic : bytes := [0x89; 0x50; 0x4E; 0x47; 0x0D; 0x0A; 0x1A; 0x0A].

Section WithDecoder.
Context {bitmap : Type} (GetBitmap : bytes -> option bitmap).

Record TileEntry := mkEntry { key : tile; e_bitmap : bitmap; lastUsed : Z }.

Record cache := mkCache {
  fEnabled : bool; fTiles : list TileEntry; fDiskCacheSize : Z; fDiskTileCount : Z; disk : gmap tile file }.

(** What one request meets. *)
Record world := mkWorld {
  w_now : tile -> Z;                        (* system_time() when a tile is added *)
  w_opens : tile -> bool;                   (* BFile::InitCheck *)
  w_stat : tile -> bool;                    (* stat() succeeds *)
  w_remove : tile -> bool;                  (* BEntry::Remove, remove() *)
  w_fork : tile -> bool;                    (* fork() succeeds *)
  w_curl : tile -> bool * option file }.    (* exit status 0; what it left in the output file *)

Definition with_disk (d : gmap tile file) (size count : Z) (c : cache) : cache :=
  mkCache (fEnabled c) (fTiles c) size count d.
Definition with_tiles (l : list TileEntry) (c : cache) : cache :=
  mkCache (fEnabled c) l (fDiskCacheSize c) (fDiskTileCount c) (disk c).

Definition SetEnabled (b : bool) (c : cache) : cache :=
  mkCache b (fTiles c) (fDiskCacheSize c) (fDiskTileCount c) (disk c).

Definition total (d : gmap tile file) : Z := map_fold (fun _ f n => st_size f + n) 0 d.

(** The directory walk of the constructor. *)
Definition _ScanDiskCache (d : gmap tile file) : Z * Z := (total d, Z.of_nat (size d)).

Definition TileCache (d : gmap tile file) : cache :=
  let '(s, n) := _ScanDiskCache d in mkCache false [] s n d.

Definition _FindEntry (t : tile) (c : cache) : option TileEntry := List.find (fun e => bool_decide (key e = t)) (fTiles c).

Definition _LoadFromDisk (w : world) (t : tile) (c : cache) : option bitmap * cache :=
  match disk c !! t with
  | None => (None, c)
  | Some f =>
      if negb (w_opens w t) then (None, c)
      else if negb (beq (ztake 8 (content f)) kPngMagic) then
        let '(s, n) :=
          if w_stat w t then
            (if fDiskCacheSize c >? st_size f then fDiskCacheSize c - st_size f else 0,
             if fDiskTileCount c >? 0 then fDiskTileCount c - 1 else fDiskTileCount c)
          else (fDiskCacheSize c, fDiskTileCount c) in
        (None, with_disk (if w_remove w t then delete t (disk c) else disk c) s n c)
      else (GetBitmap (content f), c)
  end.

Definition AddItem (w : world) (t : tile) (b : bitmap) (c : cache) : cache :=
  with_tiles (fTiles c ++ [mkEntry t b (w_now w t)]) c.

(** fork, curl and waitpid: whether the download succeeded. *)
Definition download (w : world) (t : tile) (c : cache) : bool * cache :=
  if negb (w_fork w t) then (false, c)
  else
    let '(ok, written) := w_curl w t in
    (ok, with_disk (match written with Some f => <[t := f]> (disk c) | None => disk c end) (fDiskCacheSize c) (fDiskTileCount c) c).

(** The body of the loop for one tile, and whether it fetched one. *)
Definition fetch_tile (w : world) (t : tile) (c : cache) : bool * cache :=
  match _FindEntry t c with
  | Some _ => (false, c)
  | None =>
      match _LoadFromDisk w t c with
      | (Some b, c) => (true, AddItem w t b c)
      | (None, c) =>
          match download w t c with
          | (false, c) => (false, c)
          | (true, c) =>
              let c := match disk c !! t with
                       | Some f => if w_stat w t then with_disk (disk c) (fDiskCacheSize c + st_size f) (fDiskTileCount c + 1) c else c
                       | None => c
                       end in
              match _LoadFromDisk w t c with
              | (Some b, c) => (true, AddItem w t b c)
              | (None, c) => (false, c)
              end
          end
      end
  end.

Definition fetch_step (w : world) (acc : bool * cache) (t : tile) : bool * cache :=
  let '(any, c) := acc in let '(f, c) := fetch_tile w t c in (any || f, c).

(** The tiles the two loops visit: at most 50, column by column. *)
Definition visited (z minX minY maxX maxY : Z) : list tile :=
  take 50 (tx ← seqZ minX (maxX - minX + 1); (fun ty => (z, tx, ty)) <$> seqZ minY (maxY - minY + 1)).

(** The index of the entry used least recently, the first among equals. *)
Fixpoint oldest_from (i : nat) (best : Z) (idx : nat) (l : list TileEntry) : nat :=
  match l with
  | [] => idx
  | e :: l => if lastUsed e <? best then oldest_from (S i) (lastUsed e) i l else oldest_from (S i) best idx l
  end.

Definition LLONG_MAX : Z := 2 ^ 63 - 1.
Definition oldest (l : list TileEntry) : nat := oldest_from 0 LLONG_MAX 0 l.

Definition remove_at (i : nat) (l : list TileEntry) : list TileEntry := take i l ++ drop (S i) l.

(** Each round removes one entry, so the length is enough fuel. *)
Fixpoint prune (fuel : nat) (l : list TileEntry) : list TileEntry :=
  match fuel with
  | O => l
  | S fuel => if zlen l >? kMaxMemoryTiles then prune fuel (remove_at (oldest l) l) else l
  end.

Definition _PruneMemoryCache (c : cache) : cache := with_tiles (prune (length (fTiles c)) (fTiles c)) c.

(** The deletion loop over the files, oldest first. *)
Fixpoint delete_oldest (w : world) (target : Z) (files : list (tile * file)) (c : cache) : cache :=
  match files with
  | [] => c
  | (t, f) :: files =>
      if fDiskCacheSize c >? target then
        delete_oldest w target files
          (if w_remove w t then with_disk (delete t (disk c)) (fDiskCacheSize c - st_size f) (fDiskTileCount c - 1) c else c)
      else c
  end.

Variable SortItems : list (tile * file) -> list (tile * file).

Definition prune_target : Z := kMaxDiskCacheBytes * 9 / 10.

Definition _PruneDiskCache (w : world) (c : cache) : cache :=
  delete_oldest w prune_target (SortItems (map_to_list (disk c))) c.

(** MSG_FETCH_TILES: the cache, and whether MSG_TILES_READY is sent. *)
Definition fetch_tiles (w : world) (z minX minY maxX maxY : Z) (c : cache) : bool * cache :=
  if negb (fEnabled c) then (false, c)
  else
    let '(any, c) := fold_left (fetch_step w) (visited z minX minY maxX maxY) (false, c) in
    if any then
      let c := _PruneMemoryCache c in
      (true, if fDiskCacheSize c >? kMaxDiskCacheBytes then _PruneDiskCache w c else c)
    else (false, c).

(** DrawTile: the bitmap drawn, its time of use refreshed. *)
Fixpoint touch (t : tile) (now : Z) (l : list TileEntry) : list TileEntry :=
  match l with
  | [] => []
  | e :: l => if bool_decide (key e = t) then mkEntry (key e) (e_bitmap e) now :: l else e :: touch t now l
  end.

Definition DrawTile (t : tile) (now : Z) (c : cache) : option bitmap * cache :=
  match _FindEntry t c with
  | None => (None, c)
  | Some e => (Some (e_bitmap e), with_tiles (touch t now (fTiles c)) c)
  end.

(** What happens to the cache. *)
Inductive event :=
| Fetch (w : world) (z minX minY maxX maxY : Z)
| Draw (t : tile) (now : Z)
| Enable (b : bool).

Definition step (c : cache) (e : event) : cache :=
  match e with
  | Fetch w z minX minY maxX maxY => snd (fetch_tiles w z minX minY maxX maxY c)
  | Draw t now => snd (DrawTile t now c)
  | Enable b => SetEnabled b c
  end.

Definition run (es : list event) (c : cache) : cache := fold_left step es c.

(** ** What keeps the cache bounded *)

(** A file the cache can use. *)
Definition good (f : file) : Prop := ztake 8 (content f) = kPngMagic /\ is_Some (GetBitmap (content f)).

(** The file calls succeed, and a download either fails and leaves nothing or
    leaves a good file. *)
Record sound (w : world) : Prop := {
  s_calls : forall t, w_opens w t = true /\ w_stat w t = true /\ w_remove w t = true;
  s_curl : forall t, w_curl w t = (false, None) \/ exists f, w_curl w t = (true, Some f) /\ good f;
  s_now : forall t, w_now w t <= LLONG_MAX }.

Definition sound_event (e : event) : Prop :=
  match e with Fetch w _ _ _ _ _ => sound w | Draw _ now => now <= LLONG_MAX | Enable _ => True end.

(** No tile twice in memory, and the counters are those of the disk. *)
Record consistent (c : cache) : Prop := {
  i_keys : NoDup (map key (fTiles c));
  i_times : Forall (fun e => lastUsed e <= LLONG_MAX) (fTiles c);
  i_good : map_Forall (fun _ => good) (disk c);
  i_size : fDiskCacheSize c = total (disk c);
  i_count : fDiskTileCount c = Z.of_nat (size (disk c)) }.

Definition bounded (c : cache) : Prop :=
  zlen (fTiles c) <= kMaxMemoryTiles /\ fDiskCacheSize c <= kMaxDiskCacheBytes.

Lemma total_insert d t f : d !! t = None -> total (<[t := f]> d) = total d + st_size f.
Proof. intros Hd. unfold total. rewrite map_fold_insert_L by (done || (intros; lia)). lia. Qed.

Lemma total_delete d t f : d !! t = Some f -> total (delete t d) = total d - st_size f.
Proof. intros Hd. unfold total. rewrite (map_fold_delete_L _ 0 t f d) by (done || (intros; lia)). lia. Qed.

Lemma find_none t c : _FindEntry t c = None -> t ∉ map key (fTiles c).
Proof.
  intros Hf (e & -> & He)%list_elem_of_fmap. unfold _FindEntry in Hf.
  apply list_elem_of_In, (List.find_none _ _ Hf e) in He. by rewrite bool_decide_eq_false in He.
Qed.

Lemma AddItem_consistent w t b c : sound w -> t ∉ map key (fTiles c) -> consistent c -> consistent (AddItem w t b c).
Proof.
  intros Hw Ht [H1 H2 H3 H4 H5]. split; cbn; [|apply Forall_app; split; [done|apply Forall_singleton, (s_now w Hw)]|done..].
  rewrite map_app. apply NoDup_app. split_and!; [done| |apply NoDup_singleton]. by intros x Hx ->%list_elem_of_singleton.
Qed.

Lemma load_good w t c f :
  sound w -> disk c !! t = Some f -> good f -> exists b, _LoadFromDisk w t c = (Some b, c).
Proof.
  intros Hw Hd [Hm [b Hb]]. unfold _LoadFromDisk. destruct (s_calls w Hw t) as (-> & _ & _). rewrite Hd, Hm, beq_refl. cbn. rewrite Hb. eauto.
Qed.

(** One tile: nothing changes, or one entry is added. *)
Lemma fetch_tile_consistent w t c :
  sound w -> consistent c ->
  consistent (snd (fetch_tile w t c)) /\ (fst (fetch_tile w t c) = false -> snd (fetch_tile w t c) = c).
Proof.
  intros Hw Hc. unfold fetch_tile. destruct (_FindEntry t c) eqn:Ef; [done|]. apply find_none in Ef.
  destruct (disk c !! t) as [f|] eqn:Ed.
  - destruct (load_good w t c f Hw Ed (i_good c Hc t f Ed)) as [b ->]. cbn. split; [by apply AddItem_consistent|done].
  - assert (El : _LoadFromDisk w t c = (None, c)) by (unfold _LoadFromDisk; by rewrite Ed). rewrite El.
    unfold download. destruct (negb (w_fork w t)); [done|]. destruct (s_curl w Hw t) as [->|(f & -> & Hg)].
    + cbn. split; [by destruct c|]. intros _. by destruct c.
    + cbn [with_disk disk]. rewrite lookup_insert_eq. destruct (s_calls w Hw t) as (_ & -> & _).
      set (c1 := with_disk _ _ _ _). assert (Hc1 : consistent c1).
      { destruct Hc as [H1 H2 H3 H4 H5]. split; cbn; [done|done|by apply map_Forall_insert_2|by rewrite total_insert, H4|].
        rewrite map_size_insert_None by done. lia. }
      assert (E1 : disk c1 !! t = Some f) by apply lookup_insert_eq.
      destruct (load_good w t c1 f Hw E1 Hg) as [b ->]. cbn. split; [by apply AddItem_consistent|done].
Qed.

Lemma fetch_fold_consistent w ts any c :
  sound w -> consistent c ->
  let r := fold_left (fetch_step w) ts (any, c) in consistent (snd r) /\ (fst r = false -> snd r = c).
Proof.
  intros Hw. revert any c. induction ts as [|t ts IH]; intros any c Hc; [done|]. cbn [fold_left]. unfold fetch_step at 2 4 6.
  destruct (fetch_tile_consistent w t c Hw Hc) as [H1 H2]. destruct (fetch_tile w t c) as [f c1]. cbn [fst snd] in *.
  specialize (IH (any || f) c1 H1). cbv zeta in *. destruct IH as [H3 H4]. split; [done|]. intros Hr. specialize (H4 Hr).
  assert (Hf : any || f = false).
  { destruct (any || f) eqn:E; [|done]. exfalso. revert Hr. clear. revert c1. induction ts as [|t ts IH]; intros c1; [done|].
    cbn [fold_left]. unfold fetch_step at 2. destruct (fetch_tile w t c1). cbn [orb]. apply IH. }
  rewrite H4. apply H2. by apply orb_false_iff in Hf as [_ ?].
Qed.

(** *** Eviction *)

Lemma oldest_from_spec i best idx l :
  let k := oldest_from i best idx l in
  (k = idx /\ Forall (fun e => best <= lastUsed e) l) \/
  (exists e, (i <= k)%nat /\ l !! (k - i)%nat = Some e /\ lastUsed e < best /\ Forall (fun x => lastUsed e <= lastUsed x) l).
Proof.
  revert i best idx. induction l as [|e l IH]; intros i best idx; cbv zeta; cbn [oldest_from]; [by left|].
  destruct (Z.ltb_spec (lastUsed e) best) as [Hb|Hb].
  - right. destruct (IH (S i) (lastUsed e) i) as [[-> Hl]|(x & Hk & Hx & Hlt & Hl)].
    + exists e. rewrite Nat.sub_diag. split_and!; [lia|done|lia|]. apply Forall_cons. split; [lia|done].
    + exists x. set (k := oldest_from _ _ _ _) in *. split_and!; [lia| |lia|apply Forall_cons; split; [lia|done]].
      replace (k - i)%nat with (S (k - S i))%nat by lia. done.
  - destruct (IH (S i) best idx) as [[-> Hl]|(x & Hk & Hx & Hlt & Hl)].
    + left. split; [done|]. apply Forall_cons. split; [lia|done].
    + right. exists x. set (k := oldest_from _ _ _ _) in *. split_and!; [lia| |lia|apply Forall_cons; split; [lia|done]].
      replace (k - i)%nat with (S (k - S i))%nat by lia. done.
Qed.

Lemma oldest_spec l :
  l <> [] -> Forall (fun e => lastUsed e <= LLONG_MAX) l ->
  exists e, l !! oldest l = Some e /\ Forall (fun x => lastUsed e <= lastUsed x) l.
Proof.
  intros Hne Ht. unfold oldest. destruct (oldest_from_spec 0 LLONG_MAX 0 l) as [[-> Hl]|(e & _ & He & _ & Hl)].
  - destruct l as [|e l]; [done|]. exists e. split; [done|]. apply Forall_cons in Ht as [He _].
    eapply Forall_impl; [exact Hl|]. cbn. intros. lia.
  - exists e. rewrite Nat.sub_0_r in He. done.
Qed.

(** What stays was used after everything that goes. *)
Lemma prune_spec fuel l :
  (length l <= fuel)%nat -> Forall (fun e => lastUsed e <= LLONG_MAX) l ->
  zlen (prune fuel l) <= kMaxMemoryTiles /\ (zlen l <= kMaxMemoryTiles -> prune fuel l = l) /\
  exists gone, l ≡ₚ gone ++ prune fuel l /\
    forall g k, g ∈ gone -> k ∈ prune fuel l -> lastUsed g <= lastUsed k.
Proof.
  revert l. induction fuel as [|fuel IH]; intros l Hl Ht; cbn [prune].
  { destruct l; [|cbn in Hl; lia]. split_and!; [done|done|]. exists []. split; [done|]. intros g k Hg. by apply elem_of_nil in Hg. }
  rewrite Z.gtb_ltb. destruct (Z.ltb_spec kMaxMemoryTiles (zlen l)) as [Hm|Hm].
  2:{ split_and!; [done|done|]. exists []. split; [done|]. intros g k Hg. by apply elem_of_nil in Hg. }
  destruct (oldest_spec l) as (e & He & Hmin); [by intros ->|done|].
  assert (Hp : l ≡ₚ e :: remove_at (oldest l) l) by (unfold remove_at; rewrite <- delete_take_drop; by apply delete_Permutation).
  destruct (IH (remove_at (oldest l) l)) as (H1 & _ & gone & Hg & Hord).
  { apply Permutation_length in Hp. cbn in Hp. lia. }
  { rewrite Hp in Ht. by apply Forall_cons in Ht as [_ ?]. }
  split_and!; [done|lia|]. exists (e :: gone). split; [by rewrite Hp, Hg at 1|].
  intros g k [->|Hgg]%elem_of_cons Hk; [|by apply Hord]. rewrite Forall_forall in Hmin. apply Hmin.
  rewrite Hp. apply list_elem_of_further. rewrite Hg. apply elem_of_app. by right.
Qed.

Lemma prune_consistent c : consistent c -> consistent (_PruneMemoryCache c) /\ zlen (fTiles (_PruneMemoryCache c)) <= kMaxMemoryTiles.
Proof.
  intros [H1 H2 H3 H4 H5]. destruct (prune_spec (length (fTiles c)) (fTiles c)) as (Hb & _ & gone & Hp & _); [done|done|].
  split; [|done]. split; cbn; [| |done..].
  - rewrite Hp, map_app in H1. by apply NoDup_app in H1 as (_ & _ & ?).
  - rewrite Hp in H2. by apply Forall_app in H2 as [_ ?].
Qed.

(** *** The disk *)

Lemma delete_oldest_consistent w target files c :
  sound w -> consistent c -> map_to_list (disk c) ≡ₚ files -> 0 <= target ->
  consistent (delete_oldest w target files c) /\ fDiskCacheSize (delete_oldest w target files c) <= target
  /\ fTiles (delete_oldest w target files c) = fTiles c.
Proof.
  intros Hw. revert c. induction files as [|[t f] files IH]; intros c Hc Hp Ht; cbn [delete_oldest].
  - split_and!; [done| |done]. rewrite (i_size c Hc). apply Permutation_nil_r, map_to_list_empty_iff in Hp. by rewrite Hp.
  - rewrite Z.gtb_ltb. destruct (Z.ltb_spec target (fDiskCacheSize c)); [|done].
    destruct (s_calls w Hw t) as (_ & _ & ->).
    assert (Hd : disk c !! t = Some f) by (apply elem_of_map_to_list; rewrite Hp; apply list_elem_of_here).
    destruct (IH (with_disk (delete t (disk c)) (fDiskCacheSize c - st_size f) (fDiskTileCount c - 1) c)) as (G1 & G2 & G3).
    + destruct Hc as [H1 H2 H3 H4 H5]. split; cbn; [done|done|by apply map_Forall_delete|by rewrite (total_delete _ _ f), H4|].
      rewrite map_size_delete_Some by (by eexists). assert (size (disk c) <> 0%nat); [|lia].
      intros E%map_size_empty_iff. by rewrite E, lookup_empty in Hd.
    + cbn. apply (Permutation_cons_inv (a := (t, f))). rewrite <- Hp. by apply map_to_list_delete.
    + done.
    + done.
Qed.

Context (Hsort : forall l, SortItems l ≡ₚ l).

Lemma fetch_bounded w z minX minY maxX maxY c :
  sound w -> consistent c -> bounded c ->
  consistent (snd (fetch_tiles w z minX minY maxX maxY c)) /\ bounded (snd (fetch_tiles w z minX minY maxX maxY c)).
Proof.
  intros Hw Hc Hb. unfold fetch_tiles. destruct (negb (fEnabled c)); [done|].
  destruct (fetch_fold_consistent w (visited z minX minY maxX maxY) false c Hw Hc) as [H1 H2].
  destruct (fold_left _ _ _) as [any c1]. cbn [fst snd] in *. destruct any; [|by rewrite H2].
  destruct (prune_consistent c1 H1) as [H3 H4]. cbn [snd]. rewrite Z.gtb_ltb.
  destruct (Z.ltb_spec kMaxDiskCacheBytes (fDiskCacheSize (_PruneMemoryCache c1))); [|by split].
  unfold _PruneDiskCache. destruct (delete_oldest_consistent w prune_target (SortItems (map_to_list (disk (_PruneMemoryCache c1))))
    (_PruneMemoryCache c1)) as (G1 & G2 & G3); [done|done|by rewrite Hsort|done|].
  split; [done|]. split; [by rewrite G3|]. etransitivity; [exact G2|done].
Qed.

Lemma touch_keys t now l : map key (touch t now l) = map key l.
Proof. induction l as [|e l IH]; [done|]. cbn. destruct (bool_decide _); cbn; [done|by rewrite IH]. Qed.

Lemma touch_times t now l : now <= LLONG_MAX ->
  Forall (fun e => lastUsed e <= LLONG_MAX) l -> Forall (fun e => lastUsed e <= LLONG_MAX) (touch t now l).
Proof. intros Hn. induction 1 as [|e l He Hl IH]; [constructor|]. cbn. destruct (bool_decide _); by constructor. Qed.

Lemma step_stays c e : sound_event e -> consistent c -> bounded c -> consistent (step c e) /\ bounded (step c e).
Proof.
  intros He Hc Hb. destruct e as [w z a b x y|t now|b]; cbn [step].
  - by apply fetch_bounded.
  - unfold DrawTile. destruct (_FindEntry t c); [|done]. cbn [snd]. destruct Hc as [H1 H2 H3 H4 H5], Hb as [B1 B2]. split.
    + split; cbn; [by rewrite touch_keys|by apply touch_times|done..].
    + split; cbn; [|done]. unfold zlen in *. by rewrite <- (length_map key), touch_keys, length_map.
  - by destruct Hc, Hb.
Qed.


End WithDecoder.
(** ** A cache to run *)

Definition demo_decode (l : bytes) : option bytes := if zlen l >? 8 then Some (zdrop 8 l) else None.
Definition by_mtime (a b : tile * file) : Prop := mtime (snd a) <= mtime (snd b).
#[export] Instance by_mtime_dec : RelDecision by_mtime.
Proof. intros a b. unfold by_mtime. apply _. Defined.
Definition demo_sort : list (tile * file) -> list (tile * file) := merge_sort by_mtime.

Definition demo_png (t : tile) : file := let '(z, x, y) := t in mkFile (kPngMagic ++ [z; x; y]) (x * 1000 + y).
Definition demo_world (now : Z) : world :=
  mkWorld (fun t => let '(_, x, y) := t in Z.min LLONG_MAX (now + x * 1000 + y)) (fun _ => true) (fun _ => true) (fun _ => true) (fun _ => true)
    (fun t => (true, Some (demo_png t))).

Lemma demo_world_sound now : sound demo_decode (demo_world now).
Proof.
  split; [done| |intros [[z x] y]; apply Z.le_min_l]. intros [[z x] y]. right. exists (demo_png (z, x, y)).
  split; [done|]. split; [done|]. by eexists.
Qed.

Definition demo_events : list event :=
  [Enable true; Fetch (demo_world 0) 4 0 0 9 9; Fetch (demo_world 100000) 5 0 0 9 9; Draw (4, 0, 0) 150000;
   Fetch (demo_world 200000) 6 0 0 9 9].


(** A download that fails part way leaves its file, which nothing counts; the
    next request takes the piece for the tile, and the counters are wrong. *)
Definition cut_world : world :=
  mkWorld (fun _ => 0) (fun _ => true) (fun _ => true) (fun _ => true) (fun _ => true)
    (fun _ => (false, Some (mkFile (kPngMagic ++ [1]) 0))).

Example partial_download :
  let c1 := run demo_decode demo_sort [Enable true; Fetch cut_world 4 0 0 0 0] (TileCache ∅) in
  let c2 := run demo_decode demo_sort [Fetch cut_world 4 0 0 0 0] c1 in
  (total (disk c1), fDiskCacheSize c1, zlen (fTiles c1)) = (9, 0, 0) /\ map e_bitmap (fTiles c2) = [[1]].
Proof. vm_compute. auto. Qed.

(** A file that stays undecodable is downloaded and counted at every request. *)
Definition undecodable_world : world :=
  mkWorld (fun _ => 0) (fun _ => true) (fun _ => true) (fun _ => true) (fun _ => true)
    (fun _ => (true, Some (mkFile kPngMagic 0))).

Example counted_twice :
  let c := run demo_decode demo_sort [Enable true; Fetch undecodable_world 4 0 0 0 0; Fetch undecodable_world 4 0 0 0 0] (TileCache ∅) in
  (Z.of_nat (size (disk c)), fDiskTileCount c) = (1, 2).
Proof. vm_compute. reflexivity. Qed.

(** The limit counts the tiles already in memory, so what lies beyond the first
    fifty tiles of a view is never fetched, however often it is asked for. *)
Example beyond_fifty :
  let request := Fetch (demo_world 0) 4 0 0 9 9 in
  map key (fTiles (run demo_decode demo_sort [Enable true; request; request; request] (TileCache ∅)))
  = map key (fTiles (run demo_decode demo_sort [Enable true; request] (TileCache ∅))).
Proof. vm_compute. reflexivity. Qed.

End TileCache.
