(* ===== verification/Configs.v ===== *)
(** * Configs: the configuration parsers and the Tailscale settings

    [WireGuardConfigParser], [OpenVPNConfigParser] and [TSConfig] are the
    classes of src/common of the same names.  Reading a file is an argument:
    [None] is a file that cannot be opened. *)

From stdpp Require Import gmap.
From S2P Require Import Prelude CLib Json Message Routes Profiles.
Open Scope Z_scope.
Open Scope soto_scope.

Definition to_lower (l : bytes) : bytes := map tolower l.

(** ** WireGuard *)

Module WireGuardConfigParser.

Record WireGuardPeer := mkPeer {
  publicKey : bytes; presharedKey : bytes; endpointHost : bytes; endpointPort : Z;
  allowedIPs : bytes; persistentKeepalive : Z }.

Record config := mkConfig {
  privateKey : bytes; address : bytes; dns : bytes; listenPort : Z; mtu : Z; peer : WireGuardPeer }.

Definition WireGuardConfig : config := mkConfig [] [] [] 0 0 (mkPeer [] [] [] 0 [] 0).

Definition IsComplete (c : config) : bool :=
  (zlen (privateKey c) >? 0) && (zlen (publicKey (peer c)) >? 0)
  && (zlen (endpointHost (peer c)) >? 0) && negb (endpointPort (peer c) =? 0).

Definition trim (l : bytes) : bytes := trim_by isspace isspace l.

(** The host and port after the line. *)
Definition split_endpoint (value : bytes) (host : bytes) (port : Z) : bytes * Z :=
  let v := trim value in
  match v with
  | [] => (host, port)
  | c :: _ =>
      if c =? 91 then
        match find_first 93 v with
        | None => (host, port)
        | Some close =>
            let host := cstr (slice 1 (close - 1) v) in
            match find_first 58 (zdrop close v) with
            | None => (host, port)
            | Some k => (host, u16 (atoi (cstr (zdrop (close + k + 1) v))))
            end
        end
      else
        match find_last 58 v with
        | None => (cstr v, port)
        | Some colon => (cstr (ztake colon v), u16 (atoi (cstr (zdrop (colon + 1) v))))
        end
  end.

Inductive section := kNone | kInterface | kPeer.

Record state := mkState { cur : section; peerCount : Z; cfg : config }.

Definition set_interface (key value : bytes) (c : config) : config :=
  if beq key (bs "privatekey") then mkConfig (cstr value) (address c) (dns c) (listenPort c) (mtu c) (peer c)
  else if beq key (bs "address") then mkConfig (privateKey c) (cstr value) (dns c) (listenPort c) (mtu c) (peer c)
  else if beq key (bs "dns") then mkConfig (privateKey c) (address c) (cstr value) (listenPort c) (mtu c) (peer c)
  else if beq key (bs "listenport") then mkConfig (privateKey c) (address c) (dns c) (u16 (atoi (cstr value))) (mtu c) (peer c)
  else if beq key (bs "mtu") then mkConfig (privateKey c) (address c) (dns c) (listenPort c) (atoi (cstr value)) (peer c)
  else c.

Definition set_peer (key value : bytes) (p : WireGuardPeer) : WireGuardPeer :=
  if beq key (bs "publickey") then mkPeer (cstr value) (presharedKey p) (endpointHost p) (endpointPort p) (allowedIPs p) (persistentKeepalive p)
  else if beq key (bs "presharedkey") then mkPeer (publicKey p) (cstr value) (endpointHost p) (endpointPort p) (allowedIPs p) (persistentKeepalive p)
  else if beq key (bs "endpoint") then
    let '(h, n) := split_endpoint value (endpointHost p) (endpointPort p) in
    mkPeer (publicKey p) (presharedKey p) h n (allowedIPs p) (persistentKeepalive p)
  else if beq key (bs "allowedips") then mkPeer (publicKey p) (presharedKey p) (endpointHost p) (endpointPort p) (cstr value) (persistentKeepalive p)
  else if beq key (bs "persistentkeepalive") then mkPeer (publicKey p) (presharedKey p) (endpointHost p) (endpointPort p) (allowedIPs p) (atoi (cstr value))
  else p.

Definition with_peer (p : WireGuardPeer) (c : config) : config :=
  mkConfig (privateKey c) (address c) (dns c) (listenPort c) (mtu c) p.

Definition section_header (line : bytes) (s : state) : state :=
  let inner := default (zlen line) (find_first 93 line) - 1 in
  let name := to_lower (trim (slice 1 inner line)) in
  if beq name (bs "interface") then mkState kInterface (peerCount s) (cfg s)
  else if beq name (bs "peer") then mkState kPeer (peerCount s + 1) (cfg s)
  else mkState kNone (peerCount s) (cfg s).

Definition key_value (line : bytes) (s : state) : state :=
  match find_first 61 line with
  | None => s
  | Some eq =>
      let key := to_lower (trim (ztake eq line)) in
      let value := trim (zdrop (eq + 1) line) in
      if zlen key =? 0 then s
      else
        match cur s with
        | kInterface => mkState (cur s) (peerCount s) (set_interface key value (cfg s))
        | kPeer =>
            if peerCount s =? 1 then mkState (cur s) (peerCount s) (with_peer (set_peer key value (peer (cfg s))) (cfg s))
            else s
        | kNone => s
        end
  end.

Definition parse_line (s : state) (raw : bytes) : state :=
  let line := trim raw in
  match line with
  | [] => s
  | c :: _ =>
      if (c =? 35) || (c =? 59) then s
      else if c =? 91 then section_header line s
      else key_value line s
  end.

Definition ParseText (text : bytes) (c : config) : config :=
  cfg (fold_left parse_line (split_on 10 text) (mkState kNone 0 c)).

Definition ParseFile (path : bytes) (contents : option bytes) (c : config) : bool * config :=
  if zlen path =? 0 then (false, c)
  else match contents with
       | None => (false, c)
       | Some text => (true, ParseText text c)
       end.

End WireGuardConfigParser.

(** ** OpenVPN *)

Module OpenVPNConfigParser.
Import VPNProfile.

Definition parse_port (token : bytes) : Z :=
  match strtol (cstr token) with
  | (value, Some []) => if (value <? 1) || (value >? 65535) then 0 else u16 value
  | _ => 0
  end.

Definition blank (c : Z) : bool := (c =? 32) || (c =? 9).
Definition blank_end (c : Z) : bool := blank c || (c =? 13) || (c =? 10).
Definition trim (l : bytes) : bytes := trim_by blank blank_end l.

(** [current] is the token being read, [tokens] those read so far. *)
Fixpoint tokenize_loop (input current : bytes) (tokens : list bytes) : list bytes :=
  match input with
  | [] => if zlen current =? 0 then tokens else tokens ++ [current]
  | c :: input =>
      if (c =? 35) || (c =? 59) then if zlen current =? 0 then tokens else tokens ++ [current]
      else if blank c then
        if zlen current =? 0 then tokenize_loop input current tokens
        else tokenize_loop input [] (tokens ++ [current])
      else tokenize_loop input (current ++ [c]) tokens
  end.
Definition tokenize (input : bytes) : list bytes := tokenize_loop input [] [].

Definition normalize_proto (raw : bytes) : bytes := if is_prefix (bs "tcp") raw then bs "tcp" else bs "udp".

(** The part after the last slash, less the extension. *)
Definition default_name_for (path : bytes) : bytes :=
  if zlen path =? 0 then []
  else
    let name := match find_last 47 path with Some i => zdrop (i + 1) path | None => path end in
    let ends ext := (zlen name >? zlen ext) && is_suffix ext name in
    if ends (bs ".ovpn") then ztake (zlen name - 5) name
    else if ends (bs ".conf") then ztake (zlen name - 5) name
    else name.

Record state := mkState { sawPort : bool; sawRemote : bool; inlineTag : bytes; prof : profile }.

Definition with_server (x : bytes) (p : profile) : profile :=
  mkProfile (fBackendType p) (fName p) x (fPort p) (fUsername p) (fProtocol p) (fConfigPath p) (fAuthKey p).
Definition with_port (x : Z) (p : profile) : profile :=
  mkProfile (fBackendType p) (fName p) (fServer p) x (fUsername p) (fProtocol p) (fConfigPath p) (fAuthKey p).
Definition with_protocol (x : bytes) (p : profile) : profile :=
  mkProfile (fBackendType p) (fName p) (fServer p) (fPort p) (fUsername p) x (fConfigPath p) (fAuthKey p).
Definition with_name (x : bytes) (p : profile) : profile :=
  mkProfile (fBackendType p) x (fServer p) (fPort p) (fUsername p) (fProtocol p) (fConfigPath p) (fAuthKey p).
Definition with_username (x : bytes) (p : profile) : profile :=
  mkProfile (fBackendType p) (fName p) (fServer p) (fPort p) x (fProtocol p) (fConfigPath p) (fAuthKey p).

Definition remote (tokens : list bytes) (s : state) : state :=
  if sawRemote s then s
  else
    let p := with_server (cstr (nth 1 tokens [])) (prof s) in
    let p := if (3 <=? zlen tokens) && negb (sawPort s) then
               let port := parse_port (nth 2 tokens []) in if port =? 0 then p else with_port port p
             else p in
    let p := if 4 <=? zlen tokens then with_protocol (normalize_proto (nth 3 tokens [])) p else p in
    mkState (sawPort s) true (inlineTag s) p.

Definition run_directive (tokens : list bytes) (s : state) : state :=
  match tokens with
  | [] => s
  | directive :: _ =>
      if beq directive (bs "remote") && (2 <=? zlen tokens) then remote tokens s
      else if beq directive (bs "proto") && (2 <=? zlen tokens) then
        mkState (sawPort s) (sawRemote s) (inlineTag s) (with_protocol (normalize_proto (nth 1 tokens [])) (prof s))
      else if beq directive (bs "port") && (2 <=? zlen tokens) then
        let port := parse_port (nth 1 tokens []) in
        if port =? 0 then s else mkState true (sawRemote s) (inlineTag s) (with_port port (prof s))
      else if beq directive (bs "auth-user-pass") then
        if zlen (fUsername (prof s)) =? 0
        then mkState (sawPort s) (sawRemote s) (inlineTag s) (with_username [] (prof s)) else s
      else s
  end.

Definition close_tag (tag : bytes) : bytes := bs "</" ++ tag ++ bs ">".
Definition with_tag (tag : bytes) (s : state) : state := mkState (sawPort s) (sawRemote s) tag (prof s).

Definition opens (line : bytes) : bool :=
  (3 <=? zlen line) && (at_ line 0 =? 60) && negb (at_ line 1 =? 47) && (at_ line (zlen line - 1) =? 62).

Definition parse_line (s : state) (raw : bytes) : state :=
  let line := trim raw in
  if (zlen line =? 0) || (at_ line 0 =? 35) || (at_ line 0 =? 59) then s
  else if negb (zlen (inlineTag s) =? 0) then if beq line (close_tag (inlineTag s)) then with_tag [] s else s
  else if opens line then with_tag (slice 1 (zlen line - 2) line) s
  else run_directive (tokenize line) s.

(** The defaults the parser starts from. *)
Definition defaults (p : profile) : profile :=
  let p := if zlen (fProtocol p) =? 0 then with_protocol (bs "udp") p else p in
  if fPort p =? 0 then with_port 1194 p else p.

Definition ParseText (text : bytes) (p : profile) : profile :=
  prof (fold_left parse_line (split_on 10 text) (mkState false false [] (defaults p))).

Definition ParseFile (path : bytes) (contents : option bytes) (p : profile) : bool * profile :=
  if zlen path =? 0 then (false, p)
  else match contents with
       | None => (false, p)
       | Some text =>
           let p := with_configPath path (ParseText text p) in
           (true, if zlen (fName p) =? 0 then with_name (default_name_for path) p else p)
       end.

End OpenVPNConfigParser.

(** ** Tailscale settings *)

Module TSConfig.
Import Message.

Definition kDefaultControlURL : bytes := bs "https://controlplane.tailscale.com".
Definition kSettingsDir : bytes := bs "Sotoportego".
Definition kTailscaleDir : bytes := bs "tailscale".
Definition kConfigLeaf : bytes := bs "config".
Definition kFieldControlURL : string := "control_url".

Record config := mkConfig { fControlURL : bytes; fAuthKey : bytes; fProfileName : bytes }.

Definition MakeDefault : config := mkConfig kDefaultControlURL [] [].
Definition TSConfig : config := MakeDefault.

(** [None] is the NULL url. *)
Definition SetControlURL (url : option bytes) (c : config) : config :=
  match url with
  | None | Some [] => mkConfig kDefaultControlURL (fAuthKey c) (fProfileName c)
  | Some u =>
      mkConfig (if at_ u (zlen u - 1) =? 47 then ztake (zlen u - 1) u else u) (fAuthKey c) (fProfileName c)
  end.

Definition SetAuthKey (key : bytes) (c : config) : config := mkConfig (fControlURL c) key (fProfileName c).

Definition safe_char (c : Z) : bool := isalnum c || (c =? 46) || (c =? 95) || (c =? 45).

Definition _SanitizeComponent (name : bytes) : bytes :=
  let out := map (fun c => if safe_char c then c else 95) name in
  let out := drop_while (fun c => c =? 46) out in
  if zlen out =? 0 then [95] else out.

(** The system's answers: the settings directory, the results of creating a
    directory, of opening, flattening and renaming. *)
Record io := mkIo { io_settings : status + bytes; io_mkdir : status; io_open : status; io_flatten : status; io_rename : status }.

Definition Append (dir leaf : bytes) : bytes := dir ++ 47 :: leaf.

Definition BaseDir (createDir : bool) (o : io) : status + bytes :=
  match io_settings o with
  | inl e => inl e
  | inr base =>
      let path := Append (Append base kSettingsDir) kTailscaleDir in
      if createDir then match io_mkdir o with B_OK => inr path | e => inl e end else inr path
  end.

Definition IdentityDir (profileName : bytes) (createDir : bool) (o : io) : status + bytes :=
  if zlen profileName =? 0 then inl B_BAD_VALUE
  else
    match BaseDir createDir o with
    | inl e => inl e
    | inr base =>
        let path := Append base (_SanitizeComponent profileName) in
        if createDir then match io_mkdir o with B_OK => inr path | e => inl e end else inr path
    end.

Definition _ConfigFilePath (profileName : bytes) (createDir : bool) (o : io) : status + bytes :=
  match IdentityDir profileName createDir o with
  | inl e => inl e
  | inr dir => inr (Append dir kConfigLeaf)
  end.

(** Files by path; a write that is cut short leaves [ProfileStore.Partial]. *)
Abbreviation fs := (gmap bytes ProfileStore.content).

Definition Load (profileName : bytes) (o : io) (disk : fs) (c : config) : status * config :=
  if zlen profileName =? 0 then (B_BAD_VALUE, c)
  else
    let c := mkConfig (fControlURL MakeDefault) (fAuthKey MakeDefault) profileName in
    match _ConfigFilePath profileName false o with
    | inl e => (e, c)
    | inr path =>
        match disk !! path with
        | None => (B_OK, c)
        | Some content =>
            match io_open o with
            | B_OK =>
                match content with
                | ProfileStore.Whole stored =>
                    (B_OK, match FindString kFieldControlURL stored with
                           | Some url => SetControlURL (Some url) c
                           | None => c
                           end)
                | ProfileStore.Partial => (B_BAD_DATA, c)
                end
            | e => (e, c)
            end
        end
    end.

(** The disk after each step of the write, in order. *)
Definition Save (o : io) (disk : fs) (c : config) : status * list fs :=
  if zlen (fProfileName c) =? 0 then (B_BAD_VALUE, [])
  else
    match _ConfigFilePath (fProfileName c) true o with
    | inl e => (e, [])
    | inr path =>
        let stored := add kFieldControlURL (VString (fControlURL c)) (BMessage 0) in
        let temp := path ++ bs ".tmp" in
        match io_open o with
        | B_OK =>
            let d1 := <[temp := ProfileStore.Partial]> disk in
            match io_flatten o with
            | B_OK =>
                let d2 := <[temp := ProfileStore.Whole stored]> disk in
                match io_rename o with
                | B_OK => (B_OK, [d1; d2; <[path := ProfileStore.Whole stored]> (delete temp disk)])
                | e => (e, [d1; d2; delete temp disk])
                end
            | e => (e, [d1; delete temp disk])
            end
        | e => (e, [])
        end
    end.

End TSConfig.
