(* ===== verification/ConfigProofs.v ===== *)
(** * ConfigProofs: what the configuration parsers read (proofs about Configs.v)

    A text is a list of lines joined by newlines; the parsers look at each
    line without its surrounding blanks, so carriage returns and indentation
    do not matter. *)

From stdpp Require Import gmap.
From S2P Require Import Prelude CLib Json Message Routes Profiles Configs.
Open Scope Z_scope.
Open Scope soto_scope.

(** ** Trimming *)

(** No blank at either end. *)
Definition tight (p q : Z -> bool) (l : bytes) : Prop :=
  match l with [] => True | c :: _ => p c = false end /\ match rev l with [] => True | c :: _ => q c = false end.

Lemma drop_while_tight p l : match l with [] => True | c :: _ => p c = false end -> drop_while p l = l.
Proof. destruct l as [|c l]; [done|]. cbn. by intros ->. Qed.

Lemma trim_tight p q l : tight p q l -> trim_by p q l = l.
Proof. intros [H1 H2]. unfold trim_by. rewrite (drop_while_tight p l) by done. rewrite drop_while_tight by done. apply rev_involutive. Qed.

Lemma tight_app p q l k : l <> [] -> k <> [] -> match l with [] => True | c :: _ => p c = false end ->
  match rev k with [] => True | c :: _ => q c = false end -> tight p q (l ++ k).
Proof.
  intros Hl Hk H1 H2. split; [by destruct l|]. rewrite rev_app_distr. destruct (rev k) eqn:E; [|done].
  by apply (f_equal (@rev Z)) in E; rewrite rev_involutive in E.
Qed.

Lemma drop_while_app_all p l k : Forall (fun c => p c = true) l -> drop_while p (l ++ k) = drop_while p k.
Proof. induction 1 as [|c l Hc _ IH]; [done|]. cbn. by rewrite Hc. Qed.

(** Blanks at the end do not matter. *)
Lemma trim_app_blank p q l k : Forall (fun c => q c = true) k -> l <> [] -> tight p q l -> trim_by p q (l ++ k) = l.
Proof.
  intros Hk Hl [H1 H2]. unfold trim_by. rewrite (drop_while_tight p (l ++ k)) by (by destruct l).
  rewrite rev_app_distr, drop_while_app_all; [|by apply Forall_rev]. rewrite drop_while_tight by done. apply rev_involutive.
Qed.

Module WgConfig.
Import WireGuardConfigParser.

(** ** A configuration written and read back *)

(** A value that a line can carry: no newline or NUL, no blank at its ends. *)
Definition value_ok (v : bytes) : Prop := tight isspace isspace v /\ (10 ∉ v) /\ 0 ∉ v.

Definition entry (key : string) (value : bytes) : bytes := bs key ++ bs " = " ++ value.

(** An IPv6 host goes in brackets. *)
Definition endpoint_text (host : bytes) (port : Z) : bytes :=
  (if bool_decide (58 ∈ host) then 91 :: host ++ [93] else host) ++ 58 :: fmt_u port.

Definition config_lines (c : config) : list bytes :=
  [bs "[Interface]"; entry "PrivateKey" (privateKey c); entry "Address" (address c); entry "DNS" (dns c);
   entry "ListenPort" (fmt_u (listenPort c)); entry "MTU" (fmt_u (mtu c));
   bs "[Peer]"; entry "PublicKey" (publicKey (peer c)); entry "PresharedKey" (presharedKey (peer c));
   entry "Endpoint" (endpoint_text (endpointHost (peer c)) (endpointPort (peer c)));
   entry "AllowedIPs" (allowedIPs (peer c)); entry "PersistentKeepalive" (fmt_u (persistentKeepalive (peer c)))].

(** Blank lines and comments. *)
Definition ignorable (raw : bytes) : bool :=
  match trim raw with [] => true | c :: _ => (c =? 35) || (c =? 59) end.

Definition config_ok (c : config) : Prop :=
  Forall value_ok [privateKey c; address c; dns c; publicKey (peer c); presharedKey (peer c); allowedIPs (peer c); endpointHost (peer c)]
  /\ endpointHost (peer c) <> [] /\ (91 ∉ endpointHost (peer c)) /\ (93 ∉ endpointHost (peer c))
  /\ 0 <= listenPort c < 2 ^ 16 /\ 0 <= endpointPort (peer c) < 2 ^ 16
  /\ 0 <= mtu c < 2 ^ 31 /\ 0 <= persistentKeepalive (peer c) < 2 ^ 31.

Lemma parse_line_trim s raw raw' : trim raw = trim raw' -> parse_line s raw = parse_line s raw'.
Proof. intros E. unfold parse_line. by rewrite E. Qed.

Lemma parse_ignorable s raw : ignorable raw = true -> parse_line s raw = s.
Proof. unfold ignorable, parse_line. cbv zeta. destruct (trim raw) as [|c l]; [done|]. by intros ->. Qed.

Lemma parse_significant ls s :
  fold_left parse_line ls s = fold_left parse_line (List.filter (fun r => negb (ignorable r)) ls) s.
Proof.
  revert s. induction ls as [|l ls IH]; intros s; [done|]. cbn [fold_left List.filter].
  destruct (ignorable l) eqn:E; cbn [negb]; [rewrite parse_ignorable by done|cbn [fold_left]]; apply IH.
Qed.

Lemma fold_trim ls ls' s : map trim ls = map trim ls' -> fold_left parse_line ls s = fold_left parse_line ls' s.
Proof.
  revert ls' s. induction ls as [|l ls IH]; intros [|l' ls'] s E; try done. cbn [map] in E. injection E as E1 E2.
  cbn [fold_left]. rewrite (parse_line_trim s l l') by done. by apply IH.
Qed.

Definition spaced (v : bytes) : bytes := match v with [] => [] | _ => 32 :: v end.

(** What a key = value line does. *)
Definition assign (key value : bytes) (s : state) : state :=
  match cur s with
  | kInterface => mkState (cur s) (peerCount s) (set_interface key value (cfg s))
  | kPeer => if peerCount s =? 1 then mkState (cur s) (peerCount s) (with_peer (set_peer key value (peer (cfg s))) (cfg s)) else s
  | kNone => s
  end.

Definition key_ok (k : bytes) : Prop :=
  match k with [] => False | c :: _ => c <> 35 /\ c <> 59 /\ c <> 91 end /\ tight isspace isspace k /\ 61 ∉ k.

Lemma parse_entry s key value : key_ok (bs key) -> value_ok value ->
  parse_line s (entry key value) = assign (to_lower (bs key)) value s.
Proof.
  intros (Hc & Hk & Heq) (Hv & _ & _). unfold entry. set (k := bs key) in *.
  assert (Hne : k <> []) by (destruct k; [by destruct Hc|done]).
  assert (Et : trim (k ++ bs " = " ++ value) = k ++ bs " =" ++ spaced value).
  { unfold trim. destruct value as [|d value].
    - change (k ++ bs " = " ++ []) with (k ++ bs " =" ++ [32]). rewrite app_assoc. rewrite trim_app_blank.
      + by rewrite app_nil_r.
      + by apply Forall_cons_2; [|apply Forall_nil_2].
      + by destruct k.
      + apply tight_app; [done|done|apply Hk|done].
    - change (bs " = " ++ d :: value) with (bs " =" ++ 32 :: d :: value). apply trim_tight.
      apply tight_app; [done|done|apply Hk|]. destruct Hv as [_ Hv]. rewrite rev_app_distr. cbn [rev spaced] in Hv |- *.
      destruct (rev value) as [|x r]; cbn [app] in *; exact Hv. }
  unfold parse_line. cbv zeta. rewrite Et. destruct k as [|c k'] eqn:Ek; [done|]. cbn [app].
  destruct Hc as (H1 & H2 & H3). destruct (Z.eqb_spec c 35); [done|]. destruct (Z.eqb_spec c 59); [done|].
  destruct (Z.eqb_spec c 91); [done|]. cbn [orb].
  change (c :: k' ++ bs " =" ++ spaced value) with ((c :: k') ++ bs " =" ++ spaced value).
  rewrite <- Ek in *. unfold key_value. rewrite find_first_app_in by done.
  change (find_first 61 (bs " =" ++ spaced value)) with (Some 1). cbn [fmap option_fmap option_map].
  rewrite ztake_app_ge by lia. rewrite zdrop_app_ge by lia.
  replace (zlen k + 1 - zlen k) with 1 by lia. replace (zlen k + 1 + 1 - zlen k) with 2 by lia.
  change (ztake 1 (bs " =" ++ spaced value)) with [32].
  change (zdrop 2 (bs " =" ++ spaced value)) with (spaced value).
  assert (Ek2 : trim (k ++ [32]) = k).
  { apply trim_app_blank; [by apply Forall_cons_2; [|apply Forall_nil_2]|done|done]. }
  assert (Ev : trim (spaced value) = value).
  { destruct value as [|d value]; [done|]. change (trim (spaced (d :: value))) with (trim (d :: value)).
    apply (trim_tight isspace isspace), Hv. }
  rewrite Ek2, Ev. assert (El : (zlen (to_lower k) =? 0) = false).
  { unfold to_lower. rewrite zlen_map. rewrite Ek, zlen_cons. pose proof (zlen_nonneg k'). by destruct (Z.eqb_spec (zlen k' + 1) 0); [lia|]. }
  rewrite El. done.
Qed.

Lemma fmt_u_ok n : 0 <= n -> value_ok (fmt_u n).
Proof.
  intros Hn. pose proof (fmt_u_is_digits n Hn) as Hd.
  assert (G : forall c, c ∈ fmt_u n -> 48 <= c <= 57) by (intros c Hc; apply isdigit_spec; by apply (proj1 (Forall_forall _ _) Hd)).
  split; [|split; intros Hc%G; lia]. split.
  - destruct (fmt_u n) as [|c l] eqn:E; [done|]. apply digit_not_space, isdigit_spec, G. apply list_elem_of_here.
  - destruct (rev (fmt_u n)) as [|c l] eqn:E; [done|]. apply digit_not_space, isdigit_spec, G.
    rewrite <- (rev_involutive (fmt_u n)), E. cbn. apply elem_of_app. right. apply list_elem_of_here.
Qed.

Lemma endpoint_ok host port : value_ok host -> 91 ∉ host -> 93 ∉ host -> 0 <= port -> value_ok (endpoint_text host port).
Proof.
  intros (Ht & Hn & Hz) H1 H3 Hp. destruct (fmt_u_ok port Hp) as ((_ & Hl) & Fn & Fz). unfold endpoint_text.
  assert (Hr : match rev (58 :: fmt_u port) with [] => True | c :: _ => isspace c = false end).
  { cbn [rev]. by destruct (rev (fmt_u port)). }
  split; [|case_bool_decide; split; cbn [app]; rewrite ?elem_of_app, ?elem_of_cons, ?elem_of_app, ?elem_of_cons, ?elem_of_nil; intuition (done || lia)].
  case_bool_decide as Hb; [by apply tight_app|]. destruct host as [|c host]; [by split|]. apply tight_app; try done. apply Ht.
Qed.

Lemma split_endpoint_text host port h0 p0 : value_ok host -> host <> [] -> 91 ∉ host -> 93 ∉ host -> 0 <= port < 2 ^ 16 ->
  split_endpoint (endpoint_text host port) h0 p0 = (host, port).
Proof.
  intros Hv Hne H1 H3 Hp. pose proof (endpoint_ok host port Hv H1 H3 ltac:(lia)) as (Ht & _ & _).
  assert (Ep : u16 (atoi (cstr (fmt_u port))) = port) by (rewrite cstr_fmt_u, atoi_fmt_u, u16_small; lia).
  assert (Eh : cstr host = host) by (apply cstr_text, Forall_forall; intros c Hc ->; by apply Hv).
  unfold split_endpoint, trim. cbv zeta. rewrite trim_tight by done. unfold endpoint_text. case_bool_decide as Hb.
  - cbn [app]. destruct (Z.eqb_spec 91 91); [|done].
    change (91 :: (host ++ [93]) ++ 58 :: fmt_u port) with ((91 :: host ++ [93]) ++ 58 :: fmt_u port).
    assert (Ef : find_first 93 ((91 :: host ++ [93]) ++ 58 :: fmt_u port) = Some (zlen host + 1)).
    {
      cbn [app find_first]. destruct (Z.eqb_spec 91 93); [lia|]. rewrite <- app_assoc, find_first_app_in by done.
      cbn [app find_first]. rewrite Z.eqb_refl. cbn [fmap option_fmap option_map]. f_equal. lia. }
    rewrite Ef. assert (Es : slice 1 (zlen host + 1 - 1) ((91 :: host ++ [93]) ++ 58 :: fmt_u port) = host).
    { replace (zlen host + 1 - 1) with (zlen host) by lia. unfold slice.
      change (zdrop 1 ((91 :: host ++ [93]) ++ 58 :: fmt_u port)) with ((host ++ [93]) ++ 58 :: fmt_u port).
      rewrite <- app_assoc. by apply ztake_app. }
    rewrite Es, Eh. replace (91 :: host ++ [93]) with ((91 :: host) ++ [93]) by done. rewrite <- app_assoc.
    rewrite zdrop_app by (rewrite zlen_cons; lia). cbn [app find_first]. destruct (Z.eqb_spec 93 58); [lia|].
    destruct (Z.eqb_spec 58 58); [|done]. cbn [fmap option_fmap option_map].
    change (91 :: host ++ 93 :: 58 :: fmt_u port) with ((91 :: host) ++ 93 :: 58 :: fmt_u port).
    rewrite zdrop_app_ge by (rewrite zlen_cons; lia). rewrite zlen_cons.
    replace (zlen host + 1 + (0 + 1) + 1 - (zlen host + 1)) with 2 by lia. change (zdrop 2 (93 :: 58 :: fmt_u port)) with (fmt_u port).
    by rewrite Ep.
  - destruct (host ++ 58 :: fmt_u port) as [|d l] eqn:El; [by apply app_eq_nil in El as [_ ?]|].
    assert (Hd1 : d <> 91) by (intros ->; destruct host as [|c h]; [done|]; apply H1; cbn in El; injection El as -> _; apply list_elem_of_here).
    destruct (Z.eqb_spec d 91); [done|]. rewrite <- El.
    rewrite find_last_app.
    + rewrite ztake_app, Eh by done. rewrite zdrop_app_ge by lia. replace (zlen host + 1 - zlen host) with 1 by lia.
      change (zdrop 1 (58 :: fmt_u port)) with (fmt_u port). by rewrite Ep.
    + intros Hc2. pose proof (fmt_u_is_digits port ltac:(lia)) as Hd. unfold is_digits in Hd. rewrite Forall_forall in Hd.
      apply Hd, isdigit_spec in Hc2. lia.
Qed.

(** The two sections, assigned line by line. *)
Lemma assign_interface v1 v2 v3 v4 v5 :
  assign (to_lower (bs "MTU")) v5 (assign (to_lower (bs "ListenPort")) v4 (assign (to_lower (bs "DNS")) v3
    (assign (to_lower (bs "Address")) v2 (assign (to_lower (bs "PrivateKey")) v1 (mkState kInterface 0 WireGuardConfig)))))
  = mkState kInterface 0 (mkConfig (cstr v1) (cstr v2) (cstr v3) (u16 (atoi (cstr v4))) (atoi (cstr v5)) (mkPeer [] [] [] 0 [] 0)).
Proof. reflexivity. Qed.

Lemma open_peer c : parse_line (mkState kInterface 0 c) (bs "[Peer]") = mkState kPeer 1 c.
Proof. reflexivity. Qed.

Lemma assign_peer c v1 v2 v3 v4 v5 h n : split_endpoint v3 (endpointHost (peer c)) (endpointPort (peer c)) = (h, n) ->
  assign (to_lower (bs "PersistentKeepalive")) v5 (assign (to_lower (bs "AllowedIPs")) v4 (assign (to_lower (bs "Endpoint")) v3
    (assign (to_lower (bs "PresharedKey")) v2 (assign (to_lower (bs "PublicKey")) v1 (mkState kPeer 1 c)))))
  = mkState kPeer 1 (with_peer (mkPeer (cstr v1) (cstr v2) h n (cstr v4) (atoi (cstr v5))) c).
Proof.
  intros E. set (p := assign (to_lower (bs "PublicKey")) v1 (mkState kPeer 1 c)).
  change p with (mkState kPeer 1 (with_peer (mkPeer (cstr v1) (presharedKey (peer c)) (endpointHost (peer c)) (endpointPort (peer c)) (allowedIPs (peer c)) (persistentKeepalive (peer c))) c)).
  set (q := assign (to_lower (bs "PresharedKey")) v2 _).
  change q with (mkState kPeer 1 (with_peer (mkPeer (cstr v1) (cstr v2) (endpointHost (peer c)) (endpointPort (peer c)) (allowedIPs (peer c)) (persistentKeepalive (peer c))) c)).
  set (r := assign (to_lower (bs "Endpoint")) v3 _).
  assert (Er : r = mkState kPeer 1 (with_peer (mkPeer (cstr v1) (cstr v2) h n (allowedIPs (peer c)) (persistentKeepalive (peer c))) c)).
  { unfold r. change (assign (to_lower (bs "Endpoint")) v3 ?s) with
      (mkState kPeer 1 (with_peer (let '(h, n) := split_endpoint v3 (endpointHost (peer (cfg s))) (endpointPort (peer (cfg s))) in
         mkPeer (publicKey (peer (cfg s))) (presharedKey (peer (cfg s))) h n (allowedIPs (peer (cfg s))) (persistentKeepalive (peer (cfg s)))) (cfg s))).
    cbn [cfg peer with_peer endpointHost endpointPort]. rewrite E. reflexivity. }
  rewrite Er. reflexivity.
Qed.

(** C40: A written configuration is read back: whatever comments and blank lines are mixed in and whatever blanks and carriage returns surround the lines, ParseText of the wg-quick form of a configuration returns that configuration, bracketed IPv6 endpoints included. *)
Theorem config_roundtrip c ls :
  config_ok c -> ls <> [] -> Forall (fun l => 10 ∉ l) ls ->
  map trim (List.filter (fun r => negb (ignorable r)) ls) = map trim (config_lines c) ->
  ParseText (join 10 ls) WireGuardConfig = c.
Proof.
  intros (Hv & Hh & H1 & H3 & Hp & He & Hm & Hk) Hls Hnl E. unfold ParseText. rewrite split_on_join by done.
  rewrite parse_significant, (fold_trim _ _ _ E). rewrite !Forall_cons in Hv. destruct Hv as (V1 & V2 & V3 & V4 & V5 & V6 & V7 & _).
  unfold config_lines. cbn [fold_left].
  change (parse_line (mkState kNone 0 WireGuardConfig) (bs "[Interface]")) with (mkState kInterface 0 WireGuardConfig).
  assert (K : forall k, forallb (fun c => negb (c =? 61) && negb (isspace c) && negb (c =? 35) && negb (c =? 59) && negb (c =? 91)) (bs k) = true -> bs k <> [] -> key_ok (bs k)).
  { clear. intros k Hk Hne. rewrite forallb_forall in Hk. assert (G : forall c, c ∈ bs k -> c <> 61 /\ isspace c = false /\ c <> 35 /\ c <> 59 /\ c <> 91).
    { intros c Hc%list_elem_of_In%Hk. rewrite !andb_true_iff, !negb_true_iff, !Z.eqb_neq in Hc. tauto. }
    split; [|split; [split|]].
    - destruct (bs k) as [|c l]; [done|]. destruct (G c) as (_ & _ & G3); [apply list_elem_of_here|done].
    - destruct (bs k) as [|c l]; [done|]. apply G, list_elem_of_here.
    - destruct (rev (bs k)) as [|c l] eqn:Er; [done|]. apply G. apply list_elem_of_In, in_rev. rewrite Er. by left.
    - intros Hc%G. lia. }
  assert (C : forall v, value_ok v -> cstr v = v).
  { intros v (_ & _ & Hz). apply cstr_text, Forall_forall. by intros x Hx ->. }
  rewrite !parse_entry; try (apply K; [reflexivity|done]); try done; try (apply fmt_u_ok; lia).
  2: { by apply endpoint_ok; [| | |lia]. }
  rewrite assign_interface, open_peer.
  rewrite (assign_peer _ _ _ _ _ _ (endpointHost (peer c)) (endpointPort (peer c))) by by apply split_endpoint_text.
  unfold with_peer. cbn [cfg privateKey address dns listenPort mtu]. rewrite !cstr_fmt_u by lia.
  rewrite !(C (privateKey c)), !(C (address c)), !(C (dns c)), !(C (publicKey _)), !(C (presharedKey _)), !(C (allowedIPs _)) by done.
  rewrite !atoi_fmt_u, u16_small by lia. by destruct c as [? ? ? ? ? []].
Qed.

Definition demo : config :=
  mkConfig (bs "aGVsbG8=") (bs "10.2.0.2/32") [] 0 1420
    (mkPeer (bs "cGVlcg==") [] (bs "fd00::1") 51820 (bs "0.0.0.0/0, ::/0") 25).

Lemma config_roundtrip_witness :
  let ls := bs "# exported" :: [] :: map (fun l => 9 :: l ++ [13]) (config_lines demo) in
  ParseText (join 10 ls) WireGuardConfig = demo.
Proof.
  cbv zeta. apply (config_roundtrip demo).
  - split; [|vm_compute; repeat split; (discriminate || (intros H; repeat (apply elem_of_cons in H as [H|H]; [discriminate H|]); by apply elem_of_nil in H))].
    repeat (apply Forall_cons_2; [split; [vm_compute; done|split; apply (bool_decide_unpack (_ ∉ _)); reflexivity]|]). apply Forall_nil_2.
  - discriminate.
  - repeat (apply Forall_cons_2; [apply (bool_decide_unpack (_ ∉ _)); vm_compute; reflexivity|]). apply Forall_nil_2.
  - vm_compute. reflexivity.
Defined.

(** A port out of range is not refused but wraps, unlike OpenVPN's parse_port;
    an endpoint without a port still sets the host. *)
Example endpoint_port_wraps : split_endpoint (bs "vpn.example:99999") [] 0 = (bs "vpn.example", 34463).
Proof. reflexivity. Qed.
Example endpoint_without_port : split_endpoint (bs "vpn.example") (bs "old") 1 = (bs "vpn.example", 1).
Proof. reflexivity. Qed.

End WgConfig.

Module OvpnConfig.
Import VPNProfile OpenVPNConfigParser.

Definition run (ls : list bytes) (s : state) : state := fold_left parse_line ls s.

(** ** Inline blocks *)

Lemma trim_zlen0 (l : bytes) : (zlen l =? 0) = false -> l <> [].
Proof. by destruct l. Qed.

(** Inside a block nothing happens until the matching close tag. *)
Lemma run_body tag body s : zlen tag <> 0 -> inlineTag s = tag ->
  Forall (fun l => trim l <> close_tag tag) body -> run body s = s.
Proof.
  intros Ht Hs Hb. induction Hb as [|l body Hl _ IH]; [done|]. unfold run. cbn [fold_left].
  assert (E : parse_line s l = s).
  { unfold parse_line. cbv zeta. destruct (_ || _ || _); [done|]. rewrite Hs. destruct (Z.eqb_spec (zlen tag) 0); [done|]. cbn [negb].
    by rewrite (proj2 (beq_false _ _) Hl). }
  by rewrite E.
Qed.

Lemma with_tag_same s : inlineTag s = [] -> with_tag [] s = s.
Proof. destruct s as [a b t p]. cbn. by intros ->. Qed.

(** A whole block is one no-op, whatever its body says. *)
Lemma run_block tag open body close s :
  inlineTag s = [] -> opens (trim open) = true -> trim open = bs "<" ++ tag ++ bs ">" -> zlen tag <> 0 ->
  trim close = close_tag tag -> Forall (fun l => trim l <> close_tag tag) body ->
  run (open :: body ++ [close]) s = s.
Proof.
  intros Hs Ho Eo Ht Ec Hb. unfold run. cbn [fold_left].
  assert (E1 : parse_line s open = with_tag tag s).
  { unfold parse_line. cbv zeta. rewrite Ho, Hs. rewrite Eo.
    assert (E : zlen (bs "<" ++ tag ++ bs ">") = zlen tag + 2) by (rewrite !zlen_app; change (zlen (bs "<")) with 1; change (zlen (bs ">")) with 1; lia).
    rewrite E. pose proof (zlen_nonneg tag). destruct (Z.eqb_spec (zlen tag + 2) 0); [lia|]. cbn [orb].
    change (at_ (bs "<" ++ tag ++ bs ">") 0) with 60. cbn [orb Z.eqb negb zlen length].
    replace (zlen tag + 2 - 2) with (zlen tag) by lia. f_equal. unfold slice.
    change (zdrop 1 (bs "<" ++ tag ++ bs ">")) with (tag ++ bs ">"). by apply ztake_app. }
  rewrite E1, fold_left_app. change (fold_left parse_line body (with_tag tag s)) with (run body (with_tag tag s)).
  rewrite (run_body tag body (with_tag tag s) Ht eq_refl Hb). cbn [fold_left].
  unfold parse_line. cbv zeta. rewrite Ec. unfold close_tag.
  assert (E : zlen (bs "</" ++ tag ++ bs ">") <> 0) by (rewrite !zlen_app; change (zlen (bs "</")) with 2; pose proof (zlen_nonneg tag); pose proof (zlen_nonneg (bs ">")); lia).
  destruct (Z.eqb_spec (zlen (bs "</" ++ tag ++ bs ">")) 0); [done|]. change (at_ (bs "</" ++ tag ++ bs ">") 0) with 60. cbn [orb Z.eqb].
  cbn [with_tag inlineTag]. destruct (Z.eqb_spec (zlen tag) 0); [done|]. cbn [negb]. unfold close_tag. rewrite beq_refl.
  exact (with_tag_same s Hs).
Qed.

(** ** Directives *)

(** The directives of a text, outside the inline blocks. *)
Fixpoint directives (tag : bytes) (ls : list bytes) : list (list bytes) :=
  match ls with
  | [] => []
  | raw :: ls =>
      let line := trim raw in
      if (zlen line =? 0) || (at_ line 0 =? 35) || (at_ line 0 =? 59) then directives tag ls
      else if negb (zlen tag =? 0) then directives (if beq line (close_tag tag) then [] else tag) ls
      else if opens line then directives (slice 1 (zlen line - 2) line) ls
      else tokenize line :: directives tag ls
  end.

Definition is_remote (d : list bytes) : bool := beq (hd [] d) (bs "remote") && (2 <=? zlen d).

(** The port a directive sets, if it is a port line with a port in range. *)
Definition port_of (d : list bytes) : option Z :=
  if beq (hd [] d) (bs "port") && (2 <=? zlen d) && negb (parse_port (nth 1 d []) =? 0) then Some (parse_port (nth 1 d [])) else None.
Definition remote_port (d : list bytes) : option Z :=
  if (3 <=? zlen d) && negb (parse_port (nth 2 d []) =? 0) then Some (parse_port (nth 2 d [])) else None.
Definition proto_of (d : list bytes) : option bytes :=
  if is_remote d then if 4 <=? zlen d then Some (normalize_proto (nth 3 d [])) else None
  else if beq (hd [] d) (bs "proto") && (2 <=? zlen d) then Some (normalize_proto (nth 1 d [])) else None.

(** Only the first remote counts. *)
Fixpoint one_remote (seen : bool) (ds : list (list bytes)) : list (list bytes) :=
  match ds with
  | [] => []
  | d :: ds => if is_remote d then if seen then one_remote seen ds else d :: one_remote true ds else d :: one_remote seen ds
  end.

(** What the fields should be. *)
Definition last_of {A} (l : list A) (x : A) : A := default x (last l).
Definition server_of (ds : list (list bytes)) (x : bytes) : bytes :=
  match List.find is_remote ds with Some d => cstr (nth 1 d []) | None => x end.
Definition ports_of (ds : list (list bytes)) (x : Z) : Z :=
  match last (omap port_of ds) with
  | Some n => n
  | None => match List.find is_remote ds ≫= remote_port with Some n => n | None => x end
  end.
Definition protocol_of (ds : list (list bytes)) (x : bytes) : bytes := last_of (omap proto_of (one_remote false ds)) x.

Lemma with_tag_with t t' s : with_tag t (with_tag t' s) = with_tag t s.
Proof. done. Qed.

Lemma run_directive_tag d t s : run_directive d (with_tag t s) = with_tag t (run_directive d s).
Proof.
  unfold run_directive. destruct d as [|x d]; [done|]. cbv zeta. unfold remote. cbv zeta.
  destruct (_ && _); [by destruct s as [? [] ? ?]|]. destruct (_ && _); [done|].
  destruct (_ && _); [by destruct (_ =? 0)|]. destruct (beq _ _); [|done]. cbn [prof with_tag]. by destruct (_ =? 0).
Qed.

Definition run_all (ds : list (list bytes)) (s : state) : state := fold_left (fun s d => run_directive d s) ds s.

Lemma run_all_tag ds t s : run_all ds (with_tag t s) = with_tag t (run_all ds s).
Proof. revert s. induction ds as [|d ds IH]; intros s; [done|]. unfold run_all in *. cbn [fold_left]. by rewrite run_directive_tag, IH. Qed.

(** The state machine runs the directives and keeps track of the blocks. *)
Lemma run_directives ls s :
  exists t, run ls s = with_tag t (run_all (directives (inlineTag s) ls) s).
Proof.
  revert s. induction ls as [|raw ls IH]; intros s; [exists (inlineTag s); by destruct s|].
  change (run (raw :: ls) s) with (run ls (parse_line s raw)). cbn [directives]. unfold parse_line. cbv zeta.
  destruct (_ || _ || _); [apply IH|]. assert (G : forall t', exists t, run ls (with_tag t' s) = with_tag t (run_all (directives t' ls) s)).
  { intros t'. destruct (IH (with_tag t' s)) as [t E]. exists t. by rewrite E, run_all_tag. }
  destruct (negb (zlen (inlineTag s) =? 0)) eqn:Et.
  - destruct (beq _ _); [apply G|apply IH].
  - destruct (opens _); [apply G|]. change (run_all (tokenize (trim raw) :: ?ds) s) with (run_all ds (run_directive (tokenize (trim raw)) s)). destruct (IH (run_directive (tokenize (trim raw)) s)) as [t E]. exists t. rewrite E.
    assert (Ei : inlineTag (run_directive (tokenize (trim raw)) s) = inlineTag s).
    { replace s with (with_tag (inlineTag s) s) at 1 by by destruct s. by rewrite run_directive_tag. }
    by rewrite Ei.
Qed.

(** ** What the directives leave *)

(** A directive as the state machine sees it. *)
Lemma run_directive_spec d s :
  run_directive d s =
    if is_remote d then remote d s
    else
      let p := match proto_of d with Some x => with_protocol x (prof s) | None => prof s end in
      match port_of d with
      | Some n => mkState true (sawRemote s) (inlineTag s) (with_port n p)
      | None => mkState (sawPort s) (sawRemote s) (inlineTag s) p
      end.
Proof.
  unfold run_directive, proto_of, port_of. destruct d as [|x d]; [by destruct s|]. cbv zeta. unfold is_remote. cbn [hd].
  destruct (beq x (bs "remote") && _) eqn:E1; [done|]. destruct (beq x (bs "proto") && _) eqn:E2.
  - apply andb_true_iff in E2 as [->%beq_true _]. reflexivity.
  - destruct (beq x (bs "port") && _) eqn:E3.
    + cbn [andb]. destruct (parse_port _ =? 0); cbn [negb]; [by destruct s|done].
    + cbn [andb]. destruct (beq x (bs "auth-user-pass")); [|by destruct s]. destruct (Z.eqb_spec (zlen (fUsername (prof s))) 0) as [E|]; [|by destruct s].
      apply zlen_0_nil in E. unfold with_username. rewrite <- E. by destruct s as [? ? ? []].
Qed.

Lemma last_of_cons {A} (y x : A) l : last_of (y :: l) x = last_of l y.
Proof. unfold last_of. by destruct l as [|z l]; [|rewrite last_cons; destruct (last (z :: l)) eqn:E; [|apply last_None in E]]. Qed.

Lemma last_cons_default {A} (y : A) l : last (y :: l) = Some (default y (last l)).
Proof. rewrite last_cons. by destruct (last l). Qed.

(** After any directives: the first remote's host, the last port line or else
    the first remote's port, the last transport named. *)
Lemma run_all_fields ds s :
  let s' := run_all ds s in
  fServer (prof s') = (if sawRemote s then fServer (prof s) else server_of ds (fServer (prof s)))
  /\ fPort (prof s') = match last (omap port_of ds) with
                       | Some n => n
                       | None => if sawRemote s || sawPort s then fPort (prof s)
                                 else default (fPort (prof s)) (List.find is_remote ds ≫= remote_port)
                       end
  /\ fProtocol (prof s') = last_of (omap proto_of (one_remote (sawRemote s) ds)) (fProtocol (prof s))
  /\ fName (prof s') = fName (prof s) /\ fUsername (prof s') = fUsername (prof s)
  /\ fConfigPath (prof s') = fConfigPath (prof s) /\ fBackendType (prof s') = fBackendType (prof s) /\ fAuthKey (prof s') = fAuthKey (prof s).
Proof.
  cbv zeta. revert s. induction ds as [|d ds IH]; intros s.
  { cbn. by destruct (sawRemote s), (sawPort s). }
  change (run_all (d :: ds) s) with (run_all ds (run_directive d s)).
  destruct (IH (run_directive d s)) as (I1 & I2 & I3 & I4 & I5 & I6 & I7 & I8). rewrite I1, I2, I3, I4, I5, I6, I7, I8. clear I1 I2 I3 I4 I5 I6 I7 I8 IH.
  rewrite run_directive_spec. destruct (is_remote d) eqn:Er.
  - assert (Ep : port_of d = None).
    { unfold port_of. unfold is_remote in Er. apply andb_true_iff in Er as [->%beq_true _]. reflexivity. }
    unfold server_of. cbn [omap list_omap one_remote List.find]. rewrite Ep, Er. unfold remote. cbv zeta.
    assert (Eq : proto_of d = if 4 <=? zlen d then Some (normalize_proto (nth 3 d [])) else None) by (unfold proto_of; by rewrite Er).
    destruct (sawRemote s) eqn:Es; [by rewrite Es|]. cbn [omap list_omap]. rewrite Eq. cbn [sawRemote sawPort prof orb].
    unfold remote_port, default. cbn [mbind option_bind]. cbn [omap list_omap].
    destruct (3 <=? zlen d), (sawPort s), (parse_port (nth 2 d []) =? 0), (4 <=? zlen d); cbn [negb andb fPort fServer fProtocol fName fUsername fConfigPath fBackendType fAuthKey with_port with_protocol with_server];
      rewrite ?last_of_cons; repeat split; by destruct (last _).
  - cbv zeta. cbn [omap list_omap one_remote List.find]. unfold server_of. cbn [List.find]. rewrite Er. cbn [omap list_omap].
    destruct (port_of d) as [n|], (proto_of d) as [x|]; cbn [sawRemote sawPort prof fPort fServer fProtocol fName fUsername fConfigPath fBackendType fAuthKey with_port with_protocol];
      rewrite ?last_of_cons, ?last_cons_default, ?orb_true_r; repeat split; by destruct (last _).
Qed.

(** What the profile shows of an OpenVPN configuration: the host is the first remote line's, the port that of the last valid port line and else the first remote's, the transport the last one named; fail-over remotes, out-of-range ports and the bodies of inline blocks change nothing, and the other fields stay. *)
Theorem ParseText_spec ls p :
  ls <> [] -> Forall (fun l => 10 ∉ l) ls ->
  let ds := directives [] ls in
  let p' := ParseText (join 10 ls) p in
  fServer p' = server_of ds (fServer p)
  /\ fPort p' = ports_of ds (if fPort p =? 0 then 1194 else fPort p)
  /\ fProtocol p' = protocol_of ds (if zlen (fProtocol p) =? 0 then bs "udp" else fProtocol p)
  /\ fName p' = fName p /\ fUsername p' = fUsername p
  /\ fConfigPath p' = fConfigPath p /\ fBackendType p' = fBackendType p /\ fAuthKey p' = fAuthKey p.
Proof.
  intros Hls Hnl. cbv zeta. unfold ParseText. rewrite split_on_join by done. set (s := mkState false false [] (defaults p)).
  change (fold_left parse_line ls s) with (run ls s). destruct (run_directives ls s) as [t E]. rewrite E.
  change (prof (with_tag t ?x)) with (prof x). change (inlineTag s) with (@nil Z).
  destruct (run_all_fields (directives [] ls) s) as (I1 & I2 & I3 & I4 & I5 & I6 & I7 & I8).
  rewrite I1, I2, I3, I4, I5, I6, I7, I8. unfold s, defaults, ports_of, protocol_of. cbn [sawRemote sawPort prof orb].
  destruct (zlen (fProtocol p) =? 0), (fPort p =? 0) eqn:Ep; cbn [fPort fServer fProtocol fName fUsername fConfigPath fBackendType fAuthKey with_port with_protocol]; rewrite ?Ep;
    cbn [fPort fServer fProtocol fName fUsername fConfigPath fBackendType fAuthKey with_port with_protocol]; repeat split; by destruct (last _), (_ ≫= _).
Qed.

Definition demo_text : list bytes :=
  [bs "client"; bs "remote a.example 443 tcp-client"; bs "<ca>"; bs "remote evil.example 1"; bs "port 7"; bs "</ca>";
   bs "port 99999"; bs "remote b.example 1194 udp"; bs "port 8443 ; comment"].

Lemma ParseText_spec_witness :
  let p' := ParseText (join 10 demo_text) VPNProfile in
  fServer p' = bs "a.example" /\ fPort p' = 8443 /\ fProtocol p' = bs "tcp".
Proof.
  cbv zeta. destruct (ParseText_spec demo_text VPNProfile) as (E1 & E2 & E3 & _).
  - discriminate.
  - repeat (apply Forall_cons_2; [apply (bool_decide_unpack (_ ∉ _)); vm_compute; reflexivity|]). apply Forall_nil_2.
  - rewrite E1, E2, E3. vm_compute. repeat split.
Defined.

(** auth-user-pass leaves no trace in the profile. *)
Example auth_user_pass_unrecorded : ParseText (bs "auth-user-pass") VPNProfile = ParseText [] VPNProfile.
Proof. reflexivity. Qed.

End OvpnConfig.

Module TSConfigs.
Import Message TSConfig.

(** ** The identity directory *)

Lemma sanitized_chars name c : c ∈ _SanitizeComponent name -> safe_char c = true.
Proof.
  unfold _SanitizeComponent. cbv zeta. set (out := map _ name).
  assert (G : forall l, Forall (fun c => safe_char c = true) l -> Forall (fun c => safe_char c = true) (drop_while (fun c => c =? 46) l)).
  { induction 1 as [|x l Hx Hl IH]; [apply Forall_nil_2|]. cbn [drop_while]. destruct (x =? 46); [done|by apply Forall_cons_2]. }
  assert (Ho : Forall (fun c => safe_char c = true) out).
  { apply Forall_forall. intros x (y & -> & _)%list_elem_of_fmap. destruct (safe_char y) eqn:E; [done|reflexivity]. }
  destruct (zlen _ =? 0).
  - intros Hc%list_elem_of_singleton. by subst.
  - intros Hc. exact (proj1 (Forall_forall _ _) (G out Ho) c Hc).
Qed.

Lemma drop_while_hd p (l : bytes) : match drop_while p l with [] => True | c :: _ => p c = false end.
Proof. induction l as [|c l IH]; [done|]. cbn. destruct (p c) eqn:E; [done|done]. Qed.

(** Whatever name the user picks, its identity lives in one directory right under the tailscale directory: the component is not empty, has no separator and does not start with a dot. *)
Theorem IdentityDir_confined name create o dir :
  IdentityDir name create o = inr dir ->
  exists base component,
    io_settings o = inr base
    /\ dir = Append (Append (Append base kSettingsDir) kTailscaleDir) component
    /\ component <> [] /\ (47 ∉ component) /\ hd 0 component <> 46.
Proof.
  unfold IdentityDir, BaseDir. destruct (zlen name =? 0); [done|]. destruct (io_settings o) as [e|base] eqn:Es; [done|].
  intros E. exists base, (_SanitizeComponent name). split; [done|]. split.
  { destruct create; [|by injection E]. destruct (io_mkdir o); try done. by injection E. }
  split; [|split].
  - unfold _SanitizeComponent. cbv zeta. destruct (Z.eqb_spec (zlen (drop_while (fun c => c =? 46) (map (fun c => if safe_char c then c else 95) name))) 0) as [|Hn]; [done|].
    intros E2. by rewrite E2 in Hn.
  - intros Hc%sanitized_chars. discriminate Hc.
  - unfold _SanitizeComponent. cbv zeta. pose proof (drop_while_hd (fun c => c =? 46) (map (fun c => if safe_char c then c else 95) name)) as Hd.
    destruct (drop_while _ _) as [|c l]; [done|]. rewrite zlen_cons. pose proof (zlen_nonneg l). destruct (Z.eqb_spec (zlen l + 1) 0); [lia|].
    cbn [hd]. by apply Z.eqb_neq.
Qed.

Definition all_ok : io := mkIo (inr (bs "/s")) B_OK B_OK B_OK B_OK.

Lemma IdentityDir_confined_witness :
  IdentityDir (bs "../../etc") true all_ok = inr (bs "/s/Sotoportego/tailscale/_.._etc")
  /\ exists base component, io_settings all_ok = inr base
     /\ bs "/s/Sotoportego/tailscale/_.._etc" = Append (Append (Append base kSettingsDir) kTailscaleDir) component
     /\ component <> [] /\ (47 ∉ component) /\ hd 0 component <> 46.
Proof. split; [reflexivity|]. apply (IdentityDir_confined (bs "../../etc") true all_ok). reflexivity. Defined.

(** Two profiles can share an identity. *)
Example identities_collide : IdentityDir (bs "my net") true all_ok = IdentityDir (bs "my/net") true all_ok.
Proof. reflexivity. Qed.

(** ** Saving and loading *)

(** The control URL comes back, as long as it has no trailing slash left. *)
Lemma save_load o disk c c0 d :
  fProfileName c <> [] -> fControlURL c <> [] -> 0 ∉ fControlURL c -> at_ (fControlURL c) (zlen (fControlURL c) - 1) <> 47 ->
  io_settings o = inr d -> io_mkdir o = B_OK -> io_open o = B_OK -> io_flatten o = B_OK -> io_rename o = B_OK ->
  let '(st, ds) := Save o disk c in
  st = B_OK /\ Load (fProfileName c) o (List.last ds disk) c0 = (B_OK, mkConfig (fControlURL c) [] (fProfileName c)).
Proof.
  intros Hn Hu Hz Hs E1 E2 E3 E4 E5. unfold Save, Load, _ConfigFilePath, IdentityDir, BaseDir. rewrite E1, E2, E3, E4, E5.
  assert (En : (zlen (fProfileName c) =? 0) = false) by (destruct (Z.eqb_spec (zlen (fProfileName c)) 0) as [E|]; [by apply zlen_0_nil in E|done]).
  rewrite En. set (path := Append _ kConfigLeaf). cbn [List.last]. split; [done|]. rewrite lookup_insert_eq.
  set (u := fControlURL c) in *.
  change (FindString kFieldControlURL (add kFieldControlURL (VString u) (BMessage 0))) with (Some (cstr u)).
  assert (Eu : cstr u = u) by (apply cstr_text, Forall_forall; intros x Hx ->; done). rewrite Eu.
  unfold SetControlURL. cbn [fAuthKey fProfileName MakeDefault]. destruct u as [|x u]; [done|].
  by rewrite (proj2 (Z.eqb_neq _ _) Hs).
Qed.

(** One slash is removed each time the URL is set, so a URL saved with one left
    changes when it is loaded; and Load drops a pre-auth key. *)
Example trailing_slash_shrinks :
  let c := SetAuthKey (bs "key") (mkConfig (fControlURL (SetControlURL (Some (bs "http://h//")) MakeDefault)) [] (bs "p")) in
  fControlURL c = bs "http://h/"
  /\ Load (bs "p") all_ok (List.last (snd (Save all_ok ∅ c)) ∅) c = (B_OK, mkConfig (bs "http://h") [] (bs "p")).
Proof. split; vm_compute; reflexivity. Qed.

End TSConfigs.
