(* ===== verification/Tun.v ===== *)
(** * Tun: the tunnel device helpers (src/backend/TunDevice.{h,cpp})

    The helpers run ifconfig and route as child processes.  The commands a
    function runs are appended to a list; whether an ifconfig call succeeds is
    a function of its arguments, and route's table, as it prints it, a text. *)

From S2P Require Import Prelude CLib Routes.
Open Scope Z_scope.
Open Scope soto_scope.

Module TunDevice.

Inductive cmd := Ifconfig (args : list bytes) | Route (args : list bytes).

Section WithIfconfig.
(** Spawned, waited for, and exited with 0. *)
Variable ifconfig : list bytes -> bool.

Definition RunIfconfig (args : list bytes) (cmds : list cmd) : bool * list cmd :=
  (ifconfig args, cmds ++ [Ifconfig args]).

Definition slot_name (slot : Z) : bytes := bs "tun/" ++ fmt_d slot.

(** Slots from [slot] on, [n] of them. *)
Fixpoint probe (n : nat) (slot : Z) (cmds : list cmd) : option (bytes * bytes) * list cmd :=
  match n with
  | O => (None, cmds)
  | S n =>
      let name := slot_name slot in
      let '(_, cmds) := RunIfconfig [bs "--delete"; name] cmds in
      let '(up, cmds) := RunIfconfig [name; bs "up"] cmds in
      if up then (Some (name, bs "/dev/tun/" ++ fmt_d slot), cmds) else probe n (slot + 1) cmds
  end.

Definition ProbeFreeSlot (cmds : list cmd) : option (bytes * bytes) * list cmd := probe 8 0 cmds.
End WithIfconfig.

Definition RunRoute (args : list bytes) (cmds : list cmd) : list cmd := cmds ++ [Route args].

Definition looks_like_ipv4 (s : bytes) : bool :=
  forallb (fun c => (c =? 46) || isdigit c) s && (zlen (List.filter (Z.eqb 46) s) =? 3).

(** fgets with a buffer of 512: at most 511 bytes, up to and with a newline. *)
Fixpoint fgets (n : nat) (text : bytes) : bytes * bytes :=
  match n, text with
  | O, _ | _, [] => ([], text)
  | S n, c :: text =>
      if c =? 10 then ([c], text) else let '(l, rest) := fgets n text in (c :: l, rest)
  end.

Fixpoint fgets_lines (fuel : nat) (text : bytes) : list bytes :=
  match fuel, text with
  | O, _ | _, [] => []
  | S fuel, _ => let '(l, rest) := fgets 511 text in l :: fgets_lines fuel rest
  end.

Definition separator (c : Z) : bool := (c =? 32) || (c =? 9) || (c =? 13) || (c =? 10).

(** strtok_r over the line's characters up to its first NUL. *)
Fixpoint tokens_of (line current : bytes) : list bytes :=
  match line with
  | [] => if zlen current =? 0 then [] else [current]
  | c :: line =>
      if separator c then (if zlen current =? 0 then tokens_of line [] else current :: tokens_of line [])
      else tokens_of line (current ++ [c])
  end.

Definition strtok_line (line : bytes) : list bytes := take 16 (tokens_of (cstr line) []).

Definition zero_addr : bytes := bs "0.0.0.0".

(** The gateway and interface of one line of the table. *)
Definition gateway_of (tokens : list bytes) : option (bytes * bytes) :=
  if (zlen tokens <? 3) || negb (beq (nth 0 tokens []) zero_addr) || negb (beq (nth 1 tokens []) zero_addr) then None
  else
    (fun g => (g, List.last tokens []))
    <$> List.find (fun t => looks_like_ipv4 t && negb (beq t zero_addr)) (slice 2 (zlen tokens - 1 - 2) tokens).

(** [None] is a failed popen. *)
Definition DefaultGateway (route_output : option bytes) : option (bytes * bytes) :=
  match route_output with
  | None => None
  | Some text => hd_error (omap (fun l => gateway_of (strtok_line l)) (fgets_lines (S (length text)) text))
  end.

(** ** The system's route table *)

(** What route does with the entry its arguments name; a table is seen through
    the entries it holds. *)
Class RouteTable (T : Type) := {
  entries : T -> list bytes -> Prop;
  route : list bytes -> T -> T }.

Class RouteTableLaws (T : Type) `{RouteTable T} : Prop := {
  route_add : forall e t x, entries (route (bs "add" :: e) t) x <-> x = e \/ entries t x;
  route_delete : forall e t x, entries (route (bs "delete" :: e) t) x <-> x <> e /\ entries t x }.

(** The table after the commands. *)
Definition run_cmds {T} `{RouteTable T} (cmds : list cmd) (t : T) : T :=
  fold_left (fun t c => match c with Route args => route args t | Ifconfig _ => t end) cmds t.

Lemma run_cmds_app {T} `{RouteTable T} a b (t : T) : run_cmds (a ++ b) t = run_cmds b (run_cmds a t).
Proof. apply fold_left_app. Qed.

(** The arguments that name an entry, and one route call for each of several. *)
Definition host_mask : bytes := bs "255.255.255.255".
Definition route_entry (iface net gw mask : bytes) : list bytes :=
  [iface; bs "inet"; net; bs "gw"; gw; bs "netmask"; mask].
Definition run_routes (verb : string) (es : list (list bytes)) (cs : list cmd) : list cmd :=
  fold_left (fun cs e => RunRoute (bs verb :: e) cs) es cs.

Section WithTable.
Context {T : Type} `{RouteTableLaws T}.

Lemma run_routes_cmds verb es cs : run_routes verb es cs = cs ++ map (fun e => Route (bs verb :: e)) es.
Proof.
  revert cs. induction es as [|e es IH]; intros cs; [by rewrite app_nil_r|].
  unfold run_routes in *. cbn [fold_left]. rewrite IH. unfold RunRoute. by rewrite <- app_assoc.
Qed.

Lemma added es (t : T) x : entries (run_cmds (map (fun e => Route (bs "add" :: e)) es) t) x <-> x ∈ es \/ entries t x.
Proof.
  revert t. induction es as [|e es IH]; intros t.
  - cbn. rewrite elem_of_nil. tauto.
  - cbn [map]. unfold run_cmds in *. cbn [fold_left]. rewrite IH, route_add, elem_of_cons. tauto.
Qed.

Lemma deleted es (t : T) x : entries (run_cmds (map (fun e => Route (bs "delete" :: e)) es) t) x <-> (x ∉ es) /\ entries t x.
Proof.
  revert t. induction es as [|e es IH]; intros t.
  - cbn. rewrite elem_of_nil. tauto.
  - cbn [map]. unfold run_cmds in *. cbn [fold_left]. rewrite IH, route_delete, not_elem_of_cons. tauto.
Qed.

Lemma run_routes_table verb es cs (t : T) :
  run_cmds (run_routes verb es cs) t = run_cmds (map (fun e => Route (bs verb :: e)) es) (run_cmds cs t).
Proof. by rewrite run_routes_cmds, run_cmds_app. Qed.

Definition same_routes (t u : T) : Prop := forall x, entries t x <-> entries u x.

Lemma run_routes_app verb es c cs : run_routes verb es (c ++ cs) = c ++ run_routes verb es cs.
Proof. by rewrite !run_routes_cmds, app_assoc. Qed.

Lemma run_ifconfigs cs (t : T) : run_cmds (map Ifconfig cs) t = t.
Proof. induction cs as [|c cs IH]; [done|]. exact IH. Qed.

(** Probing names a slot and runs ifconfig only. *)
Lemma probe_slots f cs : exists l, snd (ProbeFreeSlot f cs) = cs ++ map Ifconfig l
  /\ match fst (ProbeFreeSlot f cs) with Some (iface, _) => exists n, iface = slot_name n | None => True end.
Proof.
  unfold ProbeFreeSlot. generalize 0 as slot. generalize 8%nat as n. intros n. revert cs.
  induction n as [|n IH]; intros cs slot; cbn [probe]; [exists []; by rewrite app_nil_r|]. cbn [RunIfconfig]. destruct (f _); cbn [fst snd].
  - exists [[bs "--delete"; slot_name slot]; [slot_name slot; bs "up"]]. rewrite <- app_assoc. split; [done|by exists slot].
  - destruct (IH ((cs ++ [Ifconfig [bs "--delete"; slot_name slot]]) ++ [Ifconfig [slot_name slot; bs "up"]]) (slot + 1)) as (l & E & F).
    exists ([bs "--delete"; slot_name slot] :: [slot_name slot; bs "up"] :: l). split; [|exact F]. by rewrite E, <- !app_assoc.
Qed.

End WithTable.

(** A route table as a list of entries. *)
#[export] Instance list_table : RouteTable (list (list bytes)) := {|
  entries t x := x ∈ t;
  route args t :=
    match args with
    | verb :: e => if beq verb (bs "add") then e :: t else if beq verb (bs "delete") then List.filter (fun x => negb (bool_decide (x = e))) t else t
    | [] => t
    end |}.

#[export] Instance list_table_laws : RouteTableLaws (list (list bytes)).
Proof.
  split; intros e t x; cbn [entries route list_table].
  - change (beq (bs "add") (bs "add")) with true. cbn iota. by rewrite elem_of_cons.
  - change (beq (bs "delete") (bs "add")) with false. change (beq (bs "delete") (bs "delete")) with true. cbn iota.
    rewrite !list_elem_of_In, List.filter_In, negb_true_iff, bool_decide_eq_false. tauto.
Qed.

(** ** Facts *)

(** Fuel is enough: every line takes at least one byte. *)
Lemma fgets_shorter n text : (0 < n)%nat -> text <> [] -> (length (snd (fgets n text)) < length text)%nat.
Proof.
  assert (G : forall n text, (length (snd (fgets n text)) <= length text)%nat).
  { induction n0 as [|n0 IH]; intros [|c t]; cbn [fgets snd]; try done. destruct (c =? 10); cbn [snd length]; [lia|].
    specialize (IH t). destruct (fgets n0 t) as [l r]. cbn [snd] in *. lia. }
  intros Hn Ht. destruct n as [|n]; [lia|]. destruct text as [|c t]; [done|]. cbn [fgets].
  destruct (c =? 10); cbn [snd length]; [lia|]. pose proof (G n t). destruct (fgets n t) as [l r]. cbn [snd] in *. lia.
Qed.

Lemma fgets_lines_fuel n m text : (length text <= n)%nat -> (length text <= m)%nat -> fgets_lines n text = fgets_lines m text.
Proof.
  revert m text. induction n as [|n IH]; intros [|m] [|c t] Hn Hm; cbn [length] in *; try done; try lia.
  cbn [fgets_lines]. pose proof (fgets_shorter 511 (c :: t) ltac:(lia) ltac:(done)) as Hs.
  destruct (fgets 511 (c :: t)) as [l rest]. cbn [snd length] in Hs. f_equal. apply IH; lia.
Qed.

Example gateway_example :
  DefaultGateway (Some (bs "Destination Netmask Gateway Interface
0.0.0.0 0.0.0.0 192.168.1.1 /dev/net/eth0
")) = Some (bs "192.168.1.1", bs "/dev/net/eth0").
Proof. vm_compute. reflexivity. Qed.

End TunDevice.
