(* ===== verification/TsRouting.v ===== *)
(** * TsRouting: tun slot, subnet routes and exit node of a tailnet session (src/backend/tailscale/TailscaleBackend.cpp)

    The functions that bring the tun up and down and keep the system's route
    table in step with the peers: subnet routes, and the default route and
    host-route carve-outs of an exit node.  Commands are appended to [cmds];
    what ifconfig, route and the resolver answer is in [env]. *)

From S2P Require Import Prelude CLib Routes PeerPath WGPeer Identity Netmap PeerSet Tun TsPlane.
Open Scope Z_scope.
Open Scope soto_scope.

Module TsRouting.

Import TunDevice TSRoutes TsPlane.

Record routing := mkRouting {
  fTunInterface : bytes; fTunNode : bytes; fTunSelfIP : bytes;
  fInstalledRoutes : list SubnetRoute;
  fDesiredExitNode : bytes; fActiveExitNode : bytes;
  fExitCarveouts : list bytes;
  fExitOrigGateway : bytes; fExitOrigGatewayIface : bytes; fExitDefaultReplaced : bool;
  cmds : list cmd }.

Definition no_routing : routing := mkRouting [] [] [] [] [] [] [] [] [] false [].

Definition with_slot (iface node self : bytes) (r : routing) : routing :=
  mkRouting iface node self (fInstalledRoutes r) (fDesiredExitNode r) (fActiveExitNode r) (fExitCarveouts r)
    (fExitOrigGateway r) (fExitOrigGatewayIface r) (fExitDefaultReplaced r) (cmds r).
Definition with_routes (x : list SubnetRoute) (r : routing) : routing :=
  mkRouting (fTunInterface r) (fTunNode r) (fTunSelfIP r) x (fDesiredExitNode r) (fActiveExitNode r) (fExitCarveouts r)
    (fExitOrigGateway r) (fExitOrigGatewayIface r) (fExitDefaultReplaced r) (cmds r).
Definition with_desired (x : bytes) (r : routing) : routing :=
  mkRouting (fTunInterface r) (fTunNode r) (fTunSelfIP r) (fInstalledRoutes r) x (fActiveExitNode r) (fExitCarveouts r)
    (fExitOrigGateway r) (fExitOrigGatewayIface r) (fExitDefaultReplaced r) (cmds r).
Definition with_exit (active : bytes) (carve : list bytes) (gw iface : bytes) (replaced : bool) (r : routing) : routing :=
  mkRouting (fTunInterface r) (fTunNode r) (fTunSelfIP r) (fInstalledRoutes r) (fDesiredExitNode r) active carve gw iface replaced (cmds r).
Definition with_cmds (x : list cmd) (r : routing) : routing :=
  mkRouting (fTunInterface r) (fTunNode r) (fTunSelfIP r) (fInstalledRoutes r) (fDesiredExitNode r) (fActiveExitNode r) (fExitCarveouts r)
    (fExitOrigGateway r) (fExitOrigGatewayIface r) (fExitDefaultReplaced r) x.

(** What the system answers, and the two hosts whose addresses stay outside. *)
Record env := mkEnv {
  e_ifconfig : list bytes -> bool;
  e_route : option bytes;             (* the table route prints *)
  e_resolve : bytes -> list bytes;    (* getaddrinfo: the dotted IPv4 addresses *)
  fControlHost : bytes;
  fDerpHost : bytes }.

(** ** The tun slot *)

Definition _BringUpTun (y : env) (selfIPv4 : bytes) (r : routing) : routing :=
  if (zlen (fTunInterface r) >? 0) || (zlen selfIPv4 =? 0) then r
  else
    match ProbeFreeSlot (e_ifconfig y) (cmds r) with
    | (None, cs) => with_cmds cs r
    | (Some (iface, node), cs) =>
        let '(up, cs) := RunIfconfig (e_ifconfig y) [iface; bs "inet"; selfIPv4; bs "netmask"; bs "255.192.0.0"] cs in
        if negb up then with_cmds cs r
        else
          let '(_, cs) := RunIfconfig (e_ifconfig y) [iface; bs "mtu"; bs "1280"] cs in
          with_slot iface node selfIPv4 (with_cmds cs r)
    end.

(** ** Subnet routes *)

(** The arguments that name a route through the tun. *)
Definition tun_route (r : routing) (net mask : bytes) : list bytes := route_entry (fTunInterface r) net (fTunSelfIP r) mask.
Definition subnet_entry (r : routing) (s : SubnetRoute) : list bytes := tun_route r (route_net s) (route_mask s).

Definition _SyncRoutes (ps : PeerSet.peers) (r : routing) : routing :=
  if (zlen (fTunInterface r) =? 0) || (zlen (fTunSelfIP r) =? 0) then r
  else
    let desired := ComputeSubnetRoutes (concat (map PeerSet.m_allowedIPs ps)) in
    let '(toAdd, toRemove) := DiffRoutes desired (fInstalledRoutes r) in
    let r := with_routes desired r in
    let cs := run_routes "add" (map (subnet_entry r) toAdd) (cmds r) in
    let cs := run_routes "delete" (map (subnet_entry r) toRemove) cs in
    with_cmds cs r.

Definition _TeardownRoutes (r : routing) : routing :=
  with_routes [] (with_cmds (run_routes "delete" (map (subnet_entry r) (fInstalledRoutes r)) (cmds r)) r).

(** ** The exit node *)

Definition SetExitNode (id : bytes) (r : routing) : routing := with_desired id r.

Definition resolve_all_ipv4 (y : env) (host : bytes) : list bytes := if zlen host =? 0 then [] else e_resolve y host.

(** The text before the last colon, unless that is the first character. *)
Definition ip_part (ep : bytes) : bytes :=
  match find_last 58 ep with
  | Some colon => if colon >? 0 then ztake colon ep else ep
  | None => ep
  end.

Definition nonempty (ip : bytes) : list bytes := if zlen ip >? 0 then [ip] else [].

Definition peer_underlay (p : PeerSet.ManagedPeer) : list bytes :=
  let path := PeerSet.path p in
  flat_map (fun ep => nonempty (ip_part ep)) (PeerSet.m_endpoints p)
  ++ (if is_direct path && (zlen (PeerPath.fEndpoint path) >? 0) then nonempty (ip_part (PeerPath.fEndpoint path)) else []).

Definition _ExitUnderlayIPs (y : env) (ps : PeerSet.peers) (nodeKeyHex : bytes) : list bytes :=
  resolve_all_ipv4 y (fControlHost y)
  ++ (if zlen (fDerpHost y) >? 0 then resolve_all_ipv4 y (fDerpHost y) else [])
  ++ match PeerSet.Find ps (Some nodeKeyHex) with
     | Some i => match ps !! i with Some p => peer_underlay p | None => [] end
     | None => []
     end.

Definition exit_capable (ps : PeerSet.peers) (nodeKeyHex : bytes) : bool :=
  match PeerSet.Find ps (Some nodeKeyHex) with
  | Some i => match ps !! i with Some p => existsb (fun ip => beq ip (bs "0.0.0.0/0")) (PeerSet.m_allowedIPs p) | None => false end
  | None => false
  end.

Definition pin (gw iface ip : bytes) : list bytes := route_entry iface ip gw host_mask.
Definition carrier_default (gw iface : bytes) : list bytes := route_entry iface zero_addr gw zero_addr.
Definition tun_default (r : routing) : list bytes := tun_route r zero_addr zero_addr.

Definition _EnableExitNode (y : env) (ps : PeerSet.peers) (nodeKeyHex : bytes) (r : routing) : routing :=
  if (zlen (fTunInterface r) =? 0) || (zlen (fTunSelfIP r) =? 0) then r
  else if negb (exit_capable ps nodeKeyHex) then r
  else
    match DefaultGateway (e_route y) with
    | None => r
    | Some (gw, iface) =>
        let carve := ComputeExitCarveouts (_ExitUnderlayIPs y ps nodeKeyHex) in
        let cs := run_routes "add" (map (pin gw iface) carve) (cmds r) in
        let cs := run_routes "delete" [carrier_default gw iface] cs in
        let cs := run_routes "add" [tun_default r] cs in
        with_exit nodeKeyHex carve gw iface true (with_cmds cs r)
    end.

Definition _DisableExitNode (r : routing) : routing :=
  if zlen (fActiveExitNode r) =? 0 then r
  else
    let gw := fExitOrigGateway r in
    let iface := fExitOrigGatewayIface r in
    let cs := cmds r in
    let cs :=
      if fExitDefaultReplaced r then
        let cs := run_routes "delete" [tun_default r] cs in
        if zlen gw >? 0 then run_routes "add" [carrier_default gw iface] cs else cs
      else cs in
    let cs := run_routes "delete" (map (pin gw iface) (fExitCarveouts r)) cs in
    with_exit [] [] [] [] false (with_cmds cs r).

Definition _ReconcileExitCarveouts (y : env) (ps : PeerSet.peers) (r : routing) : routing :=
  if (zlen (fActiveExitNode r) =? 0) || (zlen (fExitOrigGateway r) =? 0) then r
  else
    let gw := fExitOrigGateway r in
    let iface := fExitOrigGatewayIface r in
    let desired := ComputeExitCarveouts (_ExitUnderlayIPs y ps (fActiveExitNode r)) in
    let '(toAdd, toRemove) := DiffCarveouts desired (fExitCarveouts r) in
    match toAdd, toRemove with
    | [], [] => r
    | _, _ =>
        let cs := run_routes "add" (map (pin gw iface) toAdd) (cmds r) in
        let cs := run_routes "delete" (map (pin gw iface) toRemove) cs in
        with_exit (fActiveExitNode r) desired gw iface (fExitDefaultReplaced r) (with_cmds cs r)
    end.

Definition _SyncExitNode (y : env) (ps : PeerSet.peers) (r : routing) : routing :=
  let desired := fDesiredExitNode r in
  if negb (beq desired (fActiveExitNode r)) then
    let r := if zlen (fActiveExitNode r) >? 0 then _DisableExitNode r else r in
    if zlen desired >? 0 then _EnableExitNode y ps desired r else r
  else if zlen (fActiveExitNode r) >? 0 then _ReconcileExitCarveouts y ps r
  else r.

Definition _TeardownTun (y : env) (r : routing) : routing :=
  if zlen (fTunInterface r) =? 0 then r
  else
    let r := _DisableExitNode r in
    let r := _TeardownRoutes r in
    let '(_, cs) := RunIfconfig (e_ifconfig y) [bs "--delete"; fTunInterface r] (cmds r) in
    with_slot [] [] [] (with_cmds cs r).

(** ** A session's calls, in any order *)

Inductive event :=
| EvBringUp (y : env) (selfIPv4 : bytes)
| EvSync (ps : PeerSet.peers)
| EvSelect (id : bytes)
| EvExitTick (y : env) (ps : PeerSet.peers)
| EvTeardown (y : env).

Definition step (r : routing) (e : event) : routing :=
  match e with
  | EvBringUp y ip => _BringUpTun y ip r
  | EvSync ps => _SyncRoutes ps r
  | EvSelect id => SetExitNode id r
  | EvExitTick y ps => _SyncExitNode y ps r
  | EvTeardown y => _TeardownTun y r
  end.

(** ** The host's routes *)

Lemma gateway_nonempty out gw iface : DefaultGateway out = Some (gw, iface) -> 0 < zlen gw.
Proof.
  unfold DefaultGateway. destruct out as [text|]; [|done]. induction (fgets_lines _ text) as [|l ls IH]; [done|]. cbn [omap list_omap].
  destruct (gateway_of (strtok_line l)) as [[g i]|] eqn:E; [|exact IH]. cbn [hd_error]. intros [= <- <-]. unfold gateway_of in E.
  destruct (_ || _); [done|]. destruct (List.find _ _) as [t|] eqn:Ef; [|done]. cbn in E. injection E as <- _.
  apply find_some in Ef as [_ Hf]. apply andb_true_iff in Hf as [Hf _]. unfold looks_like_ipv4 in Hf. apply andb_true_iff in Hf as [_ Hf].
  destruct t; [done|]. rewrite zlen_cons. pose proof (zlen_nonneg t). lia.
Qed.

Section WithTable.
Context {T : Type} `{RouteTableLaws T}.
Context (t0 : T).

(** The table before the session: no route of a tunnel slot, no host route
    like those of the carve-outs. *)
Record clean_host : Prop := {
  h_tun : forall n rest, ~ entries t0 (slot_name n :: rest);
  h_pin : forall gw iface ip, ~ entries t0 (pin gw iface ip) }.

(** The gateway route reports is in that table. *)
Definition sound (e : event) : Prop :=
  match e with
  | EvExitTick y _ => forall gw iface, DefaultGateway (e_route y) = Some (gw, iface) -> entries t0 (carrier_default gw iface)
  | _ => True
  end.

Definition table (r : routing) : T := run_cmds (cmds r) t0.

Definition replaced_default (r : routing) (x : list bytes) : Prop :=
  fExitDefaultReplaced r = true /\ x = carrier_default (fExitOrigGateway r) (fExitOrigGatewayIface r).

(** What the fields say about the table. *)
Record routes_ok (r : routing) : Prop := {
  k_slot : fTunInterface r = [] \/ exists n, fTunInterface r = slot_name n;
  k_down : fTunInterface r = [] -> fInstalledRoutes r = [] /\ fActiveExitNode r = [];
  k_off : fActiveExitNode r = [] -> fExitCarveouts r = [] /\ fExitDefaultReplaced r = false;
  k_on : fActiveExitNode r <> [] -> fExitDefaultReplaced r = true /\ 0 < zlen (fExitOrigGateway r)
           /\ entries t0 (carrier_default (fExitOrigGateway r) (fExitOrigGatewayIface r));
  k_low : forall x, entries t0 x -> ~ replaced_default r x -> entries (table r) x;
  k_up : forall x, entries (table r) x ->
           (entries t0 x /\ ~ replaced_default r x) \/ x ∈ map (subnet_entry r) (fInstalledRoutes r)
           \/ x ∈ map (pin (fExitOrigGateway r) (fExitOrigGatewayIface r)) (fExitCarveouts r)
           \/ (fExitDefaultReplaced r = true /\ x = tun_default r);
  k_pins : forall ip, ip ∈ fExitCarveouts r -> entries (table r) (pin (fExitOrigGateway r) (fExitOrigGatewayIface r) ip) }.

Context (Hclean : clean_host).

(** Routes of the slot, the carve-outs and the carrier's default are told
    apart by their names. *)
Definition of_slot (x : list bytes) : Prop := exists n rest, x = slot_name n :: rest.

Lemma not_of_slot x : entries t0 x -> ~ of_slot x.
Proof. intros Hx (n & rest & ->). by apply (h_tun Hclean n rest). Qed.

Lemma carrier_iface gw iface n : entries t0 (carrier_default gw iface) -> iface <> slot_name n.
Proof. intros Hd ->. apply (h_tun Hclean n _ Hd). Qed.

Lemma pin_not_slot gw iface ip : entries t0 (carrier_default gw iface) -> ~ of_slot (pin gw iface ip).
Proof. intros Hd (n & rest & E). injection E as E _. by apply (carrier_iface gw iface n Hd). Qed.

Lemma pin_inj gw iface a b : pin gw iface a = pin gw iface b -> a = b.
Proof. by intros [=]. Qed.

Lemma pin_not_default gw iface ip gw2 iface2 : pin gw iface ip <> carrier_default gw2 iface2.
Proof. intros E. by injection E. Qed.

Lemma subnet_of_slot r s : (exists n, fTunInterface r = slot_name n) -> of_slot (subnet_entry r s).
Proof. intros [n E]. unfold subnet_entry, tun_route, route_entry. rewrite E. by eexists _, _. Qed.

Lemma tun_default_of_slot r : (exists n, fTunInterface r = slot_name n) -> of_slot (tun_default r).
Proof. intros [n E]. unfold tun_default, tun_route, route_entry. rewrite E. by eexists _, _. Qed.

Lemma slot_name_nonempty n : slot_name n <> [].
Proof. by intros E. Qed.

Lemma slot_up r : routes_ok r -> fTunInterface r <> [] -> exists n, fTunInterface r = slot_name n.
Proof. intros K Hn. by destruct (k_slot _ K). Qed.

Lemma elem_map {A B} (f : A -> B) l y : y ∈ map f l <-> exists x, y = f x /\ x ∈ l.
Proof. apply list_elem_of_fmap. Qed.

(** Only ifconfig ran: the table is what it was. *)
Lemma table_ifconfigs r cs l : cs = cmds r ++ map Ifconfig l -> table (with_cmds cs r) = table r.
Proof. intros ->. unfold table. cbn [cmds with_cmds]. by rewrite run_cmds_app, run_ifconfigs. Qed.

(** The exit node's fields and the table are as before: so are their facts. *)
Lemma routes_ok_slot r r2 :
  routes_ok r -> fTunInterface r = [] -> (exists n, fTunInterface r2 = slot_name n) \/ fTunInterface r2 = [] ->
  fInstalledRoutes r2 = fInstalledRoutes r -> fActiveExitNode r2 = fActiveExitNode r -> fExitCarveouts r2 = fExitCarveouts r ->
  fExitOrigGateway r2 = fExitOrigGateway r -> fExitOrigGatewayIface r2 = fExitOrigGatewayIface r ->
  fExitDefaultReplaced r2 = fExitDefaultReplaced r -> table r2 = table r -> routes_ok r2.
Proof.
  intros K Hd Hs E1 E2 E3 E4 E5 E6 E7. destruct (k_down _ K Hd) as [D1 D2]. destruct (k_off _ K D2) as [D3 D4].
  assert (Nr : forall x, ~ replaced_default r2 x) by (intros x [R _]; congruence).
  assert (Nr0 : forall x, ~ replaced_default r x) by (intros x [R _]; congruence).
  split; try congruence.
  - destruct Hs; auto.
  - split; congruence.
  - split; congruence.
  - intros x Hx _. rewrite E7. by apply (k_low _ K).
  - intros x Hx. rewrite E7 in Hx. left. split; [|done]. destruct (k_up _ K x Hx) as [[? _]|[Hi|[Hi|[Hr _]]]]; [done| | |congruence].
    + rewrite D1 in Hi. by apply elem_of_nil in Hi.
    + rewrite D3 in Hi. by apply elem_of_nil in Hi.
  - intros ip Hip. rewrite E3, D3 in Hip. by apply elem_of_nil in Hip.
Qed.

Lemma BringUp_ok y ip r : routes_ok r -> routes_ok (_BringUpTun y ip r).
Proof.
  intros K. unfold _BringUpTun. destruct (zlen (fTunInterface r) >? 0) eqn:Hz; [done|]. destruct (zlen ip =? 0); [done|]. cbn [orb].
  assert (Hd : fTunInterface r = []). { apply zlen_0_nil. pose proof (zlen_nonneg (fTunInterface r)). rewrite Z.gtb_ltb in Hz. apply Z.ltb_ge in Hz. lia. }
  destruct (probe_slots (e_ifconfig y) (cmds r)) as (l & El & Hn). destruct (ProbeFreeSlot _ _) as [[[iface node]|] cs]; cbn [fst snd] in *.
  - cbn [RunIfconfig]. destruct (e_ifconfig y _); cbn [negb].
    + eapply (routes_ok_slot r); try done; [by left|]. cbn. 
      change (table (with_cmds ((cs ++ [Ifconfig [iface; bs "inet"; ip; bs "netmask"; bs "255.192.0.0"]]) ++ [Ifconfig [iface; bs "mtu"; bs "1280"]]) r) = table r).
      apply (table_ifconfigs _ _ (l ++ [[iface; bs "inet"; ip; bs "netmask"; bs "255.192.0.0"]; [iface; bs "mtu"; bs "1280"]])).
      by rewrite El, map_app, <- !app_assoc.
    + eapply (routes_ok_slot r); try done; [by right|].
      apply (table_ifconfigs _ _ (l ++ [[iface; bs "inet"; ip; bs "netmask"; bs "255.192.0.0"]])). by rewrite El, map_app, <- !app_assoc.
  - eapply (routes_ok_slot r); try done; [by right|]. by apply (table_ifconfigs _ _ l).
Qed.

Lemma table_cmds verb es r cs : table (with_cmds (run_routes verb es cs) r) = run_cmds (map (fun e => Route (bs verb :: e)) es) (table (with_cmds cs r)).
Proof. unfold table. cbn [cmds with_cmds]. by rewrite run_routes_table. Qed.

(** A change of the subnet routes. *)
Lemma subnets_ok r desired toAdd toRemove :
  routes_ok r -> (exists n, fTunInterface r = slot_name n) ->
  (forall s, s ∈ toAdd -> s ∈ desired) -> (forall s, s ∈ fInstalledRoutes r -> s ∈ desired \/ s ∈ toRemove) ->
  routes_ok (with_routes desired (with_cmds (run_routes "delete" (map (subnet_entry r) toRemove) (run_routes "add" (map (subnet_entry r) toAdd) (cmds r))) r)).
Proof.
  intros K Hs Ha Hr. set (r2 := with_routes _ _).
  assert (Et : forall x, entries (table r2) x <-> (x ∉ map (subnet_entry r) toRemove) /\ (x ∈ map (subnet_entry r) toAdd \/ entries (table r) x)).
  { intros x. change (table r2) with (table (with_cmds (run_routes "delete" (map (subnet_entry r) toRemove) (run_routes "add" (map (subnet_entry r) toAdd) (cmds r))) r)).
    rewrite table_cmds, deleted, table_cmds, added. done. }
  assert (Nt : forall x l, ~ of_slot x -> x ∉ map (subnet_entry r) l) by (intros x l Hx (s & -> & _)%elem_map; by apply Hx, subnet_of_slot).
  split.
  - apply K.
  - intros Hd. destruct Hs as [n En]. change (fTunInterface r2) with (fTunInterface r) in Hd. rewrite En in Hd. by apply slot_name_nonempty in Hd.
  - apply K.
  - apply K.
  - intros x Hx Hn. apply Et. split; [by apply Nt, not_of_slot|]. right. by apply (k_low _ K).
  - intros x Hx. apply Et in Hx as [Hx [Hx2|Hx2]].
    + right. left. apply elem_map in Hx2 as (s & -> & Hs2). apply elem_map. exists s. split; [done|by apply Ha].
    + destruct (k_up _ K x Hx2) as [?|[Hi|[Hi|Hi]]]; [by left| |by right; right; left|by right; right; right].
      right. left. apply elem_map in Hi as (s & -> & Hs2). apply elem_map. exists s. split; [done|]. destruct (Hr s Hs2); [done|].
      exfalso. apply Hx, elem_map. by exists s.
  - intros ip Hip. apply Et. assert (Ha2 : fActiveExitNode r <> []) by (intros E; destruct (k_off _ K E) as [E2 _]; change (fExitCarveouts r2) with (fExitCarveouts r) in Hip; rewrite E2 in Hip; by apply elem_of_nil in Hip).
    destruct (k_on _ K Ha2) as (_ & _ & D). split; [by apply Nt, pin_not_slot|]. right. by apply (k_pins _ K).
Qed.

Lemma Sync_ok ps r : routes_ok r -> routes_ok (_SyncRoutes ps r).
Proof.
  intros K. unfold _SyncRoutes. destruct (Z.eqb_spec (zlen (fTunInterface r)) 0) as [|Hz]; [done|]. destruct (_ =? 0); [done|]. cbn [orb].
  assert (Hs : exists n, fTunInterface r = slot_name n) by (apply slot_up; [done|]; intros E; by rewrite E in Hz).
  set (desired := ComputeSubnetRoutes _). unfold DiffRoutes.
  apply (subnets_ok r desired); [done|done| |].
  - intros s Hx. by apply (filter_not_has contains contains_spec) in Hx as [Hx _].
  - intros s Hx. rewrite (filter_not_has contains contains_spec). destruct (decide (s ∈ desired)); auto.
Qed.

Lemma TeardownRoutes_ok r : routes_ok r -> (exists n, fTunInterface r = slot_name n) -> routes_ok (_TeardownRoutes r).
Proof. intros K Hs. apply (subnets_ok r [] [] (fInstalledRoutes r)); auto. Qed.

Lemma Disable_ok r : routes_ok r -> fTunInterface r <> [] -> routes_ok (_DisableExitNode r) /\ fActiveExitNode (_DisableExitNode r) = [].
Proof.
  intros K Hn. unfold _DisableExitNode. destruct (Z.eqb_spec (zlen (fActiveExitNode r)) 0) as [Hz|Hz]; [split; [done|by apply zlen_0_nil]|].
  assert (Ha : fActiveExitNode r <> []) by (intros E; by rewrite E in Hz). destruct (k_on _ K Ha) as (Hr & Hg & Hd). pose proof (slot_up _ K Hn) as Hs.
  rewrite Hr. rewrite Z.gtb_ltb. destruct (Z.ltb_spec 0 (zlen (fExitOrigGateway r))); [|lia]. split; [|done]. set (r2 := with_exit _ _ _ _ _ _).
  set (gw := fExitOrigGateway r) in *. set (iface := fExitOrigGatewayIface r) in *.
  assert (Et : forall x, entries (table r2) x <-> (x ∉ map (pin gw iface) (fExitCarveouts r)) /\ (x = carrier_default gw iface \/ (x <> tun_default r /\ entries (table r) x))).
  { intros x. unfold table. cbn [cmds r2 with_exit with_cmds]. rewrite !run_routes_table, deleted, added, deleted, !list_elem_of_singleton. done. }
  assert (Np : forall x, entries t0 x -> x ∉ map (pin gw iface) (fExitCarveouts r)) by (intros x Hx (ip & -> & _)%elem_map; by apply (h_pin Hclean gw iface ip)).
  split; try (by apply K).
  - intros E. by destruct (Hn E).
  - done.
  - done.
  - intros x Hx _. apply Et. split; [by apply Np|]. destruct (decide (x = carrier_default gw iface)); [by left|]. right. split.
    + intros ->. apply (not_of_slot _ Hx). by apply tun_default_of_slot.
    + apply (k_low _ K); [done|]. by intros [_ E].
  - intros x Hx. apply Et in Hx as [Hx [->|[Hx2 Hx3]]]; [left; split; [done|by intros [? _]]|].
    destruct (k_up _ K x Hx3) as [[? _]|[Hi|[Hi|[_ Hi]]]]; [left; split; [done|by intros [? _]]|by right; left|done|done].
  - intros ip Hip. by apply elem_of_nil in Hip.
Qed.

Lemma Enable_ok y ps key r : routes_ok r -> sound (EvExitTick y ps) -> fActiveExitNode r = [] -> 0 < zlen key -> routes_ok (_EnableExitNode y ps key r).
Proof.
  intros K So Ha Hk. unfold _EnableExitNode. destruct (Z.eqb_spec (zlen (fTunInterface r)) 0) as [|Hz]; [done|]. destruct (_ =? 0); [done|]. cbn [orb].
  destruct (negb _); [done|]. destruct (DefaultGateway _) as [[gw iface]|] eqn:Eg; [|done].
  assert (Hn : fTunInterface r <> []) by (intros E; by rewrite E in Hz). pose proof (slot_up _ K Hn) as Hs.
  pose proof (So gw iface Eg) as Hd. pose proof (gateway_nonempty _ _ _ Eg) as Hg. destruct (k_off _ K Ha) as [Kc Kr].
  set (carve := ComputeExitCarveouts _). set (r2 := with_exit _ _ _ _ _ _).
  assert (Et : forall x, entries (table r2) x <-> x = tun_default r \/ (x <> carrier_default gw iface /\ (x ∈ map (pin gw iface) carve \/ entries (table r) x))).
  { intros x. unfold table. cbn [cmds r2 with_exit with_cmds]. rewrite !run_routes_table, added, deleted, added, !list_elem_of_singleton. done. }
  assert (Nr : forall x, ~ replaced_default r x) by (intros x [R _]; congruence).
  split; try (by apply K).
  - intros E. by destruct (Hn E).
  - intros E. change (key = []) in E. rewrite E in Hk. by change (zlen []) with 0 in Hk.
  - done.
  - intros x Hx Hn2. apply Et. right. split; [intros ->; by apply Hn2|]. right. by apply (k_low _ K).
  - intros x Hx. apply Et in Hx as [->|[Hx [Hx2|Hx2]]]; [by right; right; right|by right; right; left|].
    destruct (k_up _ K x Hx2) as [[? _]|[Hi|[Hi|[Hi _]]]]; [left; split; [done|by intros [_ E]]|by right; left| |congruence].
    rewrite Kc in Hi. by apply elem_of_nil in Hi.
  - intros ip Hip. apply Et. right. split; [apply pin_not_default|]. left. apply elem_map. by exists ip.
Qed.

Lemma Reconcile_ok y ps r : routes_ok r -> routes_ok (_ReconcileExitCarveouts y ps r).
Proof.
  intros K. unfold _ReconcileExitCarveouts. destruct (Z.eqb_spec (zlen (fActiveExitNode r)) 0) as [|Hz]; [done|]. destruct (_ =? 0); [done|]. cbn [orb].
  assert (Ha : fActiveExitNode r <> []) by (intros E; by rewrite E in Hz). destruct (k_on _ K Ha) as (Hr & Hg & Hd).
  set (desired := ComputeExitCarveouts _). destruct (DiffCarveouts desired (fExitCarveouts r)) as [toAdd toRemove] eqn:Ed. unfold DiffCarveouts in Ed.
  assert (Ed1 : forall ip, ip ∈ toAdd <-> ip ∈ desired /\ ip ∉ fExitCarveouts r).
  { intros ip. injection Ed as <- _. apply (filter_not_has contains_ip contains_ip_spec). }
  assert (Ed2 : forall ip, ip ∈ toRemove <-> ip ∈ fExitCarveouts r /\ ip ∉ desired).
  { intros ip. injection Ed as _ <-. apply (filter_not_has contains_ip contains_ip_spec). }
  clear Ed. set (gw := fExitOrigGateway r) in *. set (iface := fExitOrigGatewayIface r) in *.
  set (r2 := with_exit (fActiveExitNode r) desired gw iface (fExitDefaultReplaced r) _).
  assert (G : routes_ok r2); [|by destruct toAdd, toRemove].
  assert (Et : forall x, entries (table r2) x <-> (x ∉ map (pin gw iface) toRemove) /\ (x ∈ map (pin gw iface) toAdd \/ entries (table r) x)).
  { intros x. unfold table. cbn [cmds r2 with_exit with_cmds]. rewrite !run_routes_table, deleted, added. done. }
  split; try (by apply K).
  - done.
  - intros x Hx Hn. apply Et. split; [intros (ip & -> & _)%elem_map; by apply (h_pin Hclean gw iface ip)|]. right. by apply (k_low _ K).
  - intros x Hx. apply Et in Hx as [Hx [Hx2|Hx2]].
    + right. right. left. apply elem_map in Hx2 as (ip & -> & Hi). apply elem_map. exists ip. split; [done|]. by apply Ed1 in Hi as [? _].
    + destruct (k_up _ K x Hx2) as [?|[Hi|[Hi|Hi]]]; [by left|by right; left| |by right; right; right]. right. right. left.
      apply elem_map in Hi as (ip & -> & Hi). apply elem_map. exists ip. split; [done|]. destruct (decide (ip ∈ desired)); [done|].
      exfalso. apply Hx, elem_map. exists ip. split; [done|]. by apply Ed2.
  - intros ip Hip. apply Et. split.
    + intros (ip2 & E & Hi)%elem_map. apply pin_inj in E. subst ip2. by apply Ed2 in Hi as [_ Hi].
    + destruct (decide (ip ∈ fExitCarveouts r)); [right; by apply (k_pins _ K)|left]. apply elem_map. exists ip. split; [done|]. by apply Ed1.
Qed.

(** The exit node is active only while the tun is up. *)
Lemma active_up r : routes_ok r -> fActiveExitNode r <> [] -> fTunInterface r <> [].
Proof. intros K Ha E. by destruct (k_down _ K E) as [_ ?]. Qed.

Lemma ExitTick_ok y ps r : routes_ok r -> sound (EvExitTick y ps) -> routes_ok (_SyncExitNode y ps r).
Proof.
  intros K So. unfold _SyncExitNode. destruct (negb _).
  - rewrite !Z.gtb_ltb. destruct (Z.ltb_spec 0 (zlen (fActiveExitNode r))) as [Ha|Ha].
    + assert (Hn : fTunInterface r <> []) by (apply active_up; [done|]; intros E; rewrite E in Ha; by change (zlen []) with 0 in Ha).
      destruct (Disable_ok r K Hn) as [K2 E2]. destruct (Z.ltb_spec 0 (zlen (fDesiredExitNode r))); [by apply Enable_ok|done].
    + destruct (Z.ltb_spec 0 (zlen (fDesiredExitNode r))); [|done]. apply Enable_ok; try done. apply zlen_0_nil. pose proof (zlen_nonneg (fActiveExitNode r)). lia.
  - destruct (_ >? 0); [by apply Reconcile_ok|done].
Qed.

Lemma Teardown_ok y r : routes_ok r ->
  routes_ok (_TeardownTun y r) /\ forall x, entries (table (_TeardownTun y r)) x <-> entries t0 x.
Proof.
  intros K. unfold _TeardownTun. destruct (Z.eqb_spec (zlen (fTunInterface r)) 0) as [Hz|Hz].
  - split; [done|]. destruct (k_down _ K (zlen_0_nil _ Hz)) as [D1 D2]. destruct (k_off _ K D2) as [D3 D4]. intros x. split.
    + intros Hx. destruct (k_up _ K x Hx) as [[? _]|[Hi|[Hi|[Hi _]]]]; [done|rewrite D1 in Hi; by apply elem_of_nil in Hi|rewrite D3 in Hi; by apply elem_of_nil in Hi|congruence].
    + intros Hx. apply (k_low _ K); [done|]. intros [R _]. congruence.
  - assert (Hn : fTunInterface r <> []) by (intros E; by rewrite E in Hz).
    destruct (Disable_ok r K Hn) as [K2 E2].
    assert (Hi2 : fTunInterface (_DisableExitNode r) = fTunInterface r) by (unfold _DisableExitNode; by destruct (_ =? 0)).
    pose proof (slot_up _ K2 ltac:(by rewrite Hi2)) as Hs2. pose proof (TeardownRoutes_ok _ K2 Hs2) as K3.
    set (r3 := _TeardownRoutes (_DisableExitNode r)) in *. assert (E3 : fActiveExitNode r3 = []) by exact E2.
    destruct (k_off _ K3 E3) as [D3 D4]. assert (D1 : fInstalledRoutes r3 = []) by done. clearbody r3. cbn [RunIfconfig].
    set (r4 := with_slot _ _ _ _).
    assert (Et : table r4 = table r3) by (apply (table_ifconfigs r3 _ [[bs "--delete"; fTunInterface r3]]); done).
    assert (G : forall x, entries (table r3) x <-> entries t0 x).
    { intros x. split.
      - intros Hx. destruct (k_up _ K3 x Hx) as [[? _]|[Hi|[Hi|[Hi _]]]]; [done|rewrite D1 in Hi; by apply elem_of_nil in Hi|rewrite D3 in Hi; by apply elem_of_nil in Hi|congruence].
      - intros Hx. apply (k_low _ K3); [done|]. intros [R _]. congruence. }
    split; [|intros x; rewrite Et; apply G]. split; try done.
    + by left.
    + intros x Hx _. rewrite Et. by apply G.
    + intros x Hx. rewrite Et in Hx. left. split; [by apply G|]. intros [R _]. change (fExitDefaultReplaced r3 = true) in R. congruence.
    + intros ip Hip. change (ip ∈ fExitCarveouts r3) in Hip. rewrite D3 in Hip. by apply elem_of_nil in Hip.
Qed.

Lemma fresh_ok : routes_ok no_routing.
Proof.
  split; try done; [by left| |].
  - intros x Hx. left. split; [done|]. by intros [? _].
  - intros ip Hip. by apply elem_of_nil in Hip.
Qed.

(** A tick leaves the carve-outs of the active exit node's addresses. *)
Lemma ExitTick_covers y ps r ip :
  routes_ok r -> fActiveExitNode (_SyncExitNode y ps r) <> [] ->
  ip ∈ ComputeExitCarveouts (_ExitUnderlayIPs y ps (fActiveExitNode (_SyncExitNode y ps r))) -> ip ∈ fExitCarveouts (_SyncExitNode y ps r).
Proof.
  intros K. assert (En : forall key q, fActiveExitNode q = [] -> fActiveExitNode (_EnableExitNode y ps key q) <> [] ->
    ip ∈ ComputeExitCarveouts (_ExitUnderlayIPs y ps (fActiveExitNode (_EnableExitNode y ps key q))) -> ip ∈ fExitCarveouts (_EnableExitNode y ps key q)).
  { intros key q Hq. unfold _EnableExitNode. destruct (_ || _); [by rewrite Hq|]. destruct (negb _); [by rewrite Hq|].
    destruct (DefaultGateway _) as [[gw iface]|]; [done|by rewrite Hq]. }
  assert (Di : forall q, fActiveExitNode (_DisableExitNode q) = []).
  { intros q. unfold _DisableExitNode. destruct (Z.eqb_spec (zlen (fActiveExitNode q)) 0) as [Hz|]; [by apply zlen_0_nil|done]. }
  unfold _SyncExitNode. rewrite !Z.gtb_ltb. destruct (negb _).
  - set (q := if 0 <? zlen (fActiveExitNode r) then _DisableExitNode r else r).
    assert (Hq : fActiveExitNode q = []).
    { unfold q. destruct (Z.ltb_spec 0 (zlen (fActiveExitNode r))); [apply Di|]. apply zlen_0_nil. pose proof (zlen_nonneg (fActiveExitNode r)). lia. }
    clearbody q. destruct (0 <? _); [by apply En|by rewrite Hq].
  - destruct (Z.ltb_spec 0 (zlen (fActiveExitNode r))) as [Hz|Hz].
    + assert (Ha : fActiveExitNode r <> []) by (intros E; rewrite E in Hz; by change (zlen []) with 0 in Hz).
      destruct (k_on _ K Ha) as (_ & Hg & _). intros _. unfold _ReconcileExitCarveouts.
      destruct (Z.eqb_spec (zlen (fActiveExitNode r)) 0); [lia|]. destruct (Z.eqb_spec (zlen (fExitOrigGateway r)) 0); [lia|]. cbn [orb].
      set (desired := ComputeExitCarveouts (_ExitUnderlayIPs y ps (fActiveExitNode r))). unfold DiffCarveouts.
      destruct (List.filter (fun x => negb (contains_ip (fExitCarveouts r) x)) desired) as [|a l] eqn:Ed; [|done].
      assert (Sub : forall ip, ip ∈ desired -> ip ∈ fExitCarveouts r).
      { intros ip2 Hi. destruct (decide (ip2 ∈ fExitCarveouts r)) as [|Hn]; [done|]. exfalso.
        assert (X : ip2 ∈ List.filter (fun x => negb (contains_ip (fExitCarveouts r) x)) desired) by (by apply (filter_not_has contains_ip contains_ip_spec)).
        rewrite Ed in X. by apply elem_of_nil in X. }
      destruct (List.filter _ (fExitCarveouts r)); [by apply Sub|done].
    + intros Ha. destruct Ha. apply zlen_0_nil. pose proof (zlen_nonneg (fActiveExitNode r)). lia.
Qed.

Lemma step_ok r e : routes_ok r -> sound e -> routes_ok (step r e).
Proof.
  intros K So. destruct e; cbn [step].
  - by apply BringUp_ok.
  - by apply Sync_ok.
  - destruct K; by split.
  - by apply ExitTick_ok.
  - by apply Teardown_ok.
Qed.

Lemma steps_ok es : Forall sound es -> routes_ok (fold_left step es no_routing).
Proof.
  induction es as [|e es IH] using rev_ind; intros So; [exact fresh_ok|]. apply Forall_app in So as [S1 S2]. apply Forall_cons in S2 as [S2 _].
  rewrite fold_left_app. apply step_ok; [by apply IH|done].
Qed.
End WithTable.

(** C6: A tailnet session leaves the host's routes as they were. Whatever tun bring-ups, network maps, exit-node selections, upkeep ticks and teardowns came before, in any order (each default gateway reported during them being in the host's table, and that table holding no route of a tunnel slot and no host route of the carve-outs' shape), tearing the tun down leaves exactly the entries the table had before the session. *)
Theorem tailnet_restores_routes {T} `{RouteTableLaws T} (t0 : T) (es : list event) (y : env) :
  clean_host t0 -> Forall (sound t0) es ->
  same_routes (run_cmds (cmds (_TeardownTun y (fold_left step es no_routing))) t0) t0.
Proof.
  intros Hc So. pose proof (steps_ok t0 Hc es So) as K. intros x. by apply (Teardown_ok t0 Hc y _ K).
Qed.

(** C7: While an exit node is active the addresses the code pins stay on the carrier. On a host whose table has no route of a tunnel slot and no host route of the carve-outs' shape, and whose reported default gateways are in the table: after every tick that leaves an exit node active, each IPv4 address the control host and the relay resolve to, and each candidate or confirmed address of the exit node, has its host route through the carrier's gateway, and the carrier's default route is not in the table. The direct addresses of other peers are not among those pinned (Example other_peers_enter_the_tunnel). *)
Theorem exit_node_pins_underlay {T} `{RouteTableLaws T} (t0 : T) (es : list event) (y : env) (ps : PeerSet.peers) :
  clean_host t0 -> Forall (sound t0) (es ++ [EvExitTick y ps]) ->
  let r := fold_left step (es ++ [EvExitTick y ps]) no_routing in
  fActiveExitNode r <> [] ->
  let gw := fExitOrigGateway r in
  let iface := fExitOrigGatewayIface r in
  entries t0 (carrier_default gw iface)
  /\ ~ entries (run_cmds (cmds r) t0) (carrier_default gw iface)
  /\ forall ip, ip ∈ _ExitUnderlayIPs y ps (fActiveExitNode r) -> is_Some (parse_ipv4 ip) ->
       entries (run_cmds (cmds r) t0) (pin gw iface ip).
Proof.
  intros Hc So r Ha gw iface. subst gw iface. pose proof (steps_ok t0 Hc _ So) as K. fold r in K.
  destruct (k_on _ _ K Ha) as (Hr & Hg & Hd). split_and!; [done| |].
  - intros Hx. pose proof (slot_up _ _ K (active_up _ _ K Ha)) as Hs.
    destruct (k_up _ _ K _ Hx) as [[_ N]|[Hi|[Hi|[_ Hi]]]].
    + by apply N.
    + apply elem_map in Hi as (s & E & _). apply (not_of_slot t0 Hc _ Hd). rewrite E. by apply subnet_of_slot.
    + apply elem_map in Hi as (ip & E & _). symmetry in E. by apply pin_not_default in E.
    + apply (not_of_slot t0 Hc _ Hd). pose proof (tun_default_of_slot r Hs) as X. by rewrite <- Hi in X.
  - intros ip Hip Hp. apply (k_pins _ _ K).
    assert (Hcov : forall ip, ip ∈ ComputeExitCarveouts (_ExitUnderlayIPs y ps (fActiveExitNode r)) -> ip ∈ fExitCarveouts r).
    { unfold r in Ha |- *. rewrite fold_left_app in *. cbn [fold_left step] in *. intros ip2; apply (ExitTick_covers t0 y ps (fold_left step es no_routing) ip2); [|done]. apply steps_ok; [done|]. by apply Forall_app in So as [So _]. }
    by apply Hcov, ComputeExitCarveouts_spec.
Qed.

(** ** A session *)

Definition demo_table : list (list bytes) := [carrier_default (bs "192.168.1.1") (bs "/dev/net/eth0")].
Definition demo_env : env :=
  mkEnv (fun _ => true) (Some (bs "0.0.0.0 0.0.0.0 192.168.1.1 /dev/net/eth0")) (fun _ => [bs "198.51.100.7"]) (bs "control") [].
Definition demo_peers : PeerSet.peers :=
  [PeerSet.mkManaged (bs "ab") [] (bs "exit") true 1 [bs "100.64.0.9/32"; bs "0.0.0.0/0"; bs "10.7.0.0/16"] [bs "203.0.113.5:41641"]
     WGPeer.WGPeer PeerPath.PeerPath 0 0].
Definition demo_events : list event :=
  [EvBringUp demo_env (bs "100.64.0.1"); EvSync demo_peers; EvSelect (bs "ab")].

(** A peer other than the exit node with a confirmed direct address gets no
    route of its own: its WireGuard packets follow the default route, which is
    the tun's. *)
Definition two_peers : PeerSet.peers :=
  demo_peers ++ [PeerSet.mkManaged (bs "cd") [] (bs "other") true 2 [bs "100.64.0.10/32"] [bs "203.0.113.6:41641"]
     WGPeer.WGPeer (PeerPath.UpgradeToDirect PeerPath.PeerPath (Some (bs "203.0.113.6:41641")) 1) 0 0].
Example other_peers_enter_the_tunnel :
  let r := fold_left step (demo_events ++ [EvExitTick demo_env two_peers]) no_routing in
  fActiveExitNode r = bs "ab" /\ bool_decide (tun_default r ∈ run_cmds (cmds r) demo_table) = true
  /\ bool_decide (pin (bs "192.168.1.1") (bs "/dev/net/eth0") (bs "203.0.113.6") ∈ run_cmds (cmds r) demo_table) = false.
Proof. vm_compute. repeat split. Qed.

Lemma demo_clean : clean_host demo_table.
Proof.
  split.
  - intros n rest E. cbn in E. apply list_elem_of_singleton in E. discriminate E.
  - intros gw iface ip E. cbn in E. apply list_elem_of_singleton in E. discriminate E.
Defined.

Lemma demo_sound : Forall (sound demo_table) (demo_events ++ [EvExitTick demo_env demo_peers]).
Proof.
  assert (S : sound demo_table (EvExitTick demo_env demo_peers)).
  { intros gw iface E. vm_compute in E. injection E as <- <-. cbn. by apply list_elem_of_singleton. }
  apply Forall_app. split; [|by apply Forall_singleton]. by repeat apply Forall_cons_2; [..|apply Forall_nil_2].
Defined.

Lemma tailnet_restores_routes_witness :
  let r := fold_left step (demo_events ++ [EvExitTick demo_env demo_peers]) no_routing in
  length (cmds r) = 9%nat /\ same_routes (run_cmds (cmds (_TeardownTun demo_env r)) demo_table) demo_table.
Proof.
  split; [vm_compute; reflexivity|]. exact (tailnet_restores_routes demo_table _ demo_env demo_clean demo_sound).
Defined.

Lemma exit_node_pins_underlay_witness :
  let r := fold_left step (demo_events ++ [EvExitTick demo_env demo_peers]) no_routing in
  ~ entries (run_cmds (cmds r) demo_table) (carrier_default (bs "192.168.1.1") (bs "/dev/net/eth0"))
  /\ entries (run_cmds (cmds r) demo_table) (pin (bs "192.168.1.1") (bs "/dev/net/eth0") (bs "203.0.113.5")).
Proof.
  cbv zeta. edestruct (exit_node_pins_underlay demo_table demo_events demo_env demo_peers demo_clean demo_sound) as (_ & Hn & Hp).
  { vm_compute. discriminate. }
  replace (fExitOrigGateway (fold_left step (demo_events ++ [EvExitTick demo_env demo_peers]) no_routing)) with (bs "192.168.1.1") in * by (vm_compute; reflexivity).
  replace (fExitOrigGatewayIface (fold_left step (demo_events ++ [EvExitTick demo_env demo_peers]) no_routing)) with (bs "/dev/net/eth0") in * by (vm_compute; reflexivity).
  split; [exact Hn|]. apply Hp.
  - replace (_ExitUnderlayIPs _ _ _) with [bs "198.51.100.7"; bs "203.0.113.5"] by (vm_compute; reflexivity). right; left.
  - vm_compute. by eexists.
Defined.

End TsRouting.
