(* ===== verification/TsBackend.v ===== *)
(** * TsBackend: the lifecycle of a tailnet session (src/backend/tailscale/TailscaleBackend.{h,cpp})

    The requests of the daemon's looper, the control worker, the readers and
    the resolver thread, as turns on one state.  A turn runs from one blocking
    call to the next: the worker's is given what the call returned ([answer]),
    the readers' what they read.  The worker's messages wait in [queue] until
    the looper handles them.  Data packets are in TsPlane, routes in TsRouting,
    the control session in ControlSession. *)

From stdpp Require Import gmap.
From S2P Require Import Prelude CLib Backoff PeerPath Routes Crypto WGPeer Identity Hpack Http2 MapStream Json Netmap PeerSet MagicSock MagicDns ControlSession SessionState Derp TsPlane Message Profiles Tun TsRouting.
Open Scope Z_scope.
Open Scope soto_scope.

Module TsBackend.

Import Crypto Message VPNProtocol VPNState TsPlane.

(** ** State *)

(** The worker's messages to the looper. *)
Inductive msg :=
| MsgTsAuthURL (url : bytes)
| MsgTsAuthorized
| MsgTsFailed (detail : bytes)
| MsgTsNetmap (peers : Z) (selfip : bytes) (up : bool)
| MsgTsEndpoint (endpoint : bytes).

(** The locals of _RunMap: its backoff, from the second session on, the start
    of the session and whether it was established. *)
Record mapper := mkMapper { m_backoff : option ReconnectBackoff.t; m_start : Z; m_established : bool }.

(** The blocking call the worker is in: Connect, PollAuthorized, the opening of
    a map session, ReadMessage, the stages of the bring-up, a sleep. *)
Inductive worker :=
| WNone
| WRegister
| WPoll (followup : bytes)
| WSession (m : mapper)
| WStream (m : mapper) (endpointsJson : bytes)
| WStun (m : mapper) (endpointsJson : bytes)
| WTun (m : mapper) (endpointsJson : bytes)
| WDerp (m : mapper) (endpointsJson : bytes)
| WAdvertise (m : mapper) (endpointsJson : bytes)
| WDns (m : mapper) (endpointsJson : bytes)
| WSleep (m : mapper) (delay waited : Z).

(** The locals of _RunDerpReader; a sleep is its length and the time waited. *)
Record relay_reader := mkReader { r_backoff : ReconnectBackoff.t; r_connectedAt : Z; r_sleep : option (Z * Z) }.

Record front := mkFront { fState : Z; reports : list (Z * option bytes); fLocalIP : bytes; fRemoteIP : bytes }.
Record params := mkParams { fControlHost : bytes; fHostname : bytes; fAuthKey : bytes }.
Record control := mkControl { fWorker : bool; fStopRequested : bool; phase : worker; queue : list msg; adverts : list bytes }.
Record readers := mkReaders { fTunReader : bool; fSockReader : bool; lastMaint : Z }.

(** [strays]: readers still running whose id was overwritten. *)
Record relay := mkRelay {
  fDerpReader : option relay_reader; strays : nat; fDerpHomeRegion : Z; fDerpHost : bytes; fLastDerpKeepalive : Z }.
Record resolver := mkResolver { fDnsFd : bool; fDnsThread : bool; dns_out : list (addr * bytes) }.

Record backend := mkBackend {
  fr : front; pa : params; co : control; pl : plane; rt : TsRouting.routing; rd : readers; re : relay; dn : resolver;
  keystore : Identity.keystore }.

Definition with_fr (x : front) (b : backend) : backend := mkBackend x (pa b) (co b) (pl b) (rt b) (rd b) (re b) (dn b) (keystore b).
Definition with_pa (x : params) (b : backend) : backend := mkBackend (fr b) x (co b) (pl b) (rt b) (rd b) (re b) (dn b) (keystore b).
Definition with_co (x : control) (b : backend) : backend := mkBackend (fr b) (pa b) x (pl b) (rt b) (rd b) (re b) (dn b) (keystore b).
Definition with_pl (x : plane) (b : backend) : backend := mkBackend (fr b) (pa b) (co b) x (rt b) (rd b) (re b) (dn b) (keystore b).
Definition with_rt (x : TsRouting.routing) (b : backend) : backend := mkBackend (fr b) (pa b) (co b) (pl b) x (rd b) (re b) (dn b) (keystore b).
Definition with_rd (x : readers) (b : backend) : backend := mkBackend (fr b) (pa b) (co b) (pl b) (rt b) x (re b) (dn b) (keystore b).
Definition with_re (x : relay) (b : backend) : backend := mkBackend (fr b) (pa b) (co b) (pl b) (rt b) (rd b) x (dn b) (keystore b).
Definition with_dn (x : resolver) (b : backend) : backend := mkBackend (fr b) (pa b) (co b) (pl b) (rt b) (rd b) (re b) x (keystore b).
Definition with_keystore (x : Identity.keystore) (b : backend) : backend := mkBackend (fr b) (pa b) (co b) (pl b) (rt b) (rd b) (re b) (dn b) x.

Definition no_plane : plane :=
  mkPlane Identity.fresh SessionState.SessionState MagicSock.closed Derp.DerpClient false false [] [].

Definition TailscaleBackend (ks : Identity.keystore) : backend :=
  mkBackend (mkFront VPN_STATE_DISCONNECTED [] [] []) (mkParams [] [] []) (mkControl false false WNone [] []) no_plane TsRouting.no_routing
    (mkReaders false false 0) (mkRelay None 0 (-1) [] 0) (mkResolver false false []) ks.

Definition stopping (b : backend) : bool := fStopRequested (co b).

Definition _SetState (state : Z) (detail : option bytes) (b : backend) : backend :=
  with_fr (mkFront state (reports (fr b) ++ [(state, detail)]) (fLocalIP (fr b)) (fRemoteIP (fr b))) b.
Definition set_local (ip : bytes) (b : backend) : backend := with_fr (mkFront (fState (fr b)) (reports (fr b)) ip (fRemoteIP (fr b))) b.
Definition set_remote (ip : bytes) (b : backend) : backend := with_fr (mkFront (fState (fr b)) (reports (fr b)) (fLocalIP (fr b)) ip) b.

Definition set_stop (x : bool) (b : backend) : backend :=
  with_co (mkControl (fWorker (co b)) x (phase (co b)) (queue (co b)) (adverts (co b))) b.
Definition set_worker (x : bool) (b : backend) : backend :=
  with_co (mkControl x (fStopRequested (co b)) (phase (co b)) (queue (co b)) (adverts (co b))) b.
Definition goto (w : worker) (b : backend) : backend :=
  with_co (mkControl (fWorker (co b)) (fStopRequested (co b)) w (queue (co b)) (adverts (co b))) b.
Definition set_queue (q : list msg) (b : backend) : backend :=
  with_co (mkControl (fWorker (co b)) (fStopRequested (co b)) (phase (co b)) q (adverts (co b))) b.
Definition post (m : msg) (b : backend) : backend := set_queue (queue (co b) ++ [m]) b.
Definition advertise (eps : bytes) (b : backend) : backend :=
  with_co (mkControl (fWorker (co b)) (fStopRequested (co b)) (phase (co b)) (queue (co b)) (adverts (co b) ++ [eps])) b.

(** ** Requests of the looper *)

Definition kDefaultControlHost : bytes := bs "controlplane.tailscale.com".

(** What a turn meets: what the blocking calls return, the resolver and the
    commands, whether sockets, files and threads could be opened, the clock. *)
Record answer := mkAnswer {
  a_status : status;                            (* Connect, PollAuthorized, Establish *)
  a_text : bytes;                               (* LastError() *)
  a_result : Register.RegisterResult;
  a_lan : bytes;                                (* local_ipv4 *)
  a_begin : status + Z;                         (* MapStream::Begin *)
  a_read : status + bytes;                      (* ReadMessage *)
  a_socket : Z * bool * option Z;               (* socket, bind, getsockname *)
  a_stun : bool * list bool * list (option bytes) * bytes;
  a_ifconfig : list bytes -> bool; a_route : option bytes; a_resolve : bytes -> list bytes;
  a_tun : bool;                                 (* open of the tun device *)
  a_threads : bool * bool * bool * bool;        (* tun, socket, relay and resolver thread *)
  a_derp : status; a_link : Derp.link; a_nonce : bytes; a_polls : nat -> bool;
  a_dns : bool;                                 (* socket and bind of the resolver *)
  a_now : Z }.

Section WithOpenSSL.
Context `{OpenSSL}.

(** [d]: the keys that would be drawn; [spawned]: the thread could start. *)
Definition Connect (p : VPNProfile.profile) (d : Identity.draws) (spawned : bool) (b : backend) : status * backend :=
  if zlen (VPNProfile.fName p) =? 0 then (B_BAD_VALUE, _SetState VPN_STATE_ERROR (Some (bs "Tailscale profile has no name")) b)
  else if fWorker (co b) then (B_NOT_ALLOWED, _SetState VPN_STATE_ERROR (Some (bs "a Tailscale connection is already in flight")) b)
  else
    let '(result, id, _, ks) := Identity.LoadOrCreate (fIdentity (pl b)) (VPNProfile.fName p) d (keystore b) in
    let q := pl b in
    let b := with_keystore ks (with_pl (mkPlane id (fSession q) (fMagicSock q) (fDerp q) (fDerpUp q) (fTunFd q) (outs q) (tun q)) b) in
    match result with
    | B_OK =>
        let b := with_pa (mkParams (if zlen (VPNProfile.fServer p) >? 0 then VPNProfile.fServer p else kDefaultControlHost)
                            (VPNProfile.fName p) (VPNProfile.fAuthKey p)) b in
        let r := rt b in
        let b := with_rt (TsRouting.with_desired [] (TsRouting.with_exit [] (TsRouting.fExitCarveouts r) (TsRouting.fExitOrigGateway r)
                            (TsRouting.fExitOrigGatewayIface r) (TsRouting.fExitDefaultReplaced r) r)) b in
        let b := _SetState VPN_STATE_CONNECTING None (set_stop false b) in
        if spawned then (B_OK, goto WRegister (set_worker true b))
        else (B_ERROR, _SetState VPN_STATE_ERROR (Some (bs "could not start the Tailscale control worker")) b)
    | e => (e, _SetState VPN_STATE_ERROR (Some (bs "could not establish node identity")) b)
    end.

Definition Disconnect (b : backend) : status * backend :=
  let b := set_stop true b in
  (B_OK, if fWorker (co b) then b else _SetState VPN_STATE_DISCONNECTED None b).

Definition SetExitNode (id : bytes) (b : backend) : status * backend := (B_OK, with_rt (TsRouting.SetExitNode id (rt b)) b).

Definition _StopMagicDns (b : backend) : backend := with_dn (mkResolver false false (dns_out (dn b))) b.

(** The closed session: nothing more is read or written. *)
Definition close_relay (d : Derp.derp) : Derp.derp := Derp.with_tls (Derp.mkLink [] [] (Derp.sent (Derp.fTls d))) d.

(** A thread that was joined is gone. *)
Definition _StopDataPlane (b : backend) : backend :=
  let b := set_stop true b in
  let b := _StopMagicDns b in
  let b := with_rd (mkReaders false false (lastMaint (rd b))) b in
  let b := with_re (mkRelay None (strays (re b)) (fDerpHomeRegion (re b)) (fDerpHost (re b)) (fLastDerpKeepalive (re b))) b in
  let b := if fDerpUp (pl b) then with_pl (with_derp (close_relay (fDerp (pl b))) false (pl b)) b else b in
  let b := with_re (mkRelay (fDerpReader (re b)) (strays (re b)) (fDerpHomeRegion (re b)) [] (fLastDerpKeepalive (re b))) b in
  with_pl (with_tunfd false (pl b)) b.

(** The hosts the routes keep outside, next to what the system answers. *)
Definition env_of (a : answer) (b : backend) : TsRouting.env :=
  TsRouting.mkEnv (a_ifconfig a) (a_route a) (a_resolve a) (fControlHost (pa b)) (fDerpHost (re b)).

Definition _TeardownTun (a : answer) (b : backend) : backend := with_rt (TsRouting._TeardownTun (env_of a b) (rt b)) b.

Definition plural (n : Z) : bytes := if n =? 1 then [] else bs "s".

(** The text of a netmap message; the two separators are UTF-8. *)
Definition netmap_detail (peers : Z) (selfip : bytes) (up : bool) : bytes :=
  let named := zlen selfip >? 0 in
  if up then
    (if named then selfip ++ [32; 0xc2; 0xb7; 32] else []) ++ fmt_d peers ++ bs " peer" ++ plural peers
  else
    bs "netmap: " ++ fmt_d peers ++ bs " peer" ++ plural peers ++ (if named then bs ", self " ++ selfip else [])
    ++ [32; 0xe2; 0x80; 0x94; 32] ++ bs "bringing up tunnel".

(** [a]: what the commands of the teardown meet. *)
Definition MessageReceived (m : msg) (a : answer) (b : backend) : backend :=
  match m with
  | MsgTsAuthURL url => _SetState VPN_STATE_AUTHENTICATING (Some url) b
  | MsgTsAuthorized => _SetState VPN_STATE_AUTHENTICATING (Some (bs "authorized -- fetching network map")) b
  | MsgTsNetmap peers selfip up =>
      let b := set_local selfip b in
      _SetState (if up then VPN_STATE_CONNECTED else VPN_STATE_AUTHENTICATING) (Some (netmap_detail peers selfip up)) b
  | MsgTsEndpoint ep => set_remote ep b
  | MsgTsFailed detail =>
      let b := _TeardownTun a (_StopDataPlane (set_worker false b)) in
      if zlen detail =? 0 then _SetState VPN_STATE_DISCONNECTED None b else _SetState VPN_STATE_ERROR (Some detail) b
  end.

(** The looper takes its next message. *)
Definition dispatch (a : answer) (b : backend) : backend :=
  match queue (co b) with
  | [] => b
  | m :: q => MessageReceived m a (set_queue q b)
  end.

(** ** Sleeping *)

Definition kSlice : Z := 200000.

(** One round of the loop: the result, or the time waited so far. *)
Definition sleep_step (usec waited : Z) (stop : bool) : bool + Z :=
  if waited <? usec then
    if stop then inl false else inr (waited + (if usec - waited <? kSlice then usec - waited else kSlice))
  else inl (negb stop).

(** [stops i]: the flag in round [i]. *)
Fixpoint sleep_loop (fuel : nat) (usec waited : Z) (stops : nat -> bool) (i : nat) : option (bool * Z) :=
  match fuel with
  | O => None
  | S fuel =>
      match sleep_step usec waited (stops i) with
      | inl r => Some (r, waited)
      | inr waited => sleep_loop fuel usec waited stops (S i)
      end
  end.

Definition _SleepInterruptible (usec : Z) (stops : nat -> bool) : option (bool * Z) :=
  sleep_loop (Z.to_nat (usec / kSlice) + 2) usec 0 stops 0.

(** ** Bringing the plane up *)

Definition IsOpen (p : plane) : bool := MagicSock.fSocket (fMagicSock p) >=? 0.

Definition open_socket (a : answer) (b : backend) : backend :=
  let '(sock, bound, name) := a_socket a in
  if IsOpen (pl b) then b else with_pl (with_sock (snd (MagicSock.Open (fMagicSock (pl b)) 0 sock bound name)) (pl b)) b.
Definition close_socket (b : backend) : backend := with_pl (with_sock (MagicSock.Close (fMagicSock (pl b))) (pl b)) b.

(** The host of the first node of the first region that names one, with the
    region it was found in. *)
Fixpoint first_node (rs : list Netmap.DerpRegion) (host : bytes) (chosen : Z) : bytes * Z :=
  match rs with
  | [] => (host, chosen)
  | r :: rs =>
      if zlen host =? 0 then
        match Netmap.nodes r with
        | n :: _ => first_node rs (Netmap.hostName n) (Netmap.regionID r)
        | [] => first_node rs host chosen
        end
      else (host, chosen)
  end.

Definition regions (b : backend) : list Netmap.DerpRegion := Netmap.fDerpRegions (SessionState.fNetmap (fSession (pl b))).

Definition _BringUpMagicSock (a : answer) (b : backend) : backend :=
  let b := open_socket a b in
  if negb (IsOpen (pl b)) then b
  else
    let '(stunHost, _) := first_node (regions b) [] (-1) in
    if zlen stunHost =? 0 then b
    else
      let '(resolved, sends, rs, txId) := a_stun a in
      match MagicSock.DiscoverEndpoint (fMagicSock (pl b)) resolved sends rs txId with
      | (B_OK, Some (ip, port)) => post (MsgTsEndpoint (ip ++ [58] ++ fmt_u port)) b
      | _ => b
      end.

Definition self_ip (b : backend) : bytes := SessionState.fSelfIP (fSession (pl b)).

Definition _BringUpTun (a : answer) (b : backend) : backend := with_rt (TsRouting._BringUpTun (env_of a b) (self_ip b) (rt b)) b.

Definition _StartDataPlane (a : answer) (b : backend) : backend :=
  if fTunFd (pl b) then b
  else if negb (a_tun a) then b
  else
    let '(tunThread, sockThread, _, _) := a_threads a in
    with_rd (mkReaders tunThread sockThread 0) (with_pl (with_tunfd true (pl b)) b).

(** The first peer homed on a relay decides the region. *)
Definition relay_choice (b : backend) : bytes * Z :=
  let wanted :=
    match List.find (fun p => PeerSet.m_derpRegion p >? 0) (peers_of (pl b)) with
    | Some p => PeerSet.m_derpRegion p
    | None => -1
    end in
  let '(host, chosen) :=
    if wanted >? 0 then
      match Netmap.DerpRegionById wanted (regions b) with
      | Some r => match Netmap.nodes r with n :: _ => (Netmap.hostName n, wanted) | [] => ([], -1) end
      | None => ([], -1)
      end
    else ([], -1) in
  first_node (regions b) host chosen.

Definition connect_relay (host : bytes) (a : answer) (b : backend) : bool * backend :=
  let p := pl b in
  let '(st, d) := Derp.Connect host (a_derp a) (a_link a) (Identity.priv (Identity.fNode (fIdentity p)))
                    (Identity.pub (Identity.fNode (fIdentity p))) (a_nonce a) (fDerp p) in
  if bool_decide (st = B_OK) then (true, with_pl (with_derp (Derp.SetStopFlag (Some (a_polls a)) d) true p) b)
  else (false, with_pl (with_derp d (fDerpUp p) p) b).

Definition relay_backoff : ReconnectBackoff.t := ReconnectBackoff.ReconnectBackoff 1000000 30000000 30000000.

Definition _BringUpDerp (a : answer) (b : backend) : backend :=
  if fDerpUp (pl b) then b
  else
    let '(host, chosen) := relay_choice b in
    if zlen host =? 0 then b
    else
      match connect_relay host a b with
      | (false, b) => b
      | (true, b) =>
          let '(_, _, relayThread, _) := a_threads a in
          let lost := match fDerpReader (re b) with Some _ => 1%nat | None => 0%nat end in
          with_re (mkRelay (if relayThread then Some (mkReader relay_backoff (a_now a) None) else None)
                     (strays (re b) + lost) chosen host (fLastDerpKeepalive (re b))) b
      end.

Definition derp_endpoint (region : Z) : bytes := MapStream.q (bs "127.3.3.40:" ++ fmt_d region).

(** The request is made when a second session could be opened. *)
Definition _AdvertiseDerpHome (lanEndpoint : bytes) (a : answer) (b : backend) : backend :=
  match a_status a with
  | B_OK => advertise ((if zlen lanEndpoint >? 0 then lanEndpoint ++ [44] else []) ++ derp_endpoint (fDerpHomeRegion (re b))) b
  | _ => b
  end.

Definition _StartMagicDns (a : answer) (b : backend) : backend :=
  if fDnsFd (dn b) then b
  else if zlen (self_ip b) =? 0 then b
  else if negb (a_dns a) then b
  else
    let '(_, _, _, dnsThread) := a_threads a in
    with_dn (mkResolver true dnsThread (dns_out (dn b))) b.

(** ** The control worker *)

Definition finish (detail : bytes) (b : backend) : backend := goto WNone (post (MsgTsFailed detail) b).

Definition map_backoff : ReconnectBackoff.t := ReconnectBackoff.ReconnectBackoff 1000000 30000000 30000000.

(** _RunMap up to the opening of the first session. *)
Definition run_map (a : answer) (b : backend) : backend :=
  goto (WSession (mkMapper None (a_now a) false)) (open_socket a b).

Definition wait_backoff (bo : ReconnectBackoff.t) (m : mapper) (a : answer) (b : backend) : backend :=
  if stopping b then finish [] (close_socket b)
  else
    let '(delay, bo) := ReconnectBackoff.NextDelay bo (m_established m) (a_now a - m_start m) in
    goto (WSleep (mkMapper (Some bo) (m_start m) (m_established m)) delay 0) b.

(** _RunMap once a session has ended. *)
Definition session_ended (m : mapper) (a : answer) (b : backend) : backend :=
  match m_backoff m with
  | None =>
      if stopping b then finish [] (close_socket b)
      else if negb (m_established m) then
        finish (if zlen (a_text a) >? 0 then a_text a else bs "network map request failed") (close_socket b)
      else wait_backoff map_backoff m a b
  | Some bo => wait_backoff bo m a b
  end.

Definition stream_head (m : mapper) (ep : bytes) (a : answer) (b : backend) : backend :=
  if stopping b then session_ended m a b else goto (WStream m ep) b.

(** The end of one applied message: routes and the summary. *)
Definition settle (m : mapper) (ep : bytes) (a : answer) (b : backend) : backend :=
  let b := with_rt (TsRouting._SyncRoutes (peers_of (pl b)) (rt b)) b in
  stream_head m ep a (post (MsgTsNetmap (SessionState.PeerCount (fSession (pl b))) (self_ip b) (fTunFd (pl b))) b).

Definition endpoint_json (a : answer) (b : backend) : bytes :=
  if IsOpen (pl b) && (zlen (a_lan a) >? 0) then MapStream.q (a_lan a ++ [58] ++ fmt_u (MagicSock.fPort (fMagicSock (pl b)))) else [].

(** The result of a register request. *)
Definition registered (a : answer) (waiting : backend -> backend) (b : backend) : backend :=
  let res := a_result a in
  if negb (bool_decide (a_status a = B_OK)) then finish (a_text a) b
  else if zlen (Register.error res) >? 0 then finish (Register.error res) b
  else if Register.machineAuthorized res then run_map a (post MsgTsAuthorized b)
  else waiting b.

Definition worker_turn (a : answer) (b : backend) : backend :=
  match phase (co b) with
  | WNone => b
  | WRegister =>
      if stopping b then finish [] b
      else
        registered a (fun b =>
          let url := Register.authURL (a_result a) in
          if zlen url =? 0 then finish (bs "control returned neither authorization nor a login URL") b
          else goto (WPoll url) (post (MsgTsAuthURL url) b)) b
  | WPoll followup =>
      if stopping b then finish [] b
      else
        registered a (fun b =>
          let url := Register.authURL (a_result a) in
          goto (WPoll (if zlen url >? 0 then url else followup)) b) b
  | WSession m =>
      let m := mkMapper (m_backoff m) (m_start m) false in
      match a_status a, a_begin a with
      | B_OK, inr 200 => stream_head (mkMapper (m_backoff m) (m_start m) true) (endpoint_json a b) a b
      | _, _ => session_ended m a b
      end
  | WStream m ep =>
      match a_read a with
      | inl B_WOULD_BLOCK => stream_head m ep a b
      | inl _ => session_ended m a b
      | inr text =>
          match SessionState.ApplyMapResponse text (fSession (pl b)) with
          | None => stream_head m ep a b
          | Some (ok, _, s) =>
              let b := with_pl (with_session s (pl b)) b in
              if negb ok then stream_head m ep a b
              else if fTunFd (pl b) then settle m ep a b
              else goto (WStun m ep) b
          end
      end
  | WStun m ep => goto (WTun m ep) (_BringUpMagicSock a b)
  | WTun m ep =>
      let b := if zlen (TsRouting.fTunInterface (rt b)) =? 0 then _BringUpTun a b else b in
      let b := if IsOpen (pl b) && (zlen (TsRouting.fTunNode (rt b)) >? 0) then _StartDataPlane a b else b in
      goto (WDerp m ep) b
  | WDerp m ep =>
      let b := _BringUpDerp a b in
      if fDerpUp (pl b) && (fDerpHomeRegion (re b) >? 0) then goto (WAdvertise m ep) b else goto (WDns m ep) b
  | WAdvertise m ep => goto (WDns m ep) (_AdvertiseDerpHome ep a b)
  | WDns m ep => settle m ep a (_StartMagicDns a b)
  | WSleep m delay waited =>
      match sleep_step delay waited (stopping b) with
      | inl false => finish [] (close_socket b)
      | inl true => goto (WSession (mkMapper (m_backoff m) (a_now a) false)) b
      | inr waited => goto (WSleep m delay waited) b
      end
  end.

(** ** The other threads *)

Definition _DerpMarkDown (b : backend) : backend := with_pl (with_derp (close_relay (fDerp (pl b))) false (pl b)) b.

Definition _DerpReconnect (a : answer) (b : backend) : bool * backend :=
  if zlen (fDerpHost (re b)) =? 0 then (false, b) else connect_relay (fDerpHost (re b)) a b.

Definition _DerpKeepaliveTick (now : Z) (b : backend) : backend :=
  if now - fLastDerpKeepalive (re b) <? 60000000 then b
  else
    let r := re b in
    let b := with_re (mkRelay (fDerpReader r) (strays r) (fDerpHomeRegion r) (fDerpHost r) now) b in
    if fDerpUp (pl b) then with_pl (with_derp (snd (Derp.WriteFrame Derp.DERP_KEEP_ALIVE [] (fDerp (pl b)))) true (pl b)) b else b.

Definition set_reader (r : relay_reader) (b : backend) : backend :=
  with_re (mkRelay (Some r) (strays (re b)) (fDerpHomeRegion (re b)) (fDerpHost (re b)) (fLastDerpKeepalive (re b))) b.

Definition relay_turn (a : answer) (d : draw) (b : backend) : backend :=
  match fDerpReader (re b) with
  | None => b
  | Some r =>
      match r_sleep r with
      | Some (delay, waited) =>
          match sleep_step delay waited (stopping b) with
          | inl false => b
          | inr waited => set_reader (mkReader (r_backoff r) (r_connectedAt r) (Some (delay, waited))) b
          | inl true =>
              let '(ok, b) := _DerpReconnect a b in
              set_reader (mkReader (r_backoff r) (if ok then a_now a else r_connectedAt r) None) b
          end
      | None =>
          if stopping b then b
          else
            let '(got, x) := Derp.RecvPacket 2048 (fDerp (pl b)) in
            let b := with_pl (with_derp x (fDerpUp (pl b)) (pl b)) b in
            match got with
            | Derp.Packet _ buf => if zlen buf >? 0 then with_pl (_HandleWireGuardPacket buf d (pl b)) b else b
            | Derp.NoPacket => b
            | Derp.RecvError =>
                let b := _DerpMarkDown b in
                let '(delay, bo) := ReconnectBackoff.NextDelay (r_backoff r) true (a_now a - r_connectedAt r) in
                set_reader (mkReader bo (r_connectedAt r) (Some (delay, 0))) b
            end
      end
  end.

(** [clock] is the time _MaintainPeers reads, [ds] its draws per peer; [packet]
    what select and read brought, with its draw. *)
Definition tun_turn (a : answer) (clock : Z) (ds : nat -> draw) (packet : option (bytes * draw)) (b : backend) : backend :=
  if negb (fTunReader (rd b)) || stopping b then b
  else
    let b :=
      if a_now a - lastMaint (rd b) >=? 1000000 then
        let b := with_pl (_MaintainPeers clock ds (pl b)) b in
        let b := _DerpKeepaliveTick (a_now a) b in
        let b := with_rt (TsRouting._SyncExitNode (env_of a b) (peers_of (pl b)) (rt b)) b in
        with_rd (mkReaders (fTunReader (rd b)) (fSockReader (rd b)) (a_now a)) b
      else b in
    match packet with
    | None => b
    | Some (buf, d) => with_pl (tun_packet buf d (pl b)) b
    end.

Definition sock_turn (buf : bytes) (from : option addr) (d : draw) (b : backend) : backend :=
  if negb (fSockReader (rd b)) || stopping b then b else with_pl (sock_packet buf from d (pl b)) b.

Definition answer_dns (to : addr) (r : bytes) (b : backend) : backend :=
  with_dn (mkResolver (fDnsFd (dn b)) (fDnsThread (dn b)) (dns_out (dn b) ++ [(to, r)])) b.

(** [reply]: what the upstream resolver sends back, if it could be asked. *)
Definition dns_turn (query : bytes) (from : addr) (reply : option bytes) (b : backend) : backend :=
  if negb (fDnsThread (dn b)) || stopping b then b
  else
    let query := ztake 1500 query in
    if zlen query =? 0 then b
    else
      match MagicDns.Resolve (SessionState.fDns (fSession (pl b))) query 1500 with
      | None => b
      | Some [] =>
          match Netmap.resolvers (Netmap.fDns (SessionState.fNetmap (fSession (pl b)))) with
          | [] => b
          | upstream :: _ =>
              if zlen upstream =? 0 then b
              else
                match inet_pton (cstr upstream), reply with
                | Some _, Some r => let r := ztake 1500 r in if zlen r >? 0 then answer_dns from r b else b
                | _, _ => b
                end
          end
      | Some r => answer_dns from r b
      end.

(** ** All that can happen, in any order *)

Inductive input :=
| InConnect (p : VPNProfile.profile) (d : Identity.draws) (spawned : bool)
| InDisconnect
| InExitNode (id : bytes)
| InLooper (a : answer)
| InWorker (a : answer)
| InTun (a : answer) (clock : Z) (ds : nat -> draw) (packet : option (bytes * draw))
| InSock (buf : bytes) (from : option addr) (d : draw)
| InRelay (a : answer) (d : draw)
| InDns (query : bytes) (from : addr) (reply : option bytes).

Definition step (b : backend) (i : input) : backend :=
  match i with
  | InConnect p d spawned => snd (Connect p d spawned b)
  | InDisconnect => snd (Disconnect b)
  | InExitNode id => snd (SetExitNode id b)
  | InLooper a => dispatch a b
  | InWorker a => worker_turn a b
  | InTun a clock ds packet => tun_turn a clock ds packet b
  | InSock buf from d => sock_turn buf from d b
  | InRelay a d => relay_turn a d b
  | InDns query from reply => dns_turn query from reply b
  end.
End WithOpenSSL.

(** ** What the looper reports of the peers *)

Definition kFieldPeerName : string := "soto:peer:name".
Definition kFieldPeerIP : string := "soto:peer:ip".
Definition kFieldPeerOnline : string := "soto:peer:online".
Definition kFieldPeerPath : string := "soto:peer:path".
Definition kFieldPeerNodeKey : string := "soto:peer:nodekey".
Definition kFieldPeerExitCap : string := "soto:peer:exitcap".
Definition kFieldPeerExitOn : string := "soto:peer:exiton".
Definition kFieldPeerTx : string := "soto:peer:tx".
Definition kFieldPeerRx : string := "soto:peer:rx".
Definition kFieldPeerEndpoint : string := "soto:peer:endpoint".
Definition kFieldPeerDerp : string := "soto:peer:derp".
Definition kFieldPeerDerpCode : string := "soto:peer:derpcode".
Definition kFieldPeerHsAge : string := "soto:peer:hsage".

(** The first IPv4 entry without its prefix length. *)
Fixpoint peer_ip (cidrs : list bytes) : bytes :=
  match cidrs with
  | [] => []
  | cidr :: cidrs =>
      match find_first 46 cidr with
      | None => peer_ip cidrs
      | Some _ => match find_first 47 cidr with Some slash => ztake slash cidr | None => cidr end
      end
  end.

Definition advertises_exit (p : PeerSet.ManagedPeer) : bool := existsb (fun c => beq c (bs "0.0.0.0/0")) (PeerSet.m_allowedIPs p).

Definition peer_endpoint (p : PeerSet.ManagedPeer) : option bytes :=
  if is_direct (PeerSet.path p) && (zlen (PeerPath.fEndpoint (PeerSet.path p)) >? 0) then Some (PeerPath.fEndpoint (PeerSet.path p))
  else hd_error (PeerSet.m_endpoints p).

Definition region_code (rs : list Netmap.DerpRegion) (id : Z) : option bytes :=
  if id >? 0 then
    match Netmap.DerpRegionById id rs with
    | Some r => if zlen (Netmap.regionCode r) >? 0 then Some (Netmap.regionCode r) else None
    | None => None
    end
  else None.

Definition add_opt (name : string) (v : option bytes) (m : message) : message :=
  match v with Some x => add name (VString x) m | None => m end.

Definition peer_message (active : bytes) (rs : list Netmap.DerpRegion) (now : Z) (p : PeerSet.ManagedPeer) : message :=
  let m := BMessage 0 in
  let m := add kFieldPeerName (VString (if zlen (PeerSet.m_hostname p) >? 0 then PeerSet.m_hostname p else bs "(unknown)")) m in
  let m := add kFieldPeerIP (VString (peer_ip (PeerSet.m_allowedIPs p))) m in
  let m := add kFieldPeerOnline (VBool (PeerSet.m_online p)) m in
  let m := add kFieldPeerPath (VString (if is_direct (PeerSet.path p) then bs "direct" else bs "relay")) m in
  let m := add kFieldPeerNodeKey (VString (PeerSet.nodeKeyHex p)) m in
  let m := add kFieldPeerExitCap (VBool (advertises_exit p)) m in
  let m := add kFieldPeerExitOn (VBool ((zlen active >? 0) && beq active (PeerSet.nodeKeyHex p))) m in
  let m := add kFieldPeerTx (VInt64 (s64 (WGPeer.fTxBytes (WGPeer.ss (PeerSet.wg p))))) m in
  let m := add kFieldPeerRx (VInt64 (s64 (WGPeer.fRxBytes (WGPeer.ss (PeerSet.wg p))))) m in
  let m := add_opt kFieldPeerEndpoint (peer_endpoint p) m in
  let m := add kFieldPeerDerp (VInt32 (PeerSet.m_derpRegion p)) m in
  let m := add_opt kFieldPeerDerpCode (region_code rs (PeerSet.m_derpRegion p)) m in
  add kFieldPeerHsAge (VInt32 (if WGPeer.fHasKeys (WGPeer.ss (PeerSet.wg p)) then WGPeer.SessionAgeSeconds (PeerSet.wg p) now else -1)) m.

Definition FillPeers (now : Z) (b : backend) (out : message) : message :=
  fold_left (fun out p => add kFieldPeer (nested (peer_message (TsRouting.fActiveExitNode (rt b)) (regions b) now p)) out)
    (peers_of (pl b)) out.
End TsBackend.
