(* ===== verification/TsBackendProofs.v ===== *)
(** * TsBackendProofs: the lifecycle of a tailnet session is sound

    The invariant [alive] of every reachable state, the way out of a session
    once a disconnect was requested, the sleeps, and the peer report. *)

From stdpp Require Import gmap.
From S2P Require Import Prelude CLib Backoff PeerPath Routes Crypto WGPeer Identity Disco Hpack Http2 MapStream Json Netmap PeerSet MagicSock MagicDns ControlSession SessionState Derp TsPlane TsPlaneProofs Message Profiles Tun TsRouting TsBackend.
Open Scope Z_scope.
Open Scope soto_scope.

Module TsBackendProofs.

Import Crypto Message VPNState TunDevice TsPlane TsBackend.

(** ** The invariant *)

(** Nothing of a session is left. *)
Record quiet (b : backend) : Prop := {
  q_tun_reader : fTunReader (rd b) = false;
  q_sock_reader : fSockReader (rd b) = false;
  q_relay_reader : fDerpReader (re b) = None;
  q_dns : fDnsFd (dn b) = false /\ fDnsThread (dn b) = false;
  q_tun : fTunFd (pl b) = false;
  q_relay : fDerpUp (pl b) = false;
  q_host : fDerpHost (re b) = [];
  q_slot : TsRouting.fTunInterface (rt b) = [] }.

Definition closed (b : backend) : Prop := MagicSock.fSocket (fMagicSock (pl b)) < 0.

Definition terminal (m : msg) : Prop := match m with MsgTsFailed _ => True | _ => False end.

#[export] Instance terminal_dec m : Decision (terminal m).
Proof. destruct m; (by left) || (by right; intros []). Defined.
#[export] Instance gone_dec w : Decision (w = WNone).
Proof. destruct w; (by left) || (by right). Defined.

(** Phases with no map session, and so no socket. *)
Definition no_map (w : worker) : Prop := match w with WNone | WRegister | WPoll _ => True | _ => False end.

Definition run `{OpenSSL} (es : list input) (b : backend) : backend := fold_left step es b.

Section WithTable.
Context {T : Type} `{RouteTableLaws T}.
Context (t0 : T) (Hclean : TsRouting.clean_host t0).

Record alive (b : backend) : Prop := {
  l_routes : TsRouting.routes_ok t0 (rt b);
  l_flight : fWorker (co b) = true ->
    (phase (co b) <> WNone /\ Forall (fun m => ~ terminal m) (queue (co b)))
    \/ (phase (co b) = WNone /\ exists q d, queue (co b) = q ++ [MsgTsFailed d] /\ Forall (fun m => ~ terminal m) q);
  l_idle : fWorker (co b) = false -> phase (co b) = WNone /\ queue (co b) = [] /\ quiet b;
  l_sock : no_map (phase (co b)) -> closed b;
  l_up : forall n ip, MsgTsNetmap n ip true ∈ queue (co b) -> fTunFd (pl b) = true;
  l_connected : fState (fr b) = VPN_STATE_CONNECTED -> fTunFd (pl b) = true /\ fWorker (co b) = true }.

Definition sound_answer (a : answer) : Prop :=
  forall gw iface, DefaultGateway (a_route a) = Some (gw, iface) -> entries t0 (TsRouting.carrier_default gw iface).
(** The gateway a tick finds is in the host's table. *)
Definition sound_input (i : input) : Prop := match i with InTun a _ _ _ => sound_answer a | _ => True end.

Lemma fresh_alive ks : alive (TailscaleBackend ks).
Proof.
  split; [by apply TsRouting.fresh_ok|done|intros _; split_and!; [done|done|by split]|done| |done]. intros n ip Hin. by apply elem_of_nil in Hin.
Qed.

(** ** The threads *)

(** A turn of a thread other than the worker. *)
Record passes (b c : backend) : Prop := {
  p_co : co c = co b;
  p_fr : fr c = fr b;
  p_fd : fTunFd (pl c) = fTunFd (pl b);
  p_sock : fMagicSock (pl c) = fMagicSock (pl b);
  p_rt : TsRouting.routes_ok t0 (rt b) -> TsRouting.routes_ok t0 (rt c) }.

#[export] Instance passes_preorder : PreOrder passes.
Proof. split; [by split|]. intros b c d [A1 A2 A3 A4 A5] [B1 B2 B3 B4 B5]. split; [congruence..|]. auto. Qed.

Lemma passes_alive b c : passes b c -> (quiet b -> c = b) -> alive b -> alive c.
Proof.
  intros [P1 P2 P3 P4 P5] Hq [L1 L2 L3 L4 L5 L6]. unfold closed in *. split; unfold closed; rewrite ?P1, ?P2, ?P3, ?P4; auto.
  intros Hw. destruct (L3 Hw) as (? & ? & Hb). split_and!; [done..|]. by rewrite (Hq Hb).
Qed.

Lemma passes_plane p b : fTunFd p = fTunFd (pl b) -> fMagicSock p = fMagicSock (pl b) -> passes b (with_pl p b).
Proof. by split. Qed.

Section WithOpenSSL.
Context `{OpenSSL}.

Lemma passes_sends p b : TsPlaneProofs.sends (pl b) p -> passes b (with_pl p b).
Proof. intros S. apply passes_plane; [by apply (TsPlaneProofs.sends_fd _ _ S)|by apply (TsPlaneProofs.sends_sock _ _ S)]. Qed.

Lemma SendTo_frame to buf p : fTunFd (SendTo to buf p) = fTunFd p /\ fMagicSock (SendTo to buf p) = fMagicSock p.
Proof. unfold SendTo. by destruct (_ <? 0). Qed.

Lemma passes_sock_packet buf from d b : passes b (with_pl (sock_packet buf from d (pl b)) b).
Proof.
  unfold sock_packet. destruct (_ =? 0); [by apply passes_plane|]. destruct (MagicSock.Classify buf).
  - apply passes_sends, TsPlaneProofs.sends_WireGuard.
  - destruct from; by apply passes_plane.
  - destruct from as [from|]; [|by apply passes_plane]. unfold _HandleDiscoPacket.
    destruct (Disco.DiscoOpen _ _ _) as [[key x]|]; [|by apply passes_plane]. cbv zeta. destruct (_ =? Disco.DISCO_PING).
    { destruct (Disco.DecodePing x); [|by apply passes_plane]. destruct (Disco.DiscoSeal _ _ _ _ _ _) as [pkt|]; [|by apply passes_plane].
      destruct (SendTo_frame from pkt (pl b)). by apply passes_plane. }
    destruct (_ =? Disco.DISCO_PONG); [|by apply passes_plane]. destruct (PeerSet.FindByDiscoKey _ _); by apply passes_plane.
Qed.

Lemma sock_turn_passes buf from d b : passes b (sock_turn buf from d b).
Proof.
  unfold sock_turn. destruct (fSockReader (rd b)) eqn:Er; cbn [negb orb]; [|reflexivity]. destruct (stopping b); [reflexivity|].
  apply passes_sock_packet.
Qed.

Lemma sock_turn_quiet buf from d b : quiet b -> sock_turn buf from d b = b.
Proof.
  intros Q. unfold sock_turn. by rewrite (q_sock_reader _ Q).
Qed.

Lemma keepalive_passes now b : passes b (_DerpKeepaliveTick now b).
Proof. unfold _DerpKeepaliveTick. destruct (_ <? _); [reflexivity|]. cbv zeta. by destruct (fDerpUp _). Qed.

Lemma tun_turn_passes a clock ds packet b : sound_answer a -> passes b (tun_turn a clock ds packet b).
Proof.
  intros So. unfold tun_turn. destruct (fTunReader (rd b)) eqn:Er; cbn [negb orb]; [|reflexivity]. destruct (stopping b); [reflexivity|].
  cbv zeta.
  match goal with |- passes b (match packet with Some _ => _ | None => ?X end) => assert (Hx : passes b X) end.
  { destruct (_ >=? _); [|reflexivity]. etransitivity; [apply passes_sends, (TsPlaneProofs.sends_upkeep clock ds)|].
    etransitivity; [apply (keepalive_passes (a_now a))|]. split; try done. intros K. cbn [rt with_rd with_rt].
    apply TsRouting.ExitTick_ok; done. }
  destruct packet as [[buf d]|]; [|exact Hx]. etransitivity; [exact Hx|]. apply passes_sends, TsPlaneProofs.sends_tun_packet.
Qed.

Lemma tun_turn_quiet a clock ds packet b : quiet b -> tun_turn a clock ds packet b = b.
Proof.
  intros Q. unfold tun_turn. by rewrite (q_tun_reader _ Q).
Qed.

Lemma connect_relay_frame host a b : let c := snd (connect_relay host a b) in
  fTunFd (pl c) = fTunFd (pl b) /\ fMagicSock (pl c) = fMagicSock (pl b) /\ co c = co b /\ fr c = fr b /\ rt c = rt b /\ re c = re b
  /\ (fst (connect_relay host a b) = true -> fDerpUp (pl c) = true).
Proof. unfold connect_relay. destruct (Derp.Connect _ _ _ _ _ _ _) as [st d]. by destruct (bool_decide _). Qed.

Lemma relay_turn_passes a d b : passes b (relay_turn a d b).
Proof.
  unfold relay_turn. destruct (fDerpReader (re b)) as [r|] eqn:Er; [|reflexivity].
  destruct (r_sleep r) as [[delay waited]|].
  - destruct (sleep_step _ _ _) as [[]|w]; [|reflexivity|by split]. unfold _DerpReconnect.
    destruct (_ =? 0); [by split|]. destruct (connect_relay_frame (fDerpHost (re b)) a b) as (F1 & F2 & F3 & F4 & F5 & _).
    destruct (connect_relay _ _ _) as [ok c]. cbn [snd] in *. split; cbn; [done..|]. by rewrite F5.
  - destruct (stopping b); [reflexivity|]. destruct (Derp.RecvPacket 2048 (fDerp (pl b))) as [got x].
    set (c := with_pl (with_derp x (fDerpUp (pl b)) (pl b)) b). assert (Hc : passes b c) by by apply passes_plane.
    destruct got as [key buf| |]; [|exact Hc|].
    + destruct (_ >? 0); [|exact Hc]. etransitivity; [exact Hc|]. apply passes_sends, TsPlaneProofs.sends_WireGuard.
    + etransitivity; [exact Hc|]. destruct (ReconnectBackoff.NextDelay _ _ _). by split.
Qed.

Lemma relay_turn_quiet a d b : quiet b -> relay_turn a d b = b.
Proof.
  intros Q. unfold relay_turn. by rewrite (q_relay_reader _ Q).
Qed.

Lemma dns_turn_passes query from reply b : passes b (dns_turn query from reply b).
Proof.
  unfold dns_turn. destruct (fDnsThread (dn b)) eqn:Er; cbn [negb orb]; [|reflexivity]. destruct (stopping b); [reflexivity|].
  destruct (_ =? 0); [reflexivity|].
  destruct (MagicDns.Resolve _ _ _) as [[|x r]|]; [|by split|reflexivity]. destruct (Netmap.resolvers _) as [|up ups]; [reflexivity|].
  destruct (_ =? 0); [reflexivity|]. destruct (inet_pton _); [|reflexivity]. destruct reply as [r|]; [|reflexivity]. cbv zeta. destruct (_ >? 0); by split.
Qed.

Lemma dns_turn_quiet query from reply b : quiet b -> dns_turn query from reply b = b.
Proof.
  intros Q. unfold dns_turn. by rewrite (proj2 (q_dns _ Q)).
Qed.

(** ** The control worker *)

(** What a message claims of the state it is posted in. *)
Definition fine (b : backend) (m : msg) : Prop :=
  ~ terminal m /\ forall n ip, m = MsgTsNetmap n ip true -> fTunFd (pl b) = true.

(** What the worker does between two blocking calls, its position aside. *)
Record progress (b c : backend) : Prop := {
  g_fr : fr c = fr b;
  g_worker : fWorker (co c) = fWorker (co b);
  g_stop : stopping c = stopping b;
  g_queue : exists l, queue (co c) = queue (co b) ++ l /\ Forall (fine c) l;
  g_fd : fTunFd (pl b) = true -> fTunFd (pl c) = true;
  g_rt : TsRouting.routes_ok t0 (rt b) -> TsRouting.routes_ok t0 (rt c) }.

#[export] Instance progress_preorder : PreOrder progress.
Proof.
  split; [split; try done; exists []; by rewrite app_nil_r|].
  intros b c d [A1 A2 A3 (l & A4 & A5) A6 A7] [B1 B2 B3 (k & B4 & B5) B6 B7]. split; try congruence; auto.
  exists (l ++ k). rewrite B4, A4, app_assoc. split; [done|]. apply Forall_app. split; [|done].
  apply (Forall_impl _ _ _ A5). intros m [M1 M2]. split; [done|]. eauto.
Qed.

Lemma progress_same b c : fr c = fr b -> co c = co b -> (fTunFd (pl b) = true -> fTunFd (pl c) = true) -> rt c = rt b -> progress b c.
Proof. intros E1 E2 E3 E4. split; unfold stopping; rewrite ?E2, ?E4; try done. exists []. by rewrite app_nil_r. Qed.

Lemma progress_post m b : fine b m -> progress b (post m b).
Proof. intros F. split; try done. exists [m]. split; [done|]. by constructor. Qed.

Lemma progress_open a b : progress b (open_socket a b).
Proof. unfold open_socket. destruct (a_socket a) as [[sock bound] name]. destruct (IsOpen _); [reflexivity|]. by apply progress_same. Qed.

Lemma progress_close b : progress b (close_socket b).
Proof. by apply progress_same. Qed.

Lemma closed_close b : closed (close_socket b).
Proof. unfold closed, close_socket, MagicSock.Close. cbn. rewrite Z.geb_leb. destruct (Z.leb_spec 0 (MagicSock.fSocket (fMagicSock (pl b)))); lia. Qed.

Lemma progress_BringUpMagicSock a b : progress b (_BringUpMagicSock a b).
Proof.
  unfold _BringUpMagicSock. cbv zeta. etransitivity; [apply (progress_open a)|]. destruct (negb _); [reflexivity|].
  destruct (first_node _ _ _) as [host chosen]. destruct (_ =? 0); [reflexivity|]. destruct (a_stun a) as [[[resolved sends] rs] txId].
  destruct (MagicSock.DiscoverEndpoint _ _ _ _ _) as [[] [[ip port]|]]; try reflexivity. apply progress_post. split; [tauto|by intros].
Qed.

Lemma progress_BringUpTun a b : progress b (_BringUpTun a b).
Proof. split; try done; [exists []; by rewrite app_nil_r|]. intros K. by apply TsRouting.BringUp_ok. Qed.

Lemma progress_StartDataPlane a b : progress b (_StartDataPlane a b).
Proof.
  unfold _StartDataPlane. destruct (fTunFd _); [reflexivity|]. destruct (negb _); [reflexivity|].
  destruct (a_threads a) as [[[tunThread sockThread] relayThread] dnsThread]. by apply progress_same.
Qed.

Lemma progress_BringUpDerp a b : progress b (_BringUpDerp a b).
Proof.
  unfold _BringUpDerp. destruct (fDerpUp _); [reflexivity|]. destruct (relay_choice b) as [host chosen]. destruct (_ =? 0); [reflexivity|].
  destruct (connect_relay_frame host a b) as (F1 & _ & F3 & F4 & F5 & _). destruct (connect_relay host a b) as [[] c]; cbn [snd] in *.
  - destruct (a_threads a) as [[[tunThread sockThread] relayThread] dnsThread]. apply progress_same; cbn; congruence.
  - apply progress_same; congruence.
Qed.

Lemma progress_Advertise ep a b : progress b (_AdvertiseDerpHome ep a b).
Proof. unfold _AdvertiseDerpHome. destruct (a_status a); try reflexivity. split; try done. exists []. by rewrite app_nil_r. Qed.

Lemma progress_StartMagicDns a b : progress b (_StartMagicDns a b).
Proof.
  unfold _StartMagicDns. destruct (fDnsFd _); [reflexivity|]. destruct (_ =? 0); [reflexivity|]. destruct (negb _); [reflexivity|].
  destruct (a_threads a) as [[[tunThread sockThread] relayThread] dnsThread]. by apply progress_same.
Qed.

(** How many turns are left once the stop flag is set. *)
Definition rank (w : worker) : nat :=
  match w with
  | WNone => 0
  | WRegister | WPoll _ | WSession _ | WSleep _ _ _ | WDns _ _ => 1
  | WAdvertise _ _ => 2
  | WDerp _ _ => 3
  | WTun _ _ => 4
  | WStun _ _ => 5
  | WStream _ _ => 6
  end.

Lemma rank_0 w : (rank w <= 0)%nat -> w = WNone.
Proof. destruct w; done || (cbn; lia). Qed.
Lemma rank_6 w : (rank w <= 6)%nat.
Proof. destruct w; cbn; lia. Qed.

(** A turn that began in phase [from] leaves the worker in another blocking
    call, or it has posted its last message and is gone. *)
Inductive outcome (from : worker) (b : backend) : backend -> Prop :=
| on_going w c : progress b c -> w <> WNone -> (no_map w -> closed b -> closed c) -> (no_map w -> no_map from) ->
    (stopping b = true -> (rank w < rank from)%nat) -> outcome from b (goto w c)
| all_done d c : progress b c -> (closed c \/ (no_map from /\ (closed b -> closed c))) -> (stopping b = true -> d = []) -> outcome from b (finish d c).

Lemma outcome_after from b c x : progress b c -> ~ no_map from -> outcome from c x -> outcome from b x.
Proof.
  intros P Hn [w y P1 P2 P3 P4 P5|d y P1 P2 P3]; pose proof (g_stop _ _ P) as S.
  - apply on_going; [by etransitivity|done|intros N; destruct (Hn (P4 N))|done|rewrite <- S; done].
  - apply all_done; [by etransitivity| |rewrite <- S; done]. left. by destruct P2 as [|[]].
Qed.

Lemma wait_backoff_outcome from bo m a b : from <> WNone -> ~ no_map from -> outcome from b (wait_backoff bo m a b).
Proof.
  intros Hf Hn. unfold wait_backoff. destruct (stopping b) eqn:Es.
  - apply all_done; [apply progress_close|left; apply closed_close|done].
  - destruct (ReconnectBackoff.NextDelay _ _ _). by apply on_going; rewrite ?Es.
Qed.

Lemma session_ended_outcome from m a b : from <> WNone -> ~ no_map from -> outcome from b (session_ended m a b).
Proof.
  intros Hf Hn. unfold session_ended. destruct (m_backoff m) as [bo|]; [by apply wait_backoff_outcome|].
  destruct (stopping b) eqn:Es; [apply all_done; [apply progress_close|left; apply closed_close|done]|].
  destruct (negb _); [|by apply wait_backoff_outcome]. apply all_done; [apply progress_close|left; apply closed_close|by rewrite Es].
Qed.

Lemma stream_head_outcome from m ep a b : from <> WNone -> ~ no_map from -> outcome from b (stream_head m ep a b).
Proof.
  intros Hf Hn. unfold stream_head. destruct (stopping b) eqn:Es; [by apply session_ended_outcome|]. by apply on_going; rewrite ?Es.
Qed.

Lemma settle_outcome from m ep a b : from <> WNone -> ~ no_map from -> outcome from b (settle m ep a b).
Proof.
  intros Hf Hn. unfold settle. cbv zeta.
  match goal with |- outcome from b (stream_head m ep a (post ?x ?y)) => set (c := y); assert (P : progress b c) end.
  { split; try done; [exists []; by rewrite app_nil_r|]. intros K. by apply TsRouting.Sync_ok. }
  apply (outcome_after _ _ (post (MsgTsNetmap (SessionState.PeerCount (fSession (pl c))) (self_ip c) (fTunFd (pl c))) c)); [|done|by apply stream_head_outcome].
  etransitivity; [exact P|]. apply progress_post. split; [tauto|]. by intros n ip [= _ _ E].
Qed.

Lemma registered_outcome from a waiting b : from <> WNone -> no_map from -> stopping b = false ->
  outcome from b (waiting b) -> outcome from b (registered a waiting b).
Proof.
  intros Hf Hn Hs Hw. unfold registered. cbv zeta. destruct (negb _); [by apply all_done; [|right|rewrite Hs]|].
  destruct (_ >? 0); [by apply all_done; [|right|rewrite Hs]|]. destruct (Register.machineAuthorized _); [|exact Hw].
  apply on_going; [|done..|by rewrite Hs]. etransitivity; [|apply progress_open]. apply progress_post. split; [tauto|by intros].
Qed.

(** A phase with a map session. *)
Ltac in_map lem := apply lem; [discriminate|intros []].

Lemma turn_outcome a b : phase (co b) <> WNone -> outcome (phase (co b)) b (worker_turn a b).
Proof.
  intros Hf. unfold worker_turn. destruct (phase (co b)) as [| |followup|m|m ep|m ep|m ep|m ep|m ep|m ep|m delay waited] eqn:Ep; [done|..].
  - destruct (stopping b) eqn:Es; [by apply all_done; [|right|]|]. apply registered_outcome; [done..|].
    cbv zeta. destruct (_ =? 0); [by apply all_done; [|right|rewrite Es]|]. apply on_going; try done; [|by rewrite Es].
    apply progress_post. split; [tauto|by intros].
  - destruct (stopping b) eqn:Es; [by apply all_done; [|right|]|]. apply registered_outcome; [done..|]. by apply on_going; rewrite ?Es.
  - cbv zeta. cbn [m_backoff m_start].
    assert (G1 : outcome (WSession m) b (session_ended (mkMapper (m_backoff m) (m_start m) false) a b)) by in_map session_ended_outcome.
    assert (G2 : outcome (WSession m) b (stream_head (mkMapper (m_backoff m) (m_start m) true) (endpoint_json a b) a b)) by in_map stream_head_outcome.
    revert G1 G2. generalize (stream_head (mkMapper (m_backoff m) (m_start m) true) (endpoint_json a b) a b).
    generalize (session_ended (mkMapper (m_backoff m) (m_start m) false) a b). intros x y G1 G2.
    repeat case_match; done.
  - destruct (a_read a) as [[]|text]; try in_map session_ended_outcome; [in_map stream_head_outcome|].
    destruct (SessionState.ApplyMapResponse _ _) as [[[ok c] s]|]; [|in_map stream_head_outcome].
    set (b2 := with_pl _ b). assert (P : progress b b2) by by apply progress_same.
    destruct (negb ok); [apply (outcome_after _ _ b2); [done|intros []|in_map stream_head_outcome]|].
    destruct (fTunFd (pl b2)); [apply (outcome_after _ _ b2); [done|intros []|in_map settle_outcome]|].
    apply on_going; try done. cbn. lia.
  - apply on_going; try done; [apply progress_BringUpMagicSock|cbn; lia].
  - apply on_going; try done; [|cbn; lia]. etransitivity; [|].
    + instantiate (1 := if zlen (TsRouting.fTunInterface (rt b)) =? 0 then _BringUpTun a b else b). destruct (_ =? 0); [apply progress_BringUpTun|reflexivity].
    + destruct (_ && _); [apply progress_StartDataPlane|reflexivity].
  - cbv zeta. destruct (_ && _); (apply on_going; try done; [apply progress_BringUpDerp|cbn; lia]).
  - apply on_going; try done; [apply progress_Advertise|cbn; lia].
  - apply (outcome_after _ _ (_StartMagicDns a b)); [apply progress_StartMagicDns|intros []|in_map settle_outcome].
  - destruct (sleep_step _ _ _) as [[]|w] eqn:Ew.
    + apply on_going; try done. intros Es. unfold sleep_step in Ew. rewrite Es in Ew. by destruct (_ <? _).
    + apply all_done; [apply progress_close|left; apply closed_close|done].
    + apply on_going; try done. intros Es. unfold sleep_step in Ew. rewrite Es in Ew. by destruct (_ <? _).
Qed.

Lemma flying b : alive b -> phase (co b) <> WNone -> fWorker (co b) = true /\ Forall (fun m => ~ terminal m) (queue (co b)).
Proof.
  intros L Hp. destruct (fWorker (co b)) eqn:Ew; [|destruct (l_idle _ L Ew); done]. split; [done|]. by destruct (l_flight _ L Ew) as [[_ ?]|[? _]].
Qed.

Lemma progress_up b c l : alive b -> progress b c -> queue (co c) = queue (co b) ++ l -> Forall (fine c) l ->
  forall n ip, MsgTsNetmap n ip true ∈ queue (co c) -> fTunFd (pl c) = true.
Proof.
  intros L P El Hl n ip Hin. rewrite El in Hin. apply elem_of_app in Hin as [Hin|Hin]; [by eapply (g_fd _ _ P), (l_up _ L)|].
  rewrite Forall_forall in Hl. by eapply (Hl _ Hin).
Qed.

Lemma worker_turn_alive a b : alive b -> alive (worker_turn a b).
Proof.
  intros L. destruct (decide (phase (co b) = WNone)) as [E|Hp]; [unfold worker_turn; by rewrite E|].
  destruct (flying b L Hp) as [Hw Hq]. pose proof (turn_outcome a b Hp) as O. revert O. generalize (worker_turn a b). intros x O.
  assert (G : forall c l, queue (co c) = queue (co b) ++ l -> Forall (fine c) l -> Forall (fun m => ~ terminal m) (queue (co c))).
  { intros c l El Hl. rewrite El. apply Forall_app. split; [done|]. by apply (Forall_impl _ _ _ Hl); intros m []. }
  destruct O as [w c P P2 P3 P4 _|d c P P2 _]; destruct (g_queue _ _ P) as (l & El & Hl); pose proof (G c l El Hl) as Gc; pose proof (g_worker _ _ P) as Pw.
  - split; [by apply (g_rt _ _ P), L| |cbn; congruence| | |].
    + intros _. left. done.
    + intros N. apply P3; [done|]. by apply (l_sock _ L), P4.
    + by apply (progress_up b c l).
    + cbn. rewrite (g_fr _ _ P), Pw. intros Hc. destruct (l_connected _ L Hc). split; [by apply (g_fd _ _ P)|done].
  - split; [by apply (g_rt _ _ P), L| |cbn; congruence| | |].
    + intros _. right. split; [done|]. by exists (queue (co c)), d.
    + intros _. destruct P2 as [?|[N Hc]]; [done|]. by apply Hc, (l_sock _ L).
    + intros n ip Hin. cbn in Hin. apply elem_of_app in Hin as [Hin|Hin%list_elem_of_singleton]; [|done]. by apply (progress_up b c l L P El Hl n ip).
    + cbn. rewrite (g_fr _ _ P), Pw. intros Hc. destruct (l_connected _ L Hc). split; [by apply (g_fd _ _ P)|done].
Qed.

(** ** The looper *)

Lemma teardown_slot y r : TsRouting.fTunInterface (TsRouting._TeardownTun y r) = [].
Proof. unfold TsRouting._TeardownTun. destruct (Z.eqb_spec (zlen (TsRouting.fTunInterface r)) 0) as [E|]; [by apply zlen_0_nil|done]. Qed.

Lemma stopped_quiet a b : quiet (_TeardownTun a (_StopDataPlane b)).
Proof. unfold _StopDataPlane. cbv zeta. cbn [fDerpUp pl with_re with_rd set_stop with_co _StopMagicDns with_dn]. destruct (fDerpUp (pl b)) eqn:E; split; try done; apply teardown_slot. Qed.

Lemma StopDataPlane_frame b : let c := _StopDataPlane b in
  rt c = rt b /\ fr c = fr b /\ fMagicSock (pl c) = fMagicSock (pl b) /\ fWorker (co c) = fWorker (co b) /\ phase (co c) = phase (co b)
  /\ queue (co c) = queue (co b) /\ stopping c = true.
Proof. unfold _StopDataPlane. cbv zeta. cbn [fDerpUp pl with_re with_rd set_stop with_co _StopMagicDns with_dn]. by destruct (fDerpUp (pl b)). Qed.

(** The looper's end of a session. *)
Lemma down_alive a st dt c : TsRouting.routes_ok t0 (rt c) -> fWorker (co c) = false -> phase (co c) = WNone -> queue (co c) = [] ->
  closed c -> st <> VPN_STATE_CONNECTED -> alive (_SetState st dt (_TeardownTun a (_StopDataPlane c))).
Proof.
  intros K Hw Hp Hq Hs Hst. destruct (StopDataPlane_frame c) as (F1 & _ & F3 & F4 & F5 & F6 & _). pose proof (stopped_quiet a c) as Q.
  generalize dependent (_StopDataPlane c). intros s F1 F3 F4 F5 F6 Q.
  assert (Ec : co (_SetState st dt (_TeardownTun a s)) = co s) by done. assert (Ep : pl (_SetState st dt (_TeardownTun a s)) = pl s) by done.
  split; unfold closed; rewrite ?Ec, ?Ep, ?F3, ?F4, ?F5, ?F6, ?Hw, ?Hp, ?Hq; try done.
  - change (TsRouting.routes_ok t0 (TsRouting._TeardownTun (env_of a s) (rt s))). rewrite F1. by apply TsRouting.Teardown_ok.
  - intros _. split_and!; [done..|]. destruct Q as [Q1 Q2 Q3 Q4 Q5 Q6 Q7 Q8]. by split.
  - intros n ip Hin. by apply elem_of_nil in Hin.
Qed.

Lemma dispatch_alive a b : alive b -> alive (dispatch a b).
Proof.
  intros L. unfold dispatch. destruct (queue (co b)) as [|m q] eqn:Eq; [done|].
  assert (Hw : fWorker (co b) = true). { destruct (fWorker (co b)) eqn:E; [done|]. destruct (l_idle _ L E) as (_ & E2 & _). congruence. }
  destruct (decide (terminal m)) as [Ht|Ht].
  - destruct m as [| |d| |]; try done.
    assert (phase (co b) = WNone /\ q = []) as [Ep ->].
    { destruct (l_flight _ L Hw) as [[_ F]|(Ep & k & x & E & F)]; rewrite Eq in *; [by apply Forall_cons in F as [[] _]|].
      split; [done|]. destruct k as [|y k]; [by injection E as _ ->|]. injection E as <- _. by apply Forall_cons in F as [[] _]. }
    assert (Hc : forall st dt, st <> VPN_STATE_CONNECTED ->
      alive (_SetState st dt (_TeardownTun a (_StopDataPlane (set_worker false (set_queue [] b)))))).
    { intros st dt Hst. apply down_alive; [apply L|done..| |done]. apply (l_sock _ L). by rewrite Ep. }
    unfold MessageReceived. destruct (_ =? 0); apply Hc; done.
  - assert (G : forall c, rt c = rt b -> co c = co (set_queue q b) -> pl c = pl b -> (fState (fr c) = VPN_STATE_CONNECTED -> fTunFd (pl b) = true) -> alive c).
    { intros c E1 E2 E3 E4. split; unfold closed; rewrite ?E1, ?E2, ?E3.
      - apply L.
      - intros _. cbn. destruct (l_flight _ L Hw) as [[Hp F]|(Hp & k & x & E & F)]; rewrite Eq in *; [left; by apply Forall_cons in F as [_ F]|].
        right. split; [done|]. destruct k as [|y k]; injection E as -> ->; [by destruct Ht|]. exists k, x. by apply Forall_cons in F as [_ F].
      - cbn. congruence.
      - apply L.
      - intros n ip Hin. apply (l_up _ L n ip). rewrite Eq. by right.
      - intros Hc. cbn. auto. }
    assert (Hold : fState (fr b) = VPN_STATE_CONNECTED -> fTunFd (pl b) = true) by (intros Hc; by destruct (l_connected _ L Hc)).
    destruct m as [url| |d|n ip up|ep]; cbn [MessageReceived]; try by destruct Ht.
    + by apply G.
    + by apply G.
    + apply G; try done. destruct up; [|done]. intros _. apply (l_up _ L n ip). rewrite Eq. by left.
    + by apply G.
Qed.

Lemma Connect_alive p d spawned b : alive b -> alive (snd (Connect p d spawned b)).
Proof.
  intros L. unfold Connect.
  assert (Hs : forall st dt c, rt c = rt b -> co c = co b -> fMagicSock (pl c) = fMagicSock (pl b) -> fTunFd (pl c) = fTunFd (pl b) ->
    (quiet b -> quiet c) -> st <> VPN_STATE_CONNECTED -> alive (_SetState st dt c)).
  { intros st dt c E1 E2 E3 E4 E5 E6. split; unfold closed; cbn; rewrite ?E1, ?E2, ?E3, ?E4; try apply L; [|done].
    intros Hw. destruct (l_idle _ L Hw) as (? & ? & Q). split_and!; [done..|]. destruct (E5 Q). by split. }
  destruct (_ =? 0); [by apply Hs|]. destruct (fWorker (co b)) eqn:Ew; [by apply Hs|].
  destruct (l_idle _ L Ew) as (Ep & Eq & Q). destruct (Identity.LoadOrCreate _ _ _ _) as [[[result id] created] ks].
  destruct result; try (by apply Hs; try done; intros _; destruct Q; split).
  set (r := rt b). assert (K : TsRouting.routes_ok t0 (TsRouting.with_desired [] (TsRouting.with_exit [] (TsRouting.fExitCarveouts r) (TsRouting.fExitOrigGateway r)
    (TsRouting.fExitOrigGatewayIface r) (TsRouting.fExitDefaultReplaced r) r))).
  { destruct (l_routes _ L) as [K1 K2 K3 K4 K5 K6 K7]. destruct (K2 (q_slot _ Q)) as [D1 D2]. split; [done|by intros _|intros _; by apply K3|intros Hn; by destruct Hn|done..]. }
  assert (Hq : forall n ip, MsgTsNetmap n ip true ∈ queue (co b) -> false = true) by (rewrite Eq; intros n ip Hin; by apply elem_of_nil in Hin).
  cbv zeta. destruct spawned; split; cbn; rewrite ?Ew; try done.
  - intros _. left. by rewrite Eq.
  - intros _. apply (l_sock _ L). by rewrite Ep.
  - intros n ip Hin. by apply Hq in Hin.
  - intros _. split_and!; [done|done|]. destruct Q. by split.
  - intros _. apply (l_sock _ L). by rewrite Ep.
  - intros n ip Hin. by apply Hq in Hin.
Qed.

Lemma Disconnect_alive b : alive b -> alive (snd (Disconnect b)).
Proof.
  intros L. unfold Disconnect. cbn [snd]. change (fWorker (co (set_stop true b))) with (fWorker (co b)). destruct (fWorker (co b)) eqn:Ew.
  - destruct L as [L1 L2 L3 L4 L5 L6]. split; try done. intros Hw. cbn in Hw. congruence.
  - destruct (l_idle _ L Ew) as (Ep & Eq & Q). split; [apply L|cbn; by rewrite Ew| |apply (l_sock _ L)|apply (l_up _ L)|done]. intros _. split_and!; [done..|]. destruct Q. by split.
Qed.

Lemma step_alive b i : alive b -> sound_input i -> alive (step b i).
Proof.
  intros L So. destruct i; cbn [step].
  - by apply Connect_alive.
  - by apply Disconnect_alive.
  - destruct L as [L1 L2 L3 L4 L5 L6]. split; try done.
    + destruct L1. by split.
    + intros Hw. destruct (L3 Hw) as (? & ? & Q). split_and!; [done..|]. destruct Q. by split.
  - by apply dispatch_alive.
  - by apply worker_turn_alive.
  - by apply (passes_alive b); [apply tun_turn_passes|apply tun_turn_quiet|].
  - by apply (passes_alive b); [apply sock_turn_passes|apply sock_turn_quiet|].
  - by apply (passes_alive b); [apply relay_turn_passes|apply relay_turn_quiet|].
  - by apply (passes_alive b); [apply dns_turn_passes|apply dns_turn_quiet|].
Qed.

Lemma run_alive es b : alive b -> Forall sound_input es -> alive (run es b).
Proof. unfold run. intros L So. revert b L. induction So as [|i es Hi _ IH]; intros b L; [done|]. cbn [fold_left]. by apply IH, step_alive. Qed.

(** ** The way out *)

Definition no_connect (i : input) : Prop := match i with InConnect _ _ _ => False | _ => True end.
Definition for_worker (i : input) : bool := match i with InWorker _ => true | _ => false end.
Definition for_looper (i : input) : bool := match i with InLooper _ => true | _ => false end.
Definition turns (who : input -> bool) (es : list input) : nat := length (List.filter who es).

Lemma turns_cons who i es : turns who (i :: es) = ((if who i then 1 else 0) + turns who es)%nat.
Proof. unfold turns. cbn. by destruct (who i). Qed.

Lemma MessageReceived_control m a b : let c := MessageReceived m a b in
  phase (co c) = phase (co b) /\ queue (co c) = queue (co b) /\ (stopping b = true -> stopping c = true)
  /\ (fWorker (co c) = if decide (terminal m) then false else fWorker (co b)).
Proof.
  destruct m as [url| |d|n ip up|ep]; try by split_and!. cbv zeta. unfold MessageReceived.
  destruct (StopDataPlane_frame (set_worker false b)) as (_ & _ & _ & F4 & F5 & F6 & F7).
  generalize dependent (_StopDataPlane (set_worker false b)). intros s F4 F5 F6 F7. by destruct (_ =? 0).
Qed.

(** Once a disconnect was requested every turn of the worker brings it closer
    to its end, and then every turn of the looper the queue. *)
Lemma leaving b i : stopping b = true -> no_connect i -> sound_input i ->
  stopping (step b i) = true
  /\ (rank (phase (co (step b i))) <= rank (phase (co b)) - (if for_worker i then 1 else 0))%nat
  /\ (phase (co b) = WNone -> (length (queue (co (step b i))) <= length (queue (co b)) - (if for_looper i then 1 else 0))%nat).
Proof.
  intros Hs Hn So. assert (P : forall c, passes b c -> stopping c = true /\ (rank (phase (co c)) <= rank (phase (co b)) - 0)%nat
    /\ (phase (co b) = WNone -> (length (queue (co c)) <= length (queue (co b)) - 0)%nat)).
  { intros c [E _ _ _ _]. unfold stopping in *. rewrite E. split_and!; [done|lia|lia]. }
  destruct i as [p d spawned| |id|a|a|a clock ds packet|buf from d|a d|query from reply]; cbn [step for_worker for_looper]; [done|..].
  - unfold Disconnect. cbn [snd]. destruct (fWorker _); (split_and!; [done|cbn; lia|cbn; lia]).
  - split_and!; [done|cbn; lia|cbn; lia].
  - unfold dispatch. destruct (queue (co b)) as [|m q] eqn:Eq; [rewrite Eq; split_and!; [done|lia|cbn; lia]|].
    destruct (MessageReceived_control m a (set_queue q b)) as (E1 & E2 & E3 & _). rewrite E1, E2. split_and!; [by apply E3|cbn; lia|cbn; lia].
  - destruct (decide (phase (co b) = WNone)) as [E|E].
    + assert (worker_turn a b = b) as -> by (unfold worker_turn; by rewrite E). split_and!; [done|rewrite E; cbn; lia|lia].
    + destruct (turn_outcome a b E) as [w c Pg _ _ _ Hr|dt c Pg _ _]; (split_and!; [by rewrite <- Hs; apply Pg| |done]).
      * cbn. specialize (Hr Hs). lia.
      * cbn. lia.
  - apply P. by apply tun_turn_passes.
  - apply P, sock_turn_passes.
  - apply P, relay_turn_passes.
  - apply P, dns_turn_passes.
Qed.

Lemma run_leaving es b : stopping b = true -> Forall no_connect es -> Forall sound_input es ->
  stopping (run es b) = true
  /\ (rank (phase (co (run es b))) <= rank (phase (co b)) - turns for_worker es)%nat
  /\ (phase (co b) = WNone -> (length (queue (co (run es b))) <= length (queue (co b)) - turns for_looper es)%nat).
Proof.
  revert b. induction es as [|i es IH]; intros b Hs Hn So; [unfold turns; cbn; split_and!; [done|lia|lia]|].
  apply Forall_cons in Hn as [Hi Hn], So as [Si So]. destruct (leaving b i Hs Hi Si) as (A1 & A2 & A3).
  destruct (IH (step b i) A1 Hn So) as (B1 & B2 & B3). rewrite !turns_cons. change (run (i :: es) b) with (run es (step b i)). split_and!; [done|destruct (for_worker i); lia|]. intros Hp. specialize (A3 Hp).
  assert (Hp2 : phase (co (step b i)) = WNone). { apply rank_0. rewrite Hp in A2. cbn [rank] in A2. lia. }
  specialize (B3 Hp2). destruct (for_looper i); lia.
Qed.

(** What is reported in the end, [D] being the details of the failures
    already on their way when the disconnect was requested. *)
Record settling (D : bytes -> Prop) (b : backend) : Prop := {
  s_stop : stopping b = true;
  s_queue : forall d, MsgTsFailed d ∈ queue (co b) -> d = [] \/ D d;
  s_state : fWorker (co b) = false ->
    fState (fr b) = VPN_STATE_DISCONNECTED \/ (fState (fr b) = VPN_STATE_ERROR /\ exists d, d <> [] /\ D d) }.

Lemma MessageReceived_state m a b : fState (fr (MessageReceived m a b)) =
  match m with
  | MsgTsFailed d => if zlen d =? 0 then VPN_STATE_DISCONNECTED else VPN_STATE_ERROR
  | MsgTsEndpoint _ => fState (fr b)
  | MsgTsNetmap _ _ up => if up then VPN_STATE_CONNECTED else VPN_STATE_AUTHENTICATING
  | _ => VPN_STATE_AUTHENTICATING
  end.
Proof. destruct m as [url| |d|n ip up|ep]; try done. unfold MessageReceived. by destruct (_ =? 0). Qed.

Lemma step_settling D b i : alive b -> settling D b -> no_connect i -> sound_input i -> settling D (step b i).
Proof.
  intros L [S1 S2 S3] Hn So. pose proof (proj1 (leaving b i S1 Hn So)) as Hs.
  assert (P : forall c, passes b c -> stopping c = true -> settling D c) by (intros c [E1 E2 _ _ _] Hc; split; [done|by rewrite E1|by rewrite E1, E2]).
  destruct i as [p d spawned| |id|a|a|a clock ds packet|buf from d|a d|query from reply]; cbn [step] in *; [done|..].
  - split; [done|..]; unfold Disconnect; cbn [snd]; change (fWorker (co (set_stop true b))) with (fWorker (co b)).
    + intros d. destruct (fWorker (co b)); apply S2.
    + destruct (fWorker (co b)) eqn:Ew; [|by left]. intros Hw. cbn in Hw. congruence.
  - by split.
  - unfold dispatch in *. destruct (queue (co b)) as [|m q] eqn:Eq; [by split; rewrite ?Eq|].
    destruct (MessageReceived_control m a (set_queue q b)) as (_ & E2 & _ & E4). split; [done| |].
    + rewrite E2. intros d Hd. apply S2. by right.
    + rewrite E4, MessageReceived_state. destruct (decide (terminal m)) as [Ht|Ht].
      * intros _. destruct m as [| |d| |]; try done. destruct (Z.eqb_spec (zlen d) 0) as [|Hz]; [by left|]. right. split; [done|]. exists d.
        assert (d <> []) by (intros ->; done). split; [done|]. destruct (S2 d) as [|]; [by left|done|done].
      * intros Hw. change (fWorker (co b) = false) in Hw. destruct (l_idle _ L Hw) as (_ & E & _). congruence.
  - destruct (decide (phase (co b) = WNone)) as [E|E].
    + assert (worker_turn a b = b) as -> by (unfold worker_turn; by rewrite E). by split.
    + destruct (flying b L E) as [Hw _]. destruct (turn_outcome a b E) as [w c Pg _ _ _ _|dt c Pg _ Hd];
        destruct (g_queue _ _ Pg) as (l & El & Hl); (split; [done| |cbn; rewrite (g_worker _ _ Pg); congruence]);
        intros d Hin; cbn in Hin; rewrite ?El in Hin.
      * apply elem_of_app in Hin as [Hin|Hin]; [by apply S2|]. rewrite Forall_forall in Hl. by destruct (Hl _ Hin).
      * apply elem_of_app in Hin as [Hin|Hin%list_elem_of_singleton]; [|injection Hin as ->; left; by apply Hd].
        apply elem_of_app in Hin as [Hin|Hin]; [by apply S2|]. rewrite Forall_forall in Hl. by destruct (Hl _ Hin).
  - apply P; [by apply tun_turn_passes|done].
  - apply P; [apply sock_turn_passes|done].
  - apply P; [apply relay_turn_passes|done].
  - apply P; [apply dns_turn_passes|done].
Qed.

Lemma run_settling D es b : alive b -> settling D b -> Forall no_connect es -> Forall sound_input es -> settling D (run es b).
Proof.
  revert b. induction es as [|i es IH]; intros b L S Hn So; [done|]. apply Forall_cons in Hn as [Hi Hn], So as [Si So].
  apply IH; [by apply step_alive|by apply step_settling|done|done].
Qed.

Lemma Disconnect_settling b : alive b -> settling (fun d => MsgTsFailed d ∈ queue (co b)) (snd (Disconnect b)).
Proof.
  intros L. unfold Disconnect. cbn [snd]. change (fWorker (co (set_stop true b))) with (fWorker (co b)).
  destruct (fWorker (co b)) eqn:Ew; (split; [done|by right|]); [cbn; congruence|by left].
Qed.

Lemma down_routes r : TsRouting.routes_ok t0 r -> TsRouting.fTunInterface r = [] -> same_routes (run_cmds (TsRouting.cmds r) t0) t0.
Proof.
  intros K E x. pose proof (proj2 (TsRouting.Teardown_ok t0 Hclean (TsRouting.mkEnv (fun _ => true) None (fun _ => []) [] []) r K) x) as G.
  unfold TsRouting._TeardownTun in G. rewrite E in G. exact G.
Qed.

Lemma run_app es es' b : run (es ++ es') b = run es' (run es b).
Proof. apply fold_left_app. Qed.
End WithOpenSSL.
End WithTable.

(** C4: A disconnect always completes. On a host whose routing table has no route of a tunnel slot and no host route of the carve-outs' shape, and as long as every default gateway the host reports is in that table: from every state a tailnet session can reach, once the user disconnects and before the next Connect, six more turns of the control worker (whatever its blocking calls return, and however the readers, the resolver and the looper run in between) have posted its last message; and when the looper has handled the messages then waiting, the object records no thread, the tun, the relay, the socket and the resolver are closed, the host's routes are as before the session, and the state reported is Disconnected, or Error when the worker had failed before the request. A relay reader whose id a second bring-up has overwritten (field strays) is not among those it records. *)
Theorem tailnet_disconnect_completes {T} `{RouteTableLaws T} `{OpenSSL} (t0 : T) ks es es1 es2 :
  TsRouting.clean_host t0 -> Forall (sound_input t0) (es ++ es1 ++ es2) -> Forall no_connect (es1 ++ es2) ->
  let b := run es (TailscaleBackend ks) in
  let b1 := run es1 (snd (Disconnect b)) in
  let b2 := run es2 b1 in
  (6 <= turns for_worker es1)%nat -> (length (queue (co b1)) <= turns for_looper es2)%nat ->
  fWorker (co b2) = false /\ quiet b2 /\ closed b2 /\ same_routes (run_cmds (TsRouting.cmds (rt b2)) t0) t0
  /\ (fState (fr b2) = VPN_STATE_DISCONNECTED \/ (fState (fr b2) = VPN_STATE_ERROR /\ exists d, d <> [] /\ MsgTsFailed d ∈ queue (co b))).
Proof.
  intros Hc So Hn b b1 b2 H6 Hq. apply Forall_app in So as [So0 So], Hn as [Hn1 Hn2]. apply Forall_app in So as [So1 So2].
  assert (L : alive t0 b) by (apply run_alive; [done|by apply fresh_alive|done]). pose proof (Disconnect_settling t0 b L) as S.
  assert (L0 : alive t0 (snd (Disconnect b))) by by apply Disconnect_alive.
  destruct (run_leaving t0 Hc es1 (snd (Disconnect b)) (s_stop _ _ S) Hn1 So1) as (T1 & T2 & _). fold b1 in T1, T2.
  assert (Ep : phase (co b1) = WNone).
  { apply rank_0. pose proof (rank_6 (phase (co (snd (Disconnect b))))). lia. }
  destruct (run_leaving t0 Hc es2 b1 T1 Hn2 So2) as (U1 & U2 & U3). fold b2 in U1, U2, U3. specialize (U3 Ep).
  assert (L2 : alive t0 b2) by (apply run_alive; [done|by apply run_alive|done]).
  assert (S2 : settling (fun d => MsgTsFailed d ∈ queue (co b)) b2) by (apply (run_settling t0); [done|by apply run_alive| |done|done]; by apply (run_settling t0)).
  assert (Eq : queue (co b2) = []) by (destruct (queue (co b2)); [done|cbn in U3; lia]).
  assert (Ew : fWorker (co b2) = false).
  { destruct (fWorker (co b2)) eqn:Ew; [|done]. destruct (l_flight _ _ L2 Ew) as [[Hp _]|(_ & q & d & E & _)].
    - rewrite Ep in U2. cbn [rank] in U2. destruct Hp. apply rank_0. lia.
    - rewrite Eq in E. by destruct q. }
  destruct (l_idle _ _ L2 Ew) as (Ep2 & _ & Q). split_and!; [done|done| | |].
  - apply (l_sock _ _ L2). by rewrite Ep2.
  - apply down_routes; [done|apply L2|apply Q].
  - by apply (s_state _ _ S2).
Qed.

(** C8: What a tailnet session reports is so. On a host whose routing table has no route of a tunnel slot and no host route of the carve-outs' shape, and as long as every default gateway the host reports is in that table: in every reachable state, Connected is reported only while the tun is open and the worker in flight; and whenever no worker is in flight no message is waiting, no thread is recorded, the tun, relay, socket and resolver are closed and the host's routes are as before the session. *)
Theorem tailnet_reports_truly {T} `{RouteTableLaws T} `{OpenSSL} (t0 : T) ks es :
  TsRouting.clean_host t0 -> Forall (sound_input t0) es ->
  let b := run es (TailscaleBackend ks) in
  (fState (fr b) = VPN_STATE_CONNECTED -> fTunFd (pl b) = true /\ fWorker (co b) = true)
  /\ (fWorker (co b) = false -> queue (co b) = [] /\ quiet b /\ closed b /\ same_routes (run_cmds (TsRouting.cmds (rt b)) t0) t0).
Proof.
  intros Hc So b. assert (L : alive t0 b) by (apply run_alive; [done|by apply fresh_alive|done]). split; [apply L|].
  intros Ew. destruct (l_idle _ _ L Ew) as (Ep & Eq & Q). split_and!; [done|done| |].
  - apply (l_sock _ _ L). by rewrite Ep.
  - apply down_routes; [done|apply L|apply Q].
Qed.

(** ** A session *)

Definition demo_answer : answer :=
  mkAnswer B_OK [] (Register.mkResult 200 true false [] []) (bs "192.168.1.5") (inr 200)
    (inr (Netmap.quoted "{'Node':{'Addresses':['100.64.0.1/32']},'Peers':[{'ID':1,'Key':'nodekey:ab','DERP':'127.3.3.40:7','AllowedIPs':['100.64.0.9/32','10.7.0.0/16']}]}"))
    (3, true, Some 41641) (false, [], [], []) (fun _ => true) None (fun _ => []) true (true, true, true, true)
    B_ERROR (Derp.mkLink [] [] []) (zeros 24) (fun _ => false) true 0.
Definition demo_draws : Identity.draws := fun _ => (Some Identity.zero_key, B_OK).
Definition demo_start : list input :=
  [InConnect (VPNProfile.mkProfile 3 (bs "home") [] 443 [] (bs "udp") [] []) demo_draws true]
  ++ replicate 8 (InWorker demo_answer) ++ replicate 2 (InLooper demo_answer).

(** Inputs about which nothing is assumed. *)
Lemma any_input {T} `{RouteTable T} (t0 : T) es :
  forallb (fun i => match i with InTun _ _ _ _ => false | _ => true end) es = true -> Forall (sound_input t0) es.
Proof.
  intros Hb. apply Forall_forall. intros i Hi. rewrite forallb_forall in Hb. specialize (Hb i ltac:(by apply list_elem_of_In)). by destruct i.
Qed.

Lemma without_connect es : forallb (fun i => match i with InConnect _ _ _ => false | _ => true end) es = true -> Forall no_connect es.
Proof.
  intros Hb. apply Forall_forall. intros i Hi. rewrite forallb_forall in Hb. specialize (Hb i ltac:(by apply list_elem_of_In)). by destruct i.
Qed.

Lemma tailnet_disconnect_completes_witness :
  let b := run (H:=Toy.toy) demo_start (TailscaleBackend ∅) in
  let b2 := run (H:=Toy.toy) (replicate 3 (InLooper demo_answer)) (run (H:=Toy.toy) (replicate 6 (InWorker demo_answer)) (snd (Disconnect b))) in
  fState (fr b) = VPN_STATE_CONNECTED /\ fWorker (co b2) = false /\ fState (fr b2) = VPN_STATE_DISCONNECTED.
Proof.
  cbv zeta. split; [vm_compute; reflexivity|].
  destruct (tailnet_disconnect_completes (H1:=Toy.toy) TsRouting.demo_table ∅ demo_start (replicate 6 (InWorker demo_answer)) (replicate 3 (InLooper demo_answer)))
    as (Hw & _ & _ & _ & [Hs|(_ & d & _ & Hd)]).
  - exact TsRouting.demo_clean.
  - by apply any_input.
  - by apply without_connect.
  - vm_compute. lia.
  - vm_compute. lia.
  - by split.
  - vm_compute in Hd. apply list_elem_of_singleton in Hd. discriminate Hd.
Defined.

Lemma tailnet_reports_truly_witness :
  let b := run (H:=Toy.toy) demo_start (TailscaleBackend ∅) in
  fState (fr b) = VPN_STATE_CONNECTED /\ fTunFd (pl b) = true.
Proof.
  assert (So : Forall (sound_input TsRouting.demo_table) demo_start) by by apply any_input.
  pose proof (tailnet_reports_truly (H1:=Toy.toy) TsRouting.demo_table ∅ demo_start TsRouting.demo_clean So) as [G _].
  cbv zeta in *. set (b := run demo_start (TailscaleBackend ∅)) in *.
  assert (E : fState (fr b) = VPN_STATE_CONNECTED) by (vm_compute; reflexivity). split; [exact E|]. exact (proj1 (G E)).
Defined.

(** ** Sleeping *)

(** The rounds a sleep can still take. *)
Definition rounds (left : Z) : nat := S (Z.to_nat ((left + kSlice - 1) / kSlice)).

Lemma rounds_less left : 0 < left -> (rounds (left - Z.min left kSlice) < rounds left)%nat.
Proof.
  intros Hl. unfold rounds. destruct (Z.le_gt_cases left kSlice) as [Hk|Hk].
  - rewrite Z.min_l, Z.sub_diag by done. assert (1 <= (left + kSlice - 1) / kSlice) by (apply Z.div_le_lower_bound; unfold kSlice in *; lia).
    change ((0 + kSlice - 1) / kSlice) with 0. lia.
  - rewrite Z.min_r by lia. replace (left - kSlice + kSlice - 1) with (left + kSlice - 1 + (-1) * kSlice) by lia. rewrite Z.div_add by done.
    assert (1 <= (left + kSlice - 1) / kSlice) by (apply Z.div_le_lower_bound; unfold kSlice in *; lia). lia.
Qed.

(** A sleep that is not interrupted waits exactly its time; one that is ends
    within a slice; and it always ends. *)
Lemma sleep_loop_ends fuel usec waited stops i :
  0 <= waited -> (rounds (usec - waited) <= fuel)%nat ->
  exists r w, sleep_loop fuel usec waited stops i = Some (r, w) /\ w <= Z.max usec waited
    /\ (r = true -> usec <= w) /\ ((forall j, (i <= j)%nat -> stops j = false) -> r = true).
Proof.
  revert waited i. induction fuel as [|fuel IH]; intros waited i Hw Hf; [unfold rounds in Hf; lia|]. cbn [sleep_loop]. unfold sleep_step.
  destruct (Z.ltb_spec waited usec) as [Hl|Hl].
  - destruct (stops i) eqn:Es.
    + exists false, waited. split_and!; [done|lia|done|]. intros Hj. rewrite Hj in Es by lia. done.
    + set (chunk := if usec - waited <? kSlice then usec - waited else kSlice).
      assert (Ec : chunk = Z.min (usec - waited) kSlice) by (unfold chunk; zcases). pose proof (rounds_less (usec - waited) ltac:(lia)) as Hr.
      destruct (IH (waited + chunk) (S i)) as (r & w & E & A & B & C).
      * unfold kSlice in *; lia.
      * replace (usec - (waited + chunk)) with (usec - waited - Z.min (usec - waited) kSlice) by lia. lia.
      * exists r, w. split_and!; [done|lia|done|]. intros Hj. apply C. intros j Hi. apply Hj. lia.
  - exists (negb (stops i)), waited. split_and!; [done|lia|lia|]. intros Hj. by rewrite Hj by lia.
Qed.

Lemma SleepInterruptible_ends usec stops : exists r w, _SleepInterruptible usec stops = Some (r, w)
  /\ w <= Z.max usec 0 /\ (r = true -> usec <= w) /\ ((forall j, stops j = false) -> r = true).
Proof.
  unfold _SleepInterruptible. destruct (sleep_loop_ends (Z.to_nat (usec / kSlice) + 2) usec 0 stops 0) as (r & w & E & A & B & C); [lia| |].
  - unfold rounds. rewrite Z.sub_0_r. assert ((usec + kSlice - 1) / kSlice <= usec / kSlice + 1); [|lia].
    transitivity ((usec + 1 * kSlice) / kSlice); [apply Z.div_le_mono; unfold kSlice; lia|]. by rewrite Z.div_add.
  - exists r, w. split_and!; [done|lia|done|]. intros Hj. apply C. auto.
Qed.

End TsBackendProofs.
