(* ===== verification/OvpnMgmt.v ===== *)
(** * OvpnMgmt: the OpenVPN management protocol (src/backend/OpenVPNManagement.{h,cpp})

    openvpn reports over a line-based socket; the class cuts the received bytes
    into lines and parses each into an event, and builds the commands sent
    back.  The events do not depend on how the socket cuts the bytes up. *)

From S2P Require Import Prelude CLib Routes Profiles Configs.
Import VPNState.
Open Scope Z_scope.
Open Scope soto_scope.

Module OpenVPNManagement.

(** ** String helpers *)

Definition split (delimiter : Z) (input : bytes) : list bytes := split_on delimiter input.

Definition trim (l : bytes) : bytes := trim_by OpenVPNConfigParser.blank OpenVPNConfigParser.blank_end l.

(** The text inside the first pair of single quotes. *)
Definition extract_quoted (input : bytes) : bytes :=
  match find_first 39 input with
  | None => []
  | Some i =>
      let rest := zdrop (i + 1) input in
      match find_first 39 rest with Some n => ztake n rest | None => [] end
  end.

Definition starts_with (input prefix : bytes) : bool := is_prefix prefix input.

(** ** Events *)

Inductive OpenVPNEventType :=
| OPENVPN_EVENT_STATE | OPENVPN_EVENT_BYTECOUNT | OPENVPN_EVENT_PASSWORD_REQUEST | OPENVPN_EVENT_AUTH_FAILED
| OPENVPN_EVENT_HOLD | OPENVPN_EVENT_LOG | OPENVPN_EVENT_INFO | OPENVPN_EVENT_FATAL | OPENVPN_EVENT_SUCCESS
| OPENVPN_EVENT_ERROR | OPENVPN_EVENT_UNKNOWN.

#[export] Instance OpenVPNEventType_eq_dec : EqDecision OpenVPNEventType.
Proof. solve_decision. Defined.

Record event := mkEvent {
  type : OpenVPNEventType; raw : bytes; stateName : bytes; stateDetail : bytes; localIP : bytes; remoteIP : bytes;
  mappedState : Z; bytesIn : Z; bytesOut : Z; realm : bytes; message : bytes }.

(** An event of one type that carries only a line and a text. *)
Definition plain (t : OpenVPNEventType) (line msg : bytes) : event :=
  mkEvent t line [] [] [] [] VPN_STATE_ERROR 0 0 [] msg.

Definition OpenVPNEvent : event := plain OPENVPN_EVENT_UNKNOWN [] [].

Definition one_of (name : bytes) (names : list string) : bool := existsb (fun s => beq name (bs s)) names.

Definition StateForName (name : bytes) : Z :=
  if one_of name ["CONNECTING"; "RESOLVE"; "TCP_CONNECT"; "WAIT"]%string then VPN_STATE_CONNECTING
  else if one_of name ["AUTH"; "AUTH_PENDING"; "GET_CONFIG"; "ASSIGN_IP"; "ADD_ROUTES"]%string then VPN_STATE_AUTHENTICATING
  else if one_of name ["CONNECTED"]%string then VPN_STATE_CONNECTED
  else if one_of name ["RECONNECTING"]%string then VPN_STATE_RECONNECTING
  else if one_of name ["EXITING"]%string then VPN_STATE_DISCONNECTED
  else VPN_STATE_ERROR.

(** The text of a log notification: what follows its first two fields. *)
Definition log_text (payload : bytes) : bytes :=
  match find_first 44 payload with
  | None => payload
  | Some i =>
      let rest := zdrop (i + 1) payload in
      match find_first 44 rest with Some j => zdrop (j + 1) rest | None => payload end
  end.

(** A notification, without its '>'. *)
Definition notification (line tag payload : bytes) : event :=
  if beq tag (bs "STATE") then
    let f i := nth i (split 44 payload) [] in
    mkEvent OPENVPN_EVENT_STATE line (f 1%nat) (f 2%nat) (f 3%nat) (f 4%nat) (StateForName (f 1%nat)) 0 0 [] []
  else if beq tag (bs "BYTECOUNT") then
    let f i := nth i (split 44 payload) [] in
    mkEvent OPENVPN_EVENT_BYTECOUNT line [] [] [] [] VPN_STATE_ERROR (strtoull (f 0%nat)) (strtoull (f 1%nat)) [] []
  else if beq tag (bs "PASSWORD") then
    let t := if starts_with payload (bs "Verification Failed") then OPENVPN_EVENT_AUTH_FAILED else OPENVPN_EVENT_PASSWORD_REQUEST in
    mkEvent t line [] [] [] [] VPN_STATE_ERROR 0 0 (extract_quoted payload) payload
  else if beq tag (bs "HOLD") then plain OPENVPN_EVENT_HOLD line payload
  else if beq tag (bs "LOG") then plain OPENVPN_EVENT_LOG line (log_text payload)
  else if beq tag (bs "INFO") then plain OPENVPN_EVENT_INFO line payload
  else if beq tag (bs "FATAL") then plain OPENVPN_EVENT_FATAL line payload
  else plain OPENVPN_EVENT_UNKNOWN line [].

Definition ParseLine (rawLine : bytes) : event :=
  let line := trim rawLine in
  match line with
  | [] => OpenVPNEvent
  | c :: rest =>
      if c =? 62 then
        let '(tag, payload) :=
          match find_first 58 rest with Some i => (ztake i rest, zdrop (i + 1) rest) | None => (rest, []) end in
        notification line tag payload
      else if starts_with line (bs "SUCCESS:") then plain OPENVPN_EVENT_SUCCESS line (trim (zdrop 8 line))
      else if starts_with line (bs "ERROR:") then plain OPENVPN_EVENT_ERROR line (trim (zdrop 6 line))
      else plain OPENVPN_EVENT_UNKNOWN line []
  end.

(** ** The incremental reader *)

(** The loop over the buffer; every turn takes at least the newline. *)
Fixpoint take_lines (fuel : nat) (fBuffer : bytes) : list event * bytes :=
  match fuel, find_first 10 fBuffer with
  | S fuel, Some newline =>
      let '(events, rest) := take_lines fuel (zdrop (newline + 1) fBuffer) in
      (ParseLine (ztake newline fBuffer) :: events, rest)
  | _, _ => ([], fBuffer)
  end.

(** The events of a chunk and the new buffer. *)
Definition Feed (fBuffer chunk : bytes) : list event * bytes :=
  let fBuffer := fBuffer ++ chunk in take_lines (S (length fBuffer)) fBuffer.

(** A sequence of chunks. *)
Fixpoint feed_all (fBuffer : bytes) (chunks : list bytes) : list event * bytes :=
  match chunks with
  | [] => ([], fBuffer)
  | c :: chunks =>
      let '(es, b) := Feed fBuffer c in
      let '(es', b') := feed_all b chunks in (es ++ es', b')
  end.

(** ** Commands *)

Definition _Escape (value : bytes) : bytes := value ≫= fun c => if (c =? 92) || (c =? 34) then [92; c] else [c].

Definition CommandStateOn : bytes := bs "state on".
Definition CommandByteCount (intervalSeconds : Z) : bytes := ztake 31 (bs "bytecount " ++ fmt_d intervalSeconds).
Definition CommandHoldRelease : bytes := bs "hold release".
Definition quoted (s : bytes) : bytes := [34] ++ s ++ [34].
Definition CommandUsername (realm username : bytes) : bytes :=
  bs "username " ++ quoted (_Escape realm) ++ [32] ++ quoted (_Escape username).
Definition CommandPassword (realm password : bytes) : bytes :=
  bs "password " ++ quoted (_Escape realm) ++ [32] ++ quoted (_Escape password).
Definition CommandSignalTerm : bytes := bs "signal SIGTERM".

(** ** The events are those of the lines received *)

Lemma find_first_split c l i : find_first c l = Some i -> 0 <= i /\ l = ztake i l ++ c :: zdrop (i + 1) l /\ c ∉ ztake i l.
Proof.
  revert i. induction l as [|d l IH]; intros i; cbn [find_first]; [done|]. destruct (Z.eqb_spec d c) as [->|Hd].
  - intros [= <-]. split; [lia|]. split; [done|]. apply not_elem_of_nil.
  - destruct (find_first c l) as [j|]; cbn; [|done]. intros [= <-]. destruct (IH j eq_refl) as (H0 & E & Hn). split; [lia|].
    unfold ztake, zdrop in *. replace (Z.to_nat (j + 1)) with (S (Z.to_nat j)) in * by lia.
    replace (Z.to_nat (j + 1 + 1)) with (S (S (Z.to_nat j))) by lia. cbn [take drop app]. split; [by rewrite <- E|].
    apply not_elem_of_cons. done.
Qed.

(** The lines of a text, and what follows the last newline. *)
Definition complete_lines (text : bytes) : list bytes := removelast (split 10 text).
Definition partial_line (text : bytes) : bytes := List.last (split 10 text) [].

Lemma split_nonnil d l : split d l <> [].
Proof. unfold split. destruct l as [|c l]; [done|]. cbn. destruct (c =? d); [done|]. by destruct (split_on d l). Qed.

Lemma split_cut d a l : d ∉ a -> split d (a ++ d :: l) = a :: split d l.
Proof.
  unfold split. induction a as [|c a IH]; intros Hd; cbn.
  - by rewrite Z.eqb_refl.
  - apply not_elem_of_cons in Hd as [Hc Ha]. destruct (Z.eqb_spec c d); [by subst|]. by rewrite IH.
Qed.

Lemma split_whole d a : d ∉ a -> split d a = [a].
Proof.
  unfold split. induction a as [|c a IH]; intros Hd; [done|]. cbn. apply not_elem_of_cons in Hd as [Hc Ha].
  destruct (Z.eqb_spec c d); [by subst|]. by rewrite IH.
Qed.

Lemma split_head d l : d ∉ hd [] (split d l).
Proof.
  unfold split. induction l as [|c l IH]; [apply not_elem_of_nil|]. cbn. destruct (Z.eqb_spec c d); [apply not_elem_of_nil|].
  destruct (split_on d l) as [|f fs]; cbn in *; apply not_elem_of_cons; done.
Qed.

Lemma lines_cut a l : 10 ∉ a -> complete_lines (a ++ 10 :: l) = a :: complete_lines l /\ partial_line (a ++ 10 :: l) = partial_line l.
Proof.
  intros Ha. unfold complete_lines, partial_line. rewrite split_cut by done. pose proof (split_nonnil 10 l).
  destruct (split 10 l); [done|]. by split.
Qed.

Lemma take_lines_spec fuel text : (length text < fuel)%nat ->
  take_lines fuel text = (map ParseLine (complete_lines text), partial_line text).
Proof.
  revert text. induction fuel as [|fuel IH]; intros text Hf; [lia|]. cbn [take_lines]. destruct (find_first 10 text) as [i|] eqn:E.
  - apply find_first_split in E as (H0 & E & Hn). destruct (lines_cut _ (zdrop (i + 1) text) Hn) as [L1 L2]. rewrite <- E in L1, L2.
    rewrite IH.
    + by rewrite L1, L2.
    + apply (f_equal length) in E. rewrite length_app in E. cbn [length] in E. lia.
  - apply find_first_None in E. unfold complete_lines, partial_line. by rewrite split_whole.
Qed.

Lemma Feed_spec b c : Feed b c = (map ParseLine (complete_lines (b ++ c)), partial_line (b ++ c)).
Proof. unfold Feed. apply take_lines_spec. lia. Qed.

Lemma partial_no_newline l : 10 ∉ partial_line l.
Proof.
  unfold partial_line, split. induction l as [|c l IH]; [apply not_elem_of_nil|]. cbn. pose proof (split_nonnil 10 l) as Hs.
  pose proof (split_head 10 l) as Hh. unfold split in *.
  destruct (Z.eqb_spec c 10), (split_on 10 l) as [|f [|g fs]] eqn:E; try done. by apply not_elem_of_cons.
Qed.

Lemma partial_app a b : partial_line (a ++ b) = partial_line (partial_line a ++ b)
  /\ complete_lines (a ++ b) = complete_lines a ++ complete_lines (partial_line a ++ b).
Proof.
  induction a as [a IH] using (induction_ltof1 _ (@length Z)). unfold ltof in IH. destruct (find_first 10 a) as [i|] eqn:E.
  - apply find_first_split in E as (_ & E & Hn). generalize dependent (zdrop (i + 1) a). generalize dependent (ztake i a).
    intros x Hn y E. subst a. specialize (IH y ltac:(rewrite length_app; cbn [length]; lia)) as [P1 P2].
    rewrite <- app_assoc. cbn [app]. destruct (lines_cut x y Hn) as [-> ->], (lines_cut x (y ++ b) Hn) as [-> ->].
    split; [exact P1|]. cbn [app]. by rewrite <- P2.
  - apply find_first_None in E. assert (Ep : partial_line a = a /\ complete_lines a = []) by (unfold partial_line, complete_lines; by rewrite split_whole).
    destruct Ep as [-> ->]. by cbn.
Qed.

Lemma feed_all_spec chunks b : 10 ∉ b ->
  feed_all b chunks = (map ParseLine (complete_lines (b ++ concat chunks)), partial_line (b ++ concat chunks)).
Proof.
  revert b. induction chunks as [|c chunks IH]; intros b Hb; cbn [feed_all concat].
  - rewrite app_nil_r. unfold complete_lines, partial_line. by rewrite split_whole.
  - rewrite Feed_spec, IH by apply partial_no_newline. destruct (partial_app (b ++ c) (concat chunks)) as [P1 P2].
    rewrite app_assoc, P1, P2, map_app. done.
Qed.

(** The management reader is independent of the transport: however the socket cuts the bytes openvpn writes into chunks (empty ones and cuts inside a line included), feeding the chunks yields in order exactly the events of the newline-terminated lines of the whole text, and buffers exactly what follows the last newline. *)
Theorem Feed_any_chunking chunks :
  feed_all [] chunks = (map ParseLine (complete_lines (concat chunks)), partial_line (concat chunks)).
Proof. by apply feed_all_spec, not_elem_of_nil. Qed.

(** ** What an event can hold *)

(** One of the enumerators of VPNState. *)
Definition is_state (s : Z) : Prop := VPN_STATE_DISCONNECTED <= s <= VPN_STATE_ERROR.

Lemma StateForName_state name : is_state (StateForName name).
Proof. unfold StateForName. repeat (destruct (one_of _ _); [unfold is_state; vm_compute; split; discriminate|]). unfold is_state. vm_compute. split; discriminate. Qed.

Lemma ParseLine_state l : is_state (mappedState (ParseLine l)).
Proof.
  assert (E : is_state VPN_STATE_ERROR) by (unfold is_state; vm_compute; split; discriminate).
  unfold ParseLine. cbv zeta. destruct (trim l) as [|c rest]; [exact E|].
  destruct (c =? 62).
  - destruct (match find_first 58 rest with Some i => _ | None => _ end) as [tag payload]. unfold notification.
    destruct (beq tag (bs "STATE")); [apply StateForName_state|].
    repeat match goal with |- context [if ?c then _ else _] => destruct c end; exact E.
  - repeat match goal with |- context [if ?c then _ else _] => destruct c end; exact E.
Qed.

Lemma drop_while_sub p l x : x ∈ drop_while p l -> x ∈ l.
Proof. induction l as [|c l IH]; cbn; [done|]. destruct (p c); [|done]. intros H. apply list_elem_of_further, IH, H. Qed.

Lemma trim_by_sub p q l x : x ∈ trim_by p q l -> x ∈ l.
Proof.
  unfold trim_by. intros H. rewrite list_elem_of_In, <- in_rev, <- list_elem_of_In in H. apply drop_while_sub in H.
  rewrite list_elem_of_In, <- in_rev, <- list_elem_of_In in H. by apply drop_while_sub in H.
Qed.

Lemma ztake_sub n (l : bytes) x : x ∈ ztake n l -> x ∈ l.
Proof. intros H. rewrite <- (ztake_zdrop n l). apply elem_of_app. by left. Qed.

Lemma zdrop_sub n (l : bytes) x : x ∈ zdrop n l -> x ∈ l.
Proof. intros H. rewrite <- (ztake_zdrop n l). apply elem_of_app. by right. Qed.

End OpenVPNManagement.
