(* ===== verification/Daemon.v ===== *)
(** * Daemon: the VPN daemon (src/server/SotoportegoServer.{h,cpp}, src/backend/VPNBackend.{h,cpp})

    The daemon is one looper: a state and a handler per message.  The backends
    are reached through the class [VPNBackend], the abstract base class of the
    source.  What the system answers while a message is handled (clocks, timer
    creation, dead clients, file operations) is the record [sys]; what the
    handlers do outside the daemon is appended to [out]. *)

From stdpp Require Import gmap.
From S2P Require Import Prelude CLib Json Message Profiles.
Open Scope Z_scope.
Open Scope soto_scope.

(** ** Backends *)

Class VPNBackend (B : Type) := {
  Connect : VPNProfile.profile -> B -> status * B;
  Disconnect : B -> B;
  State : B -> Z;
  Stats : B -> VPNStats.stats;
  LocalIP : B -> bytes;
  RemoteIP : B -> bytes;
  FillPeers : B -> Message.message -> Message.message;
  SetCredentials : bytes -> bytes -> B -> B;
  SetExitNode : bytes -> B -> status * B;
  RecoverIfCrashed : B -> B;
  BackendName : B -> bytes }.

Module BackendEvents.
Import Message VPNProtocol.
Section WithBackend.
Context {B : Type} `{VPNBackend B}.

(** The message a state change posts to the observer. *)
Definition NotifyStateChanged (b : B) (observer : messenger) (state : Z) (detail : option bytes) : option message :=
  if negb (IsValid observer) then None
  else
    let m := BMessage kMsgStatusUpdate in
    let m := add kFieldState (VInt32 state) m in
    let m := add kFieldBackend (VString (BackendName b)) m in
    let m := match detail with Some d => add kFieldDetail (VString d) m | None => m end in
    let m := snd (VPNStats.Archive (Stats b) m) in
    let m := if zlen (LocalIP b) >? 0 then add kFieldLocalIP (VString (LocalIP b)) m else m in
    let m := if zlen (RemoteIP b) >? 0 then add kFieldRemoteIP (VString (RemoteIP b)) m else m in
    Some m.

Definition NotifyStats (observer : messenger) (s : VPNStats.stats) : option message :=
  if negb (IsValid observer) then None else Some (snd (VPNStats.Archive s (BMessage kMsgStatsUpdate))).
End WithBackend.
End BackendEvents.

(** ** Files and encodings *)

Module DaemonFiles.

(** The bits collected so far are in an int that is never masked; its value
    wraps at 32 bits. *)
Definition kReal (c : Z) : Z :=
  if (65 <=? c) && (c <=? 90) then c - 65
  else if (97 <=? c) && (c <=? 122) then c - 97 + 26
  else if (48 <=? c) && (c <=? 57) then c - 48 + 52
  else if c =? 43 then 62 else if c =? 47 then 63 else -1.

Fixpoint decode_chars (p : bytes) (buffer bits : Z) (out : bytes) : option bytes :=
  match p with
  | [] => if bits >=? 6 then None else Some out
  | c :: p =>
      if (c =? 32) || (c =? 9) || (c =? 13) || (c =? 10) then decode_chars p buffer bits out
      else if c =? 61 then if bits >=? 6 then None else Some out
      else
        let v := kReal c in
        if v <? 0 then None
        else
          let buffer := s32 ((buffer ≪ 6) .| v) in
          let bits := bits + 6 in
          if bits >=? 8 then decode_chars p buffer (bits - 8) (out ++ [(buffer ≫ (bits - 8)) .& 0xff])
          else decode_chars p buffer bits out
  end.

Definition decode_base64 (input : bytes) : option bytes := decode_chars input 0 0 [].

Definition filename_char (c : Z) : bool :=
  ((97 <=? c) && (c <=? 122)) || ((65 <=? c) && (c <=? 90)) || ((48 <=? c) && (c <=? 57))
  || (c =? 46) || (c =? 45) || (c =? 95).

(** [None] is the NULL name. *)
Definition sanitize_filename (name : option bytes) (fallback : bytes) : bytes :=
  let safe := match name with Some n => map (fun c => if filename_char c then c else 95) n | None => [] end in
  if zlen safe =? 0 then fallback else safe.

Definition fnv1a (name : bytes) : Z := fold_left (fun h c => u32 ((h .^ u8 c) * 16777619)) name 2166136261.

Definition hex_nibble (n : Z) : Z := if n <? 10 then 48 + n else 87 + n.

(** [%08x] *)
Definition fmt_08x (h : Z) : bytes :=
  map (fun i => hex_nibble ((h ≫ (4 * i)) .& 0xf)) [7; 6; 5; 4; 3; 2; 1; 0].

Definition name_hash (name : option bytes) : bytes := fmt_08x (fnv1a (default [] name)).

(** BPath::Append of a leaf to a directory. *)
Definition Append (dir leaf : bytes) : bytes := dir ++ 47 :: leaf.

(** [base] is the user's settings directory, if it can be found. *)
Definition imported_config_dir (base : option bytes) : option bytes :=
  base ← base; Some (Append (Append base (bs "Sotoportego")) (bs "configs")).

(** The name a config is staged under. *)
Definition staged_leaf (name : bytes) : bytes :=
  sanitize_filename (Some name) (bs "profile") ++ bs "-" ++ name_hash (Some name) ++ bs ".ovpn".
Definition vpngate_leaf (host : bytes) : bytes := sanitize_filename (Some host) (bs "server") ++ bs ".ovpn".

(** *** Facts *)

(** A character of the alphabet is six bits. *)
Lemma kReal_range c : -1 <= kReal c < 64.
Proof. unfold kReal. zcases. Qed.

(** Names have no separator. *)
Lemma sanitize_safe name fallback : 47 ∉ fallback -> 47 ∉ sanitize_filename name fallback.
Proof.
  intros Hf. unfold sanitize_filename. destruct (_ =? 0); [done|]. destruct name as [n|]; [|apply not_elem_of_nil].
  intros (c & E & _)%list_elem_of_fmap. destruct (filename_char c) eqn:Ec; [|done]. subst. vm_compute in Ec. done.
Qed.

End DaemonFiles.
