(* ===== verification/OvpnBackend.v ===== *)
(** * OvpnBackend: the OpenVPN backend (src/backend/OpenVPNBackend.{h,cpp})

    The object runs on the daemon's looper.  A thread reads openvpn's
    management socket, answers its prompts and posts the events; another scans
    openvpn's log for the addresses the routes need; a runner polls until the
    management port answers.  [ovpn] is the object with its threads, the
    messages posted to the looper and not yet handled, and the part of the host
    it changes. *)

From S2P Require Import Prelude CLib Routes Message Profiles Configs Tun OvpnMgmt Daemon.
Import Message VPNProtocol VPNState TunDevice.
Open Scope Z_scope.
Open Scope soto_scope.

Module OvpnBackend.
Import OpenVPNManagement.

Definition kReaderBufferSize : Z := 2048.
Definition kMgmtConnectAttempts : Z := 50.
Definition kMgmtPortBase : Z := 17500.
Definition kMgmtPortSpread : Z := 200.

(** ** Helpers *)

Definition escape_char (c : Z) : bytes :=
  if (c =? 92) || (c =? 34) then [92; c] else if c =? 10 then [92; 110] else if c =? 13 then [92; 114] else [c].
Definition escape_arg (value : bytes) : bytes := cstr value ≫= escape_char.

Definition token_end (c : Z) : bool := (c =? 32) || (c =? 9) || (c =? 44) || (c =? 39) || (c =? 34) || (c =? 10) || (c =? 13).

Fixpoint take_until (p : Z -> bool) (l : bytes) : bytes :=
  match l with
  | [] => []
  | c :: l => if p c then [] else c :: take_until p l
  end.

(** The token at [pos], after blanks. *)
Definition take_token (s : bytes) (pos : Z) : bytes :=
  take_until token_end (drop_while OpenVPNConfigParser.blank (zdrop pos s)).

(** ** State *)

(** Harvested from the log, behind fScanLock. *)
Record scan := mkScan { fOrigGateway : bytes; fOrigGatewayIface : bytes; fTunPeer : bytes }.

(** What the routes in place were installed for. *)
Record installed := mkInstalled { fInstalledServerIP : bytes; fInstalledTunPeer : bytes; fRoutesInstalled : bool }.

(** The child, its descriptors and the threads' ids (-1 is none). *)
Record proc := mkProc {
  fPid : Z; fSocket : bool; fStderrFd : bool; fMgmtPort : Z; fReader : Z; fStderrReader : Z;
  fMgmtPoll : bool; fMgmtAttempt : Z; fMgmtPassword : bytes; fMgmtPasswordFile : bytes }.

(** The threads running: readers by their id, log scanners with the line read so far. *)
Record threads := mkThreads { readers : list Z; scanners : list (Z * bytes) }.

(** The host: commands run, the session file (what it holds, [None] when it is
    not a message), lines sent to openvpn, signals sent, password files on
    disk, children not yet waited for. *)
Record host := mkHost {
  cmds : list cmd; session : option (option Message.message); sent : list bytes; signals : list (Z * Z);
  tmp : list bytes; children : list Z }.

Inductive posted := InternalEvent (e : event) | TryMgmtConnect | ReaderExited.

Inductive notice := StateChanged (state : Z) (detail : option bytes) | StatsChanged (s : VPNStats.stats).

Record ovpn := mkOvpn {
  fState : Z; fStats : VPNStats.stats; fProfile : VPNProfile.profile; fLocalIP : bytes; fRemoteIP : bytes;
  fAuthUsername : bytes; fAuthPassword : bytes; sc : scan; rt : installed; fTunInterface : bytes; fTunNode : bytes;
  fManagement : bytes; pr : proc; fStopRequested : bool; th : threads; hst : host;
  queue : list posted; notices : list notice }.

Definition no_proc : proc := mkProc (-1) false false 0 (-1) (-1) false 0 [] [].

(** A new object, in a daemon that has sent nothing yet. *)
Definition OpenVPNBackend (h : host) : ovpn :=
  mkOvpn VPN_STATE_DISCONNECTED VPNStats.Reset VPNProfile.VPNProfile [] [] [] [] (mkScan [] [] []) (mkInstalled [] [] false) [] []
    [] no_proc false (mkThreads [] []) (mkHost (cmds h) (session h) [] (signals h) (tmp h) (children h)) [] [].

Definition with_stats (x : VPNStats.stats) (b : ovpn) : ovpn :=
  mkOvpn (fState b) x (fProfile b) (fLocalIP b) (fRemoteIP b) (fAuthUsername b) (fAuthPassword b) (sc b) (rt b) (fTunInterface b)
    (fTunNode b) (fManagement b) (pr b) (fStopRequested b) (th b) (hst b) (queue b) (notices b).
Definition with_profile (x : VPNProfile.profile) (b : ovpn) : ovpn :=
  mkOvpn (fState b) (fStats b) x (fLocalIP b) (fRemoteIP b) (fAuthUsername b) (fAuthPassword b) (sc b) (rt b) (fTunInterface b)
    (fTunNode b) (fManagement b) (pr b) (fStopRequested b) (th b) (hst b) (queue b) (notices b).
Definition with_ips (local remote : bytes) (b : ovpn) : ovpn :=
  mkOvpn (fState b) (fStats b) (fProfile b) local remote (fAuthUsername b) (fAuthPassword b) (sc b) (rt b) (fTunInterface b)
    (fTunNode b) (fManagement b) (pr b) (fStopRequested b) (th b) (hst b) (queue b) (notices b).
Definition with_auth (user pass : bytes) (b : ovpn) : ovpn :=
  mkOvpn (fState b) (fStats b) (fProfile b) (fLocalIP b) (fRemoteIP b) user pass (sc b) (rt b) (fTunInterface b)
    (fTunNode b) (fManagement b) (pr b) (fStopRequested b) (th b) (hst b) (queue b) (notices b).
Definition with_sc (x : scan) (b : ovpn) : ovpn :=
  mkOvpn (fState b) (fStats b) (fProfile b) (fLocalIP b) (fRemoteIP b) (fAuthUsername b) (fAuthPassword b) x (rt b) (fTunInterface b)
    (fTunNode b) (fManagement b) (pr b) (fStopRequested b) (th b) (hst b) (queue b) (notices b).
Definition with_rt (x : installed) (b : ovpn) : ovpn :=
  mkOvpn (fState b) (fStats b) (fProfile b) (fLocalIP b) (fRemoteIP b) (fAuthUsername b) (fAuthPassword b) (sc b) x (fTunInterface b)
    (fTunNode b) (fManagement b) (pr b) (fStopRequested b) (th b) (hst b) (queue b) (notices b).
Definition with_tun (iface node : bytes) (b : ovpn) : ovpn :=
  mkOvpn (fState b) (fStats b) (fProfile b) (fLocalIP b) (fRemoteIP b) (fAuthUsername b) (fAuthPassword b) (sc b) (rt b) iface node
    (fManagement b) (pr b) (fStopRequested b) (th b) (hst b) (queue b) (notices b).
Definition with_buffer (x : bytes) (b : ovpn) : ovpn :=
  mkOvpn (fState b) (fStats b) (fProfile b) (fLocalIP b) (fRemoteIP b) (fAuthUsername b) (fAuthPassword b) (sc b) (rt b) (fTunInterface b)
    (fTunNode b) x (pr b) (fStopRequested b) (th b) (hst b) (queue b) (notices b).
Definition with_pr (x : proc) (b : ovpn) : ovpn :=
  mkOvpn (fState b) (fStats b) (fProfile b) (fLocalIP b) (fRemoteIP b) (fAuthUsername b) (fAuthPassword b) (sc b) (rt b) (fTunInterface b)
    (fTunNode b) (fManagement b) x (fStopRequested b) (th b) (hst b) (queue b) (notices b).
Definition with_stop (x : bool) (b : ovpn) : ovpn :=
  mkOvpn (fState b) (fStats b) (fProfile b) (fLocalIP b) (fRemoteIP b) (fAuthUsername b) (fAuthPassword b) (sc b) (rt b) (fTunInterface b)
    (fTunNode b) (fManagement b) (pr b) x (th b) (hst b) (queue b) (notices b).
Definition with_th (x : threads) (b : ovpn) : ovpn :=
  mkOvpn (fState b) (fStats b) (fProfile b) (fLocalIP b) (fRemoteIP b) (fAuthUsername b) (fAuthPassword b) (sc b) (rt b) (fTunInterface b)
    (fTunNode b) (fManagement b) (pr b) (fStopRequested b) x (hst b) (queue b) (notices b).
Definition with_hst (x : host) (b : ovpn) : ovpn :=
  mkOvpn (fState b) (fStats b) (fProfile b) (fLocalIP b) (fRemoteIP b) (fAuthUsername b) (fAuthPassword b) (sc b) (rt b) (fTunInterface b)
    (fTunNode b) (fManagement b) (pr b) (fStopRequested b) (th b) x (queue b) (notices b).
Definition with_queue (x : list posted) (b : ovpn) : ovpn :=
  mkOvpn (fState b) (fStats b) (fProfile b) (fLocalIP b) (fRemoteIP b) (fAuthUsername b) (fAuthPassword b) (sc b) (rt b) (fTunInterface b)
    (fTunNode b) (fManagement b) (pr b) (fStopRequested b) (th b) (hst b) x (notices b).
Definition with_notice (n : notice) (b : ovpn) : ovpn :=
  mkOvpn (fState b) (fStats b) (fProfile b) (fLocalIP b) (fRemoteIP b) (fAuthUsername b) (fAuthPassword b) (sc b) (rt b) (fTunInterface b)
    (fTunNode b) (fManagement b) (pr b) (fStopRequested b) (th b) (hst b) (queue b) (notices b ++ [n]).
Definition with_state (x : Z) (b : ovpn) : ovpn :=
  mkOvpn x (fStats b) (fProfile b) (fLocalIP b) (fRemoteIP b) (fAuthUsername b) (fAuthPassword b) (sc b) (rt b) (fTunInterface b)
    (fTunNode b) (fManagement b) (pr b) (fStopRequested b) (th b) (hst b) (queue b) (notices b).

Definition with_cmds (x : list cmd) (b : ovpn) : ovpn :=
  let h := hst b in with_hst (mkHost x (session h) (sent h) (signals h) (tmp h) (children h)) b.
Definition with_session (x : option (option Message.message)) (b : ovpn) : ovpn :=
  let h := hst b in with_hst (mkHost (cmds h) x (sent h) (signals h) (tmp h) (children h)) b.
Definition with_sent (x : list bytes) (b : ovpn) : ovpn :=
  let h := hst b in with_hst (mkHost (cmds h) (session h) x (signals h) (tmp h) (children h)) b.
Definition with_signals (x : list (Z * Z)) (b : ovpn) : ovpn :=
  let h := hst b in with_hst (mkHost (cmds h) (session h) (sent h) x (tmp h) (children h)) b.
Definition with_tmp (x : list bytes) (b : ovpn) : ovpn :=
  let h := hst b in with_hst (mkHost (cmds h) (session h) (sent h) (signals h) x (children h)) b.
Definition with_children (x : list Z) (b : ovpn) : ovpn :=
  let h := hst b in with_hst (mkHost (cmds h) (session h) (sent h) (signals h) (tmp h) x) b.

Definition set_pid (x : Z) (p : proc) : proc :=
  mkProc x (fSocket p) (fStderrFd p) (fMgmtPort p) (fReader p) (fStderrReader p) (fMgmtPoll p) (fMgmtAttempt p) (fMgmtPassword p) (fMgmtPasswordFile p).
Definition set_socket (x : bool) (p : proc) : proc :=
  mkProc (fPid p) x (fStderrFd p) (fMgmtPort p) (fReader p) (fStderrReader p) (fMgmtPoll p) (fMgmtAttempt p) (fMgmtPassword p) (fMgmtPasswordFile p).
Definition set_stderr (x : bool) (p : proc) : proc :=
  mkProc (fPid p) (fSocket p) x (fMgmtPort p) (fReader p) (fStderrReader p) (fMgmtPoll p) (fMgmtAttempt p) (fMgmtPassword p) (fMgmtPasswordFile p).
Definition set_port (x : Z) (p : proc) : proc :=
  mkProc (fPid p) (fSocket p) (fStderrFd p) x (fReader p) (fStderrReader p) (fMgmtPoll p) (fMgmtAttempt p) (fMgmtPassword p) (fMgmtPasswordFile p).
Definition set_reader (x : Z) (p : proc) : proc :=
  mkProc (fPid p) (fSocket p) (fStderrFd p) (fMgmtPort p) x (fStderrReader p) (fMgmtPoll p) (fMgmtAttempt p) (fMgmtPassword p) (fMgmtPasswordFile p).
Definition set_scanner (x : Z) (p : proc) : proc :=
  mkProc (fPid p) (fSocket p) (fStderrFd p) (fMgmtPort p) (fReader p) x (fMgmtPoll p) (fMgmtAttempt p) (fMgmtPassword p) (fMgmtPasswordFile p).
Definition set_poll (x : bool) (n : Z) (p : proc) : proc :=
  mkProc (fPid p) (fSocket p) (fStderrFd p) (fMgmtPort p) (fReader p) (fStderrReader p) x n (fMgmtPassword p) (fMgmtPasswordFile p).
Definition set_password (pw file : bytes) (p : proc) : proc :=
  mkProc (fPid p) (fSocket p) (fStderrFd p) (fMgmtPort p) (fReader p) (fStderrReader p) (fMgmtPoll p) (fMgmtAttempt p) pw file.

(** What the system answers during one request. *)
Record sys := mkSys {
  s_ifconfig : list bytes -> bool;
  s_rand : Z;                    (* rand(), for the port *)
  s_mixed : list Z;              (* the 32 mixed draws of the password *)
  s_mkstemp : option bytes;      (* the file made *)
  s_write : bool;                (* the password was written in full *)
  s_pipe : bool;                 (* pipe() and posix_spawn_file_actions_init() *)
  s_spawn : option positive;     (* the child *)
  s_scanner : option positive;   (* spawn_thread() for the log *)
  s_runner : bool;               (* the message runner *)
  s_reaped : bool;               (* waitpid(WNOHANG) reports the child *)
  s_connect : bool;              (* socket() and connect() to the management port *)
  s_reader : option positive;    (* spawn_thread() for the socket *)
  s_dies : nat;                  (* 0: the child exits by itself, 1: on SIGTERM, else on SIGKILL *)
  s_time : Z;                    (* time() *)
  s_path : bool;                 (* the session file's directory *)
  s_open : bool;                 (* the session file opens *)
  s_flatten : bool;              (* and takes the record *)
  s_alive : bool;                (* kill(previous pid, 0) *)
  s_survives : bool;             (* and again after SIGTERM *)
  s_before : list (Z * option bytes);   (* what log scanners read before the routes' snapshot of the harvest *)
  s_during : list (Z * option bytes) }. (* and between that snapshot and the session file *)

(** ** Protocol *)

Definition _SetState (state : Z) (detail : option bytes) (b : ovpn) : ovpn :=
  with_notice (StateChanged state detail) (with_state state b).

(** The line as framed; what openvpn takes of it before the socket breaks is
    not observed. *)
Definition _SendCommand (line : bytes) (b : ovpn) : ovpn :=
  if fSocket (pr b) then with_sent (sent (hst b) ++ [cstr line ++ [10]]) b else b.

(** The BMessage keeps C strings and 64-bit integers. *)
Definition _PostEvent (e : event) (b : ovpn) : ovpn :=
  with_queue (queue b ++ [InternalEvent (mkEvent (type e) (cstr (raw e)) (cstr (stateName e)) (cstr (stateDetail e))
    (cstr (localIP e)) (cstr (remoteIP e)) (s32 (mappedState e)) (u64 (s64 (bytesIn e))) (u64 (s64 (bytesOut e)))
    (cstr (realm e)) (cstr (message e)))]) b.

(** ** Log scanning *)

Definition _ScanLogLine (line : bytes) (s : scan) : scan :=
  let s :=
    if zlen (fOrigGateway s) =? 0 then
      match find_sub (bs "ROUTE_GATEWAY ") line with
      | None => s
      | Some pos =>
          let gw := take_token line (pos + 14) in
          let iface := match find_sub (bs "IFACE=") (zdrop pos line) with Some i => take_token line (pos + i + 6) | None => [] end in
          if negb (zlen gw =? 0) && negb (zlen iface =? 0) then mkScan (cstr gw) (cstr iface) (fTunPeer s) else s
      end
    else s in
  match find_sub (bs "route-gateway ") line with
  | None => s
  | Some pos =>
      let peer := take_token line (pos + 14) in
      if negb (zlen peer =? 0) && negb (beq (cstr peer) (fTunPeer s)) then mkScan (fOrigGateway s) (fOrigGatewayIface s) (cstr peer) else s
  end.

(** ** The log scanner's thread *)

(** The loop over one read; the line read so far and the harvest. *)
Fixpoint scan_bytes (data line : bytes) (s : scan) : bytes * scan :=
  match data with
  | [] => (line, s)
  | c :: data =>
      if c =? 10 then scan_bytes data [] (if zlen line =? 0 then s else _ScanLogLine line s)
      else if c =? 13 then scan_bytes data line s
      else scan_bytes data (line ++ [c]) s
  end.

Definition scanner_line (id : Z) (t : threads) : option bytes := snd <$> List.find (fun p => fst p =? id) (scanners t).
Definition drop_scanner (id : Z) (t : threads) : threads :=
  mkThreads (readers t) (List.filter (fun p => negb (fst p =? id)) (scanners t)).

(** The log scanner's end: what it has of a line is scanned. *)
Definition scanner_exits (id : Z) (line : bytes) (b : ovpn) : ovpn :=
  let b := if zlen line =? 0 then b else with_sc (_ScanLogLine line (sc b)) b in
  with_th (drop_scanner id (th b)) b.

(** One read of the log; [None] is the end or an error. *)
Definition _RunStderrLoop (id : Z) (got : option bytes) (b : ovpn) : ovpn :=
  match scanner_line id (th b) with
  | None => b
  | Some line =>
      match (if fStderrFd (pr b) then got else None) with
      | None | Some [] => scanner_exits id line b
      | Some data =>
          let '(line, s) := scan_bytes (ztake kReaderBufferSize data) line (sc b) in
          with_sc s (with_th (mkThreads (readers (th b)) ((id, line) :: scanners (drop_scanner id (th b)))) b)
      end
  end.

(** What scanners read while the looper is in a handler. *)
Definition scans (rs : list (Z * option bytes)) (b : ovpn) : ovpn := fold_left (fun b r => _RunStderrLoop (fst r) (snd r) b) rs b.

(** ** Session file *)

Definition session_record (pid : Z) (tunIface tunPeer origGateway origGatewayIface serverIP : bytes) : Message.message :=
  let record := BMessage 0 in
  let record := add "openvpnPid" (VInt32 pid) record in
  let record := add "tunInterface" (VString tunIface) record in
  let record := add "tunPeer" (VString tunPeer) record in
  let record := add "origGateway" (VString origGateway) record in
  let record := add "origGatewayIface" (VString origGatewayIface) record in
  add "serverIP" (VString serverIP) record.

Definition _WriteSessionFile (y : sys) (b : ovpn) : ovpn :=
  if negb (s_path y) then b
  else
    let record := session_record (fPid (pr b)) (fTunInterface b) (fTunPeer (sc b)) (fOrigGateway (sc b)) (fOrigGatewayIface (sc b))
                    (fInstalledServerIP (rt b)) in
    if negb (s_open y) then b else with_session (Some (if s_flatten y then Some record else None)) b.

Definition _RemoveSessionFile (y : sys) (b : ovpn) : ovpn := if s_path y then with_session None b else b.

(** ** Routes

    Both routines take a snapshot of the harvest and run their commands; the
    session file is then written from the harvest as it is by then. *)

Definition pin_of (iface gw server : bytes) : list bytes := route_entry iface server gw host_mask.
Definition default_of (iface gw : bytes) : list bytes := route_entry iface zero_addr gw zero_addr.

Definition _InstallRoutes (y : sys) (vpnServerIP : bytes) (b : ovpn) : ovpn :=
  if fRoutesInstalled (rt b) then b
  else
    let '(mkScan gw iface peer) := sc b in
    if (zlen gw =? 0) || (zlen iface =? 0) || (zlen peer =? 0) || (zlen vpnServerIP =? 0) then b
    else
      let cs := run_routes "add" [pin_of iface gw vpnServerIP] (cmds (hst b)) in
      let cs := run_routes "delete" [default_of iface gw] cs in
      let cs := run_routes "add" [default_of (fTunInterface b) peer] cs in
      _WriteSessionFile y (scans (s_during y) (with_rt (mkInstalled vpnServerIP peer true) (with_cmds cs b))).

Definition _RefreshTunRoute (y : sys) (b : ovpn) : ovpn :=
  let newPeer := fTunPeer (sc b) in
  let r := rt b in
  if (zlen newPeer =? 0) || beq newPeer (fInstalledTunPeer r) then b
  else
    let cs := run_routes "delete" [default_of (fTunInterface b) (fInstalledTunPeer r)] (cmds (hst b)) in
    let cs := run_routes "add" [default_of (fTunInterface b) newPeer] cs in
    _WriteSessionFile y (scans (s_during y) (with_rt (mkInstalled (fInstalledServerIP r) newPeer (fRoutesInstalled r)) (with_cmds cs b))).

Definition _ApplyRestore (tunIface tunPeer origGateway origGatewayIface serverIP : bytes) (cs : list cmd) : list cmd :=
  let have x := zlen x >? 0 in
  let cs := if have tunIface && have tunPeer then run_routes "delete" [default_of tunIface tunPeer] cs else cs in
  let cs := if have origGateway && have origGatewayIface then run_routes "add" [default_of origGatewayIface origGateway] cs else cs in
  if have serverIP && have origGateway && have origGatewayIface then run_routes "delete" [pin_of origGatewayIface origGateway serverIP] cs else cs.

Definition _RemoveRoutes (y : sys) (b : ovpn) : ovpn :=
  if negb (fRoutesInstalled (rt b)) then b
  else
    let r := rt b in
    let b := with_cmds (_ApplyRestore (fTunInterface b) (fInstalledTunPeer r) (fOrigGateway (sc b)) (fOrigGatewayIface (sc b))
                          (fInstalledServerIP r) (cmds (hst b))) b in
    with_rt (mkInstalled [] [] false) (_RemoveSessionFile y b).

(** ** Threads *)

(** The prompts the reader answers itself. *)
Definition answer (e : event) (b : ovpn) : ovpn :=
  match type e with
  | OPENVPN_EVENT_PASSWORD_REQUEST =>
      let user := fAuthUsername b in let pass := fAuthPassword b in
      if zlen user >? 0 then
        let b := _SendCommand (bs "username " ++ quoted (realm e) ++ [32] ++ quoted (escape_arg user)) b in
        _SendCommand (bs "password " ++ quoted (realm e) ++ [32] ++ quoted (escape_arg pass)) b
      else b
  | OPENVPN_EVENT_HOLD => _SendCommand (bs "hold release") b
  | _ => b
  end.

Definition handle_events (events : list event) (b : ovpn) : ovpn := fold_left (fun b e => _PostEvent e (answer e b)) events b.

Definition drop_reader (id : Z) (t : threads) : threads := mkThreads (List.filter (fun r => negb (r =? id)) (readers t)) (scanners t).

Definition reader_exits (id : Z) (b : ovpn) : ovpn :=
  with_queue (queue b ++ [ReaderExited]) (with_th (drop_reader id (th b)) b).

(** One recv on the management socket; [None] is the end or an error. *)
Definition _RunReaderLoop (id : Z) (got : option bytes) (b : ovpn) : ovpn :=
  if negb (bool_decide (id ∈ readers (th b))) then b
  else
    match (if fSocket (pr b) then got else None) with
    | None | Some [] => reader_exits id b
    | Some chunk =>
        let '(events, buffer) := Feed (fManagement b) (ztake kReaderBufferSize chunk) in
        handle_events events (with_buffer buffer b)
    end.

(** ** Lifecycle *)

Definition _StopMgmtPoll (b : ovpn) : ovpn := with_pr (set_poll false (fMgmtAttempt (pr b)) (pr b)) b.

Definition hex_digit (n : Z) : Z := DaemonFiles.hex_nibble (n .& 0xf).
Definition token_of (mixed : list Z) : bytes := map hex_digit mixed.

Definition _CreateMgmtPasswordFile (y : sys) (b : ovpn) : bool * ovpn :=
  let token := token_of (s_mixed y) in
  let file := fMgmtPasswordFile (pr b) in
  match s_mkstemp y with
  | None => (false, with_pr (set_password [] file (pr b)) b)
  | Some path =>
      if s_write y then (true, with_tmp (path :: tmp (hst b)) (with_pr (set_password token path (pr b)) b))
      else (false, with_pr (set_password [] file (pr b)) b)
  end.

Definition _RemoveMgmtPasswordFile (b : ovpn) : ovpn :=
  let file := fMgmtPasswordFile (pr b) in
  let b := if zlen file >? 0 then with_tmp (List.filter (fun f => negb (beq f file)) (tmp (hst b))) b else b in
  with_pr (set_password [] (if zlen file >? 0 then [] else file) (pr b)) b.

Definition _SpawnOpenVPN (y : sys) (b : ovpn) : bool * ovpn :=
  let b := with_pr (set_port (kMgmtPortBase + Z.rem (s_rand y) kMgmtPortSpread) (pr b)) b in
  match _CreateMgmtPasswordFile y b with
  | (false, b) => (false, b)
  | (true, b) =>
      if negb (s_pipe y) then (false, b)
      else
        match s_spawn y with
        | None => (false, b)
        | Some pid => (true, with_children (Z.pos pid :: children (hst b)) (with_pr (set_pid (Z.pos pid) (set_stderr true (pr b))) b))
        end
  end.

(** waitpid, and the signals it takes. *)
Definition reap (y : sys) (b : ovpn) : ovpn :=
  let pid := fPid (pr b) in
  if pid >? 0 then
    let kills := match s_dies y with O => [] | S O => [(pid, 15)] | _ => [(pid, 15); (pid, 9)] end in
    let b := with_signals (signals (hst b) ++ kills) b in
    let b := with_children (List.filter (fun c => negb (c =? pid)) (children (hst b))) b in
    with_pr (set_pid (-1) (pr b)) b
  else b.

(** The reader sees its socket closed, posts its message and is joined. *)
Definition join_reader (b : ovpn) : ovpn :=
  let id := fReader (pr b) in
  if id >? 0 then with_pr (set_reader (-1) (pr b)) (_RunReaderLoop id None b) else b.

Definition join_scanner (b : ovpn) : ovpn :=
  let id := fStderrReader (pr b) in
  if id >? 0 then with_pr (set_scanner (-1) (pr b)) (_RunStderrLoop id None b) else b.

Definition close_descriptors (b : ovpn) : ovpn := with_pr (set_stderr false (set_socket false (pr b))) b.

Definition delete_tun (y : sys) (b : ovpn) : ovpn :=
  if zlen (fTunInterface b) >? 0
  then with_cmds (snd (RunIfconfig (s_ifconfig y) [bs "--delete"; fTunInterface b] (cmds (hst b)))) b else b.

(** The address, the credentials, the harvest and the slot's names are cleared. *)
Definition forget (b : ovpn) : ovpn :=
  with_tun [] [] (with_sc (mkScan [] [] []) (with_auth [] [] (with_ips [] (fRemoteIP b) b))).

(** _Cleanup(true), the only way it is called. *)
Definition _Cleanup (y : sys) (b : ovpn) : ovpn :=
  let b := _StopMgmtPoll b in
  let b := close_descriptors b in
  let b := join_reader b in
  let b := join_scanner b in
  let b := reap y b in
  let b := _RemoveRoutes y b in
  let b := delete_tun y b in
  let b := forget b in
  _RemoveMgmtPasswordFile b.

Definition fail (y : sys) (detail : string) (b : ovpn) : ovpn := _SetState VPN_STATE_ERROR (Some (bs detail)) (_Cleanup y b).

Definition _StartStderrReader (y : sys) (b : ovpn) : ovpn :=
  if negb (fStderrFd (pr b)) then b
  else
    match s_scanner y with
    | None => with_pr (set_scanner (-1) (pr b)) b
    | Some id => with_th (mkThreads (readers (th b)) ((Z.pos id, []) :: scanners (th b))) (with_pr (set_scanner (Z.pos id) (pr b)) b)
    end.

Definition _StartReader (y : sys) (b : ovpn) : ovpn :=
  match s_reader y with
  | None => fail y "could not start reader thread" (with_pr (set_reader (-1) (pr b)) b)
  | Some id => with_th (mkThreads (Z.pos id :: readers (th b)) (scanners (th b))) (with_pr (set_reader (Z.pos id) (pr b)) b)
  end.

Definition _BeginMgmtConnect (y : sys) (b : ovpn) : ovpn :=
  let b := with_pr (set_poll false 0 (pr b)) b in
  if negb (s_runner y) then fail y "could not start management poll" b
  else with_queue (queue b ++ [TryMgmtConnect]) (with_pr (set_poll true 0 (pr b)) b).

Definition _OnMgmtConnected (y : sys) (b : ovpn) : ovpn :=
  let b := _SendCommand (fMgmtPassword (pr b)) b in
  let b := fold_left (fun b c => _SendCommand (bs c) b) ["state on"; "bytecount 1"; "hold off"; "hold release"]%string b in
  _StartReader y b.

Definition _TryMgmtConnect (y : sys) (b : ovpn) : ovpn :=
  if negb (fMgmtPoll (pr b)) then b
  else if fStopRequested b then
    _SetState VPN_STATE_DISCONNECTED (Some (bs "cancelled")) (_Cleanup y (_StopMgmtPoll b))
  else if s_reaped y then
    let b := with_children (List.filter (fun c => negb (c =? fPid (pr b))) (children (hst b))) b in
    fail y "openvpn exited before management was ready" (_StopMgmtPoll (with_pr (set_pid (-1) (pr b)) b))
  else if s_connect y then
    _OnMgmtConnected y (_StopMgmtPoll (with_pr (set_socket true (pr b)) b))
  else
    let b := with_pr (set_poll true (fMgmtAttempt (pr b) + 1) (pr b)) b in
    if fMgmtAttempt (pr b) >=? kMgmtConnectAttempts then fail y "could not reach openvpn management port" (_StopMgmtPoll b) else b.

(** ** Events *)

(** What the CONNECTED handler does before it looks at the routes. *)
Definition before_routes (y : sys) (e : event) (b : ovpn) : ovpn :=
  let s := fStats b in
  let b := with_stats (VPNStats.mkStats (VPNStats.fBytesIn s) (VPNStats.fBytesOut s) (s_time y)) b in
  let b := with_ips (if zlen (localIP e) =? 0 then fLocalIP b else localIP e) (if zlen (remoteIP e) =? 0 then fRemoteIP b else remoteIP e) b in
  let peer := fTunPeer (sc b) in
  let b :=
    if (zlen (fTunInterface b) >? 0) && (zlen (fLocalIP b) >? 0) && (zlen peer >? 0) then
      with_cmds (snd (RunIfconfig (s_ifconfig y) [fTunInterface b; bs "inet"; fLocalIP b; peer; bs "mtu"; bs "1500"; bs "up"] (cmds (hst b)))) b
    else b in
  scans (s_before y) b.

Definition _HandleManagementEvent (y : sys) (e : event) (b : ovpn) : ovpn :=
  match type e with
  | OPENVPN_EVENT_STATE =>
      if (mappedState e =? VPN_STATE_DISCONNECTED) && (fState b =? VPN_STATE_ERROR) then b
      else
        let b :=
          if mappedState e =? VPN_STATE_CONNECTED then
            let b := before_routes y e b in
            if fRoutesInstalled (rt b) then _RefreshTunRoute y b else _InstallRoutes y (remoteIP e) b
          else b in
        _SetState (mappedState e) (if zlen (stateDetail e) =? 0 then None else Some (stateDetail e)) b
  | OPENVPN_EVENT_BYTECOUNT =>
      let stats := VPNStats.mkStats (bytesIn e) (bytesOut e) (VPNStats.fConnectedSince (fStats b)) in
      with_notice (StatsChanged stats) (with_stats stats b)
  | OPENVPN_EVENT_PASSWORD_REQUEST =>
      if zlen (fAuthUsername b) =? 0
      then _SetState VPN_STATE_AUTHENTICATING (Some (bs "credentials required but none provided")) b else b
  | OPENVPN_EVENT_AUTH_FAILED => _SetState VPN_STATE_ERROR (Some (bs "authentication failed")) b
  | OPENVPN_EVENT_FATAL =>
      _SetState VPN_STATE_ERROR (Some (if zlen (message e) =? 0 then bs "fatal error" else message e)) b
  | OPENVPN_EVENT_LOG | OPENVPN_EVENT_INFO =>
      if zlen (message e) =? 0 then b else with_sc (_ScanLogLine (message e) (sc b)) b
  | _ => b
  end.

Definition MessageReceived (y : sys) (m : posted) (b : ovpn) : ovpn :=
  match m with
  | InternalEvent e => _HandleManagementEvent y e b
  | TryMgmtConnect => _TryMgmtConnect y b
  | ReaderExited =>
      let b := _Cleanup y b in
      if fState b =? VPN_STATE_ERROR then b else _SetState VPN_STATE_DISCONNECTED None b
  end.

(** ** Requests of the daemon *)

Definition begin_connect (p : VPNProfile.profile) (b : ovpn) : ovpn :=
  _SetState VPN_STATE_CONNECTING None
    (with_stop false (with_ips [] (VPNProfile.fServer p) (with_stats VPNStats.Reset (with_profile p b)))).

Definition Connect (y : sys) (p : VPNProfile.profile) (b : ovpn) : status * ovpn :=
  if negb (fState b =? VPN_STATE_DISCONNECTED) && negb (fState b =? VPN_STATE_ERROR) then (B_NOT_ALLOWED, b)
  else if zlen (VPNProfile.fConfigPath p) =? 0 then
    (B_BAD_VALUE, _SetState VPN_STATE_ERROR (Some (bs "profile has no .ovpn config path")) b)
  else
    let b := begin_connect p b in
    match ProbeFreeSlot (s_ifconfig y) (cmds (hst b)) with
    | (None, cs) =>
        (B_ERROR, _SetState VPN_STATE_ERROR (Some (bs "no usable tun slot (every /dev/tun/N is stuck; reboot needed?)"))
                    (with_tun [] [] (with_cmds cs b)))
    | (Some (iface, node), cs) =>
        let b := with_tun iface node (with_cmds cs b) in
        match _SpawnOpenVPN y b with
        | (false, b) => (B_ERROR, _SetState VPN_STATE_ERROR (Some (bs "could not start openvpn (is it installed?)")) b)
        | (true, b) => (B_OK, _BeginMgmtConnect y (_StartStderrReader y b))
        end
    end.

Definition Disconnect (b : ovpn) : ovpn :=
  if fState b =? VPN_STATE_DISCONNECTED then b
  else
    let b := with_stop true b in
    if fSocket (pr b) then _SendCommand (bs "signal SIGTERM") b
    else if fPid (pr b) >? 0 then with_signals (signals (hst b) ++ [(fPid (pr b), 15)]) b
    else b.

Definition SetCredentials (user pass : bytes) (b : ovpn) : ovpn := with_auth user pass b.

Definition find_text (name : string) (m : Message.message) : bytes := default [] (FindString name m).

Definition RecoverIfCrashed (y : sys) (b : ovpn) : ovpn :=
  if negb (s_path y) then b
  else
    match session (hst b) with
    | None => b
    | Some file =>
        if negb (s_open y) then b
        else
          match file with
          | None => with_session None b
          | Some record =>
              let prevPid := default (-1) (FindInt32 "openvpnPid" record) in
              let b :=
                if (prevPid >? 0) && s_alive y
                then with_signals (signals (hst b) ++ (prevPid, 15) :: if s_survives y then [(prevPid, 9)] else []) b else b in
              let cs := _ApplyRestore (find_text "tunInterface" record) (find_text "tunPeer" record) (find_text "origGateway" record)
                          (find_text "origGatewayIface" record) (find_text "serverIP" record) (cmds (hst b)) in
              with_session None (with_cmds cs b)
          end
    end.

(** ** The looper and the threads, interleaved *)

Inductive input :=
| EvConnect (y : sys) (p : VPNProfile.profile)
| EvDisconnect
| EvSetCredentials (user pass : bytes)
| EvRecover (y : sys)
| EvTick                                   (* the runner posts a probe *)
| EvDeliver (y : sys)                      (* the looper takes a message *)
| EvRead (id : Z) (got : option bytes)     (* a reader's recv *)
| EvScan (id : Z) (got : option bytes).    (* a log scanner's read *)

Definition step (b : ovpn) (e : input) : ovpn :=
  match e with
  | EvConnect y p => snd (Connect y p b)
  | EvDisconnect => Disconnect b
  | EvSetCredentials user pass => SetCredentials user pass b
  | EvRecover y => RecoverIfCrashed y b
  | EvTick => if fMgmtPoll (pr b) then with_queue (queue b ++ [TryMgmtConnect]) b else b
  | EvDeliver y => match queue b with [] => b | m :: q => MessageReceived y m (with_queue q b) end
  | EvRead id got => _RunReaderLoop id got b
  | EvScan id got => _RunStderrLoop id got b
  end.

Definition steps (es : list input) (b : ovpn) : ovpn := fold_left step es b.

End OvpnBackend.
