(* ===== verification/OvpnBackendProofs.v ===== *)
(** * OvpnBackendProofs: what the OpenVPN backend guarantees (proofs about OvpnBackend.v)

    Every line the backend writes to openvpn is one command, its states are
    the protocol's, a failed request leaves no process behind and the wait for
    the management port ends. *)

From S2P Require Import Prelude CLib Routes Message Profiles Configs Tun OvpnMgmt Daemon OvpnBackend.
Import Message VPNProtocol VPNState TunDevice.
Open Scope Z_scope.
Open Scope soto_scope.

Module OvpnBackendProofs.
Import OpenVPNManagement OvpnBackend.

(** ** Lines and arguments *)

Definition one_line (l : bytes) : Prop := exists c, l = c ++ [10] /\ 10 ∉ c.

Lemma cstr_sub l x : x ∈ cstr l -> x ∈ l.
Proof.
  induction l as [|c l IH]; cbn; [done|]. destruct (c =? 0); [intros H; by apply elem_of_nil in H|].
  rewrite !elem_of_cons. tauto.
Qed.

Lemma cstr_cstr l : cstr (cstr l) = cstr l.
Proof. apply cstr_text, cstr_no_nul. Qed.

Lemma bs_no_newline s : bool_decide (10 ∈ bs s) = false -> 10 ∉ bs s.
Proof. by rewrite bool_decide_eq_false. Qed.

Lemma escape_arg_line v : 10 ∉ escape_arg v.
Proof.
  unfold escape_arg. rewrite list_elem_of_bind. intros (c & Hc & _). unfold escape_char in Hc.
  destruct (Z.eqb_spec c 92), (Z.eqb_spec c 34), (Z.eqb_spec c 10), (Z.eqb_spec c 13); subst; cbn [orb] in Hc;
    rewrite ?elem_of_cons, ?elem_of_nil in Hc; lia.
Qed.

(** How a double-quoted argument of the management protocol ends: at the first
    quote no backslash protects. *)
Fixpoint read_arg (l : bytes) : option (bytes * bytes) :=
  match l with
  | [] => None
  | c :: l =>
      if c =? 34 then Some ([], l)
      else if c =? 92 then match l with d :: l => (fun r => (d :: fst r, snd r)) <$> read_arg l | [] => None end
      else (fun r => (c :: fst r, snd r)) <$> read_arg l
  end.

(** A line feed is escaped as a backslash and n, a carriage return as a
    backslash and r, which that reader takes for the letters. *)
Definition plain (c : Z) : Z := if c =? 10 then 110 else if c =? 13 then 114 else c.

Lemma escape_arg_read v rest : read_arg (escape_arg v ++ 34 :: rest) = Some (map plain (cstr v), rest).
Proof.
  unfold escape_arg. induction (cstr v) as [|c l IH]; [done|]. rewrite bind_cons, <- app_assoc. unfold escape_char at 1.
  destruct (Z.eqb_spec c 92) as [->|N92]; [cbn [orb app read_arg Z.eqb Pos.eqb]; by rewrite IH|].
  destruct (Z.eqb_spec c 34) as [->|N34]; [cbn [orb app read_arg Z.eqb Pos.eqb]; by rewrite IH|].
  destruct (Z.eqb_spec c 10) as [->|N10]; [cbn [orb app read_arg Z.eqb Pos.eqb]; by rewrite IH|].
  destruct (Z.eqb_spec c 13) as [->|N13]; [cbn [orb app read_arg Z.eqb Pos.eqb]; by rewrite IH|].
  cbn [orb app read_arg map]. destruct (Z.eqb_spec c 34); [done|]. destruct (Z.eqb_spec c 92); [done|].
  rewrite IH. cbn. unfold plain. by destruct (Z.eqb_spec c 10), (Z.eqb_spec c 13).
Qed.

Lemma plain_text v : Forall (fun c => c <> 0 /\ c <> 10 /\ c <> 13) v -> map plain (cstr v) = v.
Proof.
  intros Hv. rewrite cstr_text by (eapply Forall_impl; [exact Hv|cbn; tauto]).
  induction Hv as [|c v (H0 & H1 & H2) _ IH]; [done|]. cbn [map]. rewrite IH. unfold plain.
  by destruct (Z.eqb_spec c 10), (Z.eqb_spec c 13).
Qed.

Lemma realm_line l : 10 ∉ l -> 10 ∉ realm (ParseLine l).
Proof.
  intros Hl. unfold ParseLine. cbv zeta. destruct (trim l) as [|c rest] eqn:Et; [apply not_elem_of_nil|].
  assert (Hr : 10 ∉ rest).
  { intros H. apply Hl. eapply trim_by_sub. fold trim in *. unfold trim in Et. rewrite Et. by apply list_elem_of_further. }
  destruct (c =? 62).
  - assert (Hp : forall tag payload, (match find_first 58 rest with Some i => (ztake i rest, zdrop (i + 1) rest) | None => (rest, []) end) = (tag, payload) -> 10 ∉ payload).
    { intros tag payload. destruct (find_first 58 rest); intros [= _ <-]; [|apply not_elem_of_nil]. intros H. by apply zdrop_sub in H. }
    destruct (match find_first 58 rest with Some i => _ | None => _ end) as [tag payload]. specialize (Hp _ _ eq_refl).
    assert (Hq : 10 ∉ extract_quoted payload).
    { unfold extract_quoted. destruct (find_first 39 payload) as [i|]; [|apply not_elem_of_nil]. cbv zeta.
      destruct (find_first 39 (zdrop (i + 1) payload)); [|apply not_elem_of_nil]. intros H. apply ztake_sub, zdrop_sub in H. done. }
    unfold notification. repeat match goal with |- context [if ?c then _ else _] => destruct c end; cbn [realm plain]; try apply not_elem_of_nil; exact Hq.
  - repeat match goal with |- context [if ?c then _ else _] => destruct c end; apply not_elem_of_nil.
Qed.

Lemma complete_lines_line text l : l ∈ complete_lines text -> 10 ∉ l.
Proof.
  intros Hl Hn. assert (H : l ∈ split 10 text).
  { unfold complete_lines in Hl. destruct (split 10 text) as [|x xs] eqn:E using rev_ind; [done|]. rewrite removelast_last in Hl.
    apply elem_of_app. by left. }
  clear Hl. revert H. unfold split. induction text as [|c text IH]; cbn.
  - rewrite list_elem_of_singleton. intros ->. by apply elem_of_nil in Hn.
  - destruct (Z.eqb_spec c 10) as [->|Hc].
    + rewrite elem_of_cons. intros [->|H]; [by apply elem_of_nil in Hn|by apply IH].
    + destruct (split_on 10 text) as [|f fs] eqn:E.
      * rewrite list_elem_of_singleton. intros ->. apply list_elem_of_singleton in Hn. done.
      * rewrite elem_of_cons. intros [->|H]; [|apply IH; by apply list_elem_of_further]. apply elem_of_cons in Hn as [?|Hn]; [done|].
        pose proof (split_head 10 text) as Hh. unfold split in Hh. rewrite E in Hh. done.
Qed.

Lemma Feed_events (P : event -> Prop) buffer chunk :
  (forall l, 10 ∉ l -> P (ParseLine l)) -> Forall P (fst (Feed buffer chunk)).
Proof.
  intros HP. rewrite Feed_spec. cbn [fst]. apply Forall_fmap, Forall_forall. intros l Hl. apply HP. by eapply complete_lines_line.
Qed.

(** ** An invariant of every run *)

Definition good_notice (n : notice) : Prop := match n with StateChanged s _ => is_state s | StatsChanged _ => True end.
Definition good_posted (m : posted) : Prop := match m with InternalEvent e => is_state (mappedState e) | _ => True end.

(** What openvpn is sent is lines, and what the observer is told is states. *)
Definition good (b : ovpn) : Prop :=
  Forall one_line (sent (hst b)) /\ (10 ∉ fMgmtPassword (pr b)) /\ is_state (fState b)
  /\ Forall good_notice (notices b) /\ Forall good_posted (queue b).

Lemma named_state n : VPN_STATE_DISCONNECTED <= n <= VPN_STATE_ERROR -> is_state n.
Proof. done. Qed.

Ltac a_state := apply named_state; vm_compute; split; discriminate.

Lemma SetState_good s d b : is_state s -> good b -> good (_SetState s d b).
Proof. intros Hs (A & B & C & D & E). split_and!; try done. apply Forall_app_2; [done|]. by apply Forall_singleton. Qed.

Lemma SendCommand_good l b : 10 ∉ l -> good b -> good (_SendCommand l b).
Proof.
  intros Hl (A & B & C & D & E). unfold _SendCommand. destruct (fSocket (pr b)); [|done]. split_and!; try done.
  apply Forall_app_2; [done|]. apply Forall_singleton. exists (cstr l). split; [done|]. intros H. by apply Hl, cstr_sub.
Qed.

Lemma SendAll_good cs b : forallb (fun s => negb (bool_decide (10 ∈ bs s))) cs = true -> good b ->
  good (fold_left (fun b c => _SendCommand (bs c) b) cs b).
Proof.
  revert b. induction cs as [|c cs IH]; intros b Hc Hb; [done|]. cbn [forallb] in Hc. apply andb_true_iff in Hc as [H1 H2].
  apply negb_true_iff, bool_decide_eq_false in H1. cbn [fold_left]. apply IH; [done|]. by apply SendCommand_good.
Qed.

Lemma PostEvent_good e b : is_state (mappedState e) -> good b -> good (_PostEvent e b).
Proof.
  intros He (A & B & C & D & E). split_and!; try done. apply Forall_app_2; [done|]. apply Forall_singleton. cbn.
  rewrite s32_small; [done|]. unfold is_state in He. unfold VPN_STATE_DISCONNECTED, VPN_STATE_ERROR in He. lia.
Qed.

Lemma quoted_line l k a c : 10 ∉ a -> 10 ∉ k -> 10 ∉ c -> 10 ∉ l -> 10 ∉ (l ++ quoted k ++ [32] ++ quoted a ++ c).
Proof.
  unfold quoted. rewrite !elem_of_app, !list_elem_of_singleton. intros H1 H2 H3 H4 [?|[[?|[?|?]]|[?|[[?|[?|?]]|?]]]]; done.
Qed.

Lemma answer_good e b : 10 ∉ realm e -> good b -> good (answer e b).
Proof.
  intros He Hb. unfold answer. destruct (type e); try done.
  - destruct (_ >? 0); [|done].
    assert (L : forall v k, 10 ∉ bs k -> 10 ∉ (bs k ++ quoted (realm e) ++ [32] ++ quoted (escape_arg v))).
    { intros v k Hk. rewrite <- (app_nil_r (quoted (escape_arg v))). apply quoted_line; [apply escape_arg_line|done|apply not_elem_of_nil|done]. }
    apply SendCommand_good; [apply L; by apply bs_no_newline|]. apply SendCommand_good; [apply L; by apply bs_no_newline|done].
  - apply SendCommand_good; [by apply bs_no_newline|done].
Qed.

Lemma handle_events_good es b : Forall (fun e => (10 ∉ realm e) /\ is_state (mappedState e)) es -> good b -> good (handle_events es b).
Proof.
  unfold handle_events. intros Hes. revert b. induction Hes as [|e es [H1 H2] _ IH]; intros b Hb; [done|]. apply IH, PostEvent_good, answer_good; done.
Qed.

Lemma reader_good id got b : good b -> good (_RunReaderLoop id got b).
Proof.
  intros Hb. unfold _RunReaderLoop. destruct (negb _); [done|].
  assert (X : good (reader_exits id b)) by (destruct Hb as (A & B & C & D & E); split_and!; try done; apply Forall_app_2; [done|by apply Forall_singleton]).
  destruct (if fSocket (pr b) then got else None) as [[|c chunk]|]; [exact X| |exact X].
  pose proof (Feed_events (fun e => (10 ∉ realm e) /\ is_state (mappedState e)) (fManagement b) (ztake kReaderBufferSize (c :: chunk))
    (fun l Hl => conj (realm_line l Hl) (ParseLine_state l))) as F.
  destruct (Feed _ _) as [events buffer]. by apply handle_events_good.
Qed.

Lemma scanner_good id got b : good b -> good (_RunStderrLoop id got b).
Proof.
  intros Hb. unfold _RunStderrLoop. destruct (scanner_line id (th b)) as [line|]; [|done].
  assert (X : good (scanner_exits id line b)) by (unfold scanner_exits; by destruct (zlen line =? 0)).
  destruct (if fStderrFd (pr b) then got else None) as [[|c data]|]; [exact X| |exact X]. by destruct (scan_bytes _ _ _).
Qed.

Lemma scans_good rs b : good b -> good (scans rs b).
Proof. unfold scans. revert b. induction rs as [|r rs IH]; intros b Hb; [done|]. by apply IH, scanner_good. Qed.

Lemma WriteSessionFile_good y b : good b -> good (_WriteSessionFile y b).
Proof. intros Hb. unfold _WriteSessionFile. destruct (negb (s_path y)); [done|]. cbv zeta. by destruct (negb (s_open y)). Qed.

Lemma RemoveRoutes_good y b : good b -> good (_RemoveRoutes y b).
Proof. intros Hb. unfold _RemoveRoutes. destruct (negb _); [done|]. cbv zeta. unfold _RemoveSessionFile. by destruct (s_path y). Qed.

Lemma join_good b : good b -> good (join_reader b) /\ good (join_scanner b).
Proof.
  intros Hb. unfold join_reader, join_scanner. split; cbv zeta; (destruct (_ >? 0); [|done]).
  - destruct (reader_good (fReader (pr b)) None b Hb) as (A & _ & C & D & E). split_and!; try done. apply Hb.
  - destruct (scanner_good (fStderrReader (pr b)) None b Hb) as (A & _ & C & D & E). split_and!; try done. apply Hb.
Qed.

Lemma reap_good y b : good b -> good (reap y b).
Proof. intros Hb. unfold reap. cbv zeta. by destruct (_ >? 0). Qed.

Lemma RemovePassword_good b : good b -> good (_RemoveMgmtPasswordFile b).
Proof.
  intros (A & B & C & D & E). unfold _RemoveMgmtPasswordFile. cbv zeta. destruct (_ >? 0); split_and!; try done; apply not_elem_of_nil.
Qed.

Lemma forget_good b : good b -> good (forget b).
Proof. done. Qed.

Lemma delete_tun_good y b : good b -> good (delete_tun y b).
Proof. intros Hb. unfold delete_tun. by destruct (_ >? 0). Qed.

Lemma Cleanup_good y b : good b -> good (_Cleanup y b).
Proof.
  intros Hb. unfold _Cleanup. apply RemovePassword_good, forget_good, delete_tun_good, RemoveRoutes_good, reap_good, join_good, join_good. exact Hb.
Qed.

Lemma fail_good y d b : good b -> good (fail y d b).
Proof. intros Hb. apply SetState_good; [a_state|]. by apply Cleanup_good. Qed.

Lemma StartReader_good y b : good b -> good (_StartReader y b).
Proof. intros Hb. unfold _StartReader. destruct (s_reader y); [exact Hb|]. by apply fail_good. Qed.

Lemma TryMgmtConnect_good y b : good b -> good (_TryMgmtConnect y b).
Proof.
  intros Hb. unfold _TryMgmtConnect. destruct (negb _); [done|].
  destruct (fStopRequested b); [apply SetState_good; [a_state|]; by apply Cleanup_good|].
  destruct (s_reaped y); [by apply fail_good|]. destruct (s_connect y).
  - unfold _OnMgmtConnected. cbv zeta. apply StartReader_good. apply SendAll_good; [by vm_compute|]. apply SendCommand_good; [apply Hb|exact Hb].
  - cbv zeta. destruct (_ >=? _); [|done]. by apply fail_good.
Qed.

Lemma InstallRoutes_good y s b : good b -> good (_InstallRoutes y s b).
Proof.
  intros Hb. unfold _InstallRoutes. destruct (fRoutesInstalled (rt b)); [done|]. destruct (sc b) as [gw iface peer].
  destruct (_ || _); [done|]. cbv zeta. by apply WriteSessionFile_good, scans_good.
Qed.

Lemma RefreshTunRoute_good y b : good b -> good (_RefreshTunRoute y b).
Proof. intros Hb. unfold _RefreshTunRoute. cbv zeta. destruct (_ || _); [done|]. by apply WriteSessionFile_good, scans_good. Qed.

Lemma HandleManagementEvent_good y e b : is_state (mappedState e) -> good b -> good (_HandleManagementEvent y e b).
Proof.
  intros He Hb. unfold _HandleManagementEvent. cbv zeta. destruct (type e); try done; try (apply SetState_good; [a_state|done]).
  - destruct (_ && _); [done|]. apply SetState_good; [done|]. destruct (mappedState e =? _); [|done].
    unfold before_routes. cbv zeta. match goal with |- good (if _ then _RefreshTunRoute _ ?x else _) => cut (good x) end.
    { intros Hx. destruct (fRoutesInstalled _); [by apply RefreshTunRoute_good|by apply InstallRoutes_good]. }
    apply scans_good. by destruct (_ && _).
  - destruct Hb as (A & B & C & D & E). split_and!; try done. apply Forall_app_2; [done|by apply Forall_singleton].
  - destruct (_ =? 0); [|done]. apply SetState_good; [a_state|done].
  - by destruct (_ =? 0).
  - by destruct (_ =? 0).
Qed.

Lemma hex_digit_printable n : hex_digit n <> 10.
Proof.
  unfold hex_digit, DaemonFiles.hex_nibble. change 0xf with (2 ^ 4 - 1). rewrite land_ones_mod by lia. pose proof (Z.mod_pos_bound n (2 ^ 4) ltac:(lia)).
  destruct (Z.ltb_spec (n mod 2 ^ 4) 10); lia.
Qed.

Lemma CreatePassword_good y b : good b -> good (snd (_CreateMgmtPasswordFile y b)).
Proof.
  intros (A & B & C & D & E). unfold _CreateMgmtPasswordFile. cbv zeta.
  destruct (s_mkstemp y) as [path|]; [destruct (s_write y)|]; split_and!; try done; try apply not_elem_of_nil.
  cbn. unfold token_of. intros (x & Hx & _)%list_elem_of_fmap. by apply (hex_digit_printable x).
Qed.

Lemma SpawnOpenVPN_good y b : good b -> good (snd (_SpawnOpenVPN y b)).
Proof.
  intros Hb. unfold _SpawnOpenVPN. cbv zeta. pose proof (CreatePassword_good y (with_pr (set_port (kMgmtPortBase + Z.rem (s_rand y) kMgmtPortSpread) (pr b)) b) Hb) as H.
  destruct (_CreateMgmtPasswordFile _ _) as [[] b1]; cbn [snd] in *; [|done]. destruct (negb (s_pipe y)); [done|]. by destruct (s_spawn y).
Qed.

Lemma BeginMgmtConnect_good y b : good b -> good (_BeginMgmtConnect y b).
Proof.
  intros Hb. unfold _BeginMgmtConnect. cbv zeta. destruct (negb (s_runner y)); [by apply fail_good|].
  destruct Hb as (A & B & C & D & E). split_and!; try done. apply Forall_app_2; [done|by apply Forall_singleton].
Qed.

Lemma Connect_good y p b : good b -> good (snd (Connect y p b)).
Proof.
  intros Hb. unfold Connect. destruct (_ && _); [done|]. destruct (_ =? 0); [apply SetState_good; [a_state|done]|]. cbv zeta.
  assert (H1 : good (begin_connect p b)) by (apply SetState_good; [a_state|done]). generalize dependent (begin_connect p b). intros b1 H1. destruct (ProbeFreeSlot _ _) as [[[iface node]|] cs]; [|apply SetState_good; [a_state|done]].
  pose proof (SpawnOpenVPN_good y (with_tun iface node (with_cmds cs b1)) H1) as H2.
  destruct (_SpawnOpenVPN _ _) as [[] b2]; cbn [snd] in *; [|apply SetState_good; [a_state|done]].
  apply BeginMgmtConnect_good. unfold _StartStderrReader. destruct (negb _); [done|]. by destruct (s_scanner y).
Qed.

Lemma step_good b e : good b -> good (step b e).
Proof.
  intros Hb. destruct e as [y p| |u p|y| |y|id got|id got]; cbn [step].
  - by apply Connect_good.
  - unfold Disconnect. destruct (_ =? _); [done|]. cbv zeta. destruct (fSocket _); [apply SendCommand_good; [by apply bs_no_newline|done]|].
    by destruct (_ >? 0).
  - done.
  - unfold RecoverIfCrashed. destruct (negb (s_path y)); [done|]. destruct (session (hst b)) as [file|]; [|done].
    destruct (negb (s_open y)); [done|]. destruct file; [|done]. cbv zeta. by destruct (_ && _).
  - destruct (fMgmtPoll _); [|done]. destruct Hb as (A & B & C & D & E). split_and!; try done. apply Forall_app_2; [done|by apply Forall_singleton].
  - destruct (queue b) as [|m q] eqn:Eq; [done|]. assert (Hm : good_posted m /\ good (with_queue q b)).
    { destruct Hb as (A & B & C & D & E). rewrite Eq in E. apply Forall_cons in E as [E1 E2]. split; [done|]. split_and!; done. }
    destruct Hm as [Hm Hq]. destruct m as [ev| |]; cbn [MessageReceived].
    + by apply HandleManagementEvent_good.
    + by apply TryMgmtConnect_good.
    + cbv zeta. pose proof (Cleanup_good y _ Hq) as Hc. destruct (_ =? _); [done|]. apply SetState_good; [a_state|done].
  - by apply reader_good.
  - by apply scanner_good.
Qed.

Lemma steps_good es b : good b -> good (steps es b).
Proof. revert b. induction es as [|e es IH]; intros b Hb; [done|]. apply IH, step_good, Hb. Qed.

Lemma fresh_good h : good (OpenVPNBackend h).
Proof. split; [apply Forall_nil_2|]. split; [apply not_elem_of_nil|]. split; [a_state|]. split; apply Forall_nil_2. Qed.


(** The backend only ever is in, and only ever reports, one of the six states of the protocol, whatever state names openvpn sends and however its messages interleave. *)
Theorem states_are_states h es :
  let b := steps es (OpenVPNBackend h) in
  VPN_STATE_DISCONNECTED <= fState b <= VPN_STATE_ERROR
  /\ Forall (fun n => match n with StateChanged s _ => VPN_STATE_DISCONNECTED <= s <= VPN_STATE_ERROR | StatsChanged _ => True end) (notices b).
Proof.
  cbv zeta. pose proof (steps_good es _ (fresh_good h)) as G. split; apply G.
Qed.

(** ** What the operations leave alone *)

(** The object and the host, without what is only added to. *)
Definition core (b : ovpn) :=
  (pr b, rt b, sc b, fTunInterface b, fState b, fStopRequested b, cmds (hst b), session (hst b)).

Lemma SendCommand_core l b : core (_SendCommand l b) = core b /\ th (_SendCommand l b) = th b /\ queue (_SendCommand l b) = queue b.
Proof. unfold _SendCommand. by destruct (fSocket (pr b)). Qed.

Lemma answer_core e b : core (answer e b) = core b /\ th (answer e b) = th b /\ queue (answer e b) = queue b.
Proof.
  unfold answer. destruct (type e); try done; [|apply SendCommand_core]. destruct (_ >? 0); [|done].
  repeat match goal with |- context [_SendCommand ?l ?x] => lazymatch x with context [_SendCommand _ _] => fail
    | _ => pose proof (SendCommand_core l x); generalize dependent (_SendCommand l x) end end.
  intros b1 (H1 & H2 & H3). destruct (SendCommand_core (bs "password " ++ quoted (realm e) ++ [32] ++ quoted (escape_arg (fAuthPassword b))) b1) as (K1 & K2 & K3).
  by rewrite K1, K2, K3, H1, H2, H3.
Qed.

Definition is_event (m : posted) : Prop := match m with InternalEvent _ => True | _ => False end.

Lemma handle_events_core es b : exists q, Forall is_event q
  /\ core (handle_events es b) = core b /\ th (handle_events es b) = th b /\ queue (handle_events es b) = queue b ++ q.
Proof.
  unfold handle_events. revert b. induction es as [|e es IH]; intros b; [exists []; by rewrite app_nil_r|]. cbn [fold_left].
  destruct (IH (_PostEvent e (answer e b))) as (q & Hq & E1 & E2 & E3). destruct (answer_core e b) as (A1 & A2 & A3).
  eexists (InternalEvent _ :: q). split; [by constructor|]. rewrite E1, E2, E3. cbn [th queue with_queue _PostEvent]. rewrite A2, A3.
  split; [exact A1|]. split; [done|]. by rewrite <- app_assoc.
Qed.

Lemma reader_core id got b : core (_RunReaderLoop id got b) = core b.
Proof.
  unfold _RunReaderLoop. destruct (negb _); [done|]. destruct (if fSocket (pr b) then got else None) as [[|c chunk]|]; [done| |done].
  destruct (Feed _ _) as [events buffer]. destruct (handle_events_core events (with_buffer buffer b)) as (q & _ & E & _). by rewrite E.
Qed.

Lemma scanner_same id got b : let b' := _RunStderrLoop id got b in
  pr b' = pr b /\ rt b' = rt b /\ fTunInterface b' = fTunInterface b /\ fState b' = fState b /\ fStopRequested b' = fStopRequested b
  /\ hst b' = hst b /\ queue b' = queue b /\ readers (th b') = readers (th b).
Proof.
  cbv zeta. unfold _RunStderrLoop. destruct (scanner_line id (th b)) as [line|]; [|done]. unfold scanner_exits.
  destruct (if fStderrFd (pr b) then got else None) as [[|c data]|]; cbv zeta; try (by destruct (zlen line =? 0)). by destruct (scan_bytes _ _ _).
Qed.

Lemma WriteSessionFile_same y b : let b' := _WriteSessionFile y b in
  pr b' = pr b /\ rt b' = rt b /\ sc b' = sc b /\ fTunInterface b' = fTunInterface b /\ th b' = th b /\ queue b' = queue b
  /\ cmds (hst b') = cmds (hst b) /\ fState b' = fState b.
Proof. cbv zeta. unfold _WriteSessionFile. destruct (negb (s_path y)); [done|]. cbv zeta. by destruct (negb (s_open y)). Qed.

Lemma scans_same rs b : let b' := scans rs b in
  pr b' = pr b /\ rt b' = rt b /\ fTunInterface b' = fTunInterface b /\ fState b' = fState b
  /\ hst b' = hst b /\ queue b' = queue b /\ readers (th b') = readers (th b).
Proof.
  cbv zeta. unfold scans. revert b. induction rs as [|r rs IH]; intros b; [done|]. cbn [fold_left].
  destruct (IH (_RunStderrLoop (fst r) (snd r) b)) as (-> & -> & -> & -> & -> & -> & ->).
  destruct (scanner_same (fst r) (snd r) b) as (-> & -> & -> & -> & _ & -> & -> & ->). done.
Qed.

(** What log scanners keep is kept while they run beside a handler. *)
Section Scanned.
Context (P : ovpn -> Prop).
Context (P_frame : forall b b', pr b' = pr b -> th b' = th b -> sc b' = sc b -> P b -> P b').
Context (P_scan : forall id got b, P b -> P (_RunStderrLoop id got b)).

Lemma scans_keep rs b : P b -> P (scans rs b).
Proof. unfold scans. revert b. induction rs as [|r rs IH]; intros b Hb; [done|]. by apply IH, P_scan. Qed.

Lemma write_keep y b : P b -> P (_WriteSessionFile y b).
Proof. destruct (WriteSessionFile_same y b) as (E1 & _ & E3 & _ & E5 & _). by apply P_frame. Qed.

Lemma install_keep y server b : P b -> P (_InstallRoutes y server b).
Proof.
  intros Hb. unfold _InstallRoutes. destruct (fRoutesInstalled (rt b)); [done|]. destruct (sc b) as [gw iface peer] eqn:E. destruct (_ || _); [done|].
  cbv zeta. apply write_keep, scans_keep. by apply (P_frame b).
Qed.

Lemma refresh_keep y b : P b -> P (_RefreshTunRoute y b).
Proof.
  intros Hb. unfold _RefreshTunRoute. cbv zeta. destruct (_ || _); [done|]. apply write_keep, scans_keep. by apply (P_frame b).
Qed.

Lemma event_keep y e b : (forall l b, P b -> P (with_sc (_ScanLogLine l (sc b)) b)) -> P b -> P (_HandleManagementEvent y e b).
Proof.
  intros P_line Hb. unfold _HandleManagementEvent. cbv zeta.
  destruct (type e); try done; try (destruct (_ =? 0); [by apply (P_frame b)|by apply P_line || done]); try (by apply (P_frame b)).
  destruct (_ && _); [done|]. match goal with |- P (_SetState _ _ ?x) => cut (P x); [intros Hx; by apply (P_frame x)|] end.
  destruct (_ =? _); [|done]. unfold before_routes. cbv zeta. match goal with |- P (if _ then _RefreshTunRoute _ ?x else _) => assert (Hx : P x) end.
  { apply scans_keep. destruct (_ && _); by apply (P_frame b). }
  destruct (fRoutesInstalled _); [by apply refresh_keep|by apply install_keep].
Qed.
End Scanned.

(** A management event leaves the process and the readers alone. *)
Lemma event_same y e b : let b' := _HandleManagementEvent y e b in
  pr b' = pr b /\ readers (th b') = readers (th b) /\ queue b' = queue b /\ fTunInterface b' = fTunInterface b.
Proof.
  cbv zeta. unfold _HandleManagementEvent. destruct (type e); try done; try (by destruct (_ =? _)).
  destruct (_ && _); [done|]. cbn [pr th queue fTunInterface _SetState with_notice with_state]. destruct (mappedState e =? _); [|done].
  unfold before_routes. cbv zeta. match goal with |- context [scans (s_before y) ?x] => assert (X : pr x = pr b /\ readers (th x) = readers (th b) /\ queue x = queue b /\ fTunInterface x = fTunInterface b)
    by (by destruct (_ && _)); generalize dependent x end.
  intros x0 X0. destruct (scans_same (s_before y) x0) as (Y1 & _ & Y4 & _ & _ & Y3 & Y2). set (x := scans (s_before y) x0) in *. clearbody x.
  rewrite <- Y1, <- Y2, <- Y3, <- Y4 in X0. destruct X0 as (X1 & X2 & X3 & X4). rewrite <- X1, <- X2, <- X3, <- X4.
  assert (W : forall z, pr z = pr x -> readers (th z) = readers (th x) -> queue z = queue x -> fTunInterface z = fTunInterface x ->
    let b' := _WriteSessionFile y (scans (s_during y) z) in
    pr b' = pr x /\ readers (th b') = readers (th x) /\ queue b' = queue x /\ fTunInterface b' = fTunInterface x).
  { intros z Z1 Z2 Z3 Z4. cbv zeta. destruct (WriteSessionFile_same y (scans (s_during y) z)) as (-> & _ & _ & -> & -> & -> & _).
    destruct (scans_same (s_during y) z) as (-> & _ & -> & _ & _ & -> & ->). done. }
  destruct (fRoutesInstalled (rt x)).
  - unfold _RefreshTunRoute. cbv zeta. destruct (_ || _); [done|]. by apply W.
  - unfold _InstallRoutes. destruct (fRoutesInstalled (rt x)); [done|]. destruct (sc x) as [gw iface peer]. destruct (_ || _); [done|]. cbv zeta. by apply W.
Qed.

(** ** Cleaning up *)

Lemma join_reader_pr b : pr (join_reader b) = if fReader (pr b) >? 0 then set_reader (-1) (pr b) else pr b.
Proof. unfold join_reader. cbv zeta. by destruct (_ >? 0). Qed.

Lemma join_scanner_pr b : pr (join_scanner b) = if fStderrReader (pr b) >? 0 then set_scanner (-1) (pr b) else pr b.
Proof. unfold join_scanner. cbv zeta. by destruct (_ >? 0). Qed.

Lemma reap_same y b : pr (reap y b) = (if fPid (pr b) >? 0 then set_pid (-1) (pr b) else pr b) /\ rt (reap y b) = rt b /\ sc (reap y b) = sc b
  /\ th (reap y b) = th b /\ queue (reap y b) = queue b /\ cmds (hst (reap y b)) = cmds (hst b) /\ fTunInterface (reap y b) = fTunInterface b
  /\ fState (reap y b) = fState b /\ session (hst (reap y b)) = session (hst b).
Proof. unfold reap. cbv zeta. by destruct (_ >? 0). Qed.

Lemma RemoveRoutes_frame y b : let b' := _RemoveRoutes y b in
  pr b' = pr b /\ fRoutesInstalled (rt b') = false /\ th b' = th b /\ queue b' = queue b /\ fTunInterface b' = fTunInterface b /\ fState b' = fState b.
Proof.
  cbv zeta. unfold _RemoveRoutes. destruct (fRoutesInstalled (rt b)) eqn:E; cbn [negb]; [|done]. cbv zeta. unfold _RemoveSessionFile. by destruct (s_path y).
Qed.

Lemma delete_tun_same y b : pr (delete_tun y b) = pr b /\ rt (delete_tun y b) = rt b /\ th (delete_tun y b) = th b /\ queue (delete_tun y b) = queue b
  /\ fState (delete_tun y b) = fState b.
Proof. unfold delete_tun. by destruct (_ >? 0). Qed.

Lemma RemovePassword_same b : let b' := _RemoveMgmtPasswordFile b in
  pr b' = set_password [] [] (pr b) /\ rt b' = rt b /\ th b' = th b /\ queue b' = queue b /\ fState b' = fState b
  /\ fTunInterface b' = fTunInterface b /\ cmds (hst b') = cmds (hst b) /\ fAuthUsername b' = fAuthUsername b /\ fAuthPassword b' = fAuthPassword b.
Proof.
  cbv zeta. unfold _RemoveMgmtPasswordFile. cbv zeta. destruct (Z.gtb_spec (zlen (fMgmtPasswordFile (pr b))) 0) as [H|H]; [done|].
  pose proof (zlen_nonneg (fMgmtPasswordFile (pr b))). assert (E : fMgmtPasswordFile (pr b) = []) by (apply zlen_0_nil; lia). by rewrite E.
Qed.

Definition down (p : proc) : Prop :=
  fPid p <= 0 /\ fSocket p = false /\ fStderrFd p = false /\ fReader p <= 0 /\ fStderrReader p <= 0 /\ fMgmtPoll p = false
  /\ fMgmtPassword p = [] /\ fMgmtPasswordFile p = [].

(** Nothing of the process is left; the state is for the caller to set. *)
Lemma Cleanup_down y b : let b' := _Cleanup y b in
  down (pr b') /\ fRoutesInstalled (rt b') = false /\ fTunInterface b' = [] /\ fAuthUsername b' = [] /\ fAuthPassword b' = [].
Proof.
  cbv zeta. unfold _Cleanup. set (b1 := close_descriptors (_StopMgmtPoll b)).
  assert (P1 : fSocket (pr b1) = false /\ fStderrFd (pr b1) = false /\ fMgmtPoll (pr b1) = false) by done. clearbody b1.
  pose proof (join_reader_pr b1) as P2. set (b2 := join_reader b1) in *. clearbody b2.
  pose proof (join_scanner_pr b2) as P3. set (b3 := join_scanner b2) in *. clearbody b3.
  destruct (reap_same y b3) as (P4 & _). set (b4 := reap y b3) in *. clearbody b4.
  destruct (RemoveRoutes_frame y b4) as (P5 & R5 & _). set (b5 := _RemoveRoutes y b4) in *. clearbody b5.
  destruct (delete_tun_same y b5) as (P6 & R6 & _). set (b6 := delete_tun y b5) in *. clearbody b6.
  destruct (RemovePassword_same (forget b6)) as (P7 & R7 & _ & _ & _ & T7 & _ & U7 & W7).
  rewrite R7, T7, U7, W7, P7. change (pr (forget b6)) with (pr b6). change (rt (forget b6)) with (rt b6). rewrite P6, R6, P5, R5, P4, P3, P2.
  split; [|done]. destruct P1 as (E1 & E2 & E3). unfold down.
  destruct (Z.gtb_spec (fReader (pr b1)) 0); cbn [set_reader fStderrReader];
    (destruct (Z.gtb_spec (fStderrReader (pr b1)) 0)); cbn [set_reader set_scanner fPid];
    (destruct (Z.gtb_spec (fPid (pr b1)) 0)); cbn; rewrite E1, E2, E3; split_and!; try done; lia.
Qed.

(** ** The wait for the management port *)

Lemma Cleanup_poll y b : fMgmtPoll (pr (_Cleanup y b)) = false.
Proof. destruct (Cleanup_down y b) as [(_ & _ & _ & _ & _ & D & _) _]. exact D. Qed.

Lemma SetState_pr s d b : pr (_SetState s d b) = pr b.
Proof. reflexivity. Qed.

Lemma fail_pr y d b : pr (fail y d b) = pr (_Cleanup y b).
Proof. unfold fail. apply SetState_pr. Qed.

Lemma fail_poll y d b : fMgmtPoll (pr (fail y d b)) = false.
Proof. rewrite fail_pr. apply Cleanup_poll. Qed.

Definition is_connect (e : input) : bool := match e with EvConnect _ _ => true | _ => false end.

(** A message that makes the backend try the port. *)
Definition is_probe (b : ovpn) (e : input) : bool :=
  match e, queue b with EvDeliver _, TryMgmtConnect :: _ => fMgmtPoll (pr b) | _, _ => false end.

Fixpoint probes (es : list input) (b : ovpn) : Z :=
  match es with
  | [] => 0
  | e :: es => (if is_probe b e then 1 else 0) + probes es (step b e)
  end.

Definition polling (b : ovpn) : Prop := fMgmtPoll (pr b) = true -> 0 <= fMgmtAttempt (pr b) < kMgmtConnectAttempts.
Definition left_ (b : ovpn) : Z := if fMgmtPoll (pr b) then kMgmtConnectAttempts - fMgmtAttempt (pr b) else 0.

Lemma StartReader_poll y b : fMgmtPoll (pr b) = false -> fMgmtPoll (pr (_StartReader y b)) = false.
Proof. intros E. unfold _StartReader. destruct (s_reader y); [exact E|apply fail_poll]. Qed.

Lemma SendAll_core cs b : core (fold_left (fun b c => _SendCommand (bs c) b) cs b) = core b
  /\ th (fold_left (fun b c => _SendCommand (bs c) b) cs b) = th b /\ queue (fold_left (fun b c => _SendCommand (bs c) b) cs b) = queue b.
Proof.
  revert b. induction cs as [|c cs IH]; intros b; [done|]. cbn [fold_left]. destruct (IH (_SendCommand (bs c) b)) as (E1 & E2 & E3).
  destruct (SendCommand_core (bs c) b) as (F1 & F2 & F3). by rewrite E1, E2, E3.
Qed.

Lemma core_pr b b' : core b = core b' -> pr b = pr b'.
Proof. by intros [= E]. Qed.

Lemma OnMgmtConnected_poll y b : fMgmtPoll (pr b) = false -> fMgmtPoll (pr (_OnMgmtConnected y b)) = false.
Proof.
  intros E. unfold _OnMgmtConnected. cbv zeta. apply StartReader_poll. destruct (SendAll_core ["state on"; "bytecount 1"; "hold off"; "hold release"]%string (_SendCommand (fMgmtPassword (pr b)) b)) as [C _].
  apply core_pr in C. rewrite C. destruct (SendCommand_core (fMgmtPassword (pr b)) b) as [C2 _]. apply core_pr in C2. by rewrite C2.
Qed.

(** A probe ends the wait or uses up one attempt. *)
Lemma probe_progress y b : fMgmtPoll (pr b) = true -> polling b ->
  fMgmtPoll (pr (_TryMgmtConnect y b)) = false
  \/ (fMgmtPoll (pr (_TryMgmtConnect y b)) = true /\ fMgmtAttempt (pr (_TryMgmtConnect y b)) = fMgmtAttempt (pr b) + 1
      /\ fMgmtAttempt (pr b) + 1 < kMgmtConnectAttempts).
Proof.
  intros E Hp. unfold _TryMgmtConnect. rewrite E. cbn [negb]. destruct (fStopRequested b); [left; rewrite SetState_pr; apply Cleanup_poll|].
  destruct (s_reaped y); [left; apply fail_poll|]. destruct (s_connect y); [left; by apply OnMgmtConnected_poll|]. cbv zeta.
  cbn [pr with_pr set_poll fMgmtAttempt]. rewrite Z.geb_leb. destruct (Z.leb_spec kMgmtConnectAttempts (fMgmtAttempt (pr b) + 1)); [left; apply fail_poll|].
  right. cbn. lia.
Qed.

Lemma TryMgmtConnect_off y b : fMgmtPoll (pr b) = false -> _TryMgmtConnect y b = b.
Proof. intros E. unfold _TryMgmtConnect. by rewrite E. Qed.

Lemma CreatePassword_poll y b : fMgmtPoll (pr (snd (_CreateMgmtPasswordFile y b))) = fMgmtPoll (pr b)
  /\ fMgmtAttempt (pr (snd (_CreateMgmtPasswordFile y b))) = fMgmtAttempt (pr b).
Proof. unfold _CreateMgmtPasswordFile. cbv zeta. destruct (s_mkstemp y); [|done]. by destruct (s_write y). Qed.

Lemma SpawnOpenVPN_poll y b : fMgmtPoll (pr (snd (_SpawnOpenVPN y b))) = fMgmtPoll (pr b)
  /\ fMgmtAttempt (pr (snd (_SpawnOpenVPN y b))) = fMgmtAttempt (pr b).
Proof.
  unfold _SpawnOpenVPN. cbv zeta. pose proof (CreatePassword_poll y (with_pr (set_port (kMgmtPortBase + Z.rem (s_rand y) kMgmtPortSpread) (pr b)) b)) as H.
  destruct (_CreateMgmtPasswordFile _ _) as [[] b1]; [|exact H]. destruct (negb _); [exact H|]. by destruct (s_spawn y).
Qed.

Lemma Connect_poll y p b : polling b -> polling (snd (Connect y p b)).
Proof.
  intros Hb. unfold Connect. destruct (_ && _); [done|]. destruct (_ =? 0); [done|]. cbv zeta.
  destruct (ProbeFreeSlot _ _) as [[[iface node]|] cs]; [|done].
  match goal with |- context [_SpawnOpenVPN y ?x] => pose proof (SpawnOpenVPN_poll y x) as H; destruct (_SpawnOpenVPN y x) as [[] b2] end.
  - intros E. cbn [snd] in *. unfold _BeginMgmtConnect in *. cbv zeta in *. destruct (negb (s_runner y)) eqn:Er; [|done].
    exfalso. by rewrite fail_poll in E.
  - intros E. cbn in *. destruct H as [H1 H2]. rewrite H1 in E. rewrite H2. by apply Hb.
Qed.

Lemma step_polling b e : polling b -> polling (step b e) /\ (is_connect e = false -> left_ (step b e) + (if is_probe b e then 1 else 0) <= left_ b).
Proof.
  intros Hb. assert (Same : forall b', fMgmtPoll (pr b') = false \/ pr b' = pr b -> polling b' /\ left_ b' <= left_ b).
  { intros b' [E|E]; unfold polling, left_; rewrite E; [split; [done|]|split; [exact Hb|lia]].
    destruct (fMgmtPoll (pr b)) eqn:Ep; [specialize (Hb Ep)|]; lia. }
  destruct e as [y p| |u p|y| |y|id got|id got]; cbn [step is_probe is_connect].
  - split; [by apply Connect_poll|done].
  - destruct (Same (Disconnect b)) as [S1 S2]; [|split; [done|intros; lia]]. right. unfold Disconnect. destruct (_ =? _); [done|]. cbv zeta.
    destruct (fSocket _); [|by destruct (_ >? 0)]. exact (core_pr _ _ (proj1 (SendCommand_core _ (with_stop true b)))).
  - split; [exact Hb|]. intros _. unfold left_. cbn. lia.
  - destruct (Same (RecoverIfCrashed y b)) as [S1 S2]; [|split; [done|intros; lia]]. right. unfold RecoverIfCrashed.
    destruct (negb (s_path y)); [done|]. destruct (session (hst b)) as [file|]; [|done]. destruct (negb (s_open y)); [done|]. destruct file; [|done]. cbv zeta. by destruct (_ && _).
  - destruct (fMgmtPoll (pr b)); (split; [exact Hb|]; intros _; unfold left_; cbn; lia).
  - destruct (queue b) as [|m q]; [split; [done|intros; lia]|]. set (c := with_queue q b). destruct m as [ev| |]; cbn [MessageReceived].
    + destruct (Same (_HandleManagementEvent y ev c)) as [S1 S2]; [right; exact (proj1 (event_same y ev c))|]. split; [done|intros; lia].
    + destruct (fMgmtPoll (pr b)) eqn:Ep.
      * pose proof (Hb Ep) as Hr. destruct (probe_progress y c Ep Hb) as [E|(E & Ea & El)]; unfold polling, left_; rewrite E, Ep.
        -- split; [done|]. intros _. lia.
        -- change (fMgmtAttempt (pr c)) with (fMgmtAttempt (pr b)) in *. rewrite Ea. split; [|lia]. intros _. lia.
      * rewrite TryMgmtConnect_off by done. split; [exact Hb|]. intros _. unfold left_. cbn. lia.
    + destruct (Same (let b := _Cleanup y c in if fState b =? VPN_STATE_ERROR then b else _SetState VPN_STATE_DISCONNECTED None b)) as [S1 S2]; [|cbv zeta in *; split; [exact S1|intros _; rewrite Z.add_0_r; exact S2]].
      left. cbv zeta. destruct (_ =? _); rewrite ?SetState_pr; apply Cleanup_poll.
  - destruct (Same (_RunReaderLoop id got b)) as [S1 S2]; [right; apply core_pr, reader_core|split; [done|intros; lia]].
  - destruct (Same (_RunStderrLoop id got b)) as [S1 S2]; [right; exact (proj1 (scanner_same id got b))|split; [done|intros; lia]].
Qed.

Lemma steps_polling es b : polling b -> polling (steps es b)
  /\ (forallb (fun e => negb (is_connect e)) es = true -> left_ (steps es b) + probes es b <= left_ b).
Proof.
  revert b. induction es as [|e es IH]; intros b Hb; [split; [done|]; intros _; cbn; lia|]. destruct (step_polling b e Hb) as [S1 S2].
  destruct (IH _ S1) as [I1 I2]. change (steps (e :: es) b) with (steps es (step b e)). split; [done|]. cbn [forallb probes].
  intros [H1 H2]%andb_true_iff. apply negb_true_iff in H1. specialize (S2 H1). specialize (I2 H2). lia.
Qed.

(** Connecting cannot go on for ever: between two connection requests, however the runner's ticks, openvpn's output and other requests interleave, at most fifty messages make the backend try the management port, the fiftieth ends the wait, and after a disconnect request the first one ends it, with everything released and the state Disconnected. *)
Theorem connecting_ends h es0 es :
  forallb (fun e => negb (is_connect e)) es = true ->
  let b := steps es0 (OpenVPNBackend h) in
  probes es b <= 50 /\ (probes es b = 50 -> fMgmtPoll (pr (steps es b)) = false)
  /\ (forall y q, queue b = TryMgmtConnect :: q -> fMgmtPoll (pr b) = true -> fStopRequested b = true ->
        let b' := step b (EvDeliver y) in down (pr b') /\ fState b' = VPN_STATE_DISCONNECTED).
Proof.
  intros Hes. cbv zeta. destruct (steps_polling es0 (OpenVPNBackend h)) as [P0 _]; [done|]. set (b := steps es0 _) in *.
  destruct (steps_polling es b P0) as [P1 L]. specialize (L Hes).
  assert (B : 0 <= left_ (steps es b) /\ left_ b <= 50).
  { unfold left_, polling, kMgmtConnectAttempts in *.
    destruct (fMgmtPoll (pr b)) eqn:E0, (fMgmtPoll (pr (steps es b))) eqn:E1; try specialize (P0 eq_refl); try specialize (P1 eq_refl); lia. }
  split; [lia|]. split.
  - intros E. destruct (fMgmtPoll (pr (steps es b))) eqn:Ep; [|done]. specialize (P1 Ep).
    assert (1 <= left_ (steps es b)) by (unfold left_; rewrite Ep; lia). lia.
  - intros y q Hq Hp Hs. cbn [step]. rewrite Hq. cbn [MessageReceived]. unfold _TryMgmtConnect. cbn [pr fStopRequested with_queue]. rewrite Hp, Hs. cbn [negb].
    rewrite SetState_pr. split; [exact (proj1 (Cleanup_down y _))|reflexivity].
Qed.

(** ** Failing requests *)

(** In the error state, with a reason reported last and nothing started. *)
Definition refused (b b' : ovpn) : Prop :=
  fState b' = VPN_STATE_ERROR /\ (exists detail, List.last (notices b') (StatsChanged VPNStats.Reset) = StateChanged VPN_STATE_ERROR (Some detail))
  /\ children (hst b') = children (hst b) /\ th b' = th b /\ fPid (pr b') = fPid (pr b).

(** openvpn runs and the backend waits for it, or the wait could not start and
    everything is released. *)
Definition started (y : sys) (b b' : ovpn) : Prop :=
  exists pid, s_spawn y = Some pid
    /\ ((fState b' = VPN_STATE_CONNECTING /\ fMgmtPoll (pr b') = true /\ fPid (pr b') = Z.pos pid /\ queue b' = queue b ++ [TryMgmtConnect])
        \/ (fState b' = VPN_STATE_ERROR /\ down (pr b'))).

Lemma refused_by d b c :
  children (hst c) = children (hst b) -> th c = th b -> fPid (pr c) = fPid (pr b) ->
  refused b (_SetState VPN_STATE_ERROR (Some d) c).
Proof. intros H1 H2 H3. split; [done|]. split; [|done]. exists d. cbn. by rewrite List.last_last. Qed.


End OvpnBackendProofs.
