(* ===== verification/OvpnSession.v ===== *)
(** * OvpnSession: an OpenVPN session from its start to its end (proofs about OvpnBackend.v)

    Runs in which a connection is requested only once the reader thread of the
    one before is gone keep one of three shapes: idle, waiting for the
    management port, running.  In them the routes a session changes are put
    back, by the backend when the session ends and by the next daemon when
    this one dies.  The backend does not refuse the other runs. *)

From S2P Require Import Prelude CLib Routes Message Profiles Configs Tun OvpnMgmt Daemon OvpnBackend OvpnBackendProofs.
Import Message VPNProtocol VPNState TunDevice.
Open Scope Z_scope.
Open Scope soto_scope.

Module OvpnSession.
Import OpenVPNManagement OvpnBackend OvpnBackendProofs.

(** ** One session at a time *)

Definition probe_msg (m : posted) : Prop := m = TryMgmtConnect.
Definition not_exit (m : posted) : Prop := m <> ReaderExited.

Definition scan_ok (b : ovpn) : Prop :=
  scanners (th b) = [] \/ exists l, scanners (th b) = [(fStderrReader (pr b), l)] /\ 0 < fStderrReader (pr b).

(** Nothing of a session is left. *)
Definition idle (b : ovpn) : Prop :=
  fMgmtPoll (pr b) = false /\ fReader (pr b) <= 0 /\ th b = mkThreads [] [] /\ fRoutesInstalled (rt b) = false /\ Forall probe_msg (queue b).

(** Waiting for the management port. *)
Definition waiting (b : ovpn) : Prop :=
  fMgmtPoll (pr b) = true /\ fReader (pr b) <= 0 /\ readers (th b) = [] /\ scan_ok b /\ fRoutesInstalled (rt b) = false
  /\ Forall probe_msg (queue b) /\ fState b = VPN_STATE_CONNECTING /\ 0 < zlen (fTunInterface b).

(** Connected to openvpn, the reader running or its last message queued. *)
Definition running (b : ovpn) : Prop :=
  fMgmtPoll (pr b) = false /\ 0 < fReader (pr b) /\ scan_ok b /\ 0 < zlen (fTunInterface b)
  /\ ((readers (th b) = [fReader (pr b)] /\ Forall not_exit (queue b))
      \/ (readers (th b) = [] /\ exists q1 q2, queue b = q1 ++ ReaderExited :: q2 /\ Forall not_exit q1 /\ Forall probe_msg q2)).

Definition wf (b : ovpn) : Prop := idle b \/ waiting b \/ running b.

(** Runs in which a connection is only requested once the reader of the one
    before has been joined. *)
Fixpoint serial (es : list input) (b : ovpn) : Prop :=
  match es with
  | [] => True
  | e :: es => (is_connect e = true -> fReader (pr b) <= 0) /\ serial es (step b e)
  end.

Lemma probe_not_exit q : Forall probe_msg q -> Forall not_exit q.
Proof. intros H. eapply Forall_impl; [exact H|]. by intros m ->. Qed.

Lemma no_scanner b id : scanners (th b) = [] -> scanner_line id (th b) = None.
Proof. unfold scanner_line. by intros ->. Qed.

Lemma join_reader_none b : readers (th b) = [] -> th (join_reader b) = th b /\ queue (join_reader b) = queue b /\ fState (join_reader b) = fState b
  /\ rt (join_reader b) = rt b /\ sc (join_reader b) = sc b /\ fTunInterface (join_reader b) = fTunInterface b /\ hst (join_reader b) = hst b.
Proof.
  intros E. unfold join_reader. cbv zeta. destruct (_ >? 0); [|done]. unfold _RunReaderLoop. rewrite E.
  rewrite bool_decide_eq_false_2 by apply not_elem_of_nil. done.
Qed.

Lemma join_scanner_ok b : scan_ok b -> readers (th b) = [] -> th (join_scanner b) = mkThreads [] [].
Proof.
  intros [E|(l & E & H)] Hr; unfold join_scanner; cbv zeta; destruct (th b) as [rs ss] eqn:Et; cbn [readers scanners] in *; subst.
  - destruct (_ >? 0); [|by rewrite Et]. unfold _RunStderrLoop. rewrite no_scanner by (by rewrite Et). cbn. by rewrite Et.
  - destruct (Z.gtb_spec (fStderrReader (pr b)) 0); [|lia]. unfold _RunStderrLoop, scanner_line. rewrite Et. cbn [scanners List.find fst]. rewrite Z.eqb_refl.
    cbn [fmap option_fmap option_map snd]. assert (D : drop_scanner (fStderrReader (pr b)) (mkThreads [] [(fStderrReader (pr b), l)]) = mkThreads [] []).
    { unfold drop_scanner. cbn [scanners List.filter fst readers]. by rewrite Z.eqb_refl. }
    destruct (fStderrFd (pr b)); unfold scanner_exits; cbv zeta; (destruct (zlen l =? 0); cbn [th with_pr with_th with_sc]; by rewrite Et, D).
Qed.

Lemma join_scanner_same b : queue (join_scanner b) = queue b /\ fState (join_scanner b) = fState b /\ rt (join_scanner b) = rt b
  /\ fTunInterface (join_scanner b) = fTunInterface b /\ hst (join_scanner b) = hst b.
Proof.
  unfold join_scanner. cbv zeta. destruct (_ >? 0); [|done]. destruct (scanner_same (fStderrReader (pr b)) None b) as (_ & E2 & E3 & E4 & _ & E6 & E7 & _).
  cbn [queue fState rt fTunInterface hst with_pr]. by rewrite E2, E3, E4, E6, E7.
Qed.

(** With no reader running, cleaning up ends in the idle state. *)
Lemma Cleanup_ends y b : readers (th b) = [] -> scan_ok b ->
  th (_Cleanup y b) = mkThreads [] [] /\ queue (_Cleanup y b) = queue b /\ fState (_Cleanup y b) = fState b.
Proof.
  intros Hr Hs. unfold _Cleanup. set (b1 := close_descriptors (_StopMgmtPoll b)).
  assert (F1 : readers (th b1) = [] /\ scan_ok b1 /\ queue b1 = queue b /\ fState b1 = fState b) by done. clearbody b1.
  destruct F1 as (R1 & S1 & Q1 & T1). destruct (join_reader_none b1 R1) as (J1 & J2 & J3 & _). pose proof (join_reader_pr b1) as J4.
  set (b2 := join_reader b1) in *. clearbody b2. assert (S2 : scan_ok b2).
  { unfold scan_ok in *. rewrite J1, J4. by destruct (_ >? 0). }
  pose proof (join_scanner_ok b2 S2 ltac:(by rewrite J1)) as K1. destruct (join_scanner_same b2) as (K2 & K3 & _).
  set (b3 := join_scanner b2) in *. clearbody b3. destruct (reap_same y b3) as (_ & _ & _ & L1 & L2 & _ & _ & L3 & _).
  set (b4 := reap y b3) in *. clearbody b4. destruct (RemoveRoutes_frame y b4) as (_ & _ & M1 & M2 & _ & M3). set (b5 := _RemoveRoutes y b4) in *. clearbody b5.
  destruct (delete_tun_same y b5) as (_ & _ & N1 & N2 & N3). set (b6 := delete_tun y b5) in *. clearbody b6.
  destruct (RemovePassword_same (forget b6)) as (_ & _ & O1 & O2 & O3 & _). rewrite O1, O2, O3.
  change (th (forget b6)) with (th b6). change (queue (forget b6)) with (queue b6). change (fState (forget b6)) with (fState b6).
  rewrite N1, N2, N3, M1, M2, M3, L1, L2, L3, K1, K2, K3, J2, J3. done.
Qed.

Lemma Cleanup_idle_q y b : readers (th b) = [] -> scan_ok b -> Forall probe_msg (queue b) -> idle (_Cleanup y b).
Proof.
  intros Hr Hs Hq. destruct (Cleanup_ends y b Hr Hs) as (E1 & E2 & _). destruct (Cleanup_down y b) as ((_ & _ & _ & D4 & _ & D6 & _) & R & _).
  unfold idle. rewrite E1, E2, R. done.
Qed.

Lemma SetState_idle_q s d b : idle b -> idle (_SetState s d b).
Proof. done. Qed.

Lemma fail_idle y d b : readers (th b) = [] -> scan_ok b -> Forall probe_msg (queue b) -> idle (fail y d b).
Proof. intros Hr Hs Hq. apply SetState_idle_q. by apply Cleanup_idle_q. Qed.

Lemma StartReader_wf y b : fMgmtPoll (pr b) = false -> readers (th b) = [] -> scan_ok b -> Forall probe_msg (queue b) -> 0 < zlen (fTunInterface b) ->
  wf (_StartReader y b).
Proof.
  intros Hp Hr Hs Hq Ht. unfold _StartReader. destruct (s_reader y) as [id|]; [|left; by apply fail_idle].
  right. right. unfold running. cbn [pr th queue fTunInterface with_th with_pr set_reader fMgmtPoll fReader readers]. split; [done|]. split; [lia|].
  split; [exact Hs|]. split; [done|]. left. rewrite Hr. split; [done|]. by apply probe_not_exit.
Qed.

Lemma TryMgmtConnect_wf y b : wf b -> wf (_TryMgmtConnect y b).
Proof.
  intros Hb. destruct Hb as [Hi|[Hw|Hr]]; [rewrite TryMgmtConnect_off by apply Hi; by left| |rewrite TryMgmtConnect_off by apply Hr; right; by right].
  destruct Hw as (W1 & W2 & W3 & W4 & W5 & W6 & W7 & W8). unfold _TryMgmtConnect. rewrite W1. cbn [negb].
  destruct (fStopRequested b); [left; apply SetState_idle_q; by apply Cleanup_idle_q|]. destruct (s_reaped y); [left; by apply fail_idle|].
  destruct (s_connect y).
  - unfold _OnMgmtConnected. set (b1 := _StopMgmtPoll _). set (b2 := _SendCommand _ b1).
    destruct (SendAll_core ["state on"; "bytecount 1"; "hold off"; "hold release"]%string b2) as (C1 & C2 & C3).
    destruct (SendCommand_core (fMgmtPassword (pr b1)) b1) as (D1 & D2 & D3). fold b2 in D1, D2, D3.
    generalize dependent (fold_left (fun b c => _SendCommand (bs c) b) ["state on"; "bytecount 1"; "hold off"; "hold release"]%string b2).
    intros b3 C1 C2 C3. rewrite D1 in C1. rewrite D2 in C2. rewrite D3 in C3. injection C1 as E1 _ _ E4 _ _ _ _.
    apply StartReader_wf; unfold scan_ok; rewrite ?E1, ?C2, ?C3, ?E4; done.
  - cbv zeta. destruct (_ >=? _); [left; by apply fail_idle|]. right. left. done.
Qed.

Lemma probe_names cs f : match fst (ProbeFreeSlot f cs) with Some (iface, _) => 0 < zlen iface /\ cstr iface = iface | None => True end.
Proof.
  unfold ProbeFreeSlot. assert (H : forall n slot cs, 0 <= slot -> slot + Z.of_nat n <= 8 ->
    match fst (probe f n slot cs) with Some (iface, _) => 0 < zlen iface /\ cstr iface = iface | None => True end).
  { induction n as [|n IH]; intros slot cs0 H1 H2; cbn [probe]; [done|]. cbv zeta. cbn [RunIfconfig]. destruct (f _); cbn [fst]; [|apply IH; lia].
    assert (E : slot = 0 \/ slot = 1 \/ slot = 2 \/ slot = 3 \/ slot = 4 \/ slot = 5 \/ slot = 6 \/ slot = 7) by lia.
    destruct E as [->|[->|[->|[->|[->|[->|[->| ->]]]]]]]; vm_compute; done. }
  apply H; lia.
Qed.

Lemma Connect_shape y p b : wf b -> fReader (pr b) <= 0 -> wf (snd (Connect y p b)).
Proof.
  intros Hb Hr. unfold Connect. destruct (_ && _) eqn:Es; [done|].
  destruct Hb as [Hi|[Hw|(_ & H & _)]]; [| |lia].
  2: { destruct Hw as (_ & _ & _ & _ & _ & _ & E & _). rewrite E in Es. discriminate. }
  destruct (_ =? 0); [by left|]. cbv zeta. assert (Hb : idle (begin_connect p b) /\ fState (begin_connect p b) = VPN_STATE_CONNECTING) by done.
  generalize dependent (begin_connect p b). intros b1 [H1 Hst]. pose proof (probe_names (cmds (hst b1)) (s_ifconfig y)) as Hn.
  destruct (ProbeFreeSlot _ _) as [[[iface node]|] cs]; [|by left]. cbn [fst] in Hn. destruct Hn as [Hn _].
  assert (F : forall ok b2, _SpawnOpenVPN y (with_tun iface node (with_cmds cs b1)) = (ok, b2) -> idle b2 /\ fState b2 = VPN_STATE_CONNECTING /\ fTunInterface b2 = iface
    /\ fReader (pr b2) <= 0).
  { intros ok b2. unfold _SpawnOpenVPN, _CreateMgmtPasswordFile. cbv zeta. destruct H1 as (I1 & I2 & I3 & I4 & I5).
    destruct (s_mkstemp y) as [?|]; [destruct (s_write y); [destruct (negb (s_pipe y)); [|destruct (s_spawn y)]|]|]; intros [= <- <-]; (split; [|done]); split_and!; done. }
  destruct (_SpawnOpenVPN _ _) as [[] b2]; destruct (F _ _ eq_refl) as (F1 & F2 & F3 & F4); [|left; by apply SetState_idle_q]. clear F.
  destruct F1 as (I1 & I2 & I3 & I4 & I5). cbn [snd].
  assert (G : readers (th (_StartStderrReader y b2)) = [] /\ scan_ok (_StartStderrReader y b2) /\ queue (_StartStderrReader y b2) = queue b2
    /\ rt (_StartStderrReader y b2) = rt b2 /\ fState (_StartStderrReader y b2) = fState b2 /\ fTunInterface (_StartStderrReader y b2) = iface
    /\ fReader (pr (_StartStderrReader y b2)) <= 0).
  { unfold _StartStderrReader, scan_ok. destruct (negb (fStderrFd (pr b2))); [rewrite I3; split; [done|]; split; [by left|done]|]. destruct (s_scanner y) as [id|]; cbn [th pr with_th with_pr readers scanners queue rt fState fTunInterface set_scanner fStderrReader fReader];
      rewrite I3; cbn [readers scanners]; (split; [done|]); (split; [|done]); [right; exists []; split; [done|lia]|by left]. }
  destruct G as (G1 & G2 & G3 & G4 & G5 & G6 & G7). generalize dependent (_StartStderrReader y b2). intros b3 G1 G2 G3 G4 G5 G6 G7.
  unfold _BeginMgmtConnect. cbv zeta. destruct (s_runner y); cbn [negb].
  - right. left. unfold waiting, scan_ok in *. cbn [pr th rt queue fState fTunInterface with_queue with_pr set_poll fMgmtPoll fReader fStderrReader]. rewrite G1, G3, G4, G5, G6.
    split_and!; try done. apply Forall_app_2; [done|]. by apply Forall_singleton.
  - left. apply fail_idle; [exact G1|exact G2|]. change (Forall probe_msg (queue b3)). by rewrite G3.
Qed.

Lemma scan_step_ok id got b : scan_ok b -> scan_ok (_RunStderrLoop id got b).
Proof.
  intros Hs. unfold scan_ok. destruct (scanner_same id got b) as (E & _). cbv zeta in E. rewrite E. unfold _RunStderrLoop.
  destruct Hs as [Hs|(l & Hs & Hp)]; [rewrite no_scanner by done; by left|]. unfold scanner_line. rewrite Hs. cbn [List.find fst].
  destruct (Z.eqb_spec (fStderrReader (pr b)) id) as [<-|Hne]; cbn [fmap option_fmap option_map snd]; [|right; by exists l].
  assert (D : scanners (drop_scanner (fStderrReader (pr b)) (th b)) = []) by (unfold drop_scanner; cbn [scanners]; rewrite Hs; cbn; by rewrite Z.eqb_refl).
  assert (X : scanners (th (scanner_exits (fStderrReader (pr b)) l b)) = []) by (unfold scanner_exits; cbv zeta; by destruct (zlen l =? 0)).
  destruct (if fStderrFd (pr b) then got else None) as [[|c data]|]; [by left| |by left]. destruct (scan_bytes _ _ _) as [line s]. right. exists line.
  cbn [th with_sc with_th scanners]. by rewrite D.
Qed.

Lemma reader_shape id got b : wf b -> wf (_RunReaderLoop id got b).
Proof.
  intros Hb. pose proof (reader_core id got b) as C. injection C as E1 E2 _ E4 E5 _ _ _.
  destruct (decide (id ∈ readers (th b))) as [Hid|Hid]; cycle 1.
  { unfold _RunReaderLoop. by rewrite bool_decide_eq_false_2. }
  destruct Hb as [(_ & _ & E & _)|[(_ & _ & E & _)|(R1 & R2 & R3 & R4 & [[R5 R6]|[R5 _]])]];
    [by rewrite E in Hid; apply elem_of_nil in Hid|by rewrite E in Hid; apply elem_of_nil in Hid| |by rewrite R5 in Hid; apply elem_of_nil in Hid].
  right. right. unfold running, scan_ok in *. rewrite E1, E4. unfold _RunReaderLoop. rewrite bool_decide_eq_true_2 by done. cbn [negb].
  rewrite R5 in Hid. apply list_elem_of_singleton in Hid. subst id.
  destruct (if fSocket (pr b) then got else None) as [[|c chunk]|]; cycle 1.
  { destruct (Feed _ _) as [events buffer]. destruct (handle_events_core events (with_buffer buffer b)) as (q & Hq & _ & E6 & E7).
    rewrite E6, E7. cbn [th queue with_buffer]. split_and!; try done. left. split; [done|]. apply Forall_app_2; [done|].
    eapply Forall_impl; [exact Hq|]. by intros []. }
  all: cbn [th queue reader_exits with_queue with_th drop_reader readers scanners]; rewrite R5; cbn [List.filter]; rewrite Z.eqb_refl; cbn [negb];
    split_and!; try done; right; split; [done|]; exists (queue b), []; done.
Qed.

Lemma event_scan_ok y e b : scan_ok b -> scan_ok (_HandleManagementEvent y e b).
Proof.
  apply (event_keep scan_ok); [|intros; by apply scan_step_ok|done].
  unfold scan_ok. by intros b1 b2 -> ->.
Qed.

Lemma event_wf y e q b : wf b -> queue b = InternalEvent e :: q -> running b /\ running (_HandleManagementEvent y e (with_queue q b)).
Proof.
  intros Hb Hq. destruct Hb as [(_ & _ & _ & _ & H)|[(_ & _ & _ & _ & _ & H & _)|R]];
    [rewrite Hq in H; apply Forall_cons in H as [H _]; discriminate H|rewrite Hq in H; apply Forall_cons in H as [H _]; discriminate H|].
  split; [exact R|]. destruct R as (R1 & R2 & R3 & R4 & R5). destruct (event_same y e (with_queue q b)) as (E1 & E2 & E3 & E4). cbv zeta in *.
  pose proof (event_scan_ok y e (with_queue q b) R3) as R3'. unfold running. rewrite E1, E2, E3, E4.
  cbn [pr th queue fTunInterface with_queue]. split_and!; try done. rewrite Hq in R5. destruct R5 as [[R5 R6]|(R5 & q1 & q2 & R6 & R7 & R8)].
  - left. split; [done|]. by apply Forall_cons in R6 as [_ R6].
  - right. split; [done|]. destruct q1 as [|m q1]; [discriminate R6|]. injection R6 as <- ->. apply Forall_cons in R7 as [_ R7]. by exists q1, q2.
Qed.

Lemma exit_wf q b : wf b -> queue b = ReaderExited :: q ->
  running b /\ readers (th b) = [] /\ scan_ok b /\ Forall probe_msg q.
Proof.
  intros Hb Hq. destruct Hb as [(_ & _ & _ & _ & H)|[(_ & _ & _ & _ & _ & H & _)|R]];
    [rewrite Hq in H; apply Forall_cons in H as [H _]; discriminate H|rewrite Hq in H; apply Forall_cons in H as [H _]; discriminate H|].
  split; [exact R|]. destruct R as (R1 & R2 & R3 & R4 & R5). rewrite Hq in R5. destruct R5 as [[_ R6]|(R5 & q1 & q2 & R6 & R7 & R8)].
  - apply Forall_cons in R6 as [R6 _]. by destruct R6.
  - destruct q1 as [|m q1]; [by injection R6 as ->|]. injection R6 as <- _. apply Forall_cons in R7 as [R7 _]. by destruct R7.
Qed.

Lemma probe_wf q b : wf b -> queue b = TryMgmtConnect :: q -> wf (with_queue q b).
Proof.
  intros Hb Hq. destruct Hb as [(I1 & I2 & I3 & I4 & I5)|[(W1 & W2 & W3 & W4 & W5 & W6 & W7 & W8)|(R1 & R2 & R3 & R4 & R5)]].
  - left. rewrite Hq in I5. apply Forall_cons in I5 as [_ I5]. split_and!; done.
  - right. left. rewrite Hq in W6. apply Forall_cons in W6 as [_ W6]. split_and!; done.
  - right. right. unfold running. cbn [pr th queue fTunInterface with_queue]. split_and!; try done. rewrite Hq in R5.
    destruct R5 as [[R5 R6]|(R5 & q1 & q2 & R6 & R7 & R8)].
    + left. by apply Forall_cons in R6 as [_ R6].
    + right. split; [done|]. destruct q1 as [|m q1]; [discriminate R6|]. injection R6 as <- ->. apply Forall_cons in R7 as [_ R7]. by exists q1, q2.
Qed.

Lemma Disconnect_frame b : let b' := Disconnect b in
  pr b' = pr b /\ th b' = th b /\ queue b' = queue b /\ rt b' = rt b /\ sc b' = sc b /\ fTunInterface b' = fTunInterface b /\ fState b' = fState b
  /\ cmds (hst b') = cmds (hst b) /\ session (hst b') = session (hst b).
Proof.
  cbv zeta. unfold Disconnect. destruct (_ =? _); [done|]. cbv zeta. destruct (fSocket _); [|by destruct (_ >? 0)].
  destruct (SendCommand_core (bs "signal SIGTERM") (with_stop true b)) as (C & D1 & D2). injection C as C1 C2 C3 C4 C5 _ C7 C8. cbn in *.
  by rewrite C1, C2, C3, C4, C5, C7, C8, D1, D2.
Qed.

Lemma wf_frame b b' : pr b' = pr b -> th b' = th b -> queue b' = queue b -> rt b' = rt b -> fTunInterface b' = fTunInterface b -> fState b' = fState b ->
  wf b -> wf b'.
Proof. intros E1 E2 E3 E4 E5 E6. unfold wf, idle, waiting, running, scan_ok. by rewrite E1, E2, E3, E4, E5, E6. Qed.

Lemma step_shape b e : wf b -> (is_connect e = true -> fReader (pr b) <= 0) -> wf (step b e).
Proof.
  intros Hb Hs. destruct e as [y p| |u p|y| |y|id got|id got]; cbn [step].
  - apply Connect_shape; [done|]. by apply Hs.
  - destruct (Disconnect_frame b) as (E1 & E2 & E3 & E4 & _ & E6 & E7 & _). by apply (wf_frame b).
  - exact Hb.
  - unfold RecoverIfCrashed. destruct (negb (s_path y)); [done|]. destruct (session (hst b)) as [file|]; [|done].
    destruct (negb (s_open y)); [done|]. destruct file; [|exact Hb]. cbv zeta. by destruct (_ && _).
  - destruct (fMgmtPoll (pr b)) eqn:Ep; [|done]. destruct Hb as [(E & _)|[(W1 & W2 & W3 & W4 & W5 & W6 & W7 & W8)|(E & _)]]; [congruence| |congruence].
    right. left. split_and!; try done. apply Forall_app_2; [done|]. by apply Forall_singleton.
  - destruct (queue b) as [|m q] eqn:Eq; [done|]. destruct m as [ev| |]; cbn [MessageReceived].
    + right. right. by apply (event_wf y ev q b).
    + apply TryMgmtConnect_wf. by apply probe_wf.
    + left. destruct (exit_wf q b Hb Eq) as (_ & Hr & Hsc & Hq). pose proof (Cleanup_idle_q y (with_queue q b) Hr Hsc Hq) as Hi.
      cbv zeta. generalize dependent (_Cleanup y (with_queue q b)). intros c Hi. destruct (_ =? _); [exact Hi|by apply SetState_idle_q].
  - by apply reader_shape.
  - destruct (scanner_same id got b) as (E1 & E2 & E3 & E4 & _ & _ & E7 & E8). cbv zeta in *. pose proof (scan_step_ok id got b) as S.
    destruct Hb as [(I1 & I2 & I3 & I4 & I5)|[(W1 & W2 & W3 & W4 & W5 & W6 & W7 & W8)|(R1 & R2 & R3 & R4 & R5)]].
    + left. unfold _RunStderrLoop. rewrite no_scanner by (by rewrite I3). split_and!; done.
    + right. left. unfold waiting. rewrite E1, E2, E3, E4, E7, E8. split_and!; try done. by apply S.
    + right. right. unfold running. rewrite E1, E3, E7, E8. split_and!; try done. by apply S.
Qed.

Lemma steps_shape es b : wf b -> serial es b -> wf (steps es b).
Proof. revert b. induction es as [|e es IH]; intros b Hb Hs; [done|]. destruct Hs as [H1 H2]. apply IH; [by apply step_shape|done]. Qed.

Lemma fresh_shape h : wf (OpenVPNBackend h).
Proof. left. split; [done|]. split; [cbn; lia|]. split; [done|]. split; [done|]. apply Forall_nil_2. Qed.

(** ** Text is C strings *)

Definition clean_text (l : bytes) : Prop := cstr l = l.
Definition clean_scan (s : scan) : Prop := clean_text (fOrigGateway s) /\ clean_text (fOrigGatewayIface s) /\ clean_text (fTunPeer s).
Definition clean_posted (m : posted) : Prop := match m with InternalEvent e => clean_text (remoteIP e) | _ => True end.
Definition clean (b : ovpn) : Prop := clean_scan (sc b) /\ clean_text (fTunInterface b) /\ Forall clean_posted (queue b).

Lemma ScanLogLine_clean l s : clean_scan s -> clean_scan (_ScanLogLine l s).
Proof.
  intros Hs. unfold _ScanLogLine. cbv zeta.
  set (s1 := if zlen (fOrigGateway s) =? 0 then _ else s). assert (H1 : clean_scan s1).
  { unfold s1. destruct (_ =? 0); [|done]. destruct (find_sub _ l) as [i|]; [|done]. destruct (_ && _); [|done].
    split; [apply cstr_cstr|]. split; [apply cstr_cstr|apply Hs]. }
  clearbody s1. destruct (find_sub _ l) as [i|]; [|done]. destruct (_ && _); [|done]. split; [apply H1|]. split; [apply H1|apply cstr_cstr].
Qed.

(** A gateway once found is kept. *)
Lemma ScanLogLine_keeps l s : 0 < zlen (fOrigGateway s) ->
  fOrigGateway (_ScanLogLine l s) = fOrigGateway s /\ fOrigGatewayIface (_ScanLogLine l s) = fOrigGatewayIface s.
Proof.
  intros Hs. unfold _ScanLogLine. cbv zeta. destruct (Z.eqb_spec (zlen (fOrigGateway s)) 0); [lia|].
  destruct (find_sub _ l) as [i|]; [|done]. by destruct (_ && _).
Qed.

Lemma scan_bytes_clean d l s : clean_scan s -> clean_scan (snd (scan_bytes d l s)).
Proof.
  revert l s. induction d as [|c d IH]; intros l s Hs; cbn [scan_bytes]; [done|].
  destruct (c =? 10); [|destruct (c =? 13); by apply IH]. apply IH. destruct (zlen l =? 0); [done|]. by apply ScanLogLine_clean.
Qed.

Lemma scan_bytes_keeps d l s : 0 < zlen (fOrigGateway s) ->
  fOrigGateway (snd (scan_bytes d l s)) = fOrigGateway s /\ fOrigGatewayIface (snd (scan_bytes d l s)) = fOrigGatewayIface s.
Proof.
  revert l s. induction d as [|c d IH]; intros l s Hs; cbn [scan_bytes]; [done|].
  destruct (c =? 10); [|destruct (c =? 13); by apply IH]. destruct (zlen l =? 0); [by apply IH|].
  destruct (ScanLogLine_keeps l s Hs) as [E1 E2]. destruct (IH [] (_ScanLogLine l s)) as [F1 F2]; [by rewrite E1|]. by rewrite F1, F2.
Qed.

Lemma scanner_sc id got b : (clean_scan (sc b) -> clean_scan (sc (_RunStderrLoop id got b)))
  /\ (0 < zlen (fOrigGateway (sc b)) -> fOrigGateway (sc (_RunStderrLoop id got b)) = fOrigGateway (sc b)
        /\ fOrigGatewayIface (sc (_RunStderrLoop id got b)) = fOrigGatewayIface (sc b)).
Proof.
  unfold _RunStderrLoop. destruct (scanner_line id (th b)) as [line|]; [|done].
  assert (X : (clean_scan (sc b) -> clean_scan (sc (scanner_exits id line b)))
    /\ (0 < zlen (fOrigGateway (sc b)) -> fOrigGateway (sc (scanner_exits id line b)) = fOrigGateway (sc b)
        /\ fOrigGatewayIface (sc (scanner_exits id line b)) = fOrigGatewayIface (sc b))).
  { unfold scanner_exits. cbv zeta. destruct (zlen line =? 0); [done|]. split; [apply ScanLogLine_clean|apply ScanLogLine_keeps]. }
  destruct (if fStderrFd (pr b) then got else None) as [[|c data]|]; [exact X| |exact X].
  pose proof (scan_bytes_clean (ztake kReaderBufferSize (c :: data)) line (sc b)) as C.
  pose proof (scan_bytes_keeps (ztake kReaderBufferSize (c :: data)) line (sc b)) as K. destruct (scan_bytes _ _ _) as [l2 s2]. by split.
Qed.

Lemma PostEvent_clean e b : clean b -> clean (_PostEvent e b).
Proof. intros (A & B & C). split; [done|]. split; [done|]. apply Forall_app_2; [done|]. apply Forall_singleton. apply cstr_cstr. Qed.

Lemma handle_events_clean es b : clean b -> clean (handle_events es b).
Proof.
  unfold handle_events. revert b. induction es as [|e es IH]; intros b Hb; [done|]. apply IH, PostEvent_clean.
  destruct (answer_core e b) as (A & _ & A3). injection A as _ _ A1 A2 _ _ _ _. unfold clean. by rewrite A1, A2, A3.
Qed.

Lemma reader_clean id got b : clean b -> clean (_RunReaderLoop id got b).
Proof.
  intros Hb. unfold _RunReaderLoop. destruct (negb _); [done|].
  assert (X : clean (reader_exits id b)) by (destruct Hb as (A & B & C); split; [done|]; split; [done|]; apply Forall_app_2; [done|by apply Forall_singleton]).
  destruct (if fSocket (pr b) then got else None) as [[|c chunk]|]; [exact X| |exact X]. destruct (Feed _ _) as [events buffer]. by apply handle_events_clean.
Qed.

(** Cleaning up posts the reader's message at most. *)
Lemma Cleanup_clean y b : clean b -> clean (_Cleanup y b).
Proof.
  intros Hb. assert (H : Forall clean_posted (queue (_Cleanup y b)) /\ sc (_Cleanup y b) = mkScan [] [] [] /\ fTunInterface (_Cleanup y b) = []).
  { unfold _Cleanup. set (b1 := close_descriptors (_StopMgmtPoll b)). assert (Q1 : clean b1) by exact Hb. clearbody b1.
    assert (Q2 : Forall clean_posted (queue (join_reader b1))).
    { unfold join_reader. cbv zeta. destruct (_ >? 0); [|apply Q1]. destruct (reader_clean (fReader (pr b1)) None b1 Q1) as (_ & _ & Q). exact Q. }
    set (b2 := join_reader b1) in *. clearbody b2. destruct (join_scanner_same b2) as (Q3 & _). set (b3 := join_scanner b2) in *. clearbody b3.
    destruct (reap_same y b3) as (_ & _ & _ & _ & Q4 & _). set (b4 := reap y b3) in *. clearbody b4.
    destruct (RemoveRoutes_frame y b4) as (_ & _ & _ & Q5 & _). set (b5 := _RemoveRoutes y b4) in *. clearbody b5.
    destruct (delete_tun_same y b5) as (_ & _ & _ & Q6 & _). set (b6 := delete_tun y b5) in *. clearbody b6.
    destruct (RemovePassword_same (forget b6)) as (_ & _ & _ & Q7 & _ & T7 & _). rewrite Q7, T7. change (queue (forget b6)) with (queue b6).
    rewrite Q6, Q5, Q4, Q3. split; [done|]. split; [|done]. unfold _RemoveMgmtPasswordFile. cbv zeta. by destruct (_ >? 0). }
  destruct H as (H1 & H2 & H3). unfold clean. rewrite H2, H3. done.
Qed.

Lemma SetState_clean st d b : clean b -> clean (_SetState st d b).
Proof. done. Qed.

Lemma fail_clean y d b : clean b -> clean (fail y d b).
Proof. intros Hb. unfold fail. by apply SetState_clean, Cleanup_clean. Qed.

Lemma TryMgmtConnect_clean y b : clean b -> clean (_TryMgmtConnect y b).
Proof.
  intros Hb. unfold _TryMgmtConnect. destruct (negb _); [done|]. destruct (fStopRequested b); [by apply SetState_clean, Cleanup_clean|].
  destruct (s_reaped y); [by apply fail_clean|]. destruct (s_connect y); [|cbv zeta; destruct (_ >=? _); [by apply fail_clean|done]].
  unfold _OnMgmtConnected. set (b1 := _StopMgmtPoll _). set (b2 := _SendCommand _ b1).
  destruct (SendAll_core ["state on"; "bytecount 1"; "hold off"; "hold release"]%string b2) as (C1 & C2 & C3).
  destruct (SendCommand_core (fMgmtPassword (pr b1)) b1) as (D1 & D2 & D3). fold b2 in D1, D2, D3. rewrite D1 in C1. rewrite D3 in C3.
  generalize dependent (fold_left (fun b c => _SendCommand (bs c) b) ["state on"; "bytecount 1"; "hold off"; "hold release"]%string b2).
  intros b3 C1 C2 C3. injection C1 as _ _ E3 E4 _ _ _ _. assert (H3 : clean b3) by (unfold clean; rewrite E3, E4, C3; exact Hb).
  unfold _StartReader. destruct (s_reader y); [exact H3|]. by apply fail_clean.
Qed.

Lemma event_clean y e b : clean_scan (sc b) -> clean_scan (sc (_HandleManagementEvent y e b)).
Proof.
  apply (event_keep (fun b => clean_scan (sc b))); [by intros b1 b2 _ _ -> | |].
  - intros id got c. apply scanner_sc.
  - intros l c. apply ScanLogLine_clean.
Qed.

Lemma scans_clean rs b : clean_scan (sc b) -> clean_scan (sc (scans rs b)).
Proof. apply (scans_keep (fun b => clean_scan (sc b))). intros id got c. apply scanner_sc. Qed.

(** The gateway the log named. *)
Definition carrier (gw gwi : bytes) (b : ovpn) : Prop := fOrigGateway (sc b) = gw /\ fOrigGatewayIface (sc b) = gwi.

Lemma scanner_carrier gw gwi id got b : 0 < zlen gw -> carrier gw gwi b -> carrier gw gwi (_RunStderrLoop id got b).
Proof.
  intros Hz [E1 E2]. destruct (proj2 (scanner_sc id got b)) as [F1 F2]; [by rewrite E1|]. split; congruence.
Qed.

Lemma scans_carrier gw gwi rs b : 0 < zlen gw -> carrier gw gwi b -> carrier gw gwi (scans rs b).
Proof. intros Hz. apply scans_keep. intros id got c. by apply scanner_carrier. Qed.

Lemma event_carrier gw gwi y e b : 0 < zlen gw -> carrier gw gwi b -> carrier gw gwi (_HandleManagementEvent y e b).
Proof.
  intros Hz. apply (event_keep (carrier gw gwi)); [by unfold carrier; intros b1 b2 _ _ -> | |].
  - intros id got c. by apply scanner_carrier.
  - intros l c [E1 E2]. unfold carrier. cbn [sc with_sc]. destruct (ScanLogLine_keeps l (sc c)) as [-> ->]; [by rewrite E1|]. done.
Qed.

Lemma Connect_clean y p b : clean b -> clean (snd (Connect y p b)).
Proof.
  intros Hb. unfold Connect. destruct (_ && _); [done|]. destruct (_ =? 0); [done|]. cbv zeta.
  assert (H1 : clean (begin_connect p b)) by exact Hb. generalize dependent (begin_connect p b). intros b1 (H1 & H2 & H3).
  pose proof (probe_names (cmds (hst b1)) (s_ifconfig y)) as Hn. destruct (ProbeFreeSlot _ _) as [[[iface node]|] cs]; [|done]. destruct Hn as [_ Hn].
  assert (F : clean (snd (_SpawnOpenVPN y (with_tun iface node (with_cmds cs b1))))).
  { unfold _SpawnOpenVPN, _CreateMgmtPasswordFile. cbv zeta.
    destruct (s_mkstemp y) as [?|]; [destruct (s_write y); [destruct (negb (s_pipe y)); [|destruct (s_spawn y)]|]|]; done. }
  destruct (_SpawnOpenVPN _ _) as [[] b2]; [|exact F]. cbn [snd] in *. assert (G : clean (_StartStderrReader y b2)).
  { unfold _StartStderrReader. destruct (negb _); [done|]. by destruct (s_scanner y). }
  generalize dependent (_StartStderrReader y b2). intros b3 G. unfold _BeginMgmtConnect. cbv zeta. destruct (negb (s_runner y)); [by apply fail_clean|].
  destruct G as (G1 & G2 & G3). split; [done|]. split; [done|]. apply Forall_app_2; [done|by apply Forall_singleton].
Qed.

Lemma step_clean b e : clean b -> clean (step b e).
Proof.
  intros Hb. destruct e as [y p| |u p|y| |y|id got|id got]; cbn [step].
  - by apply Connect_clean.
  - destruct (Disconnect_frame b) as (_ & _ & E3 & _ & E5 & E6 & _). unfold clean. by rewrite E3, E5, E6.
  - exact Hb.
  - unfold RecoverIfCrashed. destruct (negb (s_path y)); [done|]. destruct (session (hst b)) as [file|]; [|done].
    destruct (negb (s_open y)); [done|]. destruct file; [|exact Hb]. cbv zeta. by destruct (_ && _).
  - destruct (fMgmtPoll (pr b)); [|done]. destruct Hb as (A & B & C). split; [done|]. split; [done|]. apply Forall_app_2; [done|by apply Forall_singleton].
  - destruct (queue b) as [|m q] eqn:Eq; [done|]. assert (Hq : clean (with_queue q b)).
    { destruct Hb as (A & B & C). rewrite Eq in C. apply Forall_cons in C as [_ C]. done. }
    destruct m as [ev| |]; cbn [MessageReceived].
    + destruct (event_same y ev (with_queue q b)) as (_ & _ & E3 & E4). unfold clean. cbv zeta in *. rewrite E3, E4. split; [|apply Hq].
      apply event_clean, Hq.
    + by apply TryMgmtConnect_clean.
    + pose proof (Cleanup_clean y _ Hq) as Hc. cbv zeta. generalize dependent (_Cleanup y (with_queue q b)). intros c Hc. by destruct (_ =? _).
  - by apply reader_clean.
  - destruct (scanner_same id got b) as (_ & _ & E3 & _ & _ & _ & E7 & _). unfold clean. cbv zeta in *. rewrite E3, E7. split; [|apply Hb].
    apply (proj1 (scanner_sc id got b)), Hb.
Qed.

Lemma steps_clean es b : clean b -> clean (steps es b).
Proof. revert b. induction es as [|e es IH]; intros b Hb; [done|]. apply IH, step_clean, Hb. Qed.

Lemma fresh_clean h : clean (OpenVPNBackend h).
Proof. split; [done|]. split; [done|]. apply Forall_nil_2. Qed.

(** ** The routes of a session *)

Section WithTable.
Context {T : Type} `{RouteTableLaws T}.

Definition table (b : ovpn) (t : T) : T := run_cmds (cmds (hst b)) t.

(** The files can be written. *)
Definition disk_ok (y : sys) : Prop := s_path y = true /\ s_open y = true /\ s_flatten y = true.

(** Everything but a new connection or a daemon start. *)
Definition in_session (e : input) : Prop := match e with EvConnect _ _ | EvRecover _ => False | _ => True end.

(** The session file is written, and no log is read between the routine's
    snapshot of the harvest and its writing. *)
Definition calm (e : input) : Prop := match e with EvDeliver y => disk_ok y /\ s_during y = [] | _ => True end.

Section OneSession.
Context (tunif gw gwi server : bytes) (t0 t : T) (calmly : Prop).

(** What the host's table [t0] must be before: the gateway the log named is
    its default, and the server's pin and the tunnel's routes are new. *)
Definition fits : Prop :=
  0 < zlen tunif /\ 0 < zlen gw /\ 0 < zlen gwi /\ 0 < zlen server
  /\ entries t0 (default_of gwi gw) /\ ~ entries t0 (pin_of gwi gw server) /\ (forall x, entries t0 x -> hd [] x <> tunif).

Context (Hfits : fits).

(** The table with the tunnel's default in place of the host's. *)
Definition swapped (peer : bytes) (u : T) : Prop :=
  forall x, entries u x <-> x = default_of tunif peer \/ x = pin_of gwi gw server \/ (entries t0 x /\ x <> default_of gwi gw).

Lemma distinct peer : pin_of gwi gw server <> default_of gwi gw /\ default_of tunif peer <> default_of gwi gw
  /\ default_of tunif peer <> pin_of gwi gw server /\ ~ entries t0 (default_of tunif peer).
Proof.
  destruct Hfits as (_ & _ & _ & _ & D & _ & N). assert (Hne : gwi <> tunif) by (intros ->; by apply (N _ D)).
  split; [by intros [=]|]. split; [by intros [=]|]. split; [by intros [=]|]. intros E. by apply (N _ E).
Qed.

Lemma install_swaps cs peer : run_cmds cs t = t0 ->
  swapped peer (run_cmds (run_routes "add" [default_of tunif peer] (run_routes "delete" [default_of gwi gw] (run_routes "add" [pin_of gwi gw server] cs))) t).
Proof.
  intros E x. rewrite !run_routes_table, added, deleted, added, !list_elem_of_singleton, E. destruct (distinct peer) as (D1 & D2 & D3 & D4).
  destruct (decide (x = default_of gwi gw)) as [->|]; [|tauto]. split; [intros [?|[? _]]; [by destruct D2|done]|intros [?|[?|[_ ?]]]; [by destruct D2|by destruct D1|done]].
Qed.

Lemma refresh_swaps cs peer peer' : swapped peer (run_cmds cs t) ->
  swapped peer' (run_cmds (run_routes "add" [default_of tunif peer'] (run_routes "delete" [default_of tunif peer] cs)) t).
Proof.
  intros E x. rewrite !run_routes_table, added, deleted, !list_elem_of_singleton, (E x). destruct (distinct peer) as (D1 & D2 & D3 & D4).
  split; [intros [?|[? [?|?]]]; tauto|]. intros [?|[->|[? ?]]]; [tauto| |].
  - right. split; [by apply not_eq_sym|tauto].
  - right. split; [by intros ->|tauto].
Qed.

Lemma restore_swapped cs peer : 0 < zlen peer -> swapped peer (run_cmds cs t) ->
  same_routes (run_cmds (_ApplyRestore tunif peer gw gwi server cs) t) t0.
Proof.
  intros Hp E. unfold _ApplyRestore. cbv zeta. destruct (distinct peer) as (D1 & D2 & D3 & D4). destruct Hfits as (F1 & F2 & F3 & F4 & F5 & F6 & _).
  assert (G : forall l : bytes, 0 < zlen l -> (zlen l >? 0) = true) by (intros l Hl; rewrite Z.gtb_ltb; by apply Z.ltb_lt).
  rewrite !G by done. cbn [andb]. intros x. rewrite !run_routes_table, deleted, added, deleted, !list_elem_of_singleton, (E x).
  destruct (decide (x = pin_of gwi gw server)) as [->|]; [tauto|]. destruct (decide (x = default_of gwi gw)) as [->|]; [tauto|].
  destruct (decide (x = default_of tunif peer)) as [->|]; tauto.
Qed.

(** The session's routes are in place, and, if all was calm so far, the session
    file says so. *)
Definition steered (c : ovpn) : Prop :=
  fRoutesInstalled (rt c) = true /\ fTunInterface c = tunif /\ carrier gw gwi c
  /\ fInstalledServerIP (rt c) = server /\ 0 < zlen (fInstalledTunPeer (rt c)) /\ clean_text (fInstalledTunPeer (rt c)) /\ clean_text server
  /\ swapped (fInstalledTunPeer (rt c)) (table c t)
  /\ (calmly -> exists pid, session (hst c) = Some (Some (session_record pid tunif (fInstalledTunPeer (rt c)) gw gwi server))).

Definition up (c : ovpn) : Prop := running c /\ clean c /\ steered c.

(** The session is over and the table is as before. *)
Definition over (c : ovpn) : Prop := idle c /\ same_routes (table c t) t0.

Lemma steered_frame c c' : rt c' = rt c -> fTunInterface c' = fTunInterface c -> carrier gw gwi c' ->
  cmds (hst c') = cmds (hst c) -> session (hst c') = session (hst c) -> steered c -> steered c'.
Proof. intros E1 E2 E3 E4 E5 U. unfold steered, table in *. rewrite E1, E2, E4, E5. split_and!; try done; apply U. Qed.

Lemma up_frame c c' : rt c' = rt c -> fTunInterface c' = fTunInterface c -> carrier gw gwi c' ->
  cmds (hst c') = cmds (hst c) -> session (hst c') = session (hst c) -> running c' -> clean c' -> up c -> up c'.
Proof. intros E1 E2 E3 E4 E5 R C (_ & _ & U). split; [done|]. split; [done|]. by apply (steered_frame c). Qed.

Lemma up_carrier c : up c -> carrier gw gwi c.
Proof. intros (_ & _ & _ & _ & U & _). exact U. Qed.

Lemma ifconfig_table (b : ovpn) args ok : table (with_cmds (snd (RunIfconfig ok args (cmds (hst b)))) b) t = table b t.
Proof. unfold table, RunIfconfig. cbn [snd hst with_cmds with_hst cmds]. by rewrite run_cmds_app. Qed.

(** The end of both routines: what was installed, recorded. *)
Lemma written y c : 0 < zlen (fInstalledTunPeer (rt c)) -> fInstalledTunPeer (rt c) = fTunPeer (sc c) ->
  (calmly -> calm (EvDeliver y)) -> fRoutesInstalled (rt c) = true -> fTunInterface c = tunif -> carrier gw gwi c ->
  fInstalledServerIP (rt c) = server -> clean_scan (sc c) -> clean_text server -> swapped (fInstalledTunPeer (rt c)) (table c t) ->
  steered (_WriteSessionFile y (scans (s_during y) c)).
Proof.
  intros Hp Ep Hc Hi Ht Hg Hs (_ & _ & Hk) Hks Hw. pose proof (scans_carrier gw gwi (s_during y) c (proj1 (proj2 Hfits)) Hg) as Hg'.
  destruct (scans_same (s_during y) c) as (_ & S2 & S3 & _ & S5 & _). destruct (WriteSessionFile_same y (scans (s_during y) c)) as (_ & W2 & W3 & W4 & _ & _ & W7 & _).
  unfold steered, table, carrier. rewrite W2, W3, W4, W7, S2, S3, S5, Ep in *. split_and!; try done; [apply Hg'..|].
  intros HP. destruct (Hc HP) as [(Y1 & Y2 & Y3) Y4]. rewrite Y4. change (scans [] c) with c. unfold _WriteSessionFile. rewrite Y1, Y2, Y3. cbn [negb].
  cbv zeta. cbn [hst session with_session with_hst]. destruct Hg as [-> ->]. rewrite Ht, Hs. by eexists.
Qed.

Lemma refresh_up y c : (calmly -> calm (EvDeliver y)) -> clean_scan (sc c) -> steered c -> steered (_RefreshTunRoute y c).
Proof.
  intros Hc Hk U. unfold _RefreshTunRoute. cbv zeta. destruct (Z.eqb_spec (zlen (fTunPeer (sc c))) 0) as [|Hz]; [done|]. cbn [orb].
  destruct (beq _ _); [done|]. destruct U as (U1 & U2 & U3 & U4 & U5 & U6 & U7 & U8 & _). pose proof (zlen_nonneg (fTunPeer (sc c))).
  apply written; try done; [cbn; lia|]. unfold table. cbn [cmds hst with_rt with_cmds with_hst rt fInstalledTunPeer]. rewrite U2. by apply refresh_swaps.
Qed.

Lemma install_up y c : (calmly -> calm (EvDeliver y)) -> clean_scan (sc c) -> clean_text server -> fTunInterface c = tunif -> table c t = t0 ->
  fRoutesInstalled (rt c) = false -> let c' := _InstallRoutes y server c in
  carrier gw gwi c' -> fRoutesInstalled (rt c') = true -> steered c'.
Proof.
  intros Hc Hk Hks Ht Et Hi. cbv zeta. unfold _InstallRoutes. rewrite Hi. destruct (sc c) as [g i peer] eqn:Es.
  destruct (Z.eqb_spec (zlen g) 0) as [|Hg]; cbn [orb]; [congruence|]. destruct (Z.eqb_spec (zlen i) 0) as [|Hif]; cbn [orb]; [congruence|].
  destruct (Z.eqb_spec (zlen peer) 0) as [|Hp]; cbn [orb]; [congruence|]. destruct (Z.eqb_spec (zlen server) 0); [congruence|]. cbv zeta.
  rewrite Ht. set (c1 := with_rt _ _). intros Hca _. pose proof (zlen_nonneg g). pose proof (zlen_nonneg peer).
  assert (Hg1 : carrier g i (_WriteSessionFile y (scans (s_during y) c1))).
  { apply (write_keep (carrier g i)); [by unfold carrier; intros b1 b2 _ _ -> |]. apply scans_carrier; [lia|]. unfold carrier. cbn [c1 sc with_rt with_cmds with_hst]. by rewrite Es. }
  destruct Hca as [E1 E2]. destruct Hg1 as [F1 F2]. assert (g = gw) as -> by congruence. assert (i = gwi) as -> by congruence.
  assert (K : sc c1 = mkScan gw gwi peer) by exact Es.
  apply written; try done; rewrite ?K; try done; [cbn; lia|by unfold carrier; rewrite K|].
  unfold table. cbn [c1 cmds hst with_rt with_cmds with_hst rt fInstalledTunPeer]. by apply install_swaps.
Qed.

Lemma steered_scans rs c : steered c -> steered (scans rs c).
Proof.
  intros U. destruct (scans_same rs c) as (_ & E2 & E3 & _ & E5 & _). apply (steered_frame c); try done; rewrite ?E5; try done.
  apply scans_carrier; [apply Hfits|apply U].
Qed.

Lemma before_routes_same y e c : let c' := before_routes y e c in
  rt c' = rt c /\ fTunInterface c' = fTunInterface c /\ table c' t = table c t /\ session (hst c') = session (hst c)
  /\ (clean_scan (sc c) -> clean_scan (sc c')) /\ (0 < zlen gw -> carrier gw gwi c -> carrier gw gwi c').
Proof.
  cbv zeta. unfold before_routes. cbv zeta.
  match goal with |- context [scans _ ?x] => assert (F : rt x = rt c /\ fTunInterface x = fTunInterface c /\ sc x = sc c /\ session (hst x) = session (hst c)
    /\ table x t = table c t) end.
  { destruct (_ && _); [|done]. split_and!; try done. etrans; [apply ifconfig_table|reflexivity]. }
  match type of F with rt ?x = _ /\ _ => generalize dependent x end. intros x (F1 & F2 & F3 & F4 & F5).
  destruct (scans_same (s_before y) x) as (_ & E2 & E3 & _ & E5 & _). unfold table in *. rewrite E2, E3, E5, F1, F2, F4, F5. split_and!; try done.
  - intros Hk. apply scans_clean. by rewrite F3.
  - intros Hz Hg. apply scans_carrier; [done|]. unfold carrier in *. by rewrite F3.
Qed.

Lemma event_routes y e c : type e = OPENVPN_EVENT_STATE -> mappedState e = VPN_STATE_CONNECTED ->
  _HandleManagementEvent y e c =
  (let c := before_routes y e c in
   _SetState (mappedState e) (if zlen (stateDetail e) =? 0 then None else Some (stateDetail e))
     (if fRoutesInstalled (rt c) then _RefreshTunRoute y c else _InstallRoutes y (remoteIP e) c)).
Proof. intros E1 E2. unfold _HandleManagementEvent. by rewrite E1, E2. Qed.

Lemma CONNECTED_up y e q c : (calmly -> calm (EvDeliver y)) -> up c -> queue c = InternalEvent e :: q -> up (_HandleManagementEvent y e (with_queue q c)).
Proof.
  intros Hy U Hq. pose proof U as (R & C & S). destruct (event_wf y e q c (or_intror (or_intror R)) Hq) as [_ R'].
  pose proof (step_clean c (EvDeliver y) C) as C'. cbn [step] in C'. rewrite Hq in C'. cbn [MessageReceived] in C'.
  split; [done|]. split; [done|]. clear R' C'. assert (Hg : 0 < zlen gw) by apply Hfits.
  assert (Sq : steered (with_queue q c)) by exact S. assert (Kq : clean_scan (sc (with_queue q c))) by apply C. clear U R C S Hq.
  generalize dependent (with_queue q c). clear c q. intros c S K.
  destruct (decide (type e = OPENVPN_EVENT_STATE /\ mappedState e = VPN_STATE_CONNECTED)) as [[E1 E2]|Hn].
  - rewrite event_routes by done. cbv zeta. destruct (before_routes_same y e c) as (F1 & F2 & F3 & F4 & F5 & F6). specialize (F5 K).
    set (c1 := before_routes y e c) in *. clearbody c1. specialize (F6 Hg (proj1 (proj2 (proj2 S)))).
    assert (S1 : steered c1). { unfold steered in *. rewrite F1, F2, F3, F4. split_and!; try done; apply S. }
    rewrite (proj1 S1). cut (steered (_RefreshTunRoute y c1)); [done|]. by apply refresh_up.
  - pose proof (event_carrier gw gwi y e c Hg (proj1 (proj2 (proj2 S)))) as Hc. revert Hc. unfold _HandleManagementEvent. cbv zeta.
    destruct (type e); intros Hc; try (by apply (steered_frame c)); try (destruct (_ =? 0); by apply (steered_frame c)).
    destruct (_ && _); [done|]. destruct (Z.eqb_spec (mappedState e) VPN_STATE_CONNECTED); [by destruct Hn|]. by apply (steered_frame c).
Qed.

Lemma join_scanner_keeps c : rt (join_scanner c) = rt c /\ fTunInterface (join_scanner c) = fTunInterface c /\ hst (join_scanner c) = hst c
  /\ (0 < zlen (fOrigGateway (sc c)) -> fOrigGateway (sc (join_scanner c)) = fOrigGateway (sc c)
       /\ fOrigGatewayIface (sc (join_scanner c)) = fOrigGatewayIface (sc c)).
Proof.
  destruct (join_scanner_same c) as (_ & _ & E1 & E2 & E3). rewrite E1, E2, E3. split_and!; try done. unfold join_scanner. cbv zeta.
  destruct (_ >? 0); [|done]. cbn [sc with_pr]. apply scanner_sc.
Qed.

(** What cleaning up runs: the routes' removal, and ifconfig. *)
Lemma Cleanup_over y c : steered c -> readers (th c) = [] -> same_routes (table (_Cleanup y c) t) t0.
Proof.
  intros (U1 & U2 & (U3 & U4) & U5 & U6 & _ & _ & U9 & _) Hr. unfold _Cleanup. set (c1 := close_descriptors (_StopMgmtPoll c)).
  assert (K1 : rt c1 = rt c /\ fTunInterface c1 = fTunInterface c /\ sc c1 = sc c /\ hst c1 = hst c /\ readers (th c1) = []) by done. clearbody c1.
  destruct K1 as (A1 & A2 & A3 & A4 & A5). destruct (join_reader_none c1 A5) as (_ & _ & _ & B1 & B3 & B2 & B4). set (c2 := join_reader c1) in *. clearbody c2.
  destruct (join_scanner_keeps c2) as (C1 & C2 & C4 & C3). set (c3 := join_scanner c2) in *. clearbody c3.
  destruct C3 as [C3 C3']; [rewrite B3, A3, U3; apply Hfits|].
  destruct (reap_same y c3) as (_ & D1 & D3 & _ & _ & D4 & D2 & _). set (c4 := reap y c3) in *. clearbody c4.
  assert (E : same_routes (table (_RemoveRoutes y c4) t) t0).
  { unfold _RemoveRoutes. rewrite D1, C1, B1, A1, U1. cbn [negb]. cbv zeta. rewrite D2, C2, B2, A2, U2, D3, C3, C3', B3, A3, U3, U4, U5, D4, C4, B4, A4.
    unfold _RemoveSessionFile, table. destruct (s_path y); cbn [hst cmds with_rt with_session with_cmds with_hst]; by apply restore_swapped. }
  set (c5 := _RemoveRoutes y c4) in *. clearbody c5. destruct (RemovePassword_same (forget (delete_tun y c5))) as (_ & _ & _ & _ & _ & _ & F & _).
  unfold table. rewrite F. change (cmds (hst (forget (delete_tun y c5)))) with (cmds (hst (delete_tun y c5))).
  unfold delete_tun. destruct (_ >? 0); [|exact E]. cbn [hst with_cmds with_hst cmds]. cbn [RunIfconfig snd]. rewrite run_cmds_app. exact E.
Qed.

Lemma over_frame c c' : idle c' -> cmds (hst c') = cmds (hst c) -> over c -> over c'.
Proof. intros Hi E [_ Ho]. split; [done|]. unfold table in *. by rewrite E. Qed.

Lemma idle_shape c : idle c -> wf c.
Proof. by left. Qed.

Lemma exit_over y q c : up c -> queue c = ReaderExited :: q -> over (MessageReceived y ReaderExited (with_queue q c)).
Proof.
  intros U Eq. pose proof U as (R & _ & S). destruct (exit_wf q c (or_intror (or_intror R)) Eq) as (_ & Hr & Hsc & Hq).
  pose proof (Cleanup_idle_q y (with_queue q c) Hr Hsc Hq) as Hi. pose proof (Cleanup_over y (with_queue q c) S Hr) as Ho.
  cbn [MessageReceived]. cbv zeta. generalize dependent (_Cleanup y (with_queue q c)). intros d Hi Ho.
  destruct (_ =? _); [done|]. split; [by apply SetState_idle_q|exact Ho].
Qed.

Lemma over_step e c : in_session e -> over c -> over (step c e).
Proof.
  intros He O. pose proof O as [(I1 & I2 & I3 & I4 & I5) _].
  destruct e as [y p| |u p|y| |y|id got|id got]; cbn [step]; [done| |exact O|done| | | |].
  - destruct (Disconnect_frame c) as (E1 & E2 & E3 & E4 & _ & _ & _ & E8 & _). apply (over_frame c); [|exact E8|exact O]. unfold idle. by rewrite E1, E2, E3, E4.
  - by rewrite I1.
  - destruct (queue c) as [|m q] eqn:Eq; [exact O|]. apply Forall_cons in I5 as [-> I5]. cbn [MessageReceived]. rewrite TryMgmtConnect_off by exact I1.
    apply (over_frame c); [split_and!; done|done|exact O].
  - unfold _RunReaderLoop. rewrite I3, bool_decide_eq_false_2 by apply not_elem_of_nil. exact O.
  - unfold _RunStderrLoop. rewrite no_scanner by (by rewrite I3). exact O.
Qed.

Lemma up_step e c : in_session e -> (calmly -> calm e) -> up c -> up (step c e) \/ over (step c e).
Proof.
  intros He Hc U. pose proof U as (R & C & _).
  assert (Rn : forall c', wf c' -> pr c' = pr c -> running c').
  { intros c' [(_ & I & _)|[(_ & I & _)|X]] E; [| |exact X]; rewrite E in I; destruct R as (_ & ? & _); lia. }
  destruct e as [y p| |u p|y| |y|id got|id got]; cbn [step]; [done| | |done| | | |].
  - left. destruct (Disconnect_frame c) as (E1 & E2 & E3 & E4 & E5 & E6 & E7 & E8 & E9). apply (up_frame c); try done; [unfold carrier; rewrite E5; by apply (up_carrier c)| |].
    + apply Rn; [|done]. apply (wf_frame c); try done. by right; right.
    + unfold clean. by rewrite E3, E5, E6.
  - left. apply (up_frame c); try done. by apply (up_carrier c).
  - left. destruct R as (E & _). by rewrite E.
  - destruct (queue c) as [|m q] eqn:Eq; [by left|]. destruct m as [ev| |].
    + left. by apply CONNECTED_up.
    + left. cbn [MessageReceived]. rewrite TryMgmtConnect_off by apply R. apply (up_frame c); try done; [by apply (up_carrier c)| |].
      * apply Rn; [|done]. apply probe_wf; [by right; right|done].
      * destruct C as (C1 & C2 & C3). rewrite Eq in C3. by apply Forall_cons in C3 as [_ C3].
    + right. by apply exit_over.
  - left. pose proof (reader_core id got c) as E. injection E as E1 E2 E3 E4 _ _ E7 E8. apply (up_frame c); try done; [unfold carrier; rewrite E3; by apply (up_carrier c)| |by apply reader_clean].
    apply Rn; [|done]. apply reader_shape. by right; right.
  - left. destruct (scanner_same id got c) as (E1 & _). cbv zeta in *. split; [|split].
    + apply Rn; [|done]. apply (step_shape c (EvScan id got)); [by right; right|done].
    + by apply (step_clean c (EvScan id got)).
    + change (_RunStderrLoop id got c) with (scans [(id, got)] c). by apply steered_scans, U.
Qed.

Lemma step_session e c : in_session e -> (calmly -> calm e) -> up c \/ over c -> up (step c e) \/ over (step c e).
Proof. intros He Hc [U|O]; [by apply up_step|right; by apply over_step]. Qed.

Lemma steps_session es c : Forall in_session es -> Forall (fun e => calmly -> calm e) es -> up c \/ over c -> up (steps es c) \/ over (steps es c).
Proof.
  intros Hes Hcs. revert c. induction Hes as [|e es He _ IH]; intros c Hc; [done|]. apply Forall_cons in Hcs as [H1 H2].
  change (steps (e :: es) c) with (steps es (step c e)). apply IH; [done|]. by apply step_session.
Qed.

Lemma find_record pid peer : clean_text tunif -> clean_text peer -> clean_text gw -> clean_text gwi -> clean_text server ->
  let r := session_record pid tunif peer gw gwi server in
  find_text "tunInterface" r = tunif /\ find_text "tunPeer" r = peer /\ find_text "origGateway" r = gw
  /\ find_text "origGatewayIface" r = gwi /\ find_text "serverIP" r = server.
Proof. intros E1 E2 E3 E4 E5. cbv zeta. unfold find_text. cbn. rewrite E1, E2, E3, E4, E5. done. Qed.

(** The next daemon, on the host a dead one left. *)
Lemma recovered c y : calmly -> disk_ok y -> up c ->
  let b := step (OpenVPNBackend (hst c)) (EvRecover y) in same_routes (table b t) t0 /\ session (hst b) = None.
Proof.
  intros HP (Y1 & Y2 & _) (_ & [(C1 & C2 & _) [C3 _]] & _ & U2 & (U3 & U4) & _ & U6 & U7 & U8 & U9 & U10). cbv zeta. destruct (U10 HP) as [pid U11].
  rewrite U2 in C3. rewrite U3 in C1. rewrite U4 in C2. destruct (find_record pid (fInstalledTunPeer (rt c)) C3 U7 C1 C2 U8) as (F1 & F2 & F3 & F4 & F5).
  cbn [step]. unfold RecoverIfCrashed. rewrite Y1, Y2. cbn [negb]. change (session (hst (OpenVPNBackend (hst c)))) with (session (hst c)). rewrite U11. cbv zeta.
  rewrite F1, F2, F3, F4, F5. split; [|by destruct (_ && _)]. unfold table. cbn [cmds hst with_session with_cmds with_hst].
  match goal with |- context [cmds (hst ?x)] => assert (E : cmds (hst x) = cmds (hst c)) by (by destruct (_ && _)) end.
  rewrite E. by apply restore_swapped.
Qed.

End OneSession.


End WithTable.

(** ** Runs *)

Definition line (s : string) : bytes := bs s ++ [10].

(** A system on which everything works; the port answers. *)
Definition works : sys :=
  mkSys (fun _ => true) 7 [1; 2; 3] (Some (bs "/tmp/sotoportego.mgmtabcdef")) true true (Some 4242%positive) (Some 11%positive) true false true
    (Some 12%positive) 0 1700000000 true true true false false [] [].
Definition demo_profile : VPNProfile.profile := VPNProfile.with_configPath (bs "/boot/home/a.ovpn") VPNProfile.VPNProfile.
Definition bare_host : host := mkHost [] None [] [] [] [].

(** Up to the report that the tunnel is up. *)
Definition comes_up : list input :=
  [EvConnect works demo_profile; EvDeliver works;
   EvScan 11 (Some (line "ROUTE_GATEWAY 192.168.1.1 IFACE=/dev/net/eth0" ++ line "PUSH: Received 'PUSH_REPLY,route-gateway 10.8.0.5,x'"));
   EvRead 12 (Some (line ">STATE:1,CONNECTED,SUCCESS,10.8.0.6,203.0.113.7"))].
Definition restarts : list input :=
  [EvScan 11 (Some (line "route-gateway 10.8.0.9")); EvRead 12 (Some (line ">STATE:2,CONNECTED,SUCCESS,10.8.0.6,203.0.113.7")); EvDeliver works].
Definition lost : list input := [EvRead 12 None; EvDeliver works].
Definition demo_table : list (list bytes) := [default_of (bs "/dev/net/eth0") (bs "192.168.1.1")].

Abbreviation run es := (steps es (OpenVPNBackend bare_host)).

Lemma comes_up_serial : serial comes_up (OpenVPNBackend bare_host).
Proof. vm_compute. repeat (split; [intros ?; discriminate || done|]). done. Qed.


Lemma connecting_ends_witness :
  let b := run [EvConnect works demo_profile; EvDisconnect] in
  fMgmtPoll (pr b) = true /\ fState (step b (EvDeliver works)) = VPN_STATE_DISCONNECTED.
Proof.
  cbv zeta. split; [vm_compute; reflexivity|].
  destruct (connecting_ends bare_host [EvConnect works demo_profile; EvDisconnect] [] eq_refl) as (_ & _ & A).
  apply (A works []); vm_compute; reflexivity.
Defined.



(** ** What the backend does not prevent *)

(** After a rejected login the state is Error while openvpn and the reader
    live; a new request is accepted and starts a second openvpn, and the end
    of the first reader then takes the second session down. *)
Example overlapping_sessions :
  let second := mkSys (fun _ => true) 7 [1] (Some (bs "/tmp/b")) true true (Some 4343%positive) (Some 21%positive) true false true
                  (Some 22%positive) 0 0 true true true false false [] [] in
  let b := run [EvConnect works demo_profile; EvDeliver works; EvRead 12 (Some (line ">PASSWORD:Verification Failed: 'Auth'")); EvDeliver works] in
  let b2 := steps [EvConnect second demo_profile; EvDeliver second] b in
  let b3 := steps [EvRead 12 None; EvDeliver second] b2 in
  fState b = VPN_STATE_ERROR /\ readers (th b) = [12] /\ children (hst b) = [4242]
  /\ fst (Connect second demo_profile b) = B_OK /\ children (hst b2) = [4343; 4242] /\ fPid (pr b2) = 4343
  /\ fState b3 = VPN_STATE_DISCONNECTED /\ children (hst b3) = [4242].
Proof. vm_compute. repeat split. Qed.

(** A log line that names another tunnel peer while the routes are installed:
    the session file names that peer, so the next daemon leaves the tunnel's
    default route behind. *)
Definition scanning : sys :=
  mkSys (fun _ => true) 7 [1; 2; 3] None true true None None true false true None 0 1700000000 true true true false false []
    [(11, Some (line "route-gateway 10.8.0.9"))].

Example harvest_moves_during_install :
  let b := run (comes_up ++ [EvDeliver scanning]) in
  let b2 := step (OpenVPNBackend (hst b)) (EvRecover works) in
  fInstalledTunPeer (rt b) = bs "10.8.0.5" /\ session (hst b2) = None
  /\ table b2 demo_table = [default_of (bs "/dev/net/eth0") (bs "192.168.1.1"); default_of (bs "tun/0") (bs "10.8.0.5")].
Proof. vm_compute. repeat split. Qed.

(** A daemon that dies, or cannot write, between the route commands and the
    session file: nothing tells the next one that the default route is gone. *)
Definition unwritten : sys :=
  mkSys (fun _ => true) 7 [1; 2; 3] None true true None None true false true None 0 1700000000 false true true false false [] [].

Example died_before_the_file :
  let b := run (comes_up ++ [EvDeliver unwritten]) in
  let b2 := step (OpenVPNBackend (hst b)) (EvRecover works) in
  session (hst b) = None /\ b2 = OpenVPNBackend (hst b)
  /\ bool_decide (default_of (bs "/dev/net/eth0") (bs "192.168.1.1") ∈ table b2 demo_table) = false.
Proof. vm_compute. repeat split. Qed.

(** The line buffer survives the session: what an openvpn wrote before it died
    is the beginning of the next one's first line. *)
Example stale_line_buffer :
  let b := run [EvConnect works demo_profile; EvDeliver works; EvRead 12 (Some (bs ">INFO:bye")); EvRead 12 None; EvDeliver works;
                EvConnect works demo_profile; EvDeliver works; EvRead 12 (Some (line ">PASSWORD:Need 'Auth' username/password"))] in
  map (fun m => match m with InternalEvent e => Some (type e) | _ => None end) (queue b) = [Some OPENVPN_EVENT_INFO].
Proof. vm_compute. reflexivity. Qed.

(** A disconnect request in the error state is accepted and changes nothing
    that is reported. *)
Lemma disconnect_after_error b : fState b = VPN_STATE_ERROR -> fSocket (pr b) = false -> fPid (pr b) <= 0 ->
  notices (Disconnect b) = notices b /\ fState (Disconnect b) = VPN_STATE_ERROR.
Proof.
  intros E1 E2 E3. unfold Disconnect. rewrite E1. change (VPN_STATE_ERROR =? VPN_STATE_DISCONNECTED) with false. cbn iota zeta.
  cbn [pr with_stop]. rewrite E2, Z.gtb_ltb. destruct (Z.ltb_spec 0 (fPid (pr b))); [lia|done].
Qed.

(** A failed spawn leaves the password file on disk, and the next one forgets its name. *)
Example password_file_left :
  let no_spawn := mkSys (fun _ => true) 7 [1] (Some (bs "/tmp/a")) true true None None true false true None 0 0 true true true false false [] [] in
  let b := run [EvConnect no_spawn demo_profile; EvConnect works demo_profile; EvDeliver works; EvRead 12 None; EvDeliver works] in
  fState b = VPN_STATE_DISCONNECTED /\ tmp (hst b) = [bs "/tmp/a"].
Proof. vm_compute. repeat split. Qed.

End OvpnSession.
