(* ===== verification/WgBackend.v ===== *)
(** * WgBackend: the WireGuard backend (src/backend/WireGuardBackend.{h,cpp})

    The object runs on the daemon's looper; its reader thread runs the
    handshake and the transport loop and posts messages back.  [wg] is the
    object with the part of the host it changes (commands run, the resolver's
    files), [queue] the messages posted to the looper and not yet handled.
    The crypto and the IP length, replay window and hashing helpers the file
    repeats from WireGuardCrypto and WGPeer are those of Blake2s, Crypto,
    Replay and WGPeer where the two copies agree. *)

From S2P Require Import Prelude CLib Endian Blake2s Crypto Replay WGPeer Routes Message Profiles Configs Tun Daemon.
Import Message VPNProtocol VPNState WireGuardConfigParser Crypto TunDevice.
Open Scope Z_scope.
Open Scope soto_scope.

Module WgBackend.

Definition kReaderPollInterval : Z := 250000.
Definition kHandshakeAttempts : nat := 3.
Definition kRekeyAfterTime : Z := 120 * 1000000.
Definition kRejectAfterTime : Z := 180 * 1000000.
Definition kResolvConf : bytes := bs "/boot/system/settings/network/resolv.conf".
Definition kResolvBackup : bytes := bs "/boot/system/settings/network/resolv.conf.sotoportego".

(** ** Keys *)

(** At most [cap] bytes; the bits collected are a uint32. *)
Fixpoint decode_key_chars (p : bytes) (buffer bits cap : Z) (out : bytes) : option bytes :=
  match p with
  | [] => Some out
  | c :: p =>
      if c =? 61 then Some out
      else if (c =? 32) || (c =? 9) || (c =? 13) || (c =? 10) then decode_key_chars p buffer bits cap out
      else
        let v := DaemonFiles.kReal c in
        if v <? 0 then None
        else
          let buffer := u32 (u32 (buffer ≪ 6) .| v) in
          let bits := bits + 6 in
          if bits >=? 8 then
            if zlen out >=? cap then None
            else decode_key_chars p buffer (bits - 8) cap (out ++ [(buffer ≫ (bits - 8)) .& 0xFF])
          else decode_key_chars p buffer bits cap out
  end.
Definition base64_decode (input : bytes) (outCap : Z) : option bytes := decode_key_chars (cstr input) 0 0 outCap [].

(** A key of exactly 32 bytes. *)
Definition decode_key (s : bytes) : option bytes :=
  k ← base64_decode s 32; if zlen k =? 32 then Some k else None.

(** ** State *)

(** Keys, handshake and session: what the reader thread works on. *)
Record noise := mkNoise {
  fPrivateKey : bytes; fPeerPublicKey : bytes; fPresharedKey : bytes; fHavePresharedKey : bool;
  fEphemeralPrivate : bytes; fEphemeralPublic : bytes; fChainingKey : bytes; fHash : bytes;
  fSenderIndex : Z; fReceiverIndex : Z; fSendKey : bytes; fRecvKey : bytes;
  fSendCounter : Z; fReplay : Replay.replay }.

(** What the backend holds of the system. *)
Record net := mkNet {
  fTunInterface : bytes; fTunNode : bytes; fEndpointIP : bytes; fTunSelfIP : bytes;
  fRoutesInstalled : bool; fReplacedDefault : bool; fOrigGateway : bytes; fOrigGatewayIface : bytes;
  fUdpSocket : bool; fTunFd : bool }.

(** The host: commands run so far, and the resolver's file and its backup. *)
Record host := mkHost { cmds : list cmd; resolv : option bytes; backup : option bytes }.

Inductive posted := WgConnected | WgStats (inBytes outBytes : Z) | WgReaderExited (detail : bytes).

(** What the observer is told. *)
Inductive notice := StateChanged (state : Z) (detail : option bytes) | StatsChanged (s : VPNStats.stats).

(** The transport loop's variables. *)
Record loop := mkLoop { lastSend : Z; lastStats : Z; handshakeTime : Z; bytesIn : Z; bytesOut : Z }.

(** Where the reader thread is: none, after [n] failed handshakes, in the loop,
    or returned and not yet joined. *)
Inductive reader := NoReader | Handshaking (n : nat) | Transport (l : loop) | Finished.

Record wg := mkWg {
  fState : Z; fStats : VPNStats.stats; fConfig : config; fLocalIP : bytes; fRemoteIP : bytes;
  nz : noise; nt : net; hst : host; fReader : reader; fStopRequested : bool;
  queue : list posted; notices : list notice }.

Definition no_noise : noise :=
  mkNoise (zeros 32) (zeros 32) (zeros 32) false (zeros 32) (zeros 32) (zeros 32) (zeros 32) 0 0 (zeros 32) (zeros 32) 0 Replay.ResetReplay.
Definition no_net : net := mkNet [] [] [] [] false false [] [] false false.

Definition WireGuardBackend (h : host) : wg :=
  mkWg VPN_STATE_DISCONNECTED VPNStats.Reset WireGuardConfig [] [] no_noise no_net h NoReader false [] [].

Definition with_nz (x : noise) (b : wg) : wg :=
  mkWg (fState b) (fStats b) (fConfig b) (fLocalIP b) (fRemoteIP b) x (nt b) (hst b) (fReader b) (fStopRequested b) (queue b) (notices b).
Definition with_nt (x : net) (b : wg) : wg :=
  mkWg (fState b) (fStats b) (fConfig b) (fLocalIP b) (fRemoteIP b) (nz b) x (hst b) (fReader b) (fStopRequested b) (queue b) (notices b).
Definition with_host (x : host) (b : wg) : wg :=
  mkWg (fState b) (fStats b) (fConfig b) (fLocalIP b) (fRemoteIP b) (nz b) (nt b) x (fReader b) (fStopRequested b) (queue b) (notices b).
Definition with_cmds (x : list cmd) (b : wg) : wg := with_host (mkHost x (resolv (hst b)) (backup (hst b))) b.
Definition with_reader (r : reader) (b : wg) : wg :=
  mkWg (fState b) (fStats b) (fConfig b) (fLocalIP b) (fRemoteIP b) (nz b) (nt b) (hst b) r (fStopRequested b) (queue b) (notices b).
Definition with_stop (x : bool) (b : wg) : wg :=
  mkWg (fState b) (fStats b) (fConfig b) (fLocalIP b) (fRemoteIP b) (nz b) (nt b) (hst b) (fReader b) x (queue b) (notices b).
Definition with_queue (q : list posted) (b : wg) : wg :=
  mkWg (fState b) (fStats b) (fConfig b) (fLocalIP b) (fRemoteIP b) (nz b) (nt b) (hst b) (fReader b) (fStopRequested b) q (notices b).
Definition with_config (c : config) (b : wg) : wg :=
  mkWg (fState b) (fStats b) c (fLocalIP b) (fRemoteIP b) (nz b) (nt b) (hst b) (fReader b) (fStopRequested b) (queue b) (notices b).

(** What the system answers. *)
Record sys := mkSys {
  s_file : option bytes;                                  (* the profile's config file *)
  s_ifconfig : list bytes -> bool;
  s_resolve : bytes -> option (Z * Z * Z * Z);            (* gethostbyname, IPv4 *)
  s_socket : bool;                                        (* socket() *)
  s_connect : bool;                                       (* connect() of it *)
  s_open : bool;                                          (* open() of the tun node *)
  s_thread : bool;                                        (* spawn_thread() *)
  s_route : option bytes;                                 (* what route prints *)
  s_rename : bool;                                        (* a rename of an existing resolver file *)
  s_write : option Z }.                                   (* resolv.conf is opened for writing, and takes so many bytes *)

Definition _SetState (state : Z) (detail : option bytes) (b : wg) : wg :=
  mkWg state (fStats b) (fConfig b) (fLocalIP b) (fRemoteIP b) (nz b) (nt b) (hst b) (fReader b) (fStopRequested b)
    (queue b) (notices b ++ [StateChanged state detail]).

(** On failure the keys decoded so far are kept, as in the source. *)
Definition _DecodeKeys (b : wg) : bool * wg :=
  let c := fConfig b in let x := nz b in
  let keys priv pub psk have :=
    with_nz (mkNoise priv pub psk have (fEphemeralPrivate x) (fEphemeralPublic x) (fChainingKey x) (fHash x)
               (fSenderIndex x) (fReceiverIndex x) (fSendKey x) (fRecvKey x) (fSendCounter x) (fReplay x)) b in
  match decode_key (privateKey c) with
  | None => (false, b)
  | Some priv =>
      match decode_key (publicKey (peer c)) with
      | None => (false, keys priv (fPeerPublicKey x) (fPresharedKey x) (fHavePresharedKey x))
      | Some pub =>
          if zlen (presharedKey (peer c)) >? 0 then
            match decode_key (presharedKey (peer c)) with
            | None => (false, keys priv pub (fPresharedKey x) false)
            | Some psk => (true, keys priv pub psk true)
            end
          else (true, keys priv pub (fPresharedKey x) false)
      end
  end.

(** ** Bringing the device up *)

Definition tun_address (address : bytes) : bytes :=
  Trim (match find_first 47 address with Some i => ztake i address | None => address end).

Definition _BringUpTun (y : sys) (b : wg) : bool * wg :=
  let n := nt b in
  let put iface node self :=
    with_nt (mkNet iface node (fEndpointIP n) self (fRoutesInstalled n) (fReplacedDefault n)
               (fOrigGateway n) (fOrigGatewayIface n) (fUdpSocket n) (fTunFd n)) in
  match ProbeFreeSlot (s_ifconfig y) (cmds (hst b)) with
  | (None, cs) => (false, put [] [] (fTunSelfIP n) (with_cmds cs b))
  | (Some (iface, node), cs) =>
      let ip := tun_address (address (fConfig b)) in
      let b := put iface node ip (with_cmds cs b) in
      if zlen ip =? 0 then (true, b)
      else
        let m := if mtu (fConfig b) >? 0 then mtu (fConfig b) else 1420 in
        let '(ok, cs) := RunIfconfig (s_ifconfig y) [iface; bs "inet"; ip; ip; bs "mtu"; fmt_d m; bs "up"] (cmds (hst b)) in
        (ok, with_cmds cs b)
  end.

Definition _OpenUdpSocket (y : sys) (b : wg) : bool * wg :=
  let n := nt b in
  match s_resolve y (endpointHost (peer (fConfig b))) with
  | None => (false, b)
  | Some (p, q, r, s) =>
      if s_socket y then
        (s_connect y, with_nt (mkNet (fTunInterface n) (fTunNode n) (fmt_ipv4 p q r s) (fTunSelfIP n) (fRoutesInstalled n)
                                 (fReplacedDefault n) (fOrigGateway n) (fOrigGatewayIface n) (fUdpSocket n || s_connect y) (fTunFd n)) b)
      else (false, b)
  end.

Definition _OpenTunFd (y : sys) (b : wg) : bool * wg :=
  let n := nt b in
  (s_open y, with_nt (mkNet (fTunInterface n) (fTunNode n) (fEndpointIP n) (fTunSelfIP n) (fRoutesInstalled n)
                        (fReplacedDefault n) (fOrigGateway n) (fOrigGatewayIface n) (fUdpSocket n) (s_open y)) b).

(** ** Routes and DNS *)

Definition pin_entry (n : net) : list bytes := route_entry (fOrigGatewayIface n) (fEndpointIP n) (fOrigGateway n) host_mask.
Definition default_entry (n : net) : list bytes := route_entry (fOrigGatewayIface n) zero_addr (fOrigGateway n) zero_addr.
Definition tunnel_entry (n : net) (r : WireGuardRoutes.AllowedRoute) : list bytes :=
  route_entry (fTunInterface n) (WireGuardRoutes.net r) (fTunSelfIP n) (WireGuardRoutes.mask r).

Definition cidrs_of (b : wg) : list WireGuardRoutes.AllowedRoute :=
  fst (WireGuardRoutes.ParseAllowedIPs (allowedIPs (peer (fConfig b)))).

(** The first IPv4 server of the DNS list. *)
Definition nameserver (dns : bytes) : option bytes :=
  List.find (fun t => (zlen t >? 0) && (match find_first 58 t with Some _ => false | None => true end))
    (map Trim (split_on 44 dns)).

Definition resolv_text (ns : bytes) : bytes :=
  bs "# Set by Sotoportego for the WireGuard tunnel" ++ [10] ++ bs "nameserver " ++ ns ++ [10].

(** rename of resolv.conf to its backup, and back: neither result is looked at,
    and a file that is not there is not moved. *)
Definition move_aside (y : sys) (h : host) : host :=
  match resolv h with
  | Some original => if s_rename y then mkHost (cmds h) None (Some original) else h
  | None => h
  end.
Definition move_back (y : sys) (h : host) : host :=
  match backup h with
  | Some original => if s_rename y then mkHost (cmds h) (Some original) None else h
  | None => h
  end.

(** The file is truncated by the open; the result of Write is not looked at. *)
Definition _ApplyDns (y : sys) (b : wg) : wg :=
  match nameserver (dns (fConfig b)) with
  | None => b
  | Some ns =>
      let h := match backup (hst b) with Some _ => hst b | None => move_aside y (hst b) end in
      match s_write y with
      | None => with_host h b
      | Some n => with_host (mkHost (cmds h) (Some (ztake n (resolv_text ns))) (backup h)) b
      end
  end.

Definition _RestoreDns (y : sys) (b : wg) : wg :=
  match backup (hst b) with
  | Some _ => with_host (move_back y (hst b)) b
  | None => b
  end.

Definition with_gateway (g i : bytes) (replaced : bool) (n : net) : net :=
  mkNet (fTunInterface n) (fTunNode n) (fEndpointIP n) (fTunSelfIP n) (fRoutesInstalled n) replaced g i (fUdpSocket n) (fTunFd n).
Definition with_installed (x replaced : bool) (n : net) : net :=
  mkNet (fTunInterface n) (fTunNode n) (fEndpointIP n) (fTunSelfIP n) x replaced (fOrigGateway n) (fOrigGatewayIface n)
    (fUdpSocket n) (fTunFd n).

Definition _InstallRoutes (y : sys) (b : wg) : wg :=
  if fRoutesInstalled (nt b) then b
  else
    match cidrs_of b with
    | [] => b
    | cidrs =>
        let anyDefault := existsb WireGuardRoutes.isDefault cidrs in
        match DefaultGateway (s_route y), anyDefault with
        | None, true => with_nt (with_gateway [] [] false (nt b)) b
        | found, _ =>
            let '(g, i) := default ([], []) found in
            let n := with_gateway g i false (nt b) in
            let pin := (zlen (fEndpointIP n) >? 0) && (zlen (fOrigGateway n) >? 0) in
            let drop := anyDefault && (zlen (fOrigGateway n) >? 0) in
            let n := with_gateway g i drop n in
            let cs := cmds (hst b) in
            let cs := if pin then run_routes "add" [pin_entry n] cs else cs in
            let cs := if drop then run_routes "delete" [default_entry n] cs else cs in
            let cs := run_routes "add" (map (tunnel_entry n) cidrs) cs in
            let b := with_cmds cs (with_nt n b) in
            let b := if drop then _ApplyDns y b else b in
            with_nt (with_installed true drop (nt b)) b
        end
    end.

Definition _RemoveRoutes (y : sys) (b : wg) : wg :=
  if negb (fRoutesInstalled (nt b)) then b
  else
    let b := _RestoreDns y b in
    let n := nt b in
    let cs := run_routes "delete" (map (tunnel_entry n) (cidrs_of b)) (cmds (hst b)) in
    let cs := if fReplacedDefault n && (zlen (fOrigGateway n) >? 0) then run_routes "add" [default_entry n] cs else cs in
    let cs := if (zlen (fEndpointIP n) >? 0) && (zlen (fOrigGateway n) >? 0) then run_routes "delete" [pin_entry n] cs else cs in
    with_nt (with_installed false false n) (with_cmds cs b).

(** The reader is told to stop and joined, then everything is undone. *)
Definition _Cleanup (y : sys) (b : wg) : wg :=
  let b := with_reader NoReader (with_stop true b) in
  let b := _RemoveRoutes y b in
  let n := nt b in
  let closed iface node := mkNet iface node (fEndpointIP n) (fTunSelfIP n) (fRoutesInstalled n) (fReplacedDefault n)
                             (fOrigGateway n) (fOrigGatewayIface n) false false in
  if zlen (fTunInterface n) >? 0 then
    let '(_, cs) := RunIfconfig (s_ifconfig y) [bs "--delete"; fTunInterface n] (cmds (hst b)) in
    with_nt (closed [] []) (with_cmds cs b)
  else with_nt (closed (fTunInterface n) (fTunNode n)) b.

(** ** Requests of the daemon *)

Definition _StartReader (y : sys) (b : wg) : wg := with_reader (if s_thread y then Handshaking 0 else NoReader) b.

Definition fail (y : sys) (detail : string) (b : wg) : status * wg :=
  (B_ERROR, _SetState VPN_STATE_ERROR (Some (bs detail)) (_Cleanup y b)).

Definition Connect (y : sys) (p : VPNProfile.profile) (b : wg) : status * wg :=
  if negb (fState b =? VPN_STATE_DISCONNECTED) && negb (fState b =? VPN_STATE_ERROR) then (B_NOT_ALLOWED, b)
  else if zlen (VPNProfile.fConfigPath p) =? 0 then
    (B_BAD_VALUE, _SetState VPN_STATE_ERROR (Some (bs "profile has no WireGuard config path")) b)
  else
    match ParseFile (VPNProfile.fConfigPath p) (s_file y) WireGuardConfig with
    | (false, c) => (B_ERROR, _SetState VPN_STATE_ERROR (Some (bs "cannot read WireGuard config")) (with_config c b))
    | (true, c) =>
        let b := with_config c b in
        if negb (IsComplete c) then
          (B_BAD_VALUE, _SetState VPN_STATE_ERROR (Some (bs "WireGuard config is missing a key or endpoint")) b)
        else
          let b := mkWg (fState b) VPNStats.Reset c (address c) (endpointHost (peer c)) (nz b) (nt b) (hst b) (fReader b) false
                     (queue b) (notices b) in
          match _DecodeKeys b with
          | (false, b) => (B_BAD_VALUE, _SetState VPN_STATE_ERROR (Some (bs "WireGuard config has an invalid key")) b)
          | (true, b) =>
              let b := _SetState VPN_STATE_CONNECTING None b in
              match _BringUpTun y b with
              | (false, b) => fail y "could not bring up a tun slot" b
              | (true, b) =>
                  match _OpenUdpSocket y b with
                  | (false, b) => fail y "could not reach the WireGuard endpoint" b
                  | (true, b) =>
                      match _OpenTunFd y b with
                      | (false, b) => fail y "could not open the tun device" b
                      | (true, b) =>
                          let b := _StartReader y b in
                          match fReader b with
                          | NoReader => fail y "could not start the WireGuard worker" b
                          | _ => (B_OK, b)
                          end
                      end
                  end
              end
          end
    end.

Definition Disconnect (y : sys) (b : wg) : wg :=
  if fState b =? VPN_STATE_DISCONNECTED then b
  else
    let b := with_stop true b in
    match fReader b with
    | NoReader => _SetState VPN_STATE_DISCONNECTED None (_Cleanup y b)
    | _ => b
    end.

Definition RecoverIfCrashed (y : sys) (b : wg) : wg := _RestoreDns y b.

(** A message the reader posted. *)
Definition MessageReceived (y : sys) (m : posted) (b : wg) : wg :=
  match m with
  | WgConnected => _SetState VPN_STATE_CONNECTED None (_InstallRoutes y b)
  | WgStats i o =>
      let stats := VPNStats.mkStats (u64 i) (u64 o) (VPNStats.fConnectedSince (fStats b)) in
      mkWg (fState b) stats (fConfig b) (fLocalIP b) (fRemoteIP b)
        (nz b) (nt b) (hst b) (fReader b) (fStopRequested b) (queue b) (notices b ++ [StatsChanged stats])
  | WgReaderExited detail =>
      let b := _Cleanup y b in
      if zlen detail >? 0 then _SetState VPN_STATE_ERROR (Some detail) b else _SetState VPN_STATE_DISCONNECTED None b
  end.

(** ** Handshake *)

(** Unlike WGPeer's, this one keeps the whole buffer of an unknown packet. *)
Definition ip_packet_length (p : bytes) (maxLen : Z) : Z :=
  if maxLen =? 0 then 0
  else
    let version := at_ p 0 ≫ 4 in
    if (version =? 4) && (maxLen >=? 20) then
      let total := (at_ p 2 ≪ 8) .| at_ p 3 in if total <=? maxLen then total else maxLen
    else if (version =? 6) && (maxLen >=? 40) then
      let total := 40 + ((at_ p 4 ≪ 8) .| at_ p 5) in if total <=? maxLen then total else maxLen
    else maxLen.

Definition with_hs (ck hh : bytes) (x : noise) : noise :=
  mkNoise (fPrivateKey x) (fPeerPublicKey x) (fPresharedKey x) (fHavePresharedKey x) (fEphemeralPrivate x) (fEphemeralPublic x)
    ck hh (fSenderIndex x) (fReceiverIndex x) (fSendKey x) (fRecvKey x) (fSendCounter x) (fReplay x).
Definition with_eph (priv pub : bytes) (x : noise) : noise :=
  mkNoise (fPrivateKey x) (fPeerPublicKey x) (fPresharedKey x) (fHavePresharedKey x) priv pub
    (fChainingKey x) (fHash x) (fSenderIndex x) (fReceiverIndex x) (fSendKey x) (fRecvKey x) (fSendCounter x) (fReplay x).
Definition with_indices (s r : Z) (x : noise) : noise :=
  mkNoise (fPrivateKey x) (fPeerPublicKey x) (fPresharedKey x) (fHavePresharedKey x) (fEphemeralPrivate x) (fEphemeralPublic x)
    (fChainingKey x) (fHash x) s r (fSendKey x) (fRecvKey x) (fSendCounter x) (fReplay x).
Definition with_keys (s r : bytes) (x : noise) : noise :=
  mkNoise (fPrivateKey x) (fPeerPublicKey x) (fPresharedKey x) (fHavePresharedKey x) (fEphemeralPrivate x) (fEphemeralPublic x)
    (fChainingKey x) (fHash x) (fSenderIndex x) (fReceiverIndex x) s r (fSendCounter x) (fReplay x).
Definition with_counters (n : Z) (r : Replay.replay) (x : noise) : noise :=
  mkNoise (fPrivateKey x) (fPeerPublicKey x) (fPresharedKey x) (fHavePresharedKey x) (fEphemeralPrivate x) (fEphemeralPublic x)
    (fChainingKey x) (fHash x) (fSenderIndex x) (fReceiverIndex x) (fSendKey x) (fRecvKey x) n r.

(** What one handshake draws and receives: the keypair and sender index (or the
    draw's failure), the clock, whether send takes the message, and what each
    recv returns ([None] is a timeout or an error). *)
Record hs_in := mkHsIn {
  h_eph : option (bytes * bytes); h_idx : option Z; h_time : Z; h_sent : bool; h_recv : list (option bytes) }.

(** Datagrams are skipped until one looks like a response; the buffer holds 256
    bytes, and [tries] recvs are made. *)
Fixpoint await_response (tries : nat) (l : list (option bytes)) : option bytes :=
  match tries, l with
  | S tries, Some d :: l =>
      let resp := ztake 256 d in
      if zlen resp =? 0 then None
      else if (zlen resp =? 92) && (at_ resp 0 =? 2) then Some resp
      else await_response tries l
  | _, _ => None
  end.

Section WithOpenSSL.
Context `{OpenSSL}.

(** The initiation: the message and the state, [None] where the code returns false. *)
Definition build_initiation (i : hs_in) (x : noise) : option bytes * noise :=
  match DhPublic (fPrivateKey x) with
  | None => (None, x)
  | Some staticPub =>
      let ck := wg.Hash WGPeer.kConstruction in
      let x := with_hs ck (WGPeer.mix_hash (WGPeer.hash2 ck WGPeer.kIdentifier) (fPeerPublicKey x)) x in
      match h_eph i with
      | None => (None, x)
      | Some (ek, ep) =>
          let x := with_eph ek ep x in
          let x := with_hs (wg.Kdf1 (fChainingKey x) (fEphemeralPublic x)) (WGPeer.mix_hash (fHash x) (fEphemeralPublic x)) x in
          match Dh (fEphemeralPrivate x) (fPeerPublicKey x) with
          | None => (None, x)
          | Some dh =>
              let '(ck, key) := wg.Kdf2 (fChainingKey x) dh in
              let x := with_hs ck (fHash x) x in
              match AeadEncrypt key 0 staticPub (fHash x) with
              | None => (None, x)
              | Some encStatic =>
                  let x := with_hs (fChainingKey x) (WGPeer.mix_hash (fHash x) encStatic) x in
                  match Dh (fPrivateKey x) (fPeerPublicKey x) with
                  | None => (None, x)
                  | Some dh =>
                      let '(ck, key) := wg.Kdf2 (fChainingKey x) dh in
                      let x := with_hs ck (fHash x) x in
                      match AeadEncrypt key 0 (Tai64n (h_time i)) (fHash x) with
                      | None => (None, x)
                      | Some encTs =>
                          let x := with_hs (fChainingKey x) (WGPeer.mix_hash (fHash x) encTs) x in
                          match h_idx i with
                          | None => (None, x)
                          | Some idx =>
                              let x := with_indices idx (fReceiverIndex x) x in
                              let body := [1; 0; 0; 0] ++ store32_le (fSenderIndex x) ++ fEphemeralPublic x ++ encStatic ++ encTs in
                              (Some (body ++ wg.Mac16 (WGPeer.hash2 WGPeer.kLabelMac1 (fPeerPublicKey x)) body ++ zeros 16), x)
                          end
                      end
                  end
              end
          end
      end
  end.

(** The receiver index is taken before the response is authenticated. *)
Definition consume_response (resp : bytes) (x : noise) : bool * noise :=
  if negb (load32_le resp 8 =? fSenderIndex x) then (false, x)
  else
    let x := with_indices (fSenderIndex x) (load32_le resp 4) x in
    let peerEphemeral := slice 12 32 resp in
    let encNothing := slice 44 16 resp in
    let x := with_hs (wg.Kdf1 (fChainingKey x) peerEphemeral) (WGPeer.mix_hash (fHash x) peerEphemeral) x in
    match Dh (fEphemeralPrivate x) peerEphemeral with
    | None => (false, x)
    | Some dh =>
        let x := with_hs (wg.Kdf1 (fChainingKey x) dh) (fHash x) x in
        match Dh (fPrivateKey x) peerEphemeral with
        | None => (false, x)
        | Some dh =>
            let x := with_hs (wg.Kdf1 (fChainingKey x) dh) (fHash x) x in
            let psk := if fHavePresharedKey x then fPresharedKey x else zeros 32 in
            let '(ck, tau, key) := wg.Kdf3 (fChainingKey x) psk in
            let x := with_hs ck (WGPeer.mix_hash (fHash x) tau) x in
            match AeadDecrypt key 0 encNothing (fHash x) with
            | None => (false, x)
            | Some _ =>
                let x := with_hs (fChainingKey x) (WGPeer.mix_hash (fHash x) encNothing) x in
                let '(sendKey, recvKey) := wg.Kdf2 (fChainingKey x) [] in
                (true, with_keys sendKey recvKey x)
            end
        end
    end.

(** The third component is what was sent. *)
Definition _PerformHandshake (i : hs_in) (x : noise) : bool * noise * list bytes :=
  match build_initiation i x with
  | (None, x) => (false, x, [])
  | (Some msg, x) =>
      if negb (h_sent i) then (false, x, [])
      else
        match await_response 64 (h_recv i) with
        | None => (false, x, [msg])
        | Some resp => let '(ok, x) := consume_response resp x in (ok, x, [msg])
        end
  end.

(** ** Transport packets *)

Definition _Encapsulate (plain : bytes) (x : noise) : option bytes * noise :=
  let padded := (zlen plain + 15) .& Z.lnot 15 in
  if padded >? 2048 then (None, x)
  else
    let scratch := plain ++ zeros (padded - zlen plain) in
    let header := [4; 0; 0; 0] ++ store32_le (fReceiverIndex x) ++ store64_le (fSendCounter x) in
    match AeadEncrypt (fSendKey x) (fSendCounter x) scratch [] with
    | None => (None, x)
    | Some c => (Some (header ++ c), with_counters (u64 (fSendCounter x + 1)) (fReplay x) x)
    end.

(** The length returned with the buffer; [None] is the returned -1. *)
Definition _Decapsulate (packet : bytes) (x : noise) : option (Z * bytes) * noise :=
  if (zlen packet <? 32) || negb (at_ packet 0 =? 4) then (None, x)
  else
    let counter := load64_le packet 8 in
    match AeadDecrypt (fRecvKey x) counter (zdrop 16 packet) [] with
    | None => (None, x)
    | Some out =>
        let '(ok, r) := Replay._ReplayValidate (fReplay x) counter in
        let x := with_counters (fSendCounter x) r x in
        if negb ok then (None, x) else (Some (ip_packet_length out (zlen packet - 16 - 16), out), x)
    end.

(** ** The transport loop *)

(** What select returns, with what the two reads then give. *)
Inductive ready := SelectInterrupted | SelectFailed | Ready (tun udp : option bytes).

(** One turn: select, whether sends are accepted, the clock after a send, after
    the packets and after a rekey, the rekey's draws, and whether a stop was
    requested when the rekey test is made. *)
Record turn := mkTurn {
  t_ready : ready; t_sent : bool; t_sendTime : Z; t_now : Z; t_stopped : bool; t_rekey : hs_in; t_rekeyTime : Z }.

Record outputs := mkOut { to_udp : list bytes; to_tun : list bytes; to_looper : list posted }.

Definition outbound (t : turn) (tun : option bytes) (x : noise) (l : loop) (o : outputs) : noise * loop * outputs :=
  match tun with
  | Some ((_ :: _) as data) =>
      let plain := ztake 1500 data in
      match _Encapsulate plain x with
      | (Some wire, x) =>
          if t_sent t then
            (x, mkLoop (t_sendTime t) (lastStats l) (handshakeTime l) (bytesIn l) (u64 (bytesOut l + zlen plain)),
             mkOut (to_udp o ++ [wire]) (to_tun o) (to_looper o))
          else (x, l, o)
      | (None, x) => (x, l, o)
      end
  | _ => (x, l, o)
  end.

Definition inbound (udp : option bytes) (x : noise) (l : loop) (o : outputs) : noise * loop * outputs :=
  match udp with
  | Some ((_ :: _) as data) =>
      match _Decapsulate (ztake 2048 data) x with
      | (Some (plen, out), x) =>
          if plen >? 0 then
            (x, mkLoop (lastSend l) (lastStats l) (handshakeTime l) (u64 (bytesIn l + plen)) (bytesOut l),
             mkOut (to_udp o) (to_tun o ++ [ztake plen out]) (to_looper o))
          else (x, l, o)
      | (None, x) => (x, l, o)
      end
  | _ => (x, l, o)
  end.

Definition send_keepalive (t : turn) (keepalive : Z) (x : noise) (l : loop) (o : outputs) : noise * loop * outputs :=
  if (keepalive >? 0) && (t_now t - lastSend l >=? keepalive) then
    let '(wire, x) := _Encapsulate [] x in
    (x, mkLoop (t_now t) (lastStats l) (handshakeTime l) (bytesIn l) (bytesOut l),
     match wire with
     | Some w => if t_sent t then mkOut (to_udp o ++ [w]) (to_tun o) (to_looper o) else o
     | None => o
     end)
  else (x, l, o).

Definition post_stats (t : turn) (l : loop) (o : outputs) : loop * outputs :=
  if t_now t - lastStats l >=? 1000000 then
    (mkLoop (lastSend l) (t_now t) (handshakeTime l) (bytesIn l) (bytesOut l),
     mkOut (to_udp o) (to_tun o) (to_looper o ++ [WgStats (s64 (bytesIn l)) (s64 (bytesOut l))]))
  else (l, o).

(** False when the session is dropped. *)
Definition rekey (t : turn) (x : noise) (l : loop) (o : outputs) : bool * noise * loop * outputs :=
  if (t_now t - handshakeTime l >=? kRekeyAfterTime) && negb (t_stopped t) then
    let '(ok, x, sent) := _PerformHandshake (t_rekey t) x in
    let o := mkOut (to_udp o ++ sent) (to_tun o) (to_looper o) in
    if ok then
      (true, with_counters 0 Replay.ResetReplay x, mkLoop (t_rekeyTime t) (lastStats l) (t_rekeyTime t) (bytesIn l) (bytesOut l), o)
    else (negb (t_now t - handshakeTime l >=? kRejectAfterTime), x, l, o)
  else (true, x, l, o).

(** The body of the while loop; false when it breaks out. *)
Definition loop_turn (keepalive : Z) (t : turn) (x : noise) (l : loop) : bool * noise * loop * outputs :=
  let o := mkOut [] [] [] in
  match t_ready t with
  | SelectInterrupted => (true, x, l, o)
  | SelectFailed => (false, x, l, o)
  | Ready tun udp =>
      let '(x, l, o) := outbound t tun x l o in
      let '(x, l, o) := inbound udp x l o in
      let '(x, l, o) := send_keepalive t keepalive x l o in
      let '(l, o) := post_stats t l o in
      rekey t x l o
  end.

Definition keepalive_of (c : config) : Z :=
  if persistentKeepalive (peer c) >? 0 then persistentKeepalive (peer c) * 1000000 else 0.

(** ** The reader thread against the looper *)

(** One handshake attempt, with the clock after it, or one turn of the loop. *)
Inductive reader_step := RunAttempt (i : hs_in) (now : Z) | RunTurn (t : turn).

Definition post (m : posted) (r : reader) (b : wg) : wg := with_queue (queue b ++ [m]) (with_reader r b).

(** _RunReaderLoop, a step at a time; a turn is not interrupted by the looper. *)
Definition _RunReaderLoop (r : reader_step) (b : wg) : wg :=
  match fReader b, r with
  | Handshaking n, RunAttempt i now =>
      if (n <? kHandshakeAttempts)%nat && negb (fStopRequested b) then
        let '(ok, x, _) := _PerformHandshake i (nz b) in
        if ok then post WgConnected (Transport (mkLoop now now now 0 0)) (with_nz (with_counters 0 Replay.ResetReplay x) b)
        else with_reader (Handshaking (S n)) (with_nz x b)
      else post (WgReaderExited (if fStopRequested b then [] else bs "handshake failed")) Finished b
  | Transport l, RunTurn t =>
      if fStopRequested b then post (WgReaderExited []) Finished b
      else
        let '(goes_on, x, l, o) := loop_turn (keepalive_of (fConfig b)) t (nz b) l in
        let b := with_queue (queue b ++ to_looper o) (with_reader (Transport l) (with_nz x b)) in
        if goes_on then b else post (WgReaderExited []) Finished b
  | _, _ => b
  end.

(** The looper and the reader, interleaved. *)
Inductive event :=
| EvConnect (y : sys) (p : VPNProfile.profile)
| EvDisconnect (y : sys)
| EvRecover (y : sys)
| EvReader (r : reader_step)
| EvDeliver (y : sys).

Definition step (b : wg) (e : event) : wg :=
  match e with
  | EvConnect y p => snd (Connect y p b)
  | EvDisconnect y => Disconnect y b
  | EvRecover y => RecoverIfCrashed y b
  | EvReader r => _RunReaderLoop r b
  | EvDeliver y => match queue b with m :: q => MessageReceived y m (with_queue q b) | [] => b end
  end.

Definition steps (es : list event) (b : wg) : wg := fold_left step es b.
End WithOpenSSL.

End WgBackend.
