(* ===== verification/WgBackendProofs.v ===== *)
(** * WgBackendProofs: what the WireGuard backend guarantees (proofs about WgBackend.v)

    Every interleaving of the looper and the reader keeps the state honest: a
    backend that is not live holds nothing of the system, a session that ends
    puts the host's routes and resolver back, a disconnect completes, and the
    handshake and the transport are those of WGPeer. *)

From S2P Require Import Prelude CLib Endian Blake2s Crypto Replay WGPeer Routes Message Profiles Configs Tun Daemon WgBackend.
Import Message VPNProtocol VPNState WireGuardConfigParser Crypto TunDevice WgBackend.
Open Scope Z_scope.
Open Scope soto_scope.

Module WgBackendProofs.

(** ** What a backend that is not live holds *)

Definition is_live (state : Z) : Prop := state = VPN_STATE_CONNECTING \/ state = VPN_STATE_CONNECTED.
Definition is_down (state : Z) : Prop := state = VPN_STATE_DISCONNECTED \/ state = VPN_STATE_ERROR.

Definition idle (b : wg) : Prop :=
  fReader b = NoReader /\ queue b = [] /\ fRoutesInstalled (nt b) = false
  /\ fTunInterface (nt b) = [] /\ fUdpSocket (nt b) = false /\ fTunFd (nt b) = false.

Definition is_stats (m : posted) : Prop := match m with WgStats _ _ => True | _ => False end.

(** The messages of a session that came up, some of them handled. *)
Definition pending (state : Z) (q : list posted) : Prop :=
  (state = VPN_STATE_CONNECTED /\ Forall is_stats q)
  \/ (state = VPN_STATE_CONNECTING /\ exists q', q = WgConnected :: q' /\ Forall is_stats q').

Definition active (b : wg) : Prop :=
  match fReader b with
  | NoReader => False
  | Handshaking _ => fState b = VPN_STATE_CONNECTING /\ queue b = []
  | Transport _ => pending (fState b) (queue b)
  | Finished => exists q d, queue b = q ++ [WgReaderExited d]
      /\ (pending (fState b) q \/ (fState b = VPN_STATE_CONNECTING /\ q = []))
  end /\ (fRoutesInstalled (nt b) = true -> fState b = VPN_STATE_CONNECTED).

Definition wf (b : wg) : Prop := (is_down (fState b) /\ idle b) \/ active b.

Lemma pending_live st q : pending st q -> is_live st.
Proof. intros [[-> _]|[-> _]]; [by right|by left]. Qed.

Lemma active_live b : active b -> is_live (fState b).
Proof.
  unfold active. intros [Hr _]. destruct (fReader b); [done|by left; apply Hr|by eapply pending_live|].
  destruct Hr as (q & d & _ & [Hp|[-> _]]); [by eapply pending_live|by left].
Qed.

Lemma live_not_down st : is_live st -> ~ is_down st.
Proof. unfold is_live, is_down, VPN_STATE_CONNECTING, VPN_STATE_CONNECTED, VPN_STATE_DISCONNECTED, VPN_STATE_ERROR. lia. Qed.

(** ** Cleaning up *)

Lemma RestoreDns_net y b : nt (_RestoreDns y b) = nt b /\ fConfig (_RestoreDns y b) = fConfig b /\ fReader (_RestoreDns y b) = fReader b
  /\ queue (_RestoreDns y b) = queue b /\ fState (_RestoreDns y b) = fState b /\ cmds (hst (_RestoreDns y b)) = cmds (hst b).
Proof. unfold _RestoreDns, move_back. destruct (backup (hst b)); [|done]. by destruct (s_rename y). Qed.

Lemma RemoveRoutes_same y b : fTunInterface (nt (_RemoveRoutes y b)) = fTunInterface (nt b) /\ fRoutesInstalled (nt (_RemoveRoutes y b)) = false
  /\ fReader (_RemoveRoutes y b) = fReader b /\ queue (_RemoveRoutes y b) = queue b /\ fState (_RemoveRoutes y b) = fState b.
Proof.
  unfold _RemoveRoutes. destruct (fRoutesInstalled (nt b)) eqn:E; cbn [negb]; [|done]. cbv zeta.
  destruct (RestoreDns_net y b) as (E1 & E2 & E3 & E4 & E5 & _). cbn. by rewrite E1, E3, E4, E5.
Qed.

Lemma Cleanup_idle y b : queue b = [] -> idle (_Cleanup y b) /\ fState (_Cleanup y b) = fState b.
Proof.
  intros Hq. unfold _Cleanup. cbv zeta. set (b0 := with_reader NoReader _). destruct (RemoveRoutes_same y b0) as (E1 & E2 & E3 & E4 & E5).
  set (b1 := _RemoveRoutes y b0) in *. unfold idle. destruct (Z.gtb_spec (zlen (fTunInterface (nt b1))) 0) as [H|H].
  - cbn. rewrite E2, E3, E4, E5. done.
  - cbn. rewrite E2, E3, E4, E5. assert (Ez : zlen (fTunInterface (nt b1)) = 0) by (pose proof (zlen_nonneg (fTunInterface (nt b1))); lia).
    apply zlen_0_nil in Ez. by rewrite Ez.
Qed.

Lemma SetState_idle st d b : idle b -> idle (_SetState st d b).
Proof. done. Qed.

Lemma fail_wf y d b : queue b = [] -> wf (snd (fail y d b)).
Proof. intros Hq. left. cbn. split; [by right|]. apply SetState_idle. by apply Cleanup_idle. Qed.

(** ** Requests *)

Lemma DecodeKeys_same b : let b' := snd (_DecodeKeys b) in
  nt b' = nt b /\ queue b' = queue b /\ fReader b' = fReader b /\ hst b' = hst b /\ fConfig b' = fConfig b.
Proof.
  unfold _DecodeKeys. cbv zeta. destruct (decode_key (privateKey _)); [|done]. destruct (decode_key (publicKey _)); [|done].
  destruct (_ >? 0); [|done]. by destruct (decode_key (presharedKey _)).
Qed.

Lemma BringUpTun_same y b : let b' := snd (_BringUpTun y b) in
  queue b' = queue b /\ fReader b' = fReader b /\ fState b' = fState b /\ fRoutesInstalled (nt b') = fRoutesInstalled (nt b).
Proof.
  unfold _BringUpTun. cbv zeta. destruct (ProbeFreeSlot _ _) as [[[i n]|] cs]; [|done]. destruct (zlen _ =? 0); [done|]. done.
Qed.

Lemma OpenUdpSocket_same y b : let b' := snd (_OpenUdpSocket y b) in
  queue b' = queue b /\ fReader b' = fReader b /\ fState b' = fState b /\ fRoutesInstalled (nt b') = fRoutesInstalled (nt b).
Proof. unfold _OpenUdpSocket. cbv zeta. destruct (s_resolve _ _) as [[[[? ?] ?] ?]|]; [|done]. by destruct (s_socket y). Qed.

Lemma Connect_wf y p b : wf b -> wf (snd (Connect y p b)).
Proof.
  intros Hb. unfold Connect. destruct (negb _ && negb _) eqn:Es; [done|].
  destruct Hb as [[Hd Hi]|Ha].
  2: { exfalso. apply active_live in Ha. apply andb_false_iff in Es. rewrite !negb_false_iff, !Z.eqb_eq in Es.
       by apply (live_not_down _ Ha). }
  pose proof Hi as (Hr & Hq & Hn & _ & _ & _).
  destruct (zlen _ =? 0); [left; split; [by right|done]|].
  destruct (ParseFile _ _ _) as [[] c]; [|left; split; [by right|done]]. cbv zeta.
  destruct (negb (IsComplete c)); [left; split; [by right|done]|].
  set (b0 := mkWg _ _ _ _ _ _ _ _ _ _ _ _). destruct (DecodeKeys_same b0) as (K1 & K2 & K3 & _).
  destruct (_DecodeKeys b0) as [[] b1]; cbn [snd] in *.
  2: { left. split; [by right|]. unfold idle in *. cbn. rewrite K1, K2, K3. done. }
  set (b2 := _SetState VPN_STATE_CONNECTING None b1).
  assert (E2 : queue b2 = [] /\ fReader b2 = NoReader /\ fState b2 = VPN_STATE_CONNECTING /\ fRoutesInstalled (nt b2) = false).
  { unfold b2. cbn. rewrite K1, K2, K3. done. }
  pose proof (BringUpTun_same y b2) as B3. destruct (_BringUpTun y b2) as [ok3 b3]. cbn [snd] in B3. destruct B3 as (Q3 & R3 & S3 & I3).
  destruct E2 as (Q2 & R2 & S2 & I2). rewrite Q2 in Q3. destruct ok3; [|by apply fail_wf].
  pose proof (OpenUdpSocket_same y b3) as B4. destruct (_OpenUdpSocket y b3) as [ok4 b4]. cbn [snd] in B4. destruct B4 as (Q4 & R4 & S4 & I4).
  rewrite Q3 in Q4. destruct ok4; [|by apply fail_wf]. unfold _OpenTunFd. cbv zeta. destruct (s_open y); [|by apply fail_wf].
  unfold _StartReader. destruct (s_thread y); cbn [fReader with_reader]; [|by apply fail_wf].
  right. unfold active. cbn. rewrite Q4, S4, S3, S2, I4, I3, I2. done.
Qed.

Lemma Disconnect_wf y b : wf b -> wf (Disconnect y b).
Proof.
  intros Hb. unfold Disconnect. destruct (fState b =? _); [done|]. cbv zeta. cbn [fReader with_stop].
  destruct (fReader b) eqn:Er; try (destruct Hb as [[_ (E & _)]|Ha]; [congruence|]; right; unfold active in *; cbn; by rewrite Er in *).
  destruct Hb as [[Hd Hi]|Ha]; [|unfold active in Ha; rewrite Er in Ha; by destruct Ha].
  left. split; [by left|]. apply SetState_idle, Cleanup_idle. apply Hi.
Qed.

(** ** Messages and the reader *)

Lemma InstallRoutes_same y b : let b' := _InstallRoutes y b in
  queue b' = queue b /\ fReader b' = fReader b /\ fState b' = fState b /\ fConfig b' = fConfig b.
Proof.
  unfold _InstallRoutes. cbv zeta. destruct (fRoutesInstalled _); [done|]. destruct (cidrs_of b); [done|].
  assert (A : forall x, queue (_ApplyDns y x) = queue x /\ fReader (_ApplyDns y x) = fReader x /\ fState (_ApplyDns y x) = fState x
    /\ fConfig (_ApplyDns y x) = fConfig x) by (intros x; unfold _ApplyDns; destruct (nameserver _); [|done]; by destruct (s_write y)).
  destruct (DefaultGateway _) as [[g i]|], (existsb _ _); try done; cbn [default from_option id andb];
    try (destruct (zlen (fOrigGateway _) >? 0)); try done;
    match goal with |- context [_ApplyDns y ?x] => destruct (A x) as (E1 & E2 & E3 & E4) end;
    cbn [queue fReader fState fConfig with_nt]; by rewrite E1, E2, E3, E4.
Qed.

(** The queue has no part in it. *)
Lemma InstallRoutes_queue y q b :
  nt (_InstallRoutes y (with_queue q b)) = nt (_InstallRoutes y b) /\ hst (_InstallRoutes y (with_queue q b)) = hst (_InstallRoutes y b).
Proof.
  unfold _InstallRoutes. change (nt (with_queue q b)) with (nt b). change (cidrs_of (with_queue q b)) with (cidrs_of b).
  destruct (fRoutesInstalled (nt b)); [done|]. destruct (cidrs_of b) as [|r0 rs]; [done|].
  assert (A : forall cs n, nt (_ApplyDns y (with_cmds cs (with_nt n (with_queue q b)))) = nt (_ApplyDns y (with_cmds cs (with_nt n b)))
    /\ hst (_ApplyDns y (with_cmds cs (with_nt n (with_queue q b)))) = hst (_ApplyDns y (with_cmds cs (with_nt n b)))).
  { intros cs n. unfold _ApplyDns. change (fConfig (with_cmds cs (with_nt n (with_queue q b)))) with (fConfig b).
    change (fConfig (with_cmds cs (with_nt n b))) with (fConfig b). destruct (nameserver _); [|done]. by destruct (s_write y). }
  destruct (DefaultGateway _) as [[g i]|]; [|destruct (existsb _ _); [done|]]; cbv zeta; cbn [default from_option id];
    match goal with |- context [if ?c then _ApplyDns y ?x else _] => destruct c end; try done;
    change (cmds (hst (with_queue q b))) with (cmds (hst b)); cbn [nt hst with_nt]; by rewrite !(proj1 (A _ _)), !(proj2 (A _ _)).
Qed.

Lemma pending_snoc_stats st q q' : pending st q -> Forall is_stats q' -> pending st (q ++ q').
Proof.
  intros [[-> H]|[-> (k & -> & H)]] H'; [left|right]; (split; [done|]).
  - by apply Forall_app.
  - exists (k ++ q'). split; [done|]. by apply Forall_app.
Qed.

Lemma MessageReceived_wf y m q b : wf b -> queue b = m :: q -> wf (MessageReceived y m (with_queue q b)).
Proof.
  intros [[_ (_ & Hq & _)]|Ha] E; [congruence|]. pose proof Ha as [Hr Hi].
  assert (P : forall q', pending (fState b) (m :: q') ->
            (m = WgConnected /\ fState b = VPN_STATE_CONNECTING /\ Forall is_stats q')
            \/ (is_stats m /\ fState b = VPN_STATE_CONNECTED /\ Forall is_stats q')).
  { intros q' [[? Hs]|[? (k & Ek & Hs)]]; [right|left; by injection Ek as -> ->]. apply Forall_cons in Hs as [? ?]. done. }
  assert (Z : forall x, MessageReceived y WgConnected x = _SetState VPN_STATE_CONNECTED None (_InstallRoutes y x)) by done.
  unfold active in Ha. rewrite E in *. destruct (fReader b) as [|n|l|] eqn:Er; [done|by destruct Hr| |].
  - right. destruct (P q Hr) as [(-> & Hs & Hst)|(Hm & Hs & Hst)].
    + rewrite Z. destruct (InstallRoutes_same y (with_queue q b)) as (E1 & E2 & E3 & _). unfold active. cbn. rewrite E1, E2. cbn. rewrite Er.
      split; [by left|done].
    + destruct m as [|i o|d]; try done. unfold active. cbn. rewrite Er, Hs. split; [by left|done].
  - destruct Hr as (k & d & Ek & Hk). destruct k as [|m' k].
    + injection Ek as -> ->. cbn [MessageReceived]. cbv zeta. destruct (Cleanup_idle y (with_queue [] b)) as [Ci _]; [done|].
      destruct (zlen d >? 0); left; (split; [by right + by left|by apply SetState_idle]).
    + injection Ek as <- ->. right. destruct Hk as [Hp|[_ Hn]]; [|done]. destruct (P k Hp) as [(-> & Hs & Hst)|(Hm & Hs & Hst)].
      * rewrite Z. destruct (InstallRoutes_same y (with_queue (k ++ [WgReaderExited d]) b)) as (E1 & E2 & E3 & _). unfold active. cbn.
        rewrite E1, E2. cbn. rewrite Er. split; [|done]. exists k, d. split; [done|]. left. by left.
      * destruct m as [|i o|d']; try done. unfold active. cbn. rewrite Er, Hs. split; [|done]. exists k, d. split; [done|]. left. by left.
Qed.

Section WithOpenSSL.
Context `{OpenSSL}.

Lemma loop_turn_posts k t x l : Forall is_stats (to_looper (snd (loop_turn k t x l))).
Proof.
  unfold loop_turn. cbv zeta. destruct (t_ready t) as [| |tun udp]; [apply Forall_nil_2..|].
  assert (A : to_looper (snd (outbound t tun x l (mkOut [] [] []))) = []).
  { unfold outbound. destruct tun as [[|c d]|]; [done| |done]. destruct (_Encapsulate _ x) as [[w|] x1]; [|done]. by destruct (t_sent t). }
  destruct (outbound _ _ _ _ _) as [[x1 l1] o1]. cbn [snd] in A.
  assert (B : to_looper (snd (inbound udp x1 l1 o1)) = []).
  { unfold inbound. destruct udp as [[|c d]|]; [done| |done]. destruct (_Decapsulate _ x1) as [[[n w]|] x2]; [|done]. by destruct (n >? 0). }
  destruct (inbound _ _ _ _) as [[x2 l2] o2]. cbn [snd] in B.
  assert (C : to_looper (snd (send_keepalive t k x2 l2 o2)) = []).
  { unfold send_keepalive. destruct (_ && _); [|done]. destruct (_Encapsulate [] x2) as [[w|] x3]; [|done]. by destruct (t_sent t). }
  destruct (send_keepalive _ _ _ _ _) as [[x3 l3] o3]. cbn [snd] in C.
  assert (D : Forall is_stats (to_looper (snd (post_stats t l3 o3)))).
  { unfold post_stats. destruct (_ >=? _); cbn [snd to_looper]; rewrite C; [by apply Forall_cons_2; [|apply Forall_nil_2]|apply Forall_nil_2]. }
  destruct (post_stats _ _ _) as [l4 o4]. cbn [snd] in D. unfold rekey. destruct (_ && _); [|done].
  destruct (_PerformHandshake _ x3) as [[ok x5] sent]. by destruct ok.
Qed.

Lemma reader_wf r b : wf b -> wf (_RunReaderLoop r b).
Proof.
  intros Hb. unfold _RunReaderLoop. destruct (fReader b) as [|n|l|] eqn:Er; try (by destruct r); (destruct Hb as [[_ (E & _)]|Ha]; [congruence|]);
    destruct r as [i now|t]; try (by right); unfold active in Ha; rewrite Er in Ha; destruct Ha as [Hr Hi]; right.
  - destruct Hr as [Hs Hq]. destruct (_ && _).
    + destruct (_PerformHandshake i (nz b)) as [[ok x] s]. destruct ok; unfold active; cbn; rewrite Hq; (split; [|exact Hi]); [|done].
      right. split; [done|]. by exists [].
    + unfold active. cbn. rewrite Hq. split; [|done]. eexists [], _. split; [done|]. by right.
  - destruct (fStopRequested b).
    + unfold active. cbn. split; [|done]. eexists _, _. split; [done|]. by left.
    + pose proof (loop_turn_posts (keepalive_of (fConfig b)) t (nz b) l) as Hp. destruct (loop_turn _ t (nz b) l) as [[[go x] l1] o].
      cbn [snd] in Hp. cbv zeta. pose proof (pending_snoc_stats _ _ _ Hr Hp) as Hr2.
      destruct go; unfold active; cbn; (split; [|done]); [done|]. eexists _, _. split; [done|]. by left.
Qed.

Lemma step_wf b e : wf b -> wf (step b e).
Proof.
  intros Hb. destruct e as [y p|y|y|r|y]; cbn [step].
  - by apply Connect_wf.
  - by apply Disconnect_wf.
  - unfold RecoverIfCrashed. destruct (RestoreDns_net y b) as (E1 & E2 & E3 & E4 & E5 & _). unfold wf, active, idle in *. by rewrite E1, E3, E4, E5.
  - by apply reader_wf.
  - destruct (queue b) as [|m q] eqn:E; [done|]. by apply MessageReceived_wf.
Qed.

Lemma steps_wf es b : wf b -> wf (steps es b).
Proof. revert b. induction es as [|e es IH]; intros b Hb; [done|]. apply IH, step_wf, Hb. Qed.

Lemma fresh_wf h : wf (WireGuardBackend h).
Proof. left. split; [by left|done]. Qed.

(** C14: Nothing outlives a session: in any interleaving of requests, the reader thread and its messages, a WireGuard backend whose state is Disconnected or Error has no reader thread, no message in its queue, no routes, no tunnel interface and no open descriptor; in any other state, which is Connecting or Connected, its reader has not been joined and routes are installed only once Connected. *)
Theorem down_holds_nothing h es :
  let b := steps es (WireGuardBackend h) in
  (fState b = VPN_STATE_DISCONNECTED \/ fState b = VPN_STATE_ERROR ->
     fReader b = NoReader /\ queue b = [] /\ fRoutesInstalled (nt b) = false
     /\ fTunInterface (nt b) = [] /\ fUdpSocket (nt b) = false /\ fTunFd (nt b) = false)
  /\ (~ (fState b = VPN_STATE_DISCONNECTED \/ fState b = VPN_STATE_ERROR) ->
     (fState b = VPN_STATE_CONNECTING \/ fState b = VPN_STATE_CONNECTED) /\ fReader b <> NoReader
     /\ (fRoutesInstalled (nt b) = true -> fState b = VPN_STATE_CONNECTED)).
Proof.
  cbv zeta. destruct (steps_wf es _ (fresh_wf h)) as [[Hd Hi]|Ha].
  - split; [done|]. intros Hn. by destruct (Hn Hd).
  - pose proof (active_live _ Ha) as Hl. split; [intros Hd; by destruct (live_not_down _ Hl)|]. intros _. destruct Ha as [Hr Hi].
    split; [exact Hl|]. split; [|done]. intros E. by rewrite E in Hr.
Qed.

(** ** Disconnecting *)

Definition not_exit (m : posted) : Prop := match m with WgReaderExited _ => False | _ => True end.

Lemma pending_not_exit st q : pending st q -> Forall not_exit q.
Proof.
  intros [[_ Hq]|[_ (k & -> & Hq)]]; [|apply Forall_cons_2; [done|]]; apply (Forall_impl _ _ _ Hq); by intros [].
Qed.

(** Once the reader has returned, its last message settles the state. *)
Lemma deliver_all ys q d b :
  fReader b = Finished -> queue b = q ++ [WgReaderExited d] -> Forall not_exit q -> length ys = S (length q) ->
  fState (steps (map EvDeliver ys) b) = if zlen d >? 0 then VPN_STATE_ERROR else VPN_STATE_DISCONNECTED.
Proof.
  revert ys b. induction q as [|m q IH]; intros [|y ys] b Hr Hq Hn Hl; try done.
  - destruct ys; [|done]. unfold steps. cbn [map fold_left step]. rewrite Hq. cbn [app MessageReceived]. cbv zeta. by destruct (zlen d >? 0).
  - apply Forall_cons in Hn as [Hm Hn]. cbn [map]. change (steps (EvDeliver y :: map EvDeliver ys) b) with (steps (map EvDeliver ys) (step b (EvDeliver y))).
    cbn [step]. rewrite Hq. cbn [app]. apply IH; [| |done|cbn in Hl; lia].
    + destruct m; try done. cbn [MessageReceived]. cbn [fReader _SetState]. by rewrite (proj1 (proj2 (InstallRoutes_same y (with_queue (q ++ [WgReaderExited d]) b)))).
    + destruct m; try done. cbn [MessageReceived]. cbn [queue _SetState]. by rewrite (proj1 (InstallRoutes_same y (with_queue (q ++ [WgReaderExited d]) b))).
Qed.

(** One step of a reader that was told to stop. *)
Lemma reader_stops r b : fStopRequested b = true ->
  match fReader b, r with
  | Handshaking _, RunAttempt _ _ | Transport _, RunTurn _ => _RunReaderLoop r b = post (WgReaderExited []) Finished b
  | _, _ => _RunReaderLoop r b = b
  end.
Proof.
  intros Hs. unfold _RunReaderLoop. rewrite Hs. cbn [negb]. destruct (fReader b), r; try done. by rewrite andb_false_r.
Qed.

Lemma stopped_reader b i now t : fStopRequested b = true -> fReader b <> NoReader ->
  let b1 := _RunReaderLoop (RunTurn t) (_RunReaderLoop (RunAttempt i now) b) in
  fReader b1 = Finished /\ (fReader b <> Finished -> queue b1 = queue b ++ [WgReaderExited []]) /\ fState b1 = fState b.
Proof.
  intros Hs Hr. cbv zeta. pose proof (reader_stops (RunAttempt i now) b Hs) as A. destruct (fReader b) eqn:E; [done| | |].
  - rewrite A. by rewrite (reader_stops (RunTurn t) (post (WgReaderExited []) Finished b) Hs).
  - rewrite A. pose proof (reader_stops (RunTurn t) b Hs) as B. rewrite E in B. by rewrite B.
  - rewrite A. pose proof (reader_stops (RunTurn t) b Hs) as B. rewrite E in B. by rewrite B, E.
Qed.

(** C24: A disconnect completes: from any state the backend can reach, after Disconnect one more step of the reader thread (a handshake attempt or a turn of the loop, whatever it finds) ends it, and when the looper has handled the messages then in its queue the backend is down, and Disconnected unless the reader had already returned. *)
Theorem disconnect_completes h es y i now t ys :
  let b := steps es (WireGuardBackend h) in
  let b1 := steps [EvDisconnect y; EvReader (RunAttempt i now); EvReader (RunTurn t)] b in
  length ys = length (queue b1) ->
  let b2 := steps (map EvDeliver ys) b1 in
  (fState b2 = VPN_STATE_DISCONNECTED \/ fState b2 = VPN_STATE_ERROR)
  /\ (fReader b <> Finished -> fState b2 = VPN_STATE_DISCONNECTED).
Proof.
  cbv zeta. set (b := steps es _). assert (Hb : wf b) by apply steps_wf, fresh_wf. clearbody b. intros Hl.
  assert (W : wf (steps [EvDisconnect y; EvReader (RunAttempt i now); EvReader (RunTurn t)] b)) by by apply steps_wf.
  unfold steps at 1 in W. unfold steps at 1 in Hl. unfold steps at 2 4 6. cbn [fold_left step] in *. unfold Disconnect in *. cbv zeta in *.
  assert (Down : forall x, fReader x = NoReader -> queue x = [] -> fState x = VPN_STATE_DISCONNECTED ->
    length ys = length (queue (_RunReaderLoop (RunTurn t) (_RunReaderLoop (RunAttempt i now) x))) ->
    fState (steps (map EvDeliver ys) (_RunReaderLoop (RunTurn t) (_RunReaderLoop (RunAttempt i now) x))) = VPN_STATE_DISCONNECTED).
  { intros x Er Eq Es. assert (E : forall r, _RunReaderLoop r x = x) by (intros r; unfold _RunReaderLoop; rewrite Er; by destruct r).
    rewrite !E, Eq. by destruct ys. }
  destruct (Z.eqb_spec (fState b) VPN_STATE_DISCONNECTED) as [E|E].
  { destruct Hb as [[_ (Er & Eq & _)]|Ha]; [|apply active_live in Ha; rewrite E in Ha; by destruct Ha]. rewrite Down by done. tauto. }
  cbn [fReader with_stop] in *. destruct (fReader b) eqn:Er.
  { destruct Hb as [[_ Hi]|Ha]; [|unfold active in Ha; rewrite Er in Ha; by destruct Ha].
    destruct (Cleanup_idle y (with_stop true b)) as [(Cr & Cq & _) _]; [apply Hi|]. rewrite Down by done. tauto. }
  all: destruct (stopped_reader (with_stop true b) i now t eq_refl) as (F1 & F2 & F3); [cbn; by rewrite Er|];
    set (b1 := _RunReaderLoop _ _) in *; cbn [fReader queue fState with_stop] in *; rewrite Er in F2;
    (destruct W as [[_ (E2 & _)]|Ha]; [congruence|]); unfold active in Ha; rewrite F1 in Ha; destruct Ha as [(q & d & Hq & Hp) _];
    (assert (Hn : Forall not_exit q) by (destruct Hp as [Hp|[_ ->]]; [by eapply pending_not_exit|apply Forall_nil_2]));
    rewrite (deliver_all ys q d b1 F1 Hq Hn) by (rewrite Hl, Hq, length_app; cbn; lia);
    (split; [destruct (zlen d >? 0); tauto|]); intros Hf.
  1,2: rewrite Hq in F2; specialize (F2 ltac:(done)); apply app_inj_tail in F2 as [_ [= ->]]; done.
  done.
Qed.

End WithOpenSSL.
(** ** Routes and DNS are put back *)

Section WithTable.
Context {T : Type} `{RouteTableLaws T}.

Definition table (b : wg) (t : T) : T := run_cmds (cmds (hst b)) t.
(** What the installation relies on: the gateway route reports is in the table,
    and the entries it adds are not. *)
Definition routes_new (y : sys) (b : wg) (t : T) : Prop :=
  (forall g i, DefaultGateway (s_route y) = Some (g, i) ->
     entries (table b t) (route_entry i zero_addr g zero_addr) /\ ~ entries (table b t) (route_entry i (fEndpointIP (nt b)) g host_mask))
  /\ (forall r, r ∈ cidrs_of b -> ~ entries (table b t) (tunnel_entry (nt b) r)).

(** The resolver's file, if it was there and could be moved aside: back, with
    no backup left, or still in the backup when renames may fail ([P] says that
    those of the session's end did not). *)
Definition resolver_kept (P : Prop) (y : sys) (b b' : wg) : Prop :=
  backup (hst b) = None -> resolv (hst b) <> None -> s_rename y = true ->
  (resolv (hst b') = resolv (hst b) /\ backup (hst b') = None) \/ (~ P /\ backup (hst b') = resolv (hst b)).

Definition restored (P : Prop) (y : sys) (b b' : wg) (t : T) : Prop :=
  same_routes (table b' t) (table b t) /\ resolver_kept P y b b'.

(** The commands of an installation and of its removal, for one net. *)
Lemma undone (n : net) (es : list (list bytes)) (pin drop : bool) (t : T) :
  (drop = true -> entries t (default_entry n)) -> (pin = true -> ~ entries t (pin_entry n)) ->
  (forall e, e ∈ es -> ~ entries t e) ->
  let cs := [] in
  let cs := if pin then run_routes "add" [pin_entry n] cs else cs in
  let cs := if drop then run_routes "delete" [default_entry n] cs else cs in
  let cs := run_routes "add" es cs in
  let cs := run_routes "delete" es cs in
  let cs := if drop then run_routes "add" [default_entry n] cs else cs in
  let cs := if pin then run_routes "delete" [pin_entry n] cs else cs in
  same_routes (run_cmds cs t) t.
Proof.
  intros Hd Hp He. cbv zeta. assert (Hne : pin_entry n <> default_entry n) by (unfold pin_entry, default_entry, route_entry; intros [=]).
  intros x. destruct pin, drop; repeat rewrite ?run_routes_cmds, ?run_cmds_app; repeat rewrite ?added, ?deleted; cbn [run_cmds fold_left];
    rewrite ?list_elem_of_singleton; specialize (He x); try specialize (Hd eq_refl); try specialize (Hp eq_refl);
    destruct (decide (x ∈ es)), (decide (x = pin_entry n)), (decide (x = default_entry n)); subst; tauto.
Qed.

Lemma ApplyDns_same y b : nt (_ApplyDns y b) = nt b /\ fConfig (_ApplyDns y b) = fConfig b /\ cmds (hst (_ApplyDns y b)) = cmds (hst b).
Proof.
  unfold _ApplyDns, move_aside. destruct (nameserver _); [|done]. cbv zeta.
  by destruct (s_write y), (backup (hst b)), (resolv (hst b)), (s_rename y).
Qed.

(** Applying and restoring the resolver's file. *)
Lemma dns_undone y y2 b : backup (hst b) = None -> resolv (hst b) <> None -> s_rename y = true ->
  let h := hst (_RestoreDns y2 (_ApplyDns y b)) in
  (resolv h = resolv (hst b) /\ backup h = None) \/ (s_rename y2 = false /\ backup h = resolv (hst b)).
Proof.
  intros Hb Hr Hy. cbv zeta. unfold _RestoreDns, _ApplyDns, move_aside, move_back. destruct (nameserver _); cbv zeta.
  - rewrite Hb, Hy. destruct (resolv (hst b)) as [r|]; [|done]. destruct (s_write y), (s_rename y2); cbn; auto.
  - rewrite Hb. auto.
Qed.

(** Removing the routes right after they were installed, the state in between
    being any with the same net, configuration and host. *)
Lemma remove_install (P : Prop) y y2 b b2 t : (P -> s_rename y2 = true) ->
  fRoutesInstalled (nt b) = false -> routes_new y b t ->
  nt b2 = nt (_InstallRoutes y b) -> hst b2 = hst (_InstallRoutes y b) -> fConfig b2 = fConfig b ->
  restored P y b (_RemoveRoutes y2 b2) t.
Proof.
  intros HP Hi [Hg Hc] En Eh Ec.
  assert (Ecid : cidrs_of b2 = cidrs_of b) by (unfold cidrs_of; by rewrite Ec).
  unfold _InstallRoutes in En, Eh. rewrite Hi in En, Eh.
  assert (Same : fRoutesInstalled (nt b2) = false -> hst b2 = hst b -> restored P y b (_RemoveRoutes y2 b2) t).
  { intros E1 E2. unfold _RemoveRoutes. rewrite E1. cbn [negb]. unfold restored, resolver_kept, table. rewrite E2. split; [done|]. by left. }
  destruct (cidrs_of b) as [|r0 rs] eqn:Er; [apply Same; [by rewrite En|done]|]. rewrite <- Er in *. clear r0 rs Er. cbv zeta in En, Eh.
  set (gw := DefaultGateway (s_route y)) in *. set (dflt := existsb WireGuardRoutes.isDefault (cidrs_of b)) in *.
  destruct (decide (gw = None /\ dflt = true)) as [[E1 E2]|Hn]; [rewrite E1, E2 in En, Eh; apply Same; [by rewrite En|done]|].
  set (g := fst (default ([], []) gw)). set (i := snd (default ([], []) gw)).
  set (n1 := with_gateway g i false (nt b)). set (drop := dflt && (zlen (fOrigGateway n1) >? 0)).
  set (n2 := with_gateway g i drop n1). set (pin := (zlen (fEndpointIP n1) >? 0) && (zlen (fOrigGateway n1) >? 0)).
  set (cs := run_routes "add" (map (tunnel_entry n2) (cidrs_of b))
               (if drop then run_routes "delete" [default_entry n2] (if pin then run_routes "add" [pin_entry n2] (cmds (hst b)) else cmds (hst b))
                else if pin then run_routes "add" [pin_entry n2] (cmds (hst b)) else cmds (hst b))).
  set (b1 := with_cmds cs (with_nt n2 b)).
  assert (Ei : nt b2 = with_installed true drop (nt (if drop then _ApplyDns y b1 else b1)) /\ hst b2 = hst (if drop then _ApplyDns y b1 else b1)).
  { unfold b1, cs, pin, drop, n2, n1, g, i in *. destruct gw as [[g' i']|]; [done|]. destruct dflt; [by destruct Hn|done]. }
  assert (Hpos : (zlen g >? 0) = true -> gw = Some (g, i)).
  { unfold g, i. destruct gw as [[g' i']|]; [done|]. cbn. done. }
  destruct Ei as [En2 Eh2]. clear En Eh Same Hn. destruct (ApplyDns_same y b1) as (A1 & A2 & A3).
  assert (Ent : nt b2 = with_installed true drop n2) by (rewrite En2; destruct drop; [by rewrite A1|done]).
  unfold _RemoveRoutes. rewrite Ent. change (negb (fRoutesInstalled (with_installed true drop n2))) with false. cbn iota. cbv zeta.
  destruct (RestoreDns_net y2 b2) as (R1 & R2 & _ & _ & _ & C1). rewrite R1, Ent.
  assert (Ecs : cidrs_of (_RestoreDns y2 b2) = cidrs_of b) by (unfold cidrs_of; by rewrite R2, Ec).
  rewrite Ecs.
  assert (C2 : cmds (hst (_RestoreDns y2 b2)) = cs) by (rewrite C1, Eh2; by destruct drop).
  rewrite C2. split; cycle 1.
  { unfold resolver_kept. cbn [hst with_nt with_cmds with_host resolv backup]. intros Hb Hr Hy.
    assert (Ex : hst (_RestoreDns y2 b2) = hst (_RestoreDns y2 (if drop then _ApplyDns y b1 else b1))).
    { unfold _RestoreDns. rewrite Eh2. by destruct (backup (hst (if drop then _ApplyDns y b1 else b1))). }
    rewrite Ex. destruct drop.
    - destruct (dns_undone y y2 b1 Hb Hr Hy) as [D|[D1 D2]]; [by left|right]. split; [|done]. intros HP'. by rewrite HP in D1.
    - unfold _RestoreDns. change (hst b1) with (mkHost cs (resolv (hst b)) (backup (hst b))). cbn [backup]. rewrite Hb. by left. }
  unfold table. cbn [hst with_nt with_cmds with_host cmds].
  pose proof (undone n2 (map (tunnel_entry n2) (cidrs_of b)) pin drop (table b t)) as U. cbv zeta in U.
  assert (Ef : fReplacedDefault (with_installed true drop n2) && (zlen (fOrigGateway (with_installed true drop n2)) >? 0) = drop).
  { change (fReplacedDefault (with_installed true drop n2)) with drop. change (fOrigGateway (with_installed true drop n2)) with g.
    unfold drop. change (fOrigGateway n1) with g. by destruct dflt, (zlen g >? 0). }
  rewrite Ef. change ((zlen (fEndpointIP (with_installed true drop n2)) >? 0) && (zlen (fOrigGateway (with_installed true drop n2)) >? 0)) with pin.
  change (tunnel_entry (with_installed true drop n2)) with (tunnel_entry n2). change (default_entry (with_installed true drop n2)) with (default_entry n2).
  change (pin_entry (with_installed true drop n2)) with (pin_entry n2).
  assert (Eapp : forall verb es l, run_routes verb es (cmds (hst b) ++ l) = cmds (hst b) ++ run_routes verb es l) by (intros; apply run_routes_app).
  replace cs with (cmds (hst b) ++ run_routes "add" (map (tunnel_entry n2) (cidrs_of b))
     (if drop then run_routes "delete" [default_entry n2] (if pin then run_routes "add" [pin_entry n2] [] else [])
      else if pin then run_routes "add" [pin_entry n2] [] else [])).
  2: { unfold cs. rewrite <- Eapp. f_equal. destruct drop, pin; rewrite <- ?Eapp, ?app_nil_r; done. }
  rewrite Eapp. intros x. etrans; [|apply U].
  - destruct drop, pin; rewrite ?Eapp, run_cmds_app; unfold table; reflexivity.
  - intros Hd. unfold drop in Hd. apply andb_true_iff in Hd as [_ Hd]. by apply Hg, Hpos.
  - intros Hp. unfold pin in Hp. apply andb_true_iff in Hp as [_ Hp]. by apply Hg, Hpos.
  - intros e (r & -> & Hr')%list_elem_of_fmap. by apply Hc.
Qed.

Lemma Cleanup_host y b :
  let b1 := _RemoveRoutes y (with_reader NoReader (with_stop true b)) in
  exists cs, hst (_Cleanup y b) = mkHost (cmds (hst b1) ++ map Ifconfig cs) (resolv (hst b1)) (backup (hst b1)).
Proof.
  unfold _Cleanup. cbv zeta. set (b1 := _RemoveRoutes _ _). destruct (zlen _ >? 0).
  - by eexists [_].
  - exists []. cbn. rewrite app_nil_r. by destruct (hst b1).
Qed.

Lemma Cleanup_restored P y y2 b b0 t :
  restored P y b (_RemoveRoutes y2 (with_reader NoReader (with_stop true b0))) t -> restored P y b (_Cleanup y2 b0) t.
Proof.
  destruct (Cleanup_host y2 b0) as [cs E]. unfold restored, resolver_kept, table in *. rewrite E. cbn [cmds resolv backup].
  by rewrite run_cmds_app, run_ifconfigs.
Qed.

Section WithOpenSSL2.
Context `{OpenSSL}.

(** Everything but a new connection or a daemon start. *)
Definition in_session (e : event) : Prop := match e with EvConnect _ _ | EvRecover _ => False | _ => True end.
(** The renames made while the looper handles a message succeed. *)
Definition renames (e : event) : Prop := match e with EvDeliver y => s_rename y = true | _ => True end.

(** Still in the session [b1] started, or over and put back as in [b]. *)
Definition kept (P : Prop) (y : sys) (b b1 : wg) (t : T) (c : wg) : Prop :=
  (wf c /\ fState c = VPN_STATE_CONNECTED /\ nt c = nt b1 /\ hst c = hst b1 /\ fConfig c = fConfig b)
  \/ (is_down (fState c) /\ idle c /\ restored P y b c t).

Lemma reader_same r b : nt (_RunReaderLoop r b) = nt b /\ hst (_RunReaderLoop r b) = hst b
  /\ fConfig (_RunReaderLoop r b) = fConfig b /\ fState (_RunReaderLoop r b) = fState b.
Proof.
  unfold _RunReaderLoop. destruct (fReader b) as [|n|l|], r as [i now|tn]; try done.
  - destruct (_ && _); [|done]. destruct (_PerformHandshake i (nz b)) as [[[] x] s]; done.
  - destruct (fStopRequested b); [done|]. destruct (loop_turn _ tn (nz b) l) as [[[go x] l1] o]. cbv zeta. by destruct go.
Qed.

(** The message that reports the handshake comes before any route is installed. *)
Lemma greeted_uninstalled b q : wf b -> queue b = WgConnected :: q -> fRoutesInstalled (nt b) = false.
Proof.
  intros W Hq. destruct W as [[_ (_ & E & _)]|[Hf Hi]]; [congruence|]. destruct (fRoutesInstalled (nt b)); [|done]. rewrite (Hi eq_refl), Hq in Hf.
  destruct (fReader b); [done|by destruct Hf| |]; [destruct Hf as [[_ Hf]|[Hf _]]; [by apply Forall_cons in Hf as [? _]|done]|].
  destruct Hf as (k & d & Ek & [[[_ Hk]|[Hk _]]|[Hk _]]); try done. destruct k as [|m k]; [done|]. injection Ek as <- _. by apply Forall_cons in Hk as [? _].
Qed.

(** The next start of the daemon puts a resolver left in its backup back. *)
Lemma recover_back (P : Prop) b b2 y3 :
  (resolv (hst b2) = resolv (hst b) /\ backup (hst b2) = None) \/ (P /\ backup (hst b2) = resolv (hst b)) ->
  resolv (hst b) <> None -> s_rename y3 = true ->
  resolv (hst (RecoverIfCrashed y3 b2)) = resolv (hst b) /\ backup (hst (RecoverIfCrashed y3 b2)) = None.
Proof.
  intros [[E1 E2]|[_ E]] Hr Hy; unfold RecoverIfCrashed, _RestoreDns, move_back; [by rewrite E2|].
  rewrite E. destruct (resolv (hst b)) eqn:Er; [|done]. cbn [hst with_host]. by rewrite Hy.
Qed.

Lemma step_kept (P : Prop) y b b1 t c e :
  fRoutesInstalled (nt b) = false -> routes_new y b t ->
  nt b1 = nt (_InstallRoutes y b) -> hst b1 = hst (_InstallRoutes y b) ->
  in_session e -> (P -> renames e) -> kept P y b b1 t c -> kept P y b b1 t (step c e).
Proof.
  intros Hi Hn En Eh He HP [(W & Es & K1 & K2 & K3)|(Hd & Hid & Hres)].
  - destruct e as [| y2|y2|r|y2]; try done; cbn [step].
    + left. split; [by apply Disconnect_wf|]. unfold Disconnect. rewrite Es. cbv zeta. cbn [fReader with_stop]. change (VPN_STATE_CONNECTED =? _) with false.
      destruct (fReader c) eqn:Er; try done. destruct W as [[Hd _]|[Hf _]]; [|by rewrite Er in Hf].
      exfalso. revert Hd. rewrite Es. apply live_not_down. by right.
    + left. destruct (reader_same r c) as (E1 & E2 & E3 & E4). split; [by apply reader_wf|]. by rewrite E1, E2, E3, E4.
    + destruct (queue c) as [|m q] eqn:Eq; [by left|]. pose proof (MessageReceived_wf y2 m q c W Eq) as W2.
      destruct m as [|a o|d].
      * exfalso. destruct W as [[Hd _]|[Hf _]]; [revert Hd; rewrite Es; apply live_not_down; by right|]. rewrite Eq, Es in Hf.
        destruct (fReader c); [done|by destruct Hf| |]; [destruct Hf as [[_ Hf]|[Hf _]]; [by apply Forall_cons in Hf as [? _]|done]|].
        destruct Hf as (k & d & Ek & [[[_ Hk]|[Hk _]]|[Hk _]]); try done. destruct k as [|m k]; [done|]. injection Ek as <- _. by apply Forall_cons in Hk as [? _].
      * left. split; [done|]. by cbn.
      * right. cbn [MessageReceived] in *. cbv zeta in *. set (c0 := with_queue q c) in *.
        assert (Rs : restored P y b (_Cleanup y2 c0) t).
        { apply Cleanup_restored. apply remove_install; try done; [by rewrite <- En|by rewrite <- Eh]. }
        destruct (zlen d >? 0); (destruct W2 as [[W2 I2]|W2]; [|apply active_live in W2; exfalso; revert W2; cbn; intros [W2|W2]; done]); done.
  - right. pose proof Hid as (Er & Eq & Ei & Et & _). destruct e as [| y2|y2|r|y2]; try done; cbn [step].
    + unfold Disconnect. destruct (_ =? _); [done|]. cbv zeta. cbn [fReader with_stop]. rewrite Er.
      destruct (Cleanup_idle y2 (with_stop true c)) as [Ci _]; [done|]. split; [by left|]. split; [done|].
      change (restored P y b (_Cleanup y2 (with_stop true c)) t). apply Cleanup_restored. unfold _RemoveRoutes. cbn [nt with_reader with_stop]. by rewrite Ei.
    + unfold _RunReaderLoop. rewrite Er. by destruct r.
    + by rewrite Eq.
Qed.

(** C2: A WireGuard session leaves the host as it found it. Let the reader report the handshake and the looper install the routes, every route command taking effect, the reported gateway being in the route table and the entries to add being new to it. Then after any later requests, packets and messages of that session, in any order, a backend that is down again has a route table with exactly the entries it had. If there was a resolver file and no stale backup, and the rename that moves it aside succeeded, then whatever the open and the write of the new file did, the original file is back and no backup is left, provided the renames of the session's end succeed; and if they did not, the next daemon start whose rename succeeds puts it back. *)
Theorem session_restores_host h es0 y q es (t : T) :
  let b := steps es0 (WireGuardBackend h) in
  queue b = WgConnected :: q -> routes_new y b t -> Forall in_session es ->
  let b2 := steps es (step b (EvDeliver y)) in
  fState b2 = VPN_STATE_DISCONNECTED \/ fState b2 = VPN_STATE_ERROR ->
  same_routes (table b2 t) (table b t)
  /\ (backup (hst b) = None -> resolv (hst b) <> None -> s_rename y = true ->
       (Forall renames es -> resolv (hst b2) = resolv (hst b) /\ backup (hst b2) = None)
       /\ forall y3, s_rename y3 = true ->
            let b3 := step b2 (EvRecover y3) in resolv (hst b3) = resolv (hst b) /\ backup (hst b3) = None).
Proof.
  cbv zeta. intros Hq Hn Hes. set (b := steps es0 _) in *. assert (W : wf b) by apply steps_wf, fresh_wf. clearbody b.
  pose proof (greeted_uninstalled b q W Hq) as Hi. set (b1 := step b (EvDeliver y)).
  assert (E1 : b1 = MessageReceived y WgConnected (with_queue q b)) by (unfold b1; cbn [step]; by rewrite Hq).
  assert (Es : nt b1 = nt (_InstallRoutes y b) /\ hst b1 = hst (_InstallRoutes y b) /\ fConfig b1 = fConfig b).
  { rewrite E1. cbn [MessageReceived]. cbn [nt hst fConfig _SetState]. rewrite (proj2 (proj2 (proj2 (InstallRoutes_same y (with_queue q b))))).
    by destruct (InstallRoutes_queue y q b) as [-> ->]. }
  destruct Es as (En & Eh & Ec). set (P := Forall renames es).
  assert (K1 : kept P y b b1 t b1).
  { left. split; [rewrite E1; by apply MessageReceived_wf|]. split; [by rewrite E1|]. done. }
  intros Hd. cut (kept P y b b1 t (steps es b1)).
  { intros [(_ & Es & _)|(_ & _ & K1' & K2)]; [rewrite Es in Hd; exfalso; by destruct Hd|]. split; [exact K1'|]. intros Hb Hr Hy.
    specialize (K2 Hb Hr Hy). split; [intros HP; destruct K2 as [K2|[? _]]; [exact K2|done]|]. intros y3 Hy3. by eapply recover_back. }
  clear Hd. assert (HP : Forall (fun e => P -> renames e) es) by (apply Forall_forall; intros e He HP; by eapply Forall_forall in HP).
  revert K1. clearbody P. generalize b1 at 2 4 as c. induction Hes as [|e es He _ IH]; intros c Kc; [done|]. apply Forall_cons in HP as [He' HP].
  change (steps (e :: es) c) with (steps es (step c e)). apply IH; [done|]. by apply step_kept.
Qed.

End WithOpenSSL2.

End WithTable.


(** ** The handshake and the transport are WGPeer's *)

#[local] Opaque wg.Kdf1 wg.Kdf2 wg.Kdf3 WGPeer.mix_hash WGPeer.hash2 wg.Hash wg.Mac16 store32_le Tai64n zeros.

Section Agreement.
Context `{OpenSSLLaws}.

(** The initiation is WGPeer's, field for field. *)
Lemma build_initiation_same i x p sys :
  let '(m, x1) := build_initiation i x in
  let '(m', p1) := WGPeer.BuildInitiation p (fPrivateKey x) (fPeerPublicKey x) (h_eph i) (h_idx i) (h_time i) sys in
  m = m'
  /\ (m <> None ->
      WGPeer.fOurPriv (WGPeer.hs p1) = fPrivateKey x1 /\ WGPeer.fEphemeralPriv (WGPeer.hs p1) = fEphemeralPrivate x1
      /\ WGPeer.fChainingKey (WGPeer.hs p1) = fChainingKey x1 /\ WGPeer.fHash (WGPeer.hs p1) = fHash x1
      /\ WGPeer.fSenderIndex p1 = fSenderIndex x1
      /\ fPrivateKey x1 = fPrivateKey x /\ fHavePresharedKey x1 = fHavePresharedKey x).
Proof.
  unfold build_initiation, WGPeer.BuildInitiation. cbn -[AeadEncrypt Dh DhPublic].
  destruct (DhPublic (fPrivateKey x)); [|by split]. destruct (h_eph i) as [[ek ep]|]; [|by split]. cbn -[AeadEncrypt Dh].
  destruct (Dh ek (fPeerPublicKey x)) as [d|]; [|by split]. destruct (wg.Kdf2 _ d) as [ck k]. cbn -[AeadEncrypt Dh].
  destruct (AeadEncrypt k 0 _ _); [|by split]. cbn -[AeadEncrypt Dh]. destruct (Dh (fPrivateKey x) (fPeerPublicKey x)) as [d2|]; [|by split].
  destruct (wg.Kdf2 ck d2) as [ck2 k2]. cbn -[AeadEncrypt]. destruct (AeadEncrypt k2 0 _ _); [|by split]. cbn. destruct (h_idx i); by split.
Qed.

(** Without a pre-shared key a response has the effect it has on WGPeer. *)
Lemma consume_response_same resp x p p' sys :
  WGPeer.fOurPriv (WGPeer.hs p) = fPrivateKey x -> WGPeer.fEphemeralPriv (WGPeer.hs p) = fEphemeralPrivate x ->
  WGPeer.fChainingKey (WGPeer.hs p) = fChainingKey x -> WGPeer.fHash (WGPeer.hs p) = fHash x ->
  WGPeer.fSenderIndex p = fSenderIndex x -> fHavePresharedKey x = false ->
  WGPeer.ConsumeResponse p resp sys = (true, p') ->
  exists x', consume_response resp x = (true, x') /\ fSendKey x' = WGPeer.fSendKey (WGPeer.ss p')
    /\ fRecvKey x' = WGPeer.fRecvKey (WGPeer.ss p') /\ fReceiverIndex x' = WGPeer.fReceiverIndex (WGPeer.ss p')
    /\ fSenderIndex x' = fSenderIndex x /\ zlen resp = 92 /\ at_ resp 0 = 2.
Proof.
  intros E1 E2 E3 E4 E5 Ek. unfold WGPeer.ConsumeResponse, consume_response. rewrite E5.
  destruct (Z.eqb_spec (zlen resp) 92) as [L1|]; [|done]. destruct (Z.eqb_spec (at_ resp 0) 2) as [L2|]; [|done]. cbn [negb orb].
  destruct (negb (load32_le resp 8 =? fSenderIndex x)); [done|]. cbn -[AeadDecrypt Dh]. rewrite E1, E2, E3, E4.
  destruct (Dh (fEphemeralPrivate x) _) as [d1|]; [|done]. cbn -[AeadDecrypt Dh]. rewrite ?E1.
  destruct (Dh (fPrivateKey x) _) as [d2|]; [|done]. cbn -[AeadDecrypt Dh]. rewrite Ek.
  destruct (wg.Kdf3 _ (zeros 32)) as [[ck tau] key]. cbn -[AeadDecrypt]. destruct (AeadDecrypt key 0 _ _); [|done].
  destruct (wg.Kdf2 ck []) as [sk rk]. intros [= <-]. eexists. split; [reflexivity|]. cbn. done.
Qed.

(** Datagrams that are not a handshake response, fewer than the code skips. *)
Definition not_response (d : bytes) : Prop := d <> [] /\ ~ (zlen (ztake 256 d) = 92 /\ at_ d 0 = 2).

Lemma await_skips ds resp rest n : Forall not_response ds -> (length ds < n)%nat -> zlen resp = 92 -> at_ resp 0 = 2 ->
  await_response n (map Some ds ++ Some resp :: rest) = Some resp.
Proof.
  intros Hds. revert n. induction Hds as [|d ds [Hd1 Hd2] _ IH]; intros [|n] Hl H1 H2; try (cbn in Hl; lia); cbn [map app await_response]; cbv zeta.
  - assert (E : ztake 256 resp = resp) by (unfold ztake; apply take_ge; unfold zlen in H1; lia).
    rewrite E, H1, H2. done.
  - assert (E : at_ (ztake 256 d) 0 = at_ d 0) by (apply at_ztake; lia). rewrite E.
    assert (Hz : zlen (ztake 256 d) <> 0) by (by destruct d). destruct (Z.eqb_spec (zlen (ztake 256 d)) 0); [done|].
    destruct (Z.eqb_spec (zlen (ztake 256 d)) 92), (Z.eqb_spec (at_ d 0) 2); cbn [andb]; try (by destruct Hd2); apply IH; try done; cbn in Hl; lia.
Qed.

Lemma buffer_length_padded p k :
  WGPeer.is_ip_packet p = true -> 0 <= k -> ip_packet_length (p ++ zeros k) (zlen p + k) = zlen p.
Proof.
  intros Hp Hk. pose proof (zlen_nonneg p). unfold ip_packet_length, WGPeer.is_ip_packet in *. cbv zeta.
  rewrite orb_true_iff, !andb_true_iff, !Z.geb_leb, !Z.eqb_eq, !Z.leb_le in Hp.
  assert (20 <= zlen p) by lia. destruct (Z.eqb_spec (zlen p + k) 0); [lia|].
  rewrite !at_app_l by lia. rewrite !Z.geb_leb.
  destruct Hp as [[[E ?] ?]|[[E ?] ?]]; rewrite E; cbn [Z.eqb Pos.eqb andb].
  - destruct (Z.leb_spec 20 (zlen p + k)); [|lia]. destruct (Z.leb_spec ((at_ p 2 ≪ 8) .| at_ p 3) (zlen p + k)); lia.
  - destruct (Z.leb_spec 40 (zlen p + k)); [|lia]. destruct (Z.leb_spec (40 + ((at_ p 4 ≪ 8) .| at_ p 5)) (zlen p + k)); lia.
Qed.

(** A transport packet under counter [n]. *)
Definition sealed (k : bytes) (idx n : Z) (plain w : bytes) : Prop :=
  exists c, AeadEncrypt k n (plain ++ zeros (((zlen plain + 15) .& Z.lnot 15) - zlen plain)) [] = Some c
    /\ w = ([4; 0; 0; 0] ++ store32_le idx ++ store64_le n) ++ c.

Lemma sealed_facts k idx n plain w : 0 <= n < 2 ^ 64 -> sealed k idx n plain w -> exists m c,
  0 <= m /\ AeadDecrypt k n c [] = Some (plain ++ zeros m) /\ zlen c = zlen plain + m + 16
  /\ at_ w 0 = 4 /\ load64_le w 8 = n /\ zdrop 16 w = c /\ zlen w = 16 + zlen c.
Proof.
  intros Hn (c & Ec & ->). pose proof (zlen_nonneg plain). pose proof (WGPeer.pad16 (zlen plain) ltac:(lia)) as [Hp _].
  destruct (WGPeer.framed_packet idx n c Hn) as (F0 & F1 & F2 & F3). eexists _, c. split; [|split; [by apply AeadDecrypt_Encrypt|]]; [lia|].
  apply AeadEncrypt_length in Ec. rewrite zlen_app, zlen_zeros in Ec by lia. split; [lia|]. done.
Qed.

(** Every counter seen is below [n]. *)
Definition window (r : Replay.replay) (n : Z) : Prop :=
  0 <= n < 2 ^ 62 /\ exists seen, Replay.rep r seen /\ Forall (fun c => c < n) seen.

Lemma window_reset : window Replay.ResetReplay 0.
Proof. split; [lia|]. exists []. split; [apply Replay.rep_reset|apply Forall_nil_2]. Qed.

Lemma window_next r n : window r n -> n + 1 < 2 ^ 62 -> exists r', Replay._ReplayValidate r n = (true, r') /\ window r' (n + 1).
Proof.
  intros [Hn (seen & Hr & Hs)] Hn1. pose proof (Replay.validate_step r seen n Hr ltac:(lia)) as V. destruct Replay.constants as [Hk _].
  destruct (Replay._ReplayValidate r n) as [v r']. destruct V as (Ev & Hr' & _). rewrite Replay.accept_next in Ev by (done || lia). subst v.
  exists r'. split; [done|]. split; [lia|]. exists (n :: seen). split; [done|]. constructor; [lia|]. apply (Forall_impl _ _ _ Hs). intros c ?. cbv beta in *. lia.
Qed.

Lemma peer_reads k idx n plain w q :
  sealed k idx n plain w -> WGPeer.is_ip_packet plain = true -> n + 1 < 2 ^ 62 ->
  WGPeer.fHasKeys (WGPeer.ss q) = true -> WGPeer.fRecvKey (WGPeer.ss q) = k -> window (WGPeer.fReplay (WGPeer.ss q)) n ->
  exists out q', WGPeer.Decapsulate q w = (Some (zlen plain, out), q') /\ ztake (zlen plain) out = plain
    /\ WGPeer.fHasKeys (WGPeer.ss q') = true /\ WGPeer.fRecvKey (WGPeer.ss q') = k /\ window (WGPeer.fReplay (WGPeer.ss q')) (n + 1)
    /\ WGPeer.fSendKey (WGPeer.ss q') = WGPeer.fSendKey (WGPeer.ss q) /\ WGPeer.fSendCounter (WGPeer.ss q') = WGPeer.fSendCounter (WGPeer.ss q).
Proof.
  intros Hs Hip Hn1 Hk Hr Hf. pose proof Hf as [Hn _]. destruct (sealed_facts k idx n plain w ltac:(lia) Hs) as (m & c & Hm & Hd & Hc & F0 & F1 & F2 & F3).
  unfold WGPeer.Decapsulate. pose proof (zlen_nonneg plain).
  rewrite Hk, F0. destruct (Z.ltb_spec (zlen w) 32); [lia|]. cbn [negb orb Z.eqb Pos.eqb]. rewrite F1, F2, Hr, Hd.
  destruct (window_next _ _ Hf Hn1) as (r & -> & Hw). cbn [negb]. rewrite F3, Hc. replace (16 + (zlen plain + m + 16) - 16 - 16) with (zlen plain + m) by lia.
  rewrite WGPeer.ip_packet_length_padded by done. eexists _, _. split; [reflexivity|]. split; [by apply ztake_app|]. by split_and!.
Qed.

Lemma backend_reads k idx n plain w x :
  sealed k idx n plain w -> WGPeer.is_ip_packet plain = true -> n + 1 < 2 ^ 62 -> fRecvKey x = k -> window (fReplay x) n ->
  exists out x', _Decapsulate w x = (Some (zlen plain, out), x') /\ ztake (zlen plain) out = plain
    /\ fRecvKey x' = k /\ window (fReplay x') (n + 1) /\ fSendKey x' = fSendKey x /\ fSendCounter x' = fSendCounter x.
Proof.
  intros Hs Hip Hn1 Hr Hf. pose proof Hf as [Hn _]. destruct (sealed_facts k idx n plain w ltac:(lia) Hs) as (m & c & Hm & Hd & Hc & F0 & F1 & F2 & F3).
  unfold _Decapsulate. pose proof (zlen_nonneg plain).
  rewrite F0. destruct (Z.ltb_spec (zlen w) 32); [lia|]. cbn [negb orb Z.eqb Pos.eqb]. rewrite F1, F2, Hr, Hd.
  destruct (window_next _ _ Hf Hn1) as (r & -> & Hw). cbn [negb]. rewrite F3, Hc. replace (16 + (zlen plain + m + 16) - 16 - 16) with (zlen plain + m) by lia.
  rewrite buffer_length_padded by done. eexists _, _. split; [reflexivity|]. split; [by apply ztake_app|]. by split_and!.
Qed.

(** *** Traffic between the backend and the peer *)

(** Who sends what, and the clock of WGPeer. *)
Inductive traffic := FromBackend (plain : bytes) | FromPeer (plain : bytes) (now : Z).
Definition carried (e : traffic) : bytes := match e with FromBackend p | FromPeer p _ => p end.

(** What the other side reads of each packet, in order: the bytes its
    decapsulation returns, [None] if the packet was not sealed or not read. *)
Fixpoint converse (l : list traffic) (x : noise) (q : WGPeer.peer) : list (option bytes) :=
  let read (r : option (Z * bytes)) := match r with Some (n, out) => Some (ztake n out) | None => None end in
  match l with
  | [] => []
  | FromBackend plain :: l =>
      match _Encapsulate plain x with
      | (Some w, x) => let '(r, q) := WGPeer.Decapsulate q w in read r :: converse l x q
      | (None, x) => None :: converse l x q
      end
  | FromPeer plain now :: l =>
      match WGPeer.Encapsulate q plain now with
      | (Some w, q) => let '(r, x) := _Decapsulate w x in read r :: converse l x q
      | (None, q) => None :: converse l x q
      end
  end.

(** Swapped keys, and each replay window just below the other's counter. *)
Record paired (x : noise) (q : WGPeer.peer) : Prop := {
  pr_keys : WGPeer.fHasKeys (WGPeer.ss q) = true;
  pr_xq : WGPeer.fRecvKey (WGPeer.ss q) = fSendKey x;
  pr_qx : fRecvKey x = WGPeer.fSendKey (WGPeer.ss q);
  pr_wq : window (WGPeer.fReplay (WGPeer.ss q)) (fSendCounter x);
  pr_wx : window (fReplay x) (WGPeer.fSendCounter (WGPeer.ss q)) }.

Lemma small_padded (plain : bytes) : zlen plain <= 1500 -> ((zlen plain + 15) .& Z.lnot 15 >? 2048) = false.
Proof. intros. pose proof (zlen_nonneg plain). pose proof (WGPeer.pad16 (zlen plain) ltac:(lia)) as [Hp _]. rewrite Z.gtb_ltb. apply Z.ltb_ge. lia. Qed.

Lemma converse_reads l x q :
  (forall k n p a, is_Some (AeadEncrypt k n p a)) ->
  Forall (fun e => WGPeer.is_ip_packet (carried e) = true /\ zlen (carried e) <= 1500) l -> paired x q ->
  fSendCounter x + zlen l < 2 ^ 62 -> WGPeer.fSendCounter (WGPeer.ss q) + zlen l < 2 ^ 62 ->
  converse l x q = map (fun e => Some (carried e)) l.
Proof.
  intros Ha Hl. revert x q. induction Hl as [|e l [Hip Hsz] _ IH]; intros x q [P1 P2 P3 P4 P5] C1 C2; [done|].
  rewrite zlen_cons in C1, C2. pose proof (zlen_nonneg l). pose proof P4 as [Hx _]. pose proof P5 as [Hq _].
  destruct e as [plain|plain now]; cbn [converse carried map] in *.
  - unfold _Encapsulate. cbv zeta. rewrite small_padded by done.
    destruct (Ha (fSendKey x) (fSendCounter x) (plain ++ zeros (((zlen plain + 15) .& Z.lnot 15) - zlen plain)) []) as [c Hc]. rewrite Hc.
    set (w := _ ++ c). assert (Hs : sealed (fSendKey x) (fReceiverIndex x) (fSendCounter x) plain w) by by exists c.
    destruct (peer_reads _ _ _ _ _ q Hs Hip ltac:(lia) P1 P2 P4) as (out & q' & -> & -> & K1 & K2 & K3 & K4 & K5).
    f_equal. apply IH; cbn [with_counters fSendCounter]; rewrite ?u64_small, ?K5 by lia; try lia.
    split; cbn [with_counters fSendCounter fSendKey fRecvKey fReplay]; rewrite ?u64_small, ?K4, ?K5 by lia; done.
  - unfold WGPeer.Encapsulate. cbv zeta. rewrite P1, small_padded by done. cbn [negb].
    destruct (Ha (WGPeer.fSendKey (WGPeer.ss q)) (WGPeer.fSendCounter (WGPeer.ss q)) (plain ++ zeros (((zlen plain + 15) .& Z.lnot 15) - zlen plain)) []) as [c Hc]. rewrite Hc.
    set (w := _ ++ c). assert (Hs : sealed (WGPeer.fSendKey (WGPeer.ss q)) (WGPeer.fReceiverIndex (WGPeer.ss q)) (WGPeer.fSendCounter (WGPeer.ss q)) plain w) by by exists c.
    destruct (backend_reads _ _ _ _ _ x Hs Hip ltac:(lia) P3 P5) as (out & x' & -> & -> & K1 & K2 & K3 & K4).
    f_equal. apply IH; cbn [WGPeer.with_ss WGPeer.ss WGPeer.fSendCounter]; rewrite ?u64_small, ?K4 by lia; try lia.
    split; cbn [WGPeer.with_ss WGPeer.ss WGPeer.fSendCounter WGPeer.fHasKeys WGPeer.fRecvKey WGPeer.fSendKey WGPeer.fReplay]; rewrite ?u64_small, ?K3, ?K4 by lia; done.
Qed.

(** The exchange itself. *)
Lemma handshake_reaches_peer i x x1 q q2 rpriv ek ep rk rp idx j msg1 msg2 ds rest sys :
  x25519_pub rpriv = Some (fPeerPublicKey x) -> h_eph i = Some (ek, ep) -> x25519_pub ek = Some ep -> x25519_pub rk = Some rp ->
  h_idx i = Some idx -> 0 <= idx < 2 ^ 32 -> 0 <= j < 2 ^ 32 -> fHavePresharedKey x = false -> h_sent i = true ->
  build_initiation i x = (Some msg1, x1) ->
  WGPeer.BuildResponse (snd (WGPeer.ConsumeInitiation q rpriv msg1)) (Some (rk, rp)) (Some j) sys = (Some msg2, q2) ->
  Forall not_response ds -> (length ds < 64)%nat -> h_recv i = map Some ds ++ Some msg2 :: rest ->
  exists x2, _PerformHandshake i x = (true, x2, [msg1]) /\ fSenderIndex x2 = idx
    /\ fSendKey x2 = WGPeer.fRecvKey (WGPeer.ss q2) /\ fRecvKey x2 = WGPeer.fSendKey (WGPeer.ss q2)
    /\ fReceiverIndex x2 = j
    /\ WGPeer.ss q2 = WGPeer.mkSession (WGPeer.fSendKey (WGPeer.ss q2)) (WGPeer.fRecvKey (WGPeer.ss q2)) true idx 0 Replay.ResetReplay
         (WGPeer.fEstablished (WGPeer.ss q2)) (WGPeer.fLastSend (WGPeer.ss q2)) (WGPeer.fTxBytes (WGPeer.ss q2)) (WGPeer.fRxBytes (WGPeer.ss q2)).
Proof.
  intros Hr He Hek Hrk Hi Hidx Hj Hps Hs Hb Hb2 Hds Hl Hrecv.
  pose proof (build_initiation_same i x WGPeer.WGPeer sys) as S. rewrite Hb, He, Hi in S.
  destruct (WGPeer.BuildInitiation _ _ _ _ _ _ _) as [m p1] eqn:Ep. destruct S as [<- S].
  destruct (S ltac:(done)) as (S1 & S2 & S3 & S4 & S5 & S6 & S7).
  destruct (WGPeer.initiation_transcript _ _ _ _ _ _ _ _ _ _ _ Hr Hek Hidx Ep) as (ipub & Hip & Hc & P1 & P2 & P3 & _).
  unfold WGPeer.ConsumeInitiation in Hb2. rewrite Hc in Hb2. cbn [snd] in Hb2.
  eapply (WGPeer.response_transcript p1) in Hb2 as (p2 & R & K1 & K2 & Q1 & Q2 & I1 & I2);
    [|exact Hrk|exact Hek|exact Hip|exact Hidx|exact Hj|exact P1|exact P2|exact P3|reflexivity].
  destruct (consume_response_same msg2 x1 p1 p2 sys) as (x2 & C1 & C2 & C3 & C4 & C5 & L1 & L2); try done; [by rewrite S7|].
  exists x2. split.
  { unfold _PerformHandshake. rewrite Hb, Hs, Hrecv, await_skips by done. cbn [negb]. by rewrite C1. }
  split; [congruence|]. split; [congruence|]. split; [congruence|]. split; [by rewrite C4, Q1|]. rewrite Q2 at 1. by rewrite Q2.
Qed.


(** The receiver index is taken from a response before it is authenticated. *)
Lemma forged_response_redirects resp x x' :
  load32_le resp 8 = fSenderIndex x -> consume_response resp x = (false, x') ->
  fReceiverIndex x' = load32_le resp 4 /\ fSendKey x' = fSendKey x /\ fSendCounter x' = fSendCounter x.
Proof.
  intros E. unfold consume_response. rewrite E, Z.eqb_refl. cbn -[AeadDecrypt Dh].
  destruct (Dh (fEphemeralPrivate x) _); [|by intros [= <-]]. cbn -[AeadDecrypt Dh]. destruct (Dh (fPrivateKey x) _); [|by intros [= <-]].
  cbn -[AeadDecrypt]. destruct (wg.Kdf3 _ _) as [[ck tau] k]. cbn -[AeadDecrypt]. destruct (AeadDecrypt k 0 _ _); [by destruct (wg.Kdf2 _ _)|].
  by intros [= <-].
Qed.

End Agreement.


(** ** A session to run *)

Definition demo_config : bytes :=
  bs "[Interface]" ++ [10] ++ bs "PrivateKey = CwAAAAAAAAAAAAAAAAAAAAAAAAAAAAAAAAAAAAAAAAA=" ++ [10]
  ++ bs "Address = 10.2.0.2/32" ++ [10] ++ bs "DNS = 10.2.0.1" ++ [10] ++ bs "[Peer]" ++ [10]
  ++ bs "PublicKey = FgAAAAAAAAAAAAAAAAAAAAAAAAAAAAAAAAAAAAAAAAA=" ++ [10] ++ bs "AllowedIPs = 0.0.0.0/0" ++ [10]
  ++ bs "Endpoint = vpn.example:51820" ++ [10].

Definition demo_sys : sys :=
  mkSys (Some demo_config) (fun _ => true) (fun _ => Some (203, 0, 113, 7)) true true true true
    (Some (bs "0.0.0.0 0.0.0.0 192.168.1.1 /dev/net/eth0" ++ [10])) true (Some 70).
Definition demo_profile : VPNProfile.profile := VPNProfile.with_configPath (bs "/boot/wg.conf") VPNProfile.VPNProfile.
Definition demo_host : host := mkHost [] (Some (bs "nameserver 192.168.1.1")) None.

Definition connecting : wg := step (H := Toy.toy) (WireGuardBackend demo_host) (EvConnect demo_sys demo_profile).

Definition key (n : Z) : bytes := le_split 32 n.
Definition draws (recv : list (option bytes)) : hs_in := mkHsIn (Some (key 33, key 33)) (Some 5) 1700000000 true recv.

(** The handshake with a peer that holds the configured key. *)
Lemma demo_handshake : exists msg1 x1 resp q2,
  (forall recv, build_initiation (H := Toy.toy) (draws recv) (nz connecting) = (Some msg1, x1))
  /\ WGPeer.BuildResponse (H := Toy.toy) (snd (WGPeer.ConsumeInitiation (H := Toy.toy) WGPeer.WGPeer (key 22) msg1))
       (Some (key 44, key 44)) (Some 6) 10 = (Some resp, q2).
Proof.
  assert (T1 : forall a, is_Some (x25519_pub (OpenSSL := Toy.toy) a)) by (intros; eexists; reflexivity).
  assert (T2 : forall a b, is_Some (x25519 (OpenSSL := Toy.toy) a b)) by (eexists; reflexivity).
  pose proof (build_initiation_same (H := Toy.toy) (draws []) (nz connecting) WGPeer.WGPeer 0) as S.
  destruct (WGPeer.builders_total (H := Toy.toy) WGPeer.WGPeer (fPrivateKey (nz connecting)) (fPeerPublicKey (nz connecting)) (key 33, key 33) 5 1700000000 0
    (T1 _) T2 Toy.toy_seals) as [[msg1 B1] _].
  change (h_eph (draws [])) with (Some (key 33, key 33)) in S. change (h_idx (draws [])) with (Some 5) in S. change (h_time (draws [])) with 1700000000 in S.
  destruct (WGPeer.BuildInitiation _ _ _ _ _ _ _) as [m p1]. cbn [fst] in B1. subst m.
  destruct (build_initiation (draws []) (nz connecting)) as [m x1] eqn:E1. destruct S as [-> _].
  destruct (WGPeer.builders_total (H := Toy.toy) (snd (WGPeer.ConsumeInitiation (H := Toy.toy) WGPeer.WGPeer (key 22) msg1))
    (key 11) (key 22) (key 44, key 44) 6 1700000000 10 (T1 _) T2 Toy.toy_seals) as [_ [resp B2]].
  destruct (WGPeer.BuildResponse _ _ _ _) as [r q2] eqn:E2. cbn [fst] in B2. subst r.
  exists msg1, x1, resp, q2. split; [|done]. intros recv. rewrite <- E1. unfold build_initiation. cbn [h_eph h_idx h_time draws]. reflexivity.
Qed.

Lemma connecting_keys : fPrivateKey (nz connecting) = key 11 /\ fPeerPublicKey (nz connecting) = key 22 /\ fHavePresharedKey (nz connecting) = false.
Proof. vm_compute. repeat split. Qed.

Definition demo_traffic : list traffic :=
  let p n := [0x45; n; 0; 20] ++ zeros 16 in [FromBackend (p 1); FromBackend (p 2); FromPeer (p 3) 20; FromBackend (p 4); FromPeer (p 5) 30].


(** The session after the handshake, whatever its keys. *)
Definition session_start (resp : bytes) : list event := [EvConnect demo_sys demo_profile; EvReader (RunAttempt (draws [Some resp]) 1000)].
Definition started (x : noise) : wg :=
  post WgConnected (Transport (mkLoop 1000 1000 1000 0 0)) (with_nz (with_counters 0 Replay.ResetReplay x) connecting).
Definition lost : event := EvReader (RunTurn (mkTurn SelectFailed true 0 2000 false (draws []) 0)).
Definition demo_table : list (list bytes) := [route_entry (bs "/dev/net/eth0") zero_addr (bs "192.168.1.1") zero_addr].

Abbreviation demo_run es := (steps (H := Toy.toy) es (WireGuardBackend demo_host)).

Lemma steps_cons `{OpenSSL} e es b : steps (e :: es) b = steps es (step b e).
Proof. reflexivity. Qed.

Lemma attempt_succeeds `{OpenSSL} i now n x msgs b :
  fReader b = Handshaking n -> (n < kHandshakeAttempts)%nat -> fStopRequested b = false -> _PerformHandshake i (nz b) = (true, x, msgs) ->
  steps [EvReader (RunAttempt i now)] b
  = post WgConnected (Transport (mkLoop now now now 0 0)) (with_nz (with_counters 0 Replay.ResetReplay x) b).
Proof. intros Er Hn Es Ep. rewrite steps_cons. unfold steps. cbn [fold_left]. unfold step, _RunReaderLoop. rewrite Er, Es, Ep. destruct (Nat.ltb_spec n kHandshakeAttempts); [done|lia]. Qed.

Lemma connecting_reader : fReader connecting = Handshaking 0 /\ fStopRequested connecting = false.
Proof. vm_compute. done. Qed.

Lemma run_connects es : demo_run (EvConnect demo_sys demo_profile :: es) = steps (H := Toy.toy) es connecting.
Proof. unfold connecting. apply steps_cons. Qed.

#[local] Opaque connecting.

Lemma demo_starts : exists resp x, demo_run (session_start resp) = started x.
Proof.
  destruct demo_handshake as (msg1 & x1 & resp & q2 & B1 & B2). destruct connecting_keys as (_ & K2 & K3). exists resp.
  destruct (handshake_reaches_peer (H := Toy.toy) (H0 := Toy.toy_laws) (draws [Some resp]) (nz connecting) x1
    WGPeer.WGPeer q2 (key 22) (key 33) (key 33) (key 44) (key 44) 5 6 msg1 resp [] [] 10) as (x2 & P1 & _);
    [by rewrite K2|done|done|done|done|lia|lia|exact K3|done|apply B1|exact B2|apply Forall_nil_2|cbn; lia|done|].
  destruct connecting_reader as [Er Es]. exists x2. unfold session_start. rewrite run_connects. unfold started.
  exact (attempt_succeeds (H := Toy.toy) (draws [Some resp]) 1000 0%nat x2 [msg1] connecting Er (Nat.lt_0_succ _) Es P1).
Qed.

#[local] Transparent connecting.

Lemma steps_app `{OpenSSL} es1 es2 b : steps (es1 ++ es2) b = steps es2 (steps es1 b).
Proof. apply fold_left_app. Qed.

Lemma down_holds_nothing_witness : exists resp,
  let b := demo_run (session_start resp ++ [EvDeliver demo_sys; lost; EvDeliver demo_sys]) in
  fRoutesInstalled (nt (demo_run (session_start resp ++ [EvDeliver demo_sys]))) = true
  /\ fReader b = NoReader /\ queue b = [] /\ fRoutesInstalled (nt b) = false
  /\ fTunInterface (nt b) = [] /\ fUdpSocket (nt b) = false /\ fTunFd (nt b) = false.
Proof.
  destruct demo_starts as (resp & x & E). exists resp. cbv zeta. split; [rewrite steps_app, E; vm_compute; reflexivity|].
  destruct (down_holds_nothing (H := Toy.toy) demo_host (session_start resp ++ [EvDeliver demo_sys; lost; EvDeliver demo_sys])) as [D _].
  apply D. left. rewrite steps_app, E. vm_compute. reflexivity.
Defined.

Lemma disconnect_completes_witness : exists resp,
  let b := demo_run (session_start resp ++ [EvDeliver demo_sys]) in
  let turn := mkTurn (Ready None None) true 0 2000 false (draws []) 0 in
  fState b = VPN_STATE_CONNECTED
  /\ fState (steps (H := Toy.toy) [EvDeliver demo_sys]
       (steps (H := Toy.toy) [EvDisconnect demo_sys; EvReader (RunAttempt (draws []) 0); EvReader (RunTurn turn)] b)) = VPN_STATE_DISCONNECTED.
Proof.
  destruct demo_starts as (resp & x & E). exists resp. cbv zeta. split; [rewrite steps_app, E; vm_compute; reflexivity|].
  destruct (disconnect_completes (H := Toy.toy) demo_host (session_start resp ++ [EvDeliver demo_sys]) demo_sys (draws []) 0
    (mkTurn (Ready None None) true 0 2000 false (draws []) 0) [demo_sys]) as [_ D].
  - rewrite steps_app, E. vm_compute. reflexivity.
  - apply D. rewrite steps_app, E. vm_compute. discriminate.
Defined.

Lemma demo_routes_new x : routes_new demo_sys (started x) demo_table.
Proof.
  assert (Et : table (started x) demo_table = demo_table) by (vm_compute; reflexivity).
  assert (Ee : fEndpointIP (nt (started x)) = bs "203.0.113.7") by (vm_compute; reflexivity).
  assert (Ec : cidrs_of (started x) = [WireGuardRoutes.mkAllowed zero_addr zero_addr true]) by (vm_compute; reflexivity).
  assert (En : tunnel_entry (nt (started x)) (WireGuardRoutes.mkAllowed zero_addr zero_addr true)
               = route_entry (bs "tun/0") zero_addr (bs "10.2.0.2") zero_addr) by (vm_compute; reflexivity).
  unfold routes_new. rewrite Et, Ee, Ec. clear Et Ee Ec. split.
  - intros g i E. assert (Ev : DefaultGateway (s_route demo_sys) = Some (bs "192.168.1.1", bs "/dev/net/eth0")) by (vm_compute; reflexivity).
    rewrite Ev in E. injection E as <- <-. clear Ev. split; [apply list_elem_of_here|]. intros Hx. apply list_elem_of_singleton in Hx. discriminate Hx.
  - intros r Hr. apply list_elem_of_singleton in Hr. subst r. rewrite En. intros Hx. apply list_elem_of_singleton in Hx. discriminate Hx.
Qed.

Lemma session_restores_host_witness : exists resp,
  let b := demo_run (session_start resp) in
  let b2 := steps (H := Toy.toy) [lost; EvDeliver demo_sys] (step (H := Toy.toy) b (EvDeliver demo_sys)) in
  zlen (cmds (hst b2)) = zlen (cmds (hst b)) + 7
  /\ same_routes (table b2 demo_table) (table b demo_table) /\ resolv (hst b2) = resolv (hst b) /\ backup (hst b2) = None.
Proof.
  destruct demo_starts as (resp & x & E). exists resp. cbv zeta. split; [rewrite E; vm_compute; reflexivity|].
  destruct (session_restores_host (H1 := Toy.toy) demo_host (session_start resp) demo_sys [] [lost; EvDeliver demo_sys] demo_table) as [R1 R2]; rewrite ?E.
  - vm_compute. reflexivity.
  - apply demo_routes_new.
  - repeat (apply Forall_cons_2; [exact I|]). apply Forall_nil_2.
  - left. vm_compute. reflexivity.
  - rewrite E in R1, R2. split; [exact R1|]. destruct R2 as [R2 _]; [| | |apply R2].
    + vm_compute. reflexivity.
    + vm_compute. discriminate.
    + reflexivity.
    + repeat (apply Forall_cons_2; [done|]). apply Forall_nil_2.
Defined.

(** Without a resolv.conf to move aside, the tunnel's stays when the session
    is over. *)
Lemma resolver_left_behind x :
  let b := steps (H := Toy.toy) [EvDeliver demo_sys; lost; EvDeliver demo_sys] (with_host (mkHost [] None None) (started x)) in
  fState b = VPN_STATE_DISCONNECTED /\ resolv (hst b) = Some (resolv_text (bs "10.2.0.1")).
Proof. vm_compute. repeat split. Qed.

(** If resolv.conf cannot be moved aside it is overwritten, and there is
    nothing to restore it from. *)
Example resolver_overwritten x :
  let y := mkSys (s_file demo_sys) (s_ifconfig demo_sys) (s_resolve demo_sys) true true true true (s_route demo_sys) false (Some 70) in
  let b := steps (H := Toy.toy) [EvDeliver y; lost; EvDeliver demo_sys; EvRecover demo_sys] (started x) in
  resolv (hst (started x)) = Some (bs "nameserver 192.168.1.1")
  /\ fState b = VPN_STATE_DISCONNECTED /\ resolv (hst b) = Some (resolv_text (bs "10.2.0.1")) /\ backup (hst b) = None.
Proof. vm_compute. repeat split. Qed.

End WgBackendProofs.
