(* ===== verification/Server.v ===== *)
(** * Server: the daemon's message handlers (src/server/SotoportegoServer.{h,cpp})

    [server] is the object; [MessageReceived] dispatches to one function per
    handler.  The three backend objects are one function from [which]; they
    exist from ReadyToRun on, before which [fBackend] is NULL.  The tick timer
    is the flag [timer].  Logging is left out. *)

From stdpp Require Import gmap.
From S2P Require Import Prelude CLib Json Message Profiles Daemon.
Import Message VPNProtocol VPNState VPNProfile DaemonFiles.
Open Scope Z_scope.
Open Scope soto_scope.

Module Server.

Definition kMsgCountryResult : Z := fourcc "sCty".
Definition kMsgHomeGeoResult : Z := fourcc "sHom".
Definition kMsgVPNGateFetched : Z := fourcc "sVGr".
Definition kMsgReconnectTick : Z := fourcc "sRcT".
Definition kReconnectMaxAttempts : Z := 5.
Definition kCatalogueTTL : Z := 10 * 60 * 1000000.
Definition kGeoCountry : string := "soto:geo:country".
Definition kGeoQueryIP : string := "soto:geo:queryIP".
Definition kGeoLatitude : string := "soto:geo:lat".
Definition kGeoLongitude : string := "soto:geo:lon".
Definition B_INFORMATION_NOTIFICATION : Z := 0.
Definition B_ERROR_NOTIFICATION : Z := 2.

(** [for (i = 1; i < attempt && d < 60; i++) d *= 2]: four doublings reach 60. *)
Fixpoint double_while (n : nat) (i attempt d : Z) : Z :=
  match n with
  | O => d
  | S n => if (i <? attempt) && (d <? 60) then double_while n (i + 1) attempt (d * 2) else d
  end.

Definition reconnect_delay_seconds (attempt : Z) : Z :=
  let d := double_while 5 1 attempt 5 in if d >? 60 then 60 else d.

Inductive which := OpenVPN | WireGuard | Tailscale.
#[export] Instance which_eq_dec : EqDecision which.
Proof. solve_decision. Defined.

(** What the system answers during one message. *)
Record sys := mkSys {
  s_alive : messenger -> bool;          (* SendMessage succeeds *)
  s_readable : bytes -> bool;           (* access(path, R_OK) == 0 *)
  s_timer : bool;                       (* the BMessageRunner is created *)
  s_now : Z;                            (* system_time() *)
  s_settings : option bytes;            (* find_directory(B_USER_SETTINGS_DIRECTORY) *)
  s_cache : option bytes;               (* find_directory(B_USER_CACHE_DIRECTORY) *)
  s_mkdir : bytes -> bool; s_create : bytes -> bool; s_read : bytes -> bool; s_write : bytes -> bool;
  s_remove : bytes -> bool;
  s_io : ProfileStore.io }.             (* the profile store's calls *)

(** What a handler does outside the daemon. *)
Inductive effect :=
| Sent (to : messenger) (m : message)
| Notification (content : bytes) (type : Z)
| BackgroundLookup (what : Z)
| BackgroundFetch
| CallConnect (w : which) (p : profile)
| CallDisconnect (w : which).

Record reconnect := mkReconnect {
  fReconnectProfile : message; fReconnectUser : bytes; fReconnectPass : bytes;
  fUserInitiatedDisconnect : bool; fReconnectArmed : bool; fReconnectAttempt : Z;
  fReconnectSecondsLeft : Z; timer : bool }.

Record home := mkHome {
  fHomeCountry : bytes; fHomeIP : bytes; fHomeLat : float; fHomeLon : float; fHomeLookupInFlight : bool }.

Record catalogue := mkCatalogue {
  fCatalogueCache : message; fCatalogueFetchedAt : Z; fCatalogueFetchInFlight : bool;
  fCataloguePending : list messenger }.

Record session := mkSession { fLastState : Z; fLastServerSummary : bytes; fConnectedHost : bytes }.

Section WithBackend.
Context {B : Type} `{VPNBackend B}.
(** The file a path names, and the text of an error code. *)
Variable resolve : bytes -> bytes.
Variable strerror : status -> bytes.

Record server := mkServer {
  objs : which -> B; fBackend : option which;
  fProfiles : ProfileStore.store; disk : ProfileStore.disk; files : gmap bytes bytes;
  fClients : list messenger; ses : session; hm : home; cat : catalogue; rc : reconnect;
  out : list effect }.

Definition SotoportegoServer (o : which -> B) (profiles : ProfileStore.store) (d : ProfileStore.disk)
    (fs : gmap bytes bytes) : server :=
  mkServer o None profiles d fs [] (mkSession VPN_STATE_DISCONNECTED [] [])
    (mkHome [] [] fzero fzero false) (mkCatalogue (BMessage 0) 0 false [])
    (mkReconnect (BMessage 0) [] [] false false 0 0 false) [].

Definition with_objs (o : which -> B) (s : server) : server :=
  mkServer o (fBackend s) (fProfiles s) (disk s) (files s) (fClients s) (ses s) (hm s) (cat s) (rc s) (out s).
Definition with_backend (w : which) (s : server) : server :=
  mkServer (objs s) (Some w) (fProfiles s) (disk s) (files s) (fClients s) (ses s) (hm s) (cat s) (rc s) (out s).
Definition with_profiles (p : ProfileStore.store) (d : ProfileStore.disk) (s : server) : server :=
  mkServer (objs s) (fBackend s) p d (files s) (fClients s) (ses s) (hm s) (cat s) (rc s) (out s).
Definition with_files (f : gmap bytes bytes) (s : server) : server :=
  mkServer (objs s) (fBackend s) (fProfiles s) (disk s) f (fClients s) (ses s) (hm s) (cat s) (rc s) (out s).
Definition with_clients (c : list messenger) (s : server) : server :=
  mkServer (objs s) (fBackend s) (fProfiles s) (disk s) (files s) c (ses s) (hm s) (cat s) (rc s) (out s).
Definition with_ses (x : session) (s : server) : server :=
  mkServer (objs s) (fBackend s) (fProfiles s) (disk s) (files s) (fClients s) x (hm s) (cat s) (rc s) (out s).
Definition with_home (x : home) (s : server) : server :=
  mkServer (objs s) (fBackend s) (fProfiles s) (disk s) (files s) (fClients s) (ses s) x (cat s) (rc s) (out s).
Definition with_cat (x : catalogue) (s : server) : server :=
  mkServer (objs s) (fBackend s) (fProfiles s) (disk s) (files s) (fClients s) (ses s) (hm s) x (rc s) (out s).
Definition with_rc (x : reconnect) (s : server) : server :=
  mkServer (objs s) (fBackend s) (fProfiles s) (disk s) (files s) (fClients s) (ses s) (hm s) (cat s) x (out s).
Definition emit (e : effect) (s : server) : server :=
  mkServer (objs s) (fBackend s) (fProfiles s) (disk s) (files s) (fClients s) (ses s) (hm s) (cat s) (rc s) (out s ++ [e]).

Definition set_obj (w : which) (b : B) (s : server) : server :=
  with_objs (fun v => if decide (v = w) then b else objs s v) s.

Definition with_connectedHost (h : bytes) (s : server) : server :=
  with_ses (mkSession (fLastState (ses s)) (fLastServerSummary (ses s)) h) s.

(** SendMessage to one target. *)
Definition send (y : sys) (to : messenger) (m : message) (s : server) : server :=
  if s_alive y to then emit (Sent to m) s else s.

(** Not DISCONNECTED and not ERROR. *)
Definition live (state : Z) : bool := negb (state =? VPN_STATE_DISCONNECTED) && negb (state =? VPN_STATE_ERROR).

(** ** Clients and status messages *)

(** [ret] is the message's return address. *)
Definition _ClientFrom (m : message) (ret : messenger) : messenger :=
  match FindMessenger kFieldClient m with
  | Some c => if IsValid c then c else ret
  | None => ret
  end.

Definition profile_list (s : server) : message :=
  snd (ProfileStore.ArchiveAll (fProfiles s) (BMessage kMsgListProfiles)).

Definition _SendProfileList (y : sys) (to : messenger) (s : server) : server :=
  if negb (IsValid to) then s else send y to (profile_list s) s.

Definition _HandleSubscribe (y : sys) (m : message) (ret : messenger) (s : server) : server :=
  let client := _ClientFrom m ret in
  if negb (IsValid client) then s
  else if existsb (Z.eqb client) (fClients s) then s
  else _SendProfileList y client (with_clients (fClients s ++ [client]) s).

Fixpoint erase_client (c : messenger) (l : list messenger) : list messenger :=
  match l with
  | [] => []
  | x :: l => if x =? c then l else x :: erase_client c l
  end.

Definition _HandleUnsubscribe (m : message) (ret : messenger) (s : server) : server :=
  with_clients (erase_client (_ClientFrom m ret) (fClients s)) s.

(** Every client that takes the message stays. *)
Definition _Broadcast (y : sys) (m : message) (s : server) : server :=
  let s' := fold_left (fun s c => send y c m s) (fClients s) s in
  with_clients (List.filter (s_alive y) (fClients s)) s'.

Definition add_home (s : server) (m : message) : message :=
  let m := if zlen (fHomeCountry (hm s)) >? 0 then add kFieldHomeCountry (VString (fHomeCountry (hm s))) m else m in
  let m := if zlen (fHomeIP (hm s)) >? 0 then add kFieldHomeIP (VString (fHomeIP (hm s))) m else m in
  if negb (feq (fHomeLat (hm s)) fzero) || negb (feq (fHomeLon (hm s)) fzero) then
    add kFieldHomeLon (VFloat (fHomeLon (hm s))) (add kFieldHomeLat (VFloat (fHomeLat (hm s))) m)
  else m.

Definition _FillStatus (s : server) (m : message) : message :=
  match fBackend s with
  | None => add kFieldState (VInt32 VPN_STATE_DISCONNECTED) m
  | Some w =>
      let b := objs s w in
      let state := State b in
      let m := add kFieldState (VInt32 state) m in
      let m := add kFieldBackend (VString (BackendName b)) m in
      let m := snd (VPNStats.Archive (Stats b) m) in
      let m := if live state && negb (IsEmpty (fReconnectProfile (rc s)))
               then add kFieldConnectedProfile (nested (fReconnectProfile (rc s))) m else m in
      let m := if zlen (LocalIP b) >? 0 then add kFieldLocalIP (VString (LocalIP b)) m else m in
      let m := if zlen (RemoteIP b) >? 0 then add kFieldRemoteIP (VString (RemoteIP b)) m else m in
      let m := FillPeers b m in
      let m := add_home s m in
      if zlen (fConnectedHost (ses s)) >? 0 then add kFieldConnectedHost (VString (fConnectedHost (ses s))) m else m
  end.

Definition _EnrichForBroadcast (s : server) (m : message) : message :=
  let h := hm s in
  let m := if negb (HasString kFieldHomeCountry m) && (zlen (fHomeCountry h) >? 0)
           then add kFieldHomeCountry (VString (fHomeCountry h)) m else m in
  let m := if negb (HasString kFieldHomeIP m) && (zlen (fHomeIP h) >? 0)
           then add kFieldHomeIP (VString (fHomeIP h)) m else m in
  let m := if negb (HasFloat kFieldHomeLat m) && (negb (feq (fHomeLat h) fzero) || negb (feq (fHomeLon h) fzero))
           then add kFieldHomeLon (VFloat (fHomeLon h)) (add kFieldHomeLat (VFloat (fHomeLat h)) m) else m in
  let m := if negb (HasString kFieldConnectedHost m) && (zlen (fConnectedHost (ses s)) >? 0)
           then add kFieldConnectedHost (VString (fConnectedHost (ses s))) m else m in
  match fBackend s with
  | Some w => if negb (HasMessage kFieldPeer m) then FillPeers (objs s w) m else m
  | None => m
  end.

(** A status reply with a detail, to the sender. *)
Definition reply_detail (y : sys) (m : message) (ret : messenger) (detail : bytes) (s : server) : server :=
  let reply := add kFieldDetail (VString detail) (_FillStatus s (BMessage kMsgStatusUpdate)) in
  let client := _ClientFrom m ret in
  if IsValid client then send y client reply s else s.

Definition _HandleGetStatus (y : sys) (m : message) (ret : messenger) (s : server) : server :=
  let client := _ClientFrom m ret in
  if negb (IsValid client) then s else send y client (_FillStatus s (BMessage kMsgStatusUpdate)) s.

Definition _PostNotification (content : bytes) (type : Z) (s : server) : server := emit (Notification content type) s.

(** ** Reconnecting *)

Definition _CancelReconnect (s : server) : server :=
  let r := rc s in
  with_rc (mkReconnect (fReconnectProfile r) (fReconnectUser r) (fReconnectPass r) (fUserInitiatedDisconnect r)
             (fReconnectArmed r) (fReconnectAttempt r) 0 false) s.

Definition _ArmReconnect (m : message) (user pass : bytes) (s : server) : server :=
  with_rc (mkReconnect (default (BMessage 0) (FindMessage kFieldProfile m)) user pass false true 0 0 false) s.

Definition _ReconnectDetail (s : server) : bytes :=
  bs "retry in " ++ fmt_d (fReconnectSecondsLeft (rc s)) ++ bs "s (attempt " ++ fmt_d (fReconnectAttempt (rc s))
  ++ bs "/" ++ fmt_d kReconnectMaxAttempts ++ bs ")".

Definition _StartReconnectCountdown (y : sys) (s : server) : bool * server :=
  let r := rc s in
  if fUserInitiatedDisconnect r || negb (fReconnectArmed r) || (fReconnectAttempt r >=? kReconnectMaxAttempts)
  then (false, s)
  else
    let attempt := fReconnectAttempt r + 1 in
    let started left on := with_rc (mkReconnect (fReconnectProfile r) (fReconnectUser r) (fReconnectPass r)
      (fUserInitiatedDisconnect r) (fReconnectArmed r) attempt left on) s in
    if s_timer y then (true, started (reconnect_delay_seconds attempt) true)
    else (false, started 0 false).

Definition _BroadcastReconnecting (y : sys) (s : server) : server :=
  let upd := add kFieldDetail (VString (_ReconnectDetail s))
               (add kFieldState (VInt32 VPN_STATE_RECONNECTING) (BMessage kMsgStatusUpdate)) in
  _Broadcast y (_EnrichForBroadcast s upd) s.

Definition _SelectBackend (backendType : Z) (s : server) : server :=
  with_backend (if backendType =? VPN_BACKEND_WIREGUARD then WireGuard
                else if backendType =? VPN_BACKEND_TAILSCALE then Tailscale else OpenVPN) s.

(** A call of the active backend's Connect. *)
Definition call_connect (w : which) (p : profile) (s : server) : status * server :=
  let '(st, b) := Connect p (objs s w) in (st, emit (CallConnect w p) (set_obj w b s)).

Definition call_credentials (w : which) (user pass : bytes) (s : server) : server :=
  if (zlen user >? 0) || (zlen pass >? 0) then set_obj w (SetCredentials user pass (objs s w)) s else s.

Definition _AttemptReconnect (y : sys) (s : server) : server :=
  match fBackend s with
  | None => s
  | Some _ =>
      let profile := Unarchive (fReconnectProfile (rc s)) VPNProfile in
      let s := _SelectBackend (fBackendType profile) s in
      match fBackend s with
      | None => s
      | Some w =>
          let s := call_credentials w (fReconnectUser (rc s)) (fReconnectPass (rc s)) s in
          match call_connect w profile s with
          | (B_OK, s) => s
          | (_, s) =>
              match _StartReconnectCountdown y s with
              | (true, s) => _BroadcastReconnecting y s
              | (false, s) => s
              end
          end
      end
  end.

Definition _HandleReconnectTick (y : sys) (s : server) : server :=
  let r := rc s in
  if negb (timer r) || fUserInitiatedDisconnect r then s
  else if fReconnectSecondsLeft r >? 1 then
    _BroadcastReconnecting y
      (with_rc (mkReconnect (fReconnectProfile r) (fReconnectUser r) (fReconnectPass r) (fUserInitiatedDisconnect r)
                  (fReconnectArmed r) (fReconnectAttempt r) (fReconnectSecondsLeft r - 1) (timer r)) s)
  else _AttemptReconnect y (_CancelReconnect s).

(** ** Connecting and disconnecting *)

(** An absolute path without a parent segment that can be read. *)
Definition path_ok (y : sys) (configPath : bytes) : bool :=
  let traversal := match find_sub (bs "/../") configPath with Some _ => true | None => is_suffix (bs "/..") configPath end in
  (zlen configPath >? 0) && (at_ configPath 0 =? 47) && negb traversal && s_readable y configPath.

Definition _HandleConnect (y : sys) (m : message) (ret : messenger) (s : server) : server :=
  match fBackend s with
  | None => s
  | Some w0 =>
      let profile := match FindMessage kFieldProfile m with Some a => Unarchive a VPNProfile | None => VPNProfile end in
      if live (State (objs s w0)) then reply_detail y m ret (bs "already connected; disconnect first") s
      else
        let s := _SelectBackend (fBackendType profile) s in
        let needsConfigFile := (fBackendType profile =? VPN_BACKEND_OPENVPN) || (fBackendType profile =? VPN_BACKEND_WIREGUARD) in
        if needsConfigFile && negb (path_ok y (fConfigPath profile)) then
          reply_detail y m ret (bs "profile config path is missing, not absolute, or unreadable") (with_connectedHost [] s)
        else
          let username := default [] (FindString kFieldUsername m) in
          let password := default [] (FindString kFieldPassword m) in
          let w := default OpenVPN (fBackend s) in
          let s := call_credentials w username password s in
          let profile :=
            match FindString kFieldAuthKey m with
            | Some k => if zlen k >? 0 then with_authKey k profile else profile
            | None => profile
            end in
          let s := _HandleSubscribe y m ret s in
          let s := _ArmReconnect m username password s in
          match call_connect w profile s with
          | (B_OK, s) => s
          | (e, s) => reply_detail y m ret (strerror e) (with_connectedHost [] s)
          end
  end.

Definition _HandleDisconnect (y : sys) (s : server) : server :=
  let r := rc s in
  let wasReconnecting := timer r in
  let s := _CancelReconnect
    (with_rc (mkReconnect (fReconnectProfile r) (fReconnectUser r) (fReconnectPass r) true (fReconnectArmed r)
                (fReconnectAttempt r) (fReconnectSecondsLeft r) (timer r)) s) in
  let s := match fBackend s with
           | Some w => emit (CallDisconnect w) (set_obj w (Disconnect (objs s w)) s)
           | None => s
           end in
  if wasReconnecting then
    let upd := add kFieldState (VInt32 VPN_STATE_DISCONNECTED) (BMessage kMsgStatusUpdate) in
    let s := _Broadcast y (_EnrichForBroadcast s upd) s in
    with_ses (mkSession VPN_STATE_DISCONNECTED (fLastServerSummary (ses s)) []) s
  else s.

(** ** Backend events *)

Definition _KickHomeGeoLookup (s : server) : server :=
  if fHomeLookupInFlight (hm s) then s
  else
    let busy := match fBackend s with Some w => live (State (objs s w)) | None => false end in
    if busy then s
    else
      let h := hm s in
      emit (BackgroundLookup kMsgHomeGeoResult)
        (with_home (mkHome (fHomeCountry h) (fHomeIP h) (fHomeLat h) (fHomeLon h) true) s).

Definition replace_or_add (name : string) (v : value) (m : message) : message :=
  match Replace name v m with
  | (B_OK, m) => m
  | (_, m) => add name v m
  end.

(** The state and the message, which a reconnect rewrites. *)
Definition intercept_drop (y : sys) (newState : Z) (m : message) (s : server) : Z * message * server :=
  if newState =? VPN_STATE_DISCONNECTED then
    match _StartReconnectCountdown y s with
    | (true, s) =>
        let m := replace_or_add kFieldState (VInt32 VPN_STATE_RECONNECTING) m in
        let m := replace_or_add kFieldDetail (VString (_ReconnectDetail s)) m in
        (VPN_STATE_RECONNECTING, m, s)
    | (false, s) => (newState, m, s)
    end
  else (newState, m, s).

Definition on_connected (m : message) (s : server) : server :=
  let r := rc s in
  let s := with_rc (mkReconnect (fReconnectProfile r) (fReconnectUser r) (fReconnectPass r) (fUserInitiatedDisconnect r)
                      (fReconnectArmed r) 0 (fReconnectSecondsLeft r) (timer r)) s in
  let summary := match FindString kFieldRemoteIP m with
                 | Some remote => if zlen remote >? 0 then remote else bs "VPN"
                 | None => bs "VPN"
                 end in
  let s := with_ses (mkSession (fLastState (ses s)) summary (fConnectedHost (ses s))) s in
  emit (BackgroundLookup kMsgCountryResult) (_PostNotification (bs "Connected to " ++ summary) B_INFORMATION_NOTIFICATION s).

Definition clear_session (s : server) : server := with_ses (mkSession (fLastState (ses s)) [] []) s.

Definition on_error (m : message) (s : server) : server :=
  let content := bs "VPN error" ++
    match FindString kFieldDetail m with
    | Some d => if zlen d >? 0 then bs ": " ++ d else []
    | None => []
    end ++ bs "." in
  _KickHomeGeoLookup (clear_session (_PostNotification content B_ERROR_NOTIFICATION s)).

Definition was_active (previous : Z) : bool :=
  (previous =? VPN_STATE_CONNECTED) || (previous =? VPN_STATE_RECONNECTING)
  || (previous =? VPN_STATE_AUTHENTICATING) || (previous =? VPN_STATE_CONNECTING).

Definition _HandleStatusForNotification (y : sys) (m : message) (s : server) : message * server :=
  let '(newState, m, s) := intercept_drop y (default VPN_STATE_DISCONNECTED (FindInt32 kFieldState m)) m s in
  let previous := fLastState (ses s) in
  let s := with_ses (mkSession newState (fLastServerSummary (ses s)) (fConnectedHost (ses s))) s in
  let s := if live newState then s else clear_session s in
  (m,
   if newState =? previous then s
   else if newState =? VPN_STATE_CONNECTED then on_connected m s
   else if newState =? VPN_STATE_DISCONNECTED then
     if negb (was_active previous) then s
     else _KickHomeGeoLookup (clear_session (_PostNotification (bs "VPN disconnected.") B_INFORMATION_NOTIFICATION s))
   else if newState =? VPN_STATE_ERROR then on_error m s
   else s).

Definition _HandleHomeGeoResult (y : sys) (m : message) (s : server) : server :=
  let h := hm s in
  let country := match FindString kGeoCountry m with Some c => c | None => fHomeCountry h end in
  let ip := match FindString kGeoQueryIP m with Some i => i | None => fHomeIP h end in
  let '(lat, lon, moved) :=
    match FindFloat kGeoLatitude m, FindFloat kGeoLongitude m with
    | Some lat, Some lon =>
        if negb (feq lat (fHomeLat h)) || negb (feq lon (fHomeLon h)) then (lat, lon, true) else (fHomeLat h, fHomeLon h, false)
    | _, _ => (fHomeLat h, fHomeLon h, false)
    end in
  let changed := negb (beq country (fHomeCountry h)) || negb (beq ip (fHomeIP h)) || moved in
  let s := with_home (mkHome country ip lat lon false) s in
  if negb changed then s else _Broadcast y (_FillStatus s (BMessage kMsgStatusUpdate)) s.

Definition _HandleCountryResult (y : sys) (m : message) (s : server) : server :=
  if negb (fLastState (ses s) =? VPN_STATE_CONNECTED) then s
  else
    let country := default [] (FindString kGeoCountry m) in
    let externalIP := default [] (FindString kGeoQueryIP m) in
    if (zlen country =? 0) && (zlen externalIP =? 0) then s
    else
      let summary := fLastServerSummary (ses s) in
      let content := bs "Connected to " ++ (if zlen summary >? 0 then summary else bs "VPN")
                     ++ (if zlen country >? 0 then 10 :: country else []) in
      let s := _PostNotification content B_INFORMATION_NOTIFICATION s in
      let update := _FillStatus s (BMessage kMsgStatusUpdate) in
      let update := if zlen country >? 0 then add kFieldCountry (VString country) update else update in
      let update := if zlen externalIP >? 0 then add kFieldExternalIP (VString externalIP) update else update in
      _Broadcast y update s.

(** ** Profiles *)

(** The config is copied into the store directory and the profile repointed;
    the copy is truncated before the source is read. *)
Definition _StageImportedConfig (y : sys) (p : profile) (s : server) : profile * server :=
  if zlen (fConfigPath p) =? 0 then (p, s)
  else
    match imported_config_dir (s_settings y) with
    | None => (p, s)
    | Some dir =>
        if is_prefix (dir ++ [47]) (fConfigPath p) then (p, s)
        else if negb (s_mkdir y dir) then (p, s)
        else
          let dest := Append dir (staged_leaf (cstr (fName p))) in
          match files s !! resolve (fConfigPath p) with
          | None => (p, s)
          | Some _ =>
              let content := default [] (<[resolve dest := []]> (files s) !! resolve (fConfigPath p)) in
              if negb (s_create y dest) then (p, s)
              else if negb (s_write y dest) || negb (s_read y (fConfigPath p)) then
                (p, with_files (delete (resolve dest) (files s)) s)
              else (with_configPath dest p, with_files (<[resolve dest := content]> (files s)) s)
          end
    end.

Definition _RemoveStagedConfig (y : sys) (configPath : bytes) (s : server) : server :=
  if zlen configPath =? 0 then s
  else
    match imported_config_dir (s_settings y) with
    | None => s
    | Some dir =>
        if negb (is_prefix (dir ++ [47]) configPath) then s
        else if existsb (fun p => Json.str_eq (fConfigPath p) configPath) (fProfiles s) then s
        else if s_remove y configPath then with_files (delete (resolve configPath) (files s)) s else s
    end.

Definition _BroadcastProfileList (y : sys) (s : server) : server := _Broadcast y (profile_list s) s.

Definition _HandleSaveProfile (y : sys) (m : message) (s : server) : server :=
  match FindMessage kFieldProfile m with
  | None => s
  | Some archive =>
      let '(p, s) := _StageImportedConfig y (Unarchive archive VPNProfile) s in
      let '(result, store, ds) := ProfileStore.Save p (s_io y) (fProfiles s) (disk s) in
      let s := with_profiles store (List.last ds (disk s)) s in
      match result with
      | B_OK => _BroadcastProfileList y s
      | _ => s
      end
  end.

Definition _HandleDeleteProfile (y : sys) (m : message) (s : server) : server :=
  match FindString kFieldProfileName m with
  | None => s
  | Some name =>
      let configPath := match List.find (fun p => Json.str_eq (fName p) name) (fProfiles s) with
                        | Some p => fConfigPath p
                        | None => []
                        end in
      let '(result, store, ds) := ProfileStore.Delete (Some name) (s_io y) (fProfiles s) (disk s) in
      let s := with_profiles store (List.last ds (disk s)) s in
      match result with
      | B_OK => _BroadcastProfileList y (_RemoveStagedConfig y configPath s)
      | _ => s
      end
  end.

(** ** The VPNGate catalogue *)

Definition _KickVPNGateFetch (s : server) : server :=
  let c := cat s in
  emit BackgroundFetch (with_cat (mkCatalogue (fCatalogueCache c) (fCatalogueFetchedAt c) true (fCataloguePending c)) s).

Definition _HandleRequestVPNGate (y : sys) (m : message) (ret : messenger) (s : server) : server :=
  let client := _ClientFrom m ret in
  if negb (IsValid client) then s
  else
    let force := default false (FindBool "force" m) in
    let c := cat s in
    if negb force && (fCatalogueFetchedAt c >? 0) && (s_now y - fCatalogueFetchedAt c <? kCatalogueTTL)
       && negb (IsEmpty (fCatalogueCache c)) then
      send y client (fCatalogueCache c) s
    else
      let s := with_cat (mkCatalogue (fCatalogueCache c) (fCatalogueFetchedAt c) (fCatalogueFetchInFlight c)
                           (fCataloguePending c ++ [client])) s in
      if negb (fCatalogueFetchInFlight c) then _KickVPNGateFetch s else s.

Definition _HandleVPNGateFetched (y : sys) (m : message) (s : server) : server :=
  let cache := fold_left (fun acc entry => add kFieldVPNGateServer (nested entry) acc)
                 (FindMessages kFieldVPNGateServer m) (BMessage kMsgVPNGateList) in
  let cache := match FindString kFieldError m with Some e => add kFieldError (VString e) cache | None => cache end in
  let s' := fold_left (fun s c => send y c cache s) (fCataloguePending (cat s)) s in
  with_cat (mkCatalogue cache (s_now y) false []) s'.

Definition _WriteVPNGateConfig (y : sys) (host base64Body : bytes) (s : server) : bytes * server :=
  match s_cache y with
  | None => ([], s)
  | Some base =>
      let path := Append (Append (Append base (bs "Sotoportego")) (bs "vpngate")) (vpngate_leaf host) in
      match decode_base64 base64Body with
      | None => ([], s)
      | Some decoded =>
          if zlen decoded =? 0 then ([], s)
          else if negb (s_create y path) then ([], s)
          else if negb (s_write y path) then ([], with_files (<[resolve path := []]> (files s)) s)
          else (path, with_files (<[resolve path := decoded]> (files s)) s)
      end
  end.

Definition _HandleConnectVPNGate (y : sys) (m : message) (ret : messenger) (s : server) : server :=
  match fBackend s with
  | None => s
  | Some _ =>
      match FindString kFieldVPNGateHost m, FindString kFieldVPNGateConfigBase64 m with
      | Some host, Some base64 =>
          let s := with_connectedHost host s in
          let '(configPath, s) := _WriteVPNGateConfig y host base64 s in
          if zlen configPath =? 0 then
            reply_detail y m ret (bs "could not stage vpngate .ovpn") (with_connectedHost [] s)
          else
            let name := bs "VPNGate " ++ host ++
              match FindString kFieldVPNGateCountryLong m with
              | Some cc => if zlen cc >? 0 then bs " (" ++ cc ++ bs ")" else []
              | None => []
              end in
            let p := mkProfile VPN_BACKEND_OPENVPN name host 443 [] (bs "udp") configPath [] in
            let connect := add kFieldProfile (nested (archived p)) (BMessage kMsgConnect) in
            let client := _ClientFrom m ret in
            let connect := if IsValid client then add kFieldClient (VMessenger client) connect else connect in
            let connect := match FindString kFieldUsername m with Some u => add kFieldUsername (VString u) connect | None => connect end in
            let connect := match FindString kFieldPassword m with Some u => add kFieldPassword (VString u) connect | None => connect end in
            _HandleConnect y connect 0 s
      | _, _ => s
      end
  end.

(** ** The looper *)

Definition _HandleSetExitNode (m : message) (s : server) : server :=
  match fBackend s with
  | Some w => set_obj w (snd (SetExitNode (default [] (FindString kFieldExitNodeKey m)) (objs s w))) s
  | None => s
  end.

Definition ReadyToRun (s : server) : server :=
  let s := with_backend OpenVPN s in
  let s := with_objs (fun w => RecoverIfCrashed (objs s w)) s in
  _KickHomeGeoLookup s.

Definition MessageReceived (y : sys) (m : message) (ret : messenger) (s : server) : server :=
  let w := what m in
  if w =? kMsgConnect then _HandleConnect y m ret s
  else if w =? kMsgDisconnect then _HandleDisconnect y s
  else if w =? kMsgSubscribe then _HandleSubscribe y m ret s
  else if w =? kMsgUnsubscribe then _HandleUnsubscribe m ret s
  else if w =? kMsgGetStatus then _HandleGetStatus y m ret s
  else if w =? kMsgSaveProfile then _HandleSaveProfile y m s
  else if w =? kMsgDeleteProfile then _HandleDeleteProfile y m s
  else if w =? kMsgRequestVPNGate then _HandleRequestVPNGate y m ret s
  else if w =? kMsgConnectVPNGate then _HandleConnectVPNGate y m ret s
  else if w =? kMsgSetExitNode then _HandleSetExitNode m s
  else if w =? kMsgVPNGateFetched then _HandleVPNGateFetched y m s
  else if w =? kMsgReconnectTick then _HandleReconnectTick y s
  else if w =? kMsgStatusUpdate then
    let '(m, s) := _HandleStatusForNotification y m s in _Broadcast y (_EnrichForBroadcast s m) s
  else if w =? kMsgStatsUpdate then _Broadcast y (_EnrichForBroadcast s m) s
  else if w =? kMsgCountryResult then _HandleCountryResult y m s
  else if w =? kMsgHomeGeoResult then _HandleHomeGeoResult y m s
  else s.

(** What happens to the daemon: a message, or a backend moving on its own
    (its timers, its process, its threads). *)
Inductive event :=
| EvMessage (y : sys) (m : message) (ret : messenger)
| EvBackend (w : which) (b : B).

Definition step (s : server) (e : event) : server :=
  match e with
  | EvMessage y m ret => MessageReceived y m ret s
  | EvBackend w b => set_obj w b s
  end.

Definition steps (es : list event) (s : server) : server := fold_left step es s.
End WithBackend.
End Server.
