(* ===== verification/ServerProofs.v ===== *)
(** * ServerProofs: what the daemon guarantees (proofs about Server.v)

    Handlers that neither connect nor disconnect leave the connection core of
    the state alone: the backends, the active one, the reconnect record and the
    calls made to the backends ([core]).  The theorems are about event
    sequences of any order and length. *)

From stdpp Require Import gmap.
From S2P Require Import Prelude CLib Json Message Profiles Daemon Server.
Import Message VPNProtocol VPNState VPNProfile DaemonFiles Server.
Open Scope Z_scope.

Module ServerProofs.

(** The Connect calls among the effects. *)
Definition is_connect (e : effect) : bool := match e with CallConnect _ _ => true | _ => false end.
Definition connects (l : list effect) : list effect := List.filter is_connect l.

Section WithBackend.
Context {B : Type} `{VPNBackend B}.
Context (resolve : bytes -> bytes) (strerror : status -> bytes).
Abbreviation server := (Server.server (B := B)).

Definition core (s : server) : (which -> B) * option which * reconnect * list effect :=
  (objs s, fBackend s, rc s, connects (out s)).

Lemma connects_snoc l e : is_connect e = false -> connects (l ++ [e]) = connects l.
Proof. intros E. unfold connects. rewrite List.filter_app. cbn. by rewrite E, app_nil_r. Qed.

Lemma core_emit e (s : server) : is_connect e = false -> core (emit e s) = core s.
Proof. intros E. unfold core. cbn. by rewrite connects_snoc. Qed.

Lemma core_send y to m (s : server) : core (send y to m s) = core s.
Proof. unfold send. destruct (s_alive y to); [by rewrite core_emit|done]. Qed.

Lemma core_fold_send y m l (s : server) : core (fold_left (fun s c => send y c m s) l s) = core s.
Proof. revert s. induction l as [|c l IH]; intros s; [done|]. cbn. by rewrite IH, core_send. Qed.

Lemma core_Broadcast y m (s : server) : core (_Broadcast y m s) = core s.
Proof. unfold _Broadcast. change (core (with_clients ?c ?x)) with (core x). apply core_fold_send. Qed.

Lemma core_reply y m ret d (s : server) : core (reply_detail y m ret d s) = core s.
Proof. unfold reply_detail. destruct (IsValid _); [apply core_send|done]. Qed.

Lemma core_Subscribe y m ret (s : server) : core (_HandleSubscribe y m ret s) = core s.
Proof.
  unfold _HandleSubscribe, _SendProfileList. cbv zeta. destruct (negb _); [done|]. destruct (existsb _ _); [done|].
  by rewrite core_send.
Qed.

Lemma core_GetStatus y m ret (s : server) : core (_HandleGetStatus y m ret s) = core s.
Proof. unfold _HandleGetStatus. cbv zeta. destruct (negb _); [done|apply core_send]. Qed.

Lemma core_KickHome (s : server) : core (_KickHomeGeoLookup s) = core s.
Proof. unfold _KickHomeGeoLookup. cbv zeta. destruct (fHomeLookupInFlight _); [done|]. destruct (match _ with Some _ => _ | None => _ end); [done|by rewrite core_emit]. Qed.

Lemma core_SaveProfile y m (s : server) : core (_HandleSaveProfile resolve y m s) = core s.
Proof.
  unfold _HandleSaveProfile. cbv zeta. destruct (FindMessage _ m) as [a|]; [|done].
  assert (E : core (snd (_StageImportedConfig resolve y (Unarchive a VPNProfile) s)) = core s).
  { unfold _StageImportedConfig. cbv zeta. destruct (zlen _ =? 0); [done|]. destruct (imported_config_dir _); [|done].
    destruct (is_prefix _ _); [done|]. destruct (negb _); [done|]. destruct (files s !! _); [|done].
    destruct (negb _); [done|]. by destruct (_ || _). }
  destruct (_StageImportedConfig _ _ _ s) as [p s1]. cbn [snd] in E.
  destruct (ProfileStore.Save _ _ _ _) as [[r st] ds]. destruct r; try exact E.
  unfold _BroadcastProfileList. rewrite core_Broadcast. exact E.
Qed.

Lemma core_RemoveStaged y c (s : server) : core (_RemoveStagedConfig resolve y c s) = core s.
Proof.
  unfold _RemoveStagedConfig. cbv zeta. destruct (_ =? 0); [done|]. destruct (imported_config_dir _); [|done].
  destruct (negb _); [done|]. destruct (existsb _ _); [done|]. by destruct (s_remove y c).
Qed.

Lemma core_DeleteProfile y m (s : server) : core (_HandleDeleteProfile resolve y m s) = core s.
Proof.
  unfold _HandleDeleteProfile. cbv zeta. destruct (FindString _ m) as [n|]; [|done].
  destruct (ProfileStore.Delete _ _ _ _) as [[r st] ds]. destruct r; try done.
  unfold _BroadcastProfileList. by rewrite core_Broadcast, core_RemoveStaged.
Qed.

Lemma core_Home y m (s : server) : core (_HandleHomeGeoResult y m s) = core s.
Proof.
  unfold _HandleHomeGeoResult. cbv zeta. destruct (match FindFloat kGeoLatitude m with Some _ => _ | None => _ end) as [[lat lon] moved].
  destruct (negb _); [done|]. by rewrite core_Broadcast.
Qed.

Lemma core_Country y m (s : server) : core (_HandleCountryResult y m s) = core s.
Proof.
  unfold _HandleCountryResult. cbv zeta. destruct (negb _); [done|]. destruct (_ && _); [done|].
  rewrite core_Broadcast. unfold _PostNotification. by rewrite core_emit.
Qed.

Lemma core_RequestVPNGate y m ret (s : server) : core (_HandleRequestVPNGate y m ret s) = core s.
Proof.
  unfold _HandleRequestVPNGate, _KickVPNGateFetch. cbv zeta. destruct (negb _); [done|].
  destruct (_ && _ && _ && _); [apply core_send|]. destruct (negb _); [by rewrite core_emit|done].
Qed.

Lemma core_VPNGateFetched y m (s : server) : core (_HandleVPNGateFetched y m s) = core s.
Proof. unfold _HandleVPNGateFetched. change (core (with_cat ?c ?x)) with (core x). apply core_fold_send. Qed.

Lemma core_WriteVPNGate y h b (s : server) : core (snd (_WriteVPNGateConfig resolve y h b s)) = core s.
Proof.
  unfold _WriteVPNGateConfig. cbv zeta. destruct (s_cache y); [|done]. destruct (decode_base64 b); [|done].
  destruct (_ =? 0); [done|]. destruct (negb _); [done|]. by destruct (negb _).
Qed.

Lemma core_Unsubscribe m ret (s : server) : core (_HandleUnsubscribe m ret s) = core s.
Proof. done. Qed.

(** The status handler beyond the reconnect record. *)
Lemma core_on_error m (s : server) : core (on_error m s) = core s.
Proof.
  unfold on_error, clear_session. cbv zeta. rewrite core_KickHome. unfold _PostNotification.
  change (core (with_ses ?x ?y)) with (core y). by rewrite core_emit.
Qed.

Lemma core_BroadcastReconnecting y (s : server) : core (_BroadcastReconnecting y s) = core s.
Proof. apply core_Broadcast. Qed.

(** The handlers that touch the core. *)
Inductive kind := Connecting | Disconnecting | Tick | Status | ExitNode | Passive.
Definition kind_of (m : message) : kind :=
  let w := what m in
  if (w =? kMsgConnect) || (w =? kMsgConnectVPNGate) then Connecting
  else if w =? kMsgDisconnect then Disconnecting
  else if w =? kMsgReconnectTick then Tick
  else if w =? kMsgStatusUpdate then Status
  else if w =? kMsgSetExitNode then ExitNode
  else Passive.

Definition status_step y m (s : server) : server :=
  let '(m, s) := _HandleStatusForNotification y m s in _Broadcast y (_EnrichForBroadcast s m) s.

Ltac codes := unfold kMsgConnect, kMsgConnectVPNGate, kMsgDisconnect, kMsgReconnectTick, kMsgStatusUpdate, kMsgSetExitNode,
  kMsgSubscribe, kMsgUnsubscribe, kMsgGetStatus, kMsgSaveProfile, kMsgDeleteProfile, kMsgRequestVPNGate, kMsgVPNGateFetched,
  kMsgStatsUpdate, kMsgCountryResult, kMsgHomeGeoResult.

(** MessageReceived, by kind of message. *)
Lemma MessageReceived_kind y m ret (s : server) :
  let s' := MessageReceived resolve strerror y m ret s in
  match kind_of m with
  | Connecting => s' = _HandleConnect strerror y m ret s \/ s' = _HandleConnectVPNGate resolve strerror y m ret s
  | Disconnecting => s' = _HandleDisconnect y s
  | Tick => s' = _HandleReconnectTick y s
  | Status => s' = status_step y m s
  | ExitNode => s' = _HandleSetExitNode m s
  | Passive => core s' = core s
  end.
Proof.
  unfold MessageReceived, kind_of, status_step. cbv zeta.
  destruct (Z.eqb_spec (what m) kMsgConnect) as [|N1]; [by left|].
  destruct (Z.eqb_spec (what m) kMsgConnectVPNGate) as [E|N2]; [rewrite E; by right|]. cbn [orb].
  destruct (Z.eqb_spec (what m) kMsgDisconnect) as [|N3]; [done|].
  destruct (Z.eqb_spec (what m) kMsgReconnectTick) as [E|N4]; [by rewrite E|].
  destruct (Z.eqb_spec (what m) kMsgStatusUpdate) as [E|N5]; [by rewrite E|].
  destruct (Z.eqb_spec (what m) kMsgSetExitNode) as [E|N6]; [by rewrite E|].
  destruct (what m =? kMsgSubscribe); [apply core_Subscribe|]. destruct (what m =? kMsgUnsubscribe); [done|].
  destruct (what m =? kMsgGetStatus); [apply core_GetStatus|]. destruct (what m =? kMsgSaveProfile); [apply core_SaveProfile|].
  destruct (what m =? kMsgDeleteProfile); [apply core_DeleteProfile|].
  destruct (what m =? kMsgRequestVPNGate); [apply core_RequestVPNGate|].
  destruct (what m =? kMsgVPNGateFetched); [apply core_VPNGateFetched|].
  destruct (what m =? kMsgStatsUpdate); [apply core_Broadcast|].
  destruct (what m =? kMsgCountryResult); [apply core_Country|].
  destruct (what m =? kMsgHomeGeoResult); [apply core_Home|done].
Qed.


(** ** The status handler *)

Lemma core_eq (s s' : server) : core s' = core s ->
  objs s' = objs s /\ fBackend s' = fBackend s /\ rc s' = rc s /\ connects (out s') = connects (out s).
Proof. unfold core. intros E. by injection E as -> -> -> ->. Qed.

Lemma core_clear (s : server) : core (clear_session s) = core s.
Proof. done. Qed.

(** After the drop was intercepted, a status update changes the connection
    core only by resetting the attempts of a session that came up. *)
Definition reset_attempts (r : reconnect) : reconnect :=
  mkReconnect (fReconnectProfile r) (fReconnectUser r) (fReconnectPass r) (fUserInitiatedDisconnect r)
    (fReconnectArmed r) 0 (fReconnectSecondsLeft r) (timer r).

Definition reported_state (m : message) : Z := default VPN_STATE_DISCONNECTED (FindInt32 kFieldState m).

Lemma core_on_connected m (s : server) :
  core (on_connected m s) = (objs s, fBackend s, reset_attempts (rc s), connects (out s)).
Proof. unfold on_connected, _PostNotification. cbv zeta. rewrite !core_emit by done. done. Qed.

Lemma Status_core y m (s : server) :
  let '(st, _, s1) := intercept_drop y (reported_state m) m s in
  core (snd (_HandleStatusForNotification y m s)) = core s1
  \/ st = VPN_STATE_CONNECTED
     /\ core (snd (_HandleStatusForNotification y m s)) = (objs s1, fBackend s1, reset_attempts (rc s1), connects (out s1)).
Proof.
  unfold _HandleStatusForNotification. fold (reported_state m). destruct (intercept_drop _ _ _ s) as [[st m1] s1].
  cbv zeta. cbn [snd]. set (s2 := if live st then _ else _).
  assert (E2 : core s2 = core s1) by (unfold s2; by destruct (live st)).
  destruct (st =? _); [by left|]. destruct (Z.eqb_spec st VPN_STATE_CONNECTED) as [->|].
  - right. split; [done|]. rewrite core_on_connected. by apply core_eq in E2 as (-> & -> & -> & ->).
  - left. destruct (st =? VPN_STATE_DISCONNECTED).
    + destruct (negb _); [done|]. rewrite core_KickHome, core_clear. unfold _PostNotification. by rewrite core_emit.
    + destruct (st =? VPN_STATE_ERROR); [by rewrite core_on_error|done].
Qed.

Lemma status_step_core y m (s : server) : core (status_step y m s) = core (snd (_HandleStatusForNotification y m s)).
Proof. unfold status_step. destruct (_HandleStatusForNotification y m s) as [m1 s1]. apply core_Broadcast. Qed.

(** ** A user's disconnect holds *)

Definition connecting (e : event (B := B)) : bool :=
  match e with EvMessage _ m _ => match kind_of m with Connecting => true | _ => false end | EvBackend _ _ => false end.

Abbreviation steps := (Server.steps resolve strerror).
Abbreviation step := (Server.step resolve strerror).

Definition stopped (s : server) : Prop := fUserInitiatedDisconnect (rc s) = true /\ timer (rc s) = false.

Lemma core_stopped (s s' : server) : core s' = core s -> stopped s ->
  stopped s' /\ connects (out s') = connects (out s).
Proof. intros E Hs. apply core_eq in E as (_ & _ & Er & Ec). unfold stopped. by rewrite Er. Qed.

Lemma Disconnect_stops y (s : server) :
  stopped (_HandleDisconnect y s) /\ connects (out (_HandleDisconnect y s)) = connects (out s).
Proof.
  unfold _HandleDisconnect. cbv zeta. set (s1 := _CancelReconnect _).
  set (s2 := match fBackend s1 with Some _ => _ | None => _ end).
  assert (E2 : stopped s2 /\ connects (out s2) = connects (out s)).
  { unfold s2. destruct (fBackend s1); [|done]. split; [done|]. cbn. by rewrite connects_snoc. }
  destruct (timer (rc s)); [|done].
  match goal with |- context [_Broadcast y ?m s2] =>
    destruct (core_stopped s2 (_Broadcast y m s2) (core_Broadcast _ _ _) (proj1 E2)) as [H1 H2] end.
  split; [exact H1|]. cbn [with_ses out]. rewrite H2. apply E2.
Qed.

Lemma step_stopped e (s : server) : stopped s -> connecting e = false ->
  stopped (step s e) /\ connects (out (step s e)) = connects (out s).
Proof.
  intros Hs He. destruct e as [y m ret|w b]; [|done]. cbn [connecting] in He. cbn [Server.step].
  pose proof (MessageReceived_kind y m ret s) as K. cbv zeta in K. destruct (kind_of m); [done| | | | |].
  - rewrite K. apply Disconnect_stops.
  - rewrite K. unfold _HandleReconnectTick. cbv zeta. destruct Hs as [H1 H2]. by rewrite H1, H2.
  - rewrite K. assert (Ei : intercept_drop y (reported_state m) m s = (reported_state m, m, s)).
    { unfold intercept_drop, _StartReconnectCountdown. cbv zeta. destruct Hs as [H1 _]. rewrite H1. by destruct (_ =? _). }
    pose proof (Status_core y m s) as S. rewrite Ei in S. pose proof (status_step_core y m s) as E. destruct S as [S|[_ S]].
    + apply core_stopped; [by rewrite E, S|done].
    + rewrite S in E. unfold core in E. injection E as _ _ Er Ec. unfold stopped. rewrite Er. by split.
  - rewrite K. unfold _HandleSetExitNode. by destruct (fBackend s).
  - by apply core_stopped.
Qed.

(** C1: A user's Disconnect is final: whatever happens afterwards, in any order (backend events of any kind, drops, ticks already in the queue, other clients' requests), the daemon never calls a backend's Connect again until a client asks for a connection, and no reconnect countdown runs. *)
Theorem disconnect_is_final y m ret es (s : server) :
  kind_of m = Disconnecting -> Forall (fun e => connecting e = false) es ->
  let s' := steps es (step s (EvMessage y m ret)) in
  connects (out s') = connects (out s) /\ timer (rc s') = false.
Proof.
  intros Hm Hes. cbv zeta. unfold Server.steps.
  assert (H0 : stopped (step s (EvMessage y m ret)) /\ connects (out (step s (EvMessage y m ret))) = connects (out s)).
  { cbn [Server.step]. pose proof (MessageReceived_kind y m ret s) as K. cbv zeta in K. rewrite Hm in K. rewrite K. apply Disconnect_stops. }
  revert H0. generalize (step s (EvMessage y m ret)) as s1. induction Hes as [|e es He Hes IH]; intros s1 [H1 H2]; cbn [fold_left].
  - split; [done|apply H1].
  - apply IH. destruct (step_stopped e s1 H1 He) as [G1 G2]. split; [done|congruence].
Qed.

(** ** The reconnect budget *)

Lemma connects_app l k : connects (l ++ k) = connects l ++ connects k.
Proof. apply List.filter_app. Qed.

Lemma delay_range a : 1 <= reconnect_delay_seconds a <= 60.
Proof.
  unfold reconnect_delay_seconds. cbv zeta.
  assert (E : forall n i d, 1 <= d -> 1 <= double_while n i a d).
  { induction n as [|n IH]; intros i d Hd; cbn [double_while]; [done|]. destruct (_ && _); [apply IH; lia|done]. }
  pose proof (E 5%nat 1 5 ltac:(lia)). zcases.
Qed.

(** What the reconnect record may still spend: the attempts left and the
    countdown that is running. *)
Definition budget (r : reconnect) : Z :=
  (if timer r then 1 else 0) + (if fReconnectArmed r then kReconnectMaxAttempts - fReconnectAttempt r else 0).
Definition rc_ok (r : reconnect) : Prop :=
  0 <= fReconnectAttempt r <= kReconnectMaxAttempts /\ 0 <= fReconnectSecondsLeft r <= 60.
Definition calls (s : server) : Z := zlen (connects (out s)).
Definition bounded (s : server) (n : Z) (s' : server) : Prop :=
  rc_ok (rc s') /\ calls s' + budget (rc s') <= calls s + budget (rc s) + n.

Lemma core_bounded (s s' : server) : core s' = core s -> rc_ok (rc s) -> bounded s 0 s'.
Proof. intros (_ & _ & Er & Ec)%core_eq Hr. unfold bounded, calls. rewrite Er, Ec. split; [done|lia]. Qed.

Lemma bounded_trans (s1 s2 s3 : server) n k : bounded s1 n s2 -> bounded s2 k s3 -> bounded s1 (n + k) s3.
Proof. unfold bounded. intuition lia. Qed.

Lemma Countdown_bounded y (s : server) : rc_ok (rc s) -> bounded s 0 (snd (_StartReconnectCountdown y s)).
Proof.
  intros [Ha Hl]. unfold _StartReconnectCountdown. cbv zeta.
  destruct (fUserInitiatedDisconnect (rc s)); [by apply core_bounded|].
  destruct (fReconnectArmed (rc s)) eqn:Ea; [|by apply core_bounded]. cbn [orb negb].
  destruct (Z.geb_spec (fReconnectAttempt (rc s)) kReconnectMaxAttempts); [by apply core_bounded|].
  pose proof (delay_range (fReconnectAttempt (rc s) + 1)).
  destruct (s_timer y); cbn [snd]; unfold bounded, rc_ok, budget, calls;
    cbn [rc with_rc out fReconnectAttempt fReconnectSecondsLeft timer fReconnectArmed]; rewrite Ea; destruct (timer (rc s)); lia.
Qed.

Lemma Cancel_bounded (s : server) : rc_ok (rc s) -> bounded s (if timer (rc s) then -1 else 0) (_CancelReconnect s).
Proof.
  intros [Ha Hl]. unfold bounded, rc_ok, budget, calls, _CancelReconnect. cbv zeta.
  cbn [rc with_rc out fReconnectAttempt fReconnectSecondsLeft timer fReconnectArmed]. destruct (timer (rc s)); lia.
Qed.

Lemma call_connect_calls w p (s : server) :
  rc (snd (call_connect w p s)) = rc s /\ fBackend (snd (call_connect w p s)) = fBackend s
  /\ connects (out (snd (call_connect w p s))) = connects (out s) ++ [CallConnect w p].
Proof. unfold call_connect. destruct (Connect _ _) as [st b]. cbn. by rewrite connects_app. Qed.

Lemma call_credentials_core w u p (s : server) :
  rc (call_credentials w u p s) = rc s /\ fBackend (call_credentials w u p s) = fBackend s
  /\ out (call_credentials w u p s) = out s.
Proof. unfold call_credentials. by destruct (_ || _). Qed.

(** The backend a profile is for. *)
Definition backend_of (backendType : Z) : which :=
  if backendType =? VPN_BACKEND_WIREGUARD then WireGuard
  else if backendType =? VPN_BACKEND_TAILSCALE then Tailscale else OpenVPN.

Lemma SelectBackend_of t (s : server) : fBackend (_SelectBackend t s) = Some (backend_of t).
Proof. done. Qed.

(** An attempt is one call, to the backend of the profile last connected; a
    failed one starts the next countdown. *)
Lemma Attempt_calls y (s : server) : fBackend s <> None ->
  let p := Unarchive (fReconnectProfile (rc s)) VPNProfile in
  connects (out (_AttemptReconnect y s)) = connects (out s) ++ [CallConnect (backend_of (fBackendType p)) p]
  /\ (rc_ok (rc s) -> bounded s 1 (_AttemptReconnect y s)).
Proof.
  intros Hb. cbv zeta. unfold _AttemptReconnect. destruct (fBackend s) as [w0|]; [|done]. cbv zeta.
  rewrite SelectBackend_of. set (p := Unarchive _ _). set (w := backend_of _).
  set (s1 := call_credentials w _ _ _).
  assert (E1 : rc s1 = rc s /\ out s1 = out s) by (unfold s1, call_credentials; by destruct (_ || _)). destruct E1 as [Er Eo].
  destruct (call_connect_calls w p s1) as (E2 & _ & E3).
  destruct (call_connect w p s1) as [st s2]. cbn [snd] in E2, E3. rewrite Eo in E3.
  assert (B1 : rc_ok (rc s) -> bounded s 1 s2).
  { intros Hr. unfold bounded, calls. rewrite E2, E3, Er, zlen_app. change (zlen [CallConnect w p]) with 1. split; [done|lia]. }
  assert (B2 : connects (out (match _StartReconnectCountdown y s2 with (true, s) => _BroadcastReconnecting y s | (false, s) => s end))
               = connects (out s) ++ [CallConnect w p]
               /\ (rc_ok (rc s) -> bounded s 1 (match _StartReconnectCountdown y s2 with (true, s) => _BroadcastReconnecting y s | (false, s) => s end))).
  { pose proof (Countdown_bounded y s2) as C.
    assert (Ec : connects (out (snd (_StartReconnectCountdown y s2))) = connects (out s2)).
    { unfold _StartReconnectCountdown. cbv zeta. destruct (_ || _ || _); [done|]. by destruct (s_timer y). }
    destruct (_StartReconnectCountdown y s2) as [on s3]. cbn [snd] in C, Ec.
    assert (D : rc_ok (rc s) -> bounded s 1 s3).
    { intros Hr. apply (bounded_trans s s2 s3 1 0); [by apply B1|]. apply C. by rewrite E2, Er. }
    destruct on; [|split; [congruence|exact D]].
    pose proof (core_BroadcastReconnecting y s3) as Eb. split; [apply core_eq in Eb as (_ & _ & _ & ->); congruence|].
    intros Hr. apply (bounded_trans s s3 _ 1 0); [by apply D|]. apply core_bounded; [done|]. by apply D. }
  destruct st; (exact B2 || (split; [exact E3|exact B1])).
Qed.


(** What an event may add: a client's connection gives one call and five
    attempts, a session that came up gives the five attempts back. *)
Definition charge (e : event (B := B)) : Z :=
  match e with
  | EvMessage _ m _ =>
      match kind_of m with
      | Connecting => 1 + kReconnectMaxAttempts
      | Status => if reported_state m =? VPN_STATE_CONNECTED then kReconnectMaxAttempts else 0
      | _ => 0
      end
  | EvBackend _ _ => 0
  end.

Lemma budget_nonneg r : rc_ok r -> 0 <= budget r.
Proof. unfold rc_ok, budget, kReconnectMaxAttempts. destruct (timer r), (fReconnectArmed r); lia. Qed.

Lemma bounded_weaken (s s' : server) n k : bounded s n s' -> n <= k -> bounded s k s'.
Proof. unfold bounded. intuition lia. Qed.

Lemma bounded_same (s s' : server) k : 0 <= k -> rc s' = rc s -> connects (out s') = connects (out s) -> rc_ok (rc s) -> bounded s k s'.
Proof. intros Hk Er Ec Hr. unfold bounded, calls. rewrite Er, Ec. split; [done|lia]. Qed.

Lemma Connect_bounded y m ret (s : server) : rc_ok (rc s) -> bounded s 6 (_HandleConnect strerror y m ret s).
Proof.
  intros Hr. unfold _HandleConnect. destruct (fBackend s) as [w0|]; [|by apply bounded_same]. cbv zeta.
  destruct (live _); [apply (bounded_weaken _ _ 0); [apply core_bounded; [apply core_reply|done]|lia]|].
  rewrite SelectBackend_of. cbn [default].
  destruct (_ && negb _).
  { match goal with |- bounded s 6 (reply_detail y m ret ?d ?x) => pose proof (core_reply y m ret d x) as E end.
    apply core_eq in E as (_ & _ & Er & Ec). apply bounded_same; [lia|by rewrite Er|by rewrite Ec|done]. }
  set (w := backend_of _). generalize (default [] (FindString kFieldUsername m)) as u. generalize (default [] (FindString kFieldPassword m)) as k.
  intros k u. change (id w) with w. match goal with |- context [call_connect w ?pr ?st] => set (p := pr); set (s2 := st) end.
  set (s1 := call_credentials w u k (_SelectBackend (fBackendType match FindMessage kFieldProfile m with Some a => Unarchive a VPNProfile | None => VPNProfile end) s)).
  assert (E2 : connects (out s2) = connects (out s)).
  { change (connects (out s2)) with (connects (out (_HandleSubscribe y m ret s1))).
    pose proof (core_Subscribe y m ret s1) as (_ & _ & _ & ->)%core_eq. unfold s1, call_credentials. by destruct (_ || _). }
  destruct (call_connect_calls w p s2) as (E3 & _ & E4).
  assert (Bd : bounded s 6 (snd (call_connect w p s2))).
  { unfold bounded, calls. rewrite E3, E4, E2, zlen_app. change (zlen [CallConnect w p]) with 1.
    pose proof (budget_nonneg _ Hr) as Hn. unfold budget, kReconnectMaxAttempts in Hn. unfold s2, _ArmReconnect, rc_ok, budget, kReconnectMaxAttempts.
    cbn [rc with_rc fReconnectAttempt fReconnectSecondsLeft timer fReconnectArmed]. lia. }
  destruct (call_connect w p s2) as [st s3]. cbn [snd] in Bd.
  assert (B3 : forall d, bounded s 6 (reply_detail y m ret d (with_connectedHost [] s3))).
  { intros d. apply (bounded_trans s s3 _ 6 0); [exact Bd|]. apply core_bounded; [by rewrite core_reply|]. apply Bd. }
  destruct st; (exact Bd || apply B3).
Qed.

Lemma ConnectVPNGate_bounded y m ret (s : server) : rc_ok (rc s) -> bounded s 6 (_HandleConnectVPNGate resolve strerror y m ret s).
Proof.
  intros Hr. unfold _HandleConnectVPNGate. destruct (fBackend s) as [w0|] eqn:Eb; [|by apply bounded_same].
  destruct (FindString kFieldVPNGateHost m) as [h|]; [|by apply bounded_same].
  destruct (FindString kFieldVPNGateConfigBase64 m) as [b|]; [|by apply bounded_same]. cbv zeta.
  pose proof (core_WriteVPNGate y h b (with_connectedHost h s)) as E.
  destruct (_WriteVPNGateConfig resolve y h b _) as [path s1]. cbn [snd] in E.
  assert (B1 : bounded s 0 s1) by (apply core_bounded; [by rewrite E|done]).
  destruct (zlen path =? 0).
  - apply (bounded_weaken _ _ 0); [|lia]. apply (bounded_trans s s1 _ 0 0); [done|]. apply core_bounded; [by rewrite core_reply|apply B1].
  - apply (bounded_trans s s1 _ 0 6); [done|]. apply Connect_bounded, B1.
Qed.

Lemma intercept_bounded y st m (s : server) : rc_ok (rc s) ->
  let '(st', _, s1) := intercept_drop y st m s in
  bounded s 0 s1 /\ (st' = VPN_STATE_CONNECTED -> st = VPN_STATE_CONNECTED).
Proof.
  intros Hr. unfold intercept_drop. destruct (Z.eqb_spec st VPN_STATE_DISCONNECTED) as [->|]; [|split; [by apply core_bounded|done]].
  pose proof (Countdown_bounded y s Hr) as C. destruct (_StartReconnectCountdown y s) as [[] s1]; cbv zeta; by split.
Qed.

Lemma Status_bounded y m (s : server) : rc_ok (rc s) ->
  bounded s (if reported_state m =? VPN_STATE_CONNECTED then kReconnectMaxAttempts else 0) (status_step y m s).
Proof.
  intros Hr. pose proof (status_step_core y m s) as E. pose proof (Status_core y m s) as S.
  pose proof (intercept_bounded y (reported_state m) m s Hr) as I.
  destruct (intercept_drop y (reported_state m) m s) as [[st m1] s1]. destruct I as [I1 I2]. destruct S as [S|[Est S]].
  - apply (bounded_weaken _ _ 0); [|unfold kReconnectMaxAttempts; destruct (_ =? _); lia].
    apply (bounded_trans s s1 _ 0 0); [done|]. apply core_bounded; [congruence|apply I1].
  - rewrite (I2 Est), Z.eqb_refl. apply (bounded_trans s s1 _ 0 5); [done|]. rewrite S in E. unfold core in E.
    injection E as _ _ Er Ec. destruct I1 as [[Ha Hl] _]. unfold bounded, calls, rc_ok, budget. rewrite Er, Ec. unfold reset_attempts.
    cbn [fReconnectAttempt fReconnectSecondsLeft timer fReconnectArmed]. unfold kReconnectMaxAttempts in *.
    destruct (fReconnectArmed _), (timer _); lia.
Qed.

Lemma Disconnect_bounded y (s : server) : rc_ok (rc s) -> bounded s 0 (_HandleDisconnect y s).
Proof.
  intros Hr. unfold _HandleDisconnect. cbv zeta. set (s0 := with_rc _ s).
  assert (H0 : rc_ok (rc s0)) by exact Hr. pose proof (Cancel_bounded s0 H0) as C. set (s1 := _CancelReconnect s0) in *.
  assert (B1 : bounded s 0 s1).
  { apply (bounded_weaken s s1 (if timer (rc s0) then -1 else 0)); [exact C|destruct (timer _); lia]. }
  set (s2 := match fBackend s1 with Some _ => _ | None => _ end).
  assert (B2 : bounded s 0 s2).
  { apply (bounded_trans s s1 _ 0 0); [done|]. unfold s2. destruct (fBackend s1); [|apply bounded_same; [lia|done|done|apply B1]].
    apply bounded_same; [lia|done| |apply B1]. cbn. by rewrite connects_snoc. }
  destruct (timer (rc s)); [|done]. apply (bounded_trans s s2 _ 0 0); [done|].
  match goal with |- context [_Broadcast y ?m s2] => pose proof (core_Broadcast y m s2) as (_ & _ & Er & Ec)%core_eq end.
  apply bounded_same; [done|exact Er|exact Ec|apply B2].
Qed.

Lemma Tick_bounded y (s : server) : rc_ok (rc s) -> bounded s 0 (_HandleReconnectTick y s).
Proof.
  intros Hr. unfold _HandleReconnectTick. cbv zeta. destruct (timer (rc s)) eqn:Et; [|by apply core_bounded].
  cbn [negb orb]. destruct (fUserInitiatedDisconnect _); [by apply core_bounded|].
  destruct (Z.gtb_spec (fReconnectSecondsLeft (rc s)) 1) as [Hl|Hl].
  - match goal with |- bounded _ _ (_BroadcastReconnecting y ?x) => apply (bounded_trans s x _ 0 0) end.
    + destruct Hr as [Ha Hs]. unfold bounded, rc_ok, budget, calls.
      cbn [rc with_rc out fReconnectAttempt fReconnectSecondsLeft timer fReconnectArmed]. rewrite Et. lia.
    + apply core_bounded; [apply core_BroadcastReconnecting|]. destruct Hr as [Ha Hs].
      unfold rc_ok. cbn [rc with_rc fReconnectAttempt fReconnectSecondsLeft]. lia.
  - pose proof (Cancel_bounded s Hr) as C. rewrite Et in C. set (s1 := _CancelReconnect s) in *.
    apply (bounded_trans s s1 _ (-1) 1); [done|]. destruct (fBackend s1) eqn:Eb.
    + destruct (Attempt_calls y s1) as [_ G]; [by rewrite Eb|]. apply G, C.
    + unfold _AttemptReconnect. rewrite Eb. apply bounded_same; [lia|done|done|apply C].
Qed.

Lemma step_bounded e (s : server) : rc_ok (rc s) -> bounded s (charge e) (step s e).
Proof.
  intros Hr. destruct e as [y m ret|w b]; [|by apply bounded_same]. cbn [Server.step charge].
  pose proof (MessageReceived_kind y m ret s) as K. cbv zeta in K. destruct (kind_of m).
  - destruct K as [-> | ->]; [by apply Connect_bounded|by apply ConnectVPNGate_bounded].
  - rewrite K. by apply Disconnect_bounded.
  - rewrite K. by apply Tick_bounded.
  - rewrite K. by apply Status_bounded.
  - rewrite K. unfold _HandleSetExitNode. destruct (fBackend s); by apply bounded_same.
  - by apply core_bounded.
Qed.

(** The events of a run that open a connection, and those that report one. *)
Fixpoint charges (es : list (event (B := B))) : Z :=
  match es with [] => 0 | e :: es => charge e + charges es end.

(** C17: The daemon never retries without bound: from its start, under any sequence of messages and backend moves, the number of Connect calls it makes is at most six per connection a client asked for (the call itself and five reconnect attempts) plus five for each time a backend reported a session up; and a countdown never shows more than sixty seconds. *)
Theorem reconnect_budget o profiles d fs es :
  let s := steps es (SotoportegoServer o profiles d fs) in
  zlen (connects (out s)) <= charges es /\ 0 <= fReconnectSecondsLeft (rc s) <= 60
  /\ 0 <= fReconnectAttempt (rc s) <= kReconnectMaxAttempts.
Proof.
  cbv zeta. assert (G : forall es (s : server), rc_ok (rc s) -> bounded s (charges es) (steps es s)).
  { clear. induction es as [|e es IH]; intros s Hr; cbn [charges]; [by apply core_bounded|].
    pose proof (step_bounded e s Hr) as B1. apply (bounded_trans s (step s e)); [done|]. apply IH, B1. }
  destruct (G es (SotoportegoServer o profiles d fs)) as [Hr Hc]; [unfold rc_ok, kReconnectMaxAttempts; cbn; lia|].
  pose proof (budget_nonneg _ Hr). change (budget (rc (SotoportegoServer o profiles d fs))) with 0 in Hc.
  change (calls (SotoportegoServer o profiles d fs)) with 0 in Hc. unfold calls in Hc. destruct Hr as [Ha Hl].
  split; [lia|by split].
Qed.


(** ** A countdown fires *)

Definition is_tick (e : event (B := B)) : bool :=
  match e with EvMessage _ m _ => match kind_of m with Tick => true | _ => false end | EvBackend _ _ => false end.

(** Events that do not touch a countdown other than by ticking it. *)
Definition undisturbing (e : event (B := B)) : bool :=
  match e with
  | EvMessage _ m _ => match kind_of m with Tick | ExitNode | Passive => true | _ => false end
  | EvBackend _ _ => true
  end.

Definition ticks (es : list (event (B := B))) : Z := zlen (List.filter is_tick es).

Definition same_rc (s s' : server) : Prop :=
  rc s' = rc s /\ fBackend s' = fBackend s /\ connects (out s') = connects (out s).

Lemma undisturbing_same e (s : server) : undisturbing e = true -> is_tick e = false -> same_rc s (step s e).
Proof.
  destruct e as [y m ret|w b]; [|done]. cbn [undisturbing is_tick Server.step]. intros Hu Ht.
  pose proof (MessageReceived_kind y m ret s) as K. cbv zeta in K. destruct (kind_of m); try done.
  - rewrite K. unfold _HandleSetExitNode. by destruct (fBackend s) eqn:E.
  - by apply core_eq in K as (_ & ? & ? & ?).
Qed.

Lemma tick_step e (s : server) : is_tick e = true -> exists y, step s e = _HandleReconnectTick y s.
Proof.
  destruct e as [y m ret|w b]; [|done]. cbn [is_tick Server.step]. intros Ht.
  pose proof (MessageReceived_kind y m ret s) as K. cbv zeta in K. destruct (kind_of m); try done. by exists y.
Qed.

Lemma no_tick_same es (s : server) :
  Forall (fun e => undisturbing e = true) es -> ticks es = 0 -> same_rc s (steps es s).
Proof.
  intros He. revert s. induction He as [|e es He _ IH]; intros s Ht; [done|].
  unfold ticks in *. cbn [List.filter] in Ht. destruct (is_tick e) eqn:Ee; [rewrite zlen_cons in Ht; pose proof (zlen_nonneg (List.filter is_tick es)); lia|].
  destruct (undisturbing_same e s He Ee) as (E1 & E2 & E3). destruct (IH (step s e) Ht) as (F1 & F2 & F3).
  unfold same_rc. change (steps (e :: es) s) with (steps es (step s e)). by rewrite F1, F2, F3.
Qed.

(** C16: A running countdown that nobody disturbs fires. If all that happens are its ticks, exit-node selections, requests that neither connect nor disconnect (lists, profile changes, imports, catalogue fetches and their results, subscriptions) and moves of the backends, but no Connect, no Disconnect and no state message of a backend, then after as many ticks as seconds are left (one if none is left) the daemon has made exactly one Connect call, to the backend of the profile the user last connected and with that profile. *)
Theorem countdown_fires es (s : server) :
  timer (rc s) = true -> fUserInitiatedDisconnect (rc s) = false -> fBackend s <> None ->
  Forall (fun e => undisturbing e = true) es -> ticks es = Z.max 1 (fReconnectSecondsLeft (rc s)) ->
  let p := Unarchive (fReconnectProfile (rc s)) VPNProfile in
  connects (out (steps es s)) = connects (out s) ++ [CallConnect (backend_of (fBackendType p)) p].
Proof.
  intros Ht Hu Hb He. revert s Ht Hu Hb. induction He as [|e es He Hes IH]; intros s Ht Hu Hb Hn; cbv zeta.
  { unfold ticks in Hn. change (zlen (List.filter is_tick [])) with 0 in Hn. lia. }
  change (steps (e :: es) s) with (steps es (step s e)). unfold ticks in *. cbn [List.filter] in Hn.
  destruct (is_tick e) eqn:Ee.
  - rewrite zlen_cons in Hn. destruct (tick_step e s Ee) as [y E]. rewrite E. clear E.
    unfold _HandleReconnectTick. cbv zeta. rewrite Ht, Hu. cbn [negb orb].
    destruct (Z.gtb_spec (fReconnectSecondsLeft (rc s)) 1) as [Hl|Hl].
    + set (s1 := with_rc _ s). pose proof (core_BroadcastReconnecting y s1) as (_ & E2 & E3 & E4)%core_eq.
      specialize (IH (_BroadcastReconnecting y s1)). cbv zeta in IH. rewrite E2, E3, E4 in IH.
      change (fReconnectProfile (rc s1)) with (fReconnectProfile (rc s)) in IH. apply IH; [done..|].
      change (fReconnectSecondsLeft (rc s1)) with (fReconnectSecondsLeft (rc s) - 1). lia.
    + destruct (Attempt_calls y (_CancelReconnect s) Hb) as [E _]. change (connects (out (_CancelReconnect s))) with (connects (out s)) in E.
      etrans; [|exact E]. apply (no_tick_same es); [done|]. unfold ticks. lia.
  - destruct (undisturbing_same e s He Ee) as (E1 & E2 & E3). specialize (IH (step s e)). cbv zeta in IH.
    rewrite E1, E2, E3 in IH. by apply IH.
Qed.

End WithBackend.
(** ** A backend to run the daemon with *)

(** The state alone: Connect refuses a session that is up and reports
    Connecting otherwise; Disconnect ends one. *)
#[export] Instance toy_backend : VPNBackend Z := {|
  Connect p b := if live b then (B_NOT_ALLOWED, b) else (B_OK, VPN_STATE_CONNECTING);
  Disconnect b := if live b then VPN_STATE_DISCONNECTED else b;
  State b := b; Stats b := VPNStats.Reset; LocalIP b := []; RemoteIP b := [];
  FillPeers b m := m; SetCredentials u p b := b; SetExitNode k b := (B_OK, b);
  RecoverIfCrashed b := b; BackendName b := bs "toy" |}.

Definition all_well : sys :=
  mkSys (fun _ => true) (fun _ => true) true 1000000 (Some (bs "/boot/home/config/settings")) (Some (bs "/boot/home/config/cache"))
    (fun _ => true) (fun _ => true) (fun _ => true) (fun _ => true) (fun _ => true) ProfileStore.all_ok.

Definition no_error (e : status) : bytes := [].
Definition same_path (p : bytes) : bytes := p.

(** A Tailscale profile, the messages of a client and of a backend. *)
Definition demo_profile : profile := ProfileStore.demo_profile "home".
Definition connect_msg : message := add kFieldProfile (nested (archived demo_profile)) (BMessage kMsgConnect).
Definition state_msg (state : Z) : message := add kFieldState (VInt32 state) (BMessage kMsgStatusUpdate).
Definition from_client (m : message) : event (B := Z) := EvMessage all_well m 1.
Definition from_backend (state : Z) : list (event (B := Z)) :=
  [EvBackend Tailscale state; EvMessage all_well (state_msg state) 0].
Definition tick : event (B := Z) := EvMessage all_well (BMessage kMsgReconnectTick) 0.

Definition start : Server.server (B := Z) :=
  ReadyToRun (SotoportegoServer (fun _ => VPN_STATE_DISCONNECTED) [] (ProfileStore.mkDisk None None) ∅).

Abbreviation demo_run := (Server.steps (B := Z) same_path no_error).

(** A session that came up and was then lost. *)
Definition session_lost : Server.server (B := Z) :=
  demo_run (from_client connect_msg :: from_backend VPN_STATE_CONNECTED ++ from_backend VPN_STATE_DISCONNECTED) start.

Lemma disconnect_is_final_witness :
  let s := session_lost in
  let es := from_backend VPN_STATE_DISCONNECTED ++ [tick; tick] in
  let s' := demo_run es (Server.step same_path no_error s (from_client (BMessage kMsgDisconnect))) in
  timer (rc s) = true /\ connects (out s') = connects (out s) /\ timer (rc s') = false.
Proof.
  cbv zeta. split; [vm_compute; reflexivity|].
  apply (disconnect_is_final same_path no_error all_well (BMessage kMsgDisconnect) 1
           (from_backend VPN_STATE_DISCONNECTED ++ [tick; tick]) session_lost).
  - reflexivity.
  - repeat (apply Forall_cons_2; [reflexivity|]). apply Forall_nil_2.
Defined.

Lemma countdown_fires_witness :
  let es := from_client (BMessage kMsgGetStatus) :: tick :: EvBackend OpenVPN VPN_STATE_ERROR :: tick :: tick :: from_client (BMessage kMsgSubscribe) :: [tick; tick] in
  zlen (connects (out session_lost)) = 1
  /\ connects (out (demo_run es session_lost)) =
     connects (out session_lost) ++ [CallConnect Tailscale (with_authKey [] demo_profile)].
Proof.
  cbv zeta. split; [vm_compute; reflexivity|].
  set (es := from_client (BMessage kMsgGetStatus) :: _).
  assert (E : Unarchive (fReconnectProfile (rc session_lost)) VPNProfile = with_authKey [] demo_profile) by (vm_compute; reflexivity).
  rewrite <- E. apply (countdown_fires same_path no_error es session_lost).
  - vm_compute. reflexivity.
  - vm_compute. reflexivity.
  - vm_compute. discriminate.
  - repeat (apply Forall_cons_2; [reflexivity|]). apply Forall_nil_2.
  - vm_compute. reflexivity.
Defined.

(** A drop is reported by a message that waits in the daemon's queue.  A user
    who connects before it is handled gets a countdown next to the new session,
    and nothing stops it when that session comes up: five seconds later the
    daemon calls Connect on a live backend. *)
Definition stale_drop : Server.server (B := Z) :=
  demo_run ([from_client connect_msg] ++ from_backend VPN_STATE_CONNECTED ++
    [EvBackend Tailscale VPN_STATE_DISCONNECTED; from_client connect_msg;
     EvMessage all_well (state_msg VPN_STATE_DISCONNECTED) 0] ++ from_backend VPN_STATE_CONNECTED) start.

Lemma countdown_next_to_a_session :
  timer (rc stale_drop) = true /\ fLastState (ses stale_drop) = VPN_STATE_CONNECTED
  /\ State (objs stale_drop Tailscale) = VPN_STATE_CONNECTED
  /\ zlen (connects (out (demo_run [tick; tick; tick; tick; tick] stale_drop))) = zlen (connects (out stale_drop)) + 1.
Proof. vm_compute. repeat split. Qed.

(** The prefix test of a staged config path lets parent segments through, so
    deleting a profile can delete a file outside the store. *)
Definition outside : bytes := bs "/boot/home/config/settings/Sotoportego/configs/../../network/hosts".
Definition hosts : bytes := bs "/boot/home/config/settings/network/hosts".
Definition resolve_outside (p : bytes) : bytes := if beq p outside then hosts else p.
Definition save_msg : message :=
  add kFieldProfile (nested (archived (mkProfile VPN_BACKEND_WIREGUARD (bs "w") [] 0 [] (bs "udp") outside []))) (BMessage kMsgSaveProfile).
Definition delete_msg : message := add kFieldProfileName (VString (bs "w")) (BMessage kMsgDeleteProfile).

Lemma delete_leaves_the_store :
  let s := with_files {[hosts := bs "127.0.0.1 localhost"]} start in
  files s !! hosts = Some (bs "127.0.0.1 localhost")
  /\ files (Server.steps resolve_outside no_error [from_client save_msg; from_client delete_msg] s) !! hosts = None.
Proof. vm_compute. repeat split. Qed.

(** Cancelling a countdown broadcasts a disconnected state that still names
    the server of the session that is over. *)
Definition named_session : Server.server (B := Z) := with_connectedHost (bs "vpn.example") session_lost.

Lemma cancelled_countdown_keeps_host :
  existsb (fun e => match e with
                    | Sent 1 m => (reported_state m =? VPN_STATE_DISCONNECTED) && HasString kFieldConnectedHost m
                    | _ => false
                    end)
    (skipn (length (out named_session)) (out (Server.step same_path no_error named_session (from_client (BMessage kMsgDisconnect))))) = true.
Proof. vm_compute. reflexivity. Qed.

End ServerProofs.
