(* ===== verification/CatalogueProofs.v ===== *)
(** * CatalogueProofs: what the daemon learns from the VPNGate catalogue

    The text vpngate.net serves, from the row of a server to the .ovpn file
    the daemon starts a session from: reading the text, the message of the
    fetcher, the daemon's copy, and the base 64 of the configuration. *)

From stdpp Require Import gmap.
From S2P Require Import Prelude CLib Json Message Control Profiles Centroids Catalogue MapWindow Daemon Server ServerProofs.
Import Message VPNProtocol VPNProfile Http VPNGateFetcher.
Open Scope Z_scope.
Open Scope soto_scope.

Module CatalogueProofs.

(** ** Base 64: the daemon's decoder inverts RFC 4648 *)

Lemma kReal_alphabet n : 0 <= n < 64 -> DaemonFiles.kReal (at_ Control.kAlphabet n) = n.
Proof.
  intros. assert (Hall : forallb (fun n => DaemonFiles.kReal (at_ Control.kAlphabet n) =? n) (seqZ 0 64) = true)
    by reflexivity.
  rewrite forallb_forall in Hall. apply Z.eqb_eq, Hall, list_elem_of_In, elem_of_seqZ. lia.
Qed.

(** The next six bits, [v], read into a buffer. *)
Definition shifted (buffer v : Z) : Z := s32 (buffer * 64 + v).

Lemma decode_sextet n k p buffer bits out :
  0 <= n -> 0 <= k ->
  DaemonFiles.decode_chars (Control.sextet n k :: p) buffer bits out =
  let buffer := shifted buffer ((n / 2 ^ k) mod 64) in
  if bits + 6 >=? 8 then DaemonFiles.decode_chars p buffer (bits + 6 - 8) (out ++ [(buffer ≫ (bits + 6 - 8)) .& 0xff])
  else DaemonFiles.decode_chars p buffer (bits + 6) out.
Proof.
  intros Hn Hk. unfold Control.sextet. change 0x3f with (2 ^ 6 - 1).
  rewrite land_ones_mod, Z.shiftr_div_pow2 by lia. change (2 ^ 6) with 64.
  set (v := (n / 2 ^ k) mod 64). assert (Hv : 0 <= v < 64) by (apply Z.mod_pos_bound; lia).
  assert (Hc : forallb (fun n => let c := at_ Control.kAlphabet n in
     negb ((c =? 32) || (c =? 9) || (c =? 13) || (c =? 10)) && negb (c =? 61)) (seqZ 0 64) = true) by reflexivity.
  rewrite forallb_forall in Hc. specialize (Hc v). rewrite <- list_elem_of_In, elem_of_seqZ in Hc. specialize (Hc ltac:(lia)).
  cbv zeta in Hc. apply andb_true_iff in Hc as [H1%negb_true_iff H2%negb_true_iff].
  cbn [DaemonFiles.decode_chars]. rewrite H1, H2, kReal_alphabet by done. cbv zeta.
  destruct (Z.ltb_spec v 0); [lia|]. unfold shifted. by rewrite lor_shiftl_add_l by lia.
Qed.

(** The first sextet of a group only fills the buffer; each of the others gives a byte. *)
Lemma decode_first n k p B out :
  0 <= n -> 0 <= k ->
  DaemonFiles.decode_chars (Control.sextet n k :: p) B 0 out =
  DaemonFiles.decode_chars p (shifted B ((n / 2 ^ k) mod 64)) 6 out.
Proof. intros. by rewrite decode_sextet. Qed.

Lemma decode_emit n k r p B out (B' := shifted B ((n / 2 ^ k) mod 64)) :
  0 <= n -> 0 <= k -> 0 <= r ->
  DaemonFiles.decode_chars (Control.sextet n k :: p) B (r + 2) out =
  DaemonFiles.decode_chars p B' r (out ++ [(B' / 2 ^ r) mod 256]).
Proof.
  intros. rewrite decode_sextet by done. cbv zeta. destruct (Z.geb_spec (r + 2 + 6) 8); [|lia].
  replace (r + 2 + 6 - 8) with r by lia. change 0xff with (2 ^ 8 - 1). by rewrite land_ones_mod, Z.shiftr_div_pow2 by lia.
Qed.

Lemma s32_eq x : exists q, s32 x = x + 2 ^ 32 * q.
Proof. unfold s32. exists (- ((x + 2 ^ 31) / 2 ^ 32)). pose proof (Z.div_mod (x + 2 ^ 31) (2 ^ 32)). lia. Qed.

Lemma decode_padding p buffer bits out : bits < 6 -> DaemonFiles.decode_chars (61 :: p) buffer bits out = Some out.
Proof. intros. cbn. by destruct (Z.geb_spec bits 6); [lia|]. Qed.

(** The bytes that come out depend on the last sextets only. *)
Lemma first_byte B v w : 0 <= v < 64 -> 0 <= w < 64 -> (shifted (shifted B v) w / 2 ^ 4) mod 256 = v * 4 + w / 16.
Proof.
  intros. unfold shifted. destruct (s32_eq (B * 64 + v)) as [q ->]. destruct (s32_eq ((B * 64 + v + 2 ^ 32 * q) * 64 + w)) as [r ->].
  Z.div_mod_to_equations. lia.
Qed.

Lemma second_byte B v w : 0 <= v < 64 -> 0 <= w < 64 -> (shifted (shifted B v) w / 2 ^ 2) mod 256 = v mod 16 * 16 + w / 4.
Proof.
  intros. unfold shifted. destruct (s32_eq (B * 64 + v)) as [q ->]. destruct (s32_eq ((B * 64 + v + 2 ^ 32 * q) * 64 + w)) as [r ->].
  Z.div_mod_to_equations. lia.
Qed.

Lemma third_byte B v w : 0 <= v < 64 -> 0 <= w < 64 -> (shifted (shifted B v) w / 2 ^ 0) mod 256 = v mod 4 * 64 + w.
Proof.
  intros. unfold shifted. destruct (s32_eq (B * 64 + v)) as [q ->]. destruct (s32_eq ((B * 64 + v + 2 ^ 32 * q) * 64 + w)) as [r ->].
  Z.div_mod_to_equations. lia.
Qed.

Lemma mod64 x : 0 <= x mod 64 < 64.
Proof. apply Z.mod_pos_bound. lia. Qed.

Lemma sextets a b c :
  is_byte a -> is_byte b -> is_byte c ->
  let n := a * 2 ^ 16 + b * 2 ^ 8 + c in
  (n / 2 ^ 18) mod 64 * 4 + (n / 2 ^ 12) mod 64 / 16 = a /\
  (n / 2 ^ 12) mod 64 mod 16 * 16 + (n / 2 ^ 6) mod 64 / 4 = b /\
  (n / 2 ^ 6) mod 64 mod 4 * 64 + (n / 2 ^ 0) mod 64 = c.
Proof.
  unfold is_byte. cbv zeta. intros Ha Hb Hc. change (2 ^ 0) with 1. change (2 ^ 6) with 64. change (2 ^ 8) with 256.
  change (2 ^ 12) with 4096. change (2 ^ 16) with 65536. change (2 ^ 18) with 262144.
  assert (E18 : (a * 65536 + b * 256 + c) / 262144 = a / 4) by (Z.div_mod_to_equations; lia).
  assert (E12 : (a * 65536 + b * 256 + c) / 4096 = a * 16 + b / 16) by (Z.div_mod_to_equations; lia).
  assert (E6 : (a * 65536 + b * 256 + c) / 64 = a * 1024 + b * 4 + c / 64) by (Z.div_mod_to_equations; lia).
  rewrite E18, E12, E6, Z.div_1_r.
  assert (F18 : (a / 4) mod 64 = a / 4) by (Z.div_mod_to_equations; lia).
  assert (F12 : (a * 16 + b / 16) mod 64 = a mod 4 * 16 + b / 16) by (Z.div_mod_to_equations; lia).
  assert (F6 : (a * 1024 + b * 4 + c / 64) mod 64 = b mod 16 * 4 + c / 64) by (Z.div_mod_to_equations; lia).
  assert (F0 : (a * 65536 + b * 256 + c) mod 64 = c mod 64) by (Z.div_mod_to_equations; lia).
  rewrite F18, F12, F6, F0. clear E18 E12 E6 F18 F12 F6 F0. split_and!; Z.div_mod_to_equations; lia.
Qed.

(** The first sextets of a group, from any buffer with no pending bit. *)
Lemma decode_one n p B out :
  0 <= n ->
  exists B', DaemonFiles.decode_chars (Control.sextet n 18 :: Control.sextet n 12 :: p) B 0 out =
  DaemonFiles.decode_chars p (shifted B' ((n / 2 ^ 12) mod 64)) 4
    (out ++ [(n / 2 ^ 18) mod 64 * 4 + (n / 2 ^ 12) mod 64 / 16]).
Proof.
  intros. exists (shifted B ((n / 2 ^ 18) mod 64)). rewrite decode_first by lia. change 6 with (4 + 2).
  rewrite decode_emit by lia. by rewrite first_byte by apply mod64.
Qed.

Lemma decode_two n p B out :
  0 <= n ->
  exists B', DaemonFiles.decode_chars (Control.sextet n 18 :: Control.sextet n 12 :: Control.sextet n 6 :: p) B 0 out =
  DaemonFiles.decode_chars p (shifted B' ((n / 2 ^ 6) mod 64)) 2
    (out ++ [(n / 2 ^ 18) mod 64 * 4 + (n / 2 ^ 12) mod 64 / 16; (n / 2 ^ 12) mod 64 mod 16 * 16 + (n / 2 ^ 6) mod 64 / 4]).
Proof.
  intros. edestruct decode_one as [B' E]; [done|]. exists (shifted B' ((n / 2 ^ 12) mod 64)). rewrite E. change 4 with (2 + 2).
  rewrite decode_emit by lia. rewrite second_byte by apply mod64. by rewrite <- app_assoc.
Qed.

Lemma decode_three n p B out :
  0 <= n ->
  exists B', DaemonFiles.decode_chars
    (Control.sextet n 18 :: Control.sextet n 12 :: Control.sextet n 6 :: Control.sextet n 0 :: p) B 0 out =
  DaemonFiles.decode_chars p B' 0
    (out ++ [(n / 2 ^ 18) mod 64 * 4 + (n / 2 ^ 12) mod 64 / 16; (n / 2 ^ 12) mod 64 mod 16 * 16 + (n / 2 ^ 6) mod 64 / 4;
             (n / 2 ^ 6) mod 64 mod 4 * 64 + (n / 2 ^ 0) mod 64]).
Proof.
  intros. edestruct decode_two as [B' E]; [done|]. eexists. rewrite E. change 2 with (0 + 2).
  rewrite decode_emit by lia. rewrite third_byte by apply mod64. by rewrite <- app_assoc.
Qed.

(** The buffer wraps and is never cleared, and yet every text of RFC 4648 is decoded. *)
Lemma decode_base64_encode data : is_bytes data -> DaemonFiles.decode_base64 (Control.base64_encode data) = Some data.
Proof.
  intros Hb. unfold DaemonFiles.decode_base64.
  enough (G : forall B out, DaemonFiles.decode_chars (Control.base64_encode data) B 0 out = Some (out ++ data)) by apply G.
  remember (length data) as k eqn:Hk. revert data Hb Hk.
  induction (lt_wf k) as [k _ IH]. intros data Hb -> B out.
  destruct data as [|a [|b [|c rest]]].
  - cbn. by rewrite app_nil_r.
  - apply Forall_cons in Hb as [Ha _]. cbn [Control.base64_encode].
    replace (a ≪ 16) with (a * 2 ^ 16 + 0 * 2 ^ 8 + 0) by (rewrite Z.shiftl_mul_pow2; lia).
    destruct (sextets a 0 0 Ha ltac:(done) ltac:(done)) as (Ea & _ & _).
    edestruct decode_one as [B' ->]; [unfold is_byte in *; lia|]. rewrite decode_padding by lia. cbv zeta in Ea. by rewrite Ea.
  - apply Forall_cons in Hb as [Ha Hb]. apply Forall_cons in Hb as [Hb _]. cbn [Control.base64_encode].
    replace ((a ≪ 16) .| (b ≪ 8)) with (a * 2 ^ 16 + b * 2 ^ 8 + 0)
      by (rewrite <- (Control.group_value a b 0), Z.lor_0_r by done; done).
    destruct (sextets a b 0 Ha Hb ltac:(done)) as (Ea & Eb & _).
    edestruct decode_two as [B' ->]; [unfold is_byte in *; lia|]. rewrite decode_padding by lia. cbv zeta in Ea, Eb. by rewrite Ea, Eb.
  - apply Forall_cons in Hb as [Ha Hb]. apply Forall_cons in Hb as [Hb Hr]. apply Forall_cons in Hr as [Hc Hr].
    cbn [Control.base64_encode app]. rewrite (Control.group_value a b c) by done.
    destruct (sextets a b c Ha Hb Hc) as (Ea & Eb & Ec). cbv zeta in Ea, Eb, Ec.
    edestruct decode_three as [B' ->]; [unfold is_byte in *; lia|]. rewrite Ea, Eb, Ec.
    rewrite (IH (length rest)) by (done || (cbn; lia)). by rewrite <- app_assoc.
Qed.

(** ** The text of the catalogue *)

Fixpoint join (sep : Z) (fields : list bytes) : bytes :=
  match fields with
  | [] => []
  | [f] => f
  | f :: fields => f ++ sep :: join sep fields
  end.

Definition row_line (r : list bytes) : bytes := join 44 r.

Definition schema : bytes := bs "#HostName,IP,Score,Ping,Speed,CountryLong,CountryShort,NumVpnSessions,Uptime,TotalUsers,TotalTraffic,LogType,Operator,Message,OpenVPN_ConfigData_Base64".

(** The banner, the schema row, one line per server and the end marker. *)
Definition catalogue_text (rows : list (list bytes)) : bytes :=
  concat (map (fun l => l ++ crlf) (bs "*vpn_servers" :: schema :: map row_line rows ++ [bs "*"])).

(** A row the format can carry: no separator in a field, a host name that does
    not look like a comment or the schema, no blank at the end. *)
Record row_ok (r : list bytes) : Prop := {
  ok_fields : Forall (fun f => (44 ∉ f) /\ (10 ∉ f) /\ text f) r;
  ok_first : exists c host fs, r = (c :: host) :: fs /\ c <> 42 /\ c <> 35 /\ (c :: host) <> bs "HostName";
  ok_last : exists fs f c, r = fs ++ [f ++ [c]] /\ trailing c = false }.

Lemma split_last sep piece p : sep ∉ p -> split_from sep piece p = [piece ++ p].
Proof.
  revert piece. induction p as [|c p IH]; intros piece Hs; cbn [split_from]; [by rewrite app_nil_r|].
  apply not_elem_of_cons in Hs as [Hc Hp]. destruct (Z.eqb_spec c sep); [by subst|].
  by rewrite IH, <- app_assoc by done.
Qed.

Lemma split_next sep piece p rest :
  sep ∉ p -> split_from sep piece (p ++ sep :: rest) = (piece ++ p) :: split_from sep [] rest.
Proof.
  revert piece. induction p as [|c p IH]; intros piece Hs; cbn [split_from app].
  - by rewrite Z.eqb_refl, app_nil_r.
  - apply not_elem_of_cons in Hs as [Hc Hp]. destruct (Z.eqb_spec c sep); [by subst|].
    by rewrite IH, <- app_assoc by done.
Qed.

(** Splitting undoes joining. *)
Lemma split_join sep fields : fields <> [] -> Forall (fun f => sep ∉ f) fields -> split_from sep [] (join sep fields) = fields.
Proof.
  intros Hn Hf. induction fields as [|f fields IH]; [done|]. apply Forall_cons in Hf as [Hs Hf].
  destruct fields as [|g fields]; cbn [join]; [by rewrite split_last|].
  rewrite split_next by done. f_equal. by apply IH.
Qed.

Lemma join_not_in c sep fields : c <> sep -> Forall (fun f => c ∉ f) fields -> c ∉ join sep fields.
Proof.
  intros Hc Hf. induction fields as [|f fields IH]; [apply not_elem_of_nil|]. apply Forall_cons in Hf as [Hs Hf].
  destruct fields as [|g fields]; [done|]. change (c ∉ f ++ sep :: join sep (g :: fields)).
  rewrite not_elem_of_app, not_elem_of_cons. eauto.
Qed.

Lemma join_snoc sep fields f c : exists l, join sep (fields ++ [f ++ [c]]) = l ++ [c].
Proof.
  induction fields as [|g fields [l IH]]; [by exists f|]. exists (g ++ sep :: l).
  destruct fields as [|h fields]; cbn [app join] in *; rewrite IH, <- app_assoc; done.
Qed.

Lemma strip_crlf l c : trailing c = false -> strip ((l ++ [c]) ++ [13]) = l ++ [c].
Proof.
  intros Hc. unfold strip. rewrite !rev_app_distr. cbn [rev app drop_while].
  change (trailing 13) with true. cbv iota. rewrite Hc. cbn [rev]. by rewrite rev_involutive.
Qed.

Lemma row_split r : row_ok r -> split_csv_line (row_line r) = r.
Proof.
  intros [Hf (c & h & fs & -> & _) _]. apply split_join; [done|]. eapply Forall_impl; [exact Hf|]. by intros ? [? _].
Qed.

Lemma row_stripped r : row_ok r -> strip (row_line r ++ [13]) = row_line r.
Proof. intros [_ _ (fs & f & c & -> & Hc)]. unfold row_line. destruct (join_snoc 44 fs f c) as [l ->]. by apply strip_crlf. Qed.

Lemma row_visited r : row_ok r -> visited (row_line r) = true.
Proof.
  intros [_ (c & h & fs & -> & H1 & H2 & _) _]. unfold row_line.
  assert (exists t, join 44 ((c :: h) :: fs) = c :: t) as [t ->] by (destruct fs; cbn [join app]; eauto).
  unfold visited. rewrite zlen_cons. pose proof (zlen_nonneg t). destruct (Z.eqb_spec (zlen t + 1) 0); [lia|].
  change (at_ (c :: t) 0) with c. by destruct (Z.eqb_spec c 42), (Z.eqb_spec c 35).
Qed.

Lemma row_one_line r : row_ok r -> 10 ∉ row_line r ++ [13].
Proof.
  intros [Hf _ _]. apply not_elem_of_app. split; [|by intros H%list_elem_of_singleton].
  apply join_not_in; [done|]. eapply Forall_impl; [exact Hf|]. by intros ? (_ & ? & _).
Qed.

(** The lines of a text in which every line ends in CRLF. *)
Lemma lines_of ls : Forall (fun l => 10 ∉ l ++ [13]) ls ->
  split_from 10 [] (concat (map (fun l => l ++ crlf) ls)) = map (fun l => l ++ [13]) ls ++ [[]].
Proof.
  induction 1 as [|l ls Hl _ IH]; [done|]. cbn [map concat app]. unfold crlf at 1.
  change (l ++ [13; 10]) with (l ++ [13] ++ [10]). rewrite app_assoc, <- app_assoc.
  change ([10] ++ ?x) with (10 :: x). by rewrite split_next, IH.
Qed.

(** Reading the catalogue visits its rows, in order. *)
Lemma csv_lines_catalogue rows : Forall row_ok rows -> csv_lines (catalogue_text rows) = map row_line rows.
Proof.
  intros Hr. unfold csv_lines, catalogue_text. rewrite lines_of.
  - cbn [map app List.filter].
    change (visited (strip (bs "*vpn_servers" ++ [13]))) with false.
    change (visited (strip (schema ++ [13]))) with false. cbv iota.
    rewrite !map_app, !List.filter_app.
    change (List.filter visited (map strip (map (fun l => l ++ [13]) [bs "*"]))) with (@nil bytes).
    change (List.filter visited [strip []]) with (@nil bytes). rewrite !app_nil_r.
    induction Hr as [|r rows Hr _ IH]; [done|]. cbn [map List.filter]. rewrite row_stripped, row_visited by done. by rewrite IH.
  - repeat (apply Forall_cons; split; [apply (bool_decide_unpack _); vm_compute; exact I|]).
    apply Forall_app. split; [|apply Forall_cons; split; [apply (bool_decide_unpack _); vm_compute; exact I|constructor]].
    apply Forall_map. eapply Forall_impl; [exact Hr|]. apply row_one_line.
Qed.

(** ** The message of the fetcher *)

Definition entry_field (e : message) : string * value := (kFieldVPNGateServer, nested e).

Definition only_servers (m : message) : Prop := exists es, fields m = map entry_field es.

Lemma values_entries w es : values kFieldVPNGateServer (mkMessage w (map entry_field es)) = map nested es.
Proof. unfold values. cbn [fields]. induction es as [|e es IH]; [done|]. cbn. f_equal. apply IH. Qed.

Lemma messages_nested es : messages_of (map nested es) = es.
Proof. induction es as [|[w fs] es IH]; [done|]. cbn. by rewrite IH. Qed.

Lemma add_entry e m es :
  fields m = map entry_field es ->
  add kFieldVPNGateServer (nested e) m = mkMessage (what m) (map entry_field (es ++ [e])).
Proof.
  intros Hm. assert (Hv : values kFieldVPNGateServer m = map nested es).
  { rewrite <- (values_entries 0). unfold values. by rewrite Hm. }
  unfold add, Add. rewrite Hv, Hm, map_app. by destruct es.
Qed.

(** One visited line adds at most one entry, and counts it. *)
Lemma visit_line s line es :
  fields (result s) = map entry_field es -> servers s = zlen es ->
  exists more, fields (result (visit s line)) = map entry_field (es ++ more) /\ servers (visit s line) = zlen (es ++ more)
    /\ what (result (visit s line)) = what (result s).
Proof.
  intros Hf Hs. unfold visit. cbv zeta. destruct (_ && _ && _); [exists []; by rewrite app_nil_r|].
  destruct (entry_of _) as [e|]; [|exists []; by rewrite app_nil_r].
  exists [e]. cbn [result servers]. rewrite (add_entry e _ es Hf), zlen_app, Hs. done.
Qed.

Lemma visit_lines lines s es :
  fields (result s) = map entry_field es -> servers s = zlen es ->
  exists es', fields (result (fold_left visit lines s)) = map entry_field es' /\ servers (fold_left visit lines s) = zlen es'
    /\ what (result (fold_left visit lines s)) = what (result s).
Proof.
  revert s es. induction lines as [|l lines IH]; intros s es Hf Hs; [by exists es|].
  destruct (visit_line s l es Hf Hs) as (more & Hf' & Hs' & Hw). destruct (IH _ _ Hf' Hs') as (es' & ? & ? & ?).
  exists es'. cbn [fold_left]. split_and!; [done..|congruence].
Qed.

Lemma visit_rows rows s es :
  Forall row_ok rows -> fields (result s) = map entry_field es ->
  fold_left visit (map row_line rows) s =
  mkVisit (mkMessage (what (result s)) (map entry_field (es ++ omap entry_of rows)))
    (servers s + zlen (omap entry_of rows)) (skippedHeader s).
Proof.
  intros Hr. revert s es. induction Hr as [|r rows Hr _ IH]; intros s es Hf.
  - cbn. rewrite app_nil_r, <- Hf. destruct s as [[w fs] n b]. cbn. by rewrite Z.add_0_r.
  - cbn [map fold_left omap list_omap]. unfold visit at 2. cbv zeta. rewrite row_split by done.
    assert (beq (field_or_empty r 0) (bs "HostName") = false) as ->.
    { destruct Hr as [_ (c & h & fs & -> & _ & _ & Hn) _]. by apply beq_false. }
    rewrite andb_false_r. destruct (entry_of r) as [e|]; [|by apply IH].
    rewrite (add_entry e _ es Hf), (IH _ (es ++ [e])) by done. cbn [result what servers skippedHeader].
    rewrite <- app_assoc, zlen_cons. cbn [app]. f_equal. lia.
Qed.

(** What the fetcher posts for a catalogue of these rows. *)
Definition fetched (what : Z) (rows : list (list bytes)) : message :=
  mkMessage what (map entry_field (omap entry_of rows) ++
    match omap entry_of rows with
    | [] => [(kFieldError, VString (bs "vpngate.net response had no usable servers"))]
    | _ => []
    end).

(** The network delivers [body], in pieces of any size and with interruptions. *)
Record delivers (n : net) (body : bytes) : Prop := {
  d_up : n_ipv4 n && n_socket n && n_connect n = true;
  d_sent : fst (send_all (n_sends n) (request kPath kHost (bs "text/csv, */*"))) = true;
  d_recv : exists answers header, n_recvs n = answers ++ [Closed] /\ flowing answers
    /\ pieces answers = header ++ blank_line ++ body /\ text (pieces answers) /\ header_ok header }.

Lemma http_get_delivers n body : delivers n body -> http_get n = inr body.
Proof.
  intros [Hu Hs (answers & header & Hr & Hf & Hp & Ht & Hh)]. unfold http_get.
  apply andb_true_iff in Hu as [[H1 H2]%andb_true_iff H3]. rewrite H1, H2, H3, Hs. cbn [negb].
  rewrite Hr, recv_all_pieces by done. cbn [app]. by rewrite Hp, body_of_text.
Qed.

Lemma fetch_delivers what n rows :
  delivers n (catalogue_text rows) -> Forall row_ok rows -> fetch_thread what n = fetched what rows.
Proof.
  intros Hd Hr. unfold fetch_thread. cbv zeta. rewrite (http_get_delivers n _ Hd).
  assert ((zlen (catalogue_text rows) =? 0) = false) as ->.
  { apply Z.eqb_neq. unfold catalogue_text. cbn [map concat]. rewrite zlen_app. change (zlen (bs "*vpn_servers" ++ crlf)) with 14.
    pose proof (zlen_nonneg (concat (map (fun l => l ++ crlf) (schema :: map row_line rows ++ [bs "*"])))). cbn [map concat] in *. lia. }
  rewrite csv_lines_catalogue by done. rewrite (visit_rows rows _ []) by done. cbn [servers result Message.what app].
  unfold fetched. rewrite Z.add_0_l. destruct (omap entry_of rows) as [|e es] eqn:E; [done|].
  rewrite zlen_cons. pose proof (zlen_nonneg es). destruct (Z.eqb_spec (zlen es + 1) 0); [lia|]. by rewrite app_nil_r.
Qed.

Lemma http_get_error n e : http_get n = inl e -> exists c l, e = c :: l /\ c <> 0.
Proof.
  unfold http_get. destruct (negb _); [intros [= <-]; by do 2 eexists|]. destruct (negb _); [intros [= <-]; by do 2 eexists|].
  destruct (negb _); [intros [= <-]; by do 2 eexists|]. destruct (negb _); [intros [= <-]; by do 2 eexists|].
  destruct (recv_all _ _) as [r|r]; [destruct r; intros [= <-]; by do 2 eexists|].
  destruct (body_of r); [done|]. intros [= <-]; by do 2 eexists.
Qed.

Lemma http_get_closed n body : http_get n = inr body -> Closed ∈ n_recvs n.
Proof.
  unfold http_get. do 4 (destruct (negb _); [done|]).
  destruct (recv_all (n_recvs n) []) as [r|r] eqn:E; [by destruct r|]. intros _. by eapply recv_all_closed.
Qed.

(** A message with one error and no server. *)
Lemma error_alone w e c l : e = c :: l -> c <> 0 ->
  let m := add kFieldError (VString e) (BMessage w) in
  FindMessages kFieldVPNGateServer m = [] /\ exists e', FindString kFieldError m = Some e' /\ e' <> [].
Proof.
  intros -> Hc. cbv zeta. split; [done|]. exists (cstr (c :: l)). split; [done|]. cbn [cstr]. by destruct (Z.eqb_spec c 0).
Qed.

Lemma entries_no_error w es : FindString kFieldError (mkMessage w (map entry_field es)) = None.
Proof.
  unfold FindString. assert (E : values kFieldError (mkMessage w (map entry_field es)) = []); [|by rewrite E].
  unfold values. cbn [fields]. induction es as [|x l IH]; [done|]. exact IH.
Qed.

(** A fetch is all or nothing: the message has servers and no error, and then
    the peer closed the connection itself, or it has an error and no server. *)
Lemma fetch_all_or_nothing what n :
  let m := fetch_thread what n in
  (FindMessages kFieldVPNGateServer m <> [] /\ FindString kFieldError m = None /\ Closed ∈ n_recvs n) \/
  (FindMessages kFieldVPNGateServer m = [] /\ exists e, FindString kFieldError m = Some e /\ e <> []).
Proof.
  cbv zeta. unfold fetch_thread. cbv zeta. destruct (http_get n) as [e|body] eqn:Eh.
  - right. destruct (http_get_error n e Eh) as (c & l & -> & Hc).
    assert ((zlen (c :: l) =? 0) = false) as -> by (rewrite zlen_cons; pose proof (zlen_nonneg l); by apply Z.eqb_neq; lia).
    by eapply error_alone.
  - destruct (zlen body =? 0); [right; by eapply error_alone|].
    destruct (visit_lines (csv_lines body) (mkVisit (BMessage what) 0 false) []) as (es & Hf & Hs & Hw); [done..|].
    set (st := fold_left _ _ _) in *. clearbody st. destruct st as [[w fs] k sk]. cbn [result servers fields Message.what] in *. subst fs k w.
    destruct es as [|e es]; [right; by eapply error_alone|left].
    rewrite zlen_cons. pose proof (zlen_nonneg es). destruct (Z.eqb_spec (zlen es + 1) 0); [lia|].
    split_and!; [|by apply entries_no_error|by eapply http_get_closed].
    unfold FindMessages. by rewrite values_entries, messages_nested.
Qed.

(** ** The fields of an entry *)

Lemma entry_msg_fields host ip cs cl sc pg sp se log lat lon config :
  let e := entry_message host ip cs cl sc pg sp se log lat lon config in
  FindString kFieldVPNGateHost e = Some (cstr host) /\ FindString kFieldVPNGateConfigBase64 e = Some (cstr config).
Proof. cbv zeta. unfold entry_message. destruct (zlen ip >? 0); split; reflexivity. Qed.

Lemma entry_of_fields r e :
  Forall text r -> entry_of r = Some e ->
  FindString kFieldVPNGateHost e = Some (field_or_empty r kColHostName) /\ field_or_empty r kColHostName <> [] /\
  FindString kFieldVPNGateConfigBase64 e = Some (field_or_empty r kColConfigData).
Proof.
  intros Ht. assert (Hf : forall i, text (field_or_empty r i)).
  { intros i. unfold field_or_empty. destruct (r !! i) as [f|] eqn:E; [|constructor]. rewrite Forall_forall in Ht. by eapply Ht, list_elem_of_lookup_2. }
  unfold entry_of. destruct (_ <? _)%nat; [done|]. cbv zeta. set (h := field_or_empty r kColHostName) in *.
  set (c := field_or_empty r kColConfigData) in *. destruct (zlen h =? 0) eqn:Eh; [done|]. destruct (zlen c =? 0); [done|]. cbn [orb].
  destruct (CountryCentroids.Lookup _) as [[lat lon]|]; [|done]. intros [= <-].
  match goal with |- FindString _ (entry_message ?a1 ?a2 ?a3 ?a4 ?a5 ?a6 ?a7 ?a8 ?a9 ?a10 ?a11 ?a12) = _ /\ _ =>
    destruct (entry_msg_fields a1 a2 a3 a4 a5 a6 a7 a8 a9 a10 a11 a12) as [-> ->] end.
  rewrite !cstr_text by apply Hf. split_and!; [done| |done]. intros E. by rewrite E in Eh.
Qed.

(** ** The daemon's copy *)

Import MapView VPNMapWindow MapProofs VPNState Server ServerProofs.

Lemma copy_entries es acc es0 :
  fields acc = map entry_field es0 ->
  fold_left (fun acc entry => add kFieldVPNGateServer (nested entry) acc) es acc
  = mkMessage (what acc) (map entry_field (es0 ++ es)).
Proof.
  revert acc es0. induction es as [|e es IH]; intros acc es0 Hf.
  - cbn. rewrite app_nil_r, <- Hf. by destruct acc.
  - cbn [fold_left]. rewrite (add_entry e acc es0 Hf), (IH _ (es0 ++ [e])) by done. by rewrite <- app_assoc.
Qed.

Lemma fetched_entries w rows : FindMessages kFieldVPNGateServer (fetched w rows) = omap entry_of rows.
Proof.
  unfold FindMessages, fetched. rewrite values_app, values_entries.
  destruct (omap entry_of rows) as [|e es]; [done|]. by rewrite app_nil_r, messages_nested.
Qed.

Lemma fetched_error w rows : omap entry_of rows <> [] -> FindString kFieldError (fetched w rows) = None.
Proof. unfold fetched. destruct (omap entry_of rows) as [|e es]; [done|]. intros _. rewrite app_nil_r. apply entries_no_error. Qed.

Lemma base64_text data : text (Control.base64_encode data).
Proof.
  assert (Hs : forall n k, 0 <= k -> Control.sextet n k <> 0).
  { intros n k Hk. unfold Control.sextet. change 0x3f with (2 ^ 6 - 1). rewrite land_ones_mod by lia.
    assert (Hall : forallb (fun v => negb (at_ Control.kAlphabet v =? 0)) (seqZ 0 64) = true) by reflexivity.
    rewrite forallb_forall in Hall. specialize (Hall ((n ≫ k) mod 2 ^ 6)). rewrite <- list_elem_of_In, elem_of_seqZ in Hall.
    apply Z.eqb_neq, negb_true_iff, Hall. pose proof (Z.mod_pos_bound (n ≫ k) (2 ^ 6)). lia. }
  unfold text. remember (length data) as n eqn:Hn. revert data Hn. induction (lt_wf n) as [n _ IH]. intros data ->.
  destruct data as [|a [|b [|c rest]]]; cbn [Control.base64_encode app]; cbv zeta;
    repeat (apply Forall_cons; split; [by (apply Hs; lia) || done|]); try constructor.
  apply (IH (length rest)); [cbn; lia|done].
Qed.

(** ** The window *)

Lemma FindMessage_first name m e es : FindMessages name m = e :: es -> FindMessage name m = Some e.
Proof.
  unfold FindMessages, FindMessage, FindMessageAt. destruct (values name m) as [|v vs]; [done|].
  destruct v; try done. cbn. by intros [= -> _].
Qed.

Lemma apply_catalogue m w es :
  FindMessages kFieldVPNGateServer m = es -> es <> [] -> NoDup (map entry_host es) -> Forall (fun e => entry_host e <> []) es ->
  Forall (fun e => is_Some (FindString kFieldVPNGateConfigBase64 e)) es ->
  fPins (fMap (_ApplyCatalogue m w)) = omap pin_of es /\
  forall e, e ∈ es -> fOvpnByHost (_ApplyCatalogue m w) !! entry_host e = FindString kFieldVPNGateConfigBase64 e.
Proof.
  intros Hm Hne Hd Hh Hc. destruct es as [|e0 es0] eqn:Ees; [done|]. rewrite <- Ees in *.
  destruct (apply_entries es (ClearServers (fMap w)) ∅ 0 Hd Hh Hc) as (v' & o' & E & Ef & Eo & _).
  { intros p e Hp. by apply elem_of_nil in Hp. }
  unfold _ApplyCatalogue. cbv zeta. rewrite (FindMessage_first _ _ e0 es0) by congruence. rewrite Hm.
  change (fMap (_HideCluster w)) with (fMap w). rewrite E.
  destruct (FindString kFieldError m); cbn [with_status _RefreshSidePanel fMap fOvpnByHost]; (split; [exact Ef|exact Eo]).
Qed.

Lemma row_text rows r : Forall row_ok rows -> r ∈ rows -> Forall text r.
Proof.
  intros Hr Hin. rewrite Forall_forall in Hr. eapply Forall_impl; [apply (ok_fields r (Hr r Hin))|]. by intros ? (_ & _ & ?).
Qed.

(** The entries of good rows have a host and a configuration. *)
Lemma rows_entries rows :
  Forall row_ok rows ->
  Forall (fun e => entry_host e <> [] /\ is_Some (FindString kFieldVPNGateConfigBase64 e)) (omap entry_of rows).
Proof.
  intros Hr. apply Forall_forall. intros e (r & Hin & Er)%list_elem_of_omap.
  destruct (entry_of_fields r e) as (E1 & E2 & E3); [by apply (row_text rows)|done|].
  unfold entry_host. rewrite E1, E3. by split.
Qed.

(** ** What a row publishes

    Written from the columns of the catalogue and the country table, without
    the code's reader: the pin of the row's server and its configuration, or
    nothing. *)

(** A decimal number of the catalogue; one that is not known is a dash. *)
Definition number (f : bytes) (n : Z) : Prop := f = fmt_u n \/ (f = bs "-" /\ n = 0).

Inductive publishes : list bytes -> option (ServerPin * bytes) -> Prop :=
| publishes_cut r : (length r < 15)%nat -> publishes r None
| publishes_nowhere host ip score ping speed long x y sessions uptime users traffic log operator message config more :
    isspace x = false -> isspace y = false ->
    (forall c, c ∈ CountryCentroids.kCentroids -> CountryCentroids.iso2 c <> map CountryCentroids.toupper [x; y]) ->
    publishes (host :: ip :: score :: ping :: speed :: long :: [x; y] :: sessions :: uptime :: users :: traffic :: log :: operator :: message :: config :: more) None
| publishes_server host ip score ping speed long x y sessions uptime users traffic log operator message config more c nscore nping nspeed nsessions :
    host <> [] -> config <> [] ->
    c ∈ CountryCentroids.kCentroids -> CountryCentroids.iso2 c = map CountryCentroids.toupper [x; y] ->
    number score nscore -> 0 <= nscore < 2 ^ 31 -> number ping nping -> 0 <= nping < 2 ^ 31 ->
    number speed nspeed -> 0 <= nspeed < 2 ^ 31 * 1000000 -> number sessions nsessions -> 0 <= nsessions < 2 ^ 31 ->
    publishes (host :: ip :: score :: ping :: speed :: long :: [x; y] :: sessions :: uptime :: users :: traffic :: log :: operator :: message :: config :: more)
      (Some (mkPin host [x; y] long log (Single.tenths (CountryCentroids.lat c)) (Single.tenths (CountryCentroids.lon c))
               nscore nping (nspeed / 1000000) nsessions false, config)).

Lemma strtol_number f n : number f n -> 0 <= n < 2 ^ 63 -> fst (strtol f) = n.
Proof.
  intros [->|[-> ->]] Hn; [|vm_compute; reflexivity]. unfold strtol.
  pose proof (read_int_fmt_u n [] ltac:(lia) ltac:(done)) as E. rewrite app_nil_r in E. rewrite E. cbn [fst]. lia.
Qed.

(** The code's reading of a row is what it publishes. *)
Lemma entry_of_publishes r p : Forall text r -> publishes r p ->
  match p with
  | None => entry_of r = None
  | Some (pin, config) => exists e, entry_of r = Some e /\ pin_of e = Some pin /\ FindString kFieldVPNGateConfigBase64 e = Some config
  end.
Proof.
  intros Ht Hp. destruct Hp as [r Hl|? ? ? ? ? ? x y ? ? ? ? ? ? ? config more Hx Hy Hn
    |host ip score ping speed long x y sessions ? ? ? log ? ? config more c nscore nping nspeed nsessions Hh Hc Hin Ec Ns Bs Np Bp Nv Bv Ne Be].
  - unfold entry_of. destruct (Nat.ltb_spec (length r) kColExpected) as [|L]; [done|unfold kColExpected in L; lia].
  - unfold entry_of. destruct (_ <? _)%nat; [done|]. cbv zeta. destruct (_ || _); [done|].
    match goal with |- context [CountryCentroids.Lookup ?f] => change f with [x; y] end.
    unfold CountryCentroids.Lookup. by rewrite CountryCentroids.find_row_nowhere.
  - unfold entry_of. cbn [length]. match goal with |- context [(?a <? kColExpected)%nat] => change (a <? kColExpected)%nat with false end. cbv iota zeta.
    unfold int_field, field_or_empty. cbn [lookup list_lookup kColHostName kColIP kColScore kColPing kColSpeed kColCountryLong kColCountryShort kColSessions kColLogType kColConfigData].
    change (default [] (Some ?a)) with a.
    assert ((zlen host =? 0) = false) as -> by (apply Z.eqb_neq; intros ?%zlen_0_nil; done).
    assert ((zlen config =? 0) = false) as -> by (apply Z.eqb_neq; intros ?%zlen_0_nil; done). cbn [orb].
    unfold CountryCentroids.Lookup. rewrite (CountryCentroids.find_row_letters c x y Hin Ec). cbn [fmap option_fmap option_map].
    rewrite (strtol_number _ _ Ns), (strtol_number _ _ Np), (strtol_number _ _ Nv), (strtol_number _ _ Ne) by lia.
    rewrite Z.quot_div_nonneg by lia.
    assert (0 <= nspeed / 1000000 < 2 ^ 31) by (split; [apply Z.div_pos; lia|apply Z.div_lt_upper_bound; lia]).
    change (1000 * 1000) with 1000000. rewrite !s32_small by lia. eexists. split; [reflexivity|].
    assert (T : text host /\ text long /\ text [x; y] /\ text log /\ text config).
    { repeat (apply Forall_cons in Ht as [? Ht]). done. }
    destruct T as (T1 & T2 & T3 & T4 & T5). unfold pin_of, entry_message.
    destruct (zlen ip >? 0); cbn [FindString]; unfold FindString, FindFloat, FindInt32; cbn -[cstr Single.tenths]; rewrite !cstr_text by done;
      (split; [destruct host; done|done]).
Qed.

(** Row by row. *)
Lemma entries_publish rows ps : Forall (Forall text) rows -> Forall2 publishes rows ps ->
  Forall2 (fun e x => pin_of e = Some (fst x) /\ FindString kFieldVPNGateConfigBase64 e = Some (snd x)) (omap entry_of rows) (omap id ps).
Proof.
  intros Ht Hp. induction Hp as [|r p rows ps Hr _ IH]; [constructor|]. apply Forall_cons in Ht as [Ht1 Ht].
  pose proof (entry_of_publishes r p Ht1 Hr) as E. destruct p as [[pin config]|]; cbn [omap list_omap id].
  - destruct E as (e & -> & E1 & E2). constructor; [done|by apply IH].
  - rewrite E. by apply IH.
Qed.

Section WithBackend.
Context {B : Type} `{VPNBackend B}.
Context (resolve : bytes -> bytes) (strerror : status -> bytes).
Abbreviation server := (Server.server (B := B)).

Lemma send_out y c m (s : server) e : e ∈ out s -> e ∈ out (send y c m s).
Proof. intros He. unfold send. destruct (s_alive y c); [|done]. cbn. apply elem_of_app. by left. Qed.

Lemma sends_out y m l (s : server) e : e ∈ out s -> e ∈ out (fold_left (fun s c => send y c m s) l s).
Proof. revert s. induction l as [|c l IH]; intros s He; [done|]. cbn [fold_left]. by apply IH, send_out. Qed.

Lemma sends_each y m l c (s : server) :
  c ∈ l -> s_alive y c = true -> Sent c m ∈ out (fold_left (fun s c => send y c m s) l s).
Proof.
  intros Hc Ha. revert s. induction l as [|d l IH]; intros s; [by apply elem_of_nil in Hc|].
  apply elem_of_cons in Hc as [->|Hc]; [|by apply IH].
  cbn [fold_left]. apply sends_out. unfold send. rewrite Ha. cbn. apply elem_of_app. right. apply list_elem_of_here.
Qed.

(** The daemon keeps the entries it is given, and everyone who waits gets them. *)
Lemma fetched_served y rows c (s : server) :
  let s' := _HandleVPNGateFetched y (fetched kMsgVPNGateFetched rows) s in
  fCatalogueCache (cat s') = fetched kMsgVPNGateList rows /\
  (c ∈ fCataloguePending (cat s) -> s_alive y c = true -> Sent c (fetched kMsgVPNGateList rows) ∈ out s').
Proof.
  cbv zeta. unfold _HandleVPNGateFetched. cbv zeta. rewrite fetched_entries, (copy_entries _ _ []) by done.
  assert (E : match FindString kFieldError (fetched kMsgVPNGateFetched rows) with
              | Some e => add kFieldError (VString e) (mkMessage kMsgVPNGateList (map entry_field ([] ++ omap entry_of rows)))
              | None => mkMessage kMsgVPNGateList (map entry_field ([] ++ omap entry_of rows))
              end = fetched kMsgVPNGateList rows).
  { destruct (omap entry_of rows) as [|e es] eqn:Er; [unfold fetched; rewrite Er; vm_compute; reflexivity|].
    rewrite fetched_error by (by rewrite Er). unfold fetched. by rewrite Er, app_nil_r. }
  change (what (BMessage kMsgVPNGateList)) with kMsgVPNGateList. rewrite E. split; [done|].
  intros Hc Ha. cbn [with_cat out]. by apply sends_each.
Qed.

(** C18: The public catalogue reaches the map. Let vpngate.net's answer arrive whole, in whatever pieces, with rows that are each cut short, of a country the table does not have, or complete (a host, a two-letter country code in either case, decimal numbers or dashes, a configuration), no host appearing in two complete rows. Then the daemon sends every client that asked one list with the hosts and configurations of exactly the complete rows, in their order; the map window that receives it shows one pin for each, with the row's own columns, the speed in megabits and the coordinates the country table has for that code, and keeps under its host name the configuration that was published with it. When there is no complete row the map is left as it was. *)
Theorem catalogue_reaches_map y n rows ps client ret (s : server) (w : window) :
  delivers n (catalogue_text rows) -> Forall row_ok rows -> Forall2 publishes rows ps ->
  let published := omap id ps in
  NoDup (map (fun x => host (fst x)) published) -> client ∈ fCataloguePending (cat s) -> s_alive y client = true ->
  let s' := MessageReceived resolve strerror y (fetch_thread kMsgVPNGateFetched n) ret s in
  exists list, Sent client list ∈ out s'
    /\ Forall2 (fun e x => FindString kFieldVPNGateHost e = Some (host (fst x)) /\ FindString kFieldVPNGateConfigBase64 e = Some (snd x))
         (FindMessages kFieldVPNGateServer list) published
    /\ let w' := _ApplyCatalogue list w in
       (published <> [] -> fPins (fMap w') = map fst published)
       /\ (published = [] -> fMap w' = fMap w /\ fOvpnByHost w' = fOvpnByHost w)
       /\ forall pin config, (pin, config) ∈ published -> fOvpnByHost w' !! host pin = Some config.
Proof.
  intros Hd Hr Hp published Hn Hc Ha. cbv zeta. rewrite (fetch_delivers _ _ _ Hd Hr).
  change (MessageReceived resolve strerror y (fetched kMsgVPNGateFetched rows) ret s)
    with (_HandleVPNGateFetched y (fetched kMsgVPNGateFetched rows) s).
  destruct (fetched_served y rows client s) as [_ Hs]. exists (fetched kMsgVPNGateList rows).
  split; [by apply Hs|]. rewrite fetched_entries.
  assert (Ht : Forall (Forall text) rows) by (apply Forall_forall; intros r Hin; by apply (row_text rows)).
  pose proof (entries_publish rows ps Ht Hp) as E. fold published in E.
  pose proof (rows_entries rows Hr) as He. apply Forall_and in He as [He1 He2].
  set (es := omap entry_of rows) in *. clearbody published.
  assert (Eh : map entry_host es = map (fun x => host (fst x)) published).
  { clear -E. induction E as [|e x es xs [E1 _] _ IH]; [done|]. cbn [map]. rewrite IH. f_equal. symmetry. apply (pin_of_host e (fst x) E1). }
  assert (Ep : omap pin_of es = map fst published).
  { clear -E. induction E as [|e x es xs [E1 _] _ IH]; [done|]. cbn [omap list_omap map]. rewrite E1. by f_equal. }
  assert (Ef : Forall2 (fun e x => FindString kFieldVPNGateHost e = Some (host (fst x)) /\ FindString kFieldVPNGateConfigBase64 e = Some (snd x)) es published).
  { clear -E. induction E as [|e x es xs [E1 E2] _ IH]; constructor; [split; [|done]|exact IH]. unfold pin_of in E1.
    destruct (FindString kFieldVPNGateHost e) as [[|a h]|]; [done| |done]. by injection E1 as <-. }
  split; [exact Ef|]. rewrite <- Eh in Hn. destruct es as [|e0 es0] eqn:Ees.
  - inversion E; subst. split_and!; [done| |].
    + intros _. unfold fetched. fold es. change (omap entry_of rows) with es. rewrite Ees. split; reflexivity.
    + intros pin config Hin. by apply elem_of_nil in Hin.
  - rewrite <- Ees in *. destruct (apply_catalogue (fetched kMsgVPNGateList rows) w es) as [Em Eo];
      [apply fetched_entries|by rewrite Ees|done..|]. split_and!; [by rewrite Em| |].
    + intros ->. rewrite Ees in E. inversion E.
    + intros pin config Hin. apply list_elem_of_lookup in Hin as [k Hk].
      destruct (Forall2_lookup_r _ _ _ _ _ Ef Hk) as (e & Hke & E1 & E2). cbn [fst snd] in E1, E2.
      specialize (Eo e ltac:(by eapply list_elem_of_lookup_2)). unfold entry_host in Eo. rewrite E1, E2 in Eo. exact Eo.
Qed.

(** A profile that is sound is dialled, and no file changes on the way. *)
Lemma Connect_dials y m ret (s : server) p w0 :
  fBackend s = Some w0 -> live (State (objs s w0)) = false ->
  FindMessage kFieldProfile m = Some (archived p) -> profile_ok p -> fBackendType p = VPN_BACKEND_OPENVPN ->
  path_ok y (fConfigPath p) = true ->
  let s' := _HandleConnect strerror y m ret s in
  files s' = files s /\ exists k, CallConnect OpenVPN (with_authKey k p) ∈ out s'.
Proof.
  intros Hb Hl Hm Hp Ht Hc. cbv zeta. unfold _HandleConnect. rewrite Hb, Hl, Hm, Unarchive_Archive by done.
  cbv zeta. cbn [with_authKey fBackendType fConfigPath]. rewrite Ht, Hc. cbn [negb]. rewrite andb_false_r.
  set (u := default [] _). set (pw := default [] _). change (default OpenVPN (fBackend (_SelectBackend VPN_BACKEND_OPENVPN s))) with OpenVPN.
  set (q := match FindString kFieldAuthKey m with Some _ => _ | None => _ end).
  assert (Hq : exists k, q = with_authKey k p).
  { subst q. destruct (FindString kFieldAuthKey m) as [k|]; [|by exists []]. destruct (zlen k >? 0); [by exists k|by exists []]. }
  destruct Hq as [k ->]. set (s1 := call_credentials OpenVPN u pw (_SelectBackend VPN_BACKEND_OPENVPN s)).
  assert (F1 : files s1 = files s) by (unfold s1, call_credentials; by destruct (_ || _)).
  set (s2 := _HandleSubscribe y m ret s1).
  assert (F2 : files s2 = files s1).
  { unfold s2, _HandleSubscribe, _SendProfileList, send. cbv zeta. destruct (negb _); [done|]. destruct (existsb _ _); [done|]. by destruct (s_alive y _). }
  set (s3 := _ArmReconnect m u pw s2). assert (F3 : files s3 = files s) by (unfold s3; cbn; congruence).
  clearbody s3. unfold call_connect. destruct (Connect (with_authKey k p) (objs s3 OpenVPN)) as [st b].
  set (s4 := emit (CallConnect OpenVPN (with_authKey k p)) (set_obj OpenVPN b s3)). assert (F4 : files s4 = files s) by exact F3.
  assert (O4 : CallConnect OpenVPN (with_authKey k p) ∈ out s4) by (cbn; apply elem_of_app; right; apply list_elem_of_here).
  clearbody s4. split; [|exists k]; (destruct st; [first [exact F4|exact O4]|..]; unfold reply_detail; cbv zeta; destruct (IsValid _);
    try first [exact F4|exact O4]; unfold send; destruct (s_alive y _); first [exact F4|exact O4|apply elem_of_app; left; exact O4]).
Qed.

Lemma what_add name v m : what (add name v m) = what m.
Proof. unfold add, Add. destruct (values name m) as [|v' ?]; [done|]. by destruct (same_type v v'). Qed.

(** What the window's request carries. *)
Lemma request_fields self user pass (w : window) p ovpn :
  VPNMapWindow.fServer w = true -> SelectedServer (fMap w) = Some p -> text (host p) ->
  fOvpnByHost w !! host p = Some ovpn -> text ovpn ->
  exists connect, snd (_SendConnectWith self user pass w) = Some connect /\ what connect = kMsgConnectVPNGate /\
    FindString kFieldVPNGateHost connect = Some (host p) /\ FindString kFieldVPNGateConfigBase64 connect = Some ovpn /\
    FindString kFieldVPNGateCountryLong connect = Some (cstr (countryLong p)).
Proof.
  intros Hv Hsel Hth Ho Ht. unfold _SendConnectWith. rewrite Hv, Hsel, Ho. cbn [negb snd]. cbv zeta. eexists. split; [reflexivity|].
  match goal with |- _ /\ ?a = _ /\ ?b = _ /\ _ =>
    cut (a = Some (cstr (host p)) /\ b = Some (cstr ovpn)); [rewrite !cstr_text by done; intros [-> ->]|] end;
    destruct (zlen user >? 0), (zlen pass >? 0); rewrite ?what_add; split_and!; reflexivity.
Qed.

(** The file the configuration of a host is staged in. *)
Definition staging_path (base host : bytes) : bytes :=
  DaemonFiles.Append (DaemonFiles.Append (DaemonFiles.Append base (bs "Sotoportego")) (bs "vpngate")) (DaemonFiles.vpngate_leaf host).

Lemma text_app l k : text l -> text k -> text (l ++ k).
Proof. intros. by apply Forall_app. Qed.

Lemma literal_text l : forallb (fun c => negb (c =? 0)) l = true -> text l.
Proof.
  intros E. apply Forall_forall. intros c Hc%list_elem_of_In. rewrite forallb_forall in E. by apply Z.eqb_neq, negb_true_iff, E.
Qed.

Lemma leaf_text host : text (DaemonFiles.vpngate_leaf host).
Proof.
  unfold DaemonFiles.vpngate_leaf, DaemonFiles.sanitize_filename. apply text_app; [|by apply literal_text].
  destruct (_ =? 0); [by apply literal_text|]. apply Forall_map, Forall_forall. intros c _. cbn.
  destruct (DaemonFiles.filename_char c) eqn:E; [|done]. by intros ->.
Qed.

Lemma staging_text base host : text base -> text (staging_path base host).
Proof.
  intros Hb. unfold staging_path, DaemonFiles.Append. rewrite <- !app_assoc. cbn [app].
  apply text_app; [done|]. apply Forall_cons. split; [done|].
  apply text_app; [by apply literal_text|]. cbn [app]. apply Forall_cons. split; [done|].
  apply text_app; [by apply literal_text|]. apply Forall_cons. split; [done|]. apply leaf_text.
Qed.

(** C19: the server picked on the map is dialled with the configuration that was published for it.  The window's request names the selected host and carries its text; the daemon decodes it into the file it stages for that host, byte for byte the published .ovpn, and connects a profile of that host that points to the file. *)
Theorem picked_server_is_dialled y (s : server) (w : window) self user pass ret p ovpn w0 base :
  VPNMapWindow.fServer w = true -> SelectedServer (fMap w) = Some p -> text (host p) ->
  fOvpnByHost w !! host p = Some (Control.base64_encode ovpn) -> is_bytes ovpn -> ovpn <> [] ->
  fBackend s = Some w0 -> live (State (objs s w0)) = false -> s_cache y = Some base -> text base ->
  let path := staging_path base (host p) in
  s_create y path = true -> s_write y path = true -> path_ok y path = true ->
  exists connect, snd (_SendConnectWith self user pass w) = Some connect /\
    let s' := MessageReceived resolve strerror y connect ret s in
    files s' !! resolve path = Some ovpn /\
    exists q, CallConnect OpenVPN q ∈ out s' /\ VPNProfile.fServer q = host p /\ fConfigPath q = path.
Proof.
  intros Hv Hsel Hth Ho Hby Hne Hb Hl Hc Htb path Hcr Hwr Hok.
  destruct (request_fields self user pass w p (Control.base64_encode ovpn)) as (connect & Ec & Hw & Eh & Ek & El); [done..|apply base64_text|].
  exists connect. split; [done|]. cbv zeta. unfold MessageReceived. rewrite Hw.
  set (s' := if _ =? _ then _ else _).
  assert (Es : s' = _HandleConnectVPNGate resolve strerror y connect ret s) by reflexivity. rewrite Es. clear s' Es.
  unfold _HandleConnectVPNGate. rewrite Hb, Eh, Ek. cbv zeta.
  assert (Ew : _WriteVPNGateConfig resolve y (host p) (Control.base64_encode ovpn) (with_connectedHost (host p) s)
               = (path, with_files (<[resolve path := ovpn]> (files s)) (with_connectedHost (host p) s))).
  { unfold _WriteVPNGateConfig. rewrite Hc, decode_base64_encode by done. fold (staging_path base (host p)). fold path.
    rewrite Hcr, Hwr. destruct (Z.eqb_spec (zlen ovpn) 0) as [E|_]; [by apply zlen_0_nil in E|done]. }
  rewrite Ew. assert (Hp0 : (zlen path =? 0) = false).
  { apply Z.eqb_neq. intros E%zlen_0_nil. unfold path, staging_path in E. unfold DaemonFiles.Append at 1 in E. by destruct (app_eq_nil _ _ E). }
  rewrite Hp0, El. set (nm := bs "VPNGate " ++ _). set (q := mkProfile _ _ _ _ _ _ _ _).
  set (m0 := add kFieldProfile (nested (archived q)) (BMessage kMsgConnect)).
  set (m1 := if IsValid _ then _ else m0). set (m2 := match FindString kFieldUsername connect with Some _ => _ | None => _ end).
  set (m3 := match FindString kFieldPassword connect with Some _ => _ | None => _ end).
  assert (Hm : FindMessage kFieldProfile m3 = Some (archived q)).
  { unfold m3, m2, m1. destruct (FindString kFieldPassword connect), (FindString kFieldUsername connect), (IsValid _); reflexivity. }
  set (s1 := with_files _ _).
  destruct (Connect_dials y m3 0 s1 q w0) as [Hf [k Hk]]; [done..| |done|done|].
  - split; [cbn; lia|]. apply Forall_cons_2; [|apply Forall_cons_2; [exact Hth|apply Forall_cons_2; [apply Forall_nil_2|
      apply Forall_cons_2; [by apply (literal_text (bs "udp"))|apply Forall_cons_2; [by apply staging_text|apply Forall_nil_2]]]]].
    apply text_app; [by apply literal_text|]. apply text_app; [exact Hth|]. destruct (_ >? 0); [|apply Forall_nil_2].
    apply text_app; [by apply literal_text|]. apply text_app; [apply cstr_no_nul|by apply literal_text].
  - split; [rewrite Hf; unfold s1; cbn; by rewrite lookup_insert_eq|]. by exists (with_authKey k q).
Qed.




End WithBackend.

(** ** A catalogue of four rows, two of them usable *)

Definition demo_row (host cc ovpn : string) : list bytes :=
  map bs [host; "203.0.113.5"; "1200"; "12"; "5000000"; "Somewhere"; cc; "3"; "0"; "0"; "0"; "2weeks"; "op"; "hi"]%string
  ++ [Control.base64_encode (bs ovpn)].

Definition demo_rows : list (list bytes) :=
  [demo_row "vpn1" "JP" "remote vpn1"; demo_row "vpn2" "??" "remote vpn2"; [bs "vpn3"; bs "no more"]; demo_row "vpn4" "us" "remote vpn4"].

Definition demo_header : bytes := bs "HTTP/1.1 200 OK" ++ crlf ++ bs "Content-Type: text/plain".

Definition demo_net : net :=
  let answer := demo_header ++ blank_line ++ catalogue_text demo_rows in
  mkNet true true true [40; 1000] ([Got (firstn 50 answer); Interrupted; Got (skipn 50 answer)] ++ [Closed]).

Lemma demo_delivers : delivers demo_net (catalogue_text demo_rows).
Proof.
  split; [reflexivity|vm_compute; reflexivity|]. set (answer := demo_header ++ blank_line ++ catalogue_text demo_rows).
  exists [Got (firstn 50 answer); Interrupted; Got (skipn 50 answer)], demo_header.
  split; [reflexivity|]. split; [repeat constructor|]. split; [vm_compute; reflexivity|].
  split; [apply (bool_decide_unpack _); vm_compute; exact I|vm_compute; reflexivity].
Qed.

(** The last field and its last byte. *)
Lemma row_ok_check r c h fs :
  bool_decide (Forall (fun f => (44 ∉ f) /\ (10 ∉ f) /\ text f) r) = true -> r = (c :: h) :: fs ->
  negb ((c =? 42) || (c =? 35) || beq (c :: h) (bs "HostName")) = true ->
  r = removelast r ++ [removelast (List.last r []) ++ [List.last (List.last r []) 0]] ->
  trailing (List.last (List.last r []) 0) = false -> row_ok r.
Proof.
  intros Hf Hr Hc Hl Ht. split; [by apply bool_decide_eq_true in Hf| |eauto 6].
  exists c, h, fs. apply negb_true_iff, orb_false_iff in Hc as [[H1%Z.eqb_neq H2%Z.eqb_neq]%orb_false_iff H3%beq_false]. done.
Qed.

Lemma demo_rows_ok : Forall row_ok demo_rows.
Proof.
  repeat (apply Forall_cons_2; [by eapply row_ok_check; [vm_compute; reflexivity|reflexivity|vm_compute; reflexivity..]|]).
  apply Forall_nil_2.
Qed.

Definition demo_request : message := BMessage kMsgRequestVPNGate.
Definition demo_waiting : Server.server (B := Z) := Server.step same_path no_error start (from_client demo_request).
Definition demo_window : window :=
  mkWindow (mkView [] None None false fzero fzero [] [] fzero fzero) ∅ true [] (panel_of None) [] false.

Definition demo_pin (h cc : string) (la lo : Z) : ServerPin :=
  mkPin (bs h) (bs cc) (bs "Somewhere") (bs "2weeks") (Single.tenths la) (Single.tenths lo) 1200 12 5 3 false.
Definition demo_published : list (option (ServerPin * bytes)) :=
  [Some (demo_pin "vpn1" "JP" 357 1397, Control.base64_encode (bs "remote vpn1")); None; None;
   Some (demo_pin "vpn4" "us" 389 (-770), Control.base64_encode (bs "remote vpn4"))].

#[local] Existing Instance CountryCentroids.Centroid_eq_dec.

Lemma demo_publishes : Forall2 publishes demo_rows demo_published.
Proof.
  assert (N : forall s n, bs s = fmt_u n -> number (bs s) n) by (intros s n E; by left).
  assert (S : forall h cc ovpn x y c, bs h <> [] -> Control.base64_encode (bs ovpn) <> [] -> bs cc = [x; y] ->
    bool_decide (c ∈ CountryCentroids.kCentroids) = true -> CountryCentroids.iso2 c = map CountryCentroids.toupper [x; y] ->
    publishes (demo_row h cc ovpn) (Some (demo_pin h cc (CountryCentroids.lat c) (CountryCentroids.lon c), Control.base64_encode (bs ovpn)))).
  { intros h cc ovpn x y c Hh Ho Ec Hin Ei. apply bool_decide_eq_true in Hin. unfold demo_row, demo_pin. cbn [map app]. rewrite Ec.
    apply (publishes_server _ _ _ _ _ _ x y _ _ _ _ _ _ _ _ [] c 1200 12 5000000 3); try done; try lia; by apply N. }
  unfold demo_rows, demo_published. apply Forall2_cons; split; [|apply Forall2_cons; split; [|apply Forall2_cons; split; [|apply Forall2_cons; split; [|constructor]]]].
  - by apply (S "vpn1" "JP" "remote vpn1" 74 80 (CountryCentroids.row "JP" 357 1397))%string.
  - apply (publishes_nowhere _ _ _ _ _ _ 63 63 _ _ _ _ _ _ _ _ []); [done..|].
    assert (F : Forall (fun c => CountryCentroids.iso2 c <> map CountryCentroids.toupper [63; 63]) CountryCentroids.kCentroids)
      by (apply (bool_decide_unpack _); vm_compute; exact I).
    intros c Hc. by apply (proj1 (Forall_forall _ _) F).
  - apply publishes_cut. cbn. lia.
  - by apply (S "vpn4" "us" "remote vpn4" 117 115 (CountryCentroids.row "US" 389 (-770)))%string.
Defined.

Lemma catalogue_reaches_map_witness :
  exists list, Sent 1 list ∈ out (MessageReceived same_path no_error all_well (fetch_thread kMsgVPNGateFetched demo_net) 0 demo_waiting)
    /\ fPins (fMap (_ApplyCatalogue list demo_window)) = [demo_pin "vpn1" "JP" 357 1397; demo_pin "vpn4" "us" 389 (-770)].
Proof.
  destruct (catalogue_reaches_map same_path no_error all_well demo_net demo_rows demo_published 1 0 demo_waiting demo_window) as (l & H1 & _ & H2 & _).
  - exact demo_delivers.
  - exact demo_rows_ok.
  - exact demo_publishes.
  - apply (bool_decide_unpack _). vm_compute. exact I.
  - apply (bool_decide_unpack _). vm_compute. exact I.
  - reflexivity.
  - exists l. split; [exact H1|]. apply H2. discriminate.
Defined.

(** The same window after the second server was picked. *)
Definition demo_picked : window :=
  let w := _ApplyCatalogue (fetched kMsgVPNGateList demo_rows) demo_window in with_map (SetSelectedHost (bs "vpn4") (fMap w)) w.

Lemma picked_server_is_dialled_witness :
  let path := staging_path (bs "/boot/home/config/cache") (bs "vpn4") in
  exists connect, snd (_SendConnectWith 1 (bs "vpn") (bs "vpn") demo_picked) = Some connect /\
    let s' := MessageReceived same_path no_error all_well connect 1 demo_waiting in
    files s' !! path = Some (bs "remote vpn4") /\
    exists q, CallConnect OpenVPN q ∈ out s' /\ VPNProfile.fServer q = bs "vpn4" /\ fConfigPath q = path.
Proof.
  cbv zeta. destruct (SelectedServer (fMap demo_picked)) as [p|] eqn:Ep; [|vm_compute in Ep; discriminate Ep].
  assert (Eh : host p = bs "vpn4") by (vm_compute in Ep; injection Ep as <-; reflexivity). rewrite <- Eh.
  apply (picked_server_is_dialled same_path no_error all_well demo_waiting demo_picked 1 (bs "vpn") (bs "vpn") 1 p (bs "remote vpn4") OpenVPN).
  - reflexivity.
  - exact Ep.
  - rewrite Eh. by apply literal_text.
  - rewrite Eh. vm_compute. reflexivity.
  - apply bs_bytes.
  - discriminate.
  - reflexivity.
  - reflexivity.
  - reflexivity.
  - by apply literal_text.
  - reflexivity.
  - reflexivity.
  - rewrite Eh. vm_compute. reflexivity.
Defined.

End CatalogueProofs.
