(* ===== verification/Cli.v ===== *)
(** * Cli: the command-line client (src/cli/main.cpp)

    The client is a BApplication: a command, the messages it sends to the
    daemon, and a handler.  Its queue is part of the state: [_Finish] posts
    B_QUIT_REQUESTED behind whatever already waits, so a message that is in the
    queue by then is still handled.  The printed lines are kept without their
    newline; what goes to stderr is printed like the rest. *)

From S2P Require Import Prelude CLib Json Message Profiles TsBackend Daemon Server ServerProofs.
Import Message VPNProtocol VPNState VPNProfile.
Open Scope Z_scope.

Module Cli.
Import TsBackend.

Inductive Command := CMD_HELP | CMD_LIST | CMD_STATUS | CMD_PEERS | CMD_CONNECT | CMD_DISCONNECT | CMD_WATCH | CMD_EXITNODE.

#[export] Instance Command_eq_dec : EqDecision Command.
Proof. solve_decision. Defined.

Definition kMsgDeadline : Z := fourcc "cDl".
Definition kMsgWatchDone : Z := fourcc "cWd".

(** ** The command line *)

Definition parse_command (verb : bytes) : Command :=
  if beq verb (bs "list") then CMD_LIST
  else if beq verb (bs "status") then CMD_STATUS
  else if beq verb (bs "peers") then CMD_PEERS
  else if beq verb (bs "connect") then CMD_CONNECT
  else if beq verb (bs "disconnect") then CMD_DISCONNECT
  else if beq verb (bs "watch") then CMD_WATCH
  else if beq verb (bs "exit-node") then CMD_EXITNODE
  else CMD_HELP.

Record cli := mkCli {
  fCmd : Command; fArg : bytes; fWatchSecs : Z;
  fDeadline : option Z; fWatchTimer : option Z;      (* the runners' delays, in microseconds *)
  fConnectedSeen : bool; fExitCode : Z;
  queue : list (option message);                     (* [None] is B_QUIT_REQUESTED *)
  sent : list message; printed : list bytes }.

Definition SotoportegoCLI (cmd : Command) (arg : bytes) (watchSecs : Z) : cli :=
  mkCli cmd arg watchSecs None None false 0 [] [] [].

(** main up to the construction of the application: an exit code, or the application. *)
Definition main (args : list bytes) : Z + cli :=
  match args with
  | [] => inl 2
  | verb :: rest =>
      let cmd := parse_command verb in
      match cmd with
      | CMD_HELP => inl 2
      | CMD_CONNECT | CMD_EXITNODE =>
          match rest with
          | [] => inl 2
          | arg :: _ => inr (SotoportegoCLI cmd arg 60)
          end
      | CMD_WATCH =>
          let watchSecs := match rest with
                           | [] => 60
                           | n :: _ => if atoi n <=? 0 then 60 else atoi n
                           end in
          inr (SotoportegoCLI cmd [] watchSecs)
      | _ => inr (SotoportegoCLI cmd [] 60)
      end
  end.

(** ** The application *)

Definition with_queue (q : list (option message)) (c : cli) : cli :=
  mkCli (fCmd c) (fArg c) (fWatchSecs c) (fDeadline c) (fWatchTimer c) (fConnectedSeen c) (fExitCode c) q (sent c) (printed c).
Definition print (l : bytes) (c : cli) : cli :=
  mkCli (fCmd c) (fArg c) (fWatchSecs c) (fDeadline c) (fWatchTimer c) (fConnectedSeen c) (fExitCode c) (queue c) (sent c) (printed c ++ [l]).
Definition SendMessage (m : message) (c : cli) : cli :=
  mkCli (fCmd c) (fArg c) (fWatchSecs c) (fDeadline c) (fWatchTimer c) (fConnectedSeen c) (fExitCode c) (queue c) (sent c ++ [m]) (printed c).

Definition _Finish (code : Z) (c : cli) : cli :=
  mkCli (fCmd c) (fArg c) (fWatchSecs c) (fDeadline c) (fWatchTimer c) (fConnectedSeen c) code (queue c ++ [None]) (sent c) (printed c).

(** The messenger of the client itself. *)
Variant self_of := Self (m : messenger).
Definition me (s : self_of) : value := let 'Self m := s in VMessenger m.

Definition _Subscribe (self : self_of) : cli -> cli := SendMessage (add kFieldClient (me self) (BMessage kMsgSubscribe)).
Definition _RequestStatus (self : self_of) : cli -> cli := SendMessage (add kFieldClient (me self) (BMessage kMsgGetStatus)).

Definition deadline_of (c : cli) : Z :=
  if decide (fCmd c = CMD_CONNECT) then 120000000
  else if decide (fCmd c = CMD_WATCH) then fWatchSecs c * 1000000 + 5000000
  else 20000000.

(** [reached]: _EnsureServer found the daemon. *)
Definition ReadyToRun (self : self_of) (reached : bool) (c : cli) : cli :=
  if negb reached then _Finish 1 (print (bs "[cli] could not reach the Sotoportego daemon") c)
  else
    let c := mkCli (fCmd c) (fArg c) (fWatchSecs c) (Some (deadline_of c)) (fWatchTimer c) (fConnectedSeen c) (fExitCode c)
               (queue c) (sent c) (printed c) in
    match fCmd c with
    | CMD_LIST => _Subscribe self c
    | CMD_STATUS | CMD_PEERS | CMD_EXITNODE => _RequestStatus self c
    | CMD_CONNECT => _Subscribe self c
    | CMD_DISCONNECT =>
        print (bs "[cli] disconnect requested")
          (SendMessage (add kFieldClient (me self) (BMessage kMsgDisconnect)) (_Subscribe self c))
    | CMD_WATCH =>
        let c := print (bs "[cli] watching for " ++ fmt_d (fWatchSecs c) ++ bs "s...") (_RequestStatus self (_Subscribe self c)) in
        mkCli (fCmd c) (fArg c) (fWatchSecs c) (fDeadline c) (Some (fWatchSecs c * 1000000)) (fConnectedSeen c) (fExitCode c)
          (queue c) (sent c) (printed c)
    | CMD_HELP => _Finish 2 c
    end.

Definition backend_label (t : Z) : bytes :=
  if t =? VPN_BACKEND_TAILSCALE then bs "Tailscale"
  else if t =? VPN_BACKEND_WIREGUARD then bs "WireGuard"
  else if t =? VPN_BACKEND_OPENVPN then bs "OpenVPN" else bs "?".

Definition _ConnectByName (self : self_of) (profileList : message) (c : cli) : cli :=
  match List.find (fun p => beq (fName p) (fArg c))
          (map (fun a => Unarchive a VPNProfile) (FindMessages kFieldProfile profileList)) with
  | None => _Finish 1 (print (bs "[cli] no profile named '" ++ fArg c ++ bs "' (try: sotoportego_cli list)") c)
  | Some p =>
      let c := _Subscribe self c in
      let connect := add kFieldProfile (nested (archived p)) (add kFieldClient (me self) (BMessage kMsgConnect)) in
      SendMessage connect
        (print (bs "[cli] connecting '" ++ fName p ++ bs "' (" ++ backend_label (fBackendType p) ++ bs ")...") c)
  end.

(** The first peer the argument names. *)
Definition names (arg : bytes) (peer : message) : bool :=
  existsb (fun f => match FindString f peer with Some s => beq arg s | None => false end)
    [kFieldPeerName; kFieldPeerIP; kFieldPeerNodeKey].

Definition set_exit_node (self : self_of) (key : bytes) (c : cli) : cli :=
  let m := add kFieldClient (me self) (add kFieldExitNodeKey (VString key) (BMessage kMsgSetExitNode)) in
  _Finish 0 (print (bs "[cli] exit node " ++ if zlen key >? 0 then bs "set" else bs "cleared (direct routing)") (SendMessage m c)).

Definition _ResolveAndSetExitNode (self : self_of) (status : message) (c : cli) : cli :=
  let arg := fArg c in
  if beq arg (bs "off") || beq arg (bs "none") || (zlen arg =? 0) then set_exit_node self [] c
  else
    match List.find (names arg) (FindMessages kFieldPeer status) with
    | None => _Finish 1 (print (bs "[cli] no peer matching '" ++ arg ++ bs "' (try: sotoportego_cli peers)") c)
    | Some peer =>
        if negb (default false (FindBool kFieldPeerExitCap peer)) then
          _Finish 1 (print (bs "[cli] peer '" ++ arg ++ bs "' is not an exit node (doesn't advertise 0.0.0.0/0)") c)
        else set_exit_node self (default [] (FindString kFieldPeerNodeKey peer)) c
    end.

(** [%-ns] *)
Definition pad (n : Z) (l : bytes) : bytes := l ++ replicate (Z.to_nat (n - zlen l)) 32.

Definition optional_line (label : string) (v : option bytes) (c : cli) : cli :=
  match v with Some (x :: l) => print (bs label ++ x :: l) c | _ => c end.

Definition _PrintStatus (status : message) (c : cli) : cli :=
  let state := default VPN_STATE_DISCONNECTED (FindInt32 kFieldState status) in
  let c := print (bs "state:   " ++ vpn_state_name state) c in
  let c := optional_line "backend: " (FindString kFieldBackend status) c in
  let c := optional_line "local:   " (FindString kFieldLocalIP status) c in
  optional_line "remote:  " (FindString kFieldRemoteIP status) c.

Definition peer_line (peer : message) : bytes :=
  let or_dash v := match v with Some l => l | None => bs "-" end in
  let exitOn := default false (FindBool kFieldPeerExitOn peer) in
  let exitCap := default false (FindBool kFieldPeerExitCap peer) in
  bs "  " ++ pad 20 (default (bs "(unknown)") (FindString kFieldPeerName peer))
  ++ bs " " ++ pad 16 (match FindString kFieldPeerIP peer with Some (x :: l) => x :: l | _ => bs "-" end)
  ++ bs " " ++ pad 6 (or_dash (FindString kFieldPeerPath peer))
  ++ bs " " ++ pad 8 (if default false (FindBool kFieldPeerOnline peer) then bs "online" else bs "offline")
  ++ bs "  " ++ [226; 134; 145] ++ pad 8 (fmt_d (default 0 (FindInt64 kFieldPeerTx peer)))
  ++ bs " " ++ [226; 134; 147] ++ pad 8 (fmt_d (default 0 (FindInt64 kFieldPeerRx peer)))
  ++ bs " " ++ (if exitOn then bs "exit:ACTIVE" else if exitCap then bs "exit:available" else []).

Definition _PrintPeers (status : message) (c : cli) : cli :=
  match FindMessages kFieldPeer status with
  | [] => print (bs "  (no peers)") c
  | peers => fold_left (fun c p => print (peer_line p) c) peers c
  end.

(** The list command: one VPNProfile takes every archive in turn. *)
Fixpoint list_profiles (p : profile) (archives : list message) (c : cli) : cli :=
  match archives with
  | [] => c
  | a :: archives =>
      let p := Unarchive a p in
      list_profiles p archives (print (bs "  " ++ pad 28 (fName p) ++ bs " [" ++ backend_label (fBackendType p) ++ bs "]") c)
  end.

Definition status_line (tag : string) (m : message) : bytes :=
  bs tag ++ vpn_state_name (default VPN_STATE_DISCONNECTED (FindInt32 kFieldState m))
  ++ match FindString kFieldDetail m with Some d => bs " - " ++ d | None => [] end.

Definition MessageReceived (self : self_of) (m : message) (c : cli) : cli :=
  let w := what m in
  if w =? kMsgListProfiles then
    if decide (fCmd c = CMD_CONNECT) then _ConnectByName self m c
    else
      let archives := FindMessages kFieldProfile m in
      let c := list_profiles VPNProfile archives c in
      _Finish 0 (match archives with [] => print (bs "  (no saved profiles)") c | _ => c end)
  else if w =? kMsgStatusUpdate then
    let state := default VPN_STATE_DISCONNECTED (FindInt32 kFieldState m) in
    match fCmd c with
    | CMD_STATUS => _Finish 0 (_PrintStatus m c)
    | CMD_PEERS => _Finish 0 (_PrintPeers m c)
    | CMD_EXITNODE => _ResolveAndSetExitNode self m c
    | CMD_CONNECT =>
        let c := print (status_line "[cli] " m) c in
        if state =? VPN_STATE_CONNECTED then _Finish 0 (print (bs "[cli] connected; leaving the session up") c)
        else if state =? VPN_STATE_ERROR then _Finish 1 c else c
    | CMD_DISCONNECT => if state =? VPN_STATE_DISCONNECTED then _Finish 0 (print (bs "[cli] disconnected") c) else c
    | CMD_WATCH => print (status_line "[watch] " m) c
    | _ => c
    end
  else if w =? kMsgWatchDone then _Finish 0 (print (bs "[cli] watch window elapsed") c)
  else if w =? kMsgDeadline then _Finish (if fConnectedSeen c then 0 else 1) (print (bs "[cli] timed out") c)
  else c.

(** ** The message loop *)

Inductive event := Arrives (m : message) | Dispatch.

(** A running application, or its exit code. *)
Definition running : Type := cli + Z.

Definition step (self : self_of) (r : running) (e : event) : running :=
  match r, e with
  | inr code, _ => inr code
  | inl c, Arrives m => inl (with_queue (queue c ++ [Some m]) c)
  | inl c, Dispatch =>
      match queue c with
      | [] => inl c
      | None :: _ => inr (fExitCode c)
      | Some m :: q => inl (MessageReceived self m (with_queue q c))
      end
  end.

Definition run (self : self_of) (es : list event) (r : running) : running := fold_left (step self) es r.

(** ** Facts *)

Lemma cli_run_app self es fs r : run self (es ++ fs) r = run self fs (run self es r).
Proof. apply fold_left_app. Qed.

Lemma run_exited self es code : run self es (inr code) = inr code.
Proof. induction es as [|e es IH]; [done|exact IH]. Qed.

(** A handler keeps the command and only ever adds to the queue: nothing, or
    the quit it posts, with its exit code. *)
Inductive outcome (c : cli) : cli -> Prop :=
| stays c' : fCmd c' = fCmd c -> queue c' = queue c -> fExitCode c' = fExitCode c -> outcome c c'
| quits c' : fCmd c' = fCmd c -> queue c' = queue c ++ [None] -> outcome c c'.

Lemma outcome_refl c : outcome c c.
Proof. by apply stays. Qed.

Lemma outcome_print l c c' : outcome (print l c) c' -> outcome c c'.
Proof. intros [x H1 H2 H3|x H1 H2]; [by apply stays|by apply quits]. Qed.

Lemma outcome_send m c c' : outcome (SendMessage m c) c' -> outcome c c'.
Proof. intros [x H1 H2 H3|x H1 H2]; [by apply stays|by apply quits]. Qed.

Lemma outcome_finish n c : outcome c (_Finish n c).
Proof. by apply quits. Qed.

Lemma list_profiles_frame p l c : exists ls, list_profiles p l c =
  mkCli (fCmd c) (fArg c) (fWatchSecs c) (fDeadline c) (fWatchTimer c) (fConnectedSeen c) (fExitCode c) (queue c) (sent c) (printed c ++ ls).
Proof.
  revert p c. induction l as [|a l IH]; intros p c; cbn [list_profiles]; [exists []; rewrite app_nil_r; by destruct c|].
  destruct (IH (Unarchive a p) (print (bs "  " ++ pad 28 (fName (Unarchive a p)) ++ bs " [" ++ backend_label (fBackendType (Unarchive a p)) ++ bs "]") c)) as [ls ->].
  eexists. cbn [print fCmd fArg fWatchSecs fDeadline fWatchTimer fConnectedSeen fExitCode queue sent printed]. by rewrite <- app_assoc.
Qed.

Lemma outcome_fold_print {A} (f : A -> bytes) (l : list A) c c' :
  outcome (fold_left (fun c p => print (f p) c) l c) c' -> outcome c c'.
Proof. revert c. induction l as [|a l IH]; intros c; [done|]. intros H. eapply outcome_print, IH, H. Qed.

Lemma outcome_optional label v c c' : outcome (optional_line label v c) c' -> outcome c c'.
Proof. unfold optional_line. destruct v as [[|x l]|]; try done. apply outcome_print. Qed.

Lemma outcome_exit_node self status c : outcome c (_ResolveAndSetExitNode self status c).
Proof.
  unfold _ResolveAndSetExitNode, set_exit_node. cbv zeta.
  destruct (_ || _ || _); [eapply outcome_send, outcome_print, outcome_finish|].
  destruct (List.find _ _); [|eapply outcome_print, outcome_finish].
  destruct (negb _); [eapply outcome_print, outcome_finish|eapply outcome_send, outcome_print, outcome_finish].
Qed.

Lemma MessageReceived_outcome self m c : outcome c (MessageReceived self m c).
Proof.
  unfold MessageReceived. cbv zeta. destruct (_ =? kMsgListProfiles).
  { destruct (decide _).
    - unfold _ConnectByName. destruct (List.find _ _); [|eapply outcome_print, outcome_finish].
      eapply outcome_send, outcome_print, outcome_send, outcome_refl.
    - destruct (list_profiles_frame VPNProfile (FindMessages kFieldProfile m) c) as [ls ->].
      destruct (FindMessages _ _); by apply quits. }
  destruct (_ =? kMsgStatusUpdate).
  { destruct (fCmd c); try apply outcome_refl.
    - eapply outcome_print, outcome_optional, outcome_optional, outcome_optional, outcome_finish.
    - unfold _PrintPeers. destruct (FindMessages _ _); [eapply outcome_print|eapply outcome_fold_print]; apply outcome_finish.
    - apply (outcome_print (status_line "[cli] " m)). destruct (_ =? _); [eapply outcome_print, outcome_finish|].
      destruct (_ =? _); [apply outcome_finish|apply outcome_refl].
    - destruct (_ =? _); [eapply outcome_print, outcome_finish|apply outcome_refl].
    - eapply outcome_print, outcome_refl.
    - apply outcome_exit_node. }
  destruct (_ =? kMsgWatchDone); [eapply outcome_print, outcome_finish|].
  destruct (_ =? kMsgDeadline); [eapply outcome_print, outcome_finish|apply outcome_refl].
Qed.

(** *** The client always ends *)

Lemma dispatch self c m q : queue c = Some m :: q -> step self (inl c) Dispatch = inl (MessageReceived self m (with_queue q c)).
Proof. intros E. cbn. by rewrite E. Qed.

Lemma received_queue self m q c : exists k, queue (MessageReceived self m (with_queue q c)) = q ++ k.
Proof. destruct (MessageReceived_outcome self m (with_queue q c)) as [c' _ E _|c' _ E]; [exists []|exists [None]]; rewrite E; by rewrite ?app_nil_r. Qed.

(** A quit in the queue is reached. *)
Lemma quit_is_reached self l k c :
  queue c = l ++ None :: k -> exists n code, run self (replicate n Dispatch) (inl c) = inr code.
Proof.
  revert k c. induction l as [|x l IH]; intros k c Hq.
  - exists 1%nat, (fExitCode c). cbn in *. by rewrite Hq.
  - destruct x as [m|]; [|exists 1%nat, (fExitCode c); cbn in *; by rewrite Hq].
    destruct (received_queue self m (l ++ None :: k) c) as [k' E]. rewrite <- app_assoc in E. cbn [app] in E.
    destruct (IH _ _ E) as (n & code & Hr). exists (S n), code. cbn [replicate run fold_left]. rewrite (dispatch _ _ _ _ Hq). exact Hr.
Qed.

Lemma deadline_quits self m c : what m = kMsgDeadline -> queue (MessageReceived self m c) = queue c ++ [None].
Proof. intros Hm. unfold MessageReceived. rewrite Hm. reflexivity. Qed.

(** So is a deadline, which posts one. *)
Lemma deadline_is_reached self m l k c :
  what m = kMsgDeadline -> queue c = l ++ Some m :: k -> exists n code, run self (replicate n Dispatch) (inl c) = inr code.
Proof.
  intros Hm. revert k c. induction l as [|x l IH]; intros k c Hq.
  - destruct (quit_is_reached self k [] (MessageReceived self m (with_queue k c))) as (n & code & Hr); [by rewrite deadline_quits|].
    exists (S n), code. cbn [replicate run fold_left]. rewrite (dispatch _ _ _ _ Hq). exact Hr.
  - destruct x as [m'|]; [|exists 1%nat, (fExitCode c); cbn in *; by rewrite Hq].
    destruct (received_queue self m' (l ++ Some m :: k) c) as [k' E]. rewrite <- app_assoc in E. cbn [app] in E.
    destruct (IH _ _ E) as (n & code & Hr). exists (S n), code. cbn [replicate run fold_left]. rewrite (dispatch _ _ _ _ Hq). exact Hr.
Qed.

(** What ends the application, once in the queue, stays until it has ended it. *)
Definition doomed (c : cli) : Prop := None ∈ queue c \/ exists m, Some m ∈ queue c /\ what m = kMsgDeadline.
Definition ending (r : running) : Prop := match r with inl c => doomed c | inr _ => True end.

Lemma ending_step self r e : ending r -> ending (step self r e).
Proof.
  destruct r as [c|code]; [|by destruct e]. intros Hd. change (doomed c) in Hd. destruct e as [m|]; cbn [step].
  - destruct Hd as [Hd|(d & Hd & Hw)]; [left|right; exists d; split; [|done]]; cbn; apply elem_of_app; by left.
  - destruct (queue c) as [|[m|] q] eqn:Eq; [done| |done]. destruct (decide (what m = kMsgDeadline)) as [Hm|Hm].
    + left. rewrite deadline_quits by done. apply elem_of_app. right. apply list_elem_of_here.
    + destruct (received_queue self m q c) as [k E]. unfold ending, doomed. rewrite E. unfold doomed in Hd. rewrite Eq in Hd.
      destruct Hd as [Hd|(d & Hd & Hw)].
      * apply elem_of_cons in Hd as [Hd|Hd]; [done|]. left. apply elem_of_app. by left.
      * apply elem_of_cons in Hd as [Hd|Hd]; [congruence|]. right. exists d. split; [|done]. apply elem_of_app. by left.
Qed.

Lemma ending_run self es r : ending r -> ending (run self es r).
Proof. revert r. induction es as [|e es IH]; intros r Hr; [done|]. cbn. by apply IH, ending_step. Qed.

Lemma ending_ends self r : ending r -> exists n code, run self (replicate n Dispatch) r = inr code.
Proof.
  destruct r as [c|code]; [|intros _; by exists 0%nat, code].
  intros [Hd|(m & Hd & Hm)]; apply list_elem_of_split in Hd as (l & k & E); [by eapply quit_is_reached|by eapply deadline_is_reached].
Qed.

Lemma deadline_ends self m es r :
  Arrives m ∈ es -> what m = kMsgDeadline -> exists n code, run self (es ++ replicate n Dispatch) r = inr code.
Proof.
  intros Hin Hm. apply list_elem_of_split in Hin as (l & k & ->).
  assert (He : ending (run self (l ++ Arrives m :: k) r)).
  { rewrite cli_run_app. cbn [run fold_left]. apply ending_run. destruct (run self l r) as [c|]; [|done]. right. exists m.
    split; [|done]. cbn. apply elem_of_app. right. apply list_elem_of_here. }
  destruct (ending_ends self _ He) as (n & code & Hr). exists n, code. by rewrite cli_run_app.
Qed.

(** *** What a zero exit code says *)

Definition says_connected (m : message) : Prop := what m = kMsgStatusUpdate /\ FindInt32 kFieldState m = Some VPN_STATE_CONNECTED.

(** A message handled by [connect]: it ends with 0 only on a CONNECTED status. *)
Lemma connect_received self m c :
  fCmd c = CMD_CONNECT -> fConnectedSeen c = false -> what m <> kMsgWatchDone ->
  let c' := MessageReceived self m c in
  fCmd c' = CMD_CONNECT /\ fConnectedSeen c' = false /\
  ((queue c' = queue c /\ fExitCode c' = fExitCode c) \/ (queue c' = queue c ++ [None] /\ (fExitCode c' = 0 -> says_connected m))).
Proof.
  intros Hc Hs Hw. cbv zeta. unfold MessageReceived. cbv zeta. rewrite Hc. destruct (Z.eqb_spec (what m) kMsgListProfiles).
  { rewrite decide_True by done. unfold _ConnectByName. destruct (List.find _ _); cbn; (split; [done|]; split; [done|]); [by left|by right]. }
  destruct (Z.eqb_spec (what m) kMsgStatusUpdate) as [Hu|].
  { destruct (Z.eqb_spec (default VPN_STATE_DISCONNECTED (FindInt32 kFieldState m)) VPN_STATE_CONNECTED) as [E|].
    - cbn. split_and!; [done..|]. right. split; [done|]. intros _. split; [done|]. destruct (FindInt32 kFieldState m); [by f_equal|done].
    - destruct (_ =? VPN_STATE_ERROR); cbn; (split; [done|]; split; [done|]); [by right|by left]. }
  destruct (Z.eqb_spec (what m) kMsgWatchDone); [done|].
  destruct (_ =? kMsgDeadline); cbn; [|by auto]. rewrite Hs. split_and!; [done..|]. by right.
Qed.

Section Connect.
Context (self : self_of) (es : list event).
Hypothesis Hdone : forall m, Arrives m ∈ es -> what m <> kMsgWatchDone.

Definition seen : Prop := exists m, Arrives m ∈ es /\ says_connected m.

Definition honest (r : running) : Prop :=
  match r with
  | inl c => fCmd c = CMD_CONNECT /\ fConnectedSeen c = false /\ (forall m, Some m ∈ queue c -> Arrives m ∈ es)
             /\ (None ∈ queue c -> fExitCode c = 0 -> seen)
  | inr code => code = 0 -> seen
  end.

Lemma honest_step r e : (forall m, e = Arrives m -> Arrives m ∈ es) -> honest r -> honest (step self r e).
Proof.
  intros He. destruct r as [c|code]; [|by destruct e]. intros (H1 & H2 & H3 & H4). destruct e as [m|]; cbn [step].
  - cbn. split_and!; [done|done| |].
    + intros x [Hx|Hx%list_elem_of_singleton]%elem_of_app; [by apply H3|]. injection Hx as ->. by apply He.
    + intros [Hx|Hx%list_elem_of_singleton]%elem_of_app; [by apply H4|done].
  - destruct (queue c) as [|[m|] q] eqn:Eq; [cbn [honest]; by rewrite Eq| |].
    2:{ cbn. apply H4. apply list_elem_of_here. }
    assert (Hm : Arrives m ∈ es) by (apply H3; apply list_elem_of_here).
    destruct (connect_received self m (with_queue q c) H1 H2 (Hdone m Hm)) as (G1 & G2 & G3). cbv zeta in *.
    change (queue (with_queue q c)) with q in G3. change (fExitCode (with_queue q c)) with (fExitCode c) in G3.
    cbn [honest]. split_and!; [done|done| |].
    + intros x Hx. destruct G3 as [[Eq' _]|[Eq' _]]; rewrite Eq' in Hx; [apply H3; by apply list_elem_of_further|].
      apply elem_of_app in Hx as [Hx|Hx%list_elem_of_singleton]; [|done]. apply H3. by apply list_elem_of_further.
    + destruct G3 as [[-> ->]|[-> Hz]]; [intros Hx; apply H4; by apply list_elem_of_further|].
      intros _ Hx. exists m. split; [done|by apply Hz].
Qed.

Lemma honest_run fs r : fs ⊆ es -> honest r -> honest (run self fs r).
Proof.
  revert r. induction fs as [|e fs IH]; intros r Hs Hr; [done|]. cbn. apply IH; [intros x Hx; apply Hs; by apply list_elem_of_further|].
  apply honest_step; [|done]. intros m ->. apply Hs, list_elem_of_here.
Qed.
End Connect.

(** C20: the command-line client never hangs and does not claim a connection it did not see.  Whatever the command and whatever the daemon sends, once the deadline message arrives the client ends after finitely many turns of its loop; and connect exits with 0 only when a status of the daemon said CONNECTED. *)
Theorem command_line_verdict self reached cmd arg secs es :
  let c0 := ReadyToRun self reached (SotoportegoCLI cmd arg secs) in
  (forall m, Arrives m ∈ es -> what m = kMsgDeadline ->
     exists n code, run self (es ++ replicate n Dispatch) (inl c0) = inr code) /\
  (cmd = CMD_CONNECT -> (forall m, Arrives m ∈ es -> what m <> kMsgWatchDone) ->
     run self es (inl c0) = inr 0 -> exists m, Arrives m ∈ es /\ what m = kMsgStatusUpdate /\ FindInt32 kFieldState m = Some VPN_STATE_CONNECTED).
Proof.
  cbv zeta. split; [intros m Hin Hm; by eapply deadline_ends|]. intros -> Hd Hr.
  assert (H0 : honest es (inl (ReadyToRun self reached (SotoportegoCLI CMD_CONNECT arg secs)))).
  { unfold ReadyToRun. destruct (negb reached); cbn; split_and!; try done.
    - intros m [Hx|Hx]%elem_of_cons; [done|by apply elem_of_nil in Hx].
    - intros m Hx. by apply elem_of_nil in Hx.
    - intros Hx. by apply elem_of_nil in Hx. }
  pose proof (honest_run self es Hd es _ ltac:(done) H0) as Hh. rewrite Hr in Hh. by apply Hh.
Qed.

(** *** With the daemon *)

#[local] Existing Instance ServerProofs.toy_backend.

Definition me5 : self_of := Self 5.
Definition session_up : Server.server (B := Z) :=
  ServerProofs.demo_run (ServerProofs.from_client ServerProofs.connect_msg :: ServerProofs.from_backend VPN_STATE_CONNECTED) ServerProofs.start.

(** What the daemon answers messenger 5 to these messages. *)
Definition answers (s : Server.server (B := Z)) (msgs : list message) : list message :=
  omap (fun e => match e with Server.Sent to m => if to =? 5 then Some m else None | _ => None end)
    (Server.out (ServerProofs.demo_run (map ServerProofs.from_client msgs) s)).

Definition started (cmd : Command) (arg : string) : cli := ReadyToRun me5 true (SotoportegoCLI cmd (bs arg) 60).

Definition demo_status : message := add kFieldState (VInt32 VPN_STATE_CONNECTED) (BMessage kMsgStatusUpdate).

Lemma command_line_verdict_witness :
  (exists n code, run me5 ([Arrives (BMessage kMsgDeadline)] ++ replicate n Dispatch) (inl (started CMD_STATUS "x")) = inr code) /\
  exists m, Arrives m ∈ [Arrives demo_status; Dispatch; Dispatch] /\ what m = kMsgStatusUpdate
    /\ FindInt32 kFieldState m = Some VPN_STATE_CONNECTED.
Proof.
  split.
  - destruct (command_line_verdict me5 true CMD_STATUS (bs "x") 60 [Arrives (BMessage kMsgDeadline)]) as [G _].
    apply (G (BMessage kMsgDeadline)); [apply list_elem_of_here|reflexivity].
  - destruct (command_line_verdict me5 true CMD_CONNECT (bs "home") 60 [Arrives demo_status; Dispatch; Dispatch]) as [_ G].
    apply G; [reflexivity| |vm_compute; reflexivity].
    intros m Hm. apply elem_of_cons in Hm as [Hm|Hm]; [injection Hm as ->; vm_compute; discriminate|].
    apply elem_of_cons in Hm as [Hm|Hm]; [discriminate Hm|]. apply elem_of_cons in Hm as [Hm|Hm]; [discriminate Hm|]. by apply elem_of_nil in Hm.
Defined.

(** A new subscriber is sent the profile list, and every command but connect
    takes that list for the answer to [list]: [disconnect] ends before the
    session does, and [watch] at once. *)
Example disconnect_does_not_wait :
  let c := started CMD_DISCONNECT "x" in
  map what (answers session_up (sent c)) = [kMsgListProfiles] /\
  run me5 (map Arrives (answers session_up (sent c)) ++ [Dispatch; Dispatch]) (inl c) = inr 0.
Proof. vm_compute. auto. Qed.

Example watch_ends_at_once :
  let c := started CMD_WATCH "x" in
  map what (answers session_up (sent c)) = [kMsgListProfiles; kMsgStatusUpdate] /\ fWatchTimer c = Some 60000000 /\
  run me5 (map Arrives (answers session_up (sent c)) ++ [Dispatch; Dispatch; Dispatch]) (inl c) = inr 0.
Proof. vm_compute. auto. Qed.

(** An exit node of the argument's name that has no key is taken for [off]. *)
Example keyless_exit_node :
  let peer := add kFieldPeerExitCap (VBool true) (add kFieldPeerName (VString (bs "gw")) (BMessage 0)) in
  let c := _ResolveAndSetExitNode me5 (add kFieldPeer (nested peer) (BMessage kMsgStatusUpdate)) (started CMD_EXITNODE "gw") in
  map (FindString kFieldExitNodeKey) (sent c) = [None; Some []] /\ fExitCode c = 0.
Proof. vm_compute. auto. Qed.

(** [set]: a key that is sent is that of a peer the argument names and that offers to be an exit node. *)
Lemma exit_node_is_capable self status c k :
  Some k ∈ map (FindString kFieldExitNodeKey) (sent (_ResolveAndSetExitNode self status c)) ->
  Some k ∉ map (FindString kFieldExitNodeKey) (sent c) -> k <> [] ->
  exists peer, peer ∈ FindMessages kFieldPeer status /\ names (fArg c) peer = true
    /\ FindBool kFieldPeerExitCap peer = Some true /\ FindString kFieldPeerNodeKey peer = Some k.
Proof.
  intros Hk Hn Hne. assert (Hset : forall key, Some k ∈ map (FindString kFieldExitNodeKey) (sent (set_exit_node self key c)) -> k = cstr key).
  { intros key H. cbn in H. rewrite map_app in H. apply elem_of_app in H as [H|H]; [done|].
    apply list_elem_of_singleton in H. destruct self as [x]. cbn in H. by injection H. }
  unfold _ResolveAndSetExitNode in Hk. cbv zeta in Hk. destruct (_ || _ || _) eqn:E; [by apply Hset in Hk|].
  destruct (List.find (names (fArg c)) (FindMessages kFieldPeer status)) as [peer|] eqn:Ef; [|done].
  apply find_some in Ef as [Hin Hnm]. destruct (FindBool kFieldPeerExitCap peer) as [[|]|] eqn:Ec; try done. cbn [default negb from_option id] in Hk.
  apply Hset in Hk. exists peer. split_and!; [by apply list_elem_of_In|done|done|].
  destruct (FindString kFieldPeerNodeKey peer) as [x|] eqn:Ex; cbn in Hk; [|done]. rewrite Hk.
  assert (cstr x = x) as ->; [|done]. apply cstr_text. unfold FindString in Ex. destruct (values _ _) as [|[] ]; try done. injection Ex as <-. apply cstr_no_nul.
Qed.

End Cli.
