(* ===== verification/Windows.v ===== *)
(** * Windows: the dialogs, the peer windows and the Deskbar icon of src/gui

    CredentialsWindow, TailscaleWindow, PeersWindow, TopologyWindow with
    TopologyView, HeaderView's tap counter and DeskbarIcon: what they keep, show
    as text and send.  A user's action is the message its control sends; which
    row or node is under the mouse is an argument.  Layout, drawing and the
    animation are left out. *)

From stdpp Require Import gmap.
From S2P Require Import Prelude CLib Json Message Profiles TsBackend.
Import Message VPNProtocol VPNState.
Open Scope Z_scope.

Module Windows.
Import TsBackend.

Definition dash : bytes := [226; 128; 148].   (* an em dash in UTF-8 *)

(** The double of an int64 is an integer again. *)
Definition as_double (n : Z) : Z :=
  match Json.nearest (n <? 0) (Z.abs n) 1 with
  | Json.Finite m e => if e <? 0 then m / 2 ^ (- e) else m * 2 ^ e
  | Json.Inf _ => 0
  end.

(** [%.1f] and [%.2f] of [n / d], [n] not negative: dividing by a power of two is exact. *)
Definition fmt_1f (n d : Z) : bytes :=
  let t := Json.div_even (n * 10) d in fmt_u (t / 10) ++ bs "." ++ fmt_u (t mod 10).
Definition fmt_2f (n d : Z) : bytes :=
  let t := Json.div_even (n * 100) d in fmt_u (t / 100) ++ bs "." ++ fmt_u (t / 10 mod 10) ++ fmt_u (t mod 10).

(** A string argument that may be NULL or empty. *)
Definition non_empty (s : option bytes) : option bytes :=
  match s with Some (c :: l) => Some (c :: l) | _ => None end.

(** ** Dialogs *)

Definition kFieldRemember : string := "soto:gui:remember".
Definition kFieldTsName : string := "soto:gui:tsname".
Definition kFieldTsUrl : string := "soto:gui:tsurl".
Definition kFieldTsAuthKey : string := "soto:gui:tsauthkey".
Definition kDefaultControlURL : bytes := bs "controlplane.tailscale.com".

(** CredentialsWindow: whether it answered, and whether it is asked to close. *)
Record credentials := mkCredentials { fUser : bytes; fPassword : bytes; fRemember : bool; fSent : bool }.

Definition CredentialsOK (onOK : Z) (w : credentials) : credentials * message :=
  let reply := add kFieldUsername (VString (fUser w)) (BMessage onOK) in
  let reply := add kFieldPassword (VString (fPassword w)) reply in
  let reply := add kFieldRemember (VBool (fRemember w)) reply in
  (mkCredentials (fUser w) (fPassword w) (fRemember w) true, reply).

(** QuitRequested. *)
Definition CredentialsQuit (onCancel : Z) (w : credentials) : option message :=
  if negb (fSent w) then Some (BMessage onCancel) else None.

(** BString::Trim. *)
Definition Trim (l : bytes) : bytes := trim_by isspace isspace l.

(** TailscaleWindow's Add button; [None] is the alert that asks for a name. *)
Definition TailscaleAdd (onOK : Z) (name url authKey : bytes) : option message :=
  let name := Trim name in
  if zlen name =? 0 then None
  else
    let url := Trim url in
    let url := if zlen url =? 0 then kDefaultControlURL else url in
    let reply := add kFieldTsName (VString name) (BMessage onOK) in
    let reply := add kFieldTsUrl (VString url) reply in
    Some (add kFieldTsAuthKey (VString (Trim authKey)) reply).

(** ** The peers window *)

Definition kMsgPeersData : Z := fourcc "gPwD".
Definition kMsgExitNodeRequest : Z := fourcc "gPxN".

Record peer_row := mkRow { r_name : bytes; r_ip : bytes; r_path : bytes; r_status : bytes; r_exit : bytes; r_key : bytes }.

Definition exit_label (exitCap exitOn : bool) : bytes :=
  if exitOn then [226; 151; 143] ++ bs " active" else if exitCap then bs "available" else dash.

Definition row_of (peer : message) : peer_row :=
  mkRow (default (bs "(unknown)") (FindString kFieldPeerName peer))
    (default dash (non_empty (FindString kFieldPeerIP peer)))
    (default dash (FindString kFieldPeerPath peer))
    (if default false (FindBool kFieldPeerOnline peer) then bs "online" else bs "offline")
    (exit_label (default false (FindBool kFieldPeerExitCap peer)) (default false (FindBool kFieldPeerExitOn peer)))
    (default [] (FindString kFieldPeerNodeKey peer)).

Definition _Rebuild (data : message) : list peer_row := map row_of (FindMessages kFieldPeer data).

(** The request of the two buttons; [row] is the selected row. *)
Definition _RequestExitNode (use : bool) (row : option peer_row) : option message :=
  let request key := add kFieldExitNodeKey (VString key) (BMessage kMsgExitNodeRequest) in
  if use then
    match row with
    | None => None
    | Some r => if beq (r_exit r) dash || (zlen (r_key r) =? 0) then None else Some (request (r_key r))
    end
  else Some (request []).

(** ** The tailnet map *)

Definition kMsgPeerSelected : Z := fourcc "gTsl".
Definition kMsgPollTick : Z := fourcc "gTpk".
Definition kMsgUseExit : Z := fourcc "gTue".

Definition human_bytes (n : Z) : bytes :=
  let v := as_double n in
  if n <? 1024 then fmt_d n ++ bs " B"
  else if n <? 1024 * 1024 then fmt_1f v 1024 ++ bs " KB"
  else if n <? 1024 * 1024 * 1024 then fmt_1f v (1024 * 1024) ++ bs " MB"
  else fmt_2f v (1024 * 1024 * 1024) ++ bs " GB".

(** TopologyView's nodes, and per node key the byte totals of the last
    snapshot; [lit] says which directions the snapshot lit up. *)
Record PeerNode := mkNode { n_name : bytes; n_ip : bytes; n_key : bytes; n_online : bool; n_exitCap : bool; n_exitOn : bool; n_direct : bool }.
Record Flow := mkFlow { f_tx : Z; f_rx : Z; f_lit : bool * bool }.
Record topology := mkTopology {
  fSelfName : bytes; fSelfIP : bytes; fNodes : list PeerNode; fFlow : gmap bytes Flow; fSelectedNode : bytes }.

Definition TopologyView : topology := mkTopology (bs "this device") [] [] ∅ [].

Definition SetSelf (name ip : option bytes) (t : topology) : topology :=
  mkTopology (default (bs "this device") (non_empty name)) (default [] ip) (fNodes t) (fFlow t) (fSelectedNode t).

Definition node_of (peer : message) : PeerNode :=
  mkNode (default [] (FindString kFieldPeerName peer)) (default [] (FindString kFieldPeerIP peer))
    (default [] (FindString kFieldPeerNodeKey peer)) (default false (FindBool kFieldPeerOnline peer))
    (default false (FindBool kFieldPeerExitCap peer)) (default false (FindBool kFieldPeerExitOn peer))
    (match FindString kFieldPeerPath peer with Some p => beq p (bs "direct") | None => false end).

Definition flow_step (fl : gmap bytes Flow) (peer : message) : gmap bytes Flow :=
  let key := n_key (node_of peer) in
  let tx := u64 (default 0 (FindInt64 kFieldPeerTx peer)) in
  let rx := u64 (default 0 (FindInt64 kFieldPeerRx peer)) in
  let lit := match fl !! key with Some f => (f_tx f <? tx, f_rx f <? rx) | None => (false, false) end in
  <[key := mkFlow tx rx lit]> fl.

Definition SetPeers (data : message) (t : topology) : topology :=
  let peers := FindMessages kFieldPeer data in
  mkTopology (fSelfName t) (fSelfIP t) (map node_of peers) (fold_left flow_step peers (fFlow t)) (fSelectedNode t).

(** MouseDown; [hit] is what _NodeAt finds. *)
Definition MouseDown (hit : option nat) (t : topology) : topology * message :=
  match i ← hit; fNodes t !! i with
  | Some n => (mkTopology (fSelfName t) (fSelfIP t) (fNodes t) (fFlow t) (n_key n),
               add kFieldPeerNodeKey (VString (n_key n)) (BMessage kMsgPeerSelected))
  | None => (mkTopology (fSelfName t) (fSelfIP t) (fNodes t) (fFlow t) [], BMessage kMsgPeerSelected)
  end.

(** TopologyWindow. *)
Record topology_window := mkTopWindow {
  fView : topology; fLastStatus : message; fSelectedKey : bytes; fSelectedExitCap : bool; fSelectedExitOn : bool;
  fInfoTitle : bytes; fInfoRows : list bytes; exitEnabled : bool; exitLabel : bytes }.

Definition _ClearInfo (w : topology_window) : topology_window :=
  mkTopWindow (fView w) (fLastStatus w) (fSelectedKey w) false false
    (bs "Select a peer") (replicate 6 []) false (bs "Use as exit node").

Definition TopologyWindow : topology_window :=
  _ClearInfo (mkTopWindow TopologyView (BMessage 0) [] false false [] [] false []).

(** _SetRow's text. *)
Definition row_text (label value : bytes) : bytes := if zlen value =? 0 then [] else label ++ bs "  " ++ value.

Definition path_text (peer : message) : bytes :=
  match FindString kFieldPeerPath peer with
  | None => dash
  | Some path =>
      if beq path (bs "direct") then
        match non_empty (FindString kFieldPeerEndpoint peer) with
        | Some endpoint => bs "direct " ++ dash ++ bs " " ++ endpoint
        | None => path
        end
      else if beq path (bs "relay") then
        let derp := default (-1) (FindInt32 kFieldPeerDerp peer) in
        match non_empty (FindString kFieldPeerDerpCode peer) with
        | Some code => bs "relay via " ++ code
        | None => if derp >? 0 then bs "relay (region " ++ fmt_d derp ++ bs ")" else path
        end
      else path
  end.

Definition age_text (hsAge : Z) : bytes :=
  if hsAge <? 0 then dash
  else if hsAge <? 60 then fmt_d hsAge ++ bs "s ago"
  else fmt_d (hsAge / 60) ++ bs "m " ++ fmt_d (hsAge mod 60) ++ bs "s ago".

Definition has_key (nodeKey : bytes) (peer : message) : bool :=
  match FindString kFieldPeerNodeKey peer with Some key => beq key nodeKey | None => false end.

Definition _ShowPeerInfo (nodeKey : bytes) (w : topology_window) : topology_window :=
  match List.find (has_key nodeKey) (FindMessages kFieldPeer (fLastStatus w)) with
  | None => _ClearInfo w
  | Some peer =>
      let exitCap := default false (FindBool kFieldPeerExitCap peer) in
      let exitOn := default false (FindBool kFieldPeerExitOn peer) in
      mkTopWindow (fView w) (fLastStatus w) (fSelectedKey w) exitCap exitOn
        (default (bs "(unknown)") (non_empty (FindString kFieldPeerName peer)))
        [row_text (bs "Tailnet IP") (default dash (FindString kFieldPeerIP peer));
         row_text (bs "Status") (if default false (FindBool kFieldPeerOnline peer) then bs "online" else bs "offline");
         row_text (bs "Path") (path_text peer);
         row_text (bs "Handshake") (age_text (default (-1) (FindInt32 kFieldPeerHsAge peer)));
         row_text (bs "Sent") (human_bytes (default 0 (FindInt64 kFieldPeerTx peer)));
         row_text (bs "Received") (human_bytes (default 0 (FindInt64 kFieldPeerRx peer)))]
        exitCap (if exitOn then bs "Stop exit node" else bs "Use as exit node")
  end.

Definition with_selectedKey (key : bytes) (w : topology_window) : topology_window :=
  mkTopWindow (fView w) (fLastStatus w) key (fSelectedExitCap w) (fSelectedExitOn w) (fInfoTitle w) (fInfoRows w) (exitEnabled w) (exitLabel w).

Definition _ApplyData (data : message) (w : topology_window) : topology_window :=
  let v := SetPeers data (SetSelf (Some (bs "this device")) (FindString kFieldLocalIP data) (fView w)) in
  let w := mkTopWindow v data (fSelectedKey w) (fSelectedExitCap w) (fSelectedExitOn w) (fInfoTitle w) (fInfoRows w)
             (exitEnabled w) (exitLabel w) in
  if zlen (fSelectedKey w) >? 0 then _ShowPeerInfo (fSelectedKey w) w else w.

(** The looper: the window, and what it sends to the main window and to the
    daemon ([server]: its messenger is valid). *)
Definition TopologyReceived (self : messenger) (server : bool) (m : message) (w : topology_window)
    : topology_window * option message * option message :=
  let c := what m in
  if (c =? kMsgPeersData) || (c =? kMsgStatusUpdate) then (_ApplyData m w, None, None)
  else if c =? kMsgPollTick then
    (w, None, if server then Some (add kFieldClient (VMessenger self) (BMessage kMsgGetStatus)) else None)
  else if c =? kMsgPeerSelected then
    match non_empty (FindString kFieldPeerNodeKey m) with
    | Some key => (_ShowPeerInfo key (with_selectedKey key w), None, None)
    | None => (_ClearInfo (with_selectedKey [] w), None, None)
    end
  else if c =? kMsgUseExit then
    if zlen (fSelectedKey w) =? 0 then (w, None, None)
    else (w, Some (add kFieldExitNodeKey (VString (if fSelectedExitOn w then [] else fSelectedKey w)) (BMessage kMsgExitNodeRequest)), None)
  else (w, None, None).

(** ** The tap counter of the header *)

Record taps := mkTaps { fLastTileClick : Z; fTileClickStreak : Z }.

(** A click on the tile at the time [now]; the boolean is the trigger. *)
Definition tile_click (now : Z) (t : taps) : taps * bool :=
  let streak := (if now - fLastTileClick t >? 3 * 1000000 then 0 else fTileClickStreak t) + 1 in
  if streak >=? 7 then (mkTaps now 0, true) else (mkTaps now streak, false).

End Windows.

(** ** The Deskbar icon *)

Module DeskbarIcon.
Import VPNProfile.

Definition kMsgMenuConnect : Z := fourcc "dmCo".
Definition kMsgMenuDisconnect : Z := fourcc "dmDi".
Definition kMsgMenuOpenGUI : Z := fourcc "dmGu".
Definition kMsgMenuRemove : Z := fourcc "dmRm".
Definition kFieldMenuProfile : string := "soto:menu:profile".

Record icon := mkIcon { fState : Z; fProfiles : list profile }.
Definition DeskbarIcon : icon := mkIcon VPN_STATE_DISCONNECTED [].

Definition _HandleStatusUpdate (m : message) (i : icon) : icon :=
  mkIcon (default VPN_STATE_DISCONNECTED (FindInt32 kFieldState m)) (fProfiles i).

Definition _HandleProfileList (m : message) (i : icon) : icon :=
  mkIcon (fState i) (map (fun a => Unarchive a VPNProfile) (FindMessages kFieldProfile m)).

(** A menu item: its label, its message, whether it is enabled. *)
Record item := mkItem { label : bytes; message_of : option message; enabled : bool }.

Definition _ShowMenu (i : icon) : list item :=
  let busy := negb (fState i =? VPN_STATE_DISCONNECTED) && negb (fState i =? VPN_STATE_ERROR) in
  (match fProfiles i with
   | [] => [mkItem (bs "(no profiles imported)") None false]
   | ps => map (fun p => mkItem (fName p) (Some (add kFieldMenuProfile (VString (fName p)) (BMessage kMsgMenuConnect))) (negb busy)) ps
   end)
  ++ [mkItem (bs "Disconnect") (Some (BMessage kMsgMenuDisconnect))
        ((fState i =? VPN_STATE_CONNECTING) || (fState i =? VPN_STATE_AUTHENTICATING)
         || (fState i =? VPN_STATE_CONNECTED) || (fState i =? VPN_STATE_RECONNECTING));
      mkItem (bs "Open Sotoportego" ++ [226; 128; 166]) (Some (BMessage kMsgMenuOpenGUI)) true;
      mkItem (bs "Remove from Deskbar") (Some (BMessage kMsgMenuRemove)) true].

Definition _OnMenuConnect (self : messenger) (server : bool) (profileName : bytes) (i : icon) : option message :=
  if negb server || (zlen profileName =? 0) then None
  else
    match List.find (fun p => beq (fName p) profileName) (fProfiles i) with
    | None => None
    | Some p => Some (add kFieldProfile (nested (archived p)) (add kFieldClient (VMessenger self) (BMessage kMsgConnect)))
    end.

Definition _OnMenuDisconnect (self : messenger) (server : bool) : option message :=
  if negb server then None else Some (add kFieldClient (VMessenger self) (BMessage kMsgDisconnect)).

(** What a message makes the icon do besides changing. *)
Inductive action := Sends (m : message) | LaunchesGUI | RemovesItself.

Definition MessageReceived (self : messenger) (server : bool) (m : message) (i : icon) : icon * option action :=
  let c := what m in
  if c =? kMsgStatusUpdate then (_HandleStatusUpdate m i, None)
  else if c =? kMsgListProfiles then (_HandleProfileList m i, None)
  else if c =? kMsgMenuConnect then
    (i, Sends <$> (FindString kFieldMenuProfile m ≫= fun name => _OnMenuConnect self server name i))
  else if c =? kMsgMenuDisconnect then (i, Sends <$> _OnMenuDisconnect self server)
  else if c =? kMsgMenuOpenGUI then (i, Some LaunchesGUI)
  else if c =? kMsgMenuRemove then (i, Some RemovesItself)
  else (i, None).

(** AddToDeskbar and RemoveFromDeskbar: whether the Deskbar runs, whether it has
    the item, and what its calls answer, one per removal. *)
Definition AddToDeskbar (running has : bool) (added : status) : status :=
  if negb running then B_ERROR else if has then B_OK else added.

(** The Deskbar holds [items] of the name; the call of RemoveItem after
    [removed] successful ones answers [answer removed]. *)
Fixpoint remove_items (items : nat) (answer : nat -> status) (removed : nat) : status * nat :=
  match items with
  | O => (B_OK, O)
  | S k =>
      match answer removed with
      | B_OK => remove_items k answer (S removed)
      | r => (match removed with O => r | _ => B_OK end, items)
      end
  end.
Definition RemoveFromDeskbar (running : bool) (items : nat) (answer : nat -> status) : status * nat :=
  if negb running then (B_ERROR, items) else remove_items items answer 0.

(** *** Facts *)

(** Connecting is offered only while no session is there, Disconnect only while one is. *)
Theorem menu_matches_state i it m :
  it ∈ _ShowMenu i -> enabled it = true -> message_of it = Some m ->
  let idle := (fState i =? VPN_STATE_DISCONNECTED) || (fState i =? VPN_STATE_ERROR) in
  (what m = kMsgMenuConnect -> idle = true) /\ (what m = kMsgMenuDisconnect -> idle = false).
Proof.
  intros Hin He Hm. cbv zeta. unfold _ShowMenu in Hin. cbv zeta in Hin. apply elem_of_app in Hin as [Hin|Hin].
  - destruct (fProfiles i) as [|p ps]; [apply list_elem_of_singleton in Hin as ->; discriminate Hm|].
    apply list_elem_of_fmap in Hin as (q & -> & _). cbn [enabled message_of] in *. injection Hm as <-.
    rewrite <- negb_orb, negb_involutive in He. split; [done|]. intros E. vm_compute in E. discriminate E.
  - repeat (apply elem_of_cons in Hin as [->|Hin]; [cbn [enabled message_of] in *; injection Hm as <-; split; intros E; try (vm_compute in E; discriminate E)|]);
      [|by apply elem_of_nil in Hin].
    clear E. rewrite !orb_true_iff, !Z.eqb_eq in He. unfold VPN_STATE_CONNECTING, VPN_STATE_AUTHENTICATING, VPN_STATE_CONNECTED,
      VPN_STATE_RECONNECTING, VPN_STATE_DISCONNECTED, VPN_STATE_ERROR in *. zcases.
Qed.

(** The item of a profile connects that profile. *)
Theorem menu_item_connects self i p :
  p ∈ fProfiles i -> NoDup (map fName (fProfiles i)) -> zlen (fName p) <> 0 -> ProfileStore.text (fName p) ->
  exists it m connect, it ∈ _ShowMenu i /\ message_of it = Some m /\
    MessageReceived self true m i = (i, Some (Sends connect)) /\ FindMessage kFieldProfile connect = Some (archived p).
Proof.
  intros Hp Hd Hz Ht.
  assert (E : List.find (fun q => beq (fName q) (fName p)) (fProfiles i) = Some p).
  { clear -Hp Hd. induction (fProfiles i) as [|q ps IH]; [by apply elem_of_nil in Hp|]. cbn [map] in Hd. apply NoDup_cons in Hd as [Hn Hd]. cbn [List.find].
    apply elem_of_cons in Hp as [->|Hp]; [by replace (beq (fName q) (fName q)) with true by (symmetry; by apply beq_true)|].
    destruct (beq (fName q) (fName p)) eqn:Eq; [|by apply IH]. apply beq_true in Eq. exfalso. apply Hn. rewrite Eq. by apply (list_elem_of_fmap_2 fName). }
  eexists (mkItem (fName p) (Some _) _), _, _. split; [|split; [reflexivity|]].
  - unfold _ShowMenu. cbv zeta. apply elem_of_app. left. destruct (fProfiles i) as [|q ps] eqn:Ep; [by apply elem_of_nil in Hp|].
    apply list_elem_of_fmap. by exists p.
  - set (R := add kFieldMenuProfile _ _). change (MessageReceived self true R i) with (i, Sends <$> (FindString kFieldMenuProfile R ≫= fun name => _OnMenuConnect self true name i)).
    replace (FindString kFieldMenuProfile R) with (Some (fName p)) by (rewrite <- (cstr_text (fName p)) by done; reflexivity).
    cbn [mbind option_bind]. unfold _OnMenuConnect. apply Z.eqb_neq in Hz. rewrite Hz, E. cbn [negb orb].
    split; [reflexivity|]. destruct (archived p); reflexivity.
Qed.

End DeskbarIcon.
