(* ===== verification/MainWindow.v ===== *)
(** * MainWindow: the main window (src/gui/MainWindow.{h,cpp})

    The window is a looper like the daemon's: a state, a handler per message,
    and the effects it has outside in [out].  The texts it shows are part of the
    state.  What the system answers while a message is handled (clocks, files,
    alerts, the keystore) is the record [world].  A list view keeps its rows and
    which of them is selected; the user's clicks on it are events of their own.
    Building the layout is left out, and with it the tests for a view that is
    not there: after the constructor they all are. *)

From stdpp Require Import gmap.
From S2P Require Import Prelude CLib Json Message Profiles Configs Windows.
Import Message VPNProtocol VPNState VPNProfile.
Open Scope Z_scope.

Module MainWindow.
Import Windows.

Definition kMsgPrimaryAction : Z := fourcc "gAct".
Definition kMsgConnectAction : Z := fourcc "gCon".
Definition kMsgDisconnectAction : Z := fourcc "gDis".
Definition kMsgAddProfile : Z := fourcc "gAdd".
Definition kMsgRemoveProfile : Z := fourcc "gRem".
Definition kMsgProfileSelected : Z := fourcc "gSel".
Definition kMsgImportRefs : Z := fourcc "gImp".
Definition kMsgCredentialsOK : Z := fourcc "gCrO".
Definition kMsgVaporetto : Z := fourcc "gVap".
Definition kMsgForgetPassword : Z := fourcc "gFor".
Definition kMsgInstallDeskbar : Z := fourcc "gDIn".
Definition kMsgRemoveDeskbar : Z := fourcc "gDRm".
Definition kMsgBrowseOnMap : Z := fourcc "gMap".
Definition kMsgUptimeTick : Z := fourcc "gUpT".
Definition kMsgAddTailscale : Z := fourcc "gTsA".
Definition kMsgTailscaleOK : Z := fourcc "gTsO".
Definition kMsgTailscaleSignup : Z := fourcc "gTsS".
Definition kMsgTailscaleAdmin : Z := fourcc "gTsD".
Definition kMsgSupportForum : Z := fourcc "gSuF".
Definition kMsgShowPeers : Z := fourcc "gTsP".
Definition kMsgShowTopology : Z := fourcc "gTsM".
Definition kMsgAutomationConnect : Z := fourcc "auCo".
Definition kMsgAutomationDisconnect : Z := fourcc "auDi".
Definition B_ABOUT_REQUESTED : Z := fourcc "_ABR".
Definition kTailscaleSignupURL : bytes := bs "https://login.tailscale.com/start".
Definition kTailscaleAdminURL : bytes := bs "https://console.tailscale.com/admin".
Definition kForumURL : bytes := bs "https://forum.desktoponfire.com/d/17-sotoportego-a-native-vpn-client-for-haiku/".

(** What the system answers during one message. *)
Record world := mkWorld {
  w_self : messenger;                    (* the window's own messenger *)
  w_server : bool;                       (* fServer.IsValid() *)
  w_time : Z;                            (* time(NULL) *)
  w_local : Z -> bytes;                  (* strftime of a time, as H:M:S *)
  w_timer : bool;                        (* the BMessageRunner is created *)
  w_answer : bytes -> bool;              (* a question is answered with its second button *)
  w_read : bytes -> option bytes;        (* the file of a path *)
  w_refs : list (option bytes);          (* the message's refs: the path of each *)
  w_get : bytes -> bool; w_remove : bytes -> bool; w_add : bytes -> bool;  (* the keystore grants a call *)
  w_deskbar : bool;                      (* DeskbarIcon::IsInDeskbar() *)
  w_install : status * bytes }.          (* AddToDeskbar and its strerror *)

Inductive effect :=
| Sent (m : message)                     (* to the daemon *)
| ToPeers (m : message) | ToTopology (m : message)
| Prompt (profileName user : bytes)      (* a CredentialsWindow *)
| Alert (text : bytes)
| OpenURL (url : bytes)
| Opens (what : Z)                       (* a window of the message that asks for it *)
| InstallsIcon | RemovesIcon.

(** The password keys: secondary identifier and password.  This code keeps at
    most one key for an identifier. *)
Abbreviation keystore := (gmap bytes (bytes * bytes)).

(** ** The object *)

Record header := mkHeader { h_state : Z; h_subtitle : bytes; actionLabel : bytes; actionEnabled : bool }.
Record details := mkDetails { fServerLabel : bytes; fBackendLabel : bytes; fProtocolLabel : bytes; fConnNotice : bytes; removeEnabled : bool }.
Record values := mkValues { fTunnelIPValue : bytes; fExternalIPValue : bytes; fSinceValue : bytes; fDownValue : bytes; fUpValue : bytes }.
Record views := mkViews { head : header; box : details; vals : values; fStatusBar : bytes; fEventLog : list bytes }.
Record listing := mkListing { rows : list bytes; selection : option nat; fProfiles : list profile; fSelectedName : bytes }.
Record login := mkLogin { fLastConnectProfile : bytes; fLastUsedStoredCredentials : bool; fLastAuthURL : bytes }.
Record session := mkSession {
  fState : Z; fConnectedSince : Z; fUptimeTimer : bool; fCountry : bytes;
  fConnectedProfile : profile; fHasConnectedProfile : bool }.
Record peering := mkPeering { fPeersWindow : bool; fTopologyWindow : bool; fLastPeers : message }.

Record window := mkWindow {
  vw : views; pl : listing; lg : login; se : session; pe : peering; keys : keystore; out : list effect }.

Definition with_views (v : views) (w : window) : window := mkWindow v (pl w) (lg w) (se w) (pe w) (keys w) (out w).
Definition with_listing (l : listing) (w : window) : window := mkWindow (vw w) l (lg w) (se w) (pe w) (keys w) (out w).
Definition with_login (l : login) (w : window) : window := mkWindow (vw w) (pl w) l (se w) (pe w) (keys w) (out w).
Definition with_session (s : session) (w : window) : window := mkWindow (vw w) (pl w) (lg w) s (pe w) (keys w) (out w).
Definition with_peering (p : peering) (w : window) : window := mkWindow (vw w) (pl w) (lg w) (se w) p (keys w) (out w).
Definition with_keys (k : keystore) (w : window) : window := mkWindow (vw w) (pl w) (lg w) (se w) (pe w) k (out w).
Definition emit (e : effect) (w : window) : window := mkWindow (vw w) (pl w) (lg w) (se w) (pe w) (keys w) (out w ++ [e]).

Definition with_head (h : header) (w : window) : window :=
  with_views (mkViews h (box (vw w)) (vals (vw w)) (fStatusBar (vw w)) (fEventLog (vw w))) w.
Definition with_box (b : details) (w : window) : window :=
  with_views (mkViews (head (vw w)) b (vals (vw w)) (fStatusBar (vw w)) (fEventLog (vw w))) w.
Definition with_vals (v : values) (w : window) : window :=
  with_views (mkViews (head (vw w)) (box (vw w)) v (fStatusBar (vw w)) (fEventLog (vw w))) w.
Definition with_selectedName (n : bytes) (w : window) : window :=
  with_listing (mkListing (rows (pl w)) (selection (pl w)) (fProfiles (pl w)) n) w.
Definition with_stored (b : bool) (w : window) : window :=
  with_login (mkLogin (fLastConnectProfile (lg w)) b (fLastAuthURL (lg w))) w.
Definition with_actionEnabled (b : bool) (w : window) : window :=
  with_head (mkHeader (h_state (head (vw w))) (h_subtitle (head (vw w))) (actionLabel (head (vw w))) b) w.

(** ** The keystore *)

(** [Some (user, password)] when a key is found; an empty password counts as none. *)
Definition get_key (y : world) (id : bytes) (w : window) : option (bytes * bytes) :=
  if w_get y id then keys w !! id else None.

Definition load_stored_credentials (y : world) (profileName : bytes) (w : window) : option (bytes * bytes) :=
  if zlen profileName =? 0 then None
  else
    match get_key y profileName w with
    | Some (user, pass) => if zlen pass >? 0 then Some (user, pass) else None
    | None => None
    end.

Definition remove_key (y : world) (id : bytes) (w : window) : window :=
  match get_key y id w with
  | Some _ => if w_remove y id then with_keys (delete id (keys w)) w else w
  | None => w
  end.

(** AddKey refuses to overwrite. *)
Definition add_key (y : world) (id user pass : bytes) (w : window) : window :=
  match keys w !! id with
  | Some _ => w
  | None => if w_add y id then with_keys (<[id := (user, pass)]> (keys w)) w else w
  end.

Definition save_credentials (y : world) (profileName user pass : bytes) (w : window) : window :=
  if zlen profileName =? 0 then w else add_key y profileName user pass (remove_key y profileName w).

Definition forget_credentials (y : world) (profileName : bytes) (w : window) : window :=
  if zlen profileName =? 0 then w else remove_key y profileName w.

Definition _authKeyId (profileName : bytes) : bytes := bs "tsauth:" ++ profileName.

Definition load_authkey (y : world) (profileName : bytes) (w : window) : option bytes :=
  if zlen profileName =? 0 then None
  else
    match get_key y (_authKeyId profileName) w with
    | Some (_, pass) => if zlen pass >? 0 then Some pass else None
    | None => None
    end.

Definition save_authkey (y : world) (profileName authKey : bytes) (w : window) : window :=
  if (zlen profileName =? 0) || (zlen authKey =? 0) then w
  else let id := _authKeyId profileName in add_key y id [] authKey (remove_key y id w).

Definition forget_authkey (y : world) (profileName : bytes) (w : window) : window :=
  if zlen profileName =? 0 then w else remove_key y (_authKeyId profileName) w.

(** ** What the window shows *)

Definition _SelectedProfile (w : window) : option profile :=
  if zlen (fSelectedName (pl w)) =? 0 then None
  else List.find (fun p => beq (fName p) (fSelectedName (pl w))) (fProfiles (pl w)).

Definition open_url (url : bytes) (w : window) : window := if zlen url =? 0 then w else emit (OpenURL url) w.

Definition _AppendEvent (y : world) (text : bytes) (w : window) : window :=
  with_views (mkViews (head (vw w)) (box (vw w)) (vals (vw w)) (fStatusBar (vw w))
    (fEventLog (vw w) ++ [w_local y (w_time y) ++ bs "  " ++ text])) w.

(** [%02ld] *)
Definition fmt_02 (n : Z) : bytes := if n <? 10 then 48 :: fmt_d n else fmt_d n.

Definition separator : bytes := [32; 194; 183; 32].   (* a middle dot in UTF-8 between spaces *)

Definition uptime (now since : Z) : bytes :=
  let elapsed := if now - since <? 0 then 0 else now - since in
  let hours := elapsed / 3600 in
  let minutes := (elapsed mod 3600) / 60 in
  let seconds := elapsed mod 60 in
  if hours >? 0 then fmt_d hours ++ bs ":" ++ fmt_02 minutes ++ bs ":" ++ fmt_02 seconds
  else fmt_02 minutes ++ bs ":" ++ fmt_02 seconds.

Definition status_text (now : Z) (w : window) : bytes :=
  let n := zlen (fProfiles (pl w)) in
  fmt_d n ++ (if n =? 1 then bs " profile" else bs " profiles") ++ separator ++ vpn_state_name (fState (se w))
  ++ (if fState (se w) =? VPN_STATE_CONNECTED then
        (if fConnectedSince (se w) >? 0 then separator ++ uptime now (fConnectedSince (se w)) else [])
        ++ (if zlen (fCountry (se w)) >? 0 then separator ++ fCountry (se w) else [])
      else []).

Definition _RefreshStatusBar (y : world) (w : window) : window :=
  with_views (mkViews (head (vw w)) (box (vw w)) (vals (vw w)) (status_text (w_time y) w) (fEventLog (vw w))) w.

Definition with_since (since : Z) (timer : bool) (w : window) : window :=
  with_session (mkSession (fState (se w)) since timer (fCountry (se w)) (fConnectedProfile (se w)) (fHasConnectedProfile (se w))) w.

Definition _StartUptimeTimer (y : world) (w : window) : window :=
  if fUptimeTimer (se w) then w else with_since (fConnectedSince (se w)) (w_timer y) w.

Definition _StopUptimeTimer (w : window) : window := with_since 0 false w.

(** Dividing by 1024 is exact; the value is below 2^64, so four units are enough. *)
Definition _FormatBytes (n : Z) : bytes :=
  let value := as_double n in
  if value <? 1024 then fmt_d n ++ bs " B"
  else if value <? 1024 ^ 2 then fmt_1f value 1024 ++ bs " KB"
  else if value <? 1024 ^ 3 then fmt_1f value (1024 ^ 2) ++ bs " MB"
  else if value <? 1024 ^ 4 then fmt_1f value (1024 ^ 3) ++ bs " GB"
  else fmt_1f value (1024 ^ 4) ++ bs " TB".

(** snprintf of host and port into a buffer of 128. *)
Definition host_port (p : profile) : bytes := ztake 127 (fServer p ++ bs ":" ++ fmt_u (fPort p)).

Definition idle (state : Z) : bool := (state =? VPN_STATE_DISCONNECTED) || (state =? VPN_STATE_ERROR).
Definition busy (state : Z) : bool :=
  (state =? VPN_STATE_CONNECTING) || (state =? VPN_STATE_AUTHENTICATING)
  || (state =? VPN_STATE_CONNECTED) || (state =? VPN_STATE_RECONNECTING).

Definition backend_label (backendType : Z) : bytes :=
  if backendType =? VPN_BACKEND_WIREGUARD then bs "WireGuard"
  else if backendType =? VPN_BACKEND_TAILSCALE then bs "Tailscale"
  else if backendType =? VPN_BACKEND_IPSEC then bs "IPSec" else bs "OpenVPN".

Definition protocol_label (p : profile) : bytes :=
  if zlen (fProtocol p) >? 0 then fProtocol p
  else if fBackendType p =? VPN_BACKEND_TAILSCALE then bs "WireGuard" else dash.

Definition kNotice : bytes := [226; 132; 185] ++ bs " Showing the connected VPN, not the selected profile.".

(** The profile the Server box describes. *)
Definition shown_profile (w : window) : option profile :=
  if fHasConnectedProfile (se w) then Some (fConnectedProfile (se w)) else _SelectedProfile w.

Definition differs (w : window) : bool :=
  fHasConnectedProfile (se w)
  && match _SelectedProfile w with Some p => negb (beq (fName p) (fName (fConnectedProfile (se w)))) | None => false end.

Definition _RefreshDetails (w : window) : window :=
  let has := match _SelectedProfile w with Some _ => true | None => false end in
  let of_shown f := match shown_profile w with Some p => f p | None => dash end in
  let w := with_box (mkDetails (of_shown host_port) (of_shown (fun p => backend_label (fBackendType p)))
             (of_shown protocol_label) (if differs w then kNotice else []) has) w in
  with_actionEnabled (has || busy (fState (se w))) w.

(** ** Following the daemon *)

(** The address in a detail: from https:// up to a blank. *)
Definition url_of (detail : bytes) : option bytes :=
  i ← find_sub (bs "https://") detail;
  Some (Json.take_while (fun c => negb ((c =? 32) || (c =? 9) || (c =? 10))) (zdrop i detail)).

Definition _MaybeOpenAuthURL (y : world) (detail : option bytes) (w : window) : window :=
  match d ← detail; url_of d with
  | None => w
  | Some url =>
      if (zlen url =? 0) || beq url (fLastAuthURL (lg w)) then w
      else
        let w := with_login (mkLogin (fLastConnectProfile (lg w)) (fLastUsedStoredCredentials (lg w)) url) w in
        open_url url (_AppendEvent y (bs "Opening login page: " ++ url) w)
  end.

(** IFindFirst: the case of letters does not matter. *)
Definition says (what detail : bytes) : bool :=
  match find_sub (to_lower what) (to_lower detail) with Some _ => true | None => false end.

Definition auth_failed (detail : option bytes) : bool :=
  match detail with Some d => says (bs "authentication failed") d | None => false end.

Definition subtitle (state : Z) (detail : option bytes) (selected : option profile) : bytes :=
  vpn_state_name state
  ++ match non_empty detail with
     | Some d => separator ++ d
     | None =>
         match selected with
         | Some p => if negb (state =? VPN_STATE_DISCONNECTED) then separator ++ host_port p else []
         | None => []
         end
     end.

(** The part of _UpdateForState that a terminal error adds. *)
Definition report_error (y : world) (detail : option bytes) (w : window) : window :=
  let clearedStored := auth_failed detail && fLastUsedStoredCredentials (lg w) && (zlen (fLastConnectProfile (lg w)) >? 0) in
  let w := if clearedStored then forget_credentials y (fLastConnectProfile (lg w)) w else w in
  let w := with_stored false w in
  let body := bs "The VPN connection failed." ++ match non_empty detail with Some d => [10; 10] ++ d | None => [] end
    ++ (if clearedStored then [10; 10] ++ bs "The saved password has been cleared; you'll be asked for it on the next Connect." else []) in
  emit (Alert body) w.

Definition with_state (state : Z) (w : window) : window :=
  with_session (mkSession state (fConnectedSince (se w)) (fUptimeTimer (se w)) (fCountry (se w)) (fConnectedProfile (se w))
    (fHasConnectedProfile (se w))) w.

Definition _UpdateForState (y : world) (state : Z) (detail : option bytes) (w : window) : window :=
  let previous := fState (se w) in
  let w := with_state state w in
  let w := if state =? VPN_STATE_AUTHENTICATING then _MaybeOpenAuthURL y detail w else w in
  let selected := _SelectedProfile w in
  let canConnect := match selected with Some _ => true | None => busy state end in
  let w := with_head (mkHeader state (subtitle state detail selected)
             (if idle state then bs "Connect" else bs "Disconnect") canConnect) w in
  let w := _RefreshStatusBar y w in
  let w := if state =? VPN_STATE_CONNECTED then _StartUptimeTimer y w else _StopUptimeTimer w in
  if previous =? state then w
  else
    let line := vpn_state_name state ++ match non_empty detail with Some d => bs " " ++ dash ++ bs " " ++ d | None => [] end in
    let w := _AppendEvent y line w in
    if (state =? VPN_STATE_ERROR) && negb (previous =? VPN_STATE_ERROR) then report_error y detail w else w.

Definition _ApplyStats (y : world) (m : message) (w : window) : window :=
  let stats := VPNStats.Unarchive m VPNStats.VPNStats in
  let since := VPNStats.fConnectedSince stats in
  let v := vals (vw w) in
  let w := with_vals (mkValues (fTunnelIPValue v) (fExternalIPValue v) (if since >? 0 then w_local y since else dash)
             (_FormatBytes (VPNStats.fBytesIn stats)) (_FormatBytes (VPNStats.fBytesOut stats))) w in
  if since >? 0 then with_since since (fUptimeTimer (se w)) w else w.

Definition to_windows (m : message) (w : window) : window :=
  let w := if fPeersWindow (pe w) then emit (ToPeers m) w else w in
  if fTopologyWindow (pe w) then emit (ToTopology m) w else w.

Definition _UpdatePeers (status : message) (w : window) : window :=
  let m := BMessage kMsgPeersData in
  let m := match FindString kFieldLocalIP status with Some ip => add kFieldLocalIP (VString ip) m | None => m end in
  let m := fold_left (fun m peer => add kFieldPeer (nested peer) m) (FindMessages kFieldPeer status) m in
  to_windows m (with_peering (mkPeering (fPeersWindow (pe w)) (fTopologyWindow (pe w)) m) w).

(** The text of an address that comes with a status, or the one shown so far. *)
Definition ip_text (ip : option bytes) (state : Z) (old : bytes) : bytes :=
  match ip with
  | Some [] => dash
  | Some ip => ip
  | None => if state =? VPN_STATE_DISCONNECTED then dash else old
  end.

(** The first half of the status handler: addresses, country, connected profile. *)
Definition take_status (m : message) (w : window) : window :=
  let state := default VPN_STATE_DISCONNECTED (FindInt32 kFieldState m) in
  let v := vals (vw w) in
  let w := with_vals (mkValues (ip_text (FindString kFieldLocalIP m) state (fTunnelIPValue v))
             (ip_text (FindString kFieldExternalIP m) state (fExternalIPValue v)) (fSinceValue v) (fDownValue v) (fUpValue v)) w in
  let country := match non_empty (FindString kFieldCountry m) with
                 | Some c => c
                 | None => if idle state then [] else fCountry (se w)
                 end in
  let s := se w in
  with_session (match FindMessage kFieldConnectedProfile m with
                | Some a => mkSession (fState s) (fConnectedSince s) (fUptimeTimer s) country (Unarchive a VPNProfile) true
                | None => mkSession (fState s) (fConnectedSince s) (fUptimeTimer s) country (fConnectedProfile s) false
                end) w.

Definition _HandleStatus (y : world) (m : message) (w : window) : window :=
  let state := default VPN_STATE_DISCONNECTED (FindInt32 kFieldState m) in
  let w := _UpdateForState y state (FindString kFieldDetail m) (take_status m w) in
  _RefreshDetails (_UpdatePeers m (_ApplyStats y m w)).

(** ** The profile list *)

Definition kHint : bytes := bs "No profiles " ++ dash ++ bs " click + to import an .ovpn file.".

Fixpoint last_named (n : bytes) (ps : list profile) (i : nat) (found : option nat) : option nat :=
  match ps with
  | [] => found
  | p :: ps => last_named n ps (S i) (if beq (fName p) n then Some i else found)
  end.

Definition _RefreshProfileList (w : window) : window :=
  let l := pl w in
  let name := if zlen (fSelectedName l) =? 0
              then default [] (fName <$> (i ← selection l; fProfiles l !! i)) else fSelectedName l in
  match fProfiles l with
  | [] => with_listing (mkListing [kHint] None [] []) w
  | p :: _ =>
      match last_named name (fProfiles l) 0 None with
      | Some i => with_listing (mkListing (map fName (fProfiles l)) (Some i) (fProfiles l) name) w
      | None => with_listing (mkListing (map fName (fProfiles l)) (Some O) (fProfiles l) (fName p)) w
      end
  end.

Definition _ApplyProfileList (y : world) (m : message) (w : window) : window :=
  let ps := map (fun a => Unarchive a VPNProfile) (FindMessages kFieldProfile m) in
  let w := with_listing (mkListing (rows (pl w)) (selection (pl w)) ps (fSelectedName (pl w))) w in
  let w := _RefreshDetails (_RefreshProfileList w) in
  _UpdateForState y (fState (se w)) None w.

Definition _ProfileSelected (w : window) : window :=
  _RefreshDetails (with_selectedName (default [] (fName <$> (i ← selection (pl w); fProfiles (pl w) !! i))) w).

(** ** Connecting *)

Definition client (y : world) (c : Z) : message := add kFieldClient (VMessenger (w_self y)) (BMessage c).

Definition _SendConnectWith (y : world) (username password : bytes) (w : window) : window :=
  if negb (w_server y) then w
  else
    match _SelectedProfile w with
    | None => w
    | Some p =>
        let w := with_login (mkLogin (fName p) (fLastUsedStoredCredentials (lg w)) (fLastAuthURL (lg w))) w in
        let connect := add kFieldProfile (nested (archived p)) (client y kMsgConnect) in
        let connect := if zlen username =? 0 then connect else add kFieldUsername (VString username) connect in
        let connect := if zlen password =? 0 then connect else add kFieldPassword (VString password) connect in
        let connect := if fBackendType p =? VPN_BACKEND_TAILSCALE then
                         match load_authkey y (fName p) w with
                         | Some k => add kFieldAuthKey (VString k) connect
                         | None => connect
                         end
                       else connect in
        emit (Sent connect) w
    end.

Definition _BeginConnectFlow (y : world) (w : window) : window :=
  if negb (w_server y) then w
  else
    match _SelectedProfile w with
    | None => emit (Alert (bs "Pick or import a profile first.")) w
    | Some p =>
        if fBackendType p =? VPN_BACKEND_TAILSCALE then _SendConnectWith y [] [] (with_stored false w)
        else
          match load_stored_credentials y (fName p) w with
          | Some (user, pass) => _SendConnectWith y user pass (with_stored true w)
          | None => emit (Prompt (fName p) (fUsername p)) (with_stored false w)
          end
    end.

Definition _SendDisconnect (y : world) (w : window) : window :=
  if negb (w_server y) then w else emit (Sent (client y kMsgDisconnect)) w.

Definition _HandleCredentials (y : world) (m : message) (w : window) : window :=
  let user := default [] (FindString kFieldUsername m) in
  let pass := default [] (FindString kFieldPassword m) in
  let remember := default false (FindBool kFieldRemember m) in
  let w := if remember && negb (zlen pass =? 0) then
             match _SelectedProfile w with Some p => save_credentials y (fName p) user pass w | None => w end
           else w in
  _SendConnectWith y user pass w.

(** ** Managing profiles *)

(** The leaf of a path. *)
Definition Leaf (path : bytes) : bytes := match find_last 47 path with Some i => zdrop (i + 1) path | None => path end.

(** IFindLast: the last place where the pattern starts, in either case, or -1. *)
Fixpoint ifind_last (p l : bytes) (i found : Z) : Z :=
  let found := if is_prefix (to_lower p) (to_lower l) then i else found in
  match l with [] => found | _ :: l => ifind_last p l (i + 1) found end.

Definition strip_conf (name : bytes) : bytes :=
  if ifind_last (bs ".conf") name 0 (-1) =? zlen name - 5 then ztake (zlen name - 5) name else name.

Definition wireguard_profile (path : bytes) (wg : WireGuardConfigParser.config) : profile :=
  mkProfile VPN_BACKEND_WIREGUARD (strip_conf (Leaf path))
    (WireGuardConfigParser.endpointHost (WireGuardConfigParser.peer wg)) (WireGuardConfigParser.endpointPort (WireGuardConfigParser.peer wg))
    [] (bs "udp") path [].

(** The profile of a file, if it can be read. *)
Definition sniff (y : world) (path : bytes) : option profile :=
  let '(read, wg) := WireGuardConfigParser.ParseFile path (w_read y path) WireGuardConfigParser.WireGuardConfig in
  if read && WireGuardConfigParser.IsComplete wg then Some (wireguard_profile path wg)
  else
    let '(read, p) := OpenVPNConfigParser.ParseFile path (w_read y path) VPNProfile in
    if read then Some p else None.

Definition replace_question (name rest : bytes) : bytes := bs "A profile named '" ++ name ++ bs "' already exists." ++ [10; 10] ++ rest.

(** Whether the profile may be written: its name is new or the user agrees. *)
Definition may_replace (y : world) (question name : bytes) (w : window) : bool :=
  negb (existsb (fun p => beq (fName p) name) (fProfiles (pl w))) || w_answer y question.

Definition save_profile (y : world) (p : profile) (w : window) : window :=
  emit (Sent (add kFieldProfile (nested (archived p)) (client y kMsgSaveProfile))) (with_selectedName (fName p) w).

(** [None]: the ref has no path. *)
Definition _ImportFile (y : world) (ref : option bytes) (w : window) : window :=
  if negb (w_server y) then w
  else
    match ref with
    | None => w
    | Some path =>
        match sniff y path with
        | None => emit (Alert (bs "Could not read the selected config file.")) w
        | Some p =>
            let w := if (fBackendType p =? VPN_BACKEND_OPENVPN) && (zlen (fServer p) =? 0)
                     then emit (Alert (bs "The .ovpn file has no 'remote' directive; the profile was saved but cannot be used until you fix the file.")) w
                     else w in
            let question := replace_question (fName p) (bs "Replace it with the file you just imported?") in
            if may_replace y question (fName p) w then save_profile y p w else w
        end
    end.

Definition _CreateTailscaleProfile (y : world) (name controlURL authKey : bytes) (w : window) : window :=
  if negb (w_server y) || (zlen name =? 0) then w
  else if negb (may_replace y (replace_question name (bs "Replace it?")) name w) then w
  else
    let p := mkProfile VPN_BACKEND_TAILSCALE name (if zlen controlURL =? 0 then kDefaultControlURL else controlURL) 443 [] [] [] [] in
    let hasKey := negb (zlen authKey =? 0) in
    let w := if hasKey then save_authkey y name authKey w else forget_authkey y name w in
    let w := save_profile y p w in
    _AppendEvent y (bs "Added Tailscale network '" ++ name
      ++ (if hasKey then bs "' " ++ dash ++ bs " select it and click Connect (pre-auth key set)."
          else bs "' " ++ dash ++ bs " select it and click Connect to sign in.")) w.

Definition _DeleteSelectedProfile (y : world) (w : window) : window :=
  if negb (w_server y) then w
  else
    match _SelectedProfile w with
    | None => w
    | Some p =>
        if negb (w_answer y (bs "Delete profile '" ++ fName p ++ bs "'?")) then w
        else
          let w := emit (Sent (add kFieldProfileName (VString (fName p)) (client y kMsgDeleteProfile))) w in
          with_selectedName [] (forget_authkey y (fName p) (forget_credentials y (fName p) w))
    end.

Definition _ForgetSelectedPassword (y : world) (w : window) : window :=
  match _SelectedProfile w with
  | None => emit (Alert (bs "Pick a profile first.")) w
  | Some p =>
      let question := bs "Forget the saved password for '" ++ fName p ++ bs "'?" ++ [10; 10]
        ++ bs "You'll be asked for it the next time you connect." in
      if negb (w_answer y question) then w
      else emit (Alert (bs "Done. The saved password (if any) has been cleared.")) (forget_credentials y (fName p) w)
  end.

Definition _InstallDeskbarIcon (y : world) (w : window) : window :=
  if w_deskbar y then emit (Alert (bs "The Sotoportego icon is already in your Deskbar.")) w
  else
    let w := emit InstallsIcon w in
    match w_install y with
    | (B_OK, _) => w
    | (_, text) => emit (Alert (bs "Could not install the Deskbar icon: " ++ text ++ [10; 10] ++ bs "Is Deskbar running?")) w
    end.

Definition _RemoveDeskbarIcon (y : world) (w : window) : window := if w_deskbar y then emit RemovesIcon w else w.

(** ** The other windows *)

Definition show_peers (w : window) : window :=
  let w := if fPeersWindow (pe w) then w else emit (Opens kMsgShowPeers) w in
  let m := mkMessage kMsgPeersData (fields (fLastPeers (pe w))) in
  emit (ToPeers m) (with_peering (mkPeering true (fTopologyWindow (pe w)) m) w).

Definition show_topology (w : window) : window :=
  let w := if fTopologyWindow (pe w) then w else emit (Opens kMsgShowTopology) w in
  let m := mkMessage kMsgPeersData (fields (fLastPeers (pe w))) in
  emit (ToTopology m) (with_peering (mkPeering (fPeersWindow (pe w)) true m) w).

Definition forward_exit_node (y : world) (m : message) (w : window) : window :=
  if negb (w_server y) then w
  else
    let set := add kFieldExitNodeKey (VString (default [] (FindString kFieldExitNodeKey m))) (BMessage kMsgSetExitNode) in
    emit (Sent (add kFieldClient (VMessenger (w_self y)) set)) w.

(** ** The looper *)

Definition MessageReceived (y : world) (m : message) (w : window) : window :=
  let c := what m in
  if c =? kMsgPrimaryAction then if idle (fState (se w)) then _BeginConnectFlow y w else _SendDisconnect y w
  else if (c =? kMsgConnectAction) || (c =? kMsgAutomationConnect) then _BeginConnectFlow y w
  else if (c =? kMsgDisconnectAction) || (c =? kMsgAutomationDisconnect) then _SendDisconnect y w
  else if c =? kMsgCredentialsOK then _HandleCredentials y m w
  else if c =? kMsgVaporetto then emit (Opens kMsgVaporetto) w
  else if c =? kMsgAddProfile then emit (Opens kMsgAddProfile) w
  else if c =? kMsgRemoveProfile then _DeleteSelectedProfile y w
  else if c =? kMsgForgetPassword then _ForgetSelectedPassword y w
  else if c =? kMsgInstallDeskbar then _InstallDeskbarIcon y w
  else if c =? kMsgRemoveDeskbar then _RemoveDeskbarIcon y w
  else if c =? kMsgBrowseOnMap then emit (Opens kMsgBrowseOnMap) w
  else if c =? kMsgAddTailscale then emit (Opens kMsgAddTailscale) w
  else if c =? kMsgTailscaleOK then
    match non_empty (FindString kFieldTsName m) with
    | None => w
    | Some name => _CreateTailscaleProfile y name (default kDefaultControlURL (FindString kFieldTsUrl m))
                     (default [] (FindString kFieldTsAuthKey m)) w
    end
  else if c =? kMsgTailscaleSignup then open_url kTailscaleSignupURL w
  else if c =? kMsgSupportForum then open_url kForumURL w
  else if c =? kMsgTailscaleAdmin then open_url kTailscaleAdminURL w
  else if c =? kMsgShowPeers then show_peers w
  else if c =? kMsgShowTopology then show_topology w
  else if c =? kMsgExitNodeRequest then forward_exit_node y m w
  else if c =? kMsgProfileSelected then _ProfileSelected w
  else if c =? kMsgImportRefs then fold_left (fun w ref => _ImportFile y ref w) (w_refs y) w
  else if c =? kMsgListProfiles then _ApplyProfileList y m w
  else if c =? B_ABOUT_REQUESTED then emit (Opens B_ABOUT_REQUESTED) w
  else if c =? kMsgStatusUpdate then _HandleStatus y m w
  else if c =? kMsgStatsUpdate then _ApplyStats y m w
  else if c =? kMsgUptimeTick then _RefreshStatusBar y w
  else w.

(** The constructor: the views as the layout leaves them, then the daemon,
    if it can be reached. *)
Definition _EnsureSubscribed (y : world) (w : window) : window :=
  if negb (w_server y) then
    emit (Alert (bs "Could not reach the Sotoportego daemon." ++ [10; 10] ++ bs "Make sure sotoportego_server is on PATH and its application signature is registered, then restart Sotoportego."))
      (_AppendEvent y (bs "Error " ++ dash ++ bs " Sotoportego daemon not reachable") w)
  else emit (Sent (client y kMsgGetStatus)) (emit (Sent (client y kMsgSubscribe)) w).

Definition laid_out (ks : keystore) : window :=
  mkWindow
    (mkViews (mkHeader VPN_STATE_DISCONNECTED (bs "Disconnected") (bs "Connect") false)
       (mkDetails dash (bs "OpenVPN") dash [] false)
       (mkValues dash dash dash (bs "0 B") (bs "0 B")) (bs "Disconnected") [])
    (mkListing [] None [] []) (mkLogin [] false []) (mkSession VPN_STATE_DISCONNECTED 0 false [] VPNProfile false)
    (mkPeering false false (BMessage 0)) ks [].

Definition MainWindow (y : world) (ks : keystore) : window :=
  _EnsureSubscribed y (_RefreshDetails (_UpdateForState y VPN_STATE_DISCONNECTED None (laid_out ks))).

(** What happens to the window: a message, a row of the list selected (the
    view then sends kMsgProfileSelected), another window closed. *)
Inductive event :=
| EvMessage (y : world) (m : message)
| EvSelect (i : nat)
| EvClosePeers | EvCloseTopology.

Definition step (w : window) (e : event) : window :=
  match e with
  | EvMessage y m => MessageReceived y m w
  | EvSelect i =>
      let l := pl w in
      if (i <? length (fProfiles l))%nat && (i <? length (rows l))%nat
      then with_listing (mkListing (rows l) (Some i) (fProfiles l) (fSelectedName l)) w else w
  | EvClosePeers => with_peering (mkPeering false (fTopologyWindow (pe w)) (fLastPeers (pe w))) w
  | EvCloseTopology => with_peering (mkPeering (fPeersWindow (pe w)) false (fLastPeers (pe w))) w
  end.

Definition steps (es : list event) (w : window) : window := fold_left step es w.

End MainWindow.
