(* ===== verification/MainWindowProofs.v ===== *)
(** * MainWindowProofs: what the main window guarantees (proofs about MainWindow.v)

    Most handlers leave the secrets alone: the keystore and the record of the
    last connection ([core]).  A password the server rejects is not used twice,
    and a profile the user imports comes back through the daemon selected. *)

From stdpp Require Import gmap.
From S2P Require Import Prelude CLib Json Message Profiles Configs TsBackend Windows MainWindow Daemon Server ServerProofs CatalogueProofs.
Import Message VPNProtocol VPNState VPNProfile.
Open Scope Z_scope.

Module MainWindowProofs.
Import Windows MainWindow.

(** ** The handlers that leave the secrets alone *)

Definition core (w : window) : bytes * bool * keystore := (fLastConnectProfile (lg w), fLastUsedStoredCredentials (lg w), keys w).

Create Rewrite HintDb window_core.

Ltac by_cases_core := intros; unfold core; cbv zeta; repeat case_match; reflexivity.

Lemma core_AppendEvent y t w : core (_AppendEvent y t w) = core w. Proof. reflexivity. Qed.
Lemma core_RefreshStatusBar y w : core (_RefreshStatusBar y w) = core w. Proof. reflexivity. Qed.
Lemma core_RefreshDetails w : core (_RefreshDetails w) = core w. Proof. reflexivity. Qed.
Lemma core_effect e w : core (emit e w) = core w. Proof. reflexivity. Qed.
Lemma core_open_url u w : core (open_url u w) = core w. Proof. unfold open_url. by_cases_core. Qed.
Lemma core_timer y (b : bool) w : core (if b then _StartUptimeTimer y w else _StopUptimeTimer w) = core w.
Proof. unfold _StartUptimeTimer. by_cases_core. Qed.
Lemma core_MaybeOpenAuthURL y d w : core (_MaybeOpenAuthURL y d w) = core w.
Proof. unfold _MaybeOpenAuthURL, open_url. by_cases_core. Qed.
Lemma core_ApplyStats y m w : core (_ApplyStats y m w) = core w. Proof. unfold _ApplyStats. by_cases_core. Qed.
Lemma core_UpdatePeers m w : core (_UpdatePeers m w) = core w. Proof. unfold _UpdatePeers, to_windows. by_cases_core. Qed.
Lemma core_take_status m w : core (take_status m w) = core w. Proof. unfold take_status. by_cases_core. Qed.
Lemma core_RefreshProfileList w : core (_RefreshProfileList w) = core w. Proof. unfold _RefreshProfileList. by_cases_core. Qed.
Lemma core_ProfileSelected w : core (_ProfileSelected w) = core w. Proof. reflexivity. Qed.
Lemma core_SendDisconnect y w : core (_SendDisconnect y w) = core w. Proof. unfold _SendDisconnect. by_cases_core. Qed.
Lemma core_save_profile y p w : core (save_profile y p w) = core w. Proof. reflexivity. Qed.
Lemma core_ImportFile y ref w : core (_ImportFile y ref w) = core w.
Proof. unfold _ImportFile. by_cases_core. Qed.
Lemma core_ImportFiles y refs w : core (fold_left (fun w ref => _ImportFile y ref w) refs w) = core w.
Proof. revert w. induction refs as [|r refs IH]; intros w; [done|]. cbn [fold_left]. by rewrite IH, core_ImportFile. Qed.
Lemma core_InstallDeskbarIcon y w : core (_InstallDeskbarIcon y w) = core w. Proof. unfold _InstallDeskbarIcon. by_cases_core. Qed.
Lemma core_RemoveDeskbarIcon y w : core (_RemoveDeskbarIcon y w) = core w. Proof. unfold _RemoveDeskbarIcon. by_cases_core. Qed.
Lemma core_show_peers w : core (show_peers w) = core w. Proof. unfold show_peers. by_cases_core. Qed.
Lemma core_show_topology w : core (show_topology w) = core w. Proof. unfold show_topology. by_cases_core. Qed.
Lemma core_forward_exit_node y m w : core (forward_exit_node y m w) = core w. Proof. unfold forward_exit_node. by_cases_core. Qed.

#[export] Hint Rewrite core_AppendEvent core_RefreshStatusBar core_RefreshDetails core_effect core_open_url core_timer core_MaybeOpenAuthURL
  core_ApplyStats core_UpdatePeers core_take_status core_RefreshProfileList core_ProfileSelected core_SendDisconnect core_save_profile
  core_ImportFiles core_InstallDeskbarIcon core_RemoveDeskbarIcon core_show_peers core_show_topology core_forward_exit_node : window_core.

(** A state that does not newly report an error. *)
Lemma core_UpdateForState y state d w : state <> VPN_STATE_ERROR \/ fState (se w) = state -> core (_UpdateForState y state d w) = core w.
Proof.
  intros Hs. unfold _UpdateForState. cbv zeta. set (previous := fState (se w)) in *.
  set (w1 := if state =? VPN_STATE_AUTHENTICATING then _ else _).
  assert (E1 : core w1 = core w) by (unfold w1; case_match; autorewrite with window_core; reflexivity). clearbody w1.
  set (w2 := _RefreshStatusBar y _). assert (E2 : core w2 = core w) by (rewrite <- E1; reflexivity). clearbody w2.
  destruct (Z.eqb_spec previous state) as [|Hp]; [autorewrite with window_core; exact E2|].
  destruct Hs as [Hs|Hs]; [|done]. apply Z.eqb_neq in Hs. rewrite Hs. cbn [andb]. autorewrite with window_core. exact E2.
Qed.

Lemma core_ApplyProfileList y m w : core (_ApplyProfileList y m w) = core w.
Proof.
  unfold _ApplyProfileList. cbv zeta. rewrite core_UpdateForState by by right. autorewrite with window_core. reflexivity.
Qed.

Lemma core_HandleStatus y m w : FindInt32 kFieldState m <> Some VPN_STATE_ERROR -> core (_HandleStatus y m w) = core w.
Proof.
  intros Hs. unfold _HandleStatus. cbv zeta. autorewrite with window_core.
  rewrite core_UpdateForState; [autorewrite with window_core; reflexivity|]. left.
  destruct (FindInt32 kFieldState m) as [s|]; [|done]. change (default VPN_STATE_DISCONNECTED (Some s)) with s. congruence.
Qed.

#[export] Hint Rewrite core_ApplyProfileList : window_core.

(** ** Keys that are gone stay gone *)

Definition gone (id : bytes) (w : window) : Prop := keys w !! id = None.

Lemma gone_core id w w' : core w' = core w -> gone id w -> gone id w'.
Proof. unfold core, gone. by intros [= _ _ ->]. Qed.

Lemma gone_remove_key y id x w : gone id w -> gone id (remove_key y x w).
Proof.
  unfold gone, remove_key. intros H. destruct (get_key y x w); [|done]. destruct (w_remove y x); [|done]. cbn [with_keys keys].
  rewrite lookup_delete. by case_decide.
Qed.

Lemma gone_add_key y id x u p w : id <> x -> gone id w -> gone id (add_key y x u p w).
Proof.
  unfold gone, add_key. intros Hn H. destruct (keys w !! x); [done|]. destruct (w_add y x); [|done]. cbn [with_keys keys].
  by rewrite lookup_insert_ne.
Qed.

Lemma gone_forget y id x w : gone id w -> gone id (forget_credentials y x w).
Proof. intros H. unfold forget_credentials. destruct (_ =? 0); [done|]. by apply gone_remove_key. Qed.

Lemma gone_forget_authkey y id x w : gone id w -> gone id (forget_authkey y x w).
Proof. intros H. unfold forget_authkey. destruct (_ =? 0); [done|]. by apply gone_remove_key. Qed.

Lemma gone_save_authkey y id x k w : id <> _authKeyId x -> gone id w -> gone id (save_authkey y x k w).
Proof. intros Hn H. unfold save_authkey. destruct (_ || _); [done|]. by apply gone_add_key, gone_remove_key. Qed.

(** No pre-auth key is kept under this identifier. *)
Definition plain (id : bytes) : Prop := is_prefix (bs "tsauth:") id = false.

Lemma plain_neq id x : plain id -> id <> _authKeyId x.
Proof. intros H ->. discriminate H. Qed.

Lemma gone_Create y id n u k w : plain id -> gone id w -> gone id (_CreateTailscaleProfile y n u k w).
Proof.
  intros Hp H. unfold _CreateTailscaleProfile. destruct (_ || _); [done|]. destruct (negb (may_replace _ _ _ _)); [done|]. cbv zeta.
  eapply gone_core; [by rewrite core_AppendEvent, core_save_profile|].
  destruct (negb _); [apply gone_save_authkey; [by apply plain_neq|done]|by apply gone_forget_authkey].
Qed.

Lemma gone_Delete y id w : gone id w -> gone id (_DeleteSelectedProfile y w).
Proof.
  intros H. unfold _DeleteSelectedProfile. destruct (negb _); [done|]. destruct (_SelectedProfile w); [|done]. destruct (negb _); [done|].
  by apply gone_forget_authkey, gone_forget.
Qed.

Lemma gone_Forget y id w : gone id w -> gone id (_ForgetSelectedPassword y w).
Proof.
  intros H. unfold _ForgetSelectedPassword. destruct (_SelectedProfile w); [|done]. destruct (negb _); [done|]. by apply gone_forget.
Qed.

Lemma keys_SendConnectWith y u p w : keys (_SendConnectWith y u p w) = keys w.
Proof. unfold _SendConnectWith. destruct (negb _); [done|]. by destruct (_SelectedProfile w). Qed.

Lemma keys_BeginConnectFlow y w : keys (_BeginConnectFlow y w) = keys w.
Proof.
  unfold _BeginConnectFlow. destruct (negb _); [done|]. destruct (_SelectedProfile w); [|done].
  destruct (_ =? _); [by rewrite keys_SendConnectWith|]. destruct (load_stored_credentials _ _ _) as [[]|]; [by rewrite keys_SendConnectWith|done].
Qed.

(** Whether the stored password is dropped. *)
Definition clears (d : option bytes) (w : window) : bool :=
  auth_failed d && fLastUsedStoredCredentials (lg w) && (zlen (fLastConnectProfile (lg w)) >? 0).

Lemma report_error_keys y d w :
  keys (report_error y d w) = keys (if clears d w then forget_credentials y (fLastConnectProfile (lg w)) w else w).
Proof. unfold report_error, clears. reflexivity. Qed.

Lemma gone_report_error y id d w : gone id w -> gone id (report_error y d w).
Proof. intros H. unfold gone. rewrite report_error_keys. destruct (clears d w); [by apply gone_forget|done]. Qed.

Lemma gone_UpdateForState y id state d w : gone id w -> gone id (_UpdateForState y state d w).
Proof.
  intros H. destruct (decide (state <> VPN_STATE_ERROR \/ fState (se w) = state)) as [Hs|Hs]; [eapply gone_core; [by apply core_UpdateForState|done]|].
  unfold _UpdateForState. cbv zeta. set (w1 := if state =? VPN_STATE_AUTHENTICATING then _ else _).
  assert (E1 : gone id w1) by (unfold w1; case_match; [eapply gone_core; [by rewrite core_MaybeOpenAuthURL|]|]; exact H). clearbody w1.
  set (w2 := _RefreshStatusBar y _). assert (E2 : gone id w2) by exact E1. clearbody w2.
  set (w3 := if state =? VPN_STATE_CONNECTED then _ else _).
  assert (E3 : gone id w3) by (eapply gone_core; [apply core_timer|done]). clearbody w3.
  case_match; [done|]. set (w4 := _AppendEvent y _ w3). assert (E4 : gone id w4) by exact E3. clearbody w4.
  case_match; [|exact E4]. by apply gone_report_error.
Qed.

Lemma gone_HandleStatus y id m w : gone id w -> gone id (_HandleStatus y m w).
Proof.
  intros H. unfold _HandleStatus. cbv zeta. eapply gone_core; [by rewrite core_RefreshDetails, core_UpdatePeers, core_ApplyStats|].
  apply gone_UpdateForState. eapply gone_core; [apply core_take_status|done].
Qed.

(** The dialog's answer, which may store a password. *)
Definition remembers (e : event) : bool := match e with EvMessage _ m => what m =? kMsgCredentialsOK | _ => false end.

Lemma gone_step id e w : plain id -> remembers e = false -> gone id w -> gone id (step w e).
Proof.
  intros Hp Hr H. destruct e as [y m|i| |]; cbn [step remembers] in *; [|by case_match|done|done].
  unfold MessageReceived. cbv zeta. rewrite Hr.
  repeat (case_match; [first [by (eapply gone_core; [by autorewrite with window_core|done])
    | unfold gone in *; by rewrite keys_BeginConnectFlow
    | by apply gone_Delete | by apply gone_Forget | by apply gone_Create | by apply gone_HandleStatus | done
    | by (case_match; [by apply gone_Create|done])
    | by (case_match; [unfold gone in *; by rewrite keys_BeginConnectFlow|by (eapply gone_core; [by autorewrite with window_core|done])])]|]).
  done.
Qed.

Lemma gone_steps id es w : plain id -> Forall (fun e => remembers e = false) es -> gone id w -> gone id (steps es w).
Proof.
  intros Hp Hes. revert w. induction Hes as [|e es He Hes IH]; intros w H; [done|]. cbn. by apply IH, gone_step.
Qed.

(** ** A rejected password *)

(** The record of the last connection. *)
Definition memo (w : window) : bytes * bool := (fLastConnectProfile (lg w), fLastUsedStoredCredentials (lg w)).

Lemma memo_core w w' : core w' = core w -> memo w' = memo w.
Proof. unfold core, memo. by intros [= -> -> _]. Qed.

Lemma memo_remove_key y x w : memo (remove_key y x w) = memo w.
Proof. unfold remove_key. by repeat case_match. Qed.
Lemma memo_add_key y x u p w : memo (add_key y x u p w) = memo w.
Proof. unfold add_key. by repeat case_match. Qed.
Lemma memo_forget y x w : memo (forget_credentials y x w) = memo w.
Proof. unfold forget_credentials. case_match; [done|apply memo_remove_key]. Qed.
Lemma memo_forget_authkey y x w : memo (forget_authkey y x w) = memo w.
Proof. unfold forget_authkey. case_match; [done|apply memo_remove_key]. Qed.
Lemma memo_save_authkey y x k w : memo (save_authkey y x k w) = memo w.
Proof. unfold save_authkey. case_match; [done|]. cbv zeta. by rewrite memo_add_key, memo_remove_key. Qed.

Lemma memo_Create y n u k w : memo (_CreateTailscaleProfile y n u k w) = memo w.
Proof.
  unfold _CreateTailscaleProfile. case_match; [done|]. case_match; [done|]. cbv zeta.
  etransitivity; [apply memo_core; by rewrite core_AppendEvent, core_save_profile|].
  case_match; [apply memo_save_authkey|apply memo_forget_authkey].
Qed.

Lemma memo_Delete y w : memo (_DeleteSelectedProfile y w) = memo w.
Proof.
  unfold _DeleteSelectedProfile. do 3 (case_match; try done). cbv zeta.
  etransitivity; [apply memo_forget_authkey|]. etransitivity; [apply memo_forget|reflexivity].
Qed.

Lemma memo_Forget y w : memo (_ForgetSelectedPassword y w) = memo w.
Proof. unfold _ForgetSelectedPassword. do 2 (case_match; try done). apply memo_forget. Qed.

(** Events that neither start a connection nor report an error. *)
Definition connects (m : message) : bool :=
  (what m =? kMsgPrimaryAction) || (what m =? kMsgConnectAction) || (what m =? kMsgAutomationConnect) || (what m =? kMsgCredentialsOK).
Definition reports_error (m : message) : bool :=
  (what m =? kMsgStatusUpdate) && match FindInt32 kFieldState m with Some s => s =? VPN_STATE_ERROR | None => false end.
Definition calm (e : event) : bool := match e with EvMessage _ m => negb (connects m || reports_error m) | _ => true end.

Lemma memo_step e w : calm e = true -> memo (step w e) = memo w.
Proof.
  intros Hc. destruct e as [y m|i| |]; cbn [step calm] in *; [|by case_match|done|done].
  apply negb_true_iff, orb_false_iff in Hc as [Hc He]. unfold connects in Hc. rewrite !orb_false_iff in Hc. destruct Hc as [[[H1 H2] H3] H4].
  unfold MessageReceived. cbv zeta. rewrite H1, H2, H3, H4. cbn [orb].
  repeat (case_match; [first [by (apply memo_core; autorewrite with window_core)
    | apply memo_Delete | apply memo_Forget | apply memo_Create | done | by (case_match; [apply memo_Create|done])
    | apply memo_core, core_HandleStatus; unfold reports_error in He;
      repeat match goal with H : (what m =? kMsgStatusUpdate) = true |- _ => rewrite H in He; clear H end;
      intros E; rewrite E in He; discriminate He]|]).
  done.
Qed.

Lemma memo_steps es w : Forall (fun e => calm e = true) es -> memo (steps es w) = memo w.
Proof. intros Hes. revert w. induction Hes as [|e es He Hes IH]; intros w; [done|]. cbn. rewrite IH. by apply memo_step. Qed.

Lemma forget_gone y id w : zlen id <> 0 -> w_get y id = true -> w_remove y id = true -> gone id (forget_credentials y id w).
Proof.
  intros Hz Hg Hr. unfold forget_credentials. destruct (Z.eqb_spec (zlen id) 0); [done|]. unfold remove_key, get_key. rewrite Hg, Hr.
  destruct (keys w !! id) eqn:E; [|exact E]. unfold gone. cbn [with_keys keys]. apply lookup_delete_eq.
Qed.

(** An error that rejects the password drops it. *)
Lemma error_drops y d id w :
  memo w = (id, true) -> fState (se w) <> VPN_STATE_ERROR -> auth_failed d = true -> zlen id <> 0 ->
  w_get y id = true -> w_remove y id = true -> gone id (_UpdateForState y VPN_STATE_ERROR d w).
Proof.
  intros Hm Hs Ha Hz Hg Hr. unfold _UpdateForState. cbv zeta. apply Z.eqb_neq in Hs. rewrite Hs.
  set (w1 := _AppendEvent y _ _).
  assert (E : memo w1 = (id, true)) by (rewrite <- Hm; apply memo_core; unfold w1; reflexivity). clearbody w1. injection E as E1 E2.
  change (negb false) with true. change ((VPN_STATE_ERROR =? VPN_STATE_ERROR) && true) with true. cbv iota. unfold gone. rewrite report_error_keys.
  unfold clears. rewrite Ha, E1, E2. destruct (Z.gtb_spec (zlen id) 0); [|pose proof (zlen_nonneg id); lia].
  cbn [andb]. by apply forget_gone.
Qed.

Lemma state_take_status m w : fState (se (take_status m w)) = fState (se w).
Proof. unfold take_status. cbv zeta. by case_match. Qed.

Lemma rejected y m id w :
  what m = kMsgStatusUpdate -> FindInt32 kFieldState m = Some VPN_STATE_ERROR -> auth_failed (FindString kFieldDetail m) = true ->
  memo w = (id, true) -> fState (se w) <> VPN_STATE_ERROR -> zlen id <> 0 -> w_get y id = true -> w_remove y id = true ->
  gone id (step w (EvMessage y m)).
Proof.
  intros Hw Hst Ha Hm Hs Hz Hg Hr. cbn [step].
  assert (E : MessageReceived y m w = _HandleStatus y m w) by (unfold MessageReceived; rewrite Hw; reflexivity).
  rewrite E. unfold _HandleStatus. cbv zeta. eapply gone_core; [by rewrite core_RefreshDetails, core_UpdatePeers, core_ApplyStats|].
  rewrite Hst. change (default VPN_STATE_DISCONNECTED (Some VPN_STATE_ERROR)) with VPN_STATE_ERROR.
  apply error_drops; try done. by rewrite state_take_status.
Qed.

Lemma selected_name w p :
  _SelectedProfile w = Some p -> fName p = fSelectedName (pl w) /\ zlen (fName p) <> 0.
Proof.
  unfold _SelectedProfile. destruct (Z.eqb_spec (zlen (fSelectedName (pl w))) 0) as [|Hz]; [done|].
  intros [_ E%beq_true]%List.find_some. by rewrite E.
Qed.

Lemma find_password p self user pass (a : message) :
  ProfileStore.text pass -> zlen pass <> 0 ->
  FindString kFieldPassword (add kFieldPassword (VString pass)
    ((if zlen user =? 0 then fun m => m else add kFieldUsername (VString user)) (add kFieldProfile (nested a) (client self p)))) = Some pass.
Proof.
  intros Ht Hz. destruct a as [aw af]. transitivity (Some (cstr pass)); [|by rewrite cstr_text].
  destruct (zlen user =? 0); reflexivity.
Qed.

(** Connecting with a stored password sends it and asks nothing. *)
Lemma begin_stored y w p user pass :
  w_server y = true -> _SelectedProfile w = Some p -> fBackendType p <> VPN_BACKEND_TAILSCALE ->
  keys w !! fName p = Some (user, pass) -> w_get y (fName p) = true -> ProfileStore.text pass -> pass <> [] ->
  memo (_BeginConnectFlow y w) = (fName p, true) /\
  exists connect, out (_BeginConnectFlow y w) = out w ++ [Sent connect] /\ what connect = kMsgConnect /\
    FindMessage kFieldProfile connect = Some (archived p) /\ FindString kFieldPassword connect = Some pass.
Proof.
  intros Hs Hp Hb Hk Hg Ht Hn. destruct (selected_name w p Hp) as [_ Hz]. apply Z.eqb_neq in Hb, Hz.
  assert (Hl : zlen pass <> 0) by (destruct pass; [done|rewrite zlen_cons; pose proof (zlen_nonneg pass); lia]).
  assert (L : load_stored_credentials y (fName p) w = Some (user, pass)).
  { unfold load_stored_credentials, get_key. rewrite Hz, Hg, Hk. destruct (Z.gtb_spec (zlen pass) 0); [done|]. pose proof (zlen_nonneg pass). lia. }
  unfold _BeginConnectFlow. rewrite Hs, Hp, Hb, L. cbn [negb]. unfold _SendConnectWith. rewrite Hs. cbn [negb].
  change (_SelectedProfile (with_stored true w)) with (_SelectedProfile w). rewrite Hp, Hb. cbv zeta. split; [reflexivity|].
  eexists. split; [reflexivity|]. apply Z.eqb_neq in Hl as Hl'. rewrite Hl'.
  pose proof (find_password kMsgConnect y user pass (archived p) Ht Hl) as F. generalize dependent (archived p). intros a F.
  split; [by destruct a; destruct (zlen user =? 0)|]. split; [destruct a; destruct (zlen user =? 0); reflexivity|].
  by destruct (zlen user =? 0).
Qed.

(** Without a stored password it asks, and sends nothing. *)
Lemma begin_prompts y w p :
  w_server y = true -> _SelectedProfile w = Some p -> fBackendType p <> VPN_BACKEND_TAILSCALE -> gone (fName p) w ->
  out (_BeginConnectFlow y w) = out w ++ [Prompt (fName p) (fUsername p)].
Proof.
  intros Hs Hp Hb Hk. apply Z.eqb_neq in Hb. unfold _BeginConnectFlow. rewrite Hs, Hp, Hb. cbn [negb].
  assert (L : load_stored_credentials y (fName p) w = None)
    by (unfold load_stored_credentials, get_key; rewrite Hk; repeat case_match; congruence).
  by rewrite L.
Qed.

(** C21: A stored password the server rejects is not sent again. Connecting a profile whose password is remembered sends it without asking; if the session then ends in an authentication error, whatever else happened in between short of a new connection attempt, the password leaves the keystore, and however the window is used afterwards, until the user has one remembered again, connecting that profile asks for a password and sends nothing. *)
Theorem rejected_password_is_dropped y w p user pass es ym m es' y' q :
  let id := fName p in
  w_server y = true -> _SelectedProfile w = Some p -> fBackendType p <> VPN_BACKEND_TAILSCALE -> plain id ->
  keys w !! id = Some (user, pass) -> w_get y id = true -> ProfileStore.text pass -> pass <> [] ->
  Forall (fun e => calm e = true) es ->
  what m = kMsgStatusUpdate -> FindInt32 kFieldState m = Some VPN_STATE_ERROR -> auth_failed (FindString kFieldDetail m) = true ->
  w_get ym id = true -> w_remove ym id = true ->
  Forall (fun e => remembers e = false) es' ->
  let w1 := step w (EvMessage y (BMessage kMsgConnectAction)) in
  let w2 := steps es w1 in
  let w3 := steps es' (step w2 (EvMessage ym m)) in
  fState (se w2) <> VPN_STATE_ERROR ->
  w_server y' = true -> _SelectedProfile w3 = Some q -> fName q = id -> fBackendType q <> VPN_BACKEND_TAILSCALE ->
  (exists connect, out w1 = out w ++ [Sent connect] /\ what connect = kMsgConnect /\
     FindMessage kFieldProfile connect = Some (archived p) /\ FindString kFieldPassword connect = Some pass) /\
  keys w3 !! id = None /\
  out (step w3 (EvMessage y' (BMessage kMsgConnectAction))) = out w3 ++ [Prompt id (fUsername q)].
Proof.
  intros id Hs Hp Hb Hpl Hk Hg Ht Hn Hes Hw Hst Ha Hgm Hrm Hes' w1 w2 w3 Hne Hs' Hq Hid Hbq.
  destruct (begin_stored y w p user pass Hs Hp Hb Hk Hg Ht Hn) as [Hm Hc]. split; [exact Hc|].
  assert (Hz : zlen id <> 0) by apply (selected_name w p Hp).
  assert (G : gone id w3).
  { apply gone_steps; [done|done|]. apply rejected; try done. unfold w2. rewrite memo_steps by done. exact Hm. }
  split; [exact G|]. rewrite <- Hid in G. pose proof (begin_prompts y' w3 q Hs' Hq Hbq G) as E. rewrite Hid in E. exact E.
Qed.

(** ** An imported profile *)

(** The row _RefreshProfileList selects carries the name. *)
Lemma last_named_spec n all k found :
  (forall j, found = Some j -> exists p, all !! j = Some p /\ fName p = n) ->
  match last_named n (drop k all) k found with
  | Some i => exists p, all !! i = Some p /\ fName p = n
  | None => found = None /\ Forall (fun p => fName p <> n) (drop k all)
  end.
Proof.
  remember (drop k all) as ps eqn:Eps. revert k found Eps. induction ps as [|p ps IH]; intros k found Eps Hf; cbn [last_named].
  - destruct found as [j|]; [by apply Hf|]. split; [done|apply Forall_nil_2].
  - assert (Ek : all !! k = Some p) by (rewrite <- (Nat.add_0_r k), <- lookup_drop, <- Eps; reflexivity).
    assert (Ed : ps = drop (S k) all) by (rewrite <- Nat.add_1_r, <- drop_drop, <- Eps; reflexivity).
    destruct (beq (fName p) n) eqn:En.
    + apply beq_true in En. specialize (IH (S k) (Some k) Ed). destruct (last_named n ps (S k) (Some k)) as [i|]; [apply IH|destruct IH as [IH _]; [|done]];
        (intros j [= <-]; eauto).
    + apply beq_false in En. specialize (IH (S k) found Ed Hf). destruct (last_named n ps (S k) found) as [i|]; [done|].
      destruct IH as [-> IH]. split; [done|]. by apply Forall_cons_2.
Qed.

Lemma refreshed_list w p :
  zlen (fSelectedName (pl w)) <> 0 -> _SelectedProfile w = Some p ->
  exists i, pl (_RefreshProfileList w) = mkListing (map fName (fProfiles (pl w))) (Some i) (fProfiles (pl w)) (fSelectedName (pl w))
    /\ (fName <$> fProfiles (pl w) !! i) = Some (fSelectedName (pl w)).
Proof.
  intros Hz Hp. apply Z.eqb_neq in Hz. unfold _SelectedProfile in Hp. rewrite Hz in Hp. apply List.find_some in Hp as [Hin%list_elem_of_In Hn%beq_true].
  unfold _RefreshProfileList. cbv zeta. rewrite Hz. destruct (fProfiles (pl w)) as [|p0 ps] eqn:Eps; [by apply elem_of_nil in Hin|].
  pose proof (last_named_spec (fSelectedName (pl w)) (p0 :: ps) 0 None ltac:(done)) as L. rewrite drop_0 in L.
  destruct (last_named _ _ _ _) as [i|].
  - exists i. split; [reflexivity|]. destruct L as (q & -> & E). cbn. by rewrite E.
  - destruct L as [_ L]. rewrite Forall_forall in L. by destruct (L p Hin).
Qed.

(** What an update for the present state leaves alone. *)
Lemma update_same y d w :
  let w' := _UpdateForState y (fState (se w)) None w in
  pl w' = pl w /\ box (vw w') = box (vw w) /\ (d = _SelectedProfile w -> d <> None -> actionEnabled (head (vw w')) = true).
Proof.
  cbv zeta. unfold _UpdateForState. cbv zeta. rewrite Z.eqb_refl.
  set (w1 := if fState (se w) =? VPN_STATE_AUTHENTICATING then _ else _).
  assert (E1 : w1 = with_state (fState (se w)) w) by (unfold w1; by case_match). clearbody w1. subst w1.
  change (_SelectedProfile (with_state (fState (se w)) w)) with (_SelectedProfile w).
  unfold _StartUptimeTimer. repeat case_match; (split; [reflexivity|]; split; [reflexivity|]; intros -> Hd; congruence || reflexivity).
Qed.

(** A list that holds the selected name. *)
Lemma list_selects y m w ps p :
  FindMessages kFieldProfile m = map archived ps -> Forall (fun q => Unarchive (archived q) VPNProfile = with_authKey [] q) ps ->
  zlen (fSelectedName (pl w)) <> 0 -> ProfileStore.lookup (fSelectedName (pl w)) ps = Some p ->
  let w' := _ApplyProfileList y m w in
  _SelectedProfile w' = Some (with_authKey [] p) /\
  (exists i, selection (pl w') = Some i /\ rows (pl w') !! i = Some (fName p)) /\
  actionEnabled (head (vw w')) = true /\
  (fHasConnectedProfile (se w) = false -> fServerLabel (box (vw w')) = host_port p).
Proof.
  intros Hm Hps Hz Hl. cbv zeta. unfold _ApplyProfileList. cbv zeta. rewrite Hm, map_map.
  rewrite (map_ext_in _ (with_authKey [])) by (intros q Hq%list_elem_of_In; rewrite Forall_forall in Hps; by apply Hps).
  set (w0 := with_listing _ w).
  assert (Hn : fName p = fSelectedName (pl w)) by (apply List.find_some in Hl as [_ E]; by apply beq_true in E).
  assert (S0 : _SelectedProfile w0 = Some (with_authKey [] p)).
  { unfold _SelectedProfile, w0. cbn [with_listing pl fSelectedName fProfiles]. apply Z.eqb_neq in Hz. rewrite Hz.
    unfold ProfileStore.lookup in Hl. clear -Hl. induction ps as [|q ps IH]; [done|]. cbn [map List.find] in *.
    change (fName (with_authKey [] q)) with (fName q). destruct (beq (fName q) _); [by injection Hl as ->|by apply IH]. }
  destruct (refreshed_list w0 _ Hz S0) as (i & Ep & Ei). change (fSelectedName (pl w0)) with (fSelectedName (pl w)) in *.
  set (w1 := _RefreshProfileList w0) in *.
  assert (S1 : _SelectedProfile w1 = Some (with_authKey [] p)) by (rewrite <- S0; unfold _SelectedProfile; rewrite Ep; reflexivity).
  assert (Hc : fHasConnectedProfile (se w1) = fHasConnectedProfile (se w)) by (unfold w1, _RefreshProfileList; cbv zeta; repeat case_match; reflexivity).
  clearbody w1 w0. set (w2 := _RefreshDetails w1).
  change (fState (se w2)) with (fState (se w1)).
  pose proof (update_same y (_SelectedProfile w2) w2) as (U1 & U2 & U3). change (fState (se w2)) with (fState (se w1)) in *.
  set (w3 := _UpdateForState y (fState (se w1)) None w2) in *. clearbody w3.
  assert (S2 : _SelectedProfile w2 = Some (with_authKey [] p)) by exact S1.
  split; [unfold _SelectedProfile; rewrite U1; exact S2|]. change (pl w2) with (pl w1) in U1. rewrite U1, Ep. split; [|split].
  - exists i. split; [done|]. cbn [rows]. rewrite list_lookup_fmap, Ei. by rewrite Hn.
  - apply U3; [done|by rewrite S2].
  - intros Hcp. rewrite U2. unfold w2, _RefreshDetails. cbv zeta. cbn [with_actionEnabled with_head with_box with_views vw box fServerLabel].
    unfold shown_profile. rewrite Hc, Hcp, S1. reflexivity.
Qed.

Section WithDaemon.
Context {B : Type} `{VPNBackend B}.
Context (resolve : bytes -> bytes) (strerror : status -> bytes).
Abbreviation server := (Server.server (B := B)).

Lemma staged_leaf_text name : ProfileStore.text (DaemonFiles.staged_leaf name).
Proof.
  unfold DaemonFiles.staged_leaf. apply CatalogueProofs.text_app; [|apply CatalogueProofs.text_app; [by apply CatalogueProofs.literal_text|]].
  - pose proof (CatalogueProofs.leaf_text name) as L. unfold DaemonFiles.sanitize_filename. destruct (_ =? 0) eqn:E; [by apply CatalogueProofs.literal_text|].
    unfold DaemonFiles.vpngate_leaf, DaemonFiles.sanitize_filename in L. rewrite E in L. by apply Forall_app in L as [L _].
  - apply CatalogueProofs.text_app; [|by apply CatalogueProofs.literal_text]. unfold DaemonFiles.name_hash, DaemonFiles.fmt_08x.
    apply Forall_map, Forall_forall. intros i _. unfold DaemonFiles.hex_nibble. set (h := DaemonFiles.fnv1a _ ≫ _). clearbody h.
    change 0xf with (2 ^ 4 - 1). rewrite land_ones_mod by lia. pose proof (Z.mod_pos_bound h (2 ^ 4)). case_match; lia.
Qed.

(** Staging only repoints the profile, to a path without a NUL. *)
Lemma stage_only y p (s : server) :
  (forall b, Server.s_settings y = Some b -> ProfileStore.text b) -> ProfileStore.text (fConfigPath p) ->
  exists c fs, ProfileStore.text c /\ Server._StageImportedConfig resolve y p s = (with_configPath c p, Server.with_files fs s).
Proof.
  intros Hb Hp.
  assert (K : exists c fs, ProfileStore.text c /\ (p, s) = (with_configPath c p, Server.with_files fs s))
    by (exists (fConfigPath p), (Server.files s); split; [done|]; destruct p, s; reflexivity).
  unfold Server._StageImportedConfig. destruct (_ =? 0); [exact K|].
  destruct (DaemonFiles.imported_config_dir (Server.s_settings y)) as [dir|] eqn:Ed; [|exact K].
  destruct (is_prefix _ _); [exact K|]. destruct (negb (Server.s_mkdir y dir)); [exact K|]. cbv zeta.
  destruct (Server.files s !! resolve (fConfigPath p)); [|exact K]. destruct (negb _); [exact K|]. destruct (_ || _).
  - exists (fConfigPath p), (delete (resolve (DaemonFiles.Append dir (DaemonFiles.staged_leaf (cstr (fName p))))) (Server.files s)).
    split; [done|]. by destruct p.
  - eexists _, _. split; [|reflexivity]. unfold DaemonFiles.imported_config_dir in Ed. destruct (Server.s_settings y) as [b|]; [|done].
    injection Ed as <-. unfold DaemonFiles.Append. rewrite <- !app_assoc. cbn [app].
    apply CatalogueProofs.text_app; [by apply Hb|]. apply Forall_cons. split; [done|].
    apply CatalogueProofs.text_app; [by apply CatalogueProofs.literal_text|]. cbn [app]. apply Forall_cons. split; [done|].
    apply CatalogueProofs.text_app; [by apply CatalogueProofs.literal_text|]. apply Forall_cons. split; [done|]. apply staged_leaf_text.
Qed.

(** The copy of an import: into the configs directory of the settings, unless
    the file is there already or one of the calls fails. *)
Definition copied (y : Server.sys) (p : profile) (s s' : server) (c : bytes) : Prop :=
  forall base content,
    let dir := base ++ bs "/Sotoportego/configs" in
    let dest := dir ++ bs "/" ++ DaemonFiles.staged_leaf (cstr (fName p)) in
    Server.s_settings y = Some base -> fConfigPath p <> [] -> is_prefix (dir ++ bs "/") (fConfigPath p) = false ->
    Server.s_mkdir y dir = true -> Server.s_create y dest = true -> Server.s_write y dest = true ->
    Server.s_read y (fConfigPath p) = true ->
    Server.files s !! resolve (fConfigPath p) = Some content -> resolve dest <> resolve (fConfigPath p) ->
    c = dest /\ Server.files s' !! resolve dest = Some content.

Lemma stage_copies y p (s : server) c fs :
  Server._StageImportedConfig resolve y (with_authKey [] p) s = (with_configPath c (with_authKey [] p), Server.with_files fs s) ->
  copied y p s (Server.with_files fs s) c.
Proof.
  intros E base content dir dest Hb Hp Hd Hm Hc Hw Hr Hf Hne. unfold Server._StageImportedConfig in E.
  change (fConfigPath (with_authKey [] p)) with (fConfigPath p) in E. change (fName (with_authKey [] p)) with (fName p) in E.
  assert ((zlen (fConfigPath p) =? 0) = false) as Ez by (apply Z.eqb_neq; intros ?%zlen_0_nil; done).
  assert (Edir : DaemonFiles.imported_config_dir (Server.s_settings y) = Some dir).
  { rewrite Hb. cbn [DaemonFiles.imported_config_dir mbind option_bind]. unfold DaemonFiles.Append, dir. by rewrite <- app_assoc. }
  change (DaemonFiles.Append dir (DaemonFiles.staged_leaf (cstr (fName p)))) with dest in *.
  rewrite Ez, Edir in E. change (dir ++ [47]) with (dir ++ bs "/") in E. rewrite Hd, Hm in E. cbv zeta in E. cbn [negb] in E.
  change (DaemonFiles.Append dir (DaemonFiles.staged_leaf (cstr (fName p)))) with dest in E.
  rewrite Hf, Hc, Hw, Hr, lookup_insert_ne, Hf in E by done. cbn [negb orb] in E.
  change (default [] (Some content)) with content in E. injection E as E1 E2. split; [by symmetry|].
  cbn [Server.with_files Server.files]. rewrite <- E2. by rewrite lookup_insert_eq.
Qed.

Lemma broadcast_store y m (s : server) :
  let s' := Server._Broadcast y m s in
  Server.fProfiles s' = Server.fProfiles s /\ Server.disk s' = Server.disk s /\ Server.files s' = Server.files s.
Proof.
  assert (F : forall l (s : server), let s' := fold_left (fun s c => Server.send y c m s) l s in
    Server.fProfiles s' = Server.fProfiles s /\ Server.disk s' = Server.disk s /\ Server.files s' = Server.files s).
  { induction l as [|c l IH]; intros s0; [done|]. cbn [fold_left]. specialize (IH (Server.send y c m s0)). cbv zeta in *.
    destruct IH as (-> & -> & ->). unfold Server.send. by destruct (Server.s_alive y c). }
  cbv zeta. unfold Server._Broadcast. cbv zeta. apply F.
Qed.

(** A profile that is saved is stored, on disk too, and in the list every
    client gets. *)
Lemma save_broadcasts y m p c path fs (s : server) :
  let q := with_configPath path (with_authKey [] p) in
  FindMessage kFieldProfile m = Some (archived p) -> profile_ok p -> fName p <> [] -> Server.s_io y = ProfileStore.all_ok ->
  Server._StageImportedConfig resolve y (with_authKey [] p) s = (q, Server.with_files fs s) ->
  c ∈ Server.fClients s -> Server.s_alive y c = true ->
  let s' := Server._HandleSaveProfile resolve y m s in
  let stored := ProfileStore.upsert q (Server.fProfiles s) in
  Server.Sent c (ProfileStore.list_message kMsgListProfiles stored) ∈ Server.out s'
  /\ Server.fProfiles s' = stored /\ ProfileStore.d_profiles (Server.disk s') = Some (ProfileStore.Whole (ProfileStore.image stored))
  /\ Server.files s' = fs.
Proof.
  intros q Hm Hp Hn Hio E Hc Ha. cbv zeta. unfold Server._HandleSaveProfile. rewrite Hm, Unarchive_Archive by done. rewrite E. cbv zeta.
  unfold ProfileStore.Save.
  assert (Hz : (zlen (fName q) =? 0) = false).
  { apply Z.eqb_neq. change (fName q) with (fName p). destruct (fName p); [done|]. rewrite zlen_cons. pose proof (zlen_nonneg l). lia. }
  rewrite Hz. cbn [Server.with_files Server.fProfiles Server.disk]. unfold ProfileStore._WriteToDisk. rewrite Hio, ProfileStore.ArchiveAll_image.
  cbn [ProfileStore.all_ok ProfileStore.io_path ProfileStore.io_open ProfileStore.io_flatten ProfileStore.io_rename].
  unfold Server._BroadcastProfileList.
  match goal with |- context [Server._Broadcast y ?l ?s0] => destruct (broadcast_store y l s0) as (-> & -> & ->) end.
  split; [|by split_and!].
  unfold Server._Broadcast. cbv zeta. cbn [Server.with_clients Server.out].
  unfold Server.profile_list. cbn [Server.with_profiles Server.fProfiles]. rewrite ProfileStore.ArchiveAll_list. cbn [snd].
  by apply CatalogueProofs.sends_each.
Qed.

(** The exit node picked in the peers window is the one the backend is told:
    the row of a peer that offers itself sends that peer's node key, through
    the main window and the daemon. *)
Theorem picked_exit_node_is_set y w data i peer k ys ret (s : server) b :
  FindMessages kFieldPeer data !! i = Some peer -> FindBool TsBackend.kFieldPeerExitCap peer = Some true ->
  FindString TsBackend.kFieldPeerNodeKey peer = Some k -> k <> [] -> w_server y = true -> Server.fBackend s = Some b ->
  exists request set,
    _RequestExitNode true (_Rebuild data !! i) = Some request /\
    out (step w (EvMessage y request)) = out w ++ [Sent set] /\
    Server.objs (Server.MessageReceived resolve strerror ys set ret s) b = snd (SetExitNode k (Server.objs s b)).
Proof.
  intros Hi Hc Hk Hn Hs Hb. assert (Ht : ProfileStore.text k).
  { unfold FindString in Hk. destruct (Message.values _ peer) as [|[]]; try done. injection Hk as <-. apply cstr_no_nul. }
  unfold _Rebuild. rewrite list_lookup_fmap, Hi. change (row_of <$> Some peer) with (Some (row_of peer)).
  assert (Er : r_key (row_of peer) = k) by (unfold row_of; cbn [r_key]; by rewrite Hk).
  assert (Ed : beq (r_exit (row_of peer)) dash = false).
  { unfold row_of. cbn [r_exit]. rewrite Hc. change (default false (Some true)) with true. unfold exit_label. by case_match. }
  assert (Hz : (zlen k =? 0) = false) by (apply Z.eqb_neq; destruct k; [done|]; rewrite zlen_cons; pose proof (zlen_nonneg k); lia).
  eexists _, _. unfold _RequestExitNode. rewrite Ed, Er, Hz. cbn [orb]. split; [reflexivity|].
  assert (F : forall c, FindString kFieldExitNodeKey (add kFieldExitNodeKey (VString k) (BMessage c)) = Some k)
    by (intros c; rewrite <- (cstr_text k) at 2 by done; reflexivity).
  split.
  - set (R := add kFieldExitNodeKey (VString k) (BMessage kMsgExitNodeRequest)).
    change (step w (EvMessage y R)) with (forward_exit_node y R w). unfold forward_exit_node. rewrite Hs. unfold R. rewrite F. reflexivity.
  - set (S := add kFieldClient _ _). change (Server.MessageReceived resolve strerror ys S ret s) with (Server._HandleSetExitNode S s).
    unfold Server._HandleSetExitNode. rewrite Hb. unfold S.
    assert (F2 : FindString kFieldExitNodeKey (add kFieldClient (VMessenger (w_self y)) (add kFieldExitNodeKey (VString k) (BMessage kMsgSetExitNode))) = Some k)
      by (rewrite <- (cstr_text k) at 2 by done; reflexivity).
    change (default [] (Some k)) with k. cbv zeta. rewrite F2. unfold Server.set_obj. cbn [Server.with_objs Server.objs]. by rewrite decide_True.
Qed.
End WithDaemon.

(** ** The window follows the daemon *)

(** What the window shows of the session and of the list. *)
Definition face (w : window) : Z * Z * bytes * bool * list bytes * option nat * list profile :=
  (fState (se w), h_state (head (vw w)), actionLabel (head (vw w)), fUptimeTimer (se w), rows (pl w), selection (pl w), fProfiles (pl w)).

Create Rewrite HintDb window_face.

Ltac by_cases_face := intros; unfold face; cbv zeta; repeat case_match; reflexivity.

Lemma face_remove_key y x w : face (remove_key y x w) = face w. Proof. unfold remove_key. by_cases_face. Qed.
Lemma face_add_key y x u p w : face (add_key y x u p w) = face w. Proof. unfold add_key. by_cases_face. Qed.
Lemma face_forget y x w : face (forget_credentials y x w) = face w.
Proof. unfold forget_credentials. case_match; [done|apply face_remove_key]. Qed.
Lemma face_save y x u p w : face (save_credentials y x u p w) = face w.
Proof. unfold save_credentials. case_match; [done|]. by rewrite face_add_key, face_remove_key. Qed.
Lemma face_forget_authkey y x w : face (forget_authkey y x w) = face w.
Proof. unfold forget_authkey. case_match; [done|apply face_remove_key]. Qed.
Lemma face_save_authkey y x k w : face (save_authkey y x k w) = face w.
Proof. unfold save_authkey. case_match; [done|]. cbv zeta. by rewrite face_add_key, face_remove_key. Qed.
Lemma face_effect e w : face (emit e w) = face w. Proof. reflexivity. Qed.
Lemma face_open_url u w : face (open_url u w) = face w. Proof. unfold open_url. by_cases_face. Qed.
Lemma face_MaybeOpenAuthURL y d w : face (_MaybeOpenAuthURL y d w) = face w. Proof. unfold _MaybeOpenAuthURL, open_url. by_cases_face. Qed.
Lemma face_ApplyStats y m w : face (_ApplyStats y m w) = face w. Proof. unfold _ApplyStats. by_cases_face. Qed.
Lemma face_UpdatePeers m w : face (_UpdatePeers m w) = face w. Proof. unfold _UpdatePeers, to_windows. by_cases_face. Qed.
Lemma face_take_status m w : face (take_status m w) = face w. Proof. unfold take_status. by_cases_face. Qed.
Lemma face_RefreshDetails w : face (_RefreshDetails w) = face w. Proof. reflexivity. Qed.
Lemma face_RefreshStatusBar y w : face (_RefreshStatusBar y w) = face w. Proof. reflexivity. Qed.
Lemma face_ProfileSelected w : face (_ProfileSelected w) = face w. Proof. reflexivity. Qed.
Lemma face_SendDisconnect y w : face (_SendDisconnect y w) = face w. Proof. unfold _SendDisconnect. by_cases_face. Qed.
Lemma face_SendConnectWith y u p w : face (_SendConnectWith y u p w) = face w.
Proof. unfold _SendConnectWith. destruct (negb _); [done|]. by destruct (_SelectedProfile w). Qed.
Lemma face_BeginConnectFlow y w : face (_BeginConnectFlow y w) = face w.
Proof.
  unfold _BeginConnectFlow. destruct (negb _); [done|]. destruct (_SelectedProfile w); [|done]. destruct (_ =? _); [by rewrite face_SendConnectWith|].
  destruct (load_stored_credentials _ _ _) as [[]|]; [by rewrite face_SendConnectWith|done].
Qed.
Lemma face_HandleCredentials y m w : face (_HandleCredentials y m w) = face w.
Proof.
  unfold _HandleCredentials. cbv zeta. rewrite face_SendConnectWith. destruct (_ && _); [|done]. destruct (_SelectedProfile w); [apply face_save|done].
Qed.
Lemma face_ImportFiles y refs w : face (fold_left (fun w ref => _ImportFile y ref w) refs w) = face w.
Proof.
  revert w. induction refs as [|r refs IH]; intros w; [done|]. cbn [fold_left]. rewrite IH. unfold _ImportFile. by_cases_face.
Qed.
Lemma face_Create y n u k w : face (_CreateTailscaleProfile y n u k w) = face w.
Proof.
  unfold _CreateTailscaleProfile. case_match; [done|]. case_match; [done|]. cbv zeta.
  match goal with |- face (_AppendEvent _ _ (save_profile _ _ ?v)) = _ => transitivity (face v); [reflexivity|] end.
  case_match; [apply face_save_authkey|apply face_forget_authkey].
Qed.
Lemma face_Delete y w : face (_DeleteSelectedProfile y w) = face w.
Proof.
  unfold _DeleteSelectedProfile. do 3 (case_match; try done). cbv zeta.
  etransitivity; [apply face_forget_authkey|]. etransitivity; [apply face_forget|reflexivity].
Qed.
Lemma face_Forget y w : face (_ForgetSelectedPassword y w) = face w.
Proof. unfold _ForgetSelectedPassword. do 2 (case_match; try done). apply face_forget. Qed.
Lemma face_InstallDeskbarIcon y w : face (_InstallDeskbarIcon y w) = face w. Proof. unfold _InstallDeskbarIcon. by_cases_face. Qed.
Lemma face_RemoveDeskbarIcon y w : face (_RemoveDeskbarIcon y w) = face w. Proof. unfold _RemoveDeskbarIcon. by_cases_face. Qed.
Lemma face_show_peers w : face (show_peers w) = face w. Proof. unfold show_peers. by_cases_face. Qed.
Lemma face_show_topology w : face (show_topology w) = face w. Proof. unfold show_topology. by_cases_face. Qed.
Lemma face_forward_exit_node y m w : face (forward_exit_node y m w) = face w. Proof. unfold forward_exit_node. by_cases_face. Qed.
Lemma face_report_error y d w : face (report_error y d w) = face w.
Proof.
  transitivity (face (if clears d w then forget_credentials y (fLastConnectProfile (lg w)) w else w)); [reflexivity|].
  destruct (clears d w); [apply face_forget|done].
Qed.

#[export] Hint Rewrite face_effect face_open_url face_MaybeOpenAuthURL face_ApplyStats face_UpdatePeers face_take_status face_RefreshDetails
  face_RefreshStatusBar face_ProfileSelected face_SendDisconnect face_BeginConnectFlow face_HandleCredentials face_ImportFiles face_Create face_Delete
  face_Forget face_InstallDeskbarIcon face_RemoveDeskbarIcon face_show_peers face_show_topology face_forward_exit_node face_report_error : window_face.

(** The face shows this state and this list. *)
Definition follows (s : Z) (ps : list profile) (f : Z * Z * bytes * bool * list bytes * option nat * list profile) : Prop :=
  let '(st, hs, label, timer, rs, sel, prof) := f in
  st = s /\ hs = s /\ label = (if idle s then bs "Connect" else bs "Disconnect") /\ (timer = true -> s = VPN_STATE_CONNECTED)
  /\ prof = ps /\ (ps <> [] -> rs = map fName ps) /\ (forall i, sel = Some i -> (i < length ps)%nat).

Lemma follows_UpdateForState y s d w prev ps :
  follows prev ps (face w) -> follows s ps (face (_UpdateForState y s d w)).
Proof.
  intros Hf. unfold _UpdateForState. cbv zeta. set (w1 := if s =? VPN_STATE_AUTHENTICATING then _ else _).
  assert (E1 : face w1 = face (with_state s w)) by (unfold w1; case_match; by autorewrite with window_face). clearbody w1.
  set (w2 := _RefreshStatusBar y _).
  assert (E2 : follows s ps (face (if s =? VPN_STATE_CONNECTED then _StartUptimeTimer y w2 else _StopUptimeTimer w2))).
  { destruct Hf as (_ & _ & _ & _ & H5 & H6 & H7). injection E1 as E0 _ _ _ E5 E6 E7. unfold follows, face, _StartUptimeTimer.
    assert (P : pl w2 = pl w1) by reflexivity. assert (S2 : fState (se w2) = fState (se w1)) by reflexivity.
    assert (H2 : head (vw w2) = mkHeader s (subtitle s d (_SelectedProfile w1)) (if idle s then bs "Connect" else bs "Disconnect")
      (match _SelectedProfile w1 with Some _ => true | None => busy s end)) by reflexivity.
    assert (S1 : fState (se w1) = s) by exact E0. clearbody w2.
    destruct (Z.eqb_spec s VPN_STATE_CONNECTED) as [->|Hs]; [destruct (fUptimeTimer (se w2))|];
      cbn [with_since with_session se vw pl fState fUptimeTimer _StopUptimeTimer]; rewrite ?P, ?S2, ?S1, ?H2, ?E5, ?E6, ?E7;
      (split_and!; [reflexivity|reflexivity|reflexivity|done|assumption..]). }
  clearbody w2. destruct (fState (se w) =? s); [exact E2|]. destruct (_ && _); rewrite ?face_report_error; exact E2.
Qed.

Lemma follows_listing w ps :
  fProfiles (pl w) = ps -> let l := pl (_RefreshProfileList w) in
  fProfiles l = ps /\ (ps <> [] -> rows l = map fName ps) /\ (forall i, selection l = Some i -> (i < length ps)%nat).
Proof.
  intros E. cbv zeta. unfold _RefreshProfileList. cbv zeta. rewrite E. destruct ps as [|p ps]; [done|].
  match goal with |- context [last_named ?n _ _ _] => pose proof (last_named_spec n (p :: ps) 0 None ltac:(done)) as L end. rewrite drop_0 in L.
  destruct (last_named _ _ _ _) as [i|]; cbn [with_listing pl fProfiles rows selection].
  - destruct L as (q & L & _). split_and!; [done|done|]. intros j [= <-]. by apply lookup_lt_is_Some_1; eexists.
  - split_and!; [done|done|]. intros j [= <-]. cbn. lia.
Qed.

(** The state a run of events leaves the daemon in, and its last list. *)
Definition last_state (s : Z) (e : event) : Z :=
  match e with EvMessage _ m => if what m =? kMsgStatusUpdate then default VPN_STATE_DISCONNECTED (FindInt32 kFieldState m) else s | _ => s end.
Definition last_list (ps : list profile) (e : event) : list profile :=
  match e with EvMessage _ m => if what m =? kMsgListProfiles then map (fun a => Unarchive a VPNProfile) (FindMessages kFieldProfile m) else ps | _ => ps end.

Lemma follows_list y m w s ps :
  follows s ps (face w) -> follows s (map (fun a => Unarchive a VPNProfile) (FindMessages kFieldProfile m)) (face (_ApplyProfileList y m w)).
Proof.
  intros Hf. unfold _ApplyProfileList. cbv zeta. set (qs := map _ _). set (w0 := with_listing _ w).
  destruct (follows_listing w0 qs eq_refl) as (L1 & L2 & L3).
  assert (S : fState (se w) = s) by apply Hf. assert (H0 : face (_RefreshDetails (_RefreshProfileList w0)) = face (_RefreshProfileList w0)) by reflexivity.
  assert (F : follows s qs (face (_RefreshProfileList w0))).
  { destruct Hf as (F1 & F2 & F3 & F4 & _). unfold follows, face. split_and!; [| | | |exact L1|exact L2|exact L3];
      unfold _RefreshProfileList; cbv zeta; repeat case_match; done. }
  change (fState (se (_RefreshDetails (_RefreshProfileList w0)))) with (fState (se (_RefreshProfileList w0))).
  replace (fState (se (_RefreshProfileList w0))) with s by (symmetry; apply F).
  apply (follows_UpdateForState _ _ _ _ s). rewrite H0. exact F.
Qed.

Lemma follows_step s ps e w : follows s ps (face w) -> follows (last_state s e) (last_list ps e) (face (step w e)).
Proof.
  intros Hf. destruct e as [y m|i| |]; cbn [step last_state last_list]; [|destruct (_ && _) eqn:Ei; [|done]|done|done].
  - destruct (Z.eqb_spec (what m) kMsgStatusUpdate) as [Em|Em1]; [|destruct (Z.eqb_spec (what m) kMsgListProfiles) as [Em|Em2]].
    + change (kMsgStatusUpdate =? kMsgListProfiles) with false. rewrite Em. change (kMsgStatusUpdate =? kMsgListProfiles) with false. cbv iota.
      replace (MessageReceived y m w) with (_HandleStatus y m w) by (unfold MessageReceived; rewrite Em; reflexivity).
      unfold _HandleStatus. cbv zeta. autorewrite with window_face. apply (follows_UpdateForState _ _ _ _ s). by autorewrite with window_face.
    + replace (MessageReceived y m w) with (_ApplyProfileList y m w) by (unfold MessageReceived; rewrite Em; reflexivity).
      by apply (follows_list y m w s ps).
    + apply Z.eqb_neq in Em1, Em2. unfold MessageReceived. cbv zeta. rewrite Em1, Em2.
      repeat (case_match; [first [by autorewrite with window_face | by case_match; autorewrite with window_face | done]|]). done.
  - destruct Hf as (F1 & F2 & F3 & F4 & F5 & F6 & F7). apply andb_true_iff in Ei as [Ei _]. apply Nat.ltb_lt in Ei.
    unfold follows, face. cbn [with_listing pl se vw rows selection fProfiles]. split_and!; try done. intros j [= <-]. by rewrite <- F5.
Qed.

(** C23: The window follows the daemon. After any run of messages, clicks and closed windows, in any order, the state it shows is the one of the last status message, the action button offers Connect exactly when that state is idle, the uptime clock runs only while it is Connected, the list shows exactly the profiles of the last list, in order, and the selected row is one of them; and while the state is not idle the action button asks the daemon to disconnect and does nothing else. *)
Theorem window_follows_daemon y ks es y' :
  let w := steps es (MainWindow y ks) in
  let s := fold_left last_state es VPN_STATE_DISCONNECTED in
  let ps := fold_left last_list es [] in
  fState (se w) = s /\ h_state (head (vw w)) = s
  /\ actionLabel (head (vw w)) = (if idle s then bs "Connect" else bs "Disconnect")
  /\ (fUptimeTimer (se w) = true -> s = VPN_STATE_CONNECTED)
  /\ fProfiles (pl w) = ps /\ (ps <> [] -> rows (pl w) = map fName ps)
  /\ (forall i, selection (pl w) = Some i -> (i < length ps)%nat)
  /\ (idle s = false -> w_server y' = true -> step w (EvMessage y' (BMessage kMsgPrimaryAction)) = emit (Sent (client y' kMsgDisconnect)) w).
Proof.
  cbv zeta.
  assert (G : forall w s ps, follows s ps (face w) -> follows (fold_left last_state es s) (fold_left last_list es ps) (face (steps es w))).
  { induction es as [|e es IH]; intros w s ps Hf; [exact Hf|]. cbn. apply IH. by apply follows_step. }
  specialize (G (MainWindow y ks) VPN_STATE_DISCONNECTED []).
  assert (H0 : follows VPN_STATE_DISCONNECTED [] (face (MainWindow y ks))) by (unfold MainWindow, _EnsureSubscribed; case_match; split_and!; done).
  specialize (G H0). destruct G as (G1 & G2 & G3 & G4 & G5 & G6 & G7). split_and!; try done.
  intros Hi Hs. cbn [step]. set (w := steps es (MainWindow y ks)) in *. clearbody w.
  change (MessageReceived y' (BMessage kMsgPrimaryAction) w) with (if idle (fState (se w)) then _BeginConnectFlow y' w else _SendDisconnect y' w).
  rewrite G1, Hi. unfold _SendDisconnect. by rewrite Hs.
Qed.

(** ** A concrete run *)

Definition demo_world : world :=
  mkWorld 7 true 1000 (fun _ => bs "12:00:00") true (fun _ => true) (fun _ => None) [] (fun _ => true) (fun _ => true) (fun _ => true) false (B_OK, []).
Definition demo_profile (name : string) : profile := mkProfile VPN_BACKEND_OPENVPN (bs name) (bs "vpn.example") 1194 [] (bs "udp") (bs "/x.ovpn") [].
Definition demo_list (ps : list profile) : message := ProfileStore.list_message kMsgListProfiles ps.
Definition demo_window : window :=
  step (MainWindow demo_world {[ bs "home" := (bs "me", bs "secret") ]}) (EvMessage demo_world (demo_list [demo_profile "home"; demo_profile "work"])).
Definition demo_status (state : Z) (detail : string) : message :=
  add kFieldDetail (VString (bs detail)) (add kFieldState (VInt32 state) (BMessage kMsgStatusUpdate)).
Definition says_state (state : Z) (detail : string) : event := EvMessage demo_world (demo_status state detail).

Lemma rejected_password_is_dropped_witness :
  out (step (steps [] (step (steps [says_state VPN_STATE_CONNECTING EmptyString] (step demo_window (EvMessage demo_world (BMessage kMsgConnectAction))))
                        (says_state VPN_STATE_ERROR "Authentication failed")))
         (EvMessage demo_world (BMessage kMsgConnectAction)))
  = out (step (step (step demo_window (EvMessage demo_world (BMessage kMsgConnectAction))) (says_state VPN_STATE_CONNECTING EmptyString))
           (says_state VPN_STATE_ERROR "Authentication failed")) ++ [Prompt (bs "home") []].
Proof.
  refine (proj2 (proj2 (rejected_password_is_dropped demo_world demo_window (demo_profile "home") (bs "me") (bs "secret")
    [says_state VPN_STATE_CONNECTING EmptyString] demo_world (demo_status VPN_STATE_ERROR "Authentication failed") [] demo_world (demo_profile "home")
    _ _ _ _ _ _ _ _ _ _ _ _ _ _ _ _ _ _ _ _))); try (vm_compute; reflexivity); try (vm_compute; discriminate).
  - by apply CatalogueProofs.literal_text.
  - by apply Forall_singleton.
  - by apply Forall_nil_2.
Defined.

Definition demo_conf : bytes :=
  bs "[Interface]" ++ 10 :: bs "PrivateKey = a" ++ 10 :: bs "[Peer]" ++ 10 :: bs "PublicKey = b" ++ 10 :: bs "Endpoint = vpn.example:51820".
(** A world in which the user imports one file. *)
Definition importing (path : string) : world :=
  mkWorld 7 true 1000 (fun _ => []) true (fun _ => true) (fun p => if beq p (bs path) then Some demo_conf else None) [Some (bs path)]
    (fun _ => true) (fun _ => true) (fun _ => true) false (B_OK, []).
#[local] Existing Instance ServerProofs.toy_backend.
(** A daemon the window subscribed to. *)
Definition demo_daemon : Server.server (B := Z) :=
  Server.step ServerProofs.same_path ServerProofs.no_error ServerProofs.start (Server.EvMessage ServerProofs.all_well (client demo_world kMsgSubscribe) 0).

(** It has the file the user picks. *)
Definition demo_host : Server.server (B := Z) := Server.with_files {[ bs "/boot/wg0.conf" := demo_conf ]} demo_daemon.


(** A WireGuard file whose name has four letters and no extension: what
    IFindLast reports for a pattern that is not there is the length less five,
    and the name is emptied; the daemon refuses to store the profile. *)
Example four_letters_no_name :
  fName <$> sniff (importing "/boot/home") (bs "/boot/home") = Some []
  /\ fName <$> sniff (importing "/boot/wg0") (bs "/boot/wg0") = Some (bs "wg0")
  /\ fst (fst (ProfileStore.Save (wireguard_profile (bs "/boot/home") WireGuardConfigParser.WireGuardConfig) ProfileStore.all_ok [] (ProfileStore.mkDisk None None))) = B_BAD_VALUE.
Proof. vm_compute. done. Qed.

(** The dialog asks for the password of one profile; when the list changes
    before it is answered, the password goes to, and is kept for, another. *)
Definition typed : message :=
  add kFieldRemember (VBool true) (add kFieldPassword (VString (bs "pw")) (add kFieldUsername (VString (bs "me")) (BMessage kMsgCredentialsOK))).
Example answer_goes_elsewhere :
  let w1 := step (MainWindow demo_world ∅) (EvMessage demo_world (demo_list [demo_profile "home"; demo_profile "work"])) in
  let w2 := step w1 (EvMessage demo_world (BMessage kMsgConnectAction)) in
  let w3 := step w2 (EvMessage demo_world (demo_list [demo_profile "work"])) in
  let w4 := step w3 (EvMessage demo_world typed) in
  last (out w2) = Some (Prompt (bs "home") []) /\ keys w4 !! bs "work" = Some (bs "me", bs "pw") /\ fLastConnectProfile (lg w4) = bs "work".
Proof. vm_compute. done. Qed.

(** A password remembered for a profile called tsauth:x is the pre-auth key of x. *)
Example identifiers_collide : _authKeyId (bs "x") = fName (demo_profile "tsauth:x").
Proof. reflexivity. Qed.

Example shown_bytes :
  map _FormatBytes [0; 1023; 1024; 1536; 1048575; 1048576; 5 * 1024 ^ 4; -1]
  = map bs ["0 B"; "1023 B"; "1.0 KB"; "1.5 KB"; "1024.0 KB"; "1.0 MB"; "5.0 TB"; "-1 B"]%string.
Proof. vm_compute. reflexivity. Qed.

(** The flag that a stored password was used outlives a session that
    succeeded: after one, a failure of another client's connection drops the
    password of the profile this window connected last. *)
Example another_failure_drops_it :
  keys (steps [EvMessage demo_world (BMessage kMsgConnectAction); says_state VPN_STATE_CONNECTED EmptyString; says_state VPN_STATE_DISCONNECTED EmptyString;
               says_state VPN_STATE_CONNECTING "cli"; says_state VPN_STATE_ERROR "authentication failed"] demo_window) !! bs "home" = None.
Proof. vm_compute. reflexivity. Qed.

End MainWindowProofs.
